(* ===== verification/_CoqProject ===== *)
-Q . S2P
Prelude.v
GoStrings.v
GoSort.v
Errors.v
GoPath.v
GoOS.v
StateMachine.v
GoTime.v
GoNumbers.v
IdentityPolicy.v
ReplayCache.v
SessionBinding.v
SessionAccept.v
Sha2.v
Archive.v
Oci.v
GoEncoding.v
JsonMembers.v
JWTLib.v
TokenVerify.v
BindingJWT.v
AgtpJWT.v
GatewayRoute.v
CachePolicy.v
DiversionPolicy.v
AgtpCWT.v
EaWire.v
EaAttestation.v
EaAuthenticator.v
Transport.v
AgentAuth.v
AgentService.v
AgentBodies.v
AgentRuns.v
AgentApi.v
Cvms.v
Qemu.v
Corim.v
VmStore.v
Manager.v
ManagerRuns.v
Eat.v
Evidence.v
Attester.v
Aes.v
Decrypt.v
GoFormat.v
Progress.v
Sdk.v
GoNet.v
Egress.v
Netguard.v
Ingress.v
Clients.v
Logs.v
Runner.v
Cloud.v
Cli.v
RedTeam.v
Serving.v
GoDuration.v
Programs.v
Middleware.v
