(* ===== verification/Prelude.v ===== *)
(** * Session-bound agent identity: a verification development

    The repository runs an agent in a confidential virtual machine and lets a peer
    decide, over one attested TLS session, whether it is talking to the agent it means
    to talk to.  This library models the code that makes that decision and proves what an
    acceptance means; the evidence behind it, how it is made and how it is judged; the agent,
    which runs a computation for its users; the manager that creates the machines; and the
    clients, proxies, servers and commands around them.

    ** The program and its parts

    - The TLS handshake is followed by one exchange of frames.  The client sends an
      authenticator request, the server answers with an exported authenticator
      (RFC 9261): certificate, signature and MAC over the session's own exporter
      values, with an attestation payload in an extension of the leaf certificate.
    - The attestation payload carries evidence and a binder.  The binder is computed
      from the leaf key and a value exported from the TLS session, so that the evidence
      cannot be moved to another session.
    - An identity policy compares the expected with the observed identity, field by
      field, and requires that the observed identity is bound to the session.
    - The observed identity comes from two signed tokens: an identity grant of an
      issuer and a session-binding statement of the agent.  They come as JWTs of two
      profiles, or as CWTs.  A replay cache makes each statement usable once.
    - Gateways present route assertions, responses carry a cache policy, and an
      operator can divert requests by a static policy.  Each is checked on its own.
    - The agent authenticates the users of a computation by a signature with a
      timestamp and a nonce.  A state machine, whose loop and actions are goroutines,
      takes it from the manifest over the algorithm and the data sets to the results.
    - The computation service sends the manifest in chunks over a stream; messages that
      cannot be sent are kept in a file.
    - Algorithms and data sets come as uploads, as archives or as layers of images.
    - The manager starts a QEMU process for each machine, with a command line, an
      environment file and certificates; a timer removes the machine; a state file lets a
      new manager find it; and it computes the attestation policy of the machine.
    - The attestation service collects reports from the devices of the machine and signs
      them as tokens; a verifier compares them with the reference values of a policy file.
    - An ingress proxy terminates TLS or attested TLS in front of the agent, an egress proxy
      lets the workload reach what an allow list permits, and a runner executes algorithms.
    - The SDK and the command line generate keys, sign and upload, fetch results and
      evidence, write policies and create machines.
    - Every service logs through a queue that a pump empties into the log service.

    ** Files

    - [Prelude]: results and their notation, machine integers, times and durations,
      bytes, slices, tactics and the lemmas shared by all files.
    - [GoStrings], [GoSort], [Errors], [GoPath], [GoTime], [GoFormat], [GoNumbers],
      [GoDuration], [GoEncoding], [GoNet], [Sha2], [Aes]: what the code uses of the Go
      language and library.  UTF-8 decoding, [TrimSpace], [EqualFold]; sorted strings;
      wrapped and joined errors; [filepath]; RFC 3339 timestamps; decimal numbers and
      durations, with the proof that every duration printed is read back, its fraction in
      floating point included; base64 and the JSON token reader; host and port, IP
      addresses and prefixes; SHA-2 and HMAC; AES and GCM.  All are executable, with
      published test vectors where there are any.
    - [GoOS]: calls to the operating system, as a monad over the list of effects.
    - [IdentityPolicy]: [policy.go] of [pkg/atls/identitypolicy].
    - [ReplayCache]: [replay_cache.go] and [setnx_replay_cache.go].  The class
      [ReplayCache] is the interface, [ReplayCacheLaws] what its clients rely on;
      the memory cache and the SETNX cache are its instances.
    - [SessionBinding]: [session_binding.go].
    - [SessionAccept]: the checks every session verification ends in.
    - [JsonMembers]: the duplicate-member walk over a token's JSON.
    - [JWTLib], [TokenVerify]: the interface of the JWT library and the verification of
      one token, for any profile.
    - [BindingJWT], [AgtpJWT], [AgtpCWT]: the three token profiles,
      [pkg/clients/identity_jwt.go], [pkg/agtp/jwt.go], [pkg/agtp/cwt.go].
    - [GatewayRoute], [CachePolicy], [DiversionPolicy]: the checks of [pkg/agtp].
    - [EaWire], [EaAuthenticator]: [pkg/atls/ea]; messages and extensions, then
      creation and validation of authenticators.
    - [EaAttestation]: [pkg/atls/eaattestation].
    - [Transport]: [pkg/atls/internal_transport], both ends of the exchange.
    - [AgentAuth]: [agent/auth/auth.go].
    - [Archive], [Oci]: [internal/zip.go], [internal/file.go]; [pkg/oci].
    - [StateMachine]: [agent/statemachine/state.go], its loops and channels by steps.
    - [AgentService]: the bodies of the calls and actions of [agent/service.go], which
      run under the mutex; [AgentBodies] has their properties.
    - [AgentRuns]: calls, actions, loops and senders side by side; the invariant of all
      their interleavings, and the interleavings that go wrong.
    - [AgentApi]: [agent/api/grpc], the server, the endpoints and the interceptors.
    - [Cvms]: [agent/cvms/api/grpc], the client, the chunks and the pending messages.
    - [Qemu]: [manager/qemu] and [manager/vm]; [VmStore]: [persistence.go].
    - [Corim]: [pkg/attestation/corimgen] and [igvmmeasure].
    - [Manager]: [manager/service.go], [ttl.go], [attestation_policy.go] and the gRPC
      server; [ManagerRuns] has their properties.
    - [Eat], [Evidence], [Attester]: [pkg/attestation] and the evidence verifier and the
      leaf provider of [pkg/atls]: tokens, what a verifier accepts, and how evidence is
      made, from the device over [cmd/attestation-service] to the extension of the leaf.
    - [Cloud]: the Azure tokens and GCP endorsements of [pkg/attestation/azure] and [gcp],
      and the commands that write policies from them.
    - [Decrypt]: [pkg/crypto], with P-256, HKDF and RFC 3394 written out.
    - [Progress], [Sdk]: [pkg/progressbar], [pkg/sdk]; the SDK against the agent of
      [AgentApi].
    - [Egress], [Netguard], [Ingress]: the proxies of [pkg/egress] and [pkg/ingress], the
      address checks of [internal/runtime/netguard] and the server side of [pkg/atls].
    - [Clients]: [pkg/clients] and [pkg/tls], composed with [Transport] and [BindingJWT].
    - [Logs], [Runner]: events, log handler and log client; [agent/runner/service] and the
      algorithms of [agent/algorithm].
    - [Cli], [RedTeam]: the commands of [cli] for keys, uploads, results, evidence,
      measurement lists and checksums; [cmd/hardware-attestation-redteam].
    - [Serving]: the attested listener under the accept loop, the gRPC and HTTP servers of
      [internal/runtime/server] and the server of [agent/cvms/server].
    - [Programs], [Middleware]: parts of the programs under [cmd] and of [cli/manager.go];
      the logging, metrics and tracing that [newService] of agent and manager add.

    ** How code becomes definitions

    A Go function is a function with the same name, and its body follows the
    statements and early returns of the source.  [(T, error)] is [result error T],
    [error] alone is [option error].  An object that changes is an argument and a
    result; a lock makes a method one step.  A clock or random reading is an argument,
    and a function that reads the clock twice has two.  A nil interface or pointer is
    [None].  Strings are byte strings, [[]byte] is [list byte], integers are [Z] with
    wrap-around or saturation where the code can reach it, times are nanoseconds from
    the zero time.

    Where goroutines share state, a call is the sequence of its critical sections and a
    label says which goroutine moves: [mstep] for the state machine, [sstep] for the
    agent, [mgrStep] for the manager, [step] of [Runner], the copies of a tunnel in
    [Egress], [pstep] for the log pump.  A panic is a value or a flag, after which nothing
    moves.  What the operating system answers may depend on everything done before.

    Code of other packages is a class: [JWTLib], [COSELib], [Crypto], [PKIX],
    [PayloadJSON], [AgentCrypto], the SETNX store, [OS], [ArchiveLib], [OciLib],
    [AgentEnv], [ClientEnv], [ProcEnv], [DiskEnv], [ManagerEnv], [CorimLib], [ReportAbi],
    [EatCodec], [EvidenceLib], [SevLib], [TpmLib], [TLSLib], [UrlLib], [AzureJWT], [GcpLib],
    [KeyCodec], [CertLib] and others, each where it is used.  Its laws state documented
    behaviour, such as that a parsed token is signed under the key the key function
    returned, or that a signature made with a key verifies under its public half.
    Each class has a small executable instance in a [Sample] module, and the witnesses
    of the theorems run the code on it.

    ** What the theorems show

    - Decisions.  For every verifier a predicate says what it must accept, without
      reference to the order of its checks, and a theorem says that it accepts exactly
      that and returns exactly the stated result: identity policy, assertion, session
      binding, the three token profiles, routes, cache policy, diversion, attestation
      payloads, authenticators, the client exchange and user authentication.
    - One use.  The laws of replay caches hold of both caches; over any lawful cache a
      session and a route are accepted at most once, a TLS session accepts a request
      context at most once, and an agent accepts a nonce at most once until its
      timestamp has expired.  A rejected session does not consume its nonce.
    - Binding.  A statement is signed under a key the grant names and not under the
      issuer's, it names exactly the grant that was verified, and neither token passes
      for the other.  A payload accepted in two sessions means one key and one exported
      value, or a hash collision.  Replay keys do not collide.
    - Formats.  Certificate messages and requests have one encoding and read back.  The
      duplicate-member walk accepts exactly the JSON texts without repeated names.
    - Containment.  Extraction of archives and images and the upload of data sets write
      only below their directory, whatever names they carry and whatever the system
      answers.  Host data, kernel parameters and environment values cannot add options.
    - States.  In every interleaving the agent is past the algorithm only when it has
      received it, and sends under the mutex do not panic; a machine of the state machine
      that has one loop follows its table; the table of the manager holds machines with a
      process, within its limit, and the manager panics in one place only.
    - Transfers.  Uploads are bounded and whole, downloads end and are whole, run requests
      are put together again, archives and environment files read back.
    - Agreement.  What [createAuthenticator] makes, [validateAuthenticator] accepts,
      and the client accepts the answer of the server to its own frame.
    - Evidence.  A verifier accepts exactly the evidence whose nonce and report data are
      those of the session and whose measurement is among the reference values; the
      evidence an honest machine makes is accepted; a resource decrypts exactly to what was
      encrypted to the key; Azure tokens are accepted exactly when the service's key set
      signs them; the hardware check passes exactly for evidence bound to its challenges.
    - Around the agent.  Files the commands and the SDK upload arrive as they are on disk;
      keys written are the keys signed with; a time to live arrives to the nanosecond; the
      egress proxy contacts only what its list permits and its tunnels end with everything
      delivered; clients and servers use the security their configuration asks for; a run
      touches only its own files; wrapped services answer as the services they wrap, and
      their logs hold no data.
    - Limits.  Where the code falls short of its own rule, a theorem gives the run: a
      Finished-only authenticator skips attestation, key ids with spaces defeat the
      separation of keys, NUL makes route keys collide, an overflowing time claim
      passes as old, clock readings out of order admit a replay, names that differ in
      case pass the duplicate check, and an agent request replays at the instant of
      its expiry.  Of the agent: a stop can panic, be overwritten or leave no loop, stored
      messages do not survive a restart, an upper layer of an image is overwritten.  Of
      the manager: the policy of an SNP guest has no measurement, restored machines
      cannot be removed, a malformed time to live leaves a machine, a short one panics,
      and the persisted configuration loses its devices.  Of the evidence: no signature is
      verified, and generated policies accept nothing.  Of the rest: calls for evidence are
      not signed and always refused, a stopped ingress proxy never starts again and one
      client ends it, two runs can overlap, the log pump can wait for itself, and firmware
      that does not match is saved.

    ** Bounds and fuel

    Loops over input that shrinks by a varying amount take fuel: decoding of runes and
    escapes, hashing in chunks, the extension and certificate lists, the fields of a
    string.  The fuel is the length of the input, and each turn consumes at least one
    element.  [Token] reads at most two separators before a value, so its fuel is
    three.  The duplicate-member walk takes twice the length of the input and one; its
    theorem covers termination, since it says that every acceptable text is accepted.
    Chunked transfers recurse on the length of what is left ([Equations]).  A creation of
    the manager has six sections, so [CreateVM] takes six steps; twenty digits are enough
    for 64 bits.  The inverse modulo the prime of P-256 takes 520 turns of Euclid's
    algorithm, more than twice the bits of the prime, of which every two turns remove one;
    an IPv6 address has at most eight groups, so its parser has nine turns; the search for a
    month has twelve.  A tunnel has no fuel: its theorem bounds the steps of every
    interleaving.  The queue of the log pump holds 1000 messages, as in the source.

    ** Not modelled

    The TLS handshake, sockets, and the timing of cancellation; flags and environment
    variables; the texts of errors and what is drawn on a terminal beyond the progress bar.
    TLS, X.509, signatures, JWT, COSE, CBOR, protocol buffers, TPM structures, zip, tar and
    SHA-3 are classes.  JSON decoding of an attestation payload and ASN.1 object identifiers
    are the one class operation and the one codec left open.  What the commands an algorithm
    runs do, and what gRPC does between a client and a server, are answers of a class or
    arguments.  Of the programs, the wiring of [main] beyond the parts in [Programs]; the
    command that downloads the AMD certificates; the thin clients of the manager, runner and
    CVM services, which only forward; the test program under [test/cvms]; the reconnect loop
    of the CVMS client; log levels and Prometheus objects; and the generated code.

    ** Plan

    The reconnect loop of the CVMS client, the payload JSON and the OID filters, and the
    wiring of the programs as one system of processes. *)

From stdpp Require Import base gmap sets list strings.
From Stdlib Require Import ZArith Lia Ascii.
From Stdlib Require Import Strings.Byte.

#[global] Open Scope Z_scope.

(** ** Tactics *)

(** Split every conjunction and existential of the context. *)
Ltac split_hyps :=
  repeat match goal with
  | H : _ /\ _ |- _ => destruct H
  | H : exists _, _ |- _ => destruct H
  end.

(** Case analysis on the scrutinee of the first [if] or [match] of the goal or
    of a hypothesis, keeping the equation. *)
Ltac case_goal :=
  match goal with
  | |- context [if ?b then _ else _] => destruct b eqn:?
  | |- context [match ?x with _ => _ end] => destruct x eqn:?
  end.

Ltac case_hyp H :=
  match type of H with
  | context [if ?b then _ else _] => destruct b eqn:?
  | context [match ?x with _ => _ end] => destruct x eqn:?
  end.

(** Turn boolean tests of the code into propositions. *)
Ltac bool_to_prop :=
  repeat match goal with
  | H : negb _ = true |- _ => apply negb_true_iff in H
  | H : negb _ = false |- _ => apply negb_false_iff in H
  | H : (_ && _)%bool = true |- _ => apply andb_true_iff in H; destruct H
  | H : (_ || _)%bool = false |- _ => apply orb_false_iff in H; destruct H
  | H : bool_decide _ = true |- _ => apply bool_decide_eq_true in H
  | H : bool_decide _ = false |- _ => apply bool_decide_eq_false in H
  | H : (_ =? _) = true |- _ => apply Z.eqb_eq in H
  | H : (_ =? _) = false |- _ => apply Z.eqb_neq in H
  | H : (_ <? _) = true |- _ => apply Z.ltb_lt in H
  | H : (_ <? _) = false |- _ => apply Z.ltb_ge in H
  | H : (_ <=? _) = true |- _ => apply Z.leb_le in H
  | H : (_ <=? _) = false |- _ => apply Z.leb_gt in H
  end.

(** ** Results of fallible code

    A Go function returning [(T, error)] is a function to [result E T]: the
    callers of the modelled functions never look at the value that comes with a
    non-nil error.  A function returning only [error] gives an [option E], with
    [None] for [nil]. *)

Inductive result (E A : Type) : Type :=
| Ok (a : A)
| Err (e : E).
Arguments Ok {E A} a.
Arguments Err {E A} e.

Declare Scope go_scope.
Delimit Scope go_scope with go.

(** [let* x := f in k]: run [f], return its error if it fails. *)
Notation "'let*' x := c 'in' k" :=
  (match c with Ok x => k | Err e => Err e end)
  (at level 10, x pattern, c at level 100, k at level 200,
   format "'let*'  x  :=  c  'in' '//' k") : go_scope.

(** [check c in k]: when the call [c] returns an error, return it. *)
Notation "'check' c 'in' k" :=
  (match c with Some e => Err e | None => k end)
  (at level 10, c at level 100, k at level 200,
   format "'check'  c  'in' '//' k") : go_scope.

#[global] Open Scope go_scope.

Definition is_Ok {E A} (r : result E A) : bool :=
  match r with Ok _ => true | Err _ => false end.

Lemma Ok_inj {E A} (a b : A) : Ok (E := E) a = Ok b -> a = b.
Proof. congruence. Qed.

Lemma is_Ok_fst {E A B} (p : result E A * B) :
  is_Ok (fst p) = true -> exists a b, p = (Ok a, b).
Proof. destruct p as [[a|e] b]; simpl; [eauto | done]. Qed.

(** ** Machine integers *)

(** The value of a [w]-bit unsigned integer after wrap-around. *)
Definition wrapU (w z : Z) : Z := z mod 2 ^ w.

(** The value of a [w]-bit two's complement integer after wrap-around. *)
Definition wrapS (w z : Z) : Z := (z + 2 ^ (w - 1)) mod 2 ^ w - 2 ^ (w - 1).

Definition maxInt64 : Z := 9223372036854775807.
Definition minInt64 : Z := -9223372036854775808.

Lemma wrapS_64_small (z : Z) : minInt64 <= z <= maxInt64 -> wrapS 64 z = z.
Proof.
  unfold wrapS, minInt64, maxInt64; intros H.
  change (2 ^ (64 - 1)) with 9223372036854775808.
  change (2 ^ 64) with 18446744073709551616.
  rewrite Z.mod_small; lia.
Qed.

Lemma wrapS_64_range (z : Z) : minInt64 <= wrapS 64 z <= maxInt64.
Proof.
  unfold wrapS, minInt64, maxInt64.
  change (2 ^ (64 - 1)) with 9223372036854775808.
  change (2 ^ 64) with 18446744073709551616.
  pose proof (Z.mod_pos_bound (z + 9223372036854775808) 18446744073709551616); lia.
Qed.

(** ** Time

    A [time.Time] is a number of nanoseconds counted from the zero time
    (January 1, year 1, UTC), so that [IsZero] is the test with 0 and [After]
    is the order.  Monotonic clock readings are not part of the value. *)

Abbreviation Time := Z (only parsing).
Definition timeZero : Time := 0.
Definition IsZero (t : Time) : bool := t =? 0.
Definition After (t u : Time) : bool := u <? t.
Definition Before (t u : Time) : bool := t <? u.

(** [time.Duration] is an [int64] of nanoseconds. *)
Abbreviation Duration := Z (only parsing).
Definition Nanosecond : Duration := 1.
Definition Second : Duration := 1000000000.
Definition Minute : Duration := 60 * Second.

(** [t.Add(d)]. *)
Definition timeAdd (t : Time) (d : Duration) : Time := t + d.

(** [t.Sub(u)] saturates at the ends of the [int64] range. *)
Definition timeSub (t u : Time) : Duration :=
  Z.max minInt64 (Z.min maxInt64 (t - u)).

(** [time.Unix(sec, 0)]: the seconds are shifted to the zero time in [int64]
    arithmetic, which wraps around. *)
Definition unixToInternal : Z := 62135596800.
Definition timeUnix (sec : Z) : Time := wrapS 64 (sec + unixToInternal) * Second.

(** ** Bytes *)

(** The value of a byte, and [byte(z)], which keeps the low eight bits. *)
Definition byteZ (b : byte) : Z := Z.of_N (Byte.to_N b).
Definition toByte (z : Z) : byte :=
  match Byte.of_N (Z.to_N (z mod 256)) with Some b => b | None => x00 end.

#[export] Instance byte_eq_decision : EqDecision byte := Byte.byte_eq_dec.

Lemma byteZ_range (b : byte) : 0 <= byteZ b < 256.
Proof. unfold byteZ. pose proof (Byte.to_N_bounded b). lia. Qed.

Lemma byteZ_toByte (z : Z) : byteZ (toByte z) = z mod 256.
Proof.
  unfold byteZ, toByte.
  pose proof (Z.mod_pos_bound z 256 ltac:(lia)) as Hz.
  pose proof (Byte.to_of_N_option_map (Z.to_N (z mod 256))) as H.
  destruct (Byte.of_N (Z.to_N (z mod 256))) as [b|] eqn:E; simpl in H.
  - apply Byte.to_of_N in E. rewrite E. lia.
  - destruct (N.leb_spec (Z.to_N (z mod 256)) 255); [discriminate | lia].
Qed.

Lemma byteZ_inj (a b : byte) : byteZ a = byteZ b -> a = b.
Proof.
  unfold byteZ; intros H. apply N2Z.inj in H.
  pose proof (Byte.of_to_N a) as Ha. rewrite H, Byte.of_to_N in Ha. congruence.
Qed.

Lemma toByte_byteZ (b : byte) : toByte (byteZ b) = b.
Proof.
  apply byteZ_inj. rewrite byteZ_toByte.
  pose proof (byteZ_range b). apply Z.mod_small; lia.
Qed.

Lemma toByte_mod (z : Z) : toByte (z mod 256) = toByte z.
Proof. apply byteZ_inj. rewrite !byteZ_toByte. apply Z.mod_mod; lia. Qed.

(** The length of a slice as a Go [int]. *)
Definition len {A} (l : list A) : Z := Z.of_nat (length l).

Lemma len_nonneg {A} (l : list A) : 0 <= len l.
Proof. unfold len; lia. Qed.

Lemma len_app {A} (l k : list A) : len (l ++ k) = len l + len k.
Proof. unfold len. rewrite length_app. lia. Qed.

Lemma len_cons {A} (x : A) (l : list A) : len (x :: l) = 1 + len l.
Proof. unfold len; simpl; lia. Qed.

Lemma len_nil {A} : len (@nil A) = 0.
Proof. reflexivity. Qed.

(** [s[i:]] and [s[:i]] for an index in range. *)
Definition sliceFrom {A} (i : Z) (l : list A) : list A := drop (Z.to_nat i) l.
Definition sliceTo {A} (i : Z) (l : list A) : list A := take (Z.to_nat i) l.

(** [s[:n]] of a slice with the elements [spare] of its array behind it; [None] is the panic
    for an index beyond the capacity. *)
Definition resliceTo {A} (n : Z) (l spare : list A) : option (list A) :=
  if len (l ++ spare) <? n then None else Some (sliceTo n (l ++ spare)).

Lemma sliceTo_app_exact {A} (l k : list A) : sliceTo (len l) (l ++ k) = l.
Proof. unfold sliceTo, len. rewrite Nat2Z.id. apply take_app_length. Qed.

Lemma sliceFrom_app_exact {A} (l k : list A) : sliceFrom (len l) (l ++ k) = k.
Proof. unfold sliceFrom, len. rewrite Nat2Z.id. apply drop_app_length. Qed.

Lemma sliceTo_sliceFrom {A} (i : Z) (l : list A) : sliceTo i l ++ sliceFrom i l = l.
Proof. apply take_drop. Qed.

Lemma len_sliceTo {A} (i : Z) (l : list A) :
  0 <= i <= len l -> len (sliceTo i l) = i.
Proof. unfold len, sliceTo. rewrite length_take. lia. Qed.

Lemma len_sliceFrom {A} (i : Z) (l : list A) :
  0 <= i <= len l -> len (sliceFrom i l) = len l - i.
Proof. unfold len, sliceFrom. rewrite length_drop. lia. Qed.

Create HintDb go.
Create Rewrite HintDb go.
#[export] Hint Rewrite @len_app @len_cons @len_nil @sliceTo_app_exact
  @sliceFrom_app_exact @sliceTo_sliceFrom : go.
#[export] Hint Resolve len_nonneg byteZ_range : go.

(** ** Lists *)

(** [l] in pieces of [k] elements, the last of which may be shorter; as many steps as
    there are elements are enough. *)
Fixpoint chunksOf {A} (k fuel : nat) (l : list A) : list (list A) :=
  match fuel with
  | O => []
  | S f => match l with [] => [] | _ => take k l :: chunksOf k f (drop k l) end
  end.
Definition chunks {A} (k : nat) (l : list A) : list (list A) := chunksOf k (length l) l.

Lemma chunksOf_concat {A} k fuel (l : list A) : (0 < k)%nat -> (length l <= fuel)%nat -> concat (chunksOf k fuel l) = l.
Proof.
  intros Hk. revert l. induction fuel as [|f IH]; intros l Hf; cbn.
  - by destruct l; [|cbn in Hf; lia].
  - destruct l as [|x l]; [done|]. cbn [concat]. rewrite IH; [by rewrite take_drop|].
    rewrite length_drop. cbn in *. lia.
Qed.
Lemma chunks_concat {A} k (l : list A) : (0 < k)%nat -> concat (chunks k l) = l.
Proof. intros Hk. by apply chunksOf_concat. Qed.

Lemma chunksOf_fuel {A} k f1 f2 (l : list A) :
  (0 < k)%nat -> (length l <= f1)%nat -> (length l <= f2)%nat -> chunksOf k f1 l = chunksOf k f2 l.
Proof.
  intros Hk. revert f2 l. induction f1 as [|f1 IH]; intros [|f2] l H1 H2; cbn;
    try (by destruct l; [|cbn in *; lia]).
  destruct l as [|x l]; [done|]. f_equal. apply IH; rewrite length_drop; cbn in *; lia.
Qed.

Lemma chunks_long {A} k (l : list A) : (0 < k)%nat -> (k < length l)%nat ->
  chunks k l = take k l :: chunks k (drop k l).
Proof.
  intros Hk Hl. unfold chunks. destruct l as [|x l]; [cbn in Hl; lia|].
  cbn [length chunksOf]. f_equal. apply chunksOf_fuel; [done|..]; rewrite length_drop; cbn in *; lia.
Qed.
Lemma chunks_short {A} k (l : list A) : (0 < length l <= k)%nat -> chunks k l = [l].
Proof.
  intros [H1 H2]. unfold chunks. destruct l as [|x l]; [cbn in H1; lia|]. cbn [length chunksOf].
  rewrite (firstn_all2 (x :: l)), (skipn_all2 (x :: l)) by done. by destruct (length l).
Qed.

Lemma existsb_false_iff {A} (f : A -> bool) (l : list A) :
  existsb f l = false <-> Forall (fun x => f x = false) l.
Proof.
  induction l as [|x l IH]; simpl; [split; [constructor | done]|].
  rewrite orb_false_iff, IH, Forall_cons. done.
Qed.

Lemma existsb_true_iff {A} (f : A -> bool) (l : list A) :
  existsb f l = true <-> Exists (fun x => f x = true) l.
Proof.
  rewrite existsb_exists, Exists_exists.
  split; intros (x & Hx & Hf); exists x; split; try done;
    by apply list_elem_of_In.
Qed.

Lemma concat_nil_iff {A} (ls : list (list A)) :
  concat ls = [] <-> Forall (fun l => l = []) ls.
Proof.
  induction ls as [|l ls IH]; simpl; [split; [constructor | done]|].
  rewrite Forall_cons, <- IH. split.
  - intros H. by apply app_nil in H.
  - intros [-> ->]. done.
Qed.
