(* ===== verification/GoStrings.v ===== *)
(** * Go strings

    A Go string is a sequence of bytes, which is what a [string] of 8-bit
    [ascii] characters is.  This file models the parts of the packages
    [strings], [unicode] and [unicode/utf8] that the repository's validators
    call: decoding of UTF-8 as [range] and [utf8.ValidString] do it, the
    Unicode-aware trimming of [strings.TrimSpace], case folding against ASCII
    constants, splitting into fields.  The lemmas are those the components
    share: an ASCII byte of a string is always decoded as a rune of its own. *)

From stdpp Require Import base gmap sets list strings.
From Stdlib Require Import ZArith Lia Ascii.
From Stdlib Require Import Strings.Byte.
From S2P Require Import Prelude.

(** ** Strings as byte values *)

Definition codeOf (a : ascii) : Z := Z.of_N (N_of_ascii a).
Definition ofCode (z : Z) : ascii := ascii_of_N (Z.to_N z).

Fixpoint codes (s : string) : list Z :=
  match s with
  | EmptyString => []
  | String a t => codeOf a :: codes t
  end.

Fixpoint ofCodes (l : list Z) : string :=
  match l with
  | [] => EmptyString
  | z :: t => String (ofCode z) (ofCodes t)
  end.

Lemma codeOf_range (a : ascii) : 0 <= codeOf a < 256.
Proof. unfold codeOf. pose proof (N_ascii_bounded a). lia. Qed.

Lemma ofCode_codeOf (a : ascii) : ofCode (codeOf a) = a.
Proof. unfold ofCode, codeOf. rewrite N2Z.id. apply ascii_N_embedding. Qed.

Lemma ofCodes_codes (s : string) : ofCodes (codes s) = s.
Proof. induction s as [|a s IH]; simpl; [done|]. by rewrite ofCode_codeOf, IH. Qed.

Lemma codes_inj (s t : string) : codes s = codes t -> s = t.
Proof. intros H. rewrite <- (ofCodes_codes s), <- (ofCodes_codes t). by rewrite H. Qed.

Lemma codes_app (s t : string) : codes (s +:+ t) = codes s ++ codes t.
Proof. induction s as [|a s IH]; simpl; [done|]. by rewrite <- IH. Qed.

Lemma codes_nil (s : string) : codes s = [] <-> s = "".
Proof. destruct s; simpl; split; congruence. Qed.

(** [len(s)] counts bytes. *)
Definition slen (s : string) : Z := Z.of_nat (String.length s).

Lemma slen_codes (s : string) : slen s = len (codes s).
Proof.
  unfold slen, len. f_equal. induction s as [|a s IH]; simpl; [done|]. by rewrite IH.
Qed.

(** [[]byte(s)] and [string(b)]. *)
Definition bytesOf (s : string) : list byte := String.list_byte_of_string s.
Definition stringOf (b : list byte) : string := String.string_of_list_byte b.

Lemma stringOf_bytesOf (s : string) : stringOf (bytesOf s) = s.
Proof. apply String.string_of_list_byte_of_string. Qed.

Lemma bytesOf_stringOf (b : list byte) : bytesOf (stringOf b) = b.
Proof. apply String.list_byte_of_string_of_list_byte. Qed.

Lemma stringOf_inj (a b : list byte) : stringOf a = stringOf b -> a = b.
Proof. intros H. rewrite <- (bytesOf_stringOf a), <- (bytesOf_stringOf b). by rewrite H. Qed.

(** ** UTF-8 *)

Definition runeError : Z := 65533.

(** A continuation byte within the range the first byte of the sequence allows. *)
Definition inRange (lo hi b : Z) : bool := (lo <=? b) && (b <=? hi).

(** The range of the second byte and the number of bytes announced by a first
    byte that is not ASCII, as the tables [first] and [acceptRanges] of
    [unicode/utf8] give them. *)
Definition utf8First (b : Z) : option (nat * Z * Z) :=
  if inRange 194 223 b then Some (2%nat, 128, 191)
  else if b =? 224 then Some (3%nat, 160, 191)
  else if inRange 225 236 b then Some (3%nat, 128, 191)
  else if b =? 237 then Some (3%nat, 128, 159)
  else if inRange 238 239 b then Some (3%nat, 128, 191)
  else if b =? 240 then Some (4%nat, 144, 191)
  else if inRange 241 243 b then Some (4%nat, 128, 191)
  else if b =? 244 then Some (4%nat, 128, 143)
  else None.

Definition low6 (b : Z) : Z := Z.land b 63.

(** [utf8.DecodeRune]: the first rune and its width; [(RuneError, 1)] for an
    invalid encoding and [(RuneError, 0)] for the empty string. *)
Definition decodeRune (s : list Z) : Z * nat :=
  match s with
  | [] => (runeError, 0%nat)
  | b0 :: t =>
      if b0 <? 128 then (b0, 1%nat)
      else
        match utf8First b0, t with
        | Some (2%nat, lo, hi), b1 :: _ =>
            if inRange lo hi b1
            then (Z.lor (Z.shiftl (Z.land b0 31) 6) (low6 b1), 2%nat)
            else (runeError, 1%nat)
        | Some (3%nat, lo, hi), b1 :: b2 :: _ =>
            if inRange lo hi b1 && inRange 128 191 b2
            then (Z.lor (Z.shiftl (Z.land b0 15) 12)
                    (Z.lor (Z.shiftl (low6 b1) 6) (low6 b2)), 3%nat)
            else (runeError, 1%nat)
        | Some (4%nat, lo, hi), b1 :: b2 :: b3 :: _ =>
            if inRange lo hi b1 && inRange 128 191 b2 && inRange 128 191 b3
            then (Z.lor (Z.shiftl (Z.land b0 7) 18)
                    (Z.lor (Z.shiftl (low6 b1) 12)
                       (Z.lor (Z.shiftl (low6 b2) 6) (low6 b3))), 4%nat)
            else (runeError, 1%nat)
        | _, _ => (runeError, 1%nat)
        end
  end.

(** The runes a [range] loop visits, with the width of each.  Every step
    consumes at least one byte, so the number of bytes is enough fuel. *)
Fixpoint decodeFuel (n : nat) (s : list Z) : list (Z * nat) :=
  match n, s with
  | S n', _ :: _ => decodeRune s :: decodeFuel n' (drop (snd (decodeRune s)) s)
  | _, _ => []
  end.

Definition decodeAll (s : list Z) : list (Z * nat) := decodeFuel (length s) s.

Definition runes (s : string) : list Z := map fst (decodeAll (codes s)).

Definition invalidRune (p : Z * nat) : bool :=
  (fst p =? runeError) && (Nat.eqb (snd p) 1).

(** [utf8.ValidString]. *)
Definition ValidString (s : string) : bool :=
  negb (existsb invalidRune (decodeAll (codes s))).

(** [utf8.DecodeLastRuneInString]: look back over at most four bytes for the
    first byte of a sequence that ends exactly at the end. *)
Definition runeStart (b : Z) : bool := negb (inRange 128 191 b).

Definition lastRuneAt (s : list Z) (k : nat) : Z * nat :=
  let '(r, size) := decodeRune (drop (length s - k) s) in
  if Nat.eqb size k then (r, size) else (runeError, 1%nat).

Definition startsAt (s : list Z) (k : nat) : bool :=
  Nat.leb k (length s) &&
  match s !! (length s - k)%nat with Some b => runeStart b | None => false end.

Definition decodeLastRune (s : list Z) : Z * nat :=
  match last s with
  | None => (runeError, 0%nat)
  | Some b =>
      if b <? 128 then (b, 1%nat)
      else if startsAt s 2 then lastRuneAt s 2
      else if startsAt s 3 then lastRuneAt s 3
      else if startsAt s 4 then lastRuneAt s 4
      else (runeError, 1%nat)
  end.

(** ** Character classes *)

(** [unicode.IsSpace]: the White_Space property. *)
Definition IsSpace (r : Z) : bool :=
  inRange 9 13 r || (r =? 32) || (r =? 133) || (r =? 160) || (r =? 5760)
  || inRange 8192 8202 r || (r =? 8232) || (r =? 8233) || (r =? 8239)
  || (r =? 8287) || (r =? 12288).

(** [unicode.IsControl]: the Cc category. *)
Definition IsControl (r : Z) : bool := inRange 0 31 r || inRange 127 159 r.

(** ** Trimming *)

Fixpoint trimLeftFuel (n : nat) (s : list Z) : list Z :=
  match n, s with
  | S n', _ :: _ =>
      let '(r, size) := decodeRune s in
      if IsSpace r then trimLeftFuel n' (drop size s) else s
  | _, _ => s
  end.

Fixpoint trimRightFuel (n : nat) (s : list Z) : list Z :=
  match n, s with
  | S n', _ :: _ =>
      let '(r, size) := decodeLastRune s in
      if IsSpace r then trimRightFuel n' (take (length s - size) s) else s
  | _, _ => s
  end.

Definition trimLeft (s : list Z) : list Z := trimLeftFuel (length s) s.
Definition trimRight (s : list Z) : list Z := trimRightFuel (length s) s.

(** [strings.TrimSpace]. *)
Definition TrimSpace (s : string) : string := ofCodes (trimRight (trimLeft (codes s))).

(** ** Comparison against ASCII constants *)

(** The representative of a rune under simple case folding, exact for the runes
    whose folding orbit has an ASCII member: the ASCII letters, U+017F (long s)
    and U+212A (Kelvin sign). *)
Definition foldRune (r : Z) : Z :=
  if inRange 65 90 r then r + 32
  else if r =? 383 then 115
  else if r =? 8490 then 107
  else r.

(** [strings.EqualFold(s, t)] for an ASCII [t]. *)
Definition EqualFold (s t : string) : bool :=
  bool_decide (map foldRune (runes s) = map foldRune (runes t)).

(** [strings.HasPrefix], [strings.HasSuffix], [strings.ContainsAny] for a set of
    ASCII characters. *)
Fixpoint isPrefix (p l : list Z) : bool :=
  match p, l with
  | [], _ => true
  | x :: p', y :: l' => (x =? y) && isPrefix p' l'
  | _ :: _, [] => false
  end.

Definition HasPrefix (s p : string) : bool := isPrefix (codes p) (codes s).
Definition HasSuffix (s p : string) : bool := isPrefix (rev (codes p)) (rev (codes s)).
Definition ContainsAny (s chars : string) : bool :=
  existsb (fun b => existsb (Z.eqb b) (codes chars)) (codes s).

(** ** Fields *)

(** [strings.Fields]: the maximal runs of runes that are not spaces, as slices
    of the input.  [cur] holds the bytes of the run being read. *)
Fixpoint fieldsFuel (n : nat) (cur s : list Z) : list string :=
  match n, s with
  | S n', _ :: _ =>
      let '(r, size) := decodeRune s in
      if IsSpace r
      then match cur with
           | [] => fieldsFuel n' [] (drop size s)
           | _ => ofCodes cur :: fieldsFuel n' [] (drop size s)
           end
      else fieldsFuel n' (cur ++ take size s) (drop size s)
  | _, _ => match cur with [] => [] | _ => [ofCodes cur] end
  end.

Definition Fields (s : string) : list string :=
  fieldsFuel (length (codes s)) [] (codes s).

(** [strings.Split(s, sep)] for a one-byte separator. *)
Fixpoint splitCodes (sep : Z) (cur s : list Z) : list string :=
  match s with
  | [] => [ofCodes cur]
  | b :: t => if b =? sep then ofCodes cur :: splitCodes sep [] t
              else splitCodes sep (cur ++ [b]) t
  end.

Definition SplitByte (s : string) (sep : Z) : list string := splitCodes sep [] (codes s).

(** ** Case, search and replacement *)

(** [utf8.EncodeRune] for the runes the decoder writes. *)
Definition encodeRune (r : Z) : list Z :=
  if r <? 128 then [r]
  else if r <? 2048 then [192 + r / 64; 128 + r mod 64]
  else if r <? 65536 then [224 + r / 4096; 128 + r / 64 mod 64; 128 + r mod 64]
  else [240 + r / 262144; 128 + r / 4096 mod 64; 128 + r / 64 mod 64; 128 + r mod 64].

(** [unicode.ToLower] on the runes whose lower case is ASCII: the letters A-Z, the
    dotted capital I and the Kelvin sign.  Other runes stay outside ASCII and are
    left alone, which no comparison with an ASCII string can tell. *)
Definition toLowerRune (r : Z) : Z :=
  if inRange 65 90 r then r + 32 else if r =? 304 then 105 else if r =? 8490 then 107 else r.

Definition ToLower (s : string) : string :=
  ofCodes (concat (map (fun r => encodeRune (toLowerRune r)) (runes s))).

(** [strings.Contains]. *)
Fixpoint containsCodes (p l : list Z) : bool :=
  isPrefix p l || match l with [] => false | _ :: t => containsCodes p t end.

Definition Contains (s sub : string) : bool := containsCodes (codes sub) (codes s).

(** [strings.Replace(s, old, new, 1)] for one-byte strings. *)
Fixpoint ReplaceFirst (s : string) (old new : ascii) : string :=
  match s with
  | EmptyString => EmptyString
  | String c t => if bool_decide (c = old) then String new t else String c (ReplaceFirst t old new)
  end.

(** ** Lemmas *)

Lemma decodeRune_size (s : list Z) :
  s <> [] -> (1 <= snd (decodeRune s) <= length s)%nat.
Proof.
  destruct s as [|b0 t]; [done|]; intros _; unfold decodeRune.
  destruct (b0 <? 128); [simpl; lia|].
  destruct (utf8First b0) as [[[n lo] hi]|]; [|simpl; lia].
  destruct n as [|[|[|[|[|n]]]]]; try (simpl; lia);
    destruct t as [|b1 [|b2 [|b3 t]]]; try (simpl; lia);
    repeat case_goal; simpl; lia.
Qed.

(** The bytes of a sequence that decodes to more than one byte are not ASCII. *)
Lemma decodeRune_multi (s : list Z) (b : Z) :
  (2 <= snd (decodeRune s))%nat -> b ∈ take (snd (decodeRune s)) s -> 128 <= b.
Proof.
  destruct s as [|b0 t]; [simpl; lia|]; unfold decodeRune.
  destruct (b0 <? 128) eqn:Hb0; [simpl; lia|].
  destruct (utf8First b0) as [[[n lo] hi]|] eqn:Hf; [|simpl; lia].
  assert (128 <= lo) as Hlo.
  { unfold utf8First in Hf. repeat case_hyp Hf; simplify_eq; lia. }
  bool_to_prop.
  destruct n as [|[|[|[|[|n]]]]]; try (simpl; lia);
    destruct t as [|b1 [|b2 [|b3 t]]]; try (simpl; lia);
    case_goal; try (simpl; lia); intros _;
    unfold inRange in *; bool_to_prop; simpl take; intros Hin;
    rewrite ?elem_of_cons in Hin; pose proof (not_elem_of_nil b);
    intuition (subst; lia).
Qed.

Lemma decodeRune_ascii (b : Z) (t : list Z) :
  b < 128 -> decodeRune (b :: t) = (b, 1%nat).
Proof. intros H. simpl. destruct (Z.ltb_spec b 128); [done | lia]. Qed.

(** An ASCII byte of a string is visited by [range] as a rune. *)
Lemma decodeFuel_ascii (n : nat) (s : list Z) (b : Z) :
  (length s <= n)%nat -> b ∈ s -> b < 128 -> b ∈ map fst (decodeFuel n s).
Proof.
  revert s; induction n as [|n IH]; intros s Hn Hin Hb.
  { destruct s; [by apply elem_of_nil in Hin | simpl in Hn; lia]. }
  destruct s as [|b0 t]; [by apply elem_of_nil in Hin|].
  pose proof (decodeRune_size (b0 :: t) ltac:(done)) as Hsz.
  cbn [decodeFuel].
  destruct (decodeRune (b0 :: t)) as [r size] eqn:E; simpl snd in *.
  cbn [map fst]. apply elem_of_cons.
  destruct (decide (size = 1%nat)) as [->|Hne].
  - apply elem_of_cons in Hin as [->|Hin].
    + rewrite decodeRune_ascii in E by done. inv E. by left.
    + right. apply IH; try done. simpl in Hn |- *. rewrite drop_0. lia.
  - right. apply IH; try done.
    + rewrite length_drop. simpl in *; lia.
    + rewrite <- (take_drop size (b0 :: t)) in Hin.
      apply elem_of_app in Hin as [Hin|Hin]; [|done].
      pose proof (decodeRune_multi (b0 :: t) b) as Hm. rewrite E in Hm; simpl snd in Hm.
      specialize (Hm ltac:(lia) Hin). lia.
Qed.

Lemma runes_ascii (s : string) (b : Z) : b ∈ codes s -> b < 128 -> b ∈ runes s.
Proof. intros Hin Hb. by apply decodeFuel_ascii. Qed.

(** A string of ASCII bytes is its own list of runes. *)
Lemma runes_plain (s : string) : Forall (fun b => b < 128) (codes s) -> runes s = codes s.
Proof.
  unfold runes, decodeAll. induction (codes s) as [|b t IH]; intros Hs; [done|].
  inv Hs. cbn [length decodeFuel]. rewrite decodeRune_ascii by done. cbn. by rewrite drop_0, IH.
Qed.

(** A string of ASCII bytes is valid UTF-8. *)
Lemma ValidString_ascii (s : string) : Forall (fun b => b < 128) (codes s) -> ValidString s = true.
Proof.
  unfold ValidString, decodeAll. intros Hs. apply negb_true_iff.
  induction (codes s) as [|b t IH]; [done|].
  inv Hs. cbn [length decodeFuel]. rewrite decodeRune_ascii by done. cbn [existsb snd].
  change (drop 1 (b :: t)) with (drop 0 t). rewrite drop_0, IH by done.
  unfold invalidRune, runeError. cbn [fst snd].
  destruct (Z.eqb_spec b 65533); [lia|done].
Qed.

Lemma lor_bound (k a b : Z) :
  0 <= k -> 0 <= a < 2 ^ k -> 0 <= b < 2 ^ k -> 0 <= Z.lor a b < 2 ^ k.
Proof.
  intros Hk Ha Hb. assert (0 <= Z.lor a b) as Hn by (apply Z.lor_nonneg; lia). split; [done|].
  destruct (decide (Z.lor a b = 0)) as [->|Hz]; [lia|].
  apply Z.log2_lt_pow2; [lia|]. rewrite Z.log2_lor by lia.
  apply Z.max_lub_lt.
  - destruct (decide (a = 0)) as [->|]; [|apply Z.log2_lt_pow2; lia].
    destruct (decide (k = 0)) as [->|]; [|cbn; lia].
    destruct (decide (b = 0)) as [->|]; [done|cbn in Hb; lia].
  - destruct (decide (b = 0)) as [->|]; [|apply Z.log2_lt_pow2; lia].
    destruct (decide (k = 0)) as [->|]; [|cbn; lia].
    destruct (decide (a = 0)) as [->|]; [done|cbn in Ha; lia].
Qed.

Lemma shiftl_land_bound (n b m k : Z) :
  0 <= n -> 0 <= k -> m = 2 ^ n - 1 -> 0 <= Z.shiftl (Z.land b m) k < 2 ^ (n + k).
Proof.
  intros Hn Hk ->. rewrite Z.sub_1_r, <- Z.ones_equiv, Z.land_ones, Z.shiftl_mul_pow2 by done.
  rewrite Z.pow_add_r by done. pose proof (Z.mod_pos_bound b (2 ^ n)).
  pose proof (Z.pow_pos_nonneg 2 n). pose proof (Z.pow_pos_nonneg 2 k). nia.
Qed.

(** The runes of bytes have at most 21 bits. *)
Lemma decodeRune_range (s : list Z) :
  Forall (fun b => 0 <= b < 256) s -> 0 <= fst (decodeRune s) < 2 ^ 21.
Proof.
  intros Hs. assert (forall n b m k, 0 <= n -> 0 <= k -> n + k <= 21 -> m = 2 ^ n - 1 ->
                     0 <= Z.shiftl (Z.land b m) k < 2 ^ 21) as Hb.
  { intros n b m k Hn Hk Hle Hm. pose proof (shiftl_land_bound n b m k Hn Hk Hm).
    pose proof (Z.pow_le_mono_r 2 (n + k) 21). lia. }
  assert (forall b, 0 <= low6 b < 2 ^ 21) as H6.
  { intros b. pose proof (Hb 6 b 63 0). rewrite Z.shiftl_0_r in *. unfold low6. auto with lia. }
  destruct s as [|b0 t]; [done|]. unfold decodeRune. inv Hs.
  destruct (b0 <? 128); [cbn [fst]; lia|].
  destruct (utf8First b0) as [[[n lo] hi]|]; [|done].
  destruct n as [|[|[|[|[|n]]]]]; try done;
    destruct t as [|b1 [|b2 [|b3 t]]]; try done;
    case_goal; try done; cbn [fst]; unfold low6;
    repeat apply lor_bound; try lia; try apply H6;
    first [by apply (Hb 6) | by apply (Hb 5) | by apply (Hb 4) | by apply (Hb 3)].
Qed.

(** The fuel of [trimLeft] is enough: what it leaves does not start with a space. *)
Lemma trimLeftFuel_spec (n : nat) (s : list Z) :
  (length s <= n)%nat ->
  trimLeftFuel n s = [] \/ IsSpace (fst (decodeRune (trimLeftFuel n s))) = false.
Proof.
  revert s; induction n as [|n IH]; intros s Hn.
  { destruct s; simpl in *; [by left | lia]. }
  destruct s as [|b0 t]; [by left|].
  pose proof (decodeRune_size (b0 :: t) ltac:(done)) as Hsz.
  cbn [trimLeftFuel]. destruct (decodeRune (b0 :: t)) as [r size] eqn:E.
  simpl snd in Hsz. destruct (IsSpace r) eqn:Hr.
  - apply IH. rewrite length_drop. lia.
  - right. by rewrite E.
Qed.

Lemma TrimSpace_empty : TrimSpace "" = "".
Proof. reflexivity. Qed.

(** Printable ASCII without the space. *)
Definition plainByte (b : Z) : bool := inRange 33 126 b.

Lemma plain_not_space (b : Z) : plainByte b = true -> IsSpace b = false.
Proof.
  unfold plainByte, IsSpace, inRange. intros H. bool_to_prop.
  rewrite !orb_false_iff, !andb_false_iff. repeat split; try (left; lia); lia.
Qed.

Lemma append_inj_l (p s t : string) : p +:+ s = p +:+ t -> s = t.
Proof. induction p as [|a p IH]; simpl; [done|]. intros [= H]. by apply IH. Qed.

(** ** Trimming and lower case of plain strings *)

Lemma codeOf_ofCode (c : Z) : 0 <= c < 256 -> codeOf (ofCode c) = c.
Proof. intros Hc. unfold codeOf, ofCode. rewrite N_ascii_embedding; lia. Qed.

Lemma codes_ofCodes (l : list Z) : Forall (fun c => 0 <= c < 256) l -> codes (ofCodes l) = l.
Proof. induction 1 as [|c l Hc _ IH]; [done|]. cbn. by rewrite codeOf_ofCode, IH. Qed.

Lemma codes_range (s : string) : Forall (fun b => 0 <= b < 256) (codes s).
Proof. induction s as [|a s IH]; constructor; [apply codeOf_range | done]. Qed.

Lemma decodeFuel_range (n : nat) : forall s,
  Forall (fun b => 0 <= b < 256) s ->
  Forall (fun p => 0 <= fst p < 2 ^ 21) (decodeFuel n s).
Proof.
  induction n as [|n IH]; intros s Hs; [constructor|].
  destruct s as [|b t]; [constructor|].
  cbn [decodeFuel]. constructor; [by apply decodeRune_range|]. by apply IH, Forall_drop.
Qed.

Lemma runes_range (s : string) : Forall (fun r => 0 <= r < 2 ^ 21) (runes s).
Proof. apply Forall_map. apply decodeFuel_range, codes_range. Qed.

(** The bytes of an encoded rune: the rune itself, or none is ASCII. *)
Lemma encodeRune_bytes (r b : Z) :
  0 <= r < 2 ^ 21 -> b ∈ encodeRune r -> 0 <= b < 256 /\ (b < 128 -> b = r).
Proof.
  intros Hr. change (2 ^ 21) with 2097152 in Hr. unfold encodeRune.
  assert (forall x, 0 <= x mod 64 < 64) as Hm by (intros x; apply Z.mod_pos_bound; lia).
  pose proof (Hm r). pose proof (Hm (r / 64)). pose proof (Hm (r / 4096)).
  pose proof (Z.div_mod r 64). pose proof (Z.div_mod r 4096). pose proof (Z.div_mod r 262144).
  pose proof (Z.mod_pos_bound r 4096). pose proof (Z.mod_pos_bound r 262144).
  repeat case_goal; bool_to_prop; rewrite ?elem_of_cons, ?elem_of_nil; intros Hin;
    intuition (subst; lia).
Qed.

Lemma toLowerRune_range (r : Z) :
  0 <= r < 2 ^ 21 -> 0 <= toLowerRune r < 2 ^ 21 /\ inRange 65 90 (toLowerRune r) = false.
Proof.
  change (2 ^ 21) with 2097152. intros Hr. unfold toLowerRune, inRange.
  repeat case_goal; bool_to_prop; split; try lia; try done; apply andb_false_iff; lia.
Qed.

(** What [ToLower] gives has no ASCII capital letter. *)
Lemma ToLower_codes (s : string) (c : Z) :
  c ∈ codes (ToLower s) -> c < 128 -> inRange 65 90 c = false.
Proof.
  unfold ToLower. intros Hin Hc.
  assert (forall r b, r ∈ runes s -> b ∈ encodeRune (toLowerRune r) ->
          0 <= b < 256 /\ (b < 128 -> inRange 65 90 b = false)) as Hb.
  { intros r b Hr Hb. pose proof (runes_range s) as Hs. rewrite Forall_forall in Hs.
    destruct (toLowerRune_range r (Hs r Hr)) as [Hl Hu].
    destruct (encodeRune_bytes _ b Hl Hb) as [? He]. split; [done|]. intros Hlt. by rewrite (He Hlt). }
  assert (forall b, b ∈ concat (map (fun r => encodeRune (toLowerRune r)) (runes s)) ->
          0 <= b < 256 /\ (b < 128 -> inRange 65 90 b = false)) as Hall.
  { intros b. rewrite list_elem_of_In, in_concat.
    intros (l & (r & <- & Hr%list_elem_of_In)%in_map_iff & Hbl%list_elem_of_In). eauto. }
  rewrite codes_ofCodes in Hin by (apply Forall_forall; intros b Hb'; by apply Hall).
  by apply Hall.
Qed.

Definition lowerByte (b : Z) : bool := plainByte b && negb (inRange 65 90 b).

Lemma ToLower_lower (s : string) : Forall (fun b => lowerByte b = true) (codes s) -> ToLower s = s.
Proof.
  intros Hs. unfold ToLower. rewrite runes_plain.
  2: { eapply Forall_impl; [exact Hs|]. unfold lowerByte, plainByte, inRange. intros b Hb.
       bool_to_prop. lia. }
  rewrite <- (ofCodes_codes s) at 2. f_equal.
  induction Hs as [|b t Hb _ IH]; [done|]. cbn [map concat]. rewrite IH.
  unfold lowerByte, plainByte in Hb. apply andb_true_iff in Hb as [Hp Hu].
  apply negb_true_iff in Hu. unfold inRange in Hp. bool_to_prop.
  unfold toLowerRune. rewrite Hu.
  destruct (Z.eqb_spec b 304); [lia|]. destruct (Z.eqb_spec b 8490); [lia|].
  unfold encodeRune. by destruct (Z.ltb_spec b 128); [|lia].
Qed.

Lemma trimLeft_plain (s : list Z) : Forall (fun b => plainByte b = true) s -> trimLeft s = s.
Proof.
  unfold trimLeft. destruct s as [|b t]; intros Hs; [done|]. inv Hs. cbn [length trimLeftFuel].
  rewrite decodeRune_ascii, plain_not_space; [done..|].
  unfold plainByte, inRange in *. bool_to_prop. lia.
Qed.

Lemma trimRight_plain (s : list Z) : Forall (fun b => plainByte b = true) s -> trimRight s = s.
Proof.
  unfold trimRight. destruct s as [|b0 t]; intros Hs; [done|]. cbn [length trimRightFuel].
  destruct (decodeLastRune (b0 :: t)) as [r size] eqn:E. unfold decodeLastRune in E.
  destruct (last (b0 :: t)) as [b|] eqn:El; [|by apply last_None in El].
  apply last_Some_elem_of in El. rewrite Forall_forall in Hs. specialize (Hs b El).
  assert (b < 128) as Hlt by (unfold plainByte, inRange in Hs; bool_to_prop; lia).
  destruct (Z.ltb_spec b 128); [|lia]. inv E. by rewrite plain_not_space.
Qed.

Lemma TrimSpace_plain (s : string) :
  Forall (fun b => plainByte b = true) (codes s) -> TrimSpace s = s.
Proof.
  intros Hs. unfold TrimSpace. rewrite trimLeft_plain, trimRight_plain by done. apply ofCodes_codes.
Qed.
