(* ===== verification/GoSort.v ===== *)
(** * [sort.Strings] and [slices.Sort] on strings: by bytes

    Sorting keeps the elements and forgets their order: two lists with the same
    elements are sorted to the same list. *)

From stdpp Require Import base sorting list strings.
From Stdlib Require Import ZArith Lia.
From S2P Require Import Prelude GoStrings.

Fixpoint codesLeb (a b : list Z) : bool :=
  match a, b with
  | [], _ => true
  | _ :: _, [] => false
  | x :: a', y :: b' => if x =? y then codesLeb a' b' else x <? y
  end.

Fixpoint insertSorted (v : string) (l : list string) : list string :=
  match l with
  | [] => [v]
  | w :: t => if codesLeb (codes v) (codes w) then v :: l else w :: insertSorted v t
  end.

Definition sortStrings (l : list string) : list string := foldr insertSorted [] l.

Definition stringLe (a b : string) : Prop := codesLeb (codes a) (codes b) = true.

Lemma codesLeb_total a : forall b, codesLeb a b = false -> codesLeb b a = true.
Proof.
  induction a as [|x a IH]; intros [|y b]; simpl; try done.
  rewrite (Z.eqb_sym y x). destruct (Z.eqb_spec x y); [apply IH|].
  intros ?%Z.ltb_ge. apply Z.ltb_lt. lia.
Qed.

#[export] Instance stringLe_trans : Transitive stringLe.
Proof.
  intros a b c. unfold stringLe. generalize (codes a) (codes b) (codes c). clear.
  induction l as [|x l IH]; intros [|y m] [|z n]; simpl; try done.
  destruct (Z.eqb_spec x y) as [->|], (Z.eqb_spec y z) as [->|]; simpl; try done.
  - apply IH.
  - by rewrite (proj2 (Z.eqb_neq x z)).
  - intros ?%Z.ltb_lt ?%Z.ltb_lt. rewrite (proj2 (Z.eqb_neq x z)) by lia. apply Z.ltb_lt. lia.
Qed.

#[export] Instance stringLe_antisymm : AntiSymm (=) stringLe.
Proof.
  intros a b Hab Hba. apply codes_inj. revert Hab Hba. unfold stringLe.
  generalize (codes a) (codes b). clear. induction l as [|x l IH]; intros [|y m]; simpl; try done.
  rewrite (Z.eqb_sym y x). destruct (Z.eqb_spec x y) as [->|].
  - intros ? ?. f_equal. by apply IH.
  - intros ?%Z.ltb_lt ?%Z.ltb_lt. lia.
Qed.

Lemma insertSorted_perm v l : insertSorted v l ≡ₚ v :: l.
Proof.
  induction l as [|w l IH]; simpl; [done|]. case_goal; [done|]. rewrite IH. constructor.
Qed.

Lemma sortStrings_perm l : sortStrings l ≡ₚ l.
Proof. induction l as [|v l IH]; simpl; [done|]. by rewrite insertSorted_perm, IH. Qed.

Lemma insertSorted_sorted v l : StronglySorted stringLe l -> StronglySorted stringLe (insertSorted v l).
Proof.
  induction 1 as [|w l Hl IH Hw]; simpl; [by repeat constructor|]. case_goal.
  - constructor; [by constructor|]. constructor; [done|].
    eapply Forall_impl; [exact Hw|]. intros u ?. by transitivity w.
  - constructor; [done|]. rewrite insertSorted_perm. constructor; [by apply codesLeb_total | done].
Qed.

Lemma sortStrings_sorted l : StronglySorted stringLe (sortStrings l).
Proof. induction l as [|v l IH]; simpl; [constructor|]. by apply insertSorted_sorted. Qed.

Lemma sortStrings_unique l k : l ≡ₚ k -> sortStrings l = sortStrings k.
Proof.
  intros E. apply (StronglySorted_unique stringLe); [apply sortStrings_sorted..|].
  by rewrite !sortStrings_perm.
Qed.

Lemma elem_of_sortStrings v l : v ∈ sortStrings l <-> v ∈ l.
Proof. by rewrite sortStrings_perm. Qed.
