(* ===== verification/Errors.v ===== *)
(** * Go errors

    The error values the modelled packages build, and the tree walks of
    [errors.Is] and [errors.As] over them.  A sentinel made by [errors.New] is
    identified by the qualified name of its package variable; an error made by
    [fmt.Errorf] without [%w] is an [ErrNew] carrying its text, and no modelled
    code compares it.  [*identitypolicy.ValidationError] and the aggregate
    [identitypolicy.ValidationErrors] are part of the same type because each
    can hold any error. *)

From stdpp Require Import base gmap sets list strings.
From Stdlib Require Import ZArith Lia.
From S2P Require Import Prelude.

Inductive error : Type :=
| ErrNew (name : string)
| ErrWrap (msg : string) (e : error)
| ErrJoin (es : list error)
| ErrValidation (v : ValidationError)
| ErrValidations (vs : list (option ValidationError))
with ValidationError : Type :=
| mkValidationError (layer field : string) (err : error).

Definition ve_Layer (v : ValidationError) : string :=
  match v with mkValidationError l _ _ => l end.
Definition ve_Field (v : ValidationError) : string :=
  match v with mkValidationError _ f _ => f end.
Definition ve_Err (v : ValidationError) : error :=
  match v with mkValidationError _ _ e => e end.

(** [errors.Is(e, target)] for a sentinel [target]. *)
Fixpoint errorsIs (e : error) (target : string) : bool :=
  match e with
  | ErrNew n => bool_decide (n = target)
  | ErrWrap _ e' => errorsIs e' target
  | ErrJoin es => existsb (fun x => errorsIs x target) es
  | ErrValidation v => veIs v target
  | ErrValidations vs =>
      existsb (fun o => match o with Some v => veIs v target | None => false end) vs
  end
with veIs (v : ValidationError) (target : string) : bool :=
  match v with mkValidationError _ _ e => errorsIs e target end.

Fixpoint firstSome {A B} (f : A -> option B) (l : list A) : option B :=
  match l with
  | [] => None
  | x :: t => match f x with Some y => Some y | None => firstSome f t end
  end.

(** [errors.As] with a [ValidationErrors] target: the first aggregate met by the
    depth-first walk. *)
Fixpoint asValidationErrors (e : error) : option (list (option ValidationError)) :=
  match e with
  | ErrNew _ => None
  | ErrWrap _ e' => asValidationErrors e'
  | ErrJoin es => firstSome asValidationErrors es
  | ErrValidation v => match v with mkValidationError _ _ e' => asValidationErrors e' end
  | ErrValidations vs => Some vs
  end.

(** [errors.As] with a [*ValidationError] target. *)
Fixpoint asValidationError (e : error) : option ValidationError :=
  match e with
  | ErrNew _ => None
  | ErrWrap _ e' => asValidationError e'
  | ErrJoin es => firstSome asValidationError es
  | ErrValidation v => Some v
  | ErrValidations vs => firstSome (fun o => o) vs
  end.

(** [errors.Join]: nil for no error (its arguments here are never nil). *)
Definition errorsJoin (es : list error) : option error :=
  match es with [] => None | _ => Some (ErrJoin es) end.

(** [internal/errors.Wrap] on two errors: both can be found in the result. *)
Definition Wrap (first second : error) : error := ErrJoin [first; second].

Lemma errorsJoin_None (es : list error) : errorsJoin es = None <-> es = [].
Proof. destruct es; simpl; split; congruence. Qed.
