(* ===== verification/GoPath.v ===== *)
(** * Slash-separated paths: [path] and [path/filepath] on Unix

    A path is read as its elements, the parts between slashes.  [Clean] folds them
    over a stack: an empty element or a dot is dropped, a double dot removes the element
    before it, is dropped at the root and kept at the start of a relative path.  The
    lemmas say what a cleaned path looks like and that [Join] and [Rel] are list
    concatenation and prefix removal on cleaned absolute paths, which is what the
    containment checks of the archive and dataset code rest on. *)

From stdpp Require Import base list strings.
From Stdlib Require Import ZArith Lia Ascii.
From S2P Require Import Prelude GoStrings Errors.

(** ** Elements *)

Definition slash : ascii := "/".

Fixpoint splitSlash (s : string) : list string :=
  match s with
  | EmptyString => [""]
  | String c t =>
      if bool_decide (c = slash) then "" :: splitSlash t
      else match splitSlash t with
           | [] => [String c ""]
           | h :: r => String c h :: r
           end
  end.

Fixpoint joinSlash (l : list string) : string :=
  match l with
  | [] => ""
  | [e] => e
  | e :: t => e +:+ String slash (joinSlash t)
  end.

Fixpoint noSlash (s : string) : bool :=
  match s with
  | EmptyString => true
  | String c t => negb (bool_decide (c = slash)) && noSlash t
  end.

(** ** The functions *)

Definition IsAbs (s : string) : bool :=
  match s with String c _ => bool_decide (c = slash) | EmptyString => false end.

Definition cleanStep (rooted : bool) (stack : list string) (e : string) : list string :=
  if bool_decide (e = "") || bool_decide (e = ".") then stack
  else if bool_decide (e = "..") then
    match stack with
    | top :: below => if bool_decide (top = "..") then ".." :: stack else below
    | [] => if rooted then [] else [".."]
    end
  else e :: stack.

(** The elements of the stack, bottom first. *)
Definition render (rooted : bool) (l : list string) : string :=
  if rooted then String slash (joinSlash l)
  else match l with [] => "." | _ => joinSlash l end.

Definition Clean (s : string) : string :=
  if bool_decide (s = "") then "."
  else render (IsAbs s) (rev (foldl (cleanStep (IsAbs s)) [] (splitSlash s))).

(** [Join] ignores the empty strings before the first other one. *)
Fixpoint Join (l : list string) : string :=
  match l with
  | [] => ""
  | e :: t => if bool_decide (e = "") then Join t else Clean (joinSlash l)
  end.

(** Trailing slashes do not count. *)
Fixpoint dropEmpty (l : list string) : list string :=
  match l with e :: t => if bool_decide (e = "") then dropEmpty t else l | [] => [] end.

Definition Base (s : string) : string :=
  if bool_decide (s = "") then "."
  else match dropEmpty (rev (splitSlash s)) with e :: _ => e | [] => String slash "" end.

(** The elements up to the last slash, cleaned. *)
Definition Dir (s : string) : string :=
  match rev (splitSlash s) with
  | [] | [_] => Clean ""
  | _ :: before => Clean (joinSlash (rev ("" :: before)))
  end.

(** [Abs] with the working directory, which [os.Getwd] may fail to give. *)
Definition Abs (wd : result error string) (s : string) : result error string :=
  if IsAbs s then Ok (Clean s) else let* dir := wd in Ok (Join [dir; s]).

(** The elements of a cleaned path as [Rel] compares them. *)
Definition relElems (s : string) : list string :=
  if bool_decide (s = "") then []
  else match rev (splitSlash s) with
       | "" :: before => rev before
       | l => rev l
       end.

Fixpoint stripCommon (b t : list string) : list string * list string :=
  match b, t with
  | x :: b', y :: t' => if bool_decide (x = y) then stripCommon b' t' else (b, t)
  | _, _ => (b, t)
  end.

Definition errRel : error := ErrNew "Rel: can't make relative".

Definition Rel (basepath targpath : string) : result error string :=
  let base := Clean basepath in
  let targ := Clean targpath in
  if bool_decide (targ = base) then Ok "."
  else
    let base := if bool_decide (base = ".") then "" else base in
    if negb (Bool.eqb (IsAbs base) (IsAbs targ)) then Err errRel
    else match stripCommon (relElems base) (relElems targ) with
         | ([], t) => Ok (joinSlash t)
         | (b :: bs, t) =>
             if bool_decide (b = "..") && negb (bool_decide (t = [])) then Err errRel
             else Ok (joinSlash (map (fun _ => "..") (b :: bs) ++ t))
         end.

(** [filepath.Ext]: from the last dot of the last element. *)
Fixpoint lastDot (s : string) (acc : string) : string :=
  match s with
  | EmptyString => acc
  | String c t =>
      lastDot t (if bool_decide (c = slash) then ""
                 else if bool_decide (c = "."%char) then s else acc)
  end.
Definition Ext (s : string) : string := lastDot s "".

(** ** Lemmas *)

(** An element that [Clean] keeps as it is. *)
Definition isName (e : string) : Prop :=
  e <> "" /\ e <> "." /\ e <> ".." /\ noSlash e = true.

#[export] Instance isName_dec e : Decision (isName e).
Proof. unfold isName. apply _. Defined.

Lemma string_app_assoc (a b c : string) : (a +:+ b) +:+ c = a +:+ (b +:+ c).
Proof. induction a as [|x a IH]; [done|]. exact (f_equal (String x) IH). Qed.

Lemma splitSlash_cons s : exists h t, splitSlash s = h :: t.
Proof.
  induction s as [|c s (h & t & IH)]; simpl; [by eauto|].
  rewrite IH. case_bool_decide; eauto.
Qed.

Lemma joinSlash_cons e l : l <> [] -> joinSlash (e :: l) = e +:+ String slash (joinSlash l).
Proof. by destruct l. Qed.

Lemma splitSlash_app a b :
  splitSlash (a +:+ String slash b) = splitSlash a ++ splitSlash b.
Proof.
  induction a as [|c a IH]; [done|]. simpl. rewrite IH.
  destruct (splitSlash_cons a) as (h & t & ->). by case_bool_decide.
Qed.

Lemma splitSlash_single e : noSlash e = true -> splitSlash e = [e].
Proof.
  induction e as [|c e IH]; [done|]. simpl. intros [Hc He]%andb_true_iff.
  rewrite (IH He). by case_bool_decide.
Qed.

Lemma splitSlash_join l :
  l <> [] -> Forall (fun e => noSlash e = true) l -> splitSlash (joinSlash l) = l.
Proof.
  induction l as [|e l IH]; [done|]. intros _ [He Hl]%Forall_cons.
  destruct (decide (l = [])) as [->|Hn]; [by apply splitSlash_single|].
  rewrite joinSlash_cons by done. rewrite splitSlash_app, IH by done.
  by rewrite splitSlash_single.
Qed.

Lemma joinSlash_split s : joinSlash (splitSlash s) = s.
Proof.
  induction s as [|c s IH]; [done|]. simpl.
  destruct (splitSlash_cons s) as (h & t & E). rewrite E in IH |- *.
  case_bool_decide as Hc; [subst c | by rewrite <- IH; destruct t].
  rewrite joinSlash_cons, IH by done. done.
Qed.

Lemma joinSlash_app a b :
  a <> [] -> b <> [] -> joinSlash (a ++ b) = joinSlash a +:+ String slash (joinSlash b).
Proof.
  induction a as [|e a IH]; [done|]. intros _ Hb. simpl app.
  destruct (decide (a = [])) as [->|Ha]; [by rewrite joinSlash_cons|].
  rewrite !joinSlash_cons, IH by (try done; by destruct a).
  by rewrite string_app_assoc.
Qed.

Lemma splitSlash_noSlash s : Forall (fun e => noSlash e = true) (splitSlash s).
Proof.
  induction s as [|c s IH]; simpl; [by repeat constructor|].
  case_bool_decide as Hc; [by constructor|].
  destruct (splitSlash_cons s) as (h & t & E). rewrite E in IH |- *.
  apply Forall_cons in IH as [Hh Ht]. constructor; [|done]. simpl.
  by rewrite bool_decide_eq_false_2.
Qed.

(** The stack of [Clean]: names over double dots, which only a relative path has. *)
Definition stackOk (rooted : bool) (st : list string) : Prop :=
  exists k names, st = rev names ++ replicate k ".." /\ Forall isName names
    /\ (rooted = true -> k = 0%nat).

Lemma replicate_shift k (x : string) : x :: replicate k x = replicate k x ++ [x].
Proof. induction k as [|k IH]; [done|]. simpl. by rewrite <- IH. Qed.

Lemma cleanStep_ok rooted st e :
  noSlash e = true -> stackOk rooted st -> stackOk rooted (cleanStep rooted st e).
Proof.
  intros He (k & names & -> & HF & Hk). unfold cleanStep.
  case_bool_decide; simpl; [by exists k, names|].
  case_bool_decide; simpl; [by exists k, names|].
  case_bool_decide.
  - destruct names as [|n names _] using rev_ind.
    + destruct k as [|k]; simpl.
      * destruct rooted; [exists 0%nat, [] | exists 1%nat, []]; by repeat constructor.
      * exists (S (S k)), []. split; [done|].
        split; [constructor|]. intros Hr. by specialize (Hk Hr).
    + rewrite rev_app_distr. simpl. apply Forall_app in HF as [HF [(?&?&Hn&?) _]%Forall_cons].
      rewrite bool_decide_eq_false_2 by done. by exists k, names.
  - exists k, (names ++ [e]). rewrite rev_app_distr. split; [done|]. split; [|done].
    apply Forall_app. split; [done|]. by repeat constructor.
Qed.

Lemma foldl_cleanStep_ok rooted l : forall st,
  Forall (fun e => noSlash e = true) l -> stackOk rooted st ->
  stackOk rooted (foldl (cleanStep rooted) st l).
Proof.
  induction l as [|e l IH]; intros st HF Hst; [done|]. apply Forall_cons in HF as [He HF].
  simpl. apply IH; [done|]. by apply cleanStep_ok.
Qed.

(** The shape of a cleaned path. *)
Lemma Clean_shape s :
  s <> "" -> exists k names, Clean s = render (IsAbs s) (replicate k ".." ++ names)
    /\ Forall isName names /\ (IsAbs s = true -> k = 0%nat).
Proof.
  intros Hs. unfold Clean. rewrite bool_decide_eq_false_2 by done.
  destruct (foldl_cleanStep_ok (IsAbs s) (splitSlash s) []) as (k & names & -> & HF & Hk);
    [apply splitSlash_noSlash | exists 0%nat, []; by repeat constructor|].
  exists k, names. split; [|done]. rewrite rev_app_distr, rev_involutive. f_equal. f_equal.
  clear. induction k as [|k IH]; [done|]. simpl. rewrite IH. symmetry. apply replicate_shift.
Qed.

Lemma cleanStep_name rooted st e : isName e -> cleanStep rooted st e = e :: st.
Proof.
  intros (H1 & H2 & H3 & _). unfold cleanStep.
  by rewrite !bool_decide_eq_false_2 by done.
Qed.

Lemma foldl_names rooted l : forall st, Forall isName l -> foldl (cleanStep rooted) st l = rev l ++ st.
Proof.
  induction l as [|e l IH]; intros st HF; [done|]. apply Forall_cons in HF as [He HF].
  simpl. rewrite cleanStep_name, IH by done. by rewrite <- app_assoc.
Qed.

Lemma Forall_noSlash l : Forall isName l -> Forall (fun e => noSlash e = true) l.
Proof. intros HF. eapply Forall_impl; [exact HF|]. by intros e (_ & _ & _ & ?). Qed.

Lemma foldl_dots k : forall j, foldl (cleanStep false) (replicate j "..") (replicate k "..")
  = replicate (k + j) "..".
Proof.
  induction k as [|k IH]; intros j; [done|]. simpl.
  replace (cleanStep false (replicate j "..") "..") with (replicate (S j) "..") by by destruct j.
  rewrite IH. by rewrite <- plus_n_Sm.
Qed.

Lemma rev_replicate k (x : string) : rev (replicate k x) = replicate k x.
Proof. induction k as [|k IH]; [done|]. simpl. rewrite IH. symmetry. apply replicate_shift. Qed.

(** What [Clean] makes of the elements of a cleaned path. *)
Lemma foldl_clean rooted k names :
  Forall isName names -> (rooted = true -> k = 0%nat) ->
  rev (foldl (cleanStep rooted) [] (replicate k ".." ++ names)) = replicate k ".." ++ names.
Proof.
  intros HF Hk. rewrite foldl_app, foldl_names, rev_app_distr, rev_involutive by done. f_equal.
  destruct rooted; [by rewrite (Hk eq_refl)|].
  pose proof (foldl_dots k 0) as E. simpl in E. rewrite E. rewrite rev_replicate. f_equal. lia.
Qed.

Lemma IsAbs_noSlash s : noSlash s = true -> IsAbs s = false.
Proof. destruct s; [done|]. cbn. intros [?%negb_true_iff _]%andb_true_iff. done. Qed.

Lemma IsAbs_join l :
  Forall (fun e => noSlash e = true /\ e <> "") l -> IsAbs (joinSlash l) = false.
Proof.
  destruct l as [|e l]; [done|]. intros [[Hs He] _]%Forall_cons.
  destruct e as [|c e]; [done|]. apply IsAbs_noSlash in Hs. by destruct l.
Qed.

Lemma joinSlash_nonempty e l : e <> "" -> joinSlash (e :: l) <> "".
Proof. intros He. destruct l; [done|]. by destruct e. Qed.

Definition elemOk (e : string) : Prop := noSlash e = true /\ e <> "".

Lemma shape_elems k names : Forall isName names -> Forall elemOk (replicate k ".." ++ names).
Proof.
  intros HF. apply Forall_app. split.
  - apply Forall_replicate. done.
  - eapply Forall_impl; [exact HF|]. by intros e (? & _ & _ & ?).
Qed.

Lemma Forall_elemOk l : Forall elemOk l -> Forall (fun e => noSlash e = true) l.
Proof. intros HF. eapply Forall_impl; [exact HF|]. by intros e [? _]. Qed.

(** A path in cleaned form is left alone. *)
Lemma Clean_render rooted k names :
  Forall isName names -> (rooted = true -> k = 0%nat) ->
  Clean (render rooted (replicate k ".." ++ names)) = render rooted (replicate k ".." ++ names).
Proof.
  intros HF Hk. pose proof (shape_elems k names HF) as Hl.
  pose proof (foldl_clean rooted k names HF Hk) as Hfold.
  set (l := replicate k ".." ++ names) in *. clearbody l.
  destruct rooted; unfold render.
  - change (String slash (joinSlash l)) with ("" +:+ String slash (joinSlash l)).
    unfold Clean. rewrite bool_decide_eq_false_2 by done.
    change (IsAbs ("" +:+ String slash (joinSlash l))) with true.
    rewrite splitSlash_app. destruct l as [|e l']; [done|].
    rewrite splitSlash_join by (try done; by apply Forall_elemOk).
    change (foldl (cleanStep true) [] (splitSlash "" ++ e :: l'))
      with (foldl (cleanStep true) [] (e :: l')). by rewrite Hfold.
  - destruct l as [|e l']; [done|]. pose proof (Forall_elemOk _ Hl) as Hs.
    unfold Clean. rewrite bool_decide_eq_false_2
      by (apply joinSlash_nonempty; by apply Forall_cons in Hl as [[_ ?] _]).
    rewrite (IsAbs_join (e :: l')) by done. rewrite splitSlash_join by done. by rewrite Hfold.
Qed.

Lemma Clean_abs names : Forall isName names -> Clean (render true names) = render true names.
Proof. intros HF. by apply (Clean_render true 0 names). Qed.

Lemma Clean_nonempty s : Clean s <> "".
Proof.
  destruct (decide (s = "")) as [->|Hs]; [done|].
  destruct (Clean_shape s Hs) as (k & names & -> & HF & _). unfold render.
  destruct (IsAbs s); [done|]. destruct (replicate k ".." ++ names) as [|e l] eqn:E; [done|].
  pose proof (shape_elems k names HF) as Hl. rewrite E in Hl.
  apply joinSlash_nonempty. by apply Forall_cons in Hl as [[_ ?] _].
Qed.

Lemma Clean_idempotent s : Clean (Clean s) = Clean s.
Proof.
  destruct (decide (s = "")) as [->|Hs]; [done|].
  destruct (Clean_shape s Hs) as (k & names & -> & HF & Hk). by apply Clean_render.
Qed.

(** ** Joining below and comparing with a cleaned absolute path *)

Lemma splitSlash_abs R :
  Forall isName R -> splitSlash (render true R) = "" :: match R with [] => [""] | _ => R end.
Proof.
  intros HF. unfold render. change (String slash (joinSlash R)) with ("" +:+ String slash (joinSlash R)).
  rewrite splitSlash_app. destruct R as [|e R]; [done|].
  by rewrite splitSlash_join by (try done; by apply Forall_noSlash).
Qed.

Lemma foldl_abs R : Forall isName R -> foldl (cleanStep true) [] (splitSlash (render true R)) = rev R.
Proof.
  intros HF. rewrite splitSlash_abs by done. destruct R as [|e R]; [done|].
  change (foldl (cleanStep true) [] ("" :: e :: R)) with (foldl (cleanStep true) [] (e :: R)).
  rewrite foldl_names by done. by rewrite app_nil_r.
Qed.

Lemma Join_abs R p :
  Forall isName R ->
  Join [render true R; p] = render true (rev (foldl (cleanStep true) (rev R) (splitSlash p))).
Proof.
  intros HF. cbn [Join]. rewrite bool_decide_eq_false_2 by done.
  change (joinSlash [render true R; p]) with (render true R +:+ String slash p).
  unfold Clean. rewrite bool_decide_eq_false_2 by done.
  change (IsAbs (render true R +:+ String slash p)) with true.
  by rewrite splitSlash_app, foldl_app, foldl_abs by done.
Qed.

Lemma Join_names R names :
  Forall isName R -> Forall isName names -> names <> [] ->
  Join [render true R; joinSlash names] = render true (R ++ names).
Proof.
  intros HR Hn Hne. rewrite Join_abs by done.
  rewrite splitSlash_join by (try done; by apply Forall_noSlash).
  rewrite foldl_names by done. by rewrite rev_app_distr, !rev_involutive.
Qed.

Lemma IsAbs_abs R : IsAbs (render true R) = true.
Proof. done. Qed.

Lemma relElems_abs R : Forall isName R -> relElems (render true R) = "" :: R.
Proof.
  intros HF. unfold relElems. rewrite bool_decide_eq_false_2 by done.
  rewrite splitSlash_abs by done. destruct R as [|e R _] using rev_ind; [done|].
  apply Forall_app in HF as [_ [(He & _) _]%Forall_cons].
  assert (E : match R ++ [e] with [] => [""] | _ => R ++ [e] end = R ++ [e]) by by destruct R.
  rewrite E. cbn [rev]. rewrite rev_app_distr. simpl.
  destruct e as [|c e]; [done|]. simpl. rewrite rev_app_distr. simpl. by rewrite rev_involutive.
Qed.

Lemma render_inj a b : Forall isName a -> Forall isName b -> render true a = render true b -> a = b.
Proof. intros Ha Hb E. apply (f_equal relElems) in E. rewrite !relElems_abs in E by done. congruence. Qed.

Lemma stripCommon_spec b : forall t, exists c b' t',
  stripCommon b t = (b', t') /\ b = c ++ b' /\ t = c ++ t'.
Proof.
  induction b as [|x b IH]; intros t; [by exists [], [], t|].
  destruct t as [|y t]; [by exists [], (x :: b), []|]. simpl.
  case_bool_decide as E; [|by exists [], (x :: b), (y :: t)].
  subst y. destruct (IH t) as (c & b' & t' & -> & -> & ->). by exists (x :: c), b', t'.
Qed.

Lemma stripCommon_app c t : stripCommon c (c ++ t) = ([], t).
Proof. induction c as [|x c IH]; [by destruct t|]. simpl. by rewrite bool_decide_eq_true_2. Qed.

Lemma Rel_names R names :
  Forall isName R -> Forall isName names -> names <> [] ->
  Rel (render true R) (render true (R ++ names)) = Ok (joinSlash names).
Proof.
  intros HR Hn Hne. assert (HT : Forall isName (R ++ names)) by (by apply Forall_app).
  unfold Rel. rewrite !Clean_abs by done. rewrite bool_decide_eq_false_2.
  2:{ intros E%render_inj; [|done..]. apply Hne. apply (f_equal length) in E.
      rewrite length_app in E. destruct names; [done|]. simpl in E. lia. }
  rewrite bool_decide_eq_false_2 by done. rewrite !IsAbs_abs. cbn [Bool.eqb negb].
  rewrite !relElems_abs by done. pose proof (stripCommon_app ("" :: R) names) as Hs.
  simpl app in Hs. by rewrite Hs.
Qed.

Lemma codeOf_inj a b : codeOf a = codeOf b -> a = b.
Proof. intros E. by rewrite <- (ofCode_codeOf a), E, ofCode_codeOf. Qed.

Lemma HasPrefix_spec p : forall s, HasPrefix s p = true <-> exists r, s = p +:+ r.
Proof.
  unfold HasPrefix. induction p as [|c p IH]; intros s; [by split; [exists s|]|].
  destruct s as [|d s]; simpl; [by split; [|intros [r [=]]]|].
  rewrite andb_true_iff, Z.eqb_eq, IH. split.
  - intros [<-%codeOf_inj [r ->]]. by exists r.
  - intros [r [= -> ->]]. split; [done|]. by exists r.
Qed.

Lemma splitSlash_names l : l <> [] -> Forall isName l -> splitSlash (joinSlash l) = l.
Proof. intros Hl HF. apply splitSlash_join; [done|]. by apply Forall_noSlash. Qed.

(** A path of names does not lead upwards. *)
Lemma names_down l :
  l <> [] -> Forall isName l -> joinSlash l <> ".." /\ HasPrefix (joinSlash l) "../" = false.
Proof.
  intros Hl HF. pose proof (splitSlash_names l Hl HF) as E. split.
  - intros E2. rewrite E2 in E. subst l. by apply Forall_cons in HF as [(_ & _ & ? & _) _].
  - destruct (HasPrefix _ _) eqn:Hp; [|done]. apply HasPrefix_spec in Hp as [r Hr].
    change ("../" +:+ r) with (".." +:+ String slash r) in Hr.
    rewrite Hr, splitSlash_app in E. subst l. by apply Forall_cons in HF as [(_ & _ & ? & _) _].
Qed.

(** A relative path that does not start with a double dot stays inside. *)
Lemma Rel_inside R T rel :
  Forall isName R -> Forall isName T -> Rel (render true R) (render true T) = Ok rel ->
  rel <> ".." -> HasPrefix rel "../" = false ->
  exists names, T = R ++ names /\ Forall isName names.
Proof.
  intros HR HT. unfold Rel. rewrite !Clean_abs by done.
  case_bool_decide as E; [apply render_inj in E; [|done..]; subst; exists []; by rewrite app_nil_r|].
  rewrite bool_decide_eq_false_2 by done. rewrite !IsAbs_abs. cbn [Bool.eqb negb].
  rewrite !relElems_abs by done. cbn [stripCommon].
  rewrite bool_decide_eq_true_2 by done.
  destruct (stripCommon_spec R T) as (c & b & t & -> & -> & ->).
  destruct b as [|x b].
  { intros _ _ _. rewrite app_nil_r. exists t. by apply Forall_app in HT as [_ ?]. }
  case_goal; [done|]. intros <-%Ok_inj Hd Hp.
  destruct (b ++ t) as [|y l] eqn:Ebt.
  - apply app_eq_nil in Ebt as [-> ->]. by destruct Hd.
  - destruct b as [|z b]; simpl in Ebt; subst; cbn in Hp; discriminate.
Qed.

Lemma Clean_prefix l : Forall isName l -> Clean (joinSlash ("" :: l ++ [""])) = render true l.
Proof.
  intros Hl. unfold Clean. rewrite joinSlash_cons by by destruct l.
  change ("" +:+ String slash (joinSlash (l ++ [""]))) with (String slash (joinSlash (l ++ [""]))).
  rewrite bool_decide_eq_false_2 by done.
  change (IsAbs (String slash (joinSlash (l ++ [""])))) with true.
  change (String slash (joinSlash (l ++ [""]))) with ("" +:+ String slash (joinSlash (l ++ [""]))).
  rewrite splitSlash_app, splitSlash_join;
    [| by destruct l | apply Forall_app; split; [by apply Forall_noSlash | by repeat constructor]].
  change (foldl (cleanStep true) [] (splitSlash "" ++ l ++ [""]))
    with (foldl (cleanStep true) [] (l ++ [""])).
  rewrite foldl_app, (foldl_names true l), app_nil_r by done.
  change (render true (rev (rev l)) = render true l). by rewrite rev_involutive.
Qed.

Lemma Dir_abs l e : Forall isName l -> isName e -> Dir (render true (l ++ [e])) = render true l.
Proof.
  intros Hl He. unfold Dir. rewrite splitSlash_abs by (apply Forall_app; split; [done | by constructor]).
  replace (match l ++ [e] with [] => [""] | _ :: _ => l ++ [e] end) with (l ++ [e]) by by destruct l.
  replace (rev ("" :: l ++ [e])) with (e :: rev l ++ [""])
    by (change (e :: rev l ++ [""] = rev (l ++ [e]) ++ [""]); by rewrite rev_app_distr).
  rewrite <- Clean_prefix by done.
  replace ("" :: l ++ [""]) with (rev ("" :: rev l ++ [""]))
    by (change (rev (rev l ++ [""]) ++ [""] = "" :: l ++ [""]);
        by rewrite rev_app_distr, rev_involutive).
  by destruct (rev l).
Qed.
