(* ===== verification/GoOS.v ===== *)
(** * Calls to the operating system

    Code that touches files or processes is a state transformer over the list of the
    effects it has performed.  What the system answers is a parameter, the class [OS]:
    every answer may depend on all effects before it, and any call may fail, so a
    theorem holds for every behaviour of the system.  [emits P m] says that every
    effect of [m] satisfies [P]; its closure lemmas make the containment proofs of the
    archive code a walk over the program. *)

From stdpp Require Import base list strings.
From Stdlib Require Import ZArith Lia Strings.Byte.
From S2P Require Import Prelude Errors GoPath.

(** ** Effects *)

Inductive act :=
| AMkdir (path : string)
| AMkdirAll (path : string)
| AOpenTrunc (path : string) (perm : Z)
| AWrite (path : string) (data : list byte)
| AClose (path : string)
| AChmod (path : string) (mode : Z)
| ARemove (path : string)
| ARemoveAll (path : string)
| AExec (dir : string) (argv : list string)
| AEvent (id state status : string)
| ARunnerStop (id : string)
| ASignal (pid : Z)
| AKill (pid : Z).

Class OS := {
  os_act : list act -> act -> option error;
  os_stat : list act -> string -> result error Z;
  os_read : list act -> string -> result error (list byte);
  os_walk : list act -> string -> result error (list (string * Z));
  os_glob : list act -> string -> result error (list string);
  os_getwd : list act -> result error string }.

(** [os.Getwd] gives a rooted path. *)
Class OSLaws `{OS} : Prop := {
  getwd_abs : forall h d, os_getwd h = Ok d -> IsAbs d = true }.

(** ** File modes: [fs.FileMode] *)

Definition ModeDir : Z := 2 ^ 31.
Definition ModeSymlink : Z := 2 ^ 27.
Definition ModeType : Z :=
  ModeDir + ModeSymlink + 2 ^ 26 + 2 ^ 25 + 2 ^ 24 + 2 ^ 21 + 2 ^ 19.
Definition IsDir (mode : Z) : bool := negb (Z.land mode ModeDir =? 0).
Definition IsRegular (mode : Z) : bool := Z.land mode ModeType =? 0.
Definition Perm (mode : Z) : Z := Z.land mode 511.

(** ** State transformers *)

Definition st (S A : Type) : Type := S -> A * S.

#[export] Instance st_ret S : MRet (st S) := fun A a s => (a, s).
#[export] Instance st_bind S : MBind (st S) :=
  fun A B k m s => let '(a, s') := m s in k a s'.

(** [let! x := m in k] returns the error of [m], if any. *)
Definition bindOk {S A B} (m : st S (result error A)) (k : A -> st S (result error B))
    : st S (result error B) :=
  fun s => match m s with
           | (Ok a, s') => k a s'
           | (Err e, s') => (Err e, s')
           end.
Notation "'let!' x := m 'in' k" := (bindOk m (fun x => k))
  (at level 10, x pattern, m at level 100, k at level 200,
   format "'let!'  x  :=  m  'in' '//' k") : go_scope.

(** [guard! m in k] returns the error of a call that gives only an error. *)
Definition bindNil {S B} (m : st S (option error)) (k : st S (result error B))
    : st S (result error B) :=
  fun s => match m s with
           | (None, s') => k s'
           | (Some e, s') => (Err e, s')
           end.
Notation "'guard!' m 'in' k" := (bindNil m k)
  (at level 10, m at level 100, k at level 200,
   format "'guard!'  m  'in' '//' k") : go_scope.

Definition lift {S A} (a : A) : st S A := fun s => (a, s).

(** [fmt.Errorf] with the error of a call. *)
Definition wrapErr (msg : string) (o : option error) : option error := option_map (ErrWrap msg) o.
Definition wrapRes {A} (msg : string) (r : result error A) : result error A :=
  match r with Ok a => Ok a | Err e => Err (ErrWrap msg e) end.
Definition wrapping {S} (msg : string) (m : st S (option error)) : st S (option error) :=
  fun s => let '(o, s') := m s in (wrapErr msg o, s').

Section os.
Context `{OS}.

Definition perform (a : act) : st (list act) (option error) := fun h => (os_act h a, h ++ [a]).
Definition ReadFile (p : string) : st (list act) (result error (list byte)) :=
  fun h => (os_read h p, h).
Definition Getwd : st (list act) (result error string) := fun h => (os_getwd h, h).
Definition Walk (p : string) : st (list act) (result error (list (string * Z))) :=
  fun h => (os_walk h p, h).
Definition Glob (p : string) : st (list act) (result error (list string)) :=
  fun h => (os_glob h p, h).
(** [os.Stat], of which the code uses the mode. *)
Definition Stat (p : string) : st (list act) (result error Z) := fun h => (os_stat h p, h).
End os.

(** ** Every effect satisfies a predicate *)

Definition emits {A} (P : act -> Prop) (m : st (list act) A) : Prop :=
  forall h, exists t, snd (m h) = h ++ t /\ Forall P t.

Section emits.
Context `{OS} (P : act -> Prop).

Lemma emits_quiet {A} (m : st (list act) A) : (forall h, snd (m h) = h) -> emits P m.
Proof. intros Hm h. exists []. rewrite Hm, app_nil_r. by split. Qed.

Lemma emits_lift {A} (a : A) : emits P (lift a).
Proof. by apply emits_quiet. Qed.

Lemma emits_perform a : P a -> emits P (perform a).
Proof. intros Ha h. exists [a]. by repeat constructor. Qed.

Lemma emits_seq {A B} (m : st (list act) A) (f : A -> list act -> B * list act) :
  emits P m -> (forall a, emits P (f a)) ->
  emits P (fun h => let '(a, h') := m h in f a h').
Proof.
  intros Hm Hf h. destruct (Hm h) as (t & Et & Ht). destruct (m h) as [a h'] eqn:E.
  simpl in Et. subst h'. destruct (Hf a (h ++ t)) as (t' & Et' & Ht').
  exists (t ++ t'). rewrite Et'. rewrite app_assoc. split; [done|]. by apply Forall_app.
Qed.

Lemma emits_bind {A B} (m : st (list act) A) (k : A -> st (list act) B) :
  emits P m -> (forall a, emits P (k a)) -> emits P (m ≫= k).
Proof. apply emits_seq. Qed.

Lemma emits_bindOk {A B} (m : st (list act) (result error A))
    (k : A -> st (list act) (result error B)) :
  emits P m -> (forall a, emits P (k a)) -> emits P (bindOk m k).
Proof.
  intros Hm Hk. apply (emits_seq m (fun r h => match r with Ok a => k a h | Err e => (Err e, h) end));
    [done|]. intros [a|e]; [apply Hk | by apply emits_quiet].
Qed.

Lemma emits_bindOk_lift {A B} (r : result error A) (k : A -> st (list act) (result error B)) :
  (forall a, r = Ok a -> emits P (k a)) -> emits P (bindOk (lift r) k).
Proof. intros Hk. destruct r as [a|e]; [by apply (Hk a)|]. intros h. exists []. by rewrite app_nil_r. Qed.

Lemma emits_bindNil {B} (m : st (list act) (option error)) (k : st (list act) (result error B)) :
  emits P m -> emits P k -> emits P (bindNil m k).
Proof.
  intros Hm Hk. apply (emits_seq m (fun r h => match r with None => k h | Some e => (Err e, h) end));
    [done|]. intros [e|]; [by apply emits_quiet | apply Hk].
Qed.

Lemma emits_wrapping msg (m : st (list act) (option error)) : emits P m -> emits P (wrapping msg m).
Proof.
  intros Hm. apply (emits_seq m (fun o h => (wrapErr msg o, h))); [done|].
  intros o. by apply emits_quiet.
Qed.

Lemma emits_if {A} (b : bool) (m n : st (list act) A) :
  emits P m -> emits P n -> emits P (if b then m else n).
Proof. by destruct b. Qed.
End emits.

Create HintDb emits.
#[export] Hint Resolve emits_lift emits_perform emits_bind emits_bindOk emits_bindNil
  emits_wrapping emits_if : emits.
#[export] Hint Extern 1 (emits _ (ReadFile _)) => by apply emits_quiet : emits.
#[export] Hint Extern 1 (emits _ Getwd) => by apply emits_quiet : emits.
#[export] Hint Extern 1 (emits _ (Walk _)) => by apply emits_quiet : emits.
#[export] Hint Extern 1 (emits _ (Glob _)) => by apply emits_quiet : emits.
#[export] Hint Extern 1 (emits _ (Stat _)) => by apply emits_quiet : emits.

(** The effects of a run that ends in [h']. *)
Lemma emits_run {A} (P : act -> Prop) (m : st (list act) A) h a h' :
  emits P m -> m h = (a, h') -> exists t, h' = h ++ t /\ Forall P t.
Proof. intros Hm E. destruct (Hm h) as (t & Et & Ht). rewrite E in Et. by exists t. Qed.
