(* ===== verification/StateMachine.v ===== *)
(** * The state machine: [agent/statemachine/state.go]

    A table of transitions, an unbuffered event channel and loops that take events from
    it.  The machine is shared by goroutines: [handleEvent] looks the transition up under
    the lock, releases it and takes it again to store the next state, and [SendEvent] reads
    the channel under the lock and sends after releasing it.  So the loops and the senders
    are modelled step by step between their locks, and a run is a list of labels that says
    which goroutine moves.  Channels are numbered: a reset closes the present pair and makes
    the next one. *)

From stdpp Require Import base gmap sets list strings.
From Stdlib Require Import ZArith Lia.
From S2P Require Import Prelude Errors.

Section machine.
Context {St Ev Act : Type} `{Countable St} `{Countable Ev}.

(** [sm_chans] is the number of the pair of channels [eventChan], [resetChan]; the pairs
    with smaller numbers are closed. *)
Record stateMachine := mkSM {
  sm_currentState : St; sm_transitions : gmap St (gmap Ev St);
  sm_actions : gmap St Act; sm_chans : nat }.

Record Transition := mkTransition { t_From : St; t_Event : Ev; t_To : St }.

(** ** Operations under the lock *)

Definition NewStateMachine (initialState : St) : stateMachine := mkSM initialState ∅ ∅ 0.

Definition AddTransition (t : Transition) (sm : stateMachine) : stateMachine :=
  mkSM (sm_currentState sm)
       (<[t_From t := <[t_Event t := t_To t]> (default ∅ (sm_transitions sm !! t_From t))]>
          (sm_transitions sm))
       (sm_actions sm) (sm_chans sm).

Definition SetAction (state : St) (action : Act) (sm : stateMachine) : stateMachine :=
  mkSM (sm_currentState sm) (sm_transitions sm) (<[state := action]> (sm_actions sm)) (sm_chans sm).

Definition GetState (sm : stateMachine) : St := sm_currentState sm.

Definition Reset (initialState : St) (sm : stateMachine) : stateMachine :=
  mkSM initialState (sm_transitions sm) (sm_actions sm) (S (sm_chans sm)).

(** [sm.transitions[s][e]]; the zero event of a closed channel is no key. *)
Definition nextState (sm : stateMachine) (s : St) (event : option Ev) : option St :=
  e ← event; sm_transitions sm !! s ≫= (.!! e).

Definition errTransition : error := ErrNew "invalid transition".

(** The two critical sections of [handleEvent]. *)
Definition handleLookup (sm : stateMachine) (event : option Ev) : result error St :=
  match nextState sm (sm_currentState sm) event with
  | Some next => Ok next
  | None => Err errTransition
  end.

Definition handleStore (next : St) (sm : stateMachine) : stateMachine * option Act :=
  (mkSM next (sm_transitions sm) (sm_actions sm) (sm_chans sm), sm_actions sm !! next).

(** [handleEvent] when no other goroutine comes between. *)
Definition handleEvent (event : option Ev) (sm : stateMachine) : result error (stateMachine * option Act) :=
  let* next := handleLookup sm event in Ok (handleStore next sm).

(** ** Goroutines *)

(** A call of [Start], by where it stands: before reading the channels, in the [select],
    with an event, between the two locks of [handleEvent], returned. *)
Inductive loop :=
| LoopTop (ctx : nat)
| LoopSelect (ctx g : nat)
| LoopEvent (ctx : nat) (event : option Ev)
| LoopNext (ctx : nat) (next : St)
| LoopEnd (err : error).

Record runtime := mkRuntime {
  rt_sm : stateMachine; rt_loops : list loop; rt_done : gset nat; rt_panic : bool }.

Definition setLoop (j : nat) (l : loop) (r : runtime) : runtime :=
  mkRuntime (rt_sm r) (<[j := l]> (rt_loops r)) (rt_done r) (rt_panic r).
Definition setSM (sm : stateMachine) (r : runtime) : runtime :=
  mkRuntime sm (rt_loops r) (rt_done r) (rt_panic r).

(** Which case of the [select] is taken; [Go] for the steps without a choice. *)
Inductive pick := Go | TakeEvent | TakeReset | TakeDone.

Definition ctxErr : error := ErrNew "context canceled".

(** One step of loop [j], with the action it starts; [None] when it cannot take it. *)
Definition loopStep (j : nat) (p : pick) (r : runtime) : option (runtime * option Act) :=
  match rt_loops r !! j, p with
  | Some (LoopTop c), Go => Some (setLoop j (LoopSelect c (sm_chans (rt_sm r))) r, None)
  | Some (LoopSelect c g), TakeEvent =>
      if (g <? sm_chans (rt_sm r))%nat then Some (setLoop j (LoopEvent c None) r, None) else None
  | Some (LoopSelect c g), TakeReset =>
      if (g <? sm_chans (rt_sm r))%nat then Some (setLoop j (LoopTop c) r, None) else None
  | Some (LoopSelect c g), TakeDone =>
      if bool_decide (c ∈ rt_done r) then Some (setLoop j (LoopEnd ctxErr) r, None) else None
  | Some (LoopEvent c event), Go =>
      match handleLookup (rt_sm r) event with
      | Ok next => Some (setLoop j (LoopNext c next) r, None)
      | Err e => Some (setLoop j (LoopEnd e) r, None)
      end
  | Some (LoopNext c next), Go =>
      let '(sm, action) := handleStore next (rt_sm r) in
      Some (setLoop j (LoopTop c) (setSM sm r), action)
  | _, _ => None
  end.

(** A loop ready to receive on the channel with number [g]. *)
Definition waitsOn (g : nat) (l : loop) : bool :=
  match l with LoopSelect _ g' => (g =? g')%nat | _ => false end.

(** [SendEvent] reads the number of the channel, then runs its [select]: the send on a
    closed channel panics, a waiting loop takes the event, and the event is dropped when
    no loop waits. *)
Definition sendRead (r : runtime) : nat := sm_chans (rt_sm r).

Definition sendSelect (g : nat) (event : Ev) (to : option nat) (r : runtime) : option runtime :=
  if (g <? sm_chans (rt_sm r))%nat then Some (mkRuntime (rt_sm r) (rt_loops r) (rt_done r) true)
  else match to with
       | Some j => match rt_loops r !! j with
                   | Some (LoopSelect c g') =>
                       if (g =? g')%nat then Some (setLoop j (LoopEvent c (Some event)) r) else None
                   | _ => None
                   end
       | None => if existsb (waitsOn g) (rt_loops r) then None else Some r
       end.

Definition startLoop (ctx : nat) (r : runtime) : runtime :=
  mkRuntime (rt_sm r) (rt_loops r ++ [LoopTop ctx]) (rt_done r) (rt_panic r).
Definition cancelCtx (ctx : nat) (r : runtime) : runtime :=
  mkRuntime (rt_sm r) (rt_loops r) ({[ctx]} ∪ rt_done r) (rt_panic r).

(** ** Runs *)

Inductive label :=
| MLoop (j : nat) (p : pick)
| MSend (g : nat) (event : Ev) (to : option nat)
| MStart (ctx : nat)
| MReset (s : St)
| MCancel (ctx : nat).

Definition mstep (l : label) (r : runtime) : option runtime :=
  if rt_panic r then None else
  match l with
  | MLoop j p => fst <$> loopStep j p r
  | MSend g event to => sendSelect g event to r
  | MStart ctx => Some (startLoop ctx r)
  | MReset s => Some (setSM (Reset s (rt_sm r)) r)
  | MCancel ctx => Some (cancelCtx ctx r)
  end.

Fixpoint mrun (ls : list label) (r : runtime) : option runtime :=
  match ls with [] => Some r | l :: t => mstep l r ≫= mrun t end.
End machine.

Arguments stateMachine St Ev Act {_ _ _ _}.
Arguments loop St Ev : clear implicits.
Arguments runtime St Ev Act {_ _ _ _}.
Arguments label St Ev : clear implicits.
Arguments Transition St Ev : clear implicits.

Section machine_proofs.
Context {St Ev Act : Type} `{Countable St} `{Countable Ev}.
Implicit Types (sm : stateMachine St Ev Act) (r : runtime St Ev Act) (l : label St Ev).

Lemma lookup_AddTransition t sm s e :
  nextState (AddTransition t sm) s (Some e) =
  if bool_decide (s = t_From t /\ e = t_Event t) then Some (t_To t) else nextState sm s (Some e).
Proof.
  unfold nextState. simpl. destruct (decide (s = t_From t)) as [->|Hs].
  - rewrite lookup_insert, decide_True by done. simpl. case_bool_decide as Hc.
    + destruct Hc as [_ ->]. by rewrite lookup_insert, decide_True.
    + rewrite lookup_insert_ne by naive_solver. by destruct (sm_transitions sm !! t_From t).
  - rewrite lookup_insert_ne by done. rewrite bool_decide_eq_false_2 by naive_solver. done.
Qed.

(** ** The state follows the table *)

Definition tableStep (tr : gmap St (gmap Ev St)) (s s' : St) : Prop :=
  exists e, tr !! s ≫= (.!! e) = Some s'.

(** One loop; what it is about to store is one step from the current state. *)
Definition onTable (tr : gmap St (gmap Ev St)) (s0 : St) (r : runtime St Ev Act) : Prop :=
  sm_transitions (rt_sm r) = tr /\ rtc (tableStep tr) s0 (sm_currentState (rt_sm r)) /\
  exists lp, rt_loops r = [lp] /\
    forall c next, lp = LoopNext c next -> tableStep tr (sm_currentState (rt_sm r)) next.

(** Neither a reset nor a new loop. *)
Definition tame l : bool := match l with MReset _ | MStart _ => false | _ => true end.

Lemma onTable_set tr s0 r lp :
  onTable tr s0 r -> (forall c next, lp = LoopNext c next -> tableStep tr (sm_currentState (rt_sm r)) next) ->
  onTable tr s0 (setLoop 0 lp r).
Proof.
  intros (Ht & Hr & lp0 & El & _) Hlp. split; [done|]. split; [done|]. exists lp. simpl. rewrite El. done.
Qed.

Lemma onTable_loop tr s0 r j p r' a :
  onTable tr s0 r -> loopStep j p r = Some (r', a) -> onTable tr s0 r'.
Proof.
  intros HI. pose proof HI as (Ht & Hr & lp & El & Hn). unfold loopStep. rewrite El.
  destruct j as [|j]; [|by destruct p]. simpl.
  destruct lp as [c|c g|c ev|c next|e]; destruct p; try done.
  - intros [= <- _]. by apply onTable_set.
  - case_goal; [|done]. intros [= <- _]. by apply onTable_set.
  - case_goal; [|done]. intros [= <- _]. by apply onTable_set.
  - case_bool_decide; [|done]. intros [= <- _]. by apply onTable_set.
  - unfold handleLookup. destruct (nextState _ _ ev) as [next|] eqn:En; intros [= <- _];
      [|by apply onTable_set].
    apply onTable_set; [done|]. intros c' n [= <- <-]. destruct ev as [e|]; [|done].
    exists e. by rewrite <- Ht.
  - intros [= <- _]. split; [done|]. split.
    + simpl. eapply rtc_r; [done|]. by eapply Hn.
    + eexists. simpl. rewrite El. split; [done|]. intros. discriminate.
Qed.

Lemma onTable_step tr s0 l r r' :
  tame l = true -> onTable tr s0 r -> mstep l r = Some r' -> onTable tr s0 r'.
Proof.
  intros Hl HI. unfold mstep. case_goal; [done|]. destruct l as [j p|g e to| | |ctx]; try done.
  - destruct (loopStep j p r) as [[r1 a]|] eqn:E; [|done]. intros [= <-]. by eapply onTable_loop.
  - unfold sendSelect. case_goal; [by intros [= <-]|]. destruct to as [j|].
    + destruct HI as (Ht & Hr & lp & El & Hn). rewrite El.
      destruct j as [|j]; [|done]. simpl. destruct lp; try done. case_goal; [|done]. intros [= <-].
      apply onTable_set; [|done]. by split; [|split; [|eexists]].
    + case_goal; [done|]. by intros [= <-].
  - by intros [= <-].
Qed.

(** With one loop and no reset, the machine is only ever in a state that the table
    reaches from the initial state, in whatever order the loop and the senders run. *)
Theorem single_loop_follows_table tr s0 ls r r' :
  Forall (fun l => tame l = true) ls -> onTable tr s0 r -> mrun ls r = Some r' ->
  rtc (tableStep tr) s0 (sm_currentState (rt_sm r')).
Proof.
  intros Hls HI Hrun. cut (onTable tr s0 r'); [by intros (_ & ? & _)|].
  revert r HI Hrun. induction Hls as [|l ls Hl _ IH]; intros r HI Hrun; [by injection Hrun as <-|].
  simpl in Hrun. destruct (mstep l r) as [r1|] eqn:E; [|done]. eapply IH; [|done].
  by eapply onTable_step.
Qed.

(** ** A machine whose loops have returned *)

Definition ended (lp : loop St Ev) : Prop := exists e, lp = LoopEnd e.

Lemma ended_step l r r' :
  tame l = true -> Forall ended (rt_loops r) -> mstep l r = Some r' ->
  Forall ended (rt_loops r') /\ sm_currentState (rt_sm r') = sm_currentState (rt_sm r).
Proof.
  intros Hl HF. unfold mstep. case_goal; [done|]. destruct l as [j p|g e to| | |ctx]; try done.
  - unfold loopStep. destruct (rt_loops r !! j) as [lp|] eqn:Ej; [|by destruct p].
    destruct (proj1 (Forall_lookup _ _) HF j lp Ej) as [err ->]. by destruct p.
  - unfold sendSelect. case_goal; [by intros [= <-]|]. destruct to as [j|].
    + destruct (rt_loops r !! j) as [lp|] eqn:Ej; [|done].
      by destruct (proj1 (Forall_lookup _ _) HF j lp Ej) as [err ->].
    + case_goal; [done|]. by intros [= <-].
  - by intros [= <-].
Qed.

(** Once its loops have returned the machine keeps its state whatever is sent to it,
    until it is reset. *)
Theorem ended_machine_frozen ls r r' :
  Forall (fun l => tame l = true) ls -> Forall ended (rt_loops r) -> mrun ls r = Some r' ->
  sm_currentState (rt_sm r') = sm_currentState (rt_sm r).
Proof.
  intros Hls. revert r. induction Hls as [|l ls Hl _ IH]; intros r HF Hrun; [by injection Hrun as <-|].
  simpl in Hrun. destruct (mstep l r) as [r1|] eqn:E; [|done].
  destruct (ended_step l r r1 Hl HF E) as [HF1 E1]. rewrite <- E1. by apply IH.
Qed.
(** ** Single events *)

Lemma mstep_loop j p r : rt_panic r = false -> mstep (MLoop j p) r = fst <$> loopStep j p r.
Proof. intros Hp. unfold mstep. by rewrite Hp. Qed.

Lemma mrun_reset s ls r :
  rt_panic r = false -> mrun (MReset s :: ls) r = mrun ls (setSM (Reset s (rt_sm r)) r).
Proof. intros Hp. cbn [mrun]. unfold mstep. by rewrite Hp. Qed.

Lemma loop_at j lp r : (j < length (rt_loops r))%nat -> rt_loops (setLoop j lp r) !! j = Some lp.
Proof. intros. simpl. by rewrite list_lookup_insert_eq. Qed.

(** An event sent while loop [j] waits is processed: if the table has a transition, three
    steps of the loop store the next state, start its action and bring the loop back to
    where it waits; if it has none, one step ends the loop with the state unchanged. *)
Theorem event_processed j c event r :
  rt_panic r = false -> rt_loops r !! j = Some (LoopSelect c (sendRead r)) ->
  match nextState (rt_sm r) (sm_currentState (rt_sm r)) (Some event) with
  | Some next =>
      exists r', mrun [MSend (sendRead r) event (Some j); MLoop j Go; MLoop j Go; MLoop j Go] r = Some r' /\
        rt_loops r' !! j = Some (LoopSelect c (sendRead r')) /\ sm_currentState (rt_sm r') = next /\
        handleEvent (Some event) (rt_sm r) = Ok (rt_sm r', sm_actions (rt_sm r) !! next)
  | None =>
      exists r', mrun [MSend (sendRead r) event (Some j); MLoop j Go] r = Some r' /\
        rt_loops r' !! j = Some (LoopEnd errTransition) /\ rt_sm r' = rt_sm r
  end.
Proof.
  intros Hp Hj. pose proof (lookup_lt_Some _ _ _ Hj) as Hlt.
  assert (Hsend : mstep (MSend (sendRead r) event (Some j)) r = Some (setLoop j (LoopEvent c (Some event)) r)).
  { unfold mstep, sendSelect, sendRead in *. rewrite Hp, Nat.ltb_irrefl, Hj, Nat.eqb_refl. done. }
  set (r1 := setLoop j (LoopEvent c (Some event)) r) in *.
  destruct (nextState _ _ _) as [next|] eqn:En; cbn [mrun]; rewrite Hsend; cbn [mbind option_bind];
    rewrite mstep_loop by done; unfold loopStep; unfold r1 at 1; rewrite loop_at by done;
    unfold handleLookup; unfold r1 at 1 2; simpl rt_sm; rewrite En; cbn [fmap option_fmap option_map fst mbind option_bind].
  - set (r2 := setLoop j (LoopNext c next) r1).
    rewrite mstep_loop by done. unfold loopStep. unfold r2 at 1.
    rewrite loop_at by (simpl; by rewrite length_insert).
    cbn [handleStore fmap option_fmap option_map fst mbind option_bind].
    match goal with |- context [setLoop j (LoopTop c) ?x] => set (r3 := x) end.
    rewrite mstep_loop by done. unfold loopStep.
    rewrite loop_at by (simpl; by rewrite !length_insert). cbn [fmap option_fmap option_map fst].
    eexists. split; [reflexivity|]. rewrite loop_at by (simpl; by rewrite !length_insert).
    split; [done|]. split; [done|]. unfold handleEvent, handleLookup. by rewrite En.
  - eexists. split; [reflexivity|]. rewrite loop_at by (simpl; by rewrite !length_insert). done.
Qed.

(** [SendEvent] on a machine that is reset between the reading of the channel and the
    send panics, whoever waits, although the comment says that a closed channel is ignored. *)
Theorem overtaken_send_panics event to s r :
  rt_panic r = false ->
  exists r', mrun [MReset s; MSend (sendRead r) event to] r = Some r' /\ rt_panic r' = true.
Proof.
  intros Hp. rewrite mrun_reset by done. cbn [mrun]. unfold mstep. cbn [setSM rt_panic]. rewrite Hp.
  unfold sendSelect, sendRead. simpl. rewrite (proj2 (Nat.ltb_lt _ _)) by lia. by eexists.
Qed.

(** A reset between the two locks of [handleEvent] is lost: the loop stores the state it
    looked up before, and the machine is not in the initial state afterwards. *)
Theorem reset_overwritten j c next s r :
  rt_panic r = false -> rt_loops r !! j = Some (LoopNext c next) ->
  exists r', mrun [MReset s; MLoop j Go] r = Some r' /\ sm_currentState (rt_sm r') = next.
Proof.
  intros Hp Hj. rewrite mrun_reset by done. cbn [mrun]. rewrite mstep_loop by done.
  unfold loopStep. cbn [setSM rt_loops]. rewrite Hj. by eexists.
Qed.

(** A loop that waits when the machine is reset may take the closed event channel instead
    of the reset channel, and then returns an error instead of going on. *)
Theorem reset_may_end_loop j c s r :
  rt_panic r = false -> rt_loops r !! j = Some (LoopSelect c (sendRead r)) ->
  exists r', mrun [MReset s; MLoop j TakeEvent; MLoop j Go] r = Some r' /\
    rt_loops r' !! j = Some (LoopEnd errTransition) /\ sm_currentState (rt_sm r') = s.
Proof.
  intros Hp Hj. pose proof (lookup_lt_Some _ _ _ Hj) as Hlt. unfold sendRead in Hj.
  rewrite mrun_reset by done. cbn [mrun]. rewrite mstep_loop by done. unfold loopStep.
  cbn [setSM rt_loops rt_sm Reset sm_chans]. rewrite Hj, (proj2 (Nat.ltb_lt _ _)) by lia.
  cbn [fmap option_fmap option_map fst mbind option_bind]. rewrite mstep_loop by done. unfold loopStep.
  rewrite loop_at by done. unfold handleLookup, nextState.
  cbn [fmap option_fmap option_map fst mbind option_bind]. eexists. split; [reflexivity|].
  rewrite loop_at by (simpl; by rewrite !length_insert). done.
Qed.
End machine_proofs.

(** ** Witnesses: a machine with the states 0, 1 and the transition from 0 to 1 *)

Module MachineSample.
Definition sm : stateMachine nat nat nat :=
  SetAction 1%nat 7%nat (AddTransition (mkTransition 0 5 1)%nat (NewStateMachine 0%nat)).
(** One loop that waits, and one that is about to store the next state. *)
Definition waiting : runtime nat nat nat := mkRuntime sm [LoopSelect 0 0] ∅ false.
Definition storing : runtime nat nat nat := mkRuntime sm [LoopNext 0 1%nat] ∅ false.
Definition dead : runtime nat nat nat := mkRuntime sm [LoopEnd errTransition] ∅ false.
End MachineSample.
Import MachineSample.

Lemma single_loop_follows_table_witness :
  exists r, mrun [MSend 0 5%nat (Some 0%nat); MLoop 0 Go; MLoop 0 Go] waiting = Some r /\
    rtc (tableStep (sm_transitions sm)) 0%nat (sm_currentState (rt_sm r)).
Proof.
  eexists. split; [vm_compute; reflexivity|].
  apply (single_loop_follows_table _ 0%nat [MSend 0 5%nat (Some 0%nat); MLoop 0 Go; MLoop 0 Go] waiting).
  - by repeat constructor.
  - split; [done|]. split; [constructor|]. eexists. by split.
  - vm_compute. reflexivity.
Defined.

Lemma ended_machine_frozen_witness :
  exists r, mrun [MSend 0 5%nat None; MCancel 3] dead = Some r /\ sm_currentState (rt_sm r) = 0%nat.
Proof.
  eexists. split; [vm_compute; reflexivity|].
  apply (ended_machine_frozen [MSend 0 5%nat None; MCancel 3] dead).
  - by repeat constructor.
  - repeat constructor. by eexists.
  - vm_compute. reflexivity.
Defined.

Lemma event_processed_witness :
  exists r, mrun [MSend 0 5%nat (Some 0%nat); MLoop 0 Go; MLoop 0 Go; MLoop 0 Go] waiting = Some r /\
    sm_currentState (rt_sm r) = 1%nat.
Proof.
  destruct (event_processed 0 0 5%nat waiting eq_refl eq_refl) as (r & E & _ & Hs & _). by exists r.
Defined.

Lemma overtaken_send_panics_witness :
  exists r, mrun [MReset 0%nat; MSend 0 5%nat (Some 0%nat)] waiting = Some r /\ rt_panic r = true.
Proof. by apply (overtaken_send_panics 5%nat (Some 0%nat) 0%nat waiting). Defined.

Lemma reset_overwritten_witness :
  exists r, mrun [MReset 0%nat; MLoop 0 Go] storing = Some r /\ sm_currentState (rt_sm r) = 1%nat.
Proof. by apply (reset_overwritten 0 0 1%nat 0%nat storing). Defined.

Lemma reset_may_end_loop_witness :
  exists r, mrun [MReset 0%nat; MLoop 0 TakeEvent; MLoop 0 Go] waiting = Some r /\
    rt_loops r !! 0%nat = Some (LoopEnd errTransition) /\ sm_currentState (rt_sm r) = 0%nat.
Proof. by apply (reset_may_end_loop 0 0 0%nat waiting). Defined.
