(* ===== verification/GoTime.v ===== *)
(** * [time.Parse] with [time.RFC3339Nano]

    The layout is [2006-01-02T15:04:05.999999999Z07:00].  The parser follows the
    layout chunk by chunk, with the liberties [time.Parse] takes: a one-digit hour, a
    comma or a period before the fraction, a fraction of any length of which nine
    digits count, and a zone of up to 24 hours and 60 minutes. *)

From stdpp Require Import base list strings.
From Stdlib Require Import ZArith Lia.
From S2P Require Import Prelude GoStrings Errors.

Definition errTimeParse : error := ErrNew "time.ParseError".

Definition digit (c : Z) : option Z := if inRange 48 57 c then Some (c - 48) else None.

(** Exactly [n] digits. *)
Fixpoint digitsN (n : nat) (acc : Z) (s : list Z) : option (Z * list Z) :=
  match n with
  | O => Some (acc, s)
  | S n =>
      match s with
      | c :: t => match digit c with Some d => digitsN n (10 * acc + d) t | None => None end
      | [] => None
      end
  end.

(** [getnum] without the fixed width: one digit or two. *)
Definition getnum (s : list Z) : option (Z * list Z) :=
  match digitsN 2 0 s with Some r => Some r | None => digitsN 1 0 s end.

Definition expect (c : Z) (s : list Z) : option (list Z) :=
  match s with x :: t => if x =? c then Some t else None | [] => None end.

(** The digits of a fraction, the first nine of them as nanoseconds. *)
Fixpoint fractionDigits (n : nat) (acc : Z) (s : list Z) : Z * list Z :=
  match s with
  | c :: t =>
      match digit c with
      | Some d =>
          match n with
          | O => fractionDigits O acc t
          | S n' => fractionDigits n' (acc + d * 10 ^ Z.of_nat n') t
          end
      | None => (acc, s)
      end
  | [] => (acc, [])
  end.

Definition fraction (s : list Z) : Z * list Z :=
  match s with
  | p :: c :: t =>
      if ((p =? 46) || (p =? 44)) && inRange 48 57 c then fractionDigits 9 0 (c :: t) else (0, s)
  | _ => (0, s)
  end.

(** The offset in seconds. *)
Definition zone (s : list Z) : option (Z * list Z) :=
  match s with
  | c :: t =>
      if c =? 90 then Some (0, t)
      else if (c =? 43) || (c =? 45) then
        match digitsN 2 0 t with
        | Some (hr, t1) =>
            match expect 58 t1 with
            | Some t2 =>
                match digitsN 2 0 t2 with
                | Some (mm, t3) =>
                    if (24 <? hr) || (60 <? mm) then None
                    else Some ((if c =? 43 then 1 else -1) * (hr * 60 + mm) * 60, t3)
                | None => None
                end
            | None => None
            end
        | None => None
        end
      else None
  | [] => None
  end.

Definition isLeap (y : Z) : bool :=
  (y mod 4 =? 0) && (negb (y mod 100 =? 0) || (y mod 400 =? 0)).

Definition daysIn (m y : Z) : Z :=
  if m =? 2 then (if isLeap y then 29 else 28)
  else if (m =? 4) || (m =? 6) || (m =? 9) || (m =? 11) then 30 else 31.

(** Days from the first day of year 1 to the first of the month. *)
Definition daysToYear (y : Z) : Z :=
  let p := y - 1 in 365 * p + p / 4 - p / 100 + p / 400.

Fixpoint daysToMonth (n : nat) (y : Z) : Z :=
  match n with O => 0 | S k => daysToMonth k y + daysIn (Z.of_nat n) y end.

(** [time.Date] in UTC, seconds from the zero time. *)
Definition dateSeconds (y mo d h mi sec : Z) : Z :=
  (daysToYear y + daysToMonth (Z.to_nat (mo - 1)) y + (d - 1)) * 86400 + h * 3600 + mi * 60 + sec.

Record stamp := mkStamp {
  ts_year : Z; ts_month : Z; ts_day : Z; ts_hour : Z; ts_min : Z; ts_sec : Z; ts_nsec : Z;
  ts_offset : Z }.

Definition scanStamp (s : list Z) : option stamp :=
  '(y, s) ← digitsN 4 0 s; s ← expect 45 s;
  '(mo, s) ← digitsN 2 0 s; s ← expect 45 s;
  '(d, s) ← digitsN 2 0 s; s ← expect 84 s;
  '(h, s) ← getnum s; s ← expect 58 s;
  '(mi, s) ← digitsN 2 0 s; s ← expect 58 s;
  '(sec, s) ← digitsN 2 0 s;
  let (nsec, s) := fraction s in
  '(off, s) ← zone s;
  match s with [] => Some (mkStamp y mo d h mi sec nsec off) | _ => None end.

Definition stampValid (t : stamp) : bool :=
  inRange 1 12 (ts_month t) && inRange 1 (daysIn (ts_month t) (ts_year t)) (ts_day t)
  && (ts_hour t <? 24) && (ts_min t <? 60) && (ts_sec t <? 60).

Definition stampTime (t : stamp) : Time :=
  (dateSeconds (ts_year t) (ts_month t) (ts_day t) (ts_hour t) (ts_min t) (ts_sec t) - ts_offset t)
  * Second + ts_nsec t.

Definition parseRFC3339Nano (value : string) : result error Time :=
  match scanStamp (codes value) with
  | Some t => if stampValid t then Ok (stampTime t) else Err errTimeParse
  | None => Err errTimeParse
  end.

(** The epoch, a leap day, a zone with a comma fraction, and refusals. *)
Example parse_vectors :
  parseRFC3339Nano "1970-01-01T00:00:00Z" = Ok (timeUnix 0)
  /\ parseRFC3339Nano "2024-02-29T23:59:59.25+01:30" = Ok (timeUnix 1709245799 + 250000000)
  /\ parseRFC3339Nano "2024-03-01T1:00:00,1234567899-24:60" = Ok (timeUnix 1709344800 + 123456789)
  /\ parseRFC3339Nano "2023-02-29T00:00:00Z" = Err errTimeParse
  /\ parseRFC3339Nano "2024-02-29T00:00:00" = Err errTimeParse
  /\ parseRFC3339Nano "2024-02-29T00:00:60Z" = Err errTimeParse.
Proof. vm_compute. by split_and!. Qed.
