(* ===== verification/GoNumbers.v ===== *)
(** * Numbers in text: [strconv] and [time.ParseDuration]

    Decimal integers of 64 bits, with the errors of [strconv.Atoi], and durations.  A
    fraction of a duration goes through [float64] in Go; the model uses the executable
    semantics of binary64 of the Standard Library. *)

From stdpp Require Import base list strings.
From Stdlib Require Import ZArith Lia Floats.SpecFloat.
From S2P Require Import Prelude GoStrings Errors.

(** ** Decimal integers *)

Definition isDigit (c : Z) : bool := inRange 48 57 c.

Fixpoint digitsFuel (n : nat) (z : Z) (acc : list Z) : list Z :=
  match n with
  | O => acc
  | S n => if z <? 10 then (48 + z) :: acc else digitsFuel n (z / 10) ((48 + z mod 10) :: acc)
  end.

(** Twenty digits are enough for 64 bits. *)
Definition Itoa (z : Z) : string :=
  ofCodes (if z <? 0 then 45 :: digitsFuel 20 (- z) [] else digitsFuel 20 z []).

Definition errSyntax : error := ErrNew "strconv.ErrSyntax".
Definition errRange : error := ErrNew "strconv.ErrRange".

Definition value (acc : Z) (ds : list Z) : Z := foldl (fun a c => a * 10 + (c - 48)) acc ds.

Definition Atoi (s : string) : result error Z :=
  let '(neg, ds) :=
    match codes s with
    | 45 :: t => (true, t)
    | 43 :: t => (false, t)
    | t => (false, t)
    end in
  if bool_decide (ds = []) || negb (forallb isDigit ds) then Err errSyntax
  else
    let z := (if neg : bool then -1 else 1) * value 0 ds in
    if (z <? minInt64) || (maxInt64 <? z) then Err errRange else Ok z.

(** ** Durations *)

Definition errDuration : error := ErrNew "time: invalid duration".

Definition unitOf (u : list Z) : option Z :=
  if bool_decide (u = [110; 115]) then Some 1
  else if bool_decide (u = [117; 115]) || bool_decide (u = [194; 181; 115])
          || bool_decide (u = [206; 188; 115]) then Some 1000
  else if bool_decide (u = [109; 115]) then Some 1000000
  else if bool_decide (u = [115]) then Some 1000000000
  else if bool_decide (u = [109]) then Some 60000000000
  else if bool_decide (u = [104]) then Some 3600000000000
  else None.

(** [leadingInt]: an error when the number exceeds [1<<63]. *)
Fixpoint leadingInt (x : Z) (s : list Z) : option (Z * list Z) :=
  match s with
  | c :: t =>
      if negb (isDigit c) then Some (x, s)
      else if 2 ^ 63 / 10 <? x then None
      else let x := x * 10 + (c - 48) in
           if 2 ^ 63 <? x then None else leadingInt x t
  | [] => Some (x, [])
  end.

(** [leadingFraction]: digits past the precision are dropped; the last number counts
    the digits kept. *)
Fixpoint leadingFraction (overflow : bool) (x : Z) (k : nat) (s : list Z) : Z * nat * list Z :=
  match s with
  | c :: t =>
      if negb (isDigit c) then (x, k, s)
      else if overflow then leadingFraction true x k t
      else if (2 ^ 63 - 1) / 10 <? x then leadingFraction true x k t
      else let y := x * 10 + (c - 48) in
           if 2 ^ 63 <? y then leadingFraction true x k t
           else leadingFraction false y (S k) t
  | [] => (x, k, [])
  end.

Definition float64 (z : Z) : spec_float := binary_normalize 53 1024 z 0 false.

Definition truncate (f : spec_float) : Z :=
  match f with
  | S754_finite _ m e => Z.shiftl (Zpos m) e
  | _ => 0
  end.

(** [uint64(float64(f) * (float64(unit) / scale))] with [scale] the power of ten. *)
Definition fractionOf (f : Z) (k : nat) (unit : Z) : Z :=
  let scale := Nat.iter k (fun s => SFmul 53 1024 s (float64 10)) (float64 1) in
  truncate (SFmul 53 1024 (float64 f) (SFdiv 53 1024 (float64 unit) scale)).

Fixpoint spanUnit (s : list Z) : list Z * list Z :=
  match s with
  | c :: t => if (c =? 46) || isDigit c then ([], s)
              else let '(u, r) := spanUnit t in (c :: u, r)
  | [] => ([], [])
  end.

(** One number with its unit. *)
Definition durationItem (s : list Z) : option (Z * list Z) :=
  match s with
  | [] => None
  | c :: _ =>
      if negb ((c =? 46) || isDigit c) then None
      else
        '(v, r) ← leadingInt 0 s;
        let pre := negb (length r =? length s)%nat in
        let '(f, k, r', post) :=
          match r with
          | 46 :: t => let '(f, k, r') := leadingFraction false 0 0 t in
                       (f, k, r', negb (length r' =? length t)%nat)
          | _ => (0, 0%nat, r, false)
          end in
        if negb pre && negb post then None
        else
          let '(u, rest) := spanUnit r' in
          unit ← unitOf u;
          if 2 ^ 63 / unit <? v then None
          else
            let v := v * unit in
            if 0 <? f then
              let v := v + fractionOf f k unit in
              if 2 ^ 63 <? v then None else Some (v, rest)
            else Some (v, rest)
  end.

Fixpoint durationItems (n : nat) (d : Z) (s : list Z) : option Z :=
  match n, s with
  | _, [] => Some d
  | O, _ => None
  | S n, _ =>
      '(v, rest) ← durationItem s;
      if 2 ^ 63 <? d + v then None else durationItems n (d + v) rest
  end.

Definition ParseDuration (s : string) : result error Duration :=
  let '(neg, s) :=
    match codes s with
    | 45 :: t => (true, t)
    | 43 :: t => (false, t)
    | t => (false, t)
    end in
  if bool_decide (s = [48]) then Ok 0
  else if bool_decide (s = []) then Err errDuration
  else
    match durationItems (length s) 0 s with
    | None => Err errDuration
    | Some d =>
        if neg : bool then Ok (- d)
        else if 2 ^ 63 - 1 <? d then Err errDuration else Ok d
    end.

(** ** The decimal printer and its reader *)

Lemma value_app acc a b : value acc (a ++ b) = value (value acc a) b.
Proof. apply foldl_app. Qed.

Lemma isDigit_digit z : 0 <= z < 10 -> isDigit (48 + z) = true.
Proof. intros Hz. unfold isDigit, inRange. apply andb_true_intro. split; lia. Qed.

(** The digits printed have the value, and the rest is kept. *)
Lemma digitsFuel_spec n : forall z acc,
  0 <= z < 10 ^ Z.of_nat (S n) ->
  exists ds, digitsFuel (S n) z acc = ds ++ acc /\ ds <> [] /\
             Forall (fun c => isDigit c = true) ds /\ value 0 ds = z.
Proof.
  induction n as [|n IH]; intros z acc Hz; cbn [digitsFuel];
    destruct (Z.ltb_spec z 10) as [Hs|Hb].
  1, 3: exists [48 + z]; split_and!; [done..| |cbn; lia];
        constructor; [apply isDigit_digit; lia | constructor].
  { change (10 ^ Z.of_nat 1) with 10 in Hz. lia. }
  destruct (IH (z / 10) ((48 + z mod 10) :: acc)) as (ds & E & _ & Hd & Hv).
  { rewrite Nat2Z.inj_succ, Z.pow_succ_r in Hz by lia.
    split; [apply Z.div_pos; lia | apply Z.div_lt_upper_bound; lia]. }
  exists (ds ++ [48 + z mod 10]). rewrite <- app_assoc. split_and!.
  - exact E.
  - by destruct ds.
  - apply Forall_app; split; [done|]. constructor; [|constructor].
    apply isDigit_digit, Z.mod_pos_bound; lia.
  - rewrite value_app, Hv. cbn. pose proof (Z.div_mod z 10). lia.
Qed.

Lemma isDigit_range c : isDigit c = true -> 48 <= c <= 57.
Proof. unfold isDigit, inRange. intros H. bool_to_prop. lia. Qed.

Lemma digits_codes ds : Forall (fun c => isDigit c = true) ds -> codes (ofCodes ds) = ds.
Proof.
  intros Hd. apply codes_ofCodes. eapply Forall_impl; [exact Hd|].
  intros c Hc%isDigit_range. lia.
Qed.

(** What [Itoa] prints of a natural number. *)
Lemma Itoa_digits z : 0 <= z <= maxInt64 ->
  exists ds, codes (Itoa z) = ds /\ ds <> [] /\
             Forall (fun c => isDigit c = true) ds /\ value 0 ds = z.
Proof.
  intros Hz. destruct (digitsFuel_spec 19 z []) as (ds & E & Hn & Hd & Hv).
  { unfold maxInt64 in Hz. change (10 ^ Z.of_nat 20) with 100000000000000000000. lia. }
  exists ds. split_and!; try done. unfold Itoa.
  destruct (Z.ltb_spec z 0); [lia|]. rewrite E, app_nil_r. by apply digits_codes.
Qed.

(** A run of digits in range is read back. *)
Lemma Atoi_digits s :
  codes s <> [] -> Forall (fun c => isDigit c = true) (codes s) ->
  0 <= value 0 (codes s) <= maxInt64 -> Atoi s = Ok (value 0 (codes s)).
Proof.
  intros Hn Hd Hr. unfold Atoi.
  destruct (codes s) as [|c t] eqn:Ec; [done|].
  pose proof (isDigit_range c (Forall_inv Hd)) as Hc.
  assert ((match c :: t with
           | 45 :: t => (true, t) | 43 :: t => (false, t) | t => (false, t) end) = (false, c :: t)) as ->.
  { destruct c as [|p|p]; try lia. do 6 (destruct p as [p|p|]; try lia; try done). }
  rewrite bool_decide_eq_false_2 by done.
  rewrite (proj2 (forallb_forall isDigit (c :: t)) (proj1 (List.Forall_forall _ _) Hd)).
  cbn [orb negb]. rewrite Z.mul_1_l. unfold minInt64.
  destruct (Z.ltb_spec (value 0 (c :: t)) (-9223372036854775808)); [lia|].
  destruct (Z.ltb_spec maxInt64 (value 0 (c :: t))); [lia|]. done.
Qed.

Lemma digitsFuel_ascii n : forall z acc,
  0 <= z -> Forall (fun c => 0 <= c < 128) acc ->
  Forall (fun c => 0 <= c < 128) (digitsFuel n z acc).
Proof.
  induction n as [|n IH]; intros z acc Hz Ha; cbn [digitsFuel]; [done|].
  destruct (Z.ltb_spec z 10).
  - constructor; [lia|done].
  - pose proof (Z.mod_pos_bound z 10 ltac:(lia)).
    apply IH; [apply Z.div_pos; lia|]. constructor; [lia|done].
Qed.

(** Every printed number is ASCII text. *)
Lemma Itoa_ascii z : Forall (fun c => c < 128) (codes (Itoa z)).
Proof.
  assert (Ha : Forall (fun c => 0 <= c < 128)
                 (if z <? 0 then 45 :: digitsFuel 20 (- z) [] else digitsFuel 20 z [])).
  { destruct (Z.ltb_spec z 0); [constructor; [lia|]|]; apply digitsFuel_ascii; (lia || constructor). }
  unfold Itoa. rewrite codes_ofCodes; (eapply Forall_impl; [exact Ha|]); clear Ha; intros c Hc;
    cbv beta in Hc; lia.
Qed.
