(* ===== verification/IdentityPolicy.v ===== *)
(** * Identity policy: [pkg/atls/identitypolicy/policy.go]

    The verifier-local policy gate.  [Values] are the D3-D6 identity values,
    [Binding] the session-binding values, [Policy] the expected values with the
    layers that are required.  [Validate] compares observed values with the
    policy and [ValidateAssertion] also compares the session binding.

    The abstract specification is [policyAccepts] (and [bindingAccepts],
    [assertionAccepts]): what a caller may conclude from a nil error.  The
    refinement theorems say that the code returns nil exactly when it holds, so
    every missing, unsafe, oversized or different value is a rejection. *)

From stdpp Require Import base gmap sets list strings.
From Stdlib Require Import ZArith Lia.
From S2P Require Import Prelude GoStrings Errors.

(** ** Sentinels and constants *)

Definition ErrMissingExpected := ErrNew "identitypolicy.ErrMissingExpected".
Definition ErrMissingObserved := ErrNew "identitypolicy.ErrMissingObserved".
Definition ErrMismatch := ErrNew "identitypolicy.ErrMismatch".
Definition ErrInvalidMode := ErrNew "identitypolicy.ErrInvalidMode".
Definition ErrUnsafeValue := ErrNew "identitypolicy.ErrUnsafeValue".
Definition ErrValueTooLong := ErrNew "identitypolicy.ErrValueTooLong".
Definition ErrTooManyValues := ErrNew "identitypolicy.ErrTooManyValues".
Definition ErrMissingBinding := ErrNew "identitypolicy.ErrMissingBinding".
Definition ErrExpiredAssertion := ErrNew "identitypolicy.ErrExpiredAssertion".
Definition ErrFutureAssertion := ErrNew "identitypolicy.ErrFutureAssertion".

Definition LayerL3 : string := "L3".
Definition LayerL4 : string := "L4".
Definition LayerL5 : string := "L5".
Definition LayerL6 : string := "L6".

Definition ModeDefault : string := "".
Definition ModeDisabled : string := "disabled".
Definition ModeRequired : string := "required".

Definition SetModeDefault : string := "".
Definition SetModeContainsAll : string := "contains_all".
Definition SetModeExact : string := "exact".

Definition FieldAll : string := "*".
Definition FieldService : string := "service".
Definition FieldTenant : string := "tenant".
Definition FieldDeployment : string := "deployment".
Definition FieldEnvironment : string := "environment".
Definition FieldWorkload : string := "workload".
Definition FieldAgent : string := "agent".
Definition FieldAgentPublicKey : string := "agent_public_key".
Definition FieldComputationID : string := "computation_id".
Definition FieldTaskID : string := "task_id".
Definition FieldThreadID : string := "thread_id".
Definition FieldDelegationID : string := "delegation_id".
Definition FieldIntentRef : string := "intent_ref".
Definition FieldCapabilityRef : string := "capability_ref".
Definition FieldOntologyID : string := "ontology_id".
Definition FieldScopes : string := "scopes".
Definition FieldResources : string := "resources".
Definition FieldAuthorizationDetails : string := "authorization_details".
Definition FieldLeafPublicKeyHash : string := "leaf_public_key_sha256".
Definition FieldTLSExporterHash : string := "tls_exporter_sha256".
Definition FieldRequestContextHash : string := "request_context_sha256".
Definition FieldAttestationBinderHash : string := "attestation_binder_sha256".
Definition FieldNonce : string := "nonce".
Definition FieldExpiresAt : string := "expires_at".
Definition FieldIssuedAt : string := "issued_at".

Definition MaxValueLength : Z := 1024.
Definition MaxSetValues : Z := 128.

(** ** Data *)

Record Requirements := mkRequirements { r_L3 : bool; r_L4 : bool; r_L5 : bool; r_L6 : bool }.

Definition Requirements_Enabled (r : Requirements) : bool :=
  r_L3 r || r_L4 r || r_L5 r || r_L6 r.

Record Values := mkValues {
  v_Service : string; v_Tenant : string; v_Deployment : string; v_Environment : string;
  v_Workload : string; v_Agent : string; v_AgentPublicKey : string;
  v_ComputationID : string; v_TaskID : string; v_ThreadID : string;
  v_DelegationID : string; v_IntentRef : string;
  v_CapabilityRef : string; v_OntologyID : string;
  v_Scopes : list string; v_Resources : list string;
  v_AuthorizationDetails : list string }.

Record Binding := mkBinding {
  b_LeafPublicKeySHA256 : string; b_TLSExporterSHA256 : string;
  b_RequestContextSHA256 : string; b_AttestationBinderSHA256 : string;
  b_Nonce : string; b_IssuedAt : Time; b_ExpiresAt : Time }.

Record Assertion := mkAssertion {
  a_Issuer : string; a_Values : Values; a_Binding : Binding }.

Record Policy := mkPolicy {
  p_Mode : string; p_SetMode : string; p_Require : Requirements; p_Expected : Values }.

Definition Policy_Enabled (p : Policy) : bool :=
  if bool_decide (p_Mode p = ModeDisabled) then false
  else if bool_decide (p_Mode p = ModeRequired) then true
  else if bool_decide (p_Mode p = ModeDefault) then Requirements_Enabled (p_Require p)
  else false.

Definition ValidateMode (p : Policy) : option error :=
  if negb (bool_decide (p_Mode p = ModeDefault) || bool_decide (p_Mode p = ModeDisabled)
           || bool_decide (p_Mode p = ModeRequired))
  then Some ErrInvalidMode
  else if negb (bool_decide (p_SetMode p = SetModeDefault)
                || bool_decide (p_SetMode p = SetModeContainsAll)
                || bool_decide (p_SetMode p = SetModeExact))
  then Some ErrInvalidMode
  else None.

(** ** Validation errors *)

Definition validationError (layer field : string) (err : error) : ValidationError :=
  mkValidationError layer field err.

Definition nonNil (e : list (option ValidationError)) : list (option ValidationError) :=
  List.filter (fun o => match o with Some _ => true | None => false end) e.

(** [ValidationErrors.Has]: empty layer or field and a nil target match anything. *)
Fixpoint Has (e : list (option ValidationError)) (layer field : string)
    (target : option string) : bool :=
  match e with
  | [] => false
  | None :: t => Has t layer field target
  | Some err :: t =>
      if negb (bool_decide (layer = "")) && negb (bool_decide (ve_Layer err = layer))
      then Has t layer field target
      else if negb (bool_decide (field = "")) && negb (bool_decide (ve_Field err = field))
      then Has t layer field target
      else match target with
           | Some tg => if negb (errorsIs (ErrValidation err) tg)
                        then Has t layer field target else true
           | None => true
           end
  end.

Definition ByLayer (e : list (option ValidationError)) (layer : string) :=
  List.filter (fun o => match o with
    | Some err => bool_decide (ve_Layer err = layer) | None => false end) e.

Definition ByField (e : list (option ValidationError)) (field : string) :=
  List.filter (fun o => match o with
    | Some err => bool_decide (ve_Field err = field) | None => false end) e.

Definition appendValidationErrors (errs : list (option ValidationError))
    (err : option error) : list (option ValidationError) :=
  match err with
  | None => errs
  | Some e =>
      match asValidationErrors e with
      | Some vs => errs ++ vs
      | None =>
          match asValidationError e with
          | Some v => errs ++ [Some v]
          | None => errs ++ [Some (validationError FieldAll FieldAll e)]
          end
      end
  end.

(** [if len(errs) > 0 { return errs }; return nil]. *)
Definition errorsOrNil (errs : list (option ValidationError)) : option error :=
  match errs with [] => None | _ => Some (ErrValidations errs) end.

(** A loop that appends validation errors and records whether some expected
    value was present: [step] gives what one iteration appends and whether it
    sets [hasExpected]. *)
Fixpoint collect {A} (step : A -> list (option ValidationError) * bool) (l : list A)
    (errs : list (option ValidationError)) (hasExpected : bool)
    : list (option ValidationError) * bool :=
  match l with
  | [] => (errs, hasExpected)
  | x :: t => collect step t (errs ++ fst (step x)) (hasExpected || snd (step x))
  end.

(** ** Leaf checks *)

Definition isEmpty (value : string) : bool := bool_decide (TrimSpace value = "").

Definition isUnsafe (value : string) : bool :=
  if negb (ValidString value) then true
  else existsb (fun r => IsControl r || (r =? 60) || (r =? 62)) (runes value).

Definition validateValue (value : string) : option error :=
  if MaxValueLength <? slen value then Some ErrValueTooLong
  else if isUnsafe value then Some ErrUnsafeValue
  else None.

(** The rune loop of [validateReferenceValue]: [None] for the early return. *)
Fixpoint referenceLoop (rs : list Z) (hasNamespace : bool) : option bool :=
  match rs with
  | [] => Some hasNamespace
  | r :: t =>
      let hasNamespace := if r =? 58 then true else hasNamespace in
      if (r <? 33) || (126 <? r) || IsSpace r then None
      else referenceLoop t hasNamespace
  end.

Definition validateReferenceValue (value : string) : option error :=
  match validateValue value with
  | Some err => Some err
  | None =>
      match referenceLoop (runes value) false with
      | None => Some ErrUnsafeValue
      | Some hasNamespace =>
          if negb hasNamespace || HasPrefix value ":" || HasSuffix value ":"
          then Some ErrUnsafeValue else None
      end
  end.

Definition validateFieldValue (fieldName value : string) : option error :=
  if bool_decide (fieldName = FieldIntentRef) || bool_decide (fieldName = FieldCapabilityRef)
     || bool_decide (fieldName = FieldOntologyID)
  then validateReferenceValue value
  else validateValue value.

(** ** Layers *)

Record field := mkField { f_name : string; f_get : Values -> string }.

(** One iteration over a scalar field whose values are checked by [valid]. *)
Definition exactStep (valid : string -> option error) (layer name want got : string)
    : list (option ValidationError) * bool :=
  if isEmpty want then ([], false)
  else
    (match valid want with
     | Some err => [Some (validationError layer name err)]
     | None =>
         if isEmpty got then [Some (validationError layer name ErrMissingObserved)]
         else match valid got with
              | Some err => [Some (validationError layer name err)]
              | None =>
                  if negb (bool_decide (got = want))
                  then [Some (validationError layer name ErrMismatch)] else []
              end
     end, true).

Definition validateExactLayer (layer : string) (expected observed : Values)
    (fields : list field) : option error :=
  let '(errs, hasExpected) :=
    collect (fun f => exactStep (validateFieldValue (f_name f)) layer (f_name f)
                        (f_get f expected) (f_get f observed)) fields [] false in
  if negb hasExpected
  then Some (ErrValidation (validationError layer FieldAll ErrMissingExpected))
  else errorsOrNil errs.

Definition setMode (p : Policy) : string :=
  if bool_decide (p_SetMode p = SetModeDefault) then SetModeExact else p_SetMode p.

(** The loop of [validatedSet].  [keepEmptyErr] is the test
    [emptyErr == ErrMissingExpected]. *)
Fixpoint validatedSetLoop (layer fieldName : string) (keepEmptyErr : bool)
    (emptyErr : error) (values : list string) (set : gset string)
    : result error (gset string) :=
  match values with
  | [] => Ok set
  | value :: t =>
      if isEmpty value
      then if keepEmptyErr then Err (ErrValidation (validationError layer fieldName emptyErr))
           else validatedSetLoop layer fieldName keepEmptyErr emptyErr t set
      else match validateValue value with
           | Some err => Err (ErrValidation (validationError layer fieldName err))
           | None => validatedSetLoop layer fieldName keepEmptyErr emptyErr t ({[value]} ∪ set)
           end
  end.

Definition sameSentinel (e : error) (name : string) : bool :=
  match e with ErrNew n => bool_decide (n = name) | _ => false end.

Definition validatedSet (layer fieldName : string) (values : list string)
    (emptyErr : error) : result error (gset string) :=
  if MaxSetValues <? len values
  then Err (ErrValidation (validationError layer fieldName ErrTooManyValues))
  else
    let* set := validatedSetLoop layer fieldName
                  (sameSentinel emptyErr "identitypolicy.ErrMissingExpected")
                  emptyErr values ∅ in
    if bool_decide (size set = 0%nat)
    then Err (ErrValidation (validationError layer fieldName emptyErr))
    else Ok set.

(** [for value := range a { if !b[value] { return mismatch } }]. *)
Definition allIn (a b : gset string) : bool :=
  forallb (fun v => bool_decide (v ∈ b)) (elements a).

Definition requireExactSet (layer fieldName : string) (expected observed : list string)
    : option error :=
  match validatedSet layer fieldName expected ErrMissingExpected with
  | Err err => Some err
  | Ok expectedSet =>
      match validatedSet layer fieldName observed ErrMissingObserved with
      | Err err => Some err
      | Ok observedSet =>
          if negb (bool_decide (size expectedSet = size observedSet))
          then Some (ErrValidation (validationError layer fieldName ErrMismatch))
          else if negb (allIn expectedSet observedSet)
          then Some (ErrValidation (validationError layer fieldName ErrMismatch))
          else None
      end
  end.

Fixpoint containsAllExpectedLoop (layer fieldName : string) (expected : list string)
    : option error :=
  match expected with
  | [] => None
  | value :: t =>
      if isEmpty value
      then Some (ErrValidation (validationError layer fieldName ErrMissingExpected))
      else match validateValue value with
           | Some err => Some (ErrValidation (validationError layer fieldName err))
           | None => containsAllExpectedLoop layer fieldName t
           end
  end.

Definition requireContainsAll (layer fieldName : string) (expected observed : list string)
    : option error :=
  if (MaxSetValues <? len expected) || (MaxSetValues <? len observed)
  then Some (ErrValidation (validationError layer fieldName ErrTooManyValues))
  else
    match containsAllExpectedLoop layer fieldName expected with
    | Some err => Some err
    | None =>
        match validatedSetLoop layer fieldName false ErrMissingObserved observed ∅ with
        | Err err => Some err
        | Ok seen =>
            if bool_decide (size seen = 0%nat)
            then Some (ErrValidation (validationError layer fieldName ErrMissingObserved))
            else if negb (forallb (fun v => bool_decide (v ∈ seen)) expected)
            then Some (ErrValidation (validationError layer fieldName ErrMismatch))
            else None
        end
    end.

Definition validateSet (layer fieldName : string) (expected observed : list string)
    (setMode : string) : option error :=
  if bool_decide (setMode = SetModeDefault) || bool_decide (setMode = SetModeExact)
  then requireExactSet layer fieldName expected observed
  else if bool_decide (setMode = SetModeContainsAll)
  then requireContainsAll layer fieldName expected observed
  else Some (ErrValidation (validationError layer fieldName ErrInvalidMode)).

(** One of the three blocks of [validateL6] for set-valued fields. *)
Definition setStep (setMode : string) (fieldName : string)
    (want got : list string) : list (option ValidationError) * bool :=
  match want with
  | [] => ([], false)
  | _ => (appendValidationErrors [] (validateSet LayerL6 fieldName want got setMode), true)
  end.

Definition l6SetFields : list (string * (Values -> list string)) :=
  [(FieldScopes, v_Scopes); (FieldResources, v_Resources);
   (FieldAuthorizationDetails, v_AuthorizationDetails)].

Definition l6RefFields : list field :=
  [mkField FieldCapabilityRef v_CapabilityRef; mkField FieldOntologyID v_OntologyID].

Definition validateL6 (expected observed : Values) (setMode : string) : option error :=
  let '(errs, hasExpected) :=
    collect (fun '(name, get) => setStep setMode name (get expected) (get observed))
      l6SetFields [] false in
  let '(errs, hasExpected) :=
    collect (fun f => exactStep validateReferenceValue LayerL6 (f_name f)
                        (f_get f expected) (f_get f observed)) l6RefFields errs hasExpected in
  if negb hasExpected
  then Some (ErrValidation (validationError LayerL6 FieldAll ErrMissingExpected))
  else errorsOrNil errs.

(** ** Validate and ValidateAssertion *)

Definition l3Fields : list field :=
  [mkField FieldService v_Service; mkField FieldTenant v_Tenant;
   mkField FieldDeployment v_Deployment; mkField FieldEnvironment v_Environment].
Definition l4Fields : list field :=
  [mkField FieldWorkload v_Workload; mkField FieldAgent v_Agent;
   mkField FieldAgentPublicKey v_AgentPublicKey].
Definition l5Fields : list field :=
  [mkField FieldComputationID v_ComputationID; mkField FieldTaskID v_TaskID;
   mkField FieldThreadID v_ThreadID; mkField FieldDelegationID v_DelegationID;
   mkField FieldIntentRef v_IntentRef].

(** [if cond { if err := call; err != nil { errs = appendValidationErrors(errs, err) } }]. *)
Definition appendWhen (cond : bool) (call : option error)
    (errs : list (option ValidationError)) : list (option ValidationError) :=
  if cond then appendValidationErrors errs call else errs.

Definition Validate (policy : Policy) (observed : Values) : option error :=
  let errs := match ValidateMode policy with
              | Some err => [Some (validationError "policy" "mode" err)]
              | None => []
              end in
  let errs := if bool_decide (p_Mode policy = ModeRequired)
                 && negb (Requirements_Enabled (p_Require policy))
              then errs ++ [Some (validationError "policy" FieldAll ErrMissingExpected)]
              else errs in
  let errs := appendWhen (r_L3 (p_Require policy))
                (validateExactLayer LayerL3 (p_Expected policy) observed l3Fields) errs in
  let errs := appendWhen (r_L4 (p_Require policy))
                (validateExactLayer LayerL4 (p_Expected policy) observed l4Fields) errs in
  let errs := appendWhen (r_L5 (p_Require policy))
                (validateExactLayer LayerL5 (p_Expected policy) observed l5Fields) errs in
  let errs := appendWhen (r_L6 (p_Require policy))
                (validateL6 (p_Expected policy) observed (setMode policy)) errs in
  errorsOrNil errs.

(** One iteration over a binding value. *)
Definition bindingStep (name want got : string) : list (option ValidationError) * bool :=
  if isEmpty want then ([], false)
  else
    (if isUnsafe want then [Some (validationError "binding" name ErrUnsafeValue)]
     else if isEmpty got then [Some (validationError "binding" name ErrMissingBinding)]
     else if isUnsafe got then [Some (validationError "binding" name ErrUnsafeValue)]
     else if negb (bool_decide (got = want))
     then [Some (validationError "binding" name ErrMismatch)]
     else [], true).

Definition bindingFields : list (string * (Binding -> string)) :=
  [(FieldLeafPublicKeyHash, b_LeafPublicKeySHA256);
   (FieldTLSExporterHash, b_TLSExporterSHA256);
   (FieldRequestContextHash, b_RequestContextSHA256);
   (FieldAttestationBinderHash, b_AttestationBinderSHA256);
   (FieldNonce, b_Nonce)].

(** The two lifetime checks shared in shape by [validateBinding],
    [validateGrantLifetime] and [validateStatementBinding]. *)
Definition lifetimeErrors (layer : string) (missing : error) (issuedAt expiresAt now : Time)
    : list (option ValidationError) :=
  (if IsZero expiresAt then [Some (validationError layer FieldExpiresAt missing)]
   else if negb (IsZero now) && After now expiresAt
   then [Some (validationError layer FieldExpiresAt ErrExpiredAssertion)] else [])
  ++ (if negb (IsZero issuedAt) && negb (IsZero now) && After issuedAt now
      then [Some (validationError layer FieldIssuedAt ErrFutureAssertion)] else []).

Definition validateBinding (observed expected : Binding) (now : Time) : option error :=
  let '(errs, hasExpected) :=
    collect (fun '(name, get) => bindingStep name (get expected) (get observed))
      bindingFields [] false in
  let errs := if negb hasExpected
              then errs ++ [Some (validationError "binding" FieldAll ErrMissingExpected)]
              else errs in
  errorsOrNil (errs ++ lifetimeErrors "binding" ErrMissingBinding
                         (b_IssuedAt observed) (b_ExpiresAt observed) now).

Definition ValidateAssertion (policy : Policy) (assertion : Assertion)
    (expectedBinding : Binding) (now : Time) : option error :=
  let errs := appendValidationErrors []
                (validateBinding (a_Binding assertion) expectedBinding now) in
  let errs := appendValidationErrors errs (Validate policy (a_Values assertion)) in
  errorsOrNil errs.

(** ** Abstract specification *)

(** The characters a policy value may hold. *)
Definition safeValue (value : string) : Prop :=
  slen value <= MaxValueLength /\ ValidString value = true
  /\ Forall (fun r => IsControl r = false /\ r <> 60 /\ r <> 62) (runes value).

(** A canonical reference: printable ASCII, with a namespace separator that is
    neither the first nor the last character. *)
Definition canonicalReference (value : string) : Prop :=
  safeValue value /\ Forall (fun r => 33 <= r <= 126) (runes value)
  /\ 58 ∈ runes value /\ HasPrefix value ":" = false /\ HasSuffix value ":" = false.

Definition validFor (name value : string) : Prop :=
  if bool_decide (name = FieldIntentRef) || bool_decide (name = FieldCapabilityRef)
     || bool_decide (name = FieldOntologyID)
  then canonicalReference value else safeValue value.

(** A scalar field agrees: nothing is expected, or the expected value is valid
    and the observed value is the same string. *)
Definition fieldAgrees (ok : string -> Prop) (want got : string) : Prop :=
  isEmpty want = true \/ (ok want /\ got = want).

Definition layerAccepts (fields : list field) (expected observed : Values) : Prop :=
  Exists (fun f => isEmpty (f_get f expected) = false) fields
  /\ Forall (fun f => fieldAgrees (validFor (f_name f)) (f_get f expected) (f_get f observed))
       fields.

(** The non-blank members of a list, as a set. *)
Definition members (l : list string) : gset string :=
  list_to_set (filter (fun v => isEmpty v = false) l).

Definition setAgrees (mode : string) (want got : list string) : Prop :=
  len want <= MaxSetValues /\ len got <= MaxSetValues
  /\ want <> []
  /\ Forall (fun v => isEmpty v = false /\ safeValue v) want
  /\ Forall (fun v => isEmpty v = false -> safeValue v) got
  /\ ((mode = SetModeExact \/ mode = SetModeDefault) /\ members want = members got
      \/ mode = SetModeContainsAll /\ members want ⊆ members got).

Definition l6Accepts (expected observed : Values) (mode : string) : Prop :=
  (Exists (fun '(_, get) => get expected <> []) l6SetFields
   \/ Exists (fun f => isEmpty (f_get f expected) = false) l6RefFields)
  /\ Forall (fun '(_, get) => get expected = [] \/ setAgrees mode (get expected) (get observed))
       l6SetFields
  /\ Forall (fun f => fieldAgrees canonicalReference (f_get f expected) (f_get f observed))
       l6RefFields.

Definition policyAccepts (p : Policy) (observed : Values) : Prop :=
  p_Mode p ∈ [ModeDefault; ModeDisabled; ModeRequired]
  /\ p_SetMode p ∈ [SetModeDefault; SetModeContainsAll; SetModeExact]
  /\ (p_Mode p = ModeRequired -> Requirements_Enabled (p_Require p) = true)
  /\ (r_L3 (p_Require p) = true -> layerAccepts l3Fields (p_Expected p) observed)
  /\ (r_L4 (p_Require p) = true -> layerAccepts l4Fields (p_Expected p) observed)
  /\ (r_L5 (p_Require p) = true -> layerAccepts l5Fields (p_Expected p) observed)
  /\ (r_L6 (p_Require p) = true -> l6Accepts (p_Expected p) observed (setMode p)).

(** A value is live at [now]: it has an expiry that has not passed, and was not
    issued in the future.  A zero [now] switches the clock checks off. *)
Definition liveAt (issuedAt expiresAt now : Time) : Prop :=
  expiresAt <> 0 /\ (now <> 0 -> now <= expiresAt)
  /\ (now <> 0 -> issuedAt <> 0 -> issuedAt <= now).

Definition bindingAccepts (observed expected : Binding) (now : Time) : Prop :=
  Exists (fun '(_, get) => isEmpty (get expected) = false) bindingFields
  /\ Forall (fun '(_, get) => isEmpty (get expected) = true
       \/ (isUnsafe (get expected) = false /\ get observed = get expected)) bindingFields
  /\ liveAt (b_IssuedAt observed) (b_ExpiresAt observed) now.

Definition assertionAccepts (p : Policy) (a : Assertion) (expected : Binding) (now : Time)
    : Prop :=
  bindingAccepts (a_Binding a) expected now /\ policyAccepts p (a_Values a).

(** ** Lemmas on the error plumbing *)

Lemma errorsOrNil_None (errs : list (option ValidationError)) :
  errorsOrNil errs = None <-> errs = [].
Proof. destruct errs; simpl; split; congruence. Qed.

Lemma collect_eq {A} (step : A -> list (option ValidationError) * bool) (l : list A) errs has :
  collect step l errs has =
  (errs ++ concat (map (fun x => fst (step x)) l), has || existsb (fun x => snd (step x)) l).
Proof.
  revert errs has; induction l as [|x l IH]; intros errs has; simpl.
  - by rewrite app_nil_r, orb_false_r.
  - by rewrite IH, <- app_assoc, orb_assoc.
Qed.

(** An error that [appendValidationErrors] does not lose: every error the
    package builds is one. *)
Definition appendable (r : option error) : Prop :=
  match r with Some e => asValidationErrors e <> Some [] | None => True end.

Lemma appendValidationErrors_nil (errs : list (option ValidationError)) (r : option error) :
  appendable r -> appendValidationErrors errs r = [] <-> errs = [] /\ r = None.
Proof.
  destruct r as [e|]; simpl; [|by intuition].
  intros H. split; [|by intros [_ ?]].
  intros Happ. exfalso. destruct (asValidationErrors e) as [vs|].
  - apply app_nil in Happ as [_ ->]. congruence.
  - destruct (asValidationError e); by apply app_nil in Happ as [_ ?].
Qed.

Lemma appendable_errorsOrNil (errs : list (option ValidationError)) :
  appendable (errorsOrNil errs).
Proof. destruct errs; simpl; [done|congruence]. Qed.

Lemma appendable_sentinel (layer field name : string) :
  appendable (Some (ErrValidation (validationError layer field (ErrNew name)))).
Proof. simpl. congruence. Qed.

#[export] Hint Resolve appendable_errorsOrNil appendable_sentinel : go.
#[export] Hint Extern 1 (appendable (Some (ErrValidation _))) =>
  apply appendable_sentinel : go.
#[export] Hint Extern 1 (appendable None) => exact I : go.

(** ** Leaf checks meet their specification *)

Lemma isUnsafe_false (value : string) :
  isUnsafe value = false <->
  ValidString value = true
  /\ Forall (fun r => IsControl r = false /\ r <> 60 /\ r <> 62) (runes value).
Proof.
  unfold isUnsafe. destruct (ValidString value); simpl; [|by intuition].
  rewrite existsb_false_iff, !Forall_forall. split.
  - intros H; split; [done|]. intros r Hr. specialize (H r Hr). bool_to_prop. done.
  - intros [_ H] r Hr. destruct (H r Hr) as (-> & ? & ?). simpl.
    apply orb_false_iff; split; apply Z.eqb_neq; done.
Qed.

Lemma validateValue_None (value : string) : validateValue value = None <-> safeValue value.
Proof.
  unfold validateValue, safeValue. rewrite <- isUnsafe_false.
  destruct (Z.ltb_spec MaxValueLength (slen value)).
  - split; [done | intros [? _]; lia].
  - destruct (isUnsafe value); split; intuition congruence.
Qed.

Lemma validateValue_sentinel (value : string) (e : error) :
  validateValue value = Some e -> exists n, e = ErrNew n.
Proof. unfold validateValue. repeat case_goal; intros; simplify_eq; eexists; reflexivity. Qed.

Lemma referenceLoop_spec (rs : list Z) (has ns : bool) :
  referenceLoop rs has = Some ns <->
  Forall (fun r => 33 <= r <= 126) rs /\ ns = (has || bool_decide (58 ∈ rs))%bool.
Proof.
  revert has; induction rs as [|r rs IH]; intros has; cbn [referenceLoop].
  - rewrite (bool_decide_eq_false_2 (58 ∈ [])), orb_false_r by apply not_elem_of_nil.
    split; [intros ?; simplify_eq; split; [constructor|done] | intros [_ ->]; done].
  - rewrite Forall_cons.
    destruct ((r <? 33) || (126 <? r) || IsSpace r) eqn:E.
    + split; [done|]. intros [[[H1 H2] _] _].
      rewrite (plain_not_space r), orb_false_r in E
        by (unfold plainByte, inRange; apply andb_true_iff; lia).
      apply orb_true_iff in E as [E|E]; bool_to_prop; lia.
    + bool_to_prop. rewrite IH.
      assert ((if r =? 58 then true else has) || bool_decide (58 ∈ rs)
              = has || bool_decide (58 ∈ r :: rs))%bool as ->; [|intuition lia].
      destruct (Z.eqb_spec r 58) as [->|Hne].
      * rewrite (bool_decide_eq_true_2 (58 ∈ 58 :: rs)) by left. by rewrite orb_true_r.
      * f_equal. apply bool_decide_ext. rewrite elem_of_cons. intuition congruence.
Qed.

Lemma validateReferenceValue_None (value : string) :
  validateReferenceValue value = None <-> canonicalReference value.
Proof.
  unfold validateReferenceValue, canonicalReference.
  rewrite <- validateValue_None.
  destruct (validateValue value) as [e|] eqn:E; [by intuition|].
  destruct (referenceLoop (runes value) false) as [ns|] eqn:L.
  - apply referenceLoop_spec in L as [HF ->]. simpl.
    destruct (decide (58 ∈ runes value)) as [Hin|Hout].
    + rewrite bool_decide_eq_true_2 by done. simpl.
      destruct (HasPrefix value ":"), (HasSuffix value ":"); simpl; intuition congruence.
    + rewrite bool_decide_eq_false_2 by done. simpl. intuition congruence.
  - split; [done|]. intros (_ & HF & _).
    pose proof (proj2 (referenceLoop_spec (runes value) false _) (conj HF eq_refl)). congruence.
Qed.

Lemma validateReferenceValue_sentinel (value : string) (e : error) :
  validateReferenceValue value = Some e -> exists n, e = ErrNew n.
Proof.
  unfold validateReferenceValue. destruct (validateValue value) eqn:E.
  - intros; simplify_eq. by apply validateValue_sentinel in E.
  - repeat case_goal; intros; simplify_eq; eexists; reflexivity.
Qed.

Lemma validateFieldValue_None (name value : string) :
  validateFieldValue name value = None <-> validFor name value.
Proof.
  unfold validateFieldValue, validFor. case_goal;
    [apply validateReferenceValue_None | apply validateValue_None].
Qed.

(** ** Layers *)

Lemma exactStep_nil (valid : string -> option error) (ok : string -> Prop) layer name want got :
  (forall v, valid v = None <-> ok v) ->
  fst (exactStep valid layer name want got) = [] <-> fieldAgrees ok want got.
Proof.
  intros Hok. unfold exactStep, fieldAgrees.
  destruct (isEmpty want) eqn:Ew; [by intuition|]. simpl.
  destruct (valid want) as [e|] eqn:Vw.
  { split; [done|]. intros [?|[Hw _]]; [done|]. apply Hok in Hw. congruence. }
  apply Hok in Vw as Hw.
  destruct (isEmpty got) eqn:Eg.
  { split; [done|]. intros [?|[_ ->]]; congruence. }
  destruct (valid got) as [e|] eqn:Vg.
  { split; [done|]. intros [?|[_ ->]]; congruence. }
  destruct (bool_decide (got = want)) eqn:D; simpl; bool_to_prop; intuition congruence.
Qed.

Lemma exactStep_has (valid : string -> option error) layer name want got :
  snd (exactStep valid layer name want got) = negb (isEmpty want).
Proof. unfold exactStep. by destruct (isEmpty want). Qed.

(** The loop over the scalar fields of a layer appends nothing exactly when
    every field agrees. *)
Lemma exactLoop_nil (valid : string -> string -> option error) (ok : string -> string -> Prop)
    layer expected observed fields :
  (forall n v, valid n v = None <-> ok n v) ->
  concat (map (fun f => fst (exactStep (valid (f_name f)) layer (f_name f)
                               (f_get f expected) (f_get f observed))) fields) = []
  <-> Forall (fun f => fieldAgrees (ok (f_name f)) (f_get f expected) (f_get f observed)) fields.
Proof.
  intros Hok. rewrite concat_nil_iff, Forall_map, !Forall_forall.
  split; intros H f Hf; specialize (H f Hf); cbv beta in *;
    apply (exactStep_nil (valid (f_name f)) (ok (f_name f)) layer (f_name f)
             (f_get f expected) (f_get f observed) (Hok (f_name f))); exact H.
Qed.

Lemma exactLoop_has (valid : string -> string -> option error) layer expected observed fields :
  existsb (fun f => snd (exactStep (valid (f_name f)) layer (f_name f)
                           (f_get f expected) (f_get f observed))) fields = true
  <-> Exists (fun f => isEmpty (f_get f expected) = false) fields.
Proof.
  rewrite existsb_true_iff, !Exists_exists.
  split; intros (f & Hin & H); exists f; (split; [done|]);
    rewrite exactStep_has in *; by apply negb_true_iff.
Qed.

Lemma validateExactLayer_None layer expected observed fields :
  validateExactLayer layer expected observed fields = None
  <-> layerAccepts fields expected observed.
Proof.
  unfold validateExactLayer, layerAccepts. rewrite collect_eq. simpl.
  rewrite <- (exactLoop_has validateFieldValue layer expected observed).
  rewrite <- (exactLoop_nil validateFieldValue validFor layer expected observed)
    by apply validateFieldValue_None.
  destruct (existsb _ fields) eqn:E; simpl; [|by intuition].
  rewrite errorsOrNil_None. intuition.
Qed.

Lemma validateExactLayer_appendable layer expected observed fields :
  appendable (validateExactLayer layer expected observed fields).
Proof. unfold validateExactLayer. repeat case_goal; auto with go. Qed.

(** ** Sets *)

Lemma elem_of_members (v : string) (l : list string) :
  v ∈ members l <-> v ∈ l /\ isEmpty v = false.
Proof. unfold members. rewrite elem_of_list_to_set, list_elem_of_filter. tauto. Qed.

Lemma members_cons (v : string) (l : list string) :
  members (v :: l) = if isEmpty v then members l else {[v]} ∪ members l.
Proof.
  apply set_eq; intros x. destruct (isEmpty v) eqn:E;
    rewrite ?elem_of_union, ?elem_of_singleton, !elem_of_members, elem_of_cons;
    intuition congruence.
Qed.

Lemma members_nonempty (l : list string) :
  l <> [] -> Forall (fun v => isEmpty v = false /\ safeValue v) l -> members l <> ∅.
Proof.
  destruct l as [|v l]; [done|]. intros _ HF Hm. apply Forall_cons in HF as [[Hv _] _].
  assert (v ∈ members (v :: l)) as Hin by (apply elem_of_members; split; [left|done]).
  rewrite Hm in Hin. set_solver.
Qed.

Lemma validatedSetLoop_Ok layer fieldName keep emptyErr values set s :
  validatedSetLoop layer fieldName keep emptyErr values set = Ok s <->
  (keep = true -> Forall (fun v => isEmpty v = false) values)
  /\ Forall (fun v => isEmpty v = false -> safeValue v) values
  /\ s = members values ∪ set.
Proof.
  revert set; induction values as [|v values IH]; intros set; cbn [validatedSetLoop].
  - change (members []) with (∅ : gset string). rewrite union_empty_l_L.
    split; [intros ?; simplify_eq; auto | intros (_ & _ & ->); done].
  - rewrite members_cons, !Forall_cons. destruct (isEmpty v) eqn:Ev.
    + destruct keep; [split; [done|]; intros (H & _); by destruct (H eq_refl) |].
      rewrite IH. intuition congruence.
    + rewrite <- validateValue_None. destruct (validateValue v).
      { split; [done|]. intros (_ & [H _] & _). by specialize (H eq_refl). }
      rewrite IH, (union_assoc_L (members values)), (union_comm_L (members values)).
      intuition.
Qed.

Lemma validatedSet_expected layer fieldName values s :
  validatedSet layer fieldName values ErrMissingExpected = Ok s <->
  len values <= MaxSetValues /\ values <> []
  /\ Forall (fun v => isEmpty v = false /\ safeValue v) values /\ s = members values.
Proof.
  unfold validatedSet. destruct (Z.ltb_spec MaxSetValues (len values)).
  { split; [done | intros [? _]; lia]. }
  destruct (validatedSetLoop _ _ _ _ values ∅) as [s'|e] eqn:L; simpl.
  - apply validatedSetLoop_Ok in L as (Hne & Hsafe & ->). specialize (Hne eq_refl).
    rewrite union_empty_r_L.
    assert (HF : Forall (fun v => isEmpty v = false /\ safeValue v) values).
    { rewrite Forall_forall in *. intros v Hv. auto. }
    case_goal; bool_to_prop.
    + apply size_empty_inv in Heqb. fold_leibniz.
      split; [done|]. intros (_ & Hn & _ & _). by destruct (members_nonempty values).
    + split; [|intros (_ & _ & _ & ->); done].
      intros ?; simplify_eq. repeat split; auto.
      intros ->. apply Heqb. reflexivity.
  - split; [done|]. intros (_ & _ & HF & _).
    assert (validatedSetLoop layer fieldName
      (sameSentinel ErrMissingExpected "identitypolicy.ErrMissingExpected")
      ErrMissingExpected values ∅ = Ok (members values ∪ ∅)) as Hok; [|congruence].
    apply validatedSetLoop_Ok. rewrite !Forall_forall in *.
    split_and!; [intros _ v Hv; by apply HF | intros v Hv _; by apply HF | done].
Qed.

Lemma validatedSet_observed layer fieldName values s :
  validatedSet layer fieldName values ErrMissingObserved = Ok s <->
  len values <= MaxSetValues /\ members values <> ∅
  /\ Forall (fun v => isEmpty v = false -> safeValue v) values /\ s = members values.
Proof.
  unfold validatedSet. destruct (Z.ltb_spec MaxSetValues (len values)).
  { split; [done | intros [? _]; lia]. }
  destruct (validatedSetLoop _ _ _ _ values ∅) as [s'|e] eqn:L; simpl.
  - apply validatedSetLoop_Ok in L as (_ & Hsafe & ->). rewrite union_empty_r_L.
    case_goal; bool_to_prop.
    + apply size_empty_inv in Heqb. fold_leibniz. intuition congruence.
    + split; [|intros (_ & _ & _ & ->); done].
      intros ?; simplify_eq. repeat split; auto.
      intros He. apply Heqb. by rewrite He.
  - split; [done|]. intros (_ & _ & HF & _).
    assert (validatedSetLoop layer fieldName
      (sameSentinel ErrMissingObserved "identitypolicy.ErrMissingExpected")
      ErrMissingObserved values ∅ = Ok (members values ∪ ∅)) as Hok; [|congruence].
    apply validatedSetLoop_Ok. by split_and!.
Qed.

Lemma allIn_true (a b : gset string) : allIn a b = true <-> a ⊆ b.
Proof.
  unfold allIn. rewrite forallb_forall, elem_of_subseteq. split.
  - intros H v Hv. specialize (H v). rewrite <- list_elem_of_In, elem_of_elements in H.
    apply (proj1 (bool_decide_eq_true (v ∈ b))). auto.
  - intros H v Hv. apply list_elem_of_In, elem_of_elements in Hv.
    apply bool_decide_eq_true. auto.
Qed.

Lemma requireExactSet_None layer fieldName want got :
  requireExactSet layer fieldName want got = None <-> setAgrees SetModeExact want got.
Proof.
  unfold requireExactSet, setAgrees.
  destruct (validatedSet _ _ want _) as [es|] eqn:We.
  2:{ split; [done|]. intros (? & _ & ? & ? & _).
      enough (validatedSet layer fieldName want ErrMissingExpected = Ok (members want))
        by congruence. by apply validatedSet_expected. }
  apply validatedSet_expected in We as (Hl & Hne & HF & ->).
  pose proof (members_nonempty want Hne HF) as Hnem.
  destruct (validatedSet _ _ got _) as [os|] eqn:Wo.
  2:{ split; [done|]. intros (_ & ? & _ & _ & ? & [[_ Heq]|[? _]]); [|done].
      enough (validatedSet layer fieldName got ErrMissingObserved = Ok (members got))
        by congruence. apply validatedSet_observed. by rewrite <- Heq. }
  apply validatedSet_observed in Wo as (Hl' & _ & HF' & ->).
  pose proof (allIn_true (members want) (members got)) as Hin.
  destruct (bool_decide (size _ = _)) eqn:D, (allIn _ _); simpl; bool_to_prop;
    (split; [try done | intros (_ & _ & _ & _ & _ & [[_ Heq]|[? _]]); try done]).
  - intros _. repeat split; try done. left. split; [by left|].
    apply set_eq, set_subseteq_size_equiv; [by apply Hin | lia].
  - assert (false = true) by (apply Hin; by rewrite Heq). done.
  - by rewrite Heq in D.
  - by rewrite Heq in D.
Qed.

Lemma containsAllExpectedLoop_None layer fieldName expected :
  containsAllExpectedLoop layer fieldName expected = None <->
  Forall (fun v => isEmpty v = false /\ safeValue v) expected.
Proof.
  induction expected as [|v expected IH]; cbn [containsAllExpectedLoop].
  - split; [constructor|done].
  - rewrite Forall_cons, <- IH, <- validateValue_None.
    destruct (isEmpty v); [intuition congruence|].
    destruct (validateValue v); intuition congruence.
Qed.

Lemma forallb_in_set (l : list string) (s : gset string) :
  Forall (fun v => isEmpty v = false /\ safeValue v) l ->
  forallb (fun v => bool_decide (v ∈ s)) l = true <-> members l ⊆ s.
Proof.
  intros HF. rewrite Forall_forall in HF.
  rewrite forallb_forall, elem_of_subseteq. split.
  - intros H v Hv. apply elem_of_members in Hv as [Hv _].
    apply list_elem_of_In, H in Hv. by apply bool_decide_eq_true in Hv.
  - intros H v Hv. apply list_elem_of_In in Hv. apply bool_decide_eq_true, H, elem_of_members.
    split; [done | by apply HF].
Qed.

Lemma requireContainsAll_None layer fieldName want got :
  want <> [] ->
  requireContainsAll layer fieldName want got = None <-> setAgrees SetModeContainsAll want got.
Proof.
  intros Hne. unfold requireContainsAll, setAgrees.
  destruct ((MaxSetValues <? len want) || (MaxSetValues <? len got)) eqn:El.
  { split; [done|]. intros (? & ? & _). apply orb_true_iff in El as [El|El]; bool_to_prop; lia. }
  bool_to_prop.
  pose proof (containsAllExpectedLoop_None layer fieldName want) as Hc.
  destruct (containsAllExpectedLoop layer fieldName want); [by intuition|].
  pose proof (proj1 Hc eq_refl) as HF. clear Hc.
  pose proof (members_nonempty want Hne HF) as Hnem.
  destruct (validatedSetLoop _ _ _ _ got ∅) as [seen|] eqn:L.
  2:{ split; [done|]. intros (_ & _ & _ & _ & HF' & _).
      enough (validatedSetLoop layer fieldName false ErrMissingObserved got ∅
              = Ok (members got ∪ ∅)) by congruence.
      apply validatedSetLoop_Ok. by split_and!. }
  apply validatedSetLoop_Ok in L as (_ & HF' & ->). rewrite union_empty_r_L.
  pose proof (forallb_in_set want (members got) HF) as Hin.
  case_goal; bool_to_prop.
  { apply size_empty_inv in Heqb. fold_leibniz. split; [done|].
    intros (_ & _ & _ & _ & _ & [[[?|?] _]|[_ Hs]]); [done..|].
    rewrite Heqb in Hs. set_solver. }
  destruct (forallb _ want); simpl.
  - split; [|done]. intros _. repeat split; try done; try lia. right. split; [done | by apply Hin].
  - split; [done|].
    intros (_ & _ & _ & _ & _ & [[[?|?] _]|[_ Hs]]); [done..|]. apply Hin in Hs. done.
Qed.

(** ** The gate *)

Lemma validateSet_None layer fieldName mode want got :
  want <> [] ->
  validateSet layer fieldName want got mode = None <-> setAgrees mode want got.
Proof.
  intros Hne. unfold validateSet.
  destruct (decide (mode = SetModeDefault)) as [->|Hd].
  { simpl. rewrite requireExactSet_None. unfold setAgrees.
    split; intros (? & ? & ? & ? & ? & [[_ ?]|[? _]]); try done; split_and!; auto. }
  destruct (decide (mode = SetModeExact)) as [->|He].
  { simpl. apply requireExactSet_None. }
  rewrite !bool_decide_eq_false_2 by done. simpl.
  destruct (decide (mode = SetModeContainsAll)) as [->|Hc].
  { rewrite bool_decide_eq_true_2 by done. by apply requireContainsAll_None. }
  rewrite bool_decide_eq_false_2 by done. unfold setAgrees. intuition congruence.
Qed.

Lemma validatedSetLoop_appendable layer fieldName keep n values s e :
  validatedSetLoop layer fieldName keep (ErrNew n) values s = Err e -> appendable (Some e).
Proof.
  revert s; induction values as [|v values IH]; intros s; cbn [validatedSetLoop]; [done|].
  destruct (isEmpty v); [destruct keep; [intros; simplify_eq; auto with go | apply IH]|].
  destruct (validateValue v) eqn:V; [|apply IH].
  apply validateValue_sentinel in V as [? ->]. intros; simplify_eq; auto with go.
Qed.

Lemma validatedSet_appendable layer fieldName values n e :
  validatedSet layer fieldName values (ErrNew n) = Err e -> appendable (Some e).
Proof.
  unfold validatedSet. case_goal; [intros; simplify_eq; auto with go|].
  destruct (validatedSetLoop _ _ _ _ values ∅) as [s|e'] eqn:L; simpl.
  - case_goal; intros; simplify_eq; auto with go.
  - intros; simplify_eq. by apply validatedSetLoop_appendable in L.
Qed.

Lemma containsAllExpectedLoop_appendable layer fieldName expected :
  appendable (containsAllExpectedLoop layer fieldName expected).
Proof.
  induction expected as [|v expected IH]; cbn [containsAllExpectedLoop]; [done|].
  destruct (isEmpty v); [auto with go|]. destruct (validateValue v) eqn:V; [|done].
  apply validateValue_sentinel in V as [? ->]. auto with go.
Qed.

Lemma validateSet_appendable layer fieldName want got mode :
  appendable (validateSet layer fieldName want got mode).
Proof.
  unfold validateSet, requireExactSet, requireContainsAll.
  case_goal; [|case_goal; [|auto with go]].
  - destruct (validatedSet _ _ want _) eqn:?; [|by eapply validatedSet_appendable].
    destruct (validatedSet _ _ got _) eqn:?; [|by eapply validatedSet_appendable].
    repeat case_goal; auto with go.
  - case_goal; [auto with go|].
    destruct (containsAllExpectedLoop _ _ _) eqn:C.
    { rewrite <- C. apply containsAllExpectedLoop_appendable. }
    destruct (validatedSetLoop _ _ _ _ _ _) eqn:?; [|by eapply validatedSetLoop_appendable].
    repeat case_goal; auto with go.
Qed.

#[export] Hint Resolve validateExactLayer_appendable validateSet_appendable : go.

Lemma setStep_nil mode name want got :
  fst (setStep mode name want got) = [] <-> want = [] \/ setAgrees mode want got.
Proof.
  destruct want as [|w want]; [simpl; tauto|].
  cbn [setStep fst]. rewrite appendValidationErrors_nil by auto with go.
  rewrite validateSet_None by done. intuition congruence.
Qed.

Lemma setStep_has mode name want got :
  snd (setStep mode name want got) = true <-> want <> [].
Proof. destruct want; simpl; intuition congruence. Qed.

Lemma setLoop_has mode expected observed l :
  existsb (fun x : string * (Values -> list string) =>
    snd (let '(name, get) := x in setStep mode name (get expected) (get observed))) l = true
  <-> Exists (fun '(_, get) => get expected <> []) l.
Proof.
  rewrite existsb_true_iff, !Exists_exists.
  split; intros ([n g] & Hin & H); exists (n, g); (split; [done|]);
    apply (setStep_has mode n (g expected) (g observed)); exact H.
Qed.

Lemma setLoop_nil mode expected observed l :
  concat (map (fun x : string * (Values -> list string) =>
    fst (let '(name, get) := x in setStep mode name (get expected) (get observed))) l) = []
  <-> Forall (fun '(_, get) => get expected = []
                \/ setAgrees mode (get expected) (get observed)) l.
Proof.
  rewrite concat_nil_iff, Forall_map, !Forall_forall.
  split; intros H [n g] Hin; specialize (H _ Hin);
    apply (setStep_nil mode n (g expected) (g observed)); exact H.
Qed.

Lemma validateL6_None expected observed mode :
  validateL6 expected observed mode = None <-> l6Accepts expected observed mode.
Proof.
  unfold validateL6, l6Accepts. rewrite !collect_eq. cbn [app].
  rewrite <- (setLoop_has mode expected observed), <- (setLoop_nil mode expected observed).
  rewrite <- (exactLoop_has (fun _ => validateReferenceValue) LayerL6 expected observed).
  rewrite <- (exactLoop_nil (fun _ => validateReferenceValue) (fun _ => canonicalReference)
                LayerL6 expected observed) by (intros _; apply validateReferenceValue_None).
  destruct (existsb _ l6SetFields), (existsb _ l6RefFields); cbn [orb negb];
    rewrite ?errorsOrNil_None, ?app_nil; intuition congruence.
Qed.

Lemma validateL6_appendable expected observed mode :
  appendable (validateL6 expected observed mode).
Proof. unfold validateL6. rewrite !collect_eq. case_goal; auto with go. Qed.

#[export] Hint Resolve validateL6_appendable : go.

Lemma appendWhen_nil (cond : bool) (call : option error) errs :
  appendable call ->
  appendWhen cond call errs = [] <-> errs = [] /\ (cond = true -> call = None).
Proof.
  intros H. destruct cond; simpl; [|intuition congruence].
  rewrite appendValidationErrors_nil by done. intuition.
Qed.

Lemma ValidateMode_None (p : Policy) :
  ValidateMode p = None <->
  p_Mode p ∈ [ModeDefault; ModeDisabled; ModeRequired]
  /\ p_SetMode p ∈ [SetModeDefault; SetModeContainsAll; SetModeExact].
Proof.
  unfold ValidateMode. rewrite !elem_of_cons, !elem_of_nil.
  repeat case_bool_decide; simpl; intuition congruence.
Qed.

Lemma bindingStep_nil name want got :
  fst (bindingStep name want got) = []
  <-> isEmpty want = true \/ (isUnsafe want = false /\ got = want).
Proof.
  unfold bindingStep. destruct (isEmpty want) eqn:Ew; [by intuition|]. simpl.
  destruct (isUnsafe want) eqn:Uw; [by intuition|].
  destruct (isEmpty got) eqn:Eg; [intuition congruence|].
  destruct (isUnsafe got) eqn:Ug; [intuition congruence|].
  destruct (bool_decide (got = want)) eqn:D; simpl; bool_to_prop; intuition congruence.
Qed.

Lemma bindingLoop_nil expected observed l :
  concat (map (fun x : string * (Binding -> string) =>
    fst (let '(name, get) := x in bindingStep name (get expected) (get observed))) l) = []
  <-> Forall (fun '(_, get) => isEmpty (get expected) = true
                \/ (isUnsafe (get expected) = false /\ get observed = get expected)) l.
Proof.
  rewrite concat_nil_iff, Forall_map, !Forall_forall.
  split; intros H [n g] Hin; specialize (H _ Hin);
    apply (bindingStep_nil n (g expected) (g observed)); exact H.
Qed.

Lemma bindingLoop_has expected observed l :
  existsb (fun x : string * (Binding -> string) =>
    snd (let '(name, get) := x in bindingStep name (get expected) (get observed))) l = true
  <-> Exists (fun '(_, get) => isEmpty (get expected) = false) l.
Proof.
  rewrite existsb_true_iff, !Exists_exists.
  split; intros ([n g] & Hin & H); exists (n, g); (split; [done|]);
    revert H; unfold bindingStep; by destruct (isEmpty (g expected)).
Qed.

Lemma lifetimeErrors_nil layer missing issuedAt expiresAt now :
  lifetimeErrors layer missing issuedAt expiresAt now = [] <-> liveAt issuedAt expiresAt now.
Proof.
  unfold lifetimeErrors, liveAt, IsZero, After. rewrite app_nil.
  destruct (Z.eqb_spec expiresAt 0), (Z.eqb_spec now 0), (Z.eqb_spec issuedAt 0),
    (Z.ltb_spec expiresAt now), (Z.ltb_spec now issuedAt); simpl; intuition (congruence || lia).
Qed.

Lemma validateBinding_None observed expected now :
  validateBinding observed expected now = None <-> bindingAccepts observed expected now.
Proof.
  unfold validateBinding, bindingAccepts. rewrite collect_eq. cbn [app orb].
  rewrite errorsOrNil_None, app_nil, lifetimeErrors_nil.
  rewrite <- (bindingLoop_has expected observed), <- (bindingLoop_nil expected observed).
  destruct (existsb _ bindingFields); simpl; rewrite ?app_nil; intuition congruence.
Qed.

Lemma validateBinding_appendable observed expected now :
  appendable (validateBinding observed expected now).
Proof. unfold validateBinding. rewrite collect_eq. auto with go. Qed.

Lemma Validate_spec (p : Policy) (observed : Values) :
  Validate p observed = None <-> policyAccepts p observed.
Proof.
  unfold Validate, policyAccepts. rewrite errorsOrNil_None, !appendWhen_nil by auto with go.
  rewrite !validateExactLayer_None, validateL6_None, (and_assoc (_ ∈ _) (_ ∈ _)).
  rewrite <- ValidateMode_None.
  destruct (ValidateMode p); case_bool_decide; destruct (Requirements_Enabled (p_Require p));
    simpl; intuition congruence.
Qed.

Lemma Validate_appendable (p : Policy) (observed : Values) :
  appendable (Validate p observed).
Proof. apply appendable_errorsOrNil. Qed.

#[export] Hint Resolve validateBinding_appendable Validate_appendable : go.

Lemma ValidateAssertion_spec (p : Policy) (a : Assertion) (expected : Binding) (now : Time) :
  ValidateAssertion p a expected now = None <-> assertionAccepts p a expected now.
Proof.
  unfold ValidateAssertion, assertionAccepts.
  rewrite errorsOrNil_None, !appendValidationErrors_nil by auto with go.
  rewrite validateBinding_None, Validate_spec. tauto.
Qed.

(** Concrete values for the witnesses. *)
Definition sampleValues : Values :=
  mkValues "svc" "" "" "" "w" "agent" "" "" "task" "" "" "urn:intent" "" ""
    ["read"; "write"] [] [].

(** ** Theorems *)

(** The policy gate decides its specification.  [Validate] returns nil
    exactly when the modes are known, a required policy requires some layer, and
    each required layer has at least one expected value with every expected value
    well formed and equal to the observed one (for D6 sets: equal as sets, or
    contained when the policy says so). *)
Theorem Validate_decides (p : Policy) (observed : Values) :
  Validate p observed = None <-> policyAccepts p observed.
Proof. apply Validate_spec. Qed.

(** C1: [ValidateAssertion] returns nil exactly when the policy accepts the
    asserted values, at least one session-binding value is expected, every
    expected one is safe and equal to the asserted one, and the assertion is
    live at [now]. *)
Theorem ValidateAssertion_decides (p : Policy) (a : Assertion) (expected : Binding)
    (now : Time) :
  ValidateAssertion p a expected now = None <-> assertionAccepts p a expected now.
Proof. apply ValidateAssertion_spec. Qed.
