(* ===== verification/ReplayCache.v ===== *)
(** * Replay caches: [pkg/atls/identitypolicy/replay_cache.go],
      [setnx_replay_cache.go] and the [ReplayCache] interface

    [MarkUsed] is an operation on a cache state.  It takes the one reading of the
    cache's clock that the method makes, and returns the error and the new state.
    The class [ReplayCache] is the Go interface, [ReplayCacheLaws] what a verifier
    relies on: an accepted key stays blocked until its expiry as long as the clock
    readings do not go back.  The in-memory cache and the SETNX cache discharge the
    laws; the SETNX store itself is not part of the repository and is described by
    the class [SetNXStore] with the documented meaning of SET NX EX.

    The mutex of the in-memory cache makes the body of [MarkUsed] one step. *)

From stdpp Require Import base gmap sets list strings.
From Stdlib Require Import ZArith Lia.
From S2P Require Import Prelude GoStrings Errors IdentityPolicy.

Definition ErrUnauthorizedBindingKey := ErrNew "identitypolicy.ErrUnauthorizedBindingKey".
Definition ErrReplayDetected := ErrNew "identitypolicy.ErrReplayDetected".
Definition ErrMissingSetNXStore := ErrNew "identitypolicy.ErrMissingSetNXStore".
Definition ErrReplayStoreFailed := ErrNew "identitypolicy.ErrReplayStoreFailed".

Definition LayerSessionBinding : string := "session_binding".

(** ** The interface *)

Class ReplayCache (C : Type) := MarkUsed : Time -> string -> Time -> C -> option error * C.

(** [enforcing c]: the cache is not a nil pointer.  [blocked t k e c]: from time
    [t] on, every use of key [k] that expires no later than [e] is refused. *)
Class ReplayCacheLaws (C : Type) `{ReplayCache C} := {
  enforcing : C -> Prop;
  blocked : Time -> string -> Time -> C -> Prop;
  mark_enforcing now k e c : enforcing c -> enforcing (snd (MarkUsed now k e c));
  mark_accept now k e c c' :
    enforcing c -> 0 < now -> e - now <= maxInt64 ->
    MarkUsed now k e c = (None, c') -> blocked now k e c';
  mark_keeps t now k e k' e' c :
    blocked t k e c -> t <= now -> blocked now k e (snd (MarkUsed now k' e' c));
  mark_refuses t now k e e' c :
    blocked t k e c -> t <= now -> 0 < now -> e' <= e ->
    fst (MarkUsed now k e' c) <> None }.

(** A sequence of uses, each with its clock reading. *)
Definition Use : Type := Time * string * Time.

Fixpoint runUses {C} `{ReplayCache C} (us : list Use) (c : C) : list (option error) * C :=
  match us with
  | [] => ([], c)
  | (now, k, e) :: t =>
      let '(r, c') := MarkUsed now k e c in
      let '(rs, c'') := runUses t c' in
      (r :: rs, c'')
  end.

(** The clock readings of [us] start at or after [t] and never go back; the
    reading [last] comes after all of them. *)
Fixpoint clockForward (t : Time) (us : list Use) (last : Time) : Prop :=
  match us with
  | [] => t <= last
  | (now, _, _) :: r => t <= now /\ clockForward now r last
  end.

Section laws.
Context {C : Type} `{ReplayCacheLaws C}.

Lemma runUses_blocked t k e us last (c : C) :
  blocked t k e c -> clockForward t us last ->
  exists t', t' <= last /\ blocked t' k e (snd (runUses us c)).
Proof.
  revert t c; induction us as [|[[now k'] e'] us IH]; intros t c Hb Hm; simpl in *.
  - eauto.
  - destruct Hm as [Ht Hm].
    pose proof (mark_keeps t now k e k' e' c Hb Ht) as Hb'.
    destruct (MarkUsed now k' e' c) as [r c']; simpl in *.
    specialize (IH now c' Hb' Hm). by destruct (runUses us c').
Qed.

Lemma runUses_enforcing us (c : C) : enforcing c -> enforcing (snd (runUses us c)).
Proof.
  revert c; induction us as [|[[now k] e] us IH]; intros c Hc; simpl; [done|].
  pose proof (mark_enforcing now k e c Hc) as Hc'.
  destruct (MarkUsed now k e c) as [r c']; simpl in *.
  specialize (IH c' Hc'). by destruct (runUses us c').
Qed.

(** One-shot use, for every cache that meets the laws. *)
Lemma one_shot now k e us last e' (c c' : C) :
  enforcing c -> 0 < now -> e - now <= maxInt64 ->
  MarkUsed now k e c = (None, c') -> clockForward now us last -> e' <= e ->
  fst (MarkUsed last k e' (snd (runUses us c'))) <> None.
Proof.
  intros Hc Hn Hd Hm Hcl He.
  destruct (runUses_blocked now k e us last c') as (t & Ht & Hb); [|done|].
  { by apply (mark_accept now k e c). }
  apply (mark_refuses t last k e e'); [done..| |done].
  assert (now <= last); [|lia]. clear -Hcl.
  revert now Hcl; induction us as [|[[n ?] ?] us IH]; simpl; intros now Hcl; [done|].
  destruct Hcl as [? Hcl]. specialize (IH n Hcl). lia.
Qed.
End laws.

(** ** The in-memory cache *)

Module Memory.

Record MemoryReplayCache := mkMemory { seen : gmap string Time }.

Definition NewMemoryReplayCache : MemoryReplayCache := mkMemory ∅.

(** Entries that have expired at [now] are deleted. *)
Definition purge (now : Time) (m : gmap string Time) : gmap string Time :=
  filter (fun '(_, e) => negb (IsZero e) && negb (IsZero now) && After now e = false) m.

(** [None] is the nil receiver. *)
Definition MarkUsed (now : Time) (key : string) (expiresAt : Time)
    (c : option MemoryReplayCache) : option error * option MemoryReplayCache :=
  match c with
  | None => (None, None)
  | Some m =>
      if isEmpty key
      then (Some (ErrValidation (validationError LayerSessionBinding FieldNonce
                                   ErrMissingBinding)), c)
      else if IsZero expiresAt
      then (Some (ErrValidation (validationError LayerSessionBinding FieldExpiresAt
                                   ErrMissingBinding)), c)
      else if negb (IsZero now) && After now expiresAt
      then (Some (ErrValidation (validationError LayerSessionBinding FieldExpiresAt
                                   ErrExpiredAssertion)), c)
      else
        let seen' := purge now (seen m) in
        match seen' !! key with
        | Some _ => (Some ErrReplayDetected, Some (mkMemory seen'))
        | None => (None, Some (mkMemory (<[key := expiresAt]> seen')))
        end
  end.

#[global] Instance cache : ReplayCache (option MemoryReplayCache) := MarkUsed.

(** [k] is blocked up to [e]: [e] has passed, or an entry for [k] that lives at
    least as long is present. *)
Definition blockedAt (t : Time) (k : string) (e : Time) (c : option MemoryReplayCache) : Prop :=
  0 < t /\ exists m, c = Some m /\ (e < t \/ exists e' : Time, seen m !! k = Some e' /\ e <= e').

Lemma lookup_purge now m k e :
  purge now m !! k = Some e <->
  m !! k = Some e /\ (e = 0 \/ now = 0 \/ now <= e).
Proof.
  unfold purge. rewrite map_lookup_filter_Some. unfold IsZero, After.
  destruct (Z.eqb_spec e 0), (Z.eqb_spec now 0), (Z.ltb_spec e now); simpl;
    intuition (congruence || lia).
Qed.

Lemma MarkUsed_accept now k e m c' :
  MarkUsed now k e (Some m) = (None, c') ->
  isEmpty k = false /\ e <> 0 /\ (now <> 0 -> now <= e)
  /\ purge now (seen m) !! k = None
  /\ c' = Some (mkMemory (<[k := e]> (purge now (seen m)))).
Proof.
  cbn [MarkUsed]. unfold IsZero, After. destruct (isEmpty k); [done|].
  destruct (Z.eqb_spec e 0); [done|].
  destruct (Z.eqb_spec now 0), (Z.ltb_spec e now); simpl; try done;
    destruct (purge now (seen m) !! k) eqn:P; intros ?; simplify_eq; intuition lia.
Qed.

Lemma blockedAt_keeps t now k e k' e' c :
  blockedAt t k e c -> t <= now -> blockedAt now k e (snd (MarkUsed now k' e' c)).
Proof.
  intros (Ht & m & -> & Hm) Hn. split; [lia|].
  assert (Hp : e < now \/ exists e0 : Time, purge now (seen m) !! k = Some e0 /\ e <= e0).
  { destruct (Z.ltb_spec e now); [by left|]. right.
    destruct Hm as [?|(e0 & He0 & ?)]; [lia|].
    exists e0. rewrite lookup_purge. intuition lia. }
  assert (Hm' : e < now \/ exists e0 : Time, seen m !! k = Some e0 /\ e <= e0).
  { destruct Hp as [?|(e0 & [? _]%lookup_purge & ?)]; eauto. }
  cbn [MarkUsed]. cbv zeta. repeat case_goal; simpl; eexists; (split; [done|]); simpl; auto.
  destruct Hp as [?|(e0 & He0 & ?)]; [by left|]. right. exists e0.
  split; [|done]. rewrite lookup_insert_ne; [done|]. intros ->. congruence.
Qed.

Lemma blockedAt_refuses t now k e e' c :
  blockedAt t k e c -> t <= now -> 0 < now -> e' <= e -> fst (MarkUsed now k e' c) <> None.
Proof.
  intros (Ht & m & -> & Hm) Hn Hpos He Hacc.
  destruct (MarkUsed now k e' (Some m)) as [r c'] eqn:E. simpl in Hacc. subst r.
  apply MarkUsed_accept in E as (_ & _ & Hle & Hp & _). specialize (Hle ltac:(lia)).
  destruct Hm as [?|(e0 & He0 & ?)]; [lia|].
  assert (purge now (seen m) !! k = Some e0); [|congruence].
  apply lookup_purge. intuition lia.
Qed.

#[global] Program Instance cache_laws : ReplayCacheLaws (option MemoryReplayCache) :=
  {| enforcing c := is_Some c; blocked := blockedAt |}.
Next Obligation.
  intros now k e c [m ->]. unfold ReplayCache.MarkUsed, cache. cbn [MarkUsed].
  repeat case_goal; simpl; eauto.
Qed.
Next Obligation.
  intros now k e c c' [m ->] Hn _ H. apply MarkUsed_accept in H as (_ & _ & _ & _ & ->).
  split; [done|]. eexists; split; [done|]. right. exists e. simpl.
  by rewrite lookup_insert_eq.
Qed.
Next Obligation. intros; by apply (blockedAt_keeps t). Qed.
Next Obligation. intros; by apply (blockedAt_refuses t now k e). Qed.

End Memory.

(** ** The SETNX cache *)

(** A store with SET key value NX EX ttl, at the store's time [t]. *)
Class SetNXStore (St : Type) :=
  SetNX : Time -> string -> Duration -> St -> result error bool * St.

(** Documented behaviour of SET NX EX: a key that was set is held for its ttl,
    other calls do not disturb it, and a held key is not set again. *)
Class SetNXStoreLaws (St : Type) `{SetNXStore St} := {
  held : Time -> string -> Time -> St -> Prop;
  nx_set t k ttl st st' :
    0 < ttl -> SetNX t k ttl st = (Ok true, st') -> held t k (t + ttl) st';
  nx_keeps t t' k u k' ttl st :
    held t k u st -> t <= t' -> held t' k u (snd (SetNX t' k' ttl st));
  nx_refuses t t' k u ttl st :
    held t k u st -> t <= t' < u -> fst (SetNX t' k ttl st) <> Ok true;
  nx_time t t' k u st : held t k u st -> t <= t' -> held t' k u st }.

Module SetNXCache.
Section cache.
Context {St : Type} `{SetNXStoreLaws St}.

Record SetNXReplayCache := mkSetNX { store : option St }.

Definition NewSetNXReplayCache (s : option St) : SetNXReplayCache := mkSetNX s.

(** The context is handed to the store unread; the store's clock is the cache's. *)
Definition MarkUsed (now : Time) (key : string) (expiresAt : Time)
    (c : option SetNXReplayCache) : option error * option SetNXReplayCache :=
  match c with
  | None => (None, None)
  | Some r =>
      match store r with
      | None => (Some (ErrValidation (validationError LayerSessionBinding FieldNonce
                                        ErrMissingSetNXStore)), c)
      | Some st =>
          if isEmpty key
          then (Some (ErrValidation (validationError LayerSessionBinding FieldNonce
                                       ErrMissingBinding)), c)
          else if IsZero expiresAt
          then (Some (ErrValidation (validationError LayerSessionBinding FieldExpiresAt
                                       ErrMissingBinding)), c)
          else if negb (IsZero now) && After now expiresAt
          then (Some (ErrValidation (validationError LayerSessionBinding FieldExpiresAt
                                       ErrExpiredAssertion)), c)
          else
            let ttl := timeSub expiresAt now in
            if ttl <=? 0
            then (Some (ErrValidation (validationError LayerSessionBinding FieldExpiresAt
                                         ErrExpiredAssertion)), c)
            else
              let '(r, st') := SetNX now key ttl st in
              (match r with
               | Err _ => Some (ErrValidation (validationError LayerSessionBinding FieldNonce
                                                 ErrReplayStoreFailed))
               | Ok false => Some ErrReplayDetected
               | Ok true => None
               end, Some (mkSetNX (Some st')))
      end
  end.

#[local] Instance setnx : ReplayCache (option SetNXReplayCache) := MarkUsed.

Definition enforcingAt (c : option SetNXReplayCache) : Prop :=
  exists st, c = Some (mkSetNX (Some st)).

Definition blockedAt (t : Time) (k : string) (e : Time) (c : option SetNXReplayCache) : Prop :=
  exists st, c = Some (mkSetNX (Some st)) /\ held t k e st.

(** [MarkUsed] either leaves the cache alone and fails, or makes one store call. *)
Lemma MarkUsed_cases now k e st r c' :
  MarkUsed now k e (Some (mkSetNX (Some st))) = (r, c') ->
  (r <> None /\ c' = Some (mkSetNX (Some st)))
  \/ (0 < timeSub e now
      /\ c' = Some (mkSetNX (Some (snd (SetNX now k (timeSub e now) st))))
      /\ (r = None <-> fst (SetNX now k (timeSub e now) st) = Ok true)).
Proof.
  cbn [MarkUsed store]. do 3 (case_goal; [intros; simplify_eq; by left|]). cbv zeta.
  destruct (Z.leb_spec (timeSub e now) 0); [intros; simplify_eq; by left|].
  destruct (SetNX now k (timeSub e now) st) as [r' st']; intros ?; simplify_eq. right.
  split_and!; [done..|]. destruct r' as [[]|]; simpl; intuition congruence.
Qed.

#[local] Program Instance setnx_laws : ReplayCacheLaws (option SetNXReplayCache) :=
  {| enforcing := enforcingAt; blocked := blockedAt |}.
Next Obligation.
  intros now k e c [st ->]. unfold ReplayCache.MarkUsed, setnx, enforcingAt.
  destruct (MarkUsed _ _ _ _) as [r c'] eqn:E.
  apply MarkUsed_cases in E as [[_ ->]|(_ & -> & _)]; simpl; eauto.
Qed.
Next Obligation.
  intros now k e c c' [st ->] Hn Hd E.
  apply MarkUsed_cases in E as [[? _]|(Httl & -> & Hr)]; [done|].
  eexists; split; [done|]. destruct (SetNX _ _ _ _) as [r st'] eqn:S; simpl in *.
  destruct Hr as [Hr _]. rewrite Hr in S by done.
  pose proof (nx_set _ _ _ _ _ Httl S) as Hh.
  replace (now + timeSub e now) with e in Hh; [done|].
  revert Httl Hd. unfold timeSub, maxInt64, minInt64. cbv zeta. repeat case_goal; bool_to_prop; lia.
Qed.
Next Obligation.
  intros t now k e k' e' c (st & -> & Hh) Ht. unfold ReplayCache.MarkUsed, setnx, blockedAt.
  destruct (MarkUsed _ _ _ _) as [r c'] eqn:E.
  apply MarkUsed_cases in E as [[_ ->]|(_ & -> & _)]; simpl; eexists; (split; [done|]).
  - by apply (nx_time t).
  - by apply (nx_keeps t).
Qed.
Next Obligation.
  intros t now k e e' c (st & -> & Hh) Ht Hn He. unfold ReplayCache.MarkUsed, setnx.
  destruct (MarkUsed _ _ _ _) as [r c'] eqn:E. simpl. intros ->.
  apply MarkUsed_cases in E as [[? _]|(Httl & _ & Hr)]; [done|].
  assert (now < e').
  { revert Httl. unfold timeSub, maxInt64, minInt64. cbv zeta. repeat case_goal; bool_to_prop; lia. }
  apply (nx_refuses t now k e (timeSub e' now) st); [done | lia |]. by apply Hr.
Qed.
End cache.
Arguments SetNXReplayCache : clear implicits.
End SetNXCache.

#[global] Existing Instance SetNXCache.setnx.
#[global] Existing Instance SetNXCache.setnx_laws.

(** A store that meets the laws: a map from keys to the end of their life. *)
Module RedisLike.
Definition SetNX (t : Time) (k : string) (ttl : Duration) (m : gmap string Time)
    : result error bool * gmap string Time :=
  match m !! k with
  | Some u => if t <? u then (Ok false, m) else (Ok true, <[k := t + ttl]> m)
  | None => (Ok true, <[k := t + ttl]> m)
  end.

#[global] Instance store : SetNXStore (gmap string Time) := SetNX.

#[global] Program Instance store_laws : SetNXStoreLaws (gmap string Time) :=
  {| held t k u m := u <= t \/ exists u' : Time, m !! k = Some u' /\ u <= u' |}.
Next Obligation.
  intros t k ttl st st' Hpos. unfold ReplayCache.SetNX, store, SetNX.
  repeat case_goal; intros; simplify_eq; right; eexists;
    (split; [apply lookup_insert_eq | lia]).
Qed.
Next Obligation.
  intros t t' k u k' ttl st [?|(u' & Hk & Hu)] Ht; [left; lia|].
  destruct (Z.leb_spec u t'); [by left|]. right.
  unfold ReplayCache.SetNX, store, SetNX.
  destruct (decide (k = k')) as [->|Hne].
  - rewrite Hk. destruct (Z.ltb_spec t' u'); [simpl; eauto | lia].
  - repeat case_goal; simpl; rewrite ?lookup_insert_ne by done; eauto.
Qed.
Next Obligation.
  intros t t' k u ttl st [?|(u' & Hk & Hu)] Ht; [lia|].
  unfold ReplayCache.SetNX, store, SetNX. rewrite Hk.
  destruct (Z.ltb_spec t' u'); [done | lia].
Qed.
Next Obligation. intros t t' k u st [?|?] Ht; [left; lia | by right]. Qed.
End RedisLike.

(** ** Theorems *)

Lemma memory_enforcing (m : Memory.MemoryReplayCache) : enforcing (Some m).
Proof. by exists m. Qed.

(** The in-memory cache is one-shot.  Once [MarkUsed] has accepted a key with
    expiry [e], then after any further calls, with any keys, whose clock readings
    do not go back, a call for the same key with the same or an earlier expiry is
    refused: by the entry while it lives, by the expiry check afterwards. *)
Theorem memory_one_shot (m : Memory.MemoryReplayCache) now k e us last e' c' :
  0 < now -> e - now <= maxInt64 ->
  Memory.MarkUsed now k e (Some m) = (None, c') ->
  clockForward now us last -> e' <= e ->
  fst (Memory.MarkUsed last k e' (snd (runUses us c'))) <> None.
Proof.
  intros. apply (one_shot (C := option Memory.MemoryReplayCache) now k e us last e' (Some m) c');
    auto using memory_enforcing.
Qed.

Lemma memory_one_shot_witness :
  fst (Memory.MarkUsed 12 "k" 20
    (snd (runUses [(11, "other", 30)]
       (snd (Memory.MarkUsed 10 "k" 20 (Some Memory.NewMemoryReplayCache)))))) <> None.
Proof.
  apply (memory_one_shot Memory.NewMemoryReplayCache 10 "k" 20 [(11, "other", 30)] 12 20);
    [lia | vm_compute; discriminate | vm_compute; reflexivity | simpl; lia | lia].
Defined.

(** The SETNX cache is one-shot over every store that behaves as SET NX EX
    does, store failures included: an accepted key is refused from then on for
    the same or an earlier expiry. *)
Theorem setnx_one_shot {St : Type} `{SetNXStoreLaws St} (st : St) now k e us last e' c' :
  0 < now -> e - now <= maxInt64 ->
  SetNXCache.MarkUsed now k e (Some (SetNXCache.NewSetNXReplayCache (Some st))) = (None, c') ->
  clockForward now us last -> e' <= e ->
  fst (SetNXCache.MarkUsed last k e' (snd (runUses us c'))) <> None.
Proof.
  intros.
  pose proof (one_shot (C := option (SetNXCache.SetNXReplayCache St)) now k e us last e'
    (Some (SetNXCache.NewSetNXReplayCache (Some st))) c') as Hshot.
  apply Hshot; try done. by exists st.
Qed.

Lemma setnx_one_shot_witness :
  fst (SetNXCache.MarkUsed (St := gmap string Z) 12 "k" 20
    (snd (runUses [(11, "other", 30)]
       (snd (SetNXCache.MarkUsed 10 "k" 20
               (Some (SetNXCache.NewSetNXReplayCache (Some (∅ : gmap string Z))))))))) <> None.
Proof.
  apply (setnx_one_shot (∅ : gmap string Z) 10 "k" 20 [(11, "other", 30)] 12 20);
    [lia | vm_compute; discriminate | vm_compute; reflexivity | simpl; lia | lia].
Defined.

(** The in-memory cache keeps no expired entry.  An accepted call at a
    non-zero clock reading leaves only entries that are not past their expiry,
    the one just added included. *)
Theorem memory_no_stale (m m' : Memory.MemoryReplayCache) now k e :
  now <> 0 -> (forall k0 e0, Memory.seen m !! k0 = Some e0 -> e0 <> 0) ->
  Memory.MarkUsed now k e (Some m) = (None, Some m') ->
  Memory.seen m' !! k = Some e
  /\ forall k0 e0, Memory.seen m' !! k0 = Some e0 -> e0 <> 0 /\ now <= e0.
Proof.
  intros Hn Hnz H. apply Memory.MarkUsed_accept in H as (_ & He & Hle & _ & [= ->]). simpl.
  split; [by rewrite lookup_insert_eq|]. intros k0 e0 [[<- <-]|[_ H0]]%lookup_insert_Some.
  - auto.
  - apply Memory.lookup_purge in H0 as [H0 ?]. specialize (Hnz _ _ H0). intuition.
Qed.

Lemma memory_no_stale_witness :
  Memory.seen (Memory.mkMemory {["k" := 20]}) !! "k" = Some 20
  /\ forall k0 e0, Memory.seen (Memory.mkMemory {["k" := 20]}) !! k0 = Some e0 ->
       e0 <> 0 /\ 10 <= e0.
Proof.
  apply (memory_no_stale (Memory.mkMemory {["old" := 5]})); [lia | | vm_compute; reflexivity].
  cbn [Memory.seen]. intros k0 e0 [_ <-]%lookup_singleton_Some. lia.
Defined.

(** The clock is read before the lock is taken, so two concurrent calls can
    enter the lock with readings out of order.  A delayed duplicate that read the
    clock before the expiry, and runs after a call that read it past the expiry,
    is accepted a second time. *)
Theorem memory_unordered_clock_replays :
  exists now1 now2 now3 k e k' e',
    now1 < now3 <= e /\ e < now2 /\
    fst (runUses [(now1, k, e); (now2, k', e'); (now3, k, e)] (Some Memory.NewMemoryReplayCache))
    = [None; None; None].
Proof. exists 10, 21, 15, "k", 20, "other", 40. split_and!; [lia..| vm_compute; reflexivity]. Qed.

(** A nil [*MemoryReplayCache] or [*SetNXReplayCache] stored in the interface
    accepts every use, the same key again and again included. *)
Theorem nil_cache_accepts {St : Type} `{SetNXStore St} (us : list Use) :
  Forall (fun r => r = None)
    (fst (runUses us (None : option Memory.MemoryReplayCache)))
  /\ Forall (fun r => r = None)
    (fst (runUses us (None : option (SetNXCache.SetNXReplayCache St)))).
Proof.
  split; induction us as [|[[now k] e] us IH]; simpl; [constructor| |constructor|];
    (destruct (runUses us _); by constructor).
Qed.
