(* ===== verification/SessionBinding.v ===== *)
(** * Session binding: [pkg/atls/identitypolicy/session_binding.go]

    The join between an authenticated grant and an authenticated holder-of-key
    statement.  The cache of [SessionBindingOptions] is a state that the operations
    thread: they take [option C] (the interface value, nil or not) and return it
    with their result.  [clock] is the reading the cache makes of its own clock.

    [statementAccepts] is the specification: the grant is well formed and live, the
    statement names the same grant and audience, it is signed by a key the grant
    allows that is not the issuer's, and its binding values are present and live.
    The one-shot key is shown to be injective on validated statements. *)

From stdpp Require Import base gmap sets list strings.
From Stdlib Require Import ZArith Lia.
From S2P Require Import Prelude GoStrings Errors IdentityPolicy ReplayCache.

Definition LayerIdentityGrant : string := "identity_grant".
Definition FieldIssuer : string := "issuer".
Definition FieldIssuerKey : string := "issuer_key".
Definition FieldAudience : string := "aud".
Definition FieldGrantHash : string := "grant_hash".
Definition FieldSignerKey : string := "signer_key".
Definition FieldConfirmationKey : string := "confirmation_key".
Definition FieldEndpointKey : string := "authorized_endpoint_key".

Record VerifiedGrant := mkGrant {
  g_Issuer : string; g_IssuerKey : string; g_Audience : string; g_GrantHash : string;
  g_Values : Values; g_ConfirmationKey : string; g_AuthorizedEndpointKeys : list string;
  g_IssuedAt : Time; g_ExpiresAt : Time }.

Record VerifiedSessionBindingStatement := mkStatement {
  s_GrantHash : string; s_Audience : string; s_SignerKey : string; s_Binding : Binding }.

(** ** Checks *)

(** [validateExpectedString], [validateObservedString] and [validateBindingString]
    differ in the error for an empty value. *)
Definition validateString (missing : error) (layer field value : string) : option error :=
  if isEmpty value then Some (ErrValidation (validationError layer field missing))
  else match validateValue value with
       | Some err => Some (ErrValidation (validationError layer field err))
       | None => None
       end.

Definition validateExpectedString := validateString ErrMissingExpected.
Definition validateObservedString := validateString ErrMissingObserved.
Definition validateBindingString := validateString ErrMissingBinding LayerSessionBinding.

Definition hasBindingKey (g : VerifiedGrant) : bool :=
  if negb (isEmpty (g_ConfirmationKey g)) || negb (isEmpty (v_AgentPublicKey (g_Values g)))
  then true
  else existsb (fun key => negb (isEmpty key)) (g_AuthorizedEndpointKeys g).

Definition allowsBindingKey (g : VerifiedGrant) (key : string) : bool :=
  if isEmpty key then false
  else if bool_decide (key = g_ConfirmationKey g)
          || bool_decide (key = v_AgentPublicKey (g_Values g)) then true
  else existsb (fun allowed => bool_decide (key = allowed)) (g_AuthorizedEndpointKeys g).

Definition grantFields : list field :=
  l3Fields ++ l4Fields ++ l5Fields ++ l6RefFields.

(** The errors of a list of optional values. *)
Definition valueErrors (field : string) (values : list string) : list (option ValidationError) :=
  concat (map (fun value =>
    if isEmpty value then []
    else match validateValue value with
         | Some err => [Some (validationError LayerIdentityGrant field err)]
         | None => []
         end) values).

Definition validateGrantValues (values : Values) : option error :=
  errorsOrNil (
    concat (map (fun f =>
      let value := f_get f values in
      if isEmpty value then []
      else match validateFieldValue (f_name f) value with
           | Some err => [Some (validationError LayerIdentityGrant (f_name f) err)]
           | None => []
           end) grantFields)
    ++ concat (map (fun '(name, get) =>
      if MaxSetValues <? len (get values)
      then [Some (validationError LayerIdentityGrant name ErrTooManyValues)]
      else valueErrors name (get values)) l6SetFields)).

Definition validateAuthorizedEndpointKeys (keys : list string) : option error :=
  if MaxSetValues <? len keys
  then Some (ErrValidation (validationError LayerIdentityGrant FieldEndpointKey ErrTooManyValues))
  else errorsOrNil (valueErrors FieldEndpointKey keys).

Definition validateGrantLifetime (grant : VerifiedGrant) (now : Time) : option error :=
  errorsOrNil (lifetimeErrors LayerIdentityGrant ErrMissingExpected
                 (g_IssuedAt grant) (g_ExpiresAt grant) now).

Definition statementFields : list (string * (Binding -> string)) :=
  [(FieldLeafPublicKeyHash, b_LeafPublicKeySHA256);
   (FieldTLSExporterHash, b_TLSExporterSHA256);
   (FieldRequestContextHash, b_RequestContextSHA256);
   (FieldNonce, b_Nonce)].

Definition validateStatementBinding (binding : Binding) (now : Time) : option error :=
  let errs := fold_left (fun errs '(name, get) =>
                appendValidationErrors errs (validateBindingString name (get binding)))
                statementFields [] in
  let errs := if bool_decide (b_AttestationBinderSHA256 binding = "") then errs
              else appendValidationErrors errs
                     (validateBindingString FieldAttestationBinderHash
                        (b_AttestationBinderSHA256 binding)) in
  errorsOrNil (errs ++ lifetimeErrors LayerSessionBinding ErrMissingBinding
                         (b_IssuedAt binding) (b_ExpiresAt binding) now).

(** ** Operations *)

Section ops.
Context {C : Type} `{ReplayCache C}.

(** The key under which a statement's use is recorded. *)
Definition replayKey (st : VerifiedSessionBindingStatement) : string :=
  let nul := ofCodes [0] in
  s_GrantHash st +:+ nul +:+ s_Audience st +:+ nul
  +:+ b_TLSExporterSHA256 (s_Binding st) +:+ nul
  +:+ b_RequestContextSHA256 (s_Binding st) +:+ nul +:+ b_Nonce (s_Binding st).

Definition MarkSessionBindingUsed (clock : Time) (cache : option C)
    (statement : VerifiedSessionBindingStatement) : option error * option C :=
  match cache with
  | None => (None, None)
  | Some c =>
      let '(r, c') := MarkUsed clock (replayKey statement)
                        (b_ExpiresAt (s_Binding statement)) c in
      (match r with
       | Some err => Some (ErrValidation (validationError LayerSessionBinding FieldNonce err))
       | None => None
       end, Some c')
  end.

(** The validation part of [ValidateSessionBindingStatementWithOptions], up to the
    replay mark. *)
Definition statementErrors (grant : VerifiedGrant)
    (statement : VerifiedSessionBindingStatement) (now : Time) : list (option ValidationError) :=
  let errs := appendValidationErrors []
    (validateExpectedString LayerIdentityGrant FieldIssuer (g_Issuer grant)) in
  let errs := appendValidationErrors errs
    (validateExpectedString LayerIdentityGrant FieldAudience (g_Audience grant)) in
  let errs := appendValidationErrors errs
    (validateExpectedString LayerIdentityGrant FieldGrantHash (g_GrantHash grant)) in
  let errs :=
    match validateObservedString LayerSessionBinding FieldGrantHash (s_GrantHash statement) with
    | Some err => appendValidationErrors errs (Some err)
    | None => if negb (bool_decide (g_GrantHash grant = s_GrantHash statement))
              then errs ++ [Some (validationError LayerSessionBinding FieldGrantHash ErrMismatch)]
              else errs
    end in
  let errs :=
    match validateObservedString LayerSessionBinding FieldAudience (s_Audience statement) with
    | Some err => appendValidationErrors errs (Some err)
    | None => if negb (bool_decide (g_Audience grant = s_Audience statement))
              then errs ++ [Some (validationError LayerSessionBinding FieldAudience ErrMismatch)]
              else errs
    end in
  let errs :=
    match validateObservedString LayerSessionBinding FieldSignerKey (s_SignerKey statement) with
    | Some err => appendValidationErrors errs (Some err)
    | None =>
        if negb (allowsBindingKey grant (s_SignerKey statement))
        then errs ++ [Some (validationError LayerSessionBinding FieldSignerKey
                              ErrUnauthorizedBindingKey)]
        else if negb (bool_decide (g_IssuerKey grant = ""))
                && bool_decide (s_SignerKey statement = g_IssuerKey grant)
        then errs ++ [Some (validationError LayerSessionBinding FieldIssuerKey
                              ErrUnauthorizedBindingKey)]
        else errs
    end in
  let errs := if negb (hasBindingKey grant)
              then errs ++ [Some (validationError LayerIdentityGrant FieldConfirmationKey
                                    ErrMissingExpected)]
              else errs in
  let errs := appendValidationErrors errs (validateGrantValues (g_Values grant)) in
  let errs := appendValidationErrors errs
    (validateAuthorizedEndpointKeys (g_AuthorizedEndpointKeys grant)) in
  let errs := appendValidationErrors errs (validateGrantLifetime grant now) in
  appendValidationErrors errs (validateStatementBinding (s_Binding statement) now).

Definition ValidateSessionBindingStatementWithOptions (clock : Time) (grant : VerifiedGrant)
    (statement : VerifiedSessionBindingStatement) (now : Time) (cache : option C)
    : option error * option C :=
  match errorsOrNil (statementErrors grant statement now) with
  | Some err => (Some err, cache)
  | None => MarkSessionBindingUsed clock cache statement
  end.

Definition NewAssertionFromSessionBindingWithOptions (clock : Time) (grant : VerifiedGrant)
    (statement : VerifiedSessionBindingStatement) (now : Time) (cache : option C)
    : result error Assertion * option C :=
  match ValidateSessionBindingStatementWithOptions clock grant statement now cache with
  | (Some err, cache') => (Err err, cache')
  | (None, cache') =>
      (Ok (mkAssertion (g_Issuer grant) (g_Values grant) (s_Binding statement)), cache')
  end.
End ops.

(** The entry points without a cache. *)
Definition ValidateSessionBindingStatement (grant : VerifiedGrant)
    (statement : VerifiedSessionBindingStatement) (now : Time) : option error :=
  fst (ValidateSessionBindingStatementWithOptions (C := option Memory.MemoryReplayCache)
         timeZero grant statement now None).

Definition NewAssertionFromSessionBinding (grant : VerifiedGrant)
    (statement : VerifiedSessionBindingStatement) (now : Time) : result error Assertion :=
  fst (NewAssertionFromSessionBindingWithOptions (C := option Memory.MemoryReplayCache)
         timeZero grant statement now None).

(** ** Specification *)

Definition present (value : string) : Prop := isEmpty value = false /\ safeValue value.

Definition optionalSafe (value : string) : Prop := isEmpty value = false -> safeValue value.

Definition grantValuesAccept (v : Values) : Prop :=
  Forall (fun f => isEmpty (f_get f v) = false -> validFor (f_name f) (f_get f v)) grantFields
  /\ Forall (fun '(_, get) => len (get v) <= MaxSetValues /\ Forall optionalSafe (get v))
       l6SetFields.

(** The keys that may sign for a grant. *)
Definition bindingKeys (g : VerifiedGrant) : list string :=
  g_ConfirmationKey g :: v_AgentPublicKey (g_Values g) :: g_AuthorizedEndpointKeys g.

Definition statementAccepts (g : VerifiedGrant) (st : VerifiedSessionBindingStatement)
    (now : Time) : Prop :=
  (present (g_Issuer g) /\ present (g_Audience g) /\ present (g_GrantHash g))
  /\ (s_GrantHash st = g_GrantHash g /\ s_Audience st = g_Audience g)
  /\ (present (s_SignerKey st) /\ s_SignerKey st ∈ bindingKeys g
      /\ s_SignerKey st <> g_IssuerKey g)
  /\ grantValuesAccept (g_Values g)
  /\ (len (g_AuthorizedEndpointKeys g) <= MaxSetValues
      /\ Forall optionalSafe (g_AuthorizedEndpointKeys g))
  /\ liveAt (g_IssuedAt g) (g_ExpiresAt g) now
  /\ Forall (fun '(_, get) => present (get (s_Binding st))) statementFields
  /\ (b_AttestationBinderSHA256 (s_Binding st) <> "" ->
      present (b_AttestationBinderSHA256 (s_Binding st)))
  /\ liveAt (b_IssuedAt (s_Binding st)) (b_ExpiresAt (s_Binding st)) now.

(** ** The checks meet the specification *)

Lemma validateString_None n layer field value :
  validateString (ErrNew n) layer field value = None <-> present value.
Proof.
  unfold validateString, present. rewrite <- validateValue_None.
  destruct (isEmpty value), (validateValue value); intuition congruence.
Qed.

Lemma validateString_appendable n layer field value :
  appendable (validateString (ErrNew n) layer field value).
Proof.
  unfold validateString. destruct (isEmpty value); [auto with go|].
  destruct (validateValue value) eqn:E; [|done].
  apply validateValue_sentinel in E as [? ->]. auto with go.
Qed.

#[export] Hint Resolve validateString_appendable : go.
#[export] Hint Extern 1 (appendable (validateExpectedString _ _ _)) =>
  apply validateString_appendable : go.
#[export] Hint Extern 1 (appendable (validateObservedString _ _ _)) =>
  apply validateString_appendable : go.
#[export] Hint Extern 1 (appendable (validateBindingString _ _)) =>
  apply validateString_appendable : go.

Lemma validateExpectedString_None layer field value :
  validateExpectedString layer field value = None <-> present value.
Proof. apply validateString_None. Qed.

Lemma validateObservedString_None layer field value :
  validateObservedString layer field value = None <-> present value.
Proof. apply validateString_None. Qed.

Lemma validateBindingString_None field value :
  validateBindingString field value = None <-> present value.
Proof. apply validateString_None. Qed.

Lemma valueErrors_nil name values : valueErrors name values = [] <-> Forall optionalSafe values.
Proof.
  unfold valueErrors, optionalSafe. rewrite concat_nil_iff, Forall_map.
  apply Forall_iff; intros v. cbv beta. rewrite <- validateValue_None.
  destruct (isEmpty v), (validateValue v); intuition congruence.
Qed.

Lemma validateGrantValues_None v : validateGrantValues v = None <-> grantValuesAccept v.
Proof.
  unfold validateGrantValues, grantValuesAccept.
  rewrite errorsOrNil_None, app_nil, !concat_nil_iff, !Forall_map.
  f_equiv; apply Forall_iff.
  - intros f. cbv beta zeta. rewrite <- validateFieldValue_None.
    destruct (isEmpty _), (validateFieldValue _ _); intuition congruence.
  - intros [n get]. destruct (Z.ltb_spec MaxSetValues (len (get v))).
    + split; [done|]. intros [? _]. lia.
    + rewrite valueErrors_nil. intuition.
Qed.

Lemma validateAuthorizedEndpointKeys_None keys :
  validateAuthorizedEndpointKeys keys = None <->
  len keys <= MaxSetValues /\ Forall optionalSafe keys.
Proof.
  unfold validateAuthorizedEndpointKeys.
  destruct (Z.ltb_spec MaxSetValues (len keys)).
  - split; [done | intros [? _]; lia].
  - rewrite errorsOrNil_None, valueErrors_nil. intuition.
Qed.

Lemma validateAuthorizedEndpointKeys_appendable keys :
  appendable (validateAuthorizedEndpointKeys keys).
Proof. unfold validateAuthorizedEndpointKeys. case_goal; auto with go. Qed.

#[export] Hint Resolve validateAuthorizedEndpointKeys_appendable : go.

Lemma validateStatementBinding_None b now :
  validateStatementBinding b now = None <->
  Forall (fun '(_, get) => present (get b)) statementFields
  /\ (b_AttestationBinderSHA256 b <> "" -> present (b_AttestationBinderSHA256 b))
  /\ liveAt (b_IssuedAt b) (b_ExpiresAt b) now.
Proof.
  unfold validateStatementBinding. rewrite errorsOrNil_None, app_nil, lifetimeErrors_nil.
  unfold statementFields. cbn [fold_left]. rewrite !Forall_cons, Forall_nil.
  case_bool_decide; rewrite !appendValidationErrors_nil by auto with go;
    rewrite !validateBindingString_None; intuition.
Qed.

Lemma allowsBindingKey_true g key :
  allowsBindingKey g key = true <-> isEmpty key = false /\ key ∈ bindingKeys g.
Proof.
  unfold allowsBindingKey, bindingKeys. rewrite !elem_of_cons.
  destruct (isEmpty key); [intuition congruence|].
  case_bool_decide; [by intuition|]. case_bool_decide; [by intuition|]. simpl.
  rewrite existsb_true_iff, Exists_exists. setoid_rewrite bool_decide_eq_true.
  split; [intros (x & ? & ->); by auto | intros [_ [?|[?|?]]]; [done..|eauto]].
Qed.

Lemma allows_has g key : allowsBindingKey g key = true -> hasBindingKey g = true.
Proof.
  rewrite allowsBindingKey_true. unfold hasBindingKey, bindingKeys.
  rewrite !elem_of_cons. intros [He [<-|[<-|Hin]]]; rewrite ?He; simpl; [done| |].
  - by rewrite orb_true_r.
  - case_goal; [done|]. apply existsb_true_iff, Exists_exists. exists key. by rewrite He.
Qed.

(** The shape of the three checks of statement values against the grant. *)
Lemma elseErrors_nil (v : option error) (errs errs' : list (option ValidationError)) (P : Prop) :
  appendable v -> (errs' = [] <-> errs = [] /\ P) ->
  match v with
  | Some err => appendValidationErrors errs (Some err)
  | None => errs'
  end = [] <-> errs = [] /\ v = None /\ P.
Proof.
  intros Ha He. destruct v as [e|].
  - rewrite appendValidationErrors_nil by done. intuition congruence.
  - rewrite He. intuition.
Qed.

Lemma ifErrors_nil (b : bool) (errs : list (option ValidationError)) x :
  (if b then errs ++ [x] else errs) = [] <-> errs = [] /\ b = false.
Proof. destruct b; rewrite ?app_nil; intuition congruence. Qed.

Lemma ifIfErrors_nil (b b' : bool) (errs : list (option ValidationError)) x x' :
  (if b then errs ++ [x] else if b' then errs ++ [x'] else errs) = [] <->
  errs = [] /\ b = false /\ b' = false.
Proof. destruct b, b'; rewrite ?app_nil; intuition congruence. Qed.

Lemma statementErrors_nil g st now :
  statementErrors g st now = [] <-> statementAccepts g st now.
Proof.
  unfold statementErrors, statementAccepts. cbv zeta.
  rewrite !appendValidationErrors_nil by (unfold validateGrantValues, validateGrantLifetime,
    validateStatementBinding; cbv zeta; auto with go).
  rewrite validateGrantValues_None, validateAuthorizedEndpointKeys_None,
    validateStatementBinding_None, ifErrors_nil.
  unfold validateGrantLifetime. rewrite errorsOrNil_None, lifetimeErrors_nil.
  rewrite !(elseErrors_nil) by (auto with go; apply ifErrors_nil || apply ifIfErrors_nil).
  rewrite !appendValidationErrors_nil by auto with go.
  rewrite !validateExpectedString_None, !validateObservedString_None.
  rewrite !negb_false_iff, !bool_decide_eq_true, andb_false_iff, negb_false_iff,
    bool_decide_eq_true, bool_decide_eq_false.
  pose proof (allows_has g (s_SignerKey st)) as Hhas.
  rewrite allowsBindingKey_true in Hhas |- *.
  assert (Hne : present (s_SignerKey st) -> s_SignerKey st <> "").
  { intros [Hempty _] Heq. rewrite Heq in Hempty. done. }
  split.
  - intros. split_hyps. split_and!; try done; try congruence. intuition congruence.
  - intros. split_hyps. pose proof (fun H => proj1 (H : present (s_SignerKey st))).
    split_and!; try done; try congruence; auto; by right.
Qed.

(** ** The replay key *)

Lemma safe_no_nul value : safeValue value -> 0 ∉ codes value.
Proof.
  intros (_ & Hv & HF) Hin. pose proof (runes_ascii value 0 Hin ltac:(lia)) as Hr.
  rewrite Forall_forall in HF. destruct (HF 0 Hr) as [Hc _]. by vm_compute in Hc.
Qed.

Lemma split_at_zero (a a' b b' : list Z) :
  0 ∉ a -> 0 ∉ a' -> a ++ 0 :: b = a' ++ 0 :: b' -> a = a' /\ b = b'.
Proof.
  revert a'; induction a as [|x a IH]; intros [|x' a'] Ha Ha' Heq; simplify_eq/=;
    rewrite ?not_elem_of_cons in *; try (by intuition).
  destruct (IH a') as [-> ->]; intuition.
Qed.

Lemma replayKey_codes st :
  codes (replayKey st) =
  codes (s_GrantHash st) ++ 0 :: codes (s_Audience st)
  ++ 0 :: codes (b_TLSExporterSHA256 (s_Binding st))
  ++ 0 :: codes (b_RequestContextSHA256 (s_Binding st)) ++ 0 :: codes (b_Nonce (s_Binding st)).
Proof. unfold replayKey. cbv zeta. by rewrite !codes_app. Qed.

(** What the replay cache records of a statement. *)
Definition oneShotIdentity (st : VerifiedSessionBindingStatement) :=
  (s_GrantHash st, s_Audience st, b_TLSExporterSHA256 (s_Binding st),
   b_RequestContextSHA256 (s_Binding st), b_Nonce (s_Binding st)).

Lemma replayKey_inj g g' st st' now now' :
  statementAccepts g st now -> statementAccepts g' st' now' ->
  replayKey st = replayKey st' -> oneShotIdentity st = oneShotIdentity st'.
Proof.
  intros Ha Ha' Hk. apply (f_equal codes) in Hk. rewrite !replayKey_codes in Hk.
  assert (Hno : forall g st now, statementAccepts g st now ->
    (0 ∉ codes (s_GrantHash st)) /\ (0 ∉ codes (s_Audience st))
    /\ (0 ∉ codes (b_TLSExporterSHA256 (s_Binding st)))
    /\ (0 ∉ codes (b_RequestContextSHA256 (s_Binding st)))).
  { clear. intros g st now ((_ & [_ Hau] & [_ Hh]) & [-> ->] & _ & _ & _ & _ & HF & _).
    unfold statementFields in HF. rewrite !Forall_cons in HF.
    destruct HF as (_ & [_ ?] & [_ ?] & _). by split_and!; apply safe_no_nul. }
  destruct (Hno _ _ _ Ha) as (? & ? & ? & ?), (Hno _ _ _ Ha') as (? & ? & ? & ?).
  apply split_at_zero in Hk as [E1%codes_inj Hk]; [|done..].
  apply split_at_zero in Hk as [E2%codes_inj Hk]; [|done..].
  apply split_at_zero in Hk as [E3%codes_inj Hk]; [|done..].
  apply split_at_zero in Hk as [E4%codes_inj E5%codes_inj]; [|done..].
  unfold oneShotIdentity. congruence.
Qed.

Lemma validate_with_options {C} `{ReplayCache C} clock g st now (cache : option C) :
  (statementAccepts g st now /\
   ValidateSessionBindingStatementWithOptions clock g st now cache
   = MarkSessionBindingUsed clock cache st)
  \/ (~ statementAccepts g st now /\ exists err,
      ValidateSessionBindingStatementWithOptions clock g st now cache = (Some err, cache)).
Proof.
  unfold ValidateSessionBindingStatementWithOptions. rewrite <- statementErrors_nil.
  destruct (statementErrors g st now) eqn:E; simpl; [by left|].
  right. split; [done | eauto].
Qed.

Lemma MarkSessionBindingUsed_None {C} `{ReplayCache C} clock (c : C) st cache' :
  MarkSessionBindingUsed clock (Some c) st = (None, cache') ->
  exists c', cache' = Some c' /\
    MarkUsed clock (replayKey st) (b_ExpiresAt (s_Binding st)) c = (None, c').
Proof.
  cbn [MarkSessionBindingUsed].
  destruct (MarkUsed clock (replayKey st) (b_ExpiresAt (s_Binding st)) c) as [[e|] c'];
    intros ?; simplify_eq; eauto.
Qed.

(** A concrete grant and statement for the witnesses. *)
Definition sampleGrant : VerifiedGrant :=
  mkGrant "issuer" "issuer-key" "aud" "hash" sampleValues "agent-key" [] 5 20.
Definition sampleStatement : VerifiedSessionBindingStatement :=
  mkStatement "hash" "aud" "agent-key" (mkBinding "leaf" "exp" "ctx" "" "nonce" 5 20).

Lemma sampleStatement_accepted : statementAccepts sampleGrant sampleStatement 10.
Proof. apply statementErrors_nil. vm_compute. reflexivity. Qed.

(** ** Theorems *)

(** C2: the session-binding gate decides its specification.  It returns nil exactly
    when the statement is authorised by the grant (same grant hash and audience, a
    key the grant allows and that is not the issuer's, everything present, well
    formed and live) and the replay mark succeeds; the cache is touched only after
    every check has passed. *)
Theorem session_binding_decides {C} `{ReplayCache C} clock g st now (cache : option C) :
  let r := ValidateSessionBindingStatementWithOptions clock g st now cache in
  (fst r = None <->
     statementAccepts g st now /\ fst (MarkSessionBindingUsed clock cache st) = None)
  /\ (snd r = cache \/ statementAccepts g st now /\
       snd r = snd (MarkSessionBindingUsed clock cache st)).
Proof.
  intros r. subst r.
  destruct (validate_with_options clock g st now cache) as [[Ha ->]|[Ha [err ->]]]; simpl.
  - intuition.
  - split; [intuition congruence | by left].
Qed.

(** On validated statements the replay key determines the grant hash, the
    audience, the TLS exporter value, the request context and the nonce: two
    statements never share a cache entry unless they agree on all five. *)
Theorem replay_key_injective g g' st st' now now' :
  statementAccepts g st now -> statementAccepts g' st' now' ->
  replayKey st = replayKey st' -> oneShotIdentity st = oneShotIdentity st'.
Proof. apply replayKey_inj. Qed.

Lemma replay_key_injective_witness :
  oneShotIdentity sampleStatement = oneShotIdentity sampleStatement.
Proof.
  apply (replay_key_injective sampleGrant sampleGrant _ _ 10 10);
    [exact sampleStatement_accepted | exact sampleStatement_accepted | reflexivity].
Defined.

(** A session-binding statement is accepted at most once.  Against any replay
    cache that keeps its contract: once the gate has accepted a statement, then
    after any further use of the cache with a clock that does not go back, every
    statement with the same one-shot identity and no later expiry is refused. *)
Theorem session_binding_one_shot {C} `{ReplayCacheLaws C} clock clock' g g' st st' now now' c cache' us :
  enforcing c -> 0 < clock -> b_ExpiresAt (s_Binding st) - clock <= maxInt64 ->
  ValidateSessionBindingStatementWithOptions clock g st now (Some c) = (None, cache') ->
  clockForward clock us clock' ->
  oneShotIdentity st' = oneShotIdentity st ->
  b_ExpiresAt (s_Binding st') <= b_ExpiresAt (s_Binding st) ->
  exists c', cache' = Some c' /\
    fst (ValidateSessionBindingStatementWithOptions clock' g' st' now'
           (Some (snd (runUses us c')))) <> None.
Proof.
  intros Hc Hpos Hd Hv Hcl Hid Hexp.
  destruct (validate_with_options clock g st now (Some c)) as [[Ha Hm]|[_ [err Hm]]];
    rewrite Hv in Hm; [symmetry in Hm|done].
  apply MarkSessionBindingUsed_None in Hm as (c' & -> & Hm). exists c'. split; [done|].
  assert (Hk : replayKey st' = replayKey st)
    by (unfold replayKey; unfold oneShotIdentity in Hid; congruence).
  pose proof (one_shot clock _ _ us clock' _ c c' Hc Hpos Hd Hm Hcl Hexp) as Href.
  destruct (validate_with_options clock' g' st' now' (Some (snd (runUses us c'))))
    as [[_ ->]|[_ [err ->]]]; [|done].
  cbn [MarkSessionBindingUsed]. rewrite Hk. revert Href.
  destruct (MarkUsed clock' _ _ _) as [[e|] c'']; [done | by intros []].
Qed.

Lemma session_binding_one_shot_witness :
  exists c', snd (ValidateSessionBindingStatementWithOptions 10 sampleGrant sampleStatement 10
                    (Some (Some Memory.NewMemoryReplayCache))) = Some c' /\
    fst (ValidateSessionBindingStatementWithOptions 12 sampleGrant sampleStatement 12
           (Some (snd (runUses [(11, "other", 30)] c')))) <> None.
Proof.
  apply (session_binding_one_shot (C := option Memory.MemoryReplayCache)
    10 12 sampleGrant sampleGrant sampleStatement sampleStatement 10 12
    (Some Memory.NewMemoryReplayCache) _ [(11, "other", 30)]);
    [apply memory_enforcing | lia | vm_compute; discriminate | vm_compute; reflexivity
    | simpl; lia | reflexivity | lia].
Defined.
