(* ===== verification/SessionAccept.v ===== *)
(** * The common end of every session verification

    Once a grant and a statement are authenticated, each profile
    ([pkg/clients/identity_jwt.go], [pkg/agtp/jwt.go], [pkg/agtp/cwt.go]) ends with
    the same steps: join them into an assertion, compare it with the local policy
    and the expected session binding, and record the one-shot use last. *)

From stdpp Require Import base gmap sets list strings.
From Stdlib Require Import ZArith Lia.
From S2P Require Import Prelude GoStrings Errors IdentityPolicy ReplayCache SessionBinding.

Record SessionIdentityJWTResult := mkSessionResult {
  sr_Grant : VerifiedGrant; sr_Statement : VerifiedSessionBindingStatement;
  sr_Assertion : Assertion }.

Definition acceptSession {C} `{ReplayCache C} (policy : Policy) (expectedBinding : Binding)
    (now clock : Time) (grant : VerifiedGrant) (statement : VerifiedSessionBindingStatement)
    (cache : option C) : result error SessionIdentityJWTResult * option C :=
  match NewAssertionFromSessionBinding grant statement now with
  | Err err => (Err err, cache)
  | Ok assertion =>
      match ValidateAssertion policy assertion expectedBinding now with
      | Some err => (Err err, cache)
      | None =>
          match MarkSessionBindingUsed clock cache statement with
          | (Some err, cache') => (Err err, cache')
          | (None, cache') => (Ok (mkSessionResult grant statement assertion), cache')
          end
      end
  end.

(** The statement is authorised by the grant and the result agrees with the local
    policy and the expected binding. *)
Definition resultAccepts (policy : Policy) (expectedBinding : Binding) (now : Time)
    (res : SessionIdentityJWTResult) : Prop :=
  statementAccepts (sr_Grant res) (sr_Statement res) now
  /\ sr_Assertion res = mkAssertion (g_Issuer (sr_Grant res)) (g_Values (sr_Grant res))
                          (s_Binding (sr_Statement res))
  /\ assertionAccepts policy (sr_Assertion res) expectedBinding now.

Lemma NewAssertion_Ok g st now a :
  NewAssertionFromSessionBinding g st now = Ok a <->
  statementAccepts g st now /\ a = mkAssertion (g_Issuer g) (g_Values g) (s_Binding st).
Proof.
  unfold NewAssertionFromSessionBinding, NewAssertionFromSessionBindingWithOptions.
  destruct (validate_with_options (C := option Memory.MemoryReplayCache) timeZero g st now None)
    as [[Ha ->]|[Ha [err ->]]]; simpl; intuition congruence.
Qed.

Section accept.
Context {C : Type} `{ReplayCache C}.

Lemma acceptSession_Ok policy eb now clock g st (cache : option C) res cache' :
  acceptSession policy eb now clock g st cache = (Ok res, cache') <->
  sr_Grant res = g /\ sr_Statement res = st /\ resultAccepts policy eb now res
  /\ MarkSessionBindingUsed clock cache st = (None, cache').
Proof.
  unfold acceptSession, resultAccepts. split.
  - destruct (NewAssertionFromSessionBinding g st now) as [a|] eqn:A; [|done].
    destruct (ValidateAssertion _ a _ now) eqn:V; [done|].
    destruct (MarkSessionBindingUsed _ _ st) as [[e|] c'] eqn:M; [done|].
    intros [= <- <-]. simpl.
    apply NewAssertion_Ok in A as [? ->]. apply ValidateAssertion_spec in V. by split_and!.
  - destruct res as [g' st' a]; simpl. intros (-> & -> & (Ha & -> & V) & M).
    apply ValidateAssertion_spec in V.
    assert (NewAssertionFromSessionBinding g st now
            = Ok (mkAssertion (g_Issuer g) (g_Values g) (s_Binding st))) as A
      by (by apply NewAssertion_Ok).
    by rewrite A, V, M.
Qed.

(** A failure leaves the cache alone unless it is the replay mark that failed. *)
Lemma acceptSession_Err policy eb now clock g st (cache : option C) err cache' :
  acceptSession policy eb now clock g st cache = (Err err, cache') ->
  cache' = cache \/
  (resultAccepts policy eb now
     (mkSessionResult g st (mkAssertion (g_Issuer g) (g_Values g) (s_Binding st)))
   /\ MarkSessionBindingUsed clock cache st = (Some err, cache')).
Proof.
  unfold acceptSession, resultAccepts.
  destruct (NewAssertionFromSessionBinding g st now) as [a|] eqn:A;
    [|intros; simplify_eq; by left].
  destruct (ValidateAssertion _ a _ now) eqn:V; [intros; simplify_eq; by left|].
  destruct (MarkSessionBindingUsed _ _ st) as [[e|] c'] eqn:M; [|done].
  intros [= -> ->]. right. simpl.
  apply NewAssertion_Ok in A as [? ->]. apply ValidateAssertion_spec in V. by split_and!.
Qed.
End accept.

(** After an accepted mark, no statement with the same one-shot identity and no
    later expiry can be marked. *)
Lemma marked_once {C} `{ReplayCacheLaws C} clock clock' st st' (c : C) us cache' cache'' :
  enforcing c -> 0 < clock -> b_ExpiresAt (s_Binding st) - clock <= maxInt64 ->
  MarkSessionBindingUsed clock (Some c) st = (None, cache') ->
  clockForward clock us clock' ->
  oneShotIdentity st' = oneShotIdentity st ->
  b_ExpiresAt (s_Binding st') <= b_ExpiresAt (s_Binding st) ->
  exists c', cache' = Some c' /\
    MarkSessionBindingUsed clock' (Some (snd (runUses us c'))) st' <> (None, cache'').
Proof.
  intros Hc Hpos Hd Hm Hcl Hid Hexp.
  apply MarkSessionBindingUsed_None in Hm as (c' & -> & Hm). exists c'. split; [done|].
  intros (c2 & _ & Hm')%MarkSessionBindingUsed_None.
  assert (Hk : replayKey st' = replayKey st)
    by (unfold replayKey; unfold oneShotIdentity in Hid; congruence).
  pose proof (one_shot clock _ _ us clock' _ c c' Hc Hpos Hd Hm Hcl Hexp) as Href.
  apply Href. rewrite <- Hk, Hm'. done.
Qed.
