(* ===== verification/Sha2.v ===== *)
(** * SHA-2 and HMAC: the hash functions the code uses

    [crypto/sha256], [crypto/sha512] (SHA-384 and SHA-512), [crypto/hmac] and
    [encoding/hex] of the Go standard library, as executable functions on
    [list byte].  Words are integers kept at their width.  The published test
    vectors are checked below. *)

From stdpp Require Import base list strings.
From Stdlib Require Import ZArith Lia Ascii Strings.Byte.
From S2P Require Import Prelude GoStrings.

(** ** Parameters of the two word sizes *)

Record Sha2 := mkSha2 {
  wordBytes : nat;                 (* bytes of a word *)
  roundK : list Z;                 (* round constants; one per round *)
  bigS0 : Z * Z * Z; bigS1 : Z * Z * Z;          (* rotations *)
  smallS0 : Z * Z * Z; smallS1 : Z * Z * Z }.    (* two rotations and a shift *)

Section words.
Context (P : Sha2).

Definition wbits : Z := 8 * Z.of_nat (wordBytes P).
Definition wadd (a b : Z) : Z := wrapU wbits (a + b).
Definition wnot (a : Z) : Z := Z.lxor a (Z.ones wbits).
Definition rotr (n a : Z) : Z :=
  Z.lor (Z.shiftr a n) (wrapU wbits (Z.shiftl a (wbits - n))).

Definition bigSigma (r : Z * Z * Z) (x : Z) : Z :=
  let '(a, b, c) := r in Z.lxor (rotr a x) (Z.lxor (rotr b x) (rotr c x)).
Definition smallSigma (r : Z * Z * Z) (x : Z) : Z :=
  let '(a, b, c) := r in Z.lxor (rotr a x) (Z.lxor (rotr b x) (Z.shiftr x c)).
Definition Ch (x y z : Z) : Z := Z.lxor (Z.land x y) (Z.land (wnot x) z).
Definition Maj (x y z : Z) : Z :=
  Z.lxor (Z.land x y) (Z.lxor (Z.land x z) (Z.land y z)).

(** The schedule is a window of sixteen words: the head is the word of the
    current round, a new word is added at the end. *)
Definition nextWord (w : list Z) : Z :=
  wadd (wadd (smallSigma (smallS1 P) (nth 14 w 0)) (nth 9 w 0))
       (wadd (smallSigma (smallS0 P) (nth 1 w 0)) (nth 0 w 0)).

Definition State : Type := Z * Z * Z * Z * Z * Z * Z * Z.

Definition round (k w : Z) (s : State) : State :=
  let '(a, b, c, d, e, f, g, h) := s in
  let t1 := wadd (wadd h (bigSigma (bigS1 P) e)) (wadd (Ch e f g) (wadd k w)) in
  let t2 := wadd (bigSigma (bigS0 P) a) (Maj a b c) in
  (wadd t1 t2, a, b, c, wadd d t1, e, f, g).

Fixpoint rounds (ks w : list Z) (s : State) : State :=
  match ks with
  | [] => s
  | k :: ks' => rounds ks' (tl w ++ [nextWord w]) (round k (nth 0 w 0) s)
  end.

Definition addState (s t : State) : State :=
  let '(a, b, c, d, e, f, g, h) := s in
  let '(a', b', c', d', e', f', g', h') := t in
  (wadd a a', wadd b b', wadd c c', wadd d d', wadd e e', wadd f f', wadd g g', wadd h h').

(** Big-endian words. *)
Definition wordOf (bs : list byte) : Z := fold_left (fun acc b => 256 * acc + byteZ b) bs 0.

Definition bytesOfWord (n : nat) (w : Z) : list byte :=
  map (fun i => toByte (Z.shiftr w (8 * Z.of_nat i))) (rev (seq 0 n)).

Definition compress (s : State) (block : list byte) : State :=
  addState s (rounds (roundK P) (map wordOf (chunks (wordBytes P) block)) s).

(** Padding: 0x80, zeros, and the bit length in two words. *)
Definition pad (msg : list byte) : list byte :=
  let block := (16 * wordBytes P)%nat in
  let tail := (2 * wordBytes P)%nat in
  let used := (length msg + 1 + tail)%nat in
  let zeros := ((block - used mod block) mod block)%nat in
  msg ++ toByte 128 :: replicate zeros (toByte 0) ++ bytesOfWord tail (8 * len msg).

Definition digest (init : State) (msg : list byte) : list byte :=
  let '(a, b, c, d, e, f, g, h) :=
    fold_left compress (chunks (16 * wordBytes P) (pad msg)) init in
  concat (map (bytesOfWord (wordBytes P)) [a; b; c; d; e; f; g; h]).
End words.

(** ** Instances *)

(** The constants by their definition: the leading bits of the fractional parts of
    the square roots and cube roots of the first primes. *)
Definition isPrime (n : Z) : bool :=
  forallb (fun d => negb (n mod Z.of_nat d =? 0)) (seq 2 (Z.to_nat n - 2)).
Definition primes : list Z :=
  Eval vm_compute in List.filter isPrime (map Z.of_nat (seq 2 408)).

(** The largest [r] below [2 ^ n] with [r ^ e <= x], bit by bit. *)
Fixpoint rootBits (n : nat) (e x acc : Z) : Z :=
  match n with
  | O => acc
  | S m =>
      let r := acc + 2 ^ Z.of_nat m in
      rootBits m e x (if r ^ e <=? x then r else acc)
  end.

(** The first [w] bits of the fraction of the [e]-th root of [p]; the integer part of
    the root is below 32. *)
Definition rootFraction (e w p : Z) : Z :=
  wrapU w (rootBits (Z.to_nat (w + 5)) e (p * 2 ^ (e * w)) 0).

Definition cubeK256 : list Z := Eval vm_compute in map (rootFraction 3 32) (take 64 primes).
Definition cubeK512 : list Z := Eval vm_compute in map (rootFraction 3 64) (take 80 primes).
Definition squareH (w : Z) (l : list Z) : State :=
  match map (rootFraction 2 w) l with
  | [a; b; c; d; e; f; g; h] => (a, b, c, d, e, f, g, h)
  | _ => (0, 0, 0, 0, 0, 0, 0, 0)
  end.
Definition init256 : State := Eval vm_compute in squareH 32 (take 8 primes).
Definition init384 : State := Eval vm_compute in squareH 64 (take 8 (drop 8 primes)).
Definition init512 : State := Eval vm_compute in squareH 64 (take 8 primes).

Definition sha256Params : Sha2 :=
  mkSha2 4 cubeK256 (2, 13, 22) (6, 11, 25) (7, 18, 3) (17, 19, 10).
Definition sha512Params : Sha2 :=
  mkSha2 8 cubeK512 (28, 34, 39) (14, 18, 41) (1, 8, 7) (19, 61, 6).

Definition Sum256 : list byte -> list byte := digest sha256Params init256.
Definition Sum384 (msg : list byte) : list byte := take 48 (digest sha512Params init384 msg).
Definition Sum512 : list byte -> list byte := digest sha512Params init512.

(** ** Hexadecimal *)

Definition hexDigit (z : Z) : ascii := ofCode (if z <? 10 then 48 + z else 87 + z).

(** [hex.EncodeToString]. *)
Fixpoint hexEncode (bs : list byte) : string :=
  match bs with
  | [] => ""
  | b :: t => String (hexDigit (byteZ b / 16)) (String (hexDigit (byteZ b mod 16)) (hexEncode t))
  end.

(** ** HMAC *)

(** [hmac.New(hash, key)] over [msg]; [block] is the hash's block size. *)
Definition hmac (hash : list byte -> list byte) (block : nat) (key msg : list byte) : list byte :=
  let key := if (block <? length key)%nat then hash key else key in
  let k := key ++ replicate (block - length key) (toByte 0) in
  let xorPad p := map (fun b => toByte (Z.lxor (byteZ b) p)) k in
  hash (xorPad 0x5c ++ hash (xorPad 0x36 ++ msg)).

(** ** Published vectors *)

Example sum256_abc : hexEncode (Sum256 (bytesOf "abc"))
  = "ba7816bf8f01cfea414140de5dae2223b00361a396177a9cb410ff61f20015ad".
Proof. vm_compute. reflexivity. Qed.

Example sum384_abc : hexEncode (Sum384 (bytesOf "abc"))
  = "cb00753f45a35e8bb5a03d699ac65007272c32ab0eded1631a8b605a43ff5bed8086072ba1e7cc2358baeca134c825a7".
Proof. vm_compute. reflexivity. Qed.

Example sum512_empty : hexEncode (take 8 (Sum512 [])) = "cf83e1357eefb8bd".
Proof. vm_compute. reflexivity. Qed.

Example hmac256_vector :
  hexEncode (hmac Sum256 64 (bytesOf "Jefe") (bytesOf "what do ya want for nothing?"))
  = "5bdcc146bf60754e6a042426089575c75a003f089d2739839dec58b964ec3843".
Proof. vm_compute. reflexivity. Qed.

(** ** Lemmas *)

Lemma length_bytesOfWord n w : length (bytesOfWord n w) = n.
Proof. unfold bytesOfWord. by rewrite length_map, length_rev, length_seq. Qed.

Lemma length_digest P init msg : length (digest P init msg) = (8 * wordBytes P)%nat.
Proof.
  unfold digest. destruct (fold_left _ _ _) as [[[[[[[a b] c] d] e] f] g] h].
  simpl. rewrite !length_app, !length_bytesOfWord. simpl. lia.
Qed.

Lemma length_Sum256 msg : length (Sum256 msg) = 32%nat.
Proof. apply length_digest. Qed.

Lemma length_Sum384 msg : length (Sum384 msg) = 48%nat.
Proof. unfold Sum384. rewrite length_take, length_digest. reflexivity. Qed.

Lemma length_Sum512 msg : length (Sum512 msg) = 64%nat.
Proof. apply length_digest. Qed.

Lemma hexDigit_inj x y : 0 <= x < 16 -> 0 <= y < 16 -> hexDigit x = hexDigit y -> x = y.
Proof.
  unfold hexDigit, ofCode. intros Hx Hy H. apply (f_equal N_of_ascii) in H.
  rewrite !N_ascii_embedding in H by (case_goal; lia).
  apply (f_equal Z.of_N) in H.
  destruct (Z.ltb_spec x 10), (Z.ltb_spec y 10); lia.
Qed.

Lemma hexEncode_inj a b : hexEncode a = hexEncode b -> a = b.
Proof.
  revert b; induction a as [|x a IH]; intros [|y b]; simpl; try done. intros H.
  injection H as H1 H2 H3. f_equal; [|by apply IH].
  pose proof (byteZ_range x). pose proof (byteZ_range y). apply byteZ_inj.
  apply hexDigit_inj in H1; [|split; [apply Z.div_pos; lia|apply Z.div_lt_upper_bound; lia]..].
  apply hexDigit_inj in H2; [|apply Z.mod_pos_bound; lia..].
  rewrite (Z.div_mod (byteZ x) 16), (Z.div_mod (byteZ y) 16) by lia. lia.
Qed.
