(* ===== verification/Archive.v ===== *)
(** * Archives and files: [internal/zip.go] and [internal/file.go]

    Directories travel as zip archives.  Writing sorts the files by path and drops what
    the file system adds, so that the bytes depend on names and contents only; reading
    checks every entry name before it becomes a path.  The zip format and SHA-3 are the
    operations of the class [ArchiveLib], with the offset of the local zone at the epoch;
    the file system is that of [GoOS]. *)

From stdpp Require Import countable base list strings.
From Stdlib Require Import ZArith Lia Strings.Byte.
From S2P Require Import Prelude GoStrings GoSort Errors GoPath GoOS Sha2.

(** An entry as [archive/zip] gives it to a reader: opening it may fail, and reading may
    fail after some bytes. *)
Record ZipFile := mkZipFile {
  zf_Name : string; zf_Mode : Z; zf_Open : option error; zf_Data : list byte;
  zf_ReadErr : option error }.

(** An entry as it is given to a writer.  [ze_Modified] is the wall-clock time, in seconds,
    that the header carries: the writer stores the time of the given location. *)
Record ZipEntry := mkZipEntry {
  ze_Name : string; ze_Mode : Z; ze_Modified : Z; ze_Data : list byte }.

Class ArchiveLib := {
  zipRead : list byte -> result error (list ZipFile);
  zipHeader : string -> Z -> option error;
  zipBytes : list ZipEntry -> list byte;
  localOffset : Z;
  sha3Sum256 : list byte -> list byte }.

Definition errUnsafeZipPath : error := ErrNew "internal.errUnsafeZipPath".
Definition errEmptyPath : error := ErrNew "zip path is empty".

Section archive.
Context `{OS, ArchiveLib}.

(** ** Writing *)

Definition zipSourceFiles (sourcePath : string) (mode : Z)
    : st (list act) (result error (list string)) :=
  if negb (IsDir mode) then lift (Ok [sourcePath])
  else let! files := Walk sourcePath in
       lift (Ok (map fst (filter (fun f => IsDir f.2 = false /\ IsRegular f.2 = true) files))).

Definition zipEntryName (sourcePath : string) (mode : Z) (filePath : string)
    : result error string :=
  if negb (IsDir mode) then Ok (Base filePath)
  else let* relPath := Rel sourcePath filePath in
       if bool_decide (relPath = ".") || bool_decide (relPath = "")
       then Err (ErrNew "invalid zip entry path") else Ok relPath.

(** The entry of one file, none for a file that is not regular.  [time.Unix(0, 0)] is in
    the local zone. *)
Definition addZipFile (sourcePath : string) (mode : Z) (filePath : string)
    : st (list act) (result error (list ZipEntry)) :=
  let! info := Stat filePath in
  if negb (IsRegular info) then lift (Ok [])
  else
    let! name := lift (zipEntryName sourcePath mode filePath) in
    guard! lift (zipHeader name info) in
    let! data := ReadFile filePath in
    lift (Ok [mkZipEntry name info localOffset data]).

Fixpoint addZipFiles (sourcePath : string) (mode : Z) (files : list string)
    : st (list act) (result error (list ZipEntry)) :=
  match files with
  | [] => lift (Ok [])
  | filePath :: t =>
      let! e := addZipFile sourcePath mode filePath in
      let! es := addZipFiles sourcePath mode t in
      lift (Ok (e ++ es))
  end.

Definition writeZip (sourcePath : string) : st (list act) (result error (list byte)) :=
  if bool_decide (sourcePath = "") then lift (Err errEmptyPath)
  else
    let sourcePath := Clean sourcePath in
    let! info := Stat sourcePath in
    let! files := zipSourceFiles sourcePath info in
    let! entries := addZipFiles sourcePath info (sortStrings files) in
    lift (Ok (zipBytes entries)).

Definition ZipDirectoryToMemory (sourceDir : string) : st (list act) (result error (list byte)) :=
  writeZip sourceDir.

(** ** Reading *)

Definition cleanZipEntryName (name : string) : result error string :=
  if bool_decide (name = "") || ContainsAny name (ofCodes [0]) || ContainsAny name (ofCodes [92])
  then Err (ErrWrap "name" errUnsafeZipPath)
  else if IsAbs name then Err (ErrWrap "name" errUnsafeZipPath)
  else
    let cleanName := Clean name in
    if bool_decide (cleanName = ".") || bool_decide (cleanName = "..")
       || HasPrefix cleanName "../"
    then Err (ErrWrap "name" errUnsafeZipPath)
    else Ok cleanName.

Definition zipEntryTarget (root cleanName : string) : result error string :=
  let target := Join [root; cleanName] in
  let* rel := Rel root target in
  if bool_decide (rel = "..") || HasPrefix rel "../"
  then Err (ErrWrap "target" errUnsafeZipPath)
  else Ok target.

Definition extractZipFile (file : ZipFile) (filePath : string)
    : st (list act) (result error unit) :=
  guard! perform (AMkdirAll (Dir filePath)) in
  guard! lift (zf_Open file) in
  let perm := Perm (zf_Mode file) in
  let perm := if perm =? 0 then 420 else perm in
  guard! perform (AOpenTrunc filePath perm) in
  guard! perform (AWrite filePath (zf_Data file)) in
  guard! lift (zf_ReadErr file) in
  lift (Ok tt).

Definition unzipEntry (root : string) (file : ZipFile) : st (list act) (result error unit) :=
  let! cleanName := lift (cleanZipEntryName (zf_Name file)) in
  let! filePath := lift (zipEntryTarget root cleanName) in
  let mode := zf_Mode file in
  if negb (Z.land mode ModeSymlink =? 0) then lift (Err (ErrWrap "symlink" errUnsafeZipPath))
  else if IsDir mode then guard! perform (AMkdirAll filePath) in lift (Ok tt)
  else if negb (Z.land mode ModeType =? 0)
  then lift (Err (ErrWrap "unsupported file type" errUnsafeZipPath))
  else extractZipFile file filePath.

Fixpoint unzipEntries (root : string) (files : list ZipFile)
    : st (list act) (result error unit) :=
  match files with
  | [] => lift (Ok tt)
  | file :: t => let! _ := unzipEntry root file in unzipEntries root t
  end.

Definition UnzipFromMemory (zipData : list byte) (targetDir : string)
    : st (list act) (result error unit) :=
  if bool_decide (targetDir = "") then lift (Err errEmptyPath)
  else
    let! root := (fun h => (Abs (os_getwd h) targetDir, h)) in
    guard! perform (AMkdirAll root) in
    let! files := lift (zipRead zipData) in
    unzipEntries root files.

(** ** Files *)

Definition CopyFile (srcPath dstPath : string) : st (list act) (result error unit) :=
  let! data := ReadFile srcPath in
  guard! perform (AOpenTrunc dstPath 438) in
  guard! perform (AWrite dstPath data) in
  lift (Ok tt).

Fixpoint removeAll (files : list string) : st (list act) (result error unit) :=
  match files with
  | [] => lift (Ok tt)
  | file :: t => guard! perform (ARemove file) in removeAll t
  end.

Definition DeleteFilesInDir (dirPath : string) : st (list act) (result error unit) :=
  let! files := Glob (Join [dirPath; "*"]) in removeAll files.

Definition Digest (path : string) : st (list act) (result error (list byte * list byte)) :=
  let! mode := Stat path in
  let! data := (if IsDir mode then ZipDirectoryToMemory path else ReadFile path) in
  lift (Ok (data, sha3Sum256 data)).

Definition Checksum (path : string) : st (list act) (result error (list byte)) :=
  let! d := Digest path in lift (Ok (snd d)).

Definition ChecksumHex (path : string) : st (list act) (result error string) :=
  let! sum := Checksum path in lift (Ok (hexEncode sum)).
End archive.

(** ** Extraction stays inside the target *)

(** The effect concerns a path at or below the directory with elements [R]. *)
Definition inside (R : list string) (p : string) : Prop :=
  exists names, p = render true (R ++ names) /\ Forall isName names.

Definition insideAct (R : list string) (a : act) : Prop :=
  match a with
  | AMkdirAll p | AOpenTrunc p _ | AWrite p _ => inside R p
  | _ => False
  end.

Lemma abs_shape s : IsAbs s = true -> exists R, Clean s = render true R /\ Forall isName R.
Proof.
  intros Hs. destruct (Clean_shape s) as (k & names & E & HF & Hk); [by intros ->|].
  rewrite Hs, (Hk Hs) in E. by exists names.
Qed.

Lemma join_shape R p : Forall isName R -> exists T, Join [render true R; p] = render true T /\ Forall isName T.
Proof.
  intros HR. rewrite Join_abs by done.
  destruct (foldl_cleanStep_ok true (splitSlash p) (rev R)) as (k & names & E & HF & Hk);
    [apply splitSlash_noSlash | by exists 0%nat, R; rewrite app_nil_r |].
  rewrite E, (Hk eq_refl), app_nil_r, rev_involutive. by exists names.
Qed.

Lemma zipEntryTarget_inside R name p :
  Forall isName R -> zipEntryTarget (render true R) name = Ok p ->
  exists names, p = render true (R ++ names) /\ Forall isName names.
Proof.
  intros HR. unfold zipEntryTarget. destruct (join_shape R name HR) as (T & -> & HT).
  destruct (Rel (render true R) (render true T)) as [rel|] eqn:Erel; [|done].
  case_bool_decide as Hd; [done|]. simpl. destruct (HasPrefix rel "../") eqn:Hp; [done|].
  intros [= <-]. destruct (Rel_inside R T rel HR HT Erel Hd Hp) as (names & -> & Hn). by exists names.
Qed.

(** The names that pass are those of a file below the root. *)
Lemma cleanZipEntryName_shape n c :
  cleanZipEntryName n = Ok c ->
  exists names, c = joinSlash names /\ names <> [] /\ Forall isName names.
Proof.
  unfold cleanZipEntryName. case_goal; [done|]. destruct (IsAbs n) eqn:Ha; [done|].
  case_goal; [done|]. intros [= <-]. bool_to_prop.
  destruct (Clean_shape n) as (k & names & E & HF & _); [naive_solver|].
  rewrite Ha in E. rewrite E in *.
  destruct k as [|k]; simpl in *.
  - exists names. destruct names; [naive_solver|]. by split_and!.
  - exfalso. destruct (replicate k ".." ++ names) as [|e l] eqn:El; [naive_solver|].
    destruct l; naive_solver.
Qed.

Lemma inside_refl R : inside R (render true R).
Proof. exists []. by rewrite app_nil_r. Qed.

(** The directory of a file strictly below the root is still at or below it. *)
Lemma inside_Dir R names :
  Forall isName R -> Forall isName names -> names <> [] -> inside R (Dir (render true (R ++ names))).
Proof.
  intros HR Hn Hne. destruct names as [|e names _] using rev_ind; [done|].
  apply Forall_app in Hn as [Hn [He _]%Forall_cons]. rewrite app_assoc, Dir_abs; [|by apply Forall_app|done].
  by exists names.
Qed.

(** A name that passes is joined to the root element by element. *)
Lemma zipEntryTarget_names R names :
  Forall isName R -> Forall isName names -> names <> [] ->
  zipEntryTarget (render true R) (joinSlash names) = Ok (render true (R ++ names)).
Proof.
  intros HR Hn Hne. unfold zipEntryTarget. rewrite Join_names, Rel_names by done.
  destruct (names_down names Hne Hn) as [Hd Hp]. by rewrite bool_decide_eq_false_2, Hp.
Qed.

Section contained.
Context `{!OS, !OSLaws, !ArchiveLib}.

Lemma emits_unzipEntry R file : Forall isName R -> emits (insideAct R) (unzipEntry (render true R) file).
Proof.
  intros HR. unfold unzipEntry. apply emits_bindOk_lift. intros c Hc.
  destruct (cleanZipEntryName_shape _ _ Hc) as (names & -> & Hne & Hn).
  rewrite zipEntryTarget_names by done. apply emits_bindOk_lift. intros p <-%Ok_inj.
  assert (Hi : inside R (render true (R ++ names))) by by exists names.
  pose proof (inside_Dir R names HR Hn Hne) as Hd.
  unfold extractZipFile. by eauto 20 with emits.
Qed.

Lemma emits_unzipEntries R files :
  Forall isName R -> emits (insideAct R) (unzipEntries (render true R) files).
Proof.
  intros HR. induction files as [|f files IH]; simpl; [by apply emits_lift|].
  apply emits_bindOk; [by apply emits_unzipEntry | done].
Qed.

Lemma Abs_shape h p root :
  Abs (os_getwd h) p = Ok root -> exists R, root = render true R /\ Forall isName R.
Proof.
  unfold Abs. destruct (IsAbs p) eqn:Hp; [intros <-%Ok_inj; by apply abs_shape|].
  destruct (os_getwd h) as [d|] eqn:Ed; [|done]. intros <-%Ok_inj.
  apply getwd_abs in Ed. destruct d as [|c d]; [done|].
  change (Join [String c d; p]) with (Clean (String c (d +:+ String slash p))). by apply abs_shape.
Qed.

Lemma UnzipFromMemory_inside zipData targetDir h r h' :
  UnzipFromMemory zipData targetDir h = (r, h') ->
  exists t, h' = h ++ t /\
    (t = [] \/ exists R, Abs (os_getwd h) targetDir = Ok (render true R) /\ Forall isName R
                        /\ Forall (insideAct R) t).
Proof.
  unfold UnzipFromMemory. case_bool_decide; [intros [= <- <-]; exists []; rewrite app_nil_r; auto|].
  unfold bindOk at 1. destruct (Abs (os_getwd h) targetDir) as [root|e] eqn:Eroot;
    [|intros [= <- <-]; exists []; rewrite app_nil_r; auto].
  destruct (Abs_shape _ _ _ Eroot) as (R & -> & HR). intros E.
  eapply (emits_run (insideAct R)) in E as (t & -> & Ht); [exists t; split; [done|]; right; by exists R|].
  pose proof (inside_refl R). pose proof (fun fs => emits_unzipEntries R fs HR). eauto 10 with emits.
Qed.

(** C22: Every effect of [UnzipFromMemory], whatever the archive holds and whatever the
    system answers, is at or below the absolute path of the target directory: it makes
    directories and writes files there, and does nothing else. *)
Theorem UnzipFromMemory_contained zipData targetDir h r h' :
  UnzipFromMemory zipData targetDir h = (r, h') ->
  exists t, h' = h ++ t /\
    (t = [] \/ exists R, Abs (os_getwd h) targetDir = Ok (render true R) /\ Forall isName R
                        /\ Forall (insideAct R) t).
Proof. apply UnzipFromMemory_inside. Qed.
End contained.

(** ** Writing does not depend on the order of the walk *)

Lemma addZipFiles_agree (O1 O2 : OS) `{!ArchiveLib} src mode files h :
  (forall p, @os_stat O1 h p = @os_stat O2 h p) -> (forall p, @os_read O1 h p = @os_read O2 h p) ->
  @addZipFiles O1 _ src mode files h = @addZipFiles O2 _ src mode files h
  /\ snd (@addZipFiles O2 _ src mode files h) = h.
Proof.
  intros Hs Hr. induction files as [|f files [IH1 IH2]]; [done|]. simpl.
  unfold addZipFile, bindOk, bindNil, Stat, ReadFile, lift. rewrite Hs.
  destruct (@addZipFiles O2 _ src mode files h) as [es h'] eqn:E2; simpl in IH2; subst h'.
  destruct (@os_stat O2 h f) as [m|]; [|done].
  destruct (IsRegular m); simpl; [|rewrite IH1, E2; by destruct es].
  destruct (zipEntryName src mode f) as [n|]; [|done]. destruct (zipHeader n m); [done|].
  rewrite Hr. destruct (@os_read O2 h f); [|done]. rewrite IH1, E2. by destruct es.
Qed.

(** The archive does not depend on the order in which the file system lists a
    directory: two systems with the same files, one listing them in another order, give
    the same bytes. *)
Theorem zip_order_independent (O1 O2 : OS) `{!ArchiveLib} src h w1 w2 :
  (forall p, @os_stat O1 h p = @os_stat O2 h p) -> (forall p, @os_read O1 h p = @os_read O2 h p) ->
  @os_walk O1 h (Clean src) = Ok w1 -> @os_walk O2 h (Clean src) = Ok w2 -> w1 ≡ₚ w2 ->
  @ZipDirectoryToMemory O1 _ src h = @ZipDirectoryToMemory O2 _ src h.
Proof.
  intros Hs Hr H1 H2 Hw. unfold ZipDirectoryToMemory, writeZip. case_bool_decide; [done|].
  unfold bindOk, Stat, lift. rewrite Hs. destruct (@os_stat O2 h (Clean src)) as [m|]; [|done].
  unfold zipSourceFiles, bindOk, Walk, lift. destruct (IsDir m); cbn [negb]; [rewrite H1, H2|].
  - match goal with |- context [sortStrings (map _ (filter ?P w1))] => set (Q := P) end.
    rewrite (sortStrings_unique _ (map fst (filter Q w2))) by by rewrite Hw.
    by destruct (addZipFiles_agree O1 O2 (Clean src) m (sortStrings (map fst (filter Q w2))) h Hs Hr) as [-> _].
  - by destruct (addZipFiles_agree O1 O2 (Clean src) m (sortStrings [Clean src]) h Hs Hr) as [-> _].
Qed.

(** ** Round trip *)

(** What a reader gives for an entry that was written without error. *)
Definition fileOf (e : ZipEntry) : ZipFile := mkZipFile (ze_Name e) (ze_Mode e) None (ze_Data e) None.

(** An entry the format stores as it is: a plain file with permission bits, whose name
    fits the length field and does not end in a slash. *)
Definition storable (e : ZipEntry) : Prop :=
  0 <= ze_Mode e < 512 /\ slen (ze_Name e) < 65536 /\ List.last (splitSlash (ze_Name e)) "" <> "".

Class ArchiveLaws `{ArchiveLib} : Prop := {
  zipHeader_plain : forall name mode, 0 <= mode < 512 -> slen name < 65536 -> zipHeader name mode = None;
  zipRead_bytes : forall es, Forall storable es -> zipRead (zipBytes es) = Ok (map fileOf es) }.

(** A file below a directory: the elements of its path, its mode and its content. *)
Record tree_file := mkTreeFile { tf_names : list string; tf_mode : Z; tf_data : list byte }.

(** A file whose name [UnzipFromMemory] takes back: no NUL and no backslash in it. *)
Definition portable (f : tree_file) : Prop :=
  Forall isName (tf_names f) /\ tf_names f <> [] /\ 0 <= tf_mode f < 512 /\
  slen (joinSlash (tf_names f)) < 65536 /\
  ContainsAny (joinSlash (tf_names f)) (ofCodes [0]) = false /\
  ContainsAny (joinSlash (tf_names f)) (ofCodes [92]) = false.

Definition pathIn (R : list string) (f : tree_file) : string := render true (R ++ tf_names f).

(** What extracting the file below [T] does. *)
Definition extractActs (T : list string) (f : tree_file) : list act :=
  let p := pathIn T f in
  [AMkdirAll (Dir p); AOpenTrunc p (if tf_mode f =? 0 then 420 else tf_mode f); AWrite p (tf_data f)].

Section roundtrip.
Context `{!OS, !ArchiveLib, !ArchiveLaws}.

Definition entryOf (f : tree_file) : ZipEntry :=
  mkZipEntry (joinSlash (tf_names f)) (tf_mode f) localOffset (tf_data f).

(** The file is on the disk below [R]. *)
Definition onDisk (R : list string) (h : list act) (f : tree_file) : Prop :=
  os_stat h (pathIn R f) = Ok (tf_mode f) /\ os_read h (pathIn R f) = Ok (tf_data f).

Lemma plain_mode m : 0 <= m < 512 ->
  Z.land m ModeType = 0 /\ Z.land m ModeDir = 0 /\ Z.land m ModeSymlink = 0 /\ Perm m = m.
Proof.
  intros Hm. assert (E : m = Z.land m 511) by (change 511 with (Z.ones 9); rewrite Z.land_ones by lia; by rewrite Z.mod_small).
  unfold Perm. rewrite <- E. rewrite E, <- !Z.land_assoc. by rewrite !Z.land_0_r.
Qed.

Lemma names_proper l : l <> [] -> Forall isName l -> joinSlash l <> "." /\ joinSlash l <> "".
Proof.
  intros Hl HF. pose proof (splitSlash_names l Hl HF) as E.
  split; intros E2; rewrite E2 in E; subst l; apply Forall_cons in HF as [(? & ? & _) _]; done.
Qed.

Lemma names_last l : l <> [] -> Forall isName l -> List.last l "" <> "".
Proof.
  intros Hl HF. destruct l as [|e l _] using rev_ind; [done|]. rewrite last_last.
  by apply Forall_app in HF as [_ [(? & _) _]%Forall_cons].
Qed.

Lemma portable_storable f : portable f -> storable (entryOf f).
Proof.
  intros (Hn & Hne & Hm & Hl & _). split; [done|]. split; [done|]. simpl.
  rewrite splitSlash_names by done. by apply names_last.
Qed.

Lemma addZipFile_portable R dirMode f h :
  Forall isName R -> IsDir dirMode = true -> portable f -> onDisk R h f ->
  addZipFile (render true R) dirMode (pathIn R f) h = (Ok [entryOf f], h).
Proof.
  intros HR Hd (Hn & Hne & Hm & Hl & _) [Es Er].
  destruct (plain_mode _ Hm) as (Ht & _). unfold addZipFile, bindOk, bindNil, Stat, ReadFile, lift.
  rewrite Es. unfold IsRegular. rewrite Ht. cbn [Z.eqb negb].
  unfold zipEntryName, pathIn in *. rewrite Hd, Rel_names by done. cbn [negb].
  destruct (names_proper _ Hne Hn) as [Hdot Hemp]. rewrite !bool_decide_eq_false_2 by done.
  cbn [orb]. by rewrite zipHeader_plain, Er by done.
Qed.

Lemma addZipFiles_portable R dirMode fs h :
  Forall isName R -> IsDir dirMode = true -> Forall portable fs -> Forall (onDisk R h) fs ->
  addZipFiles (render true R) dirMode (map (pathIn R) fs) h = (Ok (map entryOf fs), h).
Proof.
  intros HR Hd. induction fs as [|f fs IH]; [done|].
  intros [Hp Hps]%Forall_cons [Ho Hos]%Forall_cons. cbn [map addZipFiles].
  unfold bindOk at 1. rewrite addZipFile_portable by done. unfold bindOk. by rewrite IH.
Qed.

Lemma cleanZipEntryName_names l :
  l <> [] -> Forall isName l ->
  ContainsAny (joinSlash l) (ofCodes [0]) = false -> ContainsAny (joinSlash l) (ofCodes [92]) = false ->
  cleanZipEntryName (joinSlash l) = Ok (joinSlash l).
Proof.
  intros Hne Hn Hnul Hbs. destruct (names_proper l Hne Hn) as [Hd He].
  destruct (names_down l Hne Hn) as [Hdd Hp].
  assert (Hc : Clean (joinSlash l) = joinSlash l).
  { pose proof (Clean_render false 0 l Hn) as E. simpl in E. destruct l; [done|]. by apply E. }
  unfold cleanZipEntryName. rewrite Hnul, Hbs, bool_decide_eq_false_2 by done. cbn [orb].
  rewrite IsAbs_join; [|eapply Forall_impl; [exact Hn|]; by intros e (? & _ & _ & ?)].
  by rewrite Hc, Hp, !bool_decide_eq_false_2 by done.
Qed.

(** The operating system carries out every effect. *)
Definition obliging : Prop := forall h a, os_act h a = None.

Lemma unzipEntry_portable T f h :
  obliging -> Forall isName T -> portable f ->
  unzipEntry (render true T) (fileOf (entryOf f)) h = (Ok tt, h ++ extractActs T f).
Proof.
  intros HO HT (Hn & Hne & Hm & Hl & Hnul & Hbs). destruct (plain_mode _ Hm) as (Ht & Hdir & Hsym & Hperm).
  unfold unzipEntry. cbn [zf_Name fileOf entryOf ze_Name zf_Mode ze_Mode].
  rewrite cleanZipEntryName_names by done. unfold bindOk at 1, lift at 1. cbv beta iota.
  rewrite zipEntryTarget_names by done.
  unfold IsDir, extractZipFile.
  cbn [zf_Mode zf_Open zf_Data zf_ReadErr fileOf entryOf ze_Mode ze_Data]. rewrite Ht, Hdir, Hsym, Hperm.
  unfold bindOk, bindNil, perform, lift, extractActs, pathIn. cbn [Z.eqb negb]. rewrite !HO.
  by rewrite <- !app_assoc.
Qed.

Lemma unzipEntries_portable T fs : obliging -> Forall isName T -> Forall portable fs -> forall h,
  unzipEntries (render true T) (map fileOf (map entryOf fs)) h
  = (Ok tt, h ++ flat_map (extractActs T) fs).
Proof.
  intros HO HT. induction fs as [|f fs IH]; intros HF h; [simpl; by rewrite app_nil_r|].
  apply Forall_cons in HF as [Hf HF]. cbn [map unzipEntries flat_map]. unfold bindOk.
  rewrite unzipEntry_portable, IH by done. by rewrite app_assoc.
Qed.

Lemma zip_portable R h dirMode w fs :
  Forall isName R -> IsDir dirMode = true -> Forall portable fs -> Forall (onDisk R h) fs ->
  os_stat h (render true R) = Ok dirMode -> os_walk h (render true R) = Ok w ->
  map fst (filter (fun f => IsDir f.2 = false /\ IsRegular f.2 = true) w) ≡ₚ map (pathIn R) fs ->
  exists fs', fs' ≡ₚ fs /\
    ZipDirectoryToMemory (render true R) h = (Ok (zipBytes (map entryOf fs')), h).
Proof.
  intros HR Hd Hp Ho Es Ew Hw.
  pose proof (sortStrings_perm (map (pathIn R) fs)) as Hsp.
  apply Permutation_map_inv in Hsp as (fs' & Efs & Hfs).
  exists fs'. split; [done|]. unfold ZipDirectoryToMemory, writeZip.
  rewrite bool_decide_eq_false_2 by done. rewrite Clean_abs by done.
  unfold bindOk, Stat, lift. rewrite Es. unfold zipSourceFiles, bindOk, Walk, lift. rewrite Hd. cbn [negb]. rewrite Ew.
  cbn [negb]. rewrite (sortStrings_unique _ _ Hw), Efs.
  by rewrite addZipFiles_portable by (rewrite <- ?Hfs; done).
Qed.
End roundtrip.


(** The two sides disagree on backslashes: a file whose name contains one is zipped
    under that name, and no archive with such an entry can be extracted. *)
Theorem backslash_not_extracted `{!OS, !ArchiveLib} (f : ZipFile) root h :
  ContainsAny (zf_Name f) (ofCodes [92]) = true ->
  unzipEntry root f h = (Err (ErrWrap "name" errUnsafeZipPath), h).
Proof.
  intros Hb. unfold unzipEntry, cleanZipEntryName. rewrite Hb, orb_true_r. done.
Qed.

(** ** Instances for the witnesses *)

Module ArchiveSample.

#[global] Instance byte_countable : Countable byte :=
  inj_countable Byte.to_N Byte.of_N (fun b => Byte.of_to_N b).

#[global] Instance ZipEntry_eq_dec : EqDecision ZipEntry.
Proof. solve_decision. Defined.

#[global, program] Instance ZipEntry_countable : Countable ZipEntry :=
  inj_countable' (fun e => (ze_Name e, ze_Mode e, ze_Modified e, ze_Data e))
                 (fun '(n, m, t, d) => mkZipEntry n m t d) _.
Next Obligation. by intros []. Qed.

Fixpoint posBytes (p : positive) : list byte :=
  match p with xH => [] | xO p => x00 :: posBytes p | xI p => x01 :: posBytes p end.
Fixpoint bytesPos (l : list byte) : positive :=
  match l with [] => xH | x00 :: t => xO (bytesPos t) | _ :: t => xI (bytesPos t) end.

Lemma bytesPos_posBytes p : bytesPos (posBytes p) = p.
Proof. induction p as [p IH|p IH|]; simpl; by rewrite ?IH. Qed.

(** An archive format that stores the entries, and a length as the digest. *)
#[global] Instance lib : ArchiveLib := {
  zipRead d := match decode (bytesPos d) with
               | Some es => Ok (map fileOf es)
               | None => Err (ErrNew "zip: not a valid zip file")
               end;
  zipHeader _ _ := None;
  zipBytes es := posBytes (encode es);
  localOffset := 0;
  sha3Sum256 d := replicate (length d mod 7) x2a }.

#[global] Instance lib_laws : ArchiveLaws.
Proof. split; [done|]. intros es _. cbn. by rewrite bytesPos_posBytes, decode_encode. Qed.

Definition run : tree_file := mkTreeFile ["bin"; "run.sh"] 448 (bytesOf "ls").
Definition data : tree_file := mkTreeFile ["a.csv"] 420 (bytesOf "1,2").

(** A disk with a directory [/in] of two files, which carries out every call. *)
#[global] Instance disk : OS := {
  os_act _ _ := None;
  os_stat _ p := if bool_decide (p = pathIn ["in"] run) then Ok 448
                 else if bool_decide (p = pathIn ["in"] data) then Ok 420 else Ok (ModeDir + 493);
  os_read _ p := if bool_decide (p = pathIn ["in"] run) then Ok (tf_data run) else Ok (tf_data data);
  os_walk _ _ := Ok [("/in", ModeDir + 493); ("/in/bin", ModeDir + 493);
                     (pathIn ["in"] run, 448); (pathIn ["in"] data, 420)];
  os_glob _ _ := Ok [];
  os_getwd _ := Ok "/work" }.

#[global] Instance disk_laws : OSLaws.
Proof. split. by intros h d [= <-]. Qed.

(** The same disk, listed in the other order. *)
Definition disk' : OS := {|
  os_act := @os_act disk; os_stat := @os_stat disk; os_read := @os_read disk;
  os_walk _ _ := Ok [(pathIn ["in"] data, 420); ("/in", ModeDir + 493);
                     (pathIn ["in"] run, 448); ("/in/bin", ModeDir + 493)];
  os_glob := @os_glob disk; os_getwd := @os_getwd disk |}.

(** An archive whose one entry climbs out of the target. *)
Definition climbing : list byte := zipBytes [mkZipEntry "a/../../etc/passwd" 420 0 [x41]].
Definition nested : list byte := zipBytes [mkZipEntry "a/./b" 420 0 [x41]].

Lemma climbing_rejected :
  UnzipFromMemory climbing "out" [] =
  (Err (ErrWrap "name" errUnsafeZipPath), [AMkdirAll "/work/out"]).
Proof. vm_compute. reflexivity. Qed.

Lemma nested_extracted :
  UnzipFromMemory nested "out" [] =
  (Ok tt, [AMkdirAll "/work/out"; AMkdirAll "/work/out/a"; AOpenTrunc "/work/out/a/b" 420;
           AWrite "/work/out/a/b" [x41]]).
Proof. vm_compute. reflexivity. Qed.
End ArchiveSample.

Lemma UnzipFromMemory_contained_witness :
  exists R, Abs (@os_getwd ArchiveSample.disk []) "out" = Ok (render true R) /\ Forall isName R /\
    Forall (insideAct R) [AMkdirAll "/work/out"; AMkdirAll "/work/out/a"; AOpenTrunc "/work/out/a/b" 420;
                          AWrite "/work/out/a/b" [x41]].
Proof.
  destruct (UnzipFromMemory_contained _ _ _ _ _ ArchiveSample.nested_extracted) as (t & E & [->|?]);
    simpl in E; subst; [discriminate E | done].
Defined.

Lemma zip_order_independent_witness :
  @ZipDirectoryToMemory ArchiveSample.disk _ "/in" [] = @ZipDirectoryToMemory ArchiveSample.disk' _ "/in" [].
Proof.
  eapply (zip_order_independent ArchiveSample.disk ArchiveSample.disk'); [done..|].
  apply (bool_decide_unpack _). vm_compute. exact I.
Defined.


Lemma backslash_not_extracted_witness :
  unzipEntry "/out" (mkZipFile (ofCodes [97; 92; 98]) 420 None [] None) []
  = (Err (ErrWrap "name" errUnsafeZipPath), []).
Proof. by apply backslash_not_extracted. Defined.
