(* ===== verification/Oci.v ===== *)
(** * OCI images: [pkg/oci/extract.go] and [pkg/oci/skopeo.go]

    An image directory holds an index, a manifest and gzipped tar layers.  The extractors
    go over the layers from the top, write the files that look like an algorithm or a data
    set below a destination and skip a layer that cannot be read.  The formats and the
    external [skopeo] command are the operations of the class [OciLib]. *)

From stdpp Require Import base list strings.
From Stdlib Require Import ZArith Lia Ascii Strings.Byte.
From S2P Require Import Prelude GoStrings Errors GoPath GoOS Sha2 Archive.

(** A tar entry as a reader gives it; reading its data may fail after some bytes. *)
Record TarEntry := mkTarEntry {
  te_Name : string; te_Typeflag : Z; te_Mode : Z; te_Data : list byte; te_ReadErr : option error }.

(** [tar.TypeDir] *)
Definition TypeDir : Z := 53.

Class OciLib := {
  (** the digests of [manifests], of [layers], and of [Layers] with the [Digest] *)
  unmarshalIndex : list byte -> result error (list string);
  unmarshalManifest : list byte -> result error (list string);
  unmarshalInspect : list byte -> result error (string * list string);
  gunzip : list byte -> result error (list byte);
  (** the entries, and the error [Next] ends with if it is not [io.EOF] *)
  untar : list byte -> list TarEntry * option error;
  execLookPath : string -> result error string;
  environ : list string;
  execOutput : list act -> string -> list string -> list string -> result error (list byte) }.

(** ** Names *)

Definition algorithmNames : list string := ["algorithm"; "main"; "run"; "execute"].
Definition nonBinExts : list string :=
  [".py"; ".wasm"; ".wat"; ".js"; ".sh"; ".csv"; ".json"; ".txt"; ".md"].
Definition dataExts : list string :=
  [".csv"; ".json"; ".txt"; ".parquet"; ".arrow"; ".dat"; ".zip"; ".tar"; ".gz"; ".tgz"; ".tar.gz"].

Definition isAlgorithmFile (filename : string) (mode : Z) (algoType : string) : bool :=
  let baseLower := ToLower (Base filename) in
  if bool_decide (algoType = "python") then HasSuffix baseLower ".py"
  else if bool_decide (algoType = "wasm")
  then HasSuffix baseLower ".wasm" || HasSuffix baseLower ".wat"
  else if bool_decide (algoType = "bin") then
    if existsb (HasSuffix baseLower) nonBinExts then false
    else existsb (Contains baseLower) algorithmNames || negb (Z.land mode 73 =? 0)
  else false.

Definition isDataFile (filename : string) : bool :=
  existsb (HasSuffix (ToLower (Base filename))) dataExts.

(** [filepath.Join(ociDir, "blobs", strings.Replace(digest, ":", "/", 1))] *)
Definition blobPath (ociDir digest : string) : string :=
  Join [ociDir; "blobs"; ReplaceFirst digest ":" slash].

Section oci.
Context `{OS, OciLib}.

(** ** Layers *)

(** The opened layer: gzip is undone, the tar entries follow. *)
Definition openLayer (fOpen fGzip : error -> error) (layerPath : string)
    : st (list act) (result error (list TarEntry * option error)) :=
  fun h => (match os_read h layerPath with
            | Err e => Err (fOpen e)
            | Ok d => match gunzip d with Err e => Err (fGzip e) | Ok t => Ok (untar t) end
            end, h).

(** Creates the directory and the file and copies the entry into it; the file is closed on
    both ways out. *)
Definition writeEntry (fDir fFile fCopy : error -> error) (targetPath : string) (e : TarEntry)
    : st (list act) (option error) := fun h =>
  match perform (AMkdirAll (Dir targetPath)) h with
  | (Some err, h) => (Some (fDir err), h)
  | (None, h) =>
      match perform (AOpenTrunc targetPath (te_Mode e)) h with
      | (Some err, h) => (Some (fFile err), h)
      | (None, h) =>
          match perform (AWrite targetPath (te_Data e)) h with
          | (Some err, h) => (Some (fCopy err), snd (perform (AClose targetPath) h))
          | (None, h) => (option_map fCopy (te_ReadErr e), snd (perform (AClose targetPath) h))
          end
      end
  end.

(** The name leaves the destination, or might. *)
Definition skipName (cleanName : string) : bool :=
  HasPrefix cleanName ".." || HasPrefix cleanName "/".

(** What a layer gives: the two paths, the names seen, the error. *)
Record found := mkFound { fd_algo : string; fd_req : string; fd_seen : list string }.

Definition firstSet (cond : bool) (old new : string) : string :=
  if cond && bool_decide (old = "") then new else old.

Fixpoint findAlgorithm (destPath algoType : string) (entries : list TarEntry) (last : option error)
    (f : found) : st (list act) (found * option error) := fun h =>
  match entries with
  | [] => match last with
          | None => ((f, None), h)
          | Some e => ((mkFound "" "" (fd_seen f), Some (ErrWrap "failed to read tar header" e)), h)
          end
  | e :: rest =>
      if te_Typeflag e =? TypeDir then findAlgorithm destPath algoType rest last f h
      else
        let f := mkFound (fd_algo f) (fd_req f) (fd_seen f ++ [te_Name e]) in
        let isAlgo := isAlgorithmFile (te_Name e) (te_Mode e) algoType in
        let isReq := bool_decide (Base (te_Name e) = "requirements.txt") in
        if isAlgo || isReq then
          let cleanName := Clean (te_Name e) in
          if skipName cleanName then findAlgorithm destPath algoType rest last f h
          else
            let targetPath := Join [destPath; cleanName] in
            match writeEntry (ErrWrap "failed to create dir") (ErrWrap "failed to create file")
                    (ErrWrap "failed to write file") targetPath e h with
            | (Some err, h) => ((mkFound "" "" (fd_seen f), Some err), h)
            | (None, h) =>
                findAlgorithm destPath algoType rest last
                  (mkFound (firstSet isAlgo (fd_algo f) targetPath)
                           (firstSet isReq (fd_req f) targetPath) (fd_seen f)) h
            end
        else findAlgorithm destPath algoType rest last f h
  end.

Definition extractLayerAndFindAlgorithm (layerPath destPath algoType : string)
    : st (list act) (found * option error) := fun h =>
  match openLayer (ErrWrap "failed to open layer") (ErrWrap "failed to create gzip reader") layerPath h with
  | (Err e, h) => ((mkFound "" "" [], Some e), h)
  | (Ok (entries, last), h) => findAlgorithm destPath algoType entries last (mkFound "" "" []) h
  end.

Fixpoint findData (destPath : string) (entries : list TarEntry) (last : option error)
    (files : list string) : st (list act) (result error (list string)) := fun h =>
  match entries with
  | [] => (match last with None => Ok files | Some e => Err e end, h)
  | e :: rest =>
      if (te_Typeflag e =? TypeDir) || negb (isDataFile (te_Name e))
      then findData destPath rest last files h
      else
        let cleanName := Clean (te_Name e) in
        if skipName cleanName then findData destPath rest last files h
        else
          let targetPath := Join [destPath; cleanName] in
          match writeEntry id id id targetPath e h with
          | (Some err, h) => (Err err, h)
          | (None, h) => findData destPath rest last (files ++ [targetPath]) h
          end
  end.

Definition extractLayerDataFiles (layerPath destPath : string)
    : st (list act) (result error (list string)) :=
  let! l := openLayer id id layerPath in findData destPath (fst l) (snd l) [].

(** ** Images *)

(** The layers of the first manifest of the index: both extractors start with this code. *)
Definition imageLayers (ociDir : string) : st (list act) (result error (list string)) :=
  let! indexData := (fun h => (wrapRes "failed to read index.json" (os_read h (Join [ociDir; "index.json"])), h)) in
  let! manifests := lift (wrapRes "failed to parse index.json" (unmarshalIndex indexData)) in
  match manifests with
  | [] => lift (Err (ErrNew "no manifests found in index.json"))
  | manifestDigest :: _ =>
      let! manifestData := (fun h => (wrapRes "failed to read manifest"
                                        (os_read h (blobPath ociDir manifestDigest)), h)) in
      lift (wrapRes "failed to parse manifest" (unmarshalManifest manifestData))
  end.

(** The loop over the layers, top first; it stops when everything was found. *)
Fixpoint algorithmLayers (ociDir destPath algoType : string) (layers : list string)
    (algorithmPath requirementsPath : string) : st (list act) (string * string) := fun h =>
  match layers with
  | [] => ((algorithmPath, requirementsPath), h)
  | digest :: rest =>
      match extractLayerAndFindAlgorithm (blobPath ociDir digest) destPath algoType h with
      | ((_, Some _), h) => algorithmLayers ociDir destPath algoType rest algorithmPath requirementsPath h
      | ((f, None), h) =>
          let a := firstSet (negb (bool_decide (fd_algo f = ""))) algorithmPath (fd_algo f) in
          let r := firstSet (negb (bool_decide (fd_req f = ""))) requirementsPath (fd_req f) in
          if negb (bool_decide (a = "")) &&
             (negb (bool_decide (algoType = "python")) || negb (bool_decide (r = "")))
          then ((a, r), h)
          else algorithmLayers ociDir destPath algoType rest a r h
      end
  end.

Definition ExtractAlgorithm (ociDir destPath algoType : string)
    : st (list act) (result error (string * string)) :=
  let! layers := imageLayers ociDir in
  fun h =>
    match algorithmLayers ociDir destPath algoType (rev layers) "" "" h with
    | ((a, r), h) => (if bool_decide (a = "") then Err (ErrNew "no algorithm file found") else Ok (a, r), h)
    end.

Fixpoint datasetLayers (ociDir destPath : string) (layers : list string) (files : list string)
    : st (list act) (list string) := fun h =>
  match layers with
  | [] => (files, h)
  | digest :: rest =>
      match extractLayerDataFiles (blobPath ociDir digest) destPath h with
      | (Err _, h) => datasetLayers ociDir destPath rest files h
      | (Ok fs, h) => datasetLayers ociDir destPath rest (files ++ fs) h
      end
  end.

Definition ExtractDataset (ociDir destPath : string) : st (list act) (result error (list string)) :=
  let! layers := imageLayers ociDir in
  fun h =>
    match datasetLayers ociDir destPath (rev layers) [] h with
    | ([], h) => (Err (ErrNew "no dataset files found in OCI image layers"), h)
    | (fs, h) => (Ok fs, h)
    end.

(** ** Skopeo *)

Definition OCICryptKeyproviderConfig : string := "OCICRYPT_KEYPROVIDER_CONFIG".
Definition DefaultOCICryptConfig : string := "/etc/ocicrypt_keyprovider.conf".
Definition DecryptionKeyProvider : string := "provider:attestation-agent:cc_kbc::null".

Record SkopeoClient := mkSkopeoClient { sk_skopeoPath : string; sk_workDir : string }.
Record ResourceSource := mkResourceSource {
  rs_Type : string; rs_URI : string; rs_Encrypted : bool; rs_KBSResourcePath : string }.
Record ImageManifest := mkImageManifest {
  im_Reference : string; im_Digest : string; im_Layers : list string }.

Definition NewSkopeoClient (workDir : string) : st (list act) (result error SkopeoClient) :=
  let! skopeoPath := lift (wrapRes "skopeo not found in PATH" (execLookPath "skopeo")) in
  guard! wrapping "failed to create work directory" (perform (AMkdirAll workDir)) in
  lift (Ok (mkSkopeoClient skopeoPath workDir)).

Definition skopeoEnv : list string :=
  if existsb (fun v => HasPrefix v (OCICryptKeyproviderConfig +:+ "=")) environ then environ
  else environ ++ [OCICryptKeyproviderConfig +:+ "=" +:+ DefaultOCICryptConfig].

Definition output (s : SkopeoClient) (prefix : string) (args : list string)
    : st (list act) (result error (list byte)) := fun h =>
  let argv := sk_skopeoPath s :: args in
  (wrapRes prefix (execOutput h (sk_workDir s) skopeoEnv argv), h ++ [AExec (sk_workDir s) argv]).

Definition pullAndDecryptArgs (source : ResourceSource) (destDir : string) : list string :=
  let args := ["copy"] in
  let args := if rs_Encrypted source then args ++ ["--decryption-key"; DecryptionKeyProvider] else args in
  args ++ [rs_URI source; "oci:" +:+ destDir].

Definition inspectArgs (imageRef : string) : list string := ["inspect"; imageRef].

Definition toDockerArchiveArgs (ociDir destFile : string) : list string :=
  ["copy"; "oci:" +:+ ociDir; "docker-archive:" +:+ destFile].

Definition runSkopeo (s : SkopeoClient) (prefix : string) (args : list string)
    : st (list act) (result error unit) :=
  let! _ := output s prefix args in lift (Ok tt).

Definition PullAndDecrypt (s : SkopeoClient) (source : ResourceSource) (destDir : string)
    : st (list act) (result error unit) :=
  if bool_decide (rs_URI source = "") then lift (Err (ErrNew "oci source URI is empty"))
  else if bool_decide (destDir = "") then lift (Err (ErrNew "oci destination directory is empty"))
  else
    guard! wrapping "failed to create destination directory" (perform (AMkdirAll destDir)) in
    runSkopeo s "skopeo copy failed" (pullAndDecryptArgs source destDir).

Definition Inspect (s : SkopeoClient) (imageRef : string) : st (list act) (result error ImageManifest) :=
  if bool_decide (imageRef = "") then lift (Err (ErrNew "oci image reference is empty"))
  else
    let! out := output s "skopeo inspect failed" (inspectArgs imageRef) in
    lift (Ok (match unmarshalInspect out with
              | Ok (digest, layers) => mkImageManifest imageRef digest layers
              | Err _ => mkImageManifest imageRef "" []
              end)).

Definition ToDockerArchive (s : SkopeoClient) (ociDir destFile : string)
    : st (list act) (result error unit) :=
  if bool_decide (ociDir = "") then lift (Err (ErrNew "oci directory is empty"))
  else if bool_decide (destFile = "") then lift (Err (ErrNew "docker archive destination is empty"))
  else runSkopeo s "skopeo copy to docker-archive failed" (toDockerArchiveArgs ociDir destFile).

Definition GetLocalImagePath (s : SkopeoClient) (name : string) : string := Join [sk_workDir s; name].
End oci.

(** ** Extraction stays below the destination *)

(** What an extractor does: create directories and write files at or below the
    destination [R], and make sure that the parent of [R] exists. *)
Definition layerAct (R : list string) (a : act) : Prop :=
  match a with
  | AMkdirAll p => inside R p \/ p = Dir (render true R)
  | AOpenTrunc p _ | AWrite p _ | AClose p => inside R p
  | _ => False
  end.

Lemma skipName_shape n :
  skipName (Clean n) = false ->
  Clean n = "." \/ exists names, Clean n = joinSlash names /\ names <> [] /\ Forall isName names.
Proof.
  unfold skipName. intros [Hd Ha]%orb_false_iff.
  destruct (decide (n = "")) as [->|Hn]; [by left|].
  destruct (Clean_shape n Hn) as (k & names & E & HF & Hk). rewrite E in *.
  destruct (IsAbs n) eqn:Habs; [by rewrite (proj2 (HasPrefix_spec _ _)) in Ha by by eexists|].
  destruct k as [|k].
  - destruct names as [|e names]; [by left|]. right. by exists (e :: names).
  - exfalso. simpl in Hd. destruct (replicate k ".." ++ names) as [|e l]; [done|].
    rewrite (proj2 (HasPrefix_spec _ _)) in Hd; [done|]. by eexists.
Qed.

Lemma target_inside R n :
  Forall isName R -> skipName (Clean n) = false ->
  let p := Join [render true R; Clean n] in
  inside R p /\ (inside R (Dir p) \/ Dir p = Dir (render true R)).
Proof.
  intros HR [E|(names & E & Hne & Hn)]%skipName_shape; rewrite E; cbv zeta.
  - rewrite Join_abs by done. change (foldl (cleanStep true) (rev R) (splitSlash ".")) with (rev R).
    rewrite rev_involutive. split; [apply inside_refl | by right].
  - rewrite Join_names by done. split; [by exists names | left; by apply inside_Dir].
Qed.

(** The effects of a first call are followed by those of the rest. *)
Lemma emits_after {A} (P : act -> Prop) (m : st (list act) A) h a h' s :
  emits P m -> m h = (a, h') -> (exists t, s = h' ++ t /\ Forall P t) -> exists t, s = h ++ t /\ Forall P t.
Proof.
  intros Hm E (t & -> & Ht). destruct (emits_run P m h a h' Hm E) as (u & -> & Hu).
  exists (u ++ t). rewrite app_assoc. split; [done|]. by apply Forall_app.
Qed.

Lemma emits_writeEntry `{!OS} R f1 f2 f3 n e :
  Forall isName R -> skipName (Clean n) = false ->
  emits (layerAct R) (writeEntry f1 f2 f3 (Join [render true R; Clean n]) e).
Proof.
  intros HR Hs. destruct (target_inside R n HR Hs) as [Hp Hd].
  set (p := Join _) in *. intros h. unfold writeEntry, perform.
  assert (Hm : layerAct R (AMkdirAll (Dir p))) by done.
  destruct (os_act h _); [exists [AMkdirAll (Dir p)]|];
    [|destruct (os_act _ (AOpenTrunc _ _));
    [exists [AMkdirAll (Dir p); AOpenTrunc p (te_Mode e)]
    |exists [AMkdirAll (Dir p); AOpenTrunc p (te_Mode e); AWrite p (te_Data e); AClose p]; case_goal]];
    rewrite <- ?app_assoc; (split; [done|]); repeat (apply Forall_cons_2; [done|]); apply Forall_nil_2.
Qed.

Lemma emits_writeEntry_any `{!OS} f1 f2 f3 p e : emits (fun _ => True) (writeEntry f1 f2 f3 p e).
Proof.
  intros h. unfold writeEntry, perform. repeat case_goal; simplify_eq;
    rewrite <- ?app_assoc; eexists; (split; [reflexivity | by repeat constructor]).
Qed.

(** The extractors do nothing but write entries. *)
Section extractors.
Context `{!OS, !OciLib} (P : act -> Prop) (dest : string).
Context (Hwrite : forall f1 f2 f3 n e, skipName (Clean n) = false ->
           emits P (writeEntry f1 f2 f3 (Join [dest; Clean n]) e)).

Lemma emits_findAlgorithm algoType entries last : forall f,
  emits P (findAlgorithm dest algoType entries last f).
Proof.
  induction entries as [|e rest IH]; intros f.
  { intros h. exists []. rewrite app_nil_r. by destruct last. }
  intros h. cbn [findAlgorithm]. case_goal; [apply IH|]. case_goal; [|apply IH].
  destruct (skipName _) eqn:Hs; [apply IH|].
  revert h. eapply (emits_seq P _ (fun o h => match o with Some err => ((_, Some err), h) | None => _ h end)).
  - by apply Hwrite.
  - intros [err|]; [by apply emits_quiet | apply IH].
Qed.
Lemma emits_findData entries last : forall files,
  emits P (findData dest entries last files).
Proof.
  induction entries as [|e rest IH]; intros files; [by apply emits_quiet|].
  intros h. cbn [findData]. case_goal; [apply IH|].
  destruct (skipName _) eqn:Hs; [apply IH|].
  revert h. eapply (emits_seq P _ (fun o h => match o with Some err => (Err err, h) | None => _ h end)).
  - by apply Hwrite.
  - intros [err|]; [by apply emits_quiet | apply IH].
Qed.

Lemma emits_layer_algorithm layerPath algoType :
  emits P (extractLayerAndFindAlgorithm layerPath dest algoType).
Proof.
  intros h. unfold extractLayerAndFindAlgorithm, openLayer.
  destruct (os_read h layerPath) as [d|]; [|exists []; by rewrite app_nil_r].
  destruct (gunzip d) as [t|]; [|exists []; by rewrite app_nil_r].
  destruct (untar t). apply emits_findAlgorithm.
Qed.

Lemma emits_layer_data layerPath : emits P (extractLayerDataFiles layerPath dest).
Proof. apply emits_bindOk; [by apply emits_quiet | intros; apply emits_findData]. Qed.

Lemma emits_algorithmLayers ociDir algoType layers : forall a r,
  emits P (algorithmLayers ociDir dest algoType layers a r).
Proof.
  induction layers as [|d layers IH]; intros a r; [by apply emits_quiet|].
  intros h. cbn [algorithmLayers].
  destruct (extractLayerAndFindAlgorithm _ _ _ h) as [[f o] h'] eqn:E.
  eapply emits_after; [apply emits_layer_algorithm | exact E |].
  destruct o; [apply IH|]. case_goal; [exists []; by rewrite app_nil_r | apply IH].
Qed.

Lemma emits_datasetLayers ociDir layers : forall files,
  emits P (datasetLayers ociDir dest layers files).
Proof.
  induction layers as [|d layers IH]; intros files; [by apply emits_quiet|].
  intros h. cbn [datasetLayers]. destruct (extractLayerDataFiles _ _ h) as [o h'] eqn:E.
  eapply emits_after; [apply emits_layer_data | exact E |]. destruct o; apply IH.
Qed.

Lemma imageLayers_quiet ociDir h : snd (imageLayers ociDir h) = h.
Proof.
  unfold imageLayers, bindOk, lift. destruct (os_read h _); [|done]. cbn.
  destruct (unmarshalIndex _) as [[]|]; [done| |done]. cbn. by destruct (os_read h _).
Qed.
Lemma emits_ExtractAlgorithm ociDir algoType : emits P (ExtractAlgorithm ociDir dest algoType).
Proof.
  apply emits_bindOk; [apply emits_quiet, imageLayers_quiet|]. intros layers h.
  destruct (algorithmLayers _ _ _ _ _ _ h) as [[a r] h'] eqn:E.
  eapply emits_after; [by apply emits_algorithmLayers | exact E |]. exists []. by rewrite app_nil_r.
Qed.

Lemma emits_ExtractDataset ociDir : emits P (ExtractDataset ociDir dest).
Proof.
  apply emits_bindOk; [apply emits_quiet, imageLayers_quiet|]. intros layers h.
  destruct (datasetLayers _ _ _ _ h) as [o h'] eqn:E.
  eapply emits_after; [by apply emits_datasetLayers | exact E |]. exists []. rewrite app_nil_r. by destruct o.
Qed.
End extractors.

(** Whatever the image holds, [ExtractAlgorithm] and [ExtractDataset] write only at or
    below the destination (besides making its parent directory). *)
Theorem extraction_contained `{!OS, !OciLib} R ociDir algoType :
  Forall isName R ->
  emits (layerAct R) (ExtractAlgorithm ociDir (render true R) algoType) /\
  emits (layerAct R) (ExtractDataset ociDir (render true R)).
Proof.
  intros HR. split; [apply emits_ExtractAlgorithm | apply emits_ExtractDataset]; intros; by apply emits_writeEntry.
Qed.

(** ** The returned paths were written *)

(** [p] was written by the calls after [h0]. *)
Definition writtenSince (h0 h : list act) (p : string) : Prop :=
  exists t d, h = h0 ++ t /\ AWrite p d ∈ t.

Definition pathOk (h0 h : list act) (p : string) : Prop := p = "" \/ writtenSince h0 h p.

Section written.
Context `{!OS, !OciLib} (h0 : list act).

Lemma pathOk_mono {A} (P : act -> Prop) (m : st (list act) A) h a h' p :
  emits P m -> m h = (a, h') -> pathOk h0 h p -> pathOk h0 h' p.
Proof.
  intros Hm E [->|(t & d & -> & Hd)]; [by left|]. right.
  destruct (emits_run _ m _ _ _ Hm E) as (u & -> & _). exists (t ++ u), d.
  rewrite <- app_assoc. split; [done|]. apply elem_of_app. by left.
Qed.

Lemma writeEntry_written f1 f2 f3 p e h h' :
  (exists t, h = h0 ++ t) -> writeEntry f1 f2 f3 p e h = (None, h') -> writtenSince h0 h' p.
Proof.
  intros [t ->]. unfold writeEntry, perform. repeat case_goal; simplify_eq; try done.
  intros [= _ <-].
  exists (t ++ [AMkdirAll (Dir p); AOpenTrunc p (te_Mode e); AWrite p (te_Data e); AClose p]), (te_Data e).
  rewrite <- !app_assoc. split; [done|]. apply elem_of_app. right. rewrite !elem_of_cons; auto.
Qed.

Definition foundOk (h : list act) (f : found) : Prop :=
  (exists t, h = h0 ++ t) /\ pathOk h0 h (fd_algo f) /\ pathOk h0 h (fd_req f).

Lemma pathOk_first c h old new : pathOk h0 h old -> pathOk h0 h new -> pathOk h0 h (firstSet c old new).
Proof. intros. unfold firstSet. by case_goal. Qed.

Lemma findAlgorithm_written dest ty entries last : forall f h f' o h',
  foundOk h f -> findAlgorithm dest ty entries last f h = ((f', o), h') -> foundOk h' f'.
Proof.
  induction entries as [|e rest IH]; intros f h f' o h' (Ht & Ha & Hr); cbn [findAlgorithm].
  { destruct last; intros [= <- _ <-]; (split; [done|]); split; try done; by left. }
  case_goal; [by apply IH|]. case_goal; [|by apply IH]. case_goal; [by apply IH|].
  set (tp := Join _). destruct (writeEntry _ _ _ tp e h) as [[err|] h1] eqn:Ew.
  - intros [= <- _ <-]. destruct (emits_run _ _ _ _ _ (emits_writeEntry_any _ _ _ _ _) Ew) as (u & -> & _).
    destruct Ht as [t ->]. split; [exists (t ++ u); by rewrite app_assoc|]. split; by left.
  - pose proof (writeEntry_written _ _ _ _ _ _ _ Ht Ew) as Hw.
    pose proof (fun p => pathOk_mono _ _ _ _ _ p (emits_writeEntry_any _ _ _ _ _) Ew) as Hm.
    apply IH. split; [destruct Hw as (t & d & -> & _); by eexists|].
    split; apply pathOk_first; auto; by right.
Qed.

Lemma layer_written layerPath dest ty h f o h' :
  (exists t, h = h0 ++ t) -> extractLayerAndFindAlgorithm layerPath dest ty h = ((f, o), h') -> foundOk h' f.
Proof.
  intros Ht. unfold extractLayerAndFindAlgorithm. destruct (openLayer _ _ _ h) as [[[es l]|e] h1] eqn:E.
  - assert (h1 = h) as -> by (unfold openLayer in E; by injection E).
    apply findAlgorithm_written. split; [done|]. split; by left.
  - assert (h1 = h) as -> by (unfold openLayer in E; by injection E).
    intros [= <- _ <-]. split; [done|]. split; by left.
Qed.
Lemma algorithmLayers_written dest ociDir ty layers : forall a r h a' r' h',
  foundOk h (mkFound a r []) ->
  algorithmLayers ociDir dest ty layers a r h = ((a', r'), h') -> foundOk h' (mkFound a' r' []).
Proof.
  induction layers as [|d layers IH]; intros a r h a' r' h' (Ht & Ha & Hr); cbn [algorithmLayers].
  { by intros [= <- <- <-]. }
  destruct (extractLayerAndFindAlgorithm _ _ _ h) as [[f o] h1] eqn:E.
  pose proof (layer_written _ _ _ _ _ _ _ Ht E) as (Ht1 & Ha1 & Hr1).
  pose proof (fun p => pathOk_mono _ _ _ _ _ p (emits_layer_algorithm (fun _ => True) dest (fun _ _ _ _ _ _ => emits_writeEntry_any _ _ _ _ _) _ _) E) as Hm.
  destruct o; [apply IH; split; [done|]; split; apply Hm; done|].
  assert (Hf : foundOk h1 (mkFound (firstSet (negb (bool_decide (fd_algo f = ""))) a (fd_algo f))
                                   (firstSet (negb (bool_decide (fd_req f = ""))) r (fd_req f)) [])).
  { split; [done|]. split; apply pathOk_first; try done; by apply Hm. }
  case_goal; [by intros [= <- <- <-] | by apply IH].
Qed.
End written.

(** The algorithm [ExtractAlgorithm] returns is a file it wrote during this call, and so
    are the requirements if it returns any. *)
Theorem ExtractAlgorithm_written `{!OS, !OciLib} ociDir dest ty h a r h' :
  ExtractAlgorithm ociDir dest ty h = (Ok (a, r), h') ->
  writtenSince h h' a /\ (r = "" \/ writtenSince h h' r).
Proof.
  unfold ExtractAlgorithm, bindOk. pose proof (imageLayers_quiet ociDir h) as Hq.
  destruct (imageLayers ociDir h) as [[layers|e] h1]; simpl in Hq; subst h1; [|done].
  destruct (algorithmLayers _ _ _ _ _ _ h) as [[a' r'] h1] eqn:E.
  eapply (algorithmLayers_written h) in E as (_ & Ha & Hr);
    [|by split; [exists []; by rewrite app_nil_r | split; left]].
  case_bool_decide as Hne; [done|]. intros [= <- <- <-]. destruct Ha as [?|Ha]; [done|]. by split.
Qed.

(** With an algorithm type other than python, wasm and bin no file of an image is taken
    for the algorithm: [ExtractAlgorithm] fails on every image. *)
Theorem untyped_algorithm_not_found `{!OS, !OciLib} ociDir dest ty h :
  ty <> "python" -> ty <> "wasm" -> ty <> "bin" ->
  exists e, fst (ExtractAlgorithm ociDir dest ty h) = Err e.
Proof.
  intros Hp Hw Hb. assert (Hno : forall n m, isAlgorithmFile n m ty = false).
  { intros. unfold isAlgorithmFile. by rewrite !bool_decide_eq_false_2. }
  assert (Hf : forall es l f h, fd_algo f = "" -> fd_algo (fst (fst (findAlgorithm dest ty es l f h))) = "").
  { induction es as [|e es IH]; intros l f h1 Hf; cbn [findAlgorithm]; [by destruct l|].
    rewrite Hno. repeat case_goal; by try apply IH. }
  assert (Hl : forall ls r h, fst (fst (algorithmLayers ociDir dest ty ls "" r h)) = "").
  { induction ls as [|d ls IH]; intros r h1; [done|]. cbn [algorithmLayers].
    destruct (extractLayerAndFindAlgorithm _ _ _ h1) as [[f o] h2] eqn:E.
    assert (fd_algo f = "") as Ef.
    { unfold extractLayerAndFindAlgorithm in E. destruct (openLayer _ _ _ _) as [[[es l]|] h3]; [|by simplify_eq].
      apply (f_equal (fun x => fd_algo (fst (fst x)))) in E. by rewrite Hf in E. }
    destruct o; [apply IH|]. unfold firstSet. rewrite Ef. simpl. apply IH. }
  unfold ExtractAlgorithm, bindOk. destruct (imageLayers ociDir h) as [[layers|e] h1]; [|by eexists].
  specialize (Hl (rev layers) "" h1). destruct (algorithmLayers _ _ _ _ _ _ _) as [[a r] h2].
  simpl in Hl. subst a. by eexists.
Qed.

(** ** Skopeo commands *)

(** Every command [PullAndDecrypt] runs is one [skopeo copy] into the destination, in
    the work directory, and asks for the decryption key exactly for an encrypted source;
    its environment names a key-provider configuration. *)
Theorem PullAndDecrypt_command `{!OS, !OciLib} s source dest h r h' :
  PullAndDecrypt s source dest h = (r, h') ->
  existsb (fun v => HasPrefix v (OCICryptKeyproviderConfig +:+ "=")) skopeoEnv = true /\
  (r = Ok tt -> h' = h ++ [AMkdirAll dest;
     AExec (sk_workDir s) (sk_skopeoPath s :: ["copy"]
       ++ (if rs_Encrypted source then ["--decryption-key"; DecryptionKeyProvider] else [])
       ++ [rs_URI source; "oci:" +:+ dest])]
     /\ rs_URI source <> "" /\ dest <> "").
Proof.
  intros E. split.
  { unfold skopeoEnv. destruct (existsb _ environ) eqn:Ee; [done|]. rewrite existsb_app.
    apply orb_true_iff. right. done. }
  intros ->. revert E. unfold PullAndDecrypt. repeat case_bool_decide; try done.
  unfold bindNil, wrapping, perform. destruct (os_act h _); [done|]. cbn [wrapErr option_map].
  unfold runSkopeo, output, bindOk, lift. destruct (execOutput _ _ _ _); simpl; [|done].
  intros [= <-]. split; [|done]. unfold pullAndDecryptArgs.
  destruct (rs_Encrypted source); exact (eq_sym (app_assoc h [_] [_])).
Qed.

(** ** Instances for the witnesses *)

Module OciSample.
Definition f (name : string) (mode : Z) (data : string) : TarEntry :=
  mkTarEntry name 48 mode (bytesOf data) None.

(** Two layers; the upper one replaces two files of the lower one. *)
Definition base : list TarEntry :=
  [mkTarEntry "app/" TypeDir 493 [] None; f "app/main.py" 420 "old code";
   f "app/requirements.txt" 420 "numpy"; f "app/in.csv" 420 "old rows"; f "../../etc/x.csv" 420 "x"].
Definition top : list TarEntry := [f "app/main.py" 420 "new code"; f "app/in.csv" 420 "new rows"].

#[global] Instance oci : OciLib := {
  unmarshalIndex _ := Ok ["sha256:m"];
  unmarshalManifest _ := Ok ["sha256:base"; "sha256:top"];
  unmarshalInspect _ := Ok ("sha256:m", ["sha256:base"; "sha256:top"]);
  gunzip d := Ok d;
  untar d := (if bool_decide (d = bytesOf "/img/blobs/sha256/top") then top else base, None);
  execLookPath _ := Ok "/usr/bin/skopeo";
  environ := ["HOME=/root"];
  execOutput _ _ _ _ := Ok [] }.

(** A disk on which every file holds its path. *)
#[global] Instance disk : OS := {
  os_act _ _ := None; os_stat _ _ := Ok 420; os_read _ p := Ok (bytesOf p);
  os_walk _ _ := Ok []; os_glob _ _ := Ok []; os_getwd _ := Ok "/work" }.

Definition write (p data : string) : list act :=
  [AMkdirAll (Dir p); AOpenTrunc p 420; AWrite p (bytesOf data); AClose p].
End OciSample.
Import OciSample.

(** The layers are read from the top but each is written over what is there, so a file
    that an upper layer replaces ends up with the content of the lower layer: here the
    algorithm of the image is [new code] and the extracted file holds [old code]. *)
Theorem lower_layer_overwrites :
  ExtractAlgorithm "/img" "/out" "python" [] =
    (Ok ("/out/app/main.py", "/out/app/requirements.txt"),
     write "/out/app/main.py" "new code" ++
     write "/out/app/main.py" "old code" ++ write "/out/app/requirements.txt" "numpy") /\
  ExtractDataset "/img" "/out" [] =
    (Ok ["/out/app/in.csv"; "/out/app/requirements.txt"; "/out/app/in.csv"],
     write "/out/app/in.csv" "new rows" ++ write "/out/app/requirements.txt" "numpy" ++
     write "/out/app/in.csv" "old rows").
Proof. split; vm_compute; reflexivity. Qed.

Lemma extraction_contained_witness :
  emits (layerAct ["out"]) (ExtractAlgorithm "/img" "/out" "python") /\
  emits (layerAct ["out"]) (ExtractDataset "/img" "/out").
Proof. apply (extraction_contained ["out"]). apply (bool_decide_unpack _). vm_compute. exact I. Defined.

Lemma ExtractAlgorithm_written_witness :
  exists h, writtenSince [] h "/out/app/main.py" /\
    ("/out/app/requirements.txt" = "" \/ writtenSince [] h "/out/app/requirements.txt").
Proof.
  eexists. eapply (ExtractAlgorithm_written "/img" "/out" "python" []). vm_compute. reflexivity.
Defined.

Lemma untyped_algorithm_not_found_witness :
  exists e, fst (ExtractAlgorithm "/img" "/out" "" []) = Err e.
Proof. by apply untyped_algorithm_not_found. Defined.

Lemma PullAndDecrypt_command_witness :
  exists r h', PullAndDecrypt (mkSkopeoClient "skopeo" "/w") (mkResourceSource "" "docker://a" true "") "/d" [] = (r, h')
    /\ existsb (fun v => HasPrefix v (OCICryptKeyproviderConfig +:+ "=")) skopeoEnv = true.
Proof.
  eexists _, _. split; [reflexivity|].
  eapply (PullAndDecrypt_command (mkSkopeoClient "skopeo" "/w") (mkResourceSource "" "docker://a" true "") "/d" []).
  reflexivity.
Defined.

(** The digests of an image are joined into paths without a check, so a digest decides
    which file is opened as a manifest or a layer, also outside the image directory. *)
Theorem digest_escapes_image : blobPath "/work/img" "sha256:../../../../etc/secret" = "/etc/secret".
Proof. vm_compute. reflexivity. Qed.
