(* ===== verification/GoEncoding.v ===== *)
(** * Decoders of the Go standard library the token checks use

    [encoding/base64]'s [RawURLEncoding.DecodeString] and [StdEncoding.DecodeString],
    and the token reader of
    [encoding/json] ([Decoder.Token], [Decoder.More] with [UseNumber]), as
    executable functions on lists of byte values.  The reader keeps the decoder's
    own state: the unread input, the token state and the stack of states of the
    open arrays and objects. *)

From stdpp Require Import base list strings.
From Stdlib Require Import ZArith Lia Ascii Strings.Byte.
From S2P Require Import Prelude GoStrings.

(** ** Base64 *)

Definition b64Value (c : Z) : option Z :=
  if inRange 65 90 c then Some (c - 65)
  else if inRange 97 122 c then Some (c - 71)
  else if inRange 48 57 c then Some (c + 4)
  else if c =? 45 then Some 62
  else if c =? 95 then Some 63
  else None.

(** Line breaks are skipped. *)
Fixpoint b64Values (s : list Z) : option (list Z) :=
  match s with
  | [] => Some []
  | c :: t =>
      if (c =? 10) || (c =? 13) then b64Values t
      else match b64Value c, b64Values t with
           | Some v, Some vs => Some (v :: vs)
           | _, _ => None
           end
  end.

Fixpoint b64Groups (vs : list Z) : option (list Z) :=
  match vs with
  | [] => Some []
  | [_] => None
  | [a; b] => Some [4 * a + b / 16]
  | [a; b; c] => Some [4 * a + b / 16; 16 * (b mod 16) + c / 4]
  | a :: b :: c :: d :: t =>
      match b64Groups t with
      | Some r => Some (4 * a + b / 16 :: 16 * (b mod 16) + c / 4 :: 64 * (c mod 4) + d :: r)
      | None => None
      end
  end.

Definition base64RawURLDecode (s : string) : option (list Z) :=
  match b64Values (codes s) with Some vs => b64Groups vs | None => None end.

(** The standard alphabet. *)
Definition b64StdValue (c : Z) : option Z :=
  if c =? 43 then Some 62
  else if c =? 47 then Some 63
  else if (c =? 45) || (c =? 95) then None
  else b64Value c.

(** Groups of four characters, of which the last may be padded. *)
Fixpoint b64StdGroups (s : list Z) : option (list Z) :=
  match s with
  | [] => Some []
  | a :: b :: c :: d :: t =>
      match b64StdValue a, b64StdValue b with
      | Some x, Some y =>
          match b64StdValue c, b64StdValue d with
          | Some z, Some w =>
              match b64StdGroups t with
              | Some r =>
                  Some (4 * x + y / 16 :: 16 * (y mod 16) + z / 4 :: 64 * (z mod 4) + w :: r)
              | None => None
              end
          | Some z, None =>
              if (d =? 61) && bool_decide (t = [])
              then Some [4 * x + y / 16; 16 * (y mod 16) + z / 4] else None
          | None, _ =>
              if (c =? 61) && (d =? 61) && bool_decide (t = [])
              then Some [4 * x + y / 16] else None
          end
      | _, _ => None
      end
  | _ => None
  end.

Definition base64StdDecode (s : string) : option (list Z) :=
  b64StdGroups (filter (fun c => ((c =? 10) || (c =? 13)) = false) (codes s)).

(** ** JSON scalars *)

Definition hexValue (c : Z) : option Z :=
  if inRange 48 57 c then Some (c - 48)
  else if inRange 97 102 c then Some (c - 87)
  else if inRange 65 70 c then Some (c - 55)
  else None.

Definition hex4 (s : list Z) : option Z :=
  match s with
  | a :: b :: c :: d :: _ =>
      match hexValue a, hexValue b, hexValue c, hexValue d with
      | Some x, Some y, Some z, Some w => Some (4096 * x + 256 * y + 16 * z + w)
      | _, _, _, _ => None
      end
  | _ => None
  end.

(** The scanner's view of a string after its opening quote: the raw content and
    the input after the closing quote. *)
Fixpoint scanString (s acc : list Z) : option (list Z * list Z) :=
  match s with
  | [] => None
  | c :: t =>
      if c =? 34 then Some (rev acc, t)
      else if c =? 92 then
        match t with
        | 117 :: u =>
            match u with
            | a :: b :: x :: y :: r =>
                match hex4 u with
                | Some _ => scanString r (y :: x :: b :: a :: 117 :: 92 :: acc)
                | None => None
                end
            | _ => None
            end
        | e :: u =>
            if bool_decide (e ∈ [34; 92; 47; 98; 102; 110; 114; 116])
            then scanString u (e :: 92 :: acc) else None
        | [] => None
        end
      else if c <? 32 then None
      else scanString t (c :: acc)
  end.

Definition surrogate (r : Z) : bool := inRange 55296 57343 r.

(** [utf16.DecodeRune]. *)
Definition decodeSurrogates (r1 r2 : Z) : option Z :=
  if inRange 55296 56319 r1 && inRange 56320 57343 r2
  then Some ((r1 - 55296) * 1024 + (r2 - 56320) + 65536) else None.

Definition unescape (c : Z) : Z :=
  if c =? 98 then 8 else if c =? 102 then 12 else if c =? 110 then 10
  else if c =? 114 then 13 else if c =? 116 then 9 else c.

(** [unquote] of scanned content. *)
Fixpoint unquoteFuel (n : nat) (s : list Z) : list Z :=
  match n, s with
  | S n, c :: t =>
      if c =? 92 then
        match t with
        | 117 :: u =>
            match hex4 u with
            | Some r =>
                let rest := drop 4 u in
                if surrogate r then
                  match rest with
                  | 92 :: 117 :: u' =>
                      match hex4 u' with
                      | Some r' =>
                          match decodeSurrogates r r' with
                          | Some d => encodeRune d ++ unquoteFuel n (drop 4 u')
                          | None => encodeRune runeError ++ unquoteFuel n rest
                          end
                      | None => encodeRune runeError ++ unquoteFuel n rest
                      end
                  | _ => encodeRune runeError ++ unquoteFuel n rest
                  end
                else encodeRune r ++ unquoteFuel n rest
            | None => []
            end
        | e :: u => unescape e :: unquoteFuel n u
        | [] => []
        end
      else if c <? 128 then c :: unquoteFuel n t
      else let '(r, k) := decodeRune s in encodeRune r ++ unquoteFuel n (drop k s)
  | _, _ => []
  end.

Definition unquote (s : list Z) : string := ofCodes (unquoteFuel (length s) s).

Fixpoint skipDigits (s : list Z) : list Z :=
  match s with c :: t => if inRange 48 57 c then skipDigits t else s | [] => [] end.

(** One digit at least. *)
Definition digits1 (s : list Z) : option (list Z) :=
  match s with c :: t => if inRange 48 57 c then Some (skipDigits t) else None | [] => None end.

Definition scanExponent (s : list Z) : option (list Z) :=
  match s with
  | c :: t => if (c =? 101) || (c =? 69)
              then match t with
                   | d :: u => if (d =? 43) || (d =? 45) then digits1 u else digits1 t
                   | [] => None
                   end
              else Some s
  | [] => Some []
  end.

Definition scanFraction (s : list Z) : option (list Z) :=
  match s with
  | c :: t => if c =? 46
              then match digits1 t with Some u => scanExponent u | None => None end
              else scanExponent s
  | [] => Some []
  end.

(** A number; what follows it is left unread. *)
Definition scanNumber (s : list Z) : option (list Z) :=
  let s := match s with 45 :: t => t | _ => s end in
  match s with
  | c :: t => if c =? 48 then scanFraction t
              else if inRange 49 57 c then scanFraction (skipDigits t)
              else None
  | [] => None
  end.

Definition scanWord (w : string) (s : list Z) : option (list Z) :=
  if isPrefix (codes w) s then Some (drop (String.length w) s) else None.

(** ** The token reader *)

Inductive jtoken := TDelim (c : Z) | TString (s : string) | TScalar.
Inductive jerror := JEOF | JSyntax.

Inductive tokenState :=
  | tokenTopValue | tokenArrayStart | tokenArrayValue | tokenArrayComma
  | tokenObjectStart | tokenObjectKey | tokenObjectColon | tokenObjectValue | tokenObjectComma.

#[export] Instance tokenState_eq : EqDecision tokenState.
Proof. solve_decision. Defined.

Record Decoder := mkDecoder { d_rest : list Z; d_state : tokenState; d_stack : list tokenState }.

Definition NewDecoder (raw : list Z) : Decoder := mkDecoder raw tokenTopValue [].

Definition jsonSpace (c : Z) : bool := (c =? 32) || (c =? 9) || (c =? 13) || (c =? 10).

Fixpoint skipSpace (s : list Z) : list Z :=
  match s with c :: t => if jsonSpace c then skipSpace t else s | [] => [] end.

Definition More (d : Decoder) : bool :=
  match skipSpace (d_rest d) with
  | [] => false
  | c :: _ => negb (c =? 93) && negb (c =? 125)
  end.

Definition valueAllowed (s : tokenState) : bool :=
  bool_decide (s ∈ [tokenTopValue; tokenArrayStart; tokenArrayValue; tokenObjectValue]).

(** [tokenValueEnd]. *)
Definition valueEnd (s : tokenState) : tokenState :=
  match s with
  | tokenArrayStart | tokenArrayValue => tokenArrayComma
  | tokenObjectValue => tokenObjectComma
  | _ => s
  end.

(** Close the innermost array or object. *)
Definition popState (d : Decoder) (rest : list Z) : Decoder :=
  match d_stack d with
  | s :: st => mkDecoder rest (valueEnd s) st
  | [] => mkDecoder rest (valueEnd tokenTopValue) []
  end.

(** A scalar that starts with [c]. *)
Definition scanScalar (c : Z) (s : list Z) : option (jtoken * list Z) :=
  if c =? 34 then
    match scanString (tl s) [] with
    | Some (raw, rest) => Some (TString (unquote raw), rest)
    | None => None
    end
  else
    match (if c =? 116 then scanWord "true" s else if c =? 102 then scanWord "false" s
           else if c =? 110 then scanWord "null" s else scanNumber s) with
    | Some rest => Some (TScalar, rest)
    | None => None
    end.

Fixpoint TokenFuel (n : nat) (d : Decoder) : result jerror (jtoken * Decoder) :=
  match n with
  | O => Err JSyntax
  | S n =>
      match skipSpace (d_rest d) with
      | [] => Err JEOF
      | c :: t =>
          let st := d_state d in
          if c =? 91 then
            if valueAllowed st
            then Ok (TDelim 91, mkDecoder t tokenArrayStart (st :: d_stack d)) else Err JSyntax
          else if c =? 93 then
            if bool_decide (st ∈ [tokenArrayStart; tokenArrayComma])
            then Ok (TDelim 93, popState d t) else Err JSyntax
          else if c =? 123 then
            if valueAllowed st
            then Ok (TDelim 123, mkDecoder t tokenObjectStart (st :: d_stack d)) else Err JSyntax
          else if c =? 125 then
            if bool_decide (st ∈ [tokenObjectStart; tokenObjectComma])
            then Ok (TDelim 125, popState d t) else Err JSyntax
          else if c =? 58 then
            if bool_decide (st = tokenObjectColon)
            then TokenFuel n (mkDecoder t tokenObjectValue (d_stack d)) else Err JSyntax
          else if c =? 44 then
            match st with
            | tokenArrayComma => TokenFuel n (mkDecoder t tokenArrayValue (d_stack d))
            | tokenObjectComma => TokenFuel n (mkDecoder t tokenObjectKey (d_stack d))
            | _ => Err JSyntax
            end
          else if (c =? 34) && bool_decide (st ∈ [tokenObjectStart; tokenObjectKey]) then
            match scanScalar c (c :: t) with
            | Some (tok, rest) => Ok (tok, mkDecoder rest tokenObjectColon (d_stack d))
            | None => Err JSyntax
            end
          else if valueAllowed st then
            match scanScalar c (c :: t) with
            | Some (tok, rest) => Ok (tok, mkDecoder rest (valueEnd st) (d_stack d))
            | None => Err JSyntax
            end
          else Err JSyntax
      end
  end.

(** At most three characters are looked at: a comma or colon, then a token. *)
Definition Token (d : Decoder) : result jerror (jtoken * Decoder) := TokenFuel 3 d.

(** ** The reader always moves forward *)

Lemma skipSpace_length s : (length (skipSpace s) <= length s)%nat.
Proof. induction s as [|c s IH]; simpl; [lia|]. case_goal; simpl; lia. Qed.

Lemma scanString_length s : forall acc raw rest,
  scanString s acc = Some (raw, rest) -> (length rest < length s)%nat.
Proof.
  induction s as [s IH] using (induction_ltof1 _ length). unfold ltof in IH.
  intros acc raw rest. destruct s as [|c t]; cbn [scanString]; [done|].
  destruct (c =? 34); [intros; simplify_eq; simpl; lia|].
  destruct (c =? 92); [|destruct (c <? 32); [done|]; intros H; apply IH in H; simpl in *; lia].
  destruct t as [|e u]; [done|].
  assert (Hesc : forall k, (if bool_decide (e ∈ [34; 92; 47; 98; 102; 110; 114; 116])
    then scanString u k else None) = Some (raw, rest) -> (length rest < length (c :: e :: u))%nat).
  { intros k. case_goal; [|done]. intros H. apply IH in H; simpl in *; lia. }
  destruct (decide (e = 117)) as [->|Hne].
  - destruct u as [|a [|b [|x [|y r]]]]; try done. case_goal; [|done].
    intros H. apply IH in H; simpl in *; lia.
  - intros H. apply (Hesc (e :: 92 :: acc)). rewrite <- H. clear -Hne.
    destruct e as [|p|p]; try done. do 7 (destruct p as [p|p|]; try done).
Qed.

Lemma skipDigits_length s : (length (skipDigits s) <= length s)%nat.
Proof. induction s as [|c s IH]; simpl; [lia|]. case_goal; simpl; lia. Qed.

Lemma digits1_length s r : digits1 s = Some r -> (length r < length s)%nat.
Proof.
  destruct s as [|c t]; simpl; [done|]. case_goal; [|done]. intros; simplify_eq.
  pose proof (skipDigits_length t). lia.
Qed.

Lemma scanExponent_length s r : scanExponent s = Some r -> (length r <= length s)%nat.
Proof.
  destruct s as [|c t]; simpl; [intros; simplify_eq; simpl; lia|].
  case_goal; [|intros; simplify_eq; simpl; lia].
  destruct t as [|d u]; [done|]. case_goal; intros H; apply digits1_length in H; simpl in *; lia.
Qed.

Lemma scanFraction_length s r : scanFraction s = Some r -> (length r <= length s)%nat.
Proof.
  destruct s as [|c t]; [simpl; intros; simplify_eq; simpl; lia|]. unfold scanFraction.
  case_goal; [|apply scanExponent_length].
  destruct (digits1 t) as [u|] eqn:E; [|done]. apply digits1_length in E.
  intros H. apply scanExponent_length in H. simpl. lia.
Qed.

Lemma scanNumber_length s r : scanNumber s = Some r -> (length r < length s)%nat.
Proof.
  assert (Hpos : forall c t, (if c =? 48 then scanFraction t
    else if inRange 49 57 c then scanFraction (skipDigits t) else None) = Some r ->
    (length r < length (c :: t))%nat).
  { intros c t. pose proof (skipDigits_length t).
    repeat case_goal; intros H'; try done; apply scanFraction_length in H'; simpl; lia. }
  unfold scanNumber. destruct s as [|c t]; [done|].
  destruct (decide (c = 45)) as [->|Hne].
  - destruct t as [|c t]; [done|]. intros H. apply Hpos in H. simpl in *. lia.
  - intros H. apply Hpos. rewrite <- H. clear -Hne.
    destruct c as [|p|p]; try done. do 6 (destruct p as [p|p|]; try done).
Qed.

Lemma scanScalar_length c s tok rest :
  s <> [] -> scanScalar c s = Some (tok, rest) -> (length rest < length s)%nat.
Proof.
  intros Hs. unfold scanScalar. case_goal.
  - destruct (scanString (tl s) []) as [[raw r]|] eqn:E; [|done].
    apply scanString_length in E. intros; simplify_eq. destruct s; [done|]. simpl in *. lia.
  - destruct s as [|x s]; [done|]. unfold scanWord. set (m := scanNumber (x :: s)).
    assert (Hm : forall r, m = Some r -> (length r < length (x :: s))%nat)
      by (intros r; apply scanNumber_length).
    clearbody m. repeat (case_goal; try done); intros; simplify_eq;
      try (rewrite length_drop; simpl; lia); auto.
Qed.

Lemma TokenFuel_length n : forall d tok d',
  TokenFuel n d = Ok (tok, d') -> (length (d_rest d') < length (d_rest d))%nat.
Proof.
  induction n as [|n IH]; intros d tok d'; cbn [TokenFuel]; [done|].
  pose proof (skipSpace_length (d_rest d)) as Hs.
  destruct (skipSpace (d_rest d)) as [|c t]; [done|]. cbv zeta. simpl in Hs.
  repeat (case_goal; try done); intros H; simplify_eq/=;
    try (apply IH in H; simpl in *; lia);
    try match goal with E : scanScalar _ _ = _ |- _ =>
      apply scanScalar_length in E; [simpl in *; lia | done] end;
    unfold popState; repeat case_goal; simpl; lia.
Qed.

Lemma Token_length d tok d' :
  Token d = Ok (tok, d') -> (length (d_rest d') < length (d_rest d))%nat.
Proof. apply TokenFuel_length. Qed.

(** A comma or a colon is skipped in these states only. *)
Definition skipsOne (st : tokenState) : bool :=
  match st with tokenArrayComma | tokenObjectColon | tokenObjectComma => true | _ => false end.

Lemma TokenFuel_once n m d :
  skipsOne (d_state d) = false -> TokenFuel (S n) d = TokenFuel (S m) d.
Proof.
  intros Hst. cbn [TokenFuel]. destruct (skipSpace (d_rest d)) as [|c t]; [done|]. cbv zeta.
  destruct d as [r st sk]. cbn [d_state d_stack d_rest] in *.
  rewrite (bool_decide_eq_false_2 (st = tokenObjectColon)) by (by intros ->).
  destruct st; done.
Qed.

(** The fuel of [Token] is enough: a comma or a colon moves to a state in which
    another one is an error. *)
Lemma TokenFuel_enough n d : TokenFuel (S (S n)) d = TokenFuel 3 d.
Proof.
  assert (Hk : forall st t, skipsOne st = false ->
    TokenFuel (S n) (mkDecoder t st (d_stack d)) = TokenFuel 2 (mkDecoder t st (d_stack d)))
    by (intros; by apply TokenFuel_once).
  revert Hk. generalize (S n) as k, 2%nat as k'. intros k k' Hk. cbn [TokenFuel].
  destruct (skipSpace (d_rest d)) as [|c t]; [done|]. cbv zeta.
  rewrite (Hk tokenObjectValue), (Hk tokenArrayValue), (Hk tokenObjectKey) by done. done.
Qed.
