(* ===== verification/JsonMembers.v ===== *)
(** * Duplicate JSON members in token parts

    [rejectDuplicateJWTMembers] of [pkg/clients/identity_jwt.go] and
    [rejectDuplicateJWTJSONMembers] of [pkg/agtp/jwt.go] walk the header and the
    claims with the token reader and reject an object that names a member twice.
    The two copies differ in their errors and in what they do with a stray closing
    delimiter; the walk is written once with these as arguments.

    [reads] is the reference: the tree a sequence of tokens spells, with no fuel and
    no check.  The theorem says the walk accepts exactly the inputs that spell one
    tree, followed by the end of the input, in which no object repeats a name. *)

From stdpp Require Import base gmap sets list strings.
From Stdlib Require Import ZArith Lia.
From S2P Require Import Prelude GoStrings Errors GoEncoding.

(** The decoder's errors as Go errors. *)
Definition ofJError (e : jerror) : error :=
  match e with JEOF => ErrNew "io.EOF" | JSyntax => ErrNew "json.SyntaxError" end.

Definition readToken (d : Decoder) : result error (jtoken * Decoder) :=
  match Token d with Ok r => Ok r | Err e => Err (ofJError e) end.

Record MemberErrors := mkMemberErrors {
  duplicateMember : error; nonStringKey : error; trailingData : error;
  strayReturns : bool }.   (* a stray closing delimiter ends the walk at once *)

Section walk.
Context (E : MemberErrors).

Definition outOfFuel : error := ErrNew "fuel".

(** [rejectDuplicateJSONObjectMembers] / [rejectDuplicateJSONValue], with the two
    loops over the members of an object and the elements of an array. *)
Fixpoint dupValue (fuel : nat) (d : Decoder) : result error Decoder :=
  match fuel with
  | O => Err outOfFuel
  | S f =>
      let* r := readToken d in
      let '(tok, d) := r in
      match tok with
      | TDelim c =>
          if c =? 123 then
            let* d := dupMembers f d ∅ in let* r := readToken d in Ok (snd r)
          else if c =? 91 then
            let* d := dupElems f d in let* r := readToken d in Ok (snd r)
          else if strayReturns E then Ok d
          else let* r := readToken d in Ok (snd r)
      | _ => Ok d
      end
  end
with dupMembers (fuel : nat) (d : Decoder) (seen : gset string) : result error Decoder :=
  match fuel with
  | O => Err outOfFuel
  | S f =>
      if More d then
        let* r := readToken d in
        let '(tok, d) := r in
        match tok with
        | TString name =>
            if bool_decide (name ∈ seen) then Err (duplicateMember E)
            else let* d := dupValue f d in dupMembers f d ({[name]} ∪ seen)
        | _ => Err (nonStringKey E)
        end
      else Ok d
  end
with dupElems (fuel : nat) (d : Decoder) : result error Decoder :=
  match fuel with
  | O => Err outOfFuel
  | S f => if More d then let* d := dupValue f d in dupElems f d else Ok d
  end.

(** [rejectDuplicateJSONMembers].  Every value takes a byte, and a call on an
    element is made before that byte is read: twice the length is enough fuel. *)
Definition rejectMembers (raw : list Z) : option error :=
  match dupValue (S (2 * length raw)) (NewDecoder raw) with
  | Err err => Some err
  | Ok d =>
      match Token d with
      | Err JEOF => None
      | Err e => Some (ofJError e)
      | Ok _ => Some (trailingData E)
      end
  end.

(** The loop over the first two parts of the token. *)
Fixpoint rejectParts (parts : list string) : option error :=
  match parts with
  | [] => None
  | part :: t =>
      match base64RawURLDecode part with
      | None => None
      | Some raw =>
          match rejectMembers raw with
          | Some err => Some err
          | None => rejectParts t
          end
      end
  end.

Definition rejectToken (tokenString : string) : option error :=
  let parts := SplitByte tokenString 46 in
  if negb (len parts =? 3) then None else rejectParts (take 2 parts).

(** ** The reference reading *)

Inductive json :=
  | JScalar | JString (s : string) | JStray | JArray (es : elems) | JObject (ms : members)
with elems := ENil | ECons (v : json) (es : elems)
with members := MNil | MCons (name : string) (v : json) (ms : members).

Inductive reads : Decoder -> json -> Decoder -> Prop :=
  | reads_scalar d d' : Token d = Ok (TScalar, d') -> reads d JScalar d'
  | reads_string d s d' : Token d = Ok (TString s, d') -> reads d (JString s) d'
  | reads_stray d c d1 : Token d = Ok (TDelim c, d1) -> c <> 123 -> c <> 91 ->
      strayReturns E = true -> reads d JStray d1
  | reads_stray2 d c d1 tok d2 : Token d = Ok (TDelim c, d1) -> c <> 123 -> c <> 91 ->
      strayReturns E = false -> Token d1 = Ok (tok, d2) -> reads d JStray d2
  | reads_array d d1 es d2 tok d3 : Token d = Ok (TDelim 91, d1) -> readsElems d1 es d2 ->
      Token d2 = Ok (tok, d3) -> reads d (JArray es) d3
  | reads_object d d1 ms d2 tok d3 : Token d = Ok (TDelim 123, d1) -> readsMembers d1 ms d2 ->
      Token d2 = Ok (tok, d3) -> reads d (JObject ms) d3
with readsElems : Decoder -> elems -> Decoder -> Prop :=
  | readsElems_nil d : More d = false -> readsElems d ENil d
  | readsElems_cons d v d1 es d2 : More d = true -> reads d v d1 -> readsElems d1 es d2 ->
      readsElems d (ECons v es) d2
with readsMembers : Decoder -> members -> Decoder -> Prop :=
  | readsMembers_nil d : More d = false -> readsMembers d MNil d
  | readsMembers_cons d name d1 v d2 ms d3 : More d = true ->
      Token d = Ok (TString name, d1) -> reads d1 v d2 -> readsMembers d2 ms d3 ->
      readsMembers d (MCons name v ms) d3.

Fixpoint names (ms : members) : list string :=
  match ms with MNil => [] | MCons name _ t => name :: names t end.

(** No object of the tree names a member twice. *)
Fixpoint unique (v : json) : Prop :=
  match v with
  | JArray es => uniqueElems es
  | JObject ms => NoDup (names ms) /\ uniqueMembers ms
  | _ => True
  end
with uniqueElems (es : elems) : Prop :=
  match es with ENil => True | ECons v t => unique v /\ uniqueElems t end
with uniqueMembers (ms : members) : Prop :=
  match ms with MNil => True | MCons _ v t => unique v /\ uniqueMembers t end.

(** ** Soundness *)

Lemma readToken_Ok d r : readToken d = Ok r <-> Token d = Ok r.
Proof. unfold readToken. destruct (Token d); intuition congruence. Qed.

(** Names of [ms] are distinct, and none of them was seen before. *)
Definition fresh (seen : gset string) (ms : members) : Prop :=
  NoDup (names ms) /\ Forall (fun n => n ∉ seen) (names ms).

Lemma fresh_cons seen name v ms :
  fresh seen (MCons name v ms) <-> (name ∉ seen) /\ fresh ({[name]} ∪ seen) ms.
Proof.
  unfold fresh. simpl. rewrite NoDup_cons, Forall_cons, !Forall_forall.
  split; [intros ([Hn Hnd] & Hs & HF) | intros (Hs & Hnd & HF)]; split_and!; try done.
  - intros x Hx. apply not_elem_of_union. rewrite not_elem_of_singleton.
    split; [by intros -> | auto].
  - intros Hin. specialize (HF _ Hin). set_solver.
  - intros x Hx. specialize (HF x Hx). set_solver.
Qed.

Lemma dup_sound fuel :
  (forall d d', dupValue fuel d = Ok d' -> exists v, reads d v d' /\ unique v)
  /\ (forall d seen d', dupMembers fuel d seen = Ok d' ->
        exists ms, readsMembers d ms d' /\ uniqueMembers ms /\ fresh seen ms)
  /\ (forall d d', dupElems fuel d = Ok d' -> exists es, readsElems d es d' /\ uniqueElems es).
Proof.
  induction fuel as [|f (IHv & IHm & IHe)]; [done|]. split_and!.
  - intros d d'. cbn [dupValue].
    destruct (readToken d) as [[tok d1]|] eqn:T; simpl; [|done]. apply readToken_Ok in T.
    destruct tok as [c|s|]; [|intros; simplify_eq; eexists; split; [by constructor|done]..].
    destruct (Z.eqb_spec c 123) as [->|N1]; [|destruct (Z.eqb_spec c 91) as [->|N2]].
    + destruct (dupMembers f d1 ∅) as [d2|] eqn:M; simpl; [|done].
      destruct (readToken d2) as [[tok d3]|] eqn:T2; simpl; [|done]. apply readToken_Ok in T2.
      intros; simplify_eq. apply IHm in M as (ms & Hr & Hu & [Hnd _]).
      exists (JObject ms). split; [by econstructor | done].
    + destruct (dupElems f d1) as [d2|] eqn:M; simpl; [|done].
      destruct (readToken d2) as [[tok d3]|] eqn:T2; simpl; [|done]. apply readToken_Ok in T2.
      intros; simplify_eq. apply IHe in M as (es & Hr & Hu).
      exists (JArray es). split; [by econstructor | done].
    + destruct (strayReturns E) eqn:S.
      * intros; simplify_eq. exists JStray. split; [by econstructor | done].
      * destruct (readToken d1) as [[tok d3]|] eqn:T2; simpl; [|done].
        apply readToken_Ok in T2. intros; simplify_eq.
        exists JStray. split; [by eapply reads_stray2 | done].
  - intros d seen d'. cbn [dupMembers]. destruct (More d) eqn:M.
    2:{ intros; simplify_eq. exists MNil. repeat split; try constructor; done. }
    destruct (readToken d) as [[tok d1]|] eqn:T; simpl; [|done]. apply readToken_Ok in T.
    destruct tok as [|name|]; [done| |done]. case_bool_decide as Hs; [done|].
    destruct (dupValue f d1) as [d2|] eqn:V; simpl; [|done]. intros Hm.
    apply IHv in V as (v & Hr & Hu). apply IHm in Hm as (ms & Hrs & Hus & Hf).
    exists (MCons name v ms). split_and!; [by econstructor | done | by apply fresh_cons].
  - intros d d'. cbn [dupElems]. destruct (More d) eqn:M.
    2:{ intros; simplify_eq. exists ENil. split; [by constructor | done]. }
    destruct (dupValue f d) as [d2|] eqn:V; simpl; [|done]. intros Hm.
    apply IHv in V as (v & Hr & Hu). apply IHe in Hm as (es & Hrs & Hus).
    exists (ECons v es). split; [by econstructor | done].
Qed.

(** ** Completeness *)

Scheme reads_mut := Minimality for reads Sort Prop
  with readsElems_mut := Minimality for readsElems Sort Prop
  with readsMembers_mut := Minimality for readsMembers Sort Prop.
Combined Scheme reads_ind' from reads_mut, readsElems_mut, readsMembers_mut.

Definition restLen (d : Decoder) : nat := length (d_rest d).

Lemma reads_length :
  (forall d v d', reads d v d' -> (restLen d' < restLen d)%nat)
  /\ (forall d es d', readsElems d es d' -> (restLen d' <= restLen d)%nat)
  /\ (forall d ms d', readsMembers d ms d' -> (restLen d' <= restLen d)%nat).
Proof.
  unfold restLen. apply reads_ind'; intros;
    repeat match goal with H : Token _ = Ok _ |- _ => apply Token_length in H end; lia.
Qed.

(** One step of the walk on the token read. *)
Lemma dupValue_token f d tok d1 :
  Token d = Ok (tok, d1) ->
  dupValue (S f) d =
  match tok with
  | TDelim c =>
      if c =? 123 then let* d := dupMembers f d1 ∅ in let* r := readToken d in Ok (snd r)
      else if c =? 91 then let* d := dupElems f d1 in let* r := readToken d in Ok (snd r)
      else if strayReturns E then Ok d1
      else let* r := readToken d1 in Ok (snd r)
  | _ => Ok d1
  end.
Proof. intros T. cbn [dupValue]. unfold readToken at 1. by rewrite T. Qed.

Lemma readToken_of d r : Token d = Ok r -> readToken d = Ok r.
Proof. apply readToken_Ok. Qed.

Lemma dup_complete :
  (forall d v d', reads d v d' -> forall f, (2 * restLen d < f)%nat -> unique v ->
     dupValue f d = Ok d')
  /\ (forall d es d', readsElems d es d' -> forall f, (1 + 2 * restLen d < f)%nat -> uniqueElems es ->
     dupElems f d = Ok d')
  /\ (forall d ms d', readsMembers d ms d' -> forall f seen, (1 + 2 * restLen d < f)%nat ->
     uniqueMembers ms -> fresh seen ms -> dupMembers f d seen = Ok d').
Proof.
  pose proof reads_length as (Lv & Le & Lm). unfold restLen in *.
  apply reads_ind'; intros;
    (destruct f as [|f]; [lia|]);
    repeat match goal with
    | T : Token ?d = Ok (_, ?d1) |- _ =>
        lazymatch goal with
        | _ : (length (d_rest d1) < length (d_rest d))%nat |- _ => fail
        | _ => pose proof (Token_length _ _ _ T)
        end
    end;
    try (erewrite dupValue_token by eassumption; cbv iota beta; simpl).
  - done.
  - done.
  - by rewrite (proj2 (Z.eqb_neq c 123)), (proj2 (Z.eqb_neq c 91)), H2.
  - rewrite (proj2 (Z.eqb_neq c 123)), (proj2 (Z.eqb_neq c 91)), H2 by done.
    by erewrite readToken_of by eassumption.
  - rewrite H1 by (done || lia). simpl. by erewrite readToken_of by eassumption.
  - destruct H4 as [Hnd Hu]. rewrite H1 by (done || lia || (split; [done | by apply Forall_forall])).
    simpl. by erewrite readToken_of by eassumption.
  - cbn [dupElems]. by rewrite H.
  - cbn [dupElems]. rewrite H. destruct H5 as [? ?]. apply Lv in H0.
    rewrite H1 by (done || lia). simpl. apply H3; [lia|done].
  - cbn [dupMembers]. by rewrite H.
  - cbn [dupMembers]. rewrite H. erewrite readToken_of by eassumption. simpl.
    destruct H6 as [? ?]. apply fresh_cons in H7 as [? ?].
    rewrite bool_decide_eq_false_2 by done. apply Lv in H1.
    rewrite H2 by (done || lia). simpl. apply H4; [lia|done..].
Qed.

Lemma rejectMembers_spec raw :
  rejectMembers raw = None <->
  exists v d, reads (NewDecoder raw) v d /\ Token d = Err JEOF /\ unique v.
Proof.
  unfold rejectMembers. split.
  - destruct (dupValue _ _) as [d|] eqn:V; [|done].
    apply (proj1 (dup_sound _)) in V as (v & Hr & Hu).
    destruct (Token d) as [|[]] eqn:T; try done. eauto.
  - intros (v & d & Hr & Ht & Hu).
    rewrite (proj1 dup_complete _ _ _ Hr) by (try done; unfold restLen; simpl; lia).
    by rewrite Ht.
Qed.
End walk.
