(* ===== verification/JWTLib.v ===== *)
(** * The JWT library, as the token code relies on it

    [github.com/golang-jwt/jwt/v5] is not part of the repository.  [JWTLib] is the
    one call the code makes, [ParseWithClaims]: the caller's key function is a
    callback that also updates a variable of the caller, so the call threads that
    variable's value.  [JWTLibLaws] states the documented behaviour: a token is
    accepted exactly when it decodes, the callback gives a key for its header, the
    signature verifies under that key with an allowed method, and the registered
    claims pass the options the code sets (issuer, audience, expiry required,
    issued-at checked).  [TableLib] is a small library that satisfies the laws; the
    witnesses run it. *)

From stdpp Require Import base gmap sets list strings.
From Stdlib Require Import ZArith Lia.
From S2P Require Import Prelude GoStrings Errors.

(** [jwt.RegisteredClaims]. *)
Record RegisteredClaims := mkRegistered {
  rc_Issuer : string; rc_Subject : string; rc_Audience : list string;
  rc_ExpiresAt : option Time; rc_NotBefore : option Time; rc_IssuedAt : option Time;
  rc_ID : string }.

(** A struct that embeds the registered claims. *)
Class Claims (C : Type) := registered : C -> RegisteredClaims.

(** [jwt.Token]: [jt_Kid] is [Header["kid"]] when that is a string. *)
Record JToken (C : Type) := mkToken {
  jt_Alg : string; jt_Kid : option string; jt_Claims : C; jt_Valid : bool }.
Arguments mkToken {C}. Arguments jt_Alg {C}. Arguments jt_Kid {C}.
Arguments jt_Claims {C}. Arguments jt_Valid {C}.

(** The parser options: [WithValidMethods], [WithIssuer], [WithAudience] and
    [WithTimeFunc]; [WithExpirationRequired] and [WithIssuedAt] are always given. *)
Record ParserOptions := mkParserOptions {
  po_ValidMethods : list string; po_Issuer : string; po_Audience : string;
  po_Now : option Time }.

(** [wall] is the wall clock, read when there is no time function. *)
Class JWTLib (Key C : Type) :=
  ParseWithClaims : forall S : Type,
    string -> (JToken C -> S -> result error (option Key) * S) -> ParserOptions -> Time ->
    S -> result error (JToken C) * S.

Definition claimsCurrent {C} `{Claims C} (o : ParserOptions) (wall : Time) (c : C) : Prop :=
  let rc := registered c in
  let now := default wall (po_Now o) in
  rc_Issuer rc = po_Issuer o
  /\ po_Audience o ∈ rc_Audience rc
  /\ (exists e, rc_ExpiresAt rc = Some e /\ now < e)
  /\ (forall i, rc_IssuedAt rc = Some i -> i <= now)
  /\ (forall n, rc_NotBefore rc = Some n -> n <= now).

Class JWTLibLaws (Key C : Type) `{Claims C} `{JWTLib Key C} := {
  (** [decodes t alg kid c]: the header and claims parts of [t]. *)
  decodes : string -> string -> option string -> C -> Prop;
  (** [verifies t alg key]: the signature part of [t]. *)
  verifies : string -> string -> Key -> Prop;
  decodes_fun t alg kid c alg' kid' c' :
    decodes t alg kid c -> decodes t alg' kid' c' -> alg = alg' /\ kid = kid' /\ c = c';
  parse_ok S t f o wall (s s' : S) tok :
    ParseWithClaims S t f o wall s = (Ok tok, s') <->
    exists alg kid c key,
      tok = mkToken alg kid c true
      /\ decodes t alg kid c
      /\ f (mkToken alg kid c false) s = (Ok (Some key), s')
      /\ alg ∈ po_ValidMethods o
      /\ verifies t alg key
      /\ claimsCurrent o wall c }.

(** ** A library that satisfies the laws *)

Module TableLib.
Section table.
Context {C : Type} `{Claims C}.

(** Tokens are rows of a table: the encoded token, its header, claims and the
    name of the key that signed it. *)
Record Row := mkRow {
  row_token : string; row_alg : string; row_kid : option string; row_claims : C;
  row_signer : string }.

Fixpoint find (t : string) (rows : list Row) : option Row :=
  match rows with
  | [] => None
  | r :: rs => if bool_decide (row_token r = t) then Some r else find t rs
  end.

Context (rows : list Row).

Definition currentb (o : ParserOptions) (wall : Time) (c : C) : bool :=
  let rc := registered c in
  let now := default wall (po_Now o) in
  bool_decide (rc_Issuer rc = po_Issuer o)
  && bool_decide (po_Audience o ∈ rc_Audience rc)
  && match rc_ExpiresAt rc with Some e => now <? e | None => false end
  && match rc_IssuedAt rc with Some i => i <=? now | None => true end
  && match rc_NotBefore rc with Some n => n <=? now | None => true end.

Definition parse (S : Type) (t : string)
    (f : JToken C -> S -> result error (option string) * S) (o : ParserOptions) (wall : Time)
    (s : S) : result error (JToken C) * S :=
  match find t rows with
  | None => (Err (ErrNew "jwt.ErrTokenMalformed"), s)
  | Some (mkRow _ alg kid c signer) =>
      match f (mkToken alg kid c false) s with
      | (Ok (Some key), s') =>
          if bool_decide (alg ∈ po_ValidMethods o) && bool_decide (key = signer)
             && currentb o wall c
          then (Ok (mkToken alg kid c true), s')
          else (Err (ErrNew "jwt.ErrTokenUnverifiable"), s')
      | (Ok None, s') => (Err (ErrNew "jwt.ErrInvalidKeyType"), s')
      | (Err e, s') => (Err e, s')
      end
  end.

Definition lib : JWTLib string C := parse.

Lemma currentb_true o wall c : currentb o wall c = true <-> claimsCurrent o wall c.
Proof.
  unfold currentb, claimsCurrent. cbv zeta. set (now := default wall (po_Now o)).
  rewrite !andb_true_iff, !bool_decide_eq_true.
  assert (forall o', match o' with Some i => i <=? now | None => true end = true
            <-> forall i, o' = Some i -> i <= now) as Hopt.
  { intros [i|]; rewrite ?Z.leb_le; split; [intros ? ? [= <-]; done | auto | done | done]. }
  rewrite !Hopt. destruct (rc_ExpiresAt _) as [e|]; rewrite ?Z.ltb_lt.
  - split; [intros [[[[? ?] ?] ?] ?]; eauto 10|].
    intros (? & ? & (e' & [= <-] & ?) & ? & ?). by split_and!.
  - split; [by intros [[[[? ?] ?] ?] ?] | by intros (_ & _ & (? & ? & _) & _)].
Qed.

Program Definition laws : @JWTLibLaws string C _ lib :=
  @Build_JWTLibLaws string C _ lib
    (fun t alg kid c => exists r, find t rows = Some r /\ row_alg r = alg
       /\ row_kid r = kid /\ row_claims r = c)
    (fun t _ key => exists r, find t rows = Some r /\ row_signer r = key) _ _.
Next Obligation.
  intros t alg kid c alg' kid' c' (r & Hr & <- & <- & <-) (r' & Hr' & <- & <- & <-).
  simplify_eq. done.
Qed.
Next Obligation.
  intros S t f o wall s s' tok. unfold ParseWithClaims, lib, parse.
  split.
  - destruct (find t rows) as [[t' alg kid c signer]|] eqn:R; [|done].
    destruct (f (mkToken alg kid c false) s) as [[[key|]|e] s1] eqn:F; [|done..].
    case_goal; [|done]. rewrite !andb_true_iff, !bool_decide_eq_true, currentb_true in Heqb.
    destruct Heqb as [[? ->] ?]. intros; simplify_eq.
    exists alg, kid, c, signer. split_and!; eauto 10.
  - intros (alg & kid & c & key & -> & (r & Hr & <- & <- & <-) & F & Ha & (r' & Hr' & <-) & Hc).
    simplify_eq. rewrite Hr. destruct r as [t' alg kid c signer]. simpl in *. rewrite F.
    apply currentb_true in Hc. rewrite Hc. rewrite !bool_decide_eq_true_2 by done. done.
Qed.
End table.
End TableLib.
