(* ===== verification/TokenVerify.v ===== *)
(** * Verification of one signed token, shared by the JWT profiles

    [pkg/clients/identity_jwt.go] and [pkg/agtp/jwt.go] hold two copies of the same
    machinery: option checks, the key table, the key callback and the parse.  The
    copies differ in their error values, in the test for unsafe signing methods, and
    in whether key ids are trimmed before use; here these are the fields of a
    [TokenProfile].  [tokenTrusted] is the specification of one accepted token and
    [parseToken_Ok] the refinement. *)

From stdpp Require Import base gmap sets list strings.
From Stdlib Require Import ZArith Lia.
From S2P Require Import Prelude GoStrings Errors JsonMembers JWTLib.

(** [strings.TrimSpace(s) == ""]. *)
Definition blank (s : string) : bool := bool_decide (TrimSpace s = "").

Lemma blank_pair_false a b :
  blank a && blank b = false <-> TrimSpace a <> "" \/ TrimSpace b <> "".
Proof. unfold blank. by rewrite andb_false_iff, !bool_decide_eq_false. Qed.

(** [jwt.SigningMethodNone.Alg()]. *)
Definition noneAlg : string := "none".

(** ** Data *)

(** Keys are opaque; a nil key is [None]. *)
Record LocalKey (Key : Type) := mkLocalKey {
  lk_KeyID : string; lk_Key : option Key; lk_Disabled : bool }.
Arguments mkLocalKey {Key}. Arguments lk_KeyID {Key}. Arguments lk_Key {Key}.
Arguments lk_Disabled {Key}.

Definition KeyFunc (Key : Type) : Type := string -> result error (option Key).

Record JWTVerifyOptions (Key : Type) := mkVerifyOptions {
  vo_ExpectedIssuer : string; vo_ExpectedAudience : string; vo_ValidMethods : list string;
  vo_KeyFunc : option (KeyFunc Key); vo_LocalKeys : list (LocalKey Key);
  vo_DisabledKeyIDs : list string; vo_RevokedJWTIDs : list string; vo_Now : Time }.
Arguments mkVerifyOptions {Key}. Arguments vo_ExpectedIssuer {Key}.
Arguments vo_ExpectedAudience {Key}. Arguments vo_ValidMethods {Key}.
Arguments vo_KeyFunc {Key}. Arguments vo_LocalKeys {Key}. Arguments vo_DisabledKeyIDs {Key}.
Arguments vo_RevokedJWTIDs {Key}. Arguments vo_Now {Key}.

(** [opts.Now = now]. *)
Definition withNow {Key} (o : JWTVerifyOptions Key) (now : Time) : JWTVerifyOptions Key :=
  mkVerifyOptions (vo_ExpectedIssuer o) (vo_ExpectedAudience o) (vo_ValidMethods o)
    (vo_KeyFunc o) (vo_LocalKeys o) (vo_DisabledKeyIDs o) (vo_RevokedJWTIDs o) now.

(** What the two packages do differently. *)
Record TokenProfile := mkTokenProfile {
  tp_Members : MemberErrors;
  tp_unsafeMethod : string -> bool;
  tp_trim : bool;               (* key ids are trimmed before use *)
  tp_MissingKeyFunc : error; tp_AmbiguousKeySource : error; tp_MissingValidMethods : error;
  tp_UnsafeSigningMethod : error; tp_MissingExpectedIssuer : error;
  tp_MissingExpectedAudience : error; tp_MissingKeyID : error; tp_DuplicateKeyID : error;
  tp_MissingLocalKey : error; tp_DisabledKeyID : error; tp_UnknownKeyID : error;
  tp_RevokedJWTID : error; tp_Invalid : error; tp_verify : string }.

(** ** Helpers *)

Definition stringSet (values : list string) : gset string :=
  list_to_set (filter (fun v => v <> "") (map TrimSpace values)).

Definition isListed (value : string) (values : list string) : bool :=
  bool_decide (TrimSpace value ∈ stringSet values).

Definition appendScopeValues (values : list string) (spaceSeparated : string) : list string :=
  if blank spaceSeparated then values else values ++ Fields spaceSeparated.

Definition claimTimeOf (value : option Time) : Time :=
  match value with None => timeZero | Some t => t end.

(** ** Operations *)

Section token.
Context (T : TokenProfile) {Key C : Type} `{Claims C} `{JWTLib Key C}.

Definition parserOptions (opts : JWTVerifyOptions Key) : result error ParserOptions :=
  if bool_decide (vo_KeyFunc opts = None) && bool_decide (vo_LocalKeys opts = [])
  then Err (tp_MissingKeyFunc T)
  else if negb (bool_decide (vo_KeyFunc opts = None))
          && negb (bool_decide (vo_LocalKeys opts = []))
  then Err (tp_AmbiguousKeySource T)
  else if bool_decide (vo_ValidMethods opts = []) then Err (tp_MissingValidMethods T)
  else if existsb (tp_unsafeMethod T) (vo_ValidMethods opts) then Err (tp_UnsafeSigningMethod T)
  else if blank (vo_ExpectedIssuer opts) then Err (tp_MissingExpectedIssuer T)
  else if blank (vo_ExpectedAudience opts) then Err (tp_MissingExpectedAudience T)
  else Ok (mkParserOptions (vo_ValidMethods opts) (vo_ExpectedIssuer opts)
             (vo_ExpectedAudience opts)
             (if IsZero (vo_Now opts) then None else Some (vo_Now opts))).

(** The loop over the local keys: the key table and the disabled set. *)
Fixpoint loadKeys (ks : list (LocalKey Key)) (keys : gmap string Key) (disabled : gset string)
    : result error (gmap string Key * gset string) :=
  match ks with
  | [] => Ok (keys, disabled)
  | k :: t =>
      let keyID := TrimSpace (lk_KeyID k) in
      if bool_decide (keyID = "") then Err (tp_MissingKeyID T)
      else if bool_decide (is_Some (keys !! keyID)) then Err (tp_DuplicateKeyID T)
      else match lk_Key k with
           | None => Err (tp_MissingLocalKey T)
           | Some key =>
               let disabled := if lk_Disabled k then {[keyID]} ∪ disabled else disabled in
               loadKeys t (<[keyID := key]> keys) disabled
           end
  end.

Definition keyFuncForOptions (opts : JWTVerifyOptions Key) : result error (KeyFunc Key) :=
  let disabled := stringSet (vo_DisabledKeyIDs opts) in
  match vo_KeyFunc opts with
  | Some kf =>
      Ok (fun keyID =>
        if bool_decide (TrimSpace keyID ∈ disabled) then Err (tp_DisabledKeyID T)
        else kf (if tp_trim T then TrimSpace keyID else keyID))
  | None =>
      let* r := loadKeys (vo_LocalKeys opts) ∅ disabled in
      let '(keys, disabled) := r in
      Ok (fun keyID =>
        let keyID := TrimSpace keyID in
        if bool_decide (keyID ∈ disabled) then Err (tp_DisabledKeyID T)
        else match keys !! keyID with
             | None => Err (tp_UnknownKeyID T)
             | Some key => Ok (Some key)
             end)
  end.

Definition validateVerifyOptions (opts : JWTVerifyOptions Key) : option error :=
  match parserOptions opts with
  | Err err => Some err
  | Ok _ => match keyFuncForOptions opts with Err err => Some err | Ok _ => None end
  end.

Definition keyIDFromToken (token : JToken C) : result error string :=
  match jt_Kid token with
  | None => Err (tp_MissingKeyID T)
  | Some keyID => if blank keyID then Err (tp_MissingKeyID T)
                  else Ok (if tp_trim T then TrimSpace keyID else keyID)
  end.

(** The callback: it also assigns [signerKey]. *)
Definition keyCallback (keyFunc : KeyFunc Key) (token : JToken C)
    (signerKey : string) : result error (option Key) * string :=
  match keyIDFromToken token with
  | Err err => (Err err, signerKey)
  | Ok keyID => (keyFunc keyID, keyID)
  end.

(** The parse after the options, the key function and the duplicate check. *)
Definition parseSigned (wall : Time) (tokenString : string) (opts : JWTVerifyOptions Key)
    (parserOpts : ParserOptions) (keyFunc : KeyFunc Key) : result error (C * string) :=
  match ParseWithClaims string tokenString (keyCallback keyFunc) parserOpts wall "" with
  | (Err err, _) => Err (ErrWrap (tp_verify T) err)
  | (Ok token, signerKey) =>
      if negb (jt_Valid token) then Err (tp_Invalid T)
      else if isListed (rc_ID (registered (jt_Claims token))) (vo_RevokedJWTIDs opts)
      then Err (tp_RevokedJWTID T)
      else Ok (jt_Claims token, signerKey)
  end.

(** [dupFirst]: whether the duplicate check comes before or after the options. *)
Definition parseToken (dupFirst : bool) (wall : Time) (tokenString : string)
    (opts : JWTVerifyOptions Key) : result error (C * string) :=
  let dup := rejectToken (tp_Members T) tokenString in
  match (if dupFirst then dup else None) with
  | Some err => Err err
  | None =>
      let* parserOpts := parserOptions opts in
      let* keyFunc := keyFuncForOptions opts in
      match dup with
      | Some err => Err err
      | None => parseSigned wall tokenString opts parserOpts keyFunc
      end
  end.
End token.

(** ** Specification *)

Section spec.
Context (T : TokenProfile) {Key C : Type} `{JWTLibLaws Key C}.

Definition localID (k : LocalKey Key) : string := TrimSpace (lk_KeyID k).

(** The local keys form a table: named, present, and no name twice. *)
Definition keysWellFormed (ks : list (LocalKey Key)) : Prop :=
  Forall (fun k => localID k <> "" /\ is_Some (lk_Key k)) ks /\ NoDup (map localID ks).

(** [key] is the verification key for [id]: it comes from the one configured
    source and is not disabled. *)
Definition trustedKey (opts : JWTVerifyOptions Key) (id : string) (key : Key) : Prop :=
  TrimSpace id ∉ stringSet (vo_DisabledKeyIDs opts) /\
  match vo_KeyFunc opts with
  | Some kf => kf (if tp_trim T then TrimSpace id else id) = Ok (Some key)
  | None =>
      exists k, k ∈ vo_LocalKeys opts /\ localID k = TrimSpace id /\ lk_Key k = Some key
        /\ lk_Disabled k = false
  end.

(** Exactly one key source, and methods, issuer and audience are set. *)
Definition optionsOk (opts : JWTVerifyOptions Key) : Prop :=
  (match vo_KeyFunc opts with
   | Some _ => vo_LocalKeys opts = []
   | None => vo_LocalKeys opts <> [] /\ keysWellFormed (vo_LocalKeys opts)
   end)
  /\ vo_ValidMethods opts <> []
  /\ Forall (fun method => tp_unsafeMethod T method = false) (vo_ValidMethods opts)
  /\ blank (vo_ExpectedIssuer opts) = false /\ blank (vo_ExpectedAudience opts) = false.

Definition parserOptionsOf (opts : JWTVerifyOptions Key) : ParserOptions :=
  mkParserOptions (vo_ValidMethods opts) (vo_ExpectedIssuer opts) (vo_ExpectedAudience opts)
    (if IsZero (vo_Now opts) then None else Some (vo_Now opts)).

(** [t] is a token with claims [c], signed under the trusted key [signer]. *)
Definition tokenTrusted (wall : Time) (opts : JWTVerifyOptions Key) (t : string)
    (c : C) (signer : string) : Prop :=
  rejectToken (tp_Members T) t = None /\ optionsOk opts
  /\ (exists alg kid key,
        decodes t alg (Some kid) c /\ blank kid = false
        /\ signer = (if tp_trim T then TrimSpace kid else kid)
        /\ trustedKey opts signer key
        /\ alg ∈ vo_ValidMethods opts /\ verifies t alg key
        /\ claimsCurrent (parserOptionsOf opts) wall c)
  /\ isListed (rc_ID (registered c)) (vo_RevokedJWTIDs opts) = false.

(** ** Refinement *)

Lemma loadKeys_Ok ks : forall keys disabled keys' disabled',
  loadKeys T ks keys disabled = Ok (keys', disabled') ->
  Forall (fun k => localID k <> "" /\ is_Some (lk_Key k) /\ keys !! localID k = None) ks
  /\ NoDup (map localID ks)
  /\ (forall id key, keys' !! id = Some key <-> keys !! id = Some key
        \/ exists k, k ∈ ks /\ localID k = id /\ lk_Key k = Some key)
  /\ (forall id, id ∈ disabled' <-> id ∈ disabled
        \/ exists k, k ∈ ks /\ localID k = id /\ lk_Disabled k = true).
Proof.
  induction ks as [|k ks IH]; intros keys disabled keys' disabled'; cbn [loadKeys].
  { intros; simplify_eq. split_and!; [constructor.. | |]; intros; split; auto;
      intros [?|(k & Hin & _)]; try done; by apply not_elem_of_nil in Hin. }
  change (TrimSpace (lk_KeyID k)) with (localID k). cbv zeta.
  case_bool_decide as Hne; [done|]. case_bool_decide as Hnew; [done|].
  apply eq_None_not_Some in Hnew.
  destruct (lk_Key k) as [key|] eqn:Hk; [|done].
  intros (HF & Hnd & Hkeys & Hdis)%IH.
  assert (Hfresh : forall k', k' ∈ ks -> localID k' <> localID k /\ keys !! localID k' = None).
  { rewrite Forall_forall in HF. intros k' Hin. destruct (HF k' Hin) as (_ & _ & Hl).
    apply lookup_insert_None in Hl as [? ?]. done. }
  split_and!.
  - constructor; [by eauto|]. rewrite Forall_forall in *. intros k' Hin.
    destruct (HF k' Hin) as (? & ? & _), (Hfresh k' Hin). eauto.
  - simpl. constructor; [|done]. rewrite list_elem_of_fmap. intros (k' & Heq & Hin).
    by destruct (Hfresh k' Hin).
  - intros id key'. rewrite Hkeys, lookup_insert_Some. setoid_rewrite elem_of_cons.
    split.
    + intros [[[<- <-]|[? ?]]|(k' & ? & ? & ?)]; eauto 10.
    + intros [Hl|(k' & [->|Hin] & <- & Hk')].
      * left. destruct (decide (localID k = id)) as [<-|]; [congruence | eauto].
      * left. left. simplify_eq. done.
      * eauto 10.
  - intros id. rewrite Hdis. setoid_rewrite elem_of_cons. destruct (lk_Disabled k) eqn:D.
    + rewrite elem_of_union, elem_of_singleton. split.
      * intros [[->|?]|(k' & ? & ? & ?)]; eauto 10.
      * intros [?|(k' & [->|?] & <- & ?)]; eauto 10.
    + split.
      * intros [?|(k' & ? & ? & ?)]; eauto 10.
      * intros [?|(k' & [->|?] & <- & ?)]; [by auto | congruence | eauto 10].
Qed.

Lemma loadKeys_succeeds ks : forall keys disabled,
  Forall (fun k => localID k <> "" /\ is_Some (lk_Key k) /\ keys !! localID k = None) ks ->
  NoDup (map localID ks) -> exists r, loadKeys T ks keys disabled = Ok r.
Proof.
  induction ks as [|k ks IH]; intros keys disabled HF Hnd; cbn [loadKeys]; [by eauto|].
  apply Forall_cons in HF as [(Hne & [key Hk] & Hnew) HF].
  apply NoDup_cons in Hnd as [Hnin Hnd].
  change (TrimSpace (lk_KeyID k)) with (localID k). cbv zeta.
  rewrite bool_decide_eq_false_2 by done.
  rewrite bool_decide_eq_false_2 by (rewrite Hnew; by intros [? ?]). rewrite Hk.
  apply IH; [|done]. rewrite Forall_forall in *. intros k' Hin.
  destruct (HF k' Hin) as (? & ? & ?). split_and!; [done..|].
  rewrite lookup_insert_ne; [done|]. intros Heq. apply Hnin. rewrite Heq.
  apply list_elem_of_fmap. eauto.
Qed.

Lemma parserOptions_Ok opts po :
  parserOptions T opts = Ok po <->
  po = parserOptionsOf opts
  /\ match vo_KeyFunc opts with
     | Some _ => vo_LocalKeys opts = [] | None => vo_LocalKeys opts <> [] end
  /\ vo_ValidMethods opts <> []
  /\ Forall (fun method => tp_unsafeMethod T method = false) (vo_ValidMethods opts)
  /\ blank (vo_ExpectedIssuer opts) = false /\ blank (vo_ExpectedAudience opts) = false.
Proof.
  unfold parserOptions. rewrite <- (existsb_false_iff (tp_unsafeMethod T)).
  fold (parserOptionsOf opts).
  destruct (vo_KeyFunc opts), (vo_LocalKeys opts), (vo_ValidMethods opts); simpl;
    rewrite ?bool_decide_eq_false_2 by done; try (intuition congruence);
    simpl; repeat case_goal; intuition congruence.
Qed.

Lemma keyFunc_trusted opts kf id key :
  keyFuncForOptions T opts = Ok kf ->
  kf id = Ok (Some key) <-> trustedKey opts id key.
Proof.
  unfold keyFuncForOptions, trustedKey. destruct (vo_KeyFunc opts) as [kf0|].
  { intros [= <-]. case_bool_decide; intuition congruence. }
  destruct (loadKeys _ _ _) as [[keys disabled]|] eqn:L; simpl; [|done]. intros [= <-].
  apply loadKeys_Ok in L as (HF & Hnd & Hkeys & Hdis).
  assert (Hinj : forall k k', k ∈ vo_LocalKeys opts -> k' ∈ vo_LocalKeys opts ->
    localID k = localID k' -> k = k').
  { intros k k' [i Hi]%list_elem_of_lookup [j Hj]%list_elem_of_lookup Heq.
    assert (i = j); [|congruence]. eapply (NoDup_lookup _ _ _ (localID k) Hnd).
    - by rewrite list_lookup_fmap, Hi.
    - rewrite list_lookup_fmap, Hj. simpl. by rewrite Heq. }
  case_bool_decide as Hd; rewrite Hdis in Hd.
  - split; [done|]. intros (Hnot & k & Hin & Hid & _ & Hen).
    destruct Hd as [?|(k' & Hin' & Hid' & Hen')]; [done|].
    assert (k = k') as -> by (apply Hinj; congruence). congruence.
  - specialize (Hkeys (TrimSpace id)). destruct (keys !! TrimSpace id) as [key'|] eqn:K.
    + split.
      * intros [= ->]. split; [tauto|].
        destruct (proj1 (Hkeys key) eq_refl) as [Hm|(k & Hin & Hid & Hk)];
          [by rewrite lookup_empty in Hm|].
        exists k. split_and!; [done..|]. destruct (lk_Disabled k) eqn:D; [|done].
        exfalso. apply Hd. eauto 10.
      * intros (_ & k & Hin & Hid & Hk & _). f_equal.
        apply Hkeys. eauto 10.
    + split; [done|]. intros (_ & k & Hin & Hid & Hk & _).
      assert (None = Some key); [|done]. apply Hkeys. eauto 10.
Qed.

Lemma keyFunc_succeeds opts :
  (exists kf, keyFuncForOptions T opts = Ok kf) <->
  match vo_KeyFunc opts with Some _ => True | None => keysWellFormed (vo_LocalKeys opts) end.
Proof.
  unfold keyFuncForOptions, keysWellFormed.
  destruct (vo_KeyFunc opts) as [kf0|]; [by split; eauto|]. split.
  - intros [kf Hkf]. destruct (loadKeys _ _ _) as [[keys dis]|] eqn:L; [|done].
    apply loadKeys_Ok in L as (HF & Hnd & _). split; [|done].
    eapply Forall_impl; [exact HF|]. intros k (? & ? & _). done.
  - intros [HF Hnd].
    destruct (loadKeys_succeeds (vo_LocalKeys opts) ∅ (stringSet (vo_DisabledKeyIDs opts)))
      as [[keys dis] ->]; [|done|simpl; eauto].
    eapply Forall_impl; [exact HF|]. intros k [? ?]. by rewrite lookup_empty.
Qed.

Lemma options_iff opts :
  optionsOk opts <->
  parserOptions T opts = Ok (parserOptionsOf opts)
  /\ exists kf, keyFuncForOptions T opts = Ok kf.
Proof.
  rewrite parserOptions_Ok, keyFunc_succeeds. unfold optionsOk.
  destruct (vo_KeyFunc opts) as [kf0|]; split; intros; split_hyps; by split_and!.
Qed.

Lemma keyIDFromToken_Ok (tok : JToken C) id :
  keyIDFromToken T tok = Ok id <-> exists kid, jt_Kid tok = Some kid /\ blank kid = false
    /\ id = (if tp_trim T then TrimSpace kid else kid).
Proof.
  unfold keyIDFromToken. destruct (jt_Kid tok) as [kid|].
  - destruct (blank kid) eqn:B; split; [done | | intros [= <-]; eauto |];
      intros (kid' & [= <-] & ? & ->); congruence.
  - split; [done | by intros (? & ? & _)].
Qed.

Lemma parseSigned_Ok wall t opts kf c signer :
  keyFuncForOptions T opts = Ok kf ->
  parseSigned T wall t opts (parserOptionsOf opts) kf = Ok (c, signer) <->
  (exists alg kid key,
     decodes t alg (Some kid) c /\ blank kid = false
     /\ signer = (if tp_trim T then TrimSpace kid else kid)
     /\ trustedKey opts signer key
     /\ alg ∈ vo_ValidMethods opts /\ verifies t alg key
     /\ claimsCurrent (parserOptionsOf opts) wall c)
  /\ isListed (rc_ID (registered c)) (vo_RevokedJWTIDs opts) = false.
Proof.
  intros Kf. pose proof (fun id key => keyFunc_trusted opts kf id key Kf) as Hkf.
  unfold parseSigned. split.
  - destruct (ParseWithClaims _ _ _ _ _ _) as [[tok|e] s] eqn:P; [|done].
    apply parse_ok in P as (alg & kid & c' & key & -> & Hd & Hf & Ha & Hv & Hc). simpl.
    destruct (isListed _ _) eqn:L; [done|]. intros [= -> ->]. split; [|done].
    revert Hf. unfold keyCallback.
    destruct (keyIDFromToken T _) as [id|] eqn:I; [|done]. intros [= Hf ->].
    apply keyIDFromToken_Ok in I as (kid' & Hkid & Hb & ->). simpl in Hkid. subst kid.
    exists alg, kid', key. split_and!; auto. by apply Hkf.
  - intros ((alg & kid & key & Hd & Hb & -> & Hk & Ha & Hv & Hc) & Hl).
    assert (P : ParseWithClaims string t (keyCallback T kf) (parserOptionsOf opts) wall ""
              = (Ok (mkToken alg (Some kid) c true), if tp_trim T then TrimSpace kid else kid)).
    { apply parse_ok. exists alg, (Some kid), c, key. split_and!; auto.
      unfold keyCallback, keyIDFromToken. simpl. rewrite Hb. f_equal. by apply Hkf. }
    rewrite P. cbn [jt_Valid jt_Claims negb]. by rewrite Hl.
Qed.

Lemma parseToken_Ok dupFirst wall t opts c signer :
  parseToken T dupFirst wall t opts = Ok (c, signer) <-> tokenTrusted wall opts t c signer.
Proof.
  unfold parseToken, tokenTrusted. rewrite options_iff. cbv zeta.
  destruct (rejectToken (tp_Members T) t) as [e|].
  { split; [|by intros [? _]].
    destruct dupFirst, (parserOptions T opts), (keyFuncForOptions T opts); done. }
  replace (if dupFirst then None else None) with (@None error) by (by destruct dupFirst).
  destruct (parserOptions T opts) as [po|] eqn:Po; simpl; [|by intuition].
  pose proof (proj1 (parserOptions_Ok opts po) Po) as [-> _].
  destruct (keyFuncForOptions T opts) as [kf|] eqn:Kf; simpl.
  - rewrite parseSigned_Ok by done. intuition eauto.
  - split; [done | by intros (_ & [_ [? ?]] & _)].
Qed.

(** A token's claims are determined by the token. *)
Lemma tokenTrusted_decodes wall opts t c signer :
  tokenTrusted wall opts t c signer -> exists alg kid, decodes t alg kid c.
Proof. intros (_ & _ & (alg & kid & _ & Hd & _) & _). eauto. Qed.
End spec.
