(* ===== verification/BindingJWT.v ===== *)
(** * Direct-Agent binding tokens: [pkg/clients/identity_jwt.go]

    A manager grant and an agent session-binding statement, both JWTs, are verified
    and joined into one accepted identity.  The JWT library is the class of
    [JWTLib.v]; the replay cache is any [ReplayCache]; the wall clock and the
    cache's clock are arguments.

    [tokenTrusted] is what a verifier may conclude of one token and
    [sessionAccepts] of the pair; [VerifySessionIdentityJWT] is shown to accept
    exactly when [sessionAccepts] holds and the replay mark succeeds. *)

From stdpp Require Import base gmap sets list strings.
From Stdlib Require Import ZArith Lia.
From S2P Require Import Prelude GoStrings Errors IdentityPolicy ReplayCache SessionBinding.
From S2P Require Import SessionAccept Sha2 GoEncoding JsonMembers JWTLib TokenVerify.

Definition ErrMissingKeyFunc := ErrNew "clients.ErrMissingKeyFunc".
Definition ErrMissingLocalKey := ErrNew "clients.ErrMissingLocalKey".
Definition ErrMissingValidMethods := ErrNew "clients.ErrMissingValidMethods".
Definition ErrMissingExpectedIssuer := ErrNew "clients.ErrMissingExpectedIssuer".
Definition ErrMissingExpectedAudience := ErrNew "clients.ErrMissingExpectedAudience".
Definition ErrMissingConfirmationKey := ErrNew "clients.ErrMissingConfirmationKey".
Definition ErrMissingKeyID := ErrNew "clients.ErrMissingKeyID".
Definition ErrUnknownKeyID := ErrNew "clients.ErrUnknownKeyID".
Definition ErrDisabledKeyID := ErrNew "clients.ErrDisabledKeyID".
Definition ErrDuplicateKeyID := ErrNew "clients.ErrDuplicateKeyID".
Definition ErrAmbiguousKeySource := ErrNew "clients.ErrAmbiguousKeySource".
Definition ErrMissingJWTID := ErrNew "clients.ErrMissingJWTID".
Definition ErrRevokedJWTID := ErrNew "clients.ErrRevokedJWTID".
Definition ErrMissingSubject := ErrNew "clients.ErrMissingSubject".
Definition ErrMissingGrantHash := ErrNew "clients.ErrMissingGrantHash".
Definition ErrMissingBindingField := ErrNew "clients.ErrMissingBindingField".
Definition ErrMissingIdentityPolicy := ErrNew "clients.ErrMissingIdentityPolicy".
Definition ErrMissingReplayCache := ErrNew "clients.ErrMissingReplayCache".
Definition ErrInvalidTokenType := ErrNew "clients.ErrInvalidTokenType".
Definition ErrUnsupportedVersion := ErrNew "clients.ErrUnsupportedVersion".
Definition ErrUnsafeSigningMethod := ErrNew "clients.ErrUnsafeSigningMethod".
Definition ErrDuplicateJWTMember := ErrNew "clients.ErrDuplicateJWTMember".

Definition TokenTypeIdentityGrant : string := "sbaip.identity-grant".
Definition TokenTypeSessionBinding : string := "sbaip.session-binding".
Definition LegacyTokenTypeIdentityGrant : string := "agtp.identity-grant".
Definition LegacyTokenTypeSessionBinding : string := "agtp.session-binding".
Definition ProfileVersion : string := "1".
Definition identityGrantJWTHashSeed : string := "sbaip.identity-grant.jwt.v1" +:+ ofCodes [0].

(** ** Data *)

Record SessionIdentityJWTOptions (Key : Type) := mkSessionOptions {
  so_Grant : JWTVerifyOptions Key; so_SessionBinding : JWTVerifyOptions Key;
  so_Policy : Policy; so_ExpectedBinding : Binding; so_Now : Time }.
Arguments mkSessionOptions {Key}. Arguments so_Grant {Key}. Arguments so_SessionBinding {Key}.
Arguments so_Policy {Key}. Arguments so_ExpectedBinding {Key}. Arguments so_Now {Key}.

(** The claims struct; the nested [cnf] has the one field [kid]. *)
Record bindingJWTClaims := mkClaims {
  c_Registered : RegisteredClaims;
  c_ProfileType : string; c_ProfileVersion : string;
  c_LegacyType : string; c_LegacyVersion : string;
  c_ConfirmationKeyID : string; c_EndpointKeyIDs : list string;
  c_GrantHash : string; c_LeafKeySHA256 : string; c_TLSExporter : string;
  c_RequestContext : string; c_AttestationBind : string; c_Nonce : string;
  c_Service : string; c_Tenant : string; c_Deployment : string; c_Environment : string;
  c_Workload : string; c_Agent : string; c_AgentPublicKey : string;
  c_ComputationID : string; c_TaskID : string; c_ThreadID : string;
  c_DelegationID : string; c_IntentRef : string; c_CapabilityRef : string;
  c_OntologyID : string; c_Scope : string; c_Scopes : list string;
  c_Resource : string; c_Resources : list string; c_AuthorizationDetails : list string }.

#[export] Instance binding_claims : Claims bindingJWTClaims := c_Registered.

(** ** Helpers *)

Definition set : list string -> gset string := stringSet.
Definition listed : string -> list string -> bool := isListed.
Definition withSpaceSeparatedValues : list string -> string -> list string := appendScopeValues.
Definition claimTime : option Time -> Time := claimTimeOf.

Definition profileValueMatches (value expected : string) : bool :=
  let value := TrimSpace value in
  bool_decide (value = "") || bool_decide (value = expected).

Definition legacyProfileValueMatches (value expected : string) : bool :=
  let value := TrimSpace value in
  if bool_decide (value = "") then true
  else if bool_decide (value = expected) then true
  else if bool_decide (expected = TokenTypeIdentityGrant)
  then bool_decide (value = LegacyTokenTypeIdentityGrant)
  else if bool_decide (expected = TokenTypeSessionBinding)
  then bool_decide (value = LegacyTokenTypeSessionBinding)
  else false.

Definition profileVersionMatches (value : string) : bool :=
  let value := TrimSpace value in
  bool_decide (value = "") || bool_decide (value = ProfileVersion).

Definition requireProfile (c : bindingJWTClaims) (expected : string) : option error :=
  if negb (profileValueMatches (c_ProfileType c) expected) then Some ErrInvalidTokenType
  else if negb (legacyProfileValueMatches (c_LegacyType c) expected)
  then Some ErrInvalidTokenType
  else if negb (profileVersionMatches (c_ProfileVersion c))
          || negb (profileVersionMatches (c_LegacyVersion c))
  then Some ErrUnsupportedVersion
  else if blank (c_ProfileType c) && blank (c_LegacyType c) then Some ErrInvalidTokenType
  else if blank (c_ProfileVersion c) && blank (c_LegacyVersion c)
  then Some ErrUnsupportedVersion
  else None.

Definition requireSessionBindingFields (c : bindingJWTClaims) : option error :=
  if blank (c_GrantHash c) then Some ErrMissingGrantHash
  else if existsb blank [c_LeafKeySHA256 c; c_TLSExporter c; c_RequestContext c; c_Nonce c]
  then Some ErrMissingBindingField
  else None.

Definition IdentityGrantHash (tokenString : string) : string :=
  "sha256:" +:+ hexEncode (Sum256 (bytesOf (identityGrantJWTHashSeed +:+ tokenString))).

Definition memberErrors : MemberErrors :=
  mkMemberErrors ErrDuplicateJWTMember (ErrNew "clients: non-string json object key")
    (ErrNew "clients: trailing json data") false.

Definition rejectDuplicateJSONObjectMembers := dupValue memberErrors.
Definition rejectDuplicateJSONMembers : list Z -> option error := rejectMembers memberErrors.
Definition rejectDuplicateJWTMembers : string -> option error := rejectToken memberErrors.

(** ** Verification *)

(** The signing methods the options may not name. *)
Definition unsafeMethod (method : string) : bool :=
  let method := TrimSpace method in
  bool_decide (method = "") || EqualFold method noneAlg.

(** This package trims key ids everywhere. *)
Definition bindingProfile : TokenProfile :=
  mkTokenProfile memberErrors unsafeMethod true
    ErrMissingKeyFunc ErrAmbiguousKeySource ErrMissingValidMethods ErrUnsafeSigningMethod
    ErrMissingExpectedIssuer ErrMissingExpectedAudience ErrMissingKeyID ErrDuplicateKeyID
    ErrMissingLocalKey ErrDisabledKeyID ErrUnknownKeyID ErrRevokedJWTID
    (ErrNew "binding jwt: invalid token") "binding jwt: verify".

Section verify.
Context {Key : Type} `{JWTLib Key bindingJWTClaims}.

Definition jwtParserOptions : JWTVerifyOptions Key -> result error ParserOptions :=
  parserOptions bindingProfile.

Definition verificationKeyFunc : JWTVerifyOptions Key -> result error (KeyFunc Key) :=
  keyFuncForOptions bindingProfile.

Definition ValidateJWTVerifyOptions : JWTVerifyOptions Key -> option error :=
  validateVerifyOptions bindingProfile.

Definition tokenKeyID : JToken bindingJWTClaims -> result error string :=
  keyIDFromToken bindingProfile.

(** The duplicate check comes first. *)
Definition parseBindingJWT (wall : Time) (tokenString : string) (opts : JWTVerifyOptions Key)
    : result error (bindingJWTClaims * string) :=
  parseToken bindingProfile true wall tokenString opts.

(** The [identitypolicy.Values] of a grant. *)
Definition grantValues (c : bindingJWTClaims) : Values :=
  mkValues (c_Service c) (c_Tenant c) (c_Deployment c) (c_Environment c) (c_Workload c)
    (if bool_decide (c_Agent c = "") then rc_Subject (c_Registered c) else c_Agent c)
    (c_AgentPublicKey c) (c_ComputationID c) (c_TaskID c) (c_ThreadID c)
    (c_DelegationID c) (c_IntentRef c) (c_CapabilityRef c) (c_OntologyID c)
    (withSpaceSeparatedValues (c_Scopes c) (c_Scope c))
    (withSpaceSeparatedValues (c_Resources c) (c_Resource c))
    (c_AuthorizationDetails c).

Definition VerifyIdentityGrantJWT (wall : Time) (tokenString : string)
    (opts : JWTVerifyOptions Key) : result error VerifiedGrant :=
  let* r := parseBindingJWT wall tokenString opts in
  let '(claims, signerKey) := r in
  match requireProfile claims TokenTypeIdentityGrant with
  | Some err => Err err
  | None =>
      if blank (rc_ID (c_Registered claims)) then Err ErrMissingJWTID
      else if blank (rc_Subject (c_Registered claims)) then Err ErrMissingSubject
      else if blank (c_ConfirmationKeyID claims) then Err ErrMissingConfirmationKey
      else Ok (mkGrant (rc_Issuer (c_Registered claims)) signerKey (vo_ExpectedAudience opts)
                 (IdentityGrantHash tokenString) (grantValues claims)
                 (c_ConfirmationKeyID claims) (c_EndpointKeyIDs claims)
                 (claimTime (rc_IssuedAt (c_Registered claims)))
                 (claimTime (rc_ExpiresAt (c_Registered claims))))
  end.

Definition VerifySessionBindingJWT (wall : Time) (tokenString : string)
    (opts : JWTVerifyOptions Key) : result error VerifiedSessionBindingStatement :=
  let* r := parseBindingJWT wall tokenString opts in
  let '(claims, signerKey) := r in
  match requireProfile claims TokenTypeSessionBinding with
  | Some err => Err err
  | None =>
      if blank (rc_ID (c_Registered claims)) then Err ErrMissingJWTID
      else match requireSessionBindingFields claims with
           | Some err => Err err
           | None =>
               Ok (mkStatement (c_GrantHash claims) (vo_ExpectedAudience opts) signerKey
                     (mkBinding (c_LeafKeySHA256 claims) (c_TLSExporter claims)
                        (c_RequestContext claims) (c_AttestationBind claims) (c_Nonce claims)
                        (claimTime (rc_IssuedAt (c_Registered claims)))
                        (claimTime (rc_ExpiresAt (c_Registered claims)))))
           end
  end.

Section session.
Context {C : Type} `{ReplayCache C}.

(** [wall] is [time.Now()] and [clock] the replay cache's reading of its own clock;
    the cache is [None] for a nil interface. *)
Definition VerifySessionIdentityJWT (wall clock : Time) (grantToken bindingToken : string)
    (opts : SessionIdentityJWTOptions Key) (cache : option C)
    : result error SessionIdentityJWTResult * option C :=
  if negb (Policy_Enabled (so_Policy opts)) then (Err ErrMissingIdentityPolicy, cache)
  else match cache with
  | None => (Err ErrMissingReplayCache, cache)
  | Some _ =>
      let now := if IsZero (so_Now opts) then wall else so_Now opts in
      match VerifyIdentityGrantJWT wall grantToken (withNow (so_Grant opts) now) with
      | Err err => (Err err, cache)
      | Ok grant =>
          match VerifySessionBindingJWT wall bindingToken
                  (withNow (so_SessionBinding opts) now) with
          | Err err => (Err err, cache)
          | Ok statement =>
              acceptSession (so_Policy opts) (so_ExpectedBinding opts) now clock
                grant statement cache
          end
      end
  end.
End session.
End verify.

(** ** Specification *)

Section spec.
Context {Key : Type} `{!JWTLib Key bindingJWTClaims, !JWTLibLaws Key bindingJWTClaims}.

Definition legacyOf (expected : string) : string :=
  if bool_decide (expected = TokenTypeIdentityGrant) then LegacyTokenTypeIdentityGrant
  else if bool_decide (expected = TokenTypeSessionBinding) then LegacyTokenTypeSessionBinding
  else expected.

(** The token states its type and version, under the new or the legacy names, and
    never another one. *)
Definition profileIs (c : bindingJWTClaims) (expected : string) : Prop :=
  (TrimSpace (c_ProfileType c) = "" \/ TrimSpace (c_ProfileType c) = expected)
  /\ (TrimSpace (c_LegacyType c) = "" \/ TrimSpace (c_LegacyType c) = expected
      \/ TrimSpace (c_LegacyType c) = legacyOf expected)
  /\ (TrimSpace (c_ProfileVersion c) = "" \/ TrimSpace (c_ProfileVersion c) = ProfileVersion)
  /\ (TrimSpace (c_LegacyVersion c) = "" \/ TrimSpace (c_LegacyVersion c) = ProfileVersion)
  /\ (TrimSpace (c_ProfileType c) <> "" \/ TrimSpace (c_LegacyType c) <> "")
  /\ (TrimSpace (c_ProfileVersion c) <> "" \/ TrimSpace (c_LegacyVersion c) <> "").

Definition grantOf (opts : JWTVerifyOptions Key) (t : string) (c : bindingJWTClaims)
    (signer : string) : VerifiedGrant :=
  mkGrant (rc_Issuer (c_Registered c)) signer (vo_ExpectedAudience opts)
    (IdentityGrantHash t) (grantValues c) (c_ConfirmationKeyID c) (c_EndpointKeyIDs c)
    (claimTime (rc_IssuedAt (c_Registered c))) (claimTime (rc_ExpiresAt (c_Registered c))).

Definition statementOf (opts : JWTVerifyOptions Key) (c : bindingJWTClaims)
    (signer : string) : VerifiedSessionBindingStatement :=
  mkStatement (c_GrantHash c) (vo_ExpectedAudience opts) signer
    (mkBinding (c_LeafKeySHA256 c) (c_TLSExporter c) (c_RequestContext c)
       (c_AttestationBind c) (c_Nonce c)
       (claimTime (rc_IssuedAt (c_Registered c))) (claimTime (rc_ExpiresAt (c_Registered c)))).

Definition grantTrusted (wall : Time) (opts : JWTVerifyOptions Key) (t : string)
    (g : VerifiedGrant) : Prop :=
  exists c signer, tokenTrusted bindingProfile wall opts t c signer
    /\ profileIs c TokenTypeIdentityGrant
    /\ blank (rc_ID (c_Registered c)) = false /\ blank (rc_Subject (c_Registered c)) = false
    /\ blank (c_ConfirmationKeyID c) = false
    /\ g = grantOf opts t c signer.

Definition statementTrusted (wall : Time) (opts : JWTVerifyOptions Key) (t : string)
    (st : VerifiedSessionBindingStatement) : Prop :=
  exists c signer, tokenTrusted bindingProfile wall opts t c signer
    /\ profileIs c TokenTypeSessionBinding
    /\ blank (rc_ID (c_Registered c)) = false
    /\ Forall (fun v => blank v = false)
         [c_GrantHash c; c_LeafKeySHA256 c; c_TLSExporter c; c_RequestContext c; c_Nonce c]
    /\ st = statementOf opts c signer.

(** The time a session is verified at. *)
Definition sessionNow (wall : Time) (opts : SessionIdentityJWTOptions Key) : Time :=
  if IsZero (so_Now opts) then wall else so_Now opts.

(** Everything but the replay mark. *)
Definition sessionAccepts (wall : Time) (grantToken bindingToken : string)
    (opts : SessionIdentityJWTOptions Key) (res : SessionIdentityJWTResult) : Prop :=
  let now := sessionNow wall opts in
  Policy_Enabled (so_Policy opts) = true
  /\ grantTrusted wall (withNow (so_Grant opts) now) grantToken (sr_Grant res)
  /\ statementTrusted wall (withNow (so_SessionBinding opts) now) bindingToken
       (sr_Statement res)
  /\ resultAccepts (so_Policy opts) (so_ExpectedBinding opts) now res.

(** ** Refinement *)

Lemma parseBindingJWT_Ok wall t opts c signer :
  parseBindingJWT wall t opts = Ok (c, signer) <->
  tokenTrusted bindingProfile wall opts t c signer.
Proof. apply parseToken_Ok. Qed.

Lemma profileValueMatches_true value expected :
  profileValueMatches value expected = true <->
  TrimSpace value = "" \/ TrimSpace value = expected.
Proof.
  unfold profileValueMatches. cbv zeta. by rewrite orb_true_iff, !bool_decide_eq_true.
Qed.

Lemma legacyProfileValueMatches_true value expected :
  legacyProfileValueMatches value expected = true <->
  TrimSpace value = "" \/ TrimSpace value = expected \/ TrimSpace value = legacyOf expected.
Proof.
  unfold legacyProfileValueMatches, legacyOf. cbv zeta.
  case_bool_decide; [by intuition|]. case_bool_decide; [by intuition|].
  case_bool_decide; [|case_bool_decide]; rewrite ?bool_decide_eq_true; intuition congruence.
Qed.

Lemma requireProfile_None c expected :
  requireProfile c expected = None <-> profileIs c expected.
Proof.
  unfold requireProfile, profileIs.
  rewrite <- !profileValueMatches_true, <- legacyProfileValueMatches_true, <- !blank_pair_false.
  change (profileVersionMatches ?v) with (profileValueMatches v ProfileVersion).
  do 2 (case_goal; bool_to_prop; [intuition congruence|]).
  destruct (profileValueMatches (c_ProfileVersion c) _),
    (profileValueMatches (c_LegacyVersion c) _); simpl; try (intuition congruence).
  do 2 (case_goal; [intuition congruence|]). intuition.
Qed.

Lemma VerifyIdentityGrantJWT_Ok wall t opts g :
  VerifyIdentityGrantJWT wall t opts = Ok g <-> grantTrusted wall opts t g.
Proof.
  unfold VerifyIdentityGrantJWT, grantTrusted. split.
  - destruct (parseBindingJWT wall t opts) as [[c signer]|] eqn:P; simpl; [|done].
    apply parseBindingJWT_Ok in P.
    destruct (requireProfile c _) eqn:R; [done|]. apply requireProfile_None in R.
    repeat (case_goal; [done|]). intros [= <-]. exists c, signer. split_and!; auto.
  - intros (c & signer & Ht%parseBindingJWT_Ok & R & B1 & B2 & B3 & ->). rewrite Ht. simpl.
    apply requireProfile_None in R. by rewrite R, B1, B2, B3.
Qed.

Lemma requireSessionBindingFields_None c :
  requireSessionBindingFields c = None <->
  Forall (fun v => blank v = false)
    [c_GrantHash c; c_LeafKeySHA256 c; c_TLSExporter c; c_RequestContext c; c_Nonce c].
Proof.
  unfold requireSessionBindingFields. rewrite Forall_cons, <- existsb_false_iff.
  repeat case_goal; intuition congruence.
Qed.

Lemma VerifySessionBindingJWT_Ok wall t opts st :
  VerifySessionBindingJWT wall t opts = Ok st <-> statementTrusted wall opts t st.
Proof.
  unfold VerifySessionBindingJWT, statementTrusted. split.
  - destruct (parseBindingJWT wall t opts) as [[c signer]|] eqn:P; simpl; [|done].
    apply parseBindingJWT_Ok in P.
    destruct (requireProfile c _) eqn:R; [done|]. apply requireProfile_None in R.
    case_goal; [done|].
    destruct (requireSessionBindingFields c) eqn:F; [done|].
    apply requireSessionBindingFields_None in F.
    intros [= <-]. exists c, signer. split_and!; auto.
  - intros (c & signer & Ht%parseBindingJWT_Ok & R & B1 & F & ->). rewrite Ht. simpl.
    apply requireProfile_None in R.
    apply requireSessionBindingFields_None in F. by rewrite R, B1, F.
Qed.
End spec.

Section session_lemmas.
Context {Key : Type} `{!JWTLib Key bindingJWTClaims, !JWTLibLaws Key bindingJWTClaims}.
Context {C : Type} `{ReplayCache C}.

Lemma VerifySession_Ok wall clock gt bt opts (cache : option C) res cache' :
  VerifySessionIdentityJWT wall clock gt bt opts cache = (Ok res, cache') <->
  sessionAccepts wall gt bt opts res /\ is_Some cache
  /\ MarkSessionBindingUsed clock cache (sr_Statement res) = (None, cache').
Proof.
  unfold VerifySessionIdentityJWT, sessionAccepts. cbv zeta. fold (sessionNow wall opts).
  set (now := sessionNow wall opts). split.
  - case_goal; [done|]. bool_to_prop. destruct cache as [c|]; [|done].
    destruct (VerifyIdentityGrantJWT _ _ _) as [g|] eqn:G; [|done].
    destruct (VerifySessionBindingJWT _ _ _) as [st|] eqn:S; [|done].
    apply VerifyIdentityGrantJWT_Ok in G. apply VerifySessionBindingJWT_Ok in S.
    intros (<- & <- & Hr & M)%acceptSession_Ok. split_and!; eauto.
  - intros ((He & G & S & Hr) & [c ->] & M). rewrite He. cbn [negb].
    apply VerifyIdentityGrantJWT_Ok in G. apply VerifySessionBindingJWT_Ok in S.
    rewrite G, S. by apply acceptSession_Ok.
Qed.

Lemma VerifySession_Err wall clock gt bt opts (cache : option C) err cache' :
  VerifySessionIdentityJWT wall clock gt bt opts cache = (Err err, cache') ->
  cache' = cache \/ exists res, sessionAccepts wall gt bt opts res
    /\ MarkSessionBindingUsed clock cache (sr_Statement res) = (Some err, cache').
Proof.
  unfold VerifySessionIdentityJWT, sessionAccepts. cbv zeta. fold (sessionNow wall opts).
  set (now := sessionNow wall opts).
  case_goal; [intros; simplify_eq; by left|]. bool_to_prop.
  destruct cache as [c|]; [|intros; simplify_eq; by left].
  destruct (VerifyIdentityGrantJWT _ _ _) as [g|] eqn:G; [|intros; simplify_eq; by left].
  destruct (VerifySessionBindingJWT _ _ _) as [st|] eqn:S; [|intros; simplify_eq; by left].
  apply VerifyIdentityGrantJWT_Ok in G. apply VerifySessionBindingJWT_Ok in S.
  intros [->|[Hr M]]%acceptSession_Err; [by left | right].
  eexists (mkSessionResult g st _). by split_and!.
Qed.
End session_lemmas.

(** ** A concrete session *)

Module Sample.
Definition registeredOf (sub : string) : RegisteredClaims :=
  mkRegistered "manager" sub ["verifier"] (Some 100) None (Some 5) "id-1".

Definition grantClaims : bindingJWTClaims :=
  mkClaims (registeredOf "agent-1") TokenTypeIdentityGrant "1" "" "" "agent-key" []
    "" "" "" "" "" "" "svc" "" "" "" "w" "" "" "" "task" "" "" "" "" "" "read write" [] "" [] [].

Definition bindingClaims : bindingJWTClaims :=
  mkClaims (registeredOf "") "" "" LegacyTokenTypeSessionBinding "1" "" []
    (IdentityGrantHash "grant") "leaf" "exp" "ctx" "" "nonce"
    "" "" "" "" "" "" "" "" "" "" "" "" "" "" "" [] "" [] [].

Definition rows : list (TableLib.Row (C := bindingJWTClaims)) :=
  [TableLib.mkRow "grant" "ES256" (Some "manager-key") grantClaims "MK";
   TableLib.mkRow "binding" "ES256" (Some " agent-key ") bindingClaims "AK"].

#[global] Instance lib : JWTLib string bindingJWTClaims := TableLib.lib rows.
#[global] Instance lib_laws : JWTLibLaws string bindingJWTClaims := TableLib.laws rows.

Definition grantOptions : JWTVerifyOptions string :=
  mkVerifyOptions "manager" "verifier" ["ES256"] None
    [mkLocalKey "manager-key" (Some "MK") false] [] [] 0.
Definition bindingOptions : JWTVerifyOptions string :=
  mkVerifyOptions "manager" "verifier" ["ES256"] None
    [mkLocalKey "agent-key" (Some "AK") false] [] ["revoked"] 0.

Definition policy : Policy :=
  mkPolicy ModeRequired SetModeDefault (mkRequirements true false false true)
    (mkValues "svc" "" "" "" "" "" "" "" "" "" "" "" "" "" ["write"; "read"] [] []).

Definition options : SessionIdentityJWTOptions string :=
  mkSessionOptions grantOptions bindingOptions policy
    (mkBinding "leaf" "exp" "ctx" "" "" 0 0) 10.

Definition result : SessionIdentityJWTResult :=
  let g := grantOf grantOptions "grant" grantClaims "manager-key" in
  let st := statementOf bindingOptions bindingClaims "agent-key" in
  mkSessionResult g st (mkAssertion (g_Issuer g) (g_Values g) (s_Binding st)).

Definition cache0 : option (option Memory.MemoryReplayCache) :=
  Some (Some Memory.NewMemoryReplayCache).
Definition run (clock : Time) cache :=
  VerifySessionIdentityJWT 10 clock "grant" "binding" options cache.

Lemma run_ok : run 10 cache0 = (Ok result, snd (run 10 cache0)).
Proof. vm_compute. reflexivity. Qed.
End Sample.

(** ** Theorems *)

(** C3: [VerifySessionIdentityJWT] decides its specification.  A grant token and a
    binding token are accepted, with exactly the result the specification names,
    precisely when the policy is enabled, both tokens are signed under trusted keys
    with allowed methods and current claims of their own type, the statement is
    authorised by the grant, the policy and the expected session binding agree, a
    replay cache is present and it has not seen the statement. *)
Theorem VerifySessionIdentityJWT_decides {Key}
    `{!JWTLib Key bindingJWTClaims, !JWTLibLaws Key bindingJWTClaims}
    {C} `{ReplayCache C} wall clock gt bt opts (cache : option C) res cache' :
  VerifySessionIdentityJWT wall clock gt bt opts cache = (Ok res, cache') <->
  sessionAccepts wall gt bt opts res /\ is_Some cache
  /\ MarkSessionBindingUsed clock cache (sr_Statement res) = (None, cache').
Proof. apply VerifySession_Ok. Qed.

Lemma VerifySessionIdentityJWT_decides_witness :
  sessionAccepts 10 "grant" "binding" Sample.options Sample.result.
Proof.
  apply (VerifySessionIdentityJWT_decides 10 10 "grant" "binding" Sample.options Sample.cache0
           Sample.result (snd (Sample.run 10 Sample.cache0))).
  exact Sample.run_ok.
Defined.

(** What acceptance means for the two keys.  The grant is signed under one
    trusted key and the statement under another: the statement's key is one the
    grant names and never the key that signed the grant, and the statement carries
    the hash of exactly the accepted grant token. *)
Theorem session_key_separation {Key}
    `{!JWTLib Key bindingJWTClaims, !JWTLibLaws Key bindingJWTClaims}
    {C} `{ReplayCache C} wall clock gt bt opts (cache : option C) res cache' :
  VerifySessionIdentityJWT wall clock gt bt opts cache = (Ok res, cache') ->
  exists cg sg cb sb,
    tokenTrusted bindingProfile wall (withNow (so_Grant opts) (sessionNow wall opts)) gt cg sg
    /\ tokenTrusted bindingProfile wall
         (withNow (so_SessionBinding opts) (sessionNow wall opts)) bt cb sb
    /\ sb <> sg
    /\ sb ∈ c_ConfirmationKeyID cg :: c_AgentPublicKey cg :: c_EndpointKeyIDs cg
    /\ c_GrantHash cb = IdentityGrantHash gt
    /\ vo_ExpectedAudience (so_Grant opts) = vo_ExpectedAudience (so_SessionBinding opts).
Proof.
  intros ((_ & (cg & sg & Tg & _ & _ & _ & _ & Eg) & (cb & sb & Tb & _ & _ & _ & Eb)
    & (_ & [Hh Ha] & (_ & Hin & Hne) & _) & _) & _)%VerifySession_Ok.
  rewrite Eg, Eb in *. exists cg, sg, cb, sb. by split_and!.
Qed.

Lemma session_key_separation_witness :
  exists cg sg cb sb,
    tokenTrusted bindingProfile 10 (withNow Sample.grantOptions 10) "grant" cg sg
    /\ tokenTrusted bindingProfile 10 (withNow Sample.bindingOptions 10) "binding" cb sb
    /\ sb <> sg
    /\ sb ∈ c_ConfirmationKeyID cg :: c_AgentPublicKey cg :: c_EndpointKeyIDs cg
    /\ c_GrantHash cb = IdentityGrantHash "grant"
    /\ ("verifier" : string) = "verifier".
Proof.
  apply (session_key_separation 10 10 "grant" "binding" Sample.options Sample.cache0
           Sample.result (snd (Sample.run 10 Sample.cache0))).
  exact Sample.run_ok.
Defined.



(** A rejected session consumes nothing.  If verification fails, the replay
    cache is unchanged, unless both tokens, the binding and the policy were all
    accepted and it was the replay mark itself that failed. *)
Theorem rejected_session_keeps_cache {Key}
    `{!JWTLib Key bindingJWTClaims, !JWTLibLaws Key bindingJWTClaims}
    {C} `{ReplayCache C} wall clock gt bt opts (cache : option C) err cache' :
  VerifySessionIdentityJWT wall clock gt bt opts cache = (Err err, cache') ->
  cache' = cache \/ exists res, sessionAccepts wall gt bt opts res
    /\ MarkSessionBindingUsed clock cache (sr_Statement res) = (Some err, cache').
Proof. apply VerifySession_Err. Qed.

Lemma rejected_session_keeps_cache_witness :
  Sample.cache0 = Sample.cache0 \/ exists res,
    sessionAccepts 10 "binding" "binding" Sample.options res
    /\ MarkSessionBindingUsed 10 Sample.cache0 (sr_Statement res)
       = (Some (ErrWrap "binding jwt: verify" ErrUnknownKeyID), Sample.cache0).
Proof.
  apply (rejected_session_keeps_cache 10 10 "binding" "binding" Sample.options Sample.cache0
    (ErrWrap "binding jwt: verify" ErrUnknownKeyID)).
  vm_compute. reflexivity.
Defined.

(** No token serves two purposes.  A token that verifies as an identity grant,
    under whatever options, never verifies as a session binding. *)
Theorem no_token_type_confusion {Key}
    `{!JWTLib Key bindingJWTClaims, !JWTLibLaws Key bindingJWTClaims}
    wall wall' opts opts' t g st :
  VerifyIdentityGrantJWT wall t opts = Ok g -> VerifySessionBindingJWT wall' t opts' <> Ok st.
Proof.
  rewrite VerifyIdentityGrantJWT_Ok, VerifySessionBindingJWT_Ok.
  intros (c & s & (_ & _ & (? & ? & ? & D & _) & _) & P & _)
    (c' & s' & (_ & _ & (? & ? & ? & D' & _) & _) & P' & _).
  destruct (decodes_fun _ _ _ _ _ _ _ D D') as (_ & _ & <-).
  destruct P as (Hp & Hl & _ & _ & Hone & _), P' as (Hp' & Hl' & _).
  revert Hp Hp' Hl Hl' Hone. unfold legacyOf. simpl.
  generalize (TrimSpace (c_ProfileType c)) (TrimSpace (c_LegacyType c)).
  by intros a b [?|?] [?|?] [?|[?|?]] [?|[?|?]] [?|?]; simplify_eq.
Qed.

Lemma no_token_type_confusion_witness :
  VerifySessionBindingJWT 10 "grant" (withNow Sample.grantOptions 10)
  <> Ok (sr_Statement Sample.result).
Proof.
  apply (no_token_type_confusion 10 10 (withNow Sample.grantOptions 10)
    (withNow Sample.grantOptions 10) "grant" (sr_Grant Sample.result)).
  vm_compute. reflexivity.
Defined.

(** The grant hash pins the grant token.  Two accepted sessions whose statements
    carry the same grant hash verified the same grant token, unless SHA-256 collides
    on the two domain-separated inputs. *)
Theorem grant_hash_pins_token {Key}
    `{!JWTLib Key bindingJWTClaims, !JWTLibLaws Key bindingJWTClaims}
    {C} `{ReplayCache C} wall wall' clock clock' gt bt gt' bt' opts opts'
    (cache1 cache1' cache2 cache2' : option C) res res' :
  VerifySessionIdentityJWT wall clock gt bt opts cache1 = (Ok res, cache1') ->
  VerifySessionIdentityJWT wall' clock' gt' bt' opts' cache2 = (Ok res', cache2') ->
  s_GrantHash (sr_Statement res) = s_GrantHash (sr_Statement res') ->
  gt = gt' \/
  (let pre t := bytesOf (identityGrantJWTHashSeed +:+ t) in
   pre gt <> pre gt' /\ Sum256 (pre gt) = Sum256 (pre gt')).
Proof.
  intros ((_ & (? & ? & _ & _ & _ & _ & _ & Eg) & _ & (_ & [Hh _] & _) & _) & _)%VerifySession_Ok
    ((_ & (? & ? & _ & _ & _ & _ & _ & Eg') & _ & (_ & [Hh' _] & _) & _) & _)%VerifySession_Ok Heq.
  rewrite Hh, Hh', Eg, Eg' in Heq. cbn [g_GrantHash grantOf] in Heq.
  unfold IdentityGrantHash in Heq. apply append_inj_l, hexEncode_inj in Heq.
  destruct (decide (gt = gt')) as [->|Hne]; [by left | right]. cbv zeta.
  split; [|done]. intros Hb. apply Hne.
  apply (f_equal stringOf) in Hb. rewrite !stringOf_bytesOf in Hb. by apply append_inj_l in Hb.
Qed.

Lemma grant_hash_pins_token_witness :
  ("grant" : string) = "grant" \/
  (let pre t := bytesOf (identityGrantJWTHashSeed +:+ t) in
   pre "grant" <> pre "grant" /\ Sum256 (pre "grant") = Sum256 (pre "grant")).
Proof.
  exact (grant_hash_pins_token 10 10 10 10 "grant" "binding" "grant" "binding" Sample.options
    Sample.options _ _ _ _ Sample.result Sample.result Sample.run_ok Sample.run_ok eq_refl).
Defined.

(** The duplicate-member check decides its specification.  A header or claims
    part passes exactly when it spells one JSON value, followed by the end of the
    input, in which no object at any depth names a member twice. *)
Theorem duplicate_members_decided (raw : list Z) :
  rejectDuplicateJSONMembers raw = None <->
  exists v d, reads memberErrors (NewDecoder raw) v d /\ Token d = Err JEOF /\ unique v.
Proof. apply rejectMembers_spec. Qed.

(** An unsigned token is never accepted.  Whatever methods the options list, the
    method of an accepted token is listed, is not blank and is not "none" in any
    spelling. *)
Theorem accepted_method_is_safe {Key}
    `{!JWTLib Key bindingJWTClaims, !JWTLibLaws Key bindingJWTClaims} wall t opts c signer :
  parseBindingJWT wall t opts = Ok (c, signer) ->
  exists alg kid, decodes t alg kid c /\ alg ∈ vo_ValidMethods opts
    /\ TrimSpace alg <> "" /\ EqualFold (TrimSpace alg) noneAlg = false.
Proof.
  intros (_ & (_ & _ & HF & _) & (alg & kid & key & Hd & _ & _ & _ & Ha & _) & _)%parseBindingJWT_Ok.
  exists alg, (Some kid). rewrite Forall_forall in HF. specialize (HF alg Ha).
  cbn in HF. unfold unsafeMethod in HF. cbv zeta in HF. bool_to_prop. by split_and!.
Qed.

Lemma accepted_method_is_safe_witness :
  exists alg kid, decodes "grant" alg kid Sample.grantClaims
    /\ alg ∈ vo_ValidMethods (withNow Sample.grantOptions 10)
    /\ TrimSpace alg <> "" /\ EqualFold (TrimSpace alg) noneAlg = false.
Proof.
  apply (accepted_method_is_safe 10 "grant" (withNow Sample.grantOptions 10)
    Sample.grantClaims "manager-key").
  vm_compute. reflexivity.
Defined.

(** The duplicate check compares names exactly, while the decoder that fills the
    claims struct matches names without regard to case: an object that carries
    [nonce] and [Nonce] passes the check. *)
Theorem case_variant_members_pass :
  let quoted s := [34] ++ codes s ++ [34] in
  let object := codes "{" ++ quoted "nonce" ++ codes ":" ++ quoted "a" ++ codes ","
                ++ quoted "Nonce" ++ codes ":" ++ quoted "b" ++ codes "}" in
  EqualFold "Nonce" "nonce" = true /\ rejectDuplicateJSONMembers object = None.
Proof. split; vm_compute; reflexivity. Qed.
