(* ===== verification/AgtpJWT.v ===== *)
(** * AGTP-named JWT profile: [pkg/agtp/jwt.go]

    The reference adapters for grant, session binding and single-envelope tokens.
    The token machinery is [TokenVerify.v] with this package's profile, which does
    not trim key ids; the end of a verification is [SessionAccept.v]. *)

From stdpp Require Import base gmap sets list strings.
From Stdlib Require Import ZArith Lia.
From S2P Require Import Prelude GoStrings Errors IdentityPolicy ReplayCache SessionBinding.
From S2P Require Import SessionAccept Sha2 GoEncoding JsonMembers JWTLib TokenVerify.

Definition ErrMissingKeyFunc := ErrNew "agtp.ErrMissingKeyFunc".
Definition ErrMissingLocalKey := ErrNew "agtp.ErrMissingLocalKey".
Definition ErrMissingValidMethods := ErrNew "agtp.ErrMissingValidMethods".
Definition ErrMissingExpectedIssuer := ErrNew "agtp.ErrMissingExpectedIssuer".
Definition ErrMissingExpectedAudience := ErrNew "agtp.ErrMissingExpectedAudience".
Definition ErrMissingConfirmationKey := ErrNew "agtp.ErrMissingConfirmationKey".
Definition ErrMissingKeyID := ErrNew "agtp.ErrMissingKeyID".
Definition ErrUnknownKeyID := ErrNew "agtp.ErrUnknownKeyID".
Definition ErrDisabledKeyID := ErrNew "agtp.ErrDisabledKeyID".
Definition ErrDuplicateKeyID := ErrNew "agtp.ErrDuplicateKeyID".
Definition ErrAmbiguousKeySource := ErrNew "agtp.ErrAmbiguousKeySource".
Definition ErrMissingJWTID := ErrNew "agtp.ErrMissingJWTID".
Definition ErrRevokedJWTID := ErrNew "agtp.ErrRevokedJWTID".
Definition ErrMissingSubject := ErrNew "agtp.ErrMissingSubject".
Definition ErrMissingIdentityGrant := ErrNew "agtp.ErrMissingIdentityGrant".
Definition ErrMissingGrantHash := ErrNew "agtp.ErrMissingGrantHash".
Definition ErrMissingBindingField := ErrNew "agtp.ErrMissingBindingField".
Definition ErrMissingIdentityPolicy := ErrNew "agtp.ErrMissingIdentityPolicy".
Definition ErrMissingReplayCache := ErrNew "agtp.ErrMissingReplayCache".
Definition ErrInvalidTokenType := ErrNew "agtp.ErrInvalidTokenType".
Definition ErrUnsupportedVersion := ErrNew "agtp.ErrUnsupportedVersion".
Definition ErrUnsafeSigningMethod := ErrNew "agtp.ErrUnsafeSigningMethod".
Definition ErrDuplicateJWTMember := ErrNew "agtp.ErrDuplicateJWTMember".

Definition TokenTypeIdentityGrant : string := "sbaip.identity-grant".
Definition TokenTypeSessionBinding : string := "sbaip.session-binding".
Definition TokenTypeSessionEnvelope : string := "sbaip.session-envelope".
Definition LegacyTokenTypeIdentityGrant : string := "agtp.identity-grant".
Definition LegacyTokenTypeSessionBinding : string := "agtp.session-binding".
Definition LegacyTokenTypeSessionEnvelope : string := "agtp.session-envelope".
Definition ProfileVersion : string := "1".
Definition identityGrantJWTHashSeed : string := "sbaip.identity-grant.jwt.v1" +:+ ofCodes [0].

(** ** Data *)

Record profileClaims := mkProfile {
  pc_TokenType : string; pc_ProfileVersion : string;
  pc_LegacyTokenType : string; pc_LegacyProfileVersion : string }.

(** [gc_ConfirmationKey] is the [kid] of the confirmation claim. *)
Record identityGrantClaims := mkGrantClaims {
  gc_Registered : RegisteredClaims; gc_Profile : profileClaims;
  gc_ConfirmationKey : string; gc_AuthorizedEndpointKeys : list string;
  gc_Service : string; gc_Tenant : string; gc_Deployment : string; gc_Environment : string;
  gc_Workload : string; gc_Agent : string; gc_AgentPublicKey : string;
  gc_ComputationID : string; gc_TaskID : string; gc_ThreadID : string;
  gc_DelegationID : string; gc_IntentRef : string; gc_CapabilityRef : string;
  gc_OntologyID : string; gc_Scope : string; gc_Scopes : list string;
  gc_Resource : string; gc_Resources : list string; gc_AuthorizationDetails : list string }.

Record sessionBindingClaims := mkBindingClaims {
  bc_Registered : RegisteredClaims; bc_Profile : profileClaims;
  bc_GrantHash : string; bc_LeafPublicKeySHA256 : string; bc_TLSExporterSHA256 : string;
  bc_RequestContextSHA256 : string; bc_AttestationBinderSHA256 : string; bc_Nonce : string }.

Record sessionEnvelopeClaims := mkEnvelopeClaims {
  ec_Registered : RegisteredClaims; ec_Profile : profileClaims;
  ec_IdentityGrantJWT : string;
  ec_GrantHash : string; ec_LeafPublicKeySHA256 : string; ec_TLSExporterSHA256 : string;
  ec_RequestContextSHA256 : string; ec_AttestationBinderSHA256 : string; ec_Nonce : string }.

#[export] Instance grant_claims : Claims identityGrantClaims := gc_Registered.
#[export] Instance session_claims : Claims sessionBindingClaims := bc_Registered.
#[export] Instance envelope_claims : Claims sessionEnvelopeClaims := ec_Registered.

(** [jwtIDFromClaims]: the switch covers every claims type the package parses, and
    each arm gives the id of the embedded registered claims. *)
Definition jwtIDFromClaims {C} `{Claims C} (c : C) : string := rc_ID (registered c).

Record SessionIdentityJWTOptions (Key : Type) := mkSessionOptions {
  so_Grant : JWTVerifyOptions Key; so_SessionBinding : JWTVerifyOptions Key;
  so_Policy : Policy; so_ExpectedBinding : Binding; so_Now : Time }.
Arguments mkSessionOptions {Key}. Arguments so_Grant {Key}. Arguments so_SessionBinding {Key}.
Arguments so_Policy {Key}. Arguments so_ExpectedBinding {Key}. Arguments so_Now {Key}.

(** ** Profile checks *)

Definition legacyTokenType (tokenType : string) : string :=
  if bool_decide (tokenType = TokenTypeIdentityGrant) then LegacyTokenTypeIdentityGrant
  else if bool_decide (tokenType = TokenTypeSessionBinding) then LegacyTokenTypeSessionBinding
  else if bool_decide (tokenType = TokenTypeSessionEnvelope) then LegacyTokenTypeSessionEnvelope
  else "".

Definition profileTypeMatches (value expectedType : string) (allowLegacyValue : bool) : bool :=
  if bool_decide (value = "") then true
  else if bool_decide (value = expectedType) then true
  else allowLegacyValue && bool_decide (value = legacyTokenType expectedType).

Definition profileVersionMatches (value : string) : bool :=
  bool_decide (value = "") || bool_decide (value = ProfileVersion).

Definition validateProfileClaims (c : profileClaims) (expectedType : string) : option error :=
  if negb (profileTypeMatches (TrimSpace (pc_TokenType c)) expectedType false)
  then Some ErrInvalidTokenType
  else if negb (profileVersionMatches (TrimSpace (pc_ProfileVersion c)))
  then Some ErrUnsupportedVersion
  else if negb (profileTypeMatches (TrimSpace (pc_LegacyTokenType c)) expectedType true)
  then Some ErrInvalidTokenType
  else if negb (profileVersionMatches (TrimSpace (pc_LegacyProfileVersion c)))
  then Some ErrUnsupportedVersion
  else if blank (pc_TokenType c) && blank (pc_LegacyTokenType c) then Some ErrInvalidTokenType
  else if blank (pc_ProfileVersion c) && blank (pc_LegacyProfileVersion c)
  then Some ErrUnsupportedVersion
  else None.

Definition validateSessionBindingClaims (c : sessionBindingClaims) : option error :=
  if blank (bc_GrantHash c) then Some ErrMissingGrantHash
  else if existsb blank [bc_LeafPublicKeySHA256 c; bc_TLSExporterSHA256 c;
                         bc_RequestContextSHA256 c; bc_Nonce c]
  then Some ErrMissingBindingField
  else None.

Definition IdentityGrantHash (tokenString : string) : string :=
  "sha256:" +:+ hexEncode (Sum256 (bytesOf (identityGrantJWTHashSeed +:+ tokenString))).

Definition memberErrors : MemberErrors :=
  mkMemberErrors ErrDuplicateJWTMember (ErrNew "agtp: invalid JWT JSON object key")
    (ErrNew "agtp: trailing JWT JSON data") true.

Definition rejectDuplicateJSONValue := dupValue memberErrors.
Definition rejectDuplicateJSONMembers : list Z -> option error := rejectMembers memberErrors.
Definition rejectDuplicateJWTJSONMembers : string -> option error := rejectToken memberErrors.

(** ** Verification *)

(** Unlike the runtime client, the method is not trimmed before the comparison. *)
Definition unsafeMethod (method : string) : bool := blank method || EqualFold method noneAlg.

Definition agtpProfile : TokenProfile :=
  mkTokenProfile memberErrors unsafeMethod false
    ErrMissingKeyFunc ErrAmbiguousKeySource ErrMissingValidMethods ErrUnsafeSigningMethod
    ErrMissingExpectedIssuer ErrMissingExpectedAudience ErrMissingKeyID ErrDuplicateKeyID
    ErrMissingLocalKey ErrDisabledKeyID ErrUnknownKeyID ErrRevokedJWTID
    (ErrNew "agtp: invalid JWT") "agtp: verify JWT".

Definition parserOptions {Key} : JWTVerifyOptions Key -> result error ParserOptions :=
  TokenVerify.parserOptions agtpProfile.
Definition keyFuncForOptions {Key} : JWTVerifyOptions Key -> result error (KeyFunc Key) :=
  TokenVerify.keyFuncForOptions agtpProfile.
Definition ValidateJWTVerifyOptions {Key} : JWTVerifyOptions Key -> option error :=
  validateVerifyOptions agtpProfile.
Definition keyIDFromToken {C} : JToken C -> result error string :=
  TokenVerify.keyIDFromToken agtpProfile.

(** The duplicate check comes after the options. *)
Definition parseJWT {Key C} `{Claims C} `{JWTLib Key C} (wall : Time) (tokenString : string)
    (opts : JWTVerifyOptions Key) : result error (C * string) :=
  parseToken agtpProfile false wall tokenString opts.

(** [claims.ExpiresAt.Time]: the parser requires an expiry, so the pointer is not
    nil ([trusted_has_expiry]). *)
Definition expiryTime (rc : RegisteredClaims) : Time := claimTimeOf (rc_ExpiresAt rc).

Section verify.
Context {Key : Type} `{!JWTLib Key identityGrantClaims} `{!JWTLib Key sessionBindingClaims}
  `{!JWTLib Key sessionEnvelopeClaims}.

Definition grantValues (c : identityGrantClaims) : Values :=
  mkValues (gc_Service c) (gc_Tenant c) (gc_Deployment c) (gc_Environment c) (gc_Workload c)
    (if bool_decide (gc_Agent c = "") then rc_Subject (gc_Registered c) else gc_Agent c)
    (gc_AgentPublicKey c) (gc_ComputationID c) (gc_TaskID c) (gc_ThreadID c)
    (gc_DelegationID c) (gc_IntentRef c) (gc_CapabilityRef c) (gc_OntologyID c)
    (appendScopeValues (gc_Scopes c) (gc_Scope c))
    (appendScopeValues (gc_Resources c) (gc_Resource c))
    (gc_AuthorizationDetails c).

Definition VerifyIdentityGrantJWT (wall : Time) (tokenString : string)
    (opts : JWTVerifyOptions Key) : result error VerifiedGrant :=
  let* r := parseJWT (C := identityGrantClaims) wall tokenString opts in
  let '(claims, signerKey) := r in
  match validateProfileClaims (gc_Profile claims) TokenTypeIdentityGrant with
  | Some err => Err err
  | None =>
      if blank (rc_ID (gc_Registered claims)) then Err ErrMissingJWTID
      else if blank (rc_Subject (gc_Registered claims)) then Err ErrMissingSubject
      else if blank (gc_ConfirmationKey claims) then Err ErrMissingConfirmationKey
      else Ok (mkGrant (rc_Issuer (gc_Registered claims)) signerKey (vo_ExpectedAudience opts)
                 (IdentityGrantHash tokenString) (grantValues claims)
                 (gc_ConfirmationKey claims) (gc_AuthorizedEndpointKeys claims)
                 (claimTimeOf (rc_IssuedAt (gc_Registered claims)))
                 (expiryTime (gc_Registered claims)))
  end.

Definition VerifySessionBindingJWT (wall : Time) (tokenString : string)
    (opts : JWTVerifyOptions Key) : result error VerifiedSessionBindingStatement :=
  let* r := parseJWT (C := sessionBindingClaims) wall tokenString opts in
  let '(claims, signerKey) := r in
  match validateProfileClaims (bc_Profile claims) TokenTypeSessionBinding with
  | Some err => Err err
  | None =>
      if blank (rc_ID (bc_Registered claims)) then Err ErrMissingJWTID
      else match validateSessionBindingClaims claims with
           | Some err => Err err
           | None =>
               Ok (mkStatement (bc_GrantHash claims) (vo_ExpectedAudience opts) signerKey
                     (mkBinding (bc_LeafPublicKeySHA256 claims) (bc_TLSExporterSHA256 claims)
                        (bc_RequestContextSHA256 claims) (bc_AttestationBinderSHA256 claims)
                        (bc_Nonce claims)
                        (claimTimeOf (rc_IssuedAt (bc_Registered claims)))
                        (expiryTime (bc_Registered claims))))
           end
  end.

(** The method [sessionBindingClaims] of the envelope; only the binding fields are
    copied. *)
Definition sessionBindingClaimsOf (c : sessionEnvelopeClaims) : sessionBindingClaims :=
  mkBindingClaims (mkRegistered "" "" [] None None None "") (mkProfile "" "" "" "")
    (ec_GrantHash c) (ec_LeafPublicKeySHA256 c) (ec_TLSExporterSHA256 c)
    (ec_RequestContextSHA256 c) (ec_AttestationBinderSHA256 c) (ec_Nonce c).

Definition verifiedStatement (c : sessionEnvelopeClaims) (signerKey audience : string)
    : VerifiedSessionBindingStatement :=
  mkStatement (ec_GrantHash c) audience signerKey
    (mkBinding (ec_LeafPublicKeySHA256 c) (ec_TLSExporterSHA256 c)
       (ec_RequestContextSHA256 c) (ec_AttestationBinderSHA256 c) (ec_Nonce c)
       (claimTimeOf (rc_IssuedAt (ec_Registered c))) (expiryTime (ec_Registered c))).

(** The checks of the outer envelope, up to the grant it carries. *)
Definition verifyEnvelope (wall : Time) (envelopeToken : string)
    (bindingOpts : JWTVerifyOptions Key) : result error (sessionEnvelopeClaims * string) :=
  let* r := parseJWT (C := sessionEnvelopeClaims) wall envelopeToken bindingOpts in
  let '(claims, signerKey) := r in
  match validateProfileClaims (ec_Profile claims) TokenTypeSessionEnvelope with
  | Some err => Err err
  | None =>
      if blank (rc_ID (ec_Registered claims)) then Err ErrMissingJWTID
      else if blank (ec_IdentityGrantJWT claims) then Err ErrMissingIdentityGrant
      else match validateSessionBindingClaims (sessionBindingClaimsOf claims) with
           | Some err => Err err
           | None => Ok (claims, signerKey)
           end
  end.

Section session.
Context {C : Type} `{ReplayCache C}.

Definition VerifySessionIdentityJWTEnvelope (wall clock : Time) (envelopeToken : string)
    (opts : SessionIdentityJWTOptions Key) (cache : option C)
    : result error SessionIdentityJWTResult * option C :=
  if negb (Policy_Enabled (so_Policy opts)) then (Err ErrMissingIdentityPolicy, cache)
  else match cache with
  | None => (Err ErrMissingReplayCache, cache)
  | Some _ =>
      let now := if IsZero (so_Now opts) then wall else so_Now opts in
      let bindingOpts := withNow (so_SessionBinding opts) now in
      match verifyEnvelope wall envelopeToken bindingOpts with
      | Err err => (Err err, cache)
      | Ok (claims, signerKey) =>
          match VerifyIdentityGrantJWT wall (ec_IdentityGrantJWT claims)
                  (withNow (so_Grant opts) now) with
          | Err err => (Err err, cache)
          | Ok grant =>
              acceptSession (so_Policy opts) (so_ExpectedBinding opts) now clock grant
                (verifiedStatement claims signerKey (vo_ExpectedAudience bindingOpts)) cache
          end
      end
  end.

Definition VerifySessionIdentityJWT (wall clock : Time) (grantToken bindingToken : string)
    (opts : SessionIdentityJWTOptions Key) (cache : option C)
    : result error SessionIdentityJWTResult * option C :=
  if negb (Policy_Enabled (so_Policy opts)) then (Err ErrMissingIdentityPolicy, cache)
  else match cache with
  | None => (Err ErrMissingReplayCache, cache)
  | Some _ =>
      let now := if IsZero (so_Now opts) then wall else so_Now opts in
      match VerifyIdentityGrantJWT wall grantToken (withNow (so_Grant opts) now) with
      | Err err => (Err err, cache)
      | Ok grant =>
          match VerifySessionBindingJWT wall bindingToken
                  (withNow (so_SessionBinding opts) now) with
          | Err err => (Err err, cache)
          | Ok statement =>
              acceptSession (so_Policy opts) (so_ExpectedBinding opts) now clock
                grant statement cache
          end
      end
  end.
End session.
End verify.

(** ** Specification *)

Definition profileIs (c : profileClaims) (expected : string) : Prop :=
  let oneOf (v : string) ws := v = "" \/ v ∈ ws in
  oneOf (TrimSpace (pc_TokenType c)) [expected]
  /\ oneOf (TrimSpace (pc_LegacyTokenType c)) [expected; legacyTokenType expected]
  /\ oneOf (TrimSpace (pc_ProfileVersion c)) [ProfileVersion]
  /\ oneOf (TrimSpace (pc_LegacyProfileVersion c)) [ProfileVersion]
  /\ (TrimSpace (pc_TokenType c) <> "" \/ TrimSpace (pc_LegacyTokenType c) <> "")
  /\ (TrimSpace (pc_ProfileVersion c) <> "" \/ TrimSpace (pc_LegacyProfileVersion c) <> "").

(** The session time. *)
Definition sessionNow {Key} (wall : Time) (opts : SessionIdentityJWTOptions Key) : Time :=
  if IsZero (so_Now opts) then wall else so_Now opts.

Section spec.
Context {Key : Type}.
Context `{!JWTLib Key identityGrantClaims, !JWTLibLaws Key identityGrantClaims}.
Context `{!JWTLib Key sessionBindingClaims, !JWTLibLaws Key sessionBindingClaims}.
Context `{!JWTLib Key sessionEnvelopeClaims, !JWTLibLaws Key sessionEnvelopeClaims}.

Definition grantTrusted (wall : Time) (opts : JWTVerifyOptions Key) (t : string)
    (g : VerifiedGrant) : Prop :=
  exists (c : identityGrantClaims) signer, tokenTrusted agtpProfile wall opts t c signer
    /\ profileIs (gc_Profile c) TokenTypeIdentityGrant
    /\ blank (rc_ID (gc_Registered c)) = false /\ blank (rc_Subject (gc_Registered c)) = false
    /\ blank (gc_ConfirmationKey c) = false
    /\ g = mkGrant (rc_Issuer (gc_Registered c)) signer (vo_ExpectedAudience opts)
             (IdentityGrantHash t) (grantValues c) (gc_ConfirmationKey c)
             (gc_AuthorizedEndpointKeys c) (claimTimeOf (rc_IssuedAt (gc_Registered c)))
             (expiryTime (gc_Registered c)).

Definition bindingFieldsPresent (c : sessionBindingClaims) : Prop :=
  Forall (fun v => blank v = false)
    [bc_GrantHash c; bc_LeafPublicKeySHA256 c; bc_TLSExporterSHA256 c;
     bc_RequestContextSHA256 c; bc_Nonce c].

Definition statementTrusted (wall : Time) (opts : JWTVerifyOptions Key) (t : string)
    (st : VerifiedSessionBindingStatement) : Prop :=
  exists (c : sessionBindingClaims) signer, tokenTrusted agtpProfile wall opts t c signer
    /\ profileIs (bc_Profile c) TokenTypeSessionBinding
    /\ blank (rc_ID (bc_Registered c)) = false
    /\ bindingFieldsPresent c
    /\ st = mkStatement (bc_GrantHash c) (vo_ExpectedAudience opts) signer
              (mkBinding (bc_LeafPublicKeySHA256 c) (bc_TLSExporterSHA256 c)
                 (bc_RequestContextSHA256 c) (bc_AttestationBinderSHA256 c) (bc_Nonce c)
                 (claimTimeOf (rc_IssuedAt (bc_Registered c))) (expiryTime (bc_Registered c))).

Definition envelopeTrusted (wall : Time) (opts : JWTVerifyOptions Key) (t : string)
    (c : sessionEnvelopeClaims) (signer : string) : Prop :=
  tokenTrusted agtpProfile wall opts t c signer
  /\ profileIs (ec_Profile c) TokenTypeSessionEnvelope
  /\ blank (rc_ID (ec_Registered c)) = false
  /\ blank (ec_IdentityGrantJWT c) = false
  /\ bindingFieldsPresent (sessionBindingClaimsOf c).

(** Two tokens accepted, but for the replay mark. *)
Definition sessionAccepts (wall : Time) (grantToken bindingToken : string)
    (opts : SessionIdentityJWTOptions Key) (res : SessionIdentityJWTResult) : Prop :=
  let now := sessionNow wall opts in
  Policy_Enabled (so_Policy opts) = true
  /\ grantTrusted wall (withNow (so_Grant opts) now) grantToken (sr_Grant res)
  /\ statementTrusted wall (withNow (so_SessionBinding opts) now) bindingToken
       (sr_Statement res)
  /\ resultAccepts (so_Policy opts) (so_ExpectedBinding opts) now res.

(** One envelope accepted: the statement is the envelope's and the grant is the one
    it carries. *)
Definition envelopeAccepts (wall : Time) (envelopeToken : string)
    (opts : SessionIdentityJWTOptions Key) (res : SessionIdentityJWTResult) : Prop :=
  let now := sessionNow wall opts in
  Policy_Enabled (so_Policy opts) = true
  /\ (exists c signer,
        envelopeTrusted wall (withNow (so_SessionBinding opts) now) envelopeToken c signer
        /\ grantTrusted wall (withNow (so_Grant opts) now) (ec_IdentityGrantJWT c) (sr_Grant res)
        /\ sr_Statement res
           = verifiedStatement c signer (vo_ExpectedAudience (so_SessionBinding opts)))
  /\ resultAccepts (so_Policy opts) (so_ExpectedBinding opts) now res.

(** ** Refinement *)

Lemma profileTypeMatches_true value expected legacy :
  profileTypeMatches value expected legacy = true <->
  value = "" \/ value ∈ (if legacy then [expected; legacyTokenType expected] else [expected]).
Proof.
  unfold profileTypeMatches. do 2 (case_bool_decide; [destruct legacy; set_unfold; tauto|]).
  destruct legacy; simpl; rewrite ?bool_decide_eq_true; set_unfold; intuition congruence.
Qed.

Lemma profileVersionMatches_true value :
  profileVersionMatches value = true <-> value = "" \/ value ∈ [ProfileVersion].
Proof.
  unfold profileVersionMatches. rewrite orb_true_iff, !bool_decide_eq_true, list_elem_of_singleton.
  tauto.
Qed.

Lemma validateProfileClaims_None c expected :
  validateProfileClaims c expected = None <-> profileIs c expected.
Proof.
  unfold validateProfileClaims, profileIs. cbv zeta.
  rewrite <- !profileVersionMatches_true, <- !blank_pair_false.
  rewrite <- (profileTypeMatches_true _ expected false),
    <- (profileTypeMatches_true _ expected true).
  do 4 (case_goal; bool_to_prop; [intuition congruence|]).
  do 2 (case_goal; [intuition congruence|]). intuition.
Qed.

Lemma validateSessionBindingClaims_None c :
  validateSessionBindingClaims c = None <-> bindingFieldsPresent c.
Proof.
  unfold validateSessionBindingClaims, bindingFieldsPresent.
  rewrite Forall_cons, <- existsb_false_iff. repeat case_goal; intuition congruence.
Qed.

Lemma parseJWT_Ok {D} `{Claims D} `{!JWTLib Key D} `{!JWTLibLaws Key D} wall t opts (c : D) signer :
  parseJWT wall t opts = Ok (c, signer) <-> tokenTrusted agtpProfile wall opts t c signer.
Proof. apply parseToken_Ok. Qed.

Lemma agtpIdentityGrant_Ok wall t opts g :
  VerifyIdentityGrantJWT wall t opts = Ok g <-> grantTrusted wall opts t g.
Proof.
  unfold VerifyIdentityGrantJWT, grantTrusted. split.
  - destruct (parseJWT wall t opts) as [[c signer]|] eqn:P; simpl; [|done].
    apply parseJWT_Ok in P.
    destruct (validateProfileClaims _ _) eqn:R; [done|]. apply validateProfileClaims_None in R.
    repeat (case_goal; [done|]). intros [= <-]. exists c, signer. by split_and!.
  - intros (c & signer & Ht & R%validateProfileClaims_None & B1 & B2 & B3 & ->).
    apply parseJWT_Ok in Ht. rewrite Ht. simpl.
    by rewrite R, B1, B2, B3.
Qed.

Lemma agtpSessionBinding_Ok wall t opts st :
  VerifySessionBindingJWT wall t opts = Ok st <-> statementTrusted wall opts t st.
Proof.
  unfold VerifySessionBindingJWT, statementTrusted. split.
  - destruct (parseJWT wall t opts) as [[c signer]|] eqn:P; simpl; [|done].
    apply parseJWT_Ok in P.
    destruct (validateProfileClaims _ _) eqn:R; [done|]. apply validateProfileClaims_None in R.
    case_goal; [done|].
    destruct (validateSessionBindingClaims c) eqn:F; [done|].
    apply validateSessionBindingClaims_None in F.
    intros [= <-]. exists c, signer. by split_and!.
  - intros (c & signer & Ht & R%validateProfileClaims_None & B1
      & F%validateSessionBindingClaims_None & ->).
    apply parseJWT_Ok in Ht. rewrite Ht. simpl.
    by rewrite R, B1, F.
Qed.

Lemma verifyEnvelope_Ok wall t opts c signer :
  verifyEnvelope wall t opts = Ok (c, signer) <-> envelopeTrusted wall opts t c signer.
Proof.
  unfold verifyEnvelope, envelopeTrusted. split.
  - destruct (parseJWT wall t opts) as [[c' signer']|] eqn:P; simpl; [|done].
    apply parseJWT_Ok in P.
    destruct (validateProfileClaims _ _) eqn:R; [done|]. apply validateProfileClaims_None in R.
    do 2 (case_goal; [done|]).
    destruct (validateSessionBindingClaims _) eqn:F; [done|].
    apply validateSessionBindingClaims_None in F. intros [= -> ->]. by split_and!.
  - intros (Ht & R%validateProfileClaims_None & B1 & B2 & F%validateSessionBindingClaims_None).
    apply parseJWT_Ok in Ht. rewrite Ht. simpl.
    by rewrite R, B1, B2, F.
Qed.

Section session.
Context {C : Type} `{ReplayCache C}.

Lemma agtpSession_Ok wall clock gt bt opts (cache : option C) res cache' :
  VerifySessionIdentityJWT wall clock gt bt opts cache = (Ok res, cache') <->
  sessionAccepts wall gt bt opts res /\ is_Some cache
  /\ MarkSessionBindingUsed clock cache (sr_Statement res) = (None, cache').
Proof.
  unfold VerifySessionIdentityJWT, sessionAccepts. cbv zeta. fold (sessionNow wall opts).
  set (now := sessionNow wall opts). split.
  - case_goal; [done|]. bool_to_prop. destruct cache as [c|]; [|done].
    destruct (VerifyIdentityGrantJWT _ _ _) as [g|] eqn:G; [|done].
    destruct (VerifySessionBindingJWT _ _ _) as [st|] eqn:S; [|done].
    apply agtpIdentityGrant_Ok in G. apply agtpSessionBinding_Ok in S.
    intros (<- & <- & Hr & M)%acceptSession_Ok. split_and!; eauto.
  - intros ((He & G & S & Hr) & [c ->] & M). rewrite He. cbn [negb].
    apply agtpIdentityGrant_Ok in G. apply agtpSessionBinding_Ok in S.
    rewrite G, S. by apply acceptSession_Ok.
Qed.

Lemma VerifyEnvelope_Ok wall clock t opts (cache : option C) res cache' :
  VerifySessionIdentityJWTEnvelope wall clock t opts cache = (Ok res, cache') <->
  envelopeAccepts wall t opts res /\ is_Some cache
  /\ MarkSessionBindingUsed clock cache (sr_Statement res) = (None, cache').
Proof.
  unfold VerifySessionIdentityJWTEnvelope, envelopeAccepts. cbv zeta.
  fold (sessionNow wall opts). set (now := sessionNow wall opts). split.
  - case_goal; [done|]. bool_to_prop. destruct cache as [c|]; [|done].
    destruct (verifyEnvelope _ _ _) as [[ec signer]|] eqn:S; [|done].
    destruct (VerifyIdentityGrantJWT _ _ _) as [g|] eqn:G; [|done].
    apply verifyEnvelope_Ok in S. apply agtpIdentityGrant_Ok in G.
    intros (<- & Hst & Hr & M)%acceptSession_Ok. rewrite Hst. split_and!; eauto 10.
  - intros ((He & (ec & signer & S & G & Hst) & Hr) & [c ->] & M). rewrite He. cbn [negb].
    apply verifyEnvelope_Ok in S. apply agtpIdentityGrant_Ok in G.
    rewrite S, G. apply acceptSession_Ok. rewrite Hst in M. by split_and!.
Qed.
End session.

(** The parser option makes the expiry of an accepted token present. *)
Lemma trusted_has_expiry {D} `{Claims D} `{!JWTLib Key D} `{!JWTLibLaws Key D}
    wall opts t (c : D) signer :
  tokenTrusted agtpProfile wall opts t c signer -> is_Some (rc_ExpiresAt (registered c)).
Proof.
  intros (_ & _ & (alg & kid & key & _ & _ & _ & _ & _ & _ & (_ & _ & (e & He & _) & _)) & _).
  eauto.
Qed.
End spec.

(** ** Concrete sessions *)

Module Sample.
Definition registeredOf (sub : string) : RegisteredClaims :=
  mkRegistered "manager" sub ["verifier"] (Some 100) None (Some 5) "id-1".

Definition grantClaims (cnf : string) : identityGrantClaims :=
  mkGrantClaims (registeredOf "agent-1") (mkProfile TokenTypeIdentityGrant "1" "" "") cnf []
    "svc" "" "" "" "w" "" "" "" "task" "" "" "" "" "" "read write" [] "" [] [].

Definition bindingClaims (grant : string) : sessionBindingClaims :=
  mkBindingClaims (registeredOf "") (mkProfile "" "" LegacyTokenTypeSessionBinding "1")
    (IdentityGrantHash grant) "leaf" "exp" "ctx" "" "nonce".

Definition envelopeClaims : sessionEnvelopeClaims :=
  mkEnvelopeClaims (registeredOf "") (mkProfile TokenTypeSessionEnvelope "1" "" "") "grant"
    (IdentityGrantHash "grant") "leaf" "exp" "ctx" "" "nonce".

#[global] Instance grant_lib : JWTLib string identityGrantClaims := TableLib.lib
  [TableLib.mkRow "grant" "ES256" (Some "manager-key") (grantClaims "agent-key") "MK";
   TableLib.mkRow "grant2" "ES256" (Some "manager-key") (grantClaims "manager-key ") "MK"].
#[global] Instance grant_laws : JWTLibLaws string identityGrantClaims := TableLib.laws _.

#[global] Instance binding_lib : JWTLib string sessionBindingClaims := TableLib.lib
  [TableLib.mkRow "binding2" "ES256" (Some "manager-key ") (bindingClaims "grant2") "MK"].
#[global] Instance binding_laws : JWTLibLaws string sessionBindingClaims := TableLib.laws _.

#[global] Instance envelope_lib : JWTLib string sessionEnvelopeClaims := TableLib.lib
  [TableLib.mkRow "env" "ES256" (Some "agent-key") envelopeClaims "AK"].
#[global] Instance envelope_laws : JWTLibLaws string sessionEnvelopeClaims := TableLib.laws _.

Definition keyOptions (kid key : string) : JWTVerifyOptions string :=
  mkVerifyOptions "manager" "verifier" ["ES256"] None [mkLocalKey kid (Some key) false] [] [] 0.

Definition policy : Policy :=
  mkPolicy ModeRequired SetModeDefault (mkRequirements true false false true)
    (mkValues "svc" "" "" "" "" "" "" "" "" "" "" "" "" "" ["write"; "read"] [] []).

Definition options (kid key : string) : SessionIdentityJWTOptions string :=
  mkSessionOptions (keyOptions "manager-key" "MK") (keyOptions kid key) policy
    (mkBinding "leaf" "exp" "ctx" "" "" 0 0) 10.

Definition cache0 : option (option Memory.MemoryReplayCache) :=
  Some (Some Memory.NewMemoryReplayCache).

Definition runEnvelope :=
  VerifySessionIdentityJWTEnvelope 10 10 "env" (options "agent-key" "AK") cache0.
Definition runReuse :=
  VerifySessionIdentityJWT 10 10 "grant2" "binding2" (options "manager-key" "MK") cache0.

Lemma runEnvelope_ok : is_Ok (fst runEnvelope) = true.
Proof. vm_compute. reflexivity. Qed.

(** The key id a token was signed under resolves to this key. *)
Definition keyOf (o : JWTVerifyOptions string) (id : string) : option string :=
  match keyFuncForOptions o with
  | Ok kf => match kf id with Ok k => k | Err _ => None end
  | Err _ => None
  end.

(** Both tokens of an accepted session resolve to one key. *)
Definition reusesKey (res : SessionIdentityJWTResult) : bool :=
  let o := keyOptions "manager-key" "MK" in
  let issuer := g_IssuerKey (sr_Grant res) in
  let signer := s_SignerKey (sr_Statement res) in
  bool_decide (issuer <> signer) && bool_decide (TrimSpace issuer = TrimSpace signer)
  && bool_decide (keyOf o issuer = Some "MK") && bool_decide (keyOf o signer = Some "MK").

Lemma runReuse_ok :
  match fst runReuse with Ok res => reusesKey res | Err _ => false end = true.
Proof. vm_compute. reflexivity. Qed.
End Sample.

(** ** Theorems *)

(** The single-envelope profile decides its specification.  An envelope is
    accepted exactly when the outer token is a trusted envelope, the grant it carries
    is itself a trusted grant token, the statement the envelope makes is authorised
    by that grant (the hash of the carried token included), the policy and the
    expected binding agree, and the replay cache has not seen it. *)
Theorem VerifyEnvelope_decides {Key : Type}
    `{!JWTLib Key identityGrantClaims, !JWTLibLaws Key identityGrantClaims}
    `{!JWTLib Key sessionEnvelopeClaims, !JWTLibLaws Key sessionEnvelopeClaims}
    {C} `{ReplayCache C} wall clock t opts (cache : option C) res cache' :
  VerifySessionIdentityJWTEnvelope wall clock t opts cache = (Ok res, cache') <->
  envelopeAccepts wall t opts res /\ is_Some cache
  /\ MarkSessionBindingUsed clock cache (sr_Statement res) = (None, cache').
Proof. apply VerifyEnvelope_Ok. Qed.

Lemma VerifyEnvelope_decides_witness :
  exists res, envelopeAccepts 10 "env" (Sample.options "agent-key" "AK") res.
Proof.
  destruct (is_Ok_fst Sample.runEnvelope Sample.runEnvelope_ok) as (res & c & E).
  exists res. apply (VerifyEnvelope_decides 10 10 "env" (Sample.options "agent-key" "AK")
    Sample.cache0 res c). exact E.
Defined.

(** The AGTP adapters separate issuer and binding keys by the spelling of the
    key id only.  A session is accepted in which one key signs both tokens: the
    grant's header names it [manager-key], the statement's header and the grant's
    confirmation claim name it with a trailing space, and the key table, which trims
    its names, resolves both to the same key. *)
Theorem issuer_key_reused_by_whitespace :
  exists res, fst Sample.runReuse = Ok res
    /\ g_IssuerKey (sr_Grant res) <> s_SignerKey (sr_Statement res)
    /\ TrimSpace (g_IssuerKey (sr_Grant res)) = TrimSpace (s_SignerKey (sr_Statement res))
    /\ Sample.keyOf (Sample.keyOptions "manager-key" "MK") (g_IssuerKey (sr_Grant res)) = Some "MK"
    /\ Sample.keyOf (Sample.keyOptions "manager-key" "MK") (s_SignerKey (sr_Statement res))
       = Some "MK".
Proof.
  pose proof Sample.runReuse_ok as H. destruct (fst Sample.runReuse) as [res|]; [|done].
  unfold Sample.reusesKey in H. cbv zeta in H. bool_to_prop. exists res. by split_and!.
Qed.
