(* ===== verification/GatewayRoute.v ===== *)
(** * Gateway route assertions: [pkg/agtp/gatewayroute/route.go],
      [pkg/agtp/gateway_route.go] and [pkg/agtp/gateway_route_jwt.go]

    The policy gate for a verified route assertion: required fields, comparison with
    the verifier's expected route, the optional final-Agent holder-of-key proof, and
    the one-shot mark.  [routeAccepts] is its specification; the JWT adapter accepts
    exactly when the token is trusted and [routeAccepts] holds. *)

From stdpp Require Import base gmap sets list strings.
From Stdlib Require Import ZArith Lia.
From S2P Require Import Prelude GoStrings Errors ReplayCache JsonMembers JWTLib TokenVerify.
From S2P Require AgtpJWT.

Module Route.

Definition ErrMissingExpected := ErrNew "gatewayroute.ErrMissingExpected".
Definition ErrMissingObserved := ErrNew "gatewayroute.ErrMissingObserved".
Definition ErrMismatch := ErrNew "gatewayroute.ErrMismatch".
Definition ErrExpired := ErrNew "gatewayroute.ErrExpired".
Definition ErrFuture := ErrNew "gatewayroute.ErrFuture".
Definition ErrRouteReplay := ErrNew "gatewayroute.ErrReplayDetected".
Definition ErrUnsafeValue := ErrNew "gatewayroute.ErrUnsafeValue".

Definition AssertionType : string := "ai2ai.gateway-route-assertion".
Definition AssertionVersion : Z := 1.

Record RouteAssertion := mkRoute {
  ra_Type : string; ra_Version : Z; ra_Issuer : string; ra_Audience : string; ra_ID : string;
  ra_IssuedAt : Time; ra_ExpiresAt : Time; ra_Nonce : string; ra_GrantHash : string;
  ra_GatewaySessionBindingSHA256 : string; ra_RouteID : string; ra_NextHop : string;
  ra_Tenant : string; ra_Principal : string; ra_AuthorityScope : string;
  ra_PolicyID : string; ra_TargetAgent : string; ra_TargetWorkload : string;
  ra_TargetAgentKeyThumbprint : string; ra_UpstreamAuthn : string; ra_UpstreamPeer : string;
  ra_RequestContextSHA256 : string; ra_TaskID : string; ra_ContextID : string;
  ra_SessionID : string; ra_AuditHash : string; ra_AgentHolderOfKeyProofSHA256 : string }.

Record HolderOfKeyProof := mkProof {
  hp_AgentID : string; hp_WorkloadID : string; hp_KeyThumbprint : string;
  hp_GrantHash : string; hp_RouteID : string; hp_TaskID : string; hp_ContextID : string;
  hp_Nonce : string; hp_IssuedAt : Time; hp_ExpiresAt : Time }.

Record ExpectedRoute := mkExpected {
  er_Issuer : string; er_Audience : string; er_Tenant : string; er_AuthorityScope : string;
  er_RouteID : string; er_PolicyID : string; er_TargetAgent : string;
  er_TargetWorkload : string; er_TargetAgentKeyThumbprint : string;
  er_RequestContextSHA256 : string; er_TaskID : string; er_ContextID : string;
  er_AuditHash : string; er_RequireAgentHolderOfKeyProof : bool }.

(** ** Checks *)

Definition isEmpty (value : string) : bool := bool_decide (TrimSpace value = "").

(** [strings.ContainsAny(value, "\r\n<>")]. *)
Definition isUnsafe (value : string) : bool := ContainsAny value (ofCodes [13; 10; 60; 62]).

Definition fieldError (field : string) (err : error) : error := ErrWrap field err.

Definition validateObserved (name value : string) : list error :=
  if isEmpty value then [fieldError name ErrMissingObserved]
  else if isUnsafe value then [fieldError name ErrUnsafeValue]
  else [].

(** The required fields. *)
Definition coreFields (a : RouteAssertion) : list (string * string) :=
  [("gta_type", ra_Type a); ("iss", ra_Issuer a); ("aud", ra_Audience a); ("jti", ra_ID a);
   ("nonce", ra_Nonce a); ("grant_hash", ra_GrantHash a);
   ("gateway_session_binding_sha256", ra_GatewaySessionBindingSHA256 a);
   ("route_id", ra_RouteID a); ("next_hop", ra_NextHop a); ("policy_id", ra_PolicyID a);
   ("target_agent", ra_TargetAgent a); ("upstream_authn", ra_UpstreamAuthn a);
   ("upstream_peer", ra_UpstreamPeer a);
   ("request_context_sha256", ra_RequestContextSHA256 a)].

Definition validateCore (a : RouteAssertion) (now : Time) : list error :=
  concat (map (fun '(name, value) => validateObserved name value) (coreFields a))
  ++ (if negb (bool_decide (ra_Type a = "")) && negb (bool_decide (ra_Type a = AssertionType))
      then [fieldError "gta_type" ErrMismatch] else [])
  ++ (if negb (ra_Version a =? AssertionVersion)
      then [fieldError "gta_version" ErrMismatch] else [])
  ++ (if IsZero (ra_IssuedAt a) then [fieldError "iat" ErrMissingObserved]
      else if After (ra_IssuedAt a) now then [fieldError "iat" ErrFuture] else [])
  ++ (if IsZero (ra_ExpiresAt a) then [fieldError "exp" ErrMissingObserved]
      else if After now (ra_ExpiresAt a) then [fieldError "exp" ErrExpired] else []).

(** Name, expected and observed value. *)
Definition expectedFields (a : RouteAssertion) (e : ExpectedRoute)
    : list (string * string * string) :=
  [("iss", er_Issuer e, ra_Issuer a); ("aud", er_Audience e, ra_Audience a);
   ("tenant", er_Tenant e, ra_Tenant a);
   ("authority_scope", er_AuthorityScope e, ra_AuthorityScope a);
   ("route_id", er_RouteID e, ra_RouteID a); ("policy_id", er_PolicyID e, ra_PolicyID a);
   ("target_agent", er_TargetAgent e, ra_TargetAgent a);
   ("target_workload", er_TargetWorkload e, ra_TargetWorkload a);
   ("target_agent_key_thumbprint", er_TargetAgentKeyThumbprint e,
     ra_TargetAgentKeyThumbprint a);
   ("request_context_sha256", er_RequestContextSHA256 e, ra_RequestContextSHA256 a);
   ("task_id", er_TaskID e, ra_TaskID a); ("context_id", er_ContextID e, ra_ContextID a);
   ("audit_hash", er_AuditHash e, ra_AuditHash a)].

(** One iteration; [checkWant] is whether the expected value is also checked. *)
Definition compareField (checkWant : bool) (name want got : string) : list error :=
  if isEmpty want then []
  else if checkWant && isUnsafe want then [fieldError name ErrUnsafeValue]
  else if isEmpty got then [fieldError name ErrMissingObserved]
  else if isUnsafe got then [fieldError name ErrUnsafeValue]
  else if negb (bool_decide (want = got)) then [fieldError name ErrMismatch]
  else [].

Definition requiredExpected (e : ExpectedRoute) : list string :=
  [er_Issuer e; er_Audience e; er_RouteID e; er_PolicyID e; er_TargetAgent e;
   er_RequestContextSHA256 e].

Definition compareExpected (a : RouteAssertion) (e : ExpectedRoute) : list error :=
  concat (map (fun '(name, want, got) => compareField true name want got) (expectedFields a e))
  ++ (if existsb isEmpty (requiredExpected e)
      then [fieldError "*" ErrMissingExpected] else []).

Definition holderKeyThumbprint (a : RouteAssertion) (e : ExpectedRoute) : string :=
  if negb (bool_decide (er_TargetAgentKeyThumbprint e = ""))
  then er_TargetAgentKeyThumbprint e else ra_TargetAgentKeyThumbprint a.

Definition proofFields (a : RouteAssertion) (p : HolderOfKeyProof) (e : ExpectedRoute)
    : list (string * string * string) :=
  [("holder.agent", ra_TargetAgent a, hp_AgentID p);
   ("holder.workload", ra_TargetWorkload a, hp_WorkloadID p);
   ("holder.key_thumbprint", holderKeyThumbprint a e, hp_KeyThumbprint p);
   ("grant_hash", ra_GrantHash a, hp_GrantHash p); ("route_id", ra_RouteID a, hp_RouteID p);
   ("task_id", ra_TaskID a, hp_TaskID p); ("context_id", ra_ContextID a, hp_ContextID p);
   ("holder.nonce", ra_Nonce a, hp_Nonce p)].

Definition validateHolderProof (a : RouteAssertion) (proof : option HolderOfKeyProof)
    (e : ExpectedRoute) (now : Time) : list error :=
  match proof with
  | None => [fieldError "agent_hok_proof_sha256" ErrMissingObserved]
  | Some p =>
      concat (map (fun '(name, want, got) => compareField false name want got)
                (proofFields a p e))
      ++ (if After (hp_IssuedAt p) now then [fieldError "iat" ErrFuture] else [])
      ++ (if IsZero (hp_ExpiresAt p) then [fieldError "exp" ErrMissingObserved]
          else if After now (hp_ExpiresAt p) then [fieldError "exp" ErrExpired] else [])
      ++ (if isEmpty (ra_AgentHolderOfKeyProofSHA256 a)
          then [fieldError "agent_hok_proof_sha256" ErrMissingObserved] else [])
  end.

Definition replayKey (a : RouteAssertion) : string :=
  let nul := ofCodes [0] in
  ra_Issuer a +:+ nul +:+ ra_Audience a +:+ nul +:+ ra_Tenant a +:+ nul
  +:+ ra_AuthorityScope a +:+ nul +:+ ra_RouteID a +:+ nul +:+ ra_GrantHash a +:+ nul
  +:+ ra_Nonce a.

Section validate.
Context {C : Type} `{ReplayCache C}.

(** [now] is the option's time, or [wall] when that is zero. *)
Definition Validate (wall clock : Time) (a : RouteAssertion) (proof : option HolderOfKeyProof)
    (e : ExpectedRoute) (optNow : Time) (cache : option C) : option error * option C :=
  let now := if IsZero optNow then wall else optNow in
  let errs := validateCore a now ++ compareExpected a e
              ++ (if er_RequireAgentHolderOfKeyProof e
                  then validateHolderProof a proof e now else []) in
  match errs with
  | _ :: _ => (errorsJoin errs, cache)
  | [] =>
      match cache with
      | None => (None, cache)
      | Some c =>
          let '(r, c') := MarkUsed clock (replayKey a) (ra_ExpiresAt a) c in
          (match r with
           | Some err => if errorsIs err "identitypolicy.ErrReplayDetected"
                         then Some ErrRouteReplay else Some err
           | None => None
           end, Some c')
      end
  end.
End validate.
End Route.

Import Route.

(** ** The adapters of [pkg/agtp] *)

Definition validateGatewayRouteCore (a : RouteAssertion) : option error :=
  if negb (bool_decide (ra_Type a = AssertionType)) then Some AgtpJWT.ErrInvalidTokenType
  else if negb (ra_Version a =? AssertionVersion) then Some AgtpJWT.ErrUnsupportedVersion
  else if blank (ra_ID a) then Some AgtpJWT.ErrMissingJWTID
  else None.

(** [want] must be set and equal to [got]. *)
Definition requireEqual (name want got : string) : option error :=
  if blank want then Some (ErrWrap name ErrMissingExpected)
  else if negb (bool_decide (want = got)) then Some (ErrWrap name ErrMismatch)
  else None.

Definition validateGatewayRouteAcceptance (a : RouteAssertion)
    (grantHash gatewaySessionBindingSHA256 holderProofSHA256 : string)
    (requireHolderProof : bool) : option error :=
  match requireEqual "grant_hash" grantHash (ra_GrantHash a) with
  | Some err => Some err
  | None =>
      match requireEqual "gateway_session_binding_sha256" gatewaySessionBindingSHA256
              (ra_GatewaySessionBindingSHA256 a) with
      | Some err => Some err
      | None =>
          if requireHolderProof
          then requireEqual "agent_hok_proof_sha256" holderProofSHA256
                 (ra_AgentHolderOfKeyProofSHA256 a)
          else None
      end
  end.

Definition routeOptionsWithNow (routeNow now : Time) : Time :=
  if IsZero routeNow then now else routeNow.

Record gatewayRouteAssertionClaims := mkRouteClaims {
  rt_Registered : RegisteredClaims; rt_Type : string; rt_Version : Z; rt_Nonce : string;
  rt_GrantHash : string; rt_GatewaySessionBindingSHA256 : string; rt_RouteID : string;
  rt_NextHop : string; rt_Tenant : string; rt_Principal : string; rt_AuthorityScope : string;
  rt_PolicyID : string; rt_TargetAgent : string; rt_TargetWorkload : string;
  rt_TargetAgentKeyThumbprint : string; rt_UpstreamAuthn : string; rt_UpstreamPeer : string;
  rt_RequestContextSHA256 : string; rt_TaskID : string; rt_ContextID : string;
  rt_SessionID : string; rt_AuditHash : string; rt_AgentHolderOfKeyProofSHA256 : string }.

#[export] Instance route_claims : Claims gatewayRouteAssertionClaims := rt_Registered.

(** The first audience, if any. *)
Definition gatewayRouteAssertionFromJWTClaims (c : gatewayRouteAssertionClaims)
    : RouteAssertion :=
  let rc := rt_Registered c in
  mkRoute (rt_Type c) (rt_Version c) (rc_Issuer rc)
    (match rc_Audience rc with [] => "" | aud :: _ => aud end) (rc_ID rc)
    (claimTimeOf (rc_IssuedAt rc)) (claimTimeOf (rc_ExpiresAt rc)) (rt_Nonce c)
    (rt_GrantHash c) (rt_GatewaySessionBindingSHA256 c) (rt_RouteID c) (rt_NextHop c)
    (rt_Tenant c) (rt_Principal c) (rt_AuthorityScope c) (rt_PolicyID c) (rt_TargetAgent c)
    (rt_TargetWorkload c) (rt_TargetAgentKeyThumbprint c) (rt_UpstreamAuthn c)
    (rt_UpstreamPeer c) (rt_RequestContextSHA256 c) (rt_TaskID c) (rt_ContextID c)
    (rt_SessionID c) (rt_AuditHash c) (rt_AgentHolderOfKeyProofSHA256 c).

Record GatewayRouteJWTOptions (Key : Type) := mkRouteOptions {
  go_Assertion : JWTVerifyOptions Key; go_Expected : ExpectedRoute;
  go_Proof : option HolderOfKeyProof; go_ExpectedGrantHash : string;
  go_ExpectedGatewaySessionBindingSHA256 : string;
  go_ExpectedAgentHolderOfKeyProofSHA256 : string; go_RouteNow : Time }.
Arguments mkRouteOptions {Key}. Arguments go_Assertion {Key}. Arguments go_Expected {Key}.
Arguments go_Proof {Key}. Arguments go_ExpectedGrantHash {Key}.
Arguments go_ExpectedGatewaySessionBindingSHA256 {Key}.
Arguments go_ExpectedAgentHolderOfKeyProofSHA256 {Key}. Arguments go_RouteNow {Key}.

Section adapter.
Context {Key : Type} `{!JWTLib Key gatewayRouteAssertionClaims}.

Definition VerifyGatewayRouteAssertionJWT (wall : Time) (tokenString : string)
    (opts : JWTVerifyOptions Key) : result error RouteAssertion :=
  let* r := AgtpJWT.parseJWT (C := gatewayRouteAssertionClaims) wall tokenString opts in
  let assertion := gatewayRouteAssertionFromJWTClaims (fst r) in
  match validateGatewayRouteCore assertion with
  | Some err => Err err
  | None => Ok assertion
  end.

Context {C : Type} `{ReplayCache C}.

Definition VerifyGatewayRouteJWT (wall clock : Time) (tokenString : string)
    (opts : GatewayRouteJWTOptions Key) (cache : option C)
    : result error RouteAssertion * option C :=
  match cache with
  | None => (Err AgtpJWT.ErrMissingReplayCache, cache)
  | Some _ =>
      let now := if IsZero (vo_Now (go_Assertion opts)) then wall
                 else vo_Now (go_Assertion opts) in
      match VerifyGatewayRouteAssertionJWT wall tokenString (go_Assertion opts) with
      | Err err => (Err err, cache)
      | Ok assertion =>
          match validateGatewayRouteAcceptance assertion (go_ExpectedGrantHash opts)
                  (go_ExpectedGatewaySessionBindingSHA256 opts)
                  (go_ExpectedAgentHolderOfKeyProofSHA256 opts)
                  (er_RequireAgentHolderOfKeyProof (go_Expected opts)) with
          | Some err => (Err err, cache)
          | None =>
              match Validate wall clock assertion (go_Proof opts) (go_Expected opts)
                      (routeOptionsWithNow (go_RouteNow opts) now) cache with
              | (Some err, cache') => (Err err, cache')
              | (None, cache') => (Ok assertion, cache')
              end
          end
      end
  end.
End adapter.

(** ** Specification *)

Definition presentValue (v : string) : Prop := isEmpty v = false /\ isUnsafe v = false.

(** Nothing is expected, or the observed value is the expected one and is safe. *)
Definition agrees (want got : string) : Prop :=
  isEmpty want = true \/ (isUnsafe want = false /\ got = want).

Definition proofAccepts (a : RouteAssertion) (p : HolderOfKeyProof) (e : ExpectedRoute)
    (now : Time) : Prop :=
  Forall (fun '(_, want, got) => agrees want got) (proofFields a p e)
  /\ hp_IssuedAt p <= now /\ hp_ExpiresAt p <> 0 /\ now <= hp_ExpiresAt p
  /\ isEmpty (ra_AgentHolderOfKeyProofSHA256 a) = false.

Definition routeAccepts (a : RouteAssertion) (proof : option HolderOfKeyProof)
    (e : ExpectedRoute) (now : Time) : Prop :=
  Forall (fun '(_, v) => presentValue v) (coreFields a)
  /\ ra_Type a = AssertionType /\ ra_Version a = AssertionVersion
  /\ (ra_IssuedAt a <> 0 /\ ra_IssuedAt a <= now)
  /\ (ra_ExpiresAt a <> 0 /\ now <= ra_ExpiresAt a)
  /\ Forall (fun '(_, want, got) => agrees want got) (expectedFields a e)
  /\ Forall (fun v => isEmpty v = false) (requiredExpected e)
  /\ (er_RequireAgentHolderOfKeyProof e = true ->
      exists p, proof = Some p /\ proofAccepts a p e now).

Lemma validateObserved_nil name v : validateObserved name v = [] <-> presentValue v.
Proof. unfold validateObserved, presentValue. repeat case_goal; intuition congruence. Qed.

Lemma compareField_agrees b name want got :
  compareField b name want got = [] <-> agrees want got.
Proof.
  unfold compareField, agrees. destruct (isEmpty want) eqn:Ew; [by intuition|].
  destruct (b && isUnsafe want) eqn:B.
  { split; [done|]. intros [?|[Hu _]]; [done|]. rewrite Hu, andb_false_r in B. done. }
  destruct (isEmpty got) eqn:Eg; [split; [done|]; intros [?|[_ ->]]; congruence|].
  destruct (isUnsafe got) eqn:Ug; [split; [done|]; intros [?|[? ->]]; congruence|].
  case_bool_decide as D; simpl; [subst got|]; intuition congruence.
Qed.

Lemma concat_map_nil {A B} (f : A -> list B) (P : A -> Prop) (l : list A) :
  (forall x, f x = [] <-> P x) -> concat (map f l) = [] <-> Forall P l.
Proof.
  intros Hf. rewrite concat_nil_iff, Forall_map. apply Forall_iff. intros x. apply Hf.
Qed.

Lemma ifList_nil {A} (b : bool) (x : A) : (if b then [x] else []) = [] <-> b = false.
Proof. destruct b; intuition congruence. Qed.

Lemma validateCore_nil a now :
  validateCore a now = [] <->
  Forall (fun '(_, v) => presentValue v) (coreFields a)
  /\ ra_Type a = AssertionType /\ ra_Version a = AssertionVersion
  /\ (ra_IssuedAt a <> 0 /\ ra_IssuedAt a <= now)
  /\ (ra_ExpiresAt a <> 0 /\ now <= ra_ExpiresAt a).
Proof.
  unfold validateCore. rewrite !app_nil, !ifList_nil.
  rewrite (concat_map_nil _ (fun '(_, v) => presentValue v))
    by (intros [n v]; apply validateObserved_nil).
  rewrite negb_false_iff, Z.eqb_eq, andb_false_iff, !negb_false_iff, !bool_decide_eq_true.
  unfold IsZero, After.
  destruct (Z.eqb_spec (ra_IssuedAt a) 0), (Z.eqb_spec (ra_ExpiresAt a) 0),
    (Z.ltb_spec now (ra_IssuedAt a)), (Z.ltb_spec (ra_ExpiresAt a) now);
    try (intuition (congruence || lia)).
  split; [|by intuition].
  intros (HF & Ht & Hrest). split_and!; try (by intuition). destruct Ht as [Ht|Ht]; [|done].
  unfold coreFields in HF. apply Forall_cons in HF as [[He _] _]. by rewrite Ht in He.
Qed.

Lemma compareExpected_nil a e :
  compareExpected a e = [] <->
  Forall (fun '(_, want, got) => agrees want got) (expectedFields a e)
  /\ Forall (fun v => isEmpty v = false) (requiredExpected e).
Proof.
  unfold compareExpected. rewrite app_nil, ifList_nil, existsb_false_iff.
  rewrite (concat_map_nil _ (fun '(_, want, got) => agrees want got)); [done|].
  intros [[n w] g]. apply compareField_agrees.
Qed.

Lemma validateHolderProof_nil a proof e now :
  validateHolderProof a proof e now = [] <->
  exists p, proof = Some p /\ proofAccepts a p e now.
Proof.
  unfold validateHolderProof, proofAccepts. destruct proof as [p|].
  - rewrite !app_nil, !ifList_nil.
    rewrite (concat_map_nil _ (fun '(_, want, got) => agrees want got))
      by (intros [[n w] g]; apply compareField_agrees).
    unfold IsZero, After.
    destruct (Z.eqb_spec (hp_ExpiresAt p) 0), (Z.ltb_spec now (hp_IssuedAt p)),
      (Z.ltb_spec (hp_ExpiresAt p) now);
      (split; [intros; split_hyps; try done; exists p; split_and!; done
              |intros (p' & [= <-] & ?); split_hyps; split_and!; try done; lia]).
  - split; [done | by intros (p & ? & _)].
Qed.

(** Everything [Validate] checks, before the replay mark. *)
Lemma Validate_cases {C} `{ReplayCache C} wall clock a proof e optNow (cache : option C) :
  let now := if IsZero optNow then wall else optNow in
  (routeAccepts a proof e now /\
   Validate wall clock a proof e optNow cache =
   match cache with
   | None => (None, None)
   | Some c =>
       let '(r, c') := MarkUsed clock (replayKey a) (ra_ExpiresAt a) c in
       (match r with
        | Some err => if errorsIs err "identitypolicy.ErrReplayDetected"
                      then Some ErrRouteReplay else Some err
        | None => None
        end, Some c')
   end)
  \/ (~ routeAccepts a proof e now /\ exists err,
      Validate wall clock a proof e optNow cache = (Some err, cache)).
Proof.
  cbv zeta. unfold Validate. cbv zeta. set (now := if IsZero optNow then wall else optNow).
  set (errs := validateCore a now ++ _).
  assert (Hiff : errs = [] <-> routeAccepts a proof e now).
  { unfold errs, routeAccepts. rewrite !app_nil, validateCore_nil, compareExpected_nil.
    destruct (er_RequireAgentHolderOfKeyProof e);
      rewrite ?validateHolderProof_nil; intuition congruence. }
  destruct errs as [|err errs]; [left | right]; rewrite <- Hiff.
  - split; [done|]. by destruct cache.
  - split; [done | simpl; eauto].
Qed.

Lemma requireEqual_None name want got :
  requireEqual name want got = None <-> blank want = false /\ got = want.
Proof.
  unfold requireEqual. destruct (blank want); [intuition congruence|].
  case_bool_decide; simpl; intuition congruence.
Qed.

(** The token's own conditions. *)
Definition routeTokenTrusted {Key}
    `{!JWTLib Key gatewayRouteAssertionClaims, !JWTLibLaws Key gatewayRouteAssertionClaims}
    (wall : Time) (opts : JWTVerifyOptions Key) (t : string) (a : RouteAssertion) : Prop :=
  exists c signer, tokenTrusted AgtpJWT.agtpProfile wall opts t c signer
    /\ a = gatewayRouteAssertionFromJWTClaims c
    /\ validateGatewayRouteCore a = None.

(** The route the relying party expects: the grant, the gateway's session and, when
    a holder proof is required, the proof. *)
Definition routeExpected {Key} (opts : GatewayRouteJWTOptions Key) (a : RouteAssertion) : Prop :=
  (blank (go_ExpectedGrantHash opts) = false /\ ra_GrantHash a = go_ExpectedGrantHash opts)
  /\ (blank (go_ExpectedGatewaySessionBindingSHA256 opts) = false
      /\ ra_GatewaySessionBindingSHA256 a = go_ExpectedGatewaySessionBindingSHA256 opts)
  /\ (er_RequireAgentHolderOfKeyProof (go_Expected opts) = true ->
      blank (go_ExpectedAgentHolderOfKeyProofSHA256 opts) = false
      /\ ra_AgentHolderOfKeyProofSHA256 a = go_ExpectedAgentHolderOfKeyProofSHA256 opts).

(** The time a route is judged at. *)
Definition routeNow {Key} (wall : Time) (opts : GatewayRouteJWTOptions Key) : Time :=
  let now := if IsZero (vo_Now (go_Assertion opts)) then wall
             else vo_Now (go_Assertion opts) in
  let optNow := routeOptionsWithNow (go_RouteNow opts) now in
  if IsZero optNow then wall else optNow.

Section adapter_lemmas.
Context {Key : Type}.
Context `{!JWTLib Key gatewayRouteAssertionClaims, !JWTLibLaws Key gatewayRouteAssertionClaims}.
Context {C : Type} `{ReplayCache C}.

Lemma VerifyAssertion_Ok wall t (opts : JWTVerifyOptions Key) a :
  VerifyGatewayRouteAssertionJWT wall t opts = Ok a <-> routeTokenTrusted wall opts t a.
Proof.
  unfold VerifyGatewayRouteAssertionJWT, routeTokenTrusted. split.
  - destruct (AgtpJWT.parseJWT wall t opts) as [[c signer]|] eqn:P; simpl; [|done].
    apply AgtpJWT.parseJWT_Ok in P.
    destruct (validateGatewayRouteCore _) eqn:V; [done|]. intros [= <-]. eauto 10.
  - intros (c & signer & Ht & -> & V). apply AgtpJWT.parseJWT_Ok in Ht.
    rewrite Ht. simpl. by rewrite V.
Qed.

Lemma acceptance_None (opts : GatewayRouteJWTOptions Key) a :
  validateGatewayRouteAcceptance a (go_ExpectedGrantHash opts)
    (go_ExpectedGatewaySessionBindingSHA256 opts)
    (go_ExpectedAgentHolderOfKeyProofSHA256 opts)
    (er_RequireAgentHolderOfKeyProof (go_Expected opts)) = None <-> routeExpected opts a.
Proof.
  unfold validateGatewayRouteAcceptance, routeExpected.
  pose proof (requireEqual_None "grant_hash" (go_ExpectedGrantHash opts) (ra_GrantHash a)) as H1.
  pose proof (requireEqual_None "gateway_session_binding_sha256"
    (go_ExpectedGatewaySessionBindingSHA256 opts) (ra_GatewaySessionBindingSHA256 a)) as H2.
  pose proof (requireEqual_None "agent_hok_proof_sha256"
    (go_ExpectedAgentHolderOfKeyProofSHA256 opts) (ra_AgentHolderOfKeyProofSHA256 a)) as H3.
  repeat case_goal; intuition congruence.
Qed.

Lemma VerifyRoute_Ok wall clock t opts (cache : option C) a cache' :
  VerifyGatewayRouteJWT wall clock t opts cache = (Ok a, cache') <->
  routeTokenTrusted wall (go_Assertion opts) t a /\ routeExpected opts a
  /\ routeAccepts a (go_Proof opts) (go_Expected opts) (routeNow wall opts)
  /\ exists c c', cache = Some c /\ cache' = Some c'
       /\ MarkUsed clock (replayKey a) (ra_ExpiresAt a) c = (None, c').
Proof.
  unfold VerifyGatewayRouteJWT, routeNow. cbv zeta.
  set (optNow := routeOptionsWithNow _ _). rewrite <- VerifyAssertion_Ok, <- acceptance_None.
  split.
  - destruct cache as [c|]; [|done].
    destruct (VerifyGatewayRouteAssertionJWT wall t (go_Assertion opts)) as [a'|]; [|done].
    destruct (validateGatewayRouteAcceptance a' _ _ _ _) eqn:A; [done|].
    destruct (Validate_cases wall clock a' (go_Proof opts) (go_Expected opts) optNow (Some c))
      as [[Ha ->]|[Ha [err ->]]]; [|done].
    destruct (MarkUsed clock (replayKey a') (ra_ExpiresAt a') c) as [[e|] c'] eqn:M.
    + by destruct (errorsIs _ _).
    + intros [= <- <-]. split_and!; eauto 10.
  - intros (-> & -> & Ha & c & c' & -> & -> & M).
    destruct (Validate_cases wall clock a (go_Proof opts) (go_Expected opts) optNow (Some c))
      as [[_ ->]|[? _]]; [|done]. by rewrite M.
Qed.
End adapter_lemmas.

(** ** A concrete route *)

Module Sample.
Definition claims (tenant scope : string) : gatewayRouteAssertionClaims :=
  mkRouteClaims (mkRegistered "gw" "" ["rp"] (Some 100) None (Some 5) "id-1") AssertionType 1
    "nonce" "gh" "gsb" "route" "hop" tenant "" scope "policy" "agent" "" "" "mtls" "peer"
    "ctx" "" "" "" "" "".

Definition nul : string := ofCodes [0].
Definition claims1 := claims ("t" +:+ nul +:+ "x") "s".
Definition claims2 := claims "t" ("x" +:+ nul +:+ "s").

#[global] Instance lib : JWTLib string gatewayRouteAssertionClaims := TableLib.lib
  [TableLib.mkRow "route1" "ES256" (Some "gw-key") claims1 "GK";
   TableLib.mkRow "route2" "ES256" (Some "gw-key") claims2 "GK"].
#[global] Instance laws : JWTLibLaws string gatewayRouteAssertionClaims := TableLib.laws _.

Definition expected : ExpectedRoute :=
  mkExpected "gw" "rp" "" "" "route" "policy" "agent" "" "" "ctx" "" "" "" false.

Definition options : GatewayRouteJWTOptions string :=
  mkRouteOptions
    (mkVerifyOptions "gw" "rp" ["ES256"] None [mkLocalKey "gw-key" (Some "GK") false] [] [] 10)
    expected None "gh" "gsb" "" 0.

Definition assertion1 := gatewayRouteAssertionFromJWTClaims claims1.
Definition assertion2 := gatewayRouteAssertionFromJWTClaims claims2.

Definition run (t : string) (clock : Time) (m : Memory.MemoryReplayCache) :=
  VerifyGatewayRouteJWT 10 clock t options (Some (Some m)).

Definition after1 : Memory.MemoryReplayCache :=
  Memory.mkMemory (<[replayKey assertion1 := 100]> ∅).

Lemma run1_ok : run "route1" 10 Memory.NewMemoryReplayCache = (Ok assertion1, Some (Some after1)).
Proof. vm_compute. reflexivity. Qed.

Lemma run2_fresh_ok : is_Ok (fst (run "route2" 10 Memory.NewMemoryReplayCache)) = true.
Proof. vm_compute. reflexivity. Qed.

Lemma run2_refused : fst (run "route2" 11 after1) = Err ErrRouteReplay.
Proof. vm_compute. reflexivity. Qed.
End Sample.

(** ** Theorems *)

(** The gateway-route adapter decides its specification.  A route assertion token
    is accepted exactly when the token is trusted and is a route assertion, the grant,
    gateway session and (when required) holder proof it names are the expected ones,
    every required field is present, fresh and equal to the expected route, and the
    replay cache accepts it. *)
Theorem VerifyGatewayRouteJWT_decides {Key : Type}
    `{!JWTLib Key gatewayRouteAssertionClaims, !JWTLibLaws Key gatewayRouteAssertionClaims}
    {C} `{ReplayCache C} wall clock t opts (cache : option C) a cache' :
  VerifyGatewayRouteJWT wall clock t opts cache = (Ok a, cache') <->
  routeTokenTrusted wall (go_Assertion opts) t a /\ routeExpected opts a
  /\ routeAccepts a (go_Proof opts) (go_Expected opts) (routeNow wall opts)
  /\ exists c c', cache = Some c /\ cache' = Some c'
       /\ MarkUsed clock (replayKey a) (ra_ExpiresAt a) c = (None, c').
Proof. apply VerifyRoute_Ok. Qed.

Lemma VerifyGatewayRouteJWT_decides_witness :
  routeAccepts Sample.assertion1 None Sample.expected 10.
Proof.
  apply (VerifyGatewayRouteJWT_decides 10 10 "route1" Sample.options
    (Some (Some Memory.NewMemoryReplayCache)) Sample.assertion1 (Some (Some Sample.after1))).
  exact Sample.run1_ok.
Defined.

(** A route assertion is accepted at most once, over any replay cache that keeps
    its contract. *)
Theorem route_accepted_once {Key : Type}
    `{!JWTLib Key gatewayRouteAssertionClaims, !JWTLibLaws Key gatewayRouteAssertionClaims}
    {C} `{ReplayCacheLaws C} wall wall' clock clock' t t' opts opts' (c : C) us a a' cache'
    cache'' :
  enforcing c -> 0 < clock -> ra_ExpiresAt a - clock <= maxInt64 ->
  VerifyGatewayRouteJWT wall clock t opts (Some c) = (Ok a, cache') ->
  clockForward clock us clock' ->
  replayKey a' = replayKey a -> ra_ExpiresAt a' <= ra_ExpiresAt a ->
  exists c', cache' = Some c' /\
    VerifyGatewayRouteJWT wall' clock' t' opts' (Some (snd (runUses us c'))) <> (Ok a', cache'').
Proof.
  intros Hc Hpos Hd (_ & _ & _ & c1 & c' & [= <-] & -> & M)%VerifyRoute_Ok Hcl Hk He.
  exists c'. split; [done|].
  intros (_ & _ & _ & c2 & c3 & [= <-] & _ & M')%VerifyRoute_Ok.
  pose proof (one_shot clock _ _ us clock' _ c c' Hc Hpos Hd M Hcl He) as Href.
  apply Href. by rewrite <- Hk, M'.
Qed.

Lemma route_accepted_once_witness :
  exists c', Some (Some Sample.after1) = Some c' /\
    VerifyGatewayRouteJWT 12 12 "route1" Sample.options
      (Some (snd (runUses [(11, "other", 30)] c'))) <> (Ok Sample.assertion1, None).
Proof.
  apply (route_accepted_once 10 12 10 12 "route1" "route1" Sample.options Sample.options
    (Some Memory.NewMemoryReplayCache) [(11, "other", 30)] Sample.assertion1 Sample.assertion1);
    [apply memory_enforcing | lia | vm_compute; discriminate | exact Sample.run1_ok
    | simpl; lia | reflexivity | lia].
Defined.

(** The route replay key is not injective.  The unsafe-value test of this package
    lets a NUL through, and NUL is the separator of the key: two assertions that
    differ in tenant and authority scope, each accepted on its own, share a cache
    entry, so accepting the first makes the second fail as a replay. *)
Theorem route_replay_key_collides :
  ra_Tenant Sample.assertion1 <> ra_Tenant Sample.assertion2
  /\ replayKey Sample.assertion1 = replayKey Sample.assertion2
  /\ is_Ok (fst (Sample.run "route2" 10 Memory.NewMemoryReplayCache)) = true
  /\ Sample.run "route1" 10 Memory.NewMemoryReplayCache
     = (Ok Sample.assertion1, Some (Some Sample.after1))
  /\ fst (Sample.run "route2" 11 Sample.after1) = Err ErrRouteReplay.
Proof.
  split_and!; [by vm_compute | by vm_compute | exact Sample.run2_fresh_ok
              | exact Sample.run1_ok | exact Sample.run2_refused].
Qed.
