(* ===== verification/CachePolicy.v ===== *)
(** * Response-cache policy: [pkg/agtp/cache_policy.go]

    Whether a response may be stored, and by whom.  [cacheSafe] is the rule of the
    profile; the check accepts exactly the policies that satisfy it. *)

From stdpp Require Import base gmap sets list strings.
From Stdlib Require Import ZArith Lia.
From S2P Require Import Prelude GoStrings GoEncoding Errors GoSort.

Definition ErrUnsupportedCacheDirective := ErrNew "agtp.ErrUnsupportedCacheDirective".
Definition ErrMissingCacheFreshness := ErrNew "agtp.ErrMissingCacheFreshness".
Definition ErrUnsafeResponseCache := ErrNew "agtp.ErrUnsafeResponseCache".
Definition ErrMissingCachePartition := ErrNew "agtp.ErrMissingCachePartition".

Definition ResponseCacheNoStore : string := "no-store".
Definition ResponseCachePublic : string := "public".
Definition ResponseCachePrivate : string := "private".

Definition CacheVaryAgentID : string := "Agent-ID".
Definition CacheVaryPrincipalID : string := "Principal-ID".
Definition CacheVaryAuthorityScope : string := "Authority-Scope".
Definition CacheVaryTenantID : string := "Tenant-ID".
Definition CacheVaryDeploymentID : string := "Deployment-ID".
Definition CacheVaryPolicyGrantHash : string := "Policy-Grant-Hash".
Definition CacheVarySessionID : string := "Session-ID".
Definition CacheVaryTaskID : string := "Task-ID".

(** The list both loops of the file go over. *)
Definition knownVary : list string :=
  [CacheVaryAgentID; CacheVaryPrincipalID; CacheVaryAuthorityScope; CacheVaryTenantID;
   CacheVaryDeploymentID; CacheVaryPolicyGrantHash; CacheVarySessionID; CacheVaryTaskID].

Record ResponseCachePolicy := mkCachePolicy {
  cp_Directive : string; cp_MaxAge : Duration; cp_Vary : list string }.

Record ResponseCacheContext := mkCacheContext {
  cc_SecurityState : bool; cc_CallerVaryFields : list string;
  cc_SessionBound : bool; cc_AllowSessionPrivateCache : bool }.

Definition EffectiveResponseCacheDirective (p : ResponseCachePolicy) : string :=
  let directive := ToLower (TrimSpace (cp_Directive p)) in
  if bool_decide (directive = "") then ResponseCacheNoStore else directive.

(** [slices.Contains]. *)
Definition contains (l : list string) (v : string) : bool :=
  existsb (fun x => bool_decide (x = v)) l.

Fixpoint canonicalLoop (known : list string) (field : string) : string :=
  match known with
  | [] => field
  | k :: t => if EqualFold field k then k else canonicalLoop t field
  end.

Definition canonicalCacheVaryField (field : string) : string :=
  canonicalLoop knownVary (TrimSpace field).

Fixpoint normalizeLoop (fields : list string) (seen : gset string) (out : list string)
    : list string :=
  match fields with
  | [] => out
  | f :: t =>
      let f := canonicalCacheVaryField f in
      if bool_decide (f = "") then normalizeLoop t seen out
      else if bool_decide (f ∈ seen) then normalizeLoop t seen out
      else normalizeLoop t ({[f]} ∪ seen) (out ++ [f])
  end.

Definition normalizeCacheVary (fields : list string) : list string :=
  sortStrings (normalizeLoop fields ∅ []).

Definition containsAllCacheVary (vary required : list string) : bool :=
  forallb (contains vary) required.

Definition containsProtectedCacheVary (vary : list string) : bool :=
  existsb (contains vary) knownVary.

Definition ValidateResponseCachePolicy (p : ResponseCachePolicy) (ctx : ResponseCacheContext)
    : option error :=
  let directive := EffectiveResponseCacheDirective p in
  if bool_decide (directive = ResponseCacheNoStore) then None
  else if negb (bool_decide (directive = ResponseCachePublic)
                || bool_decide (directive = ResponseCachePrivate))
  then Some ErrUnsupportedCacheDirective
  else if cp_MaxAge p <=? 0 then Some ErrMissingCacheFreshness
  else if cc_SecurityState ctx then Some ErrUnsafeResponseCache
  else
    let vary := normalizeCacheVary (cp_Vary p) in
    let callerVaryFields := normalizeCacheVary (cc_CallerVaryFields ctx) in
    if bool_decide (directive = ResponseCachePublic) then
      if (0 <? len callerVaryFields) || containsProtectedCacheVary vary
      then Some ErrUnsafeResponseCache else None
    else if cc_SessionBound ctx
            && (negb (cc_AllowSessionPrivateCache ctx) || negb (contains vary CacheVarySessionID))
    then Some ErrMissingCachePartition
    else if negb (containsAllCacheVary vary callerVaryFields)
    then Some ErrMissingCachePartition
    else None.

(** ** Specification *)

(** The canonical, non-blank names of a list of fields, as a set. *)
Definition varySet (fields : list string) : gset string :=
  list_to_set (filter (fun f => f <> "") (map canonicalCacheVaryField fields)).

Definition publicSafe (p : ResponseCachePolicy) (ctx : ResponseCacheContext) : Prop :=
  varySet (cc_CallerVaryFields ctx) = ∅ /\ Forall (fun f => f ∉ varySet (cp_Vary p)) knownVary.

Definition privateSafe (p : ResponseCachePolicy) (ctx : ResponseCacheContext) : Prop :=
  varySet (cc_CallerVaryFields ctx) ⊆ varySet (cp_Vary p)
  /\ (cc_SessionBound ctx = true ->
      cc_AllowSessionPrivateCache ctx = true /\ CacheVarySessionID ∈ varySet (cp_Vary p)).

(** A response may be stored only with a lifetime and when it carries no security
    state; in a shared cache only when nothing about the caller selects it, in a
    private cache only when the cache is partitioned by everything that does. *)
Definition cacheSafe (p : ResponseCachePolicy) (ctx : ResponseCacheContext) : Prop :=
  let d := EffectiveResponseCacheDirective p in
  d = ResponseCacheNoStore
  \/ (0 < cp_MaxAge p /\ cc_SecurityState ctx = false
      /\ (d = ResponseCachePublic /\ publicSafe p ctx
          \/ d = ResponseCachePrivate /\ privateSafe p ctx)).

(** ** Lemmas *)

Lemma contains_true l v : contains l v = true <-> v ∈ l.
Proof.
  unfold contains. rewrite existsb_true_iff, Exists_exists.
  setoid_rewrite bool_decide_eq_true. split; [by intros (x & ? & ->) | eauto].
Qed.

Lemma elem_of_normalizeLoop fields : forall seen out v,
  (forall w, w ∈ out <-> w ∈ seen) ->
  v ∈ normalizeLoop fields seen out <-> v ∈ out \/ v ∈ varySet fields.
Proof.
  induction fields as [|f fields IH]; intros seen out v Hs; cbn [normalizeLoop].
  - unfold varySet. simpl. rewrite elem_of_empty. tauto.
  - cbv zeta. assert (Hv : v ∈ varySet (f :: fields) <->
      (canonicalCacheVaryField f <> "" /\ v = canonicalCacheVaryField f) \/ v ∈ varySet fields).
    { unfold varySet. rewrite !elem_of_list_to_set, !list_elem_of_filter. cbn [map].
      rewrite elem_of_cons. split; [intros [? [->|?]]; auto | intros [[? ->]|[? ?]]; auto]. }
    rewrite Hv. case_bool_decide; [rewrite IH by done; tauto|].
    case_bool_decide as Hin.
    + rewrite IH by done. apply Hs in Hin. intuition (subst; auto).
    + rewrite IH.
      * rewrite elem_of_app, list_elem_of_singleton. tauto.
      * intros w. rewrite elem_of_app, list_elem_of_singleton, elem_of_union, elem_of_singleton, Hs.
        tauto.
Qed.

Lemma elem_of_normalize v fields : v ∈ normalizeCacheVary fields <-> v ∈ varySet fields.
Proof.
  unfold normalizeCacheVary. rewrite elem_of_sortStrings, elem_of_normalizeLoop.
  - rewrite elem_of_nil. tauto.
  - intros w. by rewrite elem_of_nil, elem_of_empty.
Qed.

Lemma normalize_nonempty fields :
  (0 <? len (normalizeCacheVary fields)) = false <-> varySet fields = ∅.
Proof.
  rewrite Z.ltb_ge. split.
  - intros Hl. apply elem_of_equiv_empty_L. intros v Hv. apply elem_of_normalize in Hv.
    destruct (normalizeCacheVary fields); [by apply not_elem_of_nil in Hv|].
    rewrite len_cons in Hl. pose proof (len_nonneg l). lia.
  - intros He. destruct (normalizeCacheVary fields) as [|v l] eqn:N; [done|].
    assert (Hv : v ∈ varySet fields) by (apply elem_of_normalize; rewrite N; left).
    rewrite He in Hv. by apply not_elem_of_empty in Hv.
Qed.

Lemma containsAll_true vary required :
  containsAllCacheVary (normalizeCacheVary vary) (normalizeCacheVary required) = true <->
  varySet required ⊆ varySet vary.
Proof.
  unfold containsAllCacheVary. rewrite forallb_forall, elem_of_subseteq.
  split; intros H v Hv; specialize (H v).
  - rewrite <- list_elem_of_In, contains_true, !elem_of_normalize in H. auto.
  - rewrite contains_true, elem_of_normalize. apply H.
    by rewrite <- elem_of_normalize, list_elem_of_In.
Qed.

Lemma containsProtected_false vary :
  containsProtectedCacheVary (normalizeCacheVary vary) = false <->
  Forall (fun f => f ∉ varySet vary) knownVary.
Proof.
  unfold containsProtectedCacheVary. rewrite existsb_false_iff. apply Forall_iff. intros f.
  rewrite <- elem_of_normalize, <- contains_true. by destruct (contains _ f).
Qed.

(** ** Theorems *)

(** The response-cache check decides the profile's rule: a policy passes exactly
    when the response is not stored at all, or it has a lifetime, carries no security
    state, and is shared only when independent of the caller or private with a cache
    partition for every field that depends on the caller or the session. *)
Theorem cache_policy_decides (p : ResponseCachePolicy) (ctx : ResponseCacheContext) :
  ValidateResponseCachePolicy p ctx = None <-> cacheSafe p ctx.
Proof.
  unfold ValidateResponseCachePolicy, cacheSafe, publicSafe, privateSafe. cbv zeta.
  rewrite <- containsProtected_false, <- containsAll_true, <- normalize_nonempty.
  rewrite <- elem_of_normalize, <- contains_true.
  assert (Hpp : ResponseCachePublic <> ResponseCachePrivate) by done.
  generalize dependent (EffectiveResponseCacheDirective p). intros d.
  case_bool_decide as D1; [by intuition|].
  case_bool_decide as D2; (case_bool_decide as D3); cbn [orb negb]; try (intuition congruence);
    destruct (Z.leb_spec (cp_MaxAge p) 0); try (intuition (congruence || lia));
    destruct (cc_SecurityState ctx); try (intuition congruence).
  - rewrite <- orb_false_iff. case_goal; intuition congruence.
  - destruct (cc_SessionBound ctx), (cc_AllowSessionPrivateCache ctx),
      (contains _ CacheVarySessionID), (containsAllCacheVary _ _); simpl; intuition congruence.
Qed.
