(* ===== verification/DiversionPolicy.v ===== *)
(** * Diversion policy: [pkg/agtp/diversionpolicy/policy.go]

    A static allow/deny table for semantic diversions.  [Evaluate] is shown to be
    fail-closed and first-match: it allows exactly when the policy and the request
    are well formed and the first rule that matches the request allows it with its
    notice condition met; the audit record always describes the request.

    The loops over Go maps ([validateTarget], [validateAuditFields]) visit the
    entries in an unspecified order; only the text of the error depends on it, and
    the model uses the order of the source. *)

From stdpp Require Import base gmap sets list strings.
From Stdlib Require Import ZArith Lia.
From S2P Require Import Prelude GoStrings Errors.

Definition ErrMissingPolicyID := ErrNew "diversionpolicy.ErrMissingPolicyID".
Definition ErrMissingRule := ErrNew "diversionpolicy.ErrMissingRule".
Definition ErrMissingTarget := ErrNew "diversionpolicy.ErrMissingTarget".
Definition ErrMissingReasonCode := ErrNew "diversionpolicy.ErrMissingReasonCode".
Definition ErrMissingAuditField := ErrNew "diversionpolicy.ErrMissingAuditField".
Definition ErrUnsupportedVersion := ErrNew "diversionpolicy.ErrUnsupportedVersion".
Definition ErrInvalidMode := ErrNew "diversionpolicy.ErrInvalidMode".
Definition ErrInvalidVisibility := ErrNew "diversionpolicy.ErrInvalidVisibility".
Definition ErrNoMatchingRule := ErrNew "diversionpolicy.ErrNoMatchingRule".
Definition ErrHiddenNotAllowed := ErrNew "diversionpolicy.ErrHiddenNotAllowed".
Definition ErrClientNoticeRequired := ErrNew "diversionpolicy.ErrClientNoticeRequired".
Definition ErrDenied := ErrNew "diversionpolicy.ErrDenied".
Definition ErrUnsafeValue := ErrNew "diversionpolicy.ErrUnsafeValue".

Definition Version : string := "1".
Definition ModeRequired : string := "required".
Definition VisibilityClientVisible : string := "client_visible".
Definition VisibilityHidden : string := "hidden".

(** ** Data *)

Record Target := mkTarget {
  t_Service : string; t_Tenant : string; t_Deployment : string; t_Environment : string;
  t_Agent : string }.

#[export] Instance Target_eq : EqDecision Target.
Proof. solve_decision. Defined.

Record Rule := mkRule {
  ru_RuleID : string; ru_OriginalTarget : Target; ru_DivertedTarget : Target;
  ru_Visibility : string; ru_Trigger : string; ru_ReasonCode : string; ru_Allowed : bool;
  ru_RequireClientNotice : bool }.

Record Policy := mkDivPolicy {
  dp_PolicyID : string; dp_Version : string; dp_Mode : string; dp_AuditFields : list string;
  dp_Rules : list Rule }.

Record Request := mkRequest {
  rq_OriginalTarget : Target; rq_DivertedTarget : Target; rq_Visibility : string;
  rq_Trigger : string; rq_ReasonCode : string; rq_ClientNotified : bool }.

Record AuditRecord := mkAudit {
  au_PolicyID : string; au_RuleID : string; au_OriginalTarget : Target;
  au_DivertedTarget : Target; au_Visibility : string; au_Trigger : string;
  au_ReasonCode : string; au_Allowed : bool }.

Record Decision := mkDecision { de_Allowed : bool; de_Audit : AuditRecord }.

(** The zero values. *)
Definition zeroTarget : Target := mkTarget "" "" "" "" "".
Definition zeroDecision : Decision :=
  mkDecision false (mkAudit "" "" zeroTarget zeroTarget "" "" "" false).

(** ** Checks *)

Definition validateValue (value : string) : option error :=
  if bool_decide (TrimSpace value = "") || negb (bool_decide (value = TrimSpace value))
  then Some ErrUnsafeValue
  else if (512 <? slen value) || negb (ValidString value) then Some ErrUnsafeValue
  else if existsb IsControl (runes value) then Some ErrUnsafeValue
  else None.

Definition validateVisibility (visibility : string) : option error :=
  if bool_decide (visibility = VisibilityClientVisible)
     || bool_decide (visibility = VisibilityHidden)
  then None else Some ErrInvalidVisibility.

Fixpoint targetLoop (fields : list (string * string)) : option error :=
  match fields with
  | [] => None
  | (name, value) :: t =>
      if bool_decide (value = "") then targetLoop t
      else match validateValue value with
           | Some err => Some (ErrWrap name err)
           | None => targetLoop t
           end
  end.

Definition targetFields (t : Target) : list (string * string) :=
  [("service", t_Service t); ("tenant", t_Tenant t); ("deployment", t_Deployment t);
   ("environment", t_Environment t); ("agent", t_Agent t)].

Definition validateTarget (t : Target) : option error :=
  if bool_decide (t = zeroTarget) then Some ErrMissingTarget else targetLoop (targetFields t).

Definition requiredAudit : list string :=
  ["policy_id"; "original_target"; "diverted_target"; "trigger"; "reason_code"].

(** The first loop: the required names seen, or the first unsafe field. *)
Fixpoint auditLoop (fields : list string) (seen : gset string) : result error (gset string) :=
  match fields with
  | [] => Ok seen
  | f :: t =>
      match validateValue f with
      | Some err => Err (ErrWrap "audit_fields" err)
      | None => auditLoop t (if bool_decide (f ∈ requiredAudit) then {[f]} ∪ seen else seen)
      end
  end.

Definition validateAuditFields (fields : list string) : option error :=
  match auditLoop fields ∅ with
  | Err err => Some err
  | Ok seen =>
      match filter (fun f => f ∉ seen) requiredAudit with
      | [] => None
      | f :: _ => Some (ErrWrap f ErrMissingAuditField)
      end
  end.

(** [if err := call; err != nil { errs = append(errs, wrap(err)) }]. *)
Definition appendErr (call : option error) (wrap : error -> error) : list error :=
  match call with Some err => [wrap err] | None => [] end.

(** A required value: its own error when empty. *)
Definition requiredValue (value : string) (missing : error) (name : string) : list error :=
  if bool_decide (value = "") then [missing] else appendErr (validateValue value) (ErrWrap name).

Definition rule_validate (r : Rule) : option error :=
  errorsJoin (
    requiredValue (ru_RuleID r) ErrMissingRule "rule_id"
    ++ appendErr (validateTarget (ru_OriginalTarget r)) (ErrWrap "original_target")
    ++ appendErr (validateTarget (ru_DivertedTarget r)) (ErrWrap "diverted_target")
    ++ appendErr (validateVisibility (ru_Visibility r)) id
    ++ appendErr (validateValue (ru_Trigger r)) (ErrWrap "trigger")
    ++ requiredValue (ru_ReasonCode r) ErrMissingReasonCode "reason_code"
    ++ (if bool_decide (ru_Visibility r = VisibilityHidden) && ru_RequireClientNotice r
        then [ErrInvalidVisibility] else [])).

Definition matches (r : Rule) (req : Request) : bool :=
  bool_decide (ru_OriginalTarget r = rq_OriginalTarget req)
  && bool_decide (ru_DivertedTarget r = rq_DivertedTarget req)
  && bool_decide (ru_Visibility r = rq_Visibility req)
  && bool_decide (ru_Trigger r = rq_Trigger req)
  && bool_decide (ru_ReasonCode r = rq_ReasonCode req).

Definition validateRequest (req : Request) : option error :=
  errorsJoin (
    appendErr (validateTarget (rq_OriginalTarget req)) (ErrWrap "original_target")
    ++ appendErr (validateTarget (rq_DivertedTarget req)) (ErrWrap "diverted_target")
    ++ appendErr (validateVisibility (rq_Visibility req)) id
    ++ appendErr (validateValue (rq_Trigger req)) (ErrWrap "trigger")
    ++ requiredValue (rq_ReasonCode req) ErrMissingReasonCode "reason_code").

Definition Validate (p : Policy) : option error :=
  errorsJoin (
    requiredValue (dp_PolicyID p) ErrMissingPolicyID "policy_id"
    ++ (if bool_decide (dp_Version p = Version) then [] else [ErrUnsupportedVersion])
    ++ (if bool_decide (dp_Mode p = ModeRequired) then [] else [ErrInvalidMode])
    ++ appendErr (validateAuditFields (dp_AuditFields p)) id
    ++ (if bool_decide (dp_Rules p = []) then [ErrMissingRule] else [])
    ++ concat (map (fun r => appendErr (rule_validate r) (ErrWrap "rule")) (dp_Rules p))).

Definition hasHiddenRuleFor (p : Policy) (req : Request) : bool :=
  existsb (fun r => bool_decide (ru_Visibility r = VisibilityHidden) && matches r req) (dp_Rules p).

Definition auditForRequest (policyID ruleID : string) (req : Request) (allowed : bool)
    : AuditRecord :=
  mkAudit policyID ruleID (rq_OriginalTarget req) (rq_DivertedTarget req) (rq_Visibility req)
    (rq_Trigger req) (rq_ReasonCode req) allowed.

(** The loop over the rules. *)
Fixpoint evalRules (policyID : string) (rules : list Rule) (req : Request)
    : Decision * option error :=
  match rules with
  | [] => (mkDecision false (auditForRequest policyID "" req false), Some ErrNoMatchingRule)
  | r :: t =>
      if negb (matches r req) then evalRules policyID t req
      else
        let audit := auditForRequest policyID (ru_RuleID r) req (ru_Allowed r) in
        if ru_RequireClientNotice r && negb (rq_ClientNotified req)
        then (mkDecision false audit, Some ErrClientNoticeRequired)
        else if negb (ru_Allowed r) then (mkDecision false audit, Some ErrDenied)
        else (mkDecision true audit, None)
  end.

Definition Evaluate (p : Policy) (req : Request) : Decision * option error :=
  match Validate p with
  | Some err => (zeroDecision, Some err)
  | None =>
      match validateRequest req with
      | Some err => (zeroDecision, Some err)
      | None =>
          if bool_decide (rq_Visibility req = VisibilityHidden) && negb (hasHiddenRuleFor p req)
          then (mkDecision false (auditForRequest (dp_PolicyID p) "" req false),
                Some ErrHiddenNotAllowed)
          else evalRules (dp_PolicyID p) (dp_Rules p) req
      end
  end.

(** ** Specification *)

(** The first rule that matches. *)
Definition decides (p : Policy) (req : Request) (r : Rule) : Prop :=
  exists pre post, dp_Rules p = pre ++ r :: post /\ matches r req = true
    /\ Forall (fun r' => matches r' req = false) pre.

Lemma evalRules_allow id rules req d :
  evalRules id rules req = (d, None) <->
  exists pre r post, rules = pre ++ r :: post /\ matches r req = true
    /\ Forall (fun r' => matches r' req = false) pre
    /\ ru_Allowed r = true /\ (ru_RequireClientNotice r = true -> rq_ClientNotified req = true)
    /\ d = mkDecision true (auditForRequest id (ru_RuleID r) req true).
Proof.
  induction rules as [|r rules IH]; cbn [evalRules].
  { split; [done|]. by intros ([|] & ? & ? & ? & _). }
  destruct (matches r req) eqn:M; simpl.
  - split.
    + destruct (ru_Allowed r) eqn:A; repeat case_goal; try done. intros [= <-].
      exists [], r, rules. split_and!; try done.
      intros Hn. rewrite Hn in Heqb. simpl in Heqb. by apply negb_false_iff.
    + intros ([|r' pre] & r0 & post & Heq & Hm & HF & Ha & Hn & ->); simplify_eq/=.
      * rewrite Ha. destruct (ru_RequireClientNotice r0); simpl; [by rewrite Hn|done].
      * apply Forall_cons in HF as [? _]. congruence.
  - rewrite IH. split.
    + intros (pre & r0 & post & -> & Hm & HF & Hrest). exists (r :: pre), r0, post.
      split; [done|]. split; [done|]. split; [by constructor | exact Hrest].
    + intros ([|r' pre] & r0 & post & Heq & Hm & HF & Hrest); simplify_eq/=; [congruence|].
      apply Forall_cons in HF as [_ HF]. eauto 10.
Qed.

(** Every outcome of the loop: no error exactly when allowed, and the audit record
    describes the request. *)
Definition auditMatches (id : string) (req : Request) (a : AuditRecord) : Prop :=
  a = auditForRequest id (au_RuleID a) req (au_Allowed a).

Lemma evalRules_total id rules req :
  let '(d, err) := evalRules id rules req in
  (de_Allowed d = true <-> err = None) /\ auditMatches id req (de_Audit d).
Proof.
  induction rules as [|r rules IH]; cbn [evalRules]; [by split|].
  repeat case_goal; try exact IH; by split.
Qed.

Lemma hidden_match p req :
  rq_Visibility req = VisibilityHidden -> hasHiddenRuleFor p req = false ->
  Forall (fun r => matches r req = false) (dp_Rules p).
Proof.
  intros Hv. unfold hasHiddenRuleFor. rewrite existsb_false_iff. intros HF.
  eapply Forall_impl; [exact HF|]. intros r. simpl. unfold matches. rewrite <- Hv.
  rewrite andb_false_iff, !andb_false_iff, !bool_decide_eq_false. intuition.
Qed.

(** ** Theorems *)

(** The diversion gate is fail-closed and first-match.  A diversion is allowed
    exactly when the policy and the request are well formed and the first rule that
    matches the request allows it and its client-notice condition is met; the
    decision then names that rule. *)
Theorem Evaluate_decides (p : Policy) (req : Request) (d : Decision) :
  Evaluate p req = (d, None) <->
  Validate p = None /\ validateRequest req = None
  /\ exists r, decides p req r /\ ru_Allowed r = true
       /\ (ru_RequireClientNotice r = true -> rq_ClientNotified req = true)
       /\ d = mkDecision true (auditForRequest (dp_PolicyID p) (ru_RuleID r) req true).
Proof.
  unfold Evaluate, decides.
  destruct (Validate p); [by intuition|]. destruct (validateRequest req); [by intuition|].
  case_goal.
  - bool_to_prop. split; [done|]. intros (_ & _ & r & (pre & post & Heq & Hm & _) & _).
    pose proof (hidden_match p req ltac:(done) ltac:(done)) as HF. rewrite Heq in HF.
    apply Forall_app in HF as [_ HF]. apply Forall_cons in HF as [? _]. congruence.
  - rewrite evalRules_allow. split.
    + intros (pre & r & post & ? & ? & ? & ? & ? & ?). split_and!; [done..|].
      exists r. split_and!; eauto.
    + intros (_ & _ & r & (pre & post & ? & ? & ?) & ? & ? & ?). eauto 15.
Qed.

(** No outcome is ambiguous.  The decision says allowed exactly when there is no
    error, and once policy and request are well formed the audit record carries the
    policy's id and exactly the request's targets, visibility, trigger and reason. *)
Theorem Evaluate_audits (p : Policy) (req : Request) :
  let '(d, err) := Evaluate p req in
  (de_Allowed d = true <-> err = None)
  /\ (d = zeroDecision \/ auditMatches (dp_PolicyID p) req (de_Audit d)).
Proof.
  unfold Evaluate.
  destruct (Validate p); [by split; [|left]|]. destruct (validateRequest req); [by split; [|left]|].
  case_goal; [by split; [|right]|].
  pose proof (evalRules_total (dp_PolicyID p) (dp_Rules p) req) as Ht.
  destruct (evalRules _ _ _) as [d err]. intuition.
Qed.
