(* ===== verification/AgtpCWT.v ===== *)
(** * CWT/COSE profile: [pkg/agtp/cwt.go] and [pkg/agtp/gateway_route_cwt.go]

    The same grants, statements and route assertions carried as CBOR.  The claims are
    a Go [map[any]any]: the model keeps the dynamic type of keys and values, because
    the code looks a claim up under several integer types and switches on the type
    of what it finds.  COSE and CBOR decoding are the operations of the class
    [COSELib] ([github.com/veraison/go-cose], [github.com/fxamacker/cbor]). *)

From stdpp Require Import base gmap sets list strings.
From Stdlib Require Import ZArith Lia Strings.Byte.
From S2P Require Import Prelude GoStrings Errors IdentityPolicy ReplayCache SessionBinding.
From S2P Require Import SessionAccept Sha2 JWTLib TokenVerify GatewayRoute.
From S2P Require AgtpJWT.
Import GatewayRoute.Route.

Definition ErrMissingCOSEAlgorithms := ErrNew "agtp.ErrMissingCOSEAlgorithms".
Definition ErrUnsafeCOSEAlgorithm := ErrNew "agtp.ErrUnsafeCOSEAlgorithm".
Definition ErrUnprotectedKeyID := ErrNew "agtp.ErrUnprotectedKeyID".
Definition ErrMissingCWTID := ErrNew "agtp.ErrMissingCWTID".
Definition ErrRevokedCWTID := ErrNew "agtp.ErrRevokedCWTID".
Definition ErrInvalidIssuer := ErrNew "agtp.ErrInvalidIssuer".
Definition ErrInvalidAudience := ErrNew "agtp.ErrInvalidAudience".
Definition ErrMissingExpiration := ErrNew "agtp.ErrMissingExpiration".
Definition ErrMissingIssuedAt := ErrNew "agtp.ErrMissingIssuedAt".
Definition ErrExpiredToken := ErrNew "agtp.ErrExpiredToken".
Definition ErrFutureToken := ErrNew "agtp.ErrFutureToken".

Definition identityGrantCWTHashSeed : string := "sbaip.identity-grant.cwt.v1" +:+ ofCodes [0].

(** ** Values of a decoded map *)

(** A key of [map[any]any], with its dynamic type. *)
Inductive ckey := KInt (z : Z) | KInt64 (z : Z) | KUint64 (z : Z) | KString (s : string).

#[export] Instance ckey_eq : EqDecision ckey.
Proof. solve_decision. Defined.

(** A value; [VOther] is any type the code does not look at. *)
Inductive cval :=
  | VInt (z : Z) | VInt64 (z : Z) | VUint64 (z : Z)
  | VString (s : string) | VBytes (s : string)
  | VList (l : list cval) | VStrings (l : list string)
  | VMap (m : list (ckey * cval)) | VStringMap (m : list (string * cval))
  | VOther.

Definition cmap : Type := list (ckey * cval).

(** [v, ok := m[k]]. *)
Fixpoint mapGet (m : cmap) (k : ckey) : option cval :=
  match m with
  | [] => None
  | (k', v) :: t => if bool_decide (k' = k) then Some v else mapGet t k
  end.

Fixpoint stringMapGet (m : list (string * cval)) (k : string) : option cval :=
  match m with
  | [] => None
  | (k', v) :: t => if bool_decide (k' = k) then Some v else stringMapGet t k
  end.

(** The registered claim keys of go-cose, all of type [int64]. *)
Definition CWTClaimIssuer : ckey := KInt64 1.
Definition CWTClaimSubject : ckey := KInt64 2.
Definition CWTClaimAudience : ckey := KInt64 3.
Definition CWTClaimExpirationTime : ckey := KInt64 4.
Definition CWTClaimIssuedAt : ckey := KInt64 6.
Definition CWTClaimCWTID : ckey := KInt64 7.
Definition CWTClaimConfirmation : ckey := KInt64 8.
Definition HeaderLabelKeyID : ckey := KInt64 4.

(** [cose.AlgorithmReserved]. *)
Definition AlgorithmReserved : Z := 0.

(** ** The COSE and CBOR libraries *)

Record Sign1Message := mkSign1 {
  m_Protected : cmap; m_Unprotected : cmap; m_Payload : list byte; m_Signature : list byte }.

Class COSELib (Key : Type) := {
  Verifier : Type;
  UnmarshalSign1 : list byte -> result error Sign1Message;
  Algorithm : cmap -> result error Z;
  NewVerifier : Z -> option Key -> result error Verifier;
  VerifySign1 : Sign1Message -> Verifier -> option error;
  UnmarshalClaims : list byte -> result error cmap }.

(** [cose.NewVerifier] refuses a nil key: the key has to be a public key of the
    algorithm's kind. *)
Class COSELibLaws (Key : Type) `{!COSELib Key} : Prop := {
  new_verifier_nil : forall alg v, NewVerifier alg None <> Ok v }.

(** ** Claim access *)

Definition cwtKeyAliases (key : ckey) : list ckey :=
  match key with
  | KInt64 k => [KInt64 k; KInt k; KUint64 (wrapU 64 k)]
  | KInt k => [KInt k; KInt64 k; KUint64 (wrapU 64 k)]
  | KUint64 k => if k <=? maxInt64 then [KUint64 k; KInt64 k; KInt k] else [KUint64 k]
  | KString s => [KString s]
  end.

Fixpoint firstClaim (claims : cmap) (candidates : list ckey) : option cval :=
  match candidates with
  | [] => None
  | k :: t => match mapGet claims k with Some v => Some v | None => firstClaim claims t end
  end.

Definition cwtClaimValue (claims : cmap) (key : ckey) : option cval :=
  firstClaim claims (cwtKeyAliases key).

Definition cwtStringValue (value : cval) : option string :=
  match value with VString s => Some s | VBytes b => Some b | _ => None end.

Definition cwtStringClaim (claims : cmap) (key : ckey) : option string :=
  match cwtClaimValue claims key with Some v => cwtStringValue v | None => None end.

Definition cwtStringClaimOrEmpty (claims : cmap) (key : ckey) : string :=
  default "" (cwtStringClaim claims key).

Definition cwtMapStringValue (values : cmap) (key : ckey) : option string :=
  match cwtClaimValue values key with Some v => cwtStringValue v | None => None end.

Definition cwtStringSliceClaim (claims : cmap) (key : ckey) : list string :=
  match cwtClaimValue claims key with
  | Some (VStrings l) => l
  | Some (VList l) => omap cwtStringValue l
  | Some (VString s) => if blank s then [] else [s]
  | _ => []
  end.

(** [time.Unix] wraps around on the seconds. *)
Definition cwtTimeClaim (claims : cmap) (key : ckey) : option Time :=
  match cwtClaimValue claims key with
  | Some (VInt v) => Some (timeUnix v)
  | Some (VInt64 v) => Some (timeUnix v)
  | Some (VUint64 v) => if maxInt64 <? v then None else Some (timeUnix v)
  | _ => None
  end.

Definition cwtIntClaimOrZero (claims : cmap) (key : ckey) : Z :=
  match cwtClaimValue claims key with
  | Some (VInt v) => v
  | Some (VInt64 v) => v
  | Some (VUint64 v) => wrapS 64 v
  | _ => 0
  end.

Definition cwtAudienceMatches (claims : cmap) (expected : string) : bool :=
  match cwtClaimValue claims CWTClaimAudience with
  | None => false
  | Some value =>
      match cwtStringValue value with
      | Some audience => bool_decide (audience = expected)
      | None =>
          match value with
          | VList l => existsb (fun item => bool_decide (cwtStringValue item = Some expected)) l
          | VStrings l => existsb (fun audience => bool_decide (audience = expected)) l
          | _ => false
          end
      end
  end.

Definition cwtIDFromClaims (claims : cmap) : string := cwtStringClaimOrEmpty claims CWTClaimCWTID.

Definition cwtConfirmationKey (claims : cmap) : string :=
  let value := match cwtClaimValue claims CWTClaimConfirmation with
               | Some v => Some v
               | None => cwtClaimValue claims (KString "cnf")
               end in
  match value with
  | Some (VMap cnf) => default "" (cwtMapStringValue cnf (KString "kid"))
  | Some (VStringMap cnf) =>
      match stringMapGet cnf "kid" with
      | Some v => default "" (cwtStringValue v)
      | None => ""
      end
  | _ => ""
  end.

Definition cwtProfileClaims (claims : cmap) : AgtpJWT.profileClaims :=
  AgtpJWT.mkProfile (cwtStringClaimOrEmpty claims (KString "profile_type"))
    (cwtStringClaimOrEmpty claims (KString "profile_version"))
    (cwtStringClaimOrEmpty claims (KString "agtp_type"))
    (cwtStringClaimOrEmpty claims (KString "agtp_version")).

(** ** Options *)

(** [CWTLocalKey] has the fields of the JWT local key. *)
Record CWTVerifyOptions (Key : Type) := mkCWTOptions {
  co_ExpectedIssuer : string; co_ExpectedAudience : string; co_ValidAlgorithms : list Z;
  co_KeyFunc : option (KeyFunc Key); co_LocalKeys : list (LocalKey Key);
  co_DisabledKeyIDs : list string; co_RevokedCWTIDs : list string; co_Now : Time }.
Arguments mkCWTOptions {Key}. Arguments co_ExpectedIssuer {Key}.
Arguments co_ExpectedAudience {Key}. Arguments co_ValidAlgorithms {Key}.
Arguments co_KeyFunc {Key}. Arguments co_LocalKeys {Key}. Arguments co_DisabledKeyIDs {Key}.
Arguments co_RevokedCWTIDs {Key}. Arguments co_Now {Key}.

Definition cwtWithNow {Key} (o : CWTVerifyOptions Key) (now : Time) : CWTVerifyOptions Key :=
  mkCWTOptions (co_ExpectedIssuer o) (co_ExpectedAudience o) (co_ValidAlgorithms o)
    (co_KeyFunc o) (co_LocalKeys o) (co_DisabledKeyIDs o) (co_RevokedCWTIDs o) now.

Record SessionIdentityCWTOptions (Key : Type) := mkCWTSession {
  cs_Grant : CWTVerifyOptions Key; cs_SessionBinding : CWTVerifyOptions Key;
  cs_Policy : Policy; cs_ExpectedBinding : Binding; cs_Now : Time }.
Arguments mkCWTSession {Key}. Arguments cs_Grant {Key}. Arguments cs_SessionBinding {Key}.
Arguments cs_Policy {Key}. Arguments cs_ExpectedBinding {Key}. Arguments cs_Now {Key}.

(** The key options in the form of the shared key table. *)
Definition keyOptions {Key} (o : CWTVerifyOptions Key) : JWTVerifyOptions Key :=
  mkVerifyOptions (co_ExpectedIssuer o) (co_ExpectedAudience o) [] (co_KeyFunc o)
    (co_LocalKeys o) (co_DisabledKeyIDs o) (co_RevokedCWTIDs o) (co_Now o).

Definition validateCWTVerifyOptions {Key} (opts : CWTVerifyOptions Key) : option error :=
  if bool_decide (co_ValidAlgorithms opts = []) then Some ErrMissingCOSEAlgorithms
  else if existsb (Z.eqb AlgorithmReserved) (co_ValidAlgorithms opts)
  then Some ErrUnsafeCOSEAlgorithm
  else if blank (co_ExpectedIssuer opts) then Some AgtpJWT.ErrMissingExpectedIssuer
  else if blank (co_ExpectedAudience opts) then Some AgtpJWT.ErrMissingExpectedAudience
  else None.

(** After the key-source checks the table is built as for JWTs. *)
Definition cwtKeyFuncForOptions {Key} (opts : CWTVerifyOptions Key)
    : result error (KeyFunc Key) :=
  if bool_decide (co_KeyFunc opts = None) && bool_decide (co_LocalKeys opts = [])
  then Err AgtpJWT.ErrMissingKeyFunc
  else if negb (bool_decide (co_KeyFunc opts = None))
          && negb (bool_decide (co_LocalKeys opts = []))
  then Err AgtpJWT.ErrAmbiguousKeySource
  else AgtpJWT.keyFuncForOptions (keyOptions opts).

Definition ValidateCWTVerifyOptions {Key} (opts : CWTVerifyOptions Key) : option error :=
  match validateCWTVerifyOptions opts with
  | Some err => Some err
  | None => match cwtKeyFuncForOptions opts with Err err => Some err | Ok _ => None end
  end.

Definition allowedCOSEAlgorithm (alg : Z) (allowed : list Z) : bool := existsb (Z.eqb alg) allowed.

Definition IdentityGrantCWTHash (token : list byte) : string :=
  "sha256:" +:+ hexEncode (Sum256 (bytesOf identityGrantCWTHashSeed ++ token)).

Definition validateCWTRegisteredClaims {Key} (wall : Time) (claims : cmap)
    (opts : CWTVerifyOptions Key) : option error :=
  if negb (match cwtStringClaim claims CWTClaimIssuer with
           | Some issuer => bool_decide (TrimSpace issuer = co_ExpectedIssuer opts)
           | None => false end)
  then Some ErrInvalidIssuer
  else if negb (cwtAudienceMatches claims (co_ExpectedAudience opts))
  then Some ErrInvalidAudience
  else match cwtTimeClaim claims CWTClaimExpirationTime with
       | None => Some ErrMissingExpiration
       | Some expiresAt =>
           match cwtTimeClaim claims CWTClaimIssuedAt with
           | None => Some ErrMissingIssuedAt
           | Some issuedAt =>
               let now := if IsZero (co_Now opts) then wall else co_Now opts in
               if After now expiresAt then Some ErrExpiredToken
               else if After issuedAt now then Some ErrFutureToken
               else None
           end
       end.

Definition keyIDFromCOSE (msg : Sign1Message) : result error string :=
  match mapGet (m_Protected msg) HeaderLabelKeyID with
  | None => Err AgtpJWT.ErrMissingKeyID
  | Some value =>
      match cwtStringValue value with
      | None => Err AgtpJWT.ErrMissingKeyID
      | Some keyID => if blank keyID then Err AgtpJWT.ErrMissingKeyID else Ok keyID
      end
  end.

(** ** Verification *)

Section verify.
Context {Key : Type} `{!COSELib Key}.

Definition parseCWT (wall : Time) (token : list byte) (opts : CWTVerifyOptions Key)
    : result error (cmap * string) :=
  match validateCWTVerifyOptions opts with
  | Some err => Err err
  | None =>
      let* keyFunc := cwtKeyFuncForOptions opts in
      match UnmarshalSign1 token with
      | Err err => Err (ErrWrap "agtp: decode COSE_Sign1" err)
      | Ok msg =>
          if bool_decide (is_Some (mapGet (m_Unprotected msg) HeaderLabelKeyID))
          then Err ErrUnprotectedKeyID
          else match Algorithm (m_Protected msg) with
          | Err err => Err (ErrWrap "agtp: missing COSE algorithm" err)
          | Ok alg =>
              if negb (allowedCOSEAlgorithm alg (co_ValidAlgorithms opts))
              then Err ErrUnsafeCOSEAlgorithm
              else
                let* keyID := keyIDFromCOSE msg in
                let* key := keyFunc keyID in
                match NewVerifier alg key with
                | Err err => Err (ErrWrap "agtp: create COSE verifier" err)
                | Ok verifier =>
                    match VerifySign1 msg verifier with
                    | Some err => Err (ErrWrap "agtp: verify COSE_Sign1" err)
                    | None =>
                        match UnmarshalClaims (m_Payload msg) with
                        | Err err => Err (ErrWrap "agtp: decode CWT payload" err)
                        | Ok claims =>
                            match validateCWTRegisteredClaims wall claims opts with
                            | Some err => Err err
                            | None => Ok (claims, keyID)
                            end
                        end
                    end
                end
          end
      end
  end.

(** The identity values of a grant. *)
Definition cwtValues (claims : cmap) (subject : string) : Values :=
  let str k := cwtStringClaimOrEmpty claims (KString k) in
  let strs k := cwtStringSliceClaim claims (KString k) in
  mkValues (str "service") (str "tenant") (str "deployment") (str "environment")
    (str "workload") (if bool_decide (str "agent" = "") then subject else str "agent")
    (str "agent_public_key") (str "computation_id") (str "task_id") (str "thread_id")
    (str "delegation_id") (str "intent_ref") (str "capability_ref") (str "ontology_id")
    (appendScopeValues (strs "scopes") (str "scope"))
    (appendScopeValues (strs "resources") (str "resource"))
    (strs "authorization_details").

(** [issuedAt, _ := cwtTimeClaim(...)]. *)
Definition timeOrZero (claims : cmap) (key : ckey) : Time :=
  default timeZero (cwtTimeClaim claims key).

Definition VerifyIdentityGrantCWT (wall : Time) (token : list byte)
    (opts : CWTVerifyOptions Key) : result error VerifiedGrant :=
  let* r := parseCWT wall token opts in
  let '(claims, signerKey) := r in
  match AgtpJWT.validateProfileClaims (cwtProfileClaims claims)
          AgtpJWT.TokenTypeIdentityGrant with
  | Some err => Err err
  | None =>
      let cwtID := cwtIDFromClaims claims in
      if blank cwtID then Err ErrMissingCWTID
      else if isListed cwtID (co_RevokedCWTIDs opts) then Err ErrRevokedCWTID
      else
        let subject := cwtStringClaimOrEmpty claims CWTClaimSubject in
        if blank subject then Err AgtpJWT.ErrMissingSubject
        else
          let confirmationKey := cwtConfirmationKey claims in
          if blank confirmationKey then Err AgtpJWT.ErrMissingConfirmationKey
          else Ok (mkGrant (cwtStringClaimOrEmpty claims CWTClaimIssuer) signerKey
                     (co_ExpectedAudience opts) (IdentityGrantCWTHash token)
                     (cwtValues claims subject) confirmationKey
                     (cwtStringSliceClaim claims (KString "authorized_endpoint_keys"))
                     (timeOrZero claims CWTClaimIssuedAt)
                     (timeOrZero claims CWTClaimExpirationTime))
  end.

(** The binding claims of a statement. *)
Definition cwtBindingClaims (claims : cmap) : AgtpJWT.sessionBindingClaims :=
  let str k := cwtStringClaimOrEmpty claims (KString k) in
  AgtpJWT.mkBindingClaims (mkRegistered "" "" [] None None None "")
    (AgtpJWT.mkProfile "" "" "" "")
    (str "grant_hash") (str "leaf_public_key_sha256") (str "tls_exporter_sha256")
    (str "request_context_sha256") (str "attestation_binder_sha256") (str "nonce").

Definition VerifySessionBindingCWT (wall : Time) (token : list byte)
    (opts : CWTVerifyOptions Key) : result error VerifiedSessionBindingStatement :=
  let* r := parseCWT wall token opts in
  let '(claims, signerKey) := r in
  match AgtpJWT.validateProfileClaims (cwtProfileClaims claims)
          AgtpJWT.TokenTypeSessionBinding with
  | Some err => Err err
  | None =>
      let cwtID := cwtIDFromClaims claims in
      if blank cwtID then Err ErrMissingCWTID
      else if isListed cwtID (co_RevokedCWTIDs opts) then Err ErrRevokedCWTID
      else
        let b := cwtBindingClaims claims in
        match AgtpJWT.validateSessionBindingClaims b with
        | Some err => Err err
        | None =>
            Ok (mkStatement (AgtpJWT.bc_GrantHash b) (co_ExpectedAudience opts) signerKey
                  (mkBinding (AgtpJWT.bc_LeafPublicKeySHA256 b) (AgtpJWT.bc_TLSExporterSHA256 b)
                     (AgtpJWT.bc_RequestContextSHA256 b) (AgtpJWT.bc_AttestationBinderSHA256 b)
                     (AgtpJWT.bc_Nonce b) (timeOrZero claims CWTClaimIssuedAt)
                     (timeOrZero claims CWTClaimExpirationTime)))
        end
  end.

Definition gatewayRouteAssertionFromCWTClaims (claims : cmap) : RouteAssertion :=
  let str k := cwtStringClaimOrEmpty claims (KString k) in
  mkRoute (str "gta_type") (cwtIntClaimOrZero claims (KString "gta_version"))
    (cwtStringClaimOrEmpty claims CWTClaimIssuer) (cwtStringClaimOrEmpty claims CWTClaimAudience)
    (cwtIDFromClaims claims) (timeOrZero claims CWTClaimIssuedAt)
    (timeOrZero claims CWTClaimExpirationTime) (str "nonce") (str "grant_hash")
    (str "gateway_session_binding_sha256") (str "route_id") (str "next_hop") (str "tenant")
    (str "principal") (str "authority_scope") (str "policy_id") (str "target_agent")
    (str "target_workload") (str "target_agent_key_thumbprint") (str "upstream_authn")
    (str "upstream_peer") (str "request_context_sha256") (str "task_id") (str "context_id")
    (str "session_id") (str "audit_hash") (str "agent_hok_proof_sha256").

(** Note the id test: an exact comparison with the empty string. *)
Definition VerifyGatewayRouteAssertionCWT (wall : Time) (token : list byte)
    (opts : CWTVerifyOptions Key) : result error RouteAssertion :=
  let* r := parseCWT wall token opts in
  let claims := fst r in
  let cwtID := cwtIDFromClaims claims in
  if bool_decide (cwtID = "") then Err ErrMissingCWTID
  else if isListed cwtID (co_RevokedCWTIDs opts) then Err ErrRevokedCWTID
  else
    let assertion := gatewayRouteAssertionFromCWTClaims claims in
    match validateGatewayRouteCore assertion with
    | Some err => Err err
    | None => Ok assertion
    end.

Section session.
Context {C : Type} `{ReplayCache C}.

Definition VerifySessionIdentityCWT (wall clock : Time) (grantToken bindingToken : list byte)
    (opts : SessionIdentityCWTOptions Key) (cache : option C)
    : result error SessionIdentityJWTResult * option C :=
  if negb (Policy_Enabled (cs_Policy opts)) then (Err AgtpJWT.ErrMissingIdentityPolicy, cache)
  else match cache with
  | None => (Err AgtpJWT.ErrMissingReplayCache, cache)
  | Some _ =>
      let now := if IsZero (cs_Now opts) then wall else cs_Now opts in
      match VerifyIdentityGrantCWT wall grantToken (cwtWithNow (cs_Grant opts) now) with
      | Err err => (Err err, cache)
      | Ok grant =>
          match VerifySessionBindingCWT wall bindingToken
                  (cwtWithNow (cs_SessionBinding opts) now) with
          | Err err => (Err err, cache)
          | Ok statement =>
              acceptSession (cs_Policy opts) (cs_ExpectedBinding opts) now clock
                grant statement cache
          end
      end
  end.

Record GatewayRouteCWTOptions := mkCWTRouteOptions {
  cg_Assertion : CWTVerifyOptions Key; cg_Expected : ExpectedRoute;
  cg_Proof : option HolderOfKeyProof; cg_ExpectedGrantHash : string;
  cg_ExpectedGatewaySessionBindingSHA256 : string;
  cg_ExpectedAgentHolderOfKeyProofSHA256 : string; cg_RouteNow : Time }.

Definition VerifyGatewayRouteCWT (wall clock : Time) (token : list byte)
    (opts : GatewayRouteCWTOptions) (cache : option C)
    : result error RouteAssertion * option C :=
  match cache with
  | None => (Err AgtpJWT.ErrMissingReplayCache, cache)
  | Some _ =>
      let now := if IsZero (co_Now (cg_Assertion opts)) then wall
                 else co_Now (cg_Assertion opts) in
      match VerifyGatewayRouteAssertionCWT wall token (cg_Assertion opts) with
      | Err err => (Err err, cache)
      | Ok assertion =>
          match validateGatewayRouteAcceptance assertion (cg_ExpectedGrantHash opts)
                  (cg_ExpectedGatewaySessionBindingSHA256 opts)
                  (cg_ExpectedAgentHolderOfKeyProofSHA256 opts)
                  (er_RequireAgentHolderOfKeyProof (cg_Expected opts)) with
          | Some err => (Err err, cache)
          | None =>
              match Validate wall clock assertion (cg_Proof opts) (cg_Expected opts)
                      (routeOptionsWithNow (cg_RouteNow opts) now) cache with
              | (Some err, cache') => (Err err, cache')
              | (None, cache') => (Ok assertion, cache')
              end
          end
      end
  end.
End session.
End verify.

(** ** Specification *)

Section spec.
Context {Key : Type} `{!COSELib Key}.

(** Algorithms, issuer and audience are set, and there is one source of keys. *)
Definition cwtOptionsOk (opts : CWTVerifyOptions Key) : Prop :=
  co_ValidAlgorithms opts <> [] /\ AlgorithmReserved ∉ co_ValidAlgorithms opts
  /\ blank (co_ExpectedIssuer opts) = false /\ blank (co_ExpectedAudience opts) = false
  /\ match co_KeyFunc opts with
     | Some _ => co_LocalKeys opts = []
     | None => co_LocalKeys opts <> [] /\ keysWellFormed (co_LocalKeys opts)
     end.

(** The claims are for this verifier and current. *)
Definition cwtCurrent (wall : Time) (opts : CWTVerifyOptions Key) (claims : cmap) : Prop :=
  let now := if IsZero (co_Now opts) then wall else co_Now opts in
  (exists iss, cwtStringClaim claims CWTClaimIssuer = Some iss
     /\ TrimSpace iss = co_ExpectedIssuer opts)
  /\ cwtAudienceMatches claims (co_ExpectedAudience opts) = true
  /\ (exists exp iat, cwtTimeClaim claims CWTClaimExpirationTime = Some exp
       /\ cwtTimeClaim claims CWTClaimIssuedAt = Some iat /\ iat <= now <= exp).

(** The message is signed, under an allowed algorithm, by the key its protected
    header names, and the key is the local table's. *)
Definition cwtTrusted (wall : Time) (opts : CWTVerifyOptions Key) (token : list byte)
    (claims : cmap) (signer : string) : Prop :=
  cwtOptionsOk opts
  /\ exists msg alg key verifier value,
       UnmarshalSign1 token = Ok msg
       /\ mapGet (m_Unprotected msg) HeaderLabelKeyID = None
       /\ Algorithm (m_Protected msg) = Ok alg /\ alg ∈ co_ValidAlgorithms opts
       /\ mapGet (m_Protected msg) HeaderLabelKeyID = Some value
       /\ cwtStringValue value = Some signer /\ blank signer = false
       /\ trustedKey AgtpJWT.agtpProfile (keyOptions opts) signer key
       /\ NewVerifier alg (Some key) = Ok verifier /\ VerifySign1 msg verifier = None
       /\ UnmarshalClaims (m_Payload msg) = Ok claims
       /\ cwtCurrent wall opts claims.

Definition cwtGrantTrusted (wall : Time) (opts : CWTVerifyOptions Key) (token : list byte)
    (g : VerifiedGrant) : Prop :=
  exists claims signer, cwtTrusted wall opts token claims signer
    /\ AgtpJWT.profileIs (cwtProfileClaims claims) AgtpJWT.TokenTypeIdentityGrant
    /\ blank (cwtIDFromClaims claims) = false
    /\ isListed (cwtIDFromClaims claims) (co_RevokedCWTIDs opts) = false
    /\ blank (cwtStringClaimOrEmpty claims CWTClaimSubject) = false
    /\ blank (cwtConfirmationKey claims) = false
    /\ g = mkGrant (cwtStringClaimOrEmpty claims CWTClaimIssuer) signer
             (co_ExpectedAudience opts) (IdentityGrantCWTHash token)
             (cwtValues claims (cwtStringClaimOrEmpty claims CWTClaimSubject))
             (cwtConfirmationKey claims)
             (cwtStringSliceClaim claims (KString "authorized_endpoint_keys"))
             (timeOrZero claims CWTClaimIssuedAt) (timeOrZero claims CWTClaimExpirationTime).

Definition cwtStatementTrusted (wall : Time) (opts : CWTVerifyOptions Key)
    (token : list byte) (st : VerifiedSessionBindingStatement) : Prop :=
  exists claims signer, cwtTrusted wall opts token claims signer
    /\ AgtpJWT.profileIs (cwtProfileClaims claims) AgtpJWT.TokenTypeSessionBinding
    /\ blank (cwtIDFromClaims claims) = false
    /\ isListed (cwtIDFromClaims claims) (co_RevokedCWTIDs opts) = false
    /\ AgtpJWT.bindingFieldsPresent (cwtBindingClaims claims)
    /\ let b := cwtBindingClaims claims in
       st = mkStatement (AgtpJWT.bc_GrantHash b) (co_ExpectedAudience opts) signer
              (mkBinding (AgtpJWT.bc_LeafPublicKeySHA256 b) (AgtpJWT.bc_TLSExporterSHA256 b)
                 (AgtpJWT.bc_RequestContextSHA256 b) (AgtpJWT.bc_AttestationBinderSHA256 b)
                 (AgtpJWT.bc_Nonce b) (timeOrZero claims CWTClaimIssuedAt)
                 (timeOrZero claims CWTClaimExpirationTime)).

Definition cwtSessionAccepts (wall : Time) (grantToken bindingToken : list byte)
    (opts : SessionIdentityCWTOptions Key) (res : SessionIdentityJWTResult) : Prop :=
  let now := if IsZero (cs_Now opts) then wall else cs_Now opts in
  Policy_Enabled (cs_Policy opts) = true
  /\ cwtGrantTrusted wall (cwtWithNow (cs_Grant opts) now) grantToken (sr_Grant res)
  /\ cwtStatementTrusted wall (cwtWithNow (cs_SessionBinding opts) now) bindingToken
       (sr_Statement res)
  /\ resultAccepts (cs_Policy opts) (cs_ExpectedBinding opts) now res.

Definition cwtRouteTrusted (wall : Time) (opts : CWTVerifyOptions Key) (token : list byte)
    (a : RouteAssertion) : Prop :=
  exists claims signer, cwtTrusted wall opts token claims signer
    /\ cwtIDFromClaims claims <> ""
    /\ isListed (cwtIDFromClaims claims) (co_RevokedCWTIDs opts) = false
    /\ a = gatewayRouteAssertionFromCWTClaims claims /\ validateGatewayRouteCore a = None.

(** The route options in the form of the JWT adapter, whose route policy is shared. *)
Definition routePolicy (o : GatewayRouteCWTOptions) : GatewayRouteJWTOptions Key :=
  mkRouteOptions (keyOptions (cg_Assertion o)) (cg_Expected o) (cg_Proof o)
    (cg_ExpectedGrantHash o) (cg_ExpectedGatewaySessionBindingSHA256 o)
    (cg_ExpectedAgentHolderOfKeyProofSHA256 o) (cg_RouteNow o).

(** ** Refinement *)

Lemma validateCWTRegisteredClaims_None wall claims (opts : CWTVerifyOptions Key) :
  validateCWTRegisteredClaims wall claims opts = None <-> cwtCurrent wall opts claims.
Proof.
  unfold validateCWTRegisteredClaims, cwtCurrent, After. cbv zeta.
  set (now := if IsZero _ then _ else _).
  destruct (cwtStringClaim claims CWTClaimIssuer) as [iss|]; simpl;
    [|split; [done | by intros ((? & ? & _) & _)]].
  case_bool_decide as Hi; simpl; [|split; [done | intros ((? & [= <-] & ?) & _); done]].
  destruct (cwtAudienceMatches _ _); simpl; [|split; [done | by intros (_ & ? & _)]].
  destruct (cwtTimeClaim claims CWTClaimExpirationTime) as [exp|];
    [|split; [done | by intros (_ & _ & ? & ? & ? & _)]].
  destruct (cwtTimeClaim claims CWTClaimIssuedAt) as [iat|];
    [|split; [done | by intros (_ & _ & ? & ? & _ & ? & _)]].
  repeat case_goal; bool_to_prop; split; try done.
  all: try (intros (_ & _ & ? & ? & [= <-] & [= <-] & ?); lia).
  intros _. split_and!; eauto. exists exp, iat. split_and!; auto; lia.
Qed.

Lemma validateCWTVerifyOptions_None (opts : CWTVerifyOptions Key) :
  validateCWTVerifyOptions opts = None <->
  co_ValidAlgorithms opts <> [] /\ AlgorithmReserved ∉ co_ValidAlgorithms opts
  /\ blank (co_ExpectedIssuer opts) = false /\ blank (co_ExpectedAudience opts) = false.
Proof.
  unfold validateCWTVerifyOptions.
  assert (R : existsb (Z.eqb AlgorithmReserved) (co_ValidAlgorithms opts) = false <->
              AlgorithmReserved ∉ co_ValidAlgorithms opts).
  { rewrite existsb_false_iff, Forall_forall. split.
    - intros HF Hin. by apply HF in Hin.
    - intros Hn x Hin. apply Z.eqb_neq. congruence. }
  rewrite <- R. case_bool_decide; repeat case_goal; intuition congruence.
Qed.

Lemma cwtKeyFuncForOptions_Ok (opts : CWTVerifyOptions Key) :
  (exists kf, cwtKeyFuncForOptions opts = Ok kf) <->
  match co_KeyFunc opts with
  | Some _ => co_LocalKeys opts = []
  | None => co_LocalKeys opts <> [] /\ keysWellFormed (co_LocalKeys opts)
  end.
Proof.
  pose proof (keyFunc_succeeds AgtpJWT.agtpProfile (keyOptions opts)) as K.
  unfold cwtKeyFuncForOptions, AgtpJWT.keyFuncForOptions. simpl in K.
  destruct (co_KeyFunc opts), (co_LocalKeys opts); simpl; rewrite ?K;
    split; try (by intros [? ?]); intuition congruence.
Qed.

Lemma cwtOptionsOk_iff (opts : CWTVerifyOptions Key) :
  cwtOptionsOk opts <->
  validateCWTVerifyOptions opts = None /\ exists kf, cwtKeyFuncForOptions opts = Ok kf.
Proof. rewrite validateCWTVerifyOptions_None, cwtKeyFuncForOptions_Ok. unfold cwtOptionsOk. tauto. Qed.

Lemma cwtKeyFunc_trusted (opts : CWTVerifyOptions Key) kf id key :
  cwtKeyFuncForOptions opts = Ok kf ->
  kf id = Ok (Some key) <-> trustedKey AgtpJWT.agtpProfile (keyOptions opts) id key.
Proof. unfold cwtKeyFuncForOptions. do 2 (case_goal; [done|]). apply keyFunc_trusted. Qed.

Lemma keyIDFromCOSE_Ok msg id :
  keyIDFromCOSE msg = Ok id <-> exists value,
    mapGet (m_Protected msg) HeaderLabelKeyID = Some value
    /\ cwtStringValue value = Some id /\ blank id = false.
Proof.
  unfold keyIDFromCOSE. destruct (mapGet _ _) as [value|];
    [|split; [done | by intros (? & ? & _)]].
  destruct (cwtStringValue value) as [kid|] eqn:V;
    [|split; [done | intros (? & [= <-] & ? & _); congruence]].
  destruct (blank kid) eqn:B; split; try done.
  - intros (? & [= <-] & ? & ?). congruence.
  - intros [= <-]. eauto.
  - intros (? & [= <-] & ? & ?). congruence.
Qed.

Context `{!COSELibLaws Key}.

Lemma parseCWT_Ok wall token (opts : CWTVerifyOptions Key) claims signer :
  parseCWT wall token opts = Ok (claims, signer) <-> cwtTrusted wall opts token claims signer.
Proof.
  unfold parseCWT, cwtTrusted. rewrite cwtOptionsOk_iff. split.
  - destruct (validateCWTVerifyOptions opts); [done|].
    destruct (cwtKeyFuncForOptions opts) as [kf|] eqn:Kf; simpl; [|done].
    destruct (UnmarshalSign1 token) as [msg|] eqn:U; [|done].
    case_bool_decide as Hu; [done|]. apply eq_None_not_Some in Hu.
    destruct (Algorithm _) as [alg|] eqn:A; [|done].
    destruct (allowedCOSEAlgorithm _ _) eqn:Al; simpl; [|done].
    destruct (keyIDFromCOSE msg) as [id|] eqn:I; simpl; [|done].
    apply keyIDFromCOSE_Ok in I as (value & Hv & Hs & Hb).
    destruct (kf id) as [[key|]|] eqn:K; simpl; [| |done].
    + destruct (NewVerifier alg (Some key)) as [v|] eqn:N; [|done].
      destruct (VerifySign1 msg v) eqn:Vf; [done|].
      destruct (UnmarshalClaims _) as [c|] eqn:C; [|done].
      destruct (validateCWTRegisteredClaims _ _ _) eqn:R; [done|]. intros [= -> ->].
      apply validateCWTRegisteredClaims_None in R.
      apply existsb_exists in Al as (x & Hin & <-%Z.eqb_eq).
      split; [by eauto|]. exists msg, alg, key, v, value. split_and!; auto.
      * by apply list_elem_of_In.
      * by apply (cwtKeyFunc_trusted opts kf).
    + destruct (NewVerifier alg None) as [v|] eqn:N; [by apply new_verifier_nil in N | done].
  - intros ((-> & kf & Kf) & msg & alg & key & v & value & -> & Hu & -> & Hin & Hv & Hs & Hb
      & Hk & N & Vf & C & R%validateCWTRegisteredClaims_None).
    rewrite Kf. simpl. rewrite Hu. simpl.
    assert (allowedCOSEAlgorithm alg (co_ValidAlgorithms opts) = true) as ->.
    { apply existsb_exists. exists alg. by rewrite Z.eqb_refl, <- list_elem_of_In. }
    assert (keyIDFromCOSE msg = Ok signer) as -> by (apply keyIDFromCOSE_Ok; eauto).
    apply (cwtKeyFunc_trusted opts kf _ _ Kf) in Hk. simpl. rewrite Hk. simpl.
    by rewrite N, Vf, C, R.
Qed.

Lemma VerifyIdentityGrantCWT_Ok wall token (opts : CWTVerifyOptions Key) g :
  VerifyIdentityGrantCWT wall token opts = Ok g <-> cwtGrantTrusted wall opts token g.
Proof.
  unfold VerifyIdentityGrantCWT, cwtGrantTrusted. split.
  - destruct (parseCWT wall token opts) as [[c signer]|] eqn:P; simpl; [|done].
    apply parseCWT_Ok in P.
    destruct (AgtpJWT.validateProfileClaims _ _) eqn:R; [done|].
    apply AgtpJWT.validateProfileClaims_None in R.
    repeat (case_goal; [done|]). intros [= <-]. exists c, signer. by split_and!.
  - intros (c & signer & Ht%parseCWT_Ok & R%AgtpJWT.validateProfileClaims_None
      & B1 & B2 & B3 & B4 & ->).
    rewrite Ht. simpl. by rewrite R, B1, B2, B3, B4.
Qed.

Lemma VerifySessionBindingCWT_Ok wall token (opts : CWTVerifyOptions Key) st :
  VerifySessionBindingCWT wall token opts = Ok st <-> cwtStatementTrusted wall opts token st.
Proof.
  unfold VerifySessionBindingCWT, cwtStatementTrusted. cbv zeta. split.
  - destruct (parseCWT wall token opts) as [[c signer]|] eqn:P; simpl; [|done].
    apply parseCWT_Ok in P.
    destruct (AgtpJWT.validateProfileClaims _ _) eqn:R; [done|].
    apply AgtpJWT.validateProfileClaims_None in R. do 2 (case_goal; [done|]).
    destruct (AgtpJWT.validateSessionBindingClaims _) eqn:F; [done|].
    apply AgtpJWT.validateSessionBindingClaims_None in F.
    intros [= <-]. exists c, signer. by split_and!.
  - intros (c & signer & Ht%parseCWT_Ok & R%AgtpJWT.validateProfileClaims_None & B1 & B2
      & F%AgtpJWT.validateSessionBindingClaims_None & ->).
    rewrite Ht. simpl. by rewrite R, B1, B2, F.
Qed.

Lemma VerifyRouteAssertionCWT_Ok wall token (opts : CWTVerifyOptions Key) a :
  VerifyGatewayRouteAssertionCWT wall token opts = Ok a <-> cwtRouteTrusted wall opts token a.
Proof.
  unfold VerifyGatewayRouteAssertionCWT, cwtRouteTrusted. split.
  - destruct (parseCWT wall token opts) as [[c signer]|] eqn:P; simpl; [|done].
    apply parseCWT_Ok in P. case_bool_decide; [done|]. case_goal; [done|].
    destruct (validateGatewayRouteCore _) eqn:V; [done|]. intros [= <-].
    exists c, signer. by split_and!.
  - intros (c & signer & Ht%parseCWT_Ok & Hid & Hl & -> & V).
    rewrite Ht. simpl. by rewrite bool_decide_eq_false_2, Hl, V.
Qed.

Section session.
Context {C : Type} `{ReplayCache C}.

Lemma VerifySessionCWT_Ok wall clock gt bt opts (cache : option C) res cache' :
  VerifySessionIdentityCWT wall clock gt bt opts cache = (Ok res, cache') <->
  cwtSessionAccepts wall gt bt opts res /\ is_Some cache
  /\ MarkSessionBindingUsed clock cache (sr_Statement res) = (None, cache').
Proof.
  unfold VerifySessionIdentityCWT, cwtSessionAccepts. cbv zeta.
  set (now := if IsZero _ then _ else _). split.
  - case_goal; [done|]. bool_to_prop. destruct cache as [c|]; [|done].
    destruct (VerifyIdentityGrantCWT _ _ _) as [g|] eqn:G; [|done].
    destruct (VerifySessionBindingCWT _ _ _) as [st|] eqn:S; [|done].
    apply VerifyIdentityGrantCWT_Ok in G. apply VerifySessionBindingCWT_Ok in S.
    intros (<- & <- & Hr & M)%acceptSession_Ok. split_and!; eauto.
  - intros ((He & G & S & Hr) & [c ->] & M). rewrite He. cbn [negb].
    apply VerifyIdentityGrantCWT_Ok in G. apply VerifySessionBindingCWT_Ok in S.
    rewrite G, S. by apply acceptSession_Ok.
Qed.

Lemma VerifyRouteCWT_Ok wall clock t (opts : GatewayRouteCWTOptions) (cache : option C) a cache' :
  VerifyGatewayRouteCWT wall clock t opts cache = (Ok a, cache') <->
  cwtRouteTrusted wall (cg_Assertion opts) t a /\ routeExpected (routePolicy opts) a
  /\ routeAccepts a (cg_Proof opts) (cg_Expected opts) (routeNow wall (routePolicy opts))
  /\ exists c c', cache = Some c /\ cache' = Some c'
       /\ MarkUsed clock (replayKey a) (ra_ExpiresAt a) c = (None, c').
Proof.
  unfold VerifyGatewayRouteCWT, routeNow. cbv zeta. cbn [routePolicy go_Assertion vo_Now
    keyOptions go_RouteNow].
  set (optNow := routeOptionsWithNow _ _).
  rewrite <- VerifyRouteAssertionCWT_Ok, <- (acceptance_None (routePolicy opts)).
  cbn [routePolicy go_ExpectedGrantHash go_ExpectedGatewaySessionBindingSHA256
       go_ExpectedAgentHolderOfKeyProofSHA256 go_Expected].
  split.
  - destruct cache as [c|]; [|done].
    destruct (VerifyGatewayRouteAssertionCWT wall t _) as [a'|]; [|done].
    destruct (validateGatewayRouteAcceptance a' _ _ _ _) eqn:A; [done|].
    destruct (Validate_cases wall clock a' (cg_Proof opts) (cg_Expected opts) optNow (Some c))
      as [[Ha ->]|[Ha [err ->]]]; [|done].
    destruct (MarkUsed clock (replayKey a') (ra_ExpiresAt a') c) as [[e|] c'] eqn:M.
    + by destruct (errorsIs _ _).
    + intros [= <- <-]. split_and!; eauto 10.
  - intros (-> & -> & Ha & c & c' & -> & -> & M).
    destruct (Validate_cases wall clock a (cg_Proof opts) (cg_Expected opts) optNow (Some c))
      as [[_ ->]|[? _]]; [|done]. by rewrite M.
Qed.
End session.
End spec.

(** ** Concrete sessions *)

Module Sample.
(** A table of messages: the token is its own signature input and the payload. *)
Record Row := mkRow { r_token : list byte; r_msg : Sign1Message; r_key : string;
  r_claims : cmap }.

Definition rowOf (rows : list Row) (p : Row -> bool) : result error Row :=
  match find p rows with Some r => Ok r | None => Err (ErrNew "cose") end.

Definition table (rows : list Row) : COSELib string := {|
  Verifier := string;
  UnmarshalSign1 t := let* r := rowOf rows (fun r => bool_decide (r_token r = t)) in Ok (r_msg r);
  Algorithm h := match mapGet h (KInt64 1) with
                 | Some (VInt64 a) => Ok a | _ => Err (ErrNew "cose.ErrAlgorithmNotFound") end;
  NewVerifier alg key := match key with
                         | Some k => Ok k | None => Err (ErrNew "cose.ErrInvalidPubKey") end;
  VerifySign1 m v :=
    if existsb (fun r => bool_decide (m_Payload (r_msg r) = m_Payload m)
                         && bool_decide (r_key r = v)) rows
    then None else Some (ErrNew "cose.ErrVerification");
  UnmarshalClaims p :=
    let* r := rowOf rows (fun r => bool_decide (m_Payload (r_msg r) = p)) in Ok (r_claims r) |}.

Definition registered (iat exp : Z) : cmap :=
  [(KInt64 1, VString "manager"); (KInt64 3, VString "verifier"); (KInt64 4, VInt64 exp);
   (KInt64 6, VUint64 iat); (KInt64 7, VBytes "id-1")].

Definition grantClaims (iat exp : Z) : cmap :=
  registered iat exp
  ++ [(KInt64 2, VString "agent-1"); (KUint64 8, VMap [(KString "kid", VString "agent-key")]);
      (KString "profile_type", VString AgtpJWT.TokenTypeIdentityGrant);
      (KString "profile_version", VString "1"); (KString "service", VString "svc");
      (KString "task_id", VString "task"); (KString "scope", VString "read write")].

Definition bindingClaims (iat exp : Z) (grant : list byte) : cmap :=
  registered iat exp
  ++ [(KString "profile_type", VString AgtpJWT.TokenTypeSessionBinding);
      (KString "profile_version", VString "1");
      (KString "grant_hash", VString (IdentityGrantCWTHash grant));
      (KString "leaf_public_key_sha256", VString "leaf");
      (KString "tls_exporter_sha256", VString "exp");
      (KString "request_context_sha256", VString "ctx"); (KString "nonce", VString "nonce")].

Definition message (kid : string) (payload : list byte) : Sign1Message :=
  mkSign1 [(KInt64 1, VInt64 (-7)); (KInt64 4, VBytes kid)] [] payload [].

Definition rowFor (name kid key : string) (claims : cmap) : Row :=
  mkRow (bytesOf name) (message kid (bytesOf name)) key claims.

Definition route : cmap :=
  [(KInt64 1, VString "gw"); (KInt64 3, VString "rp"); (KInt64 4, VInt64 100);
   (KInt64 6, VInt64 5); (KInt64 7, VString "id-1");
   (KString "gta_type", VString AssertionType); (KString "gta_version", VUint64 1)]
  ++ map (fun '(k, v) => (KString k, VString v))
       [("nonce", "nonce"); ("grant_hash", "gh"); ("gateway_session_binding_sha256", "gsb");
        ("route_id", "route"); ("next_hop", "hop"); ("tenant", "t");
        ("authority_scope", "s"); ("policy_id", "policy"); ("target_agent", "agent");
        ("upstream_authn", "mtls"); ("upstream_peer", "peer");
        ("request_context_sha256", "ctx")].

#[global] Instance lib : COSELib string := table
  [rowFor "grant" "manager-key" "MK" (grantClaims 5 100);
   rowFor "binding" "agent-key" "AK" (bindingClaims 5 100 (bytesOf "grant"));
   rowFor "grant2" "manager-key" "MK" (grantClaims maxInt64 100);
   rowFor "binding2" "agent-key" "AK" (bindingClaims maxInt64 100 (bytesOf "grant2"));
   rowFor "route" "gw-key" "GK" route].

#[global] Instance laws : COSELibLaws string.
Proof. split. discriminate. Qed.

Definition now : Time := timeUnix 10.

Definition keyOptions (iss aud kid key : string) : CWTVerifyOptions string :=
  mkCWTOptions iss aud [-7] None [mkLocalKey kid (Some key) false] [] [] now.

Definition options : SessionIdentityCWTOptions string :=
  mkCWTSession (keyOptions "manager" "verifier" "manager-key" "MK")
    (keyOptions "manager" "verifier" "agent-key" "AK") AgtpJWT.Sample.policy
    (mkBinding "leaf" "exp" "ctx" "" "" 0 0) now.

Definition cache0 : option (option Memory.MemoryReplayCache) :=
  Some (Some Memory.NewMemoryReplayCache).

Definition run (grant binding : string) :=
  VerifySessionIdentityCWT now now (bytesOf grant) (bytesOf binding) options cache0.

Lemma runSession_ok : is_Ok (fst (run "grant" "binding")) = true.
Proof. vm_compute. reflexivity. Qed.

Lemma run2_ok : is_Ok (fst (run "grant2" "binding2")) = true.
Proof. vm_compute. reflexivity. Qed.

Definition routeOptions : GatewayRouteCWTOptions :=
  mkCWTRouteOptions (keyOptions "gw" "rp" "gw-key" "GK") GatewayRoute.Sample.expected None
    "gh" "gsb" "" 0.

Definition runRoute :=
  VerifyGatewayRouteCWT now now (bytesOf "route") routeOptions cache0.

Lemma runRoute_ok : is_Ok (fst runRoute) = true.
Proof. vm_compute. reflexivity. Qed.
End Sample.

(** ** Theorems *)

(** The CWT profile decides its specification.  A pair of messages is accepted
    exactly when each is a COSE_Sign1 message whose key id is in the protected header,
    names a key of the local table and verifies under an allowed algorithm, whose
    claims are for this verifier, current and not revoked, and the grant, the
    statement, the policy, the expected binding and the replay cache agree as for
    JWTs. *)
Theorem VerifySessionIdentityCWT_decides {Key : Type} `{!COSELib Key, !COSELibLaws Key}
    {C} `{ReplayCache C} wall clock gt bt opts (cache : option C) res cache' :
  VerifySessionIdentityCWT wall clock gt bt opts cache = (Ok res, cache') <->
  cwtSessionAccepts wall gt bt opts res /\ is_Some cache
  /\ MarkSessionBindingUsed clock cache (sr_Statement res) = (None, cache').
Proof. apply VerifySessionCWT_Ok. Qed.

Lemma VerifySessionIdentityCWT_decides_witness :
  exists res, cwtSessionAccepts Sample.now (bytesOf "grant") (bytesOf "binding")
    Sample.options res.
Proof.
  destruct (is_Ok_fst (Sample.run "grant" "binding") Sample.runSession_ok) as (res & c & E).
  exists res. apply (VerifySessionIdentityCWT_decides Sample.now Sample.now (bytesOf "grant")
    (bytesOf "binding") Sample.options Sample.cache0 res c). exact E.
Defined.

(** The CWT gateway-route adapter decides its specification: the message is
    trusted, carries an id that is not revoked, and the route it asserts is the
    expected one, fresh and unused. *)
Theorem VerifyGatewayRouteCWT_decides {Key : Type} `{!COSELib Key, !COSELibLaws Key}
    {C} `{ReplayCache C} wall clock t (opts : GatewayRouteCWTOptions) (cache : option C) a
    cache' :
  VerifyGatewayRouteCWT wall clock t opts cache = (Ok a, cache') <->
  cwtRouteTrusted wall (cg_Assertion opts) t a /\ routeExpected (routePolicy opts) a
  /\ routeAccepts a (cg_Proof opts) (cg_Expected opts) (routeNow wall (routePolicy opts))
  /\ exists c c', cache = Some c /\ cache' = Some c'
       /\ MarkUsed clock (replayKey a) (ra_ExpiresAt a) c = (None, c').
Proof. apply VerifyRouteCWT_Ok. Qed.

Lemma VerifyGatewayRouteCWT_decides_witness :
  exists a, cwtRouteTrusted Sample.now (cg_Assertion Sample.routeOptions) (bytesOf "route") a.
Proof.
  destruct (is_Ok_fst Sample.runRoute Sample.runRoute_ok) as (a & c & E).
  exists a. apply (VerifyGatewayRouteCWT_decides Sample.now Sample.now (bytesOf "route")
    Sample.routeOptions Sample.cache0 a c). exact E.
Defined.

(** The issued-at check of the CWT profile is passed by a time far in the future.
    [time.Unix] wraps around, so an [iat] of 2^63-1 seconds is read as a time before
    the year 1: a grant and a statement that both carry it are accepted. *)
Theorem future_issued_at_accepted :
  cwtClaimValue (Sample.grantClaims maxInt64 100) CWTClaimIssuedAt = Some (VUint64 maxInt64)
  /\ is_Ok (fst (Sample.run "grant2" "binding2")) = true
  /\ exists iat, cwtTimeClaim (Sample.grantClaims maxInt64 100) CWTClaimIssuedAt = Some iat
       /\ iat < 0.
Proof.
  split_and!; [reflexivity | exact Sample.run2_ok | eexists; split; [reflexivity|]].
  vm_compute. reflexivity.
Qed.
