(* ===== verification/EaWire.v ===== *)
(** * Exported-authenticator wire format: [pkg/atls/ea]

    The TLS 1.3 handshake messages of an exported authenticator as byte strings:
    [handshake.go], [extensions.go], [certificate.go], [request.go],
    [certverify.go] and [finished.go], with the attestation extension of
    [cmw_attestation.go].  The class [Codec] states what a pair of marshal and
    unmarshal functions promises: what is marshalled reads back, whatever follows
    it, and what reads is what marshalling would have produced, so an encoding is
    unique. *)

From stdpp Require Import base list strings.
From Stdlib Require Import ZArith Lia Strings.Byte.
From S2P Require Import Prelude GoStrings Errors.

Definition ErrTruncated := ErrNew "ea.ErrTruncated".
Definition ErrInvalidLength := ErrNew "ea.ErrInvalidLength".
Definition ErrUnsupportedHandshakeType := ErrNew "ea.ErrUnsupportedHandshakeType".
Definition ErrBadRequest := ErrNew "ea.ErrBadRequest".

(** ** Integers on the wire *)

Definition putUint24 (v : Z) : list byte :=
  [toByte (Z.shiftr v 16); toByte (Z.shiftr v 8); toByte v].
Definition readUint24 (src : list byte) : Z :=
  Z.lor (Z.lor (Z.shiftl (byteZ (nth 0 src x00)) 16) (Z.shiftl (byteZ (nth 1 src x00)) 8))
    (byteZ (nth 2 src x00)).
Definition putUint16 (v : Z) : list byte := [toByte (Z.shiftr v 8); toByte v].
Definition readUint16 (src : list byte) : Z :=
  Z.lor (Z.shiftl (byteZ (nth 0 src x00)) 8) (byteZ (nth 1 src x00)).

(** [b[i:j]]. *)
Definition slice {A} (i j : Z) (l : list A) : list A := sliceTo (j - i) (sliceFrom i l).

(** ** Handshake messages *)

Definition handshakeHeaderLen : Z := 4.
Definition HandshakeTypeCertificate : byte := toByte 11.
Definition HandshakeTypeCertificateRequest : byte := toByte 13.
Definition HandshakeTypeCertificateVerify : byte := toByte 15.
Definition HandshakeTypeClientCertificateRequest : byte := toByte 17.
Definition HandshakeTypeFinished : byte := toByte 20.

Record HandshakeMessage := mkHandshake { hm_Type : byte; hm_Body : list byte }.

Definition MarshalHandshakeMessage (m : HandshakeMessage) : result error (list byte) :=
  if 0xFFFFFF <? len (hm_Body m) then Err ErrInvalidLength
  else Ok (hm_Type m :: putUint24 (len (hm_Body m)) ++ hm_Body m).

Definition UnmarshalHandshakeMessage (b : list byte)
    : result error (HandshakeMessage * list byte) :=
  if len b <? handshakeHeaderLen then Err ErrTruncated
  else
    let t := nth 0 b x00 in
    let n := readUint24 (slice 1 4 b) in
    if (n <? 0) || (0xFFFFFF <? n) then Err ErrInvalidLength
    else if len b <? handshakeHeaderLen + n then Err ErrTruncated
    else Ok (mkHandshake t (slice 4 (4 + n) b), sliceFrom (4 + n) b).

(** [raw, _ := MarshalHandshakeMessage(hm)]. *)
Definition rawBytes (hm : HandshakeMessage) : list byte :=
  match MarshalHandshakeMessage hm with Ok raw => raw | Err _ => [] end.

(** ** Extensions *)

Record Extension := mkExtension { ext_Type : Z; ext_Data : list byte }.

Fixpoint extensionsLen (exts : list Extension) (payloadLen : Z) : result error Z :=
  match exts with
  | [] => Ok payloadLen
  | e :: t =>
      if 0xFFFF <? len (ext_Data e) then Err ErrInvalidLength
      else
        let payloadLen := payloadLen + (4 + len (ext_Data e)) in
        if 0xFFFF <? payloadLen then Err ErrInvalidLength else extensionsLen t payloadLen
  end.

Definition extensionBytes (e : Extension) : list byte :=
  putUint16 (ext_Type e) ++ putUint16 (len (ext_Data e)) ++ ext_Data e.

Definition MarshalExtensions (exts : list Extension) : result error (list byte) :=
  let* payloadLen := extensionsLen exts 0 in
  Ok (putUint16 payloadLen ++ concat (map extensionBytes exts)).

(** The loop over the payload, on what is left of it.  Every turn takes at least four
    bytes, so the length of the payload is enough fuel. *)
Fixpoint extensionsLoop (fuel : nat) (p : list byte) : result error (list Extension) :=
  match p, fuel with
  | [], _ => Ok []
  | _, O => Err ErrTruncated
  | _, S f =>
      if len p <? 4 then Err ErrTruncated
      else
        let typ := readUint16 (slice 0 2 p) in
        let l := readUint16 (slice 2 4 p) in
        let p := sliceFrom 4 p in
        if (l <? 0) || (len p <? l) then Err ErrInvalidLength
        else
          let* exts := extensionsLoop f (sliceFrom l p) in
          Ok (mkExtension typ (sliceTo l p) :: exts)
  end.

Definition UnmarshalExtensions (b : list byte) : result error (list Extension * list byte) :=
  if len b <? 2 then Err ErrTruncated
  else
    let total := readUint16 (slice 0 2 b) in
    if len b <? 2 + total then Err ErrTruncated
    else
      let payload := slice 2 (2 + total) b in
      let* exts := extensionsLoop (length payload) payload in
      Ok (exts, sliceFrom (2 + total) b).

(** ** Certificate *)

Record CertificateEntry := mkEntry { ce_CertDER : list byte; ce_Extensions : list Extension }.
Record CertificateMessage := mkCertificate {
  cm_Context : list byte; cm_Entries : list CertificateEntry }.

Definition entryBytes (e : CertificateEntry) : result error (list byte) :=
  if (len (ce_CertDER e) =? 0) || (0xFFFFFF <? len (ce_CertDER e)) then Err ErrInvalidLength
  else
    let* extVec := MarshalExtensions (ce_Extensions e) in
    Ok (putUint24 (len (ce_CertDER e)) ++ ce_CertDER e ++ extVec).

Fixpoint entriesBytes (es : list CertificateEntry) : result error (list byte) :=
  match es with
  | [] => Ok []
  | e :: t =>
      let* entry := entryBytes e in let* listPayload := entriesBytes t in
      Ok (entry ++ listPayload)
  end.

Definition CertificateMessage_Marshal (m : CertificateMessage) : result error (list byte) :=
  if 255 <? len (cm_Context m) then Err ErrInvalidLength
  else
    let* listPayload := entriesBytes (cm_Entries m) in
    MarshalHandshakeMessage (mkHandshake HandshakeTypeCertificate
      (toByte (len (cm_Context m)) :: cm_Context m ++ putUint24 (len listPayload)
       ++ listPayload)).

(** The loop over the list, on what is left of it; every turn takes a byte. *)
Fixpoint entriesLoop (fuel : nat) (l : list byte) : result error (list CertificateEntry) :=
  match l, fuel with
  | [], _ => Ok []
  | _, O => Err ErrTruncated
  | _, S f =>
      if len l <? 3 then Err ErrTruncated
      else
        let certLen := readUint24 (slice 0 3 l) in
        let l := sliceFrom 3 l in
        if (certLen <=? 0) || (len l <? certLen) then Err ErrInvalidLength
        else
          let certDER := sliceTo certLen l in
          let* r := UnmarshalExtensions (sliceFrom certLen l) in
          let '(exts, leftover) := r in
          let* entries := entriesLoop f leftover in
          Ok (mkEntry certDER exts :: entries)
  end.

Definition UnmarshalCertificateMessage (handshakeBytes : list byte)
    : result error (CertificateMessage * list byte) :=
  let* r := UnmarshalHandshakeMessage handshakeBytes in
  let '(hm, rest) := r in
  if negb (len rest =? 0) || negb (bool_decide (hm_Type hm = HandshakeTypeCertificate))
  then Err ErrInvalidLength
  else if len (hm_Body hm) <? 1 then Err ErrTruncated
  else
    let ctxLen := byteZ (nth 0 (hm_Body hm) x00) in
    if len (hm_Body hm) <? 1 + ctxLen + 3 then Err ErrTruncated
    else
      let ctx := slice 1 (1 + ctxLen) (hm_Body hm) in
      let listLen := readUint24 (slice (1 + ctxLen) (1 + ctxLen + 3) (hm_Body hm)) in
      if negb (len (hm_Body hm) =? 1 + ctxLen + 3 + listLen) then Err ErrInvalidLength
      else
        let l := sliceFrom (1 + ctxLen + 3) (hm_Body hm) in
        let* entries := entriesLoop (length l) l in
        Ok (mkCertificate ctx entries, rawBytes hm).

(** ** Authenticator request *)

Record AuthenticatorRequest := mkRequest {
  ar_Type : byte; ar_Context : list byte; ar_Extensions : list Extension }.

Definition requestType (t : byte) : bool :=
  bool_decide (t = HandshakeTypeCertificateRequest)
  || bool_decide (t = HandshakeTypeClientCertificateRequest).

Definition AuthenticatorRequest_Marshal (r : AuthenticatorRequest) : result error (list byte) :=
  if negb (requestType (ar_Type r)) then Err ErrUnsupportedHandshakeType
  else if 255 <? len (ar_Context r) then Err ErrInvalidLength
  else
    let* extVec := MarshalExtensions (ar_Extensions r) in
    MarshalHandshakeMessage (mkHandshake (ar_Type r)
      (toByte (len (ar_Context r)) :: ar_Context r ++ extVec)).

Definition UnmarshalAuthenticatorRequest (handshakeBytes : list byte)
    : result error (AuthenticatorRequest * list byte) :=
  let* r := UnmarshalHandshakeMessage handshakeBytes in
  let '(hm, rest) := r in
  if negb (requestType (hm_Type hm)) then Err ErrUnsupportedHandshakeType
  else if len (hm_Body hm) <? 1 then Err ErrTruncated
  else
    let ctxLen := byteZ (nth 0 (hm_Body hm) x00) in
    if len (hm_Body hm) <? 1 + ctxLen then Err ErrTruncated
    else
      let ctx := slice 1 (1 + ctxLen) (hm_Body hm) in
      let* r := UnmarshalExtensions (sliceFrom (1 + ctxLen) (hm_Body hm)) in
      let '(exts, leftover) := r in
      if negb (len leftover =? 0) then Err ErrInvalidLength
      else Ok (mkRequest (hm_Type hm) ctx exts, rest).

(** ** CertificateVerify and Finished *)

Record CertificateVerifyMessage := mkCertVerify { cv_Algorithm : Z; cv_Signature : list byte }.

Definition CertificateVerifyMessage_Marshal (m : CertificateVerifyMessage)
    : result error (list byte) :=
  if 0xFFFF <? len (cv_Signature m) then Err ErrInvalidLength
  else MarshalHandshakeMessage (mkHandshake HandshakeTypeCertificateVerify
         (putUint16 (cv_Algorithm m) ++ putUint16 (len (cv_Signature m)) ++ cv_Signature m)).

Definition UnmarshalCertificateVerifyMessage (handshakeBytes : list byte)
    : result error (CertificateVerifyMessage * list byte) :=
  let* r := UnmarshalHandshakeMessage handshakeBytes in
  let '(hm, rest) := r in
  if negb (len rest =? 0) || negb (bool_decide (hm_Type hm = HandshakeTypeCertificateVerify))
  then Err ErrInvalidLength
  else if len (hm_Body hm) <? 4 then Err ErrTruncated
  else
    let alg := readUint16 (slice 0 2 (hm_Body hm)) in
    let sigLen := readUint16 (slice 2 4 (hm_Body hm)) in
    if negb (len (hm_Body hm) =? 4 + sigLen) then Err ErrInvalidLength
    else Ok (mkCertVerify alg (sliceFrom 4 (hm_Body hm)), rawBytes hm).

Record FinishedMessage := mkFinished { fm_VerifyData : list byte }.

Definition FinishedMessage_Marshal (m : FinishedMessage) : result error (list byte) :=
  if len (fm_VerifyData m) =? 0 then Err ErrInvalidLength
  else MarshalHandshakeMessage (mkHandshake HandshakeTypeFinished (fm_VerifyData m)).

Definition UnmarshalFinishedMessage (handshakeBytes : list byte)
    : result error (FinishedMessage * list byte) :=
  let* r := UnmarshalHandshakeMessage handshakeBytes in
  let '(hm, rest) := r in
  if negb (len rest =? 0) || negb (bool_decide (hm_Type hm = HandshakeTypeFinished))
     || (len (hm_Body hm) =? 0)
  then Err ErrInvalidLength
  else Ok (mkFinished (hm_Body hm), rawBytes hm).

(** ** Extension contents *)

Definition SignatureAlgorithmsExtensionType : Z := 0x000d.
Definition CertificateAuthoritiesExtensionType : Z := 0x002f.
Definition SignatureAlgorithmsCertExtensionType : Z := 0x0032.
Definition CMWAttestationExtensionType : Z := 0xFF00.
Definition cmwAttestationLengthBytes : Z := 2.

(** The pairs of bytes of a vector of 16-bit values. *)
Fixpoint uint16s (data : list byte) : list Z :=
  match data with
  | a :: b :: t => readUint16 [a; b] :: uint16s t
  | _ => []
  end.

Fixpoint parseSignatureSchemesExtension (exts : list Extension) (typ : Z) : option (list Z) :=
  match exts with
  | [] => None
  | e :: t =>
      if negb (ext_Type e =? typ) then parseSignatureSchemesExtension t typ
      else if len (ext_Data e) <? 2 then None
      else
        let vecLen := readUint16 (slice 0 2 (ext_Data e)) in
        if (vecLen <? 2) || negb (vecLen mod 2 =? 0) || negb (len (ext_Data e) =? 2 + vecLen)
        then None
        else Some (uint16s (sliceFrom 2 (ext_Data e)))
  end.

Definition SignatureSchemes (r : AuthenticatorRequest) : option (list Z) :=
  parseSignatureSchemesExtension (ar_Extensions r) SignatureAlgorithmsExtensionType.
Definition SignatureSchemesCert (r : AuthenticatorRequest) : option (list Z) :=
  parseSignatureSchemesExtension (ar_Extensions r) SignatureAlgorithmsCertExtensionType.

Definition marshalSignatureSchemesExtension (typ : Z) (schemes : list Z)
    : result error Extension :=
  if len schemes =? 0 then Err ErrInvalidLength
  else if 0x7fff <? len schemes then Err ErrInvalidLength
  else Ok (mkExtension typ (putUint16 (2 * len schemes) ++ concat (map putUint16 schemes))).

Definition SignatureAlgorithmsExtension (schemes : list Z) : result error Extension :=
  marshalSignatureSchemesExtension SignatureAlgorithmsExtensionType schemes.
Definition SignatureAlgorithmsCertExtension (schemes : list Z) : result error Extension :=
  marshalSignatureSchemesExtension SignatureAlgorithmsCertExtensionType schemes.

(** The names of the certificate authorities; every turn takes two bytes. *)
Fixpoint authoritiesLoop (fuel : nat) (data : list byte) : option (list (list byte)) :=
  match data, fuel with
  | [], _ => Some []
  | _, O => None
  | _, S f =>
      if len data <? 2 then None
      else
        let l := readUint16 (slice 0 2 data) in
        let data := sliceFrom 2 data in
        if (l =? 0) || (len data <? l) then None
        else match authoritiesLoop f (sliceFrom l data) with
             | Some out => Some (sliceTo l data :: out)
             | None => None
             end
  end.

Fixpoint certificateAuthorities (exts : list Extension) : option (list (list byte)) :=
  match exts with
  | [] => None
  | e :: t =>
      if negb (ext_Type e =? CertificateAuthoritiesExtensionType) then certificateAuthorities t
      else if len (ext_Data e) <? 2 then None
      else
        let total := readUint16 (slice 0 2 (ext_Data e)) in
        if (total <? 3) || negb (len (ext_Data e) =? 2 + total) then None
        else authoritiesLoop (length (ext_Data e)) (sliceFrom 2 (ext_Data e))
  end.

Definition CertificateAuthorities (r : AuthenticatorRequest) : option (list (list byte)) :=
  certificateAuthorities (ar_Extensions r).

(** ** The attestation extension *)

Definition CMWAttestationOfferExtension : Extension :=
  mkExtension CMWAttestationExtensionType [].

Definition CMWAttestationDataExtension (cmw : list byte) : result error Extension :=
  if (len cmw =? 0) || (0xFFFF <? len cmw + cmwAttestationLengthBytes) then Err ErrInvalidLength
  else Ok (mkExtension CMWAttestationExtensionType (putUint16 (len cmw) ++ cmw)).

(** The result is [nil, present, err] or [cmw, true, nil]. *)
Fixpoint ExtractCMWAttestationFromExtensions (exts : list Extension)
    : result error (option (list byte)) :=
  match exts with
  | [] => Ok None
  | e :: t =>
      if negb (ext_Type e =? CMWAttestationExtensionType)
      then ExtractCMWAttestationFromExtensions t
      else if len (ext_Data e) <? 2 then Err ErrInvalidLength
      else
        let l := readUint16 (slice 0 2 (ext_Data e)) in
        if (l <=? 0) || negb (l =? len (ext_Data e) - 2) then Err ErrInvalidLength
        else Ok (Some (sliceFrom 2 (ext_Data e)))
  end.

Definition hasExtension (typ : Z) (exts : list Extension) : bool :=
  existsb (fun e => ext_Type e =? typ) exts.

Definition ValidateCMWAttestationPlacement (entries : list CertificateEntry) : option error :=
  if existsb (fun entry => hasExtension CMWAttestationExtensionType (ce_Extensions entry))
       (drop 1 entries)
  then Some ErrBadRequest else None.

(** ** Codecs *)

Class Codec {T : Type} (wf : T -> Prop) (marshal : T -> result error (list byte))
    (unmarshal : list byte -> result error (T * list byte)) : Prop := {
  marshal_reads : forall m b rest,
    wf m -> marshal m = Ok b -> unmarshal (b ++ rest) = Ok (m, rest);
  reads_marshal : forall x m rest,
    unmarshal x = Ok (m, rest) -> wf m /\ exists b, marshal m = Ok b /\ x = b ++ rest }.

(** ** Integers *)

Lemma lor_shiftl a b n : 0 <= n -> 0 <= b < 2 ^ n -> Z.lor (Z.shiftl a n) b = a * 2 ^ n + b.
Proof.
  intros Hn Hb. rewrite <- Z.shiftl_mul_pow2 by lia.
  assert (Hd : Z.land (Z.shiftl a n) b = 0).
  { apply Z.bits_inj'. intros i Hi. rewrite Z.land_spec, Z.bits_0.
    destruct (Z.lt_ge_cases i n).
    - by rewrite Z.shiftl_spec_low.
    - rewrite <- (Z.mod_small b (2 ^ n)), Z.mod_pow2_bits_high by lia. apply andb_false_r. }
  rewrite Z.add_nocarry_lxor by done. symmetry. by apply Z.lxor_lor.
Qed.

Lemma readUint16_eq a b t : readUint16 (a :: b :: t) = byteZ a * 256 + byteZ b.
Proof. unfold readUint16. simpl nth. rewrite lor_shiftl; [lia | lia | apply byteZ_range]. Qed.

Lemma readUint24_eq a b c t :
  readUint24 (a :: b :: c :: t) = (byteZ a * 256 + byteZ b) * 256 + byteZ c.
Proof.
  unfold readUint24. simpl nth.
  pose proof (byteZ_range a). pose proof (byteZ_range b). pose proof (byteZ_range c).
  rewrite (lor_shiftl (byteZ a)) by (rewrite ?Z.shiftl_mul_pow2; lia).
  replace (byteZ a * 2 ^ 16 + Z.shiftl (byteZ b) 8) with (Z.shiftl (byteZ a * 256 + byteZ b) 8)
    by (rewrite !Z.shiftl_mul_pow2; lia).
  rewrite lor_shiftl; lia.
Qed.

Lemma readUint16_put v t : 0 <= v <= 0xFFFF -> readUint16 (putUint16 v ++ t) = v.
Proof.
  intros Hv. unfold putUint16. cbn [app]. rewrite readUint16_eq, !byteZ_toByte.
  rewrite Z.shiftr_div_pow2 by lia. change (2 ^ 8) with 256.
  rewrite (Z.mod_small (v / 256)) by (split; [apply Z.div_pos | apply Z.div_lt_upper_bound]; lia).
  pose proof (Z.div_mod v 256). lia.
Qed.

Lemma readUint24_put v t : 0 <= v <= 0xFFFFFF -> readUint24 (putUint24 v ++ t) = v.
Proof.
  intros Hv. unfold putUint24. cbn [app]. rewrite readUint24_eq, !byteZ_toByte.
  rewrite !Z.shiftr_div_pow2 by lia. change (2 ^ 8) with 256. change (2 ^ 16) with (256 * 256).
  rewrite <- Z.div_div by lia.
  rewrite (Z.mod_small (v / 256 / 256))
    by (split; [repeat apply Z.div_pos | repeat apply Z.div_lt_upper_bound]; lia).
  pose proof (Z.div_mod v 256). pose proof (Z.div_mod (v / 256) 256). lia.
Qed.

Lemma putUint16_read a b t : putUint16 (readUint16 (a :: b :: t)) = [a; b].
Proof.
  rewrite readUint16_eq. unfold putUint16. pose proof (byteZ_range a). pose proof (byteZ_range b).
  rewrite Z.shiftr_div_pow2, Z.div_add_l, Z.div_small, Z.add_0_r, toByte_byteZ by lia.
  rewrite <- (toByte_mod (_ + _)), Z.add_comm, Z.mod_add, toByte_mod, toByte_byteZ by lia.
  done.
Qed.

Lemma putUint24_read a b c t : putUint24 (readUint24 (a :: b :: c :: t)) = [a; b; c].
Proof.
  rewrite readUint24_eq. unfold putUint24.
  pose proof (byteZ_range a). pose proof (byteZ_range b). pose proof (byteZ_range c).
  rewrite !Z.shiftr_div_pow2 by lia. change (2 ^ 16) with (256 * 256). change (2 ^ 8) with 256.
  rewrite <- Z.div_div, !Z.div_add_l, (Z.div_small (byteZ c)), Z.add_0_r, Z.div_add_l,
    Z.div_small, Z.add_0_r, toByte_byteZ by lia.
  rewrite <- (toByte_mod (_ * 256 + byteZ b)), Z.add_comm, Z.mod_add, toByte_mod, toByte_byteZ by lia.
  rewrite <- (toByte_mod (_ + byteZ c)), Z.add_comm, Z.mod_add, toByte_mod, toByte_byteZ by lia.
  done.
Qed.

Lemma readUint16_range t : 0 <= readUint16 t <= 0xFFFF.
Proof.
  unfold readUint16. pose proof (byteZ_range (nth 0 t x00)). pose proof (byteZ_range (nth 1 t x00)).
  rewrite lor_shiftl by lia. lia.
Qed.

Lemma readUint24_range a b c t : 0 <= readUint24 (a :: b :: c :: t) <= 0xFFFFFF.
Proof.
  rewrite readUint24_eq.
  pose proof (byteZ_range a). pose proof (byteZ_range b). pose proof (byteZ_range c). lia.
Qed.

(** ** Slices *)

Lemma sliceFrom_add {A} i j (l : list A) :
  0 <= i -> 0 <= j -> sliceFrom (i + j) l = sliceFrom j (sliceFrom i l).
Proof. intros. unfold sliceFrom. rewrite drop_drop. f_equal. lia. Qed.

Lemma slice_add {A} i n (l : list A) : slice i (i + n) l = sliceTo n (sliceFrom i l).
Proof. unfold slice. f_equal. lia. Qed.

Lemma sliceTo_len {A} n (l k : list A) : len l = n -> sliceTo n (l ++ k) = l.
Proof. intros <-. apply sliceTo_app_exact. Qed.

Lemma sliceFrom_len {A} n (l k : list A) : len l = n -> sliceFrom n (l ++ k) = k.
Proof. intros <-. apply sliceFrom_app_exact. Qed.

Lemma sliceFrom_all {A} n (l : list A) : len l = n -> sliceFrom n l = [].
Proof. intros <-. unfold sliceFrom, len. rewrite Nat2Z.id. apply drop_all. Qed.

Lemma sliceTo_all {A} n (l : list A) : len l = n -> sliceTo n l = l.
Proof. intros <-. unfold sliceTo, len. rewrite Nat2Z.id. by apply firstn_all. Qed.

Lemma len_ge2 {A} (l : list A) : 2 <= len l -> exists a b t, l = a :: b :: t.
Proof. destruct l as [|a [|b t]]; rewrite ?len_cons, ?len_nil; try lia. eauto. Qed.

Lemma len_ge3 {A} (l : list A) : 3 <= len l -> exists a b c t, l = a :: b :: c :: t.
Proof. destruct l as [|a [|b [|c t]]]; rewrite ?len_cons, ?len_nil; try lia. eauto. Qed.

Lemma len_ge4 {A} (l : list A) : 4 <= len l -> exists a b c d t, l = a :: b :: c :: d :: t.
Proof. destruct l as [|a [|b [|c [|d t]]]]; rewrite ?len_cons, ?len_nil; try lia. eauto 10. Qed.

Lemma len_zero {A} (l : list A) : len l = 0 <-> l = [].
Proof. destruct l; rewrite ?len_cons, ?len_nil; [done|]. pose proof (len_nonneg l). split; [lia|done]. Qed.

Lemma putUint24_len v : len (putUint24 v) = 3.
Proof. reflexivity. Qed.
Lemma putUint16_len v : len (putUint16 v) = 2.
Proof. reflexivity. Qed.
#[export] Hint Rewrite putUint24_len putUint16_len : go.

(** Decides the comparisons of lengths in the goal, by the test that holds. *)
Ltac len_tests :=
  repeat match goal with
  | |- context [?a <? ?b] =>
      first [ rewrite (proj2 (Z.ltb_ge a b)) by (autorewrite with go; lia)
            | rewrite (proj2 (Z.ltb_lt a b)) by (autorewrite with go; lia) ]
  | |- context [?a <=? ?b] =>
      first [ rewrite (proj2 (Z.leb_gt a b)) by (autorewrite with go; lia)
            | rewrite (proj2 (Z.leb_le a b)) by (autorewrite with go; lia) ]
  | |- context [?a =? ?b] =>
      first [ rewrite (proj2 (Z.eqb_neq a b)) by (autorewrite with go; lia)
            | rewrite (proj2 (Z.eqb_eq a b)) by (autorewrite with go; lia) ]
  end; cbn [orb andb negb].

(** ** Handshake messages *)

#[export] Instance handshake_codec :
  Codec (fun _ => True) MarshalHandshakeMessage UnmarshalHandshakeMessage.
Proof.
  split.
  - intros [t body] b rest _. unfold MarshalHandshakeMessage. cbn [hm_Type hm_Body].
    case_goal; [done|]. intros [= <-]. bool_to_prop. pose proof (len_nonneg body).
    pose proof (len_nonneg rest).
    unfold UnmarshalHandshakeMessage, handshakeHeaderLen.
    change (slice 1 4 (?x ++ rest)) with (putUint24 (len body) ++ []).
    rewrite readUint24_put by lia. len_tests.
    rewrite slice_add, sliceFrom_add by lia.
    change (sliceFrom 4 (?x ++ rest)) with (body ++ rest).
    by rewrite sliceTo_app_exact, sliceFrom_app_exact.
  - intros x [t body] rest. unfold UnmarshalHandshakeMessage, handshakeHeaderLen. cbv zeta.
    case_goal; [done|]. bool_to_prop.
    destruct (len_ge4 x) as (a & b & c & d & l & ->); [done|].
    change (slice 1 4 _) with [b; c; d]. pose proof (readUint24_range b c d []) as Hr.
    case_goal; [done|]. case_goal; [done|]. bool_to_prop. autorewrite with go in *.
    rewrite slice_add, sliceFrom_add by lia. change (sliceFrom 4 _) with l.
    intros [= <- <- <-]. split; [done|].
    unfold MarshalHandshakeMessage. cbn [hm_Type hm_Body].
    rewrite len_sliceTo by lia. len_tests. eexists. split; [reflexivity|].
    rewrite putUint24_read. cbn [app nth]. by rewrite sliceTo_sliceFrom.
Qed.

(** ** Extensions *)

Definition wfExtension (e : Extension) : Prop := 0 <= ext_Type e <= 0xFFFF.

Lemma extensionsLen_Ok exts : forall n m,
  extensionsLen exts n = Ok m <->
  Forall (fun e => len (ext_Data e) <= 0xFFFF) exts
  /\ m = n + len (concat (map extensionBytes exts)) /\ (exts = [] \/ m <= 0xFFFF).
Proof.
  induction exts as [|e t IH]; intros n m; cbn [extensionsLen map concat].
  { rewrite len_nil. split; [intros [= <-]; split_and!; auto; lia | intros (_ & -> & _); f_equal; lia]. }
  assert (Hl : len (extensionBytes e) = 4 + len (ext_Data e))
    by (unfold extensionBytes; autorewrite with go; lia).
  pose proof (len_nonneg (concat (map extensionBytes t))).
  rewrite Forall_cons, len_app, Hl.
  case_goal; bool_to_prop; [split; [done | intros ([? _] & _); lia]|].
  case_goal; bool_to_prop; [split; [done | intros (_ & -> & [?|?]); [done | lia]]|].
  rewrite IH. split.
  - intros (? & -> & ?). split_and!; auto; [lia|].
    right. destruct t; [simpl; rewrite len_nil; lia | intuition (done || lia)].
  - intros ([? ?] & -> & [?|?]); [done|]. split_and!; [done | lia | right; lia].
Qed.

Lemma extensionsLoop_reads exts : forall fuel,
  Forall wfExtension exts -> Forall (fun e => len (ext_Data e) <= 0xFFFF) exts ->
  (length exts <= fuel)%nat ->
  extensionsLoop fuel (concat (map extensionBytes exts)) = Ok exts.
Proof.
  induction exts as [|[typ data] t IH]; intros fuel Hwf Hl Hf; [by destruct fuel|].
  apply Forall_cons in Hwf as [Hw Hwf]. apply Forall_cons in Hl as [Hd Hl].
  destruct fuel as [|f]; [simpl in Hf; lia|]. cbn [map concat].
  set (rest := concat (map extensionBytes t)). unfold wfExtension in Hw.
  cbn [ext_Type ext_Data] in *. pose proof (len_nonneg data). pose proof (len_nonneg rest).
  assert (E : extensionBytes (mkExtension typ data) ++ rest
              = putUint16 typ ++ putUint16 (len data) ++ data ++ rest)
    by (unfold extensionBytes; cbn [ext_Type ext_Data]; by rewrite <- !app_assoc).
  rewrite E. unfold putUint16 at 1. cbn [app extensionsLoop].
  change (toByte (Z.shiftr typ 8) :: toByte typ :: ?l) with (putUint16 typ ++ l).
  len_tests.
  change (slice 0 2 _) with (putUint16 typ ++ []).
  change (slice 2 4 _) with (putUint16 (len data) ++ []).
  change (sliceFrom 4 _) with (data ++ rest).
  rewrite !readUint16_put by lia. len_tests.
  rewrite sliceFrom_app_exact, sliceTo_app_exact. unfold rest.
  rewrite IH; [done | done | done | simpl in Hf; lia].
Qed.

Lemma extensionsLoop_sound fuel : forall p exts,
  extensionsLoop fuel p = Ok exts ->
  Forall wfExtension exts /\ Forall (fun e => len (ext_Data e) <= 0xFFFF) exts
  /\ p = concat (map extensionBytes exts).
Proof.
  induction fuel as [|f IH]; intros p exts; destruct p as [|x p']; cbn [extensionsLoop];
    [by intros [= <-]; repeat constructor | done | by intros [= <-]; repeat constructor |].
  set (p := x :: p'). case_goal; [done|]. bool_to_prop.
  destruct (len_ge4 p) as (a & b & c & d & l & E); [done|]. rewrite E. cbv zeta.
  change (slice 0 2 _) with [a; b]. change (slice 2 4 _) with [c; d].
  change (sliceFrom 4 _) with l.
  pose proof (readUint16_range [a; b]). pose proof (readUint16_range [c; d]) as Hr.
  case_goal; [done|]. bool_to_prop.
  destruct (extensionsLoop f _) as [exts'|] eqn:L; [|done]. intros [= <-].
  apply IH in L as (? & ? & L). rewrite !Forall_cons. unfold wfExtension.
  cbn [ext_Type ext_Data map concat]. rewrite len_sliceTo by lia.
  split_and!; [lia | lia | done | lia | done |].
  unfold extensionBytes at 1. cbn [ext_Type ext_Data].
  rewrite len_sliceTo, !putUint16_read, <- L by lia. cbn [app].
  by rewrite sliceTo_sliceFrom.
Qed.

Lemma extensionBytes_length exts : (length exts <= length (concat (map extensionBytes exts)))%nat.
Proof. induction exts as [|e t IH]; simpl; [done|]. rewrite !length_app. lia. Qed.

#[export] Instance extensions_codec :
  Codec (Forall wfExtension) MarshalExtensions UnmarshalExtensions.
Proof.
  split.
  - intros exts b rest Hwf. unfold MarshalExtensions.
    destruct (extensionsLen exts 0) as [n|] eqn:L; [|done]. intros <-%Ok_inj.
    apply extensionsLen_Ok in L as (Hl & -> & Hn). rewrite Z.add_0_l in *.
    set (payload := concat (map extensionBytes exts)) in *.
    pose proof (len_nonneg payload). pose proof (len_nonneg rest).
    assert (Hp : len payload <= 0xFFFF).
    { destruct Hn as [->|?]; [|lia]. unfold payload. simpl. rewrite len_nil. lia. }
    unfold UnmarshalExtensions. rewrite <- app_assoc.
    change (slice 0 2 (putUint16 ?v ++ ?l)) with (putUint16 v ++ []).
    rewrite readUint16_put by lia. len_tests.
    rewrite slice_add, sliceFrom_add by lia.
    change (sliceFrom 2 (putUint16 _ ++ ?l)) with l.
    rewrite sliceTo_app_exact, sliceFrom_app_exact. unfold payload at 2.
    rewrite extensionsLoop_reads; [done | done | done | apply extensionBytes_length].
  - intros x exts rest. unfold UnmarshalExtensions. case_goal; [done|]. bool_to_prop.
    destruct (len_ge2 x) as (a & b & l & ->); [done|]. cbv zeta.
    change (slice 0 2 _) with [a; b]. pose proof (readUint16_range [a; b]) as Hr.
    case_goal; [done|]. bool_to_prop. autorewrite with go in *.
    rewrite slice_add, sliceFrom_add by lia. change (sliceFrom 2 _) with l.
    destruct (extensionsLoop _ _) as [exts'|] eqn:L; [|done]. intros [= -> <-].
    apply extensionsLoop_sound in L as (Hwf & Hl & L). split; [done|].
    unfold MarshalExtensions.
    assert (extensionsLen exts 0 = Ok (readUint16 [a; b])) as ->.
    { apply extensionsLen_Ok. rewrite <- L, len_sliceTo by lia. split_and!; [done | lia | right; lia]. }
    eexists. split; [reflexivity|].
    rewrite putUint16_read, <- L. cbn [app]. by rewrite sliceTo_sliceFrom.
Qed.

(** ** Certificate messages *)

Definition wfEntry (e : CertificateEntry) : Prop := Forall wfExtension (ce_Extensions e).
Definition wfCertificate (m : CertificateMessage) : Prop := Forall wfEntry (cm_Entries m).

Lemma entryBytes_Ok e b :
  entryBytes e = Ok b <->
  1 <= len (ce_CertDER e) <= 0xFFFFFF /\ exists extVec,
    MarshalExtensions (ce_Extensions e) = Ok extVec
    /\ b = putUint24 (len (ce_CertDER e)) ++ ce_CertDER e ++ extVec.
Proof.
  unfold entryBytes. pose proof (len_nonneg (ce_CertDER e)).
  case_goal; bool_to_prop.
  - split; [done|]. intros [? _]. lia.
  - destruct (MarshalExtensions _) as [v|]; simpl.
    + split; [intros <-%Ok_inj; split; [lia | eauto] | by intros (_ & ? & [= <-] & ->)].
    + split; [done | by intros (_ & ? & ? & _)].
Qed.

Lemma entriesLoop_reads es : forall fuel b,
  Forall wfEntry es -> entriesBytes es = Ok b -> (length b <= fuel)%nat ->
  entriesLoop fuel b = Ok es.
Proof.
  induction es as [|[der exts] t IH]; intros fuel b Hwf; cbn [entriesBytes].
  { intros [= <-] _. by destruct fuel. }
  apply Forall_cons in Hwf as [Hw Hwf].
  destruct (entryBytes _) as [entry|] eqn:E; [|done].
  destruct (entriesBytes t) as [b'|] eqn:T; [|done]. intros <-%Ok_inj Hf.
  apply entryBytes_Ok in E as (Hd & v & V & ->). cbn [ce_CertDER ce_Extensions] in *.
  rewrite <- !app_assoc in *. unfold putUint24 in Hf at 1. simpl in Hf. rewrite !length_app in Hf.
  destruct fuel as [|f]; [lia|]. unfold putUint24 at 1. cbn [app entriesLoop].
  change (toByte (Z.shiftr ?n 16) :: _ :: _ :: ?l) with (putUint24 n ++ l).
  pose proof (len_nonneg v). pose proof (len_nonneg b'). len_tests.
  change (slice 0 3 _) with (putUint24 (len der) ++ []). rewrite readUint24_put by lia.
  change (sliceFrom 3 (putUint24 _ ++ ?l)) with l. len_tests.
  rewrite sliceTo_app_exact, sliceFrom_app_exact.
  rewrite (marshal_reads exts v b' Hw V). simpl. rewrite (IH f b'); [done | done | done | lia].
Qed.

Lemma entriesLoop_sound fuel : forall l es,
  entriesLoop fuel l = Ok es -> Forall wfEntry es /\ entriesBytes es = Ok l.
Proof.
  induction fuel as [|f IH]; intros l es; destruct l as [|x l']; cbn [entriesLoop];
    [by intros [= <-]; repeat constructor | done | by intros [= <-]; repeat constructor |].
  set (l := x :: l'). case_goal; [done|]. bool_to_prop.
  destruct (len_ge3 l) as (a & b & c & k & E); [done|]. rewrite E. cbv zeta.
  change (slice 0 3 _) with [a; b; c]. change (sliceFrom 3 _) with k.
  pose proof (readUint24_range a b c []). case_goal; [done|]. bool_to_prop.
  destruct (UnmarshalExtensions _) as [[exts leftover]|] eqn:U; [|done].
  destruct (entriesLoop f leftover) as [es'|] eqn:L; [|done]. intros [= <-].
  apply reads_marshal in U as (Hwf & v & V & U). apply IH in L as [? L].
  rewrite Forall_cons. split; [done|]. cbn [entriesBytes].
  assert (entryBytes (mkEntry (sliceTo (readUint24 [a; b; c]) k) exts)
          = Ok (a :: b :: c :: sliceTo (readUint24 [a; b; c]) k ++ v)) as ->.
  { apply entryBytes_Ok. cbn [ce_CertDER ce_Extensions].
    rewrite len_sliceTo, putUint24_read by lia. split; [lia | eauto]. }
  simpl. rewrite L. simpl. rewrite <- app_assoc, <- U. by rewrite sliceTo_sliceFrom.
Qed.

(** A message that was read is the one its raw bytes spell. *)
Lemma rawBytes_read x hm : UnmarshalHandshakeMessage x = Ok (hm, []) -> rawBytes hm = x.
Proof.
  intros (_ & b & M & ->)%reads_marshal. unfold rawBytes. by rewrite M, app_nil_r.
Qed.

Lemma handshake_exact m b : MarshalHandshakeMessage m = Ok b -> UnmarshalHandshakeMessage b = Ok (m, []).
Proof. intros M. rewrite <- (app_nil_r b). by apply marshal_reads. Qed.

Lemma context_split body :
  1 <= len body -> 1 + byteZ (nth 0 body x00) <= len body ->
  exists ctx rest, body = toByte (len ctx) :: ctx ++ rest /\ len ctx <= 255
    /\ byteZ (nth 0 body x00) = len ctx.
Proof.
  destruct body as [|n l]; rewrite ?len_nil, ?len_cons; [lia|]. cbn [nth].
  intros _ H. pose proof (byteZ_range n).
  exists (sliceTo (byteZ n) l), (sliceFrom (byteZ n) l).
  rewrite len_sliceTo, toByte_byteZ, sliceTo_sliceFrom by lia. split_and!; [done | lia | done].
Qed.

Lemma context_byte (ctx rest : list byte) :
  len ctx <= 255 -> byteZ (nth 0 (toByte (len ctx) :: ctx ++ rest) x00) = len ctx.
Proof. intros. cbn [nth]. rewrite byteZ_toByte. apply Z.mod_small. pose proof (len_nonneg ctx). lia. Qed.

Lemma context_slices (x : byte) ctx k :
  slice 1 (1 + len ctx) (x :: ctx ++ k) = ctx
  /\ sliceFrom (1 + len ctx) (x :: ctx ++ k) = k
  /\ slice (1 + len ctx) (1 + len ctx + 3) (x :: ctx ++ k) = sliceTo 3 k
  /\ sliceFrom (1 + len ctx + 3) (x :: ctx ++ k) = sliceFrom 3 k.
Proof.
  pose proof (len_nonneg ctx).
  assert (Hf : sliceFrom (1 + len ctx) (x :: ctx ++ k) = k).
  { rewrite sliceFrom_add by lia. change (sliceFrom 1 (x :: ?l)) with l.
    apply sliceFrom_app_exact. }
  rewrite !slice_add, (sliceFrom_add _ 3), Hf by lia.
  change (sliceFrom 1 (x :: ?l)) with l. by rewrite sliceTo_app_exact.
Qed.

Lemma Certificate_reads m b :
  wfCertificate m -> CertificateMessage_Marshal m = Ok b ->
  UnmarshalCertificateMessage b = Ok (m, b).
Proof.
  intros Hwf. destruct m as [ctx es]. unfold CertificateMessage_Marshal, wfCertificate in *.
  cbn [cm_Context cm_Entries] in *. case_goal; [done|]. bool_to_prop.
  destruct (entriesBytes es) as [l|] eqn:E; [|done].
  set (hm := mkHandshake _ _). intros M.
  assert (Hlen : len (hm_Body hm) <= 0xFFFFFF).
  { unfold MarshalHandshakeMessage in M. destruct (0xFFFFFF <? len (hm_Body hm)) eqn:C; [done|].
    by bool_to_prop. }
  apply handshake_exact in M. unfold UnmarshalCertificateMessage. rewrite M.
  rewrite (rawBytes_read b hm M). cbn [hm_Type hm_Body hm] in *.
  pose proof (len_nonneg ctx). pose proof (len_nonneg l).
  rewrite len_cons, !len_app, putUint24_len in Hlen.
  rewrite bool_decide_eq_true_2 by done. rewrite context_byte by done.
  destruct (context_slices (toByte (len ctx)) ctx (putUint24 (len l) ++ l))
    as (-> & _ & -> & ->). len_tests.
  change (sliceTo 3 (putUint24 ?n ++ l)) with (putUint24 n ++ []).
  change (sliceFrom 3 (putUint24 ?n ++ l)) with l.
  rewrite readUint24_put by lia. len_tests.
  by rewrite (entriesLoop_reads es (length l) l).
Qed.

Lemma Certificate_sound m b raw :
  UnmarshalCertificateMessage b = Ok (m, raw) ->
  wfCertificate m /\ CertificateMessage_Marshal m = Ok b /\ raw = b.
Proof.
  unfold UnmarshalCertificateMessage.
  destruct (UnmarshalHandshakeMessage b) as [[hm rest]|] eqn:U; [|done].
  case_goal; [done|]. bool_to_prop. apply len_zero in H as ->.
  case_goal; [done|]. cbv zeta. case_goal; [done|]. bool_to_prop.
  destruct (context_split (hm_Body hm)) as (ctx & k & E & Hctx & Hn); [lia | lia |].
  rewrite Hn in *. rewrite E in *. pose proof (len_nonneg ctx).
  rewrite len_cons, len_app in *.
  destruct (len_ge3 k) as (x & y & z & l & ->); [lia|].
  destruct (context_slices (toByte (len ctx)) ctx (x :: y :: z :: l)) as (-> & _ & -> & ->).
  change (sliceTo 3 _) with [x; y; z]. change (sliceFrom 3 _) with l.
  case_goal; [done|]. bool_to_prop. rewrite !len_cons in *.
  destruct (entriesLoop _ l) as [es|] eqn:L; [|done]. intros [= <- <-].
  apply entriesLoop_sound in L as [Hwf L]. split; [done|].
  split; [|by apply rawBytes_read].
  unfold CertificateMessage_Marshal. cbn [cm_Context cm_Entries]. len_tests. rewrite L.
  replace (len l) with (readUint24 [x; y; z]) by lia. rewrite putUint24_read. cbn [app].
  apply reads_marshal in U as (_ & b' & M & ->). rewrite app_nil_r.
  rewrite <- M. f_equal. destruct hm. simpl in *. congruence.
Qed.

#[export] Instance request_codec :
  Codec (fun r => Forall wfExtension (ar_Extensions r))
    AuthenticatorRequest_Marshal UnmarshalAuthenticatorRequest.
Proof.
  split.
  - intros [t ctx exts] b rest Hwf. unfold AuthenticatorRequest_Marshal.
    cbn [ar_Type ar_Context ar_Extensions] in *.
    destruct (requestType t) eqn:R; cbn [negb]; [|done]. case_goal; [done|]. bool_to_prop. destruct (MarshalExtensions exts) as [v|] eqn:V; [|done].
    intros M. unfold UnmarshalAuthenticatorRequest.
    rewrite (marshal_reads _ b rest I M). cbn [hm_Type hm_Body].
    pose proof (len_nonneg ctx). pose proof (len_nonneg v).
    rewrite context_byte by done.
    destruct (context_slices (toByte (len ctx)) ctx v) as (-> & -> & _). rewrite R.
    len_tests. rewrite <- (app_nil_r v), (marshal_reads exts v [] Hwf V). done.
  - intros x m rest. unfold UnmarshalAuthenticatorRequest.
    destruct (UnmarshalHandshakeMessage x) as [[hm rest']|] eqn:U; [|done].
    destruct (requestType _) eqn:R; cbn [negb]; [|done]. case_goal; [done|]. cbv zeta.
    case_goal; [done|]. bool_to_prop.
    destruct (context_split (hm_Body hm)) as (ctx & k & E & Hctx & Hn); [lia | lia |].
    rewrite Hn in *. rewrite E.
    destruct (context_slices (toByte (len ctx)) ctx k) as (-> & -> & _).
    destruct (UnmarshalExtensions k) as [[exts leftover]|] eqn:X; [|done].
    case_goal; [done|]. bool_to_prop. intros [= <- <-].
    assert (leftover = []) as -> by (by apply len_zero).
    apply reads_marshal in X as (Hwf & v & V & ->). split; [done|].
    apply reads_marshal in U as (_ & b & M & ->). exists b. split; [|done].
    unfold AuthenticatorRequest_Marshal. cbn [ar_Type ar_Context ar_Extensions].
    rewrite R. cbn [negb]. len_tests. rewrite V, <- M. f_equal.
    rewrite app_nil_r in E. destruct hm. simpl in *. congruence.
Qed.

Lemma CertificateVerify_exact m b :
  0 <= cv_Algorithm m <= 0xFFFF ->
  CertificateVerifyMessage_Marshal m = Ok b -> UnmarshalCertificateVerifyMessage b = Ok (m, b).
Proof.
  destruct m as [alg sig]. unfold CertificateVerifyMessage_Marshal. cbn [cv_Algorithm cv_Signature].
  intros Ha. case_goal; [done|]. bool_to_prop. set (hm := mkHandshake _ _). intros M.
  apply handshake_exact in M. unfold UnmarshalCertificateVerifyMessage. rewrite M.
  rewrite (rawBytes_read b hm M). cbn [hm hm_Type hm_Body]. pose proof (len_nonneg sig).
  rewrite bool_decide_eq_true_2 by done. len_tests.
  change (slice 0 2 _) with (putUint16 alg ++ []).
  change (slice 2 4 _) with (putUint16 (len sig) ++ []).
  rewrite !readUint16_put by lia. len_tests. done.
Qed.

Lemma CertificateVerify_sound m b raw :
  UnmarshalCertificateVerifyMessage b = Ok (m, raw) ->
  0 <= cv_Algorithm m <= 0xFFFF /\ CertificateVerifyMessage_Marshal m = Ok b /\ raw = b.
Proof.
  unfold UnmarshalCertificateVerifyMessage.
  destruct (UnmarshalHandshakeMessage b) as [[hm rest]|] eqn:U; [|done].
  case_goal; [done|]. bool_to_prop. apply len_zero in H as ->. case_goal; [done|]. cbv zeta.
  bool_to_prop. destruct (len_ge4 (hm_Body hm)) as (x & y & z & w & l & E); [done|]. rewrite E.
  change (slice 0 2 _) with [x; y]. change (slice 2 4 _) with [z; w].
  change (sliceFrom 4 _) with l. case_goal; [done|]. bool_to_prop. rewrite !len_cons in *.
  intros [= <- <-]. split; [apply readUint16_range|]. split; [|by apply rawBytes_read].
  unfold CertificateVerifyMessage_Marshal. cbn [cv_Algorithm cv_Signature].
  pose proof (readUint16_range [z; w]). len_tests.
  replace (len l) with (readUint16 [z; w]) by lia. rewrite !putUint16_read. cbn [app].
  apply reads_marshal in U as (_ & b' & M & ->). rewrite app_nil_r, <- M. f_equal.
  destruct hm. simpl in *. congruence.
Qed.

Lemma Finished_exact m b :
  FinishedMessage_Marshal m = Ok b <-> UnmarshalFinishedMessage b = Ok (m, b).
Proof.
  unfold FinishedMessage_Marshal, UnmarshalFinishedMessage. destruct m as [d]. cbn [fm_VerifyData].
  split.
  - destruct (len d =? 0) eqn:Z; [done|]. intros M. apply handshake_exact in M.
    rewrite M, (rawBytes_read b _ M). cbn [hm_Type hm_Body].
    rewrite bool_decide_eq_true_2 by done. by rewrite Z.
  - destruct (UnmarshalHandshakeMessage b) as [[hm rest]|] eqn:U; [|done].
    case_goal; [done|]. bool_to_prop. intros [= <- _]. apply len_zero in H as ->.
    len_tests. apply reads_marshal in U as (_ & b' & M & ->). rewrite app_nil_r, <- M. f_equal.
    destruct hm. simpl in *. congruence.
Qed.

Lemma Finished_raw m b raw : UnmarshalFinishedMessage b = Ok (m, raw) -> raw = b.
Proof.
  unfold UnmarshalFinishedMessage.
  destruct (UnmarshalHandshakeMessage b) as [[hm rest]|] eqn:U; [|done].
  destruct (len rest =? 0) eqn:L; cbn [negb orb]; [|done]. apply Z.eqb_eq, len_zero in L as ->.
  destruct (_ || _); [done|]. intros [= _ <-]. by apply rawBytes_read.
Qed.

(** The type of an encoded message. *)
Lemma CertificateVerify_handshake m b :
  CertificateVerifyMessage_Marshal m = Ok b ->
  exists body, MarshalHandshakeMessage (mkHandshake HandshakeTypeCertificateVerify body) = Ok b.
Proof. unfold CertificateVerifyMessage_Marshal. case_goal; [done | eauto]. Qed.

Lemma Finished_handshake m b :
  FinishedMessage_Marshal m = Ok b ->
  MarshalHandshakeMessage (mkHandshake HandshakeTypeFinished (fm_VerifyData m)) = Ok b.
Proof. unfold FinishedMessage_Marshal. case_goal; [done | eauto]. Qed.

Lemma Certificate_handshake m b :
  CertificateMessage_Marshal m = Ok b ->
  exists body, MarshalHandshakeMessage (mkHandshake HandshakeTypeCertificate body) = Ok b.
Proof.
  unfold CertificateMessage_Marshal. case_goal; [done|]. destruct (entriesBytes _); [eauto | done].
Qed.

(** ** Extension contents *)

Lemma uint16s_put vs : Forall (fun v => 0 <= v <= 0xFFFF) vs -> uint16s (concat (map putUint16 vs)) = vs.
Proof.
  induction vs as [|v vs IH]; [done|]. intros [Hv HF]%Forall_cons. simpl. rewrite IH by done.
  change [toByte _; toByte v] with (putUint16 v ++ []). by rewrite readUint16_put.
Qed.

Lemma concat_put_len vs : len (concat (map putUint16 vs)) = 2 * len vs.
Proof.
  induction vs as [|v vs IH]; [done|]. cbn [map concat].
  rewrite len_app, putUint16_len, IH, len_cons. lia.
Qed.

Lemma schemes_first typ schemes e exts :
  marshalSignatureSchemesExtension typ schemes = Ok e ->
  Forall (fun v => 0 <= v <= 0xFFFF) schemes ->
  parseSignatureSchemesExtension (e :: exts) typ = Some schemes.
Proof.
  unfold marshalSignatureSchemesExtension. case_goal; [done|]. case_goal; [done|].
  intros <-%Ok_inj HF. bool_to_prop. pose proof (len_nonneg schemes).
  cbn [parseSignatureSchemesExtension ext_Type ext_Data]. pose proof (concat_put_len schemes) as Hl.
  rewrite Z.eqb_refl. cbn [negb].
  change (slice 0 2 (putUint16 ?v ++ ?l)) with (putUint16 v ++ []).
  rewrite readUint16_put by lia.
  rewrite (Z.mul_comm 2 (len schemes)), Z.mod_mul, (Z.mul_comm _ 2) by lia.
  rewrite len_app, putUint16_len, Hl. len_tests.
  change (sliceFrom 2 (putUint16 _ ++ ?l)) with l. by rewrite uint16s_put.
Qed.

Lemma schemes_skip typ pre exts :
  hasExtension typ pre = false ->
  parseSignatureSchemesExtension (pre ++ exts) typ = parseSignatureSchemesExtension exts typ.
Proof.
  induction pre as [|e t IH]; [done|]. cbn [hasExtension existsb app parseSignatureSchemesExtension].
  destruct (ext_Type e =? typ); [done|]. simpl. apply IH.
Qed.

Lemma cmw_first cmw e exts :
  CMWAttestationDataExtension cmw = Ok e ->
  ExtractCMWAttestationFromExtensions (e :: exts) = Ok (Some cmw).
Proof.
  unfold CMWAttestationDataExtension, cmwAttestationLengthBytes. case_goal; [done|].
  intros <-%Ok_inj. bool_to_prop. pose proof (len_nonneg cmw).
  cbn [ExtractCMWAttestationFromExtensions ext_Type ext_Data]. rewrite Z.eqb_refl. cbn [negb].
  change (slice 0 2 (putUint16 ?v ++ ?l)) with (putUint16 v ++ []).
  rewrite readUint16_put by lia. len_tests. done.
Qed.

Lemma cmw_skip pre exts :
  hasExtension CMWAttestationExtensionType pre = false ->
  ExtractCMWAttestationFromExtensions (pre ++ exts) = ExtractCMWAttestationFromExtensions exts.
Proof.
  induction pre as [|e t IH]; [done|].
  cbn [hasExtension existsb app ExtractCMWAttestationFromExtensions].
  destruct (ext_Type e =? _); [done|]. simpl. apply IH.
Qed.

(** Well-formedness of a concrete message. *)
Ltac wf_message :=
  unfold wfCertificate, wfEntry, wfExtension, CMWAttestationOfferExtension,
    CMWAttestationExtensionType; simpl;
  repeat match goal with
  | |- Forall _ [] => apply List.Forall_nil
  | |- Forall _ (_ :: _) => apply List.Forall_cons; simpl
  | |- _ <= _ <= _ => lia
  end.

(** ** Concrete messages *)

Module Sample.
Definition request : AuthenticatorRequest :=
  mkRequest HandshakeTypeCertificateRequest (bytesOf "ctx")
    [mkExtension 13 (map toByte [0; 4; 4; 3; 8; 7]); CMWAttestationOfferExtension].
Definition certificate : CertificateMessage :=
  mkCertificate (bytesOf "ctx")
    [mkEntry (bytesOf "leaf") [mkExtension 0xFF00 (map toByte [0; 2; 1; 2])];
     mkEntry (bytesOf "ca") []].
End Sample.

(** ** Theorems *)

(** C27: a certificate message has one encoding.  A well-formed message marshals to
    exactly the byte strings that read back as it, so reading returns what was sent
    and no second byte string reads as the same message: the bytes that enter the
    transcript are the bytes that were received. *)
Theorem certificate_codec m b :
  wfCertificate m ->
  CertificateMessage_Marshal m = Ok b <-> UnmarshalCertificateMessage b = Ok (m, b).
Proof.
  intros Hwf. split; [by apply Certificate_reads|].
  by intros (_ & M & _)%Certificate_sound.
Qed.

Lemma certificate_codec_witness :
  exists b, CertificateMessage_Marshal Sample.certificate = Ok b
    /\ UnmarshalCertificateMessage b = Ok (Sample.certificate, b).
Proof.
  eexists. split; [reflexivity|]. apply certificate_codec; [|reflexivity].
  wf_message.
Defined.

(** An authenticator request reads back, whatever follows it on the stream, and
    what reads is an encoding of the request followed by the rest. *)
Theorem request_codec_exact r b rest :
  Forall wfExtension (ar_Extensions r) ->
  AuthenticatorRequest_Marshal r = Ok b <-> UnmarshalAuthenticatorRequest (b ++ rest) = Ok (r, rest).
Proof.
  intros Hwf. split; [by apply marshal_reads|].
  intros (_ & b' & M & E)%reads_marshal. by apply app_inv_tail in E as ->.
Qed.

Lemma request_codec_exact_witness :
  exists b, AuthenticatorRequest_Marshal Sample.request = Ok b
    /\ UnmarshalAuthenticatorRequest (b ++ bytesOf "tail") = Ok (Sample.request, bytesOf "tail").
Proof.
  eexists. split; [reflexivity|]. apply request_codec_exact; [|reflexivity].
  unfold Sample.request. wf_message.
Defined.

(** The contents of the two extensions the protocol uses read back: the first
    signature_algorithms extension of a list gives the offered schemes, and the first
    attestation extension gives the attestation payload. *)
Theorem extension_contents_roundtrip pre post schemes cmw e e' :
  marshalSignatureSchemesExtension SignatureAlgorithmsExtensionType schemes = Ok e ->
  Forall (fun v => 0 <= v <= 0xFFFF) schemes ->
  hasExtension SignatureAlgorithmsExtensionType pre = false ->
  CMWAttestationDataExtension cmw = Ok e' ->
  hasExtension CMWAttestationExtensionType pre = false ->
  parseSignatureSchemesExtension (pre ++ e :: post) SignatureAlgorithmsExtensionType = Some schemes
  /\ ExtractCMWAttestationFromExtensions (pre ++ e' :: post) = Ok (Some cmw).
Proof.
  intros M HF Hpre M' Hpre'. rewrite schemes_skip, cmw_skip by done.
  split; [by apply schemes_first | by apply cmw_first].
Qed.

Lemma extension_contents_roundtrip_witness :
  exists e e',
    parseSignatureSchemesExtension ([mkExtension 0 []] ++ [e]) 13 = Some [0x0403; 0x0807]
    /\ ExtractCMWAttestationFromExtensions ([mkExtension 0 []] ++ [e'])
       = Ok (Some (bytesOf "cmw")).
Proof.
  eexists _, _. apply extension_contents_roundtrip;
    [reflexivity | wf_message | reflexivity | reflexivity | reflexivity].
Defined.
