(* ===== verification/EaAttestation.v ===== *)
(** * Attestation binding: [pkg/atls/eaattestation]

    The payload of the attestation extension and its verification.  The binder of a
    payload commits to the leaf key and to a value exported from the TLS session, so
    that evidence cannot be moved to another session: [VerifyPayload] recomputes both
    hashes from the session it runs in.

    A connection state has the exporter as a function field, as in [crypto/tls].  An
    X.509 certificate is seen through the fields the code reads.  The JSON reading of
    a payload is the operation of the class [PayloadJSON]; the evidence and result
    verifiers are the interfaces of the source. *)

From stdpp Require Import base list strings.
From Stdlib Require Import ZArith Lia Strings.Byte.
From S2P Require Import Prelude GoStrings Errors Sha2.

Definition ErrMalformedPayload := ErrNew "attestation.ErrMalformedPayload".
Definition ErrMissingStatement := ErrNew "attestation.ErrMissingStatement".
Definition ErrMissingBinder := ErrNew "attestation.ErrMissingBinder".
Definition ErrAIKPubHashMismatch := ErrNew "attestation.ErrAIKPubHashMismatch".
Definition ErrBindingMismatch := ErrNew "attestation.ErrBindingMismatch".
Definition ErrUnexpectedExporterLabel := ErrNew "attestation.ErrUnexpectedExporterLabel".
Definition ErrMissingAttestation := ErrNew "attestation.ErrMissingAttestation".
Definition ErrEvidenceVerificationMissing := ErrNew "attestation.ErrEvidenceVerificationMissing".
Definition ErrResultsVerificationMissing := ErrNew "attestation.ErrResultsVerificationMissing".
Definition errNotTLS13 := ErrNew "attestation.errNotTLS13".

(** ** TLS *)

Definition VersionTLS13 : Z := 0x0304.
Definition TLS_AES_128_GCM_SHA256 : Z := 0x1301.
Definition TLS_AES_256_GCM_SHA384 : Z := 0x1302.
Definition TLS_CHACHA20_POLY1305_SHA256 : Z := 0x1303.

(** [crypto.Hash], the two the code selects. *)
Inductive Hash := SHA256 | SHA384.

Definition hashSum (h : Hash) : list byte -> list byte :=
  match h with SHA256 => Sum256 | SHA384 => Sum384 end.
Definition hashSize (h : Hash) : Z := match h with SHA256 => 32 | SHA384 => 48 end.
Definition hashBlock (h : Hash) : nat := match h with SHA256 => 64 | SHA384 => 128 end.

(** [tls.ConnectionState]; [ekm] is the exporter of the session. *)
Record ConnectionState := mkState {
  st_Version : Z; st_HandshakeComplete : bool; st_CipherSuite : Z;
  st_ekm : string -> list byte -> Z -> result error (list byte) }.

Definition ExportKeyingMaterial (st : ConnectionState) := st_ekm st.

(** What the code reads of an [x509.Certificate]. *)
Record Certificate (PubKey : Type) := mkX509 {
  x_Raw : list byte; x_RawSubjectPublicKeyInfo : list byte; x_PublicKey : PubKey }.
Arguments mkX509 {PubKey}. Arguments x_Raw {PubKey}.
Arguments x_RawSubjectPublicKeyInfo {PubKey}. Arguments x_PublicKey {PubKey}.

(** [x509.MarshalPKIXPublicKey]. *)
Class PKIX (PubKey : Type) := { MarshalPKIXPublicKey : PubKey -> result error (list byte) }.

(** ** Binding *)

Definition ExporterLabelAttestation : string := "Attestation".
Definition ExportedAttestationValueLen : Z := 32.

Definition authenticatorHashTLS13 (cipherSuite : Z) : result error Hash :=
  if (cipherSuite =? TLS_AES_128_GCM_SHA256) || (cipherSuite =? TLS_CHACHA20_POLY1305_SHA256)
  then Ok SHA256
  else if cipherSuite =? TLS_AES_256_GCM_SHA384 then Ok SHA384
  else Err (ErrNew "attestation: unknown cipher suite").

Definition ExportAttestationValue (st : ConnectionState) (label : string)
    (contextValue : list byte) : result error (list byte * Hash) :=
  if negb (st_Version st =? VersionTLS13) then Err errNotTLS13
  else
    let* h := authenticatorHashTLS13 (st_CipherSuite st) in
    let* out := ExportKeyingMaterial st label contextValue ExportedAttestationValueLen in
    Ok (out, h).

Definition AIKPublicKeyHash (h : Hash) (pubKey : list byte) : list byte := hashSum h pubKey.
Definition BindingValue (h : Hash) (pubKey exportedValue : list byte) : list byte :=
  hashSum h (pubKey ++ exportedValue).

(** [subtle.ConstantTimeCompare(a, b) == 1]. *)
Definition equalBytes (a b : list byte) : bool := bool_decide (a = b).

(** ** Payloads *)

Record AttestationBinder := mkBinder {
  ab_ExporterLabel : string; ab_AIKPubHash : list byte; ab_Binding : list byte }.
Record Payload := mkPayload {
  p_Version : Z; p_MediaType : string; p_Evidence : list byte;
  p_AttestationResults : list byte; p_Binder : AttestationBinder }.
Record EvidenceBinding := mkEvidenceBinding {
  eb_ReportData : list byte; eb_Nonce : list byte; eb_Binding : list byte;
  eb_ExportedValue : list byte }.
Record VerifiedPayload := mkVerified {
  vp_Payload : Payload; vp_EvidenceVerified : bool; vp_ResultsVerified : bool;
  vp_BindingVerified : bool; vp_UsedExporterLabel : string; vp_Binding : EvidenceBinding }.

(** A pointer to a payload: [None] is nil. *)
Definition Payload_Validate (p : option Payload) : option error :=
  match p with
  | None => Some ErrMalformedPayload
  | Some p =>
      if (len (p_Evidence p) =? 0) && (len (p_AttestationResults p) =? 0)
      then Some ErrMissingStatement
      else if (len (ab_AIKPubHash (p_Binder p)) =? 0) || (len (ab_Binding (p_Binder p)) =? 0)
      then Some ErrMissingBinder
      else None
  end.

Definition NormalizedExporterLabel (p : option Payload) (defaultLabel : string) : string :=
  match p with
  | None => defaultLabel
  | Some p => if bool_decide (ab_ExporterLabel (p_Binder p) = "") then defaultLabel
              else ab_ExporterLabel (p_Binder p)
  end.

Definition VerifyExporterLabel (p : option Payload) (expectedLabel : string) : option error :=
  match p with
  | None => Some ErrMalformedPayload
  | Some p =>
      if negb (bool_decide (ab_ExporterLabel (p_Binder p) = ""))
         && negb (bool_decide (ab_ExporterLabel (p_Binder p) = expectedLabel))
      then Some ErrUnexpectedExporterLabel else None
  end.

(** [json.Marshal] and [json.Unmarshal] on a payload. *)
Class PayloadJSON := {
  encodePayload : Payload -> result error (list byte);
  decodePayload : list byte -> option Payload }.

Definition MarshalPayload `{PayloadJSON} (p : Payload) : result error (list byte) :=
  match Payload_Validate (Some p) with
  | Some err => Err err
  | None =>
      let version := if p_Version p =? 0 then 1 else p_Version p in
      encodePayload (mkPayload version (p_MediaType p) (p_Evidence p) (p_AttestationResults p)
                       (p_Binder p))
  end.

Definition ParsePayload `{PayloadJSON} (raw : list byte) : result error Payload :=
  if len raw =? 0 then Err ErrMalformedPayload
  else match decodePayload raw with
       | None => Err ErrMalformedPayload
       | Some p => match Payload_Validate (Some p) with Some err => Err err | None => Ok p end
       end.

(** ** Verification *)

Definition Verifier : Type := list byte -> EvidenceBinding -> option error.
Record VerificationPolicy := mkVerificationPolicy {
  pol_EvidenceVerifier : option Verifier; pol_ResultsVerifier : option Verifier }.

Definition RequiresAttestation (p : VerificationPolicy) : bool :=
  negb (bool_decide (pol_EvidenceVerifier p = None))
  || negb (bool_decide (pol_ResultsVerifier p = None)).

Definition verifyBinderValues (aikPubHash binding : list byte) (binder : AttestationBinder)
    : option error :=
  if negb (equalBytes aikPubHash (ab_AIKPubHash binder)) then Some ErrAIKPubHashMismatch
  else if negb (equalBytes binding (ab_Binding binder)) then Some ErrBindingMismatch
  else None.

(** One of the two statements of a payload: absent, or checked by its verifier. *)
Definition verifyStatement (statement : list byte) (verifier : option Verifier)
    (binding : EvidenceBinding) (missing : error) : result error bool :=
  if len statement =? 0 then Ok false
  else match verifier with
       | None => Err missing
       | Some verify => match verify statement binding with Some err => Err err | None => Ok true end
       end.

Section verify.
Context {PubKey : Type} `{PKIX PubKey}.

Definition PublicKeyBytes (leaf : option (Certificate PubKey)) : result error (list byte) :=
  match leaf with
  | None => Err (ErrNew "nil leaf cert")
  | Some leaf =>
      if 0 <? len (x_RawSubjectPublicKeyInfo leaf) then Ok (x_RawSubjectPublicKeyInfo leaf)
      else MarshalPKIXPublicKey (x_PublicKey leaf)
  end.

(** [exportedValue, aikPubHash, binding]. *)
Definition ComputeBinding (st : ConnectionState) (label : string)
    (certificateRequestContext : list byte) (leaf : option (Certificate PubKey))
    : result error (list byte * list byte * list byte) :=
  let* r := ExportAttestationValue st label certificateRequestContext in
  let '(exportedValue, h) := r in
  let* pub := PublicKeyBytes leaf in
  Ok (exportedValue, AIKPublicKeyHash h pub, BindingValue h pub exportedValue).

Definition VerifyPayload (st : ConnectionState) (defaultLabel : string)
    (certificateRequestContext : list byte) (leaf : option (Certificate PubKey))
    (payload : option Payload) (policy : VerificationPolicy) : result error VerifiedPayload :=
  match Payload_Validate payload, VerifyExporterLabel payload defaultLabel, payload with
  | Some err, _, _ => Err err
  | None, Some err, _ => Err err
  | None, None, None => Err ErrMalformedPayload
  | None, None, Some p =>
      let* r := ComputeBinding st defaultLabel certificateRequestContext leaf in
      let '(exportedValue, aikPubHash, binding) := r in
      match verifyBinderValues aikPubHash binding (p_Binder p) with
      | Some err => Err err
      | None =>
          let expectedBinding :=
            mkEvidenceBinding (Sum512 binding) (Sum256 exportedValue) binding exportedValue in
          let* evidenceVerified := verifyStatement (p_Evidence p) (pol_EvidenceVerifier policy)
                                     expectedBinding ErrEvidenceVerificationMissing in
          let* resultsVerified := verifyStatement (p_AttestationResults p)
                                    (pol_ResultsVerifier policy) expectedBinding
                                    ErrResultsVerificationMissing in
          Ok (mkVerified p evidenceVerified resultsVerified true defaultLabel expectedBinding)
      end
  end.

Definition VerifyBinder (st : ConnectionState) (label : string)
    (certificateRequestContext : list byte) (leaf : option (Certificate PubKey))
    (binder : AttestationBinder) : option error :=
  match ComputeBinding st label certificateRequestContext leaf with
  | Err err => Some err
  | Ok (_, aikPubHash, binding) => verifyBinderValues aikPubHash binding binder
  end.
End verify.

(** ** Specification *)

(** A statement that is present is accepted by a configured verifier. *)
Definition statementChecked (statement : list byte) (verifier : option Verifier)
    (binding : EvidenceBinding) : Prop :=
  statement <> [] -> exists verify, verifier = Some verify /\ verify statement binding = None.

(** The hash and exported value of a session, and the key of a leaf. *)
Definition sessionExports (st : ConnectionState) (label : string) (ctx : list byte)
    (h : Hash) (exported : list byte) : Prop :=
  st_Version st = VersionTLS13 /\ authenticatorHashTLS13 (st_CipherSuite st) = Ok h
  /\ ExportKeyingMaterial st label ctx ExportedAttestationValueLen = Ok exported.

Definition evidenceBindingOf (h : Hash) (pub exported : list byte) : EvidenceBinding :=
  let binding := BindingValue h pub exported in
  mkEvidenceBinding (Sum512 binding) (Sum256 exported) binding exported.

Section spec.
Context {PubKey : Type} `{PKIX PubKey}.

Definition payloadAccepts (st : ConnectionState) (label : string) (ctx : list byte)
    (leaf : option (Certificate PubKey)) (p : Payload) (policy : VerificationPolicy)
    (v : VerifiedPayload) : Prop :=
  (p_Evidence p <> [] \/ p_AttestationResults p <> [])
  /\ (ab_ExporterLabel (p_Binder p) = "" \/ ab_ExporterLabel (p_Binder p) = label)
  /\ exists h exported pub,
       sessionExports st label ctx h exported /\ PublicKeyBytes leaf = Ok pub
       /\ ab_AIKPubHash (p_Binder p) = AIKPublicKeyHash h pub
       /\ ab_Binding (p_Binder p) = BindingValue h pub exported
       /\ statementChecked (p_Evidence p) (pol_EvidenceVerifier policy)
            (evidenceBindingOf h pub exported)
       /\ statementChecked (p_AttestationResults p) (pol_ResultsVerifier policy)
            (evidenceBindingOf h pub exported)
       /\ v = mkVerified p (bool_decide (p_Evidence p <> []))
                (bool_decide (p_AttestationResults p <> [])) true label
                (evidenceBindingOf h pub exported).

(** ** Refinement *)

Lemma hashSum_length h msg : length (hashSum h msg) = Z.to_nat (hashSize h).
Proof. destruct h; [apply length_Sum256 | apply length_Sum384]. Qed.

Lemma hashSum_nonempty h msg : hashSum h msg <> [].
Proof. intros E. pose proof (hashSum_length h msg) as L. rewrite E in L. by destruct h. Qed.

Lemma len_eq_0 {A} (l : list A) : (len l =? 0) = bool_decide (l = []).
Proof. by destruct l. Qed.

Lemma verifyStatement_Ok s verifier b missing r :
  verifyStatement s verifier b missing = Ok r <->
  statementChecked s verifier b /\ r = bool_decide (s <> []).
Proof.
  unfold verifyStatement, statementChecked. rewrite len_eq_0.
  case_bool_decide as E.
  - rewrite bool_decide_eq_false_2 by tauto. split; [intros [= <-]; by split | by intros [_ ->]].
  - rewrite bool_decide_eq_true_2 by done. destruct verifier as [verify|].
    + destruct (verify s b) eqn:V; split; try done.
      * intros [Hs _]. destruct (Hs E) as (? & [= <-] & ?). congruence.
      * intros [= <-]. split; [eauto | done].
      * by intros [_ ->].
    + split; [done|]. intros [Hs _]. by destruct (Hs E) as (? & ? & _).
Qed.

Lemma ComputeBinding_Ok st label ctx (leaf : option (Certificate PubKey)) e a b :
  ComputeBinding st label ctx leaf = Ok (e, a, b) <->
  exists h pub, sessionExports st label ctx h e /\ PublicKeyBytes leaf = Ok pub
    /\ a = AIKPublicKeyHash h pub /\ b = BindingValue h pub e.
Proof.
  unfold ComputeBinding, ExportAttestationValue, sessionExports. split.
  - destruct (st_Version st =? VersionTLS13) eqn:V; simpl; [|done]. apply Z.eqb_eq in V.
    destruct (authenticatorHashTLS13 _) as [h|] eqn:A; [|done].
    destruct (ExportKeyingMaterial _ _ _ _) as [out|] eqn:X; [|done].
    destruct (PublicKeyBytes leaf) as [pub|] eqn:P; [|done].
    intros E. apply Ok_inj in E. simplify_eq. eauto 10.
  - intros (h & pub & (V & A & X) & P & -> & ->). apply Z.eqb_eq in V.
    rewrite V. simpl. by rewrite A, X, P.
Qed.

Lemma verifyBinderValues_None a b binder :
  verifyBinderValues a b binder = None <-> ab_AIKPubHash binder = a /\ ab_Binding binder = b.
Proof.
  unfold verifyBinderValues, equalBytes. repeat (case_bool_decide; simpl); intuition congruence.
Qed.

Lemma Payload_Validate_None p :
  Payload_Validate (Some p) = None <->
  (p_Evidence p <> [] \/ p_AttestationResults p <> [])
  /\ ab_AIKPubHash (p_Binder p) <> [] /\ ab_Binding (p_Binder p) <> [].
Proof.
  unfold Payload_Validate. rewrite !len_eq_0.
  repeat (case_bool_decide; cbn [andb orb]); intuition congruence.
Qed.

Lemma VerifyExporterLabel_None p label :
  VerifyExporterLabel (Some p) label = None <->
  ab_ExporterLabel (p_Binder p) = "" \/ ab_ExporterLabel (p_Binder p) = label.
Proof.
  unfold VerifyExporterLabel.
  repeat (case_bool_decide; cbn [andb negb]); intuition congruence.
Qed.

Lemma VerifyPayload_Ok st label ctx (leaf : option (Certificate PubKey)) p policy v :
  VerifyPayload st label ctx leaf (Some p) policy = Ok v <->
  payloadAccepts st label ctx leaf p policy v.
Proof.
  unfold VerifyPayload, payloadAccepts. split.
  - destruct (Payload_Validate (Some p)) eqn:Val; [done|].
    destruct (VerifyExporterLabel (Some p) label) eqn:Lab; [done|].
    apply Payload_Validate_None in Val as [Val _]. apply VerifyExporterLabel_None in Lab.
    destruct (ComputeBinding _ _ _ _) as [[[e a] b]|] eqn:B; [|done].
    destruct (verifyBinderValues _ _ _) eqn:V; [done|].
    apply ComputeBinding_Ok in B as (h & pub & Hs & P & -> & ->).
    apply verifyBinderValues_None in V as [Va Vb].
    destruct (verifyStatement (p_Evidence p) _ _ _) as [ev|] eqn:Ev; [|done].
    destruct (verifyStatement (p_AttestationResults p) _ _ _) as [rv|] eqn:Rv; [|done].
    apply verifyStatement_Ok in Ev as [Ev ->], Rv as [Rv ->].
    intros E. apply Ok_inj in E as <-. split; [done|]. split; [done|]. exists h, e, pub.
    exact (conj Hs (conj P (conj Va (conj Vb (conj Ev (conj Rv eq_refl)))))).
  - intros (Hs & Hl & h & e & pub & Hx & P & Ha & Hb & Ev & Rv & ->).
    assert (Payload_Validate (Some p) = None) as ->.
    { apply Payload_Validate_None. rewrite Ha, Hb.
      split_and!; [done | apply hashSum_nonempty | apply hashSum_nonempty]. }
    rewrite (proj2 (VerifyExporterLabel_None p label) Hl).
    assert (ComputeBinding st label ctx leaf
            = Ok (e, AIKPublicKeyHash h pub, BindingValue h pub e)) as ->
      by (apply ComputeBinding_Ok; eauto 10).
    rewrite (proj2 (verifyBinderValues_None _ _ _) (conj Ha Hb)). fold (evidenceBindingOf h pub e).
    rewrite (proj2 (verifyStatement_Ok _ _ _ ErrEvidenceVerificationMissing _) (conj Ev eq_refl)).
    by rewrite (proj2 (verifyStatement_Ok _ _ _ ErrResultsVerificationMissing _)
      (conj Rv eq_refl)).
Qed.
End spec.

(** The digest length tells the two hashes apart. *)
Lemma hashSum_hash h h' x y : hashSum h x = hashSum h' y -> h = h'.
Proof.
  intros E. apply (f_equal (@length byte)) in E. rewrite !hashSum_length in E. by destruct h, h'.
Qed.

(** ** A concrete session *)

Module Sample.
#[global] Instance pkix : PKIX string := {| MarshalPKIXPublicKey k := Ok (bytesOf k) |}.

(** The exporter of the session named [s]. *)
Definition session (s : string) : ConnectionState :=
  mkState VersionTLS13 true TLS_AES_128_GCM_SHA256
    (fun label ctx n => Ok (sliceTo n (bytesOf (s +:+ label) ++ ctx ++ replicate 32 x00))).
Definition leaf : option (Certificate string) := Some (mkX509 [] (bytesOf "spki") "key").
Definition exported : list byte := bytesOf "s1Attestationctx" ++ replicate 16 x00.
Definition payload : Payload :=
  mkPayload 1 "" (bytesOf "evidence") []
    (mkBinder "" (Sum256 (bytesOf "spki")) (Sum256 (bytesOf "spki" ++ exported))).
(** Accepts evidence for the nonce of this session only. *)
Definition policy : VerificationPolicy :=
  mkVerificationPolicy
    (Some (fun _ b => if bool_decide (eb_Nonce b = Sum256 exported) then None
                      else Some (ErrNew "nonce"))) None.
Definition verified : VerifiedPayload :=
  mkVerified payload true false true ExporterLabelAttestation
    (evidenceBindingOf SHA256 (bytesOf "spki") exported).

Lemma verified_ok :
  VerifyPayload (session "s1") ExporterLabelAttestation (bytesOf "ctx") leaf (Some payload) policy
  = Ok verified.
Proof. vm_compute. reflexivity. Qed.
End Sample.

(** ** Theorems *)

(** [VerifyPayload] decides its specification.  A payload is accepted, with
    exactly the reported result, precisely when it carries evidence or results, names
    no other exporter label, its binder holds the hashes recomputed from the leaf key
    and the value exported from this session, and each statement it carries is
    accepted by a configured verifier for that binding. *)
Theorem VerifyPayload_decides {PubKey} `{PKIX PubKey} st label ctx
    (leaf : option (Certificate PubKey)) p policy v :
  VerifyPayload st label ctx leaf (Some p) policy = Ok v <->
  payloadAccepts st label ctx leaf p policy v.
Proof. apply VerifyPayload_Ok. Qed.

Lemma VerifyPayload_decides_witness :
  payloadAccepts (Sample.session "s1") ExporterLabelAttestation (bytesOf "ctx") Sample.leaf
    Sample.payload Sample.policy Sample.verified.
Proof. apply VerifyPayload_decides. exact Sample.verified_ok. Defined.

(** C6: evidence cannot be moved.  If one payload is accepted in two sessions, or for
    two certificates, then the leaf keys and the exported values are the same, or the
    hash collides on the two inputs the binder was computed from. *)
Theorem attestation_pins_session {PubKey} `{PKIX PubKey} st st' label label' ctx ctx'
    (leaf leaf' : option (Certificate PubKey)) p policy policy' v v' :
  VerifyPayload st label ctx leaf (Some p) policy = Ok v ->
  VerifyPayload st' label' ctx' leaf' (Some p) policy' = Ok v' ->
  let e := eb_ExportedValue (vp_Binding v) in
  let e' := eb_ExportedValue (vp_Binding v') in
  exists h pub pub', PublicKeyBytes leaf = Ok pub /\ PublicKeyBytes leaf' = Ok pub'
    /\ sessionExports st label ctx h e /\ sessionExports st' label' ctx' h e'
    /\ ((pub = pub' /\ e = e')
        \/ (pub <> pub' /\ hashSum h pub = hashSum h pub')
        \/ (pub ++ e <> pub' ++ e' /\ hashSum h (pub ++ e) = hashSum h (pub' ++ e'))).
Proof.
  intros (_ & _ & h & e & pub & Hx & P & Ha & Hb & _ & _ & ->)%VerifyPayload_Ok
    (_ & _ & h' & e' & pub' & Hx' & P' & Ha' & Hb' & _ & _ & ->)%VerifyPayload_Ok.
  cbn [vp_Binding eb_ExportedValue evidenceBindingOf]. rewrite Ha in Ha'. rewrite Hb in Hb'.
  unfold AIKPublicKeyHash in Ha'. unfold BindingValue in Hb'.
  pose proof (hashSum_hash _ _ _ _ Ha') as <-.
  exists h, pub, pub'. split_and!; try done.
  destruct (decide (pub = pub')) as [<-|Hne]; [|by auto].
  destruct (decide (e = e')) as [<-|Hne]; [by auto|].
  right. right. split; [|done]. by intros ?%app_inv_head.
Qed.

Lemma attestation_pins_session_witness :
  exists h pub pub', PublicKeyBytes Sample.leaf = Ok pub /\ PublicKeyBytes Sample.leaf = Ok pub'
    /\ sessionExports (Sample.session "s1") ExporterLabelAttestation (bytesOf "ctx") h
         Sample.exported
    /\ sessionExports (Sample.session "s1") ExporterLabelAttestation (bytesOf "ctx") h
         Sample.exported
    /\ ((pub = pub' /\ Sample.exported = Sample.exported)
        \/ (pub <> pub' /\ hashSum h pub = hashSum h pub')
        \/ (pub ++ Sample.exported <> pub' ++ Sample.exported
            /\ hashSum h (pub ++ Sample.exported) = hashSum h (pub' ++ Sample.exported))).
Proof.
  exact (attestation_pins_session (Sample.session "s1") (Sample.session "s1")
    ExporterLabelAttestation ExporterLabelAttestation (bytesOf "ctx") (bytesOf "ctx")
    Sample.leaf Sample.leaf Sample.payload Sample.policy Sample.policy Sample.verified
    Sample.verified Sample.verified_ok Sample.verified_ok).
Defined.
