(* ===== verification/EaAuthenticator.v ===== *)
(** * Exported authenticators: [pkg/atls/ea]

    [authenticator.go] with [exporters.go], [policy.go], [session.go], [sigscheme.go],
    [util.go] and the CertificateVerify half of [certverify.go]: creation and
    validation of an authenticator over an established TLS session, and the session
    that lets a certificate request context be used once.

    Signatures and X.509 are the operations of the class [Crypto]; its laws say that a
    signature verifies under the public half of the key.  Hashes and the Finished MAC
    are computed.  The intermediates that validation adds to the caller's certificate
    pool are an argument of [VerifyChain] and not kept. *)

From stdpp Require Import base gmap sets list strings.
From Stdlib Require Import ZArith Lia Strings.Byte.
From S2P Require Import Prelude GoStrings Errors Sha2 EaWire EaAttestation.

Definition ErrNotTLS13 := ErrNew "ea.ErrNotTLS13".
Definition ErrUnknownCipherSuite := ErrNew "ea.ErrUnknownCipherSuite".
Definition ErrContextReuse := ErrNew "ea.ErrContextReuse".
Definition ErrInvalidRole := ErrNew "ea.ErrInvalidRole".
Definition ErrUnsupportedSignatureScheme := ErrNew "ea.ErrUnsupportedSignatureScheme".
Definition ErrSignatureMismatch := ErrNew "ea.ErrSignatureMismatch".
Definition ErrFinishedMismatch := ErrNew "ea.ErrFinishedMismatch".
Definition ErrContextMismatch := ErrNew "ea.ErrContextMismatch".

(** ** Exporters *)

Definition LabelClientAuthenticatorHandshakeContext : string :=
  "EXPORTER-client authenticator handshake context".
Definition LabelServerAuthenticatorHandshakeContext : string :=
  "EXPORTER-server authenticator handshake context".
Definition LabelClientAuthenticatorFinishedKey : string :=
  "EXPORTER-client authenticator finished key".
Definition LabelServerAuthenticatorFinishedKey : string :=
  "EXPORTER-server authenticator finished key".

Definition RoleClient : Z := 1.
Definition RoleServer : Z := 2.

Definition AuthenticatorHashTLS13 (cipherSuite : Z) : result error Hash :=
  if (cipherSuite =? TLS_AES_128_GCM_SHA256) || (cipherSuite =? TLS_CHACHA20_POLY1305_SHA256)
  then Ok SHA256
  else if cipherSuite =? TLS_AES_256_GCM_SHA384 then Ok SHA384
  else Err (ErrWrap "cipher suite" ErrUnknownCipherSuite).

(** The two exporters differ in the label only. *)
Definition exportForRole (st : ConnectionState) (role : Z) (clientLabel serverLabel : string)
    : result error (list byte * Hash) :=
  if negb (st_Version st =? VersionTLS13) then Err ErrNotTLS13
  else
    let* h := AuthenticatorHashTLS13 (st_CipherSuite st) in
    let label := if role =? RoleServer then serverLabel else clientLabel in
    let* out := ExportKeyingMaterial st label [] (hashSize h) in
    Ok (out, h).

Definition ExportHandshakeContext (st : ConnectionState) (role : Z) :=
  exportForRole st role LabelClientAuthenticatorHandshakeContext
    LabelServerAuthenticatorHandshakeContext.
Definition ExportFinishedKey (st : ConnectionState) (role : Z) :=
  exportForRole st role LabelClientAuthenticatorFinishedKey LabelServerAuthenticatorFinishedKey.

(** ** Hashes *)

Definition hashConcat (h : Hash) (chunks : list (list byte)) : list byte :=
  hashSum h (concat chunks).
Definition hmacSum (h : Hash) (key data : list byte) : list byte :=
  hmac (hashSum h) (hashBlock h) key data.
Definition constantTimeEqual (a b : list byte) : bool :=
  if negb (len a =? len b) then false else equalBytes a b.

(** ** Extension policy *)

Record SpontaneousAuthenticatorPolicy := mkSpontaneous {
  sp_AllowedSignatureSchemes : list Z; sp_AllowedCertificateExtensions : list Z }.

Definition RequestPermitsCertificateExtension (req : option AuthenticatorRequest) (typ : Z)
    : bool :=
  match req with
  | None => false
  | Some req => existsb (fun e => ext_Type e =? typ) (ar_Extensions req)
  end.

Definition PolicyPermitsCertificateExtension (policy : option SpontaneousAuthenticatorPolicy)
    (typ : Z) : bool :=
  match policy with
  | None => false
  | Some policy => existsb (fun allowed => allowed =? typ) (sp_AllowedCertificateExtensions policy)
  end.

Definition policyPermitsSignatureScheme (policy : option SpontaneousAuthenticatorPolicy)
    (scheme : Z) : bool :=
  match policy with
  | None => true
  | Some policy =>
      if len (sp_AllowedSignatureSchemes policy) =? 0 then true
      else existsb (fun allowed => allowed =? scheme) (sp_AllowedSignatureSchemes policy)
  end.

Fixpoint validateCertificateEntryExtensions (exts : list Extension)
    (req : option AuthenticatorRequest) (policy : option SpontaneousAuthenticatorPolicy)
    : option error :=
  match exts with
  | [] => None
  | e :: t =>
      match req with
      | Some _ =>
          if negb (RequestPermitsCertificateExtension req (ext_Type e)) then Some ErrBadRequest
          else validateCertificateEntryExtensions t req policy
      | None =>
          if negb (PolicyPermitsCertificateExtension policy (ext_Type e)) then Some ErrBadRequest
          else validateCertificateEntryExtensions t req policy
      end
  end.

(** ** Signature schemes *)

Definition ECDSAWithP256AndSHA256 : Z := 0x0403.
Definition PSSWithSHA256 : Z := 0x0804.
Definition Ed25519 : Z := 0x0807.

Inductive sigAlg := sigAlgECDSA | sigAlgRSAPSS | sigAlgEd25519.

(** The hash of a scheme is SHA-256, or none for Ed25519. *)
Definition signatureSchemeInfo (s : Z) : result error sigAlg :=
  if s =? ECDSAWithP256AndSHA256 then Ok sigAlgECDSA
  else if s =? PSSWithSHA256 then Ok sigAlgRSAPSS
  else if s =? Ed25519 then Ok sigAlgEd25519
  else Err (ErrWrap "scheme" ErrUnsupportedSignatureScheme).

(** The dynamic types of keys the code switches on; the curve of an ECDSA key is
    read by name. *)
Inductive PublicKey (K : Type) := PubECDSA (k : K) | PubRSA (k : K) | PubEd25519 (k : K) | PubOther.
Inductive PrivateKey (K : Type) :=
  | PrivECDSA (curve : string) (k : K) | PrivRSA (k : K) | PrivEd25519 (k : K) | PrivOther.
Arguments PubECDSA {K}. Arguments PubRSA {K}. Arguments PubEd25519 {K}. Arguments PubOther {K}.
Arguments PrivECDSA {K}. Arguments PrivRSA {K}. Arguments PrivEd25519 {K}. Arguments PrivOther {K}.

Definition compat {K} (priv : PrivateKey K) (s : Z) : bool :=
  match signatureSchemeInfo s with
  | Err _ => false
  | Ok sigAlgECDSA =>
      match priv with PrivECDSA curve _ => bool_decide (curve = "P-256") | _ => false end
  | Ok sigAlgRSAPSS => match priv with PrivRSA _ => true | _ => false end
  | Ok sigAlgEd25519 => match priv with PrivEd25519 _ => true | _ => false end
  end.

Definition chooseSignatureScheme {K} (priv : PrivateKey K) (offered : list Z) : result error Z :=
  if 0 <? len offered then
    match find (compat priv) offered with
    | Some s => Ok s
    | None => Err ErrUnsupportedSignatureScheme
    end
  else match priv with
       | PrivECDSA curve _ =>
           if bool_decide (curve = "P-256") then Ok ECDSAWithP256AndSHA256
           else Err ErrUnsupportedSignatureScheme
       | PrivRSA _ => Ok PSSWithSHA256
       | PrivEd25519 _ => Ok Ed25519
       | PrivOther => Err ErrUnsupportedSignatureScheme
       end.

(** ** CertificateVerify *)

Definition eaContextString : list byte := bytesOf "Exported Authenticator".

Definition buildCertVerifyInput (transcriptHash : list byte) : list byte :=
  replicate 64 (toByte 0x20) ++ eaContextString ++ [toByte 0] ++ transcriptHash.

(** [crypto/ecdsa], [crypto/rsa], [crypto/ed25519], [crypto/x509] and [crypto/rand].
    Signing may fail and may use randomness, which the key value stands for. *)
Class Crypto (K : Type) := {
  ecdsaSign : K -> list byte -> result error (list byte);
  ecdsaVerify : K -> list byte -> list byte -> bool;
  rsaSignPSS : K -> list byte -> result error (list byte);
  rsaVerifyPSS : K -> list byte -> list byte -> bool;
  ed25519Sign : K -> list byte -> list byte;
  ed25519Verify : K -> list byte -> list byte -> bool;
  ParseCertificate : list byte -> result error (Certificate (PublicKey K));
  VerifyOptions : Type;
  (** [leaf.Verify(opts)] with the rest of the chain added to the intermediates. *)
  VerifyChain : VerifyOptions -> Certificate (PublicKey K) -> list (Certificate (PublicKey K)) ->
    option error }.

Section crypto.
Context {K : Type} `{Crypto K}.

Definition signCertVerify (priv : PrivateKey K) (scheme : Z) (transcriptHash : list byte)
    : result error (list byte) :=
  let* alg := signatureSchemeInfo scheme in
  let msg := buildCertVerifyInput transcriptHash in
  match alg, priv with
  | sigAlgECDSA, PrivECDSA _ k => ecdsaSign k (Sum256 msg)
  | sigAlgRSAPSS, PrivRSA k => rsaSignPSS k (Sum256 msg)
  | sigAlgEd25519, PrivEd25519 k => Ok (ed25519Sign k msg)
  | _, _ => Err ErrUnsupportedSignatureScheme
  end.

Definition verifyCertVerify (pub : PublicKey K) (scheme : Z) (transcriptHash signature : list byte)
    : option error :=
  match signatureSchemeInfo scheme with
  | Err err => Some err
  | Ok alg =>
      let msg := buildCertVerifyInput transcriptHash in
      let verdict b := if negb b then Some ErrSignatureMismatch else None in
      match alg, pub with
      | sigAlgECDSA, PubECDSA k => verdict (ecdsaVerify k (Sum256 msg) signature)
      | sigAlgRSAPSS, PubRSA k => verdict (rsaVerifyPSS k (Sum256 msg) signature)
      | sigAlgEd25519, PubEd25519 k => verdict (ed25519Verify k msg signature)
      | _, _ => Some ErrUnsupportedSignatureScheme
      end
  end.
End crypto.

(** ** Session *)

(** A [*Session]: [None] is nil, otherwise the contexts used so far. *)
Definition Session : Type := option (gset string).
Definition NewSession : Session := Some ∅.

Definition MarkContextUsed (s : Session) (ctx : list byte) : option error * Session :=
  match s with
  | None => (None, s)
  | Some used =>
      let key := stringOf ctx in
      if bool_decide (key ∈ used) then (Some ErrContextReuse, s)
      else (None, Some ({[key]} ∪ used))
  end.

(** ** Creation *)

(** [tls.Certificate]: the chain and the private key, nil when absent. *)
Record Identity (K : Type) := mkIdentity {
  id_Certificate : list (list byte); id_PrivateKey : option (PrivateKey K) }.
Arguments mkIdentity {K}. Arguments id_Certificate {K}. Arguments id_PrivateKey {K}.

(** The entries of the chain: the extensions go to the leaf. *)
Definition chainEntries (chain : list (list byte)) (leafExts : list Extension)
    : list CertificateEntry :=
  match chain with
  | [] => []
  | leaf :: rest => mkEntry leaf leafExts :: map (fun der => mkEntry der []) rest
  end.

Definition NewRandomContext (rand : result error (list byte)) (n : Z) : result error (list byte) :=
  if (n <=? 0) || (255 <? n) then Err ErrInvalidLength else rand.

(** What both functions take from the request: its bytes, the offered schemes and the
    context; [rand] supplies the context when there is no request. *)
Definition requestParts (req : AuthenticatorRequest)
    : result error (list byte * list Z * list byte) :=
  let* reqBytes := AuthenticatorRequest_Marshal req in
  match SignatureSchemes req with
  | Some schemes => Ok (reqBytes, schemes, ar_Context req)
  | None => Err (ErrWrap "missing signature_algorithms" ErrBadRequest)
  end.

Definition createParts (req : option AuthenticatorRequest) (rand : result error (list byte))
    : result error (list byte * list Z * list byte) :=
  match req with
  | Some req => requestParts req
  | None => let* ctx := NewRandomContext rand 32 in Ok ([], [], ctx)
  end.

(** [session.MarkContextUsed(ctx)], then the result. *)
Definition markThen {A} (s : Session) (ctx : list byte) (k : Session -> result error A * Session)
    : result error A * Session :=
  match MarkContextUsed s ctx with
  | (Some err, s') => (Err err, s')
  | (None, s') => k s'
  end.

Section create.
Context {K : Type} `{Crypto K}.

(** The bytes of an authenticator and its context, but for the session mark. *)
Definition authenticatorBytes (st : ConnectionState) (role : Z)
    (req : option AuthenticatorRequest) (policy : option SpontaneousAuthenticatorPolicy)
    (identity : Identity K) (leafEntryExtensions : list Extension)
    (rand : result error (list byte)) : result error (list byte * list byte) :=
  if negb (st_Version st =? VersionTLS13) then Err ErrNotTLS13
  else if bool_decide (req = None) && negb (role =? RoleServer) then Err ErrInvalidRole
  else match validateCertificateEntryExtensions leafEntryExtensions req policy with
  | Some err => Err err
  | None =>
      let noChain := len (id_Certificate identity) =? 0 in
      let noKey := bool_decide (id_PrivateKey identity = None) in
      if negb (noChain && noKey) && (noChain || noKey) then Err ErrBadRequest
      else
        let* parts := createParts req rand in
        let '(reqBytes, offered, ctx) := parts in
        let* hs := ExportHandshakeContext st role in
        let '(hsCtx, h) := hs in
        let* fkr := ExportFinishedKey st role in
        let fk := fst fkr in
        match id_PrivateKey identity with
        | None =>
            if bool_decide (req = None) then Err ErrBadRequest
            else
              let* certBytes := CertificateMessage_Marshal (mkCertificate ctx []) in
              let th := hashConcat h [hsCtx; reqBytes; certBytes] in
              let* finBytes := FinishedMessage_Marshal (mkFinished (hmacSum h fk th)) in
              Ok (finBytes, ctx)
        | Some key =>
            let* scheme := chooseSignatureScheme key offered in
            if bool_decide (req = None) && negb (policyPermitsSignatureScheme policy scheme)
            then Err ErrUnsupportedSignatureScheme
            else
              let* certBytes := CertificateMessage_Marshal
                (mkCertificate ctx (chainEntries (id_Certificate identity) leafEntryExtensions)) in
              let th1 := hashConcat h [hsCtx; reqBytes; certBytes] in
              let* sig := signCertVerify key scheme th1 in
              let* cvBytes := CertificateVerifyMessage_Marshal (mkCertVerify scheme sig) in
              let th2 := hashConcat h [hsCtx; reqBytes; certBytes; cvBytes] in
              let* finBytes := FinishedMessage_Marshal (mkFinished (hmacSum h fk th2)) in
              Ok (certBytes ++ cvBytes ++ finBytes, ctx)
        end
  end.

Definition createAuthenticator (session : Session) (st : ConnectionState) (role : Z)
    (req : option AuthenticatorRequest) (policy : option SpontaneousAuthenticatorPolicy)
    (identity : Identity K) (leafEntryExtensions : list Extension)
    (rand : result error (list byte)) : result error (list byte) * Session :=
  match authenticatorBytes st role req policy identity leafEntryExtensions rand with
  | Err err => (Err err, session)
  | Ok (out, ctx) => markThen session ctx (fun s => (Ok out, s))
  end.
End create.

(** ** Validation *)

Record ValidationResult (K : Type) := mkValidation {
  vr_Context : list byte; vr_Chain : list (Certificate (PublicKey K));
  vr_CMWAttestation : list byte; vr_Attestation : option VerifiedPayload; vr_Empty : bool }.
Arguments mkValidation {K}. Arguments vr_Context {K}. Arguments vr_Chain {K}.
Arguments vr_CMWAttestation {K}. Arguments vr_Attestation {K}. Arguments vr_Empty {K}.

Fixpoint entriesPermitted (entries : list CertificateEntry) (req : option AuthenticatorRequest)
    (policy : option SpontaneousAuthenticatorPolicy) : option error :=
  match entries with
  | [] => None
  | entry :: t =>
      match validateCertificateEntryExtensions (ce_Extensions entry) req policy with
      | Some err => Some err
      | None => entriesPermitted t req policy
      end
  end.

Definition isSome {A} (o : option A) : bool := match o with Some _ => true | None => false end.

Section validate.
Context {K : Type} `{Crypto K} `{PKIX (PublicKey K)} `{PayloadJSON}.

Fixpoint parseChain (entries : list CertificateEntry)
    : result error (list (Certificate (PublicKey K))) :=
  match entries with
  | [] => Ok []
  | e :: t =>
      let* c := ParseCertificate (ce_CertDER e) in let* chain := parseChain t in Ok (c :: chain)
  end.

(** A Finished-only authenticator. *)
Definition checkEmpty (h : Hash) (hsCtx fk reqBytes : list byte)
    (req : option AuthenticatorRequest) (reqCtx : list byte) (hm : HandshakeMessage)
    (rest : list byte) : option error :=
  if bool_decide (req = None) || negb (len rest =? 0) then Some ErrUnsupportedHandshakeType
  else match UnmarshalFinishedMessage (rawBytes hm) with
  | Err err => Some err
  | Ok (finMsg, _) =>
      match CertificateMessage_Marshal (mkCertificate reqCtx []) with
      | Err err => Some err
      | Ok certBytes =>
          let th := hashConcat h [hsCtx; reqBytes; certBytes] in
          if negb (constantTimeEqual (hmacSum h fk th) (fm_VerifyData finMsg))
          then Some ErrFinishedMismatch else None
      end
  end.

(** The message checks of a full authenticator: the context, the chain and the
    attestation payload, if there is one. *)
Definition checkMessages (req : option AuthenticatorRequest)
    (policy : option SpontaneousAuthenticatorPolicy) (reqCtx : list byte)
    (certMsg : CertificateMessage)
    : result error (Certificate (PublicKey K) * list (Certificate (PublicKey K))
                    * option (list byte)) :=
  if negb (bool_decide (req = None)) && negb (bool_decide (cm_Context certMsg = reqCtx))
  then Err ErrContextMismatch
  else match cm_Entries certMsg with
  | [] => Err ErrUnsupportedHandshakeType
  | leafEntry :: _ =>
      match ValidateCMWAttestationPlacement (cm_Entries certMsg) with
      | Some err => Err err
      | None =>
          match entriesPermitted (cm_Entries certMsg) req policy with
          | Some err => Err err
          | None =>
              let* extracted := ExtractCMWAttestationFromExtensions (ce_Extensions leafEntry) in
              let present := isSome extracted in
              if present && negb (bool_decide (req = None))
                 && negb (RequestPermitsCertificateExtension req CMWAttestationExtensionType)
              then Err ErrBadRequest
              else if present && bool_decide (req = None)
                 && negb (PolicyPermitsCertificateExtension policy CMWAttestationExtensionType)
              then Err ErrBadRequest
              else
                let* chain := parseChain (cm_Entries certMsg) in
                match chain with
                | [] => Err ErrUnsupportedHandshakeType
                | leaf :: rest => Ok (leaf, rest, extracted)
                end
          end
      end
  end.

(** The signature, the Finished MAC and the chain. *)
Definition checkProofs (h : Hash) (hsCtx fk reqBytes : list byte)
    (req : option AuthenticatorRequest) (offered : list Z) (certBytes cvBytes : list byte)
    (cvMsg : CertificateVerifyMessage) (finMsg : FinishedMessage)
    (leaf : Certificate (PublicKey K)) (rest : list (Certificate (PublicKey K)))
    (verifyOpts : option VerifyOptions) : option error :=
  if negb (bool_decide (req = None))
     && negb (existsb (fun s => s =? cv_Algorithm cvMsg) offered)
  then Some ErrUnsupportedSignatureScheme
  else
    let th1 := hashConcat h [hsCtx; reqBytes; certBytes] in
    match verifyCertVerify (x_PublicKey leaf) (cv_Algorithm cvMsg) th1 (cv_Signature cvMsg) with
    | Some err => Some err
    | None =>
        let th2 := hashConcat h [hsCtx; reqBytes; certBytes; cvBytes] in
        if negb (constantTimeEqual (hmacSum h fk th2) (fm_VerifyData finMsg))
        then Some ErrFinishedMismatch
        else match verifyOpts with
             | None => None
             | Some opts => VerifyChain opts leaf rest
             end
    end.

(** After the context is marked: the attestation. *)
Definition checkAttestation (st : ConnectionState) (attPolicy : option VerificationPolicy)
    (ctx : list byte) (leaf : Certificate (PublicKey K))
    (rest : list (Certificate (PublicKey K))) (extracted : option (list byte))
    : result error (ValidationResult K) :=
  let verifierPolicy := default (mkVerificationPolicy None None) attPolicy in
  match extracted with
  | None =>
      if RequiresAttestation verifierPolicy then Err ErrMissingAttestation
      else Ok (mkValidation ctx (leaf :: rest) [] None false)
  | Some cmw =>
      let* parsed := ParsePayload cmw in
      let* verified := VerifyPayload st ExporterLabelAttestation ctx (Some leaf) (Some parsed)
                         verifierPolicy in
      Ok (mkValidation ctx (leaf :: rest) cmw (Some verified) false)
  end.

(** The three messages after the first was read as a Certificate. *)
Definition readMessages (certHm : HandshakeMessage) (rest : list byte)
    : result error (CertificateMessage * CertificateVerifyMessage * FinishedMessage * list byte) :=
  match UnmarshalHandshakeMessage rest with
  | Err _ => Err ErrUnsupportedHandshakeType
  | Ok (cvHm, rest) =>
      if negb (bool_decide (hm_Type cvHm = HandshakeTypeCertificateVerify))
      then Err ErrUnsupportedHandshakeType
      else match UnmarshalHandshakeMessage rest with
      | Err _ => Err ErrInvalidLength
      | Ok (finHm, rest) =>
          if negb (bool_decide (hm_Type finHm = HandshakeTypeFinished)) || negb (len rest =? 0)
          then Err ErrInvalidLength
          else
            let* c := UnmarshalCertificateMessage (rawBytes certHm) in
            let* v := UnmarshalCertificateVerifyMessage (rawBytes cvHm) in
            let* f := UnmarshalFinishedMessage (rawBytes finHm) in
            Ok (fst c, fst v, fst f, rawBytes cvHm)
      end
  end.

Definition validateAuthenticator (session : Session) (st : ConnectionState) (role : Z)
    (req : option AuthenticatorRequest) (policy : option SpontaneousAuthenticatorPolicy)
    (attPolicy : option VerificationPolicy) (authBytes : list byte)
    (verifyOpts : option VerifyOptions) : result error (ValidationResult K) * Session :=
  if negb (st_Version st =? VersionTLS13) then (Err ErrNotTLS13, session)
  else match
    (let* hs := ExportHandshakeContext st role in
     let* fkr := ExportFinishedKey st role in
     let* parts := match req with Some req => requestParts req | None => Ok ([], [], []) end in
     let* first := UnmarshalHandshakeMessage authBytes in
     Ok (hs, fst fkr, parts, first)) with
  | Err err => (Err err, session)
  | Ok (hsCtx, h, fk, (reqBytes, offered, reqCtx), (firstHm, rest)) =>
      if bool_decide (hm_Type firstHm = HandshakeTypeFinished) then
        match checkEmpty h hsCtx fk reqBytes req reqCtx firstHm rest with
        | Some err => (Err err, session)
        | None => markThen session reqCtx (fun s => (Ok (mkValidation reqCtx [] [] None true), s))
        end
      else if negb (bool_decide (hm_Type firstHm = HandshakeTypeCertificate))
      then (Err ErrUnsupportedHandshakeType, session)
      else match
        (let* msgs := readMessages firstHm rest in
         let '(certMsg, cvMsg, finMsg, cvBytes) := msgs in
         let* chk := checkMessages req policy reqCtx certMsg in
         let '(leaf, chain, extracted) := chk in
         match checkProofs h hsCtx fk reqBytes req offered (rawBytes firstHm) cvBytes cvMsg finMsg
                 leaf chain verifyOpts with
         | Some err => Err err
         | None => Ok (cm_Context certMsg, leaf, chain, extracted)
         end) with
      | Err err => (Err err, session)
      | Ok (ctx, leaf, chain, extracted) =>
          markThen session ctx (fun s => (checkAttestation st attPolicy ctx leaf chain extracted, s))
      end
  end.
End validate.

(** ** The exported functions *)

Section api.
Context {K : Type} `{Crypto K} `{PKIX (PublicKey K)} `{PayloadJSON}.

Definition CreateAuthenticator st role req (identity : Identity K) exts rand :=
  fst (createAuthenticator None st role req None identity exts rand).
Definition CreateAuthenticatorWithPolicy st role req policy (identity : Identity K) exts rand :=
  fst (createAuthenticator None st role req policy identity exts rand).
Definition ValidateAuthenticator st role req auth verifyOpts : result error (ValidationResult K) :=
  fst (validateAuthenticator None st role req None None auth verifyOpts).
Definition ValidateAuthenticatorWithPolicy st role req policy auth verifyOpts
    : result error (ValidationResult K) :=
  fst (validateAuthenticator None st role req policy None auth verifyOpts).
Definition ValidateAuthenticatorWithAttestation st role req auth verifyOpts attPolicy
    : result error (ValidationResult K) :=
  fst (validateAuthenticator None st role req None (Some attPolicy) auth verifyOpts).
Definition ValidateAuthenticatorWithPolicies st role req policy auth verifyOpts attPolicy
    : result error (ValidationResult K) :=
  fst (validateAuthenticator None st role req policy (Some attPolicy) auth verifyOpts).

Definition Session_CreateAuthenticatorWithPolicy s st role req policy (identity : Identity K) exts
    rand := createAuthenticator s st role req policy identity exts rand.
Definition Session_CreateAuthenticator s st role req (identity : Identity K) exts rand :=
  createAuthenticator s st role req None identity exts rand.
Definition Session_ValidateAuthenticator s st role req auth verifyOpts
    : result error (ValidationResult K) * Session :=
  validateAuthenticator s st role req None None auth verifyOpts.
Definition Session_ValidateAuthenticatorWithPolicy s st role req policy auth verifyOpts
    : result error (ValidationResult K) * Session :=
  validateAuthenticator s st role req policy None auth verifyOpts.
Definition Session_ValidateAuthenticatorWithAttestation s st role req auth verifyOpts attPolicy
    : result error (ValidationResult K) * Session :=
  validateAuthenticator s st role req None (Some attPolicy) auth verifyOpts.
Definition Session_ValidateAuthenticatorWithPolicies s st role req policy auth verifyOpts attPolicy
    : result error (ValidationResult K) * Session :=
  validateAuthenticator s st role req policy (Some attPolicy) auth verifyOpts.
End api.

(** ** Specification *)

(** What the two ends derive from the TLS session. *)
Definition sessionKeys (st : ConnectionState) (role : Z) (h : Hash) (hsCtx fk : list byte) : Prop :=
  st_Version st = VersionTLS13
  /\ ExportHandshakeContext st role = Ok (hsCtx, h) /\ ExportFinishedKey st role = Ok (fk, h).

(** The request's bytes, offered schemes and context; empty without a request. *)
Definition requestIs (req : option AuthenticatorRequest) (reqBytes : list byte)
    (offered : list Z) (reqCtx : list byte) : Prop :=
  match req with
  | Some r => AuthenticatorRequest_Marshal r = Ok reqBytes /\ SignatureSchemes r = Some offered
              /\ reqCtx = ar_Context r
  | None => reqBytes = [] /\ offered = [] /\ reqCtx = []
  end.

(** An extension of a certificate entry was asked for, or is allowed unasked. *)
Definition permitted (req : option AuthenticatorRequest)
    (policy : option SpontaneousAuthenticatorPolicy) (typ : Z) : Prop :=
  match req with
  | Some _ => RequestPermitsCertificateExtension req typ = true
  | None => PolicyPermitsCertificateExtension policy typ = true
  end.

Section spec.
Context {K : Type} `{Crypto K} `{PKIX (PublicKey K)} `{PayloadJSON}.

(** The Finished message over a transcript. *)
Definition finishedOver (h : Hash) (fk : list byte) (transcript : list (list byte))
    (finBytes : list byte) : Prop :=
  FinishedMessage_Marshal (mkFinished (hmacSum h fk (hashConcat h transcript))) = Ok finBytes.

Definition emptyAccepts (h : Hash) (hsCtx fk reqBytes reqCtx auth : list byte)
    (req : option AuthenticatorRequest) (res : ValidationResult K) : Prop :=
  is_Some req /\ res = mkValidation reqCtx [] [] None true
  /\ exists certBytes, CertificateMessage_Marshal (mkCertificate reqCtx []) = Ok certBytes
       /\ finishedOver h fk [hsCtx; reqBytes; certBytes] auth.

Definition messageAccepts (req : option AuthenticatorRequest)
    (policy : option SpontaneousAuthenticatorPolicy) (reqCtx : list byte)
    (m : CertificateMessage) (leaf : Certificate (PublicKey K))
    (rest : list (Certificate (PublicKey K))) (extracted : option (list byte)) : Prop :=
  (is_Some req -> cm_Context m = reqCtx)
  /\ parseChain (cm_Entries m) = Ok (leaf :: rest)
  /\ Forall (fun e => Forall (fun x => permitted req policy (ext_Type x)) (ce_Extensions e))
       (cm_Entries m)
  /\ Forall (fun e => hasExtension CMWAttestationExtensionType (ce_Extensions e) = false)
       (drop 1 (cm_Entries m))
  /\ exists e t, cm_Entries m = e :: t
       /\ ExtractCMWAttestationFromExtensions (ce_Extensions e) = Ok extracted.

Definition fullAccepts (st : ConnectionState) (h : Hash) (hsCtx fk reqBytes reqCtx auth : list byte)
    (req : option AuthenticatorRequest) (policy : option SpontaneousAuthenticatorPolicy)
    (offered : list Z) (attPolicy : option VerificationPolicy) (verifyOpts : option VerifyOptions)
    (res : ValidationResult K) : Prop :=
  exists m cv certBytes cvBytes finBytes leaf rest extracted,
    auth = certBytes ++ cvBytes ++ finBytes
    /\ (wfCertificate m /\ CertificateMessage_Marshal m = Ok certBytes)
    /\ (0 <= cv_Algorithm cv <= 0xFFFF /\ CertificateVerifyMessage_Marshal cv = Ok cvBytes)
    /\ finishedOver h fk [hsCtx; reqBytes; certBytes; cvBytes] finBytes
    /\ messageAccepts req policy reqCtx m leaf rest extracted
    /\ (is_Some req -> cv_Algorithm cv ∈ offered)
    /\ verifyCertVerify (x_PublicKey leaf) (cv_Algorithm cv)
         (hashConcat h [hsCtx; reqBytes; certBytes]) (cv_Signature cv) = None
    /\ (forall opts, verifyOpts = Some opts -> VerifyChain opts leaf rest = None)
    /\ checkAttestation st attPolicy (cm_Context m) leaf rest extracted = Ok res.

(** An authenticator accepted, but for the context mark. *)
Definition authenticatorAccepts (st : ConnectionState) (role : Z)
    (req : option AuthenticatorRequest) (policy : option SpontaneousAuthenticatorPolicy)
    (attPolicy : option VerificationPolicy) (auth : list byte) (verifyOpts : option VerifyOptions)
    (res : ValidationResult K) : Prop :=
  exists h hsCtx fk reqBytes offered reqCtx,
    sessionKeys st role h hsCtx fk /\ requestIs req reqBytes offered reqCtx
    /\ (emptyAccepts h hsCtx fk reqBytes reqCtx auth req res
        \/ fullAccepts st h hsCtx fk reqBytes reqCtx auth req policy offered attPolicy verifyOpts
             res).

(** ** Refinement *)

Lemma constantTimeEqual_true a b : constantTimeEqual a b = true <-> a = b.
Proof.
  unfold constantTimeEqual, equalBytes. destruct (len a =? len b) eqn:L; cbn [negb].
  - apply bool_decide_eq_true.
  - split; [done|]. intros ->. by rewrite Z.eqb_refl in L.
Qed.

Lemma exportForRole_hash st role c s out h :
  exportForRole st role c s = Ok (out, h) -> AuthenticatorHashTLS13 (st_CipherSuite st) = Ok h.
Proof.
  unfold exportForRole. case_goal; [done|].
  destruct (AuthenticatorHashTLS13 _) as [h'|]; [|done].
  destruct (ExportKeyingMaterial _ _ _ _); [|done]. by intros [= _ <-].
Qed.

Lemma keys_hash st role x h fk h' :
  ExportHandshakeContext st role = Ok (x, h) -> ExportFinishedKey st role = Ok (fk, h') -> h = h'.
Proof. intros E%exportForRole_hash E'%exportForRole_hash. congruence. Qed.

Lemma requestParts_Ok req rb off ctx :
  match req with Some r => requestParts r | None => Ok ([], [], []) end = Ok (rb, off, ctx)
  <-> requestIs req rb off ctx.
Proof.
  unfold requestIs, requestParts. destruct req as [r|].
  - destruct (AuthenticatorRequest_Marshal r) as [b|];
      [|split; [done | by intros (? & _)]].
    destruct (SignatureSchemes r) as [s|]; [|split; [done | by intros (_ & ? & _)]].
    split; [by intros [= <- <- <-] | by intros ([= <-] & [= <-] & ->)].
  - split; [by intros [= <- <- <-] | by intros (-> & -> & ->)].
Qed.

Lemma entryExtensions_None exts req policy :
  validateCertificateEntryExtensions exts req policy = None <->
  Forall (fun x => permitted req policy (ext_Type x)) exts.
Proof.
  induction exts as [|e t IH]; simpl; [by split; [constructor|]|].
  rewrite Forall_cons, <- IH. unfold permitted.
  destruct req as [r|]; case_goal; bool_to_prop; intuition congruence.
Qed.

Lemma entriesPermitted_None entries req policy :
  entriesPermitted entries req policy = None <->
  Forall (fun e => Forall (fun x => permitted req policy (ext_Type x)) (ce_Extensions e)) entries.
Proof.
  induction entries as [|e t IH]; cbn [entriesPermitted]; [by split; [constructor|]|].
  rewrite Forall_cons, <- IH, <- entryExtensions_None.
  destruct (validateCertificateEntryExtensions _ _ _); intuition congruence.
Qed.

Lemma placement_None entries :
  ValidateCMWAttestationPlacement entries = None <->
  Forall (fun e => hasExtension CMWAttestationExtensionType (ce_Extensions e) = false)
    (drop 1 entries).
Proof.
  unfold ValidateCMWAttestationPlacement. rewrite <- existsb_false_iff.
  case_goal; intuition congruence.
Qed.

Lemma extract_some_type exts cmw :
  ExtractCMWAttestationFromExtensions exts = Ok (Some cmw) ->
  exists x, x ∈ exts /\ ext_Type x = CMWAttestationExtensionType.
Proof.
  induction exts as [|x t IH]; cbn [ExtractCMWAttestationFromExtensions]; [done|].
  destruct (ext_Type x =? CMWAttestationExtensionType) eqn:T; cbn [negb].
  - intros _. exists x. split; [by left | by apply Z.eqb_eq].
  - intros (y & ? & ?)%IH. exists y. split; [by right | done].
Qed.

Lemma checkMessages_Ok req policy reqCtx m leaf rest extracted :
  checkMessages req policy reqCtx m = Ok (leaf, rest, extracted) <->
  messageAccepts req policy reqCtx m leaf rest extracted.
Proof.
  unfold checkMessages, messageAccepts.
  rewrite <- entriesPermitted_None, <- placement_None.
  assert (Hc : negb (bool_decide (req = None)) && negb (bool_decide (cm_Context m = reqCtx)) = false
               <-> (is_Some req -> cm_Context m = reqCtx)).
  { rewrite <- not_eq_None_Some. repeat case_bool_decide; simpl; intuition congruence. }
  destruct (_ && _); [split; [done | intros (? & _); intuition congruence]|].
  destruct (cm_Entries m) as [|e t];
    [split; [done | by intros (_ & _ & _ & _ & ? & ? & ? & _)]|].
  destruct (ValidateCMWAttestationPlacement _) eqn:P; [by intuition|].
  destruct (entriesPermitted _ _ _) eqn:Pe; [by intuition|].
  apply entriesPermitted_None, Forall_cons in Pe as [Pe _].
  destruct (ExtractCMWAttestationFromExtensions (ce_Extensions e)) as [x|] eqn:X;
    [|split; [done | intros (_ & _ & _ & _ & ? & ? & [= <- <-] & ?); congruence]].
  assert (Hx : isSome x = true -> permitted req policy CMWAttestationExtensionType).
  { destruct x as [cmw|]; [|done]. intros _.
    destruct (extract_some_type _ _ X) as (y & Hin & <-).
    rewrite Forall_forall in Pe. by apply Pe. }
  assert (isSome x && negb (bool_decide (req = None))
          && negb (RequestPermitsCertificateExtension req CMWAttestationExtensionType) = false) as ->.
  { destruct (isSome x); [|done]. destruct req; [|done]. simpl. by rewrite (Hx eq_refl). }
  assert (isSome x && bool_decide (req = None)
          && negb (PolicyPermitsCertificateExtension policy CMWAttestationExtensionType) = false) as ->.
  { destruct (isSome x); [|done]. destruct req; [done|]. simpl. by rewrite (Hx eq_refl). }
  destruct (parseChain (e :: t)) as [[|l r]|]; cbv zeta.
  - split; [done | by intros (_ & ? & _)].
  - split.
    + intros [= <- <- <-]. split_and!; [tauto | done | done | done | eauto].
    + intros (_ & [= <- <-] & _ & _ & ? & ? & [= <- <-] & ?). congruence.
  - split; [done | by intros (_ & ? & _)].
Qed.

Lemma checkProofs_None h hsCtx fk rb req off cb cvb cv fin leaf rest opts :
  checkProofs h hsCtx fk rb req off cb cvb cv fin leaf rest opts = None <->
  (is_Some req -> cv_Algorithm cv ∈ off)
  /\ verifyCertVerify (x_PublicKey leaf) (cv_Algorithm cv) (hashConcat h [hsCtx; rb; cb])
       (cv_Signature cv) = None
  /\ fin = mkFinished (hmacSum h fk (hashConcat h [hsCtx; rb; cb; cvb]))
  /\ (forall o, opts = Some o -> VerifyChain o leaf rest = None).
Proof.
  unfold checkProofs. cbv zeta.
  assert (Ho : negb (bool_decide (req = None)) && negb (existsb (fun s => s =? cv_Algorithm cv) off)
               = false <-> (is_Some req -> cv_Algorithm cv ∈ off)).
  { rewrite <- not_eq_None_Some, list_elem_of_In.
    assert (existsb (fun s => s =? cv_Algorithm cv) off = true <-> In (cv_Algorithm cv) off) as <-.
    { rewrite existsb_exists. split; [intros (x & ? & <-%Z.eqb_eq); done|].
      intros ?. exists (cv_Algorithm cv). by rewrite Z.eqb_refl. }
    case_bool_decide; destruct (existsb _ _); simpl; intuition congruence. }
  destruct (_ && _); [split; [done | intros (? & _); intuition congruence]|].
  destruct (verifyCertVerify _ _ _ _); [by intuition|].
  assert (Hf : constantTimeEqual (hmacSum h fk (hashConcat h [hsCtx; rb; cb; cvb]))
                 (fm_VerifyData fin) = true
               <-> fin = mkFinished (hmacSum h fk (hashConcat h [hsCtx; rb; cb; cvb]))).
  { rewrite constantTimeEqual_true. destruct fin. simpl. split; [by intros <- | by intros [= ->]]. }
  destruct (constantTimeEqual _ _); cbn [negb]; [|split; [done | intros (_ & _ & ? & _); intuition congruence]].
  destruct opts as [o|].
  - split; [intros V; split_and!; [tauto | done | tauto | by intros ? [= <-]]|].
    intros (_ & _ & _ & V). by apply V.
  - split; [intros _; split_and!; [tauto | done | tauto | done] | done].
Qed.

Lemma readMessages_Ok auth hm rest m cv fin cvb :
  UnmarshalHandshakeMessage auth = Ok (hm, rest) ->
  readMessages hm rest = Ok (m, cv, fin, cvb) <->
  exists finb, auth = rawBytes hm ++ cvb ++ finb
    /\ (wfCertificate m /\ CertificateMessage_Marshal m = Ok (rawBytes hm))
    /\ (0 <= cv_Algorithm cv <= 0xFFFF /\ CertificateVerifyMessage_Marshal cv = Ok cvb)
    /\ FinishedMessage_Marshal fin = Ok finb.
Proof.
  intros U. apply reads_marshal in U as (_ & b & M & ->).
  assert (Hraw : rawBytes hm = b) by (unfold rawBytes; by rewrite M). rewrite Hraw.
  unfold readMessages. rewrite Hraw. split.
  - destruct (UnmarshalHandshakeMessage rest) as [[cvHm rest1]|] eqn:U1; [|done].
    destruct (negb _); [done|].
    destruct (UnmarshalHandshakeMessage rest1) as [[finHm rest2]|] eqn:U2; [|done].
    destruct (len rest2 =? 0) eqn:L; [|by destruct (negb _)].
    apply Z.eqb_eq, len_zero in L as ->. destruct (_ || _); [done|].
    apply reads_marshal in U1 as (_ & b1 & M1 & ->), U2 as (_ & b2 & M2 & ->).
    unfold rawBytes. rewrite M1, M2.
    destruct (UnmarshalCertificateMessage b) as [[m' r1]|] eqn:C; [|done].
    destruct (UnmarshalCertificateVerifyMessage b1) as [[cv' r2]|] eqn:V; [|done].
    destruct (UnmarshalFinishedMessage b2) as [[f' r3]|] eqn:F; [|done].
    intros [= <- <- <- <-]. simpl.
    apply Certificate_sound in C as (? & ? & _). apply CertificateVerify_sound in V as (? & ? & _).
    assert (r3 = b2) as -> by (by apply (Finished_raw f')). apply Finished_exact in F.
    exists b2. rewrite app_nil_r. do 3 (split; [done|]). done.
  - intros (finb & E & [Hwf Mc] & [Ha Mv] & Mf). apply app_inv_head in E as ->.
    destruct (CertificateVerify_handshake _ _ Mv) as (body & Hv).
    pose proof (Finished_handshake _ _ Mf) as Hf.
    rewrite (marshal_reads _ cvb finb I Hv). cbn [hm_Type].
    rewrite bool_decide_eq_true_2 by done. cbn [negb].
    rewrite (handshake_exact _ _ Hf). cbn [hm_Type].
    rewrite bool_decide_eq_true_2 by done. cbn [negb orb len length].
    unfold rawBytes. rewrite Hv, Hf.
    rewrite (Certificate_reads _ _ Hwf Mc), (CertificateVerify_exact _ _ Ha Mv).
    apply Finished_exact in Mf. by rewrite Mf.
Qed.

Lemma checkEmpty_None h hsCtx fk rb req reqCtx auth hm rest :
  UnmarshalHandshakeMessage auth = Ok (hm, rest) -> hm_Type hm = HandshakeTypeFinished ->
  checkEmpty h hsCtx fk rb req reqCtx hm rest = None <->
  is_Some req /\ exists certBytes, CertificateMessage_Marshal (mkCertificate reqCtx []) = Ok certBytes
    /\ finishedOver h fk [hsCtx; rb; certBytes] auth.
Proof.
  intros U T. apply reads_marshal in U as (_ & b & M & ->).
  unfold checkEmpty, finishedOver. assert (Hraw : rawBytes hm = b) by (unfold rawBytes; by rewrite M).
  rewrite Hraw. destruct req as [r|]; simpl; [|split; [done | by intros [[? ?] _]]].
  split.
  - destruct (len rest =? 0) eqn:L; simpl; [|done]. apply Z.eqb_eq, len_zero in L as ->.
    destruct (UnmarshalFinishedMessage b) as [[fin raw]|] eqn:F; [|done].
    destruct (CertificateMessage_Marshal _) as [cb|] eqn:C; [|done].
    destruct (constantTimeEqual _ _) eqn:E; [|done]. intros _. split; [eauto|].
    exists cb. split; [done|]. apply constantTimeEqual_true in E. rewrite E, app_nil_r.
    pose proof (Finished_raw _ _ _ F) as ->. apply Finished_exact in F. by destruct fin.
  - intros (_ & cb & C & Fm). rewrite C.
    pose proof (Finished_handshake _ _ Fm) as Hf. apply handshake_exact in Hf as Hu.
    rewrite (marshal_reads hm b rest I M) in Hu. injection Hu as -> ->. simpl.
    rewrite app_nil_r in Fm. apply Finished_exact in Fm. rewrite Fm. cbn [fm_VerifyData].
    by rewrite (proj2 (constantTimeEqual_true _ _) eq_refl).
Qed.


Lemma markThen_iff {A} s ctx (r : result error A) a s'' :
  markThen s ctx (fun s' => (r, s')) = (Ok a, s'') <->
  r = Ok a /\ MarkContextUsed s ctx = (None, s'').
Proof.
  unfold markThen. destruct (MarkContextUsed s ctx) as [[e|] s']; [by intuition|].
  split; [by intros [= -> ->] | by intros [-> [= ->]]].
Qed.

(** The head of validation: everything up to the first message. *)
Lemma validate_head st role req auth hsCtx h fk rb off reqCtx hm rest :
  st_Version st = VersionTLS13 ->
  (let* hs := ExportHandshakeContext st role in
   let* fkr := ExportFinishedKey st role in
   let* parts := match req with Some req => requestParts req | None => Ok ([], [], []) end in
   let* first := UnmarshalHandshakeMessage auth in
   Ok (hs, fst fkr, parts, first)) = Ok (hsCtx, h, fk, (rb, off, reqCtx), (hm, rest)) <->
  sessionKeys st role h hsCtx fk /\ requestIs req rb off reqCtx
  /\ UnmarshalHandshakeMessage auth = Ok (hm, rest).
Proof.
  intros V. rewrite <- requestParts_Ok. unfold sessionKeys. split.
  - destruct (ExportHandshakeContext st role) as [[x h1]|] eqn:X; [|done].
    destruct (ExportFinishedKey st role) as [[k h2]|] eqn:F; [|done].
    destruct (match req with Some _ => _ | None => _ end) as [p|]; [|done].
    destruct (UnmarshalHandshakeMessage auth) as [fst|]; [|done].
    pose proof (keys_hash _ _ _ _ _ _ X F) as <-.
    intros E. apply Ok_inj in E. simpl in E. simplify_eq. by split_and!.
  - intros ((_ & -> & ->) & -> & ->). done.
Qed.

Lemma checkAttestation_context st att ctx leaf rest x res :
  checkAttestation st att ctx leaf rest x = Ok res ->
  vr_Context res = ctx /\ vr_Empty res = false.
Proof.
  unfold checkAttestation. cbv zeta. destruct x as [cmw|].
  - destruct (ParsePayload cmw); [|done]. destruct (VerifyPayload _ _ _ _ _ _); [|done].
    by intros [= <-].
  - case_goal; [done|]. by intros [= <-].
Qed.

(** The full path, from the first message on. *)
Lemma full_Ok st h hsCtx fk rb off reqCtx req policy att auth opts hm rest s res s' :
  UnmarshalHandshakeMessage auth = Ok (hm, rest) ->
  match
    (let* msgs := readMessages hm rest in
     let '(certMsg, cvMsg, finMsg, cvBytes) := msgs in
     let* chk := checkMessages req policy reqCtx certMsg in
     let '(leaf, chain, extracted) := chk in
     match checkProofs h hsCtx fk rb req off (rawBytes hm) cvBytes cvMsg finMsg leaf chain opts with
     | Some err => Err err
     | None => Ok (cm_Context certMsg, leaf, chain, extracted)
     end) with
  | Err err => (Err err, s)
  | Ok (ctx, leaf, chain, extracted) =>
      markThen s ctx (fun s => (checkAttestation st att ctx leaf chain extracted, s))
  end = (Ok res, s') <->
  fullAccepts st h hsCtx fk rb reqCtx auth req policy off att opts res
  /\ MarkContextUsed s (vr_Context res) = (None, s').
Proof.
  intros U. pose proof (fun m cv fin cvb => readMessages_Ok auth hm rest m cv fin cvb U) as HR.
  unfold fullAccepts, finishedOver. split.
  - destruct (readMessages hm rest) as [[[[m cv] fin] cvb]|]; [|done].
    destruct (proj1 (HR m cv fin cvb) eq_refl) as (finb & Ea & Hm & Hcv & Hf).
    destruct (checkMessages _ _ _ _) as [[[leaf chain] x]|] eqn:C; [|done].
    apply checkMessages_Ok in C.
    destruct (checkProofs _ _ _ _ _ _ _ _ _ _ _ _ _) eqn:P; [done|].
    apply checkProofs_None in P as (P1 & P2 & -> & P3).
    intros [Ha Hk]%markThen_iff. destruct (checkAttestation_context _ _ _ _ _ _ _ Ha) as [-> _].
    split; [|done]. exists m, cv, (rawBytes hm), cvb, finb, leaf, chain, x. do 8 (split; [done|]). done.
  - intros [(m & cv & cb & cvb & finb & leaf & chain & x & Ea & [Hwf Hm] & Hcv & Hf & C & P1 & P2
      & P3 & Ha) Hk].
    destruct (checkAttestation_context _ _ _ _ _ _ _ Ha) as [Hc _]. rewrite Hc in Hk.
    destruct (Certificate_handshake _ _ Hm) as [body Hb].
    assert (rawBytes hm = cb) as Hraw.
    { rewrite Ea, (marshal_reads _ cb (cvb ++ finb) I Hb) in U. injection U as <- _.
      unfold rawBytes. by rewrite Hb. }
    rewrite Hraw in *.
    rewrite (proj2 (HR m cv _ cvb) (ex_intro _ finb (conj Ea (conj (conj Hwf Hm) (conj Hcv Hf))))).
    apply checkMessages_Ok in C. rewrite C.
    rewrite (proj2 (checkProofs_None _ _ _ _ _ _ _ _ _ _ _ _ _)
               (conj P1 (conj P2 (conj eq_refl P3)))).
    by apply markThen_iff.
Qed.

Lemma full_first (st : ConnectionState) h hsCtx fk rb reqCtx auth req policy off att opts
    (res : ValidationResult K) :
  fullAccepts st h hsCtx fk rb reqCtx auth req policy off att opts res ->
  exists hm rest, UnmarshalHandshakeMessage auth = Ok (hm, rest)
    /\ hm_Type hm = HandshakeTypeCertificate.
Proof.
  intros (m & cv & cb & cvb & finb & ? & ? & ? & -> & [_ Hm] & _).
  destruct (Certificate_handshake _ _ Hm) as [body Hb].
  rewrite (marshal_reads _ cb _ I Hb). eauto.
Qed.

Lemma empty_first h hsCtx fk rb reqCtx auth req (res : ValidationResult K) :
  emptyAccepts h hsCtx fk rb reqCtx auth req res ->
  exists hm, UnmarshalHandshakeMessage auth = Ok (hm, []) /\ hm_Type hm = HandshakeTypeFinished.
Proof.
  intros (_ & _ & cb & _ & F%Finished_handshake). apply handshake_exact in F. eauto.
Qed.

Lemma validate_Ok s st role req policy att auth opts (res : ValidationResult K) s' :
  validateAuthenticator s st role req policy att auth opts = (Ok res, s') <->
  authenticatorAccepts st role req policy att auth opts res
  /\ MarkContextUsed s (vr_Context res) = (None, s').
Proof.
  unfold validateAuthenticator, authenticatorAccepts. split.
  - destruct (st_Version st =? VersionTLS13) eqn:V; simpl; [|done]. apply Z.eqb_eq in V.
    destruct (match ExportHandshakeContext st role with Ok _ => _ | Err _ => _ end)
      as [[[[[hsCtx h] fk] [[rb off] reqCtx]] [hm rest]]|] eqn:Hd; [|done].
    apply validate_head in Hd as (Hk & Hr & U); [|done].
    case_bool_decide as T.
    + destruct (checkEmpty _ _ _ _ _ _ _ _) eqn:E; [done|].
      apply (checkEmpty_None _ _ _ _ _ _ _ _ _ U T) in E as [? ?].
      intros [Hr' Hm]%markThen_iff. injection Hr' as <-. split; [|done].
      exists h, hsCtx, fk, rb, off, reqCtx. do 2 (split; [done|]). left. by split_and!.
    + case_bool_decide; cbn [negb]; [|done].
      intros [HF Hm]%(full_Ok _ _ _ _ _ _ _ _ _ _ _ _ _ _ _ _ _ U). split; [|done].
      exists h, hsCtx, fk, rb, off, reqCtx. do 2 (split; [done|]). by right.
  - intros ((h & hsCtx & fk & rb & off & reqCtx & Hk & Hr & Hc) & Hm).
    pose proof Hk as (V & _ & _). rewrite V, Z.eqb_refl. cbn [negb].
    destruct Hc as [He|Hf].
    + destruct (empty_first _ _ _ _ _ _ _ _ He) as (hm & U & T).
      rewrite (proj2 (validate_head _ _ _ _ _ _ _ _ _ _ _ _ V) (conj Hk (conj Hr U))).
      rewrite bool_decide_eq_true_2 by done. destruct He as (Hs & -> & Hx).
      rewrite (proj2 (checkEmpty_None _ _ _ _ _ _ _ _ _ U T) (conj Hs Hx)).
      by apply markThen_iff.
    + destruct (full_first _ _ _ _ _ _ _ _ _ _ _ _ _ Hf) as (hm & rest & U & T).
      rewrite (proj2 (validate_head _ _ _ _ _ _ _ _ _ _ _ _ V) (conj Hk (conj Hr U))).
      rewrite bool_decide_eq_false_2, bool_decide_eq_true_2 by (by rewrite T).
      cbn [negb]. by apply (full_Ok _ _ _ _ _ _ _ _ _ _ _ _ _ _ _ _ _ U).
Qed.
End spec.

(** ** Signing keys *)

(** The private keys and public keys that belong together, and that a signature made
    with the one verifies under the other. *)
Class CryptoLaws (K : Type) `{Crypto K} := {
  pairs : K -> K -> Prop;
  ecdsa_verifies : forall k k' d sig, pairs k k' -> ecdsaSign k d = Ok sig -> ecdsaVerify k' d sig = true;
  rsa_verifies : forall k k' d sig, pairs k k' -> rsaSignPSS k d = Ok sig -> rsaVerifyPSS k' d sig = true;
  ed25519_verifies : forall k k' m, pairs k k' -> ed25519Verify k' m (ed25519Sign k m) = true }.

Definition publicHalf {K} `{CryptoLaws K} (priv : PrivateKey K) (pub : PublicKey K) : Prop :=
  match priv, pub with
  | PrivECDSA _ k, PubECDSA k' | PrivRSA k, PubRSA k' | PrivEd25519 k, PubEd25519 k' => pairs k k'
  | _, _ => False
  end.

Lemma sign_verifies {K} `{CryptoLaws K} priv pub scheme th sig :
  publicHalf priv pub -> signCertVerify priv scheme th = Ok sig ->
  verifyCertVerify pub scheme th sig = None.
Proof.
  unfold publicHalf, signCertVerify, verifyCertVerify.
  destruct (signatureSchemeInfo scheme) as [[]|]; [| | |done]; destruct priv, pub; try done;
    intros Hp; cbv zeta.
  - intros Hs. by rewrite (ecdsa_verifies _ _ _ _ Hp Hs).
  - intros Hs. by rewrite (rsa_verifies _ _ _ _ Hp Hs).
  - intros [= <-]. by rewrite ed25519_verifies.
Qed.

Lemma schemes_nonempty exts typ l : parseSignatureSchemesExtension exts typ = Some l -> l <> [].
Proof.
  induction exts as [|e t IH]; cbn [parseSignatureSchemesExtension]; [done|].
  case_goal; [done|]. case_goal; [done|]. cbv zeta. case_goal; [done|]. bool_to_prop.
  intros [= <-]. destruct (len_ge4 (ext_Data e)) as (a & b & c & d & k & ->); [lia|].
  by change (sliceFrom 2 _) with (c :: d :: k).
Qed.

Lemma chosen_scheme {K} (priv : PrivateKey K) offered s :
  offered <> [] -> chooseSignatureScheme priv offered = Ok s ->
  s ∈ offered /\ 0 <= s <= 0xFFFF.
Proof.
  unfold chooseSignatureScheme. destruct offered as [|o t]; [done|]. intros _.
  replace (0 <? len (o :: t)) with true by done.
  destruct (find _ (o :: t)) as [s'|] eqn:F; [|done]. intros [= <-].
  apply find_some in F as [Hin Hc]. split; [by apply list_elem_of_In|].
  unfold compat, signatureSchemeInfo, ECDSAWithP256AndSHA256, PSSWithSHA256, Ed25519 in Hc.
  destruct (s' =? 0x0403) eqn:E1; [lia|]. destruct (s' =? 0x0804) eqn:E2; [lia|].
  destruct (s' =? 0x0807) eqn:E3; [lia | done].
Qed.

Section roundtrip.
Context {K : Type} `{!Crypto K, !CryptoLaws K} `{!PKIX (PublicKey K)} `{!PayloadJSON}.

Lemma createParts_request r rand rb off ctx :
  createParts (Some r) rand = Ok (rb, off, ctx) -> requestIs (Some r) rb off ctx.
Proof. intros E. by apply (requestParts_Ok (Some r)). Qed.

(** What a created authenticator is made of. *)
Lemma created_full st role r policy (identity : Identity K) key exts rand out ctx :
  id_PrivateKey identity = Some key ->
  authenticatorBytes st role (Some r) policy identity exts rand = Ok (out, ctx) ->
  exists h hsCtx fk rb off scheme sig cb cvb finb,
    sessionKeys st role h hsCtx fk /\ requestIs (Some r) rb off ctx
    /\ validateCertificateEntryExtensions exts (Some r) policy = None
    /\ id_Certificate identity <> []
    /\ chooseSignatureScheme key off = Ok scheme
    /\ CertificateMessage_Marshal (mkCertificate ctx (chainEntries (id_Certificate identity) exts)) = Ok cb
    /\ signCertVerify key scheme (hashConcat h [hsCtx; rb; cb]) = Ok sig
    /\ CertificateVerifyMessage_Marshal (mkCertVerify scheme sig) = Ok cvb
    /\ finishedOver h fk [hsCtx; rb; cb; cvb] finb /\ out = cb ++ cvb ++ finb.
Proof.
  intros Hkey. unfold authenticatorBytes. rewrite Hkey.
  destruct (st_Version st =? VersionTLS13) eqn:V; simpl; [|done]. apply Z.eqb_eq in V.
  destruct (validateCertificateEntryExtensions _ _ _) eqn:X; [done|]. cbv zeta.
  destruct (len (id_Certificate identity) =? 0) eqn:L; simpl; [done|].
  destruct (requestParts r) as [[[rb off] ctx']|] eqn:P; [|done].
  apply (requestParts_Ok (Some r)) in P.
  destruct (ExportHandshakeContext st role) as [[hsCtx h]|] eqn:Hh; [|done].
  destruct (ExportFinishedKey st role) as [[fk h']|] eqn:Hf; [|done]. simpl.
  pose proof (keys_hash _ _ _ _ _ _ Hh Hf) as <-.
  destruct (chooseSignatureScheme key off) as [scheme|] eqn:S; [|done].
  destruct (CertificateMessage_Marshal _) as [cb|] eqn:C; [|done].
  destruct (signCertVerify _ _ _) as [sig|] eqn:Sg; [|done].
  destruct (CertificateVerifyMessage_Marshal _) as [cvb|] eqn:Cv; [|done].
  destruct (FinishedMessage_Marshal _) as [finb|] eqn:Fi; [|done].
  intros [= <- <-].
  exists h, hsCtx, fk, rb, off, scheme, sig, cb, cvb, finb. do 3 (split; [done|]).
  split; [by intros E; rewrite E in L|]. do 5 (split; [done|]). done.
Qed.

Lemma chainEntries_wf chain exts :
  Forall wfExtension exts -> Forall wfEntry (chainEntries chain exts).
Proof.
  intros Hx. destruct chain as [|leaf rest]; simpl; constructor; [done|].
  apply Forall_forall. intros e (der & -> & _)%list_elem_of_fmap. by constructor.
Qed.

Lemma created_messageAccepts r policy policy' ctx chain exts leaf rest extracted :
  ctx = ar_Context r -> chain <> [] ->
  validateCertificateEntryExtensions exts (Some r) policy = None ->
  parseChain (chainEntries chain exts) = Ok (leaf :: rest) ->
  ExtractCMWAttestationFromExtensions exts = Ok extracted ->
  messageAccepts (Some r) policy' (ar_Context r) (mkCertificate ctx (chainEntries chain exts))
    leaf rest extracted.
Proof.
  intros -> Hne X%entryExtensions_None P E. destruct chain as [|d t]; [done|].
  unfold messageAccepts. cbn [cm_Context cm_Entries chainEntries drop] in *.
  split; [done|]. split; [done|]. split; [|split; [|eauto]].
  - apply Forall_cons. split; [exact X|].
    apply Forall_forall. intros e (der & -> & _)%list_elem_of_fmap. by constructor.
  - rewrite drop_0. apply Forall_forall. by intros e (der & -> & _)%list_elem_of_fmap.
Qed.

Lemma create_validates s st role r policy policy' (identity : Identity K) key exts rand auth ctx
    leaf rest extracted att opts res s' :
  authenticatorBytes st role (Some r) policy identity exts rand = Ok (auth, ctx) ->
  id_PrivateKey identity = Some key -> Forall wfExtension exts ->
  parseChain (chainEntries (id_Certificate identity) exts) = Ok (leaf :: rest) ->
  publicHalf key (x_PublicKey leaf) ->
  ExtractCMWAttestationFromExtensions exts = Ok extracted ->
  checkAttestation st att (ar_Context r) leaf rest extracted = Ok res ->
  (forall o, opts = Some o -> VerifyChain o leaf rest = None) ->
  MarkContextUsed s (ar_Context r) = (None, s') ->
  validateAuthenticator s st role (Some r) policy' att auth opts = (Ok res, s').
Proof.
  intros B Hkey Hwf P Hpub E A Hv Hm.
  destruct (created_full _ _ _ _ _ _ _ _ _ _ Hkey B)
    as (h & hsCtx & fk & rb & off & scheme & sig & cb & cvb & finb & Hk & Hr & X & Hne & S & C & Sg
        & Cv & Fi & ->).
  apply validate_Ok. destruct (checkAttestation_context _ _ _ _ _ _ _ A) as [-> _].
  split; [|done]. exists h, hsCtx, fk, rb, off, ctx. do 2 (split; [done|]). right.
  destruct Hr as (_ & Ho & ->). apply schemes_nonempty in Ho.
  destruct (chosen_scheme _ _ _ Ho S) as [Hin Hrange].
  exists (mkCertificate (ar_Context r) (chainEntries (id_Certificate identity) exts)),
    (mkCertVerify scheme sig), cb, cvb, finb, leaf, rest, extracted.
  split; [done|]. split; [split; [by apply chainEntries_wf | done]|].
  split; [done|]. split; [done|].
  split; [by eapply created_messageAccepts|]. split; [done|].
  split; [by eapply sign_verifies|]. done.
Qed.

(** A Finished-only authenticator that was created. *)
Lemma created_empty st role r policy (identity : Identity K) exts rand out ctx :
  id_PrivateKey identity = None ->
  authenticatorBytes st role (Some r) policy identity exts rand = Ok (out, ctx) ->
  ctx = ar_Context r /\ exists h hsCtx fk rb off,
    sessionKeys st role h hsCtx fk /\ requestIs (Some r) rb off ctx
    /\ exists cb, CertificateMessage_Marshal (mkCertificate ctx []) = Ok cb
         /\ finishedOver h fk [hsCtx; rb; cb] out.
Proof.
  intros Hkey. unfold authenticatorBytes. rewrite Hkey.
  destruct (st_Version st =? VersionTLS13) eqn:V; simpl; [|done]. apply Z.eqb_eq in V.
  destruct (validateCertificateEntryExtensions _ _ _) eqn:X; [done|]. cbv zeta.
  destruct (len (id_Certificate identity) =? 0); simpl; [|done].
  destruct (requestParts r) as [[[rb off] ctx']|] eqn:P; [|done].
  apply (requestParts_Ok (Some r)) in P.
  destruct (ExportHandshakeContext st role) as [[hsCtx h]|] eqn:Hh; [|done].
  destruct (ExportFinishedKey st role) as [[fk h']|] eqn:Hf; [|done]. simpl.
  pose proof (keys_hash _ _ _ _ _ _ Hh Hf) as <-.
  destruct (CertificateMessage_Marshal _) as [cb|] eqn:C; [|done].
  destruct (FinishedMessage_Marshal _) as [finb|] eqn:Fi; [|done].
  intros [= <- <-]. split; [by destruct P as (_ & _ & ->)|].
  exists h, hsCtx, fk, rb, off. do 2 (split; [done|]). eauto.
Qed.

Lemma empty_validates s st role r policy policy' (identity : Identity K) exts rand auth ctx att opts s' :
  authenticatorBytes st role (Some r) policy identity exts rand = Ok (auth, ctx) ->
  id_PrivateKey identity = None -> MarkContextUsed s (ar_Context r) = (None, s') ->
  validateAuthenticator s st role (Some r) policy' att auth opts
  = (Ok (mkValidation (ar_Context r) [] [] None true), s').
Proof.
  intros B Hkey Hm.
  destruct (created_empty _ _ _ _ _ _ _ _ _ Hkey B) as (-> & h & hsCtx & fk & rb & off & Hk & Hr & Hc).
  apply validate_Ok. split; [|done]. exists h, hsCtx, fk, rb, off, (ar_Context r).
  do 2 (split; [done|]). left. split; [eauto|]. by split.
Qed.
End roundtrip.

(** ** The session *)

Lemma MarkContextUsed_Some used ctx s' :
  MarkContextUsed (Some used) ctx = (None, s') ->
  s' = Some ({[stringOf ctx]} ∪ used) /\ stringOf ctx ∉ used.
Proof. simpl. case_bool_decide; [done|]. by intros [= <-]. Qed.

Lemma MarkContextUsed_grows s ctx r s' used :
  MarkContextUsed s ctx = (r, s') -> s = Some used -> exists used', s' = Some used' /\ used ⊆ used'.
Proof.
  intros M ->. revert M. simpl. case_bool_decide; intros [= _ <-]; eexists; (split; [done|]);
    [done | set_solver].
Qed.

Section session.
Context {K : Type} `{!Crypto K} `{!PKIX (PublicKey K)} `{!PayloadJSON}.

(** Any sequence of creations and validations over one session. *)
Inductive sessionRuns : Session -> Session -> Prop :=
  | runs_done s : sessionRuns s s
  | runs_create s st role req policy (identity : Identity K) exts rand s' :
      sessionRuns (snd (createAuthenticator s st role req policy identity exts rand)) s' ->
      sessionRuns s s'
  | runs_validate s st role req policy att auth opts s' :
      sessionRuns (snd (validateAuthenticator (K := K) s st role req policy att auth opts)) s' ->
      sessionRuns s s'.

(** Every call leaves the session as it was or marks one context. *)
Lemma create_session s st role req policy (identity : Identity K) exts rand :
  snd (createAuthenticator s st role req policy identity exts rand) = s
  \/ exists ctx, snd (createAuthenticator s st role req policy identity exts rand)
                 = snd (MarkContextUsed s ctx).
Proof.
  unfold createAuthenticator, markThen.
  destruct (authenticatorBytes _ _ _ _ _ _ _) as [[out ctx]|]; [|by left].
  right. exists ctx. by destruct (MarkContextUsed s ctx) as [[e|] s'].
Qed.

Lemma validate_session s st role req policy att auth opts :
  snd (validateAuthenticator (K := K) s st role req policy att auth opts) = s
  \/ exists ctx, snd (validateAuthenticator (K := K) s st role req policy att auth opts)
                 = snd (MarkContextUsed s ctx).
Proof.
  unfold validateAuthenticator, markThen. destruct (negb _); [by left|].
  destruct (match ExportHandshakeContext st role with Ok _ => _ | Err _ => _ end)
    as [[[[[hsCtx h] fk] [[rb off] reqCtx]] [hm rest]]|]; [|by left].
  case_bool_decide.
  - destruct (checkEmpty _ _ _ _ _ _ _ _); [by left|].
    right. exists reqCtx. by destruct (MarkContextUsed s reqCtx) as [[e|] s'].
  - destruct (negb _); [by left|].
    destruct (match readMessages hm rest with Ok _ => _ | Err _ => _ end)
      as [[[[ctx leaf] chain] x]|]; [|by left].
    right. exists ctx. by destruct (MarkContextUsed s ctx) as [[e|] s'].
Qed.

Lemma sessionRuns_grows s s' used :
  sessionRuns s s' -> s = Some used -> exists used', s' = Some used' /\ used ⊆ used'.
Proof.
  intros HR. revert used. induction HR as [s|s st role req policy identity exts rand s' _ IH
    |s st role req policy att auth opts s' _ IH]; intros used ->; [by eauto| |].
  - destruct (create_session (Some used) st role req policy identity exts rand) as [E|[ctx E]];
      rewrite E in IH; [by apply IH|].
    destruct (MarkContextUsed (Some used) ctx) as [r s1] eqn:M.
    destruct (MarkContextUsed_grows _ _ _ _ used M eq_refl) as (u1 & -> & ?).
    destruct (IH u1 eq_refl) as (u2 & -> & ?). exists u2. split; [done | by transitivity u1].
  - destruct (validate_session (Some used) st role req policy att auth opts) as [E|[ctx E]];
      rewrite E in IH; [by apply IH|].
    destruct (MarkContextUsed (Some used) ctx) as [r s1] eqn:M.
    destruct (MarkContextUsed_grows _ _ _ _ used M eq_refl) as (u1 & -> & ?).
    destruct (IH u1 eq_refl) as (u2 & -> & ?). exists u2. split; [done | by transitivity u1].
Qed.
End session.

(** ** A concrete session *)

Module Sample.
#[global] Instance crypto : Crypto string := {|
  ecdsaSign k d := Ok (bytesOf k ++ d);
  ecdsaVerify k d sig := bool_decide (sig = bytesOf k ++ d);
  rsaSignPSS k d := Ok (bytesOf k ++ d);
  rsaVerifyPSS k d sig := bool_decide (sig = bytesOf k ++ d);
  ed25519Sign k m := bytesOf k ++ m;
  ed25519Verify k m sig := bool_decide (sig = bytesOf k ++ m);
  ParseCertificate der := Ok (mkX509 der (bytesOf "spki") (PubECDSA "k"));
  VerifyOptions := unit;
  VerifyChain _ _ _ := None |}.
#[global] Instance laws : CryptoLaws string.
Proof.
  refine {| pairs := eq |}; simpl; intros; subst; simplify_eq; by apply bool_decide_eq_true_2.
Defined.
#[global] Instance pkix : PKIX (PublicKey string) := {| MarshalPKIXPublicKey _ := Ok [] |}.
#[global] Instance json : PayloadJSON := {|
  encodePayload _ := Ok (bytesOf "payload");
  decodePayload b := if bool_decide (b = bytesOf "payload")
                     then Some EaAttestation.Sample.payload else None |}.

Definition st : ConnectionState := EaAttestation.Sample.session "s1".
Definition request : AuthenticatorRequest := EaWire.Sample.request.
Definition identity : Identity string :=
  mkIdentity [bytesOf "leaf"; bytesOf "ca"] (Some (PrivECDSA "P-256" "k")).
Definition noIdentity : Identity string := mkIdentity [] None.
Definition cert (der : string) : Certificate (PublicKey string) :=
  mkX509 (bytesOf der) (bytesOf "spki") (PubECDSA "k").
Definition exts : list Extension :=
  [mkExtension CMWAttestationExtensionType (putUint16 7 ++ bytesOf "payload")].
Definition attPolicy : option VerificationPolicy := Some EaAttestation.Sample.policy.
Definition result : ValidationResult string :=
  mkValidation (bytesOf "ctx") [cert "leaf"; cert "ca"] (bytesOf "payload")
    (Some EaAttestation.Sample.verified) false.
Definition created (id : Identity string) (x : list Extension) : list byte :=
  match authenticatorBytes st RoleServer (Some request) None id x (Err ErrBadRequest) with
  | Ok (auth, _) => auth
  | Err _ => []
  end.
Definition used : Session := Some {["ctx"]}.

Lemma created_ok :
  authenticatorBytes st RoleServer (Some request) None identity exts (Err ErrBadRequest)
  = Ok (created identity exts, bytesOf "ctx").
Proof. vm_compute. reflexivity. Qed.

Lemma created_empty_ok :
  authenticatorBytes st RoleServer (Some request) None noIdentity [] (Err ErrBadRequest)
  = Ok (created noIdentity [], bytesOf "ctx").
Proof. vm_compute. reflexivity. Qed.

Lemma attested_ok :
  checkAttestation st attPolicy (bytesOf "ctx") (cert "leaf") [cert "ca"] (Some (bytesOf "payload"))
  = Ok result.
Proof. vm_compute. reflexivity. Qed.
End Sample.

(** ** Theorems *)

(** C5: validation decides its specification.  An authenticator is accepted, with
    exactly the reported result, precisely when its bytes are the encodings of the
    messages in order and nothing else, the Finished MAC is the one over this
    session's transcript, and, unless it is a Finished-only answer to a request, the
    context is the request's, every extension was asked for or allowed, the leaf key
    signed the transcript under an offered scheme, the chain verifies and the
    attestation is accepted; and the session had not used the context. *)
Theorem validateAuthenticator_decides {K} `{!Crypto K} `{!PKIX (PublicKey K)} `{!PayloadJSON}
    s st role req policy att auth opts (res : ValidationResult K) s' :
  validateAuthenticator s st role req policy att auth opts = (Ok res, s') <->
  authenticatorAccepts st role req policy att auth opts res
  /\ MarkContextUsed s (vr_Context res) = (None, s').
Proof. apply validate_Ok. Qed.

Lemma validateAuthenticator_decides_witness :
  authenticatorAccepts Sample.st RoleServer (Some Sample.request) None Sample.attPolicy
    (Sample.created Sample.identity Sample.exts) None Sample.result.
Proof.
  apply (validateAuthenticator_decides NewSession Sample.st RoleServer (Some Sample.request) None
    Sample.attPolicy (Sample.created Sample.identity Sample.exts) None Sample.result Sample.used).
  vm_compute. reflexivity.
Defined.

(** What one end creates, the other accepts.  An authenticator created for a
    request with a certificate chain and its key validates over the same TLS session,
    with any local policy whose chain and attestation checks accept the chain and the
    attestation it carries, in any session that has not used the context. *)
Theorem authenticator_roundtrip {K} `{!Crypto K, !CryptoLaws K} `{!PKIX (PublicKey K)}
    `{!PayloadJSON} s0 s st role r policy policy' (identity : Identity K) key exts rand auth s1
    leaf rest extracted att opts res s' :
  createAuthenticator s0 st role (Some r) policy identity exts rand = (Ok auth, s1) ->
  id_PrivateKey identity = Some key -> Forall wfExtension exts ->
  parseChain (chainEntries (id_Certificate identity) exts) = Ok (leaf :: rest) ->
  publicHalf key (x_PublicKey leaf) ->
  ExtractCMWAttestationFromExtensions exts = Ok extracted ->
  checkAttestation st att (ar_Context r) leaf rest extracted = Ok res ->
  (forall o, opts = Some o -> VerifyChain o leaf rest = None) ->
  MarkContextUsed s (ar_Context r) = (None, s') ->
  validateAuthenticator s st role (Some r) policy' att auth opts = (Ok res, s').
Proof.
  unfold createAuthenticator.
  destruct (authenticatorBytes _ _ _ _ _ _ _) as [[out ctx]|] eqn:B; [|done].
  intros [Ho _]%markThen_iff. injection Ho as <-. by apply create_validates with (1 := B).
Qed.

Lemma authenticator_roundtrip_witness :
  validateAuthenticator NewSession Sample.st RoleServer (Some Sample.request) None
    Sample.attPolicy (Sample.created Sample.identity Sample.exts) (Some tt)
  = (Ok Sample.result, Sample.used).
Proof.
  apply (authenticator_roundtrip NewSession NewSession Sample.st RoleServer Sample.request None None
    Sample.identity (PrivECDSA "P-256" "k") Sample.exts (Err ErrBadRequest)
    (Sample.created Sample.identity Sample.exts) Sample.used (Sample.cert "leaf")
    [Sample.cert "ca"] (Some (bytesOf "payload")));
    [vm_compute; reflexivity | reflexivity | unfold Sample.exts; wf_message | reflexivity
    | reflexivity | reflexivity | exact Sample.attested_ok | reflexivity | vm_compute; reflexivity].
Defined.

(** C35: a Finished-only authenticator is accepted whatever attestation the policy
    requires.  The attestation policy is consulted for a Certificate only: an
    authenticator created without a certificate validates under every policy, also
    one that requires attestation, and the result carries none. *)
Theorem empty_authenticator_skips_attestation {K} `{!Crypto K} `{!PKIX (PublicKey K)}
    `{!PayloadJSON} s st role r policy policy' (identity : Identity K) exts rand auth ctx att opts s' :
  authenticatorBytes st role (Some r) policy identity exts rand = Ok (auth, ctx) ->
  id_PrivateKey identity = None -> MarkContextUsed s (ar_Context r) = (None, s') ->
  RequiresAttestation att = true ->
  validateAuthenticator s st role (Some r) policy' (Some att) auth opts
  = (Ok (mkValidation (ar_Context r) [] [] None true), s').
Proof. intros B Hk Hm _. by apply empty_validates with (1 := B). Qed.

Lemma empty_authenticator_skips_attestation_witness :
  validateAuthenticator NewSession Sample.st RoleServer (Some Sample.request) None
    (Some EaAttestation.Sample.policy) (Sample.created Sample.noIdentity []) None
  = (Ok (mkValidation (bytesOf "ctx") [] [] None true), Sample.used).
Proof.
  apply (empty_authenticator_skips_attestation NewSession Sample.st RoleServer Sample.request None
    None Sample.noIdentity [] (Err ErrBadRequest) (Sample.created Sample.noIdentity [])
    (bytesOf "ctx"));
    [exact Sample.created_empty_ok | reflexivity | vm_compute; reflexivity | reflexivity].
Defined.

(** C7: a session accepts a certificate request context once.  After an accepted
    authenticator, and any further creations and validations over the same session, no
    authenticator with the same context is accepted. *)
Theorem context_accepted_once {K} `{!Crypto K} `{!PKIX (PublicKey K)} `{!PayloadJSON}
    used st role req policy att auth opts (res : ValidationResult K) s1 s2
    st' role' req' policy' att' auth' opts' (res' : ValidationResult K) s3 :
  validateAuthenticator (Some used) st role req policy att auth opts = (Ok res, s1) ->
  sessionRuns (K := K) s1 s2 ->
  validateAuthenticator s2 st' role' req' policy' att' auth' opts' = (Ok res', s3) ->
  vr_Context res' <> vr_Context res.
Proof.
  intros [_ M]%validate_Ok HR [_ M']%validate_Ok.
  apply MarkContextUsed_Some in M as [-> _].
  destruct (sessionRuns_grows _ _ _ HR eq_refl) as (u2 & -> & Hsub).
  apply MarkContextUsed_Some in M' as [_ Hn]. intros E. rewrite E in Hn. set_solver.
Qed.

Lemma context_accepted_once_witness : bytesOf "other" <> bytesOf "ctx".
Proof.
  apply (context_accepted_once ∅ Sample.st RoleServer (Some Sample.request) None Sample.attPolicy
    (Sample.created Sample.identity Sample.exts) None Sample.result Sample.used Sample.used
    Sample.st RoleServer
    (Some (mkRequest HandshakeTypeCertificateRequest (bytesOf "other")
             (ar_Extensions Sample.request))) None None
    (match authenticatorBytes Sample.st RoleServer
             (Some (mkRequest HandshakeTypeCertificateRequest (bytesOf "other")
                      (ar_Extensions Sample.request))) None Sample.noIdentity [] (Err ErrBadRequest)
     with Ok (auth, _) => auth | Err _ => [] end) None
    (mkValidation (bytesOf "other") [] [] None true) (Some {["ctx"; "other"]}));
    [vm_compute; reflexivity | constructor | vm_compute; reflexivity].
Defined.
