(* ===== verification/Transport.v ===== *)
(** * Attested TLS transport: [pkg/atls/internal_transport]

    [protocol.go], [conn.go] and [pkg/atls/identity_binding.go]: after the TLS
    handshake the client sends an authenticator request in a frame, the server answers
    with an authenticator in a frame, and the client validates it and checks its
    identity policy against binding values derived from the validation.

    The connection is the byte string the other side sends.  The TLS handshake, the
    dialer, the listener and the log calls are not modelled; [ctxErr] is what
    [ctx.Err()] returns when the exchange is over. *)

From stdpp Require Import base gmap sets list strings.
From Stdlib Require Import ZArith Lia Strings.Byte.
From S2P Require Import Prelude GoStrings Errors IdentityPolicy ReplayCache SessionBinding.
From S2P Require Import SessionAccept Sha2 EaWire EaAttestation EaAuthenticator.

Definition ErrMissingObservedIdentity := ErrNew "atls.ErrMissingObservedIdentity".

(** ** Frames *)

Definition frameTypeRequest : byte := toByte 1.
Definition frameTypeAuthenticator : byte := toByte 2.
Definition maxFramePayloadLen : Z := 16777216.

(** [binary.BigEndian]. *)
Definition putUint32 (v : Z) : list byte := putUint16 (Z.shiftr v 16) ++ putUint16 v.
Definition readUint32 (src : list byte) : Z :=
  Z.lor (Z.shiftl (readUint16 (sliceTo 2 src)) 16) (readUint16 (sliceFrom 2 src)).

Definition writeFrame (typ : byte) (payload : list byte) : result error (list byte) :=
  if maxFramePayloadLen <? len payload then Err (ErrNew "atls: frame payload too large")
  else Ok (typ :: putUint32 (len payload) ++ payload).

(** [io.ReadFull]. *)
Definition readFull (n : Z) (r : list byte) : result error (list byte * list byte) :=
  if len r <? n then Err (if len r =? 0 then ErrNew "io.EOF" else ErrNew "io.ErrUnexpectedEOF")
  else Ok (sliceTo n r, sliceFrom n r).

Definition readFrame (r : list byte) : result error (byte * list byte * list byte) :=
  let* h := readFull 5 r in
  let '(header, r) := h in
  if bool_decide (nth 0 header x00 = toByte 0) then Err (ErrNew "atls: invalid frame type")
  else
    let n := readUint32 (slice 1 5 header) in
    if maxFramePayloadLen <? n then Err (ErrNew "atls: frame payload too large")
    else
      (* ReadFull into an empty buffer does not read *)
      let* p := (if n =? 0 then Ok ([], r) else readFull n r) in
      Ok (nth 0 header x00, fst p, snd p).

(** ** Identity binding *)

Definition emptyBinding : Binding := mkBinding "" "" "" "" "" 0 0.

(** [hex.EncodeToString(sha256.Sum256(b))]. *)
Definition hexSum256 (b : list byte) : string := hexEncode (Sum256 b).

Section binding.
Context {K : Type} `{PKIX (PublicKey K)}.

Definition ExpectedIdentityBinding (validation : option (ValidationResult K))
    : result error Binding :=
  match validation with
  | None => Err (ErrNew "atls: missing validation result")
  | Some v =>
      match vr_Chain v with
      | [] => Err (ErrNew "atls: missing validated leaf certificate")
      | leaf :: _ =>
          if len (vr_Context v) =? 0 then Err (ErrNew "atls: missing certificate request context")
          else
            let* pub := PublicKeyBytes (Some leaf) in
            let '(exporter, binder) :=
              match vr_Attestation v with
              | Some a =>
                  if vp_BindingVerified a then
                    ((if 0 <? len (eb_ExportedValue (vp_Binding a))
                      then hexSum256 (eb_ExportedValue (vp_Binding a)) else ""),
                     hexSum256 (ab_Binding (p_Binder (vp_Payload a))))
                  else ("", "")
              | None => ("", "")
              end in
            Ok (mkBinding (hexSum256 pub) exporter (hexSum256 (vr_Context v)) binder "" 0 0)
      end
  end.

Definition IdentityBindingFromConnectionState (st : option ConnectionState)
    (validation : option (ValidationResult K)) : result error Binding :=
  match st with
  | None => Err (ErrNew "atls: missing TLS connection state")
  | Some st =>
      if negb (st_HandshakeComplete st) then Err (ErrNew "atls: TLS handshake is not complete")
      else if negb (st_Version st =? VersionTLS13)
      then Err (ErrNew "atls: expected TLS 1.3 connection")
      else
        let* binding := ExpectedIdentityBinding validation in
        let ctx := match validation with Some v => vr_Context v | None => [] end in
        let* x := ExportAttestationValue st ExporterLabelAttestation ctx in
        Ok (mkBinding (b_LeafPublicKeySHA256 binding) (hexSum256 (fst x))
              (b_RequestContextSHA256 binding) (b_AttestationBinderSHA256 binding)
              (b_Nonce binding) (b_IssuedAt binding) (b_ExpiresAt binding))
  end.
End binding.

(** ** Requests *)

Definition NewRequest (context : list byte) : result error AuthenticatorRequest :=
  let* sigExt := SignatureAlgorithmsExtension [ECDSAWithP256AndSHA256] in
  Ok (mkRequest HandshakeTypeClientCertificateRequest context
        [sigExt; CMWAttestationOfferExtension]).

Definition NewRandomRequest (rand : result error (list byte)) (contextLen : Z)
    : result error AuthenticatorRequest :=
  let* context := NewRandomContext rand contextLen in NewRequest context.

(** ** Client *)

Record ClientConfig (K : Type) `{Crypto K} := mkClientConfig {
  cl_VerifyOptions : option VerifyOptions;
  cl_AttestationPolicy : VerificationPolicy;
  cl_IdentityPolicy : Policy;
  cl_ObservedIdentity : option (ConnectionState -> ValidationResult K -> result error Assertion);
  cl_IdentityGrant : option VerifiedGrant;
  cl_IdentityBinding : option VerifiedSessionBindingStatement;
  cl_Request : option AuthenticatorRequest;
  cl_RequestBuilder : option (result error AuthenticatorRequest) }.
Arguments cl_VerifyOptions {K _}. Arguments cl_AttestationPolicy {K _}.
Arguments cl_IdentityPolicy {K _}. Arguments cl_ObservedIdentity {K _}.
Arguments cl_IdentityGrant {K _}. Arguments cl_IdentityBinding {K _}.
Arguments cl_Request {K _}. Arguments cl_RequestBuilder {K _}.
Arguments mkClientConfig {K _}.

Section client.
Context {K : Type} `{!Crypto K} `{!PKIX (PublicKey K)} `{!PayloadJSON}.
Context {C : Type} `{ReplayCache C}.

Definition buildRequest (cfg : ClientConfig K) (rand : result error (list byte))
    : result error AuthenticatorRequest :=
  match cl_RequestBuilder cfg with
  | Some r => r
  | None =>
      match cl_Request cfg with
      | Some r => Ok r
      | None =>
          let* ctx := NewRandomContext rand 32 in
          let* sigExt := SignatureAlgorithmsExtension [ECDSAWithP256AndSHA256] in
          Ok (mkRequest HandshakeTypeClientCertificateRequest ctx
                [sigExt; CMWAttestationOfferExtension])
      end
  end.

Definition observedIdentityAssertion (cfg : ClientConfig K) (st : ConnectionState)
    (validation : ValidationResult K) (now : Time)
    : result error (Assertion * option VerifiedSessionBindingStatement) :=
  match cl_ObservedIdentity cfg with
  | Some observe => let* assertion := observe st validation in Ok (assertion, None)
  | None =>
      match cl_IdentityGrant cfg, cl_IdentityBinding cfg with
      | Some grant, Some statement =>
          let* assertion := NewAssertionFromSessionBinding grant statement now in
          Ok (assertion, Some statement)
      | _, _ => Err ErrMissingObservedIdentity
      end
  end.

Definition validateIdentityPolicy (cfg : ClientConfig K) (st : ConnectionState)
    (validation : ValidationResult K) (now clock : Time) (cache : option C)
    : option error * option C :=
  if negb (Policy_Enabled (cl_IdentityPolicy cfg)) then (None, cache)
  else match observedIdentityAssertion cfg st validation now with
  | Err err => (Some (ErrWrap "atls: observed identity source failed" err), cache)
  | Ok (assertion, statement) =>
      match ExpectedIdentityBinding (Some validation) with
      | Err err => (Some err, cache)
      | Ok expectedBinding =>
          match ValidateAssertion (cl_IdentityPolicy cfg) assertion expectedBinding now with
          | Some err => (Some (ErrWrap "atls: identity policy validation failed" err), cache)
          | None =>
              match statement with
              | None => (None, cache)
              | Some st =>
                  match MarkSessionBindingUsed clock cache st with
                  | (Some err, cache') =>
                      (Some (ErrWrap "atls: identity replay check failed" err), cache')
                  | (None, cache') => (None, cache')
                  end
              end
          end
      end
  end.

(** The exchange after the handshake: the frame written, and what becomes of the
    reply.  The session and the cache are the two states it can change. *)
Definition clientRequest (cfg : ClientConfig K) (rand : result error (list byte))
    : result error (AuthenticatorRequest * list byte) :=
  let* req := buildRequest cfg rand in
  let* reqBytes := AuthenticatorRequest_Marshal req in
  let* frame := writeFrame frameTypeRequest reqBytes in
  Ok (req, frame).

Definition readReply (reply : list byte) : result error (list byte) :=
  let* f := readFrame reply in
  let '(frameType, authBytes, _) := f in
  if negb (bool_decide (frameType = frameTypeAuthenticator))
  then Err (ErrNew "atls: unexpected frame type") else Ok authBytes.

Definition clientExchange (cfg : ClientConfig K) (st : ConnectionState)
    (rand : result error (list byte)) (reply : list byte) (now clock : Time)
    (session : Session) (cache : option C)
    : result error (AuthenticatorRequest * ValidationResult K) * Session * option C :=
  match clientRequest cfg rand with
  | Err err => (Err err, session, cache)
  | Ok (req, _) =>
      match readReply reply with
      | Err err => (Err err, session, cache)
      | Ok authBytes =>
          match validateAuthenticator session st RoleServer (Some req) None
                  (Some (cl_AttestationPolicy cfg)) authBytes (cl_VerifyOptions cfg) with
          | (Err err, session') => (Err err, session', cache)
          | (Ok validation, session') =>
              match validateIdentityPolicy cfg st validation now clock cache with
              | (Some err, cache') => (Err err, session', cache')
              | (None, cache') => (Ok (req, validation), session', cache')
              end
          end
      end
  end.

Definition ClientContext (cfg : option (ClientConfig K)) (handshake ctxErr : option error)
    (st : ConnectionState) (rand : result error (list byte)) (reply : list byte)
    (now clock : Time) (session : Session) (cache : option C)
    : result error (AuthenticatorRequest * ValidationResult K) * Session * option C :=
  match cfg with
  | None => (Err (ErrNew "atls: missing client config"), session, cache)
  | Some cfg =>
      let '(r, session', cache') :=
        match handshake with
        | Some err => (Err err, session, cache)
        | None => clientExchange cfg st rand reply now clock session cache
        end in
      match ctxErr with Some err => (Err err, session', cache') | None => (r, session', cache') end
  end.
End client.

(** ** Server *)

Record ServerConfig (K : Type) := mkServerConfig {
  sv_Identity : Identity K;
  sv_TLSCertificates : list (Identity K);   (* empty without a TLS config *)
  sv_BuildLeafExtensions : option (ConnectionState -> AuthenticatorRequest ->
    Certificate (PublicKey K) -> result error (list Extension)) }.
Arguments mkServerConfig {K}. Arguments sv_Identity {K}. Arguments sv_TLSCertificates {K}.
Arguments sv_BuildLeafExtensions {K}.

Section server.
Context {K : Type} `{!Crypto K}.

Definition resolveIdentity (cfg : ServerConfig K) : result error (Identity K) :=
  if (0 <? len (id_Certificate (sv_Identity cfg)))
     && negb (bool_decide (id_PrivateKey (sv_Identity cfg) = None))
  then Ok (sv_Identity cfg)
  else match sv_TLSCertificates cfg with
       | identity :: _ => Ok identity
       | [] => Err (ErrNew "atls: missing server identity")
       end.

Definition buildServerExtensions (cfg : ServerConfig K) (st : ConnectionState)
    (req : AuthenticatorRequest) (identity : Identity K) : result error (list Extension) :=
  match sv_BuildLeafExtensions cfg with
  | None => Ok []
  | Some build =>
      match id_Certificate identity with
      | [] => Err (ErrNew "atls: missing server leaf certificate")
      | der :: _ => let* leaf := ParseCertificate der in build st req leaf
      end
  end.

(** The request the server accepts, before it answers. *)
Definition readRequest (cfg : ServerConfig K) (input : list byte)
    : result error AuthenticatorRequest :=
  let* f := readFrame input in
  let '(frameType, reqBytes, _) := f in
  if negb (bool_decide (frameType = frameTypeRequest))
  then Err (ErrNew "atls: unexpected frame type")
  else
    let* r := UnmarshalAuthenticatorRequest reqBytes in
    let '(req, rest) := r in
    if negb (len rest =? 0) then Err (ErrNew "atls: trailing request bytes")
    else if negb (bool_decide (sv_BuildLeafExtensions cfg = None))
            && negb (RequestPermitsCertificateExtension (Some req) CMWAttestationExtensionType)
    then Err (ErrNew "atls: cmw_attestation extension not offered")
    else Ok req.

(** The frame written is part of the result. *)
Definition Server (cfg : option (ServerConfig K)) (handshake : option error)
    (st : ConnectionState) (input : list byte) (session : Session)
    : result error (AuthenticatorRequest * list byte) * Session :=
  match cfg, handshake with
  | None, _ => (Err (ErrNew "atls: missing server config"), session)
  | _, Some err => (Err err, session)
  | Some cfg, None =>
      match
        (let* req := readRequest cfg input in
         let* identity := resolveIdentity cfg in
         let* exts := buildServerExtensions cfg st req identity in
         Ok (req, identity, exts)) with
      | Err err => (Err err, session)
      | Ok (req, identity, exts) =>
          match createAuthenticator session st RoleServer (Some req) None identity exts
                  (Err (ErrNew "no random context")) with
          | (Err err, session') => (Err err, session')
          | (Ok authBytes, session') =>
              match writeFrame frameTypeAuthenticator authBytes with
              | Err err => (Err err, session')
              | Ok frame => (Ok (req, frame), session')
              end
          end
      end
  end.
End server.

(** ** Frames read back *)

Lemma readUint32_put v t : 0 <= v < 2 ^ 32 -> readUint32 (putUint32 v ++ t) = v.
Proof.
  intros Hv. unfold readUint32, putUint32. rewrite <- app_assoc.
  change (sliceTo 2 (putUint16 ?x ++ ?l)) with (putUint16 x ++ []).
  change (sliceFrom 2 (putUint16 _ ++ ?l)) with l.
  assert (Hlow : readUint16 (putUint16 v ++ t) = v mod 2 ^ 16).
  { replace (putUint16 v) with (putUint16 (v mod 2 ^ 16)).
    - apply readUint16_put. pose proof (Z.mod_pos_bound v (2 ^ 16)). lia.
    - unfold putUint16. f_equal.
      + rewrite !Z.shiftr_div_pow2 by lia.
        rewrite <- (toByte_mod (v / 2 ^ 8)), <- (toByte_mod (_ / 2 ^ 8)). f_equal.
        change (2 ^ 16) with (2 ^ 8 * 256). rewrite Z.rem_mul_r by lia.
        change (2 ^ 8) with 256. rewrite Z.add_comm, Z.mul_comm, Z.div_add_l by lia.
        rewrite (Z.div_small (v mod 256)), Z.add_0_r, Z.mod_mod by (try apply Z.mod_pos_bound; lia).
        done.
      + f_equal. rewrite <- (toByte_mod v), <- (toByte_mod (v mod _)). f_equal.
        change (2 ^ 16) with (256 * 256). rewrite Z.rem_mul_r, Z.mul_comm, Z.mod_add, Z.mod_mod by lia.
        done. }
  rewrite Hlow, readUint16_put by
    (rewrite Z.shiftr_div_pow2 by lia; split;
     [apply Z.div_pos; lia | assert (v / 2 ^ 16 < 0x10000) by (apply Z.div_lt_upper_bound; lia); lia]).
  rewrite lor_shiftl by (try apply Z.mod_pos_bound; lia).
  rewrite Z.shiftr_div_pow2 by lia. pose proof (Z.div_mod v (2 ^ 16)). lia.
Qed.

Lemma putUint32_read a b c d t : putUint32 (readUint32 (a :: b :: c :: d :: t)) = [a; b; c; d].
Proof.
  unfold readUint32, putUint32. change (sliceTo 2 _) with [a; b].
  change (sliceFrom 2 _) with (c :: d :: t).
  pose proof (readUint16_range [a; b]). pose proof (readUint16_range (c :: d :: t)).
  rewrite lor_shiftl by lia. rewrite Z.shiftr_div_pow2, Z.div_add_l, Z.div_small, Z.add_0_r by lia.
  rewrite (putUint16_read a b []). change [a; b; c; d] with ([a; b] ++ [c; d]). f_equal.
  transitivity (putUint16 (readUint16 (c :: d :: t))); [|apply putUint16_read].
  unfold putUint16. set (x := readUint16 [a; b]). set (y := readUint16 (c :: d :: t)).
  assert (E1 : toByte (Z.shiftr (x * 2 ^ 16 + y) 8) = toByte (Z.shiftr y 8)).
  { rewrite !Z.shiftr_div_pow2 by lia. change (2 ^ 16) with (256 * 256). change (2 ^ 8) with 256.
    rewrite Z.mul_assoc, Z.div_add_l by lia.
    rewrite <- toByte_mod, Z.add_comm, Z.mod_add, toByte_mod by lia. done. }
  assert (E2 : toByte (x * 2 ^ 16 + y) = toByte y).
  { rewrite <- toByte_mod. change (2 ^ 16) with (256 * 256).
    rewrite Z.mul_assoc, Z.add_comm, Z.mod_add, toByte_mod by lia. done. }
  by rewrite E1, E2.
Qed.

Lemma readUint32_range a b c d t : 0 <= readUint32 (a :: b :: c :: d :: t) < 2 ^ 32.
Proof.
  unfold readUint32. change (sliceTo 2 _) with [a; b]. change (sliceFrom 2 _) with (c :: d :: t).
  pose proof (readUint16_range [a; b]). pose proof (readUint16_range (c :: d :: t)).
  rewrite lor_shiftl by lia. lia.
Qed.

Lemma len_ge5 {A} (l : list A) : 5 <= len l -> exists a b c d e t, l = a :: b :: c :: d :: e :: t.
Proof.
  destruct l as [|a [|b [|c [|d [|e t]]]]]; rewrite ?len_cons, ?len_nil; try lia. eauto 10.
Qed.

(** A frame reads back, whatever follows, and only frames read. *)
Lemma readFrame_Ok x typ payload rest :
  readFrame x = Ok (typ, payload, rest) <->
  typ <> toByte 0 /\ exists frame, writeFrame typ payload = Ok frame /\ x = frame ++ rest.
Proof.
  unfold readFrame, writeFrame, readFull, maxFramePayloadLen. split.
  - destruct (len x <? 5) eqn:L; [done|]. bool_to_prop.
    destruct (len_ge5 x) as (t & a & b & c & d & l & ->); [lia|].
    change (sliceTo 5 _) with [t; a; b; c; d]. change (sliceFrom 5 _) with l. cbv zeta.
    change (slice 1 5 _) with [a; b; c; d]. cbn [nth].
    pose proof (readUint32_range a b c d []) as Hr.
    case_bool_decide as T; [done|]. destruct (16777216 <? _) eqn:M; [done|]. bool_to_prop.
    set (n := readUint32 [a; b; c; d]) in *.
    assert (Hp : putUint32 n = [a; b; c; d]) by apply putUint32_read.
    destruct (n =? 0) eqn:N.
    + intros [= <- <- <-]. bool_to_prop. split; [done|]. eexists. split; [reflexivity|].
      rewrite len_nil. rewrite N in Hp. by rewrite Hp.
    + destruct (len l <? n) eqn:Ln; [done|]. bool_to_prop. intros [= <- <- <-]. split; [done|].
      rewrite len_sliceTo by lia. destruct (16777216 <? n) eqn:M'; bool_to_prop; [lia|].
      eexists. split; [reflexivity|]. rewrite Hp. cbn [app]. by rewrite sliceTo_sliceFrom.
  - intros (T & frame & W & ->). revert W. destruct (_ <? len payload) eqn:M; [done|].
    bool_to_prop. intros <-%Ok_inj. pose proof (len_nonneg payload). pose proof (len_nonneg rest).
    assert (Hlen : len (putUint32 (len payload)) = 4) by done.
    rewrite (proj2 (Z.ltb_ge _ _)) by (cbn [app]; rewrite len_cons, !len_app, Hlen; lia).
    change (sliceTo 5 _) with (typ :: putUint32 (len payload)).
    change (sliceFrom 5 _) with (payload ++ rest). cbv zeta.
    change (slice 1 5 _) with (putUint32 (len payload)). cbn [nth].
    rewrite bool_decide_eq_false_2 by done.
    rewrite <- (app_nil_r (putUint32 _)), readUint32_put by lia.
    rewrite (proj2 (Z.ltb_ge _ _)) by lia. destruct (len payload =? 0) eqn:N.
    + bool_to_prop. apply len_zero in N as ->. done.
    + rewrite (proj2 (Z.ltb_ge _ _)) by (rewrite len_app; lia).
      by rewrite sliceTo_app_exact, sliceFrom_app_exact.
Qed.

(** ** Specification *)

Section spec.
Context {K : Type} `{!Crypto K} `{!PKIX (PublicKey K)} `{!PayloadJSON}.
Context {C : Type} `{ReplayCache C}.

(** The reply is an authenticator frame that carries [auth]. *)
Definition replyCarries (reply auth : list byte) : Prop :=
  exists frame rest, writeFrame frameTypeAuthenticator auth = Ok frame /\ reply = frame ++ rest.

(** The identity checks: none without a policy; otherwise an assertion from the
    configured source agrees with the policy and with the binding derived from this
    validation, and the statement it came from, if any, is marked as used. *)
Definition identityAccepts (cfg : ClientConfig K) (st : ConnectionState) (v : ValidationResult K)
    (now clock : Time) (cache cache' : option C) : Prop :=
  if Policy_Enabled (cl_IdentityPolicy cfg) then
    exists assertion statement binding,
      observedIdentityAssertion cfg st v now = Ok (assertion, statement)
      /\ ExpectedIdentityBinding (Some v) = Ok binding
      /\ assertionAccepts (cl_IdentityPolicy cfg) assertion binding now
      /\ match statement with
         | Some s => MarkSessionBindingUsed clock cache s = (None, cache')
         | None => cache' = cache
         end
  else cache' = cache.

Definition clientAccepts (cfg : ClientConfig K) (st : ConnectionState)
    (rand : result error (list byte)) (reply : list byte) (now clock : Time)
    (s s' : Session) (cache cache' : option C) (req : AuthenticatorRequest)
    (v : ValidationResult K) : Prop :=
  (exists frame, clientRequest cfg rand = Ok (req, frame))
  /\ (exists auth, replyCarries reply auth
        /\ authenticatorAccepts st RoleServer (Some req) None (Some (cl_AttestationPolicy cfg))
             auth (cl_VerifyOptions cfg) v)
  /\ MarkContextUsed s (vr_Context v) = (None, s')
  /\ identityAccepts cfg st v now clock cache cache'.

(** ** Refinement *)

Lemma readReply_Ok reply auth : readReply reply = Ok auth <-> replyCarries reply auth.
Proof.
  unfold readReply, replyCarries. split.
  - destruct (readFrame reply) as [[[typ payload] rest]|] eqn:F; [|done].
    apply readFrame_Ok in F as (_ & frame & W & ->).
    case_bool_decide as T; cbn [negb]; [|done]. intros [= <-]. subst typ. eauto.
  - intros (frame & rest & W & ->).
    assert (readFrame (frame ++ rest) = Ok (frameTypeAuthenticator, auth, rest)) as ->
      by (apply readFrame_Ok; split; [done | eauto]).
    done.
Qed.

Lemma validateIdentityPolicy_None cfg st v now clock cache cache' :
  validateIdentityPolicy cfg st v now clock cache = (None, cache') <->
  identityAccepts cfg st v now clock cache cache'.
Proof.
  unfold validateIdentityPolicy, identityAccepts.
  destruct (Policy_Enabled _); cbn [negb]; [|by split; [intros [= ->] | intros ->]].
  split.
  - destruct (observedIdentityAssertion cfg st v now) as [[a s]|]; [|done].
    destruct (ExpectedIdentityBinding _) as [b|]; [|done].
    destruct (ValidateAssertion _ a b now) eqn:V; [done|]. apply ValidateAssertion_spec in V.
    destruct s as [s|].
    + destruct (MarkSessionBindingUsed clock cache s) as [[e|] c'] eqn:M; [done|].
      intros [= <-]. exists a, (Some s), b. by split_and!.
    + intros [= <-]. exists a, None, b. by split_and!.
  - intros (a & s & b & -> & -> & V%ValidateAssertion_spec & M). rewrite V.
    destruct s as [s|]; [by rewrite M | by rewrite M].
Qed.

Lemma clientExchange_Ok cfg st rand reply now clock s cache req v s' cache' :
  clientExchange cfg st rand reply now clock s cache = (Ok (req, v), s', cache') <->
  clientAccepts cfg st rand reply now clock s s' cache cache' req v.
Proof.
  unfold clientExchange, clientAccepts. split.
  - destruct (clientRequest cfg rand) as [[req' frame]|] eqn:R; [|done].
    destruct (readReply reply) as [auth|] eqn:A; [|done]. apply readReply_Ok in A.
    destruct (validateAuthenticator _ _ _ _ _ _ _ _) as [[v'|] s1] eqn:V; [|done].
    destruct (validateIdentityPolicy _ _ _ _ _ _) as [[e|] c1] eqn:I; [done|].
    intros [= -> -> -> ->]. apply validate_Ok in V as [V M].
    apply validateIdentityPolicy_None in I. split_and!; eauto.
  - intros ((frame & ->) & (auth & A%readReply_Ok & V) & M & I).
    rewrite A. rewrite (proj2 (validate_Ok _ _ _ _ _ _ _ _ _ _) (conj V M)).
    apply validateIdentityPolicy_None in I. by rewrite I.
Qed.

(** An enabled identity policy needs a leaf certificate, so it turns down a
    Finished-only authenticator. *)
Lemma identity_needs_leaf cfg st v now clock cache cache' :
  Policy_Enabled (cl_IdentityPolicy cfg) = true ->
  identityAccepts cfg st v now clock cache cache' -> vr_Chain v <> [] /\ vr_Context v <> [].
Proof.
  unfold identityAccepts, ExpectedIdentityBinding. intros ->.
  intros (_ & _ & b & _ & E & _). destruct (vr_Chain v); [done|].
  destruct (vr_Context v); [done|]. done.
Qed.
End spec.

Section agree.
Context {K : Type} `{!Crypto K, !CryptoLaws K} `{!PKIX (PublicKey K)} `{!PayloadJSON}.

Lemma clientRequest_frame (cfg : ClientConfig K) rand req frame :
  clientRequest cfg rand = Ok (req, frame) ->
  exists reqBytes, AuthenticatorRequest_Marshal req = Ok reqBytes
    /\ writeFrame frameTypeRequest reqBytes = Ok frame.
Proof.
  unfold clientRequest. destruct (buildRequest cfg rand) as [r|]; [|done].
  destruct (AuthenticatorRequest_Marshal r) as [b|] eqn:M; [|done].
  destruct (writeFrame _ b) as [f|] eqn:W; [|done]. intros [= <- <-]. eauto.
Qed.

(** The server reads the request the client sent. *)
Lemma readRequest_sent (cfg : ServerConfig K) req reqBytes frame junk req' :
  Forall wfExtension (ar_Extensions req) ->
  AuthenticatorRequest_Marshal req = Ok reqBytes -> writeFrame frameTypeRequest reqBytes = Ok frame ->
  readRequest cfg (frame ++ junk) = Ok req' -> req' = req.
Proof.
  intros Hwf M W. unfold readRequest.
  assert (readFrame (frame ++ junk) = Ok (frameTypeRequest, reqBytes, junk)) as ->
    by (apply readFrame_Ok; split; [done | eauto]).
  rewrite bool_decide_eq_true_2 by done. cbn [negb].
  pose proof (marshal_reads req reqBytes [] Hwf M) as U. rewrite app_nil_r in U. rewrite U.
  cbn [len length negb]. destruct (_ && _); [done|]. by intros [= <-].
Qed.

(** The parts of a server run that answers. *)
Lemma Server_Ok (cfg : ServerConfig K) st input s req out s' :
  Server (Some cfg) None st input s = (Ok (req, out), s') ->
  readRequest cfg input = Ok req /\ exists identity exts auth,
    resolveIdentity cfg = Ok identity /\ buildServerExtensions cfg st req identity = Ok exts
    /\ createAuthenticator s st RoleServer (Some req) None identity exts
         (Err (ErrNew "no random context")) = (Ok auth, s')
    /\ writeFrame frameTypeAuthenticator auth = Ok out.
Proof.
  unfold Server. destruct (readRequest cfg input) as [r|]; [|done].
  destruct (resolveIdentity cfg) as [identity|]; [|done].
  destruct (buildServerExtensions cfg st r identity) as [exts|] eqn:B; [|done].
  destruct (createAuthenticator _ _ _ _ _ _ _ _) as [[auth|] s1] eqn:Cr; [|done].
  destruct (writeFrame _ auth) as [f|] eqn:W; [|done]. intros [= <- <- <-].
  split; [done|]. exists identity, exts, auth. by split_and!.
Qed.

Lemma createAuthenticator_bytes s st role req policy (identity : Identity K) exts rand auth s' :
  createAuthenticator s st role req policy identity exts rand = (Ok auth, s') ->
  exists ctx, authenticatorBytes st role req policy identity exts rand = Ok (auth, ctx).
Proof.
  unfold createAuthenticator. destruct (authenticatorBytes _ _ _ _ _ _ _) as [[out ctx]|]; [|done].
  intros [Ho _]%markThen_iff. injection Ho as <-. eauto.
Qed.
End agree.

(** ** A concrete exchange *)

Module Sample.
Import EaAuthenticator.Sample.
Definition noPolicy : Policy :=
  mkPolicy ModeDisabled SetModeDefault (mkRequirements false false false false)
    (mkValues "" "" "" "" "" "" "" "" "" "" "" "" "" "" [] [] []).
Definition client : ClientConfig string :=
  mkClientConfig (Some tt) EaAttestation.Sample.policy noPolicy None None None (Some request) None.
Definition server : ServerConfig string :=
  mkServerConfig identity [] (Some (fun _ _ _ => Ok exts)).
Definition sent : list byte :=
  match clientRequest client (Err ErrBadRequest) with Ok (_, f) => f | Err _ => [] end.
Definition answer : list byte :=
  match fst (Server (Some server) None st sent NewSession) with Ok (_, out) => out | Err _ => [] end.
Definition cache0 : option (option Memory.MemoryReplayCache) := None.

Lemma answer_ok : Server (Some server) None st sent NewSession = (Ok (request, answer), used).
Proof. vm_compute. reflexivity. Qed.
End Sample.

(** ** Theorems *)

(** C8: the client exchange decides its specification.  A connection is accepted, with
    exactly the reported request and validation, precisely when the reply is an
    authenticator frame whose payload validates against the request the client sent,
    the session had not used its context, and the identity policy, if enabled, agrees
    with an assertion for the binding values of this very validation, whose statement
    the replay cache accepts. *)
Theorem client_decides {K} `{!Crypto K} `{!PKIX (PublicKey K)} `{!PayloadJSON} {C} `{ReplayCache C}
    (cfg : ClientConfig K) st rand reply now clock s (cache : option C) req v s' cache' :
  clientExchange cfg st rand reply now clock s cache = (Ok (req, v), s', cache') <->
  clientAccepts cfg st rand reply now clock s s' cache cache' req v.
Proof. apply clientExchange_Ok. Qed.

Lemma client_decides_witness :
  clientAccepts Sample.client EaAuthenticator.Sample.st (Err ErrBadRequest) Sample.answer 10 10
    NewSession EaAuthenticator.Sample.used Sample.cache0 Sample.cache0
    EaAuthenticator.Sample.request EaAuthenticator.Sample.result.
Proof. apply client_decides. vm_compute. reflexivity. Defined.


