(* ===== verification/AgentAuth.v ===== *)
(** * Agent user authentication: [agent/auth/auth.go]

    A gRPC call to the agent carries a signature over its role, method, timestamp and
    nonce.  [AuthenticateUser] checks the age of the timestamp, finds a key of the
    role's manifest entries that verifies the signature, and marks the nonce.  The
    clock is read twice, once for the age check and once under the lock that guards
    the nonces: the model takes both readings.

    Key parsing and signature verification are the operations of the class
    [AgentCrypto]; the theorems hold for all of them. *)

From stdpp Require Import base gmap sets list strings.
From Stdlib Require Import ZArith Lia Strings.Byte.
From S2P Require Import Prelude GoStrings Errors GoTime GoEncoding Sha2 EaAuthenticator.

Definition ErrMissingMetadata := ErrNew "auth.ErrMissingMetadata".
Definition ErrInvalidMetadata := ErrNew "auth.ErrInvalidMetadata".
Definition ErrSignatureVerificationFailed := ErrNew "auth.ErrSignatureVerificationFailed".
Definition ErrSignatureExpired := ErrNew "auth.ErrSignatureExpired".
Definition ErrReplayDetected := ErrNew "auth.ErrReplayDetected".

Definition SignatureMetadataKey : string := "signature".
Definition SignatureTimestampMetadataKey : string := "signature-timestamp".
Definition SignatureNonceMetadataKey : string := "signature-nonce".
Definition signaturePayloadVersion : string := "agents-secure-binding-agent-auth-v1".
Definition maxSignatureAge : Duration := 5 * Minute.
Definition maxSignatureFutureSkew : Duration := Minute.
Definition ConsumerRole : string := "consumer".
Definition DataProviderRole : string := "data-provider".
Definition AlgorithmProviderRole : string := "algorithm-provider".

(** [x509.ParsePKIXPublicKey] and the three signature checks. *)
Class AgentCrypto (K : Type) := {
  ParsePKIXPublicKey : list byte -> result error (PublicKey K);
  verifyPKCS1v15 : K -> list byte -> list byte -> option error;
  verifyASN1 : K -> list byte -> list byte -> bool;
  verifyEd25519 : K -> list byte -> list byte -> bool }.

(** ** State *)

Record service (K : Type) := mkService {
  resultConsumers : list (PublicKey K); datasetProviders : list (PublicKey K);
  algorithmProvider : PublicKey K; seenNonces : gmap string Time }.
Arguments mkService {K}. Arguments resultConsumers {K}. Arguments datasetProviders {K}.
Arguments algorithmProvider {K}. Arguments seenNonces {K}.

Definition withNonces {K} (s : service K) (seen : gmap string Time) : service K :=
  mkService (resultConsumers s) (datasetProviders s) (algorithmProvider s) seen.

(** The user keys of a computation manifest. *)
Record ManifestKeys := mkManifestKeys {
  mk_ResultConsumers : list (list byte); mk_Datasets : list (list byte);
  mk_Algorithm : list byte }.

(** ** Nonces *)

Definition nonceKey (role method nonce : string) : string :=
  role +:+ ofCodes [0] +:+ method +:+ ofCodes [0] +:+ nonce.

(** The entries that are still in force. *)
Definition purge (now : Time) (seen : gmap string Time) : gmap string Time :=
  filter (fun kv => After kv.2 now = true) seen.

Definition markNonce {K} (now : Time) (role method nonce : string) (expiresAt : Time)
    (s : service K) : option error * service K :=
  let seen := purge now (seenNonces s) in
  let key := nonceKey role method nonce in
  match seen !! key with
  | Some expires =>
      if After expires now then (Some ErrReplayDetected, withNonces s seen)
      else (None, withNonces s (<[key := expiresAt]> seen))
  | None => (None, withNonces s (<[key := expiresAt]> seen))
  end.

Definition validateIssuedAt (issuedAt now : Time) : option error :=
  if Before issuedAt (timeAdd now (- maxSignatureAge))
     || After issuedAt (timeAdd now maxSignatureFutureSkew)
  then Some ErrSignatureExpired else None.

(** ** Authentication *)

(** [metadata.MD.Get] with a lower-case key. *)
Definition extractMetadataValue (md : gmap string (list string)) (key : string)
    : result error string :=
  match default [] (md !! key) with
  | [v] => if bool_decide (v = "") then Err (ErrNew "codes.Unauthenticated") else Ok v
  | _ => Err (ErrNew "codes.Unauthenticated")
  end.

Definition extractSignature (md : gmap string (list string)) : result error string :=
  extractMetadataValue md SignatureMetadataKey.

Definition signaturePayload (role method issuedAt nonce : string) : list byte :=
  let nl := ofCodes [10] in
  bytesOf (signaturePayloadVersion +:+ nl +:+ "role=" +:+ role +:+ nl +:+ "method=" +:+ method
           +:+ nl +:+ "issued_at=" +:+ issuedAt +:+ nl +:+ "nonce=" +:+ nonce).

Section auth.
Context {K : Type} `{AgentCrypto K}.

Definition decodePublicKey (key : PublicKey K) : result error (PublicKey K) :=
  match key with
  | PubOther => Err (ErrNew "unsupported public key type")
  | _ => Ok key
  end.

Fixpoint parseKeys (raws : list (list byte)) : result error (list (PublicKey K)) :=
  match raws with
  | [] => Ok []
  | raw :: t =>
      let* pubKey := ParsePKIXPublicKey raw in
      let* pKey := decodePublicKey pubKey in
      let* ks := parseKeys t in
      Ok (pKey :: ks)
  end.

Definition New (manifest : ManifestKeys) : result error (service K) :=
  let* consumers := parseKeys (mk_ResultConsumers manifest) in
  let* providers := parseKeys (mk_Datasets manifest) in
  let* pubKey := ParsePKIXPublicKey (mk_Algorithm manifest) in
  let* pKey := decodePublicKey pubKey in
  Ok (mkService consumers providers pKey ∅).

Definition verifySignature (role method issuedAt nonce signature : string)
    (publicKey : PublicKey K) : option error :=
  let payload := signaturePayload role method issuedAt nonce in
  let hash := Sum256 payload in
  match base64StdDecode signature with
  | None => Some (ErrNew "base64.CorruptInputError")
  | Some codes =>
      let sigByte := map toByte codes in
      match publicKey with
      | PubRSA k => verifyPKCS1v15 k hash sigByte
      | PubECDSA k =>
          if negb (verifyASN1 k hash sigByte) then Some ErrSignatureVerificationFailed else None
      | PubEd25519 k =>
          if negb (verifyEd25519 k payload sigByte) then Some ErrSignatureVerificationFailed
          else None
      | PubOther => Some ErrSignatureVerificationFailed
      end
  end.

(** The keys of a role. *)
Definition roleKeys (s : service K) (role : string) : list (PublicKey K) :=
  if bool_decide (role = ConsumerRole) then resultConsumers s
  else if bool_decide (role = DataProviderRole) then datasetProviders s
  else if bool_decide (role = AlgorithmProviderRole) then [algorithmProvider s]
  else [].

(** The index of the first key that verifies. *)
Fixpoint firstKey (role method issuedAt nonce signature : string) (keys : list (PublicKey K))
    (i : Z) : option Z :=
  match keys with
  | [] => None
  | k :: t =>
      match verifySignature role method issuedAt nonce signature k with
      | None => Some i
      | Some _ => firstKey role method issuedAt nonce signature t (i + 1)
      end
  end.

(** The three metadata values and the parsed timestamp. *)
Definition readMetadata (md : option (gmap string (list string)))
    : result error (string * string * string * Time) :=
  match md with
  | None => Err ErrMissingMetadata
  | Some md =>
      match extractSignature md with
      | Err err => Err (Wrap err ErrInvalidMetadata)
      | Ok signature =>
          match extractMetadataValue md SignatureTimestampMetadataKey with
          | Err err => Err (Wrap err ErrInvalidMetadata)
          | Ok issuedAt =>
              match extractMetadataValue md SignatureNonceMetadataKey with
              | Err err => Err (Wrap err ErrInvalidMetadata)
              | Ok nonce =>
                  match parseRFC3339Nano issuedAt with
                  | Err err => Err (Wrap err ErrInvalidMetadata)
                  | Ok t => Ok (signature, issuedAt, nonce, t)
                  end
              end
          end
      end
  end.

(** The result is the index a consumer's context carries, nothing for the others.
    [now1] is read for the age check, [now2] under the lock. *)
Definition AuthenticateUser (now1 now2 : Time) (md : option (gmap string (list string)))
    (role method : string) (s : service K) : result error (option Z) * service K :=
  match readMetadata md with
  | Err err => (Err err, s)
  | Ok (signature, issuedAt, nonce, issuedAtTime) =>
      match validateIssuedAt issuedAtTime now1 with
      | Some err => (Err err, s)
      | None =>
          match firstKey role method issuedAt nonce signature (roleKeys s role) 0 with
          | None => (Err ErrSignatureVerificationFailed, s)
          | Some i =>
              match markNonce now2 role method nonce (timeAdd issuedAtTime maxSignatureAge) s with
              | (Some err, s') => (Err err, s')
              | (None, s') =>
                  (Ok (if bool_decide (role = ConsumerRole) then Some i else None), s')
              end
          end
      end
  end.
End auth.

(** ** Specification *)

Section spec.
Context {K : Type} `{AgentCrypto K}.

(** A live entry for the nonce. *)
Definition nonceLive (s : service K) (now : Time) (key : string) : Prop :=
  exists e, seenNonces s !! key = Some e /\ now < e.

(** [i] is the first key of the role that verifies the signature. *)
Definition firstVerifies (s : service K) (role method issuedAt nonce signature : string) (i : Z)
    : Prop :=
  let ok k := verifySignature role method issuedAt nonce signature k = None in
  exists pre k post, roleKeys s role = pre ++ k :: post /\ i = len pre /\ ok k
    /\ Forall (fun k' => ~ ok k') pre.

Definition userAccepts (now1 now2 : Time) (md : option (gmap string (list string)))
    (role method : string) (s : service K) (r : option Z) (s' : service K) : Prop :=
  exists signature issuedAt nonce t i,
    readMetadata md = Ok (signature, issuedAt, nonce, t)
    /\ now1 - maxSignatureAge <= t <= now1 + maxSignatureFutureSkew
    /\ firstVerifies s role method issuedAt nonce signature i
    /\ ~ nonceLive s now2 (nonceKey role method nonce)
    /\ r = (if bool_decide (role = ConsumerRole) then Some i else None)
    /\ s' = withNonces s (<[nonceKey role method nonce := t + maxSignatureAge]>
                            (purge now2 (seenNonces s))).

(** Any further calls; the lock is taken at the times [t], ..., [t'] in order. *)
Inductive authRuns : Time -> service K -> service K -> Time -> Prop :=
  | runs_none t s : authRuns t s s t
  | runs_call t s now1 now2 md role method s' t' :
      t <= now2 -> authRuns now2 (snd (AuthenticateUser now1 now2 md role method s)) s' t' ->
      authRuns t s s' t'.

(** ** Refinement *)

Lemma lookup_nonces now seen key e :
  purge now seen !! key = Some e <-> seen !! key = Some e /\ now < e.
Proof. unfold purge, After. rewrite map_lookup_filter_Some. simpl. by rewrite Z.ltb_lt. Qed.

Lemma markNonce_cases now role method nonce exp (s : service K) :
  let key := nonceKey role method nonce in
  (nonceLive s now key
   /\ markNonce now role method nonce exp s
      = (Some ErrReplayDetected, withNonces s (purge now (seenNonces s))))
  \/ (~ nonceLive s now key
      /\ markNonce now role method nonce exp s
         = (None, withNonces s (<[key := exp]> (purge now (seenNonces s))))).
Proof.
  unfold markNonce, nonceLive. cbv zeta. set (key := nonceKey role method nonce).
  destruct (purge now (seenNonces s) !! key) as [e|] eqn:L.
  - left. apply lookup_nonces in L as [? ?]. split; [by eauto|].
    unfold After. by rewrite (proj2 (Z.ltb_lt _ _)).
  - right. split; [|done]. intros (e & ? & ?).
    assert (None = Some e); [|done]. rewrite <- L. by apply lookup_nonces.
Qed.

Lemma validateIssuedAt_None t now :
  validateIssuedAt t now = None <-> now - maxSignatureAge <= t <= now + maxSignatureFutureSkew.
Proof.
  unfold validateIssuedAt, Before, After, timeAdd. case_goal; bool_to_prop; split; try done; lia.
Qed.

Lemma firstKey_Some role method issuedAt nonce signature keys : forall n i,
  firstKey role method issuedAt nonce signature keys n = Some i <->
  exists pre k post, keys = pre ++ k :: post /\ i = n + len pre
    /\ verifySignature role method issuedAt nonce signature k = None
    /\ Forall (fun k' => ~ verifySignature role method issuedAt nonce signature k' = None) pre.
Proof.
  induction keys as [|k t IH]; intros n i; cbn [firstKey].
  { split; [done|]. intros (pre & ? & ? & E & _). by destruct pre. }
  destruct (verifySignature role method issuedAt nonce signature k) eqn:V.
  - rewrite IH. split.
    + intros (pre & k' & post & -> & -> & V' & HF). exists (k :: pre), k', post.
      split_and!; [done | rewrite len_cons; lia | done | constructor; [congruence | done]].
    + intros (pre & k' & post & E & -> & V' & HF). destruct pre as [|x pre]; simplify_eq/=.
      apply Forall_cons in HF as [_ HF]. exists pre, k', post.
      split_and!; [done | rewrite len_cons; lia | done | done].
  - split.
    + intros [= <-]. exists [], k, t. rewrite len_nil. split_and!; [done | lia | done | constructor].
    + intros (pre & k' & post & E & -> & V' & HF). destruct pre as [|x pre]; simplify_eq/=.
      * rewrite len_nil. f_equal. lia.
      * by apply Forall_cons in HF as [? _].
Qed.

Lemma AuthenticateUser_Ok now1 now2 md role method s r s' :
  AuthenticateUser now1 now2 md role method s = (Ok r, s') <->
  userAccepts now1 now2 md role method s r s'.
Proof.
  unfold AuthenticateUser, userAccepts, firstVerifies, timeAdd. split.
  - destruct (readMetadata md) as [[[[sig iat] nonce] t]|]; [|done].
    destruct (validateIssuedAt t now1) eqn:V; [done|]. apply validateIssuedAt_None in V.
    destruct (firstKey _ _ _ _ _ _ _) as [i|] eqn:F; [|done].
    apply firstKey_Some in F as (pre & k & post & E & -> & Hk & HF).
    destruct (markNonce_cases now2 role method nonce (t + maxSignatureAge) s) as [[_ ->]|[Hn ->]];
      [done|]. intros [= <- <-].
    exists sig, iat, nonce, t, (0 + len pre). split; [done|]. split; [done|].
    split; [exists pre, k, post; by split_and!|]. by split_and!.
  - intros (sig & iat & nonce & t & i & -> & V%validateIssuedAt_None & (pre & k & post & E & -> & Hk & HF)
      & Hn & -> & ->).
    rewrite V. rewrite (proj2 (firstKey_Some _ _ _ _ _ _ 0 (len pre))) by eauto 10.
    by destruct (markNonce_cases now2 role method nonce (t + maxSignatureAge) s) as [[? _]|[_ ->]].
Qed.

(** A call keeps an entry that is in force when the lock is taken. *)
Lemma AuthenticateUser_keeps now1 now2 md role method s key e :
  seenNonces s !! key = Some e -> now2 < e ->
  seenNonces (snd (AuthenticateUser now1 now2 md role method s)) !! key = Some e.
Proof.
  intros L He. unfold AuthenticateUser.
  destruct (readMetadata md) as [[[[sig iat] nonce] t]|]; [|done].
  destruct (validateIssuedAt t now1); [done|].
  destruct (firstKey _ _ _ _ _ _ _) as [i|]; [|done].
  assert (Hp : purge now2 (seenNonces s) !! key = Some e) by (by apply lookup_nonces).
  destruct (markNonce_cases now2 role method nonce (timeAdd t maxSignatureAge) s) as [[_ ->]|[Hn ->]];
    [done|]. simpl. rewrite lookup_insert_ne; [done|]. intros <-. apply Hn. by exists e.
Qed.

Lemma authRuns_keeps t s s' t' key e :
  authRuns t s s' t' -> t <= t' /\ (seenNonces s !! key = Some e -> t' < e -> seenNonces s' !! key = Some e).
Proof.
  induction 1 as [t s|t s now1 now2 md role method s' t' Hle _ [Hle' IH]]; [split; [lia | done]|].
  split; [lia|]. intros L He. apply IH; [|done]. apply AuthenticateUser_keeps; [done | lia].
Qed.

(** C28: user authentication is decided: a call is accepted exactly when the metadata
    carry one signature, one timestamp and one nonce, the timestamp is at most five
    minutes old and at most one minute ahead, a manifest key of the caller's role
    verifies the signature over role, method, timestamp and nonce, and the nonce is not
    in force.  The consumer's index is that of the first key that verifies, and the
    nonce is in force from then until the timestamp is five minutes old. *)
Theorem AuthenticateUser_decides now1 now2 md role method s r s' :
  AuthenticateUser now1 now2 md role method s = (Ok r, s') <->
  userAccepts now1 now2 md role method s r s'.
Proof. apply AuthenticateUser_Ok. Qed.

(** C29: a nonce is accepted once.  After an accepted call, whatever calls follow, a second
    call of the same role and method with the same nonce is accepted only when the lock
    is taken at or after the end of the first timestamp's five minutes.  A replay of the
    same request must further have had its age checked at or before that instant. *)
Theorem nonce_accepted_once now1 now2 md role method s r s1 sig iat nonce t
    s2 tm now1' now2' md' r' s3 sig' iat' t' :
  readMetadata md = Ok (sig, iat, nonce, t) ->
  readMetadata md' = Ok (sig', iat', nonce, t') ->
  AuthenticateUser now1 now2 md role method s = (Ok r, s1) ->
  authRuns now2 s1 s2 tm -> tm <= now2' ->
  AuthenticateUser now1' now2' md' role method s2 = (Ok r', s3) ->
  t + maxSignatureAge <= now2' /\ (t' = t -> now1' <= t + maxSignatureAge).
Proof.
  rewrite !AuthenticateUser_Ok.
  intros R R' (? & ? & ? & ? & i & E & _ & _ & _ & _ & ->) Hruns Htm
    (? & ? & ? & ? & i' & E' & Hage & _ & Hn & _).
  rewrite R in E. rewrite R' in E'. injection E as <- <- <- <-. injection E' as <- <- <- <-.
  split; [|lia].
  apply (authRuns_keeps _ _ _ _ (nonceKey role method nonce) (t + maxSignatureAge))
    in Hruns as [_ Hkeep].
  destruct (Z.le_gt_cases (t + maxSignatureAge) now2') as [|Hlt]; [done|].
  destruct Hn. exists (t + maxSignatureAge). split; [|lia].
  apply Hkeep; [|lia]. simpl. apply lookup_insert_eq.
Qed.
End spec.

(** ** Samples *)

Module Sample.
(** A key is a byte string; a signature is the key and the length of the payload. *)
#[global] Instance lengthCrypto : AgentCrypto (list byte) := {
  ParsePKIXPublicKey raw := Ok (PubEd25519 raw);
  verifyPKCS1v15 _ _ _ := Some ErrSignatureVerificationFailed;
  verifyASN1 _ _ _ := false;
  verifyEd25519 k payload sig := bool_decide (sig = k ++ [toByte (len payload)]) }.

Definition start : service (list byte) :=
  match New (mkManifestKeys [bytesOf "a"; bytesOf "b"] [] (bytesOf "c")) with
  | Ok s => s
  | Err _ => mkService [] [] PubOther ∅
  end.

Definition request : option (gmap string (list string)) :=
  Some (<[SignatureMetadataKey := ["Yns="]]>
        (<[SignatureTimestampMetadataKey := ["2026-01-01T00:00:00Z"]]>
        (<[SignatureNonceMetadataKey := ["n1"]]> ∅))).

Definition issued : Time := timeUnix 1767225600.
Definition method : string := "/agent.AgentService/Result".

(** The first call at the time of issue, the second when the timestamp is exactly
    five minutes old. *)
Definition first := AuthenticateUser issued issued request ConsumerRole method start.
Definition expiry : Time := issued + maxSignatureAge.
Definition again (now : Time) :=
  AuthenticateUser now now request ConsumerRole method (snd first).

Lemma reads : readMetadata request = Ok ("Yns=", "2026-01-01T00:00:00Z", "n1", issued).
Proof. vm_compute. reflexivity. Qed.

Lemma first_Ok : first = (Ok (Some 1), snd first).
Proof. vm_compute. reflexivity. Qed.

Lemma again_Ok : again expiry = (Ok (Some 1), snd (again expiry)).
Proof. vm_compute. reflexivity. Qed.

Lemma later : issued <= expiry.
Proof. by vm_compute. Qed.
End Sample.

Lemma nonce_accepted_once_witness :
  Sample.issued + maxSignatureAge <= Sample.expiry
  /\ (Sample.issued = Sample.issued -> Sample.expiry <= Sample.issued + maxSignatureAge).
Proof.
  eapply nonce_accepted_once;
    [exact Sample.reads | exact Sample.reads | exact Sample.first_Ok | apply runs_none
    | exact Sample.later | exact Sample.again_Ok].
Defined.

(** The age check and the nonce table disagree on the last instant: one nanosecond
    earlier the replay of an accepted request is refused, and at exactly five minutes it
    is accepted, since the age check still accepts the timestamp and the nonce is
    already purged. *)
Theorem request_replays_at_expiry :
  fst Sample.first = Ok (Some 1)
  /\ fst (Sample.again (Sample.expiry - 1)) = Err ErrReplayDetected
  /\ fst (Sample.again Sample.expiry) = Ok (Some 1)
  /\ fst (Sample.again (Sample.expiry + 1)) = Err ErrSignatureExpired.
Proof. vm_compute. by split_and!. Qed.
