(* ===== verification/AgentService.v ===== *)
(** * The agent service: [agent/service.go]

    The bodies of the service's operations, each as it runs under the lock of the service
    or between its locks.  A body is a state transformer over the service's fields and the
    effects performed so far; what it sends to the state machine is part of its result, and
    [AgentRuns] composes the bodies with the machine and interleaves them.  The manifest
    types are those of [agent/computations.go], the context values those of
    [agent/algorithm/algorithm.go]. *)

From stdpp Require Import base gmap list strings.
From Stdlib Require Import ZArith Lia Strings.Byte Ascii.
From S2P Require Import Prelude GoStrings Errors GoPath GoOS Sha2 Archive Oci.

(** ** Manifest *)

Record ResourceSource := mkSource {
  src_Type : string; src_URL : string; src_KBSResourcePath : string; src_Encrypted : bool }.

Record KBSConfig := mkKBS { kbs_URL : string; kbs_Enabled : bool }.

Record Dataset := mkDataset {
  ds_Dataset : list byte; ds_Hash : list byte; ds_UserKey : list byte; ds_Filename : string;
  ds_Source : option ResourceSource; ds_Decompress : bool }.

Record Algorithm := mkAlgorithm {
  al_Algorithm : list byte; al_Hash : list byte; al_UserKey : list byte;
  al_Requirements : list byte; al_Source : option ResourceSource;
  al_AlgoType : string; al_AlgoArgs : list string }.

Record Computation := mkComputation {
  cmp_ID : string; cmp_Name : string; cmp_Description : string; cmp_Datasets : list Dataset;
  cmp_Algorithm : Algorithm; cmp_ResultConsumers : list (list byte); cmp_KBS : KBSConfig }.

(** The zero values; a zero hash is 32 zero bytes. *)
Definition zeroHash : list byte := replicate 32 x00.
Definition zeroAlgorithm : Algorithm := mkAlgorithm [] zeroHash [] [] None "" [].
Definition zeroComputation : Computation :=
  mkComputation "" "" "" [] zeroAlgorithm [] (mkKBS "" false).

(** ** Context values: incoming gRPC metadata and the index of the user *)

Record context := mkContext {
  ctx_algoType : list string; ctx_algoArgs : list string; ctx_decompress : list string;
  ctx_index : option Z }.

Definition firstValue (values : list string) : string := match values with [] => "" | v :: _ => v end.
Definition AlgorithmTypeFromContext (c : context) : string := firstValue (ctx_algoType c).
Definition AlgorithmArgsFromContext (c : context) : list string := ctx_algoArgs c.
Definition DecompressFromContext (c : context) : bool :=
  match ctx_decompress c with [] => false | v :: _ => bool_decide (v = "true") end.
Definition IndexFromContext (c : context) : option Z := ctx_index c.

(** ** States, events and errors *)

Inductive AgentState :=
| Idle | ReceivingManifest | ReceivingAlgorithm | ReceivingData | Running | ConsumingResults
| Complete | Failed.

Inductive AgentEvent :=
| Start | ManifestReceived | AlgorithmReceived | DataReceived | RunComplete | ResultsConsumed
| RunFailed.

Inductive Status := IdleState | InProgress | Ready | Completed | Terminated | Warning | Starting.

Definition stateString (s : AgentState) : string :=
  match s with
  | Idle => "Idle" | ReceivingManifest => "ReceivingManifest"
  | ReceivingAlgorithm => "ReceivingAlgorithm" | ReceivingData => "ReceivingData"
  | Running => "Running" | ConsumingResults => "ConsumingResults"
  | Complete => "Complete" | Failed => "Failed"
  end.

Definition statusString (s : Status) : string :=
  match s with
  | IdleState => "IdleState" | InProgress => "InProgress" | Ready => "Ready"
  | Completed => "Completed" | Terminated => "Terminated" | Warning => "Warning"
  | Starting => "Starting"
  end.

#[export] Instance AgentState_eq_dec : EqDecision AgentState.
Proof. solve_decision. Defined.
#[export] Instance AgentEvent_eq_dec : EqDecision AgentEvent.
Proof. solve_decision. Defined.

Definition ErrUndeclaredDataset := ErrNew "agent.ErrUndeclaredDataset".
Definition ErrAllManifestItemsReceived := ErrNew "agent.ErrAllManifestItemsReceived".
Definition ErrUndeclaredConsumer := ErrNew "agent.ErrUndeclaredConsumer".
Definition ErrResultsNotReady := ErrNew "agent.ErrResultsNotReady".
Definition ErrStateNotReady := ErrNew "agent.ErrStateNotReady".
Definition ErrHashMismatch := ErrNew "agent.ErrHashMismatch".
Definition ErrFileNameMismatch := ErrNew "agent.ErrFileNameMismatch".
Definition ErrUnsafeDatasetFilename := ErrNew "agent.ErrUnsafeDatasetFilename".
Definition ErrAttestationFailed := ErrNew "agent.ErrAttestationFailed".

Definition AlgoTypeBin : string := "bin".
Definition AlgoTypeDocker : string := "docker".
Definition ResultsDir : string := "results".
Definition DatasetsDir : string := "datasets".
Definition algoFilePermission : Z := 448.

(** ** The service *)

(** The interface value [ociClient]: nil, or a pointer that may itself be nil. *)
Inductive ociIface := IfaceNil | IfacePtr (p : option SkopeoClient).

Record agentService := mkService {
  computation : Computation; algoType : string; algoArgs : list string;
  algoRequirements : list byte; algoReceived : bool; result_ : list byte;
  runError : option error; resultsConsumed : bool; ociClient : ociIface }.

(** The fields, the effects so far, and whether the process has panicked; after a panic
    nothing that follows is observed. *)
Record astate := mkAState { a_svc : agentService; a_h : list act; a_panic : bool }.

(** What the service uses besides files: the directory of [os.TempDir], the attestation
    client and the TPM. *)
Class AgentEnv := {
  tempDir : string;
  getAttestation : list byte -> list byte -> Z -> result error (list byte);
  getAzureToken : list byte -> result error (list byte);
  getPCRSHA1Value : Z -> result error (list byte) }.

(** Calls to the operating system inside a body. *)
Definition os {A} (m : st (list act) A) : st astate A :=
  fun a => let '(x, h) := m (a_h a) in (x, mkAState (a_svc a) h (a_panic a)).

Definition getSvc {A} (f : agentService -> A) : st astate A := fun a => (f (a_svc a), a).
Definition modify (f : agentService -> agentService) : st astate (option error) :=
  fun a => (None, mkAState (f (a_svc a)) (a_h a) (a_panic a)).
Definition panic {A} (x : A) : st astate A := fun a => (x, mkAState (a_svc a) (a_h a) true).
Definition ignore {A} (m : st astate A) : st astate (option error) :=
  fun a => (None, snd (m a)).

Definition setComputation (c : Computation) (s : agentService) : agentService :=
  mkService c (algoType s) (algoArgs s) (algoRequirements s) (algoReceived s) (result_ s)
    (runError s) (resultsConsumed s) (ociClient s).
Definition setDatasets (ds : list Dataset) (s : agentService) : agentService :=
  let c := computation s in
  setComputation (mkComputation (cmp_ID c) (cmp_Name c) (cmp_Description c) ds (cmp_Algorithm c)
    (cmp_ResultConsumers c) (cmp_KBS c)) s.
Definition setAlgoReceived (s : agentService) : agentService :=
  mkService (computation s) (algoType s) (algoArgs s) (algoRequirements s) true (result_ s)
    (runError s) (resultsConsumed s) (ociClient s).
Definition setRequirements (r : list byte) (s : agentService) : agentService :=
  mkService (computation s) (algoType s) (algoArgs s) r (algoReceived s) (result_ s)
    (runError s) (resultsConsumed s) (ociClient s).
Definition setAlgoType (t : string) (args : list string) (s : agentService) : agentService :=
  mkService (computation s) t args (algoRequirements s) (algoReceived s) (result_ s)
    (runError s) (resultsConsumed s) (ociClient s).
Definition setRunError (e : option error) (s : agentService) : agentService :=
  mkService (computation s) (algoType s) (algoArgs s) (algoRequirements s) (algoReceived s)
    (result_ s) e (resultsConsumed s) (ociClient s).
Definition setResult (r : list byte) (s : agentService) : agentService :=
  mkService (computation s) (algoType s) (algoArgs s) (algoRequirements s) (algoReceived s)
    r (runError s) (resultsConsumed s) (ociClient s).
Definition setConsumed (s : agentService) : agentService :=
  mkService (computation s) (algoType s) (algoArgs s) (algoRequirements s) (algoReceived s)
    (result_ s) (runError s) true (ociClient s).
(** What [StopComputation] leaves. *)
Definition clearService (s : agentService) : agentService :=
  mkService zeroComputation "" [] [] false [] None false (ociClient s).

Section service.
Context `{OS, ArchiveLib, OciLib, AgentEnv}.

Definition newService (skopeo : result error SkopeoClient) : agentService :=
  mkService zeroComputation "" [] [] false [] None false
    (IfacePtr (match skopeo with Ok s => Some s | Err _ => None end)).

Definition publishEvent (status : string) (state : AgentState) : st astate (option error) :=
  fun a => ignore (os (perform (AEvent (cmp_ID (computation (a_svc a))) (stateString state) status))) a.

(** ** Data set paths *)

Definition datasetFilePath (filename : string) : st astate (result error string) :=
  let name := TrimSpace filename in
  if bool_decide (name = "") then lift (Err ErrUnsafeDatasetFilename)
  else
    let cleanName := Clean name in
    if negb (bool_decide (cleanName = name)) || bool_decide (cleanName = ".") || IsAbs cleanName
       || negb (bool_decide (cleanName = Base cleanName))
    then lift (Err ErrUnsafeDatasetFilename)
    else
      let! root := (fun a => (Abs (os_getwd (a_h a)) DatasetsDir, a)) in
      let target := Join [root; cleanName] in
      let! rel := lift (Rel root target) in
      if bool_decide (rel = ".") || HasPrefix rel "../" || bool_decide (rel = "..") || IsAbs rel
      then lift (Err ErrUnsafeDatasetFilename)
      else lift (Ok target).

(** ** Remote resources *)

Record DecryptedResource := mkDecrypted {
  dr_Data : list byte; dr_Requirements : list byte; dr_SourceDir : string }.

(** [strings.ReplaceAll(s, ":", "_")] *)
Fixpoint replaceColons (s : string) : string :=
  match s with
  | EmptyString => EmptyString
  | String c t => String (if bool_decide (c = ":"%char) then "_"%char else c) (replaceColons t)
  end.

(** The methods of the interface value.  A method of a nil pointer checks its arguments and
    makes the directory, and then dereferences the pointer. *)
Definition ociPull (source : Oci.ResourceSource) (destDir : string) : st astate (result error unit) :=
  fun a => match ociClient (a_svc a) with
           | IfacePtr (Some s) => os (PullAndDecrypt s source destDir) a
           | _ => (if bool_decide (rs_URI source = "") then lift (Err (ErrNew "oci source URI is empty"))
                   else if bool_decide (destDir = "")
                   then lift (Err (ErrNew "oci destination directory is empty"))
                   else guard! os (wrapping "failed to create destination directory"
                                     (perform (AMkdirAll destDir))) in
                        panic (Ok tt)) a
           end.

Definition ociToDockerArchive (ociDir destFile : string) : st astate (result error unit) :=
  fun a => match ociClient (a_svc a) with
           | IfacePtr (Some s) => os (ToDockerArchive s ociDir destFile) a
           | _ => (if bool_decide (ociDir = "") then lift (Err (ErrNew "oci directory is empty"))
                   else if bool_decide (destFile = "")
                   then lift (Err (ErrNew "docker archive destination is empty"))
                   else panic (Ok tt)) a
           end.

Definition mapErr {S A} (msg : string) (m : st S (result error A)) : st S (result error A) :=
  fun s => let '(r, s') := m s in (wrapRes msg r, s').

(** The files to hash, with the paths of the algorithm and of its requirements. *)
Definition extractResource (resourceType destDir extractDir : string)
    : st astate (result error (list string * string * string)) :=
  if bool_decide (resourceType = "algorithm") then
    let! ty := getSvc (fun s => Ok (al_AlgoType (cmp_Algorithm (computation s)))) in
    if bool_decide (ty = AlgoTypeDocker) then
      let algorithmPath := Join [extractDir; "image.tar"] in
      guard! wrapping "failed to create extract directory" (os (perform (AMkdirAll extractDir))) in
      let! _ := mapErr "failed to convert OCI image to Docker archive"
                  (ociToDockerArchive destDir algorithmPath) in
      lift (Ok ([algorithmPath], algorithmPath, ""))
    else
      let! p := mapErr "failed to extract algorithm from OCI image"
                  (os (ExtractAlgorithm destDir extractDir ty)) in
      lift (Ok ([fst p], fst p, snd p))
  else
    let! files := mapErr "failed to extract dataset from OCI image"
                    (os (ExtractDataset destDir extractDir)) in
    match files with
    | [] => lift (Err (ErrNew "failed to extract dataset from OCI image"))
    | f :: _ => lift (Ok (files, f, ""))
    end.

Definition readRequirements (resourceType algorithmPath requirementsPath : string)
    : st astate (result error (list byte)) :=
  if negb (bool_decide (resourceType = "algorithm")) then lift (Ok [])
  else
    let p := if bool_decide (requirementsPath = "")
             then Join [Dir algorithmPath; "requirements.txt"] else requirementsPath in
    fun a => (match os_read (a_h a) p with Ok d => Ok d | Err _ => Ok [] end, a).

Definition downloadAndDecryptOCIImage (source : ResourceSource) (resourceType : string)
    : st astate (result error DecryptedResource) :=
  let! isNil := getSvc (fun s => Ok (match ociClient s with IfaceNil => true | _ => false end)) in
  if isNil : bool then lift (Err (ErrNew "OCI client not initialized"))
  else
    let ociSource := mkResourceSource "oci-image" (src_URL source) (src_Encrypted source)
                       (src_KBSResourcePath source) in
    let sanitizedName := replaceColons (Base (src_URL source)) in
    let destDir := Join [tempDir; "agents-secure-binding-oci"; "images"; sanitizedName] in
    let! _ := mapErr "failed to pull and decrypt OCI image" (ociPull ociSource destDir) in
    let extractDir := Join [tempDir; "agents-secure-binding-oci"; "extracted"; sanitizedName] in
    let! x := extractResource resourceType destDir extractDir in
    let '(files, algorithmPath, requirementsPath) := x in
    let hashPath := match files with [f] => f | _ => extractDir end in
    let! d := mapErr "failed to calculate resource digest" (os (Digest hashPath)) in
    let! req := readRequirements resourceType algorithmPath requirementsPath in
    lift (Ok (mkDecrypted (fst d) req extractDir)).

Definition downloadAndDecryptResource (source : ResourceSource) (resourceType : string)
    : st astate (result error DecryptedResource) :=
  let sourceType := src_Type source in
  if bool_decide (sourceType = "") then
    if HasPrefix (src_URL source) "docker://" || HasPrefix (src_URL source) "oci:"
    then downloadAndDecryptOCIImage source resourceType
    else lift (Err (ErrNew "unsupported source URL format"))
  else if bool_decide (sourceType = "oci-image") then downloadAndDecryptOCIImage source resourceType
  else lift (Err (ErrNew "unsupported source type")).

(** ** Files of the computation *)

(** [os.Create], [Write] and [Close]; a failed write of the upload handlers leaves the file
    open ([closeOnErr] is false there). *)
Definition writeFile (closeOnErr : bool) (path : string) (data : list byte) (chmod : option Z)
    : st astate (result error unit) :=
  let onErr := if closeOnErr then ignore (os (perform (AClose path))) else lift None in
  let failing (msg : string) (m : st astate (option error)) : st astate (option error) :=
    fun a => match m a with
             | (None, a) => (None, a)
             | (Some e, a) => (Some (ErrWrap msg e), snd (onErr a))
             end in
  guard! wrapping "error creating file" (os (perform (AOpenTrunc path 438))) in
  guard! failing "error writing to file" (os (perform (AWrite path data))) in
  guard! match chmod with
         | None => lift None
         | Some m => failing "error changing file permissions" (os (perform (AChmod path m)))
         end in
  guard! wrapping "error closing file" (os (perform (AClose path))) in
  lift (Ok tt).

(** A data set with the hash of the manifest goes into the data set directory. *)
Definition storeDataset (closeOnErr decompress : bool) (filename : string) (data : list byte)
    : st astate (result error unit) :=
  if decompress then mapErr "error decompressing dataset" (os (UnzipFromMemory data DatasetsDir))
  else
    let! path := datasetFilePath filename in
    writeFile closeOnErr path data None.

(** ** Operations *)

Definition bodyResult (A : Type) : Type := result error A * option AgentEvent.

(** [InitComputation] after the state check: the fields; the transitions it adds and the
    event it sends after unlocking are in [AgentRuns]. *)
Definition initBody (cmp : Computation) : st astate (result error unit) :=
  guard! modify (setComputation cmp) in lift (Ok tt).

Definition algorithmIsRemote (s : agentService) : option ResourceSource :=
  if kbs_Enabled (cmp_KBS (computation s)) then al_Source (cmp_Algorithm (computation s)) else None.

Definition orBin (ty : string) : string := if bool_decide (ty = "") then AlgoTypeBin else ty.

(** The algorithm goes into the file [algo] of the working directory. *)
Definition writeAlgorithm (closeOnErr : bool) (data : list byte) (cwd : string)
    : st astate (result error unit) :=
  writeFile closeOnErr (Join [cwd; "algo"]) data (Some algoFilePermission).

Definition getwd : st astate (result error string) := os Getwd.

(** The algorithm: downloaded if the manifest names a remote source, else the upload. *)
Definition algoInput (algo : Algorithm) : st astate (result error (list byte)) :=
  let! remote := getSvc (fun s => Ok (algorithmIsRemote s)) in
  match remote with
  | Some source =>
      let! res := mapErr "failed to download and decrypt algorithm"
                    (downloadAndDecryptResource source "algorithm") in
      guard! modify (setRequirements (dr_Requirements res)) in
      lift (Ok (dr_Data res))
  | None => lift (Ok (al_Algorithm algo))
  end.

(** [Algo] under the lock. *)
Definition algoSteps (c : context) (algo : Algorithm) : st astate (result error unit) :=
  let! received := getSvc (fun s => Ok (algoReceived s)) in
  if received : bool then lift (Err ErrAllManifestItemsReceived)
  else
    let! algoData := algoInput algo in
    let! want := getSvc (fun s => Ok (al_Hash (cmp_Algorithm (computation s)))) in
    if negb (bool_decide (sha3Sum256 algoData = want)) then lift (Err ErrHashMismatch)
    else
      let! cwd := mapErr "error getting current directory" getwd in
      let! _ := writeAlgorithm false algoData cwd in
      guard! modify (setAlgoType (orBin (AlgorithmTypeFromContext c)) (AlgorithmArgsFromContext c)) in
      guard! modify (setRequirements (al_Requirements algo)) in
      guard! modify setAlgoReceived in
      guard! wrapping "error creating datasets directory" (os (perform (AMkdir DatasetsDir))) in
      lift (Ok tt).

Definition algoBody (c : context) (algo : Algorithm) : st astate (bodyResult unit) := fun a =>
  match algoSteps c algo a with
  | (Ok _, a) => ((Ok tt, if algoReceived (a_svc a) then Some AlgorithmReceived else None), a)
  | (Err e, a) => ((Err e, None), a)
  end.

Definition dataIsRemote (kbs : bool) (d : Dataset) : option ResourceSource :=
  if kbs then ds_Source d else None.

(** The first remote data set of the manifest. *)
Fixpoint firstRemote (kbs : bool) (ds : list Dataset) : option (Dataset * ResourceSource) :=
  match ds with
  | [] => None
  | d :: t => match dataIsRemote kbs d with Some s => Some (d, s) | None => firstRemote kbs t end
  end.

(** The first data set with this hash, with its index. *)
Fixpoint findHash (hash : list byte) (ds : list Dataset) (i : nat) : option (nat * Dataset) :=
  match ds with
  | [] => None
  | d :: t => if bool_decide (hash = ds_Hash d) then Some (i, d) else findHash hash t (S i)
  end.

Definition kbsOn (s : agentService) : bool := kbs_Enabled (cmp_KBS (computation s)).
Definition pending (s : agentService) : list Dataset := cmp_Datasets (computation s).

(** The data and its file name: those of the first remote data set, if there is one. *)
Definition dataInput (kbs : bool) (ds : list Dataset) (dataset : Dataset)
    : st astate (result error (list byte * string)) :=
  match firstRemote kbs ds with
  | Some (d, source) =>
      let! res := mapErr "failed to download and decrypt dataset"
                    (downloadAndDecryptResource source "dataset") in
      lift (Ok (dr_Data res, ds_Filename d))
  | None => lift (Ok (ds_Dataset dataset, ds_Filename dataset))
  end.

(** [Data] under the lock. *)
Definition dataSteps (c : context) (dataset : Dataset) : st astate (result error unit) :=
  let! ds := getSvc (fun s => Ok (pending s)) in
  let! kbs := getSvc (fun s => Ok (kbsOn s)) in
  if bool_decide (ds = []) then lift (Err ErrAllManifestItemsReceived)
  else
    let! input := dataInput kbs ds dataset in
    let '(datasetData, datasetFilename) := input in
    match findHash (sha3Sum256 datasetData) ds 0 with
    | None => lift (Err ErrUndeclaredDataset)
    | Some (i, d) =>
        if negb (bool_decide (ds_Filename d = "")) && negb (bool_decide (ds_Filename d = datasetFilename))
        then lift (Err ErrFileNameMismatch)
        else
          let! _ := storeDataset false (DecompressFromContext c) datasetFilename datasetData in
          guard! modify (setDatasets (delete i ds)) in
          lift (Ok tt)
    end.

Definition dataBody (c : context) (dataset : Dataset) : st astate (bodyResult unit) := fun a =>
  match dataSteps c dataset a with
  | (Ok _, a) => ((Ok tt, if bool_decide (pending (a_svc a) = []) then Some DataReceived else None), a)
  | (Err e, a) => ((Err e, None), a)
  end.

(** [Result] under the lock, with the state it read before. *)
Definition resultBody (currentState : AgentState) (index : Z) : st astate (bodyResult (list byte)) := fun a =>
  let s := a_svc a in
  if (index <? 0) || (len (cmp_ResultConsumers (computation s)) <=? index)
  then ((Err ErrUndeclaredConsumer, None), a)
  else
    let r := match runError s with Some e => Err e | None => Ok (result_ s) end in
    if negb (resultsConsumed s) && bool_decide (currentState = ConsumingResults)
    then ((r, Some ResultsConsumed), snd (modify setConsumed a))
    else ((r, None), a).

Definition resultReady (s : AgentState) : bool :=
  bool_decide (s = ConsumingResults) || bool_decide (s = Complete) || bool_decide (s = Failed).

Definition Attestation (reportData nonce : list byte) (attType : Z) : result error (list byte) :=
  match getAttestation reportData nonce attType with
  | Ok q => Ok q
  | Err e => Err (ErrJoin [ErrAttestationFailed; e])
  end.

Definition AzureAttestationToken (nonce : list byte) : result error (list byte) := getAzureToken nonce.

Definition ImaMeasurementsFilePath : string :=
  "/sys/kernel/security/integrity/ima/ascii_runtime_measurements".

Definition IMAMeasurements (h : list act) : result error (list byte * list byte) :=
  let* data := wrapRes "error reading Linux IMA measurements file" (os_read h ImaMeasurementsFilePath) in
  let* pcr10 := wrapRes "error reading TPM PCR #10" (getPCRSHA1Value 10) in
  Ok (data, pcr10).

(** ** Actions of the states *)

(** An action that fails stores the error and sends [RunFailed]. *)
Definition actionBody (m : st astate (result error (option AgentEvent))) : st astate (option AgentEvent) :=
  fun a => match m a with
           | (Ok ev, a) => (ev, a)
           | (Err e, a) => (Some RunFailed, snd (modify (setRunError (Some e)) a))
           end.

Definition copyDirectory (src dst : string) : st astate (option error) :=
  wrapping "error copying algorithm directory"
    (os (perform (AExec "" ["cp"; "-r"; src +:+ "/."; dst]))).

(** [downloadAlgorithmIfRemote] under the lock. *)
Definition downloadAlgorithm : st astate (option AgentEvent) := actionBody (
  let! remote := getSvc (fun s => Ok (algorithmIsRemote s)) in
  match remote with
  | None => lift (Ok None)
  | Some source =>
      let! res := mapErr "failed to download and decrypt algorithm"
                    (downloadAndDecryptResource source "algorithm") in
      let! want := getSvc (fun s => Ok (al_Hash (cmp_Algorithm (computation s)))) in
      if negb (bool_decide (sha3Sum256 (dr_Data res) = want))
      then lift (Err (ErrNew "algorithm hash mismatch"))
      else
        let! cwd := mapErr "error getting current directory" getwd in
        guard! (if bool_decide (dr_SourceDir res = "") then lift None
                else copyDirectory (dr_SourceDir res) cwd) in
        let! _ := writeAlgorithm true (dr_Data res) cwd in
        guard! modify setAlgoReceived in
        guard! modify (setRequirements (dr_Requirements res)) in
        guard! wrapping "error creating datasets directory" (os (perform (AMkdir DatasetsDir))) in
        let! alg := getSvc (fun s => Ok (cmp_Algorithm (computation s))) in
        guard! modify (setAlgoType (orBin (al_AlgoType alg)) (al_AlgoArgs alg)) in
        lift (Ok (Some AlgorithmReceived))
  end).

(** The loop of [downloadDatasetsIfRemote] over the indices below [n], downwards. *)
Fixpoint downloadBelow (n : nat) : st astate (result error unit) :=
  match n with
  | O => lift (Ok tt)
  | S i =>
      let! ds := getSvc (fun s => Ok (pending s)) in
      let! kbs := getSvc (fun s => Ok (kbsOn s)) in
      match ds !! i with
      | None => lift (Ok tt)
      | Some d =>
          let! _ :=
            match dataIsRemote kbs d with
            | None => lift (Ok tt)
            | Some source =>
                let! res := mapErr "failed to download and decrypt dataset"
                              (downloadAndDecryptResource source "dataset") in
                if negb (bool_decide (sha3Sum256 (dr_Data res) = ds_Hash d))
                then lift (Err (ErrNew "dataset hash mismatch"))
                else
                  let! _ := storeDataset true (ds_Decompress d) (ds_Filename d) (dr_Data res) in
                  guard! modify (setDatasets (delete i ds)) in
                  lift (Ok tt)
            end in
          downloadBelow i
      end
  end.

(** [downloadDatasetsIfRemote] under the lock. *)
Definition downloadDatasets : st astate (option AgentEvent) := actionBody (
  let! ds := getSvc (fun s => Ok (pending s)) in
  let! kbs := getSvc (fun s => Ok (kbsOn s)) in
  match firstRemote kbs ds with
  | None => lift (Ok None)
  | Some _ =>
      let! _ := downloadBelow (length ds) in
      let! rest := getSvc (fun s => Ok (pending s)) in
      lift (Ok (if bool_decide (rest = []) then Some DataReceived else None))
  end).

(** ** The run *)

Record RunRequest := mkRunRequest {
  rq_ComputationId : string; rq_AlgoType : string; rq_Algorithm : list byte;
  rq_Requirements : list byte; rq_Args : list string }.

(** [os.Getwd] with its error dropped. *)
Definition algoFile (h : list act) : string :=
  Join [match os_getwd h with Ok d => d | Err _ => "" end; "algo"].

(** Stores the error and publishes the failure. *)
Definition runFailed (e : error) : st astate (option error) :=
  fun a => publishEvent (stateString Failed) Running (snd (modify (setRunError (Some e)) a)).

(** [runComputation] up to the call of the runner: the request, if it gets there. *)
Definition runStart : st astate (option RunRequest) := fun a =>
  let a := snd (publishEvent (statusString Starting) Running a) in
  let path := algoFile (a_h a) in
  match os (perform (AMkdir ResultsDir)) a with
  | (Some e, a) => (None, snd (runFailed (ErrWrap "error creating results directory" e) a))
  | (None, a) =>
      match os_read (a_h a) path with
      | Err e => (None, snd (runFailed (ErrWrap "failed to read algo file" e) a))
      | Ok algoBytes =>
          let a := snd (publishEvent (statusString InProgress) Running a) in
          let s := a_svc a in
          (Some (mkRunRequest (cmp_ID (computation s)) (algoType s) algoBytes (algoRequirements s)
                   (algoArgs s)), a)
      end
  end.

(** The answer of the runner: an error, or a response with its [Error] field.  Says whether
    the run failed, in which case the lock is taken to store the error. *)
Definition runFinish (resp : result error string) : st astate bool := fun a =>
  match resp with
  | Err e => (true, snd (runFailed e a))
  | Ok msg =>
      if negb (bool_decide (msg = "")) then (true, snd (runFailed (ErrNew msg) a))
      else match os (ZipDirectoryToMemory ResultsDir) a with
           | (Err e, a) => (true, snd (runFailed e a))
           | (Ok results, a) =>
               let a := snd (publishEvent (statusString Completed) Running a) in
               (false, snd (modify (setResult results) a))
           end
  end.

(** The deferred removal; [path] was computed before the run. *)
Definition runCleanup (path : string) : st astate unit := fun a =>
  let a := snd (os (perform (ARemoveAll ResultsDir)) a) in
  let a := snd (os (perform (ARemoveAll DatasetsDir)) a) in
  (tt, snd (os (perform (ARemove path)) a)).

Definition runEvent (s : agentService) : AgentEvent :=
  match runError s with Some _ => RunFailed | None => RunComplete end.

(** ** Stop *)

(** [StopComputation] up to the reset of the machine, besides the cancellation. *)
Definition stopSteps : st astate (result error unit) := fun a =>
  let id := cmp_ID (computation (a_svc a)) in
  (guard! ignore (os (perform (AEvent id "Stopped" "Stopped"))) in
   guard! ignore (os (perform (ARunnerStop id))) in
   guard! wrapping "error removing datasets directory" (os (perform (ARemoveAll DatasetsDir))) in
   guard! wrapping "error removing results directory" (os (perform (ARemoveAll ResultsDir))) in
   guard! ignore (os (perform (ARemove "algo"))) in
   guard! modify clearService in
   lift (Ok tt)) a.
End service.
