(* ===== verification/AgentBodies.v ===== *)
(** * What the operations of the agent guarantee

    Theorems on the bodies of [AgentService]: which files they write, that what they write
    has the hash of the manifest, what they change of the service and what they send.
    [keeps R m] carries a relation through a body the way [emits] carries a predicate on
    effects through a call of the system. *)

From stdpp Require Import base gmap list strings.
From Stdlib Require Import ZArith Lia Strings.Byte Ascii.
From S2P Require Import Prelude GoStrings Errors GoPath GoOS Sha2 Archive Oci AgentService.

(** ** What a body may change *)

(** [keeps R m]: every run of [m] relates its first and last state by [R]. *)
Definition keeps {A} (R : astate -> astate -> Prop) (m : st astate A) : Prop :=
  forall a, R a (snd (m a)).

Section keeps.
Context (R : astate -> astate -> Prop) `{!PreOrder R}.

Lemma keeps_lift {A} (x : A) : keeps R (lift x).
Proof. intros a. done. Qed.

Lemma keeps_getSvc {A} (f : agentService -> A) : keeps R (getSvc f).
Proof. intros a. done. Qed.

Lemma keeps_seq {A B} (m : st astate A) (f : A -> st astate B) :
  keeps R m -> (forall x, keeps R (f x)) -> keeps R (fun a => let '(x, a') := m a in f x a').
Proof. intros Hm Hf a. specialize (Hm a). destruct (m a) as [x a']. simpl in *. etrans; [done | apply Hf]. Qed.

Lemma keeps_bindOk {A B} (m : st astate (result error A)) (k : A -> st astate (result error B)) :
  keeps R m -> (forall x, keeps R (k x)) -> keeps R (bindOk m k).
Proof.
  intros Hm Hk. apply (keeps_seq m (fun r a => match r with Ok x => k x a | Err e => (Err e, a) end)); [done|].
  intros [x|e] a; [apply Hk | done].
Qed.

Lemma keeps_bindNil {B} (m : st astate (option error)) (k : st astate (result error B)) :
  keeps R m -> keeps R k -> keeps R (bindNil m k).
Proof.
  intros Hm Hk. apply (keeps_seq m (fun r a => match r with None => k a | Some e => (Err e, a) end)); [done|].
  intros [e|] a; [done | apply Hk].
Qed.

Lemma keeps_wrapping msg (m : st astate (option error)) : keeps R m -> keeps R (wrapping msg m).
Proof. intros Hm a. specialize (Hm a). unfold wrapping. by destruct (m a). Qed.

Lemma keeps_mapErr {A} msg (m : st astate (result error A)) : keeps R m -> keeps R (mapErr msg m).
Proof. intros Hm a. specialize (Hm a). unfold mapErr. by destruct (m a). Qed.

Lemma keeps_ignore {A} (m : st astate A) : keeps R m -> keeps R (ignore m).
Proof. intros Hm a. apply Hm. Qed.

Lemma keeps_if {A} (b : bool) (m n : st astate A) : keeps R m -> keeps R n -> keeps R (if b then m else n).
Proof. by destruct b. Qed.

Lemma keeps_option {A B} (o : option B) (m : B -> st astate A) (n : st astate A) :
  (forall x, keeps R (m x)) -> keeps R n -> keeps R (match o with Some x => m x | None => n end).
Proof. destruct o; auto. Qed.

Lemma keeps_list {A B} (o : list B) (m : B -> list B -> st astate A) (n : st astate A) :
  (forall x l, keeps R (m x l)) -> keeps R n -> keeps R (match o with x :: l => m x l | [] => n end).
Proof. destruct o; auto. Qed.

Lemma keeps_pair {A B C} (p : B * C) (m : B -> C -> st astate A) :
  (forall x y, keeps R (m x y)) -> keeps R (let '(x, y) := p in m x y).
Proof. destruct p; auto. Qed.
End keeps.

Create HintDb keeps.
#[export] Hint Resolve keeps_lift keeps_getSvc keeps_bindOk keeps_bindNil keeps_wrapping keeps_mapErr
  keeps_ignore keeps_if keeps_option keeps_list keeps_pair : keeps.
#[export] Hint Extern 1 (PreOrder _) => apply _ : keeps.

(** Walks over a body and leaves the calls for the hints. *)
Ltac keeps_walk :=
  cbv zeta;
  repeat match goal with
  | |- keeps _ (bindOk _ _) => apply keeps_bindOk; [apply _ | | intro]
  | |- keeps _ (bindNil _ _) => apply keeps_bindNil; [apply _ | |]
  | |- keeps _ (wrapping _ _) => apply keeps_wrapping
  | |- keeps _ (mapErr _ _) => apply keeps_mapErr
  | |- keeps _ (ignore _) => apply keeps_ignore
  | |- keeps _ (lift _) => apply keeps_lift; apply _
  | |- keeps _ (getSvc _) => apply keeps_getSvc; apply _
  | |- keeps _ (if ?b then _ else _) => destruct b
  | |- keeps _ (match ?o with _ => _ end) => destruct o
  end.

(** The service and the panic flag are kept; the effects satisfy [P]. *)
Definition effectsOnly (P : act -> Prop) (a a' : astate) : Prop :=
  a_svc a' = a_svc a /\ a_panic a' = a_panic a /\ exists t, a_h a' = a_h a ++ t /\ Forall P t.

#[export] Instance effectsOnly_preorder P : PreOrder (effectsOnly P).
Proof.
  split.
  - intros a. split; [done|]. split; [done|]. exists []. by rewrite app_nil_r.
  - intros a b c (E1 & P1 & t & H1 & F1) (E2 & P2 & u & H2 & F2). split; [congruence|]. split; [congruence|].
    exists (t ++ u). rewrite H2, H1, app_assoc. split; [done|]. by apply Forall_app.
Qed.

Lemma effectsOnly_os {A} P (m : st (list act) A) : emits P m -> keeps (effectsOnly P) (os m).
Proof.
  intros Hm a. destruct (Hm (a_h a)) as (t & Et & Ht). unfold os. destruct (m (a_h a)) as [x h'].
  simpl in *. split; [done|]. split; [done|]. by exists t.
Qed.
#[export] Hint Resolve effectsOnly_os : keeps.

(** ** Data set paths *)

Lemma elem_of_rev {A} (x : A) l : x ∈ rev l <-> x ∈ l.
Proof. by rewrite !list_elem_of_In, <- in_rev. Qed.

Lemma dropEmpty_in l e t : dropEmpty l = e :: t -> e ∈ l /\ e <> "".
Proof.
  induction l as [|x l IH]; simpl; [done|]. case_bool_decide as Hx.
  - intros E. apply IH in E as [? ?]. split; [by right | done].
  - intros [= -> ->]. split; [by left | done].
Qed.

Lemma Base_name s : s <> "" -> IsAbs s = false -> noSlash (Base s) = true.
Proof.
  intros Hs Ha. unfold Base. rewrite bool_decide_eq_false_2 by done.
  destruct (dropEmpty (rev (splitSlash s))) as [|e l] eqn:E.
  - exfalso. destruct s as [|c s]; [done|]. simpl in Ha, E. apply bool_decide_eq_false in Ha.
    rewrite bool_decide_eq_false_2 in E by done. destruct (splitSlash_cons s) as (x & t & Es). rewrite Es in E.
    assert (Hin : String c x ∈ rev (String c x :: t)) by (apply elem_of_rev; by left).
    revert E Hin. generalize (rev (String c x :: t)) as l. induction l as [|y l IH]; simpl; [intros _ ?%elem_of_nil; done|].
    case_bool_decide; [subst y|done]. intros E [?|?]%elem_of_cons; [done | by apply IH].
  - apply dropEmpty_in in E as [E _]. rewrite elem_of_rev in E.
    pose proof (splitSlash_noSlash s) as HF. rewrite Forall_forall in HF. by apply HF.
Qed.

(** The working directory the calls of a body see. *)
Definition datasetsRoot `{OS} (h : list act) : result error string := Abs (os_getwd h) DatasetsDir.

Section paths.
Context `{!OS, !OSLaws}.

Lemma single_name s :
  s <> "" -> Clean s = s -> s <> "." -> IsAbs s = false -> s = Base s -> isName s \/ s = "..".
Proof.
  intros Hs Hc Hd Ha Hb. destruct (decide (s = "..")); [by right|]. left.
  split_and!; try done. rewrite Hb. by apply Base_name.
Qed.

Lemma Base_single s : isName s -> Base s = s.
Proof.
  intros (He & _ & _ & Hs). unfold Base. rewrite bool_decide_eq_false_2 by done.
  rewrite splitSlash_single by done. simpl. by rewrite bool_decide_eq_false_2.
Qed.

Lemma Clean_single s : isName s -> Clean s = s.
Proof.
  intros Hs. pose proof (Clean_render false 0 [s]) as E. simpl in E. apply E; [by constructor | done].
Qed.

(** Joining a double dot does not stay strictly inside. *)
Lemma dotdot_outside R : Forall isName R ->
  Rel (render true R) (Join [render true R; ".."]) = Ok "." \/
  forall rel, Rel (render true R) (Join [render true R; ".."]) = Ok rel -> rel = ".." \/ HasPrefix rel "../" = true.
Proof.
  intros HR. rewrite Join_abs by done. change (splitSlash "..") with [".."].
  destruct R as [|e R _] using rev_ind; [by left|]. right. intros rel.
  pose proof HR as [HR' [(_ & _ & Hd & _) _]%Forall_cons]%Forall_app.
  replace (rev (foldl (cleanStep true) (rev (R ++ [e])) [".."])) with R.
  2:{ rewrite rev_app_distr. simpl. unfold cleanStep. simpl.
      rewrite bool_decide_eq_false_2 by done. by rewrite rev_involutive. }
  intros Hrel. destruct (decide (rel = "..")) as [|Hn]; [by left|]. right.
  destruct (HasPrefix rel "../") eqn:Hp; [done|].
  destruct (Rel_inside _ _ _ HR HR' Hrel Hn Hp) as (names & E & _).
  apply (f_equal length) in E. rewrite !length_app in E. simpl in E. lia.
Qed.

Lemma datasetsRoot_shape h root : datasetsRoot h = Ok root -> exists R, root = render true R /\ Forall isName R.
Proof. apply Abs_shape. Qed.

Lemma datasetFilePath_ok f a p a' :
  datasetFilePath f a = (Ok p, a') -> a' = a /\ isName (TrimSpace f) /\
  exists R, datasetsRoot (a_h a) = Ok (render true R) /\ Forall isName R /\
    p = render true (R ++ [TrimSpace f]).
Proof.
  unfold datasetFilePath. case_bool_decide as Hempty; [done|].
  destruct (negb _ || _ || _ || _) eqn:Hc; [done|]. bool_to_prop.
  unfold bindOk. fold (datasetsRoot (a_h a)). destruct (datasetsRoot (a_h a)) as [root|e] eqn:Er; [|done].
  destruct (datasetsRoot_shape _ _ Er) as (R & -> & HR). set (n := TrimSpace f) in *.
  assert (Hcn : Clean n = n) by done. rewrite Hcn in *. unfold lift.
  destruct (Rel _ _) as [rel|] eqn:Erel; [|done]. destruct (bool_decide (rel = ".") || _ || _ || _) eqn:Hrel; [done|].
  bool_to_prop. intros [= <- <-]. split; [done|].
  destruct (single_name n) as [Hn| ->]; try done.
  - split; [done|]. exists R. split; [done|]. split; [done|].
    apply (Join_names R [n]); [done | by constructor | done].
  - destruct (dotdot_outside R HR) as [E|E]; [congruence|]. destruct (E _ Erel); congruence.
Qed.

(** A data set name is accepted exactly when it is, without surrounding space, one
    ordinary path element; the path is then that element in the data set directory. *)
Theorem datasetFilePath_spec f a p a' :
  datasetFilePath f a = (Ok p, a') <->
  a' = a /\ isName (TrimSpace f) /\
  exists R, datasetsRoot (a_h a) = Ok (render true R) /\ Forall isName R /\
    p = render true (R ++ [TrimSpace f]).
Proof.
  split; [apply datasetFilePath_ok|]. intros (-> & Hn & R & Er & HR & ->).
  unfold datasetFilePath. set (n := TrimSpace f) in *.
  pose proof Hn as (He & Hd & Hdd & Hs). rewrite bool_decide_eq_false_2, Clean_single, Base_single by done.
  rewrite bool_decide_eq_true_2, bool_decide_eq_false_2, IsAbs_noSlash by done. cbn [negb orb].
  unfold bindOk. fold (datasetsRoot (a_h a)). rewrite Er. unfold lift.
  assert (EJ : Join [render true R; n] = render true (R ++ [n]))
    by (apply (Join_names R [n]); [done | by constructor | done]).
  rewrite EJ, Rel_names by (try done; by constructor).
  destruct (names_down [n]) as [_ Hp]; [done | by constructor |]. simpl joinSlash in *.
  cbv beta iota. change (joinSlash [n]) with n. rewrite Hp, !bool_decide_eq_false_2, IsAbs_noSlash by done. done.
Qed.
End paths.

(** ** Downloads change nothing of the service *)

Notation anyAct := (fun _ : act => True).

Section any.
Context `{!OS, !ArchiveLib, !OciLib, !AgentEnv}.

Lemma emits_perform_any a : emits anyAct (perform a).
Proof. by apply emits_perform. Qed.

Lemma emits_zip_any src : emits anyAct (ZipDirectoryToMemory src).
Proof.
  assert (Hf : forall s m f, emits anyAct (addZipFile s m f)) by (intros; unfold addZipFile; eauto 10 with emits).
  assert (Hfs : forall s m fs, emits anyAct (addZipFiles s m fs)).
  { intros s m fs. induction fs; simpl; eauto with emits. }
  unfold ZipDirectoryToMemory, writeZip, zipSourceFiles. eauto 10 with emits.
Qed.

Lemma emits_unzip_any data dir : emits anyAct (UnzipFromMemory data dir).
Proof.
  assert (He : forall r f, emits anyAct (unzipEntry r f)).
  { intros. unfold unzipEntry, extractZipFile. pose proof emits_perform_any. eauto 20 with emits. }
  assert (Hes : forall r fs, emits anyAct (unzipEntries r fs)).
  { intros r fs. induction fs; simpl; eauto with emits. }
  unfold UnzipFromMemory. apply emits_if; [apply emits_lift|]. apply emits_bindOk; [by apply emits_quiet|].
  pose proof emits_perform_any. eauto 10 with emits.
Qed.

Lemma emits_Digest_any p : emits anyAct (Digest p).
Proof. unfold Digest. pose proof emits_zip_any. eauto 10 with emits. Qed.

Lemma emits_skopeo_any s prefix args : emits anyAct (runSkopeo s prefix args).
Proof.
  unfold runSkopeo. apply emits_bindOk; [|eauto with emits]. intros h. eexists. split; [reflexivity|].
  by repeat constructor.
Qed.

Lemma emits_pull_any s src d : emits anyAct (PullAndDecrypt s src d).
Proof. unfold PullAndDecrypt. pose proof emits_perform_any. pose proof emits_skopeo_any. eauto 10 with emits. Qed.

Lemma emits_archive_any s d f : emits anyAct (ToDockerArchive s d f).
Proof. unfold ToDockerArchive. pose proof emits_skopeo_any. eauto 10 with emits. Qed.

Lemma emits_extract_any d e ty :
  emits anyAct (ExtractAlgorithm d e ty) /\ emits anyAct (ExtractDataset d e).
Proof.
  split; [apply emits_ExtractAlgorithm | apply emits_ExtractDataset]; intros; apply emits_writeEntry_any.
Qed.

(** The fields are kept and effects are added. *)
Definition sameSvc (a a' : astate) : Prop :=
  a_svc a' = a_svc a /\ exists t, a_h a' = a_h a ++ t.

#[export] Instance sameSvc_preorder : PreOrder sameSvc.
Proof.
  split.
  - intros a. split; [done|]. exists []. by rewrite app_nil_r.
  - intros a b c [E1 [t Ht]] [E2 [u Hu]]. split; [congruence|]. exists (t ++ u). by rewrite Hu, Ht, app_assoc.
Qed.

Lemma sameSvc_os {A} (m : st (list act) A) : emits anyAct m -> keeps sameSvc (os m).
Proof.
  intros Hm a. destruct (Hm (a_h a)) as (t & Et & _). unfold os. destruct (m (a_h a)) as [x h'].
  simpl in *. split; [done|]. by exists t.
Qed.

Lemma sameSvc_panic {A} (x : A) : keeps sameSvc (panic x).
Proof. intros a. split; [done|]. exists []. by rewrite app_nil_r. Qed.
End any.
#[export] Hint Resolve sameSvc_os sameSvc_panic emits_perform_any emits_zip_any emits_unzip_any
  emits_Digest_any emits_pull_any emits_archive_any : keeps.

Section downloads.
Context `{!OS, !ArchiveLib, !OciLib, !AgentEnv}.

Lemma sameSvc_ociPull src d : keeps sameSvc (ociPull src d).
Proof.
  intros a. unfold ociPull. destruct (ociClient (a_svc a)) as [|[s|]]; revert a;
    match goal with |- forall a, _ a (snd (?m a)) => change (keeps sameSvc m) end; eauto 10 with keeps emits.
Qed.
Lemma sameSvc_archive d f : keeps sameSvc (ociToDockerArchive d f).
Proof.
  intros a. unfold ociToDockerArchive. destruct (ociClient (a_svc a)) as [|[s|]]; revert a;
    match goal with |- forall a, _ a (snd (?m a)) => change (keeps sameSvc m) end; eauto 10 with keeps emits.
Qed.

Lemma sameSvc_extractResource ty d e : keeps sameSvc (extractResource ty d e).
Proof.
  pose proof sameSvc_archive. pose proof (fun t => proj1 (emits_extract_any d e t)).
  pose proof (proj2 (emits_extract_any d e "")).
  unfold extractResource. keeps_walk; eauto with keeps emits.
Qed.

Lemma sameSvc_readRequirements t p q : keeps sameSvc (readRequirements t p q).
Proof. unfold readRequirements. apply keeps_if; [eauto with keeps|]. intros a. apply (sameSvc_os (lift tt)), emits_lift. Qed.

Lemma sameSvc_downloadResource src ty : keeps sameSvc (downloadAndDecryptResource src ty).
Proof.
  assert (Hi : keeps sameSvc (downloadAndDecryptOCIImage src ty)).
  { pose proof sameSvc_ociPull. pose proof sameSvc_extractResource. pose proof sameSvc_readRequirements.
    unfold downloadAndDecryptOCIImage. keeps_walk; eauto with keeps emits. }
  unfold downloadAndDecryptResource. keeps_walk; eauto with keeps emits.
Qed.
End downloads.

(** ** Runs that succeed *)

Lemma bindOk_ok {S A B} (m : st S (result error A)) (k : A -> st S (result error B)) s y s' :
  bindOk m k s = (Ok y, s') -> exists x s1, m s = (Ok x, s1) /\ k x s1 = (Ok y, s').
Proof. unfold bindOk. destruct (m s) as [[x|e] s1]; [|done]. by exists x, s1. Qed.

Lemma bindNil_ok {S B} (m : st S (option error)) (k : st S (result error B)) s y s' :
  bindNil m k s = (Ok y, s') -> exists s1, m s = (None, s1) /\ k s1 = (Ok y, s').
Proof. unfold bindNil. destruct (m s) as [[e|] s1]; [done|]. by exists s1. Qed.

Lemma mapErr_ok {S A} msg (m : st S (result error A)) s y s' :
  mapErr msg m s = (Ok y, s') -> m s = (Ok y, s').
Proof. unfold mapErr. destruct (m s) as [[x|e] s1]; [|done]. by intros [= -> ->]. Qed.

Lemma wrapping_ok {S} msg (m : st S (option error)) s s' :
  wrapping msg m s = (None, s') -> m s = (None, s').
Proof. unfold wrapping. destruct (m s) as [[x|] s1]; [done|]. by intros [= ->]. Qed.

(** Takes a successful run apart, call by call. *)
Ltac ok_steps :=
  repeat match goal with
  | H : bindOk _ _ _ = (Ok _, _) |- _ =>
      let x := fresh "x" in let s := fresh "s" in let E := fresh "E" in
      apply bindOk_ok in H as (x & s & E & H)
  | H : bindNil _ _ _ = (Ok _, _) |- _ =>
      let s := fresh "s" in let E := fresh "E" in apply bindNil_ok in H as (s & E & H)
  | H : mapErr _ _ _ = (Ok _, _) |- _ => apply mapErr_ok in H
  | H : wrapping _ _ _ = (None, _) |- _ => apply wrapping_ok in H
  | H : lift _ _ = _ |- _ => unfold lift in H; simplify_eq
  | H : getSvc _ _ = _ |- _ => unfold getSvc in H; simplify_eq
  | H : modify _ _ = _ |- _ => unfold modify in H; simplify_eq
  end.

Lemma keeps_run {A} R (m : st astate A) a x a' : keeps R m -> m a = (x, a') -> R a a'.
Proof. intros Hm E. specialize (Hm a). by rewrite E in Hm. Qed.

Section writes.
Context `{!OS, !ArchiveLib, !OciLib, !AgentEnv}.

(** A file that was written without error. *)
Lemma writeFile_ok b path data chmod a a' :
  writeFile b path data chmod a = (Ok tt, a') ->
  a_svc a' = a_svc a /\ a_panic a' = a_panic a /\
  a_h a' = a_h a ++ [AOpenTrunc path 438; AWrite path data]
    ++ match chmod with Some m => [AChmod path m] | None => [] end ++ [AClose path].
Proof.
  unfold writeFile. cbv zeta. intros Hok. ok_steps.
  unfold os, perform in *. destruct (os_act _ (AWrite path data)); [done|]. simplify_eq. simpl in *.
  destruct chmod as [m|]; [|ok_steps; simpl; by rewrite <- !app_assoc].
  destruct (os_act _ (AChmod path m)); [done|]. simplify_eq. simpl. by rewrite <- !app_assoc.
Qed.

Lemma os_perform_ok act a o a' : os (perform act) a = (o, a') ->
  a' = mkAState (a_svc a) (a_h a ++ [act]) (a_panic a).
Proof. unfold os, perform. by intros [= _ <-]. Qed.

Lemma algoInput_ok algo a data a1 :
  algoInput algo a = (Ok data, a1) ->
  computation (a_svc a1) = computation (a_svc a) /\ algoReceived (a_svc a1) = algoReceived (a_svc a) /\
  (exists t, a_h a1 = a_h a ++ t) /\ (algorithmIsRemote (a_svc a) = None -> data = al_Algorithm algo).
Proof.
  unfold algoInput. intros E. ok_steps. destruct (algorithmIsRemote (a_svc s)) as [source|] eqn:Hr; ok_steps.
  - apply (keeps_run sameSvc) in E0 as [Es [t Et]]; [|apply sameSvc_downloadResource].
    simpl. rewrite Es. repeat split; try done. by exists t.
  - repeat split. exists []. by rewrite app_nil_r.
Qed.

(** An accepted algorithm has the hash of the manifest, is the uploaded one unless the
    manifest names a remote source, is written to the algorithm file of the working
    directory during the call, and is accepted once: the call marks it received and
    announces it. *)
Theorem algo_accepts c algo a ev a' :
  algoBody c algo a = ((Ok tt, ev), a') ->
  algoReceived (a_svc a) = false /\ algoReceived (a_svc a') = true /\ ev = Some AlgorithmReceived /\
  exists data cwd t, a_h a' = a_h a ++ t /\ AWrite (Join [cwd; "algo"]) data ∈ t /\
    sha3Sum256 data = al_Hash (cmp_Algorithm (computation (a_svc a))) /\
    (algorithmIsRemote (a_svc a) = None -> data = al_Algorithm algo).
Proof.
  unfold algoBody. destruct (algoSteps c algo a) as [[u|e] a1] eqn:E; [|done].
  intros [= <- <-]. unfold algoSteps in E. ok_steps.
  destruct (algoReceived (a_svc s)) eqn:Hr; [done|]. ok_steps.
  match goal with H : algoInput _ _ = _ |- _ => apply algoInput_ok in H as (Hc & _ & (t & Ht) & Hd) end.
  rewrite Hc in E. case_bool_decide as Hh; [|done]. simpl in E. ok_steps.
  match goal with H : getwd ?s = (_, ?s') |- _ =>
    assert (s = s') as <- by (unfold getwd, os, Getwd in H; by destruct s; simplify_eq) end.
  match goal with H : writeAlgorithm _ _ _ _ = (Ok ?u, _) |- _ =>
    destruct u; apply writeFile_ok in H as (Hs & _ & Hw) end.
  match goal with H : os (perform _) _ = _ |- _ => apply os_perform_ok in H as -> end.
  simpl. repeat split; try done. do 2 eexists. eexists. rewrite Hw, Ht, <- !app_assoc.
  split; [reflexivity|]. split; [|split; [exact Hh|exact Hd]]. rewrite !elem_of_app, !elem_of_cons. auto.
Qed.
(** An upload with another hash than the manifest's is refused and changes nothing. *)
Theorem algo_mismatch c algo a :
  algoReceived (a_svc a) = false -> algorithmIsRemote (a_svc a) = None ->
  sha3Sum256 (al_Algorithm algo) <> al_Hash (cmp_Algorithm (computation (a_svc a))) ->
  algoBody c algo a = ((Err ErrHashMismatch, None), a).
Proof.
  intros Hr Hl Hh. unfold algoBody, algoSteps, algoInput, bindOk, getSvc, lift. rewrite Hr, Hl.
  by rewrite bool_decide_eq_false_2.
Qed.

(** When the data set directory cannot be made, [Algo] returns an error after it has
    marked the algorithm received: nothing is announced, and every later upload is refused
    because the algorithm was received. *)
Theorem algo_error_after_received c algo a e ev a' :
  algoBody c algo a = ((Err e, ev), a') -> algoReceived (a_svc a) = false ->
  algoReceived (a_svc a') = true ->
  ev = None /\ forall c2 algo2, algoBody c2 algo2 a' = ((Err ErrAllManifestItemsReceived, None), a').
Proof.
  intros E H0' H1'. split.
  - unfold algoBody in E. destruct (algoSteps c algo a) as [[u|e'] a1]; [done | by simplify_eq].
  - intros c2 algo2. unfold algoBody, algoSteps, bindOk, getSvc, lift. by rewrite H1'.
Qed.

(** After a successful call the requirements are those of the upload, also when the
    algorithm and its requirements were downloaded. *)
Theorem algo_requirements_of_upload c algo a ev a' :
  algoBody c algo a = ((Ok tt, ev), a') -> algoRequirements (a_svc a') = al_Requirements algo.
Proof.
  unfold algoBody. destruct (algoSteps c algo a) as [[u|e] a1] eqn:E; [|done].
  intros [= <- <-]. unfold algoSteps in E. ok_steps. destruct (algoReceived (a_svc s)); [done|]. ok_steps.
  case_bool_decide; [|done]. simpl in E. ok_steps.
  match goal with H : os (perform _) _ = _ |- _ => by apply os_perform_ok in H as -> end.
Qed.

(** ** Data sets *)

Lemma findHash_spec hash ds : forall i j d,
  findHash hash ds i = Some (j, d) ->
  exists k, j = (i + k)%nat /\ ds !! k = Some d /\ ds_Hash d = hash /\
    forall k' d', (k' < k)%nat -> ds !! k' = Some d' -> ds_Hash d' <> hash.
Proof.
  induction ds as [|d0 ds IH]; intros i j d; simpl; [done|]. case_bool_decide as Hh.
  - intros [= <- <-]. exists 0%nat. split; [lia|]. repeat split; try done. intros; lia.
  - intros (k & -> & Hk & Hd & Hlt)%IH. exists (S k). split; [lia|]. split; [done|]. split; [done|].
    intros [|k'] d' Hk'; simpl; [intros [= <-]; congruence|]. apply Hlt. lia.
Qed.

(** What storing a data set below [R] does. *)
Definition storeAct (R : list string) (a : act) : Prop :=
  insideAct R a \/ exists p, a = AClose p /\ inside R p.

Lemma writeFile_contained R b path data :
  inside R path -> keeps (effectsOnly (storeAct R)) (writeFile b path data None).
Proof.
  intros Hp.
  assert (Ho : storeAct R (AOpenTrunc path 438)) by by left.
  assert (Hw : storeAct R (AWrite path data)) by by left.
  assert (Hc : storeAct R (AClose path)) by (right; by exists path).
  unfold writeFile. keeps_walk; eauto with keeps emits.
  apply (keeps_seq (effectsOnly (storeAct R)) (os (perform (AWrite path data)))
    (fun o a => match o with None => (None, a) | Some e => (Some (ErrWrap "error writing to file" e), snd (_ a)) end)).
  - eauto with keeps emits.
  - intros [e|]; [|intros a; reflexivity]. intros a.
    destruct b; [apply (keeps_ignore _ _ (effectsOnly_os _ _ (emits_perform _ _ Hc))) | reflexivity].
Qed.

Lemma datasetFilePath_quiet f a : snd (datasetFilePath f a) = a.
Proof. unfold datasetFilePath, bindOk, lift. repeat case_goal; by simplify_eq. Qed.

Lemma storeDataset_contained `{!OSLaws} b dec f data a r a' :
  storeDataset b dec f data a = (r, a') ->
  a_svc a' = a_svc a /\ a_panic a' = a_panic a /\
  exists t, a_h a' = a_h a ++ t /\
    (t = [] \/ exists R, datasetsRoot (a_h a) = Ok (render true R) /\ Forall isName R /\ Forall (storeAct R) t).
Proof.
  unfold storeDataset. destruct dec.
  - unfold mapErr, os. destruct (UnzipFromMemory data DatasetsDir (a_h a)) as [o h'] eqn:E.
    intros [= _ <-]. simpl. split; [done|]. split; [done|].
    destruct (UnzipFromMemory_inside _ _ _ _ _ E) as (t & -> & [->|(R & HR & Hn & Ht)]).
    + exists []. auto.
    + exists t. split; [done|]. right. exists R. split; [done|]. split; [done|].
      eapply Forall_impl; [exact Ht|]. intros; by left.
  - unfold bindOk. destruct (datasetFilePath f a) as [[p|e] a1] eqn:E.
    + apply datasetFilePath_ok in E as (-> & Hn & R & HR & HF & ->). intros Ew.
      apply (keeps_run (effectsOnly (storeAct R))) in Ew as (Hs & Hp & t & Ht & HFt);
        [|apply (writeFile_contained R); exists [TrimSpace f]; split; [done | by constructor]].
      split; [done|]. split; [done|]. exists t. split; [done|]. right. by exists R.
    + assert (a1 = a) as -> by (pose proof (datasetFilePath_quiet f a) as Hq; by rewrite E in Hq).
      intros [= _ <-]. split; [done|]. split; [done|]. exists []. rewrite app_nil_r. auto.
Qed.

Lemma dataInput_ok kbs ds d a data name a1 :
  dataInput kbs ds d a = (Ok (data, name), a1) ->
  sameSvc a a1 /\ (firstRemote kbs ds = None -> data = ds_Dataset d /\ name = ds_Filename d /\ a1 = a).
Proof.
  unfold dataInput. destruct (firstRemote kbs ds) as [[d' source]|]; intros E; ok_steps.
  - split; [|done]. match goal with H : downloadAndDecryptResource _ _ _ = _ |- _ =>
      apply (keeps_run sameSvc) in H; [done | apply sameSvc_downloadResource] end.
  - split; [reflexivity | done].
Qed.
(** An accepted data set has the hash of a data set the manifest still expects, under the
    name the manifest gives if it gives one; that data set is expected no longer, the others
    still are, and [DataReceived] is sent exactly when none is left. *)
Theorem data_accepts `{!OSLaws} c d a ev a' :
  dataBody c d a = ((Ok tt, ev), a') ->
  exists i d' data name, pending (a_svc a) !! i = Some d' /\ sha3Sum256 data = ds_Hash d' /\
    (ds_Filename d' = "" \/ ds_Filename d' = name) /\
    pending (a_svc a') = delete i (pending (a_svc a)) /\
    (firstRemote (kbsOn (a_svc a)) (pending (a_svc a)) = None -> data = ds_Dataset d /\ name = ds_Filename d) /\
    ev = (if bool_decide (pending (a_svc a') = []) then Some DataReceived else None).
Proof.
  unfold dataBody. destruct (dataSteps c d a) as [[u|e] a1] eqn:E; [|done].
  intros [= <- <-]. unfold dataSteps in E. ok_steps. case_bool_decide; [done|]. ok_steps.
  match goal with x : (list byte * string)%type |- _ => destruct x as [data name] end.
  match goal with H : dataInput _ _ _ _ = _ |- _ => apply dataInput_ok in H as [[Hs _] Hd] end.
  destruct (findHash _ _ _) as [[i d']|] eqn:Ef; [|done].
  apply findHash_spec in Ef as (k & -> & Hk & Hh & _). destruct (negb _ && _) eqn:Hn; [done|]. ok_steps.
  match goal with H : storeDataset _ _ _ _ _ = _ |- _ => apply storeDataset_contained in H as (Hs' & _ & _) end.
  exists k, d', data, name. split; [done|]. split; [done|]. split.
  { apply andb_false_iff in Hn as [?|?]; bool_to_prop; auto. }
  split; [done|]. split; [|done]. intros Hno. by destruct (Hd Hno) as (-> & -> & _).
Qed.

(** Uploaded data sets stay in the data set directory: whatever the name, the content and
    the answers of the system, an upload makes directories and files at or below it and
    touches nothing else. *)
Theorem data_upload_contained `{!OSLaws} c d a r a' :
  firstRemote (kbsOn (a_svc a)) (pending (a_svc a)) = None -> dataBody c d a = (r, a') ->
  exists t, a_h a' = a_h a ++ t /\
    (t = [] \/ exists R, datasetsRoot (a_h a) = Ok (render true R) /\ Forall isName R /\ Forall (storeAct R) t).
Proof.
  intros Hno. unfold dataBody, dataSteps, dataInput, getSvc, bindOk at 1 2 3. rewrite Hno.
  case_bool_decide; [intros [= _ <-]; exists []; rewrite app_nil_r; auto|]. unfold lift.
  destruct (findHash _ _ _) as [[i d']|]; [|intros [= _ <-]; exists []; rewrite app_nil_r; auto].
  destruct (negb _ && _); [intros [= _ <-]; exists []; rewrite app_nil_r; auto|].
  unfold bindOk, bindNil, modify. destruct (storeDataset _ _ _ _ a) as [[u|e] a1] eqn:E;
    apply storeDataset_contained in E as (_ & _ & t & Ht & HR); intros [= _ <-]; by exists t.
Qed.

(** ** Results *)

(** Results are given to declared consumers only, and the first consumer in the state
    [ConsumingResults] is the one whose call announces that they were consumed: a call that
    announces it finds the flag clear and sets it. *)
Theorem result_announced_once st i a r ev a' :
  resultBody st i a = ((r, Some ev), a') ->
  ev = ResultsConsumed /\ st = ConsumingResults /\ 0 <= i < len (cmp_ResultConsumers (computation (a_svc a))) /\
  resultsConsumed (a_svc a) = false /\
  forall st' i', snd (fst (resultBody st' i' a')) = None.
Proof.
  unfold resultBody. destruct (_ || _) eqn:Hi; [done|]. apply orb_false_iff in Hi as [?%Z.ltb_ge ?%Z.leb_gt].
  destruct (negb _ && _) eqn:Hc; [|done]. apply andb_true_iff in Hc as [?%negb_true_iff ?%bool_decide_eq_true].
  intros [= _ <- <-]. repeat split; try done. intros st' i'. simpl. by case_goal.
Qed.
End writes.

(** ** The client *)

Definition sticky (a a' : astate) : Prop := a_panic a = true -> a_panic a' = true.

(** With a client at hand the panic flag is kept. *)
Definition withClient (a a' : astate) : Prop :=
  forall s, ociClient (a_svc a) = IfacePtr (Some s) ->
    ociClient (a_svc a') = IfacePtr (Some s) /\ a_panic a' = a_panic a.

#[export] Instance sticky_preorder : PreOrder sticky.
Proof. split; [by intros a ?|]. intros a b c ? ? ?. auto. Qed.
#[export] Instance withClient_preorder : PreOrder withClient.
Proof.
  split; [by intros a s ?|]. intros a b c H1 H2 s Hs. destruct (H1 s Hs) as [Hb Eb].
  destruct (H2 s Hb) as [Hc Ec]. split; [done|]. congruence.
Qed.

Lemma sticky_os {A} (m : st (list act) A) : keeps sticky (os m).
Proof. intros a Hp. unfold os. by destruct (m (a_h a)). Qed.
Lemma sticky_panic {A} (x : A) : keeps sticky (panic x).
Proof. by intros a ?. Qed.
Lemma withClient_os {A} (m : st (list act) A) : keeps withClient (os m).
Proof. intros a s Hs. unfold os. by destruct (m (a_h a)). Qed.
Lemma withClient_modify f : (forall s, ociClient (f s) = ociClient s) -> keeps withClient (modify f).
Proof. intros Hf a s Hs. simpl. by rewrite Hf. Qed.
#[export] Hint Resolve sticky_os sticky_panic withClient_os : keeps.
#[export] Hint Extern 1 (keeps withClient (modify _)) => by apply withClient_modify : keeps.

Section client.
Context `{!OS, !ArchiveLib, !OciLib, !AgentEnv}.

Lemma sticky_archive d f : keeps sticky (ociToDockerArchive d f).
Proof.
  intros a. unfold ociToDockerArchive. destruct (ociClient (a_svc a)) as [|[s|]]; revert a;
    match goal with |- forall a, _ a (snd (?m a)) => change (keeps sticky m) end; keeps_walk; eauto with keeps.
Qed.

Lemma sticky_rest ty d e p q :
  keeps sticky (extractResource ty d e) /\ keeps sticky (readRequirements ty p q).
Proof.
  pose proof sticky_archive. split.
  - unfold extractResource. keeps_walk; eauto with keeps.
  - unfold readRequirements. keeps_walk. by intros a.
Qed.

Lemma Join_nonempty l e : e ∈ l -> e <> "" -> Join l <> "".
Proof.
  intros He Hn. induction l as [|x l IH]; [by apply elem_of_nil in He|]. cbn [Join]. case_bool_decide; [|apply Clean_nonempty].
  apply IH. apply elem_of_cons in He as [->|?]; [by subst | done].
Qed.

(** When [skopeo] is not installed, the service holds an interface value with a nil
    pointer, the check for a missing client does not see it, and the first download from a
    registry panics. *)
Theorem missing_client_panics source ty e a :
  a_svc a = newService (Err e) -> src_URL source <> "" ->
  os_act (a_h a) (AMkdirAll (Join [tempDir; "agents-secure-binding-oci"; "images";
                                   replaceColons (Base (src_URL source))])) = None ->
  a_panic (snd (downloadAndDecryptOCIImage source ty a)) = true.
Proof.
  intros Hs Hu Ho. unfold downloadAndDecryptOCIImage. unfold bindOk at 1, getSvc. rewrite Hs.
  cbn [newService ociClient]. cbv beta iota zeta.
  set (dest := Join _) in *.
  assert (Hd : dest <> "") by (eapply (Join_nonempty _ "images"); [|done]; rewrite !elem_of_cons; auto).
  assert (Hpull : forall src, rs_URI src = src_URL source ->
            ociPull src dest a = (Ok tt, mkAState (a_svc a) (a_h a ++ [AMkdirAll dest]) true)).
  { intros src Esrc. unfold ociPull. rewrite Hs, Esrc. cbn [newService ociClient].
    rewrite !bool_decide_eq_false_2 by done. unfold bindNil, os, wrapping, perform. rewrite Ho. cbn. by rewrite ?Hs. }
  unfold bindOk at 1, mapErr at 1. rewrite Hpull by done. cbn [wrapRes].
  match goal with |- a_panic (snd (?m ?x)) = true => assert (Hk : keeps sticky m) end;
    [|by apply Hk].
  destruct (sticky_rest ty dest (Join [tempDir; "agents-secure-binding-oci"; "extracted"; replaceColons (Base (src_URL source))]) "" "").
  pose proof (fun p q => proj2 (sticky_rest ty "" "" p q)). keeps_walk; eauto with keeps.
Qed.

Lemma client_ociPull src d : keeps withClient (ociPull src d).
Proof.
  intros a s Hs. unfold ociPull. rewrite Hs. by apply withClient_os.
Qed.

Lemma client_archive d f : keeps withClient (ociToDockerArchive d f).
Proof. intros a s Hs. unfold ociToDockerArchive. rewrite Hs. by apply withClient_os. Qed.

Lemma client_download src ty : keeps withClient (downloadAndDecryptResource src ty).
Proof.
  pose proof client_ociPull. pose proof client_archive.
  unfold downloadAndDecryptResource, downloadAndDecryptOCIImage, extractResource, readRequirements.
  keeps_walk; eauto with keeps; by intros ???.
Qed.

Lemma client_writeFile b p d m : keeps withClient (writeFile b p d m).
Proof.
  unfold writeFile. keeps_walk; eauto with keeps;
    (intros a s Hs; unfold os, perform; destruct (os_act _ _); [|done]; by destruct b).
Qed.

Lemma client_store b dec f d : keeps withClient (storeDataset b dec f d).
Proof.
  pose proof client_writeFile. unfold storeDataset, datasetFilePath. keeps_walk; eauto with keeps; by intros ???.
Qed.
Lemma client_action (m : st astate (result error (option AgentEvent))) :
  keeps withClient m -> keeps withClient (actionBody m).
Proof.
  intros Hm a s Hs. unfold actionBody. specialize (Hm a s Hs). by destruct (m a) as [[ev|e] a1].
Qed.

Lemma client_downloadBelow n : keeps withClient (downloadBelow n).
Proof.
  pose proof client_download. pose proof client_store.
  induction n as [|n IH]; simpl; [apply keeps_lift; apply _|]. keeps_walk; eauto with keeps.
Qed.

Lemma client_algoSteps c algo : keeps withClient (algoSteps c algo).
Proof.
  pose proof client_download. pose proof client_writeFile.
  unfold algoSteps, algoInput, writeAlgorithm, getwd. keeps_walk; eauto with keeps.
Qed.

Lemma client_dataSteps c d : keeps withClient (dataSteps c d).
Proof.
  pose proof client_download. pose proof client_store.
  unfold dataSteps, dataInput. keeps_walk; eauto with keeps.
Qed.

(** With a client at hand no upload and no download panics. *)
Theorem client_no_panic s a :
  ociClient (a_svc a) = IfacePtr (Some s) ->
  (forall c algo, a_panic (snd (algoBody c algo a)) = a_panic a) /\
  (forall c d, a_panic (snd (dataBody c d a)) = a_panic a) /\
  a_panic (snd (downloadAlgorithm a)) = a_panic a /\ a_panic (snd (downloadDatasets a)) = a_panic a.
Proof.
  intros Hs. split_and!.
  - intros c algo. destruct (client_algoSteps c algo a s Hs) as [_ E]. unfold algoBody.
    by destruct (algoSteps c algo a) as [[]].
  - intros c d. destruct (client_dataSteps c d a s Hs) as [_ E]. unfold dataBody.
    by destruct (dataSteps c d a) as [[]].
  - eapply (client_action _); [|exact Hs]. pose proof client_download. pose proof client_writeFile.
    unfold writeAlgorithm, getwd, copyDirectory. keeps_walk; eauto with keeps.
  - eapply (client_action _); [|exact Hs]. pose proof client_downloadBelow. keeps_walk; eauto with keeps.
Qed.
End client.

(** ** Instances for the witnesses *)

Module BodySample.
#[global] Instance env : AgentEnv := {
  tempDir := "/tmp"; getAttestation _ _ _ := Ok [x01]; getAzureToken _ := Ok [x02];
  getPCRSHA1Value _ := Ok [x03] }.

(** A disk that carries out everything. *)
#[global] Instance disk : OS := {
  os_act _ _ := None; os_stat _ _ := Ok 420; os_read _ p := Ok (bytesOf p); os_walk _ _ := Ok [];
  os_glob _ _ := Ok []; os_getwd _ := Ok "/work" }.
#[global] Instance disk_laws : OSLaws.
Proof. split. by intros h d [= <-]. Qed.

(** The same disk, on which [datasets] exists already. *)
Definition diskWithDatasets : OS := {|
  os_act _ a := match a with AMkdir "datasets" => Some (ErrNew "file exists") | _ => None end;
  os_stat := @os_stat disk; os_read := @os_read disk; os_walk := @os_walk disk;
  os_glob := @os_glob disk; os_getwd := @os_getwd disk |}.

Definition code : list byte := bytesOf "code".
Definition rows : list byte := bytesOf "rows".
Definition algo : Algorithm := mkAlgorithm code [] [] (bytesOf "numpy") None "" [].
Definition upload (name : string) : Dataset := mkDataset rows [] [] name None false.
Definition cmp : Computation :=
  mkComputation "c1" "" "" [mkDataset [] (sha3Sum256 rows) [] "in.csv" None false]
    (mkAlgorithm [] (sha3Sum256 code) [] [] None "" []) [[x01]] (mkKBS "" false).
Definition svc : agentService := setComputation cmp (newService (Ok (mkSkopeoClient "skopeo" "/w"))).
Definition a0 : astate := mkAState svc [] false.
Definition ctx : context := mkContext [] [] [] (Some 0).
End BodySample.
Import BodySample.

Lemma datasetFilePath_spec_witness :
  datasetFilePath " in.csv " a0 = (Ok "/work/datasets/in.csv", a0).
Proof.
  apply (proj2 (datasetFilePath_spec " in.csv " a0 "/work/datasets/in.csv" a0)).
  split; [done|]. split; [apply (bool_decide_unpack _); vm_compute; exact I|].
  exists ["work"; "datasets"]. split; [vm_compute; reflexivity|].
  split; [apply (bool_decide_unpack _); vm_compute; exact I | vm_compute; reflexivity].
Defined.

Lemma algo_accepts_witness :
  exists a', fst (algoBody ctx algo a0) = (Ok tt, Some AlgorithmReceived) /\ snd (algoBody ctx algo a0) = a' /\
    algoReceived (a_svc a0) = false /\ algoReceived (a_svc a') = true.
Proof.
  eexists. split; [vm_compute; reflexivity|]. split; [reflexivity|].
  destruct (algo_accepts ctx algo a0 (Some AlgorithmReceived) (snd (algoBody ctx algo a0))) as (H1 & H2 & _);
    [vm_compute; reflexivity | by split].
Defined.

Lemma algo_mismatch_witness :
  algoBody ctx (mkAlgorithm (bytesOf "other") [] [] [] None "" []) a0 = ((Err ErrHashMismatch, None), a0).
Proof. apply algo_mismatch; vm_compute; done. Defined.

Lemma algo_error_after_received_witness :
  let a' := snd (@algoBody diskWithDatasets _ _ _ ctx algo a0) in
  @algoBody diskWithDatasets _ _ _ ctx algo a' = ((Err ErrAllManifestItemsReceived, None), a').
Proof.
  destruct (@algo_error_after_received diskWithDatasets _ _ _ ctx algo a0
    (ErrWrap "error creating datasets directory" (ErrNew "file exists")) None
    (snd (@algoBody diskWithDatasets _ _ _ ctx algo a0))) as [_ E]; [vm_compute; reflexivity..|]. apply E.
Defined.

Lemma algo_requirements_of_upload_witness :
  algoRequirements (a_svc (snd (algoBody ctx algo a0))) = bytesOf "numpy".
Proof.
  apply (algo_requirements_of_upload ctx algo a0 (Some AlgorithmReceived)). vm_compute. reflexivity.
Defined.

Lemma data_accepts_witness : pending (a_svc (snd (dataBody ctx (upload "in.csv") a0))) = [].
Proof.
  destruct (data_accepts ctx (upload "in.csv") a0 (Some DataReceived) (snd (dataBody ctx (upload "in.csv") a0)))
    as (i & d & data & name & Hi & _ & _ & E & _); [vm_compute; reflexivity|].
  rewrite E. destruct i; [reflexivity | discriminate Hi].
Defined.

Lemma data_upload_contained_witness :
  exists t, a_h (snd (dataBody ctx (upload "in.csv") a0)) = [] ++ t /\
    (t = [] \/ exists R, datasetsRoot [] = Ok (render true R) /\ Forall isName R /\ Forall (storeAct R) t).
Proof.
  apply (data_upload_contained ctx (upload "in.csv") a0 (fst (dataBody ctx (upload "in.csv") a0)));
    vm_compute; reflexivity.
Defined.

Lemma result_announced_once_witness :
  snd (fst (resultBody ConsumingResults 0 (snd (resultBody ConsumingResults 0 a0)))) = None.
Proof.
  destruct (result_announced_once ConsumingResults 0 a0 (Ok []) ResultsConsumed
    (snd (resultBody ConsumingResults 0 a0))) as (_ & _ & _ & _ & E); [vm_compute; reflexivity | apply E].
Defined.

Lemma missing_client_panics_witness :
  a_panic (snd (downloadAndDecryptOCIImage (mkSource "" "docker://r/a" "" true) "algorithm"
    (mkAState (newService (Err (ErrNew "not found"))) [] false))) = true.
Proof. by apply (missing_client_panics _ _ (ErrNew "not found")). Defined.

Lemma client_no_panic_witness : a_panic (snd (algoBody ctx algo a0)) = false.
Proof.
  destruct (client_no_panic (mkSkopeoClient "skopeo" "/w") a0 eq_refl) as [E _]. apply E.
Defined.
