(* ===== verification/AgentRuns.v ===== *)
(** * Runs of the agent

    The goroutines of the agent over one service: calls of the API, the loops of the state
    machine, the actions they start, the run of a computation.  A goroutine moves from one
    program point to the next between its locks; [sstep] is one such move and a run is a list
    of labels, so a theorem over all runs holds for every interleaving.  [s_mu] is the mutex
    of the service. *)

From stdpp Require Import base gmap sets list strings.
From Stdlib Require Import ZArith Lia Strings.Byte.
From S2P Require Import Prelude GoStrings Errors GoPath GoOS StateMachine Sha2 Archive Oci.
From S2P Require Import AgentService AgentBodies.

Definition stateIndex (s : AgentState) : nat :=
  match s with
  | Idle => 0 | ReceivingManifest => 1 | ReceivingAlgorithm => 2 | ReceivingData => 3
  | Running => 4 | ConsumingResults => 5 | Complete => 6 | Failed => 7
  end.
Definition stateOf (n : nat) : option AgentState :=
  [Idle; ReceivingManifest; ReceivingAlgorithm; ReceivingData; Running; ConsumingResults; Complete;
   Failed] !! n.
#[export] Instance AgentState_countable : Countable AgentState :=
  inj_countable stateIndex stateOf (fun s => match s with Idle => eq_refl | ReceivingManifest => eq_refl
    | ReceivingAlgorithm => eq_refl | ReceivingData => eq_refl | Running => eq_refl
    | ConsumingResults => eq_refl | Complete => eq_refl | Failed => eq_refl end).

Definition eventIndex (e : AgentEvent) : nat :=
  match e with
  | Start => 0 | ManifestReceived => 1 | AlgorithmReceived => 2 | DataReceived => 3
  | RunComplete => 4 | ResultsConsumed => 5 | RunFailed => 6
  end.
Definition eventOf (n : nat) : option AgentEvent :=
  [Start; ManifestReceived; AlgorithmReceived; DataReceived; RunComplete; ResultsConsumed;
   RunFailed] !! n.
#[export] Instance AgentEvent_countable : Countable AgentEvent :=
  inj_countable eventIndex eventOf (fun e => match e with Start => eq_refl | ManifestReceived => eq_refl
    | AlgorithmReceived => eq_refl | DataReceived => eq_refl | RunComplete => eq_refl
    | ResultsConsumed => eq_refl | RunFailed => eq_refl end).

(** ** Goroutines *)

(** What entering a state starts. *)
Inductive action := DownloadAlgorithm | DownloadDatasets | RunComputation | Publish (status : string).

Inductive call :=
| CInit (cmp : Computation)
| CStop
| CAlgo (c : context) (algo : Algorithm)
| CData (c : context) (d : Dataset)
| CResult (c : context).

Inductive task :=
| TCall (c : call)                          (* before the state check *)
| TLock (c : call) (st : AgentState)        (* past it, waiting for the mutex *)
| TSendRead (e : AgentEvent) (held : bool)  (* in [SendEvent], before its lock *)
| TSend (e : AgentEvent) (g : nat) (held : bool)
| TAction (act : action) (st : AgentState)
| TActionLock (act : action)
| TRunWait (path : string)                  (* waiting for the runner *)
| TRunCleanup (path : string)
| TRunEnd                                   (* waiting for the mutex to send the outcome *)
| TDone (err : option error).

Notation agentRuntime := (runtime AgentState AgentEvent action).

Record sys := mkSys {
  s_rt : agentRuntime; s_a : astate; s_mu : bool; s_cancel : nat; s_tasks : list task }.

Inductive slabel :=
| Call (c : call)
| Task (i : nat)
| Deliver (i : nat) (to : option nat)
| Answer (i : nat) (resp : result error string)
| Loop (j : nat) (p : pick)
| Cancel (ctx : nat).

(** ** The machine of the agent *)

Definition newTransitions : list (Transition AgentState AgentEvent) :=
  [mkTransition Idle Start ReceivingManifest;
   mkTransition ReceivingManifest ManifestReceived ReceivingAlgorithm;
   mkTransition ReceivingAlgorithm RunFailed Failed;
   mkTransition ReceivingData RunFailed Failed;
   mkTransition Running RunComplete ConsumingResults;
   mkTransition Running RunFailed Failed;
   mkTransition ConsumingResults ResultsConsumed Complete].

Definition initTransitions (cmp : Computation) : list (Transition AgentState AgentEvent) :=
  match cmp_Datasets cmp with
  | [] => [mkTransition ReceivingAlgorithm AlgorithmReceived Running]
  | _ => [mkTransition ReceivingAlgorithm AlgorithmReceived ReceivingData;
          mkTransition ReceivingData DataReceived Running]
  end.

Definition addTransitions (ts : list (Transition AgentState AgentEvent))
    (sm : stateMachine AgentState AgentEvent action) : stateMachine AgentState AgentEvent action :=
  foldl (fun sm t => AddTransition t sm) sm ts.

Definition newMachine : stateMachine AgentState AgentEvent action :=
  SetAction Failed (Publish (stateString Failed))
  (SetAction Complete (Publish (statusString Completed))
  (SetAction ConsumingResults (Publish (statusString Ready))
  (SetAction Running RunComputation
  (SetAction ReceivingData DownloadDatasets
  (SetAction ReceivingAlgorithm DownloadAlgorithm
  (addTransitions newTransitions (NewStateMachine Idle))))))).

(** [New]: one loop on context 0, the start event on its way. *)
Definition New (skopeo : result error SkopeoClient) (h : list act) : sys :=
  mkSys (mkRuntime newMachine [LoopTop 0] ∅ false)
        (mkAState (newService skopeo) h false) false 0 [TSendRead Start false].

Definition setTask (i : nat) (t : task) (s : sys) : sys :=
  mkSys (s_rt s) (s_a s) (s_mu s) (s_cancel s) (<[i := t]> (s_tasks s)).
Definition setA (a : astate) (s : sys) : sys := mkSys (s_rt s) a (s_mu s) (s_cancel s) (s_tasks s).
Definition setRt (r : agentRuntime) (s : sys) : sys := mkSys r (s_a s) (s_mu s) (s_cancel s) (s_tasks s).
Definition setMu (b : bool) (s : sys) : sys := mkSys (s_rt s) (s_a s) b (s_cancel s) (s_tasks s).
Definition addTask (t : task) (s : sys) : sys :=
  mkSys (s_rt s) (s_a s) (s_mu s) (s_cancel s) (s_tasks s ++ [t]).

Definition agentState (s : sys) : AgentState := GetState (rt_sm (s_rt s)).

Section runs.
Context `{OS, ArchiveLib, OciLib, AgentEnv}.

(** The state check of a call: the error it returns, or nothing. *)
Definition checkState (c : call) (st : AgentState) : option error :=
  match c with
  | CInit _ => if bool_decide (st = ReceivingManifest) then None else Some ErrStateNotReady
  | CStop => None
  | CAlgo _ _ => if bool_decide (st = ReceivingAlgorithm) then None else Some ErrStateNotReady
  | CData _ _ => if bool_decide (st = ReceivingData) then None else Some ErrStateNotReady
  | CResult c => if negb (resultReady st) then Some ErrResultsNotReady
                 else match IndexFromContext c with None => Some ErrUndeclaredConsumer | Some _ => None end
  end.

Definition errOf {A} (r : result error A) : option error :=
  match r with Ok _ => None | Err e => Some e end.

(** After a body: the event is sent with the mutex held, or the mutex is released. *)
Definition afterBody (i : nat) (err : option error) (ev : option AgentEvent) (s : sys) : sys :=
  match ev with
  | Some e => setMu true (setTask i (TSendRead e true) s)
  | None => setTask i (TDone err) s
  end.

(** The body of a call that has the mutex. *)
Definition runBody (i : nat) (c : call) (st : AgentState) (s : sys) : sys :=
  match c with
  | CInit cmp =>
      let a := snd (initBody cmp (s_a s)) in
      let rt := setSM (addTransitions (initTransitions cmp) (rt_sm (s_rt s))) (s_rt s) in
      setTask i (TSendRead ManifestReceived false) (setA a (setRt rt s))
  | CStop =>
      let '(r, a) := stopSteps (s_a s) in
      let rt := cancelCtx (s_cancel s) (s_rt s) in
      match r with
      | Err e => setTask i (TDone (Some e)) (setA a (setRt rt s))
      | Ok _ =>
          let ctx := S (s_cancel s) in
          let rt := startLoop ctx (setSM (Reset Idle (rt_sm rt)) rt) in
          setMu true (setTask i (TSendRead Start true)
            (mkSys rt a (s_mu s) ctx (s_tasks s)))
      end
  | CAlgo c algo => let '((r, ev), a) := algoBody c algo (s_a s) in afterBody i (errOf r) ev (setA a s)
  | CData c d => let '((r, ev), a) := dataBody c d (s_a s) in afterBody i (errOf r) ev (setA a s)
  | CResult c =>
      let '((r, ev), a) := resultBody st (default (-1) (IndexFromContext c)) (s_a s) in
      afterBody i (errOf r) ev (setA a s)
  end.

Definition actionStep (i : nat) (act : action) (st : AgentState) (s : sys) : option sys :=
  match act with
  | Publish status => Some (setTask i (TDone None) (setA (snd (publishEvent status st (s_a s))) s))
  | DownloadAlgorithm | DownloadDatasets =>
      Some (setTask i (TActionLock act) (setA (snd (publishEvent (statusString InProgress) st (s_a s))) s))
  | RunComputation =>
      let path := algoFile (a_h (snd (publishEvent (statusString Starting) st (s_a s)))) in
      match runStart (s_a s) with
      | (None, a) => if s_mu s then None else Some (setTask i (TRunCleanup path) (setA a s))
      | (Some _, a) => Some (setTask i (TRunWait path) (setA a s))
      end
  end.

Definition taskStep (i : nat) (t : task) (s : sys) : option sys :=
  match t with
  | TCall c =>
      let st := agentState s in
      Some (setTask i (match checkState c st with Some e => TDone (Some e) | None => TLock c st end) s)
  | TLock c st => if s_mu s then None else Some (runBody i c st s)
  | TSendRead e held => Some (setTask i (TSend e (sendRead (s_rt s)) held) s)
  | TAction act st => actionStep i act st s
  | TActionLock act =>
      if s_mu s then None
      else let '(ev, a) := (match act with DownloadAlgorithm => downloadAlgorithm | _ => downloadDatasets end) (s_a s) in
           Some (afterBody i None ev (setA a s))
  | TRunCleanup path => Some (setTask i TRunEnd (setA (snd (runCleanup path (s_a s))) s))
  | TRunEnd => if s_mu s then None
               else Some (setMu true (setTask i (TSendRead (runEvent (a_svc (s_a s))) true) s))
  | TSend _ _ _ | TRunWait _ | TDone _ => None
  end.

(** One step; none after a panic. *)
Definition sstep (l : slabel) (s : sys) : option sys :=
  if a_panic (s_a s) || rt_panic (s_rt s) then None else
  match l with
  | Call c => Some (addTask (TCall c) s)
  | Task i => t ← s_tasks s !! i; taskStep i t s
  | Deliver i to =>
      match s_tasks s !! i with
      | Some (TSend e g held) =>
          rt ← sendSelect g e to (s_rt s);
          Some (setMu (if held then false else s_mu s) (setTask i (TDone None) (setRt rt s)))
      | _ => None
      end
  | Answer i resp =>
      match s_tasks s !! i with
      | Some (TRunWait path) =>
          let '(failed, a) := runFinish resp (s_a s) in
          if failed && s_mu s then None else Some (setTask i (TRunCleanup path) (setA a s))
      | _ => None
      end
  | Loop j p =>
      '(rt, act) ← loopStep j p (s_rt s);
      Some (match act with
            | Some act => addTask (TAction act (sm_currentState (rt_sm rt))) (setRt rt s)
            | None => setRt rt s
            end)
  | Cancel ctx => Some (setRt (cancelCtx ctx (s_rt s)) s)
  end.

Fixpoint srun (ls : list slabel) (s : sys) : option sys :=
  match ls with [] => Some s | l :: t => sstep l s ≫= srun t end.
End runs.

(** ** The algorithm comes before the run *)

(** The states that follow the reception of the algorithm. *)
Definition past (s : AgentState) : bool :=
  match s with ReceivingData | Running | ConsumingResults | Complete => true | _ => false end.

Definition received (s : sys) : Prop := algoReceived (a_svc (s_a s)) = true.

(** No operation but [StopComputation] forgets that the algorithm was received. *)
Definition keepsReceived (a a' : astate) : Prop :=
  algoReceived (a_svc a) = true -> algoReceived (a_svc a') = true.

#[export] Instance keepsReceived_preorder : PreOrder keepsReceived.
Proof. split; [by intros a ?|]. intros a b c ? ? ?. auto. Qed.

Lemma keepsReceived_os {A} (m : st (list act) A) : keeps keepsReceived (os m).
Proof. intros a Ha. unfold os. by destruct (m (a_h a)). Qed.
Lemma keepsReceived_modify f :
  (forall s, algoReceived s = true -> algoReceived (f s) = true) -> keeps keepsReceived (modify f).
Proof. intros Hf a Ha. by apply Hf. Qed.
Lemma keepsReceived_same {A} (m : st astate A) : keeps sameSvc m -> keeps keepsReceived m.
Proof. intros Hm a Ha. destruct (Hm a) as [E _]. by rewrite E. Qed.
#[export] Hint Resolve keepsReceived_os : keeps.
#[export] Hint Extern 1 (keeps keepsReceived (modify _)) => by apply keepsReceived_modify : keeps.
#[export] Hint Extern 1 (keeps keepsReceived (downloadAndDecryptResource _ _)) =>
  apply keepsReceived_same, sameSvc_downloadResource : keeps.

Section received.
Context `{!OS, !ArchiveLib, !OciLib, !AgentEnv}.

Lemma received_writeFile b p d m : keeps keepsReceived (writeFile b p d m).
Proof.
  unfold writeFile. keeps_walk; eauto with keeps;
    (intros a Ha; unfold os, perform; destruct (os_act _ _); [|done]; by destruct b).
Qed.

Lemma received_store b dec f d : keeps keepsReceived (storeDataset b dec f d).
Proof.
  pose proof received_writeFile. unfold storeDataset, datasetFilePath. keeps_walk; eauto with keeps; by intros ??.
Qed.

Lemma received_algoSteps c algo : keeps keepsReceived (algoSteps c algo).
Proof.
  pose proof received_writeFile. unfold algoSteps, algoInput, writeAlgorithm, getwd. keeps_walk; eauto with keeps.
Qed.

Lemma received_dataSteps c d : keeps keepsReceived (dataSteps c d).
Proof. pose proof received_store. unfold dataSteps, dataInput. keeps_walk; eauto with keeps. Qed.

Lemma received_downloadBelow n : keeps keepsReceived (downloadBelow n).
Proof.
  pose proof received_store. induction n as [|n IH]; simpl; [apply keeps_lift; apply _|].
  keeps_walk; eauto with keeps.
Qed.

Lemma received_action m : keeps keepsReceived m -> keeps keepsReceived (actionBody m).
Proof. intros Hm a Ha. unfold actionBody. specialize (Hm a Ha). by destruct (m a) as [[]]. Qed.

Lemma received_downloads : keeps keepsReceived downloadAlgorithm /\ keeps keepsReceived downloadDatasets.
Proof.
  pose proof received_writeFile. pose proof received_downloadBelow.
  split; apply received_action; unfold writeAlgorithm, getwd, copyDirectory; keeps_walk; eauto with keeps.
Qed.

Lemma received_publish status st : keeps keepsReceived (publishEvent status st).
Proof. intros a Ha. by apply (keeps_ignore _ _ (keepsReceived_os _)). Qed.

Lemma received_runFailed e : keeps keepsReceived (runFailed e).
Proof. intros a Ha. by apply received_publish. Qed.

Lemma received_runStart : keeps keepsReceived runStart.
Proof.
  intros a Ha. unfold runStart. apply (received_publish (statusString Starting) Running) in Ha.
  set (a1 := snd _) in *. destruct (os (perform (AMkdir ResultsDir)) a1) as [[e|] a2] eqn:E;
    apply os_perform_ok in E as ->; [by apply received_runFailed|].
  destruct (os_read _ _); [by apply received_publish | by apply received_runFailed].
Qed.

Lemma received_runFinish resp : keeps keepsReceived (runFinish resp).
Proof.
  intros a Ha. unfold runFinish. destruct resp as [msg|e]; [|by apply received_runFailed].
  case_goal; [by apply received_runFailed|].
  pose proof (keepsReceived_os (ZipDirectoryToMemory ResultsDir) a Ha) as Hz.
  destruct (os (ZipDirectoryToMemory ResultsDir) a) as [[z|e] a1]; [|by apply received_runFailed].
  by apply (received_publish (statusString Completed) Running a1).
Qed.

Lemma received_cleanup p : keeps keepsReceived (runCleanup p).
Proof. by intros a Ha. Qed.

(** What announces the algorithm has received it. *)
Lemma downloadAlgorithm_received a a' :
  downloadAlgorithm a = (Some AlgorithmReceived, a') -> algoReceived (a_svc a') = true.
Proof.
  unfold downloadAlgorithm, actionBody. match goal with |- context [match ?m a with _ => _ end] => set (body := m) end.
  destruct (body a) as [[ev|e] a1] eqn:E; [|done]. intros [= -> ->]. unfold body in E. ok_steps.
  destruct (algorithmIsRemote _) as [source|]; [|done]. ok_steps. case_bool_decide; [|done]. cbn [negb] in E. ok_steps.
  match goal with H : os (perform (AMkdir _)) _ = _ |- _ => by apply os_perform_ok in H as -> end.
Qed.

Lemma downloadDatasets_event a ev a' : downloadDatasets a = (Some ev, a') -> ev <> AlgorithmReceived.
Proof.
  unfold downloadDatasets, actionBody. match goal with |- context [match ?m a with _ => _ end] => set (body := m) end.
  destruct (body a) as [[o|e] a1] eqn:E; [|by intros [= <- _]]. intros [= -> ->]. unfold body in E. ok_steps.
  destruct (firstRemote _ _); [|done]. ok_steps. case_bool_decide; by simplify_eq.
Qed.
End received.

(** *** The invariant *)

Definition holds (t : task) : bool :=
  match t with TSendRead _ b | TSend _ _ b => b | _ => false end.
Definition announces (t : task) : bool :=
  match t with TSendRead e _ | TSend e _ _ => bool_decide (e = AlgorithmReceived) | _ => false end.

(** At most one goroutine holds the mutex while it sends, none when the mutex is free. *)
Definition heldBy (mu : bool) (ts : list task) : Prop :=
  exists i, forall j t, ts !! j = Some t -> holds t = true -> mu = true /\ j = i.

Definition taskOk (P : Prop) (t : task) : Prop := announces t = true -> P /\ holds t = true.
Definition loopOk (P : Prop) (lp : loop AgentState AgentEvent) : Prop :=
  match lp with
  | LoopEvent _ (Some AlgorithmReceived) => P
  | LoopNext _ next => past next = true -> P
  | _ => True
  end.
Definition tableOk (sm : stateMachine AgentState AgentEvent action) : Prop :=
  forall st e st', nextState sm st (Some e) = Some st' -> past st' = true ->
    e = AlgorithmReceived \/ past st = true.

Record agentInv (s : sys) : Prop := mkInv {
  inv_table : tableOk (rt_sm (s_rt s));
  inv_state : past (agentState s) = true -> received s;
  inv_loops : Forall (loopOk (received s)) (rt_loops (s_rt s));
  inv_tasks : Forall (taskOk (received s)) (s_tasks s);
  inv_held : heldBy (s_mu s) (s_tasks s) }.

Lemma taskOk_mono (P Q : Prop) t : (P -> Q) -> taskOk P t -> taskOk Q t.
Proof. unfold taskOk. naive_solver. Qed.
Lemma loopOk_mono (P Q : Prop) lp : (P -> Q) -> loopOk P lp -> loopOk Q lp.
Proof. unfold loopOk. repeat case_goal; naive_solver. Qed.

Lemma heldBy_quiet mu ts i t : heldBy mu ts -> holds t = false -> heldBy mu (<[i := t]> ts).
Proof.
  intros [k Hk] Ht. exists k. intros j t' Hj Hh. apply list_lookup_insert_Some in Hj as [(-> & -> & _)|[_ Hj]].
  - congruence.
  - by eapply Hk.
Qed.

Lemma heldBy_hold ts i t : heldBy false ts -> heldBy true (<[i := t]> ts).
Proof.
  intros [k Hk]. exists i. intros j t' Hj Hh. apply list_lookup_insert_Some in Hj as [(-> & -> & _)|[_ Hj]]; [done|].
  by destruct (Hk j t' Hj Hh).
Qed.

Lemma heldBy_keep mu ts i t t' :
  heldBy mu ts -> ts !! i = Some t -> holds t = holds t' -> heldBy mu (<[i := t']> ts).
Proof.
  intros [k Hk] Hi Ht. exists k. intros j u Hj Hh.
  apply list_lookup_insert_Some in Hj as [(<- & <- & _)|[_ Hj]]; [|by eapply Hk].
  apply (Hk i t Hi). congruence.
Qed.

Lemma heldBy_release mu ts i t :
  heldBy mu ts -> ts !! i = Some t -> holds t = true -> heldBy false (<[i := TDone None]> ts).
Proof.
  intros [k Hk] Hi Ht. exists k. destruct (Hk i t Hi Ht) as [_ ->]. intros j u Hj Hh.
  apply list_lookup_insert_Some in Hj as [(<- & <- & _)|[Hne Hj]]; [done|].
  destruct (Hk j u Hj Hh) as [_ ->]. done.
Qed.

Lemma heldBy_app mu ts t : heldBy mu ts -> holds t = false -> heldBy mu (ts ++ [t]).
Proof.
  intros [k Hk] Ht. exists k. intros j u Hj Hh. apply lookup_app_Some in Hj as [Hj|[_ Hj]]; [by eapply Hk|].
  apply list_lookup_singleton_Some in Hj as [_ <-]. congruence.
Qed.

Lemma tableOk_add t sm :
  tableOk sm -> (past (t_To t) = true -> t_Event t = AlgorithmReceived \/ past (t_From t) = true) ->
  tableOk (AddTransition t sm).
Proof.
  intros Hs Ht st e st'. rewrite lookup_AddTransition. case_bool_decide as Hc; [|apply Hs].
  destruct Hc as [-> ->]. by intros [= <-].
Qed.

Lemma tableOk_adds ts sm :
  Forall (fun t => past (t_To t) = true -> t_Event t = AlgorithmReceived \/ past (t_From t) = true) ts ->
  tableOk sm -> tableOk (addTransitions ts sm).
Proof.
  intros HF. revert sm. induction HF as [|t ts Ht _ IH]; intros sm Hs; [done|]. simpl.
  apply IH. by apply tableOk_add.
Qed.

Lemma tableOk_init cmp sm : tableOk sm -> tableOk (addTransitions (initTransitions cmp) sm).
Proof. apply tableOk_adds. unfold initTransitions. case_goal; repeat constructor; naive_solver. Qed.

Lemma tableOk_new : tableOk newMachine.
Proof.
  assert (H1 : tableOk (addTransitions newTransitions (NewStateMachine Idle))).
  { apply tableOk_adds; [repeat constructor; naive_solver|]. intros st e st'.
    unfold nextState. simpl. by rewrite lookup_empty. }
  intros st e st'. apply H1.
Qed.

(** A step that replaces a goroutine and changes the fields keeps the invariant if it does
    not forget the algorithm. *)
Lemma inv_update s a mu i t :
  agentInv s -> keepsReceived (s_a s) a -> taskOk (algoReceived (a_svc a) = true) t ->
  heldBy mu (<[i := t]> (s_tasks s)) ->
  agentInv (mkSys (s_rt s) a mu (s_cancel s) (<[i := t]> (s_tasks s))).
Proof.
  intros [Ht Hs Hl Hk Hh] Ha Hok Hmu. split; try done.
  - intros Hp. by apply Ha, Hs.
  - eapply Forall_impl; [exact Hl|]. intros lp. by apply loopOk_mono.
  - apply Forall_insert; [|done]. eapply Forall_impl; [exact Hk|]. intros u. by apply taskOk_mono.
Qed.

Lemma inv_addTask s t : agentInv s -> announces t = false -> holds t = false -> agentInv (addTask t s).
Proof.
  intros [Ht Hs Hl Hk Hh] Ha Hq. split; try done.
  - apply Forall_app. split; [done|]. constructor; [|constructor]. unfold taskOk. congruence.
  - by apply heldBy_app.
Qed.

Section invariant.
Context `{!OS, !ArchiveLib, !OciLib, !AgentEnv}.

Lemma inv_afterBody s i a err ev :
  agentInv s -> s_mu s = false -> keepsReceived (s_a s) a ->
  (ev = Some AlgorithmReceived -> algoReceived (a_svc a) = true) ->
  agentInv (afterBody i err ev (setA a s)).
Proof.
  intros HI Hmu Ha Hev. pose proof (inv_held _ HI) as Hh. rewrite Hmu in Hh. unfold afterBody.
  destruct ev as [e|].
  - apply (inv_update s a true i (TSendRead e true)); [done..| |by apply heldBy_hold].
    unfold taskOk. simpl. intros ->%bool_decide_eq_true. auto.
  - apply (inv_update s a (s_mu s) i (TDone err)); [done..|]. rewrite Hmu. by apply heldBy_quiet.
Qed.

(** No event is being handled. *)
Definition idleLoop (lp : loop AgentState AgentEvent) : bool :=
  match lp with LoopEvent _ _ | LoopNext _ _ => false | _ => true end.

Lemma inv_stop s i : agentInv s -> s_mu s = false -> Forall (fun lp => idleLoop lp = true) (rt_loops (s_rt s)) ->
  forall st, agentInv (runBody i CStop st s).
Proof.
  intros HI Hmu Hidle st. pose proof HI as [Ht Hs Hl Hk Hh]. simpl.
  destruct (stopSteps (s_a s)) as [[u|e] a] eqn:E.
  - split; simpl.
    + exact Ht.
    + done.
    + apply Forall_app. split; [|by repeat constructor]. eapply Forall_impl; [exact Hidle|]. by intros [].
    + apply Forall_insert; [|done]. rewrite Hmu in Hh. destruct Hh as [k Hk'].
      apply Forall_forall. intros t (j & Hj)%list_elem_of_lookup Han. exfalso.
      destruct (proj1 (Forall_lookup _ _) Hk j t Hj Han) as [_ Hho]. by destruct (Hk' j t Hj Hho).
    + rewrite Hmu in Hh. by apply heldBy_hold.
  - assert (Hsame : a_svc a = a_svc (s_a s)).
    { revert E. unfold stopSteps, bindNil, ignore, wrapping, os, perform, modify, lift. simpl.
      repeat case_goal; intros; by simplify_eq. }
    assert (Hrec : keepsReceived (s_a s) a) by (intros Hr; congruence).
    pose proof (inv_update s a (s_mu s) i (TDone (Some e)) HI Hrec) as [Ht' Hs' Hl' Hk' Hh'];
      [done | by apply heldBy_quiet|]. by split.
Qed.

Lemma inv_init s i cmp st : agentInv s -> s_mu s = false -> agentInv (runBody i (CInit cmp) st s).
Proof.
  intros HI Hmu. pose proof HI as [Ht Hs Hl Hk Hh]. split; simpl.
  - by apply tableOk_init.
  - intros Hp. apply Hs. unfold agentState, GetState in *. simpl in *. revert Hp.
    unfold initTransitions. by case_goal.
  - exact Hl.
  - by apply Forall_insert.
  - by apply heldBy_quiet.
Qed.

Lemma inv_runBody s i c st : agentInv s -> s_mu s = false ->
  (c = CStop -> Forall (fun lp => idleLoop lp = true) (rt_loops (s_rt s))) ->
  agentInv (runBody i c st s).
Proof.
  intros HI Hmu Hstop. destruct c as [cmp| |c algo|c d|c].
  - by apply inv_init.
  - apply inv_stop; auto.
  - simpl. destruct (algoBody c algo (s_a s)) as [[r ev] a] eqn:E. apply inv_afterBody; [done..| |].
    + intros Hr. pose proof (received_algoSteps c algo (s_a s) Hr) as Hr'. unfold algoBody in E.
      destruct (algoSteps c algo (s_a s)) as [[]]; by simplify_eq.
    + intros ->. unfold algoBody in E. destruct (algoSteps c algo (s_a s)) as [[]]; [|by simplify_eq].
      destruct (algoReceived _) eqn:Hr; by simplify_eq.
  - simpl. destruct (dataBody c d (s_a s)) as [[r ev] a] eqn:E. apply inv_afterBody; [done..| |].
    + intros Hr. pose proof (received_dataSteps c d (s_a s) Hr) as Hr'. unfold dataBody in E.
      destruct (dataSteps c d (s_a s)) as [[]]; by simplify_eq.
    + intros ->. unfold dataBody in E. destruct (dataSteps c d (s_a s)) as [[]]; [|by simplify_eq].
      case_bool_decide; by simplify_eq.
  - simpl. destruct (resultBody _ _ _) as [[r ev] a] eqn:E. unfold resultBody in E.
    apply inv_afterBody; [done..| |]; repeat case_hyp E; simplify_eq; by intros ?.
Qed.
Lemma inv_action s i act st s' :
  agentInv s -> actionStep i act st s = Some s' -> agentInv s'.
Proof.
  intros HI. pose proof (inv_held _ HI) as Hh.
  destruct act as [| | |status]; simpl.
  - intros [= <-]. apply (inv_update s _ (s_mu s) i (TActionLock DownloadAlgorithm)); try done;
      [apply received_publish | by apply heldBy_quiet].
  - intros [= <-]. apply (inv_update s _ (s_mu s) i (TActionLock DownloadDatasets)); try done;
      [apply received_publish | by apply heldBy_quiet].
  - pose proof (received_runStart (s_a s)) as Hr. set (path := algoFile _).
    destruct (runStart (s_a s)) as [[rq|] a]; [|destruct (s_mu s) eqn:Hmu; [done|]]; intros [= <-].
    + apply (inv_update s a (s_mu s) i (TRunWait path)); try done. by apply heldBy_quiet.
    + apply (inv_update s a (s_mu s) i (TRunCleanup path)); try done. rewrite Hmu. by apply heldBy_quiet.
  - intros [= <-]. apply (inv_update s _ (s_mu s) i (TDone None)); try done;
      [apply received_publish | by apply heldBy_quiet].
Qed.

(** A step of another goroutine than the loops; a stop must find the loops idle. *)
Lemma inv_task s i t s' :
  agentInv s -> s_tasks s !! i = Some t ->
  (forall st, t = TLock CStop st -> Forall (fun lp => idleLoop lp = true) (rt_loops (s_rt s))) ->
  taskStep i t s = Some s' -> agentInv s'.
Proof.
  intros HI Hi Hstop. pose proof (inv_held _ HI) as Hh.
  pose proof (proj1 (Forall_lookup _ _) (inv_tasks _ HI) i t Hi) as Hok.
  destruct t as [c|c st|e held|e g held|act st|act|path|path| |err]; simpl; try done.
  - intros [= <-]. apply (inv_update s (s_a s) (s_mu s)); try done.
    + by destruct (checkState c (agentState s)).
    + apply heldBy_quiet; [done|]. by destruct (checkState c (agentState s)).
  - destruct (s_mu s) eqn:Hmu; [done|]. intros [= <-]. apply inv_runBody; try done. intros ->. by eapply Hstop.
  - intros [= <-]. apply (inv_update s (s_a s) (s_mu s)); try done.
    by eapply heldBy_keep.
  - by apply inv_action.
  - destruct (s_mu s) eqn:Hmu; [done|]. destruct received_downloads as [Hda Hdd].
    assert (Hds : forall ev a, downloadDatasets (s_a s) = (ev, a) -> agentInv (afterBody i None ev (setA a s))).
    { intros ev a E. apply inv_afterBody; try done; [intros Hr; specialize (Hdd _ Hr); by rewrite E in Hdd|].
      intros ->. by apply downloadDatasets_event in E. }
    destruct act; [|destruct (downloadDatasets (s_a s)) as [ev a] eqn:E; intros [= <-]; by apply Hds..].
    destruct (downloadAlgorithm (s_a s)) as [ev a] eqn:E. intros [= <-]. apply inv_afterBody; try done.
    + intros Hr. specialize (Hda _ Hr). by rewrite E in Hda.
    + intros ->. by eapply downloadAlgorithm_received.
  - intros [= <-]. apply (inv_update s _ (s_mu s) i TRunEnd); try done; [by intros ? | by apply heldBy_quiet].
  - destruct (s_mu s) eqn:Hmu; [done|]. intros [= <-].
    apply (inv_update s (s_a s) true i (TSendRead (runEvent (a_svc (s_a s))) true)); try done.
    + unfold taskOk, runEvent. simpl. by case_goal.
    + by apply heldBy_hold.
Qed.

Lemma inv_deliver s i e g held to rt :
  agentInv s -> s_tasks s !! i = Some (TSend e g held) -> sendSelect g e to (s_rt s) = Some rt ->
  agentInv (setMu (if held then false else s_mu s) (setTask i (TDone None) (setRt rt s))).
Proof.
  intros HI Hi Hsel. pose proof HI as [Ht Hs Hl Hk Hh].
  pose proof (proj1 (Forall_lookup _ _) Hk i _ Hi) as Hok.
  assert (Hrt : rt_sm rt = rt_sm (s_rt s) /\ Forall (loopOk (received s)) (rt_loops rt)).
  { revert Hsel. unfold sendSelect. case_goal; [by intros [= <-]|]. destruct to as [j|].
    - destruct (rt_loops (s_rt s) !! j) as [[]|]; try done. case_goal; [|done]. intros [= <-].
      split; [done|]. apply Forall_insert; [done|]. simpl. destruct e; try done. by apply Hok.
    - case_goal; [done|]. by intros [= <-]. }
  destruct Hrt as [Esm Hl']. split; simpl.
  - by rewrite Esm.
  - unfold agentState. simpl. rewrite Esm. exact Hs.
  - exact Hl'.
  - by apply Forall_insert.
  - destruct held; [by eapply heldBy_release | by apply heldBy_quiet].
Qed.

Lemma inv_setRt s rt :
  agentInv s -> tableOk (rt_sm rt) -> (past (GetState (rt_sm rt)) = true -> received s) ->
  Forall (loopOk (received s)) (rt_loops rt) -> agentInv (setRt rt s).
Proof. intros [_ _ _ Hk Hh] ???. by split. Qed.

Lemma inv_loop s j p rt act : agentInv s -> loopStep j p (s_rt s) = Some (rt, act) -> agentInv (setRt rt s).
Proof.
  intros HI. pose proof HI as [Ht Hs Hl Hk Hh]. unfold loopStep.
  destruct (rt_loops (s_rt s) !! j) as [lp|] eqn:Ej; [|by destruct p].
  pose proof (proj1 (Forall_lookup _ _) Hl j _ Ej) as Hlp.
  assert (Hset : forall lp', loopOk (received s) lp' -> agentInv (setRt (setLoop j lp' (s_rt s)) s)).
  { intros lp' Hok. apply inv_setRt; try done. simpl. by apply Forall_insert. }
  destruct lp as [c|c g|c ev|c next|e]; destruct p; try done.
  - intros [= <- _]. by apply Hset.
  - case_goal; [|done]. intros [= <- _]. by apply Hset.
  - case_goal; [|done]. intros [= <- _]. by apply Hset.
  - case_bool_decide; [|done]. intros [= <- _]. by apply Hset.
  - unfold handleLookup. destruct (nextState _ _ ev) as [next|] eqn:En; intros [= <- _]; apply Hset; [|done].
    simpl. intros Hp. destruct ev as [e|]; [|done].
    destruct (Ht _ _ _ En Hp) as [->|Hpast]; [done | by apply Hs].
  - intros [= <- _]. apply inv_setRt; try done. simpl. by apply Forall_insert.
Qed.
(** A step is calm if a stop does not come while an event is being handled. *)
Definition calm (l : slabel) (s : sys) : bool :=
  match l with
  | Task i => match s_tasks s !! i with
              | Some (TLock CStop _) => forallb idleLoop (rt_loops (s_rt s))
              | _ => true
              end
  | _ => true
  end.

Inductive reachable (s0 : sys) : sys -> Prop :=
| reach_start : reachable s0 s0
| reach_step s l s' : reachable s0 s -> calm l s = true -> sstep l s = Some s' -> reachable s0 s'.

Lemma inv_sstep l s s' : agentInv s -> calm l s = true -> sstep l s = Some s' -> agentInv s'.
Proof.
  intros HI Hc. unfold sstep. case_goal; [done|]. destruct l as [c|i|i to|i resp|j p|ctx].
  - intros [= <-]. by apply inv_addTask.
  - destruct (s_tasks s !! i) as [t|] eqn:Hi; [|done]. intros E. eapply inv_task; try done.
    intros st ->. simpl in Hc. rewrite Hi in Hc. apply Is_true_true in Hc.
    rewrite forallb_True in Hc. eapply Forall_impl; [exact Hc|]. intros lp. apply Is_true_true.
  - destruct (s_tasks s !! i) as [[]|] eqn:Hi; try done.
    destruct (sendSelect _ _ _ _) as [rt|] eqn:Es; [|done]. intros [= <-]. by eapply inv_deliver.
  - destruct (s_tasks s !! i) as [[]|] eqn:Hi; try done.
    pose proof (received_runFinish resp (s_a s)) as Hr. destruct (runFinish resp (s_a s)) as [failed a].
    case_goal; [done|]. intros [= <-]. apply (inv_update s a (s_mu s)); try done.
    apply heldBy_quiet; [apply HI | done].
  - destruct (loopStep j p (s_rt s)) as [[rt act]|] eqn:E; [|done]. intros [= <-].
    apply inv_loop in E; [|done]. destruct act; [by apply inv_addTask | done].
  - intros [= <-]. apply inv_setRt; [done|apply HI..].
Qed.

Lemma inv_New skopeo h : agentInv (New skopeo h).
Proof.
  split; simpl.
  - apply tableOk_new.
  - done.
  - by repeat constructor.
  - by repeat constructor.
  - exists 0%nat. intros [|[]] t; [|done..]. by intros [= <-].
Qed.

End invariant.

(** ** Sends under the mutex do not panic *)

Definition sendOk (chans : nat) (t : task) : Prop :=
  match t with TSend _ g true => g = chans | _ => True end.

(** A goroutine that sends with the mutex held sends on the open channel. *)
Definition lockInv (s : sys) : Prop :=
  heldBy (s_mu s) (s_tasks s) /\ Forall (sendOk (sendRead (s_rt s))) (s_tasks s).

Section lock.
Context `{!OS, !ArchiveLib, !OciLib, !AgentEnv}.

Lemma lock_quiet s s' i t :
  lockInv s -> s_mu s' = s_mu s -> sendRead (s_rt s') = sendRead (s_rt s) ->
  s_tasks s' = <[i := t]> (s_tasks s) -> holds t = false -> lockInv s'.
Proof.
  intros [Hh Hs] Hm Hr Ht Hq. split; rewrite ?Hm, ?Hr, Ht.
  - by apply heldBy_quiet.
  - apply Forall_insert; [done|]. destruct t; try done. simpl in *. by subst.
Qed.

Lemma lock_afterBody s i a err ev : lockInv s -> s_mu s = false -> lockInv (afterBody i err ev (setA a s)).
Proof.
  intros HI Hmu. pose proof HI as [Hh Hs]. destruct ev as [e|]; [|by eapply (lock_quiet s)].
  split; simpl.
  - rewrite Hmu in Hh. by apply heldBy_hold.
  - by apply Forall_insert.
Qed.

Lemma lock_free_sends s g : s_mu s = false -> lockInv s -> Forall (sendOk g) (s_tasks s).
Proof.
  intros Hmu [[k Hk] _]. apply Forall_lookup. intros j t Hj. destruct t as [| | |e g' [|]| | | | | |]; try done.
  destruct (Hk j _ Hj eq_refl) as [E _]. congruence.
Qed.

Lemma chans_adds ts sm : sm_chans (addTransitions ts sm) = sm_chans sm.
Proof. revert sm. induction ts as [|t ts IH]; intros sm; [done|]. simpl. by rewrite IH. Qed.

Lemma lock_runBody s i c st : lockInv s -> s_mu s = false -> lockInv (runBody i c st s).
Proof.
  intros HI Hmu. pose proof HI as [Hh _]. destruct c as [cmp| |c algo|c d|c]; simpl.
  - eapply (lock_quiet s); try done. unfold sendRead. simpl. by rewrite chans_adds.
  - destruct (stopSteps (s_a s)) as [[u|e] a]; [|by eapply (lock_quiet s)].
    split; simpl; [rewrite Hmu in Hh; by apply heldBy_hold|].
    apply Forall_insert; [by eapply lock_free_sends | done].
  - destruct (algoBody c algo (s_a s)) as [[r ev] a]. by apply lock_afterBody.
  - destruct (dataBody c d (s_a s)) as [[r ev] a]. by apply lock_afterBody.
  - destruct (resultBody _ _ _) as [[r ev] a]. by apply lock_afterBody.
Qed.

Lemma lock_task s i t s' : lockInv s -> s_tasks s !! i = Some t -> taskStep i t s = Some s' -> lockInv s'.
Proof.
  intros HI Hi. pose proof HI as [Hh Hs].
  destruct t as [c|c st|e held|e g held|act st|act|path|path| |err]; simpl; try done.
  - intros [= <-]. eapply (lock_quiet s); try done. by destruct (checkState _ _).
  - destruct (s_mu s) eqn:Hmu; [done|]. intros [= <-]. by apply lock_runBody.
  - intros [= <-]. split; simpl; [by eapply heldBy_keep|]. apply Forall_insert; [done|]. by destruct held.
  - destruct act as [| | |status]; simpl; [by intros [= <-]; eapply (lock_quiet s)..| |
      by intros [= <-]; eapply (lock_quiet s)].
    destruct (runStart (s_a s)) as [[rq|] a]; [by intros [= <-]; eapply (lock_quiet s)|].
    destruct (s_mu s) eqn:Hmu; [done|]. intros [= <-]. by eapply (lock_quiet s).
  - destruct (s_mu s) eqn:Hmu; [done|]. destruct act;
      [destruct (downloadAlgorithm (s_a s)) as [ev a] | destruct (downloadDatasets (s_a s)) as [ev a]..];
      intros [= <-]; by apply lock_afterBody.
  - intros [= <-]. by eapply (lock_quiet s).
  - destruct (s_mu s) eqn:Hmu; [done|]. intros [= <-]. split; simpl; [by apply heldBy_hold|].
    by apply Forall_insert.
Qed.

Lemma loopStep_chans j p (r r' : agentRuntime) act : loopStep j p r = Some (r', act) -> sendRead r' = sendRead r.
Proof.
  unfold loopStep, handleStore. intros E. repeat case_hyp E; by simplify_eq.
Qed.

Lemma lock_sstep l s s' : lockInv s -> sstep l s = Some s' -> lockInv s'.
Proof.
  intros HI. pose proof HI as [Hh Hs]. unfold sstep. case_goal; [done|].
  destruct l as [c|i|i to|i resp|j p|ctx].
  - intros [= <-]. split; simpl; [by apply heldBy_app|]. apply Forall_app. by repeat constructor.
  - destruct (s_tasks s !! i) as [t|] eqn:Hi; [|done]. by apply lock_task.
  - destruct (s_tasks s !! i) as [[]|] eqn:Hi; try done.
    destruct (sendSelect _ _ _ _) as [rt|] eqn:Es; [|done]. intros [= <-].
    assert (Hc : sendRead rt = sendRead (s_rt s)).
    { unfold sendSelect in Es. repeat case_hyp Es; by simplify_eq. }
    split; simpl; [destruct held; [by eapply heldBy_release | by apply heldBy_quiet]|].
    apply Forall_insert; [by rewrite Hc | done].
  - destruct (s_tasks s !! i) as [[]|] eqn:Hi; try done. destruct (runFinish resp (s_a s)) as [failed a].
    case_goal; [done|]. intros [= <-]. by eapply (lock_quiet s).
  - destruct (loopStep j p (s_rt s)) as [[rt act]|] eqn:E; [|done]. apply loopStep_chans in E.
    intros [= <-]. destruct act; split; simpl; rewrite ?E; try done; [by apply heldBy_app|].
    apply Forall_app. by repeat constructor.
  - by intros [= <-].
Qed.

Lemma lock_srun ls : forall s s', lockInv s -> srun ls s = Some s' -> lockInv s'.
Proof.
  induction ls as [|l ls IH]; intros s s' HI; simpl; [by intros [= <-]|].
  destruct (sstep l s) as [s1|] eqn:E; [|done]. simpl. apply IH. by eapply lock_sstep.
Qed.

(** An event sent with the mutex held never hits a closed channel, in any interleaving:
    only the senders that have released the mutex can panic. *)
Theorem locked_send_safe skopeo h ls s i e g to rt :
  srun ls (New skopeo h) = Some s -> s_tasks s !! i = Some (TSend e g true) ->
  sendSelect g e to (s_rt s) = Some rt -> rt_panic rt = rt_panic (s_rt s).
Proof.
  intros Hr Hi Hsel. apply lock_srun in Hr as [_ Hs].
  - pose proof (proj1 (Forall_lookup _ _) Hs i _ Hi) as Hg. simpl in Hg. subst g.
    revert Hsel. unfold sendSelect, sendRead. rewrite Nat.ltb_irrefl. intros E. repeat case_hyp E; by simplify_eq.
  - split; [|by repeat constructor]. exists 0%nat. intros [|[]] t; [|done..]. by intros [= <-].
Qed.
End lock.

(** ** Concrete runs *)

Module RunSample.
Import BodySample.

Definition boot : sys := New (Ok (mkSkopeoClient "skopeo" "/w")) [].

(** A manifest without data sets. *)
Definition job : Computation :=
  mkComputation "c1" "" "" [] (mkAlgorithm [] (sha3Sum256 code) [] [] None "" []) [[x01]] (mkKBS "" false).

(** Loop [j] handles an event and waits again. *)
Definition handle (j : nat) : list slabel := [Loop j Go; Loop j Go; Loop j Go].

(** The start event of [New] reaches the loop. *)
Definition started : list slabel := [Loop 0 Go; Task 0; Deliver 0 (Some 0%nat)] ++ handle 0.
(** The manifest arrives, the action of the next state finds nothing to download. *)
Definition manifested : list slabel :=
  [Call (CInit job); Task 1; Task 1; Task 1; Deliver 1 (Some 0%nat)] ++ handle 0 ++ [Task 2; Task 2].
(** The algorithm is uploaded; the run starts and waits for the runner. *)
Definition running : list slabel :=
  [Call (CAlgo ctx algo); Task 3; Task 3; Task 3; Deliver 3 (Some 0%nat)] ++ handle 0 ++ [Task 4].
(** The runner answers, the outcome is sent to loop [j]. *)
Definition finished (resp : result error string) (j : nat) : list slabel :=
  [Answer 4 resp; Task 4; Task 4; Task 4; Deliver 4 (Some j)].
(** The consumer asks. *)
Definition consumed : list slabel :=
  [Call (CResult ctx); Task 6; Task 6; Task 6; Deliver 6 (Some 0%nat)] ++ handle 0.

(** A stop: the old loop ends, the new one takes the start event. *)
Definition stopped : list slabel :=
  [Call CStop; Task 5; Task 5; Loop 0 TakeDone; Loop 1 Go; Task 5; Deliver 5 (Some 1%nat)] ++ handle 1.
End RunSample.
Import BodySample RunSample.

Fixpoint calmRun `{OS, ArchiveLib, OciLib, AgentEnv} (ls : list slabel) (s : sys) : option sys :=
  match ls with
  | [] => Some s
  | l :: t => if calm l s then sstep l s ≫= calmRun t else None
  end.

Lemma calmRun_reachable `{!OS, !ArchiveLib, !OciLib, !AgentEnv} s0 ls : forall s s',
  reachable s0 s -> calmRun ls s = Some s' -> reachable s0 s'.
Proof.
  induction ls as [|l ls IH]; intros s s' Hr; simpl; [by intros [= <-]|].
  destruct (calm l s) eqn:Hc; [|done]. destruct (sstep l s) as [s1|] eqn:E; [|done]. simpl.
  apply IH. by eapply reach_step.
Qed.

(** The protocol can be completed: a manifest, the algorithm, the run and the retrieval of
    the result take the agent through its states to [Complete]. *)
Theorem computation_completes :
  exists s, calmRun (started ++ manifested ++ running ++ finished (Ok "") 0 ++ handle 0 ++ consumed) boot = Some s /\
    agentState s = Complete /\ runError (a_svc (s_a s)) = None /\
    Forall (fun t => holds t = false) (s_tasks s) /\ s_mu s = false.
Proof. eexists. split; [vm_compute; reflexivity|]. split_and!; try done. by repeat constructor. Qed.

(** A stop while the runner works is undone by the run it stops: when the runner answers,
    the abandoned run sends its outcome to the new loop, which has no transition for it and
    returns.  From then on the agent accepts a manifest without acting on it. *)
Theorem stop_while_running_disables :
  exists s, calmRun (started ++ manifested ++ running ++ stopped ++
                     finished (Err (ErrNew "canceled")) 1 ++ [Loop 1 Go]) boot = Some s /\
    agentState s = ReceivingManifest /\ Forall ended (rt_loops (s_rt s)) /\
    exists s', calmRun [Call (CInit job); Task 6; Task 6; Task 6; Deliver 6 None] s = Some s' /\
      s_tasks s' !! 6%nat = Some (TDone None) /\ agentState s' = ReceivingManifest.
Proof.
  eexists. split; [vm_compute; reflexivity|]. split; [done|]. split; [repeat constructor; by eexists|].
  eexists. split; [vm_compute; reflexivity|]. by split.
Qed.

(** Two manifests that arrive together both pass the state check; the second event has no
    transition, so the loop returns and the computation never runs. *)
Theorem two_manifests_end_loop :
  exists s, calmRun (started ++ [Call (CInit job); Call (CInit job); Task 1; Task 2; Task 1; Task 2; Task 1;
                     Deliver 1 (Some 0%nat)] ++ handle 0 ++ [Task 2; Deliver 2 (Some 0%nat); Loop 0 Go]) boot = Some s /\
    agentState s = ReceivingAlgorithm /\ Forall ended (rt_loops (s_rt s)).
Proof. eexists. split; [vm_compute; reflexivity|]. split; [done|]. repeat constructor. by eexists. Qed.

(** Without calm the order fails: a stop between the two locks of [handleEvent] resets the
    machine, and the loop then stores the state it had looked up, so the agent is running
    with no manifest and no algorithm. *)
Theorem stop_race_runs_without_algorithm :
  exists s, srun (started ++ manifested ++
      [Call (CAlgo ctx algo); Task 3; Task 3; Task 3; Deliver 3 (Some 0%nat); Loop 0 Go;
       Call CStop; Task 4; Task 4; Loop 0 Go]) boot = Some s /\
    agentState s = Running /\ algoReceived (a_svc (s_a s)) = false /\
    cmp_ID (computation (a_svc (s_a s))) = "".
Proof. eexists. split; [vm_compute; reflexivity|]. by split_and!. Qed.

(** [InitComputation] sends after it has released the mutex, so a stop can come between its
    reading of the channel and its send, which then panics. *)
Theorem init_stop_panics :
  exists s, srun (started ++ [Call (CInit job); Task 1; Task 1; Task 1; Call CStop; Task 2; Task 2;
                  Deliver 1 None]) boot = Some s /\ rt_panic (s_rt s) = true.
Proof. eexists. split; [vm_compute; reflexivity|]. done. Qed.


Lemma locked_send_safe_witness :
  exists s rt, srun (started ++ manifested ++ [Call (CAlgo ctx algo); Task 3; Task 3; Task 3]) boot = Some s /\
    sendSelect 0 AlgorithmReceived (Some 0%nat) (s_rt s) = Some rt /\ rt_panic rt = rt_panic (s_rt s).
Proof.
  eexists _, _. split; [vm_compute; reflexivity|]. split; [vm_compute; reflexivity|].
  eapply (locked_send_safe (Ok (mkSkopeoClient "skopeo" "/w")) []
    (started ++ manifested ++ [Call (CAlgo ctx algo); Task 3; Task 3; Task 3]) _ 3 AlgorithmReceived 0 (Some 0%nat));
    vm_compute; reflexivity.
Defined.
