(* ===== verification/AgentApi.v ===== *)
(** * The agent's gRPC server: [agent/api/grpc]

    Uploads arrive in chunks and are bounded, downloads leave in chunks, nonces are padded
    to their width, and an interceptor authenticates the caller of every method of the
    service before its handler runs.  The agent service is the class [Service], what the
    endpoints use of it; the authenticator is that of [AgentAuth]. *)

From Equations Require Import Equations.
From stdpp Require Import base gmap sets list strings.
From Stdlib Require Import ZArith Lia Strings.Byte.
From S2P Require Import Prelude GoStrings Errors GoOS Sha2 Archive Oci AgentService GoTime.
From S2P Require Import EaAuthenticator AgentAuth.

Definition bufferSize : Z := 1024 * 1024.
Definition maxAlgorithmUploadBytes : Z := 512 * 1024 * 1024.
Definition maxRequirementsUploadBytes : Z := 64 * 1024 * 1024.
Definition maxDatasetUploadBytes : Z := 1024 * 1024 * 1024.

Definition ErrTEENonceLength := ErrNew "grpc.ErrTEENonceLength".
Definition ErrVTPMNonceLength := ErrNew "grpc.ErrVTPMNonceLength".
Definition ErrTokenNonceLength := ErrNew "grpc.ErrTokenNonceLength".

Definition SEVNonce : Z := 64.
Definition Nonce : Z := 32.

(** [status.Error] with its code. *)
Definition statusError (code : string) : error := ErrNew code.
Definition Internal : error := statusError "codes.Internal".
Definition ResourceExhausted : error := statusError "codes.ResourceExhausted".
Definition Unauthenticated : error := statusError "codes.Unauthenticated".

(** ** Uploads *)

Definition appendBounded (dst chunk : list byte) (max : Z) : result error (list byte) :=
  if max - len dst <? len chunk then Err ResourceExhausted else Ok (dst ++ chunk).

(** A client stream: its messages, then [io.EOF] or another error. *)
Record recvStream (M : Type) := mkRecv { rv_msgs : list M; rv_err : option error }.
Arguments mkRecv {M}. Arguments rv_msgs {M}. Arguments rv_err {M}.

Record AlgoRequest := mkAlgoRequest { ar_Algorithm : list byte; ar_Requirements : list byte }.
Record DataRequest := mkDataRequest { dr_Dataset : list byte; dr_Filename : string }.

Fixpoint receiveAlgoLoop (msgs : list AlgoRequest) (err : option error) (algoFile reqFile : list byte)
    : result error (list byte * list byte) :=
  match msgs with
  | [] => match err with None => Ok (algoFile, reqFile) | Some _ => Err Internal end
  | chunk :: t =>
      let* algoFile := appendBounded algoFile (ar_Algorithm chunk) maxAlgorithmUploadBytes in
      let* reqFile := appendBounded reqFile (ar_Requirements chunk) maxRequirementsUploadBytes in
      receiveAlgoLoop t err algoFile reqFile
  end.

Definition receiveAlgoData (s : recvStream AlgoRequest) : result error (list byte * list byte) :=
  receiveAlgoLoop (rv_msgs s) (rv_err s) [] [].

Fixpoint receiveLoop (msgs : list DataRequest) (err : option error) (data : list byte) (filename : string)
    : result error (list byte * string) :=
  match msgs with
  | [] => match err with None => Ok (data, filename) | Some _ => Err Internal end
  | chunk :: t =>
      let* data := appendBounded data (dr_Dataset chunk) maxDatasetUploadBytes in
      receiveLoop t err data (if bool_decide (dr_Filename chunk = "") then filename else dr_Filename chunk)
  end.

Definition receiveStreamingData (s : recvStream DataRequest) : result error (list byte * string) :=
  receiveLoop (rv_msgs s) (rv_err s) [] "".

(** ** Downloads *)

#[local] Obligation Tactic := idtac.

Section streams.
Context (size : nat) (size_pos : (0 < size)%nat).
(** What sending the next message gives, after those already sent. *)
Context (send : list (list byte) -> list byte -> option error).

(** [bytes.Buffer.Read] fills the buffer or takes what is left; at the end it is [io.EOF]. *)
Equations streamChunks (data : list byte) (sent : list (list byte))
    : option error * list (list byte) by wf (length data) lt :=
  streamChunks [] sent := (None, sent);
  streamChunks (b :: t) sent :=
    match send sent (take size (b :: t)) with
    | Some e => (Some e, sent)
    | None => streamChunks (drop size (b :: t)) (sent ++ [take size (b :: t)])
    end.
Next Obligation. intros. rewrite length_drop. pose proof size_pos. simpl. lia. Qed.

Context (send2 : list (list byte * list byte) -> list byte * list byte -> option error).

(** Two buffers, read in step until both are empty. *)
Equations streamDual (buf1 buf2 : list byte) (sent : list (list byte * list byte))
    : option error * list (list byte * list byte) by wf (length buf1 + length buf2)%nat lt :=
  streamDual [] [] sent := (None, sent);
  streamDual buf1 buf2 sent :=
    match send2 sent (take size buf1, take size buf2) with
    | Some _ => (Some Internal, sent)
    | None => streamDual (drop size buf1) (drop size buf2) (sent ++ [(take size buf1, take size buf2)])
    end.
Next Obligation. intros. rewrite !length_drop. pose proof size_pos. simpl. lia. Qed.
Next Obligation. intros. rewrite !length_drop. pose proof size_pos. simpl. lia. Qed.
End streams.

Lemma bufferSize_pos : (0 < Z.to_nat bufferSize)%nat.
Proof. apply (Z2Nat.inj_lt 0 bufferSize); done. Qed.

(** The two senders, with the buffer of the server; nothing has been sent before. *)
Definition sendChunks (send : list (list byte) -> list byte -> option error) (data : list byte) :=
  streamChunks (Z.to_nat bufferSize) bufferSize_pos send data [].
Definition streamFileData (send : list (list byte) -> list byte -> option error) (data : list byte)
    : option error * list (list byte) :=
  let '(e, out) := sendChunks send data in (option_map (fun _ => Internal) e, out).
Definition streamDualBuffers (send : list (list byte * list byte) -> list byte * list byte -> option error)
    (buf1 buf2 : list byte) :=
  streamDual (Z.to_nat bufferSize) bufferSize_pos send buf1 buf2 [].

(** ** Requests *)

(** [copy] into a zeroed array of [n] bytes. *)
Definition copyInto (n : Z) (src : list byte) : list byte :=
  let src := take (Z.to_nat n) src in src ++ replicate (Z.to_nat n - length src) x00.

Definition validateNonce (nonce : list byte) (maxLen : Z) : result error (list byte) :=
  if maxLen <? len nonce then
    if maxLen =? SEVNonce then Err ErrTEENonceLength
    else if maxLen =? Nonce then Err ErrVTPMNonceLength
    else Err ErrTokenNonceLength
  else Ok (copyInto maxLen nonce).

Record AttestationRequest := mkAttestationRequest {
  atr_TeeNonce : list byte; atr_VtpmNonce : list byte; atr_Type : Z }.

(** The platform types the agent's API takes: SNP, vTPM, SNP with vTPM, TDX. *)
Definition validateAttestationType (attType : Z) : option error :=
  if bool_decide (attType ∈ [0; 1; 2; 4]) then None else Some (ErrNew "invalid attestation type").

Definition decodeAttestationRequest (req : AttestationRequest) : result error AttestationRequest :=
  let* reportData := validateNonce (atr_TeeNonce req) SEVNonce in
  let* nonce := validateNonce (atr_VtpmNonce req) Nonce in
  Ok (mkAttestationRequest reportData nonce (atr_Type req)).

Definition decodeAttestationTokenRequest (tokenNonce : list byte) : result error (list byte) :=
  validateNonce tokenNonce Nonce.

Definition validateAlgoReq (r : AlgoRequest) : option error :=
  if len (ar_Algorithm r) =? 0 then Some (ErrNew "algorithm binary is required") else None.
Definition validateDataReq (r : DataRequest) : option error :=
  if len (dr_Dataset r) =? 0 then Some (ErrNew "dataset is required") else None.

(** ** Endpoints and handlers *)

(** What the endpoints call of the agent service. *)
Class Service := {
  svc_Algo : context -> Algorithm -> option error;
  svc_Data : context -> Dataset -> option error;
  svc_Result : context -> result error (list byte);
  svc_Attestation : list byte -> list byte -> Z -> result error (list byte);
  svc_IMAMeasurements : result error (list byte * list byte);
  svc_AzureAttestationToken : list byte -> result error (list byte) }.

Section handlers.
Context `{Service}.

Definition algoEndpoint (c : context) (req : AlgoRequest) : option error :=
  match validateAlgoReq req with
  | Some e => Some e
  | None => svc_Algo c (mkAlgorithm (ar_Algorithm req) zeroHash [] (ar_Requirements req) None "" [])
  end.

Definition dataEndpoint (c : context) (req : DataRequest) : option error :=
  match validateDataReq req with
  | Some e => Some e
  | None => svc_Data c (mkDataset (dr_Dataset req) zeroHash [] (dr_Filename req) None false)
  end.

Definition resultEndpoint (c : context) : result error (list byte) := svc_Result c.

Definition attestationEndpoint (req : AttestationRequest) : result error (list byte) :=
  match validateAttestationType (atr_Type req) with
  | Some e => Err e
  | None => svc_Attestation (atr_TeeNonce req) (atr_VtpmNonce req) (atr_Type req)
  end.

Definition imaMeasurementsEndpoint : result error (list byte * list byte) := svc_IMAMeasurements.
Definition azureAttestationTokenEndpoint (tokenNonce : list byte) : result error (list byte) :=
  svc_AzureAttestationToken tokenNonce.

(** The handlers; [None] stands for a response without payload. *)
Definition Algo (c : context) (stream : recvStream AlgoRequest) : option error :=
  match receiveAlgoData stream with
  | Err e => Some e
  | Ok (algoFile, reqFile) => algoEndpoint c (mkAlgoRequest algoFile reqFile)
  end.

Definition Data (c : context) (stream : recvStream DataRequest) : option error :=
  match receiveStreamingData stream with
  | Err e => Some e
  | Ok (dataFile, filename) => dataEndpoint c (mkDataRequest dataFile filename)
  end.

(** The header with the size is set before the first chunk. *)
Definition streamingHandler (res : result error (list byte)) (setHeader : Z -> option error)
    (send : list (list byte) -> list byte -> option error) : option error * list (list byte) :=
  match res with
  | Err e => (Some e, [])
  | Ok fileData =>
      match setHeader (len fileData) with
      | Some _ => (Some Internal, [])
      | None => streamFileData send fileData
      end
  end.

Definition Result (c : context) := streamingHandler (resultEndpoint c).

Definition AttestationHandler (req : AttestationRequest) :=
  streamingHandler (let* r := decodeAttestationRequest req in attestationEndpoint r).

Definition IMAHandler (setHeader : Z -> option error)
    (send : list (list byte * list byte) -> list byte * list byte -> option error)
    : option error * list (list byte * list byte) :=
  match imaMeasurementsEndpoint with
  | Err e => (Some e, [])
  | Ok (file, pcr10) =>
      match setHeader (len file) with
      | Some _ => (Some Internal, [])
      | None => streamDualBuffers send file pcr10
      end
  end.

Definition AzureTokenHandler (tokenNonce : list byte) : result error (list byte) :=
  let* n := decodeAttestationTokenRequest tokenNonce in azureAttestationTokenEndpoint n.
End handlers.

(** ** Interceptors *)

Definition AgentService_Algo : string := "/agent.AgentService/Algo".
Definition AgentService_Data : string := "/agent.AgentService/Data".
Definition AgentService_Result : string := "/agent.AgentService/Result".
Definition AgentService_Attestation : string := "/agent.AgentService/Attestation".
Definition AgentService_IMAMeasurements : string := "/agent.AgentService/IMAMeasurements".
Definition AgentService_AzureAttestationToken : string := "/agent.AgentService/AzureAttestationToken".

(** The context of a call: its incoming metadata, and the index the authenticator adds. *)
Record rpcContext := mkRpc { rpc_md : option (gmap string (list string)); rpc_index : option Z }.

Definition mdValues (md : option (gmap string (list string))) (key : string) : list string :=
  match md with Some m => default [] (m !! key) | None => [] end.

(** What the service reads of it. *)
Definition serviceContext (c : rpcContext) : context :=
  mkContext (mdValues (rpc_md c) "algo_type") (mdValues (rpc_md c) "algo_args")
    (mdValues (rpc_md c) "decompress") (rpc_index c).

Section interceptors.
Context {K : Type} `{!AgentCrypto K}.

(** [AuthenticateUser] returns a context with the index of a consumer. *)
Definition authenticate (now1 now2 : Time) (c : rpcContext) (role method : string)
    : st (AgentAuth.service K) (result error rpcContext) := fun s =>
  match AuthenticateUser now1 now2 (rpc_md c) role method s with
  | (Ok (Some i), s) => (Ok (mkRpc (rpc_md c) (Some i)), s)
  | (Ok None, s) => (Ok c, s)
  | (Err e, s) => (Err e, s)
  end.

Definition AuthStreamInterceptor {R : Type} (now1 now2 : Time) (method : string) (c : rpcContext)
    (handler : rpcContext -> R) : st (AgentAuth.service K) (result error R) := fun s =>
  let guarded role (next : rpcContext -> rpcContext) :=
    match authenticate now1 now2 c role method s with
    | (Err _, s) => (Err Unauthenticated, s)
    | (Ok c', s) => (Ok (handler (next c')), s)
    end in
  if bool_decide (method = AgentService_Algo) then guarded AlgorithmProviderRole (fun _ => c)
  else if bool_decide (method = AgentService_Data) then guarded DataProviderRole (fun c' => c')
  else if bool_decide (method = AgentService_Result) then guarded ConsumerRole (fun c' => c')
  else if bool_decide (method = AgentService_Attestation)
          || bool_decide (method = AgentService_IMAMeasurements)
  then guarded ConsumerRole (fun c' => c')
  else (Ok (handler c), s).

Definition AuthUnaryInterceptor {R : Type} (now1 now2 : Time) (method : string) (c : rpcContext)
    (handler : rpcContext -> R) : st (AgentAuth.service K) (result error R) := fun s =>
  if bool_decide (method = AgentService_Result)
     || bool_decide (method = AgentService_AzureAttestationToken)
  then match authenticate now1 now2 c ConsumerRole method s with
       | (Err _, s) => (Err Unauthenticated, s)
       | (Ok c', s) => (Ok (handler c'), s)
       end
  else (Ok (handler c), s).
End interceptors.

(** ** Uploads are bounded *)

Lemma appendBounded_ok dst chunk max r :
  appendBounded dst chunk max = Ok r <-> r = dst ++ chunk /\ len dst + len chunk <= max.
Proof.
  unfold appendBounded. destruct (Z.ltb_spec (max - len dst) (len chunk)); split.
  - done.
  - intros [_ ?]. lia.
  - intros <-%Ok_inj. split; [done|]. lia.
  - intros [-> _]. done.
Qed.

Lemma appendBounded_fits dst chunk max :
  len (dst ++ chunk) <= max -> appendBounded dst chunk max = Ok (dst ++ chunk).
Proof. intros Hl. apply appendBounded_ok. split; [done|]. by rewrite <- len_app. Qed.

Lemma receiveAlgoLoop_ok msgs err : forall a0 r0 a r,
  len a0 <= maxAlgorithmUploadBytes -> len r0 <= maxRequirementsUploadBytes ->
  receiveAlgoLoop msgs err a0 r0 = Ok (a, r) <->
  err = None /\ a = a0 ++ concat (map ar_Algorithm msgs) /\ r = r0 ++ concat (map ar_Requirements msgs) /\
  len a <= maxAlgorithmUploadBytes /\ len r <= maxRequirementsUploadBytes.
Proof.
  induction msgs as [|m msgs IH]; intros a0 r0 a r Ha Hr; cbn [receiveAlgoLoop map concat].
  { rewrite !app_nil_r. destruct err; [naive_solver|]. split; [intros [= <- <-]; done | naive_solver]. }
  rewrite !app_assoc. split.
  - destruct (appendBounded a0 _ _) as [a1|] eqn:E1; [|done].
    destruct (appendBounded r0 _ _) as [r1|] eqn:E2; [|done].
    apply appendBounded_ok in E1 as [-> ?], E2 as [-> ?]. apply IH; rewrite len_app; lia.
  - intros (He & Ea & Er & Hla & Hlr).
    assert (H1 : len (a0 ++ ar_Algorithm m) <= maxAlgorithmUploadBytes).
    { rewrite Ea, len_app in Hla. pose proof (len_nonneg (concat (map ar_Algorithm msgs))). lia. }
    assert (H2 : len (r0 ++ ar_Requirements m) <= maxRequirementsUploadBytes).
    { rewrite Er, len_app in Hlr. pose proof (len_nonneg (concat (map ar_Requirements msgs))). lia. }
    rewrite !appendBounded_fits by done.
    by apply IH.
Qed.

(** C26: An algorithm upload is taken exactly when the stream ends without an error and the
    two files stay within 512 MiB and 64 MiB; the files are the chunks in order. *)
Theorem receiveAlgoData_bounded s a r :
  receiveAlgoData s = Ok (a, r) <->
  rv_err s = None /\ a = concat (map ar_Algorithm (rv_msgs s)) /\
  r = concat (map ar_Requirements (rv_msgs s)) /\
  len a <= maxAlgorithmUploadBytes /\ len r <= maxRequirementsUploadBytes.
Proof. apply receiveAlgoLoop_ok; done. Qed.

Lemma receiveLoop_ok msgs err : forall d0 n0 d n,
  len d0 <= maxDatasetUploadBytes -> receiveLoop msgs err d0 n0 = Ok (d, n) ->
  err = None /\ d = d0 ++ concat (map dr_Dataset msgs) /\ len d <= maxDatasetUploadBytes.
Proof.
  induction msgs as [|m msgs IH]; intros d0 n0 d n Hd; cbn [receiveLoop map concat].
  { destruct err; [done|]. intros [= <- <-]. by rewrite app_nil_r. }
  destruct (appendBounded d0 _ _) as [d1|] eqn:E; [|done]. apply appendBounded_ok in E as [-> ?].
  rewrite app_assoc. intros E. eapply IH; [|exact E]. rewrite len_app. lia.
Qed.

(** ** Downloads are complete *)

Section stream_proofs.
Context (size : nat) (size_pos : (0 < size)%nat).

Definition chunkOk (c : list byte) : Prop := c <> [] /\ (length c <= size)%nat.

Lemma take_chunkOk b t : chunkOk (take size (b :: t)).
Proof.
  split; [|rewrite length_take; lia]. destruct size; [lia|done].
Qed.

Lemma streamChunks_spec send data : forall sent,
  Forall chunkOk sent ->
  let '(e, out) := streamChunks size size_pos send data sent in
  Forall chunkOk out /\ exists rest, concat sent ++ data = concat out ++ rest /\ (e = None -> rest = []) /\
    ((forall h c, send h c = None) -> e = None).
Proof.
  induction data as [data IH] using (induction_ltof1 _ (@length byte)). intros sent HF.
  destruct data as [|b t]; [rewrite streamChunks_equation_1; split; [done|]; by exists []|].
  rewrite streamChunks_equation_2. destruct (send sent (take size (b :: t))) as [err|] eqn:E.
  - split; [done|]. exists (b :: t). split; [done|]. split; [done|]. congruence.
  - assert (Hlt : ltof _ length (drop size (b :: t)) (b :: t)) by (unfold ltof; rewrite length_drop; simpl; lia).
    specialize (IH _ Hlt (sent ++ [take size (b :: t)])).
    destruct (streamChunks _ _ _ _ _) as [e out]. destruct IH as [Hout (rest & Er & Hrest)].
    { apply Forall_app. split; [done|]. constructor; [apply take_chunkOk | done]. }
    split; [done|]. exists rest. split; [|done].
    rewrite <- Er, concat_app. simpl. rewrite app_nil_r, <- app_assoc. by rewrite take_drop.
Qed.

Lemma streamDual_spec send buf1 buf2 : forall sent,
  let '(e, out) := streamDual size size_pos send buf1 buf2 sent in
  exists r1 r2, concat (map fst sent) ++ buf1 = concat (map fst out) ++ r1 /\
    concat (map snd sent) ++ buf2 = concat (map snd out) ++ r2 /\ (e = None -> r1 = [] /\ r2 = []) /\
    ((forall h c, send h c = None) -> e = None).
Proof.
  remember (length buf1 + length buf2)%nat as n eqn:En. revert buf1 buf2 En.
  induction n as [n IH] using lt_wf_ind. intros buf1 buf2 -> sent.
  destruct (decide (buf1 = [] /\ buf2 = [])) as [[-> ->]|Hne].
  { rewrite streamDual_equation_1. exists [], []. by rewrite !app_nil_r. }
  assert (Estep : streamDual size size_pos send buf1 buf2 sent =
    match send sent (take size buf1, take size buf2) with
    | Some _ => (Some Internal, sent)
    | None => streamDual size size_pos send (drop size buf1) (drop size buf2) (sent ++ [(take size buf1, take size buf2)])
    end).
  { destruct buf1; [|by rewrite streamDual_equation_3]. destruct buf2; [naive_solver|]. by rewrite streamDual_equation_2. }
  rewrite Estep. destruct (send sent _) as [err|] eqn:E.
  - exists buf1, buf2. split; [done|]. split; [done|]. split; [done|]. congruence.
  - specialize (IH (length (drop size buf1) + length (drop size buf2))%nat).
    assert (Hlt : (length (drop size buf1) + length (drop size buf2) < length buf1 + length buf2)%nat).
    { rewrite !length_drop. destruct buf1, buf2; simpl; try lia. naive_solver. }
    specialize (IH Hlt _ _ eq_refl (sent ++ [(take size buf1, take size buf2)])).
    destruct (streamDual _ _ _ _ _ _) as [e out]. destruct IH as (r1 & r2 & E1 & E2 & Hr).
    exists r1, r2. rewrite !map_app, !concat_app in E1, E2. simpl in E1, E2.
    rewrite !app_nil_r, <- !app_assoc, take_drop in E1, E2. by rewrite E1, E2.
Qed.
End stream_proofs.

Lemma sendChunks_spec send data e out :
  sendChunks send data = (e, out) ->
  Forall (fun c => 0 < len c <= bufferSize) out /\
  exists rest, data = concat out ++ rest /\ (e = None -> rest = []) /\
    ((forall h c, send h c = None) -> e = None).
Proof.
  unfold sendChunks. intros E.
  pose proof (streamChunks_spec (Z.to_nat bufferSize) bufferSize_pos send data [] (Forall_nil_2 _)) as Hs.
  rewrite E in Hs. destruct Hs as [HF Hr]. split; [|done].
  eapply Forall_impl; [exact HF|]. intros c [Hne Hl]. unfold len. split; [destruct c; [done|]; simpl; lia|].
  apply Nat2Z.inj_le in Hl. rewrite Z2Nat.id in Hl by (unfold bufferSize; lia). exact Hl.
Qed.

(** A download is sent in chunks of at most 1 MiB, none of them empty; what was sent is a
    beginning of the file, all of it when no error is returned, and none is returned when
    every chunk can be sent. *)
Theorem streamFileData_complete send data e out :
  streamFileData send data = (e, out) ->
  Forall (fun c => 0 < len c <= bufferSize) out /\
  exists rest, data = concat out ++ rest /\ (e = None -> rest = []) /\
    ((forall h c, send h c = None) -> e = None).
Proof.
  unfold streamFileData. destruct (sendChunks send data) as [e' out'] eqn:E. intros [= <- <-].
  apply sendChunks_spec in E as (HF & rest & Ed & Hn & Hs). split; [done|]. exists rest.
  split; [done|]. split; [by destruct e'|]. intros Hall. by rewrite (Hs Hall).
Qed.

(** The measurement list and the register value are sent in step and both arrive whole. *)
Theorem streamDualBuffers_complete send file pcr :
  (forall h c, send h c = None) ->
  exists out, streamDualBuffers send file pcr = (None, out) /\
    concat (map fst out) = file /\ concat (map snd out) = pcr.
Proof.
  intros Hsend. unfold streamDualBuffers.
  pose proof (streamDual_spec (Z.to_nat bufferSize) bufferSize_pos send file pcr []) as Hs.
  destruct (streamDual _ _ _ _ _ _) as [e out]. destruct Hs as (r1 & r2 & E1 & E2 & Hr & He).
  specialize (He Hsend). subst e. destruct (Hr eq_refl) as [-> ->]. exists out.
  simpl in E1, E2. rewrite app_nil_r in E1, E2. by rewrite <- E1, <- E2.
Qed.

(** ** Nonces *)

Lemma validateNonce_ok nonce maxLen r :
  0 <= maxLen -> validateNonce nonce maxLen = Ok r ->
  len r = maxLen /\ exists pad, r = nonce ++ replicate pad x00.
Proof.
  intros Hm. unfold validateNonce. destruct (Z.ltb_spec maxLen (len nonce)) as [|Hl]; [by repeat case_goal|].
  intros <-%Ok_inj. unfold copyInto. rewrite take_ge by (unfold len in Hl; lia).
  split; [|by eexists]. rewrite len_app. unfold len in *. rewrite length_replicate. lia.
Qed.

(** The report data and the nonce that reach the attestation service have their full
    width, 64 and 32 bytes, and begin with what the caller sent; longer values are refused. *)
Theorem attestation_request_width req r :
  decodeAttestationRequest req = Ok r ->
  len (atr_TeeNonce r) = SEVNonce /\ len (atr_VtpmNonce r) = Nonce /\ atr_Type r = atr_Type req /\
  (exists k, atr_TeeNonce r = atr_TeeNonce req ++ replicate k x00) /\
  (exists k, atr_VtpmNonce r = atr_VtpmNonce req ++ replicate k x00) /\
  len (atr_TeeNonce req) <= SEVNonce /\ len (atr_VtpmNonce req) <= Nonce.
Proof.
  unfold decodeAttestationRequest. destruct (validateNonce (atr_TeeNonce req) SEVNonce) as [t|] eqn:E1; [|done].
  destruct (validateNonce (atr_VtpmNonce req) Nonce) as [v|] eqn:E2; [|done]. intros <-%Ok_inj. simpl.
  apply validateNonce_ok in E1 as [L1 [k1 ->]], E2 as [L2 [k2 ->]]; [|done..].
  rewrite len_app in L1, L2. pose proof (len_nonneg (replicate k1 x00)). pose proof (len_nonneg (replicate k2 x00)).
  rewrite !len_app. split_and!; try done; try lia; by eexists.
Qed.

(** A token nonce that is too long is reported with the error of the vTPM nonce, because
    both have the same width; the error for token nonces is never returned. *)
Theorem token_nonce_error n :
  Nonce < len n -> decodeAttestationTokenRequest n = Err ErrVTPMNonceLength.
Proof.
  intros Hl. unfold decodeAttestationTokenRequest, validateNonce. by rewrite (proj2 (Z.ltb_lt _ _)).
Qed.

(** ** Every method of the service is authenticated *)

(** The role a method asks for. *)
Definition methodRole (method : string) : option string :=
  if bool_decide (method = AgentService_Algo) then Some AlgorithmProviderRole
  else if bool_decide (method = AgentService_Data) then Some DataProviderRole
  else if bool_decide (method ∈ [AgentService_Result; AgentService_Attestation; AgentService_IMAMeasurements;
                                 AgentService_AzureAttestationToken]) then Some ConsumerRole
  else None.

(** [AzureAttestationToken] is the one unary method. *)
Definition intercept {K R} `{!AgentCrypto K} (now1 now2 : Time) (method : string) (c : rpcContext)
    (handler : rpcContext -> R) : st (AgentAuth.service K) (result error R) :=
  if bool_decide (method = AgentService_AzureAttestationToken)
  then AuthUnaryInterceptor now1 now2 method c handler
  else AuthStreamInterceptor now1 now2 method c handler.

Section intercept.
Context {K : Type} `{!AgentCrypto K}.
Implicit Types s : AgentAuth.service K.

Lemma authenticate_ok now1 now2 c role method s c' s' :
  authenticate now1 now2 c role method s = (Ok c', s') ->
  exists o, AuthenticateUser now1 now2 (rpc_md c) role method s = (Ok o, s') /\ rpc_md c' = rpc_md c /\
    (forall i, o = Some i -> rpc_index c' = Some i).
Proof.
  unfold authenticate. destruct (AuthenticateUser _ _ _ _ _ s) as [[[i|]|e] s1]; [| |done];
    intros [= <- <-]; eexists; (split; [done|]); naive_solver.
Qed.

Lemma intercept_role {R} now1 now2 method role c (handler : rpcContext -> R) s :
  methodRole method = Some role ->
  exists next, intercept now1 now2 method c handler s =
    match authenticate now1 now2 c role method s with
    | (Err _, s') => (Err Unauthenticated, s')
    | (Ok c', s') => (Ok (handler (next c')), s')
    end /\ (role <> AlgorithmProviderRole -> forall c', next c' = c').
Proof.
  unfold methodRole, intercept, AuthUnaryInterceptor, AuthStreamInterceptor.
  case_bool_decide as H1; [intros [= <-]; subst method; exists (fun _ => c); split; [done | by intros []]|].
  case_bool_decide as H2; [intros [= <-]; subst method; by exists (fun c' => c')|].
  case_bool_decide as H3; [|done]. intros [= <-]. exists (fun c' => c'). split; [|done].
  rewrite !elem_of_cons in H3. destruct H3 as [->|[->|[->|[->|H3]]]]; try done. by apply elem_of_nil in H3.
Qed.

(** C25: The handler of a method of the agent service runs only for a caller the
    authenticator accepts in the role of that method, at that method and those times; the
    nonces it marks are kept also when the handler fails. *)
Theorem methods_authenticated {R} now1 now2 method role c (handler : rpcContext -> R) s r s' :
  methodRole method = Some role -> intercept now1 now2 method c handler s = (Ok r, s') ->
  exists o, userAccepts now1 now2 (rpc_md c) role method s o s'.
Proof.
  intros Hr. destruct (intercept_role now1 now2 method role c handler s Hr) as (next & -> & _).
  destruct (authenticate now1 now2 c role method s) as [[c'|e] s1] eqn:E; [|done]. intros [= _ <-].
  apply authenticate_ok in E as (o & E & _). exists o. by apply AuthenticateUser_Ok.
Qed.

Lemma parseKeys_length raws (ks : list (PublicKey K)) : parseKeys raws = Ok ks -> length ks = length raws.
Proof.
  revert ks. induction raws as [|raw raws IH]; intros ks; simpl; [by intros <-%Ok_inj|].
  destruct (ParsePKIXPublicKey raw) as [k|]; [|done]. destruct (decodePublicKey k) as [k'|]; [|done].
  destruct (parseKeys raws) as [ks'|]; [|done]. intros <-%Ok_inj. simpl. by rewrite (IH ks').
Qed.

(** Composition with the service: a consumer the interceptor lets through asks for the
    results under an index of the manifest's consumers, so [Result] does not refuse it as
    undeclared. *)
Theorem authenticated_consumer_declared now1 now2 c s handled s' raws :
  parseKeys raws = Ok (resultConsumers s) ->
  intercept now1 now2 AgentService_Result c serviceContext s = (Ok handled, s') ->
  exists i, IndexFromContext handled = Some i /\ 0 <= i < len raws /\
    forall st a, cmp_ResultConsumers (computation (a_svc a)) = raws -> runError (a_svc a) = None ->
      fst (fst (resultBody st i a)) = Ok (result_ (a_svc a)).
Proof.
  intros Hk. destruct (intercept_role now1 now2 AgentService_Result ConsumerRole c serviceContext s eq_refl)
    as (next & -> & Hnext).
  destruct (authenticate now1 now2 c ConsumerRole AgentService_Result s) as [[c'|e] s1] eqn:E; [|done].
  intros [= <- <-]. rewrite Hnext by done. apply authenticate_ok in E as (o & E & _ & Hi).
  apply AuthenticateUser_Ok in E as (sig & iat & nonce & t & i & _ & _ & Hf & _ & -> & _).
  destruct Hf as (pre & k & post & Ek & -> & _). change (roleKeys s ConsumerRole) with (resultConsumers s) in Ek.
  specialize (Hi _ eq_refl). exists (len pre). split; [done|].
  assert (Hlt : 0 <= len pre < len raws).
  { apply parseKeys_length in Hk. rewrite Ek, length_app in Hk. simpl in Hk. unfold len. lia. }
  split; [done|]. intros st a Hc He. unfold resultBody. rewrite Hc, He.
  rewrite (proj2 (Z.ltb_ge (len pre) 0)), (proj2 (Z.leb_gt (len raws) (len pre))) by lia. simpl. by case_goal.
Qed.
End intercept.

(** ** Witnesses *)

Lemma streamFileData_complete_witness :
  exists e out, streamFileData (fun _ _ => None) [x01; x02] = (e, out) /\
    Forall (fun c => 0 < len c <= bufferSize) out.
Proof.
  destruct (streamFileData (fun _ _ => None) [x01; x02]) as [e out] eqn:E. exists e, out. split; [done|].
  destruct (streamFileData_complete _ _ _ _ E) as [HF _]. exact HF.
Defined.

Lemma streamDualBuffers_complete_witness :
  exists out, streamDualBuffers (fun _ _ => None) [x01; x02] [x03] = (None, out) /\
    concat (map fst out) = [x01; x02] /\ concat (map snd out) = [x03].
Proof. by apply streamDualBuffers_complete. Defined.

Lemma attestation_request_width_witness :
  exists r, decodeAttestationRequest (mkAttestationRequest [x01] [x02] 0) = Ok r /\ len (atr_TeeNonce r) = 64.
Proof.
  eexists. split; [vm_compute; reflexivity|].
  apply (attestation_request_width (mkAttestationRequest [x01] [x02] 0)). vm_compute. reflexivity.
Defined.

Lemma token_nonce_error_witness :
  decodeAttestationTokenRequest (replicate 33 x00) = Err ErrVTPMNonceLength.
Proof. apply token_nonce_error. vm_compute. reflexivity. Defined.

Module ApiSample.
Definition caller : rpcContext := mkRpc Sample.request None.

Lemma let_through :
  intercept Sample.issued Sample.issued AgentService_Result caller serviceContext Sample.start
  = (Ok (serviceContext (mkRpc Sample.request (Some 1))), snd Sample.first).
Proof. vm_compute. reflexivity. Qed.

Lemma keys : parseKeys [bytesOf "a"; bytesOf "b"] = Ok (resultConsumers Sample.start).
Proof. vm_compute. reflexivity. Qed.
End ApiSample.

Lemma methods_authenticated_witness :
  exists o, userAccepts Sample.issued Sample.issued Sample.request ConsumerRole AgentService_Result
    Sample.start o (snd Sample.first).
Proof. exact (methods_authenticated _ _ AgentService_Result ConsumerRole _ _ _ _ _ eq_refl ApiSample.let_through). Defined.

Lemma authenticated_consumer_declared_witness :
  exists i, IndexFromContext (serviceContext (mkRpc Sample.request (Some 1))) = Some i /\ 0 <= i < 2.
Proof.
  destruct (authenticated_consumer_declared Sample.issued Sample.issued ApiSample.caller Sample.start _ _
    [bytesOf "a"; bytesOf "b"] ApiSample.keys ApiSample.let_through) as (i & Hi & Hr & _).
  by exists i.
Defined.
