(* ===== verification/Cvms.v ===== *)
(** * The agent's link to the computation service: [agent/cvms/api/grpc]

    The agent keeps one stream to the computation service.  Run requests arrive in chunks
    that are collected by computation; messages that cannot be sent are kept in a file and
    sent again after a reconnect.  [client.go] and [storage.go] are the agent's side,
    [server.go] the other. *)

From stdpp Require Import base gmap list strings.
From Stdlib Require Import ZArith Lia Strings.Byte.
From S2P Require Import Prelude GoStrings Errors GoOS Sha2 Archive Oci AgentService AgentApi.

(** ** Messages *)

(** The cases of the [oneof] the agent uses; nil when none is set. *)
Inductive clientBody :=
| RunRes (computationId err : string)
| StopComputationRes (computationId message : string)
| AgentStateRes (state id : string)
| AgentEventMsg (computationId eventType status : string)
| AgentLogMsg (computationId message : string).

Definition bodyTag (b : clientBody) : Z :=
  match b with
  | RunRes _ _ => 0 | StopComputationRes _ _ => 1 | AgentStateRes _ _ => 2
  | AgentEventMsg _ _ _ => 3 | AgentLogMsg _ _ => 4
  end.

Record Message := mkMessage { m_Message : option clientBody; m_Time : Time }.

(** ** Storage *)

Inductive fileContent := FAbsent | FUnreadable | FCorrupt | FMessages (ms : list Message).

Record FileStorage := mkStorage { fs_file : fileContent; fs_msgs : list Message }.

(** [json.Unmarshal] into an element of the slice: an interface value can only be decoded
    into the pointer it already holds. *)
Definition decodeElem (old : option Message) (m : Message) : Message * bool :=
  match m_Message m with
  | None => (m, true)
  | Some b =>
      match old ≫= m_Message with
      | Some o => (mkMessage (Some (if bodyTag o =? bodyTag b then b else o)) (m_Time m), true)
      | None => (mkMessage None (m_Time m), false)
      end
  end.

Fixpoint decodeElems (old ms : list Message) : list Message * bool :=
  match ms with
  | [] => ([], true)
  | m :: t =>
      let '(m', ok) := decodeElem (head old) m in
      let '(t', oks) := decodeElems (tail old) t in
      (m' :: t', ok && oks)
  end.

Definition NewFileStorage (file : fileContent) : FileStorage := mkStorage file [].

Definition Load (fs : FileStorage) : result error (list Message) * FileStorage :=
  match fs_file fs with
  | FAbsent => (Ok [], fs)
  | FUnreadable => (Err (ErrNew "read"), fs)
  | FCorrupt => (Err (ErrNew "json"), fs)
  | FMessages ms =>
      let '(msgs, ok) := decodeElems (fs_msgs fs) ms in
      (if ok : bool then Ok msgs else Err (ErrNew "json: cannot unmarshal into interface"),
       mkStorage (fs_file fs) msgs)
  end.

(** [os.WriteFile], which the operating system may refuse. *)
Definition writeMsgs (werr : option error) (msgs : list Message) (fs : FileStorage)
    : option error * FileStorage :=
  match werr with
  | Some e => (Some e, mkStorage (fs_file fs) msgs)
  | None => (None, mkStorage (FMessages msgs) msgs)
  end.

Definition Save (werr : option error) (messages : list Message) (fs : FileStorage) :=
  writeMsgs werr messages fs.
Definition Add (werr : option error) (now : Time) (msg : option clientBody) (fs : FileStorage) :=
  writeMsgs werr (fs_msgs fs ++ [mkMessage msg now]) fs.
Definition Clear (werr : option error) (fs : FileStorage) := writeMsgs werr [] fs.

(** ** Run requests in chunks *)

(** [runRequestManager]: the bytes received so far, by computation. *)
Notation requests := (gmap string (list byte)).

Definition addChunk (id : string) (chunk : list byte) (isLast : bool) (m : requests)
    : option (list byte) * requests :=
  let buffer := default [] (m !! id) ++ chunk in
  if isLast then (Some buffer, delete id m) else (None, <[id := buffer]> m).

Definition timeoutRequest (id : string) (m : requests) : requests := delete id m.

Record RunReqChunk := mkChunk { ch_Id : string; ch_Data : list byte; ch_IsLast : bool }.

(** What reaches the manager: chunks, and the timer of a request. *)
Inductive chunkEvent := EChunk (c : RunReqChunk) | ETimeout (id : string).

Fixpoint collect (evs : list chunkEvent) (m : requests) : list (string * list byte) * requests :=
  match evs with
  | [] => ([], m)
  | ETimeout id :: t => collect t (timeoutRequest id m)
  | EChunk c :: t =>
      match addChunk (ch_Id c) (ch_Data c) (ch_IsLast c) m with
      | (Some buffer, m) => let '(out, m) := collect t m in ((ch_Id c, buffer) :: out, m)
      | (None, m) => collect t m
      end
  end.

(** [sendRunReqInChunks] of the server: full buffers, what is left, and an empty last
    chunk; [None] while every send succeeds. *)
Definition sendRunReqInChunks (send : list (list byte) -> list byte -> option error)
    (id : string) (data : list byte) : option error * list RunReqChunk :=
  match sendChunks send data with
  | (Some e, chunks) => (Some e, map (fun c => mkChunk id c false) chunks)
  | (None, chunks) =>
      (send chunks [], map (fun c => mkChunk id c false) chunks ++ [mkChunk id [] true])
  end.

(** ** The manifest of a run request *)

Record SourceMsg := mkSourceMsg { sm_Url : string; sm_KbsResourcePath : string; sm_Encrypted : bool }.
Record AlgorithmMsg := mkAlgorithmMsg {
  am_Hash : list byte; am_UserKey : list byte; am_Source : option SourceMsg;
  am_AlgoType : string; am_AlgoArgs : list string }.
Record DatasetMsg := mkDatasetMsg {
  dm_Hash : list byte; dm_UserKey : list byte; dm_Filename : string; dm_Source : option SourceMsg;
  dm_Decompress : bool }.
Record ComputationRunReq := mkRunReq {
  rr_Id : string; rr_Name : string; rr_Description : string; rr_Algorithm : option AlgorithmMsg;
  rr_Datasets : list DatasetMsg; rr_ResultConsumers : list (list byte); rr_Kbs : option KBSConfig }.

(** The conversion [[32]byte(s)] panics on a shorter slice. *)
Definition hash32 (s : list byte) : option (list byte) :=
  if len s <? 32 then None else Some (take 32 s).

Definition sourceOf (s : SourceMsg) : ResourceSource :=
  mkSource "" (sm_Url s) (sm_KbsResourcePath s) (sm_Encrypted s).

Definition datasetOf (d : DatasetMsg) : option Dataset :=
  h ← hash32 (dm_Hash d);
  Some (mkDataset [] h (dm_UserKey d) (dm_Filename d) (sourceOf <$> dm_Source d) (dm_Decompress d)).

Definition algorithmOf (a : option AlgorithmMsg) : option Algorithm :=
  match a with
  | None => Some zeroAlgorithm
  | Some a =>
      h ← hash32 (am_Hash a);
      Some (mkAlgorithm [] h (am_UserKey a) [] (sourceOf <$> am_Source a) (am_AlgoType a) (am_AlgoArgs a))
  end.

(** The manifest [executeRun] builds; [None] is the panic. *)
Definition computationOf (r : ComputationRunReq) : option Computation :=
  alg ← algorithmOf (rr_Algorithm r);
  ds ← mapM datasetOf (rr_Datasets r);
  Some (mkComputation (rr_Id r) (rr_Name r) (rr_Description r) ds alg (rr_ResultConsumers r)
          (default (mkKBS "" false) (rr_Kbs r))).

(** ** Handlers *)

(** What the client calls: the service, the agent's server, the ingress proxy, the PCR. *)
Inductive clientAct :=
| AInit (c : Computation)
| AStop
| AServerStart (c : Computation)
| AServerStop
| AIngressStart (c : Computation)
| AIngressStop
| AExtendPCR (c : Computation)
| AQueue (m : clientBody)
| ACloseClient.

Class ClientEnv := {
  svc_State : list clientAct -> string;
  svc_Init : list clientAct -> Computation -> option error;
  svc_Stop : list clientAct -> option error;
  sp_Start : list clientAct -> Computation -> option error;
  sp_Stop : list clientAct -> option error;
  hasIngress : bool;
  (** the platform is Azure or SNP with a vTPM *)
  extendsPCR : bool;
  unmarshalRunReq : list byte -> result error ComputationRunReq }.

Inductive serverMsg :=
| MRunReqChunks (c : RunReqChunk)
| MStopComputation (id : string)
| MAgentStateReq (id : string)
| MDisconnectReq
| MUnknown.

Definition errText (o : option error) : string :=
  match o with None => "" | Some (ErrNew t) => t | Some _ => "error" end.

Definition errCorruptedManifest := ErrNew "grpc.errCorruptedManifest".
Definition errUnknownMessageType := ErrNew "grpc.errUnknownMessageType".

Section client.
Context `{ClientEnv}.

(** [executeRun] up to its panic ([None]); the calls it makes. *)
Definition executeRun (r : ComputationRunReq) (h : list clientAct) : option (list clientAct) :=
  ac ← computationOf r;
  if negb (bool_decide (svc_State h = stateString ReceivingManifest)) then Some h
  else
    let h1 := h ++ [AInit ac] in
    match svc_Init h ac with
    | Some _ => Some h1
    | None =>
        let e := sp_Start h1 ac in
        let h2 := h1 ++ [AServerStart ac] in
        let h3 := if hasIngress then h2 ++ [AIngressStart ac] else h2 in
        let h4 := h3 ++ [AQueue (RunRes (rr_Id r) (errText e))] in
        Some (if extendsPCR then h4 ++ [AExtendPCR ac] else h4)
    end.

Definition handleStopComputation (id : string) (h : list clientAct) : list clientAct :=
  let e1 := svc_Stop h in
  let h1 := h ++ [AStop] in
  let e2 := sp_Stop h1 in
  let h2 := h1 ++ [AServerStop] in
  let h3 := if hasIngress then h2 ++ [AIngressStop] else h2 in
  h3 ++ [AQueue (StopComputationRes id (errText (match e2 with Some _ => e2 | None => e1 end)))].

Definition handleAgentStateReq (id : string) (h : list clientAct) : list clientAct :=
  h ++ [AQueue (AgentStateRes (svc_State h) id)].

Definition handleRunReqChunks (c : RunReqChunk) (m : requests)
    : result error (option ComputationRunReq) * requests :=
  match addChunk (ch_Id c) (ch_Data c) (ch_IsLast c) m with
  | (None, m) => (Ok None, m)
  | (Some buffer, m) =>
      (match unmarshalRunReq buffer with
       | Err e => Err (ErrJoin [e; errCorruptedManifest])
       | Ok r => Ok (Some r)
       end, m)
  end.

(** What a message starts; an error ends the connection. *)
Inductive started := StartRun (r : ComputationRunReq) | StartStop (id : string).

Definition processIncomingMessage (msg : serverMsg) (h : list clientAct) (m : requests)
    : result error (option started) * list clientAct * requests :=
  match msg with
  | MRunReqChunks c =>
      let '(res, m) := handleRunReqChunks c m in
      (match res with Err e => Err e | Ok o => Ok (StartRun <$> o) end, h, m)
  | MStopComputation id => (Ok (Some (StartStop id)), h, m)
  | MAgentStateReq id => (Ok None, handleAgentStateReq id h, m)
  | MDisconnectReq => (Ok None, h ++ [ACloseClient], m)
  | MUnknown => (Err errUnknownMessageType, h, m)
  end.
End client.

(** ** Outgoing messages *)

Section outgoing.
(** The stream: what sending gives after the messages already sent; the file system: what
    writing the file gives; the clock. *)
Context (send : list (option clientBody) -> option clientBody -> option error)
        (write : FileStorage -> option error) (now : Time).

Definition sendStreamMessage (msg : option clientBody) (sent : list (option clientBody))
    : option error * list (option clientBody) :=
  match send sent msg with None => (None, sent ++ [msg]) | Some e => (Some e, sent) end.

Fixpoint sendPendingLoop (pending : list Message) (fs : FileStorage) (sent : list (option clientBody))
    : FileStorage * list (option clientBody) :=
  match pending with
  | [] => (fs, sent)
  | pm :: t =>
      match sendStreamMessage (m_Message pm) sent with
      | (Some _, sent) => sendPendingLoop t (snd (Add (write fs) now (m_Message pm) fs)) sent
      | (None, sent) => sendPendingLoop t fs sent
      end
  end.

Definition sendPendingMessages (pending : list Message) (fs : FileStorage) (sent : list (option clientBody))
    : FileStorage * list (option clientBody) :=
  let '(fs, sent) := sendPendingLoop pending fs sent in (snd (Clear (write fs) fs), sent).

(** The first part of [handleOutgoingMessages]. *)
Definition resendStored (fs : FileStorage) (sent : list (option clientBody))
    : FileStorage * list (option clientBody) :=
  match Load fs with
  | (Err _, fs) => (fs, sent)
  | (Ok pending, fs) => sendPendingMessages pending fs sent
  end.

(** One message of the queue. *)
Definition sendQueued (msg : option clientBody) (fs : FileStorage) (sent : list (option clientBody))
    : FileStorage * list (option clientBody) :=
  match sendStreamMessage msg sent with
  | (None, sent) => (fs, sent)
  | (Some _, sent) => (snd (Add (write fs) now msg fs), sent)
  end.
End outgoing.

(** ** Run requests arrive whole *)

(** The event concerns the request [id]. *)
Definition concerns (id : string) (ev : chunkEvent) : bool :=
  match ev with EChunk c => bool_decide (ch_Id c = id) | ETimeout i => bool_decide (i = id) end.

(** What is received for [id] depends only on the events that concern it. *)
Lemma collect_filter id evs : forall m m',
  m !! id = m' !! id ->
  filter (fun o => o.1 = id) (fst (collect evs m))
  = fst (collect (filter (fun ev => concerns id ev = true) evs) m').
Proof.
  induction evs as [|ev evs IH]; intros m m' Hm; [done|].
  rewrite filter_cons. destruct ev as [c|i]; simpl concerns; case_decide as Hc.
  - apply bool_decide_eq_true in Hc. cbn [collect]. unfold addChunk. rewrite Hc, Hm. destruct (ch_IsLast c).
    + assert (Hd : delete id m !! id = delete id m' !! id) by by rewrite !lookup_delete_eq.
      specialize (IH _ _ Hd). destruct (collect evs _), (collect (filter _ evs) _). simpl in *.
      rewrite filter_cons_True by done. by f_equal.
    + apply IH. by rewrite !lookup_insert_eq.
  - assert (Hne : ch_Id c <> id) by (intros ?; by rewrite bool_decide_eq_true_2 in Hc). cbn [collect]. unfold addChunk.
    destruct (ch_IsLast c).
    + assert (Hd : delete (ch_Id c) m !! id = m' !! id) by by rewrite lookup_delete_ne.
      specialize (IH _ _ Hd). destruct (collect evs _). simpl in *. by rewrite filter_cons_False.
    + apply IH. by rewrite lookup_insert_ne.
  - apply bool_decide_eq_true in Hc. subst i. cbn [collect]. apply IH. unfold timeoutRequest.
    by rewrite !lookup_delete_eq.
  - assert (Hne : i <> id) by (intros ?; by rewrite bool_decide_eq_true_2 in Hc). cbn [collect]. apply IH.
    unfold timeoutRequest. by rewrite lookup_delete_ne.
Qed.

(** A transfer appends to what is there and completes with the last chunk. *)
Lemma collect_transfer id chunks : forall m,
  collect (map EChunk (map (fun c => mkChunk id c false) chunks ++ [mkChunk id [] true])) m
  = ([(id, default [] (m !! id) ++ concat chunks)], delete id (foldl (fun m c => snd (addChunk id c false m)) m chunks)).
Proof.
  induction chunks as [|c chunks IH]; intros m; cbn [map collect app concat foldl ch_Id ch_Data ch_IsLast addChunk].
  - done.
  - rewrite IH. cbn [snd]. rewrite lookup_insert_eq. simpl. by rewrite app_assoc.
Qed.

(** Round trip of a run request: whatever other requests and timeouts come between, the
    chunks the server sends for a computation that has no bytes waiting are put together to
    exactly the bytes of the request, once. *)
Theorem run_request_roundtrip send id data evs m :
  (forall h c, send h c = None) -> m !! id = None ->
  filter (fun ev => concerns id ev = true) evs = map EChunk (snd (sendRunReqInChunks send id data)) ->
  filter (fun o => o.1 = id) (fst (collect evs m)) = [(id, data)].
Proof.
  intros Hsend Hm Hevs. rewrite (collect_filter id evs m m) by done. rewrite Hevs. unfold sendRunReqInChunks.
  destruct (sendChunks send data) as [e chunks] eqn:E.
  apply sendChunks_spec in E as (_ & rest & Ed & Hr & He). specialize (He Hsend). subst e.
  specialize (Hr eq_refl). subst rest. rewrite app_nil_r in Ed. subst data.
  cbn [snd]. rewrite collect_transfer, Hm. done.
Qed.

(** A transfer that was cut off and is started again within the timeout is not put together
    correctly: the bytes left from the first attempt stay in front. *)
Theorem interrupted_transfer_corrupts send id data old m :
  (forall h c, send h c = None) -> m !! id = Some old ->
  fst (collect (map EChunk (snd (sendRunReqInChunks send id data))) m) = [(id, old ++ data)].
Proof.
  intros Hsend Hm. unfold sendRunReqInChunks. destruct (sendChunks send data) as [e chunks] eqn:E.
  apply sendChunks_spec in E as (_ & rest & Ed & Hr & He). specialize (He Hsend). subst e.
  specialize (Hr eq_refl). subst rest. rewrite app_nil_r in Ed. subst data.
  cbn [snd]. by rewrite collect_transfer, Hm.
Qed.

(** ** The manifest *)

Lemma mapM_None {A B} (f : A -> option B) l : mapM f l = None <-> exists x, x ∈ l /\ f x = None.
Proof.
  split.
  - induction l as [|x l IH]; simpl; [done|]. destruct (f x) as [y|] eqn:E; [|by exists x; split; [left|]].
    simpl. destruct (mapM f l); [done|]. intros _. destruct (IH eq_refl) as (z & Hz & ?). exists z. split; [by right | done].
  - intros (x & Hx & Hf). induction l as [|y l IH]; [by apply elem_of_nil in Hx|].
    apply elem_of_cons in Hx as [->|Hx]; simpl; [by rewrite Hf|].
    destruct (f y); simpl; [|done]. by rewrite (IH Hx).
Qed.

(** A run request whose algorithm or a data set has a hash of fewer than 32 bytes ends the
    process: the conversion to an array panics in a goroutine; all others are converted. *)
Theorem short_hash_panics r :
  computationOf r = None <->
  (exists a, rr_Algorithm r = Some a /\ len (am_Hash a) < 32) \/
  (exists d, d ∈ rr_Datasets r /\ len (dm_Hash d) < 32).
Proof.
  assert (Hh : forall s, hash32 s = None <-> len s < 32).
  { intros s. unfold hash32. destruct (Z.ltb_spec (len s) 32); split; (done || lia). }
  assert (Hd : forall d, datasetOf d = None <-> len (dm_Hash d) < 32).
  { intros d. rewrite <- Hh. unfold datasetOf. by destruct (hash32 (dm_Hash d)). }
  assert (Ha : algorithmOf (rr_Algorithm r) = None <-> exists a, rr_Algorithm r = Some a /\ len (am_Hash a) < 32).
  { unfold algorithmOf. destruct (rr_Algorithm r) as [a|]; [|naive_solver].
    specialize (Hh (am_Hash a)). destruct (hash32 (am_Hash a)); naive_solver. }
  unfold computationOf. destruct (algorithmOf (rr_Algorithm r)) as [alg|]; simpl; [|naive_solver].
  destruct (mapM datasetOf (rr_Datasets r)) as [ds|] eqn:Em; simpl.
  - split; [done|]. intros [H1|(d & Hin & Hl)]; [by apply Ha in H1|]. apply Hd in Hl.
    assert (None = Some ds); [|done]. rewrite <- Em. symmetry. apply mapM_None. eauto.
  - split; [|done]. intros _. right. apply mapM_None in Em as (d & Hin & Hf). exists d. split; [done|]. by apply Hd.
Qed.

(** A run request that arrives while the agent is busy is dropped: no call is made and no
    answer is queued, whether it is the computation in progress or another one. *)
Theorem busy_agent_drops_request `{ClientEnv} r h :
  computationOf r <> None -> svc_State h <> stateString ReceivingManifest -> executeRun r h = Some h.
Proof.
  intros Hc Hs. unfold executeRun. destruct (computationOf r); [|done]. simpl. by rewrite bool_decide_eq_false_2.
Qed.

(** A run request taken by an idle agent is initialised before its servers start, and is
    answered exactly once, with the error of the agent's server if that did not start. *)
Theorem run_request_answered `{ClientEnv} r c h :
  computationOf r = Some c -> svc_State h = stateString ReceivingManifest -> svc_Init h c = None ->
  exists mid post, executeRun r h =
    Some (h ++ AInit c :: AServerStart c :: mid ++ AQueue (RunRes (rr_Id r) (errText (sp_Start (h ++ [AInit c]) c))) :: post)
    /\ mid = (if hasIngress then [AIngressStart c] else [])
    /\ post = (if extendsPCR then [AExtendPCR c] else []).
Proof.
  intros Hc Hs Hi. eexists _, _. split; [|done]. unfold executeRun. rewrite Hc. simpl.
  rewrite bool_decide_eq_true_2 by done. simpl. rewrite Hi.
  destruct hasIngress, extendsPCR; simpl; by rewrite <- !app_assoc.
Qed.

(** ** Stored messages *)

(** In one process the file holds what is in memory. *)
Definition storageInv (fs : FileStorage) : Prop :=
  fs_file fs = FMessages (fs_msgs fs) \/ (fs_file fs = FAbsent /\ fs_msgs fs = []).

Lemma decodeElems_same ms : decodeElems ms ms = (ms, true).
Proof.
  induction ms as [|m ms IH]; [done|]. cbn [decodeElems head tail]. rewrite IH. unfold decodeElem.
  destruct m as [[b|] t]; simpl; [|done]. by rewrite Z.eqb_refl.
Qed.

(** Within a process the storage returns what was added, in order: adding to a storage in
    step with its file and loading gives the old messages and the new one. *)
Theorem storage_add_load now msg fs :
  storageInv fs ->
  let fs' := snd (Add None now msg fs) in
  storageInv fs' /\ fst (Load fs') = Ok (fs_msgs fs ++ [mkMessage msg now]).
Proof.
  intros HI. simpl. split; [by left|]. unfold Load. cbn [fs_file fs_msgs]. by rewrite decodeElems_same.
Qed.

(** After a restart the stored messages are lost: with a message in the file and nothing in
    memory, loading fails, nothing is sent again, and the next message that is added
    replaces the file. *)
Theorem restart_loses_messages send write now b t ms sent msg :
  let fs := NewFileStorage (FMessages (mkMessage (Some b) t :: ms)) in
  (exists e, fst (Load fs) = Err e) /\ snd (resendStored send write now fs sent) = sent /\
  let fs' := snd (Add None now msg (fst (resendStored send write now fs sent))) in
  exists rest, fs_file fs' = FMessages (mkMessage None t :: rest).
Proof.
  unfold resendStored, Load, NewFileStorage. cbn [fs_file fs_msgs decodeElems head tail].
  unfold decodeElem at 1. cbn [m_Message mbind option_bind].
  destruct (decodeElems [] ms) as [t' oks]. simpl. split; [by eexists|]. split; [done|]. by eexists.
Qed.

Lemma sendPendingLoop_fails send write now pending : forall fs sent,
  (forall h m, send h m <> None) -> snd (sendPendingLoop send write now pending fs sent) = sent.
Proof.
  intros fs sent Hs. revert fs. induction pending as [|pm pending IH]; intros fs; [done|]. cbn [sendPendingLoop].
  unfold sendStreamMessage. destruct (send sent (m_Message pm)) eqn:E; [apply IH | by destruct (Hs sent (m_Message pm))].
Qed.

(** Messages that fail again are lost: when the stream refuses them they are added to the
    storage, and then the storage is cleared, so they are neither sent nor kept. *)
Theorem failed_resend_lost send write now pending fs sent :
  (forall f, write f = None) -> (forall h m, send h m <> None) ->
  let r := sendPendingMessages send write now pending fs sent in
  snd r = sent /\ fs_msgs (fst r) = [] /\ fst (Load (fst r)) = Ok [].
Proof.
  intros Hw Hs. unfold sendPendingMessages. pose proof (sendPendingLoop_fails send write now pending fs sent Hs) as E.
  destruct (sendPendingLoop send write now pending fs sent) as [fs1 s1]. simpl in E. subst s1.
  unfold Clear. by rewrite Hw.
Qed.

(** ** Witnesses *)

Module CvmsSample.
#[global] Instance env : ClientEnv := {
  svc_State h := match h with [] => "ReceivingManifest" | _ => "Running" end;
  svc_Init _ _ := None; svc_Stop _ := None; sp_Start _ _ := None; sp_Stop _ := None;
  hasIngress := true; extendsPCR := false; unmarshalRunReq _ := Err (ErrNew "proto") }.

Definition req : ComputationRunReq :=
  mkRunReq "c1" "" "" (Some (mkAlgorithmMsg (replicate 32 x00) [] None "bin" [])) [] [] None.
Definition cmp : Computation :=
  mkComputation "c1" "" "" [] (mkAlgorithm [] (replicate 32 x00) [] [] None "bin" []) [] (mkKBS "" false).
End CvmsSample.

Lemma transfer_concerns send id data :
  filter (fun ev => concerns id ev = true) (map EChunk (snd (sendRunReqInChunks send id data)))
  = map EChunk (snd (sendRunReqInChunks send id data)).
Proof.
  assert (Hown : Forall (fun c => ch_Id c = id) (snd (sendRunReqInChunks send id data))).
  { unfold sendRunReqInChunks. destruct (sendChunks send data) as [[e|] chunks]; simpl;
      [|apply Forall_app; split; [|by constructor]]; apply Forall_map, Forall_true; done. }
  induction Hown as [|c cs Hc _ IH]; [done|]. cbn [map]. rewrite filter_cons_True; [by rewrite IH|].
  simpl. by apply bool_decide_eq_true.
Qed.

Lemma run_request_roundtrip_witness :
  filter (fun o => o.1 = "c1")
    (fst (collect (ETimeout "c0" :: map EChunk (snd (sendRunReqInChunks (fun _ _ => None) "c1" [x01; x02]))) ∅))
  = [("c1", [x01; x02])].
Proof.
  apply (run_request_roundtrip (fun _ _ => None)); [done|done|].
  rewrite filter_cons_False by done. apply transfer_concerns.
Defined.

Lemma interrupted_transfer_corrupts_witness :
  fst (collect (map EChunk (snd (sendRunReqInChunks (fun _ _ => None) "c1" [x01]))) {["c1" := [x09]]})
  = [("c1", [x09; x01])].
Proof. by apply (interrupted_transfer_corrupts (fun _ _ => None) "c1" [x01] [x09]). Defined.

Lemma busy_agent_drops_request_witness : executeRun CvmsSample.req [AStop] = Some [AStop].
Proof. by apply busy_agent_drops_request. Defined.

Lemma run_request_answered_witness :
  exists c mid post, executeRun CvmsSample.req [] =
    Some ([] ++ AInit c :: AServerStart c :: mid ++ AQueue (RunRes "c1" "") :: post).
Proof.
  destruct (run_request_answered CvmsSample.req CvmsSample.cmp []) as (mid & post & E & _); [reflexivity..|].
  exists CvmsSample.cmp, mid, post. exact E.
Defined.

Lemma storage_add_load_witness :
  fst (Load (snd (Add None 5 (Some (AgentStateRes "Idle" "1")) (NewFileStorage FAbsent))))
  = Ok [mkMessage (Some (AgentStateRes "Idle" "1")) 5].
Proof. apply (storage_add_load 5 (Some (AgentStateRes "Idle" "1")) (NewFileStorage FAbsent)). by right. Defined.

Lemma failed_resend_lost_witness :
  fs_msgs (fst (sendPendingMessages (fun _ _ => Some (ErrNew "EOF")) (fun _ => None) 5
    [mkMessage (Some (RunRes "c1" "")) 1] (NewFileStorage FAbsent) [])) = [].
Proof. by apply (failed_resend_lost (fun _ _ => Some (ErrNew "EOF")) (fun _ => None)). Defined.
