(* ===== verification/Qemu.v ===== *)
(** * Virtual machines: [manager/qemu] and [manager/vm]

    A confidential virtual machine is a QEMU process.  Its command line is computed from a
    configuration whose security part is checked first; the process is started, signalled
    and waited for.  The operating system is that of [GoOS]; what it says of processes,
    and the identifiers of the UUID library, are the class [ProcEnv]. *)

From stdpp Require Import base list strings.
From Stdlib Require Import ZArith Lia Strings.Byte.
From S2P Require Import Prelude GoStrings Errors GoOS GoEncoding GoNumbers Archive.

(** ** The states of a machine: [manager/vm/state.go] *)

Inductive ManagerState := VmProvision | StopComputationRun | VmRunning.
#[export] Instance ManagerState_eq : EqDecision ManagerState.
Proof. solve_decision. Defined.

Definition ManagerStateString (s : ManagerState) : string :=
  match s with
  | VmProvision => "VmProvision"
  | StopComputationRun => "StopComputationRun"
  | VmRunning => "VmRunning"
  end.

Definition errTransition : error := ErrNew "invalid state transition".

Definition TransitionVM (state newState : ManagerState) : option error * ManagerState :=
  match state, newState with
  | VmProvision, VmRunning | VmProvision, StopComputationRun
  | VmRunning, StopComputationRun
  | StopComputationRun, VmRunning => (None, newState)
  | _, _ => (Some errTransition, state)
  end.

(** ** Configuration: [config.go] *)

Record MemoryConfig := mkMemory { mem_Size : string; mem_Slots : Z; mem_Max : string }.
Record OVMFCodeConfig := mkOVMFCode {
  code_If : string; code_Format : string; code_Unit : Z; code_File : string;
  code_ReadOnly : string; code_Version : string }.
Record OVMFVarsConfig := mkOVMFVars {
  vars_If : string; vars_Format : string; vars_Unit : Z; vars_File : string }.
Record NetDevConfig := mkNetDev { net_ID : string; net_HostFwdAgent : Z; net_GuestFwdAgent : Z }.
Record VirtioNetPciConfig := mkVirtio {
  virtio_DisableLegacy : string; virtio_IOMMUPlatform : bool; virtio_Addr : string;
  virtio_ROMFile : string }.
Record DiskImgConfig := mkDisk { disk_KernelFile : string; disk_RootFsFile : string }.
Record SEVSNPConfig := mkSEV {
  sev_ID : string; sev_CBitPos : Z; sev_ReducedPhysBits : Z; sev_EnableHostData : bool;
  sev_HostData : string }.
Record TDXConfig := mkTDX { tdx_ID : string; tdx_QuoteGenerationPort : Z; tdx_OVMF : string }.
Record IGVMConfig := mkIGVM { igvm_ID : string; igvm_File : string }.

Record Config := mkConfig {
  c_EnableSEVSNP : bool; c_EnableTDX : bool; c_QemuBinPath : string; c_UseSudo : bool;
  c_EnableKVM : bool; c_Machine : string; c_CPU : string; c_SMPCount : Z; c_MaxCPUs : Z;
  c_MemID : string; c_Memory : MemoryConfig; c_OVMFCode : OVMFCodeConfig;
  c_OVMFVars : OVMFVarsConfig; c_NetDev : NetDevConfig; c_Virtio : VirtioNetPciConfig;
  c_DiskImg : DiskImgConfig; c_SEVSNP : SEVSNPConfig; c_TDX : TDXConfig; c_IGVM : IGVMConfig;
  c_NoGraphic : bool; c_Monitor : string; c_KernelCommandLine : string;
  c_HostFwdRange : string; c_CertsMount : string; c_EnvMount : string }.

(** ** Host data: [security.go] *)

Definition ErrMissingSEVSNPAppraisalValue : error := ErrNew "missing SEV-SNP appraisal value".
Definition ErrSEVSNPAppraisalMismatch : error := ErrNew "SEV-SNP appraisal mismatch".
Definition SEVSNPHostDataHexLength : Z := 64.

(** [hex.DecodeString]. *)
Fixpoint hexDecode (s : list Z) : option (list Z) :=
  match s with
  | [] => Some []
  | [_] => None
  | a :: b :: t =>
      x ← hexValue a; y ← hexValue b; r ← hexDecode t; Some (x * 16 + y :: r)
  end.

Definition NormalizeSEVSNPHostData (hostData : string) : result error string :=
  let normalized := ToLower (TrimSpace hostData) in
  if negb (slen normalized =? SEVSNPHostDataHexLength)
  then Err (ErrNew "invalid SEV-SNP host data: expected 64 hex characters")
  else
    match hexDecode (codes normalized) with
    | None => Err (ErrWrap "invalid SEV-SNP host data" (ErrNew "hex"))
    | Some decoded =>
        if negb (len decoded =? 32)
        then Err (ErrNew "invalid SEV-SNP host data: expected 32 bytes")
        else Ok normalized
    end.

Record SEVSNPAppraisalContract := mkContract {
  k_RequireHostData : bool; k_ExpectedHostData : string; k_RequireKernelHashes : bool }.
Record SEVSNPAppraisalEvidence := mkEvidence {
  ev_HostData : string; ev_KernelHashesEnabled : bool }.

Definition validateHostData (contract : SEVSNPAppraisalContract)
    (evidence : SEVSNPAppraisalEvidence) : result error unit :=
  if bool_decide (TrimSpace (k_ExpectedHostData contract) = "")
  then Err (ErrWrap "expected host data" ErrMissingSEVSNPAppraisalValue)
  else
    let* expected :=
      wrapRes "expected host data" (NormalizeSEVSNPHostData (k_ExpectedHostData contract)) in
    if bool_decide (TrimSpace (ev_HostData evidence) = "")
    then Err (ErrWrap "observed host data" ErrMissingSEVSNPAppraisalValue)
    else
      let* observed :=
        wrapRes "observed host data" (NormalizeSEVSNPHostData (ev_HostData evidence)) in
      if bool_decide (observed = expected) then Ok tt
      else Err (ErrWrap "host data" ErrSEVSNPAppraisalMismatch).

Definition ValidateAppraisal (contract : SEVSNPAppraisalContract)
    (evidence : SEVSNPAppraisalEvidence) : result error unit :=
  let* _ := (if k_RequireHostData contract then validateHostData contract evidence else Ok tt) in
  if k_RequireKernelHashes contract && negb (ev_KernelHashesEnabled evidence)
  then Err (ErrWrap "kernel hashes" ErrSEVSNPAppraisalMismatch) else Ok tt.

Definition ValidateSecurity (config : Config) : result error unit :=
  if sev_EnableHostData (c_SEVSNP config) && negb (c_EnableSEVSNP config)
  then Err (ErrNew "SEV-SNP host data is enabled while SEV-SNP is disabled")
  else if c_EnableSEVSNP config && sev_EnableHostData (c_SEVSNP config)
  then let* _ := NormalizeSEVSNPHostData (sev_HostData (c_SEVSNP config)) in Ok tt
  else Ok tt.

(** ** The command line *)

Definition boolString (b : bool) : string := if b then "true" else "false".
Definition quoted (s : string) : string :=
  String (ofCode 34) (s +:+ String (ofCode 34) EmptyString).

(** [fmt.Sprintf(TDXObject, id, port)]. *)
Definition TDXObject (id : string) (port : Z) : string :=
  "{" +:+ quoted "qom-type" +:+ ":" +:+ quoted "tdx-guest" +:+ "," +:+ quoted "id" +:+ ":"
  +:+ quoted id +:+ "," +:+ quoted "quote-generation-socket" +:+ ":{" +:+ quoted "type"
  +:+ ": " +:+ quoted "vsock" +:+ ", " +:+ quoted "cid" +:+ ":" +:+ quoted "2" +:+ ","
  +:+ quoted "port" +:+ ":" +:+ quoted (Itoa port) +:+ "}}".

Definition memoryBackend (config : Config) : string :=
  "memory-backend-memfd,id=" +:+ c_MemID config +:+ ",size=" +:+ mem_Size (c_Memory config)
  +:+ ",share=true,prealloc=false".

Definition machineArgs (config : Config) : list string :=
  (if c_EnableKVM config then ["-enable-kvm"] else [])
  ++ (if bool_decide (c_Machine config <> "") then ["-machine"; c_Machine config] else [])
  ++ (if bool_decide (c_CPU config <> "") then ["-cpu"; c_CPU config] else [])
  ++ ["-smp"; Itoa (c_SMPCount config) +:+ ",maxcpus=" +:+ Itoa (c_MaxCPUs config)]
  ++ ["-m"; mem_Size (c_Memory config) +:+ ",slots=" +:+ Itoa (mem_Slots (c_Memory config))
            +:+ ",maxmem=" +:+ mem_Max (c_Memory config)].

Definition firmwareArgs (config : Config) : list string :=
  let code := c_OVMFCode config in
  let vars := c_OVMFVars config in
  if negb (c_EnableSEVSNP config) && negb (c_EnableTDX config) then
    ["-drive"; "if=" +:+ code_If code +:+ ",format=" +:+ code_Format code +:+ ",unit="
               +:+ Itoa (code_Unit code) +:+ ",file=" +:+ code_File code +:+ ",readonly="
               +:+ code_ReadOnly code;
     "-drive"; "if=" +:+ vars_If vars +:+ ",format=" +:+ vars_Format vars +:+ ",unit="
               +:+ Itoa (vars_Unit vars) +:+ ",file=" +:+ vars_File vars]
  else [].

Definition networkArgs (config : Config) : list string :=
  let net := c_NetDev config in
  let virtio := c_Virtio config in
  ["-netdev"; "user,id=" +:+ net_ID net +:+ ",hostfwd=tcp::" +:+ Itoa (net_HostFwdAgent net)
              +:+ "-:" +:+ Itoa (net_GuestFwdAgent net);
   "-device"; "virtio-net-pci,disable-legacy=" +:+ virtio_DisableLegacy virtio
              +:+ ",iommu_platform=" +:+ boolString (virtio_IOMMUPlatform virtio) +:+ ",netdev="
              +:+ net_ID net +:+ ",addr=" +:+ virtio_Addr virtio +:+ ",romfile="
              +:+ virtio_ROMFile virtio].

(** The host data of the guest; an error of the normalization leaves it out. *)
Definition hostDataOption (config : Config) : string :=
  if sev_EnableHostData (c_SEVSNP config) then
    match NormalizeSEVSNPHostData (sev_HostData (c_SEVSNP config)) with
    | Ok normalized => ",host-data=" +:+ normalized
    | Err _ => ""
    end
  else "".

Definition sevGuest (config : Config) : string :=
  "sev-snp-guest,id=" +:+ sev_ID (c_SEVSNP config) +:+ ",cbitpos="
  +:+ Itoa (sev_CBitPos (c_SEVSNP config)) +:+ ",reduced-phys-bits="
  +:+ Itoa (sev_ReducedPhysBits (c_SEVSNP config)) +:+ hostDataOption config.

Definition sevArgs (config : Config) : list string :=
  if c_EnableSEVSNP config then
    ["-machine"; "confidential-guest-support=" +:+ sev_ID (c_SEVSNP config)
                 +:+ ",memory-backend=" +:+ c_MemID config +:+ ",igvm-cfg="
                 +:+ igvm_ID (c_IGVM config);
     "-object"; memoryBackend config;
     "-object"; sevGuest config;
     "-object"; "igvm-cfg,id=" +:+ igvm_ID (c_IGVM config) +:+ ",file="
                +:+ igvm_File (c_IGVM config)]
  else [].

Definition tdxArgs (config : Config) : list string :=
  if c_EnableTDX config then
    ["-object"; TDXObject (tdx_ID (c_TDX config)) (tdx_QuoteGenerationPort (c_TDX config));
     "-machine"; "confidential-guest-support=" +:+ tdx_ID (c_TDX config) +:+ ",memory-backend="
                 +:+ c_MemID config +:+ ",hpet=off";
     "-object"; memoryBackend config;
     "-bios"; tdx_OVMF (c_TDX config);
     "-nodefaults"]
  else [].

(** A directory of the host shared with the guest. *)
Definition mountArgs (fs tag path : string) : list string :=
  if bool_decide (path <> "") then
    ["-fsdev"; "local,id=" +:+ fs +:+ ",path=" +:+ path +:+ ",security_model=mapped";
     "-device"; "virtio-9p-pci,fsdev=" +:+ fs +:+ ",mount_tag=" +:+ tag]
  else [].

Definition kernelArgs (config : Config) : list string :=
  ["-kernel"; disk_KernelFile (c_DiskImg config);
   "-append"; c_KernelCommandLine config;
   "-initrd"; disk_RootFsFile (c_DiskImg config)]
  ++ (if c_NoGraphic config then ["-nographic"] else [])
  ++ ["-monitor"; c_Monitor config].

Definition ConstructQemuArgs (config : Config) : list string :=
  machineArgs config ++ firmwareArgs config ++ networkArgs config ++ sevArgs config
  ++ tdxArgs config ++ kernelArgs config
  ++ mountArgs "cert_fs" "certs_share" (c_CertsMount config)
  ++ mountArgs "env_fs" "env_share" (c_EnvMount config).

Definition ConstructQemuArgsChecked (config : Config) : result error (list string) :=
  let* _ := ValidateSecurity config in Ok (ConstructQemuArgs config).

(** ** Processes: [vm.go] *)

Record VMInfo := mkVMInfo { vi_Config : Config; vi_LaunchTCB : Z }.

(** [os.Process]: whether it was started by this process or found by its number. *)
Record process := mkProcess { p_Pid : Z; p_Child : bool }.

(** [v_cmd] is [cmd.Process], none while there is no command or it has not started. *)
Record qemuVM := mkVM {
  v_vmi : VMInfo; v_cmd : option process; v_cvmId : string; v_state : ManagerState }.

Class ProcEnv := {
  newV4 : list act -> result error string;
  lookPath : list act -> string -> result error string;
  startProc : list act -> string -> list string -> result error Z;
  findProcess : list act -> Z -> option error;
  (** [Process.Signal(syscall.Signal(0))], which only asks. *)
  signal0 : list act -> Z -> option error;
  (** [Process.Wait] raced with [shutdownTimeout]; none when the time is over first. *)
  waitProc : list act -> process -> option (option error) }.

(** [os.Process.Wait]: the process must be a child of the current one, or an error is
    returned. *)
Class ProcLaws `{ProcEnv} : Prop := {
  wait_not_child : forall h p, p_Child p = false -> exists e, waitProc h p = Some (Some e) }.

Definition firmwareVars : string := "OVMF_VARS".
Definition tmpDir : string := "/tmp".

Definition NewVM (config : VMInfo) (cvmId : string) : qemuVM :=
  mkVM config None cvmId VmProvision.

Definition setState (s : ManagerState) (v : qemuVM) : qemuVM :=
  mkVM (v_vmi v) (v_cmd v) (v_cvmId v) s.
Definition setCmd (p : option process) (v : qemuVM) : qemuVM :=
  mkVM (v_vmi v) p (v_cvmId v) (v_state v).
Definition setConfig (c : Config) (v : qemuVM) : qemuVM :=
  mkVM (mkVMInfo c (vi_LaunchTCB (v_vmi v))) (v_cmd v) (v_cvmId v) (v_state v).

Definition Transition (newState : ManagerState) (v : qemuVM) : option error * qemuVM :=
  let '(err, s) := TransitionVM (v_state v) newState in (err, setState s v).

Definition setIDs (id : string) (c : Config) : Config :=
  mkConfig (c_EnableSEVSNP c) (c_EnableTDX c) (c_QemuBinPath c) (c_UseSudo c) (c_EnableKVM c)
    (c_Machine c) (c_CPU c) (c_SMPCount c) (c_MaxCPUs c) (c_MemID c) (c_Memory c)
    (c_OVMFCode c) (c_OVMFVars c)
    (mkNetDev (net_ID (c_NetDev c) +:+ "-" +:+ id) (net_HostFwdAgent (c_NetDev c))
       (net_GuestFwdAgent (c_NetDev c)))
    (c_Virtio c) (c_DiskImg c)
    (mkSEV (sev_ID (c_SEVSNP c) +:+ "-" +:+ id) (sev_CBitPos (c_SEVSNP c))
       (sev_ReducedPhysBits (c_SEVSNP c)) (sev_EnableHostData (c_SEVSNP c))
       (sev_HostData (c_SEVSNP c)))
    (mkTDX (tdx_ID (c_TDX c) +:+ "-" +:+ id) (tdx_QuoteGenerationPort (c_TDX c))
       (tdx_OVMF (c_TDX c)))
    (c_IGVM c) (c_NoGraphic c) (c_Monitor c) (c_KernelCommandLine c) (c_HostFwdRange c)
    (c_CertsMount c) (c_EnvMount c).

Definition setVarsFile (file : string) (c : Config) : Config :=
  mkConfig (c_EnableSEVSNP c) (c_EnableTDX c) (c_QemuBinPath c) (c_UseSudo c) (c_EnableKVM c)
    (c_Machine c) (c_CPU c) (c_SMPCount c) (c_MaxCPUs c) (c_MemID c) (c_Memory c)
    (c_OVMFCode c)
    (mkOVMFVars (vars_If (c_OVMFVars c)) (vars_Format (c_OVMFVars c)) (vars_Unit (c_OVMFVars c))
       file)
    (c_NetDev c) (c_Virtio c) (c_DiskImg c) (c_SEVSNP c) (c_TDX c) (c_IGVM c) (c_NoGraphic c)
    (c_Monitor c) (c_KernelCommandLine c) (c_HostFwdRange c) (c_CertsMount c) (c_EnvMount c).

(** [fmt.Errorf] with [%v]: the error of the call is text only. *)
Definition replacing {S} (msg : string) (m : st S (option error)) : st S (option error) :=
  fun s => let '(o, s') := m s in (option_map (fun _ => ErrNew msg) o, s').

Section vm.
Context `{OS, ProcEnv}.

Definition executableAndArgs (config : Config) : st (list act) (result error (string * list string)) :=
  fun h =>
    (let* exe := lookPath h (c_QemuBinPath config) in
     let* args := ConstructQemuArgsChecked config in
     Ok (if c_UseSudo config then ("sudo", exe :: args) else (exe, args)), h).

(** [cmd.Start] gives the number of the process. *)
Definition startCommand (exe : string) (args : list string) : st (list act) (result error Z) :=
  fun h => (startProc h exe args, h ++ [AExec "" (exe :: args)]).

(** The copy of the firmware variables that the guest may write. *)
Definition copyVars (id : string) (c : Config) : st (list act) (result error Config) :=
  if negb (c_EnableSEVSNP c) && negb (c_EnableTDX c) then
    let dstFile := tmpDir +:+ "/" +:+ firmwareVars +:+ "-" +:+ id +:+ ".fd" in
    let! _ := CopyFile (vars_File (c_OVMFVars c)) dstFile in
    lift (Ok (setVarsFile dstFile c))
  else lift (Ok c).

(** The configuration and the process of a start; a machine whose start fails is dropped by
    its caller. *)
Definition startConfig (id : string) (v : qemuVM) : st (list act) (result error qemuVM) :=
  let! c := copyVars id (setIDs id (vi_Config (v_vmi v))) in
  let! cmd := executableAndArgs c in
  let! pid := startCommand cmd.1 cmd.2 in
  lift (Ok (setCmd (Some (mkProcess pid true)) (setConfig c v))).

Definition StartVM (v : qemuVM) : st (list act) (result error qemuVM) :=
  let! id := (fun h => (newV4 h, h)) in startConfig id v.

Definition removeMount (msg path : string) : st (list act) (option error) :=
  if bool_decide (path <> "") then replacing msg (perform (ARemoveAll path)) else lift None.

Definition awaitExit (p : process) : st (list act) (option error) :=
  fun h =>
    match waitProc h p with
    | Some err => (err, h)
    | None => replacing "failed to kill process" (perform (AKill (p_Pid p))) h
    end.

Definition stopProcess (c : Config) (p : process) : st (list act) (result error unit) :=
  guard! replacing "failed to send SIGTERM" (perform (ASignal (p_Pid p))) in
  guard! removeMount "failed to remove certs mount" (c_CertsMount c) in
  guard! removeMount "failed to remove env mount" (c_EnvMount c) in
  guard! awaitExit p in
  lift (Ok tt).

(** The deferred transition runs on every way out; none is the panic of a machine without
    a process. *)
Definition StopVM (v : qemuVM) : st (list act) (option (result error unit) * qemuVM) :=
  fun h =>
    let v' := snd (Transition StopComputationRun v) in
    match v_cmd v with
    | None => ((None, v'), h)
    | Some p => let '(r, h') := stopProcess (vi_Config (v_vmi v)) p h in ((Some r, v'), h')
    end.

Definition SetProcess (pid : Z) (v : qemuVM) : st (list act) (result error qemuVM) :=
  guard! (fun h => (findProcess h pid, h)) in
  let! _ := executableAndArgs (vi_Config (v_vmi v)) in
  lift (Ok (setCmd (Some (mkProcess pid false)) v)).

Definition GetProcess (v : qemuVM) : option Z := option_map p_Pid (v_cmd v).
Definition GetConfig (v : qemuVM) : VMInfo := v_vmi v.

Definition processExists (pid : Z) : st (list act) bool :=
  fun h => (bool_decide (findProcess h pid = None /\ signal0 h pid = None), h).

(** ** What the host offers *)

Definition SEVSNPEnabled (cpuinfo kernelParam : string) : bool :=
  Contains cpuinfo "sev_snp" && bool_decide (TrimSpace kernelParam = "Y").
Definition TDXEnabled (cpuinfo kernelParam : string) : bool :=
  Contains cpuinfo "tdx_host_platform" && bool_decide (TrimSpace kernelParam = "Y").

Definition enabledOnHost (test : string -> string -> bool) (param : string) : st (list act) bool :=
  fun h =>
    match os_read h "/proc/cpuinfo", os_read h param with
    | Ok cpuinfo, Ok kernelParam => (test (stringOf cpuinfo) (stringOf kernelParam), h)
    | _, _ => (false, h)
    end.

Definition SEVSNPEnabledOnHost : st (list act) bool :=
  enabledOnHost SEVSNPEnabled "/sys/module/kvm_amd/parameters/sev_snp".
Definition TDXEnabledOnHost : st (list act) bool :=
  enabledOnHost TDXEnabled "/sys/module/kvm_intel/parameters/tdx".
End vm.

(** ** Output of the machine: [manager/vm/logging.go] *)

Definition bufSize : nat := 1024.

Inductive logLevel := LInfo | LWarn | LError.

(** The pieces a buffer of [bufSize] bytes reads. *)
Fixpoint pieces (n : nat) (p : list byte) : list (list byte) :=
  match n, p with
  | S n', _ :: _ => take bufSize p :: pieces n' (drop bufSize p)
  | _, _ => []
  end.

(** The records written and the count returned. *)
Definition writeLog (level : string -> logLevel) (state : ManagerState) (p : list byte)
    : Z * list (logLevel * string * string) :=
  (len p,
   map (fun b => (level (stringOf b), stringOf b, ManagerStateString state)) (pieces (length p) p)).

Definition StdoutWrite := writeLog (fun _ => LInfo).
Definition StderrWrite := writeLog (fun s => if Contains s "Error" then LError else LWarn).

(** ** Lemmas *)

(** A lower-case hexadecimal digit. *)
Definition hexLower (c : Z) : bool := inRange 48 57 c || inRange 97 102 c.

Lemma hexValue_some c x : hexValue c = Some x -> hexLower c = true \/ inRange 65 70 c = true.
Proof.
  unfold hexValue, hexLower. intros Hc. rewrite orb_true_iff.
  destruct (inRange 48 57 c); [auto|]. destruct (inRange 97 102 c); [auto|].
  destruct (inRange 65 70 c); [auto|done].
Qed.

Lemma hexDecode_digits s : forall r,
  hexDecode s = Some r -> Forall (fun c => hexLower c = true \/ inRange 65 70 c = true) s
                          /\ len s = 2 * len r.
Proof.
  induction s as [s IH] using (induction_ltof1 _ (@length Z)). unfold ltof in IH.
  destruct s as [|a [|b t]]; intros r E; cbn [hexDecode] in E; [by simplify_eq|done|].
  destruct (hexValue a) eqn:Ha; [|done]. destruct (hexValue b) eqn:Hb; [|done].
  destruct (hexDecode t) as [q|] eqn:Et; [|done]. simplify_eq/=.
  destruct (IH t ltac:(cbn; lia) q Et) as [Hf Hl].
  rewrite !len_cons. split; [|lia].
  apply Forall_cons; split; [by eapply hexValue_some|]. apply Forall_cons; split; [by eapply hexValue_some|done].
Qed.

Lemma hexLower_code c : hexLower c = true -> 48 <= c <= 102 /\ lowerByte c = true.
Proof.
  unfold hexLower, lowerByte, plainByte, inRange. intros H%orb_true_iff.
  rewrite !andb_true_iff, negb_true_iff, andb_false_iff in *. lia.
Qed.

(** Host data that is accepted: 64 digits, lower case. *)
Definition hostDataForm (n : string) : Prop :=
  slen n = 64 /\ Forall (fun c => hexLower c = true) (codes n).

Lemma Normalize_form s n : NormalizeSEVSNPHostData s = Ok n ->
  n = ToLower (TrimSpace s) /\ hostDataForm n.
Proof.
  unfold NormalizeSEVSNPHostData. set (m := ToLower (TrimSpace s)) in *. intros E.
  destruct (Z.eqb_spec (slen m) SEVSNPHostDataHexLength) as [Hl|]; [|done]. cbn in E.
  destruct (hexDecode (codes m)) as [d|] eqn:Ed; [|done].
  destruct (len d =? 32); [|done]. apply Ok_inj in E as <-. split; [done|]. split; [done|].
  apply hexDecode_digits in Ed as [Hf _]. rewrite Forall_forall in Hf |- *.
  intros c Hc. destruct (Hf c Hc) as [|Hu]; [done|].
  assert (inRange 65 90 c = false) as Hn.
  { apply (ToLower_codes (TrimSpace s)); [done|]. unfold inRange in Hu. bool_to_prop. lia. }
  unfold inRange in *. bool_to_prop. lia.
Qed.

Lemma hexDecode_lower s : Forall (fun c => hexLower c = true) s ->
  forall n, length s = (2 * n)%nat -> exists d, hexDecode s = Some d /\ len d = Z.of_nat n.
Proof.
  induction s as [s IH] using (induction_ltof1 _ (@length Z)). unfold ltof in IH.
  assert (forall c, hexLower c = true -> exists x, hexValue c = Some x) as Hv.
  { intros c. unfold hexLower, hexValue. intros H%orb_true_iff. destruct (inRange 48 57 c); [eauto|].
    destruct H as [|Hr]; [done|]. rewrite Hr. eauto. }
  destruct s as [|a [|b t]]; intros Hs n Hn; cbn in Hn.
  - exists []. split; [done|]. rewrite len_nil. lia.
  - lia.
  - inv Hs. match goal with H : Forall _ (_ :: _) |- _ => inv H end.
    destruct (Hv a) as [x Hx]; [done|]. destruct (Hv b) as [y Hy]; [done|].
    destruct (IH t ltac:(cbn; lia) ltac:(done) (n - 1)%nat ltac:(lia)) as (d & Ed & Hd).
    cbn [hexDecode]. rewrite Hx, Hy, Ed. eexists. split; [done|]. rewrite len_cons. lia.
Qed.

(** Normal host data is normalized to itself. *)
Lemma Normalize_fixed n : hostDataForm n -> NormalizeSEVSNPHostData n = Ok n.
Proof.
  intros [Hl Hf]. unfold NormalizeSEVSNPHostData.
  assert (Forall (fun c => lowerByte c = true) (codes n)) as Hlow.
  { eapply Forall_impl; [exact Hf|]. intros c Hc. by apply hexLower_code. }
  rewrite TrimSpace_plain, ToLower_lower; [|done|].
  2: { eapply Forall_impl; [exact Hlow|]. intros c Hc. by apply andb_true_iff in Hc as [? _]. }
  rewrite Hl. cbn [negb SEVSNPHostDataHexLength Z.eqb]. change (64 =? SEVSNPHostDataHexLength) with true.
  destruct (hexDecode_lower (codes n) Hf 32) as (d & -> & Hd).
  { rewrite slen_codes in Hl. unfold len in Hl. lia. }
  by rewrite Hd.
Qed.

(** ** Theorems *)

Definition hasArg (flag value : string) (args : list string) : Prop :=
  exists l r, args = l ++ [flag; value] ++ r.

Lemma hasArg_app_l f v a b : hasArg f v a -> hasArg f v (a ++ b).
Proof. intros (l & r & ->). exists l, (r ++ b). by rewrite <- !app_assoc. Qed.

Lemma hasArg_app_r f v a b : hasArg f v b -> hasArg f v (a ++ b).
Proof. intros (l & r & ->). exists (a ++ l), r. by rewrite <- !app_assoc. Qed.

(** A command line that passes the check carries the configured host data: when host
    data is enabled the guest object ends with it, in the form of 64 lower-case
    hexadecimal digits, so that no option can be smuggled in by a comma and none is
    silently left out. *)
Theorem checked_args_host_data (config : Config) (args : list string) :
  ConstructQemuArgsChecked config = Ok args ->
  sev_EnableHostData (c_SEVSNP config) = true ->
  exists n, hostDataForm n
    /\ n = ToLower (TrimSpace (sev_HostData (c_SEVSNP config)))
    /\ hasArg "-object" ("sev-snp-guest,id=" +:+ sev_ID (c_SEVSNP config) +:+ ",cbitpos="
         +:+ Itoa (sev_CBitPos (c_SEVSNP config)) +:+ ",reduced-phys-bits="
         +:+ Itoa (sev_ReducedPhysBits (c_SEVSNP config)) +:+ ",host-data=" +:+ n) args.
Proof.
  unfold ConstructQemuArgsChecked, ValidateSecurity. intros E Hh. rewrite Hh in E.
  destruct (c_EnableSEVSNP config) eqn:Hs; [|done]. cbn [andb negb] in E.
  destruct (NormalizeSEVSNPHostData (sev_HostData (c_SEVSNP config))) as [n|] eqn:En; [|done].
  apply Ok_inj in E as <-. destruct (Normalize_form _ _ En) as [Hn Hf].
  exists n. split_and!; [done..|]. unfold ConstructQemuArgs.
  do 3 apply hasArg_app_r. apply hasArg_app_l. unfold sevArgs. rewrite Hs.
  assert (hostDataOption config = ",host-data=" +:+ n) as Ho.
  { unfold hostDataOption. by rewrite Hh, En. }
  unfold sevGuest. rewrite Ho. eexists [_; _; _; _], [_; _]. reflexivity.
Qed.

(** The appraisal of a guest accepts exactly when every required value is present and
    agrees: host data, compared in normal form, and the kernel hashes. *)
Theorem appraisal_decides (contract : SEVSNPAppraisalContract) (evidence : SEVSNPAppraisalEvidence) :
  ValidateAppraisal contract evidence = Ok tt <->
  (k_RequireHostData contract = true ->
     exists n, NormalizeSEVSNPHostData (k_ExpectedHostData contract) = Ok n
               /\ NormalizeSEVSNPHostData (ev_HostData evidence) = Ok n)
  /\ (k_RequireKernelHashes contract = true -> ev_KernelHashesEnabled evidence = true).
Proof.
  assert (forall s, TrimSpace s = "" -> exists e, NormalizeSEVSNPHostData s = Err e) as Hblank.
  { intros s Hs. unfold NormalizeSEVSNPHostData. rewrite Hs. by eexists. }
  assert (validateHostData contract evidence = Ok tt <->
          exists n, NormalizeSEVSNPHostData (k_ExpectedHostData contract) = Ok n
                    /\ NormalizeSEVSNPHostData (ev_HostData evidence) = Ok n) as Hv.
  { unfold validateHostData.
    destruct (decide (TrimSpace (k_ExpectedHostData contract) = "")) as [He|He].
    { destruct (Hblank _ He) as [e Ee]. rewrite bool_decide_eq_true_2 by done.
      split; [done|]. intros (n & E & _). congruence. }
    rewrite bool_decide_eq_false_2 by done.
    destruct (NormalizeSEVSNPHostData (k_ExpectedHostData contract)) as [x|]; cbn;
      [|by split; [|intros (? & ? & ?)]].
    destruct (decide (TrimSpace (ev_HostData evidence) = "")) as [Ho|Ho].
    { destruct (Hblank _ Ho) as [e Ee]. rewrite bool_decide_eq_true_2, Ee by done.
      split; [done|]. by intros (n & _ & ?). }
    rewrite bool_decide_eq_false_2 by done.
    destruct (NormalizeSEVSNPHostData (ev_HostData evidence)) as [y|]; cbn;
      [|by split; [|intros (? & ? & ?)]].
    case_bool_decide as Hxy; split; try done; [intros _; eauto with congruence|].
    intros (n & [= ->] & [= ->]). done. }
  unfold ValidateAppraisal.
  destruct (k_RequireHostData contract).
  - destruct (validateHostData contract evidence) as [[]|e]; cbn.
    + destruct (k_RequireKernelHashes contract), (ev_KernelHashesEnabled evidence); naive_solver.
    + split; [done|]. intros [Hr _]. apply Hv in Hr; done.
  - destruct (k_RequireKernelHashes contract), (ev_KernelHashesEnabled evidence); naive_solver.
Qed.

Lemma pieces_concat n : forall p, (length p <= n)%nat -> concat (pieces n p) = p.
Proof.
  induction n as [|n IH]; intros [|b p] Hn; try done; [cbn in Hn; lia|].
  cbn [pieces concat]. rewrite IH; [apply take_drop|].
  rewrite length_drop. unfold bufSize. cbn [length] in *. lia.
Qed.

(** Every byte a machine prints is logged, in order, whatever the pieces. *)
Lemma writeLog_complete level state p :
  concat (map (fun r => bytesOf r.1.2) (snd (writeLog level state p))) = p.
Proof.
  unfold writeLog. cbn [snd]. rewrite map_map.
  transitivity (concat (pieces (length p) p)); [|by apply pieces_concat]. f_equal.
  rewrite <- (map_id (pieces (length p) p)) at 2. apply map_ext. intros b. apply bytesOf_stringOf.
Qed.

Section stop.
Context `{OS, ProcLaws}.

(** Stopping a machine whose process is not a child never succeeds. *)
Lemma stopProcess_not_child c p h :
  p_Child p = false -> exists e, fst (stopProcess c p h) = Err e.
Proof.
  intros Hp. unfold stopProcess, bindNil, removeMount, awaitExit, replacing, perform, lift.
  repeat match goal with
  | |- context [os_act ?h ?a] => destruct (os_act h a); cbn [option_map]
  | |- context [bool_decide ?P] => destruct (bool_decide P)
  | |- context [waitProc ?h p] => destruct (wait_not_child h p Hp) as [? ->]
  | |- _ => progress cbn [fst]
  end; eauto.
Qed.
End stop.

(** ** A configuration *)

Module QemuSample.
Definition data : string := "00112233445566778899AABBCCDDEEFF00112233445566778899aabbccddeeff".

Definition config : Config :=
  mkConfig true false "qemu-system-x86_64" false true "q35" "EPYC" 4 64 "ram1"
    (mkMemory "2048M" 5 "30G")
    (mkOVMFCode "pflash" "raw" 0 "/usr/share/OVMF/OVMF_CODE.fd" "on" "")
    (mkOVMFVars "pflash" "raw" 1 "/usr/share/OVMF/OVMF_VARS.fd")
    (mkNetDev "vmnic" 7020 7002) (mkVirtio "on" true "0x2" "")
    (mkDisk "img/bzImage" "img/rootfs.cpio.gz") (mkSEV "sev0" 51 1 true data)
    (mkTDX "tdx0" 4050 "/usr/share/ovmf/OVMF.fd") (mkIGVM "igvm0" "/root/coconut-qemu.igvm")
    true "pty" "quiet console=null" "6100-6200" "" "".

Definition args : list string := ConstructQemuArgs config.

Lemma checked_args_host_data_witness :
  ConstructQemuArgsChecked config = Ok args
  /\ exists n, hostDataForm n
    /\ n = ToLower (TrimSpace (sev_HostData (c_SEVSNP config)))
    /\ hasArg "-object" ("sev-snp-guest,id=" +:+ sev_ID (c_SEVSNP config) +:+ ",cbitpos="
         +:+ Itoa (sev_CBitPos (c_SEVSNP config)) +:+ ",reduced-phys-bits="
         +:+ Itoa (sev_ReducedPhysBits (c_SEVSNP config)) +:+ ",host-data=" +:+ n) args.
Proof.
  split; [vm_compute; reflexivity|].
  apply (checked_args_host_data config args); [vm_compute; reflexivity | reflexivity].
Defined.
End QemuSample.
