(* ===== verification/Corim.v ===== *)
(** * Reference values: [pkg/attestation/corimgen], [generator] and [igvmmeasure]

    A CoRIM carries the values that evidence of a platform is compared with: the digests of
    its measurements.  The generator applies the defaults of the platform, decodes the
    digests and encodes, signing when it has a key; [igvmmeasure] runs the tool that
    computes the measurement of a launch image.  The CoRIM and COSE libraries, UUIDs and
    key parsing are the class [CorimLib]. *)

From stdpp Require Import base list strings.
From Stdlib Require Import ZArith Lia Strings.Byte.
From S2P Require Import Prelude GoStrings Errors GoOS GoEncoding Qemu.

(** ** Options *)

Record Options (Key : Type) := mkOptions {
  o_Platform : string; o_Measurement : string; o_Product : string; o_SVN : Z; o_Policy : Z;
  o_RTMRs : string; o_MrSeam : string; o_HostData : string; o_LaunchTCB : Z;
  o_SigningKey : option Key }.
Arguments mkOptions {Key}.
Arguments o_Platform {Key}. Arguments o_Measurement {Key}. Arguments o_Product {Key}.
Arguments o_SVN {Key}. Arguments o_Policy {Key}. Arguments o_RTMRs {Key}.
Arguments o_MrSeam {Key}. Arguments o_HostData {Key}. Arguments o_LaunchTCB {Key}.
Arguments o_SigningKey {Key}.

Definition SNPDefaultMeasurement : string :=
  "000000000000000000000000000000000000000000000000000000000000000000000000000000000000000000000000".
Definition TDXDefaultMrSeam : string :=
  "5b38e33a6487958b72c3c12a938eaa5e3fd4510c51aeeab58c7d5ecee41d7c436489d6c8e4f92f160b7cad34207b00c1".
Definition TDXDefaultMrTd : string :=
  "91eb2b44d141d4ece09f0c75c2c53d247a3c68edd7fafe8a3520c942a604a407de03ae6dc5f87f27428b2538873118b7".
Definition TDXDefaultRTMRs : list string :=
  ["ce0891f46a18db93e7691f1cf73ed76593f7dec1b58f0927ccb56a99242bf63bc9551561f9ee7833d40395fae59547ab";
   "062ac322e26b10874a84977a09735408a856aec77ff62b4975b1e90e33c18f05220ea522cdbffc3b2cf4451cc209e418";
   "5fd86e8c3d5e45386f1ed0852de7e83ae1b774ee4366bd5213c9890e8e3ac8fad3f7e690891d37f7c81ac20a445cc0ff";
   "000000000000000000000000000000000000000000000000000000000000000000000000000000000000000000000000"].

Definition orDefault (d s : string) : string := if bool_decide (s = "") then d else s.

Definition applyDefaults {Key} (opts : Options Key) : Options Key :=
  if bool_decide (o_Platform opts = "snp") then
    mkOptions (o_Platform opts) (orDefault SNPDefaultMeasurement (o_Measurement opts))
      (o_Product opts) (o_SVN opts) (o_Policy opts) (o_RTMRs opts) (o_MrSeam opts)
      (o_HostData opts) (o_LaunchTCB opts) (o_SigningKey opts)
  else if bool_decide (o_Platform opts = "tdx") then
    mkOptions (o_Platform opts) (orDefault TDXDefaultMrTd (o_Measurement opts))
      (o_Product opts) (o_SVN opts) (o_Policy opts)
      (orDefault (String.concat "," TDXDefaultRTMRs) (o_RTMRs opts))
      (orDefault TDXDefaultMrSeam (o_MrSeam opts))
      (o_HostData opts) (o_LaunchTCB opts) (o_SigningKey opts)
  else opts.

(** ** Reference values *)

(** A measurement: its key, its digests with their algorithm, and the security version. *)
Record mval := mkMval { mv_Key : string; mv_Digests : list (Z * list Z); mv_SVN : option Z }.

Record ReferenceValue := mkRef {
  rv_Class : string; rv_Instance : option string; rv_Measurements : list mval }.

Record Comid := mkComid { cm_TagID : string; cm_ReferenceValue : ReferenceValue }.
Record UnsignedCorim := mkCorim { uc_ID : string; uc_Comid : Comid }.

Class CorimLib (Key : Type) := {
  (** [uuid.New] at its calls, told apart by a number. *)
  newUUID : nat -> string;
  newSHA1 : string -> string;
  newUUIDInstance : string -> option error;
  newUUIDMeasurement : string -> option error;
  (** The digests of a measurement after [Measurement.AddDigest] with an algorithm and a
      value; the code does not look at the result of the call. *)
  addDigest : list (Z * list Z) -> Z -> list Z -> list (Z * list Z);
  toCBOR : UnsignedCorim -> result error (list byte);
  newSigner : Key -> option error;
  signCorim : UnsignedCorim -> Key -> result error (list byte);
  pemDecode : list byte -> option (list byte);
  parseECPrivateKey : list byte -> option Key;
  (** A key that is not a [crypto.Signer] is none inside. *)
  parsePKCS8PrivateKey : list byte -> option (option Key) }.

(** A digest is added when its value has the length of its algorithm: 32 bytes for
    algorithm 1, SHA-256. *)
Class DigestLaws (Key : Type) `{CorimLib Key} : Prop := {
  addDigest_sha256 : forall ds v,
    addDigest ds 1 v = if len v =? 32 then ds ++ [(1, v)] else ds }.

Section corim.
Context {Key : Type} `{CorimLib Key}.

Definition nilOr {A} (e : option error) (a : A) : result error A :=
  match e with Some e => Err e | None => Ok a end.

(** A measurement with the digest of a hexadecimal string, by algorithm 1. *)
Definition digestOf (msgHex msgNew : string) (k : nat) (hex : string) (svn : option Z)
    : result error mval :=
  match hexDecode (codes hex) with
  | None => Err (ErrWrap msgHex (ErrNew "hex"))
  | Some bytes =>
      let* _ := wrapRes msgNew (nilOr (newUUIDMeasurement (newUUID k)) tt) in
      Ok (mkMval (newUUID k) (addDigest [] 1 bytes) svn)
  end.

Fixpoint rtmrMeasurements (k : nat) (rtmrs : list string) : result error (list mval) :=
  match rtmrs with
  | [] => Ok []
  | rtmr :: t =>
      let* m := digestOf "failed to decode RTMR" "failed to create RTMR measurement" k
                  (TrimSpace rtmr) None in
      let* ms := rtmrMeasurements (S k) t in
      Ok (m :: ms)
  end.

Definition tdxMeasurements (opts : Options Key) : result error (list mval) :=
  let* seam :=
    (if bool_decide (o_MrSeam opts <> "")
     then let* m := digestOf "failed to decode MRSEAM" "failed to create MRSEAM measurement" 3
                      (o_MrSeam opts) None in Ok [m]
     else Ok []) in
  let* rtmrs :=
    (if bool_decide (o_RTMRs opts <> "") then rtmrMeasurements 4 (SplitByte (o_RTMRs opts) 44)
     else Ok []) in
  Ok (seam ++ rtmrs).

Definition instanceOf (product : string) : result error (option string) :=
  if bool_decide (product <> "")
  then wrapRes "failed to create instance"
         (nilOr (newUUIDInstance (newSHA1 product)) (Some (newSHA1 product)))
  else Ok None.

Definition createReferenceValue (opts : Options Key) : result error ReferenceValue :=
  let* inst := instanceOf (o_Product opts) in
  let* main :=
    digestOf "failed to decode measurement" "failed to create measurement" 2
      (o_Measurement opts) (if 0 <? o_SVN opts then Some (o_SVN opts) else None) in
  let* more := (if bool_decide (o_Platform opts = "tdx") then tdxMeasurements opts else Ok []) in
  Ok (mkRef (newUUID 1) inst (main :: more)).

Definition CreateCoMID (opts : Options Key) : result error Comid :=
  let* refVal := createReferenceValue opts in
  Ok (mkComid (o_Platform opts +:+ "-tag-" +:+ newUUID 0) refVal).

Definition GenerateCoRIM (opts : Options Key) : result error (list byte) :=
  let opts := applyDefaults opts in
  let* comid := wrapRes "failed to create CoMID" (CreateCoMID opts) in
  let unsigned := mkCorim (o_Platform opts +:+ "-corim-" +:+ newUUID 100) comid in
  match o_SigningKey opts with
  | None => toCBOR unsigned
  | Some key =>
      let* _ := wrapRes "failed to create COSE signer" (nilOr (newSigner key) tt) in
      wrapRes "failed to sign CoRIM" (signCorim unsigned key)
  end.

Definition LoadSigningKey `{OS} (path : string) : st (list act) (result error Key) :=
  fun h =>
    (let* keyBytes := wrapRes "failed to read key file" (os_read h path) in
     match pemDecode keyBytes with
     | None => Err (ErrNew "failed to decode PEM block")
     | Some block =>
         match parseECPrivateKey block with
         | Some key => Ok key
         | None =>
             match parsePKCS8PrivateKey block with
             | Some (Some key) => Ok key
             | Some None => Err (ErrNew "key is not a signer")
             | None => Err (ErrNew "failed to parse private key: must be EC or PKCS#8")
             end
         end
     end, h).
End corim.

(** ** Buffered output: [bufio.Writer] over a buffer in memory *)

Record bufWriter := mkBuf { bw_buf : list byte; bw_out : list byte }.

Definition defaultBufSize : Z := 4096.

Definition NewWriter : bufWriter := mkBuf [] [].

(** A write that does not fit flushes what is buffered; one that is larger than an empty
    buffer goes through. *)
Definition bufWrite (p : list byte) (w : bufWriter) : bufWriter :=
  let avail := defaultBufSize - len (bw_buf w) in
  if len p <=? avail then mkBuf (bw_buf w ++ p) (bw_out w)
  else if bool_decide (bw_buf w = []) then mkBuf [] (bw_out w ++ p)
  else
    let out := bw_out w ++ bw_buf w ++ sliceTo avail p in
    let rest := sliceFrom avail p in
    if len rest <=? defaultBufSize then mkBuf rest out else mkBuf [] (out ++ rest).

(** ** The measurement of an image: [igvmmeasure.go] *)

Class IgvmTool := { igvmRun : list act -> list string -> result error (list byte) }.

Record IgvmMeasurement := mkIgvm { im_binPath : string; im_options : list string; im_stdout : bufWriter }.

Definition NewIgvmMeasurement (binPath : string) (stdout : bufWriter)
    : result error IgvmMeasurement :=
  if bool_decide (binPath = "") then Err (ErrNew "pathToBinary cannot be empty")
  else Ok (mkIgvm binPath [] stdout).

Definition igvmArgs (m : IgvmMeasurement) (pathToFile : string) : list string :=
  im_binPath m :: im_options m ++ [pathToFile; "measure"; "-b"].

Definition RunIgvm `{IgvmTool} (pathToFile : string) (m : IgvmMeasurement)
    : st (list act) (result error IgvmMeasurement) :=
  fun h =>
    (let* out := igvmRun h (igvmArgs m pathToFile) in
     let outputString := stringOf out in
     if (length (SplitByte (TrimSpace outputString) 10) =? 1)%nat
     then Ok (mkIgvm (im_binPath m) (im_options m)
                (bufWrite (bytesOf (ToLower outputString)) (im_stdout m)))
     else Err (ErrNew ("error: " +:+ outputString)),
     h ++ [AExec "" (igvmArgs m pathToFile)]).

(** ** Theorems *)

Section corim_theorems.
Context {Key : Type} `{CorimLib Key}.

(** The values a relying party reads of the generated reference values. *)
Definition digests (r : ReferenceValue) : list (list Z) :=
  map snd (concat (map mv_Digests (rv_Measurements r))).

Lemma digestOf_digest a b k hex svn m :
  digestOf a b k hex svn = Ok m ->
  exists d, hexDecode (codes hex) = Some d /\ mv_Digests m = addDigest [] 1 d.
Proof.
  unfold digestOf. destruct (hexDecode (codes hex)) as [d|]; [|done].
  destruct (newUUIDMeasurement (newUUID k)); [done|]. intros [= <-]. eauto.
Qed.

Definition withSNP (opts : Options Key) (policy : Z) (hostData : string) (launchTCB : Z) : Options Key :=
  mkOptions (o_Platform opts) (o_Measurement opts) (o_Product opts) (o_SVN opts) policy
    (o_RTMRs opts) (o_MrSeam opts) hostData launchTCB (o_SigningKey opts).

(** The policy flags, the host data and the launch TCB given to the generator have no
    influence on what it generates. *)
Lemma GenerateCoRIM_ignores_host_data (opts : Options Key) (policy : Z) (hostData : string)
    (launchTCB : Z) :
  GenerateCoRIM (withSNP opts policy hostData launchTCB) = GenerateCoRIM opts.
Proof.
  unfold GenerateCoRIM.
  assert (forall a b : Options Key,
    o_Platform a = o_Platform b -> o_Measurement a = o_Measurement b -> o_Product a = o_Product b ->
    o_SVN a = o_SVN b -> o_RTMRs a = o_RTMRs b -> o_MrSeam a = o_MrSeam b ->
    CreateCoMID a = CreateCoMID b) as Heq.
  { intros a b H1 H2 H3 H4 H5 H6. unfold CreateCoMID, createReferenceValue, tdxMeasurements.
    by rewrite H1, H2, H3, H4, H5, H6. }
  assert (CreateCoMID (applyDefaults (withSNP opts policy hostData launchTCB))
          = CreateCoMID (applyDefaults opts)) as Hc.
  { unfold applyDefaults, withSNP. cbn.
    destruct (bool_decide (o_Platform opts = "snp")), (bool_decide (o_Platform opts = "tdx"));
      by apply Heq. }
  rewrite Hc. unfold applyDefaults, withSNP. cbn.
  by destruct (bool_decide (o_Platform opts = "snp")), (bool_decide (o_Platform opts = "tdx")).
Qed.

(** ** The digests of the generated values *)

(** The hexadecimal values of the options a reference value is made of. *)
Definition valuesOf (opts : Options Key) : list string :=
  o_Measurement opts ::
  (if bool_decide (o_Platform opts = "tdx")
   then (if bool_decide (o_MrSeam opts <> "") then [o_MrSeam opts] else [])
        ++ (if bool_decide (o_RTMRs opts <> "") then map TrimSpace (SplitByte (o_RTMRs opts) 44) else [])
   else []).

(** A value that is not 32 bytes long. *)
Definition notSha256 (hex : string) : Prop := forall d, hexDecode (codes hex) = Some d -> len d <> 32.

Context `{!DigestLaws Key}.

Lemma digestOf_empty a b k hex svn m :
  notSha256 hex -> digestOf a b k hex svn = Ok m -> mv_Digests m = [].
Proof.
  intros Hh Hm. apply digestOf_digest in Hm as (d & Hd & ->). rewrite addDigest_sha256.
  apply Hh in Hd. by destruct (Z.eqb_spec (len d) 32).
Qed.

Lemma rtmrMeasurements_empty rtmrs : forall k ms,
  Forall notSha256 (map TrimSpace rtmrs) -> rtmrMeasurements k rtmrs = Ok ms ->
  Forall (fun m => mv_Digests m = []) ms.
Proof.
  induction rtmrs as [|x t IH]; intros k ms Hf; cbn; [by intros [= <-]|].
  inv Hf. destruct (digestOf _ _ k (TrimSpace x) None) as [m|] eqn:Em; [|done].
  destruct (rtmrMeasurements (S k) t) as [ms'|] eqn:Et; [|done]. intros [= <-].
  constructor; [by eapply digestOf_empty | by eapply IH].
Qed.

Lemma tdxMeasurements_empty opts ms :
  o_Platform opts = "tdx" -> Forall notSha256 (valuesOf opts) -> tdxMeasurements opts = Ok ms ->
  Forall (fun m => mv_Digests m = []) ms.
Proof.
  unfold tdxMeasurements, valuesOf. intros -> Hf. rewrite bool_decide_eq_true_2 in Hf by done.
  apply Forall_cons in Hf as [_ [Hs Hr]%Forall_app].
  destruct (if bool_decide (o_MrSeam opts <> "") then _ else Ok []) as [seam|] eqn:Es; [|done].
  destruct (if bool_decide (o_RTMRs opts <> "") then _ else Ok []) as [rtmrs|] eqn:Er; [|done].
  intros [= <-]. apply Forall_app. split.
  - clear Er Hr. case_bool_decide; [|by simplify_eq; constructor].
    destruct (digestOf _ _ 3 (o_MrSeam opts) None) as [m|] eqn:Em; [|done]. simplify_eq.
    inv Hs. repeat constructor. by eapply digestOf_empty.
  - clear Es Hs. case_bool_decide; [by eapply rtmrMeasurements_empty|]. by simplify_eq; constructor.
Qed.

(** Values of another length than 32 bytes leave reference values without a digest. *)
Lemma createReferenceValue_empty opts r :
  Forall notSha256 (valuesOf opts) -> createReferenceValue opts = Ok r -> digests r = [].
Proof.
  intros Hf. unfold createReferenceValue.
  destruct (instanceOf (o_Product opts)); [|done].
  destruct (digestOf _ _ 2 (o_Measurement opts) _) as [m|] eqn:Em; [|done].
  destruct (if bool_decide (o_Platform opts = "tdx") then _ else Ok []) as [more|] eqn:Et; [|done].
  intros [= <-]. assert (Forall (fun m => mv_Digests m = []) (m :: more)) as He.
  { constructor; [by inv Hf; eapply digestOf_empty|].
    case_bool_decide; [by eapply tdxMeasurements_empty | simplify_eq; constructor]. }
  unfold digests. cbn [rv_Measurements].
  assert (concat (map mv_Digests (m :: more)) = []) as ->; [|done].
  apply concat_nil_iff. by apply Forall_fmap.
Qed.
End corim_theorems.

(** What fits in an empty buffer stays there. *)
Lemma bufWrite_held p : len p <= defaultBufSize -> bw_out (bufWrite p NewWriter) = [].
Proof.
  intros Hp. unfold bufWrite, NewWriter. cbn [bw_buf bw_out]. rewrite len_nil.
  destruct (Z.leb_spec (len p) (defaultBufSize - 0)); [done|lia].
Qed.

(** Nothing is lost or reordered by the buffer. *)
Lemma bufWrite_order p w :
  bw_out (bufWrite p w) ++ bw_buf (bufWrite p w) = bw_out w ++ bw_buf w ++ p.
Proof.
  unfold bufWrite. case_goal; [cbn; by rewrite app_assoc|].
  case_bool_decide as Hb; [cbn; by rewrite Hb, app_nil_r|].
  case_goal; cbn [bw_out bw_buf]; rewrite ?app_nil_r, <- ?app_assoc, sliceTo_sliceFrom; done.
Qed.
