(* ===== verification/VmStore.v ===== *)
(** * Persisted machines: [manager/qemu/persistence.go]

    The manager keeps the state of every machine in a JSON file, named after it.  Which
    fields [encoding/json] writes of the configuration follows from the embedding of the
    structs of [config.go]: the fields of embedded structs are promoted, and a name that
    more than one of them has at the same depth is left out without an error. *)

From stdpp Require Import base gmap list strings.
From Stdlib Require Import ZArith Lia.
From S2P Require Import Prelude GoStrings GoSort Errors GoPath GoOS Qemu.

(** ** JSON of a configuration *)

Inductive jval := JStr (s : string) | JNum (z : Z) | JBool (b : bool).

(** A string that is not UTF-8 is written with replacement runes. *)
Definition coerceUTF8 (s : string) : string := ofCodes (concat (map encodeRune (runes s))).
Definition jstr (s : string) : jval := JStr (coerceUTF8 s).

(** A field: the depth of its embedding, its name and its value. *)
Definition field : Type := nat * string * jval.

Definition embedded (fs : list (string * jval)) : list field := map (fun f => (1%nat, f.1, f.2)) fs.
Definition direct (fs : list (string * jval)) : list field := map (fun f => (0%nat, f.1, f.2)) fs.

Definition configFields (c : Config) : list field :=
  direct [("EnableSEVSNP", JBool (c_EnableSEVSNP c)); ("EnableTDX", JBool (c_EnableTDX c));
          ("QemuBinPath", jstr (c_QemuBinPath c)); ("UseSudo", JBool (c_UseSudo c));
          ("EnableKVM", JBool (c_EnableKVM c)); ("Machine", jstr (c_Machine c));
          ("CPU", jstr (c_CPU c)); ("SMPCount", JNum (c_SMPCount c));
          ("MaxCPUs", JNum (c_MaxCPUs c)); ("MemID", jstr (c_MemID c))]
  ++ embedded [("Size", jstr (mem_Size (c_Memory c))); ("Slots", JNum (mem_Slots (c_Memory c)));
               ("Max", jstr (mem_Max (c_Memory c)))]
  ++ embedded [("If", jstr (code_If (c_OVMFCode c))); ("Format", jstr (code_Format (c_OVMFCode c)));
               ("Unit", JNum (code_Unit (c_OVMFCode c))); ("File", jstr (code_File (c_OVMFCode c)));
               ("ReadOnly", jstr (code_ReadOnly (c_OVMFCode c)));
               ("Version", jstr (code_Version (c_OVMFCode c)))]
  ++ embedded [("If", jstr (vars_If (c_OVMFVars c))); ("Format", jstr (vars_Format (c_OVMFVars c)));
               ("Unit", JNum (vars_Unit (c_OVMFVars c))); ("File", jstr (vars_File (c_OVMFVars c)))]
  ++ embedded [("ID", jstr (net_ID (c_NetDev c)));
               ("HostFwdAgent", JNum (net_HostFwdAgent (c_NetDev c)));
               ("GuestFwdAgent", JNum (net_GuestFwdAgent (c_NetDev c)))]
  ++ embedded [("DisableLegacy", jstr (virtio_DisableLegacy (c_Virtio c)));
               ("IOMMUPlatform", JBool (virtio_IOMMUPlatform (c_Virtio c)));
               ("Addr", jstr (virtio_Addr (c_Virtio c)));
               ("ROMFile", jstr (virtio_ROMFile (c_Virtio c)))]
  ++ embedded [("KernelFile", jstr (disk_KernelFile (c_DiskImg c)));
               ("RootFsFile", jstr (disk_RootFsFile (c_DiskImg c)))]
  ++ embedded [("ID", jstr (sev_ID (c_SEVSNP c))); ("CBitPos", JNum (sev_CBitPos (c_SEVSNP c)));
               ("ReducedPhysBits", JNum (sev_ReducedPhysBits (c_SEVSNP c)));
               ("EnableHostData", JBool (sev_EnableHostData (c_SEVSNP c)));
               ("HostData", jstr (sev_HostData (c_SEVSNP c)))]
  ++ embedded [("ID", jstr (tdx_ID (c_TDX c)));
               ("QuoteGenerationPort", JNum (tdx_QuoteGenerationPort (c_TDX c)));
               ("OVMF", jstr (tdx_OVMF (c_TDX c)))]
  ++ embedded [("ID", jstr (igvm_ID (c_IGVM c))); ("File", jstr (igvm_File (c_IGVM c)))]
  ++ direct [("NoGraphic", JBool (c_NoGraphic c)); ("Monitor", jstr (c_Monitor c));
             ("KernelCommandLine", jstr (c_KernelCommandLine c));
             ("HostFwdRange", jstr (c_HostFwdRange c)); ("CertsMount", jstr (c_CertsMount c));
             ("EnvMount", jstr (c_EnvMount c))].

(** [dominantField] of [encoding/json], for fields without tags: the one field of least
    depth, none when two share it. *)
Definition atDepth (d : nat) (name : string) (fs : list field) : list field :=
  filter (fun f => f.1.1 = d /\ f.1.2 = name) fs.

Definition dominant (name : string) (fs : list field) : option jval :=
  match atDepth 0 name fs, atDepth 1 name fs with
  | [f], _ => Some f.2
  | [], [f] => Some f.2
  | _, _ => None
  end.

(** The members of the object written, by name. *)
Definition marshalConfig (c : Config) (name : string) : option jval := dominant name (configFields c).

(** A member that is absent leaves the zero value. *)
Definition getStr (m : string -> option jval) (n : string) : string :=
  match m n with Some (JStr s) => s | _ => "" end.
Definition getNum (m : string -> option jval) (n : string) : Z :=
  match m n with Some (JNum z) => z | _ => 0 end.
Definition getBool (m : string -> option jval) (n : string) : bool :=
  match m n with Some (JBool b) => b | _ => false end.

(** A promoted field is decoded only where its name is not ambiguous; an ambiguous one has
    no member to be read from. *)
Definition unmarshalConfig (m : string -> option jval) : Config :=
  mkConfig (getBool m "EnableSEVSNP") (getBool m "EnableTDX") (getStr m "QemuBinPath")
    (getBool m "UseSudo") (getBool m "EnableKVM") (getStr m "Machine") (getStr m "CPU")
    (getNum m "SMPCount") (getNum m "MaxCPUs") (getStr m "MemID")
    (mkMemory (getStr m "Size") (getNum m "Slots") (getStr m "Max"))
    (mkOVMFCode (getStr m "If") (getStr m "Format") (getNum m "Unit") (getStr m "File")
       (getStr m "ReadOnly") (getStr m "Version"))
    (mkOVMFVars (getStr m "If") (getStr m "Format") (getNum m "Unit") (getStr m "File"))
    (mkNetDev (getStr m "ID") (getNum m "HostFwdAgent") (getNum m "GuestFwdAgent"))
    (mkVirtio (getStr m "DisableLegacy") (getBool m "IOMMUPlatform") (getStr m "Addr")
       (getStr m "ROMFile"))
    (mkDisk (getStr m "KernelFile") (getStr m "RootFsFile"))
    (mkSEV (getStr m "ID") (getNum m "CBitPos") (getNum m "ReducedPhysBits")
       (getBool m "EnableHostData") (getStr m "HostData"))
    (mkTDX (getStr m "ID") (getNum m "QuoteGenerationPort") (getStr m "OVMF"))
    (mkIGVM (getStr m "ID") (getStr m "File"))
    (getBool m "NoGraphic") (getStr m "Monitor") (getStr m "KernelCommandLine")
    (getStr m "HostFwdRange") (getStr m "CertsMount") (getStr m "EnvMount").

(** ** The files *)

Record VMState := mkVMState { s_ID : string; s_VMinfo : VMInfo; s_PID : Z }.

(** A file holds what [SaveVM] wrote, read back, or bytes that do not decode. *)
Inductive vmFile := FState (s : VMState) | FInvalid.

Notation disk := (gmap string vmFile).

(** What the operating system answers; a write that fails may have truncated the file. *)
Class DiskEnv := {
  d_write : disk -> string -> option (error * bool);
  d_read : disk -> string -> option error;
  d_remove : disk -> string -> option error;
  d_readDir : disk -> option error }.

Definition jsonExt : string := ".json".
Definition errNotExist : error := ErrNew "fs.ErrNotExist".
Definition errJSON : error := ErrNew "json.SyntaxError".

(** What reading the file of a state gives. *)
Definition persisted (s : VMState) : VMState :=
  mkVMState (coerceUTF8 (s_ID s))
    (mkVMInfo (unmarshalConfig (marshalConfig (vi_Config (s_VMinfo s)))) (vi_LaunchTCB (s_VMinfo s)))
    (s_PID s).

Definition statePath (dir id : string) : string := Join [dir; id +:+ jsonExt].

(** The name of a path directly in a directory. *)
Fixpoint stripCodes (p l : list Z) : option (list Z) :=
  match p, l with
  | [], _ => Some l
  | a :: p, b :: l => if a =? b then stripCodes p l else None
  | _, [] => None
  end.

Definition entryName (dir path : string) : option string :=
  name ← stripCodes (codes (dir +:+ "/")) (codes path);
  if noSlash (ofCodes name) then Some (ofCodes name) else None.

(** [os.ReadDir]: the names, sorted. *)
Definition readDir (dir : string) (d : disk) : list string :=
  sortStrings (omap (fun e => entryName dir e.1) (map_to_list d)).

Section persistence.
Context `{DiskEnv}.

Definition SaveVM (dir : string) (state : VMState) (d : disk) : option error * disk :=
  let path := statePath dir (s_ID state) in
  match d_write d path with
  | Some (e, truncated) => (Some e, if truncated : bool then <[path := FInvalid]> d else d)
  | None => (None, <[path := FState (persisted state)]> d)
  end.

Fixpoint loadFiles (dir : string) (names : list string) (d : disk) : result error (list VMState) :=
  match names with
  | [] => Ok []
  | name :: t =>
      if negb (bool_decide (Ext name = jsonExt)) then loadFiles dir t d
      else
        let path := Join [dir; name] in
        match d_read d path, d !! path with
        | Some e, _ => Err e
        | None, None => Err errNotExist
        | None, Some FInvalid => Err errJSON
        | None, Some (FState s) => let* states := loadFiles dir t d in Ok (s :: states)
        end
  end.

Definition LoadVMs (dir : string) (d : disk) : result error (list VMState) :=
  match d_readDir d with
  | Some e => Err e
  | None => loadFiles dir (readDir dir d) d
  end.

Definition DeleteVM (dir id : string) (d : disk) : option error * disk :=
  let path := statePath dir id in
  match d_remove d path, d !! path with
  | Some e, _ => (Some e, d)
  | None, None => (Some errNotExist, d)
  | None, Some _ => (None, delete path d)
  end.
End persistence.

(** ** Theorems *)

(** A configuration without the fields whose names collide: [If], [Format], [Unit] and
    [File] of the firmware and of the launch image, and [ID] of the devices. *)
Definition uncollided (c : Config) : Config :=
  let u := coerceUTF8 in
  mkConfig (c_EnableSEVSNP c) (c_EnableTDX c) (u (c_QemuBinPath c)) (c_UseSudo c) (c_EnableKVM c)
    (u (c_Machine c)) (u (c_CPU c)) (c_SMPCount c) (c_MaxCPUs c) (u (c_MemID c))
    (mkMemory (u (mem_Size (c_Memory c))) (mem_Slots (c_Memory c)) (u (mem_Max (c_Memory c))))
    (mkOVMFCode "" "" 0 "" (u (code_ReadOnly (c_OVMFCode c))) (u (code_Version (c_OVMFCode c))))
    (mkOVMFVars "" "" 0 "")
    (mkNetDev "" (net_HostFwdAgent (c_NetDev c)) (net_GuestFwdAgent (c_NetDev c)))
    (mkVirtio (u (virtio_DisableLegacy (c_Virtio c))) (virtio_IOMMUPlatform (c_Virtio c))
       (u (virtio_Addr (c_Virtio c))) (u (virtio_ROMFile (c_Virtio c))))
    (mkDisk (u (disk_KernelFile (c_DiskImg c))) (u (disk_RootFsFile (c_DiskImg c))))
    (mkSEV "" (sev_CBitPos (c_SEVSNP c)) (sev_ReducedPhysBits (c_SEVSNP c))
       (sev_EnableHostData (c_SEVSNP c)) (u (sev_HostData (c_SEVSNP c))))
    (mkTDX "" (tdx_QuoteGenerationPort (c_TDX c)) (u (tdx_OVMF (c_TDX c))))
    (mkIGVM "" "") (c_NoGraphic c) (u (c_Monitor c)) (u (c_KernelCommandLine c))
    (u (c_HostFwdRange c)) (u (c_CertsMount c)) (u (c_EnvMount c)).

Lemma unmarshal_marshal c : unmarshalConfig (marshalConfig c) = uncollided c.
Proof. unfold unmarshalConfig, uncollided. reflexivity. Qed.

Lemma stripCodes_app p l : stripCodes p (p ++ l) = Some l.
Proof. induction p as [|a p IH]; [done|]. cbn. by rewrite Z.eqb_refl. Qed.

Lemma Join_entry R name :
  Forall isName R -> isName name -> R <> [] ->
  Join [render true R; name] = render true R +:+ "/" +:+ name.
Proof.
  intros HR Hn Hne. change name with (joinSlash [name]) at 1.
  rewrite (Join_names R [name]); [|done|by constructor|done].
  unfold render. by rewrite joinSlash_app.
Qed.

Lemma entryName_join R name :
  Forall isName R -> isName name -> R <> [] ->
  entryName (render true R) (Join [render true R; name]) = Some name.
Proof.
  intros HR Hn Hne. rewrite Join_entry by done. unfold entryName.
  rewrite <- string_app_assoc, (codes_app _ name), stripCodes_app. cbn.
  rewrite ofCodes_codes. destruct Hn as (_ & _ & _ & Hs). by rewrite Hs.
Qed.

Lemma Ext_json id : Ext (id +:+ jsonExt) = jsonExt.
Proof. unfold Ext. generalize "". induction id as [|c id IH]; intros acc; [done|]. apply IH. Qed.

Section store.
Context `{DiskEnv} (R : list string).
Hypothesis HR : Forall isName R.
Hypothesis Hne : R <> [].
Let dir := render true R.

Lemma loadFiles_elem names d l s name :
  loadFiles dir names d = Ok l -> name ∈ names -> Ext name = jsonExt ->
  d !! Join [dir; name] = Some (FState s) -> s ∈ l.
Proof.
  revert l. induction names as [|n t IH]; intros l; cbn [loadFiles]; intros E Hin Hx Hd;
    [by apply elem_of_nil in Hin|].
  apply elem_of_cons in Hin as [<-|Hin].
  - rewrite Hx, bool_decide_eq_true_2, Hd in E by done. cbn [negb] in E.
    destruct (d_read d (Join [dir; name])); [done|].
    destruct (loadFiles dir t d); [|done]. apply Ok_inj in E as <-. by left.
  - destruct (negb (bool_decide (Ext n = jsonExt))); [by apply IH|].
    destruct (d_read d (Join [dir; n])); [done|].
    destruct (d !! Join [dir; n]) as [[s'|]|]; [|done..].
    destruct (loadFiles dir t d) as [l'|] eqn:El; [|done]. apply Ok_inj in E as <-. right. by apply IH.
Qed.

Lemma readDir_elem d name f :
  isName name -> d !! Join [dir; name] = Some f -> name ∈ readDir dir d.
Proof.
  intros Hn Hd. unfold readDir. apply elem_of_sortStrings, list_elem_of_omap.
  exists (Join [dir; name], f). split; [by apply elem_of_map_to_list|]. by apply entryName_join.
Qed.
End store.

(** A machine that was saved is among those loaded, with its number and its
    configuration; of the configuration the fields whose names two of the embedded structs
    share come back empty: the firmware drives, the launch image and every device
    identifier. *)
Theorem save_load_loses_devices `{DiskEnv} (R : list string) (s : VMState) (d : disk)
    (states : list VMState) :
  Forall isName R -> R <> [] -> isName (s_ID s +:+ jsonExt) ->
  d_write d (statePath (render true R) (s_ID s)) = None ->
  LoadVMs (render true R) (snd (SaveVM (render true R) s d)) = Ok states ->
  mkVMState (coerceUTF8 (s_ID s))
    (mkVMInfo (uncollided (vi_Config (s_VMinfo s))) (vi_LaunchTCB (s_VMinfo s))) (s_PID s)
  ∈ states.
Proof.
  intros HR Hne Hn Hw. unfold SaveVM. rewrite Hw. cbn [snd]. unfold LoadVMs.
  destruct (d_readDir _); [done|]. rewrite <- unmarshal_marshal. intros E.
  change (persisted s ∈ states).
  assert (<[statePath (render true R) (s_ID s) := FState (persisted s)]> d
            !! Join [render true R; s_ID s +:+ jsonExt] = Some (FState (persisted s))) as Hd
    by apply lookup_insert_eq.
  eapply loadFiles_elem; [done| |apply Ext_json|done]. by eapply readDir_elem.
Qed.

(** ** A saved machine *)

Module StoreSample.
#[global] Instance working : DiskEnv := {|
  d_write := fun _ _ => None; d_read := fun _ _ => None; d_remove := fun _ _ => None;
  d_readDir := fun _ => None |}.

Definition dir : list string := ["tmp"; "agents-secure-binding"].
Definition state : VMState := mkVMState "b2b6" (mkVMInfo QemuSample.config 0) 4711.

Lemma save_load_loses_devices_witness :
  LoadVMs (render true dir) (snd (SaveVM (render true dir) state ∅)) = Ok [persisted state]
  /\ mkVMState "b2b6" (mkVMInfo (uncollided QemuSample.config) 0) 4711 ∈ [persisted state]
  /\ vars_File (c_OVMFVars QemuSample.config) <> ""
  /\ vars_File (c_OVMFVars (uncollided QemuSample.config)) = "".
Proof.
  split; [vm_compute; reflexivity|]. split; [|done].
  apply (save_load_loses_devices dir state ∅ [persisted state]);
    [by apply (bool_decide_unpack _) | done | by apply (bool_decide_unpack _) | done
    | vm_compute; reflexivity].
Defined.
End StoreSample.
