(* ===== verification/Manager.v ===== *)
(** * The manager: [manager/service.go], [ttl.go] and [attestation_policy.go]

    The manager creates and removes confidential machines.  Its table of machines is shared
    by the calls of the API and by the timers that remove machines whose time is over;
    [CreateVM] holds the lock only while it reads or changes the table, so a creation is
    the sequence of its critical sections and other calls run in between.  Machines are
    those of [Qemu], their persisted state that of [VmStore].

    The table holds pointers.  Between the start of a machine and its entry in the table
    only the creating call has the pointer, and afterwards a call changes a machine only
    through the table, so machines are values here. *)

From stdpp Require Import base gmap list strings.
From Stdlib Require Import ZArith Lia Strings.Byte.
From S2P Require Import Prelude GoStrings Errors GoPath GoOS GoNumbers Sha2 Qemu Corim VmStore.

(** ** Requests *)

(** [bytes] fields are nil when they are not set. *)
Record CreateReq := mkCreateReq {
  q_AgentLogLevel : string; q_AgentCvmServerUrl : string; q_AgentCertsToken : string;
  q_AgentCvmCaUrl : string; q_AgentCvmClientCert : option (list byte);
  q_AgentCvmClientKey : option (list byte); q_AgentCvmServerCaCert : option (list byte);
  q_AwsAccessKeyId : string; q_AwsSecretAccessKey : string; q_AwsEndpointUrl : string;
  q_AwsRegion : string; q_AaKbsParams : string; q_Ttl : string }.

Definition ErrMalformedEntity : error := ErrNew "malformed entity specification".
Definition ErrNotFound : error := ErrNew "entity not found".
Definition ErrFailedToAllocatePort : error := ErrNew "failed to allocate free port on host".
Definition ErrMaxVMsExceeded : error := ErrNew "maximum number of VMs exceeded".

(** ** Validation *)

Definition validateEnvironmentValue (key value : string) : option error :=
  if existsb (fun c => (c =? 0) || (c =? 13) || (c =? 10)) (codes value)
  then Some (ErrWrap ("environment value for " +:+ key) ErrMalformedEntity) else None.

Definition validateAAKBSParams (value : string) : option error :=
  if 1024 <? slen value then Some (ErrWrap "aa_kbs_params is too long" ErrMalformedEntity)
  else if existsb (fun r => IsSpace r || IsControl r) (runes value)
  then Some (ErrWrap "aa_kbs_params must not contain whitespace or control characters"
               ErrMalformedEntity)
  else None.

(** The first match of the regular expression of two runs of digits around a dash. *)
Fixpoint spanDigits (s : list Z) : list Z * list Z :=
  match s with
  | c :: t => if isDigit c then let '(d, r) := spanDigits t in (c :: d, r) else ([], s)
  | [] => ([], [])
  end.

Definition matchRange (s : list Z) : option (string * string) :=
  match spanDigits s with
  | ((_ :: _) as a, 45 :: r) =>
      match spanDigits r with
      | ((_ :: _) as b, _) => Some (ofCodes a, ofCodes b)
      | _ => None
      end
  | _ => None
  end.

Fixpoint findRange (s : list Z) : option (string * string) :=
  match matchRange s with
  | Some m => Some m
  | None => match s with [] => None | _ :: t => findRange t end
  end.

Definition decodeRange (input : string) : result error (Z * Z) :=
  match findRange (codes input) with
  | None => Err (ErrNew ("invalid input format: " +:+ input))
  | Some (a, b) =>
      let* start := Atoi a in
      let* stop := Atoi b in
      if stop <? start then Err (ErrNew "invalid range") else Ok (start, stop)
  end.

(** ** What the manager asks of its environment *)

Class ManagerEnv := {
  (** [os.MkdirTemp]. *)
  mkdirTemp : list act -> string -> string -> result error string;
  (** The order in which [range] visits a map. *)
  mapRange : list act -> gmap string string -> list (string * string);
  (** [checkPortisFree], by the probe that asks: the first, or those of the search. *)
  portFree : list act -> bool -> Z -> bool;
  (** The first of the concurrent probes to answer. *)
  firstPort : list act -> list Z -> option Z }.

Class ManagerLaws `{ManagerEnv} : Prop := {
  mapRange_perm : forall h m, mapRange h m ≡ₚ map_to_list m;
  firstPort_elem : forall h l, match firstPort h l with Some p => p ∈ l | None => l = [] end }.

Section host.
Context `{OS, ManagerEnv}.

Definition getFreePort (minPort maxPort : Z) : st (list act) (result error Z) :=
  fun h =>
    (if portFree h false minPort then Ok minPort
     else match firstPort h (List.filter (portFree h true) (seqZ minPort (maxPort - minPort + 1))) with
          | Some p => Ok p
          | None => Err (ErrNew "failed to find free port in range")
          end, h).

Definition MkdirTemp (dir pattern : string) : st (list act) (result error string) :=
  fun h => match mkdirTemp h dir pattern with
           | Err e => (Err e, h)
           | Ok d => (Ok d, h ++ [AMkdir d])
           end.

(** [os.WriteFile]. *)
Definition WriteFile (path : string) (data : list byte) (perm : Z) : st (list act) (result error unit) :=
  guard! perform (AOpenTrunc path perm) in
  guard! perform (AWrite path data) in
  lift (Ok tt).

Definition tempCertMount (id : string) (req : CreateReq) : st (list act) (result error string) :=
  let! dir := MkdirTemp "/tmp" id in
  let! _ := WriteFile (dir +:+ "/cert.pem") (default [] (q_AgentCvmClientCert req)) 420 in
  let! _ := WriteFile (dir +:+ "/key.pem") (default [] (q_AgentCvmClientKey req)) 384 in
  let! _ := WriteFile (dir +:+ "/ca.pem") (default [] (q_AgentCvmServerCaCert req)) 420 in
  lift (Ok dir).

Definition insertIf (b : bool) (k v : string) (m : gmap string string) : gmap string string :=
  if b then <[k := v]> m else m.

Definition isNil {A} (o : option A) : bool := match o with None => true | Some _ => false end.

Definition envMap (id : string) (req : CreateReq) : gmap string string :=
  insertIf (bool_decide (q_AwsRegion req <> "")) "AWS_REGION" (q_AwsRegion req)
  (insertIf (bool_decide (q_AwsEndpointUrl req <> "")) "AWS_ENDPOINT_URL" (q_AwsEndpointUrl req)
  (insertIf (bool_decide (q_AwsSecretAccessKey req <> "")) "AWS_SECRET_ACCESS_KEY"
     (q_AwsSecretAccessKey req)
  (insertIf (bool_decide (q_AwsAccessKeyId req <> "")) "AWS_ACCESS_KEY_ID" (q_AwsAccessKeyId req)
  (insertIf (negb (isNil (q_AgentCvmServerCaCert req))) "AGENT_CVM_GRPC_SERVER_CA_CERTS"
     "/etc/certs/ca.pem"
  (insertIf (negb (isNil (q_AgentCvmClientKey req))) "AGENT_CVM_GRPC_CLIENT_KEY"
     "/etc/certs/key.pem"
  (insertIf (negb (isNil (q_AgentCvmClientCert req))) "AGENT_CVM_GRPC_CLIENT_CERT"
     "/etc/certs/cert.pem"
  (<["AGENT_CVM_CA_URL" := q_AgentCvmCaUrl req]>
  (<["AGENT_CERTS_TOKEN" := q_AgentCertsToken req]>
  (<["AGENT_CVM_ID" := id]>
  (<["AGENT_CVM_GRPC_URL" := q_AgentCvmServerUrl req]>
  (<["AGENT_LOG_LEVEL" := q_AgentLogLevel req]> ∅))))))))))).

Fixpoint validateAll (l : list (string * string)) : option error :=
  match l with
  | [] => None
  | (k, v) :: t =>
      match validateEnvironmentValue k v with Some e => Some e | None => validateAll t end
  end.

Definition newline : string := String (ofCode 10) EmptyString.
Definition envLine (kv : string * string) : list byte := bytesOf (kv.1 +:+ "=" +:+ kv.2 +:+ newline).

Fixpoint writeLines (path : string) (l : list (string * string)) : st (list act) (option error) :=
  match l with
  | [] => lift None
  | kv :: t =>
      fun h => match perform (AWrite path (envLine kv)) h with
               | (Some e, h') => (Some e, snd (perform (AClose path) h'))
               | (None, h') => writeLines path t h'
               end
  end.

(** An error removes the directory. *)
Definition orRemove (dir : string) (m : st (list act) (option error)) : st (list act) (option error) :=
  fun h => match m h with
           | (None, h') => (None, h')
           | (Some e, h') => (Some e, snd (perform (ARemoveAll dir) h'))
           end.

Definition tmpEnvironment (id : string) (req : CreateReq) : st (list act) (result error string) :=
  let! dir := MkdirTemp "/tmp" id in
  let path := dir +:+ "/environment" in
  guard! orRemove dir (fun h => (validateAll (mapRange h (envMap id req)), h)) in
  guard! orRemove dir (perform (AOpenTrunc path 384)) in
  guard! orRemove dir (fun h => writeLines path (mapRange h (envMap id req)) h) in
  guard! orRemove dir (perform (AClose path)) in
  lift (Ok dir).
End host.

(** ** The service *)

(** A timer of [ttl.go]: once it has fired, stopping it has no effect. *)
Record timer := mkTimer { t_Duration : Duration; t_Armed : bool }.

(** [ms_expiring] are the callbacks of fired timers that have not run yet; [ms_hist] is what
    was asked of the operating system. *)
Record managerService := mkManager {
  ms_qemuCfg : Config; ms_attestationPolicyBinaryPath : string; ms_vms : gmap string qemuVM;
  ms_portRangeMin : Z; ms_portRangeMax : Z; ms_disk : disk; ms_eosVersion : string;
  ms_timers : gmap string timer; ms_maxVMs : Z; ms_expiring : list string; ms_hist : list act }.

Definition setVms (v : gmap string qemuVM) (m : managerService) : managerService :=
  mkManager (ms_qemuCfg m) (ms_attestationPolicyBinaryPath m) v (ms_portRangeMin m)
    (ms_portRangeMax m) (ms_disk m) (ms_eosVersion m) (ms_timers m) (ms_maxVMs m)
    (ms_expiring m) (ms_hist m).
Definition setDisk (d : disk) (m : managerService) : managerService :=
  mkManager (ms_qemuCfg m) (ms_attestationPolicyBinaryPath m) (ms_vms m) (ms_portRangeMin m)
    (ms_portRangeMax m) d (ms_eosVersion m) (ms_timers m) (ms_maxVMs m) (ms_expiring m)
    (ms_hist m).
Definition setTimers (t : gmap string timer) (m : managerService) : managerService :=
  mkManager (ms_qemuCfg m) (ms_attestationPolicyBinaryPath m) (ms_vms m) (ms_portRangeMin m)
    (ms_portRangeMax m) (ms_disk m) (ms_eosVersion m) t (ms_maxVMs m) (ms_expiring m) (ms_hist m).
Definition setExpiring (l : list string) (m : managerService) : managerService :=
  mkManager (ms_qemuCfg m) (ms_attestationPolicyBinaryPath m) (ms_vms m) (ms_portRangeMin m)
    (ms_portRangeMax m) (ms_disk m) (ms_eosVersion m) (ms_timers m) (ms_maxVMs m) l (ms_hist m).
Definition setHist (h : list act) (m : managerService) : managerService :=
  mkManager (ms_qemuCfg m) (ms_attestationPolicyBinaryPath m) (ms_vms m) (ms_portRangeMin m)
    (ms_portRangeMax m) (ms_disk m) (ms_eosVersion m) (ms_timers m) (ms_maxVMs m)
    (ms_expiring m) h.

(** A call to the operating system. *)
Definition sys {A} (c : st (list act) A) : st managerService A :=
  fun m => let '(a, h) := c (ms_hist m) in (a, setHist h m).

(** *** Time to live: [ttl.go] *)

Definition SetTTL (vmID : string) (ttl : Duration) (m : managerService) : managerService :=
  setTimers (<[vmID := mkTimer ttl true]> (ms_timers m)) m.

Definition CancelTTL (vmID : string) (m : managerService) : managerService :=
  setTimers (delete vmID (ms_timers m)) m.

Definition CancelAll (m : managerService) : managerService := setTimers ∅ m.

(** An armed timer whose time is over starts its callback. *)
Definition fireTimer (vmID : string) (m : managerService) : option managerService :=
  match ms_timers m !! vmID with
  | Some t =>
      if t_Armed t
      then Some (setExpiring (ms_expiring m ++ [vmID])
                   (setTimers (<[vmID := mkTimer (t_Duration t) false]> (ms_timers m)) m))
      else None
  | None => None
  end.

(** *** Persistence *)

Definition persistenceDir : string := "/tmp/agents-secure-binding".

(** *** Creation *)

Definition setLaunch (cmdline certs env : string) (port : Z) (c : Config) : Config :=
  mkConfig (c_EnableSEVSNP c) (c_EnableTDX c) (c_QemuBinPath c) (c_UseSudo c) (c_EnableKVM c)
    (c_Machine c) (c_CPU c) (c_SMPCount c) (c_MaxCPUs c) (c_MemID c) (c_Memory c)
    (c_OVMFCode c) (c_OVMFVars c)
    (mkNetDev (net_ID (c_NetDev c)) port (net_GuestFwdAgent (c_NetDev c)))
    (c_Virtio c) (c_DiskImg c) (c_SEVSNP c) (c_TDX c) (c_IGVM c) (c_NoGraphic c) (c_Monitor c)
    cmdline (c_HostFwdRange c) certs env.

(** Where a creation stands: before its first critical section, before the host is
    prepared, before the entry in the table, before the timer, before the state is saved,
    before the machine is set running, and at its end. *)
Inductive createTask :=
| CBegin (id : string) (req : CreateReq)
| CPrepare (id : string) (req : CreateReq) (cmdline : string)
| CInsert (id : string) (req : CreateReq) (cfg : VMInfo) (port : Z) (v : qemuVM)
| CTtl (id : string) (req : CreateReq) (cfg : VMInfo) (port : Z) (v : qemuVM)
| CSave (id : string) (cfg : VMInfo) (port : Z) (v : qemuVM)
| CTransition (id : string) (port : Z)
| CDone (id : string) (r : result error string)
| CPanic.

Definition atLimit (m : managerService) : bool :=
  (0 <? ms_maxVMs m) && (ms_maxVMs m <=? Z.of_nat (size (ms_vms m))).

Section manager.
Context `{OS, ManagerEnv, ProcEnv, DiskEnv}.

Definition createBegin (id : string) (req : CreateReq) (m : managerService) : createTask :=
  if atLimit m then CDone id (Err ErrMaxVMsExceeded)
  else
    let line := c_KernelCommandLine (ms_qemuCfg m) in
    if bool_decide (q_AaKbsParams req <> "") then
      match validateAAKBSParams (q_AaKbsParams req) with
      | Some e => CDone id (Err e)
      | None => CPrepare id req (line +:+ " agent.aa_kbc_params=" +:+ q_AaKbsParams req)
      end
    else CPrepare id req line.

Definition allocatePort (minPort maxPort : Z) : st (list act) (result error Z) :=
  fun h => match getFreePort minPort maxPort h with
           | (Err e, h') => (Err (Wrap ErrFailedToAllocatePort e), h')
           | r => r
           end.

Definition createPrepare (id : string) (req : CreateReq) (cmdline : string) (base : Config)
    (minPort maxPort : Z) : st (list act) (result error (VMInfo * Z * qemuVM)) :=
  let! certs := tempCertMount id req in
  let! env := tmpEnvironment id req in
  let! agentPort := allocatePort minPort maxPort in
  let cfg := mkVMInfo (setLaunch cmdline certs env agentPort base) 0 in
  let! cvm := StartVM (NewVM cfg id) in
  lift (Ok (cfg, agentPort, cvm)).

(** A machine that came too late is stopped; an error of that is logged. *)
Definition createInsert (id : string) (req : CreateReq) (cfg : VMInfo) (port : Z) (v : qemuVM)
    : st managerService createTask :=
  fun m =>
    if atLimit m then
      let '((r, _), m') := sys (StopVM v) m in
      (match r with None => CPanic | Some _ => CDone id (Err ErrMaxVMsExceeded) end, m')
    else (CTtl id req cfg port v, setVms (<[id := v]> (ms_vms m)) m).

Definition createTtl (id : string) (req : CreateReq) (cfg : VMInfo) (port : Z) (v : qemuVM)
    : st managerService createTask :=
  fun m =>
    if bool_decide (q_Ttl req <> "") then
      match ParseDuration (q_Ttl req) with
      | Err e => (CDone id (Err e), m)
      | Ok ttl => (CSave id cfg port v, SetTTL id ttl m)
      end
    else (CSave id cfg port v, m).

Definition createSave (id : string) (cfg : VMInfo) (port : Z) (v : qemuVM)
    : st managerService createTask :=
  fun m =>
    match GetProcess v with
    | None => (CPanic, m)
    | Some pid =>
        let '(_, d) := SaveVM persistenceDir (mkVMState id cfg pid) (ms_disk m) in
        (CTransition id port, setDisk d m)
    end.

(** A machine that left the table is a nil interface, whose method call panics. *)
Definition createTransition (id : string) (port : Z) : st managerService createTask :=
  fun m =>
    match ms_vms m !! id with
    | None => (CPanic, m)
    | Some v =>
        (CDone id (Ok (Itoa port)), setVms (<[id := snd (Transition VmRunning v)]> (ms_vms m)) m)
    end.

Definition createStep (t : createTask) : st managerService createTask :=
  match t with
  | CBegin id req => fun m => (createBegin id req m, m)
  | CPrepare id req cmdline =>
      fun m =>
        match sys (createPrepare id req cmdline (ms_qemuCfg m) (ms_portRangeMin m)
                     (ms_portRangeMax m)) m with
        | (Err e, m') => (CDone id (Err e), m')
        | (Ok (cfg, port, v), m') => (CInsert id req cfg port v, m')
        end
  | CInsert id req cfg port v => createInsert id req cfg port v
  | CTtl id req cfg port v => createTtl id req cfg port v
  | CSave id cfg port v => createSave id cfg port v
  | CTransition id port => createTransition id port
  | CDone _ _ | CPanic => fun m => (t, m)
  end.

(** The call that nothing runs beside: a creation has six sections. *)
Definition CreateVM (id : string) (req : CreateReq) : st managerService createTask :=
  fun m => Nat.iter 6 (fun s => createStep s.1 s.2) (CBegin id req, m).

(** *** Removal and shutdown *)

(** None is a panic. *)
Definition RemoveVM (id : string) : st managerService (option (result error unit)) :=
  fun m =>
    let m := CancelTTL id m in
    match ms_vms m !! id with
    | None => (Some (Err ErrNotFound), m)
    | Some cvm =>
        let '((r, cvm'), m) := sys (StopVM cvm) m in
        match r with
        | None => (None, m)
        | Some (Err e) => (Some (Err e), setVms (<[id := cvm']> (ms_vms m)) m)
        | Some (Ok _) =>
            let '(_, d) := DeleteVM persistenceDir id (ms_disk m) in
            (Some (Ok tt), setDisk d (setVms (delete id (ms_vms m)) m))
        end
    end.

Definition Shutdown (m : managerService) : managerService := setVms ∅ (CancelAll m).

Definition ReturnCVMInfo (m : managerService) : string * Z * string * string :=
  (code_Version (c_OVMFCode (ms_qemuCfg m)), c_SMPCount (ms_qemuCfg m), c_CPU (ms_qemuCfg m),
   ms_eosVersion m).

(** *** Start *)

(** The machine of a persisted state; its number, its process, its new state. *)
Definition restoreVM (state : VMState) : st managerService unit :=
  fun m =>
    let '(alive, m) := sys (processExists (s_PID state)) m in
    if negb alive then
      let '(_, d) := DeleteVM persistenceDir (s_ID state) (ms_disk m) in (tt, setDisk d m)
    else
      match sys (SetProcess (s_PID state) (NewVM (s_VMinfo state) (s_ID state))) m with
      | (Err _, m) => (tt, m)
      | (Ok cvm, m) =>
          (tt, setVms (<[s_ID state := snd (Transition VmRunning cvm)]> (ms_vms m)) m)
      end.

Fixpoint restoreAll (states : list VMState) : st managerService unit :=
  match states with
  | [] => lift tt
  | s :: t => fun m => let '(_, m) := restoreVM s m in restoreAll t m
  end.

Definition restoreVMs : st managerService (result error unit) :=
  fun m =>
    match LoadVMs persistenceDir (ms_disk m) with
    | Err e => (Err e, m)
    | Ok states => let '(_, m) := restoreAll states m in (Ok tt, m)
    end.

Definition NewManager {Key} `{CorimLib Key} (cfg : Config)
    (attestationPolicyBinaryPath signingKeyPath eosVersion : string) (maxVMs : Z) (d : disk)
    : st (list act) (result error (managerService * option Key)) :=
  let! range := lift (decodeRange (c_HostFwdRange cfg)) in
  guard! perform (AMkdirAll persistenceDir) in
  let! key :=
    (if bool_decide (signingKeyPath <> "")
     then let! k := (fun h => let '(r, h') := LoadSigningKey signingKeyPath h in
                              (wrapRes "failed to load signing key" r, h')) in lift (Ok (Some k))
     else lift (Ok None)) in
  fun h =>
    let '(r, m) := restoreVMs (mkManager cfg attestationPolicyBinaryPath ∅ range.1 range.2 d
                                 eosVersion ∅ maxVMs [] h) in
    (let* _ := r in Ok (m, key), ms_hist m).
End manager.

(** ** Attestation policy: [attestation_policy.go] *)

Section policy.
Context {Key : Type} `{IgvmTool, CorimLib Key}.

(** What the tool wrote to [stdoutBuffer]: the writer in front of it is not flushed. *)
Definition measureImage (binPath igvmFile : string) : st (list act) (result error string) :=
  let! im := lift (wrapRes "failed to create IGVM measurement"
                     (NewIgvmMeasurement (binPath +:+ "/igvmmeasure") NewWriter)) in
  let! im := (fun h => let '(r, h') := RunIgvm igvmFile im h in
                       (wrapRes "failed to run IGVM measurement" r, h')) in
  lift (Ok (hexEncode (bw_out (im_stdout im)))).

Definition policyHostData (c : Config) : result error string :=
  if sev_EnableHostData (c_SEVSNP c)
  then wrapRes "invalid host data" (NormalizeSEVSNPHostData (sev_HostData (c_SEVSNP c)))
  else Ok "".

Definition policyOptions (m : managerService) (key : option Key) (vmi : VMInfo)
    : st (list act) (result error (Options Key)) :=
  let c := vi_Config vmi in
  if c_EnableSEVSNP c then
    let! measurement := measureImage (ms_attestationPolicyBinaryPath m)
                          (igvm_File (c_IGVM (ms_qemuCfg m))) in
    let! hostData := lift (policyHostData c) in
    lift (Ok (mkOptions "snp" measurement (c_CPU (ms_qemuCfg m)) 0 0 "" "" hostData
                (vi_LaunchTCB vmi) key))
  else
    lift (Ok (mkOptions "tdx" "" (c_CPU (ms_qemuCfg m)) 0 0 "" "" "" 0 key)).

Definition FetchAttestationPolicy (key : option Key) (id : string)
    : st managerService (result error (list byte)) :=
  fun m =>
    match ms_vms m !! id with
    | None => (Err (ErrNew ("computationId " +:+ id +:+ " not found")), m)
    | Some v =>
        sys (let! opts := policyOptions m key (GetConfig v) in lift (GenerateCoRIM opts)) m
    end.
End policy.

(** ** The gRPC server: [manager/api/grpc/server.go] *)

Record CreateRes := mkCreateRes { cr_ForwardedPort : string; cr_CvmId : string }.
Record CVMInfoRes := mkCVMInfoRes {
  ci_OvmfVersion : string; ci_CpuNum : Z; ci_CpuType : string; ci_EosVersion : string;
  ci_Id : string }.

Section server.
Context `{OS, ManagerEnv, ProcEnv, DiskEnv}.

(** None while the call has not returned, or when it panicked; an error drops the
    identifier. *)
Definition CreateVm (id : string) (req : CreateReq)
    : st managerService (option (result error CreateRes)) :=
  fun m =>
    match CreateVM id req m with
    | (CDone id (Ok port), m') => (Some (Ok (mkCreateRes port id)), m')
    | (CDone _ (Err e), m') => (Some (Err e), m')
    | (_, m') => (None, m')
    end.

Definition RemoveVm (id : string) : st managerService (option (result error unit)) := RemoveVM id.

Definition CVMInfo (id : string) (m : managerService) : CVMInfoRes :=
  let '(ovmf, cpunum, cputype, eosversion) := ReturnCVMInfo m in
  mkCVMInfoRes ovmf (wrapS 32 cpunum) cputype eosversion id.

(** ** Calls and timers side by side *)

Record mgrSys := mkMgrSys { y_ms : managerService; y_tasks : list createTask; y_panic : bool }.

Inductive mgrLabel :=
| LCreate (id : string) (req : CreateReq)
| LTask (i : nat)
| LRemove (id : string)
| LFire (id : string)
| LExpire (i : nat)
| LShutdown.

Definition isPanic (t : createTask) : bool := match t with CPanic => true | _ => false end.

Definition removeStep (id : string) (y : mgrSys) : mgrSys :=
  let '(r, m) := RemoveVM id (y_ms y) in mkMgrSys m (y_tasks y) (isNil r).

(** A panic ends the process. *)
Definition mgrStep (l : mgrLabel) (y : mgrSys) : option mgrSys :=
  if y_panic y then None
  else
    match l with
    | LCreate id req => Some (mkMgrSys (y_ms y) (y_tasks y ++ [CBegin id req]) false)
    | LTask i =>
        match y_tasks y !! i with
        | None => None
        | Some t =>
            let '(t', m) := createStep t (y_ms y) in
            Some (mkMgrSys m (<[i := t']> (y_tasks y)) (isPanic t'))
        end
    | LRemove id => Some (removeStep id y)
    | LFire id => m ← fireTimer id (y_ms y); Some (mkMgrSys m (y_tasks y) false)
    | LExpire i =>
        match ms_expiring (y_ms y) !! i with
        | None => None
        | Some id =>
            Some (removeStep id
                    (mkMgrSys (setExpiring (delete i (ms_expiring (y_ms y))) (y_ms y))
                       (y_tasks y) false))
        end
    | LShutdown => Some (mkMgrSys (Shutdown (y_ms y)) (y_tasks y) false)
    end.

Fixpoint mgrRun (ls : list mgrLabel) (y : mgrSys) : option mgrSys :=
  match ls with
  | [] => Some y
  | l :: t => y' ← mgrStep l y; mgrRun t y'
  end.

(** What can be reached from a service that has started. *)
Definition mgrReachable (m0 : managerService) (y : mgrSys) : Prop :=
  exists ls, mgrRun ls (mkMgrSys m0 [] false) = Some y.
End server.
