(* ===== verification/ManagerRuns.v ===== *)
(** * Properties of the manager

    The invariant of every interleaving of creations, removals, timers and shutdown; what a
    creation does alone; and the text that leaves the manager: kernel command lines and
    environment files. *)

From stdpp Require Import base gmap list strings.
From Stdlib Require Import ZArith Lia Ascii Strings.Byte.
From S2P Require Import Prelude GoStrings Errors GoPath GoOS GoNumbers Sha2 Archive Qemu Corim.
From S2P Require Import VmStore Manager.

Section runs.
Context `{OS, ManagerEnv, ProcEnv, DiskEnv}.

(** ** The invariant *)

Definition hasProcess (v : qemuVM) : Prop := is_Some (v_cmd v).

Definition taskOk (t : createTask) : Prop :=
  match t with
  | CInsert _ _ _ _ v | CTtl _ _ _ _ v | CSave _ _ _ v => hasProcess v
  | CPanic => False
  | _ => True
  end.

(** The table holds machines that have a process, at most [n0] or the limit of them. *)
Definition tableOk (n0 : Z) (m : managerService) : Prop :=
  map_Forall (fun _ v => hasProcess v) (ms_vms m)
  /\ (0 < ms_maxVMs m -> Z.of_nat (size (ms_vms m)) <= Z.max (ms_maxVMs m) n0).

Lemma tableOk_same n0 m m' :
  ms_vms m' = ms_vms m -> ms_maxVMs m' = ms_maxVMs m -> tableOk n0 m -> tableOk n0 m'.
Proof. unfold tableOk. by intros -> ->. Qed.

Lemma tableOk_update n0 m id v w :
  tableOk n0 m -> ms_vms m !! id = Some v -> hasProcess w ->
  tableOk n0 (setVms (<[id := w]> (ms_vms m)) m).
Proof.
  intros [Hp Hs] Hv Hw. split; cbn; [by apply map_Forall_insert_2|].
  rewrite map_size_insert_Some; [done|by eexists].
Qed.

Lemma tableOk_insert n0 m id v :
  tableOk n0 m -> atLimit m = false -> hasProcess v ->
  tableOk n0 (setVms (<[id := v]> (ms_vms m)) m).
Proof.
  intros [Hp Hs] Hl Hv. split; cbn; [by apply map_Forall_insert_2|].
  intros Hm. specialize (Hs Hm). unfold atLimit in Hl. apply andb_false_iff in Hl.
  rewrite Z.ltb_ge, Z.leb_gt in Hl.
  destruct (ms_vms m !! id) eqn:E.
  - rewrite map_size_insert_Some by (by eexists). lia.
  - rewrite map_size_insert_None by done. lia.
Qed.

Lemma tableOk_delete n0 m id :
  tableOk n0 m -> tableOk n0 (setVms (delete id (ms_vms m)) m).
Proof.
  intros [Hp Hs]. split; cbn; [by apply map_Forall_delete|]. intros Hm. specialize (Hs Hm).
  rewrite map_size_delete. destruct (ms_vms m !! id); unfold Datatypes.id; lia.
Qed.

Lemma StartVM_process v h w h' : StartVM v h = (Ok w, h') -> hasProcess w.
Proof.
  unfold StartVM, startConfig, bindOk, lift. intros E.
  repeat case_hyp E; simplify_eq; by eexists.
Qed.

Lemma createPrepare_process id req line base lo hi h cfg port v h' :
  createPrepare id req line base lo hi h = (Ok (cfg, port, v), h') -> hasProcess v.
Proof.
  unfold createPrepare, bindOk, lift. intros E.
  repeat case_hyp E; simplify_eq. by eapply StartVM_process.
Qed.

Lemma Transition_process s v : hasProcess v -> hasProcess (snd (Transition s v)).
Proof. unfold Transition. by destruct (TransitionVM _ _). Qed.

Lemma StopVM_process v h r w h' :
  StopVM v h = ((r, w), h') -> hasProcess v -> hasProcess w /\ r <> None.
Proof.
  unfold StopVM. intros E Hv. pose proof (Transition_process StopComputationRun v Hv) as Ht.
  destruct Hv as [p Hp]. rewrite Hp in E.
  destruct (stopProcess _ p h). by simplify_eq.
Qed.

(** A section of a creation keeps the table, and only the last one can panic. *)
Lemma createStep_ok n0 t m t' m' :
  tableOk n0 m -> taskOk t -> createStep t m = (t', m') ->
  tableOk n0 m' /\ (taskOk t' \/ exists id port, t = CTransition id port /\ ms_vms m !! id = None).
Proof.
  intros Hm Ht. destruct t as [id req|id req line|id req cfg port v|id req cfg port v|id cfg port v
                              |id port|id r|]; cbn [createStep]; intros E.
  - simplify_eq. split; [done|]. left. unfold createBegin. by repeat case_goal.
  - unfold sys in E. destruct (createPrepare _ _ _ _ _ _ _) as [[[[cfg port] v]|e] h] eqn:Ep;
      simplify_eq; (split; [by eapply tableOk_same|]); left; [by eapply createPrepare_process|done].
  - unfold createInsert in E. destruct (atLimit m) eqn:Hl.
    + unfold sys in E. destruct (StopVM v (ms_hist m)) as [[r w] h] eqn:Es.
      destruct (StopVM_process _ _ _ _ _ Es Ht) as [_ Hr].
      destruct r; [|done]. simplify_eq. split; [by eapply tableOk_same|]. by left.
    + simplify_eq. split; [by apply tableOk_insert|]. by left.
  - unfold createTtl in E. repeat case_hyp E; simplify_eq; (split; [|by left]); try done;
      by eapply tableOk_same.
  - unfold createSave in E. destruct Ht as [p Hp]. unfold GetProcess in E. rewrite Hp in E. cbn in E.
    destruct (SaveVM _ _ _). simplify_eq. split; [by eapply tableOk_same|by left].
  - unfold createTransition in E. destruct (ms_vms m !! id) as [v|] eqn:Hv; simplify_eq.
    + split; [|by left]. eapply tableOk_update; [done..|]. apply Transition_process.
      by apply (proj1 Hm id).
    + split; [done|]. right. eauto.
  - simplify_eq. auto.
  - done.
Qed.

Lemma RemoveVM_ok n0 id m r m' :
  tableOk n0 m -> RemoveVM id m = (r, m') -> tableOk n0 m' /\ isNil r = false.
Proof.
  intros Hm. unfold RemoveVM. set (c := CancelTTL id m).
  assert (tableOk n0 c) as Hc by by eapply tableOk_same. clearbody c.
  destruct (ms_vms c !! id) as [v|] eqn:Hv; [|intros E; by simplify_eq].
  unfold sys. destruct (StopVM v (ms_hist c)) as [[r' w] h] eqn:Es.
  destruct (StopVM_process _ _ _ _ _ Es (proj1 Hc id v Hv)) as [Hw Hr].
  destruct r' as [[[]|e]|]; [| |done]; intros E.
  - destruct (DeleteVM _ _ _). simplify_eq. split; [|done].
    eapply tableOk_same; [done..|]. by apply (tableOk_delete n0 c).
  - simplify_eq. split; [|done]. by eapply (tableOk_update n0 (setHist h c)).
Qed.

Definition mgrInv (n0 : Z) (y : mgrSys) : Prop :=
  tableOk n0 (y_ms y) /\ (y_panic y = false -> Forall taskOk (y_tasks y)).

Lemma removeStep_inv n0 id y :
  mgrInv n0 y -> y_panic y = false -> mgrInv n0 (removeStep id y) /\ y_panic (removeStep id y) = false.
Proof.
  intros [Hm Ht] Hp. unfold removeStep. destruct (RemoveVM id (y_ms y)) as [r m] eqn:E.
  destruct (RemoveVM_ok _ _ _ _ _ Hm E) as [Hm' Hr]. cbn. split; [|done]. split; [done|].
  intros _. by apply Ht.
Qed.

(** A step keeps the invariant; it panics only where a creation finds its machine gone. *)
Lemma mgrStep_inv n0 l y y' :
  mgrInv n0 y -> mgrStep l y = Some y' ->
  mgrInv n0 y' /\
  (y_panic y' = true ->
   exists i id port, l = LTask i /\ y_tasks y !! i = Some (CTransition id port)
                     /\ ms_vms (y_ms y) !! id = None).
Proof.
  intros Hy E. unfold mgrStep in E. destruct (y_panic y) eqn:Hp; [done|].
  destruct (Hy) as [Hm Ht]. specialize (Ht Hp).
  destruct l as [id req|i|id|id|i|].
  - simplify_eq. split; [|done]. split; [done|]. intros _. cbn. apply Forall_app. by repeat constructor.
  - destruct (y_tasks y !! i) as [t|] eqn:Hi; [|done].
    destruct (createStep t (y_ms y)) as [t' m] eqn:Es. simplify_eq. cbn.
    pose proof (Forall_lookup_1 _ _ _ _ Ht Hi) as Hti.
    destruct (createStep_ok n0 t (y_ms y) t' m Hm Hti Es) as [Hm' [Hok|(id & port & -> & Hv)]].
    + split; [split; [done|] | by destruct t']. intros _. by apply Forall_insert.
    + split; [split; [done|]|by eauto 6]. cbn in Es. unfold createTransition in Es.
      rewrite Hv in Es. by simplify_eq.
  - destruct (removeStep_inv n0 id y Hy Hp) as [Hi Hn]. simplify_eq. split; [done|]. congruence.
  - destruct (fireTimer id (y_ms y)) as [m|] eqn:Ef; [|done]. simplify_eq/=. split; [|done].
    split; [|done]. cbn. unfold fireTimer in Ef. repeat case_hyp Ef; simplify_eq.
    by eapply tableOk_same.
  - destruct (ms_expiring (y_ms y) !! i) as [id|]; [|done].
    destruct (removeStep_inv n0 id
      (mkMgrSys (setExpiring (delete i (ms_expiring (y_ms y))) (y_ms y)) (y_tasks y) false)) as [Hi Hn];
      [split; [by eapply tableOk_same|done] | done |].
    simplify_eq. split; [done|]. congruence.
  - simplify_eq. split; [|done]. split; [|done]. cbn. split; cbn; [apply map_Forall_empty|].
    rewrite map_size_empty. lia.
Qed.

Lemma mgrRun_inv n0 ls : forall y y', mgrInv n0 y -> mgrRun ls y = Some y' -> mgrInv n0 y'.
Proof.
  induction ls as [|l t IH]; intros y y' Hy E; cbn in E; [by simplify_eq|].
  destruct (mgrStep l y) as [y1|] eqn:E1; [|done]. eapply IH; [|done]. by eapply mgrStep_inv.
Qed.

Lemma SetProcess_process pid v h w h' :
  SetProcess pid v h = (Ok w, h') -> v_cmd w = Some (mkProcess pid false).
Proof.
  unfold SetProcess, bindNil, bindOk, lift. intros E. repeat case_hyp E; by simplify_eq.
Qed.

(** Machines found at the start have a process that is not a child. *)
Definition adopted (v : qemuVM) : Prop := exists pid, v_cmd v = Some (mkProcess pid false).

Lemma restoreVM_adopted s m :
  map_Forall (fun _ v => adopted v) (ms_vms m) ->
  map_Forall (fun _ v => adopted v) (ms_vms (snd (restoreVM s m))).
Proof.
  intros Hm. unfold restoreVM, sys. destruct (processExists _ _) as [[] h]; cbn [negb].
  - destruct (SetProcess _ _ _) as [[v|e] h'] eqn:Es; [|done]. cbn.
    apply map_Forall_insert_2; [|done]. apply SetProcess_process in Es.
    exists (s_PID s). unfold Transition. by destruct (TransitionVM _ _).
  - by destruct (DeleteVM _ _ _).
Qed.

Lemma restoreAll_adopted l : forall m,
  map_Forall (fun _ v => adopted v) (ms_vms m) ->
  map_Forall (fun _ v => adopted v) (ms_vms (snd (restoreAll l m))).
Proof.
  induction l as [|s t IH]; intros m Hm; [done|]. cbn [restoreAll].
  pose proof (restoreVM_adopted s m Hm) as Hs. destruct (restoreVM s m) as [[] m']. by apply IH.
Qed.

Lemma restoreVMs_adopted m r m' :
  ms_vms m = ∅ -> restoreVMs m = (r, m') -> map_Forall (fun _ v => adopted v) (ms_vms m').
Proof.
  intros Hm. unfold restoreVMs. destruct (LoadVMs _ _) as [l|e]; intros E; simplify_eq.
  - pose proof (restoreAll_adopted l m) as Ha. destruct (restoreAll l m) as [[] m1]. simplify_eq/=.
    apply Ha. rewrite Hm. apply map_Forall_empty.
  - rewrite Hm. apply map_Forall_empty.
Qed.

(** ** The manager in operation *)

Section started.
Context {Key : Type} `{CorimLib Key}.
Context (cfg : Config) (bin keyPath eos : string) (maxVMs : Z) (d : disk) (h h' : list act)
  (m0 : managerService) (key : option Key).
Hypothesis Hnew : NewManager cfg bin keyPath eos maxVMs d h = (Ok (m0, key), h').

Lemma NewManager_adopted : map_Forall (fun _ v => adopted v) (ms_vms m0).
Proof.
  pose proof Hnew as E. unfold NewManager, bindOk, bindNil, lift in E.
  destruct (decodeRange _); [|done]. destruct (perform _ _) as [[]]; [done|].
  match type of E with (let (_, _) := ?c in _) = _ => destruct c as [[k|] h1]; [|done] end.
  destruct (restoreVMs _) as [r m] eqn:Er. apply restoreVMs_adopted in Er; [|done].
  destruct r; cbn in E; by simplify_eq.
Qed.

Lemma NewManager_inv : mgrInv (Z.of_nat (size (ms_vms m0))) (mkMgrSys m0 [] false).
Proof.
  split; [|by constructor]. split; [|cbn; lia].
  eapply map_Forall_impl; [apply NewManager_adopted|]. intros id v [pid Hv]. by eexists.
Qed.


(** The only panic of the manager is that of a creation whose machine has left the table
    before it is set running. *)
Theorem panic_only_missing (l : mgrLabel) (y y' : mgrSys) :
  mgrReachable m0 y -> mgrStep l y = Some y' -> y_panic y' = true ->
  exists i id port, l = LTask i /\ y_tasks y !! i = Some (CTransition id port)
                    /\ ms_vms (y_ms y) !! id = None.
Proof.
  intros [ls E] Es Hp. pose proof (mgrRun_inv _ ls _ _ NewManager_inv E) as Hy.
  by apply (mgrStep_inv _ l y y' Hy Es).
Qed.

(** A machine that was running when the manager started cannot be removed: [RemoveVM]
    signals it, removes its directories and then returns the error of waiting for a process
    that is not a child, and the machine stays in the table and among the persisted ones. *)
Theorem restored_vm_not_removed `{!ProcLaws} (id : string) (v : qemuVM) (r : option (result error unit))
    (m' : managerService) :
  ms_vms m0 !! id = Some v -> RemoveVM id m0 = (r, m') ->
  (exists e, r = Some (Err e)) /\ is_Some (ms_vms m' !! id) /\ ms_disk m' = ms_disk m0.
Proof.
  intros Hv E. destruct (NewManager_adopted id v Hv) as [pid Hp].
  unfold RemoveVM in E. cbn [ms_vms CancelTTL setTimers] in E. rewrite Hv in E.
  unfold sys, StopVM in E. rewrite Hp in E.
  destruct (stopProcess_not_child (vi_Config (v_vmi v)) (mkProcess pid false)
              (ms_hist (CancelTTL id m0)) eq_refl) as [e He].
  destruct (stopProcess _ _ _) as [x h1]. cbn [fst] in He. subst x. simplify_eq.
  split_and!; [eauto| |done]. cbn. rewrite lookup_insert_eq. by eexists.
Qed.
End started.

(** A time to live that is over before the creation ends panics the manager: when the
    timer fires and its callback removes the machine before the last section of the
    creation, that section calls a method of a machine that is not there. *)
Theorem expired_create_panics (y : mgrSys) (i : nat) (id : string) (port : Z) (t : timer)
    (v : qemuVM) :
  y_panic y = false -> y_tasks y !! i = Some (CTransition id port) ->
  ms_timers (y_ms y) !! id = Some t -> t_Armed t = true -> ms_expiring (y_ms y) = [] ->
  ms_vms (y_ms y) !! id = Some v ->
  (forall h, fst (fst (StopVM v h)) = Some (Ok tt)) ->
  exists y', mgrRun [LFire id; LExpire 0; LTask i] y = Some y' /\ y_panic y' = true.
Proof.
  intros Hp Hi Ht Ha He Hv Hs. destruct y as [m tasks panic]. cbn [y_ms y_tasks y_panic] in *. subst panic.
  cbn [mgrRun]. set (m1 := setExpiring [id] (setTimers (<[id := mkTimer (t_Duration t) false]> (ms_timers m)) m)).
  assert (mgrStep (LFire id) (mkMgrSys m tasks false) = Some (mkMgrSys m1 tasks false)) as ->.
  { unfold mgrStep, fireTimer. cbn [y_panic y_ms y_tasks]. by rewrite Ht, Ha, He. }
  assert (exists m2, mgrStep (LExpire 0) (mkMgrSys m1 tasks false) = Some (mkMgrSys m2 tasks false)
                     /\ ms_vms m2 !! id = None) as (m2 & E2 & Hn).
  { unfold mgrStep. cbn [y_panic y_ms y_tasks]. change (ms_expiring m1 !! 0%nat) with (Some id).
    unfold removeStep, RemoveVM. cbn [y_ms y_tasks].
    match goal with |- context [ms_vms ?x !! id] => change (ms_vms x) with (ms_vms m) end.
    rewrite Hv. unfold sys.
    match goal with |- context [StopVM v ?h] => specialize (Hs h); destruct (StopVM v h) as [[r w] h'] end.
    cbn [fst] in Hs. subst r. destruct (DeleteVM _ _ _) as [e d].
    eexists. split; [done|]. apply lookup_delete_eq. }
  cbn [mbind option_bind]. rewrite E2. cbn [mbind option_bind].
  unfold mgrStep. cbn [y_panic y_tasks y_ms]. rewrite Hi. cbn [createStep]. unfold createTransition.
  rewrite Hn. eauto.
Qed.

(** ** A creation that nothing runs beside *)

Definition createRest (n : nat) (t : createTask) (m : managerService) : createTask * managerService :=
  Nat.iter n (fun s => createStep s.1 s.2) (t, m).

Lemma createRest_step n t m : createRest (S n) t m = createRest n (createStep t m).1 (createStep t m).2.
Proof.
  unfold createRest. rewrite Nat.iter_succ_r. cbn [fst snd]. by destruct (createStep t m).
Qed.

Lemma createRest_done n id r m : createRest n (CDone id r) m = (CDone id r, m).
Proof. induction n as [|n IH]; [done|]. rewrite createRest_step. apply IH. Qed.

Lemma createBegin_cases id req m :
  (exists e, createBegin id req m = CDone id (Err e))
  \/ (atLimit m = false /\ exists line, createBegin id req m = CPrepare id req line).
Proof. unfold createBegin. repeat case_goal; eauto. Qed.

(** The machine of a creation, once it has entered the table. *)
Definition entered (id : string) (v : qemuVM) (h : list act) (m : managerService) : managerService :=
  setVms (<[id := v]> (ms_vms m)) (setHist h m).

Lemma CreateVM_prepared id req m line cfg port v h :
  createBegin id req m = CPrepare id req line ->
  createPrepare id req line (ms_qemuCfg m) (ms_portRangeMin m) (ms_portRangeMax m) (ms_hist m)
    = (Ok (cfg, port, v), h) ->
  CreateVM id req m = createRest 3 (CTtl id req cfg port v) (entered id v h m).
Proof.
  intros Hb Hp. change (CreateVM id req m) with (createRest 6 (CBegin id req) m).
  rewrite createRest_step. cbn [createStep fst snd].
  assert (atLimit m = false) as Hl
    by (destruct (createBegin_cases id req m) as [[e E]|[Hl _]]; [congruence|done]).
  rewrite Hb, createRest_step. cbn [createStep]. unfold sys. rewrite Hp. cbn [fst snd].
  rewrite createRest_step. cbn [createStep]. unfold createInsert.
  change (atLimit (setHist h m)) with (atLimit m). by rewrite Hl.
Qed.

(** A creation is refused, fails before the table, or goes on with its machine in it. *)
Lemma CreateVM_cases id req m :
  (exists e h, CreateVM id req m = (CDone id (Err e), setHist h m))
  \/ exists line cfg port v h,
       createBegin id req m = CPrepare id req line
       /\ createPrepare id req line (ms_qemuCfg m) (ms_portRangeMin m) (ms_portRangeMax m)
            (ms_hist m) = (Ok (cfg, port, v), h)
       /\ CreateVM id req m = createRest 3 (CTtl id req cfg port v) (entered id v h m).
Proof.
  destruct (createBegin_cases id req m) as [[e Hb]|[_ [line Hb]]].
  { left. exists e, (ms_hist m). change (CreateVM id req m) with (createRest 6 (CBegin id req) m).
    rewrite createRest_step. cbn [createStep fst snd]. rewrite Hb, createRest_done. by destruct m. }
  destruct (createPrepare id req line (ms_qemuCfg m) (ms_portRangeMin m) (ms_portRangeMax m)
              (ms_hist m)) as [[[[cfg port] v]|e] h] eqn:Ep.
  - right. exists line, cfg, port, v, h. eauto using CreateVM_prepared.
  - left. exists e, h. change (CreateVM id req m) with (createRest 6 (CBegin id req) m).
    rewrite createRest_step. cbn [createStep fst snd]. rewrite Hb, createRest_step.
    cbn [createStep]. unfold sys. rewrite Ep. apply createRest_done.
Qed.

Lemma allocatePort_ok lo hi h p h' :
  allocatePort lo hi h = (Ok p, h') -> getFreePort lo hi h = (Ok p, h').
Proof. unfold allocatePort. by destruct (getFreePort lo hi h) as [[]]. Qed.

(** A started machine is the one given, with a process and identifiers of its own. *)
Lemma StartVM_spec v h w h' : StartVM v h = (Ok w, h') ->
  (exists pid, v_cmd w = Some (mkProcess pid true)) /\ v_state w = v_state v
  /\ net_HostFwdAgent (c_NetDev (vi_Config (v_vmi w))) = net_HostFwdAgent (c_NetDev (vi_Config (v_vmi v)))
  /\ c_KernelCommandLine (vi_Config (v_vmi w)) = c_KernelCommandLine (vi_Config (v_vmi v)).
Proof.
  unfold StartVM, startConfig, bindOk at 1. destruct (newV4 h) as [i|]; [|done].
  unfold bindOk at 1. destruct (copyVars _ _ _) as [[c|] h1] eqn:Ec; [|done]. intros E.
  unfold bindOk, lift in E. repeat case_hyp E; simplify_eq. cbn.
  unfold copyVars, bindOk, lift in Ec. repeat case_hyp Ec; simplify_eq; cbn; eauto.
Qed.

Lemma createPrepare_machine id req line base lo hi h cfg port v h' :
  createPrepare id req line base lo hi h = (Ok (cfg, port, v), h') ->
  (exists pid, v_cmd v = Some (mkProcess pid true)) /\ v_state v = VmProvision
  /\ net_HostFwdAgent (c_NetDev (vi_Config (v_vmi v))) = port
  /\ c_KernelCommandLine (vi_Config (v_vmi v)) = line
  /\ (exists h1 h2, getFreePort lo hi h1 = (Ok port, h2)).
Proof.
  unfold createPrepare, bindOk, lift. intros E. repeat case_hyp E; simplify_eq.
  match goal with Hs : StartVM _ _ = _ |- _ => apply StartVM_spec in Hs as (? & ? & ? & ?) end.
  split_and!; eauto using allocatePort_ok.
Qed.

Lemma seqZ_range lo hi p : p ∈ seqZ lo (hi - lo + 1) -> lo <= p <= hi.
Proof. rewrite elem_of_seqZ. lia. Qed.

Lemma getFreePort_range `{!ManagerLaws} lo hi h p h' :
  lo <= hi -> getFreePort lo hi h = (Ok p, h') ->
  lo <= p <= hi /\ exists b, portFree h b p = true.
Proof.
  unfold getFreePort. intros Hr E. destruct (portFree h false lo) eqn:Hf.
  { simplify_eq. split; [lia|by eexists]. }
  match type of E with context [firstPort h ?l] => pose proof (firstPort_elem h l) as Hl end.
  destruct (firstPort h _) as [q|]; simplify_eq.
  apply list_elem_of_In, List.filter_In in Hl as [Hin Hp]. apply list_elem_of_In in Hin.
  split; [by apply seqZ_range|by eexists].
Qed.

(** The sections after the entry in the table. *)
Lemma createRest_entered id req cfg port v m :
  hasProcess v -> ms_vms m !! id = Some v ->
  createRest 3 (CTtl id req cfg port v) m =
    match (if bool_decide (q_Ttl req <> "") then
             match ParseDuration (q_Ttl req) with
             | Err e => Err e
             | Ok ttl => Ok (SetTTL id ttl m)
             end
           else Ok m) with
    | Err e => (CDone id (Err e), m)
    | Ok m1 =>
        let d := snd (SaveVM persistenceDir (mkVMState id cfg (default 0 (GetProcess v))) (ms_disk m)) in
        (CDone id (Ok (Itoa port)),
         setVms (<[id := snd (Transition VmRunning v)]> (ms_vms m)) (setDisk d m1))
    end.
Proof.
  intros [p Hp] Hv. rewrite createRest_step. cbn [createStep]. unfold createTtl.
  assert (forall m1, ms_vms m1 = ms_vms m -> ms_disk m1 = ms_disk m ->
    createRest 2 (CSave id cfg port v) m1 =
      (CDone id (Ok (Itoa port)),
       setVms (<[id := snd (Transition VmRunning v)]> (ms_vms m))
         (setDisk (snd (SaveVM persistenceDir (mkVMState id cfg (default 0 (GetProcess v)))
                          (ms_disk m))) m1))) as Hs.
  { intros m1 Hvm Hd. rewrite createRest_step. cbn [createStep]. unfold createSave.
    unfold GetProcess. rewrite Hp. cbn [option_map default]. rewrite Hd.
    destruct (SaveVM _ _ _) as [e d]. rewrite createRest_step. cbn [createStep fst snd].
    unfold createTransition. cbn [ms_vms setDisk]. rewrite Hvm, Hv. done. }
  destruct (bool_decide _); [|by apply Hs].
  destruct (ParseDuration (q_Ttl req)); [by apply Hs|]. apply createRest_done.
Qed.

(** A creation that succeeds has put one machine into the table: it has a process of its
    own, it is in the state [VmRunning], its agent is reached on the port returned, which is
    within the configured range, and its timer is set when the request has a time to live. *)
Theorem CreateVM_running `{!ManagerLaws} (id : string) (req : CreateReq) (m m' : managerService)
    (port : string) :
  ms_portRangeMin m <= ms_portRangeMax m ->
  CreateVM id req m = (CDone id (Ok port), m') ->
  exists v agentPort pid,
    ms_vms m' = <[id := v]> (ms_vms m) /\ v_state v = VmRunning
    /\ v_cmd v = Some (mkProcess pid true)
    /\ net_HostFwdAgent (c_NetDev (vi_Config (v_vmi v))) = agentPort /\ port = Itoa agentPort
    /\ ms_portRangeMin m <= agentPort <= ms_portRangeMax m
    /\ (q_Ttl req = "" /\ ms_timers m' = ms_timers m
        \/ exists ttl, ParseDuration (q_Ttl req) = Ok ttl
                      /\ ms_timers m' = <[id := mkTimer ttl true]> (ms_timers m)).
Proof.
  intros Hr E. destruct (CreateVM_cases id req m) as [(e & h & E')|
    (line & cfg & p & v & h & Hb & Hp & E')]; rewrite E' in E; [done|].
  destruct (createPrepare_machine _ _ _ _ _ _ _ _ _ _ _ Hp) as
    ([pid Hc] & Hst & Hn & _ & (h1 & h2 & Hf)).
  rewrite createRest_entered in E by (first [by eexists | apply lookup_insert_eq]).
  exists (snd (Transition VmRunning v)), p, pid. unfold Transition. rewrite Hst. cbn [TransitionVM snd].
  unfold Transition in E. rewrite Hst in E. cbn [TransitionVM snd] in E.
  destruct (bool_decide_reflect (q_Ttl req <> "")) as [Ht|Ht];
    [destruct (ParseDuration (q_Ttl req)) as [ttl|] eqn:Ed|]; simplify_eq;
    (split_and!; [apply insert_insert_eq | done | done | done | done
                 | apply (getFreePort_range _ _ _ _ _ Hr) in Hf as [? _]; lia .. | cbn]).
  - right. eauto.
  - left. split; [|done]. by destruct (decide (q_Ttl req = "")).
Qed.

Definition withTtl (ttl : string) (req : CreateReq) : CreateReq :=
  mkCreateReq (q_AgentLogLevel req) (q_AgentCvmServerUrl req) (q_AgentCertsToken req)
    (q_AgentCvmCaUrl req) (q_AgentCvmClientCert req) (q_AgentCvmClientKey req)
    (q_AgentCvmServerCaCert req) (q_AwsAccessKeyId req) (q_AwsSecretAccessKey req)
    (q_AwsEndpointUrl req) (q_AwsRegion req) (q_AaKbsParams req) ttl.

(** The time to live is not looked at before the machine runs. *)
Lemma createBegin_ttl id req ttl ttl' m line :
  createBegin id (withTtl ttl req) m = CPrepare id (withTtl ttl req) line ->
  createBegin id (withTtl ttl' req) m = CPrepare id (withTtl ttl' req) line.
Proof.
  unfold createBegin. cbn [q_AaKbsParams withTtl]. intros E. repeat case_hyp E; by simplify_eq.
Qed.

(** A request whose time to live does not parse is answered with an error after its
    machine has been started: the machine stays in the table without a timer and without a
    persisted state, and the answer does not carry its identifier. *)
Theorem bad_ttl_leaves_vm (id ttl : string) (req : CreateReq) (m m1 : managerService)
    (res : CreateRes) (e : error) :
  CreateVm id (withTtl "" req) m = (Some (Ok res), m1) ->
  ttl <> "" -> ParseDuration ttl = Err e ->
  exists v m', CreateVm id (withTtl ttl req) m = (Some (Err e), m')
    /\ ms_vms m' = <[id := v]> (ms_vms m) /\ (exists pid, v_cmd v = Some (mkProcess pid true))
    /\ v_state v = VmProvision /\ ms_timers m' = ms_timers m /\ ms_disk m' = ms_disk m.
Proof.
  intros Hok Hne He. unfold CreateVm in *.
  destruct (CreateVM_cases id (withTtl "" req) m) as [(e' & h & E)|
    (line & cfg & p & v & h & Hb & Hp & _)]; [by rewrite E in Hok|].
  destruct (createPrepare_machine _ _ _ _ _ _ _ _ _ _ _ Hp) as (Hc & Hst & _).
  rewrite (CreateVM_prepared id (withTtl ttl req) m line cfg p v h);
    [|by eapply createBegin_ttl|exact Hp].
  rewrite createRest_entered; [|destruct Hc; by eexists|apply lookup_insert_eq].
  cbn [q_Ttl withTtl]. rewrite bool_decide_eq_true_2, He by done. eauto 10.
Qed.

(** ** Text given to the machine *)

Lemma splitCodes_app sep a b : forall cur,
  splitCodes sep cur (a ++ sep :: b) = splitCodes sep cur a ++ splitCodes sep [] b.
Proof.
  induction a as [|x a IH]; intros cur; cbn; [by rewrite Z.eqb_refl|].
  destruct (x =? sep); [|apply IH]. cbn. by rewrite IH.
Qed.

Lemma splitCodes_none sep a : forall cur, sep ∉ a -> splitCodes sep cur a = [ofCodes (cur ++ a)].
Proof.
  induction a as [|x a IH]; intros cur Hn; cbn; [by rewrite app_nil_r|].
  destruct (Z.eqb_spec x sep) as [->|]; [by destruct Hn; left|].
  rewrite IH; [by rewrite <- app_assoc|]. intros Hin. apply Hn. by right.
Qed.

Lemma SplitByte_app s t c :
  SplitByte (s +:+ String c t) (codeOf c) = SplitByte s (codeOf c) ++ SplitByte t (codeOf c).
Proof. unfold SplitByte. rewrite codes_app. apply splitCodes_app. Qed.

Lemma SplitByte_none s sep : sep ∉ codes s -> SplitByte s sep = [s].
Proof. intros Hn. unfold SplitByte. rewrite splitCodes_none by done. cbn. by rewrite ofCodes_codes. Qed.

(** Accepted parameters have no space or control character among their ASCII bytes. *)
Lemma validateAAKBSParams_ascii value c :
  validateAAKBSParams value = None -> c ∈ codes value -> c < 128 ->
  IsSpace c = false /\ IsControl c = false.
Proof.
  unfold validateAAKBSParams. intros E Hc Hlt. destruct (1024 <? slen value); [done|].
  destruct (existsb _ (runes value)) eqn:Ex; [done|].
  rewrite existsb_false_iff, Forall_forall in Ex.
  by apply orb_false_iff, Ex, runes_ascii.
Qed.

(** The attestation parameters of a request reach the kernel as one word: the words of
    the command line of the machine are those of the configuration and one more, so a
    request cannot add or override another kernel parameter. *)
Theorem aa_kbs_no_injection (id : string) (req : CreateReq) (m m' : managerService) (port : string) :
  CreateVM id req m = (CDone id (Ok port), m') -> q_AaKbsParams req <> "" ->
  exists v, ms_vms m' !! id = Some v
    /\ SplitByte (c_KernelCommandLine (vi_Config (v_vmi v))) 32
       = SplitByte (c_KernelCommandLine (ms_qemuCfg m)) 32
         ++ ["agent.aa_kbc_params=" +:+ q_AaKbsParams req]
    /\ (forall c, c ∈ codes (q_AaKbsParams req) -> c < 128 -> IsSpace c = false /\ IsControl c = false).
Proof.
  intros E Hq. destruct (CreateVM_cases id req m) as [(e & h & E')|
    (line & cfg & p & v & h & Hb & Hp & E')]; rewrite E' in E; [done|].
  destruct (createPrepare_machine _ _ _ _ _ _ _ _ _ _ _ Hp) as ([pid Hc] & _ & _ & Hk & _).
  rewrite createRest_entered in E by (first [by eexists | apply lookup_insert_eq]).
  exists (snd (Transition VmRunning v)).
  assert (v_vmi (snd (Transition VmRunning v)) = v_vmi v) as ->
    by (unfold Transition; by destruct (TransitionVM _ _)).
  unfold createBegin in Hb. rewrite bool_decide_eq_true_2 in Hb by done.
  destruct (atLimit m); [done|].
  destruct (validateAAKBSParams (q_AaKbsParams req)) eqn:Ev; simplify_eq.
  pose proof (fun c => validateAAKBSParams_ascii _ c Ev) as Ha.
  split_and!; [| |by intros c; apply Ha].
  - cbv zeta in E. repeat case_hyp E; simplify_eq; apply lookup_insert_eq.
  - rewrite <- Hb. change 32 with (codeOf " "%char).
    change (" agent.aa_kbc_params=" +:+ q_AaKbsParams req)
      with (String " "%char ("agent.aa_kbc_params=" +:+ q_AaKbsParams req)).
    rewrite SplitByte_app. f_equal. apply SplitByte_none.
    rewrite codes_app. intros [Hin|Hin]%elem_of_app.
    + revert Hin. by apply (bool_decide_unpack (codeOf " "%char ∉ codes "agent.aa_kbc_params=")).
    + by destruct (Ha _ Hin).
Qed.

(** What the file at a path holds after a history. *)
Definition fileAfter (path : string) (a : act) (content : string) : string :=
  match a with
  | AOpenTrunc p _ => if bool_decide (p = path) then "" else content
  | AWrite p d => if bool_decide (p = path) then content +:+ stringOf d else content
  | _ => content
  end.

Definition contentOf (path : string) (h : list act) : string :=
  foldl (fun content a => fileAfter path a content) "" h.

(** A reader of assignments: one to a line, up to the first equals sign. *)
Fixpoint cutEq (s : list Z) : option (list Z * list Z) :=
  match s with
  | [] => None
  | c :: t => if c =? 61 then Some ([], t) else '(a, b) ← cutEq t; Some (c :: a, b)
  end.

Definition readAssignment (line : string) : option (string * string) :=
  '(k, v) ← cutEq (codes line); Some (ofCodes k, ofCodes v).

Definition readEnv (content : string) : list (string * string) :=
  omap readAssignment (SplitByte content 10).

Definition assignable (kv : string * string) : Prop :=
  10 ∉ codes kv.1 /\ 61 ∉ codes kv.1 /\ 10 ∉ codes kv.2.

Lemma cutEq_app a b : 61 ∉ a -> cutEq (a ++ 61 :: b) = Some (a, b).
Proof.
  induction a as [|x a IH]; intros Hn; cbn; [done|].
  destruct (Z.eqb_spec x 61) as [->|]; [by destruct Hn; left|].
  rewrite IH; [done|]. intros Hin. apply Hn. by right.
Qed.

Lemma readAssignment_line k v : 61 ∉ codes k -> readAssignment (k +:+ "=" +:+ v) = Some (k, v).
Proof.
  intros Hk. unfold readAssignment. rewrite codes_app. change (codes ("=" +:+ v)) with (61 :: codes v).
  rewrite cutEq_app by done. cbn. by rewrite !ofCodes_codes.
Qed.

Lemma readEnv_cons kv rest : assignable kv ->
  readEnv (stringOf (envLine kv) +:+ rest) = kv :: readEnv rest.
Proof.
  intros (Hk & He & Hv). destruct kv as [k v]. cbn [fst snd] in *. unfold readEnv, envLine.
  rewrite stringOf_bytesOf. cbn [fst snd].
  assert ((k +:+ "=" +:+ v +:+ newline) +:+ rest
          = (k +:+ "=" +:+ v) +:+ String (ofCode 10) rest) as ->.
  { by rewrite !string_app_assoc. }
  change 10 with (codeOf (ofCode 10)). rewrite SplitByte_app, SplitByte_none.
  - cbn [app omap list_omap]. by rewrite readAssignment_line.
  - rewrite !codes_app. change (codeOf (ofCode 10)) with 10.
    intros [Hin|[Hin|Hin]%elem_of_app]%elem_of_app; [done| |done].
    revert Hin. by apply (bool_decide_unpack (10 ∉ codes "=")).
Qed.

Fixpoint envText (l : list (string * string)) : string :=
  match l with [] => "" | kv :: t => stringOf (envLine kv) +:+ envText t end.

Lemma readEnv_text l : Forall assignable l -> readEnv (envText l) = l.
Proof.
  induction 1 as [|kv l Hkv _ IH]; [done|]. cbn [envText]. by rewrite readEnv_cons, IH.
Qed.

Lemma contentOf_app path h a : contentOf path (h ++ [a]) = fileAfter path a (contentOf path h).
Proof. unfold contentOf. by rewrite foldl_app. Qed.

Lemma string_nil_r (s : string) : s +:+ "" = s.
Proof. induction s as [|c s IH]; [done|]. exact (f_equal (String c) IH). Qed.

Lemma writeLines_content path l : forall h h',
  writeLines path l h = (None, h') -> contentOf path h' = contentOf path h +:+ envText l.
Proof.
  induction l as [|kv l IH]; intros h h' E; cbn [writeLines] in E.
  { unfold lift in E. simplify_eq. cbn. by rewrite string_nil_r. }
  unfold perform in E. destruct (os_act h _); [done|]. rewrite (IH _ _ E), contentOf_app. cbn.
  rewrite bool_decide_eq_true_2 by done. apply string_app_assoc.
Qed.

Lemma validateAll_values l : validateAll l = None -> Forall (fun kv => 10 ∉ codes kv.2) l.
Proof.
  induction l as [|[k v] l IH]; cbn; intros E; [constructor|].
  destruct (validateEnvironmentValue k v) eqn:Ev; [done|]. constructor; [|by apply IH]. cbn.
  unfold validateEnvironmentValue in Ev. destruct (existsb _ (codes v)) eqn:Ex; [done|].
  rewrite existsb_false_iff, Forall_forall in Ex. intros Hin. by apply Ex in Hin.
Qed.

Lemma insertIf_Forall (P : string -> string -> Prop) b k v m :
  P k v -> map_Forall P m -> map_Forall P (insertIf b k v m).
Proof. intros Hk Hm. destruct b; [by apply map_Forall_insert_2|done]. Qed.

Lemma envMap_keys id req : map_Forall (fun k _ => 10 ∉ codes k /\ 61 ∉ codes k) (envMap id req).
Proof.
  unfold envMap. repeat first [apply insertIf_Forall | apply map_Forall_insert_2];
    try apply map_Forall_empty; split; by apply (bool_decide_unpack _).
Qed.

(** The environment file of a machine says what the manager means: reading its lines back
    gives the variables of the request, in some order, whatever bytes the values have. *)
Theorem environment_roundtrip `{!ManagerLaws} (id dir : string) (req : CreateReq) (h h' : list act) :
  tmpEnvironment id req h = (Ok dir, h') ->
  readEnv (contentOf (dir +:+ "/environment") h') ≡ₚ map_to_list (envMap id req).
Proof.
  unfold tmpEnvironment, bindOk at 1, MkdirTemp. destruct (mkdirTemp h "/tmp" id) as [d|]; [|done].
  cbv zeta. unfold bindNil, orRemove, perform, lift.
  destruct (validateAll (mapRange (h ++ [AMkdir d]) (envMap id req))) eqn:Ev; [done|].
  destruct (os_act _ (AOpenTrunc _ _)); [done|].
  set (path := d +:+ "/environment"). set (h1 := (h ++ [AMkdir d]) ++ [AOpenTrunc path 384]).
  destruct (writeLines path (mapRange h1 (envMap id req)) h1) as [[e|] h2] eqn:Ew; [done|].
  destruct (os_act h2 (AClose path)); intros E; [done|]. simplify_eq.
  fold path. rewrite contentOf_app. cbn [fileAfter].
  rewrite (writeLines_content _ _ _ _ Ew). unfold h1. rewrite contentOf_app. cbn [fileAfter].
  rewrite bool_decide_eq_true_2 by done. change ("" +:+ ?x) with x.
  rewrite readEnv_text; [apply mapRange_perm|].
  apply validateAll_values in Ev. rewrite mapRange_perm in Ev. rewrite mapRange_perm.
  apply Forall_forall. intros [k v] Hin. rewrite Forall_forall in Ev. specialize (Ev _ Hin).
  apply elem_of_map_to_list in Hin. by destruct (envMap_keys id req k v Hin).
Qed.
End runs.

(** ** The attestation policy *)

Section policy.
Context {Key : Type} `{IgvmTool, CorimLib Key}.

(** The measurement of an image of usual length stays in the buffer of the writer. *)
Lemma measureImage_empty bin file h out :
  igvmRun h (igvmArgs (mkIgvm (bin +:+ "/igvmmeasure") [] NewWriter) file) = Ok out ->
  length (SplitByte (TrimSpace (stringOf out)) 10) = 1%nat ->
  len (bytesOf (ToLower (stringOf out))) <= defaultBufSize ->
  fst (measureImage bin file h) = Ok "".
Proof.
  intros Hr Hl Hs. unfold measureImage, bindOk, lift, NewIgvmMeasurement.
  rewrite bool_decide_eq_false_2 by (by destruct bin). cbn [wrapRes]. unfold RunIgvm.
  rewrite Hr, Hl. cbn [Nat.eqb wrapRes im_stdout fst]. by rewrite bufWrite_held.
Qed.

(** The policy of an SNP guest does not depend on its launch image, its host data or its
    launch TCB: whatever the measuring tool prints, up to the 4096 bytes of a buffered
    writer, the reference measurement is the default, 48 zero bytes. *)
Theorem snp_policy_fixed (key : option Key) (id : string) (m : managerService) (v : qemuVM)
    (out : list byte) (hostData : string) :
  ms_vms m !! id = Some v -> c_EnableSEVSNP (vi_Config (v_vmi v)) = true ->
  igvmRun (ms_hist m)
    (igvmArgs (mkIgvm (ms_attestationPolicyBinaryPath m +:+ "/igvmmeasure") [] NewWriter)
       (igvm_File (c_IGVM (ms_qemuCfg m)))) = Ok out ->
  length (SplitByte (TrimSpace (stringOf out)) 10) = 1%nat ->
  len (bytesOf (ToLower (stringOf out))) <= defaultBufSize ->
  policyHostData (vi_Config (v_vmi v)) = Ok hostData ->
  fst (FetchAttestationPolicy key id m)
  = GenerateCoRIM (mkOptions "snp" SNPDefaultMeasurement (c_CPU (ms_qemuCfg m)) 0 0 "" "" "" 0 key)
  /\ hexDecode (codes SNPDefaultMeasurement) = Some (replicate 48 0).
Proof.
  intros Hv Hs Hr Hl Hb Hh. split; [|reflexivity].
  unfold FetchAttestationPolicy. rewrite Hv. unfold sys, bindOk at 1, policyOptions, GetConfig.
  rewrite Hs. unfold bindOk at 1. pose proof (measureImage_empty _ _ _ _ Hr Hl Hb) as Hm.
  destruct (measureImage _ _ _) as [x h']. cbn [fst] in Hm. subst x.
  unfold bindOk, lift. rewrite Hh. cbn [fst].
  rewrite <- (GenerateCoRIM_ignores_host_data _ 0 "" 0). reflexivity.
Qed.
End policy.

(** ** The port range *)

Lemma spanDigits_app ds r :
  Forall (fun c => isDigit c = true) ds -> (forall c t, r = c :: t -> isDigit c = false) ->
  spanDigits (ds ++ r) = (ds, r).
Proof.
  intros Hd Hr. induction Hd as [|c ds Hc _ IH]; cbn.
  - destruct r as [|c t]; [done|]. cbn. by rewrite (Hr c t).
  - by rewrite Hc, IH.
Qed.

(** A range of ports is read as it is written, for all ports of 64 bits. *)
Theorem decodeRange_roundtrip (a b : Z) :
  0 <= a <= b -> b <= maxInt64 -> decodeRange (Itoa a +:+ "-" +:+ Itoa b) = Ok (a, b).
Proof.
  intros Ha Hb. destruct (Itoa_digits a) as (da & Ea & Na & Fa & Va); [lia|].
  destruct (Itoa_digits b) as (db & Eb & Nb & Fb & Vb); [lia|].
  unfold decodeRange. rewrite !codes_app. change (codes "-") with [45]. rewrite Ea, Eb. cbn [app].
  assert (findRange (da ++ 45 :: db) = Some (ofCodes da, ofCodes db)) as ->.
  { assert (matchRange (da ++ 45 :: db) = Some (ofCodes da, ofCodes db)) as Hm.
    { unfold matchRange. rewrite spanDigits_app; [|done|by intros c t [= <- _]].
      pose proof (spanDigits_app db [] Fb) as Hs. rewrite app_nil_r in Hs.
      destruct da; [done|]. rewrite Hs by done. by destruct db. }
    destruct da as [|c da]; [done|]. cbn [app findRange] in *. by rewrite Hm. }
  rewrite <- Ea, <- Eb, !ofCodes_codes.
  rewrite Atoi_digits, Atoi_digits; rewrite ?Ea, ?Eb, ?Va, ?Vb; try done; try lia.
  destruct (Z.ltb_spec b a); [lia|done].
Qed.

(** ** A host *)

Module ManagerSample.
#[global] Instance os : OS := {|
  os_act := fun _ _ => None; os_stat := fun _ _ => Err (ErrNew "stat");
  os_read := fun _ _ => Ok []; os_walk := fun _ _ => Ok []; os_glob := fun _ _ => Ok [];
  os_getwd := fun _ => Ok "/" |}.

(** Temporary directories are numbered by what was done before. *)
#[global] Instance env : ManagerEnv := {|
  mkdirTemp := fun h dir pattern => Ok (dir +:+ "/" +:+ pattern +:+ Itoa (len h));
  mapRange := fun _ m => map_to_list m;
  portFree := fun _ _ p => negb (p =? 6100);
  firstPort := fun _ l => head l |}.

#[global] Instance env_laws : ManagerLaws.
Proof. split; [done|]. intros h [|p l]; [done|]. by left. Qed.

(** A child ends when it is told to; another process cannot be waited for. *)
#[global] Instance procs : ProcEnv := {|
  newV4 := fun _ => Ok "u1"; lookPath := fun _ p => Ok p; startProc := fun _ _ _ => Ok 4711;
  findProcess := fun _ _ => None; signal0 := fun _ _ => None;
  waitProc := fun _ p => Some (if p_Child p then None else Some (ErrNew "no child processes")) |}.

#[global] Instance procs_laws : ProcLaws.
Proof. split. intros h [pid []] Hc; [done|]. by eexists. Qed.

#[global] Instance corim : CorimLib unit := {|
  newUUID := fun _ => "u"; newSHA1 := fun s => s; newUUIDInstance := fun _ => None;
  newUUIDMeasurement := fun _ => None; toCBOR := fun _ => Ok []; newSigner := fun _ => None;
  signCorim := fun _ _ => Ok []; pemDecode := fun _ => None; parseECPrivateKey := fun _ => None;
  addDigest := fun ds alg v => if len v =? 32 then ds ++ [(alg, v)] else ds;
  parsePKCS8PrivateKey := fun _ => None |}.

Definition imageDigest : list byte := bytesOf "A0B1C2".
#[global] Instance tool : IgvmTool := {| igvmRun := fun _ _ => Ok imageDigest |}.

Definition req : CreateReq :=
  mkCreateReq "debug" "127.0.0.1:7001" "token" "" (Some (bytesOf "cert")) (Some (bytesOf "key"))
    None "" "" "" "" "cc_kbc::http://127.0.0.1:8080" "".

Definition noVMs : managerService :=
  mkManager QemuSample.config "/usr/bin" ∅ 6100 6200 ∅ "v1" ∅ 1 [] [AMkdirAll persistenceDir].

(** A machine that an earlier manager left running. *)
Definition saved : disk := snd (SaveVM persistenceDir StoreSample.state ∅).

Definition restarted : managerService := snd (restoreVMs (setDisk saved noVMs)).

Lemma new_noVMs :
  NewManager (Key := unit) QemuSample.config "/usr/bin" "" "v1" 1 ∅ [] = (Ok (noVMs, None), ms_hist noVMs).
Proof. vm_compute. reflexivity. Defined.

Lemma new_restarted :
  NewManager (Key := unit) QemuSample.config "/usr/bin" "" "v1" 1 saved []
  = (Ok (restarted, None), ms_hist restarted).
Proof. vm_compute. reflexivity. Defined.

Definition runTo (ls : list mgrLabel) : mgrSys :=
  default (mkMgrSys noVMs [] true) (mgrRun ls (mkMgrSys noVMs [] false)).

Definition task0 (n : nat) : list mgrLabel := replicate n (LTask 0).

(** One machine created; a second creation is refused. *)
Definition oneVM : list mgrLabel := LCreate "a" req :: task0 6 ++ [LCreate "b" req; LTask 1].


Definition shortReq : CreateReq := withTtl "1ns" req.

(** A creation about to set its machine running. *)
Definition almost : list mgrLabel := LCreate "a" shortReq :: task0 5.
Definition expired : list mgrLabel := almost ++ [LFire "a"; LExpire 0].

Lemma panic_only_missing_witness :
  exists y', mgrStep (LTask 0) (runTo expired) = Some y' /\ y_panic y' = true
  /\ exists i id port, LTask 0 = LTask i /\ y_tasks (runTo expired) !! i = Some (CTransition id port)
                       /\ ms_vms (y_ms (runTo expired)) !! id = None.
Proof.
  set (y' := runTo (expired ++ [LTask 0])). exists y'.
  assert (mgrStep (LTask 0) (runTo expired) = Some y') as Hs by (vm_compute; reflexivity).
  assert (y_panic y' = true) as Hp by (vm_compute; reflexivity).
  split; [exact Hs|]. split; [exact Hp|].
  apply (panic_only_missing _ _ _ _ _ _ _ _ _ _ new_noVMs (LTask 0) (runTo expired) y'); [|exact Hs|exact Hp].
  exists expired. vm_compute. reflexivity.
Defined.

Definition startedVM : qemuVM :=
  default (NewVM (mkVMInfo QemuSample.config 0) "a") (ms_vms (y_ms (runTo almost)) !! "a").

Lemma expired_create_panics_witness :
  exists y', mgrRun [LFire "a"; LExpire 0; LTask 0] (runTo almost) = Some y' /\ y_panic y' = true.
Proof.
  apply (expired_create_panics (runTo almost) 0 "a" 6101 (mkTimer 1 true) startedVM);
    vm_compute; reflexivity.
Defined.

Definition restoredVM : qemuVM :=
  default (NewVM (mkVMInfo QemuSample.config 0) "a") (ms_vms restarted !! "b2b6").

Lemma restored_vm_not_removed_witness :
  exists r m', RemoveVM "b2b6" restarted = (r, m')
  /\ (exists e, r = Some (Err e)) /\ is_Some (ms_vms m' !! "b2b6") /\ ms_disk m' = ms_disk restarted.
Proof.
  destruct (RemoveVM "b2b6" restarted) as [r m'] eqn:E. exists r, m'. split; [done|].
  apply (restored_vm_not_removed _ _ _ _ _ _ _ _ _ _ new_restarted "b2b6" restoredVM r m');
    [vm_compute; reflexivity | exact E].
Defined.

Definition createdPort : string := "6101".
Definition created : managerService := snd (CreateVM "a" req noVMs).

Lemma create_done : CreateVM "a" req noVMs = (CDone "a" (Ok createdPort), created).
Proof. vm_compute. reflexivity. Defined.

Lemma CreateVM_running_witness :
  exists v agentPort pid,
    ms_vms created = <["a" := v]> (ms_vms noVMs) /\ v_state v = VmRunning
    /\ v_cmd v = Some (mkProcess pid true)
    /\ net_HostFwdAgent (c_NetDev (vi_Config (v_vmi v))) = agentPort /\ createdPort = Itoa agentPort
    /\ ms_portRangeMin noVMs <= agentPort <= ms_portRangeMax noVMs
    /\ (q_Ttl req = "" /\ ms_timers created = ms_timers noVMs
        \/ exists ttl, ParseDuration (q_Ttl req) = Ok ttl
                      /\ ms_timers created = <["a" := mkTimer ttl true]> (ms_timers noVMs)).
Proof. apply (CreateVM_running "a" req noVMs created createdPort); [by cbn|exact create_done]. Defined.

Lemma bad_ttl_leaves_vm_witness :
  exists v m', CreateVm "a" (withTtl "1 hour" req) noVMs = (Some (Err errDuration), m')
    /\ ms_vms m' = <["a" := v]> (ms_vms noVMs) /\ (exists pid, v_cmd v = Some (mkProcess pid true))
    /\ v_state v = VmProvision /\ ms_timers m' = ms_timers noVMs /\ ms_disk m' = ms_disk noVMs.
Proof.
  apply (bad_ttl_leaves_vm "a" "1 hour" req noVMs created (mkCreateRes createdPort "a"));
    [vm_compute; reflexivity | done | vm_compute; reflexivity].
Defined.

Lemma aa_kbs_no_injection_witness :
  exists v, ms_vms created !! "a" = Some v
    /\ SplitByte (c_KernelCommandLine (vi_Config (v_vmi v))) 32
       = SplitByte (c_KernelCommandLine (ms_qemuCfg noVMs)) 32
         ++ ["agent.aa_kbc_params=" +:+ q_AaKbsParams req]
    /\ (forall c, c ∈ codes (q_AaKbsParams req) -> c < 128 -> IsSpace c = false /\ IsControl c = false).
Proof. apply (aa_kbs_no_injection "a" req noVMs created createdPort); [exact create_done|done]. Defined.

Lemma environment_roundtrip_witness :
  exists dir h', tmpEnvironment "a" req [] = (Ok dir, h')
  /\ readEnv (contentOf (dir +:+ "/environment") h') ≡ₚ map_to_list (envMap "a" req).
Proof.
  exists "/tmp/a0". eexists. split; [vm_compute; reflexivity|].
  apply (environment_roundtrip "a" "/tmp/a0" req []). vm_compute. reflexivity.
Defined.

Lemma snp_policy_fixed_witness :
  fst (FetchAttestationPolicy (Key := unit) None "a" created)
  = GenerateCoRIM (mkOptions "snp" SNPDefaultMeasurement (c_CPU (ms_qemuCfg created)) 0 0 "" "" "" 0 None)
  /\ hexDecode (codes SNPDefaultMeasurement) = Some (replicate 48 0).
Proof.
  apply (snp_policy_fixed None "a" created
           (default (NewVM (mkVMInfo QemuSample.config 0) "a") (ms_vms created !! "a"))
           imageDigest (ToLower QemuSample.data)); try (vm_compute; reflexivity).
  vm_compute. discriminate.
Defined.

Lemma decodeRange_roundtrip_witness : decodeRange "6100-6200" = Ok (6100, 6200).
Proof. apply (decodeRange_roundtrip 6100 6200); unfold maxInt64; lia. Defined.
End ManagerSample.
