(* ===== verification/Eat.v ===== *)
(** * Entity attestation tokens: [pkg/attestation/eat] and the platform types

    An attestation report travels as the claims of a token: [NewEATClaims] fills the claims
    from the report of a platform, the encoders stamp and sign them, the decoder reads them
    back.  The parsers of the reports and the CBOR, COSE and JWT libraries are the classes
    [ReportAbi] and [EatCodec]; [EatLaws] states what their documentation says.  A call
    that may panic gives [None].  [Submods], which no code sets or reads, is left out. *)

From stdpp Require Import base list strings.
From Stdlib Require Import ZArith Lia Strings.Byte Floats.SpecFloat.
From S2P Require Import Prelude GoStrings Errors GoNumbers JWTLib.

(** ** Platforms: [attestation.go] *)

Inductive PlatformType := SNP | VTPM | SNPvTPM | Azure | TDX | NoCC.

#[export] Instance PlatformType_eq_decision : EqDecision PlatformType.
Proof. solve_decision. Defined.

(** The checks of [ccPlatformChecks] in order: what the machine offers. *)
Record machine := mkMachine { mc_sevDevice : bool; mc_vTPM : bool; mc_tdxDevice : bool;
  (** The answer of the metadata service: its status and body, if it answers. *)
  mc_metadata : option (Z * option (list byte)) }.

Definition SevSnpGuestDeviceExists (m : machine) : bool := mc_sevDevice m.
Definition vTPMExists (m : machine) : bool := mc_vTPM m.
Definition SevSnpGuestvTPMExists (m : machine) : bool := vTPMExists m && SevSnpGuestDeviceExists m.
Definition TDXGuestDeviceExists (m : machine) : bool := mc_tdxDevice m.
Definition isAzureVM (m : machine) : bool :=
  if negb (vTPMExists m) then false
  else match mc_metadata m with
       | None => false
       | Some (status, body) =>
           if status =? 200
           then match body with None => false | Some b => 0 <? len b end
           else false
       end.

Definition ccPlatformChecks : list ((machine -> bool) * PlatformType) :=
  [(SevSnpGuestvTPMExists, SNPvTPM); (SevSnpGuestDeviceExists, SNP);
   (TDXGuestDeviceExists, TDX); (isAzureVM, Azure)].

Fixpoint firstPlatform (cs : list ((machine -> bool) * PlatformType)) (m : machine) : PlatformType :=
  match cs with
  | [] => NoCC
  | (holds, platform) :: t => if holds m then platform else firstPlatform t m
  end.
Definition CCPlatform : machine -> PlatformType := firstPlatform ccPlatformChecks.

(** ** Claims: [eat.go] *)

Record SNPExtensions := mkSNPExt {
  sx_Measurement : list byte; sx_TCB : string; sx_PlatformInfo : Z; sx_Policy : Z;
  sx_FamilyID : list byte; sx_ImageID : list byte; sx_VMPL : Z; sx_SignatureAlgo : Z;
  sx_CurrentTCB : Z; sx_ReportedTCB : Z; sx_ChipID : list byte; sx_CommittedTCB : Z;
  sx_LaunchTCB : Z; sx_Signature : list byte }.

(** [TDXModule], which no code sets, is left out. *)
Record TDXExtensions := mkTDXExt {
  tx_MRTD : list byte; tx_RTMR0 : list byte; tx_RTMR1 : list byte; tx_RTMR2 : list byte;
  tx_RTMR3 : list byte; tx_XFAM : Z; tx_TDAttributes : Z; tx_MRConfigID : list byte;
  tx_MROwner : list byte; tx_MROwnerConfig : list byte; tx_MRSEAM : list byte;
  tx_Signature : list byte }.

Record VTPMExtensions := mkVTPMExt {
  vx_PCRs : list (string * string); vx_EventLog : list byte; vx_Quote : list byte }.

Record EATClaims := mkClaims {
  Issuer : string; Subject : string; IssuedAt : Z; ExpiresAt : Z; Nonce : list byte;
  UEID : list byte; OEMID : Z; HWModel : list byte; HWVersion : string; SWName : string;
  SWVersion : string; DebugStatus : Z; IntUse : Z; Measurements : list byte;
  PlatformName : string; SNPExt : option SNPExtensions; TDXExt : option TDXExtensions;
  VTPMExt : option VTPMExtensions; RawReport : list byte }.

Definition emptyClaims : EATClaims :=
  mkClaims "" "" 0 0 [] [] 0 [] "" "" "" 0 0 [] "" None None None [].

Definition DebugDisabledSinceBoot : Z := 2.
Definition IntUseGenericFresh : Z := 1.
Definition MinNonceLength : Z := 8.

Definition getPlatformTypeName (p : PlatformType) : string :=
  match p with
  | SNP => "SNP" | TDX => "TDX" | VTPM => "vTPM" | SNPvTPM => "SNP-vTPM" | Azure => "Azure"
  | NoCC => "NoCC"
  end.

(** HWModel requires OEMID, HWVersion requires HWModel, SWVersion requires SWName. *)
Definition Sanitize (c : EATClaims) : EATClaims :=
  let model := if OEMID c =? 0 then [] else HWModel c in
  let version := if OEMID c =? 0 then "" else HWVersion c in
  let version := if len model =? 0 then "" else version in
  let sw := if bool_decide (SWName c = "") then "" else SWVersion c in
  mkClaims (Issuer c) (Subject c) (IssuedAt c) (ExpiresAt c) (Nonce c) (UEID c) (OEMID c)
    model version (SWName c) sw (DebugStatus c) (IntUse c) (Measurements c) (PlatformName c)
    (SNPExt c) (TDXExt c) (VTPMExt c) (RawReport c).

(** ** Reports, as their parsers give them *)

(** [sevsnp.Report]. *)
Record SnpReport := mkSnpReport {
  sr_Version : Z; sr_Policy : Z; sr_FamilyId : list byte; sr_ImageId : list byte;
  sr_Vmpl : Z; sr_SignatureAlgo : Z; sr_CurrentTcb : Z; sr_PlatformInfo : Z;
  sr_ReportData : list byte; sr_Measurement : list byte; sr_HostData : list byte;
  sr_ChipId : list byte; sr_ReportedTcb : Z; sr_CommittedTcb : Z; sr_LaunchTcb : Z;
  sr_Signature : list byte }.

(** [tdx.QuoteV4]: its body, and the signature of its signed data. *)
Record QuoteV4 := mkQuoteV4 {
  q_MrTd : list byte; q_Rtmrs : list (list byte); q_Xfam : list byte;
  q_TdAttributes : list byte; q_MrConfigId : list byte; q_MrOwner : list byte;
  q_MrOwnerConfig : list byte; q_MrSeam : list byte; q_ReportData : list byte;
  q_Signature : list byte }.

(** [abi.ReportToProto] of go-sev-guest and [abi.QuoteToProto] of go-tdx-guest, whose
    result is none for a quote of another version. *)
Class ReportAbi := {
  ReportToProto : list byte -> result error SnpReport;
  QuoteToProto : list byte -> result error (option QuoteV4) }.

Definition ReportSize : Z := 0x4A0.
Definition OEMID_AMD : Z := 3704.
Definition OEMID_INTEL : Z := 343.
Definition OEMID_MICROSOFT : Z := 311.

(** [binary.LittleEndian.Uint64]. *)
Definition leUint64 (b : list byte) : option Z :=
  if len b <? 8 then None
  else Some (foldr (fun x acc => byteZ x + 256 * acc) 0 (sliceTo 8 b)).

(** What an extractor sets in the claims. *)
Definition setCore (measurements ueid : list byte) (oemid : Z) (model : list byte)
    (snp : option SNPExtensions) (tdx : option TDXExtensions) (vtpm : option VTPMExtensions)
    (c : EATClaims) : EATClaims :=
  mkClaims (Issuer c) (Subject c) (IssuedAt c) (ExpiresAt c) (Nonce c) ueid oemid
    model (HWVersion c) (SWName c) (SWVersion c) (DebugStatus c) (IntUse c) measurements
    (PlatformName c) snp tdx vtpm (RawReport c).

Section extract.
Context `{ReportAbi}.

Definition snpExtensions (r : SnpReport) : SNPExtensions :=
  mkSNPExt (sr_Measurement r)
    ("current:" +:+ Itoa (sr_CurrentTcb r) +:+ ",reported:" +:+ Itoa (sr_ReportedTcb r))
    (sr_PlatformInfo r) (sr_Policy r) (sr_FamilyId r) (sr_ImageId r) (sr_Vmpl r)
    (sr_SignatureAlgo r) (sr_CurrentTcb r) (sr_ReportedTcb r) (sr_ChipId r)
    (sr_CommittedTcb r) (sr_LaunchTcb r) (sr_Signature r).

Definition extractSNPClaims (c : EATClaims) (report : list byte) : result error EATClaims :=
  if len report <? ReportSize then Err (ErrNew "SNP report too small")
  else
    let* r := match ReportToProto (sliceTo ReportSize report) with
              | Err e => Err (ErrWrap "failed to parse SNP report" e)
              | Ok r => Ok r
              end in
    Ok (setCore (sr_Measurement r) (sr_ChipId r) OEMID_AMD
          (bytesOf ("SEV-SNP-" +:+ Itoa (sr_Version r)))
          (Some (snpExtensions r)) (TDXExt c) (VTPMExt c) c).

Definition rtmr (q : QuoteV4) (i : nat) : list byte := default [] (q_Rtmrs q !! i).

(** The two words of the body are read without a check of their length. *)
Definition extractTDXClaims (c : EATClaims) (report : list byte)
    : option (result error EATClaims) :=
  match QuoteToProto report with
  | Err e => Some (Err (ErrWrap "failed to parse TDX quote" e))
  | Ok None => Some (Err (ErrNew "unsupported TDX quote format"))
  | Ok (Some q) =>
      xfam ← leUint64 (q_Xfam q);
      attributes ← leUint64 (q_TdAttributes q);
      let ext := mkTDXExt (q_MrTd q) (rtmr q 0) (rtmr q 1) (rtmr q 2) (rtmr q 3) xfam
                   attributes (q_MrConfigId q) (q_MrOwner q) (q_MrOwnerConfig q) (q_MrSeam q)
                   (q_Signature q) in
      let ueid := if 32 <=? len (q_MrTd q) then sliceTo 32 (q_MrTd q) else UEID c in
      Some (Ok (setCore (q_MrTd q) ueid OEMID_INTEL (bytesOf "Intel-TDX") (SNPExt c) (Some ext)
                  (VTPMExt c) c))
  end.

Definition extractVTPMClaims (c : EATClaims) (report spare : list byte)
    : option (result error EATClaims) :=
  measurement ← resliceTo 32 report spare;
  ueid ← resliceTo 16 report spare;
  Some (Ok (setCore measurement ueid (OEMID c) (HWModel c) (SNPExt c) (TDXExt c)
              (Some (mkVTPMExt [] [] report)) c)).

Definition extractAzureClaims (c : EATClaims) (report spare : list byte)
    : option (result error EATClaims) :=
  measurement ← resliceTo 32 report spare;
  ueid ← resliceTo 16 report spare;
  Some (Ok (setCore measurement ueid OEMID_MICROSOFT (HWModel c) (SNPExt c) (TDXExt c)
              (VTPMExt c) c)).

Definition extractPlatformClaims (c : EATClaims) (report spare : list byte) (p : PlatformType)
    : option (result error EATClaims) :=
  match p with
  | SNP | SNPvTPM => Some (extractSNPClaims c report)
  | TDX => extractTDXClaims c report
  | VTPM => extractVTPMClaims c report spare
  | Azure => extractAzureClaims c report spare
  | NoCC => Some (Ok c)
  end.

Definition NewEATClaims (report spare nonce : list byte) (p : PlatformType)
    : option (result error EATClaims) :=
  if len nonce <? MinNonceLength
  then Some (Err (ErrNew "eat_nonce must be at least 8 bytes long"))
  else
    extractPlatformClaims
      (mkClaims "" "" 0 0 nonce [] 0 [] "" "" "" DebugDisabledSinceBoot IntUseGenericFresh []
         (getPlatformTypeName p) None None None report) report spare p.
End extract.

(** ** Tokens: [decoder.go], [cbor_encoder.go], [jwt_encoder.go] *)

(** [cose.Sign1Message]: payload, algorithm, key identifier and signature. *)
Record Sign1Message := mkSign1 {
  s1_Payload : list byte; s1_Alg : Z; s1_Kid : list byte; s1_Signature : list byte }.

Definition AlgorithmES256 : Z := -7.

Class EatCodec (Pub Priv : Type) := {
  unmarshalSign1 : list byte -> option Sign1Message;
  marshalSign1 : Sign1Message -> result error (list byte);
  newVerifier : Pub -> option error;
  verifySign1 : Sign1Message -> Pub -> option error;
  newCoseSigner : Priv -> option error;
  (** The signature over a message. *)
  signSign1 : Sign1Message -> Priv -> result error (list byte);
  marshalClaims : EATClaims -> result error (list byte);
  unmarshalClaims : list byte -> result error EATClaims;
  parseUnverified : string -> result error (JToken EATClaims);
  parseWithKey : string -> (JToken EATClaims -> result error Pub) -> result error (JToken EATClaims);
  signedString : EATClaims -> Priv -> result error string }.

(** The text of claims, which CBOR requires to be UTF-8. *)
Definition claimsText (c : EATClaims) : bool :=
  forallb ValidString [Issuer c; Subject c; HWVersion c; SWName c; SWVersion c; PlatformName c]
  && match SNPExt c with Some x => ValidString (sx_TCB x) | None => true end
  && match VTPMExt c with
     | Some x => forallb (fun '(k, v) => ValidString k && ValidString v) (vx_PCRs x)
     | None => true
     end.

Class EatLaws (Pub Priv : Type) `{EatCodec Pub Priv} : Prop := {
  claims_roundtrip : forall c b,
    claimsText c = true -> marshalClaims c = Ok b -> unmarshalClaims b = Ok c;
  sign1_roundtrip : forall m b, marshalSign1 m = Ok b -> unmarshalSign1 b = Some m;
  (** A token parsed without verification is never marked valid. *)
  unverified_invalid : forall s t, parseUnverified s = Ok t -> jt_Valid t = false }.

Definition dot : byte := x2e.

(** Text with dots and no NUL in its first ten bytes. *)
Definition isJWT (token : list byte) : bool :=
  if len token <? 10 then false
  else existsb (fun b => bool_decide (b = dot)) token
       && negb (existsb (fun b => bool_decide (b = x00)) (sliceTo 10 token)).

Section codec.
Context {Pub Priv : Type} `{EatCodec Pub Priv}.

(** The methods of [jwt.SigningMethodECDSA]. *)
Definition ecdsaMethods : list string := ["ES256"; "ES384"; "ES512"].

(** A nil key is [None], here and below. *)
Definition decodeJWT (verifyKey : option Pub) (tokenString : string) : result error EATClaims :=
  let parsed :=
    match verifyKey with
    | None => parseUnverified tokenString
    | Some key =>
        parseWithKey tokenString (fun token =>
          if bool_decide (jt_Alg token ∈ ecdsaMethods) then Ok key
          else Err (ErrNew "unexpected signing method"))
    end in
  match parsed with
  | Err e => Err (ErrWrap "failed to parse JWT" e)
  | Ok token => if jt_Valid token then Ok (jt_Claims token) else Err (ErrNew "invalid JWT token")
  end.

Definition decodeClaims (msg : string) (b : list byte) : result error EATClaims :=
  match unmarshalClaims b with Err e => Err (ErrWrap msg e) | Ok c => Ok c end.

Definition decodeCBOR (verifyKey : option Pub) (token : list byte) : result error EATClaims :=
  match unmarshalSign1 token with
  | None => decodeClaims "failed to decode CBOR" token
  | Some msg =>
      let verified :=
        match verifyKey with
        | None => None
        | Some key =>
            match newVerifier key with
            | Some e => Some (ErrWrap "failed to create COSE verifier" e)
            | None => option_map (ErrWrap "COSE signature verification failed") (verifySign1 msg key)
            end
        end in
      match verified with
      | Some e => Err e
      | None => decodeClaims "failed to decode CBOR payload" (s1_Payload msg)
      end
  end.

Definition Decode (token : list byte) (verifyKey : option Pub) : result error EATClaims :=
  if isJWT token then decodeJWT verifyKey (stringOf token) else decodeCBOR verifyKey token.
Definition DecodeCBOR (token : list byte) (verifyKey : option Pub) := decodeCBOR verifyKey token.
Definition DecodeJWT (token : string) (verifyKey : option Pub) := decodeJWT verifyKey token.

(** [t.Unix()]. *)
Definition unixSeconds (t : Time) : Z := t / Second - unixToInternal.

(** Issuer and times of a token made at [now]; it is good for five minutes. *)
Definition stamp (issuer : string) (now : Time) (c : EATClaims) : EATClaims :=
  mkClaims issuer (Subject c) (unixSeconds now) (unixSeconds (timeAdd now (5 * Minute)))
    (Nonce c) (UEID c) (OEMID c) (HWModel c) (HWVersion c) (SWName c) (SWVersion c)
    (DebugStatus c) (IntUse c) (Measurements c) (PlatformName c) (SNPExt c) (TDXExt c)
    (VTPMExt c) (RawReport c).

Definition EncodeToCBOR (c : EATClaims) (signingKey : Priv) (issuer : string) (now : Time)
    : result error (list byte) :=
  let* payload := match marshalClaims (stamp issuer now c) with
                  | Err e => Err (ErrWrap "failed to encode CBOR payload" e) | Ok p => Ok p end in
  let unsigned := mkSign1 payload AlgorithmES256 (bytesOf issuer) [] in
  let* _ := match newCoseSigner signingKey with
            | Some e => Err (ErrWrap "failed to create COSE signer" e) | None => Ok tt end in
  let* signature := match signSign1 unsigned signingKey with
                    | Err e => Err (ErrWrap "failed to sign COSE message" e) | Ok s => Ok s end in
  match marshalSign1 (mkSign1 payload AlgorithmES256 (bytesOf issuer) signature) with
  | Err e => Err (ErrWrap "failed to marshal COSE_Sign1" e)
  | Ok signed => Ok signed
  end.

Definition EncodeToJWT (c : EATClaims) (signingKey : Priv) (issuer : string) (now : Time)
    : result error string :=
  match signedString (stamp issuer now c) signingKey with
  | Err e => Err (ErrWrap "failed to sign JWT" e)
  | Ok s => Ok s
  end.
End codec.

(** ** Validation: [validator.go] *)

Record EATValidationPolicy := mkEatPolicy {
  ep_RequireEATFormat : bool; ep_AllowedFormats : list string; ep_MaxTokenAgeSeconds : Z;
  ep_RequireClaims : list string; ep_VerifySignature : bool }.

Definition missingClaim (c : EATClaims) (name : string) : bool :=
  if bool_decide (name = "eat_nonce") then len (Nonce c) =? 0
  else if bool_decide (name = "measurements") then len (Measurements c) =? 0
  else if bool_decide (name = "platform_type") then bool_decide (PlatformName c = "")
  else if bool_decide (name = "ueid") then len (UEID c) =? 0
  else false.

Fixpoint requireClaims (c : EATClaims) (names : list string) : option error :=
  match names with
  | [] => None
  | n :: t => if missingClaim c n then Some (ErrNew ("missing required claim: " +:+ n))
              else requireClaims c t
  end.

(** [Duration.Seconds], a [float64]. *)
Definition Seconds (d : Duration) : spec_float :=
  SFadd 53 1024 (float64 (Z.quot d Second)) (SFdiv 53 1024 (float64 (Z.rem d Second)) (float64 Second)).

(** [time.Now] is read twice. *)
Definition ValidateEATClaims (c : EATClaims) (policy : option EATValidationPolicy)
    (now now' : Time) : option error * EATClaims :=
  match policy with
  | None => (None, c)
  | Some p =>
      let c := Sanitize c in
      match requireClaims c (ep_RequireClaims p) with
      | Some e => (Some e, c)
      | None =>
          if (0 <? ep_MaxTokenAgeSeconds p) && (0 <? IssuedAt c)
             && SFltb (float64 (ep_MaxTokenAgeSeconds p)) (Seconds (timeSub now (timeUnix (IssuedAt c))))
          then (Some (ErrNew "token too old"), c)
          else if (0 <? ExpiresAt c) && (ExpiresAt c <? unixSeconds now')
          then (Some (ErrNew "token expired"), c)
          else (None, c)
      end
  end.

(** ** Theorems *)

(** What the dependency rules require of claims. *)
Definition sanitized (c : EATClaims) : Prop :=
  (OEMID c = 0 -> HWModel c = []) /\ (HWModel c = [] -> HWVersion c = "")
  /\ (SWName c = "" -> SWVersion c = "").

Lemma Sanitize_sanitized c : sanitized (Sanitize c).
Proof.
  unfold sanitized, Sanitize. destruct c as [? ? ? ? ? ? oem model ? sw ? ? ? ? ? ? ? ? ?]; cbn.
  destruct (Z.eqb_spec oem 0); cbn; (split_and!; [done|..]).
  - done.
  - intros ->. by rewrite bool_decide_eq_true_2.
  - by destruct model.
  - intros ->. by rewrite bool_decide_eq_true_2.
Qed.

Lemma Sanitize_fixed c : sanitized c -> Sanitize c = c.
Proof.
  intros (H1 & H2 & H3). unfold Sanitize.
  destruct c as [? ? ? ? ? ? oem model v sw sv ? ? ? ? ? ? ? ?]; cbn in *.
  assert (Em : (if oem =? 0 then [] else model) = model)
    by (destruct (Z.eqb_spec oem 0) as [->|]; [by rewrite H1|done]).
  rewrite Em.
  assert (Ev : (if len model =? 0 then "" else if oem =? 0 then "" else v) = v).
  { destruct (Z.eqb_spec (len model) 0) as [E|E].
    - rewrite H2; [done|]. by destruct model.
    - destruct (Z.eqb_spec oem 0) as [->|]; [|done]. by rewrite H1 in E. }
  rewrite Ev. case_bool_decide; [by rewrite H3|done].
Qed.

(** Validation leaves claims that follow the dependency rules (no model without a
    manufacturer, no hardware version without a model, no software version without a name),
    and claims that follow them it leaves as they are. *)
Theorem validate_sanitizes c p now now' :
  let c' := snd (ValidateEATClaims c (Some p) now now') in
  sanitized c' /\ (sanitized c -> c' = c).
Proof.
  cbv zeta. assert (snd (ValidateEATClaims c (Some p) now now') = Sanitize c) as ->.
  { unfold ValidateEATClaims. cbv zeta. by repeat case_match. }
  split; [apply Sanitize_sanitized | apply Sanitize_fixed].
Qed.

Section eat_theorems.
Context `{ReportAbi}.

(** What every extractor keeps of the claims it is given. *)
Definition sameEnvelope (c c' : EATClaims) : Prop :=
  Nonce c' = Nonce c /\ PlatformName c' = PlatformName c /\ RawReport c' = RawReport c
  /\ Issuer c' = Issuer c /\ Subject c' = Subject c /\ HWVersion c' = HWVersion c
  /\ SWName c' = SWName c /\ SWVersion c' = SWVersion c.

Lemma setCore_envelope m u o h s t v c : sameEnvelope c (setCore m u o h s t v c).
Proof. done. Qed.

(** An extractor that succeeds sets the core claims, with the texts it may write. *)
Definition extracted (c : EATClaims) (report : list byte) (c' : EATClaims) : Prop :=
  c' = c \/ exists m u o h s t v, c' = setCore m u o h s t v c
    /\ (s = SNPExt c \/ exists r, s = Some (snpExtensions r))
    /\ (v = VTPMExt c \/ v = Some (mkVTPMExt [] [] report)).

Lemma extracted_core c report m u o h s t v :
  (s = SNPExt c \/ exists r, s = Some (snpExtensions r)) ->
  (v = VTPMExt c \/ v = Some (mkVTPMExt [] [] report)) ->
  extracted c report (setCore m u o h s t v c).
Proof. intros Hs Hv. right. by exists m, u, o, h, s, t, v. Qed.

Lemma extract_shape c report spare p c' :
  extractPlatformClaims c report spare p = Some (Ok c') -> extracted c report c'.
Proof.
  destruct p; cbn [extractPlatformClaims].
  1, 3: unfold extractSNPClaims; destruct (len report <? ReportSize); [done|];
    destruct (ReportToProto _) as [r|]; [|done]; intros [= <-]; apply extracted_core; eauto.
  - unfold extractVTPMClaims. destruct (resliceTo 32 _ _); [|done].
    destruct (resliceTo 16 _ _); [|done]. intros [= <-]. apply extracted_core; eauto.
  - unfold extractAzureClaims. destruct (resliceTo 32 _ _); [|done].
    destruct (resliceTo 16 _ _); [|done]. intros [= <-]. apply extracted_core; eauto.
  - unfold extractTDXClaims. destruct (QuoteToProto report) as [[q|]|]; [|done..].
    destruct (leUint64 (q_Xfam q)); [|done]. destruct (leUint64 (q_TdAttributes q)); [|done].
    intros [= <-]. apply extracted_core; eauto.
  - intros [= <-]. by left.
Qed.

Lemma extract_envelope c report spare p c' :
  extractPlatformClaims c report spare p = Some (Ok c') -> sameEnvelope c c'.
Proof. by intros [->|(? & ? & ? & ? & ? & ? & ? & -> & _)]%extract_shape. Qed.

Lemma tcb_text r : ValidString (sx_TCB (snpExtensions r)) = true.
Proof.
  apply ValidString_ascii. cbn [sx_TCB snpExtensions].
  rewrite !codes_app, !Forall_app. split_and!; try apply Itoa_ascii; repeat constructor.
Qed.

(** The texts an extractor writes are ASCII. *)
Lemma extract_text c report spare p c' :
  extractPlatformClaims c report spare p = Some (Ok c') ->
  claimsText c = true -> claimsText c' = true.
Proof.
  intros [->|(? & ? & ? & ? & s & ? & v & -> & Hs & Hv)]%extract_shape; [done|].
  unfold claimsText. cbn [setCore Issuer Subject HWVersion SWName SWVersion PlatformName SNPExt VTPMExt].
  intros [[Ht H1]%andb_prop H2]%andb_prop. rewrite Ht. cbn [andb].
  apply andb_true_intro. split.
  - destruct Hs as [->|[r ->]]; [done|apply tcb_text].
  - by destruct Hv as [->| ->].
Qed.

(** The claims of a report carry the nonce, the name of the platform and the report. *)
Lemma NewEATClaims_envelope report spare nonce p c :
  NewEATClaims report spare nonce p = Some (Ok c) ->
  MinNonceLength <= len nonce /\ Nonce c = nonce /\ PlatformName c = getPlatformTypeName p
  /\ RawReport c = report.
Proof.
  unfold NewEATClaims. destruct (Z.ltb_spec (len nonce) MinNonceLength); [done|].
  intros E%extract_envelope. destruct E as (-> & -> & -> & _). done.
Qed.

Lemma NewEATClaims_text report spare nonce p c :
  NewEATClaims report spare nonce p = Some (Ok c) -> claimsText c = true.
Proof.
  unfold NewEATClaims. destruct (len nonce <? MinNonceLength); [done|].
  intros E%extract_text; [done|]. by destruct p; vm_compute.
Qed.

Lemma resliceTo_None {A} n (report spare : list A) : resliceTo n report spare = None <-> len (report ++ spare) < n.
Proof. unfold resliceTo. destruct (Z.ltb_spec (len (report ++ spare)) n); split; (done || lia). Qed.

(** The claims of a vTPM or Azure report panic exactly when its array holds fewer than 32
    bytes. *)
Lemma NewEATClaims_panics report spare nonce p :
  p = VTPM \/ p = Azure -> MinNonceLength <= len nonce ->
  NewEATClaims report spare nonce p = None <-> len (report ++ spare) < 32.
Proof.
  intros Hp Hn. unfold NewEATClaims. destruct (Z.ltb_spec (len nonce) MinNonceLength); [lia|].
  rewrite <- resliceTo_None.
  destruct Hp as [->| ->]; cbn; unfold extractVTPMClaims, extractAzureClaims;
    (destruct (resliceTo 32 report spare) eqn:E; [|done]);
    (destruct (resliceTo 16 report spare) eqn:E2; [done|]);
    apply resliceTo_None in E2;
    (assert (E3 : resliceTo 32 report spare = None) by (apply resliceTo_None; lia)); congruence.
Qed.
End eat_theorems.

Section codec_theorems.
Context {Pub Priv : Type} `{EatLaws Pub Priv}.

Lemma stamp_text issuer now c :
  ValidString issuer = true -> claimsText c = true -> claimsText (stamp issuer now c) = true.
Proof.
  unfold claimsText. cbn [stamp Issuer Subject HWVersion SWName SWVersion PlatformName SNPExt VTPMExt forallb].
  intros -> Hc. by destruct (ValidString (Issuer c)).
Qed.

Lemma cbor_token_decodes c key issuer now token :
  claimsText c = true -> ValidString issuer = true ->
  EncodeToCBOR c key issuer now = Ok token ->
  DecodeCBOR token (None : option Pub) = Ok (stamp issuer now c).
Proof.
  intros Hc Hi. unfold EncodeToCBOR.
  destruct (marshalClaims (stamp issuer now c)) as [payload|] eqn:Em; [|done].
  destruct (newCoseSigner key); [done|].
  destruct (signSign1 _ key) as [signature|]; [|done]. cbn.
  destruct (marshalSign1 _) as [b|] eqn:Es; [|done]. intros [= <-].
  unfold DecodeCBOR, decodeCBOR. rewrite (sign1_roundtrip _ _ Es). cbn. unfold decodeClaims.
  by rewrite (claims_roundtrip _ _ (stamp_text _ _ _ Hi Hc) Em).
Qed.

(** A token of the CBOR encoder decodes to the claims it was made from, with issuer and
    times set; no key is needed to read it. *)
Theorem cbor_token_roundtrip c key issuer now token :
  claimsText c = true -> ValidString issuer = true ->
  EncodeToCBOR c key issuer now = Ok token ->
  DecodeCBOR token (None : option Pub) = Ok (stamp issuer now c).
Proof. apply cbor_token_decodes. Qed.

(** Without a key no JWT is accepted. *)
Lemma decodeJWT_nil s : is_Ok (decodeJWT (None : option Pub) s) = false.
Proof.
  unfold decodeJWT. destruct (parseUnverified s) as [t|] eqn:E; [|done].
  by rewrite (unverified_invalid _ _ E).
Qed.

(** Without a key, a token of ten bytes or more that holds a dot and no NUL among its
    first ten bytes is never decoded, also when it is a CBOR token that [DecodeCBOR]
    reads. *)
Theorem Decode_takes_for_jwt token :
  10 <= len token -> dot ∈ token -> x00 ∉ sliceTo 10 token ->
  is_Ok (Decode token (None : option Pub)) = false.
Proof.
  intros Hl Hd Hn. unfold Decode, isJWT.
  destruct (Z.ltb_spec (len token) 10); [lia|].
  rewrite (proj2 (existsb_exists _ _)).
  2: { exists dot. split; [by apply list_elem_of_In|by apply bool_decide_eq_true_2]. }
  rewrite (proj2 (existsb_false_iff _ _)).
  2: { apply Forall_forall. intros b Hb. apply bool_decide_eq_false_2. by intros ->. }
  apply decodeJWT_nil.
Qed.
End codec_theorems.

(** ** A codec that satisfies the laws *)

#[export] Instance SNPExtensions_eq_decision : EqDecision SNPExtensions.
Proof. solve_decision. Defined.
#[export] Instance TDXExtensions_eq_decision : EqDecision TDXExtensions.
Proof. solve_decision. Defined.
#[export] Instance VTPMExtensions_eq_decision : EqDecision VTPMExtensions.
Proof. solve_decision. Defined.
#[export] Instance EATClaims_eq_decision : EqDecision EATClaims.
Proof. solve_decision. Defined.

(** It knows the claims [known] and writes them as [text]; a signed message is the payload
    behind a tag, under one key identifier and signature. *)
Module OneToken.
Section one.
Context (known : EATClaims) (text : list byte) (kid : string).

Definition sig : list byte := [x01].

#[local] Instance codec : EatCodec unit unit := {
  unmarshalSign1 b := match b with
                      | xd2 :: p => Some (mkSign1 p AlgorithmES256 (bytesOf kid) sig)
                      | _ => None
                      end;
  marshalSign1 m :=
    if bool_decide (s1_Alg m = AlgorithmES256 /\ s1_Kid m = bytesOf kid /\ s1_Signature m = sig)
    then Ok (xd2 :: s1_Payload m) else Err (ErrNew "cose");
  newVerifier _ := None;
  verifySign1 _ _ := Some (ErrNew "cose.ErrVerification");
  newCoseSigner _ := None;
  signSign1 _ _ := Ok sig;
  marshalClaims c := if bool_decide (c = known) then Ok text else Err (ErrNew "cbor");
  unmarshalClaims b := if bool_decide (b = text) then Ok known else Err (ErrNew "cbor");
  parseUnverified _ := Ok (mkToken "ES256" None known false);
  parseWithKey _ _ := Err (ErrNew "jwt");
  signedString _ _ := Err (ErrNew "jwt") }.

Lemma laws : EatLaws unit unit.
Proof.
  split.
  - intros c b _. cbn. case_bool_decide as Hc; [|done]. intros [= <-]. subst c.
    by rewrite bool_decide_eq_true_2.
  - intros [p a k s] b. cbn. case_bool_decide as Hm; [|done].
    destruct Hm as (-> & -> & ->). by intros [= <-].
  - by intros s t [= <-].
Qed.
End one.
End OneToken.

Module EatSample.
Definition now : Time := timeUnix 1700000000.
Definition claims : EATClaims :=
  mkClaims "" "" 0 0 [x01; x02; x03; x04; x05; x06; x07; x08] [] 0 [] "" "" "" 2 1 [] "NoCC" None None
    None [x2a].
Definition text : list byte := bytesOf "claims.cbor".

#[global] Instance codec : EatCodec unit unit := OneToken.codec (stamp "issuer" now claims) text "issuer".
#[global] Instance eatLaws : EatLaws unit unit := OneToken.laws _ _ _.

Lemma cbor_token_roundtrip_witness :
  EncodeToCBOR claims tt "issuer" now = Ok (xd2 :: text)
  /\ DecodeCBOR (xd2 :: text) (None : option unit) = Ok (stamp "issuer" now claims).
Proof.
  assert (E : EncodeToCBOR claims tt "issuer" now = Ok (xd2 :: text)) by by vm_compute.
  split; [exact E|]. by apply (cbor_token_roundtrip claims tt).
Defined.

(** The token of the encoder is one the decoder takes for a JWT. *)
Lemma Decode_takes_for_jwt_witness :
  is_Ok (DecodeCBOR (xd2 :: text) (None : option unit)) = true
  /\ is_Ok (Decode (xd2 :: text) (None : option unit)) = false.
Proof.
  split; [by vm_compute|]. apply Decode_takes_for_jwt; [by vm_compute|..];
    apply (bool_decide_unpack _); by vm_compute.
Defined.
End EatSample.
