(* ===== verification/Evidence.v ===== *)
(** * Verification of evidence: [pkg/atls/evidence_verifier.go] and the platform verifiers

    The evidence verifier a client configures for an attested connection: it decodes the
    token, compares its nonce and the report data of the platform with the binding of the
    session, loads the CoRIM of the policy and asks the verifier of the platform
    ([pkg/attestation/vtpm], [azure], [tdx]) whether the measurement of the report is among
    the reference values.  Protocol buffers, TPM structures, SHA-3 and the CoRIM library are
    the class [EvidenceLib].  The theorems say what an acceptance means, what it does not
    depend on, and what becomes of the reference values the repository generates. *)

From stdpp Require Import base list strings.
From Stdlib Require Import ZArith Lia Strings.Byte.
From S2P Require Import Prelude GoStrings Errors GoOS EaAttestation Qemu Corim Eat.

(** ** What the libraries parse *)

(** [sevsnp.CertificateChain] and [sevsnp.Attestation]. *)
Record CertificateChain := mkChain {
  cc_Vcek : list byte; cc_Ask : list byte; cc_Ark : list byte }.
Record SnpAttestation := mkSnpAttestation {
  sa_Report : option SnpReport; sa_Chain : option CertificateChain; sa_Product : option Z }.

(** [tpm.Quote] and [attest.Attestation]. *)
Record TpmQuote := mkTpmQuote { tq_Quote : list byte; tq_RawSig : list byte }.
Record Attestation := mkAttestation {
  va_AkPub : list byte; va_Quotes : list TpmQuote; va_EventLog : list byte;
  va_SevSnp : option SnpAttestation }.

(** [corim.UnsignedCorim] as a verifier reads it, and the reference values of a CoMID: for
    every measurement its digests, if it has any. *)
Record Manifest := mkManifest { mf_Tags : list (list byte) }.
Record ValueTriple := mkTriple { vt_Measurements : list (option (list (Z * list byte))) }.
Record ComidDoc := mkComidDoc { cd_ReferenceValues : option (list ValueTriple) }.

Class EvidenceLib := {
  unmarshalAttestation : list byte -> result error Attestation;
  unmarshalSevSnp : list byte -> result error SnpAttestation;
  (** [tpm2.DecodeAttestationData], of which the code reads [ExtraData]. *)
  decodeAttestationData : list byte -> result error (list byte);
  sha3Sum512 : list byte -> list byte;
  comidTag : list byte;
  corimFromCOSE : list byte -> option Manifest;
  corimFromCBOR : list byte -> result error Manifest;
  comidFromCBOR : list byte -> result error ComidDoc;
  (** [rv.Measurements.Valid] and [rv.Valid]. *)
  measurementsValid : ValueTriple -> option error;
  tripleValid : ValueTriple -> option error }.

(** ** Reference values: the loops of the three [VerifyWithCoRIM] *)

(** What a loop does after an element: go on, or return. *)
Inductive verdict := Continue | Return (e : option error).

Definition hasPrefixBytes (p l : list byte) : bool := bool_decide (take (length p) l = p).

Definition measurementHit (measurement : list byte) (m : option (list (Z * list byte))) : bool :=
  match m with
  | None => false
  | Some ds => existsb (fun d => bool_decide (snd d = measurement)) ds
  end.

(** [onInvalid] is what the loop does with a reference value that is not valid, if so. *)
Fixpoint scanValues (onInvalid : ValueTriple -> option verdict) (measurement : list byte)
    (rvs : list ValueTriple) : verdict :=
  match rvs with
  | [] => Continue
  | rv :: t =>
      match onInvalid rv with
      | Some (Return e) => Return e
      | Some Continue => scanValues onInvalid measurement t
      | None => if existsb (measurementHit measurement) (vt_Measurements rv) then Return None
                else scanValues onInvalid measurement t
      end
  end.

Section verifiers.
Context `{EvidenceLib}.

Definition scanTag (onInvalid : ValueTriple -> option verdict) (parseMsg : string)
    (measurement tag : list byte) : verdict :=
  if negb (hasPrefixBytes comidTag tag) then Continue
  else match comidFromCBOR (sliceFrom (len comidTag) tag) with
       | Err e => Return (Some (ErrWrap parseMsg e))
       | Ok c => match cd_ReferenceValues c with
                 | None => Continue
                 | Some rvs => scanValues onInvalid measurement rvs
                 end
       end.

Fixpoint scanTags (onInvalid : ValueTriple -> option verdict) (parseMsg noMatch : string)
    (measurement : list byte) (tags : list (list byte)) : option error :=
  match tags with
  | [] => Some (ErrNew noMatch)
  | tag :: t =>
      match scanTag onInvalid parseMsg measurement tag with
      | Return e => e
      | Continue => scanTags onInvalid parseMsg noMatch measurement t
      end
  end.

(** The vTPM and TDX verifiers return on invalid measurements; the Azure one goes on. *)
Definition stopInvalid (msg : string) (rv : ValueTriple) : option verdict :=
  option_map (fun e => Return (Some (ErrWrap msg e))) (measurementsValid rv).
Definition skipInvalid (rv : ValueTriple) : option verdict :=
  option_map (fun _ => Continue) (tripleValid rv).

(** [snp.GetReport().GetMeasurement()]. *)
Definition measurementOf (s : SnpAttestation) : list byte :=
  match sa_Report s with Some r => sr_Measurement r | None => [] end.

(** The measurement of the SEV-SNP report in an attestation. *)
Definition snpMeasurement (report : list byte) : result error (list byte) :=
  match unmarshalAttestation report with
  | Err e => Err (ErrWrap "failed to unmarshal attestation report" e)
  | Ok a =>
      match va_SevSnp a with
      | None => Err (ErrNew "no SEV-SNP attestation found in report")
      | Some snp =>
          if len (measurementOf snp) =? 0 then Err (ErrNew "no measurement in SEV-SNP report")
          else Ok (measurementOf snp)
      end
  end.

Definition vtpmVerifyWithCoRIM (report : list byte) (manifest : option Manifest) : option error :=
  match manifest with
  | None => Some (ErrNew "CoRIM manifest is nil")
  | Some mf =>
      match snpMeasurement report with
      | Err e => Some e
      | Ok m =>
          scanTags (stopInvalid "invalid CoRIM measurements for vTPM")
            "failed to parse CoMID from tag" "no matching reference value found in CoRIM for vTPM"
            m (mf_Tags mf)
      end
  end.

(** The manifest is not compared with nil here. *)
Definition azureVerifyWithCoRIM (report : list byte) (mf : Manifest) : option error :=
  match snpMeasurement report with
  | Err e => Some e
  | Ok m =>
      if len (mf_Tags mf) =? 0 then Some (ErrNew "no tags in CoRIM")
      else scanTags skipInvalid "failed to parse CoMID"
             "no matching reference value found in CoRIM for Azure SEV-SNP" m (mf_Tags mf)
  end.

(** The bytes [lo:hi] of a report. *)
Definition sub (lo hi : Z) (report : list byte) : list byte := sliceTo (hi - lo) (sliceFrom lo report).

Definition tdxVerifyWithCoRIM (report : list byte) (manifest : option Manifest) : option error :=
  match manifest with
  | None => Some (ErrNew "CoRIM manifest is nil")
  | Some mf =>
      if len report <? 160 then Some (ErrNew "TDX report too small to extract MRTD")
      else scanTags (stopInvalid "invalid CoRIM measurements for TDX")
             "failed to parse CoMID from tag" "no matching reference value found in CoRIM for TDX"
             (sub 112 160 report) (mf_Tags mf)
  end.

Definition platformVerifier (p : PlatformType) : result error (list byte -> Manifest -> option error) :=
  match p with
  | SNP | SNPvTPM | VTPM => Ok (fun report mf => vtpmVerifyWithCoRIM report (Some mf))
  | Azure => Ok azureVerifyWithCoRIM
  | TDX => Ok (fun report mf => tdxVerifyWithCoRIM report (Some mf))
  | NoCC => Err (ErrNew "atls: unsupported platform type")
  end.

(** ** The binding of the session: [verifyEvidenceBinding] *)

(** [subtle.ConstantTimeCompare(a, b) == 1]. *)
Definition constantTimeEqual (a b : list byte) : bool := bool_decide (a = b).

Definition tdxReportDataStart : Z := 0x208.
Definition tdxReportDataEnd : Z := 0x248.

Definition verifyTDXReportData (report expectedReportData : list byte) : option error :=
  if len report <? tdxReportDataEnd
  then Some (ErrNew "atls: TDX report too small to extract report data")
  else if negb (constantTimeEqual (sub tdxReportDataStart tdxReportDataEnd report) expectedReportData)
  then Some (ErrNew "atls: TDX report data does not match TLS exporter binding")
  else None.

Definition compareSNPReportData (snp : option SnpAttestation) (expectedReportData : list byte)
    : option error :=
  match snp ≫= sa_Report with
  | None => Some (ErrNew "atls: SNP attestation is missing report data")
  | Some r =>
      if negb (constantTimeEqual (sr_ReportData r) expectedReportData)
      then Some (ErrNew "atls: SNP report data does not match TLS exporter binding")
      else None
  end.

Definition snpReportFromAttestation (report : list byte) : option SnpAttestation :=
  match unmarshalAttestation report with Err _ => None | Ok a => va_SevSnp a end.

Definition verifySNPReportData (report expectedReportData : list byte) : option error :=
  match snpReportFromAttestation report with
  | Some snp => compareSNPReportData (Some snp) expectedReportData
  | None =>
      match unmarshalSevSnp report with
      | Err e => Some (ErrWrap "atls: failed to parse SNP attestation report" e)
      | Ok snp => compareSNPReportData (Some snp) expectedReportData
      end
  end.

Definition verifySNPvTPMReportData (report expectedReportData : list byte) : option error :=
  match unmarshalAttestation report with
  | Err e => Some (ErrWrap "atls: failed to parse SNP-vTPM attestation report" e)
  | Ok a =>
      match va_SevSnp a with
      | None => Some (ErrNew "atls: SNP-vTPM attestation is missing embedded SNP report")
      | Some snp => compareSNPReportData (Some snp) (sha3Sum512 (expectedReportData ++ va_AkPub a))
      end
  end.

Definition quoteMatches (expectedNonce : list byte) (q : TpmQuote) : bool :=
  match decodeAttestationData (tq_Quote q) with
  | Err _ => false
  | Ok extraData => constantTimeEqual extraData expectedNonce
  end.

Definition verifyVTPMNonce (report expectedNonce : list byte) : option error :=
  match unmarshalAttestation report with
  | Err e => Some (ErrWrap "atls: failed to parse vTPM attestation report" e)
  | Ok a =>
      if existsb (quoteMatches expectedNonce) (va_Quotes a) then None
      else Some (ErrNew "atls: vTPM quote nonce does not match TLS exporter binding")
  end.

Definition verifyEvidenceBinding (p : PlatformType) (report : list byte) (expected : EvidenceBinding)
    : option error :=
  match p with
  | TDX => verifyTDXReportData report (eb_ReportData expected)
  | SNP | Azure => verifySNPReportData report (eb_ReportData expected)
  | SNPvTPM =>
      match verifyVTPMNonce report (eb_Nonce expected) with
      | Some e => Some e
      | None => verifySNPvTPMReportData report (eb_ReportData expected)
      end
  | VTPM => verifyVTPMNonce report (eb_Nonce expected)
  | NoCC => Some (ErrNew "atls: unsupported platform type for binding verification")
  end.

Definition platformTypeFromClaims (name : string) : PlatformType :=
  if bool_decide (name = "SNP") then SNP
  else if bool_decide (name = "TDX") then TDX
  else if bool_decide (name = "vTPM") then VTPM
  else if bool_decide (name = "SNP-vTPM") then SNPvTPM
  else if bool_decide (name = "Azure") then Azure
  else NoCC.

(** ** [VerifyEvidence] *)

(** A signed CoRIM is taken with no check of its signature. *)
Definition loadCoRIM `{OS} (h : list act) (path : string) : result error Manifest :=
  match os_read h path with
  | Err e => Err (ErrWrap "atls: failed to read CoRIM file" e)
  | Ok corimBytes =>
      match corimFromCOSE corimBytes with
      | Some mf => Ok mf
      | None =>
          match corimFromCBOR corimBytes with
          | Err e => Err (ErrWrap "atls: failed to parse CoRIM" e)
          | Ok mf => Ok mf
          end
      end
  end.

Definition VerifyEvidence {Pub Priv} `{OS, EatCodec Pub Priv} (h : list act) (policyPath : string)
    : Verifier := fun evidence expected =>
  if bool_decide (policyPath = "") then Some (ErrNew "atls: attestation policy path is not set")
  else
    match DecodeCBOR evidence (None : option Pub) with
    | Err e => Some (ErrWrap "atls: failed to decode EAT evidence" e)
    | Ok claims =>
        if negb (constantTimeEqual (Nonce claims) (eb_Nonce expected))
        then Some (ErrNew "atls: evidence nonce does not match TLS exporter binding")
        else
          let p := platformTypeFromClaims (PlatformName claims) in
          match verifyEvidenceBinding p (RawReport claims) expected with
          | Some e => Some e
          | None =>
              match loadCoRIM h policyPath with
              | Err e => Some e
              | Ok manifest =>
                  match platformVerifier p with
                  | Err e => Some e
                  | Ok verify => verify (RawReport claims) manifest
                  end
              end
          end
    end.
End verifiers.

(** ** Specification *)

(** What a scan of reference values meets: an error that ends it, or a digest. *)
Inductive found := Bad | Digest (d : list byte).

(** The digests of a reference value, unless it is not valid. *)
Definition valueFound (onInvalid : ValueTriple -> option verdict) (rv : ValueTriple) : list found :=
  match onInvalid rv with
  | Some (Return _) => [Bad]
  | Some Continue => []
  | None => map (fun d => Digest (snd d)) (concat (map (default []) (vt_Measurements rv)))
  end.

(** The digest is met before any error. *)
Definition hit (m : list byte) (l : list found) : Prop :=
  exists l1 l2, l = l1 ++ Digest m :: l2 /\ Bad ∉ l1.

Section spec.
Context `{EvidenceLib}.

Definition tagFound (onInvalid : ValueTriple -> option verdict) (tag : list byte) : list found :=
  if negb (hasPrefixBytes comidTag tag) then []
  else match comidFromCBOR (sliceFrom (len comidTag) tag) with
       | Err _ => [Bad]
       | Ok c => concat (map (valueFound onInvalid) (default [] (cd_ReferenceValues c)))
       end.

(** The reference values of a manifest, as the verifier of the platform goes through them. *)
Definition references (p : PlatformType) (mf : Manifest) : list found :=
  concat (map (tagFound (if bool_decide (p = Azure) then skipInvalid else stopInvalid "")) (mf_Tags mf)).

(** The measurement a platform is compared by: a field of the embedded SEV-SNP report, or
    the bytes 112 to 160 of a TDX quote. *)
Definition measured (p : PlatformType) (report m : list byte) : Prop :=
  match p with
  | SNP | SNPvTPM | VTPM | Azure =>
      m <> [] /\ exists a s r, unmarshalAttestation report = Ok a /\ va_SevSnp a = Some s
                         /\ sa_Report s = Some r /\ sr_Measurement r = m
  | TDX => 160 <= len report /\ m = sub 112 160 report
  | NoCC => False
  end.

(** The SEV-SNP attestation of an SNP or Azure report. *)
Definition snpOf (report : list byte) (s : SnpAttestation) : Prop :=
  match snpReportFromAttestation report with
  | Some s' => s = s'
  | None => unmarshalSevSnp report = Ok s
  end.

Definition reportDataOf (s : SnpAttestation) (d : list byte) : Prop :=
  exists r, sa_Report s = Some r /\ sr_ReportData r = d.

Definition quoted (a : Attestation) (nonce : list byte) : Prop :=
  exists q, q ∈ va_Quotes a /\ decodeAttestationData (tq_Quote q) = Ok nonce.

Definition bound (p : PlatformType) (report : list byte) (expected : EvidenceBinding) : Prop :=
  match p with
  | TDX => 0x248 <= len report /\ sub 0x208 0x248 report = eb_ReportData expected
  | SNP | Azure => exists s, snpOf report s /\ reportDataOf s (eb_ReportData expected)
  | SNPvTPM => exists a s, unmarshalAttestation report = Ok a /\ quoted a (eb_Nonce expected)
      /\ va_SevSnp a = Some s /\ reportDataOf s (sha3Sum512 (eb_ReportData expected ++ va_AkPub a))
  | VTPM => exists a, unmarshalAttestation report = Ok a /\ quoted a (eb_Nonce expected)
  | NoCC => False
  end.
End spec.

(** ** The scan finds the first of a match and an error *)

Fixpoint firstFound (m : list byte) (l : list found) : option bool :=
  match l with
  | [] => None
  | Bad :: _ => Some false
  | Digest d :: t => if bool_decide (d = m) then Some true else firstFound m t
  end.

Lemma firstFound_app m l1 l2 :
  firstFound m (l1 ++ l2) = match firstFound m l1 with Some b => Some b | None => firstFound m l2 end.
Proof. induction l1 as [|[|d] t IH]; cbn; [done..|]. by case_bool_decide. Qed.

Lemma hit_firstFound m l : hit m l <-> firstFound m l = Some true.
Proof.
  split.
  - intros (l1 & l2 & -> & Hb). induction l1 as [|[|d] t IH]; cbn.
    + by rewrite bool_decide_eq_true_2.
    + destruct Hb. constructor.
    + case_bool_decide; [done|]. apply IH. intros Hi. apply Hb. by constructor.
  - induction l as [|[|d] t IH]; cbn; [done..|]. case_bool_decide as Hd.
    + intros _. subst d. exists [], t. split; [done|]. apply not_elem_of_nil.
    + intros (l1 & l2 & -> & Hb)%IH. exists (Digest d :: l1), l2. split; [done|].
      by intros [?|?]%elem_of_cons.
Qed.

Definition verdictBool (v : verdict) : option bool :=
  match v with Continue => None | Return None => Some true | Return (Some _) => Some false end.

(** Nothing that is not valid ends a scan with a match. *)
Definition proper (onInvalid : ValueTriple -> option verdict) : Prop :=
  forall rv, onInvalid rv <> Some (Return None).

Lemma digests_firstFound m ds :
  firstFound m (map (fun d : Z * list byte => Digest (snd d)) ds)
  = if existsb (fun d => bool_decide (snd d = m)) ds then Some true else None.
Proof. induction ds as [|d t IH]; cbn; [done|]. by case_bool_decide. Qed.

Lemma measurements_firstFound m ms :
  firstFound m (map (fun d => Digest (snd d)) (concat (map (default []) ms)))
  = if existsb (measurementHit m) ms then Some true else None.
Proof.
  induction ms as [|[ds|] t IH]; cbn; [done| |done].
  rewrite map_app, firstFound_app, digests_firstFound, IH.
  by destruct (existsb (fun d => bool_decide (snd d = m)) ds).
Qed.

Lemma scanValues_found oi m rvs :
  proper oi -> verdictBool (scanValues oi m rvs) = firstFound m (concat (map (valueFound oi) rvs)).
Proof.
  intros Hp. induction rvs as [|rv t IH]; cbn; [done|]. rewrite firstFound_app, <- IH.
  unfold valueFound. pose proof (Hp rv) as Hrv. destruct (oi rv) as [[|[e|]]|]; [done|done|done|].
  rewrite measurements_firstFound. by destruct (existsb _ _).
Qed.

Section scan.
Context `{EvidenceLib}.

Lemma scanTag_found oi msg m tag :
  proper oi -> verdictBool (scanTag oi msg m tag) = firstFound m (tagFound oi tag).
Proof.
  intros Hp. unfold scanTag, tagFound. destruct (hasPrefixBytes comidTag tag); [|done]. cbn [negb].
  destruct (comidFromCBOR _) as [c|]; [|done]. destruct (cd_ReferenceValues c); [|done].
  by apply scanValues_found.
Qed.

(** The nested loops accept exactly when they meet the measurement before an error. *)
Lemma scanTags_hit oi msg no m tags :
  proper oi -> scanTags oi msg no m tags = None <-> hit m (concat (map (tagFound oi) tags)).
Proof.
  intros Hp. rewrite hit_firstFound. induction tags as [|tag t IH]; cbn; [done|].
  rewrite firstFound_app, <- (scanTag_found oi msg) by done.
  destruct (scanTag oi msg m tag) as [|[e|]]; cbn; [apply IH|done..].
Qed.

Lemma proper_stop msg : proper (stopInvalid msg).
Proof. intros rv. unfold stopInvalid. by destruct (measurementsValid rv). Qed.
Lemma proper_skip : proper skipInvalid.
Proof. intros rv. unfold skipInvalid. by destruct (tripleValid rv). Qed.

Lemma tagFound_stop msg msg' tag : tagFound (stopInvalid msg) tag = tagFound (stopInvalid msg') tag.
Proof.
  unfold tagFound. destruct (negb (hasPrefixBytes comidTag tag)), (comidFromCBOR (sliceFrom (len comidTag) tag)); try done.
  f_equal. apply map_ext. intros rv.
  unfold valueFound, stopInvalid. by destruct (measurementsValid rv).
Qed.

Lemma scanStop_hit msg msg2 no m tags p :
  p <> Azure ->
  scanTags (stopInvalid msg) msg2 no m tags = None <-> hit m (references p (mkManifest tags)).
Proof.
  intros Hp. rewrite scanTags_hit by apply proper_stop. unfold references.
  rewrite bool_decide_eq_false_2 by done. cbn [mf_Tags].
  by rewrite (map_ext _ _ (tagFound_stop msg "")).
Qed.

Lemma snpMeasurement_Ok report m :
  snpMeasurement report = Ok m <->
  m <> [] /\ exists a s r, unmarshalAttestation report = Ok a /\ va_SevSnp a = Some s
                     /\ sa_Report s = Some r /\ sr_Measurement r = m.
Proof.
  unfold snpMeasurement, measurementOf. split.
  - destruct (unmarshalAttestation report) as [a|]; [|done].
    destruct (va_SevSnp a) as [s|] eqn:Es; [|done].
    destruct (sa_Report s) as [r|] eqn:Er; [|done].
    destruct (Z.eqb_spec (len (sr_Measurement r)) 0) as [|Hn]; [done|]. intros [= <-].
    split; [by intros E; rewrite E in Hn|]. by exists a, s, r.
  - intros (Hm & a & s & r & -> & -> & -> & Hr). rewrite Hr.
    destruct (Z.eqb_spec (len m) 0) as [E|]; [|done]. by destruct m.
Qed.

Lemma platformVerifier_hit p v report mf :
  platformVerifier p = Ok v ->
  v report mf = None <-> exists m, measured p report m /\ hit m (references p mf).
Proof.
  assert (Hsnp : forall (k : list byte -> option error) q,
    q = SNP \/ q = SNPvTPM \/ q = VTPM \/ q = Azure ->
    (forall m, k m = None <-> hit m (references q mf)) ->
    match snpMeasurement report with Err e => Some e | Ok m => k m end = None
    <-> exists m, measured q report m /\ hit m (references q mf)).
  { intros k q Hq Hk. transitivity (exists m, snpMeasurement report = Ok m /\ hit m (references q mf)).
    - destruct (snpMeasurement report) as [m|]; [rewrite Hk; naive_solver|naive_solver].
    - setoid_rewrite snpMeasurement_Ok. by destruct Hq as [->|[->|[->| ->]]]. }
  destruct mf as [tags]. destruct p; cbn [platformVerifier]; intros [= <-].
  1, 2, 3: apply Hsnp; [naive_solver|]; intros m; by apply scanStop_hit.
  - apply Hsnp; [naive_solver|]. intros m. cbn [mf_Tags].
    destruct (Z.eqb_spec (len tags) 0) as [E|].
    + destruct tags; [|done]. split; [done|]. by intros ([] & l2 & ? & _).
    + rewrite scanTags_hit by apply proper_skip. done.
  - unfold tdxVerifyWithCoRIM. cbn [measured]. destruct (Z.ltb_spec (len report) 160).
    + split; [done|]. intros (m & [? _] & _). lia.
    + rewrite (scanStop_hit _ _ _ _ _ TDX) by done. split; [eauto|]. by intros (m & [_ ->] & Hh).
Qed.
End scan.

(** ** What an acceptance means *)

Section accept.
Context `{EvidenceLib}.

Lemma bytesEqual_true a b : constantTimeEqual a b = true <-> a = b.
Proof. apply bool_decide_eq_true. Qed.

Lemma compare_None s d : compareSNPReportData (Some s) d = None <-> reportDataOf s d.
Proof.
  unfold compareSNPReportData, reportDataOf. cbn. destruct (sa_Report s) as [r|]; [|naive_solver].
  unfold constantTimeEqual. case_bool_decide; naive_solver.
Qed.

Lemma verifySNP_None report d :
  verifySNPReportData report d = None <-> exists s, snpOf report s /\ reportDataOf s d.
Proof.
  unfold verifySNPReportData, snpOf. destruct (snpReportFromAttestation report) as [s|].
  - rewrite compare_None. naive_solver.
  - destruct (unmarshalSevSnp report) as [s|]; [rewrite compare_None|]; naive_solver.
Qed.

Lemma verifyVTPM_None report nonce :
  verifyVTPMNonce report nonce = None <->
  exists a, unmarshalAttestation report = Ok a /\ quoted a nonce.
Proof.
  unfold verifyVTPMNonce, quoted. destruct (unmarshalAttestation report) as [a|]; [|naive_solver].
  assert (existsb (quoteMatches nonce) (va_Quotes a) = true <->
          exists q, q ∈ va_Quotes a /\ decodeAttestationData (tq_Quote q) = Ok nonce) as Hq.
  { rewrite existsb_true_iff, Exists_exists. unfold quoteMatches.
    split; intros (q & Hi & Hm); exists q; split; try done.
    - destruct (decodeAttestationData _); [|done]. by apply bytesEqual_true in Hm as ->.
    - rewrite Hm. by apply bytesEqual_true. }
  destruct (existsb _ _); naive_solver.
Qed.

Lemma verifySNPvTPM_None report d :
  verifySNPvTPMReportData report d = None <->
  exists a s, unmarshalAttestation report = Ok a /\ va_SevSnp a = Some s
    /\ reportDataOf s (sha3Sum512 (d ++ va_AkPub a)).
Proof.
  unfold verifySNPvTPMReportData. destruct (unmarshalAttestation report) as [a|]; [|naive_solver].
  destruct (va_SevSnp a) as [s|] eqn:Es; [rewrite compare_None|]; naive_solver.
Qed.

Lemma verifyBinding_None p report expected :
  verifyEvidenceBinding p report expected = None <-> bound p report expected.
Proof.
  destruct p; cbn [verifyEvidenceBinding bound].
  - apply verifySNP_None.
  - apply verifyVTPM_None.
  - destruct (verifyVTPMNonce report (eb_Nonce expected)) as [e|] eqn:E.
    + split; [done|]. intros (a & s & Ha & Hq & _).
      rewrite (proj2 (verifyVTPM_None _ _)) in E; [done|eauto].
    + apply verifyVTPM_None in E as (a & Ha & Hq). rewrite verifySNPvTPM_None.
      split; [intros (a' & s & Ha' & Hs & Hd) | intros (a' & s & Ha' & _ & Hs & Hd)]; [|by exists a', s].
      exists a', s. assert (a' = a) as -> by congruence. done.
  - apply verifySNP_None.
  - unfold verifyTDXReportData, tdxReportDataEnd. destruct (Z.ltb_spec (len report) 0x248).
    { split; [done|]. intros [? _]. lia. }
    unfold constantTimeEqual. case_bool_decide; naive_solver.
  - done.
Qed.

Context {Pub Priv : Type} `{OS, EatCodec Pub Priv}.

(** What the verifier requires of the claims of a token. *)
Definition claimsAccepted (h : list act) (path : string) (c : EATClaims) (expected : EvidenceBinding) : Prop :=
  let p := platformTypeFromClaims (PlatformName c) in
  Nonce c = eb_Nonce expected /\ bound p (RawReport c) expected
  /\ exists mf m, loadCoRIM h path = Ok mf /\ measured p (RawReport c) m /\ hit m (references p mf).

Lemma VerifyEvidence_None h path evidence expected :
  VerifyEvidence h path evidence expected = None <->
  path <> "" /\ exists c, DecodeCBOR evidence (None : option Pub) = Ok c /\ claimsAccepted h path c expected.
Proof.
  unfold VerifyEvidence, claimsAccepted. case_bool_decide as Hp; [naive_solver|].
  destruct (DecodeCBOR evidence None) as [c|]; [|naive_solver].
  unfold constantTimeEqual. case_bool_decide as Hn; [|naive_solver]. cbn [negb].
  set (p := platformTypeFromClaims (PlatformName c)).
  pose proof (verifyBinding_None p (RawReport c) expected) as Hb.
  destruct (verifyEvidenceBinding p (RawReport c) expected); [naive_solver|].
  destruct (loadCoRIM h path) as [mf|]; [|naive_solver].
  destruct (platformVerifier p) as [v|] eqn:Ev.
  - rewrite (platformVerifier_hit p v _ _ Ev). naive_solver.
  - assert (p = NoCC) as -> by (by destruct p). naive_solver.
Qed.

(** C11: evidence is accepted exactly when a policy is set, its token decodes, with or without
    a signature, to claims whose nonce is that of the session, whose report carries the
    report data or quote nonce of the session for its platform, and whose measurement is
    met among the reference values of the policy before an error. *)
Theorem evidence_accepted h path evidence expected :
  VerifyEvidence h path evidence expected = None <->
  path <> "" /\ exists c, DecodeCBOR evidence (None : option Pub) = Ok c /\ claimsAccepted h path c expected.
Proof. apply VerifyEvidence_None. Qed.
End accept.

(** ** What an acceptance does not depend on *)

Definition withReport (r : list byte) (c : EATClaims) : EATClaims :=
  mkClaims (Issuer c) (Subject c) (IssuedAt c) (ExpiresAt c) (Nonce c) (UEID c) (OEMID c)
    (HWModel c) (HWVersion c) (SWName c) (SWVersion c) (DebugStatus c) (IntUse c) (Measurements c)
    (PlatformName c) (SNPExt c) (TDXExt c) (VTPMExt c) r.

(** An attestation with other signatures, of the report and of every quote, and another
    certificate chain. *)
Definition setSignature (sig : list byte) (r : SnpReport) : SnpReport :=
  mkSnpReport (sr_Version r) (sr_Policy r) (sr_FamilyId r) (sr_ImageId r) (sr_Vmpl r)
    (sr_SignatureAlgo r) (sr_CurrentTcb r) (sr_PlatformInfo r) (sr_ReportData r)
    (sr_Measurement r) (sr_HostData r) (sr_ChipId r) (sr_ReportedTcb r) (sr_CommittedTcb r)
    (sr_LaunchTcb r) sig.
Definition setReportData (d : list byte) (r : SnpReport) : SnpReport :=
  mkSnpReport (sr_Version r) (sr_Policy r) (sr_FamilyId r) (sr_ImageId r) (sr_Vmpl r)
    (sr_SignatureAlgo r) (sr_CurrentTcb r) (sr_PlatformInfo r) d (sr_Measurement r)
    (sr_HostData r) (sr_ChipId r) (sr_ReportedTcb r) (sr_CommittedTcb r) (sr_LaunchTcb r)
    (sr_Signature r).

Definition editSnp (f : SnpReport -> SnpReport) (chain : option CertificateChain)
    (s : SnpAttestation) : SnpAttestation :=
  mkSnpAttestation (option_map f (sa_Report s)) chain (sa_Product s).

Definition resign (quoteSig reportSig : list byte) (chain : option CertificateChain)
    (a : Attestation) : Attestation :=
  mkAttestation (va_AkPub a) (map (fun q => mkTpmQuote (tq_Quote q) quoteSig) (va_Quotes a))
    (va_EventLog a) (option_map (editSnp (setSignature reportSig) chain) (va_SevSnp a)).

Definition rebind (d : list byte) (a : Attestation) : Attestation :=
  mkAttestation (va_AkPub a) (va_Quotes a) (va_EventLog a)
    (option_map (fun s => editSnp (setReportData d) (sa_Chain s) s) (va_SevSnp a)).

Section independent.
Context `{EvidenceLib} {Pub Priv : Type} `{OS, EatCodec Pub Priv}.

(** The parts of an attestation the verifier reads on a platform. *)
Definition sameView (p : PlatformType) (a a' : Attestation) : Prop :=
  va_AkPub a = va_AkPub a' /\ (forall n, quoted a n <-> quoted a' n)
  /\ (forall s, va_SevSnp a = Some s -> exists s', va_SevSnp a' = Some s'
       /\ (forall r, sa_Report s = Some r -> exists r', sa_Report s' = Some r'
            /\ sr_Measurement r = sr_Measurement r'
            /\ (p = VTPM \/ sr_ReportData r = sr_ReportData r'))).

Lemma reportData_view p a a' s d :
  sameView p a a' -> p <> VTPM -> va_SevSnp a = Some s -> reportDataOf s d ->
  exists s', va_SevSnp a' = Some s' /\ reportDataOf s' d.
Proof.
  intros (_ & _ & Hv) Hp Hs (r & Hr & Hd). destruct (Hv s Hs) as (s' & Hs' & Hr').
  destruct (Hr' r Hr) as (r' & ? & _ & [?|E]); [done|]. exists s'. split; [done|].
  exists r'. split; [done|]. by rewrite <- E.
Qed.

Lemma claimsAccepted_view h path c c' expected a a' :
  let p := platformTypeFromClaims (PlatformName c) in
  p <> TDX -> Nonce c' = Nonce c -> PlatformName c' = PlatformName c ->
  unmarshalAttestation (RawReport c) = Ok a -> unmarshalAttestation (RawReport c') = Ok a' ->
  sameView p a a' ->
  claimsAccepted h path c expected -> claimsAccepted h path c' expected.
Proof.
  cbv zeta. unfold claimsAccepted. intros Hp -> -> Ha Ha' Hv (Hn & Hb & mf & m & Hl & Hm & Hh).
  set (p := platformTypeFromClaims (PlatformName c)) in *. split; [done|].
  assert (exists s r, m <> [] /\ va_SevSnp a = Some s /\ sa_Report s = Some r /\ sr_Measurement r = m)
    as (s & r & Hne & Hs & Hr & Hmr).
  { destruct p; cbn in Hm; try done; destruct Hm as (? & a0 & s & r & E & ? & ? & ?);
      rewrite Ha in E; simplify_eq; eauto 6. }
  destruct (Hv) as (Hk & Hq & Hs'). destruct (Hs' s Hs) as (s' & Es' & Hr').
  destruct (Hr' r Hr) as (r' & Er' & Em & _).
  assert (measured p (RawReport c') m) as Hm'.
  { destruct p; cbn in *; try done; (split; [done|]); exists a', s', r'; split_and!; congruence. }
  split; [|by eauto]. clear Hm Hm' Hh.
  destruct p eqn:Ep; cbn in *; try done.
  1, 4: destruct Hb as (s0 & Hs0 & Hd); unfold snpOf, snpReportFromAttestation in *;
    rewrite Ha, Hs in Hs0; rewrite Ha'; subst s0;
    destruct (reportData_view _ _ _ _ _ Hv ltac:(done) Hs Hd) as (s1 & E1 & Hd1);
    exists s1; by rewrite E1.
  - destruct Hb as (a0 & E & Hn0). rewrite Ha in E. simplify_eq. exists a'. split; [done|]. by apply Hq.
  - destruct Hb as (a0 & s0 & E & Hn0 & E0 & Hd). rewrite Ha in E. apply Ok_inj in E as <-.
    destruct (reportData_view _ _ _ _ _ Hv ltac:(done) E0 Hd) as (s1 & E1 & Hd1).
    exists a', s1. rewrite <- Hk. split_and!; [done|by apply Hq|done|done].
Qed.

Lemma accepted_view h path evidence evidence' expected c c' a a' :
  let p := platformTypeFromClaims (PlatformName c) in
  p <> TDX -> Nonce c' = Nonce c -> PlatformName c' = PlatformName c ->
  DecodeCBOR evidence (None : option Pub) = Ok c -> DecodeCBOR evidence' (None : option Pub) = Ok c' ->
  unmarshalAttestation (RawReport c) = Ok a -> unmarshalAttestation (RawReport c') = Ok a' ->
  sameView p a a' -> sameView p a' a ->
  VerifyEvidence h path evidence expected = None <-> VerifyEvidence h path evidence' expected = None.
Proof.
  cbv zeta. intros Hp Hn Hnm Hc Hc' Ha Ha' Hv Hv'. rewrite !VerifyEvidence_None, Hc, Hc'.
  split; intros (Hpath & c0 & [= <-] & Hacc); (split; [done|]); eexists; (split; [done|]).
  - by eapply (claimsAccepted_view h path c c').
  - eapply (claimsAccepted_view h path c' c); try done; by rewrite Hnm.
Qed.

Lemma resign_view p qs rs chain a :
  sameView p a (resign qs rs chain a) /\ sameView p (resign qs rs chain a) a.
Proof.
  assert (forall n, quoted a n <-> quoted (resign qs rs chain a) n) as Hq.
  { intros n. unfold quoted. cbn. split.
    - intros (q & Hi & Hd). exists (mkTpmQuote (tq_Quote q) qs). split; [|done].
      by apply (list_elem_of_fmap_2 (fun q => mkTpmQuote (tq_Quote q) qs)).
    - intros (q & Hi & Hd). apply list_elem_of_In, in_map_iff in Hi as (q0 & <- & Hi).
      exists q0. split; [by apply list_elem_of_In | done]. }
  split; (split_and!; [done | intros n; by rewrite Hq | ]); intros s Hs.
  - exists (editSnp (setSignature rs) chain s). cbn. rewrite Hs. split; [done|].
    intros r Hr. exists (setSignature rs r). cbn. rewrite Hr. split_and!; [done..|by right].
  - cbn in Hs. destruct (va_SevSnp a) as [s0|]; [|done]. cbn in Hs. simplify_eq. exists s0.
    split; [done|]. cbn. intros r Hr. destruct (sa_Report s0) as [r0|]; [|done]. cbn in Hr.
    simplify_eq. exists r0. split_and!; [done..|by right].
Qed.

Lemma rebind_view d a : sameView VTPM a (rebind d a) /\ sameView VTPM (rebind d a) a.
Proof.
  split; (split_and!; [done..|]); intros s Hs.
  - exists (editSnp (setReportData d) (sa_Chain s) s). cbn. rewrite Hs. split; [done|].
    intros r Hr. exists (setReportData d r). cbn. rewrite Hr. split_and!; [done..|by left].
  - cbn in Hs. destruct (va_SevSnp a) as [s0|]; [|done]. cbn in Hs. simplify_eq. exists s0.
    split; [done|]. cbn. intros r Hr. destruct (sa_Report s0) as [r0|]; [|done]. cbn in Hr.
    simplify_eq. exists r0. split_and!; [done..|by left].
Qed.

(** C40: no signature is verified.  On the SNP, vTPM, SNP-vTPM and Azure platforms, evidence
    and the same evidence with any other signature of the SEV-SNP report, any other
    certificate chain and any other signatures of the TPM quotes are accepted alike. *)
Theorem signatures_not_checked h path evidence evidence' expected c r a qs rs chain :
  PlatformName c <> "TDX" ->
  DecodeCBOR evidence (None : option Pub) = Ok c ->
  DecodeCBOR evidence' (None : option Pub) = Ok (withReport r c) ->
  unmarshalAttestation (RawReport c) = Ok a ->
  unmarshalAttestation r = Ok (resign qs rs chain a) ->
  VerifyEvidence h path evidence expected = None <-> VerifyEvidence h path evidence' expected = None.
Proof.
  intros Hp Hc Hc' Ha Ha'.
  apply (accepted_view h path evidence evidence' expected c (withReport r c) a (resign qs rs chain a));
    try done; [|apply resign_view..].
  unfold platformTypeFromClaims. rewrite (bool_decide_eq_false_2 (PlatformName c = "TDX")) by done.
  by repeat case_bool_decide.
Qed.

(** On the vTPM platform the report data of the SEV-SNP report, whose measurement decides
    about the evidence, is not compared with the session: a report made for any other
    session does. *)
Theorem vtpm_report_data_free h path evidence evidence' expected c r a d :
  PlatformName c = "vTPM" ->
  DecodeCBOR evidence (None : option Pub) = Ok c ->
  DecodeCBOR evidence' (None : option Pub) = Ok (withReport r c) ->
  unmarshalAttestation (RawReport c) = Ok a ->
  unmarshalAttestation r = Ok (rebind d a) ->
  VerifyEvidence h path evidence expected = None <-> VerifyEvidence h path evidence' expected = None.
Proof.
  intros Hp Hc Hc' Ha Ha'.
  apply (accepted_view h path evidence evidence' expected c (withReport r c) a (rebind d a));
    try done; rewrite Hp; [done|apply rebind_view..].
Qed.

End independent.

(** ** TDX quotes *)

(** The bytes of [l] from [lo] replaced by [new]. *)
Definition overwrite (lo : Z) (new l : list byte) : list byte :=
  sliceTo lo l ++ new ++ sliceFrom (lo + len new) l.

Lemma len_overwrite lo new l :
  0 <= lo -> lo + len new <= len l -> len (overwrite lo new l) = len l.
Proof.
  intros H1 H2. unfold overwrite. rewrite !len_app. unfold len, sliceTo, sliceFrom in *.
  rewrite length_take, length_drop. lia.
Qed.

Lemma sub_overwrite_before a b lo new l :
  0 <= a <= b -> b <= lo <= len l -> sub a b (overwrite lo new l) = sub a b l.
Proof.
  intros Ha Hl. unfold sub, overwrite, sliceTo, sliceFrom, len in *.
  rewrite drop_app_le by (rewrite length_take; lia).
  rewrite take_app_le by (rewrite length_drop, length_take; lia).
  rewrite skipn_firstn_comm, take_take. f_equal. lia.
Qed.

Lemma sub_overwrite_after a b lo new l :
  0 <= lo -> lo + len new <= a -> lo + len new <= len l -> sub a b (overwrite lo new l) = sub a b l.
Proof.
  intros Hlo Ha Hl. unfold sub, overwrite, sliceTo, sliceFrom, len in *.
  rewrite app_assoc, drop_app_ge by (rewrite length_app, length_take; lia).
  rewrite drop_drop. do 2 f_equal. rewrite length_app, length_take. lia.
Qed.

Lemma sub_overwrite_in lo new l :
  0 <= lo <= len l -> sub lo (lo + len new) (overwrite lo new l) = new.
Proof.
  intros Hl. unfold sub, overwrite, sliceTo, sliceFrom, len in *.
  rewrite drop_app_length' by (rewrite length_take; lia).
  apply take_app_length'. lia.
Qed.

Lemma sub_split a b c (l : list byte) : 0 <= a <= b -> b <= c -> sub a c l = sub a b l ++ sub b c l.
Proof.
  intros Hab Hbc. unfold sub, sliceTo, sliceFrom.
  replace (Z.to_nat (c - a)) with (Z.to_nat (b - a) + Z.to_nat (c - b))%nat by lia.
  rewrite <- take_take_drop, drop_drop. do 3 f_equal. lia.
Qed.

Lemma len_sub a b (l : list byte) : 0 <= a <= b -> b <= len l -> len (sub a b l) = b - a.
Proof.
  intros Ha Hb. unfold sub, sliceTo, sliceFrom, len in *. rewrite length_take, length_drop. lia.
Qed.

(** Where Intel's layout of a version 4 quote has the measurement of the guest and its report
    data: header of 48 bytes, then the body. *)
Class QuoteLayout `{ReportAbi} : Prop := {
  quote_mrtd : forall r q, QuoteToProto r = Ok (Some q) -> q_MrTd q = sub 184 232 r;
  quote_report_data : forall r q, QuoteToProto r = Ok (Some q) -> q_ReportData q = sub 568 632 r }.

Section tdx.
Context `{EvidenceLib} {Pub Priv : Type} `{OS, EatCodec Pub Priv}.

(** Of a quote the verifier reads two windows. *)
Lemma tdx_windows h path evidence evidence' expected c r :
  PlatformName c = "TDX" ->
  DecodeCBOR evidence (None : option Pub) = Ok c ->
  DecodeCBOR evidence' (None : option Pub) = Ok (withReport r c) ->
  len r = len (RawReport c) ->
  sub 112 160 r = sub 112 160 (RawReport c) -> sub 0x208 0x248 r = sub 0x208 0x248 (RawReport c) ->
  VerifyEvidence h path evidence expected = None <-> VerifyEvidence h path evidence' expected = None.
Proof.
  intros Hp Hc Hc' Hl Hw1 Hw2. rewrite !VerifyEvidence_None, Hc, Hc'.
  assert (claimsAccepted h path c expected <-> claimsAccepted h path (withReport r c) expected) as Ha.
  { unfold claimsAccepted. cbn [Nonce PlatformName RawReport withReport]. rewrite Hp.
    change (platformTypeFromClaims "TDX") with TDX. cbn [bound measured]. by rewrite Hl, Hw1, Hw2. }
  split; intros (Hpath & c0 & [= <-] & Hacc); (split; [done|]); eexists; (split; [done|]); by apply Ha.
Qed.

Context `{QuoteLayout}.

(** The measurement of a TDX guest does not matter.  Evidence with a quote and evidence
    with the same quote but any other MRTD are accepted alike, while the parsed quotes
    have different MRTDs: the bytes compared are not those of the MRTD. *)
Theorem tdx_mrtd_not_checked h path evidence evidence' expected c mrtd q' :
  let r := overwrite 184 mrtd (RawReport c) in
  PlatformName c = "TDX" -> len mrtd = 48 -> 632 <= len (RawReport c) ->
  DecodeCBOR evidence (None : option Pub) = Ok c ->
  DecodeCBOR evidence' (None : option Pub) = Ok (withReport r c) ->
  QuoteToProto r = Ok (Some q') ->
  q_MrTd q' = mrtd
  /\ (VerifyEvidence h path evidence expected = None <-> VerifyEvidence h path evidence' expected = None).
Proof.
  cbv zeta. intros Hp Hm Hl Hc Hc' Hq. split.
  - rewrite (quote_mrtd _ _ Hq). pose proof (sub_overwrite_in 184 mrtd (RawReport c)) as E.
    rewrite Hm in E. apply E. lia.
  - eapply tdx_windows; try done; [apply len_overwrite; lia|apply sub_overwrite_before; lia|].
    apply sub_overwrite_after; lia.
Qed.

(** Of the report data of a TDX quote only the first sixteen bytes are compared: the
    other forty-eight can be replaced by any. *)
Theorem tdx_report_data_tail_free h path evidence evidence' expected c tail q q' :
  let r := overwrite 584 tail (RawReport c) in
  PlatformName c = "TDX" -> len tail = 48 -> 632 <= len (RawReport c) ->
  DecodeCBOR evidence (None : option Pub) = Ok c ->
  DecodeCBOR evidence' (None : option Pub) = Ok (withReport r c) ->
  QuoteToProto (RawReport c) = Ok (Some q) -> QuoteToProto r = Ok (Some q') ->
  q_ReportData q' = sliceTo 16 (q_ReportData q) ++ tail
  /\ (VerifyEvidence h path evidence expected = None <-> VerifyEvidence h path evidence' expected = None).
Proof.
  cbv zeta. intros Hp Hm Hl Hc Hc' Hq Hq'. split.
  - rewrite (quote_report_data _ _ Hq), (quote_report_data _ _ Hq').
    rewrite (sub_split 568 584 632) by lia.
    rewrite sub_overwrite_before by lia. rewrite (sub_split 568 584 632 (RawReport c)) by lia.
    pose proof (sub_overwrite_in 584 tail (RawReport c)) as E. rewrite Hm in E.
    change (584 + 48) with 632 in E. rewrite E by lia. f_equal.
    assert (len (sub 568 584 (RawReport c)) = 16) as E16 by (rewrite len_sub; lia).
    rewrite <- E16. by rewrite sliceTo_app_exact.
  - eapply tdx_windows; try done;
      [apply len_overwrite; lia|apply sub_overwrite_before; lia..].
Qed.
End tdx.

(** ** Generated reference values *)

(** A reference value of the generator as a verifier reads it; a measurement to which no
    digest was added has none. *)
Definition tripleOf (r : ReferenceValue) : ValueTriple :=
  mkTriple (map (fun m => match mv_Digests m with
                          | [] => None
                          | ds => Some (map (fun d => (fst d, map toByte (snd d))) ds)
                          end) (rv_Measurements r)).

(** Every CoMID that a manifest holds has the reference value of [u]. *)
Definition carries `{EvidenceLib} (u : UnsignedCorim) (mf : Manifest) : Prop :=
  forall tag c, tag ∈ mf_Tags mf -> hasPrefixBytes comidTag tag = true ->
  comidFromCBOR (sliceFrom (len comidTag) tag) = Ok c ->
  cd_ReferenceValues c = Some [tripleOf (cm_ReferenceValue (uc_Comid u))].

(** What is encoded, signed or not, is read back. *)
Class CorimRoundtrip (Key : Type) `{CorimLib Key, EvidenceLib} : Prop := {
  corim_roundtrip : forall u b mf,
    (toCBOR u = Ok b \/ exists k : Key, signCorim u k = Ok b) ->
    (corimFromCOSE b = Some mf \/ corimFromCBOR b = Ok mf) -> carries u mf }.

Section generated.
Context `{EvidenceLib} {Key : Type} `{CorimLib Key} `{!CorimRoundtrip Key, !DigestLaws Key}.
Context {Pub Priv : Type} `{OS, EatCodec Pub Priv}.

Lemma no_digest_no_value oi r d :
  digests r = [] -> Digest d ∉ valueFound oi (tripleOf r).
Proof.
  intros Hr. unfold valueFound, tripleOf. cbn [vt_Measurements].
  destruct (oi _) as [[|e]|]; [apply not_elem_of_nil|by intros [?|?%elem_of_nil]%elem_of_cons|].
  rewrite map_map. assert (concat (map mv_Digests (rv_Measurements r)) = []) as Hd.
  { unfold digests in Hr. by apply map_eq_nil in Hr. }
  assert (concat (map (fun m => default [] (match mv_Digests m with
            | [] => None
            | ds => Some (map (fun d => (fst d, map toByte (snd d))) ds)
            end)) (rv_Measurements r)) = []) as ->; [|apply not_elem_of_nil].
  apply concat_nil_iff in Hd. apply concat_nil_iff. rewrite List.Forall_map in *.
  eapply Forall_impl; [exact Hd|]. intros m. cbn. by intros ->.
Qed.

Lemma in_concat_map {A B} (f : A -> list B) (l : list A) y :
  y ∈ concat (map f l) -> exists x, x ∈ l /\ y ∈ f x.
Proof.
  induction l as [|a t IH]; cbn; [by intros ?%elem_of_nil|].
  intros [Hy|Hy]%elem_of_app; [exists a; split; [constructor|done]|].
  destruct (IH Hy) as (x & Hx & Hf). exists x. split; [by constructor|done].
Qed.

Lemma carries_no_digest p u mf d :
  carries u mf -> digests (cm_ReferenceValue (uc_Comid u)) = [] -> Digest d ∉ references p mf.
Proof.
  intros Hc Hd. unfold references. intros (tag & Ht & Hf)%in_concat_map. revert Hf. unfold tagFound.
  destruct (hasPrefixBytes comidTag tag) eqn:Hp; [|by intros ?%elem_of_nil]. cbn [negb].
  destruct (comidFromCBOR (sliceFrom (len comidTag) tag)) as [c|] eqn:Ec;
    [|by intros [?|?%elem_of_nil]%elem_of_cons].
  rewrite (Hc tag c Ht Hp Ec). cbn. rewrite app_nil_r.
  by apply no_digest_no_value.
Qed.

(** The unsigned CoRIM behind what the generator returns. *)
Lemma GenerateCoRIM_made (opts : Options Key) b :
  GenerateCoRIM opts = Ok b ->
  exists u, (toCBOR u = Ok b \/ exists k : Key, signCorim u k = Ok b)
    /\ createReferenceValue (applyDefaults opts) = Ok (cm_ReferenceValue (uc_Comid u)).
Proof.
  unfold GenerateCoRIM, CreateCoMID.
  destruct (createReferenceValue (applyDefaults opts)) as [r|]; [|done]. cbn [wrapRes].
  destruct (o_SigningKey (applyDefaults opts)) as [k|].
  - destruct (newSigner k); [done|]. cbn [wrapRes nilOr].
    match goal with |- context [signCorim ?u k] => destruct (signCorim u k) eqn:E end; [|done].
    intros [= <-]. eexists. split; [right; by exists k|done].
  - intros E. eexists. split; [by left|done].
Qed.

Lemma generated_corim_rejects (opts : Options Key) b h path evidence expected :
  GenerateCoRIM opts = Ok b -> Forall notSha256 (valuesOf (applyDefaults opts)) ->
  os_read h path = Ok b ->
  VerifyEvidence h path evidence expected <> None.
Proof.
  intros Hg Hv Hr (_ & c & _ & _ & _ & mf & m & Hl & _ & l1 & l2 & Hh & _)%VerifyEvidence_None.
  apply GenerateCoRIM_made in Hg as (u & Hu & Hc).
  assert (corimFromCOSE b = Some mf \/ corimFromCBOR b = Ok mf) as Hm.
  { unfold loadCoRIM in Hl. rewrite Hr in Hl. destruct (corimFromCOSE b); [left; congruence|].
    destruct (corimFromCBOR b); [right; congruence|done]. }
  eapply (carries_no_digest _ u mf m); [by eapply corim_roundtrip| |rewrite Hh].
  - by eapply createReferenceValue_empty.
  - apply elem_of_app. right. constructor.
Qed.
(** A CoRIM that the generator makes from measurements of another length than 32 bytes,
    as those of SEV-SNP and TDX are, carries no digest, and under it no evidence is
    accepted. *)
Theorem generated_corim_accepts_nothing (opts : Options Key) b h path evidence expected :
  GenerateCoRIM opts = Ok b -> Forall notSha256 (valuesOf (applyDefaults opts)) ->
  os_read h path = Ok b ->
  VerifyEvidence h path evidence expected <> None.
Proof. apply generated_corim_rejects. Qed.
End generated.

(** ** Evidence in a session *)

Definition VerificationPolicyFromEvidenceVerifier (v : Verifier) : VerificationPolicy :=
  mkVerificationPolicy (Some v) None.

(** C12: a payload that a client accepts with the evidence verifier carries evidence of the
    very session: its nonce is the SHA-256 of the value exported from the session, the
    report data of its report is the SHA-512 of the hash of leaf key and exported value
    (or bound through the attestation key, or by the quote nonce, as its platform has it),
    and its measurement is among the reference values of the policy. *)
Theorem accepted_payload_attests {PubKey} `{PKIX PubKey, EvidenceLib} {Pub Priv} `{OS, EatCodec Pub Priv}
    st label ctx (leaf : option (Certificate PubKey)) p h path v :
  VerifyPayload st label ctx leaf (Some p)
    (VerificationPolicyFromEvidenceVerifier (VerifyEvidence h path)) = Ok v ->
  exists hash exported pub c,
    sessionExports st label ctx hash exported /\ PublicKeyBytes leaf = Ok pub
    /\ DecodeCBOR (p_Evidence p) (None : option Pub) = Ok c
    /\ claimsAccepted h path c
         (mkEvidenceBinding (Sha2.Sum512 (BindingValue hash pub exported)) (Sha2.Sum256 exported)
            (BindingValue hash pub exported) exported).
Proof.
  intros (Hs & _ & hash & e & pub & Hx & Hp & _ & _ & Hev & Hres & _)%VerifyPayload_Ok.
  assert (p_Evidence p <> []) as Hne.
  { destruct Hs as [?|Hr]; [done|]. by destruct (Hres Hr) as (? & ? & _). }
  destruct (Hev Hne) as (verify & [= <-] & (_ & c & Hc & Ha)%VerifyEvidence_None).
  by exists hash, e, pub, c.
Qed.

(** ** Witnesses *)

Module EvidenceSample.
Definition nonce : list byte := [x0a; x0b].
Definition reportData : list byte := [x0c; x0d].
Definition expected : EvidenceBinding := mkEvidenceBinding reportData nonce [] [].
Definition measurement : list byte := replicate 48 x07.

Definition report (data : list byte) : SnpReport :=
  mkSnpReport 2 0 [] [] 0 1 0 0 data measurement [] [] 0 0 0 [x55].
Definition chain : CertificateChain := mkChain [x01] [x02] [x03].
Definition akPub : list byte := [x0e].
(** SHA-3 is the identity here. *)
Definition attestation : Attestation :=
  mkAttestation akPub [mkTpmQuote nonce [x66]] []
    (Some (mkSnpAttestation (Some (report (reportData ++ akPub))) (Some chain) None)).
Definition forged : Attestation := resign [] [] None attestation.
Definition moved : Attestation := rebind [] attestation.

Definition claims (platform : string) (raw : list byte) : EATClaims :=
  mkClaims "" "" 0 0 nonce [] 0 [] "" "" "" 2 1 [] platform None None None raw.

Definition quote : list byte := replicate 520 x00 ++ reportData ++ replicate 110 x00.
Definition tdxExpected : EvidenceBinding := mkEvidenceBinding (sub 0x208 0x248 quote) nonce [] [].
Definition otherQuote : list byte := overwrite 184 (replicate 48 x01) quote.
Definition tailQuote : list byte := overwrite 584 (replicate 48 x02) quote.

Definition osError : error := ErrNew "os".
#[local] Instance os : OS := {|
  os_act := fun _ _ => Some osError; os_stat := fun _ _ => Err osError;
  os_read := fun _ _ => Ok [x01]; os_walk := fun _ _ => Err osError;
  os_glob := fun _ _ => Err osError; os_getwd := fun _ => Err osError |}.

#[local] Instance lib : EvidenceLib := {|
  unmarshalAttestation b :=
    match b with [x01] => Ok attestation | [x02] => Ok forged | [x03] => Ok moved
               | _ => Err (ErrNew "proto") end;
  unmarshalSevSnp _ := Err (ErrNew "proto");
  decodeAttestationData := Ok;
  sha3Sum512 b := b;
  comidTag := [xd9; x01; xfa];
  corimFromCOSE _ := None;
  corimFromCBOR _ := Ok (mkManifest [[xd9; x01; xfa; x00]]);
  comidFromCBOR _ :=
    Ok (mkComidDoc (Some [mkTriple [None; Some [(7, replicate 48 x00); (7, measurement)]]]));
  measurementsValid _ := None; tripleValid _ := None |}.

#[local] Instance codec : EatCodec unit unit := {|
  unmarshalSign1 _ := None; marshalSign1 _ := Err (ErrNew "cose"); newVerifier _ := None;
  verifySign1 _ _ := None; newCoseSigner _ := None; signSign1 _ _ := Err (ErrNew "cose");
  marshalClaims _ := Err (ErrNew "cbor");
  unmarshalClaims b :=
    match b with
    | [x01] => Ok (claims "SNP-vTPM" [x01]) | [x02] => Ok (claims "SNP-vTPM" [x02])
    | [x03] => Ok (claims "vTPM" [x01]) | [x04] => Ok (claims "vTPM" [x03])
    | [x05] => Ok (claims "TDX" quote) | [x06] => Ok (claims "TDX" otherQuote)
    | [x07] => Ok (claims "TDX" tailQuote)
    | _ => Err (ErrNew "cbor")
    end;
  parseUnverified _ := Err (ErrNew "jwt"); parseWithKey _ _ := Err (ErrNew "jwt");
  signedString _ _ := Err (ErrNew "jwt") |}.

#[local] Instance abi : ReportAbi := {|
  ReportToProto _ := Err (ErrNew "abi");
  QuoteToProto r := Ok (Some (mkQuoteV4 (sub 184 232 r) [] [] [] [] [] [] [] (sub 568 632 r) [])) |}.
#[local] Instance layout : QuoteLayout.
Proof. split; by intros r q [= <-]. Qed.

Notation accepts e b := (VerifyEvidence [] "policy.corim" e b = None).

(** The forged evidence, with no signature at all, is accepted. *)
Lemma signatures_not_checked_witness : accepts [x01] expected /\ accepts [x02] expected.
Proof.
  assert (accepts [x01] expected) as H by (by vm_compute). split; [exact H|].
  refine (proj1 (signatures_not_checked [] "policy.corim" [x01] [x02] expected
    (claims "SNP-vTPM" [x01]) [x02] attestation [] [] None _ _ _ _ _) H); done.
Defined.

Lemma vtpm_report_data_free_witness : accepts [x03] expected /\ accepts [x04] expected.
Proof.
  assert (accepts [x03] expected) as H by (by vm_compute). split; [exact H|].
  refine (proj1 (vtpm_report_data_free [] "policy.corim" [x03] [x04] expected
    (claims "vTPM" [x01]) [x03] attestation [] _ _ _ _ _) H); done.
Defined.

Lemma tdx_mrtd_not_checked_witness : accepts [x05] tdxExpected /\ accepts [x06] tdxExpected.
Proof.
  assert (accepts [x05] tdxExpected) as H by (by vm_compute). split; [exact H|].
  refine (proj1 (proj2 (tdx_mrtd_not_checked [] "policy.corim" [x05] [x06] tdxExpected
    (claims "TDX" quote) (replicate 48 x01) _ _ _ _ _ _ eq_refl)) H); by vm_compute.
Defined.

Lemma tdx_report_data_tail_free_witness : accepts [x05] tdxExpected /\ accepts [x07] tdxExpected.
Proof.
  assert (accepts [x05] tdxExpected) as H by (by vm_compute). split; [exact H|].
  refine (proj1 (proj2 (tdx_report_data_tail_free [] "policy.corim" [x05] [x07] tdxExpected
    (claims "TDX" quote) (replicate 48 x02) _ _ _ _ _ _ _ eq_refl eq_refl)) H); by vm_compute.
Defined.
End EvidenceSample.

Module GeneratedSample.
Definition read : list byte := [x01].
#[local] Instance os : OS := {|
  os_act := fun _ _ => None; os_stat := fun _ _ => Ok 0; os_read := fun _ _ => Ok read;
  os_walk := fun _ _ => Ok []; os_glob := fun _ _ => Ok []; os_getwd := fun _ => Ok "/" |}.

(** It encodes the CoRIMs whose one measurement has no digest. *)
Definition bare (u : UnsignedCorim) : bool :=
  bool_decide (vt_Measurements (tripleOf (cm_ReferenceValue (uc_Comid u))) = [None]).
#[local] Instance corim : CorimLib unit := {|
  newUUID := fun _ => "u"; newSHA1 := fun s => s; newUUIDInstance := fun _ => None;
  newUUIDMeasurement := fun _ => None;
  addDigest := fun ds alg v => if len v =? 32 then ds ++ [(alg, v)] else ds;
  toCBOR := fun u => if bare u then Ok read else Err (ErrNew "cbor");
  newSigner := fun _ => None; signCorim := fun _ _ => Err (ErrNew "cose");
  pemDecode := fun _ => None; parseECPrivateKey := fun _ => None;
  parsePKCS8PrivateKey := fun _ => None |}.
#[local] Instance digestLaws : DigestLaws unit.
Proof. by split. Qed.

#[local] Instance lib : EvidenceLib := {|
  unmarshalAttestation _ := Ok EvidenceSample.attestation;
  unmarshalSevSnp _ := Err (ErrNew "proto"); decodeAttestationData := Ok; sha3Sum512 b := b;
  comidTag := [xd9]; corimFromCOSE _ := None; corimFromCBOR _ := Ok (mkManifest [[xd9; x00]]);
  comidFromCBOR _ := Ok (mkComidDoc (Some [mkTriple [None]]));
  measurementsValid _ := None; tripleValid _ := None |}.
#[local] Instance roundtrip : CorimRoundtrip unit.
Proof.
  split. intros u b mf [Hu|[k Hu]] _ tag c _ _ [= <-]; [|done]. cbn in *.
  unfold bare in Hu. case_bool_decide as Hb; [|done]. do 2 f_equal. by rewrite <- Hb.
Qed.

#[local] Existing Instance EvidenceSample.codec.

(** The defaults of an SEV-SNP guest. *)
Definition options : Options unit := mkOptions "snp" "" "" 0 0 "" "" "" 0 None.

Lemma generated_corim_accepts_nothing_witness :
  GenerateCoRIM options = Ok read
  /\ VerifyEvidence [] "policy.corim" [x01] EvidenceSample.expected <> None.
Proof.
  assert (GenerateCoRIM options = Ok read) as H by (by vm_compute). split; [exact H|].
  refine (generated_corim_accepts_nothing options read [] _ _ _ H _ eq_refl).
  repeat constructor. intros d. vm_compute. by intros [= <-].
Defined.
End GeneratedSample.

Module PayloadSample.
Import EaAttestation.Sample.
Definition binding : list byte := BindingValue SHA256 (bytesOf "spki") exported.
Definition quote : list byte := replicate 520 x00 ++ Sha2.Sum512 binding ++ replicate 48 x00.
Definition claims : EATClaims :=
  mkClaims "" "" 0 0 (Sha2.Sum256 exported) [] 0 [] "" "" "" 2 1 [] "TDX" None None None quote.

#[local] Existing Instance EvidenceSample.os.
#[local] Existing Instance EvidenceSample.lib.
#[local] Instance codec : EatCodec unit unit := {|
  unmarshalSign1 _ := None; marshalSign1 _ := Err (ErrNew "cose"); newVerifier _ := None;
  verifySign1 _ _ := None; newCoseSigner _ := None; signSign1 _ _ := Err (ErrNew "cose");
  marshalClaims _ := Err (ErrNew "cbor"); unmarshalClaims _ := Ok claims;
  parseUnverified _ := Err (ErrNew "jwt"); parseWithKey _ _ := Err (ErrNew "jwt");
  signedString _ _ := Err (ErrNew "jwt") |}.

Lemma accepted_payload_attests_witness :
  exists hash exported pub c,
    sessionExports (session "s1") ExporterLabelAttestation (bytesOf "ctx") hash exported
    /\ PublicKeyBytes leaf = Ok pub
    /\ DecodeCBOR (p_Evidence payload) (None : option unit) = Ok c
    /\ claimsAccepted [] "policy.corim" c
         (mkEvidenceBinding (Sha2.Sum512 (BindingValue hash pub exported)) (Sha2.Sum256 exported)
            (BindingValue hash pub exported) exported).
Proof.
  refine (accepted_payload_attests (session "s1") ExporterLabelAttestation (bytesOf "ctx") leaf
            payload [] "policy.corim" verified _).
  vm_compute. reflexivity.
Defined.
End PayloadSample.
