(* ===== verification/Attester.v ===== *)
(** * Making evidence: the providers, the attestation service and the server's extension

    The other side of [Evidence]: [pkg/attestation/vtpm] asks the TPM for a quote and the
    SEV-SNP device for a report, with the certificates [FetchSEVCertificates] has stored;
    [tdx], [azure], [ccaa] and the empty provider implement the same interface.
    [cmd/attestation-service] turns a report into a token, [pkg/clients/grpc/attestation]
    calls it, and [pkg/atls/provider.go] puts the token into the extension of the leaf.
    A call that may panic gives [None].  Devices, PEM, X.509 and protocol buffers are the
    classes [SevLib], [TpmLib] and [OtherTee]. *)

From stdpp Require Import base list strings.
From Stdlib Require Import ZArith Lia Strings.Byte.
From S2P Require Import Prelude GoStrings Errors GoPath GoOS GoNumbers Sha2 EaAttestation EaWire.
From S2P Require Import Qemu Corim Eat Evidence.

(** ** SEV-SNP: [sev.go] *)

Definition certCacheDirectory : string := "/agents-secure-binding".
Definition arkAskBundleName : string := "ask_ark.pem".
Definition vcekName : string := "vcek.pem".
Definition SEVNonce : nat := 64.

(** [copy] into an array of [n] bytes. *)
Definition copyN (n : nat) (b : list byte) : list byte := take n (b ++ replicate n x00).
Arguments copyN : simpl never.

Class SevLib := {
  getLeveledQuoteProvider : list act -> option error;
  getQuoteProtoAtLevel : list act -> list byte -> Z -> result error SnpAttestation;
  randRead : list act -> nat -> result error (list byte);
  (** [verify.GetAttestationFromReport]: the report with the certificates of the vendor. *)
  getAttestationFromReport : list act -> option SnpReport -> option Z -> result error SnpAttestation;
  (** [os.UserHomeDir], empty on an error. *)
  homePath : string;
  (** [pem.Decode]: the bytes of the first block, if any, and the rest. *)
  pemNext : list byte -> option (list byte) * list byte;
  (** [pem.EncodeToMemory] of a certificate. *)
  pemCertificate : list byte -> list byte;
  parseCertificate : list byte -> option error;
  marshalSevSnp : SnpAttestation -> result error (list byte) }.

(** [os.WriteFile]. *)
Definition writeFile `{OS} (path : string) (data : list byte) (perm : Z) : st (list act) (option error) :=
  fun h => match perform (AOpenTrunc path perm) h with
           | (Some e, h) => (Some e, h)
           | (None, h) => perform (AWrite path data) h
           end.

Section sev.
Context `{OS, SevLib}.

Definition certPath (product : Z) (file : string) : string :=
  Join [homePath; certCacheDirectory; Itoa product; file].

(** The check of the size of the array can not fail and is left out. *)
Definition fetchSEVAttestation (h : list act) (reportDataSlice : list byte) (vmpl : Z)
    : option (result error (list byte)) :=
  match getLeveledQuoteProvider h with
  | Some _ => Some (Err (ErrNew "could not get quote provider"))
  | None =>
      match getQuoteProtoAtLevel h (copyN SEVNonce reportDataSlice) vmpl with
      | Err _ => Some (Err (ErrNew "failed to get quote proto"))
      | Ok quoteProto =>
          product ← sa_Product quoteProto;
          match os_read h (certPath product vcekName) with
          | Err _ => Some (Err (ErrNew "could not read VCEK file"))
          | Ok vcekBytes =>
              match os_read h (certPath product arkAskBundleName) with
              | Err _ => Some (Err (ErrNew "could not read ask/ark bundle file"))
              | Ok arkAskBundleBytes =>
                  let '(arkPem, rest) := pemNext arkAskBundleBytes in
                  _ ← sa_Chain quoteProto;
                  vcek ← fst (pemNext vcekBytes);
                  ask ← fst (pemNext rest);
                  ark ← arkPem;
                  match marshalSevSnp (mkSnpAttestation (sa_Report quoteProto)
                                         (Some (mkChain vcek ask ark)) (sa_Product quoteProto)) with
                  | Err _ => Some (Err (ErrNew "failed to marshal quote proto"))
                  | Ok result => Some (Ok result)
                  end
              end
          end
      end
  end.

Definition derToPem (der : list byte) : list byte :=
  match parseCertificate der with Some _ => der | None => pemCertificate der end.

(** The files [FetchSEVCertificates] writes for a product. *)
Definition storeCertificates (product : Z) (c : CertificateChain) : st (list act) (result error unit) :=
  guard! replacing "could not create VCEK directory"
           (perform (AMkdirAll (Dir (certPath product vcekName)))) in
  guard! replacing "could not create ask/ark bundle directory"
           (perform (AMkdirAll (Dir (certPath product arkAskBundleName)))) in
  guard! replacing "could not write VCEK file"
           (writeFile (certPath product vcekName) (derToPem (cc_Vcek c)) 420) in
  guard! replacing "could not write ark/ask bundle file"
           (writeFile (certPath product arkAskBundleName) (derToPem (cc_Ask c) ++ derToPem (cc_Ark c)) 420) in
  lift (Ok tt).

Definition FetchSEVCertificates (vmpl : Z) : st (list act) (option (result error unit)) := fun h =>
  match getLeveledQuoteProvider h with
  | Some _ => (Some (Err (ErrNew "could not get quote provider")), h)
  | None =>
      match randRead h SEVNonce with
      | Err _ => (Some (Err (ErrNew "failed to read random data")), h)
      | Ok reportData =>
          match getQuoteProtoAtLevel h reportData vmpl with
          | Err _ => (Some (Err (ErrNew "failed to get quote proto")), h)
          | Ok quoteProto =>
              match getAttestationFromReport h (sa_Report quoteProto) (sa_Product quoteProto) with
              | Err _ => (Some (Err (ErrNew "could not get fetch certificates")), h)
              | Ok result =>
                  match sa_Product quoteProto, sa_Chain result with
                  | Some product, Some c =>
                      let '(r, h') := storeCertificates product c h in (Some r, h')
                  | _, _ => (None, h)
                  end
              end
          end
      end
  end.
End sev.

(** ** The TPM: [vtpm.go] *)

Definition eventLog : string := "/sys/kernel/security/tpm0/binary_bios_measurements".
Definition NonceSize : nat := 32.

Class TpmLib := {
  (** [ExternalTPM] is set. *)
  externalTPM : bool;
  openTPM : string -> option error;
  isNotExist : error -> bool;
  attestationKeyRSA : option error;
  getEventLog : result error (list byte);
  (** [attestationKey.Attest] with a nonce and an event log. *)
  akAttest : list byte -> list byte -> result error Attestation;
  marshalAttestation : Attestation -> result error (list byte);
  (** What the TPM does with the values it has been extended with. *)
  pcrExtend : list (Z * string * list byte) -> Z * string * list byte -> option error;
  readPCR : Z -> string -> result error (list byte);
  (** The external TPM is the [DummyRWC]. *)
  dummyTPM : bool;
  sha3Sum256 : list byte -> list byte;
  sha3Sum384 : list byte -> list byte }.

Definition ErrFetchQuote : error := ErrNew "failed to fetch vTPM quote".

Section tpm.
Context `{OS, SevLib, TpmLib, EvidenceLib}.

Definition OpenTpm : option error :=
  if externalTPM then None
  else match openTPM "/dev/tpmrm0" with
       | Some e => if isNotExist e then openTPM "/dev/tpm0" else Some e
       | None => None
       end.

(** A PCR is extended in the bank of SHA-256, then in that of SHA-384. *)
Definition extendPCR (bank : Z * string * list byte)
    : st (list (Z * string * list byte)) (option error) :=
  fun t => match pcrExtend t bank with Some e => (Some e, t) | None => (None, t ++ [bank]) end.
Definition ExtendPCR (pcrIndex : Z) (value : list byte)
    : st (list (Z * string * list byte)) (option error) := fun t =>
  match OpenTpm with
  | Some e => (Some e, t)
  | None =>
      match extendPCR (pcrIndex, "SHA256", sha3Sum256 value) t with
      | (Some e, t) => (Some e, t)
      | (None, t) => extendPCR (pcrIndex, "SHA384", sha3Sum384 value) t
      end
  end.

Definition getPCRValue (index : Z) (algorithm : string) : result error (list byte) :=
  match OpenTpm with
  | Some e => Err e
  | None => match readPCR index algorithm with
            | Ok v => Ok v
            | Err e => if dummyTPM then Ok (replicate 20 x00) else Err e
            end
  end.

Definition FetchQuote (nonce : list byte) : result error Attestation :=
  match OpenTpm with
  | Some e => Err e
  | None =>
      match attestationKeyRSA with
      | Some e => Err (Wrap (ErrNew "failed to create attestation key") e)
      | None =>
          match getEventLog with
          | Err e => Err (Wrap (ErrNew "failed to retrieve TCG Event Log") e)
          | Ok log =>
              match akAttest (copyN NonceSize nonce) log with
              | Err e => Err (Wrap (ErrNew "failed to attest") e)
              | Ok a => Ok a
              end
          end
      end
  end.

Definition setSevSnp (s : SnpAttestation) (a : Attestation) : Attestation :=
  mkAttestation (va_AkPub a) (va_Quotes a) (va_EventLog a) (Some s).

Definition addTEEAttestation (h : list act) (a : Attestation) (nonce : list byte) (vmpl : Z)
    : option (result error Attestation) :=
  let attestData := sha3Sum512 (nonce ++ va_AkPub a) in
  r ← fetchSEVAttestation h attestData vmpl;
  match r with
  | Err _ => Some (Err (ErrNew "failed to fetch TEE attestation report"))
  | Ok raw =>
      match unmarshalSevSnp raw with
      | Err e => Some (Err (Wrap (ErrNew "failed to unmarshal TEE report proto") e))
      | Ok extReport => Some (Ok (setSevSnp extReport a))
      end
  end.

Definition marshalQuote (a : Attestation) : result error (list byte) :=
  match marshalAttestation a with
  | Err e => Err (Wrap (ErrNew "failed to marshal vTPM attestation report") e)
  | Ok out => Ok out
  end.

Definition Attest (h : list act) (teeNonce vTPMNonce : list byte) (teeAttestation : bool) (vmpl : Z)
    : option (result error (list byte)) :=
  match FetchQuote vTPMNonce with
  | Err e => Some (Err e)
  | Ok a =>
      if teeAttestation then
        r ← addTEEAttestation h a teeNonce vmpl;
        match r with Err e => Some (Err e) | Ok a => Some (marshalQuote a) end
      else Some (marshalQuote a)
  end.
End tpm.

(** ** Providers: [attestation.Provider] *)

(** The arguments are the report data and the nonce, in this order. *)
Record Provider := mkProvider {
  pv_Attestation : list byte -> list byte -> option (result error (list byte));
  pv_TeeAttestation : list byte -> option (result error (list byte));
  pv_VTpmAttestation : list byte -> option (result error (list byte));
  pv_AzureAttestationToken : list byte -> option (result error (list byte)) }.

Class OtherTee := {
  getTdxQuoteProvider : option error;
  getRawQuote : list byte -> result error (list byte);
  (** The attestation agent of confidential containers. *)
  getEvidence : list byte -> result error (list byte);
  getToken : string -> result error (list byte);
  (** The attestation embedded in the binary. *)
  embeddedAttestation : list byte }.

Definition errOpenTDXDevice : error := ErrNew "failed to open TDX device".
Definition ErrFetchAzureToken : error := ErrNew "failed to fetch Azure token".
Definition ErrAzureMAADisabled : error := ErrNew "Azure MAA runtime fetch is disabled".

Section providers.
Context `{OS, SevLib, TpmLib, EvidenceLib, OtherTee}.

Definition quoteReport (nonce : list byte) : result error (list byte) :=
  match FetchQuote nonce with
  | Err e => Err (Wrap ErrFetchQuote e)
  | Ok quote => marshalAttestation quote
  end.

Definition vtpmProvider (h : list act) (teeAttestation : bool) (vmpl : Z) : Provider :=
  mkProvider
    (fun teeNonce vTpmNonce => Attest h teeNonce vTpmNonce teeAttestation vmpl)
    (fun teeNonce => fetchSEVAttestation h teeNonce vmpl)
    (fun vTpmNonce => Some (quoteReport vTpmNonce))
    (fun _ => Some (Err (ErrNew "Azure attestation token is not supported"))).

(** A nil nonce is an empty one. *)
Definition tdxTeeAttestation (teeNonce : list byte) : result error (list byte) :=
  if len teeNonce =? 0 then Err (ErrNew "tee nonce is required for TDX attestation")
  else if negb (len teeNonce =? 64) then Err (ErrNew "invalid tee nonce length")
  else match getTdxQuoteProvider with
       | Some e => Err (Wrap e errOpenTDXDevice)
       | None => getRawQuote teeNonce
       end.

Definition tdxProvider : Provider :=
  mkProvider (fun teeNonce _ => Some (tdxTeeAttestation teeNonce))
    (fun teeNonce => Some (tdxTeeAttestation teeNonce))
    (fun _ => Some (Err (ErrNew "vTPM attestation fetch is not supported")))
    (fun _ => Some (Err (ErrNew "Azure attestation token is not supported"))).

Definition azureProvider : Provider :=
  mkProvider (fun _ _ => Some (Err ErrAzureMAADisabled)) (fun _ => Some (Err ErrAzureMAADisabled))
    (fun vTpmNonce => Some (quoteReport vTpmNonce))
    (fun _ => Some (Err (Wrap ErrFetchAzureToken ErrAzureMAADisabled))).

Definition EmptyProvider : Provider :=
  let refuse := Some (Err (ErrNew "EmptyProvider should not be used")) in
  mkProvider (fun _ _ => refuse) (fun _ => refuse) (fun _ => Some (Ok embeddedAttestation))
    (fun _ => Some (Ok [])).

Definition ccaaEvidence (runtimeData : list byte) : result error (list byte) :=
  wrapRes "CC attestation-agent GetEvidence failed" (getEvidence runtimeData).

Definition ccaaProvider : Provider :=
  mkProvider (fun reportData nonce => Some (ccaaEvidence (reportData ++ nonce)))
    (fun reportData => Some (ccaaEvidence reportData)) (fun nonce => Some (ccaaEvidence nonce))
    (fun nonce => match getToken "Azure" with
                  | Ok token => Some (Ok token)
                  | Err e => match getEvidence nonce with
                             | Ok evidence => Some (Ok evidence)
                             | Err _ => Some (Err (ErrWrap "CC attestation-agent Azure token not supported" e))
                             end
                  end).

(** The provider of the service; [None] ends it.  A platform without one leaves it nil. *)
Definition selectProvider (h : list act) (useAgent : bool) (connect : option error)
    (p : PlatformType) (vmpl : Z) : option (option Provider) :=
  if useAgent && bool_decide (connect = None) then Some (Some ccaaProvider)
  else if useAgent && bool_decide (p = NoCC) then None
  else match p with
       | SNP => Some (Some (vtpmProvider h false vmpl))
       | SNPvTPM => Some (Some (vtpmProvider h true vmpl))
       | Azure => Some (Some azureProvider)
       | TDX => Some (Some tdxProvider)
       | NoCC => Some (Some EmptyProvider)
       | VTPM => Some None
       end.
End providers.

(** ** The service: [cmd/attestation-service] *)

(** The platform types of the protocol. *)
Definition PLATFORM_TYPE_UNSPECIFIED : Z := 0.
Definition PLATFORM_TYPE_SNP : Z := 1.
Definition PLATFORM_TYPE_TDX : Z := 2.
Definition PLATFORM_TYPE_VTPM : Z := 3.
Definition PLATFORM_TYPE_SNP_VTPM : Z := 4.
Definition PLATFORM_TYPE_AZURE : Z := 5.

Record AttestationRequest := mkAttestationRequest {
  aq_ReportData : list byte; aq_Nonce : list byte; aq_PlatformType : Z }.

Record service (Priv : Type) := mkService {
  sv_provider : option Provider; sv_signingKey : Priv; sv_eatFormat : string; sv_eatIssuer : string }.
Arguments mkService {Priv}. Arguments sv_provider {Priv}. Arguments sv_signingKey {Priv}.
Arguments sv_eatFormat {Priv}. Arguments sv_eatIssuer {Priv}.

Definition convertPlatformType (pt : Z) : PlatformType :=
  if pt =? PLATFORM_TYPE_SNP then SNP
  else if pt =? PLATFORM_TYPE_TDX then TDX
  else if pt =? PLATFORM_TYPE_VTPM then VTPM
  else if pt =? PLATFORM_TYPE_SNP_VTPM then SNPvTPM
  else if pt =? PLATFORM_TYPE_AZURE then Azure
  else NoCC.

(** The report for a request, and the platform it is of.  A call on a nil provider panics. *)
Definition binaryReport (provider : option Provider) (req : AttestationRequest)
    : option (result error (list byte * PlatformType)) :=
  let reportData := copyN 64 (aq_ReportData req) in
  let nonce := copyN 32 (aq_Nonce req) in
  let tagged p (r : result error (list byte)) :=
    match r with Ok b => Ok (b, p) | Err e => Err e end in
  let pt := aq_PlatformType req in
  if (pt =? PLATFORM_TYPE_SNP) || (pt =? PLATFORM_TYPE_TDX) then
    pv ← provider; r ← pv_TeeAttestation pv reportData; Some (tagged (convertPlatformType pt) r)
  else if pt =? PLATFORM_TYPE_VTPM then
    pv ← provider; r ← pv_VTpmAttestation pv nonce; Some (tagged VTPM r)
  else if pt =? PLATFORM_TYPE_SNP_VTPM then
    pv ← provider; r ← pv_Attestation pv reportData nonce; Some (tagged SNPvTPM r)
  else if pt =? PLATFORM_TYPE_UNSPECIFIED then Some (Ok (reportData ++ nonce, NoCC))
  else Some (Err (ErrNew "unsupported platform type")).

Section service.
Context {Pub Priv : Type} `{EatCodec Pub Priv, ReportAbi}.

Definition encodeToken (s : service Priv) (now : Time) (c : EATClaims) : result error (list byte) :=
  if bool_decide (sv_eatFormat s = "JWT") then
    match EncodeToJWT c (sv_signingKey s) (sv_eatIssuer s) now with
    | Err e => Err (ErrWrap "failed to encode JWT" e) | Ok t => Ok (bytesOf t) end
  else if bool_decide (sv_eatFormat s = "CBOR") then
    wrapRes "failed to encode CBOR" (EncodeToCBOR c (sv_signingKey s) (sv_eatIssuer s) now)
  else Err (ErrNew ("unsupported EAT format: " +:+ sv_eatFormat s)).

(** [spare] is what the array of the report holds behind it. *)
Definition FetchAttestation (s : service Priv) (now : Time) (spare : list byte) (req : AttestationRequest)
    : option (result error (list byte)) :=
  r ← binaryReport (sv_provider s) req;
  match r with
  | Err e => Some (Err e)
  | Ok (report, p) =>
      let nonce := if 0 <? len (aq_Nonce req) then aq_Nonce req else aq_ReportData req in
      c ← NewEATClaims report spare nonce p;
      match c with
      | Err e => Some (Err (ErrWrap "failed to create EAT claims" e))
      | Ok claims => Some (encodeToken s now claims)
      end
  end.

(** [GetAzureToken] is no method of the protocol: the two that are come from the embedded
    [UnimplementedAttestationServiceServer]. *)
Definition GetAzureToken (s : service Priv) (nonce : list byte) : option (result error (list byte)) :=
  pv ← sv_provider s; pv_AzureAttestationToken pv (copyN 32 nonce).
Definition Unimplemented : error := ErrNew "codes.Unimplemented".
Definition FetchRawEvidence (s : service Priv) (req : AttestationRequest) : result error (list byte) :=
  Err Unimplemented.
Definition FetchAzureToken (s : service Priv) (nonce : list byte) : result error (list byte) :=
  Err Unimplemented.

(** ** Its client: [pkg/clients/grpc/attestation] *)

Definition protoPlatform (attType : PlatformType) : Z :=
  match attType with
  | SNP => PLATFORM_TYPE_SNP | TDX => PLATFORM_TYPE_TDX | VTPM => PLATFORM_TYPE_VTPM
  | SNPvTPM => PLATFORM_TYPE_SNP_VTPM | Azure | NoCC => PLATFORM_TYPE_UNSPECIFIED
  end.

(** [call] is the failure of the call itself, if any; a panic of the handler ends the
    service, and the call with it. *)
Definition overGRPC {A} (call : option error) (handler : option (result error A)) : result error A :=
  match call, handler with
  | Some e, _ => Err e
  | None, None => Err (ErrNew "codes.Unavailable")
  | None, Some r => r
  end.

Definition clientGetAttestation (s : service Priv) (now : Time) (spare : list byte) (call : option error)
    (reportData nonce : list byte) (attType : PlatformType) : result error (list byte) :=
  overGRPC call (FetchAttestation s now spare
                   (mkAttestationRequest reportData nonce (protoPlatform attType))).
Definition clientGetRawEvidence (s : service Priv) (call : option error) (reportData nonce : list byte)
    (attType : PlatformType) : result error (list byte) :=
  overGRPC call (Some (FetchRawEvidence s
                   (mkAttestationRequest reportData nonce (protoPlatform attType)))).
Definition clientGetAzureToken (s : service Priv) (call : option error) (nonce : list byte)
    : result error (list byte) :=
  overGRPC call (Some (FetchAzureToken s nonce)).
End service.

(** ** The extension of the leaf: [pkg/atls/provider.go] *)

Definition attestationClient : Type := list byte -> list byte -> PlatformType -> result error (list byte).

Record leafProvider := mkLeafProvider { lp_attClient : attestationClient; lp_platformType : PlatformType }.

Definition NewLeafProvider (c : option attestationClient) (p : PlatformType) : result error leafProvider :=
  match c with
  | None => Err (ErrNew "atls: missing attestation client")
  | Some c => if bool_decide (p = NoCC)
              then Err (ErrNew "atls: confidential computing platform not available")
              else Ok (mkLeafProvider c p)
  end.

Section leaf.
Context {PubKey : Type} `{PKIX PubKey, PayloadJSON}.

(** The payload for a session, with the evidence the attestation service gives. *)
Definition leafPayload (lp : leafProvider) (st : ConnectionState) (context : list byte)
    (leaf : Certificate PubKey) : result error Payload :=
  let* r := ComputeBinding st ExporterLabelAttestation context (Some leaf) in
  let '(exportedValue, aikPubHash, binding) := r in
  let* evidence := wrapRes "atls: failed to fetch attestation evidence"
                     (lp_attClient lp (Sum512 binding) (Sum256 exportedValue) (lp_platformType lp)) in
  Ok (mkPayload 1 "application/eat+cwt" evidence []
        (mkBinder ExporterLabelAttestation aikPubHash binding)).

Definition BuildLeafExtensions (lp : leafProvider) (st : ConnectionState) (req : AuthenticatorRequest)
    (leaf : Certificate PubKey) : result error (list Extension) :=
  let* p := leafPayload lp st (ar_Context req) leaf in
  let* payloadBytes := MarshalPayload p in
  let* ext := CMWAttestationDataExtension payloadBytes in
  Ok [ext].
End leaf.

(** ** What the devices and libraries promise *)

Class TeeLaws `{SevLib, TpmLib, EvidenceLib} : Prop := {
  (** A quote attests the nonce it was asked with, a report its report data. *)
  quote_nonce : forall n log a, akAttest n log = Ok a -> quoted a n;
  report_data : forall h d vmpl q, getQuoteProtoAtLevel h d vmpl = Ok q -> reportDataOf q d;
  sev_roundtrip : forall s b, marshalSevSnp s = Ok b -> unmarshalSevSnp b = Ok s;
  attestation_roundtrip : forall a b, marshalAttestation a = Ok b -> unmarshalAttestation b = Ok a;
  (** A serialized [sevsnp.Attestation] has no field with the number of the embedded report
      of an [attest.Attestation]. *)
  sev_no_embedded : forall s b a,
    marshalSevSnp s = Ok b -> unmarshalAttestation b = Ok a -> va_SevSnp a = None;
  sha3_length : forall b, length (sha3Sum512 b) = 64%nat;
  pem_roundtrip : forall der rest, pemNext (pemCertificate der ++ rest) = (Some der, rest) }.

(** ** The certificates of the cache *)

Lemma copyN_exact n b : length b = n -> copyN n b = b.
Proof. intros <-. unfold copyN. by rewrite take_app_length. Qed.

Lemma length_copyN n b : length (copyN n b) = n.
Proof. unfold copyN. rewrite length_take, length_app, length_replicate. lia. Qed.

Section certificates.
Context `{OS, SevLib, TpmLib, EvidenceLib, !TeeLaws}.

(** The certificates come back swapped.  What [FetchSEVCertificates] stores of a chain,
    [fetchSEVAttestation] attaches to a report with the certificate of the root (ARK) in
    place of the intermediate one (ASK), and the other way around. *)
Theorem cached_chain_swapped h data vmpl q product c :
  getLeveledQuoteProvider h = None ->
  getQuoteProtoAtLevel h (copyN SEVNonce data) vmpl = Ok q ->
  sa_Product q = Some product -> sa_Chain q <> None ->
  parseCertificate (cc_Vcek c) = None -> parseCertificate (cc_Ask c) = None ->
  parseCertificate (cc_Ark c) = None ->
  os_read h (certPath product vcekName) = Ok (derToPem (cc_Vcek c)) ->
  os_read h (certPath product arkAskBundleName) = Ok (derToPem (cc_Ask c) ++ derToPem (cc_Ark c)) ->
  fetchSEVAttestation h data vmpl =
    match marshalSevSnp (mkSnpAttestation (sa_Report q)
            (Some (mkChain (cc_Vcek c) (cc_Ark c) (cc_Ask c))) (Some product)) with
    | Err _ => Some (Err (ErrNew "failed to marshal quote proto"))
    | Ok b => Some (Ok b)
    end.
Proof.
  intros Hl Hq Hp Hch Cv Ck Ca R1 R2. unfold fetchSEVAttestation. rewrite Hl, Hq, Hp. cbn [mbind option_bind].
  unfold derToPem in *. rewrite Cv in R1. rewrite Ck, Ca in R2. rewrite R1, R2.
  pose proof (pem_roundtrip (cc_Ark c) []) as Pa. pose proof (pem_roundtrip (cc_Vcek c) []) as Pv.
  rewrite app_nil_r in Pa, Pv. rewrite pem_roundtrip, Pv, Pa.
  by destruct (sa_Chain q).
Qed.

(** What is stored is exactly that, in four steps: the success of [FetchSEVCertificates]. *)
Lemma storeCertificates_acts product c h h' :
  storeCertificates product c h = (Ok tt, h') ->
  h' = h ++ [AMkdirAll (Dir (certPath product vcekName));
             AMkdirAll (Dir (certPath product arkAskBundleName));
             AOpenTrunc (certPath product vcekName) 420;
             AWrite (certPath product vcekName) (derToPem (cc_Vcek c));
             AOpenTrunc (certPath product arkAskBundleName) 420;
             AWrite (certPath product arkAskBundleName) (derToPem (cc_Ask c) ++ derToPem (cc_Ark c))].
Proof.
  unfold storeCertificates, bindNil, replacing, writeFile, perform, lift.
  repeat (destruct (os_act _ _); [done|]). intros [= <-]. by rewrite <- !app_assoc.
Qed.
End certificates.

(** ** Tokens of the service *)

Lemma platform_roundtrip p : platformTypeFromClaims (getPlatformTypeName p) = p.
Proof. by destruct p. Qed.

Section tokens.
Context {Pub Priv : Type} `{EvidenceLib, EatLaws Pub Priv, ReportAbi, OS}.

(** A token in CBOR carries the report of the provider, its platform and the nonce. *)
Lemma FetchAttestation_claims (s : service Priv) now spare req token :
  sv_eatFormat s = "CBOR" -> ValidString (sv_eatIssuer s) = true ->
  FetchAttestation s now spare req = Some (Ok token) ->
  exists report p c,
    binaryReport (sv_provider s) req = Some (Ok (report, p))
    /\ DecodeCBOR token (None : option Pub) = Ok c
    /\ Nonce c = (if 0 <? len (aq_Nonce req) then aq_Nonce req else aq_ReportData req)
    /\ PlatformName c = getPlatformTypeName p /\ RawReport c = report.
Proof.
  intros Hf Hi. unfold FetchAttestation.
  destruct (binaryReport (sv_provider s) req) as [[[report p]|]|] eqn:Eb; [|done..].
  cbn [mbind option_bind].
  destruct (NewEATClaims report spare _ p) as [[c|]|] eqn:Ec; [|done..]. intros [= Et].
  unfold encodeToken in Et. rewrite Hf in Et. cbn in Et. unfold wrapRes in Et.
  destruct (EncodeToCBOR c (sv_signingKey s) (sv_eatIssuer s) now) as [t|] eqn:En; [|done].
  injection Et as ->. exists report, p, (stamp (sv_eatIssuer s) now c).
  pose proof (NewEATClaims_envelope _ _ _ _ _ Ec) as (_ & E1 & E2 & E3).
  split; [done|]. split; [|done].
  apply (cbor_token_decodes c (sv_signingKey s)); [by eapply NewEATClaims_text|done..].
Qed.

(** Evidence for Azure, and for a machine without a platform, is never accepted: the
    client asks the service for it with the unspecified platform, and the service answers
    with a sample that it makes from the request and calls NoCC. *)
Theorem azure_evidence_rejected (s : service Priv) now spare call reportData nonce p token h path expected :
  p = Azure \/ p = NoCC ->
  sv_eatFormat s = "CBOR" -> ValidString (sv_eatIssuer s) = true ->
  clientGetAttestation s now spare call reportData nonce p = Ok token ->
  VerifyEvidence h path token expected <> None.
Proof.
  intros Hp Hf Hi Ht (_ & c0 & Hc0 & _ & Hb & _)%VerifyEvidence_None. revert Ht.
  unfold clientGetAttestation, overGRPC. destruct call; [done|].
  assert (protoPlatform p = PLATFORM_TYPE_UNSPECIFIED) as -> by (by destruct Hp as [->| ->]).
  destruct (FetchAttestation s now spare _) as [r|] eqn:E; [|done]. intros ->.
  apply FetchAttestation_claims in E as (report & q & c & Er & Hc & _ & Hn & _); [|done..].
  cbn in Er. injection Er as _ <-. rewrite Hc0 in Hc. injection Hc as <-. by rewrite Hn in Hb.
Qed.
End tokens.

(** ** Evidence of the SEV-SNP provider *)

Section honest.
Context {Pub Priv : Type} `{OS, SevLib, TpmLib, EvidenceLib, !TeeLaws, EatLaws Pub Priv, ReportAbi}.

Lemma fetchSEV_made h data vmpl b :
  length data = SEVNonce -> fetchSEVAttestation h data vmpl = Some (Ok b) ->
  exists s, marshalSevSnp s = Ok b /\ unmarshalSevSnp b = Ok s /\ reportDataOf s data.
Proof.
  intros Hl. unfold fetchSEVAttestation. rewrite copyN_exact by done.
  destruct (getLeveledQuoteProvider h); [done|].
  destruct (getQuoteProtoAtLevel h data vmpl) as [q|] eqn:Eq; [|done].
  destruct (sa_Product q) as [product|]; [|done]. cbn [mbind option_bind].
  destruct (os_read h (certPath product vcekName)) as [vb|]; [|done].
  destruct (os_read h (certPath product arkAskBundleName)) as [bundle|]; [|done].
  destruct (pemNext bundle) as [ark rest]. destruct (sa_Chain q); [|done]. cbn [mbind option_bind].
  destruct (fst (pemNext vb)) as [vcek|]; [|done]. cbn [mbind option_bind].
  destruct (fst (pemNext rest)) as [ask|]; [|done]. cbn [mbind option_bind].
  destruct ark as [ark|]; [|done]. cbn [mbind option_bind].
  destruct (marshalSevSnp _) as [b'|] eqn:Em; [|done]. intros [= <-].
  eexists. split; [exact Em|]. split; [by apply sev_roundtrip|].
  apply report_data in Eq as (r & Hr & Hd). by exists r.
Qed.

(** What the SEV-SNP provider gives for the platform SNP is never accepted: it is
    a serialized [sevsnp.Attestation], while the verifier looks for the measurement in an
    [attest.Attestation]. *)
Theorem snp_tee_evidence_rejected (s : service Priv) now spare call h0 tee vmpl reportData nonce token
    h path expected :
  sv_provider s = Some (vtpmProvider h0 tee vmpl) ->
  sv_eatFormat s = "CBOR" -> ValidString (sv_eatIssuer s) = true ->
  clientGetAttestation s now spare call reportData nonce SNP = Ok token ->
  VerifyEvidence h path token expected <> None.
Proof.
  intros Hp Hf Hi Ht (_ & c0 & Hc0 & _ & _ & mf & m & _ & Hm & _)%VerifyEvidence_None. revert Ht.
  unfold clientGetAttestation, overGRPC. destruct call; [done|].
  destruct (FetchAttestation s now spare _) as [r|] eqn:E; [|done]. intros ->.
  apply FetchAttestation_claims in E as (report & q & c & Er & Hc & _ & Hn & Hraw); [|done..].
  rewrite Hc0 in Hc. injection Hc as <-. rewrite Hp in Er. cbn in Er.
  destruct (fetchSEVAttestation _ _ _) as [[b|]|] eqn:Ef; [|done..]. cbn in Er.
  injection Er as -> <-. rewrite Hn in Hm. destruct Hm as (_ & a & snp & r & Ha & Hs & _).
  apply fetchSEV_made in Ef as (s' & Hs' & _ & _).
  2: apply length_copyN.
  rewrite Hraw in Ha. by rewrite (sev_no_embedded _ _ _ Hs' Ha) in Hs.
Qed.

(** The report of the combined provider: a quote over the nonce, and the SEV-SNP report over
    the report data and the attestation key. *)
Lemma Attest_made h rd nonce vmpl report :
  length nonce = NonceSize -> Attest h rd nonce true vmpl = Some (Ok report) ->
  exists a s, unmarshalAttestation report = Ok a /\ quoted a nonce /\ va_SevSnp a = Some s
    /\ reportDataOf s (sha3Sum512 (rd ++ va_AkPub a)).
Proof.
  intros Hn. unfold Attest, FetchQuote. rewrite copyN_exact by done.
  destruct OpenTpm; [done|]. destruct attestationKeyRSA; [done|].
  destruct getEventLog as [log|]; [|done].
  destruct (akAttest nonce log) as [a|] eqn:Ea; [|done]. unfold addTEEAttestation.
  destruct (fetchSEVAttestation _ _ _) as [[raw|]|] eqn:Ef; [|done..]. cbn [mbind option_bind].
  apply fetchSEV_made in Ef as (s & _ & Hu & Hd); [|apply sha3_length]. rewrite Hu.
  cbn [mbind option_bind]. unfold marshalQuote.
  destruct (marshalAttestation _) as [out|] eqn:Em; [|done]. intros [= <-].
  apply attestation_roundtrip in Em. exists (setSevSnp s a), s.
  split_and!; [done|by apply quote_nonce in Ea|done..].
Qed.

(** When the platform is SNP-vTPM, only the measurement decides about honest evidence. *)
Lemma honest_evidence_decided (s : service Priv) now spare call h0 vmpl rd nonce token h path expected :
  sv_provider s = Some (vtpmProvider h0 true vmpl) ->
  sv_eatFormat s = "CBOR" -> ValidString (sv_eatIssuer s) = true ->
  length rd = SEVNonce -> length nonce = NonceSize ->
  eb_ReportData expected = rd -> eb_Nonce expected = nonce ->
  clientGetAttestation s now spare call rd nonce SNPvTPM = Ok token ->
  exists report, Attest h0 rd nonce true vmpl = Some (Ok report)
    /\ (VerifyEvidence h path token expected = None <->
        path <> "" /\ exists mf m, loadCoRIM h path = Ok mf /\ measured SNPvTPM report m
                             /\ hit m (references SNPvTPM mf)).
Proof.
  intros Hp Hf Hi Hrd Hn Erd En. unfold clientGetAttestation, overGRPC. destruct call; [done|].
  destruct (FetchAttestation s now spare _) as [r|] eqn:E; [|done]. intros ->.
  apply FetchAttestation_claims in E as (report & q & c & Er & Hc & Hcn & Hname & Hraw); [|done..].
  rewrite Hp in Er. cbn in Er. rewrite !copyN_exact in Er by done.
  destruct (Attest h0 rd nonce true vmpl) as [[b|]|] eqn:Ea; [|done..]. cbn in Er.
  injection Er as -> <-. exists report. split; [done|].
  apply Attest_made in Ea as (a & snp & Ha & Hq & Hs & Hd); [|done].
  assert (Nonce c = nonce) as Hc'.
  { rewrite Hcn. cbn. destruct (Z.ltb_spec 0 (len nonce)) as [|Hz]; [done|].
    unfold len in Hz. rewrite Hn in Hz. by cbn in Hz. }
  rewrite VerifyEvidence_None, Hc. unfold claimsAccepted. split.
  - intros (Hpath & c0 & [= <-] & _ & _ & mf & m & Hl & Hm & Hh).
    rewrite Hname, platform_roundtrip, Hraw in Hm. rewrite Hname, platform_roundtrip in Hh. eauto 6.
  - intros (Hpath & mf & m & Hl & Hm & Hh). split; [done|]. exists c.
    rewrite Hname, platform_roundtrip, Hraw. split; [done|]. split; [by rewrite En|].
    split; [|by eauto]. cbn [bound]. rewrite Erd, En. by exists a, snp.
Qed.

(** A payload with evidence and the binder of the session is accepted exactly when the
    evidence is. *)
Lemma evidence_decides_payload {PubKey} `{PKIX PubKey} st label ctx (leaf : option (Certificate PubKey))
    hash e pub token media verify :
  sessionExports st label ctx hash e -> PublicKeyBytes leaf = Ok pub -> token <> [] ->
  is_Ok (VerifyPayload st label ctx leaf
           (Some (mkPayload 1 media token []
                    (mkBinder label (AIKPublicKeyHash hash pub) (BindingValue hash pub e))))
           (VerificationPolicyFromEvidenceVerifier verify)) = true
  <-> verify token (evidenceBindingOf hash pub e) = None.
Proof.
  intros Hx Hpub Hne. split.
  - destruct (VerifyPayload _ _ _ _ _ _) as [v|] eqn:Ev; [|done]. intros _.
    apply VerifyPayload_Ok in Ev as (_ & _ & h' & e' & pub' & Hx' & Hpub' & _ & _ & Hev & _).
    destruct Hx as (_ & Ah & Ee), Hx' as (_ & Ah' & Ee').
    assert (h' = hash /\ e' = e /\ pub' = pub) as (-> & -> & ->) by (split_and!; congruence).
    by destruct (Hev Hne) as (v' & [= <-] & Hv).
  - intros Hv.
    assert (VerifyPayload st label ctx leaf
      (Some (mkPayload 1 media token []
               (mkBinder label (AIKPublicKeyHash hash pub) (BindingValue hash pub e))))
      (VerificationPolicyFromEvidenceVerifier verify) = Ok (mkVerified
      (mkPayload 1 media token []
               (mkBinder label (AIKPublicKeyHash hash pub) (BindingValue hash pub e)))
      true false true label (evidenceBindingOf hash pub e))) as ->; [|done].
    apply VerifyPayload_Ok. unfold payloadAccepts. cbn. split; [by left|]. split; [by right|].
    exists hash, e, pub. do 4 (split; [done|]). split; [by exists verify|].
    split; [by intros Hn; destruct (Hn eq_refl)|]. by rewrite bool_decide_eq_true_2.
Qed.

End honest.

(** ** Witnesses *)

#[export] Instance SnpReport_eq_decision : EqDecision SnpReport.
Proof. solve_decision. Defined.
#[export] Instance CertificateChain_eq_decision : EqDecision CertificateChain.
Proof. solve_decision. Defined.
#[export] Instance SnpAttestation_eq_decision : EqDecision SnpAttestation.
Proof. solve_decision. Defined.
#[export] Instance TpmQuote_eq_decision : EqDecision TpmQuote.
Proof. solve_decision. Defined.
#[export] Instance Attestation_eq_decision : EqDecision Attestation.
Proof. solve_decision. Defined.

(** A machine whose device answers for one session, the one of [EaAttestation.Sample]. *)
Module MachineSample.
Import EaAttestation.Sample.
Definition nonce : list byte := Sum256 exported.
Definition digest : list byte := replicate 64 x05.
Definition measurement : list byte := replicate 48 x07.
Definition akPub : list byte := [x0e].
Definition report (data : list byte) : SnpReport :=
  mkSnpReport 2 0 [] [] 0 1 3 0 data measurement [] [x0f] 4 0 0 [x55].
Definition quoteProto (data : list byte) : SnpAttestation :=
  mkSnpAttestation (Some (report data)) (Some (mkChain [] [] [])) (Some 1).
Definition chain : CertificateChain := mkChain [xa1] [xa2; xa2] [xa3].
Definition attached : SnpAttestation :=
  mkSnpAttestation (Some (report digest)) (Some (mkChain [xa1] [xa3] [xa2; xa2])) (Some 1).
Definition attestation : Attestation :=
  mkAttestation akPub [mkTpmQuote nonce [x66]] [] (Some attached).
Definition snpBytes : list byte := replicate 1184 x03.
Definition attestationBytes : list byte := replicate 1184 x02.

(** A block is its length in unary and its bytes. *)
Fixpoint lead (b : list byte) : option (nat * list byte) :=
  match b with
  | x00 :: t => Some (O, t)
  | x01 :: t => match lead t with Some (n, t) => Some (S n, t) | None => None end
  | _ => None
  end.
Definition block (der : list byte) : list byte := replicate (length der) x01 ++ x00 :: der.

Lemma lead_block n l : lead (replicate n x01 ++ x00 :: l) = Some (n, l).
Proof. induction n as [|n IH]; [done|]. cbn [replicate app lead]. by rewrite IH. Qed.

#[global] Instance sev : SevLib := {|
  getLeveledQuoteProvider _ := None;
  getQuoteProtoAtLevel _ d _ := Ok (quoteProto d);
  randRead _ n := Ok (replicate n x00);
  getAttestationFromReport _ r p := Ok (mkSnpAttestation r (Some chain) p);
  homePath := "/root";
  pemNext b := match lead b with Some (n, t) => (Some (take n t), drop n t) | None => (None, b) end;
  pemCertificate := block;
  parseCertificate _ := None;
  marshalSevSnp s := if bool_decide (s = attached) then Ok snpBytes else Err (ErrNew "proto") |}.

#[global] Instance tpm : TpmLib := {|
  externalTPM := false; openTPM _ := None; isNotExist _ := false; attestationKeyRSA := None;
  getEventLog := Ok []; akAttest n _ := Ok (mkAttestation akPub [mkTpmQuote n [x66]] [] None);
  marshalAttestation a :=
    if bool_decide (a = attestation) then Ok attestationBytes else Err (ErrNew "proto");
  pcrExtend _ _ := None; readPCR _ _ := Ok []; dummyTPM := false;
  sha3Sum256 _ := []; sha3Sum384 _ := [] |}.

#[global] Instance lib : EvidenceLib := {|
  unmarshalAttestation b :=
    if bool_decide (b = attestationBytes) then Ok attestation else Err (ErrNew "proto");
  unmarshalSevSnp b := if bool_decide (b = snpBytes) then Ok attached else Err (ErrNew "proto");
  decodeAttestationData := Ok;
  sha3Sum512 _ := digest;
  comidTag := [xd9];
  corimFromCOSE _ := None;
  corimFromCBOR _ := Ok (mkManifest [[xd9]]);
  comidFromCBOR _ := Ok (mkComidDoc (Some [mkTriple [Some [(7, measurement)]]]));
  measurementsValid _ := None; tripleValid _ := None |}.

#[global] Instance teeLaws : TeeLaws.
Proof.
  split.
  - intros n log a [= <-]. exists (mkTpmQuote n [x66]). split; [constructor|done].
  - intros h d v q [= <-]. by exists (report d).
  - intros s b. cbn. case_bool_decide as E; [|done]. intros [= <-]. rewrite E.
    by rewrite bool_decide_eq_true_2.
  - intros a b. cbn. case_bool_decide as E; [|done]. intros [= <-]. rewrite E.
    by rewrite bool_decide_eq_true_2.
  - intros s b a. cbn. case_bool_decide as E; [|done]. intros [= <-].
    by rewrite bool_decide_eq_false_2.
  - done.
  - intros der rest. cbn. unfold block. rewrite <- app_assoc. cbn [app].
    by rewrite lead_block, take_app_length, drop_app_length.
Qed.

(** The files of the certificates. *)
#[global] Instance os : OS := {|
  os_act := fun _ _ => None; os_stat := fun _ _ => Ok 0;
  os_read := fun _ p =>
    if bool_decide (p = certPath 1 vcekName) then Ok (derToPem (cc_Vcek chain))
    else if bool_decide (p = certPath 1 arkAskBundleName)
    then Ok (derToPem (cc_Ask chain) ++ derToPem (cc_Ark chain)) else Ok [];
  os_walk := fun _ _ => Ok []; os_glob := fun _ _ => Ok []; os_getwd := fun _ => Ok "/" |}.

#[global] Instance abi : ReportAbi := {|
  ReportToProto _ := Ok (report digest); QuoteToProto _ := Err (ErrNew "abi") |}.

Definition now : Time := timeUnix 1700000000.
Definition issuer : string := "attestation-service".
(** The claims the service makes of a report. *)
Definition claimsOf (report nonce : list byte) (p : PlatformType) : EATClaims :=
  match NewEATClaims report [] nonce p with
  | Some (Ok c) => stamp issuer now c
  | _ => emptyClaims
  end.
Definition text : list byte := [x0a].
Definition machine : service unit := mkService (Some (vtpmProvider [] true 2)) tt "CBOR" issuer.

Lemma cached_chain_swapped_witness : fetchSEVAttestation [] digest 2 = Some (Ok snpBytes).
Proof.
  etrans; [apply (cached_chain_swapped [] digest 2 (quoteProto digest) 1 chain); by vm_compute|].
  by vm_compute.
Defined.
End MachineSample.

Module AzureSample.
Import MachineSample.
Definition known : EATClaims := claimsOf (copyN 64 digest ++ copyN 32 nonce) nonce NoCC.
#[local] Instance codec : EatCodec unit unit := OneToken.codec known text issuer.
#[local] Instance laws : EatLaws unit unit := OneToken.laws known text issuer.

Lemma azure_evidence_rejected_witness :
  clientGetAttestation machine now [] None digest nonce Azure = Ok (xd2 :: text)
  /\ VerifyEvidence [] "policy.corim" (xd2 :: text) (mkEvidenceBinding digest nonce [] []) <> None.
Proof.
  assert (clientGetAttestation machine now [] None digest nonce Azure = Ok (xd2 :: text)) as H
    by (by vm_compute).
  split; [exact H|].
  by apply (azure_evidence_rejected machine now [] None digest nonce Azure); [left|..].
Defined.
End AzureSample.

Module SnpSample.
Import MachineSample.
Definition known : EATClaims := claimsOf snpBytes nonce SNP.
#[local] Instance codec : EatCodec unit unit := OneToken.codec known text issuer.
#[local] Instance laws : EatLaws unit unit := OneToken.laws known text issuer.

Lemma snp_tee_evidence_rejected_witness :
  clientGetAttestation machine now [] None digest nonce SNP = Ok (xd2 :: text)
  /\ VerifyEvidence [] "policy.corim" (xd2 :: text) (mkEvidenceBinding digest nonce [] []) <> None.
Proof.
  assert (clientGetAttestation machine now [] None digest nonce SNP = Ok (xd2 :: text)) as H
    by (by vm_compute).
  split; [exact H|]. by apply (snp_tee_evidence_rejected machine now [] None [] true 2 digest nonce).
Defined.
End SnpSample.

Module HonestSample.
Import MachineSample.
Definition known : EATClaims := claimsOf attestationBytes nonce SNPvTPM.
#[local] Instance codec : EatCodec unit unit := OneToken.codec known text issuer.
#[local] Instance laws : EatLaws unit unit := OneToken.laws known text issuer.

Definition server : leafProvider :=
  mkLeafProvider (clientGetAttestation machine now [] None) SNPvTPM.
Definition cert : Certificate string := mkX509 [] (bytesOf "spki") "key".
Definition session : ConnectionState := EaAttestation.Sample.session "s1".
Definition payload : Payload :=
  match leafPayload server session (bytesOf "ctx") cert with
  | Ok p => p
  | Err _ => EaAttestation.Sample.payload
  end.


Lemma honest_server_runs :
  is_Ok (VerifyPayload session ExporterLabelAttestation (bytesOf "ctx") (Some cert) (Some payload)
           (VerificationPolicyFromEvidenceVerifier (VerifyEvidence [] "policy.corim"))) = true.
Proof. by vm_compute. Qed.
End HonestSample.
