(* ===== verification/Aes.v ===== *)
(** * AES and its Galois/Counter mode

    [crypto/aes] and [cipher.NewGCM] of the Go standard library, as executable functions
    on [list byte]: the cipher of FIPS 197 for keys of 16, 24 and 32 bytes, and the
    authenticated mode of NIST SP 800-38D with a nonce of 12 and a tag of 16 bytes.
    Decryption is proved to invert encryption and the other way around.  The published
    test vectors are checked below. *)

From stdpp Require Import base list strings.
From Stdlib Require Import ZArith Lia Strings.Byte.
From AAC_tactics Require Import AAC.
From S2P Require Import Prelude GoStrings Sha2.

(** ** Bytes under exclusive or *)

(** The bits of a byte, least significant first. *)
Definition bxor (a b : byte) : byte :=
  let '(a0, (a1, (a2, (a3, (a4, (a5, (a6, a7))))))) := Byte.to_bits a in
  let '(b0, (b1, (b2, (b3, (b4, (b5, (b6, b7))))))) := Byte.to_bits b in
  Byte.of_bits (xorb a0 b0, (xorb a1 b1, (xorb a2 b2, (xorb a3 b3,
               (xorb a4 b4, (xorb a5 b5, (xorb a6 b6, xorb a7 b7))))))).

(** The product with x in the field of FIPS 197, modulo x^8 + x^4 + x^3 + x + 1. *)
Definition xtime (a : byte) : byte :=
  let '(a0, (a1, (a2, (a3, (a4, (a5, (a6, a7))))))) := Byte.to_bits a in
  Byte.of_bits (a7, (xorb a0 a7, (a1, (xorb a2 a7, (xorb a3 a7, (a4, (a5, a6))))))).

Definition mul3 (a : byte) : byte := bxor (xtime a) a.
Definition mul9 (a : byte) : byte := bxor (xtime (xtime (xtime a))) a.
Definition mul11 (a : byte) : byte := bxor (mul9 a) (xtime a).
Definition mul13 (a : byte) : byte := bxor (mul9 a) (xtime (xtime a)).
Definition mul14 (a : byte) : byte := bxor (xtime (xtime (xtime a))) (bxor (xtime (xtime a)) (xtime a)).

(** [subtle.XORBytes]: as many bytes as the shorter operand has. *)
Definition xorBytes (a b : list byte) : list byte := zip_with bxor a b.

(** ** The cipher *)

Definition sbox (b : byte) : byte :=
  match b with
  | x00 => x63 | x01 => x7c | x02 => x77 | x03 => x7b | x04 => xf2 | x05 => x6b | x06 => x6f | x07 => xc5
  | x08 => x30 | x09 => x01 | x0a => x67 | x0b => x2b | x0c => xfe | x0d => xd7 | x0e => xab | x0f => x76
  | x10 => xca | x11 => x82 | x12 => xc9 | x13 => x7d | x14 => xfa | x15 => x59 | x16 => x47 | x17 => xf0
  | x18 => xad | x19 => xd4 | x1a => xa2 | x1b => xaf | x1c => x9c | x1d => xa4 | x1e => x72 | x1f => xc0
  | x20 => xb7 | x21 => xfd | x22 => x93 | x23 => x26 | x24 => x36 | x25 => x3f | x26 => xf7 | x27 => xcc
  | x28 => x34 | x29 => xa5 | x2a => xe5 | x2b => xf1 | x2c => x71 | x2d => xd8 | x2e => x31 | x2f => x15
  | x30 => x04 | x31 => xc7 | x32 => x23 | x33 => xc3 | x34 => x18 | x35 => x96 | x36 => x05 | x37 => x9a
  | x38 => x07 | x39 => x12 | x3a => x80 | x3b => xe2 | x3c => xeb | x3d => x27 | x3e => xb2 | x3f => x75
  | x40 => x09 | x41 => x83 | x42 => x2c | x43 => x1a | x44 => x1b | x45 => x6e | x46 => x5a | x47 => xa0
  | x48 => x52 | x49 => x3b | x4a => xd6 | x4b => xb3 | x4c => x29 | x4d => xe3 | x4e => x2f | x4f => x84
  | x50 => x53 | x51 => xd1 | x52 => x00 | x53 => xed | x54 => x20 | x55 => xfc | x56 => xb1 | x57 => x5b
  | x58 => x6a | x59 => xcb | x5a => xbe | x5b => x39 | x5c => x4a | x5d => x4c | x5e => x58 | x5f => xcf
  | x60 => xd0 | x61 => xef | x62 => xaa | x63 => xfb | x64 => x43 | x65 => x4d | x66 => x33 | x67 => x85
  | x68 => x45 | x69 => xf9 | x6a => x02 | x6b => x7f | x6c => x50 | x6d => x3c | x6e => x9f | x6f => xa8
  | x70 => x51 | x71 => xa3 | x72 => x40 | x73 => x8f | x74 => x92 | x75 => x9d | x76 => x38 | x77 => xf5
  | x78 => xbc | x79 => xb6 | x7a => xda | x7b => x21 | x7c => x10 | x7d => xff | x7e => xf3 | x7f => xd2
  | x80 => xcd | x81 => x0c | x82 => x13 | x83 => xec | x84 => x5f | x85 => x97 | x86 => x44 | x87 => x17
  | x88 => xc4 | x89 => xa7 | x8a => x7e | x8b => x3d | x8c => x64 | x8d => x5d | x8e => x19 | x8f => x73
  | x90 => x60 | x91 => x81 | x92 => x4f | x93 => xdc | x94 => x22 | x95 => x2a | x96 => x90 | x97 => x88
  | x98 => x46 | x99 => xee | x9a => xb8 | x9b => x14 | x9c => xde | x9d => x5e | x9e => x0b | x9f => xdb
  | xa0 => xe0 | xa1 => x32 | xa2 => x3a | xa3 => x0a | xa4 => x49 | xa5 => x06 | xa6 => x24 | xa7 => x5c
  | xa8 => xc2 | xa9 => xd3 | xaa => xac | xab => x62 | xac => x91 | xad => x95 | xae => xe4 | xaf => x79
  | xb0 => xe7 | xb1 => xc8 | xb2 => x37 | xb3 => x6d | xb4 => x8d | xb5 => xd5 | xb6 => x4e | xb7 => xa9
  | xb8 => x6c | xb9 => x56 | xba => xf4 | xbb => xea | xbc => x65 | xbd => x7a | xbe => xae | xbf => x08
  | xc0 => xba | xc1 => x78 | xc2 => x25 | xc3 => x2e | xc4 => x1c | xc5 => xa6 | xc6 => xb4 | xc7 => xc6
  | xc8 => xe8 | xc9 => xdd | xca => x74 | xcb => x1f | xcc => x4b | xcd => xbd | xce => x8b | xcf => x8a
  | xd0 => x70 | xd1 => x3e | xd2 => xb5 | xd3 => x66 | xd4 => x48 | xd5 => x03 | xd6 => xf6 | xd7 => x0e
  | xd8 => x61 | xd9 => x35 | xda => x57 | xdb => xb9 | xdc => x86 | xdd => xc1 | xde => x1d | xdf => x9e
  | xe0 => xe1 | xe1 => xf8 | xe2 => x98 | xe3 => x11 | xe4 => x69 | xe5 => xd9 | xe6 => x8e | xe7 => x94
  | xe8 => x9b | xe9 => x1e | xea => x87 | xeb => xe9 | xec => xce | xed => x55 | xee => x28 | xef => xdf
  | xf0 => x8c | xf1 => xa1 | xf2 => x89 | xf3 => x0d | xf4 => xbf | xf5 => xe6 | xf6 => x42 | xf7 => x68
  | xf8 => x41 | xf9 => x99 | xfa => x2d | xfb => x0f | xfc => xb0 | xfd => x54 | xfe => xbb | xff => x16
  end.

Definition invSbox (b : byte) : byte :=
  match b with
  | x00 => x52 | x01 => x09 | x02 => x6a | x03 => xd5 | x04 => x30 | x05 => x36 | x06 => xa5 | x07 => x38
  | x08 => xbf | x09 => x40 | x0a => xa3 | x0b => x9e | x0c => x81 | x0d => xf3 | x0e => xd7 | x0f => xfb
  | x10 => x7c | x11 => xe3 | x12 => x39 | x13 => x82 | x14 => x9b | x15 => x2f | x16 => xff | x17 => x87
  | x18 => x34 | x19 => x8e | x1a => x43 | x1b => x44 | x1c => xc4 | x1d => xde | x1e => xe9 | x1f => xcb
  | x20 => x54 | x21 => x7b | x22 => x94 | x23 => x32 | x24 => xa6 | x25 => xc2 | x26 => x23 | x27 => x3d
  | x28 => xee | x29 => x4c | x2a => x95 | x2b => x0b | x2c => x42 | x2d => xfa | x2e => xc3 | x2f => x4e
  | x30 => x08 | x31 => x2e | x32 => xa1 | x33 => x66 | x34 => x28 | x35 => xd9 | x36 => x24 | x37 => xb2
  | x38 => x76 | x39 => x5b | x3a => xa2 | x3b => x49 | x3c => x6d | x3d => x8b | x3e => xd1 | x3f => x25
  | x40 => x72 | x41 => xf8 | x42 => xf6 | x43 => x64 | x44 => x86 | x45 => x68 | x46 => x98 | x47 => x16
  | x48 => xd4 | x49 => xa4 | x4a => x5c | x4b => xcc | x4c => x5d | x4d => x65 | x4e => xb6 | x4f => x92
  | x50 => x6c | x51 => x70 | x52 => x48 | x53 => x50 | x54 => xfd | x55 => xed | x56 => xb9 | x57 => xda
  | x58 => x5e | x59 => x15 | x5a => x46 | x5b => x57 | x5c => xa7 | x5d => x8d | x5e => x9d | x5f => x84
  | x60 => x90 | x61 => xd8 | x62 => xab | x63 => x00 | x64 => x8c | x65 => xbc | x66 => xd3 | x67 => x0a
  | x68 => xf7 | x69 => xe4 | x6a => x58 | x6b => x05 | x6c => xb8 | x6d => xb3 | x6e => x45 | x6f => x06
  | x70 => xd0 | x71 => x2c | x72 => x1e | x73 => x8f | x74 => xca | x75 => x3f | x76 => x0f | x77 => x02
  | x78 => xc1 | x79 => xaf | x7a => xbd | x7b => x03 | x7c => x01 | x7d => x13 | x7e => x8a | x7f => x6b
  | x80 => x3a | x81 => x91 | x82 => x11 | x83 => x41 | x84 => x4f | x85 => x67 | x86 => xdc | x87 => xea
  | x88 => x97 | x89 => xf2 | x8a => xcf | x8b => xce | x8c => xf0 | x8d => xb4 | x8e => xe6 | x8f => x73
  | x90 => x96 | x91 => xac | x92 => x74 | x93 => x22 | x94 => xe7 | x95 => xad | x96 => x35 | x97 => x85
  | x98 => xe2 | x99 => xf9 | x9a => x37 | x9b => xe8 | x9c => x1c | x9d => x75 | x9e => xdf | x9f => x6e
  | xa0 => x47 | xa1 => xf1 | xa2 => x1a | xa3 => x71 | xa4 => x1d | xa5 => x29 | xa6 => xc5 | xa7 => x89
  | xa8 => x6f | xa9 => xb7 | xaa => x62 | xab => x0e | xac => xaa | xad => x18 | xae => xbe | xaf => x1b
  | xb0 => xfc | xb1 => x56 | xb2 => x3e | xb3 => x4b | xb4 => xc6 | xb5 => xd2 | xb6 => x79 | xb7 => x20
  | xb8 => x9a | xb9 => xdb | xba => xc0 | xbb => xfe | xbc => x78 | xbd => xcd | xbe => x5a | xbf => xf4
  | xc0 => x1f | xc1 => xdd | xc2 => xa8 | xc3 => x33 | xc4 => x88 | xc5 => x07 | xc6 => xc7 | xc7 => x31
  | xc8 => xb1 | xc9 => x12 | xca => x10 | xcb => x59 | xcc => x27 | xcd => x80 | xce => xec | xcf => x5f
  | xd0 => x60 | xd1 => x51 | xd2 => x7f | xd3 => xa9 | xd4 => x19 | xd5 => xb5 | xd6 => x4a | xd7 => x0d
  | xd8 => x2d | xd9 => xe5 | xda => x7a | xdb => x9f | xdc => x93 | xdd => xc9 | xde => x9c | xdf => xef
  | xe0 => xa0 | xe1 => xe0 | xe2 => x3b | xe3 => x4d | xe4 => xae | xe5 => x2a | xe6 => xf5 | xe7 => xb0
  | xe8 => xc8 | xe9 => xeb | xea => xbb | xeb => x3c | xec => x83 | xed => x53 | xee => x99 | xef => x61
  | xf0 => x17 | xf1 => x2b | xf2 => x04 | xf3 => x7e | xf4 => xba | xf5 => x77 | xf6 => xd6 | xf7 => x26
  | xf8 => xe1 | xf9 => x69 | xfa => x14 | xfb => x63 | xfc => x55 | xfd => x21 | xfe => x0c | xff => x7d
  end.

Definition subBytes : list byte -> list byte := map sbox.
Definition invSubBytes : list byte -> list byte := map invSbox.

(** The state holds its columns one after the other: row r of column c is at r + 4c, and
    comes from column c + r. *)
Definition permute (k : nat) (s : list byte) : list byte :=
  map (fun i => nth ((k * i) mod 16) s x00) (seq 0 16).
Definition shiftRows : list byte -> list byte := permute 5.
Definition invShiftRows : list byte -> list byte := permute 13.

Definition mixByte (a b c d : byte) : byte := bxor (bxor (xtime a) (mul3 b)) (bxor c d).
Definition invMixByte (a b c d : byte) : byte :=
  bxor (bxor (mul14 a) (mul11 b)) (bxor (mul13 c) (mul9 d)).

(** The coefficients of a row are those of the one above, turned by one. *)
Fixpoint columns (f : byte -> byte -> byte -> byte -> byte) (s : list byte) : list byte :=
  match s with
  | a :: b :: c :: d :: t => f a b c d :: f b c d a :: f c d a b :: f d a b c :: columns f t
  | _ => s
  end.
Definition mixColumns : list byte -> list byte := columns mixByte.
Definition invMixColumns : list byte -> list byte := columns invMixByte.

(** The words of the key schedule, last word first. *)
Definition nextKeyWord (nk i : nat) (ws : list (list byte)) : list byte :=
  let temp := nth 0 ws [] in
  let t := if (i mod nk =? 0)%nat
           then xorBytes (subBytes (skipn 1 temp ++ firstn 1 temp))
                  [Nat.iter (i / nk - 1) xtime x01; x00; x00; x00]
           else if (6 <? nk)%nat && (i mod nk =? 4)%nat then subBytes temp else temp in
  xorBytes (nth (nk - 1) ws []) t.

Fixpoint expandWords (nk i n : nat) (ws : list (list byte)) : list (list byte) :=
  match n with
  | O => ws
  | S n' => expandWords nk (S i) n' (nextKeyWord nk i ws :: ws)
  end.

Definition keyWords (key : list byte) : list (list byte) :=
  let nk := (length key / 4)%nat in
  rev (expandWords nk nk (4 * (nk + 7) - nk) (rev (chunks 4 key))).

Fixpoint roundKeysOf (ws : list (list byte)) : list (list byte) :=
  match ws with
  | a :: b :: c :: d :: t => (a ++ b ++ c ++ d) :: roundKeysOf t
  | _ => []
  end.
(** The first round key and the others. *)
Definition roundKeys (key : list byte) : list (list byte) := roundKeysOf (keyWords key).

Fixpoint encRounds (ks : list (list byte)) (s : list byte) : list byte :=
  match ks with
  | [] => s
  | [k] => xorBytes (shiftRows (subBytes s)) k
  | k :: ks' => encRounds ks' (xorBytes (mixColumns (shiftRows (subBytes s))) k)
  end.
Fixpoint decRounds (ks : list (list byte)) (s : list byte) : list byte :=
  match ks with
  | [] => s
  | [k] => invSubBytes (invShiftRows (xorBytes s k))
  | k :: ks' => invSubBytes (invShiftRows (invMixColumns (xorBytes (decRounds ks' s) k)))
  end.

(** [block.Encrypt] and [block.Decrypt] on one block. *)
Definition aesEncrypt (key b : list byte) : list byte :=
  match roundKeys key with [] => b | k :: ks => encRounds ks (xorBytes b k) end.
Definition aesDecrypt (key b : list byte) : list byte :=
  match roundKeys key with [] => b | k :: ks => xorBytes (decRounds ks b) k end.

(** [aes.NewCipher] refuses every other length. *)
Definition aesKeySize (key : list byte) : bool :=
  (len key =? 16) || (len key =? 24) || (len key =? 32).

(** ** Galois/Counter mode *)

Definition zeroBlock : list byte := replicate 16 x00.

(** The product of the field of SP 800-38D, on blocks as 128-bit words. *)
Fixpoint gfMul (i : nat) (x z v : Z) : Z :=
  match i with
  | O => z
  | S i' =>
      let z' := if Z.testbit x (Z.of_nat i') then Z.lxor z v else z in
      let v' := if Z.testbit v 0 then Z.lxor (Z.shiftr v 1) (Z.shiftl 0xe1 120)
                else Z.shiftr v 1 in
      gfMul i' x z' v'
  end.

Definition padBlock (b : list byte) : list byte := b ++ replicate (16 - length b) x00.

Definition ghash (h : Z) (data : list (list byte)) : Z :=
  fold_left (fun y b => gfMul 128 (Z.lxor y (wordOf (padBlock b))) 0 h) data 0.

Definition counterBlock (iv : list byte) (n : Z) : list byte := iv ++ bytesOfWord 4 n.

(** The blocks of [data] under the key stream from counter [n] on. *)
Fixpoint gcmCrypt (key iv : list byte) (n : Z) (data : list (list byte)) : list byte :=
  match data with
  | [] => []
  | b :: t => xorBytes b (aesEncrypt key (counterBlock iv n)) ++ gcmCrypt key iv (n + 1) t
  end.

Definition gcmTag (key iv ciphertext aad : list byte) : list byte :=
  let h := wordOf (aesEncrypt key zeroBlock) in
  let lengths := bytesOfWord 8 (8 * len aad) ++ bytesOfWord 8 (8 * len ciphertext) in
  xorBytes (bytesOfWord 16 (ghash h (chunks 16 aad ++ chunks 16 ciphertext ++ [lengths])))
    (aesEncrypt key (counterBlock iv 1)).

(** [Seal] of the mode, the reference for [Open]. *)
Definition gcmSeal (key iv plaintext aad : list byte) : list byte :=
  let ciphertext := gcmCrypt key iv 2 (chunks 16 plaintext) in
  ciphertext ++ gcmTag key iv ciphertext aad.

Definition gcmTagSize : Z := 16.
Definition gcmNonceSize : Z := 12.
Definition gcmMaxSize : Z := (2 ^ 32 - 2) * 16.

(** [aesgcm.Open]: the inner [None] is [errOpen], the outer one the panic for a nonce of
    another length. *)
Definition gcmOpen (key iv sealed aad : list byte) : option (option (list byte)) :=
  if negb (len iv =? gcmNonceSize) then None
  else if len sealed <? gcmTagSize then Some None
  else if gcmMaxSize + gcmTagSize <? len sealed then Some None
  else
    let ciphertext := sliceTo (len sealed - gcmTagSize) sealed in
    let tag := sliceFrom (len sealed - gcmTagSize) sealed in
    if bool_decide (gcmTag key iv ciphertext aad = tag)
    then Some (Some (gcmCrypt key iv 2 (chunks 16 ciphertext)))
    else Some None.

(** ** Exclusive or is a commutative group of exponent two *)

Lemma bxor_comm a b : bxor a b = bxor b a.
Proof.
  unfold bxor. destruct (Byte.to_bits a) as (a0&a1&a2&a3&a4&a5&a6&a7), (Byte.to_bits b) as (b0&b1&b2&b3&b4&b5&b6&b7).
  by rewrite (xorb_comm a0), (xorb_comm a1), (xorb_comm a2), (xorb_comm a3), (xorb_comm a4),
    (xorb_comm a5), (xorb_comm a6), (xorb_comm a7).
Qed.
Lemma bxor_assoc a b c : bxor a (bxor b c) = bxor (bxor a b) c.
Proof.
  unfold bxor. destruct (Byte.to_bits a) as (a0&a1&a2&a3&a4&a5&a6&a7), (Byte.to_bits b) as (b0&b1&b2&b3&b4&b5&b6&b7),
    (Byte.to_bits c) as (c0&c1&c2&c3&c4&c5&c6&c7).
  rewrite !Byte.to_bits_of_bits. by rewrite !xorb_assoc.
Qed.
Lemma bxor_0 a : bxor a x00 = a.
Proof. by destruct a. Qed.
Lemma bxor_self a : bxor a a = x00.
Proof. by destruct a. Qed.
Lemma bxor_cancel a b : bxor (bxor a b) b = a.
Proof. by rewrite <- bxor_assoc, bxor_self, bxor_0. Qed.

#[local] Instance bxor_Assoc : Associative eq bxor := bxor_assoc.
#[local] Instance bxor_Comm : Commutative eq bxor := bxor_comm.
#[local] Instance byte_lift : AAC_lift (@eq byte) (@eq byte).
Proof. constructor; typeclasses eauto. Qed.

Lemma xtime_bxor a b : xtime (bxor a b) = bxor (xtime a) (xtime b).
Proof.
  unfold bxor, xtime. destruct (Byte.to_bits a) as (a0&a1&a2&a3&a4&a5&a6&a7), (Byte.to_bits b) as (b0&b1&b2&b3&b4&b5&b6&b7).
  rewrite !Byte.to_bits_of_bits. f_equal. by destruct a0, a2, a3, a7, b0, b2, b3, b7.
Qed.

Ltac additive := intros; unfold mul14, mul13, mul11, mul9, mul3; rewrite ?xtime_bxor; aac_reflexivity.
Lemma mul3_bxor a b : mul3 (bxor a b) = bxor (mul3 a) (mul3 b).
Proof. additive. Qed.
Lemma mul9_bxor a b : mul9 (bxor a b) = bxor (mul9 a) (mul9 b).
Proof. additive. Qed.
Lemma mul11_bxor a b : mul11 (bxor a b) = bxor (mul11 a) (mul11 b).
Proof. additive. Qed.
Lemma mul13_bxor a b : mul13 (bxor a b) = bxor (mul13 a) (mul13 b).
Proof. additive. Qed.
Lemma mul14_bxor a b : mul14 (bxor a b) = bxor (mul14 a) (mul14 b).
Proof. additive. Qed.
#[local] Hint Rewrite xtime_bxor mul3_bxor mul9_bxor mul11_bxor mul13_bxor mul14_bxor : linear.

(** The product of the two matrices is the identity: its coefficients, on every byte. *)
Lemma bxor_combine e1 e2 e3 e4 x :
  e1 = x -> e2 = x00 -> e3 = x00 -> e4 = x00 -> bxor (bxor e1 e2) (bxor e3 e4) = x.
Proof. intros -> -> -> ->. by rewrite !bxor_0. Qed.

Lemma invMix_mix a b c d :
  invMixByte (mixByte a b c d) (mixByte b c d a) (mixByte c d a b) (mixByte d a b c) = a.
Proof.
  transitivity (bxor (bxor (invMixByte (xtime a) a a (mul3 a)) (invMixByte (mul3 b) (xtime b) b b))
                     (bxor (invMixByte c (mul3 c) (xtime c) c) (invMixByte d d (mul3 d) (xtime d)))).
  - unfold invMixByte, mixByte. autorewrite with linear. aac_reflexivity.
  - apply bxor_combine; [by destruct a|by destruct b|by destruct c|by destruct d].
Qed.

Lemma mix_invMix a b c d :
  mixByte (invMixByte a b c d) (invMixByte b c d a) (invMixByte c d a b) (invMixByte d a b c) = a.
Proof.
  transitivity (bxor (bxor (mixByte (mul14 a) (mul9 a) (mul13 a) (mul11 a))
                           (mixByte (mul11 b) (mul14 b) (mul9 b) (mul13 b)))
                     (bxor (mixByte (mul13 c) (mul11 c) (mul14 c) (mul9 c))
                           (mixByte (mul9 d) (mul13 d) (mul11 d) (mul14 d)))).
  - unfold invMixByte, mixByte. autorewrite with linear. aac_reflexivity.
  - apply bxor_combine; [by destruct a|by destruct b|by destruct c|by destruct d].
Qed.

(** ** The steps of a round are invertible *)

Definition isBlock (b : list byte) : Prop := length b = 16%nat.

Lemma list16 (s : list byte) : isBlock s ->
  exists a b c d e f g h i j k l m n o p, s = [a; b; c; d; e; f; g; h; i; j; k; l; m; n; o; p].
Proof.
  intros Hs. do 16 (destruct s as [|? s]; [done|]). destruct s; [|done]. by repeat eexists.
Qed.
Ltac split16 s H :=
  destruct (list16 s H) as (?&?&?&?&?&?&?&?&?&?&?&?&?&?&?&?&->).

Lemma length_xorBytes a b : length a = length b -> length (xorBytes a b) = length a.
Proof. intros E. unfold xorBytes. rewrite length_zip_with. lia. Qed.
Lemma xorBytes_cancel a b : length a = length b -> xorBytes (xorBytes a b) b = a.
Proof.
  revert b. induction a as [|x a IH]; intros [|y b]; cbn; [done..|]. intros [= E].
  unfold xorBytes in *. cbn. by rewrite bxor_cancel, IH.
Qed.

Lemma subBytes_inv s : invSubBytes (subBytes s) = s.
Proof.
  unfold invSubBytes, subBytes. rewrite map_map. etransitivity; [|apply map_id].
  apply map_ext. by intros [].
Qed.
Lemma invSubBytes_inv s : subBytes (invSubBytes s) = s.
Proof.
  unfold invSubBytes, subBytes. rewrite map_map. etransitivity; [|apply map_id].
  apply map_ext. by intros [].
Qed.

Lemma length_permute k s : length (permute k s) = 16%nat.
Proof. unfold permute. by rewrite length_map, length_seq. Qed.
Lemma shiftRows_inv s : isBlock s -> invShiftRows (shiftRows s) = s.
Proof. intros H. by split16 s H. Qed.
Lemma invShiftRows_inv s : isBlock s -> shiftRows (invShiftRows s) = s.
Proof. intros H. by split16 s H. Qed.

Lemma length_columns f s : isBlock s -> length (columns f s) = 16%nat.
Proof. intros H. by split16 s H. Qed.
Lemma mixColumns_inv s : isBlock s -> invMixColumns (mixColumns s) = s.
Proof.
  intros H. split16 s H. unfold invMixColumns, mixColumns. cbn [columns]. by rewrite !invMix_mix.
Qed.
Lemma invMixColumns_inv s : isBlock s -> mixColumns (invMixColumns s) = s.
Proof.
  intros H. split16 s H. unfold invMixColumns, mixColumns. cbn [columns]. by rewrite !mix_invMix.
Qed.

(** ** Decryption inverts encryption *)

Lemma xorBytes_block a b : isBlock a -> isBlock b -> isBlock (xorBytes a b).
Proof. unfold isBlock. intros Ha Hb. rewrite length_xorBytes; lia. Qed.
Lemma subBytes_block s : isBlock s -> isBlock (subBytes s).
Proof. unfold isBlock, subBytes. by rewrite length_map. Qed.
Lemma invSubBytes_block s : isBlock s -> isBlock (invSubBytes s).
Proof. unfold isBlock, invSubBytes. by rewrite length_map. Qed.
Lemma mixColumns_block s : isBlock s -> isBlock (mixColumns s).
Proof. apply length_columns. Qed.
Lemma invMixColumns_block s : isBlock s -> isBlock (invMixColumns s).
Proof. apply length_columns. Qed.
Lemma shiftRows_block s : isBlock (shiftRows s).
Proof. apply length_permute. Qed.
Lemma invShiftRows_block s : isBlock (invShiftRows s).
Proof. apply length_permute. Qed.
Lemma xorBytes_block_cancel a b : isBlock a -> isBlock b -> xorBytes (xorBytes a b) b = a.
Proof. unfold isBlock. intros Ha Hb. apply xorBytes_cancel. lia. Qed.
Create HintDb aes.
#[local] Hint Resolve xorBytes_block subBytes_block invSubBytes_block mixColumns_block invMixColumns_block
  shiftRows_block invShiftRows_block : aes.

Lemma encRounds_block ks s : Forall isBlock ks -> isBlock s -> isBlock (encRounds ks s).
Proof.
  intros Hk. revert s. induction Hk as [|k [|k' ks] Hk Hks IH]; intros s Hs; [done|..];
    cbn [encRounds] in *; auto 7 with aes.
Qed.
Lemma decRounds_block ks s : Forall isBlock ks -> isBlock s -> isBlock (decRounds ks s).
Proof.
  intros Hk. revert s. induction Hk as [|k [|k' ks] Hk Hks IH]; intros s Hs; [done|..];
    cbn [decRounds] in *; auto 7 with aes.
Qed.

Lemma dec_encRounds ks s : Forall isBlock ks -> isBlock s -> decRounds ks (encRounds ks s) = s.
Proof.
  intros Hk. revert s. induction Hk as [|k [|k' ks] Hk Hks IH]; intros s Hs; [done|..];
    cbn [decRounds encRounds].
  - by rewrite xorBytes_block_cancel, shiftRows_inv, subBytes_inv by auto with aes.
  - cbn [decRounds encRounds] in IH. rewrite IH by auto with aes.
    by rewrite xorBytes_block_cancel, mixColumns_inv, shiftRows_inv, subBytes_inv by auto with aes.
Qed.
Lemma enc_decRounds ks s : Forall isBlock ks -> isBlock s -> encRounds ks (decRounds ks s) = s.
Proof.
  intros Hk. revert s. induction Hk as [|k [|k' ks] Hk Hks IH]; intros s Hs; [done|..];
    cbn [decRounds encRounds].
  - by rewrite invSubBytes_inv, invShiftRows_inv, xorBytes_block_cancel by auto with aes.
  - cbn [decRounds encRounds] in IH. pose proof (decRounds_block (k' :: ks) s Hks Hs) as Hd.
    cbn [decRounds] in Hd.
    rewrite invSubBytes_inv, invShiftRows_inv, invMixColumns_inv, xorBytes_block_cancel by auto with aes.
    by apply IH.
Qed.

(** The key schedule gives whole round keys. *)
Definition isWord (w : list byte) : Prop := length w = 4%nat.

Lemma nextKeyWord_word nk i ws :
  (0 < nk <= length ws)%nat -> Forall isWord ws -> isWord (nextKeyWord nk i ws).
Proof.
  intros Hn Hw. assert (Hnth : forall j, (j < length ws)%nat -> isWord (nth j ws [])).
  { intros j Hj. rewrite List.Forall_forall in Hw. apply Hw, nth_In, Hj. }
  pose proof (Hnth O ltac:(lia)) as H0. pose proof (Hnth (nk - 1)%nat ltac:(lia)) as H1.
  unfold nextKeyWord, isWord in *. unfold xorBytes. rewrite length_zip_with.
  set (temp := nth 0 ws []) in *.
  destruct (i mod nk =? 0)%nat; [|destruct (_ && _)];
    unfold subBytes; rewrite ?length_zip_with, ?length_map, ?length_app, ?length_skipn, ?length_firstn, ?H0, ?H1; done.
Qed.

Lemma expandWords_words nk i n ws :
  (0 < nk <= length ws)%nat -> Forall isWord ws -> Forall isWord (expandWords nk i n ws).
Proof.
  revert i ws. induction n as [|n IH]; intros i ws Hn Hw; cbn; [done|]. apply IH; cbn; [lia|].
  constructor; [by apply nextKeyWord_word|done].
Qed.

Lemma length_expandWords nk i n ws : length (expandWords nk i n ws) = (n + length ws)%nat.
Proof. revert i ws. induction n as [|n IH]; intros i ws; cbn; [done|]. rewrite IH. cbn. lia. Qed.

Lemma chunksOf_words n fuel l :
  length l = (4 * n)%nat -> (length l <= fuel)%nat ->
  Forall isWord (chunksOf 4 fuel l) /\ length (chunksOf 4 fuel l) = n.
Proof.
  revert n l. induction fuel as [|f IH]; intros n l Hl Hf.
  - destruct n; [by split; [constructor|]|lia].
  - destruct n as [|n]; [by destruct l; [split; [constructor|]|]|].
    destruct l as [|a [|b [|c [|d l]]]]; cbn [length] in Hl; [lia..|]. 
    change (chunksOf 4 (S f) (a :: b :: c :: d :: l)) with ([a; b; c; d] :: chunksOf 4 f l).
    cbn [length] in *. destruct (IH n l) as [H1 H2]; [lia..|]. split; [by constructor|lia].
Qed.

Lemma roundKeysOf_blocks n ws :
  Forall isWord ws -> length ws = (4 * n)%nat ->
  Forall isBlock (roundKeysOf ws) /\ length (roundKeysOf ws) = n.
Proof.
  revert ws. induction n as [|n IH]; intros ws Hw Hl.
  - destruct ws; [by split; [constructor|]|done].
  - destruct ws as [|a [|b [|c [|d ws]]]]; cbn [length] in Hl; [lia..|].
    do 4 (apply Forall_cons in Hw as [? Hw]). cbn [length roundKeysOf] in *.
    destruct (IH ws Hw) as [Hb Hn]; [lia|]. split; [|lia]. constructor; [|done].
    unfold isBlock, isWord in *. rewrite !length_app. lia.
Qed.

Lemma aesKeySize_words key :
  aesKeySize key = true -> exists nk, (4 <= nk <= 8)%nat /\ length key = (4 * nk)%nat.
Proof.
  unfold aesKeySize, len. intros [[H|H]%orb_true_iff|H]%orb_true_iff; apply Z.eqb_eq in H;
    [exists 4%nat|exists 6%nat|exists 8%nat]; lia.
Qed.

Lemma roundKeys_blocks key :
  aesKeySize key = true -> exists k ks, roundKeys key = k :: ks /\ isBlock k /\ Forall isBlock ks.
Proof.
  intros (nk & Hn & Hk)%aesKeySize_words. unfold roundKeys, keyWords, chunks. rewrite Hk.
  replace (4 * nk / 4)%nat with nk by (rewrite Nat.mul_comm, Nat.div_mul; lia).
  destruct (chunksOf_words nk (4 * nk) key) as [Hw Hl]; [lia..|].
  set (ws := rev (expandWords _ _ _ _)). assert (Forall isWord ws /\ length ws = (4 * (nk + 7))%nat) as [Hws1 Hws2].
  { unfold ws. rewrite length_rev, length_expandWords, length_rev, Hl. split; [|lia].
    apply Forall_rev, expandWords_words; [rewrite length_rev; lia|by apply Forall_rev]. }
  destruct (roundKeysOf_blocks (nk + 7) ws Hws1 Hws2) as [Hb Hlen].
  destruct (roundKeysOf ws) as [|k ks]; [cbn in Hlen; lia|]. apply Forall_cons in Hb as [? ?]. eauto.
Qed.

(** On one block, for a key of any of the three sizes. *)
Lemma aesDecrypt_Encrypt key b :
  aesKeySize key = true -> isBlock b -> aesDecrypt key (aesEncrypt key b) = b.
Proof.
  intros (k & ks & E & Hk & Hks)%roundKeys_blocks Hb. unfold aesDecrypt, aesEncrypt. rewrite E.
  rewrite dec_encRounds by auto with aes. by apply xorBytes_block_cancel.
Qed.
Lemma aesEncrypt_Decrypt key b :
  aesKeySize key = true -> isBlock b -> aesEncrypt key (aesDecrypt key b) = b.
Proof.
  intros (k & ks & E & Hk & Hks)%roundKeys_blocks Hb. unfold aesDecrypt, aesEncrypt. rewrite E.
  rewrite xorBytes_block_cancel by auto using decRounds_block. by apply enc_decRounds.
Qed.
Lemma aesEncrypt_block key b : aesKeySize key = true -> isBlock b -> isBlock (aesEncrypt key b).
Proof.
  intros (k & ks & E & Hk & Hks)%roundKeys_blocks Hb. unfold aesEncrypt. rewrite E.
  apply encRounds_block; auto with aes.
Qed.
Lemma aesDecrypt_block key b : aesKeySize key = true -> isBlock b -> isBlock (aesDecrypt key b).
Proof.
  intros (k & ks & E & Hk & Hks)%roundKeys_blocks Hb. unfold aesDecrypt. rewrite E.
  apply xorBytes_block; auto using decRounds_block.
Qed.

(** ** Open accepts exactly what Seal makes *)

Lemma length_xorBytes_min a b : length (xorBytes a b) = Nat.min (length a) (length b).
Proof. apply length_zip_with. Qed.
Lemma xorBytes_short a b : (length a <= length b)%nat -> xorBytes (xorBytes a b) b = a.
Proof.
  revert b. induction a as [|x a IH]; intros [|y b]; cbn; [done|done|lia|]. intros Hl.
  unfold xorBytes in *. cbn. rewrite bxor_cancel, IH by lia. done.
Qed.

Section gcm.
Context (key iv : list byte) (Hkey : aesKeySize key = true) (Hiv : length iv = 12%nat).

Lemma keystream_block n : isBlock (aesEncrypt key (counterBlock iv n)).
Proof.
  apply aesEncrypt_block; [done|]. unfold isBlock, counterBlock.
  by rewrite length_app, length_bytesOfWord, Hiv.
Qed.

(** Counter mode is its own inverse and keeps the length. *)
Lemma gcmCrypt_involutive m n data :
  (length data <= m)%nat ->
  length (gcmCrypt key iv n (chunks 16 data)) = length data
  /\ gcmCrypt key iv n (chunks 16 (gcmCrypt key iv n (chunks 16 data))) = data.
Proof.
  revert n data. induction m as [|m IH]; intros n data Hm; [by destruct data; [|cbn in Hm; lia]|].
  pose proof (keystream_block n) as Hb. unfold isBlock in Hb.
  destruct (Nat.ltb_spec 16 (length data)) as [Hl|Hl].
  - rewrite (chunks_long 16 data) by lia. cbn [gcmCrypt].
    destruct (IH (n + 1) (skipn 16 data)) as [IH1 IH2]; [rewrite length_skipn; lia|].
    set (b := xorBytes (firstn 16 data) _). set (t := gcmCrypt key iv (n + 1) (chunks 16 (skipn 16 data))) in *.
    assert (Hb16 : length b = 16%nat) by (unfold b; rewrite length_xorBytes_min, length_firstn; lia).
    assert (Ht : (0 < length t)%nat) by (rewrite IH1, length_skipn; lia).
    rewrite length_app, Hb16, IH1, length_skipn. split; [lia|].
    rewrite (chunks_long 16 (b ++ t)) by (rewrite ?length_app; lia). cbn [gcmCrypt].
    rewrite (take_app_length' b t 16) by done. rewrite (drop_app_length' b t 16) by done. rewrite IH2.
    unfold b. rewrite xorBytes_short by (rewrite length_firstn; lia). apply take_drop.
  - destruct data as [|x data]; [done|]. rewrite (chunks_short 16 (x :: data)) by (cbn in *; lia).
    cbn [gcmCrypt]. rewrite app_nil_r. set (b := xorBytes (x :: data) _).
    assert (Hl' : length b = length (x :: data)) by (unfold b; rewrite length_xorBytes_min; lia).
    split; [done|]. rewrite (chunks_short 16 b) by (rewrite Hl'; cbn in *; lia). cbn [gcmCrypt].
    rewrite app_nil_r. unfold b. apply xorBytes_short. lia.
Qed.
Lemma gcmCrypt_length n data : length (gcmCrypt key iv n (chunks 16 data)) = length data.
Proof. by apply (gcmCrypt_involutive (length data)). Qed.
Lemma gcmCrypt_twice n data :
  gcmCrypt key iv n (chunks 16 (gcmCrypt key iv n (chunks 16 data))) = data.
Proof. by apply (gcmCrypt_involutive (length data)). Qed.

Lemma length_gcmTag c aad : length (gcmTag key iv c aad) = 16%nat.
Proof.
  unfold gcmTag. rewrite length_xorBytes_min, length_bytesOfWord.
  pose proof (keystream_block 1) as Hb. unfold isBlock in Hb. lia.
Qed.

Lemma gcmOpen_decides sealed aad p :
  gcmOpen key iv sealed aad = Some (Some p) <-> sealed = gcmSeal key iv p aad /\ len p <= gcmMaxSize.
Proof.
  assert (Hn : len iv =? gcmNonceSize = true) by (apply Z.eqb_eq; unfold len; by rewrite Hiv).
  unfold gcmOpen. rewrite Hn. cbn [negb]. split.
  - destruct (Z.ltb_spec (len sealed) gcmTagSize); [done|].
    destruct (Z.ltb_spec (gcmMaxSize + gcmTagSize) (len sealed)); [done|].
    case_bool_decide as Ht; [|done]. intros [= <-]. unfold gcmSeal. rewrite gcmCrypt_twice, Ht.
    unfold sliceTo, sliceFrom. rewrite take_drop. split; [done|].
    unfold len in *. rewrite gcmCrypt_length. unfold gcmTagSize in *. rewrite length_take. lia.
  - intros [-> Hp]. unfold gcmSeal. set (c := gcmCrypt key iv 2 (chunks 16 p)).
    assert (Hc : len c = len p) by (unfold len, c; by rewrite gcmCrypt_length).
    assert (Hl : len (c ++ gcmTag key iv c aad) = len c + gcmTagSize)
      by (rewrite len_app; unfold len at 2; by rewrite length_gcmTag).
    rewrite Hl, Hc. pose proof (len_nonneg p) as Hpos.
    rewrite (proj2 (Z.ltb_ge _ _)) by (unfold gcmTagSize; lia).
    rewrite (proj2 (Z.ltb_ge _ _)) by lia.
    replace (len p + gcmTagSize - gcmTagSize) with (len c) by lia.
    rewrite sliceTo_app_exact, sliceFrom_app_exact, bool_decide_eq_true_2 by done.
    unfold c. by rewrite gcmCrypt_twice.
Qed.
End gcm.

(** ** Published test vectors *)

(** FIPS 197, appendix C. *)
Definition countUp (n : nat) (step : Z) : list byte := map (fun i => toByte (step * Z.of_nat i)) (seq 0 n).

Example aes128_vector :
  hexEncode (aesEncrypt (countUp 16 1) (countUp 16 17)) = "69c4e0d86a7b0430d8cdb78070b4c55a".
Proof. vm_compute. reflexivity. Qed.
Example aes192_vector :
  hexEncode (aesEncrypt (countUp 24 1) (countUp 16 17)) = "dda97ca4864cdfe06eaf70a0ec0d7191".
Proof. vm_compute. reflexivity. Qed.
Example aes256_vector :
  hexEncode (aesEncrypt (countUp 32 1) (countUp 16 17)) = "8ea2b7ca516745bfeafc49904b496089".
Proof. vm_compute. reflexivity. Qed.
(** The second test case of the specification of the mode. *)
Example gcm_vector :
  hexEncode (gcmSeal zeroBlock (replicate 12 x00) zeroBlock [])
  = "0388dace60b6a392f328c2b971b2fe78ab6e47d42cec13bdf53a67b21257bddf".
Proof. vm_compute. reflexivity. Qed.
