(* ===== verification/Decrypt.v ===== *)
(** * Decryption of resources

    pkg/crypto/decrypt.go: resources of a key broker, whose content is encrypted under
    AES-GCM with a content key, which is wrapped (RFC 3394) under a key that ECDH on P-256
    and HKDF derive.  The cipher is that of Aes.v and the hash that of Sha2.v; the curve
    and the key derivation of the standard library are modelled here.  A resource is shown
    to decrypt to a plaintext exactly when it is what the reference encryption below makes
    of that plaintext. *)

From stdpp Require Import base list strings.
From Stdlib Require Import ZArith Lia Strings.Byte.
From S2P Require Import Prelude GoStrings Errors Sha2 GoEncoding Aes.

(** ** The curve P-256 ([crypto/ecdh]) *)

Definition p256P : Z := 2 ^ 256 - 2 ^ 224 + 2 ^ 192 + 2 ^ 96 - 1.
Definition p256B : Z := 0x5ac635d8aa3a93e7b3ebbd55769886bc651d06b0cc53b0f63bce3c3e27d2604b.

(** An affine point; [None] is the point at infinity. *)
Definition point : Type := option (Z * Z).

Definition onCurve (x y : Z) : bool :=
  (0 <=? x) && (x <? p256P) && (0 <=? y) && (y <? p256P)
  && ((y * y) mod p256P =? (x * x * x - 3 * x + p256B) mod p256P).

(** The inverse modulo the prime, by the extended algorithm of Euclid; the remainders at
    least halve in two steps. *)
Fixpoint euclid (fuel : nat) (r0 r1 s0 s1 : Z) : Z :=
  match fuel with
  | O => s0
  | S f => if r1 =? 0 then s0 else euclid f r1 (r0 mod r1) s1 (s0 - r0 / r1 * s1)
  end.
Definition inverseModP (a : Z) : Z := euclid 520 (a mod p256P) p256P 1 0 mod p256P.

Definition chord (lambda x1 y1 x2 : Z) : Z * Z :=
  let x3 := (lambda * lambda - x1 - x2) mod p256P in
  (x3, (lambda * (x1 - x3) - y1) mod p256P).

Definition addPoints (p q : point) : point :=
  match p, q with
  | None, _ => q
  | _, None => p
  | Some (x1, y1), Some (x2, y2) =>
      if x1 =? x2 then
        if (y1 + y2) mod p256P =? 0 then None
        else Some (chord ((3 * x1 * x1 - 3) * inverseModP (2 * y1) mod p256P) x1 y1 x2)
      else Some (chord ((y2 - y1) * inverseModP (x2 - x1) mod p256P) x1 y1 x2)
  end.

Fixpoint scalarMultPos (k : positive) (p : point) : point :=
  match k with
  | xH => p
  | xO k' => let q := scalarMultPos k' p in addPoints q q
  | xI k' => let q := scalarMultPos k' p in addPoints (addPoints q q) p
  end.
Definition scalarMult (k : Z) (p : point) : point :=
  match k with Zpos k' => scalarMultPos k' p | _ => None end.

Inductive Curve := P256 | OtherCurve.
Record PrivateKey := mkPrivateKey { pk_curve : Curve; pk_scalar : Z }.

(** [curve.NewPublicKey]: only an uncompressed point of the curve. *)
Definition NewPublicKey (key : list byte) : result error (Z * Z) :=
  let x := wordOf (take 32 (drop 1 key)) in
  let y := wordOf (drop 33 key) in
  if (len key =? 65) && bool_decide (head key = Some x04) && onCurve x y
  then Ok (x, y) else Err (ErrNew "crypto/ecdh: invalid public key").

(** [privateKey.ECDH]: the x coordinate of the product. *)
Definition ECDH (privateKey : PrivateKey) (remote : Z * Z) : result error (list byte) :=
  match pk_curve privateKey with
  | OtherCurve => Err (ErrNew "crypto/ecdh: private key and public key curves do not match")
  | P256 =>
      match scalarMult (pk_scalar privateKey) (Some remote) with
      | None => Err (ErrNew "nistec: BytesX called on point at infinity")
      | Some (x, _) => Ok (bytesOfWord 32 x)
      end
  end.

(** ** HKDF with SHA-256, without salt and info: the first 32 bytes *)

Definition hmac256 : list byte -> list byte -> list byte := hmac Sum256 64.
Definition hkdf32 (secret : list byte) : list byte :=
  let prk := hmac256 (replicate 32 x00) secret in hmac256 prk [x01].

(** ** Resources *)

Definition ErrDecryptionFailed : error := ErrNew "decryption failed".
Definition ErrInvalidKey : error := ErrNew "invalid decryption key".
Definition ErrInvalidFormat : error := ErrNew "invalid encrypted resource format".

Record EphemeralPublicKey := mkEPK { epk_Curve : string; epk_X : string; epk_Y : string }.
Record EncryptedResource := mkResource {
  er_Ciphertext : list byte; er_EncryptedKey : list byte; er_IV : list byte;
  er_Tag : list byte; er_AAD : list byte; er_EPK : option EphemeralPublicKey }.

(** [json.Unmarshal] into a resource. *)
Class ResourceJSON := { unmarshalResource : list byte -> result error EncryptedResource }.

Definition ParseEncryptedResource `{ResourceJSON} (data : list byte) : result error EncryptedResource :=
  match unmarshalResource data with
  | Err e => Err (Wrap ErrInvalidFormat e)
  | Ok resource => Ok resource
  end.

(** The outer [None] is the panic of [Open] for a nonce that does not have 12 bytes. *)
Definition DecryptAESGCM (ciphertext key iv tag aad : list byte) : option (result error (list byte)) :=
  if negb (aesKeySize key)
  then Some (Err (Wrap ErrInvalidKey (ErrNew "key must be 16, 24, or 32 bytes")))
  else
    let combined := ciphertext ++ tag in
    match gcmOpen key iv combined aad with
    | None => None
    | Some None => Some (Err (Wrap ErrDecryptionFailed (ErrNew "cipher: message authentication failed")))
    | Some (Some plaintext) => Some (Ok plaintext)
    end.

(** One step of the inner loop: block [r] and the register [a] under counter [t]. *)
Definition unwrapStep (kek : list byte) (t : Z) (a r : list byte) : list byte * list byte :=
  let b := aesDecrypt kek (xorBytes a (bytesOfWord 8 t) ++ r) in (take 8 b, drop 8 b).

(** The inner loop, from the last block to the first, which has number [i]. *)
Fixpoint unwrapRound (kek : list byte) (base i : Z) (rs : list (list byte)) (a : list byte)
    : list byte * list (list byte) :=
  match rs with
  | [] => (a, [])
  | r :: rs' =>
      let '(a1, rs1) := unwrapRound kek base (i + 1) rs' a in
      let '(a2, r2) := unwrapStep kek (base + i) a1 r in
      (a2, r2 :: rs1)
  end.

(** The outer loop, for j from [c - 1] down to zero. *)
Fixpoint unwrapRounds (kek : list byte) (n : Z) (c : nat) (a : list byte) (rs : list (list byte))
    : list byte * list (list byte) :=
  match c with
  | O => (a, rs)
  | S j =>
      let '(a1, rs1) := unwrapRound kek (n * Z.of_nat j) 1 rs a in
      unwrapRounds kek n j a1 rs1
  end.

Definition expectedIV : list byte := replicate 8 xa6.

Definition unwrapKey (wrappedKey kek : list byte) : result error (list byte) :=
  if negb (len wrappedKey mod 8 =? 0) || (len wrappedKey <? 24)
  then Err (Wrap ErrInvalidKey
              (ErrNew "wrapped key length must be a multiple of 8 and at least 24 bytes"))
  else if negb (aesKeySize kek)
  then Err (Wrap ErrDecryptionFailed (ErrNew "crypto/aes: invalid key size"))
  else
    let n := len wrappedKey / 8 - 1 in
    let '(a, r) := unwrapRounds kek n 6 (take 8 wrappedKey) (chunks 8 (drop 8 wrappedKey)) in
    if bool_decide (a = expectedIV) then Ok (concat r)
    else Err (Wrap ErrDecryptionFailed (ErrNew "key unwrap integrity check failed")).

(** What the buffers with key material hold when the function returns; one that is not
    made yet is empty. *)
Record KeyMaterial := mkKeys {
  km_sharedSecret : list byte; km_kek : list byte; km_cek : list byte }.

Definition zeroBytes (b : list byte) : list byte := map (fun _ => x00) b.

Definition decodeCoordinate (s : string) : result error (list byte) :=
  match base64RawURLDecode s with
  | None => Err (Wrap ErrInvalidFormat (ErrNew "illegal base64 data"))
  | Some vs => Ok (map toByte vs)
  end.

(** The ephemeral key of a resource, as a point. *)
Definition ephemeralKey (r : EncryptedResource) : result error (Z * Z) :=
  match er_EPK r with
  | None => Err (Wrap ErrInvalidFormat (ErrNew "ephemeral public key is required"))
  | Some epk =>
      let* xBytes := decodeCoordinate (epk_X epk) in
      let* yBytes := decodeCoordinate (epk_Y epk) in
      match NewPublicKey (x04 :: xBytes ++ yBytes) with
      | Err e => Err (Wrap ErrInvalidFormat e)
      | Ok epk => Ok epk
      end
  end.

Definition DecryptWithWrappedKey (r : EncryptedResource) (privateKey : PrivateKey)
    : option (result error (list byte) * KeyMaterial) :=
  match ephemeralKey r with
  | Err e => Some (Err e, mkKeys [] [] [])
  | Ok epk =>
      match ECDH privateKey epk with
      | Err e => Some (Err (Wrap ErrDecryptionFailed e), mkKeys [] [] [])
      | Ok sharedSecret =>
          let kek := hkdf32 sharedSecret in
          match unwrapKey (er_EncryptedKey r) kek with
          | Err e => Some (Err e, mkKeys sharedSecret kek [])
          | Ok cek =>
              match DecryptAESGCM (er_Ciphertext r) cek (er_IV r) (er_Tag r) (er_AAD r) with
              | None => None
              | Some (Err e) => Some (Err e, mkKeys sharedSecret kek cek)
              | Some (Ok plaintext) =>
                  Some (Ok plaintext,
                        mkKeys (zeroBytes sharedSecret) (zeroBytes kek) (zeroBytes cek))
              end
          end
      end
  end.

(** ** The reference encryption *)

(** RFC 3394, section 2.2.1. *)
Definition wrapStep (kek : list byte) (t : Z) (a r : list byte) : list byte * list byte :=
  let b := aesEncrypt kek (a ++ r) in (xorBytes (take 8 b) (bytesOfWord 8 t), drop 8 b).

Fixpoint wrapRound (kek : list byte) (base i : Z) (rs : list (list byte)) (a : list byte)
    : list byte * list (list byte) :=
  match rs with
  | [] => (a, [])
  | r :: rs' =>
      let '(a1, r1) := wrapStep kek (base + i) a r in
      let '(a2, rs2) := wrapRound kek base (i + 1) rs' a1 in
      (a2, r1 :: rs2)
  end.

Fixpoint wrapRounds (kek : list byte) (n : Z) (c : nat) (a : list byte) (rs : list (list byte))
    : list byte * list (list byte) :=
  match c with
  | O => (a, rs)
  | S j =>
      let '(a1, rs1) := wrapRounds kek n j a rs in
      wrapRound kek (n * Z.of_nat j) 1 rs1 a1
  end.

Definition wrapKey (kek key : list byte) : list byte :=
  let '(a, rs) := wrapRounds kek (len key / 8) 6 expectedIV (chunks 8 key) in a ++ concat rs.

(** [r] is the encryption of [plaintext] to the holder of [privateKey]. *)
Definition encrypts (r : EncryptedResource) (privateKey : PrivateKey) (plaintext : list byte) : Prop :=
  exists epk secret cek,
    ephemeralKey r = Ok epk /\ ECDH privateKey epk = Ok secret
    /\ aesKeySize cek = true /\ er_EncryptedKey r = wrapKey (hkdf32 secret) cek
    /\ len (er_IV r) = 12 /\ len plaintext <= gcmMaxSize
    /\ er_Ciphertext r ++ er_Tag r = gcmSeal cek (er_IV r) plaintext (er_AAD r).

(** ** Unwrapping inverts wrapping, step by step *)

Definition isHalf (b : list byte) : Prop := length b = 8%nat.

Lemma half_block a r : isHalf a -> isHalf r -> isBlock (a ++ r).
Proof. unfold isHalf, isBlock. rewrite length_app. lia. Qed.
Lemma block_halves b : isBlock b -> isHalf (take 8 b) /\ isHalf (drop 8 b).
Proof. unfold isHalf, isBlock. rewrite length_take, length_drop. lia. Qed.
Lemma counter_half a t : isHalf a -> isHalf (xorBytes a (bytesOfWord 8 t)).
Proof. unfold isHalf. intros Ha. by rewrite length_xorBytes; rewrite ?length_bytesOfWord. Qed.
Lemma counter_cancel a t : isHalf a -> xorBytes (xorBytes a (bytesOfWord 8 t)) (bytesOfWord 8 t) = a.
Proof. intros Ha. apply xorBytes_cancel. by rewrite length_bytesOfWord. Qed.
Lemma halves_take a r : isHalf a -> take 8 (a ++ r) = a.
Proof. intros Ha. by apply take_app_length'. Qed.
Lemma halves_drop a r : isHalf a -> drop 8 (a ++ r) = r.
Proof. intros Ha. by apply drop_app_length'. Qed.

Section kek.
Context (kek : list byte) (Hkek : aesKeySize kek = true).

Lemma unwrap_wrapStep t a r : isHalf a -> isHalf r ->
  let '(a1, r1) := wrapStep kek t a r in
  isHalf a1 /\ isHalf r1 /\ unwrapStep kek t a1 r1 = (a, r).
Proof.
  intros Ha Hr. unfold wrapStep, unwrapStep.
  destruct (block_halves (aesEncrypt kek (a ++ r))) as [H1 H2]; [by apply aesEncrypt_block, half_block|].
  split; [by apply counter_half|]. split; [done|]. rewrite counter_cancel by done.
  by rewrite take_drop, aesDecrypt_Encrypt, halves_take, halves_drop by auto using half_block.
Qed.

Lemma wrap_unwrapStep t a r : isHalf a -> isHalf r ->
  let '(a1, r1) := unwrapStep kek t a r in
  isHalf a1 /\ isHalf r1 /\ wrapStep kek t a1 r1 = (a, r).
Proof.
  intros Ha Hr. unfold wrapStep, unwrapStep. pose proof (counter_half a t Ha) as Hc.
  destruct (block_halves (aesDecrypt kek (xorBytes a (bytesOfWord 8 t) ++ r))) as [H1 H2];
    [by apply aesDecrypt_block, half_block|]. split; [done|]. split; [done|].
  rewrite take_drop, aesEncrypt_Decrypt, halves_take, halves_drop by auto using half_block.
  by rewrite counter_cancel.
Qed.

Lemma unwrap_wrapRound base i rs a : isHalf a -> Forall isHalf rs ->
  let '(a1, rs1) := wrapRound kek base i rs a in
  isHalf a1 /\ Forall isHalf rs1 /\ length rs1 = length rs /\ unwrapRound kek base i rs1 a1 = (a, rs).
Proof.
  intros Ha Hrs. revert i a Ha. induction Hrs as [|r rs Hr Hrs IH]; intros i a Ha; cbn [wrapRound unwrapRound wrapRounds unwrapRounds]; [done|].
  pose proof (unwrap_wrapStep (base + i) a r Ha Hr) as Hs.
  destruct (wrapStep kek (base + i) a r) as [a1 r1]. destruct Hs as (H1 & H2 & Hs).
  specialize (IH (i + 1) a1 H1). destruct (wrapRound kek base (i + 1) rs a1) as [a2 rs2].
  destruct IH as (H3 & H4 & H5 & IH). cbn [wrapRound unwrapRound wrapRounds unwrapRounds length]. rewrite IH, Hs. by repeat split; [|constructor|f_equal].
Qed.

Lemma wrap_unwrapRound base i rs a : isHalf a -> Forall isHalf rs ->
  let '(a1, rs1) := unwrapRound kek base i rs a in
  isHalf a1 /\ Forall isHalf rs1 /\ length rs1 = length rs /\ wrapRound kek base i rs1 a1 = (a, rs).
Proof.
  intros Ha Hrs. revert i. induction Hrs as [|r rs Hr Hrs IH]; intros i; cbn [wrapRound unwrapRound wrapRounds unwrapRounds]; [done|].
  specialize (IH (i + 1)). destruct (unwrapRound kek base (i + 1) rs a) as [a1 rs1].
  destruct IH as (H3 & H4 & H5 & IH). pose proof (wrap_unwrapStep (base + i) a1 r H3 Hr) as Hs.
  destruct (unwrapStep kek (base + i) a1 r) as [a2 r2]. destruct Hs as (H1 & H2 & Hs).
  cbn [wrapRound unwrapRound wrapRounds unwrapRounds length]. rewrite Hs, IH. by repeat split; [|constructor|f_equal].
Qed.

Lemma unwrap_wrapRounds n c a rs : isHalf a -> Forall isHalf rs ->
  let '(a1, rs1) := wrapRounds kek n c a rs in
  isHalf a1 /\ Forall isHalf rs1 /\ length rs1 = length rs /\ unwrapRounds kek n c a1 rs1 = (a, rs).
Proof.
  intros Ha Hrs. induction c as [|j IH]; cbn [wrapRound unwrapRound wrapRounds unwrapRounds]; [done|].
  destruct (wrapRounds kek n j a rs) as [a1 rs1]. destruct IH as (H1 & H2 & H3 & IH).
  pose proof (unwrap_wrapRound (n * Z.of_nat j) 1 rs1 a1 H1 H2) as Hr.
  destruct (wrapRound kek _ 1 rs1 a1) as [a2 rs2]. destruct Hr as (H4 & H5 & H6 & ->).
  repeat split; [done..|lia|done].
Qed.

Lemma wrap_unwrapRounds n c a rs : isHalf a -> Forall isHalf rs ->
  let '(a1, rs1) := unwrapRounds kek n c a rs in
  isHalf a1 /\ Forall isHalf rs1 /\ length rs1 = length rs /\ wrapRounds kek n c a1 rs1 = (a, rs).
Proof.
  revert a rs. induction c as [|j IH]; intros a rs Ha Hrs; cbn [wrapRound unwrapRound wrapRounds unwrapRounds]; [done|].
  pose proof (wrap_unwrapRound (n * Z.of_nat j) 1 rs a Ha Hrs) as Hr.
  destruct (unwrapRound kek _ 1 rs a) as [a1 rs1]. destruct Hr as (H1 & H2 & H3 & Hr).
  specialize (IH a1 rs1 H1 H2). destruct (unwrapRounds kek n j a1 rs1) as [a2 rs2].
  destruct IH as (H4 & H5 & H6 & IH). cbn [wrapRound unwrapRound wrapRounds unwrapRounds length]. rewrite IH, Hr. repeat split; [done..|lia].
Qed.
End kek.

(** ** A key and its wrapped form *)

Lemma chunksOf_halves m fuel l : length l = (8 * m)%nat -> (length l <= fuel)%nat ->
  Forall isHalf (chunksOf 8 fuel l) /\ length (chunksOf 8 fuel l) = m.
Proof.
  revert m l. induction fuel as [|f IH]; intros m l Hl Hf.
  - destruct m; [by split; [constructor|]|lia].
  - destruct l as [|x l]; [destruct m; [by split; [constructor|]|cbn in Hl; lia]|].
    destruct m as [|m]; [done|]. cbn [chunksOf]. destruct (IH m (drop 8 (x :: l))) as [H1 H2].
    + rewrite length_drop. lia.
    + rewrite length_drop. cbn [length] in *. lia.
    + cbn [length]. rewrite H2. split; [|done]. constructor; [|done]. unfold isHalf.
      rewrite length_take. lia.
Qed.
Lemma chunks_halves m l : length l = (8 * m)%nat ->
  Forall isHalf (chunks 8 l) /\ length (chunks 8 l) = m.
Proof. intros Hl. by apply chunksOf_halves. Qed.

Lemma length_halves rs : Forall isHalf rs -> length (concat rs) = (8 * length rs)%nat.
Proof.
  induction 1 as [|r rs Hr _ IH]; cbn [concat length]; [done|]. rewrite length_app, IH, Hr. lia.
Qed.
Lemma halves_chunks rs : Forall isHalf rs -> chunks 8 (concat rs) = rs.
Proof.
  induction 1 as [|r rs Hr Hrs IH]; cbn [concat]; [done|].
  unfold isHalf in Hr. destruct rs as [|r' rs].
  - cbn [concat]. rewrite app_nil_r. apply chunks_short. lia.
  - rewrite chunks_long; [|lia|].
    + rewrite (take_app_length' r) by done. rewrite (drop_app_length' r) by done. by rewrite IH.
    + apply Forall_cons in Hrs as [Hr' Hrs]. cbn [concat]. rewrite !length_app, Hr'. lia.
Qed.

Lemma len_eighths (l : list byte) : len l mod 8 = 0 <-> exists m, length l = (8 * m)%nat.
Proof.
  unfold len. split.
  - intros Hm. exists (Z.to_nat (Z.of_nat (length l) / 8)).
    pose proof (Z.div_mod (Z.of_nat (length l)) 8 ltac:(lia)) as Hd. lia.
  - intros [m ->]. rewrite Nat2Z.inj_mul, Z.mul_comm. apply Z.mod_mul. lia.
Qed.

Lemma wrapKey_unwraps kek key :
  aesKeySize kek = true -> 16 <= len key -> len key mod 8 = 0 -> unwrapKey (wrapKey kek key) kek = Ok key.
Proof.
  intros Hkek H16 [m Hm]%len_eighths. unfold wrapKey. destruct (chunks_halves m key Hm) as [Hh Hl].
  assert (Hn : len key / 8 = Z.of_nat m) by (unfold len; rewrite Hm, Nat2Z.inj_mul, Z.mul_comm; apply Z.div_mul; lia).
  pose proof (unwrap_wrapRounds kek Hkek (len key / 8) 6 expectedIV (chunks 8 key) eq_refl Hh) as Hw.
  destruct (wrapRounds _ _ _ _ _) as [a rs]. destruct Hw as (Ha & Hrs & Hlen & Hw).
  assert (Hw8 : length (a ++ concat rs) = (8 * S m)%nat) by (rewrite length_app, length_halves, Ha by done; lia).
  unfold unwrapKey.
  rewrite (proj2 (Z.eqb_eq (len (a ++ concat rs) mod 8) 0)) by (apply len_eighths; eauto).
  rewrite (proj2 (Z.ltb_ge (len (a ++ concat rs)) 24)) by (unfold len in *; lia). cbn [negb orb]. rewrite Hkek. cbn [negb].
  replace (len (a ++ concat rs) / 8 - 1) with (len key / 8).
  - rewrite halves_take, halves_drop, halves_chunks, Hw by done. rewrite bool_decide_eq_true_2 by done.
    by rewrite chunks_concat by lia.
  - unfold len at 2. rewrite Hw8, Hn, Nat2Z.inj_mul, Z.mul_comm, Z.div_mul by lia. lia.
Qed.

Lemma unwrapKey_wraps wrapped kek key : unwrapKey wrapped kek = Ok key ->
  aesKeySize kek = true /\ 16 <= len key /\ len key mod 8 = 0 /\ wrapped = wrapKey kek key.
Proof.
  unfold unwrapKey. destruct (Z.eqb_spec (len wrapped mod 8) 0) as [Hm|]; [|done].
  destruct (Z.ltb_spec (len wrapped) 24) as [|H24]; [done|]. cbn [negb orb].
  destruct (aesKeySize kek) eqn:Hkek; [|done]. cbn [negb]. apply len_eighths in Hm as [[|m] Hm]; [unfold len in H24; lia|].
  assert (Hd : length (drop 8 wrapped) = (8 * m)%nat) by (rewrite length_drop; lia).
  assert (Ht : isHalf (take 8 wrapped)) by (unfold isHalf; rewrite length_take; lia).
  destruct (chunks_halves m _ Hd) as [Hh Hl].
  assert (Hn : len wrapped / 8 - 1 = Z.of_nat m)
    by (unfold len; rewrite Hm, Nat2Z.inj_mul, Z.mul_comm, Z.div_mul by lia; lia).
  rewrite Hn. pose proof (wrap_unwrapRounds kek Hkek (Z.of_nat m) 6 _ _ Ht Hh) as Hw.
  destruct (unwrapRounds _ _ _ _ _) as [a rs]. destruct Hw as (Ha & Hrs & Hlen & Hw).
  case_bool_decide as He; [|done]. intros [= <-]. subst a.
  assert (Hk : length (concat rs) = (8 * m)%nat) by (rewrite length_halves by done; lia).
  split; [done|]. split; [unfold len in *; lia|]. split; [apply len_eighths; eauto|].
  unfold wrapKey. replace (len (concat rs) / 8) with (Z.of_nat m)
    by (unfold len; rewrite Hk, Nat2Z.inj_mul, Z.mul_comm, Z.div_mul; lia).
  by rewrite halves_chunks, Hw, chunks_concat, take_drop by (done || lia).
Qed.

(** ** Resources *)

(** C18: the RFC 3394 unwrapping gives a key exactly for what wrapping that key makes: the
    length checks, the order of the steps, the counters and the integrity check are those
    of the standard. *)
Theorem unwrapKey_decides wrapped kek key :
  unwrapKey wrapped kek = Ok key <->
  aesKeySize kek = true /\ 16 <= len key /\ len key mod 8 = 0 /\ wrapped = wrapKey kek key.
Proof.
  split; [apply unwrapKey_wraps|]. intros (H1 & H2 & H3 & ->). by apply wrapKey_unwraps.
Qed.

Lemma DecryptAESGCM_decides c key iv tag aad p :
  DecryptAESGCM c key iv tag aad = Some (Ok p) <->
  aesKeySize key = true /\ len iv = 12 /\ len p <= gcmMaxSize /\ c ++ tag = gcmSeal key iv p aad.
Proof.
  unfold DecryptAESGCM. destruct (aesKeySize key) eqn:Hk; cbn [negb]; [|naive_solver].
  destruct (Z.eqb_spec (len iv) 12) as [Hiv|Hiv].
  - assert (Hl : length iv = 12%nat) by (unfold len in Hiv; lia).
    pose proof (gcmOpen_decides key iv Hk Hl (c ++ tag) aad p) as Ho.
    destruct (gcmOpen key iv (c ++ tag) aad) as [[q|]|]; naive_solver.
  - unfold gcmOpen, gcmNonceSize. rewrite (proj2 (Z.eqb_neq _ _)) by done. naive_solver.
Qed.

Lemma aesKeySize_eighths key : aesKeySize key = true -> 16 <= len key /\ len key mod 8 = 0.
Proof.
  unfold aesKeySize. intros [[H|H]%orb_true_iff|H]%orb_true_iff; apply Z.eqb_eq in H; by rewrite H.
Qed.

Lemma hkdf32_keySize secret : aesKeySize (hkdf32 secret) = true.
Proof.
  unfold aesKeySize, hkdf32, hmac256, hmac, len. rewrite length_Sum256. by rewrite !orb_true_r.
Qed.

#[local] Opaque hkdf32.

(** C17: a resource decrypts to a plaintext exactly when it is the encryption of that plaintext
    to the holder of the key: the content key is wrapped under the key derived from the
    shared secret, and ciphertext and tag are the sealed plaintext. *)
Theorem decrypt_decides r privateKey plaintext :
  (exists km, DecryptWithWrappedKey r privateKey = Some (Ok plaintext, km)) <->
  encrypts r privateKey plaintext.
Proof.
  unfold DecryptWithWrappedKey, encrypts. split.
  - intros [km Hd]. destruct (ephemeralKey r) as [epk|]; [|done].
    destruct (ECDH privateKey epk) as [secret|] eqn:Es; [|done].
    destruct (unwrapKey _ _) as [cek|] eqn:Eu; [|done].
    destruct (DecryptAESGCM _ _ _ _ _) as [[p|]|] eqn:Eg; [|done..]. injection Hd as -> _.
    apply DecryptAESGCM_decides in Eg as (H1 & H2 & H3 & H4).
    apply unwrapKey_wraps in Eu as (H5 & H6 & H7 & H8). exists epk, secret, cek. tauto.
  - intros (epk & secret & cek & -> & -> & Hc & -> & Hiv & Hp & Hs).
    destruct (aesKeySize_eighths cek Hc) as [H16 H8].
    rewrite (wrapKey_unwraps _ _ (hkdf32_keySize secret) H16 H8).
    rewrite (proj2 (DecryptAESGCM_decides _ _ _ _ _ plaintext) (conj Hc (conj Hiv (conj Hp Hs)))). eauto.
Qed.

Definition zeroed (b : list byte) : Prop := Forall (eq x00) b.
Lemma zeroBytes_zeroed b : zeroed (zeroBytes b).
Proof. unfold zeroed, zeroBytes. apply List.Forall_map, List.Forall_forall. by intros. Qed.

(** After a decryption nothing of the secrets is left in the buffers they were in; but a
    content that does not authenticate leaves the shared secret and both keys there. *)
Theorem key_material_after r privateKey res km :
  DecryptWithWrappedKey r privateKey = Some (res, km) ->
  match res with
  | Ok _ => zeroed (km_sharedSecret km) /\ zeroed (km_kek km) /\ zeroed (km_cek km)
  | Err _ =>
      forall epk secret cek, ephemeralKey r = Ok epk -> ECDH privateKey epk = Ok secret ->
        unwrapKey (er_EncryptedKey r) (hkdf32 secret) = Ok cek ->
        km = mkKeys secret (hkdf32 secret) cek
  end.
Proof.
  unfold DecryptWithWrappedKey. destruct (ephemeralKey r) as [epk|]; [|by intros [= <- <-]].
  destruct (ECDH privateKey epk) as [secret|] eqn:Es; [|intros [= <- <-] epk' secret' cek' [= <-]; congruence].
  destruct (unwrapKey _ _) as [cek|] eqn:Eu; [|intros [= <- <-] epk' secret' cek' [= <-]; congruence].
  destruct (DecryptAESGCM _ _ _ _ _) as [[p|]|]; [|intros [= <- <-] epk' secret' cek' [= <-]; congruence|done].
  intros [= <- <-]. repeat split; apply zeroBytes_zeroed.
Qed.

(** A resource whose wrapped key is in order but whose initialization vector does not have
    12 bytes stops the program. *)
Theorem bad_iv_panics r privateKey epk secret cek :
  ephemeralKey r = Ok epk -> ECDH privateKey epk = Ok secret ->
  unwrapKey (er_EncryptedKey r) (hkdf32 secret) = Ok cek -> aesKeySize cek = true ->
  len (er_IV r) <> 12 -> DecryptWithWrappedKey r privateKey = None.
Proof.
  intros He Hs Hu Hc Hiv. unfold DecryptWithWrappedKey, DecryptAESGCM, gcmOpen, gcmNonceSize.
  rewrite He, Hs, Hu, Hc. by rewrite (proj2 (Z.eqb_neq _ _)).
Qed.

#[local] Transparent hkdf32.

Module DecryptSample.
(** The key with scalar one, for which the shared secret is the coordinate sent. *)
Definition privateKey : PrivateKey := mkPrivateKey P256 1.
Definition epk : EphemeralPublicKey :=
  mkEPK "P-256" "axfR8uEsQkf4vOblY6RA8ncDfYEt6zOg9KE5RdiYwpY"
    "T-NC4v4af5uO5-tKfA-eFivOM1drMV7Oy7ZAaDe_UfU".
Definition secret : list byte :=
  bytesOfWord 32 0x6b17d1f2e12c4247f8bce6e563a440f277037d812deb33a0f4a13945d898c296.
Definition generator : Z * Z :=
  (0x6b17d1f2e12c4247f8bce6e563a440f277037d812deb33a0f4a13945d898c296,
   0x4fe342e2fe1a7f9b8ee7eb4a7c0f9e162bce33576b315ececbb6406837bf51f5).
Definition cek : list byte := countUp 16 1.
Definition iv : list byte := replicate 12 x01.
Definition plaintext : list byte := bytesOf "resource".
Definition sealed : list byte := Eval vm_compute in gcmSeal cek iv plaintext [].
Definition kek : list byte := Eval vm_compute in hkdf32 secret.
Definition wrapped : list byte := Eval vm_compute in wrapKey kek cek.
Definition resource (iv tag : list byte) : EncryptedResource :=
  mkResource (take 8 sealed) wrapped iv tag [] (Some epk).
Definition tag : list byte := drop 8 sealed.

Lemma sample_kek : hkdf32 secret = kek.
Proof. vm_compute. reflexivity. Qed.
Lemma sample_epk iv tag : ephemeralKey (resource iv tag) = Ok generator.
Proof. vm_compute. reflexivity. Qed.
Lemma sample_secret : ECDH privateKey generator = Ok secret.
Proof. vm_compute. reflexivity. Qed.
Lemma sample_cek : unwrapKey wrapped (hkdf32 secret) = Ok cek.
Proof. rewrite sample_kek. vm_compute. reflexivity. Qed.

Example resource_encrypts : encrypts (resource iv tag) privateKey plaintext.
Proof.
  exists generator, secret, cek. split; [apply sample_epk|]. split; [exact sample_secret|].
  rewrite sample_kek. refine (conj _ (conj _ (conj _ (conj _ _)))); vm_compute; reflexivity || discriminate.
Qed.

(** RFC 3394, section 4.6. *)
Example unwrap_vector :
  unwrapKey (wrapKey (countUp 32 1) (countUp 16 17 ++ countUp 16 1)) (countUp 32 1)
  = Ok (countUp 16 17 ++ countUp 16 1)
  /\ hexEncode (wrapKey (countUp 32 1) (countUp 16 17 ++ countUp 16 1))
     = "28c9f404c4b810f4cbccb35cfb87f8263f5786e2d80ed326cbc7f0e71a99f43bfb988b9b7a02dd21".
Proof. split; vm_compute; reflexivity. Qed.

Definition kept : KeyMaterial := mkKeys secret (hkdf32 secret) cek.
Definition refused : error := Wrap ErrDecryptionFailed (ErrNew "cipher: message authentication failed").
Lemma key_material_after_witness :
  DecryptWithWrappedKey (resource iv zeroBlock) privateKey = Some (Err refused, kept)
  /\ kept = mkKeys secret (hkdf32 secret) cek.
Proof.
  assert (E : DecryptWithWrappedKey (resource iv zeroBlock) privateKey = Some (Err refused, kept)).
  { unfold DecryptWithWrappedKey. rewrite sample_epk, sample_secret. cbn [er_EncryptedKey resource].
    by rewrite sample_cek. }
  split; [exact E|].
  exact (key_material_after _ _ _ _ E generator secret cek (sample_epk _ _) sample_secret sample_cek).
Defined.

Lemma bad_iv_panics_witness : DecryptWithWrappedKey (resource [] tag) privateKey = None.
Proof.
  refine (bad_iv_panics _ _ generator secret cek (sample_epk _ _) sample_secret sample_cek _ _);
    vm_compute; reflexivity || discriminate.
Defined.
End DecryptSample.
