(* ===== verification/GoFormat.v ===== *)
(** * Text the standard library writes: [time.Format] and [base64]

    [Time.UTC().Format(time.RFC3339Nano)] and [base64.StdEncoding.EncodeToString], with the
    proofs that the readers of GoTime.v and GoEncoding.v give back what was written.  A date
    is found as [Time.Date] does, from the number of days since the first of January of
    year 1 in the Gregorian calendar. *)

From stdpp Require Import base list strings.
From Stdlib Require Import ZArith Lia Strings.Byte.
From S2P Require Import Prelude GoStrings Errors GoTime GoNumbers GoEncoding.

(** ** Dates *)

Definition yearOf (days : Z) : Z :=
  let y := days * 400 / 146097 + 1 in
  if days <? daysToYear y then y - 1 else if daysToYear (y + 1) <=? days then y + 1 else y.

(** The month and the day of the month, counting from month [m] on. *)
Fixpoint monthDay (fuel : nat) (m y doy : Z) : Z * Z :=
  match fuel with
  | O => (m, doy + 1)
  | S f => if doy <? daysIn m y then (m, doy + 1) else monthDay f (m + 1) y (doy - daysIn m y)
  end.

Record civil := mkCivil { cv_year : Z; cv_month : Z; cv_day : Z }.
Definition Date (days : Z) : civil :=
  let y := yearOf days in
  let '(m, d) := monthDay 11 1 y (days - daysToYear y) in mkCivil y m d.

(** ** Numbers and times *)

Fixpoint fixedDigits (n : nat) (z : Z) : list Z :=
  match n with O => [] | S k => fixedDigits k (z / 10) ++ [48 + z mod 10] end.

(** [appendInt]: at least [width] digits. *)
Definition appendInt (x : Z) (width : nat) : list Z :=
  let u := Z.abs x in
  (if x <? 0 then [45] else [])
  ++ (if u <? 10 ^ Z.of_nat width then fixedDigits width u else digitsFuel 20 u []).

Fixpoint trimZeros (ds : list Z) : list Z :=
  match ds with
  | [] => []
  | d :: t => match trimZeros t with [] => if d =? 48 then [] else [d] | t' => d :: t' end
  end.

(** The fraction of a second without the zeros at its end. *)
Definition appendNano (ns : Z) : list Z :=
  match trimZeros (fixedDigits 9 ns) with [] => [] | ds => 46 :: ds end.

Definition formatRFC3339Nano (t : Time) : string :=
  let sec := t / Second in
  let c := Date (sec / 86400) in
  let s := sec mod 86400 in
  ofCodes (appendInt (cv_year c) 4 ++ 45 :: appendInt (cv_month c) 2 ++ 45 :: appendInt (cv_day c) 2
           ++ 84 :: appendInt (s / 3600) 2 ++ 58 :: appendInt (s mod 3600 / 60) 2
           ++ 58 :: appendInt (s mod 60) 2 ++ appendNano (t mod Second) ++ [90]).

Example format_vectors :
  formatRFC3339Nano (timeUnix 0) = "1970-01-01T00:00:00Z"
  /\ formatRFC3339Nano (timeUnix 1709251199 + 250000000) = "2024-02-29T23:59:59.25Z"
  /\ formatRFC3339Nano (timeUnix 1735689599 + 1) = "2024-12-31T23:59:59.000000001Z".
Proof. vm_compute. by split_and!. Qed.

(** ** The date has the days it was found from *)

Lemma daysToYear_step y : daysToYear (y + 1) = daysToYear y + (if isLeap y then 366 else 365).
Proof.
  unfold daysToYear, isLeap. replace (y + 1 - 1) with y by lia.
  destruct (Z.eqb_spec (y mod 4) 0), (Z.eqb_spec (y mod 100) 0), (Z.eqb_spec (y mod 400) 0);
    cbn [andb orb negb]; Z.to_euclidean_division_equations; lia.
Qed.

Lemma yearOf_spec days : daysToYear (yearOf days) <= days < daysToYear (yearOf days + 1).
Proof.
  unfold yearOf. set (y := days * 400 / 146097 + 1).
  assert (Hlo : daysToYear (y - 1) <= days /\ days < daysToYear (y + 2)).
  { unfold y, daysToYear. Z.to_euclidean_division_equations. lia. }
  destruct (Z.ltb_spec days (daysToYear y)); [replace (y - 1 + 1) with y by lia; lia|].
  destruct (Z.leb_spec (daysToYear (y + 1)) days); [replace (y + 1 + 1) with (y + 2) by lia; lia|lia].
Qed.

Lemma daysToMonth_step m y : 1 <= m ->
  daysToMonth (Z.to_nat m) y = daysToMonth (Z.to_nat (m - 1)) y + daysIn m y.
Proof.
  intros Hm. replace (Z.to_nat m) with (S (Z.to_nat (m - 1))) by lia. cbn [daysToMonth].
  do 2 f_equal. lia.
Qed.

Lemma monthDay_spec fuel : forall m y doy m' d,
  m = 12 - Z.of_nat fuel -> 1 <= m -> 0 <= doy ->
  daysToMonth (Z.to_nat (m - 1)) y + doy < daysToMonth 12 y ->
  monthDay fuel m y doy = (m', d) ->
  1 <= m' <= 12 /\ 1 <= d <= daysIn m' y
  /\ daysToMonth (Z.to_nat (m' - 1)) y + (d - 1) = daysToMonth (Z.to_nat (m - 1)) y + doy.
Proof.
  induction fuel as [|f IH]; intros m y doy m' d Hm H1 Hd Hlt; cbn [monthDay];
    pose proof (daysToMonth_step m y H1) as Hs.
  - intros [= <- <-]. replace (Z.to_nat m) with 12%nat in Hs by lia. lia.
  - destruct (Z.ltb_spec doy (daysIn m y)); [intros [= <- <-]; lia|]. intros Hr.
    apply IH in Hr; [|lia..|]; replace (m + 1 - 1) with m in * by lia; [|lia].
    rewrite Hs in Hr. lia.
Qed.

Lemma daysToMonth_year y : daysToMonth 12 y = if isLeap y then 366 else 365.
Proof. unfold daysToMonth, daysIn. by destruct (isLeap y). Qed.

Lemma Date_spec days :
  let c := Date days in
  1 <= cv_month c <= 12 /\ 1 <= cv_day c <= daysIn (cv_month c) (cv_year c)
  /\ daysToYear (cv_year c) + daysToMonth (Z.to_nat (cv_month c - 1)) (cv_year c) + (cv_day c - 1) = days.
Proof.
  unfold Date. pose proof (yearOf_spec days) as Hy. rewrite daysToYear_step in Hy.
  set (y := yearOf days) in *. destruct (monthDay 11 1 y (days - daysToYear y)) as [m d] eqn:E.
  apply monthDay_spec in E; [|done|lia..|]; [|rewrite daysToMonth_year; cbn [Z.to_nat daysToMonth Z.sub]; simpl; lia].
  cbn [cv_month cv_day cv_year] in *. change (daysToMonth (Z.to_nat (1 - 1)) y) with 0 in E. lia.
Qed.

(** ** What is printed is read back *)

Lemma digitsN_app n acc z rest : 0 <= z < 10 ^ Z.of_nat n ->
  digitsN n acc (fixedDigits n z ++ rest) = Some (acc * 10 ^ Z.of_nat n + z, rest).
Proof.
  assert (Hcat : forall k j a l, digitsN (k + j) a l = '(b, l') ← digitsN k a l; digitsN j b l').
  { induction k as [|k IH]; intros j a l; [done|]. cbn [Nat.add digitsN].
    destruct l as [|c t]; [done|]. destruct (digit c); [apply IH|done]. }
  revert acc z rest. induction n as [|n IH]; intros acc z rest Hz.
  - cbn in *. do 2 f_equal. lia.
  - rewrite Nat2Z.inj_succ, Z.pow_succ_r in * by lia. cbn [fixedDigits]. rewrite <- app_assoc.
    replace (S n) with (n + 1)%nat by lia. rewrite Hcat, IH.
    + cbn [mbind option_bind digitsN app]. unfold digit, inRange.
      pose proof (Z.mod_pos_bound z 10 ltac:(lia)) as Hm.
      rewrite (proj2 (Z.leb_le 48 (48 + z mod 10))), (proj2 (Z.leb_le (48 + z mod 10) 57)) by lia.
      cbn [andb]. do 2 f_equal. pose proof (Z.div_mod z 10 ltac:(lia)). lia.
    + split; [apply Z.div_pos; lia|]. apply Z.div_lt_upper_bound; lia.
Qed.

Lemma appendInt_fixed z n : 0 <= z < 10 ^ Z.of_nat n -> appendInt z n = fixedDigits n z.
Proof.
  intros Hz. unfold appendInt. rewrite (proj2 (Z.ltb_ge z 0)), Z.abs_eq by lia.
  by rewrite (proj2 (Z.ltb_lt _ _)) by lia.
Qed.

Lemma digitsN_appendInt n z rest : 0 <= z < 10 ^ Z.of_nat n ->
  digitsN n 0 (appendInt z n ++ rest) = Some (z, rest).
Proof. intros Hz. rewrite appendInt_fixed, digitsN_app by done. done. Qed.

Lemma fixedDigits_digits n z : Forall (fun c => isDigit c = true) (fixedDigits n z).
Proof.
  revert z. induction n as [|n IH]; intros z; cbn [fixedDigits]; [constructor|].
  apply Forall_app. split; [apply IH|]. constructor; [|constructor].
  apply isDigit_digit, Z.mod_pos_bound. lia.
Qed.
Lemma length_fixedDigits n z : length (fixedDigits n z) = n.
Proof. revert z. induction n as [|n IH]; intros z; cbn [fixedDigits]; [done|]. rewrite length_app, IH. cbn. lia. Qed.
Lemma value_fixedDigits n z : 0 <= z < 10 ^ Z.of_nat n -> value 0 (fixedDigits n z) = z.
Proof.
  revert z. induction n as [|n IH]; intros z Hz; cbn [fixedDigits]; [cbn in *; lia|].
  rewrite Nat2Z.inj_succ, Z.pow_succ_r in Hz by lia. rewrite value_app, IH.
  - cbn. pose proof (Z.div_mod z 10 ltac:(lia)). lia.
  - split; [apply Z.div_pos; lia|]. apply Z.div_lt_upper_bound; lia.
Qed.

Lemma trimZeros_spec ds : exists k, ds = trimZeros ds ++ replicate k 48.
Proof.
  induction ds as [|d t [k IH]]; [by exists O|]. cbn [trimZeros].
  destruct (trimZeros t) as [|x t'] eqn:E.
  - destruct (Z.eqb_spec d 48) as [->|].
    + exists (S k). cbn in *. by rewrite IH.
    + exists k. cbn in *. by rewrite IH.
  - exists k. cbn in *. by rewrite IH.
Qed.
Lemma value_zeros acc k : value acc (replicate k 48) = acc * 10 ^ Z.of_nat k.
Proof.
  revert acc. induction k as [|k IH]; intros acc; [cbn; lia|].
  rewrite Nat2Z.inj_succ, Z.pow_succ_r by lia. cbn [replicate value foldl].
  change (foldl _ (acc * 10 + (48 - 48)) (replicate k 48)) with (value (acc * 10 + (48 - 48)) (replicate k 48)).
  rewrite IH. lia.
Qed.

(** A run of at most nine digits, before the zone. *)
Lemma fractionDigits_run ds : forall n acc rest,
  Forall (fun c => isDigit c = true) ds -> (length ds <= n)%nat ->
  (forall c t, rest = c :: t -> digit c = None) ->
  fractionDigits n acc (ds ++ rest) = (acc + value 0 ds * 10 ^ (Z.of_nat n - len ds), rest).
Proof.
  assert (Hv : forall l a, value a l = a * 10 ^ len l + value 0 l).
  { induction l as [|c l IH]; intros a; [unfold len; cbn; lia|].
    cbn [value foldl]. fold (value (a * 10 + (c - 48)) l) (value (0 * 10 + (c - 48)) l).
    rewrite (IH (a * 10 + _)), (IH (0 * 10 + _)), len_cons.
    replace (1 + len l) with (Z.succ (len l)) by lia. rewrite Z.pow_succ_r by apply len_nonneg. lia. }
  induction ds as [|c ds IH]; intros n acc rest Hd Hl Hrest.
  - destruct rest as [|c t]; cbn; rewrite ?(Hrest c t eq_refl); f_equal; lia.
  - apply Forall_cons in Hd as [Hc Hd]. destruct n as [|n]; [cbn in Hl; lia|]. cbn [app fractionDigits].
    unfold digit. change (inRange 48 57 c) with (isDigit c). rewrite Hc.
    rewrite IH by (done || (cbn in Hl; lia)). f_equal. rewrite len_cons.
    cbn [value foldl]. fold (value (0 * 10 + (c - 48)) ds). rewrite (Hv ds (0 * 10 + (c - 48))).
    rewrite Nat2Z.inj_succ. replace (Z.succ (Z.of_nat n) - (1 + len ds)) with (Z.of_nat n - len ds) by lia.
    replace (Z.of_nat n) with (len ds + (Z.of_nat n - len ds)) at 1 by lia.
    rewrite Z.pow_add_r by (unfold len in *; cbn in Hl; lia). lia.
Qed.

Lemma fraction_appendNano ns : 0 <= ns < Second ->
  fraction (appendNano ns ++ [90]) = (ns, [90]).
Proof.
  intros Hns. unfold appendNano. destruct (trimZeros_spec (fixedDigits 9 ns)) as [k Hk].
  pose proof (fixedDigits_digits 9 ns) as Hd. pose proof (length_fixedDigits 9 ns) as Hl.
  pose proof (value_fixedDigits 9 ns Hns) as Hv. rewrite Hk in Hd, Hl, Hv.
  apply Forall_app in Hd as [Hd _]. rewrite length_app, length_replicate in Hl.
  rewrite value_app, value_zeros in Hv.
  destruct (trimZeros (fixedDigits 9 ns)) as [|c ds] eqn:E; [cbn in *; f_equal; lia|].
  cbn [app fraction]. rewrite Z.eqb_refl. cbn [orb andb].
  pose proof (Forall_inv Hd) as Hc. change (inRange 48 57 c) with (isDigit c). cbn beta in Hc. rewrite Hc.
  change (c :: ds ++ [90]) with ((c :: ds) ++ [90]). rewrite fractionDigits_run.
  - f_equal. rewrite <- Hv. unfold len. rewrite Z.add_0_l. do 2 f_equal. cbn [length] in *. lia.
  - done.
  - lia.
  - by intros ? ? [= <- <-].
Qed.

(** Every character printed is a byte. *)
Definition inBytes (l : list Z) : Prop := Forall (fun c => 0 <= c < 256) l.

Lemma digits_inBytes ds : Forall (fun c => isDigit c = true) ds -> inBytes ds.
Proof. intros Hd. eapply Forall_impl; [exact Hd|]. intros c Hc%isDigit_range. lia. Qed.
Lemma appendInt_inBytes z n : inBytes (appendInt z n).
Proof.
  unfold appendInt. apply Forall_app. split.
  - destruct (z <? 0); [constructor; [lia|]|]; constructor.
  - destruct (_ <? _); [apply digits_inBytes, fixedDigits_digits|].
    eapply Forall_impl; [apply digitsFuel_ascii; [lia|constructor]|]. intros c Hc; cbv beta in Hc; lia.
Qed.
Lemma appendNano_inBytes ns : inBytes (appendNano ns).
Proof.
  unfold appendNano. destruct (trimZeros_spec (fixedDigits 9 ns)) as [k Hk].
  pose proof (digits_inBytes _ (fixedDigits_digits 9 ns)) as Hd. rewrite Hk in Hd.
  apply Forall_app in Hd as [Hd _]. destruct (trimZeros _); [constructor|]. constructor; [lia|done].
Qed.
Lemma inBytes_app a b : inBytes a -> inBytes b -> inBytes (a ++ b).
Proof. intros. by apply Forall_app. Qed.
Lemma inBytes_cons c l : 0 <= c < 256 -> inBytes l -> inBytes (c :: l).
Proof. by constructor. Qed.

(** The times whose year has four digits. *)
Definition inYears (t : Time) : Prop := 0 <= cv_year (Date (t / Second / 86400)) < 10000.

Lemma getnum_appendInt z rest : 0 <= z < 100 -> getnum (appendInt z 2 ++ rest) = Some (z, rest).
Proof. intros Hz. unfold getnum. by rewrite digitsN_appendInt. Qed.

Lemma expect_self c rest : expect c (c :: rest) = Some rest.
Proof. unfold expect. by rewrite Z.eqb_refl. Qed.

(** The scanner on what is printed of a stamp in UTC. *)
Lemma scanStamp_printed y mo d h mi sec ns :
  0 <= y < 10000 -> 0 <= mo < 100 -> 0 <= d < 100 -> 0 <= h < 100 -> 0 <= mi < 100 -> 0 <= sec < 100 ->
  0 <= ns < Second ->
  scanStamp (appendInt y 4 ++ 45 :: appendInt mo 2 ++ 45 :: appendInt d 2 ++ 84 :: appendInt h 2
             ++ 58 :: appendInt mi 2 ++ 58 :: appendInt sec 2 ++ appendNano ns ++ [90])
  = Some (mkStamp y mo d h mi sec ns 0).
Proof.
  intros. unfold scanStamp.
  repeat (first [rewrite digitsN_appendInt by done | rewrite expect_self | rewrite getnum_appendInt by done];
          cbn [mbind option_bind]).
  by rewrite fraction_appendNano by done.
Qed.

(** A time of four-digit years is printed in a form that is read back as the same time. *)
Lemma format_parse t : inYears t -> parseRFC3339Nano (formatRFC3339Nano t) = Ok t.
Proof.
  intros Hy. unfold inYears in Hy. pose proof (Date_spec (t / Second / 86400)) as Hc. cbv zeta in Hc.
  unfold parseRFC3339Nano, formatRFC3339Nano.
  set (c := Date (t / Second / 86400)) in *. set (s := (t / Second) mod 86400).
  assert (Hin : 0 < daysIn (cv_month c) (cv_year c) < 100).
  { unfold daysIn. repeat case_match; lia. }
  assert (Hs : 0 <= s < 86400) by (apply Z.mod_pos_bound; lia).
  assert (Hns : 0 <= t mod Second < Second) by (apply Z.mod_pos_bound; done).
  assert (Hh : 0 <= s / 3600 < 24 /\ 0 <= s mod 3600 / 60 < 60 /\ 0 <= s mod 60 < 60
               /\ s / 3600 * 3600 + s mod 3600 / 60 * 60 + s mod 60 = s)
    by (Z.to_euclidean_division_equations; lia).
  rewrite codes_ofCodes by (repeat first [apply appendInt_inBytes | apply appendNano_inBytes | apply Forall_nil_2
    | apply inBytes_app | apply inBytes_cons | lia]).
  rewrite scanStamp_printed by lia. unfold stampValid, inRange.
  cbn [ts_month ts_day ts_year ts_hour ts_min ts_sec].
  rewrite !(proj2 (Z.leb_le _ _)), !(proj2 (Z.ltb_lt _ _)) by lia. cbn [andb]. f_equal.
  unfold stampTime, dateSeconds. cbn [ts_month ts_day ts_year ts_hour ts_min ts_sec ts_nsec ts_offset].
  pose proof (Z.div_mod t Second ltac:(done)). pose proof (Z.div_mod (t / Second) 86400 ltac:(lia)).
  destruct Hh as (_ & _ & _ & Hsum), Hc as (_ & _ & Hdays). subst s. rewrite Hdays.
  replace (_ - 0) with (t / Second) by lia. lia.
Qed.

(** ** Base64 *)

Definition b64StdChar (v : Z) : Z :=
  if v <? 26 then 65 + v else if v <? 52 then 71 + v else if v <? 62 then v - 4
  else if v =? 62 then 43 else 47.

Fixpoint b64Encode (b : list byte) : list Z :=
  match b with
  | [] => []
  | [x] =>
      let x := byteZ x in
      [b64StdChar (x / 4); b64StdChar (x mod 4 * 16); 61; 61]
  | [x; y] =>
      let x := byteZ x in let y := byteZ y in
      [b64StdChar (x / 4); b64StdChar (x mod 4 * 16 + y / 16); b64StdChar (y mod 16 * 4); 61]
  | x :: y :: z :: t =>
      let x := byteZ x in let y := byteZ y in let z := byteZ z in
      b64StdChar (x / 4) :: b64StdChar (x mod 4 * 16 + y / 16)
      :: b64StdChar (y mod 16 * 4 + z / 64) :: b64StdChar (z mod 64) :: b64Encode t
  end.

Definition base64StdEncode (b : list byte) : string := ofCodes (b64Encode b).

Lemma b64StdValue_char v : 0 <= v < 64 -> b64StdValue (b64StdChar v) = Some v.
Proof.
  intros Hv. unfold b64StdChar, b64StdValue, b64Value, inRange.
  destruct (Z.ltb_spec v 26), (Z.ltb_spec v 52), (Z.ltb_spec v 62), (Z.eqb_spec v 62); try lia;
    repeat case_match; bool_to_prop; simplify_eq/=; try lia; f_equal; lia.
Qed.

Lemma b64StdChar_byte v : 0 <= v < 64 -> 0 <= b64StdChar v < 256 /\ b64StdChar v <> 10 /\ b64StdChar v <> 13.
Proof.
  intros Hv. unfold b64StdChar. repeat case_match; bool_to_prop; lia.
Qed.

(** The characters printed are neither line breaks nor beyond ASCII. *)
Definition b64Text (l : list Z) : Prop := Forall (fun c => 0 <= c < 256 /\ c <> 10 /\ c <> 13) l.

Ltac sextets := Z.to_euclidean_division_equations; lia.

Lemma bytes_ind3 (P : list byte -> Prop) :
  P [] -> (forall x, P [x]) -> (forall x y, P [x; y]) ->
  (forall x y z t, P t -> P (x :: y :: z :: t)) -> forall b, P b.
Proof.
  intros H0 H1 H2 H3 b. remember (length b) as n eqn:En. revert b En.
  induction n as [n IH] using lt_wf_ind. intros [|x [|y [|z t]]] ->; auto.
  apply H3. eapply IH; [|done]. cbn. lia.
Qed.

Lemma b64Encode_text b : b64Text (b64Encode b).
Proof.
  induction b as [|x|x y|x y z t IH] using bytes_ind3; cbn [b64Encode]; repeat constructor;
    try (apply b64StdChar_byte; pose proof (byteZ_range x); try pose proof (byteZ_range y);
         try pose proof (byteZ_range z); sextets); try lia; try done.
Qed.

Lemma b64Groups_encode b : b64StdGroups (b64Encode b) = Some (map byteZ b).
Proof.
  assert (Heq : b64StdValue 61 = None) by done.
  induction b as [|x|x y|x y z t IH] using bytes_ind3; cbn [b64Encode b64StdGroups map]; [done|..];
    pose proof (byteZ_range x); try pose proof (byteZ_range y); try pose proof (byteZ_range z);
    rewrite ?b64StdValue_char, ?Heq by sextets; cbn [andb]; rewrite ?Z.eqb_refl.
  - cbn [andb]. rewrite bool_decide_eq_true_2 by done. do 2 f_equal. sextets.
  - cbn [andb]. rewrite bool_decide_eq_true_2 by done. do 2 f_equal; [sextets|f_equal; sextets].
  - rewrite IH. do 2 f_equal; [sextets|f_equal; [sextets|f_equal; sextets]].
Qed.

(** What is encoded is decoded again. *)
Lemma base64Std_roundtrip b : base64StdDecode (base64StdEncode b) = Some (map byteZ b).
Proof.
  pose proof (b64Encode_text b) as Ht. unfold base64StdDecode, base64StdEncode.
  rewrite codes_ofCodes by (eapply Forall_impl; [exact Ht|]; intros c (? & ? & ?); done).
  transitivity (b64StdGroups (b64Encode b)); [|apply b64Groups_encode]. f_equal.
  induction Ht as [|c l (_ & H10 & H13) _ IH]; [done|].
  rewrite filter_cons_True, IH; [done|].
  by rewrite (proj2 (Z.eqb_neq _ _) H10), (proj2 (Z.eqb_neq _ _) H13).
Qed.
