(* ===== verification/Progress.v ===== *)
(** * Transfers with a progress bar: [pkg/progressbar/progressbar.go]

    The client sends files to the agent and receives files from it in chunks, and draws a
    progress bar after every chunk.  A transfer threads the bar, the console and the stream
    through its loop; [None] is a panic of the program.  The console (its width, the errors
    of writing to it and the colours of the package [color]) is the class [Console]; a file
    is the reads it gives. *)

From stdpp Require Import base list strings.
From Stdlib Require Import ZArith Lia Strings.Byte.
From S2P Require Import Prelude GoStrings Errors GoNumbers AgentApi.

(** [color.New(c).Sprint] and the terminal; answers may depend on what was written before. *)
Class Console := {
  terminalWidth : list string -> result error Z;
  writeStdout : list string -> string -> option error;
  paint : string -> string -> string }.

(** What was written, and whether the warning that no bar can be drawn was given. *)
Record console := mkConsole { con_out : list string; con_warnOnlyOnce : bool }.

Record ProgressBar := mkBar {
  numberOfBytes : Z; currentUploadedBytes : Z; currentUploadPercentage : Z;
  description : string; maxWidth : Z; isDownload : bool }.

Definition New (isDownload : bool) : ProgressBar := mkBar 0 0 0 "" 0 isDownload.

Definition reset (desc : string) (totalBytes : Z) (p : ProgressBar) : ProgressBar :=
  mkBar totalBytes 0 0 desc (maxWidth p) (isDownload p).

Definition withMaxWidth (w : Z) (p : ProgressBar) : ProgressBar :=
  mkBar (numberOfBytes p) (currentUploadedBytes p) (currentUploadPercentage p) (description p)
    w (isDownload p).
Definition asDownload (p : ProgressBar) : ProgressBar :=
  mkBar (numberOfBytes p) (currentUploadedBytes p) (currentUploadPercentage p) (description p)
    (maxWidth p) true.

Definition errExceeds : error := ErrNew "progress update exceeds total bytes".

(** The division panics when no bytes are expected. *)
Definition updateProgress (bytesRead : Z) (p : ProgressBar) : option (option error * ProgressBar) :=
  let current := currentUploadedBytes p + bytesRead in
  if numberOfBytes p <? current then Some (Some errExceeds, p)
  else if numberOfBytes p =? 0 then None
  else Some (None, mkBar (numberOfBytes p) current (Z.quot (wrapS 64 (current * 100)) (numberOfBytes p))
                     (description p) (maxWidth p) (isDownload p)).

(** [strings.Repeat] panics for a negative count. *)
Fixpoint repeatN (n : nat) (s : string) : string :=
  match n with O => "" | S k => s +:+ repeatN k s end.
Definition Repeat (s : string) (count : Z) : option string :=
  if count <? 0 then None else Some (repeatN (Z.to_nat count) s).

Definition CR : string := ofCodes [13].
Definition NL : string := ofCodes [10].

Section console.
Context `{Console}.

Definition write (s : string) (c : console) : option error * console :=
  match writeStdout (con_out c) s with
  | Some e => (Some e, c)
  | None => (None, mkConsole (con_out c ++ [s]) (con_warnOnlyOnce c))
  end.

Definition emojiOf (p : ProgressBar) : string :=
  if Contains (description p) "data" then "📦 " else if isDownload p then "📥 " else "🚀 ".

(** What stands before the bar. *)
Definition barHead (p : ProgressBar) : string :=
  paint "yellow" (emojiOf p) +:+ paint "yellow" (description p +:+ " ") +:+ paint "blue" "[".

Definition progressWidth (width : Z) (p : ProgressBar) : Z := width - slen (barHead p) - slen "] [100%]".

Definition numOfCharactersBody (width : Z) (p : ProgressBar) : Z :=
  let n := Z.quot (progressWidth width p * currentUploadPercentage p) 100 in
  if n =? 0 then 1 else n.

Definition barText (width : Z) (p : ProgressBar) : option string :=
  let body := numOfCharactersBody width p in
  blocks ← Repeat "█" body;
  padding ← Repeat "░" (progressWidth width p - body);
  Some (barHead p +:+ paint "green" blocks +:+ padding +:+ paint "blue" "]"
        +:+ paint "green" (" [" +:+ Itoa (currentUploadPercentage p) +:+ "%]")).

Definition clearProgressBar (p : ProgressBar) (c : console) : option (option error * console) :=
  blank ← Repeat " " (maxWidth p); Some (write (CR +:+ blank +:+ CR) c).

Definition renderProgressBar (p : ProgressBar) (c : console)
    : option (option error * ProgressBar * console) :=
  match terminalWidth (con_out c) with
  | Err _ =>
      if con_warnOnlyOnce c then Some (None, p, c)
      else Some (None, p, mkConsole (con_out c ++ [paint "red" ("Progress bar could not be rendered" +:+ NL)]) true)
  | Ok width =>
      let p := if maxWidth p <? width then withMaxWidth width p else p in
      '(e, c) ← clearProgressBar p c;
      match e with
      | Some _ => Some (Some (ErrNew "failed to clear progress bar"), p, c)
      | None =>
          text ← barText width p;
          let '(e, c) := write text c in
          Some (option_map (fun _ => ErrNew "failed to write string") e, p, c)
      end
  end.

(** ** Sending *)

(** [file.Stat] and the successful reads of a file; then [io.EOF] or another error. *)
Record osFile := mkFile { f_size : result error Z; f_reads : list (list byte); f_err : option error }.

(** A client stream: [Send] after the messages sent, and [CloseAndRecv] after the last. *)
Record clientStream (M : Type) := mkStream {
  cs_Send : list M -> M -> option error; cs_CloseAndRecv : list M -> option error }.
#[global] Arguments cs_Send {M}. #[global] Arguments cs_CloseAndRecv {M}. #[global] Arguments mkStream {M}.

Record transfer (M : Type) := mkTransfer { tf_bar : ProgressBar; tf_console : console; tf_sent : list M }.
#[global] Arguments mkTransfer {M}. #[global] Arguments tf_bar {M}.
#[global] Arguments tf_console {M}. #[global] Arguments tf_sent {M}.

(** One chunk: count it, send it, draw the bar. *)
Definition sendChunk {M} (stream : clientStream M) (createRequest : list byte -> M) (buf : list byte)
    (t : transfer M) : option (option error * transfer M) :=
  '(e, p) ← updateProgress (len buf) (tf_bar t);
  let t := mkTransfer p (tf_console t) (tf_sent t) in
  match e with
  | Some e => Some (Some e, t)
  | None =>
      let req := createRequest buf in
      match cs_Send stream (tf_sent t) req with
      | Some e => Some (Some e, t)
      | None =>
          '(e, p, c) ← renderProgressBar p (tf_console t);
          Some (e, mkTransfer p c (tf_sent t ++ [req]))
      end
  end.

Fixpoint sendReads {M} (stream : clientStream M) (createRequest : list byte -> M)
    (reads : list (list byte)) (err : option error) (t : transfer M) : option (option error * transfer M) :=
  match reads with
  | [] => Some (err, t)
  | buf :: rest =>
      '(e, t) ← sendChunk stream createRequest buf t;
      match e with
      | Some e => Some (Some e, t)
      | None => sendReads stream createRequest rest err t
      end
  end.

Definition sendBuffer {M} (file : osFile) (stream : clientStream M) (createRequest : list byte -> M)
    : transfer M -> option (option error * transfer M) :=
  sendReads stream createRequest (f_reads file) (f_err file).

(** The end of both uploads: a new line, and the answer of the agent. *)
Definition finishUpload {M} (stream : clientStream M) (t : transfer M) : option error * transfer M :=
  match write NL (tf_console t) with
  | (Some e, c) => (Some e, mkTransfer (tf_bar t) c (tf_sent t))
  | (None, c) => (cs_CloseAndRecv stream (tf_sent t), mkTransfer (tf_bar t) c (tf_sent t))
  end.

Definition fileSize (f : osFile) : result error Z := f_size f.

Definition SendAlgorithm (desc : string) (algo : osFile) (req : option osFile)
    (stream : clientStream AlgoRequest) (p : ProgressBar) (c : console)
    : option (option error * transfer AlgoRequest) :=
  let sizes :=
    let* a := fileSize algo in
    let* r := match req with None => Ok 0 | Some f => fileSize f end in
    Ok (a + r) in
  match sizes with
  | Err e => Some (Some e, mkTransfer p c [])
  | Ok totalSize =>
      let t := mkTransfer (reset desc totalSize p) c [] in
      '(e, t) ← match req with
                | None => Some (None, t)
                | Some f => sendBuffer f stream (fun data => mkAlgoRequest [] data) t
                end;
      match e with
      | Some e => Some (Some e, t)
      | None =>
          '(e, t) ← sendBuffer algo stream (fun data => mkAlgoRequest data []) t;
          match e with
          | Some e => Some (Some e, t)
          | None => Some (finishUpload stream t)
          end
      end
  end.

Definition SendData (desc filename : string) (file : osFile) (stream : clientStream DataRequest)
    (p : ProgressBar) (c : console) : option (option error * transfer DataRequest) :=
  match fileSize file with
  | Err e => Some (Some e, mkTransfer p c [])
  | Ok size =>
      '(e, t) ← sendBuffer file stream (fun data => mkDataRequest data filename)
                  (mkTransfer (reset desc size p) c []);
      match e with
      | Some e => Some (Some e, t)
      | None => Some (finishUpload stream t)
      end
  end.

(** ** Receiving *)

(** [file.Write] after what the file holds. *)
Class ResultFile := { writeFileErr : list byte -> list byte -> option error }.
Context `{ResultFile}.

Record download := mkDownload { dl_bar : ProgressBar; dl_console : console; dl_file : list byte }.

Definition receiveChunk (chunk : list byte) (d : download) : option (option error * download) :=
  '(e, p) ← updateProgress (len chunk) (dl_bar d);
  let d := mkDownload p (dl_console d) (dl_file d) in
  match e with
  | Some e => Some (Some e, d)
  | None =>
      match writeFileErr (dl_file d) chunk with
      | Some e => Some (Some e, d)
      | None =>
          let d := mkDownload p (dl_console d) (dl_file d ++ chunk) in
          '(e, p, c) ← renderProgressBar p (dl_console d);
          Some (e, mkDownload p c (dl_file d))
      end
  end.

(** [recv] gives the chunk of a message and updates what it keeps, or panics. *)
Fixpoint receiveLoop {M X} (recv : M -> X -> option (list byte * X)) (msgs : list M) (err : option error)
    (x : X) (d : download) : option (option error * X * download) :=
  match msgs with
  | [] =>
      match err with
      | Some e => Some (Some e, x, d)
      | None =>
          let '(e, c) := write NL (dl_console d) in Some (e, x, mkDownload (dl_bar d) c (dl_file d))
      end
  | m :: rest =>
      '(chunk, x) ← recv m x;
      '(e, d) ← receiveChunk chunk d;
      match e with
      | Some e => Some (Some e, x, d)
      | None => receiveLoop recv rest err x d
      end
  end.

Definition receiveStream {M X} (desc : string) (totalSize : Z) (recv : M -> X -> option (list byte * X))
    (stream : recvStream M) (x : X) (p : ProgressBar) (c : console)
    : option (option error * X * download) :=
  receiveLoop recv (rv_msgs stream) (rv_err stream) x
    (mkDownload (asDownload (reset desc totalSize p)) c []).

Definition recvFile (file : list byte) (x : unit) : option (list byte * unit) := Some (file, x).
Definition ReceiveResult (desc : string) (totalSize : Z) (stream : recvStream (list byte)) :=
  receiveStream desc totalSize recvFile stream tt.
Definition ReceiveAttestation (desc : string) (totalSize : Z) (stream : recvStream (list byte)) :=
  receiveStream desc totalSize recvFile stream tt.

(** A message of the IMA stream; the capacity of [Pcr10] may exceed its length. *)
Record imaResponse := mkIma { im_File : list byte; im_Pcr10 : list byte; im_spare : list byte }.

(** [response.Pcr10[:20]] is copied before the chunk is counted. *)
Definition recvIma (m : imaResponse) (pcr10 : list byte) : option (list byte * list byte) :=
  v ← resliceTo 20 (im_Pcr10 m) (im_spare m); Some (im_File m, v).
Definition ReceiveIMAMeasurements (desc : string) (totalSize : Z) (stream : recvStream imaResponse) :=
  receiveStream desc totalSize recvIma stream (replicate 20 x00).
End console.

(** ** The bar *)

(** The counters of a bar that a transfer of the announced size keeps. *)
Definition barOk (p : ProgressBar) : Prop :=
  0 <= currentUploadedBytes p /\ 0 <= currentUploadPercentage p <= 100 /\ 0 <= maxWidth p
  /\ currentUploadedBytes p <= numberOfBytes p /\ numberOfBytes p * 100 <= maxInt64.

Lemma updateProgress_ok n p :
  barOk p -> 0 <= n -> currentUploadedBytes p + n <= numberOfBytes p -> 0 < numberOfBytes p ->
  exists p', updateProgress n p = Some (None, p') /\ barOk p'
    /\ currentUploadedBytes p' = currentUploadedBytes p + n /\ numberOfBytes p' = numberOfBytes p
    /\ description p' = description p /\ isDownload p' = isDownload p.
Proof.
  intros (H1 & H2 & H3 & H4 & H5) Hn Hle Hpos. unfold updateProgress.
  rewrite (proj2 (Z.ltb_ge _ _)), (proj2 (Z.eqb_neq _ _)) by lia. eexists. split; [done|].
  unfold barOk. cbn [numberOfBytes currentUploadedBytes currentUploadPercentage maxWidth description isDownload].
  rewrite wrapS_64_small by (unfold minInt64; lia). rewrite Z.quot_div_nonneg by lia.
  assert (0 <= (currentUploadedBytes p + n) * 100 / numberOfBytes p <= 100); [|by repeat split; try lia].
  split; [apply Z.div_pos; lia|]. apply Z.div_le_upper_bound; lia.
Qed.

(** The percentage shown is between 0 and 100 and follows the bytes counted, as long as
    the counting does not fail; a chunk that would exceed the announced size is refused. *)
Theorem percentage_bounded n p e p' :
  barOk p -> 0 <= n -> updateProgress n p = Some (e, p') ->
  barOk p' /\ match e with
              | None => currentUploadedBytes p' = currentUploadedBytes p + n
              | Some _ => p' = p /\ numberOfBytes p < currentUploadedBytes p + n
              end.
Proof.
  intros Hp Hn Hu. destruct (Z.ltb_spec (numberOfBytes p) (currentUploadedBytes p + n)) as [Hlt|Hle].
  - unfold updateProgress in Hu. rewrite (proj2 (Z.ltb_lt _ _) Hlt) in Hu. injection Hu as <- <-. done.
  - destruct (Z.eq_dec (numberOfBytes p) 0) as [H0|H0].
    + unfold updateProgress in Hu. rewrite (proj2 (Z.ltb_ge _ _)) in Hu by lia. by rewrite H0 in Hu.
    + destruct (updateProgress_ok n p Hp Hn) as (q & Hq & Hok & Hc & _); [lia|unfold barOk in Hp; lia|].
      rewrite Hq in Hu. by injection Hu as <- <-.
Qed.

(** An empty chunk when no bytes are announced stops the program. *)
Theorem empty_chunk_panics p :
  numberOfBytes p = 0 -> currentUploadedBytes p = 0 -> updateProgress 0 p = None.
Proof. intros Hn Hc. unfold updateProgress. by rewrite Hn, Hc. Qed.

Section drawing.
Context `{Console}.

Lemma Repeat_Some s n : 0 <= n -> exists r, Repeat s n = Some r.
Proof. intros Hn. unfold Repeat. rewrite (proj2 (Z.ltb_ge _ _)) by lia. eauto. Qed.

(** The bar fits exactly when there is room for one character. *)
Lemma barText_None width p :
  0 <= currentUploadPercentage p <= 100 -> barText width p = None <-> progressWidth width p <= 0.
Proof.
  intros Hp. unfold barText, numOfCharactersBody. set (w := progressWidth width p).
  set (pct := currentUploadPercentage p) in *.
  destruct (Z.leb_spec w 0) as [Hw|Hw].
  - split; [done|]. intros _. unfold Repeat.
    assert (Hq : Z.quot (w * pct) 100 <= 0).
    { rewrite <- (Z.opp_involutive (w * pct)), Z.quot_opp_l by lia.
      assert (0 <= Z.quot (- (w * pct)) 100) by (apply Z.quot_pos; nia). lia. }
    destruct (Z.eqb_spec (Z.quot (w * pct) 100) 0).
    + cbn [Z.ltb Z.compare mbind option_bind]. rewrite (proj2 (Z.ltb_lt _ _)) by lia. done.
    + rewrite (proj2 (Z.ltb_lt (Z.quot (w * pct) 100) 0)) by lia. done.
  - split; [|lia]. assert (Hq : 0 <= Z.quot (w * pct) 100 <= w).
    { rewrite Z.quot_div_nonneg by nia. split; [apply Z.div_pos; nia|apply Z.div_le_upper_bound; nia]. }
    destruct (Repeat_Some "█" (if Z.quot (w * pct) 100 =? 0 then 1 else Z.quot (w * pct) 100)) as [r1 ->];
      [destruct (_ =? _); lia|].
    destruct (Repeat_Some "░" (w - (if Z.quot (w * pct) 100 =? 0 then 1 else Z.quot (w * pct) 100))) as [r2 Hr2];
      [destruct (Z.eqb_spec (Z.quot (w * pct) 100) 0); lia|].
    cbn [mbind option_bind]. by rewrite Hr2.
Qed.

Lemma progressWidth_same width p q :
  description p = description q -> isDownload p = isDownload q ->
  progressWidth width p = progressWidth width q.
Proof. unfold progressWidth, barHead, emojiOf. by intros -> ->. Qed.

(** The bar after its width was noted. *)
Definition widened (width : Z) (p : ProgressBar) : ProgressBar :=
  if maxWidth p <? width then withMaxWidth width p else p.
Lemma widened_same width p :
  description (widened width p) = description p /\ isDownload (widened width p) = isDownload p
  /\ numberOfBytes (widened width p) = numberOfBytes p
  /\ currentUploadedBytes (widened width p) = currentUploadedBytes p
  /\ currentUploadPercentage (widened width p) = currentUploadPercentage p
  /\ maxWidth (widened width p) = Z.max width (maxWidth p).
Proof. unfold widened. destruct (Z.ltb_spec (maxWidth p) width); cbn; repeat split; lia. Qed.
Lemma widened_barOk width p : barOk p -> barOk (widened width p).
Proof. unfold barOk. destruct (widened_same width p) as (_ & _ & -> & -> & -> & ->). lia. Qed.

(** A console that takes everything, and on which the bar of a transfer fits or cannot be
    drawn at all. *)
Definition roomy (desc : string) (dl : bool) : Prop :=
  (forall out s, writeStdout out s = None) /\
  forall out width p, terminalWidth out = Ok width -> description p = desc -> isDownload p = dl ->
    0 < progressWidth width p.

Lemma renderProgressBar_ok p c :
  roomy (description p) (isDownload p) -> barOk p ->
  exists p' c', renderProgressBar p c = Some (None, p', c') /\ barOk p'
    /\ description p' = description p /\ isDownload p' = isDownload p
    /\ numberOfBytes p' = numberOfBytes p /\ currentUploadedBytes p' = currentUploadedBytes p.
Proof.
  intros [Hw Hr] Hp. unfold renderProgressBar. destruct (terminalWidth (con_out c)) as [width|] eqn:Et;
    [|destruct (con_warnOnlyOnce c); eauto 10].
  fold (widened width p). destruct (widened_same width p) as (E1 & E2 & E3 & E4 & E5 & _).
  pose proof (widened_barOk width p Hp) as Hp'. set (q := widened width p) in *.
  unfold clearProgressBar. destruct (Repeat_Some " " (maxWidth q)) as [blank ->]; [unfold barOk in Hp'; lia|].
  cbn [mbind option_bind]. unfold write. rewrite !Hw.
  destruct (barText width q) as [text|] eqn:Eb.
  - cbn [mbind option_bind]. rewrite Hw. exists q. eauto 10.
  - apply barText_None in Eb; [|unfold barOk in Hp'; lia]. specialize (Hr _ _ q Et E1 E2). lia.
Qed.

(** Drawing stops the program exactly when the terminal is too narrow: the head of the bar
    (its bytes, colour codes included) and eight characters leave no room for the bar. *)
Theorem narrow_terminal_panics width p c :
  terminalWidth (con_out c) = Ok width -> barOk p -> (forall out s, writeStdout out s = None) ->
  renderProgressBar p c = None <-> width <= slen (barHead p) + 8.
Proof.
  intros Et Hp Hw. destruct (widened_same width p) as (E1 & E2 & E3 & E4 & E5 & _).
  pose proof (widened_barOk width p Hp) as Hp'.
  assert (Hbar : barText width (widened width p) = None <-> width <= slen (barHead p) + 8).
  { rewrite barText_None by (unfold barOk in Hp'; lia). rewrite (progressWidth_same _ _ p) by done.
    unfold progressWidth. change (slen "] [100%]") with 8. lia. }
  unfold renderProgressBar. rewrite Et. fold (widened width p). rewrite <- Hbar. set (q := widened width p) in *.
  unfold clearProgressBar. destruct (Repeat_Some " " (maxWidth q)) as [blank ->]; [unfold barOk in Hp'; lia|].
  cbn [mbind option_bind]. unfold write. rewrite !Hw.
  destruct (barText width q); cbn [mbind option_bind]; [by rewrite Hw|done].
Qed.
End drawing.

(** ** Transfers *)

(** A bar in the middle of a transfer of which [rest] bytes are to come. *)
Definition expecting (desc : string) (dl : bool) (rest : Z) (p : ProgressBar) : Prop :=
  barOk p /\ description p = desc /\ isDownload p = dl
  /\ currentUploadedBytes p + rest <= numberOfBytes p.

Lemma expecting_reset desc total p :
  0 <= maxWidth p -> 0 <= total -> total * 100 <= maxInt64 ->
  expecting desc (isDownload p) total (reset desc total p).
Proof. intros. repeat split; cbn; try lia; try done. Qed.

Lemma count_chunk desc dl rest n p :
  expecting desc dl rest p -> 0 < n <= rest ->
  exists p', updateProgress n p = Some (None, p') /\ expecting desc dl (rest - n) p'.
Proof.
  intros (Hok & Hd & Hl & Hr) Hn. destruct (updateProgress_ok n p Hok) as (p' & Hu & Hok' & Hc & Hb & Hd' & Hl');
    [lia| |unfold barOk in Hok; lia|]; [lia|].
  exists p'. split; [done|]. repeat split; [apply Hok'..|congruence|congruence|lia].
Qed.

Section transfers.
Context `{Console}.

Lemma draw desc dl rest p c :
  roomy desc dl -> expecting desc dl rest p ->
  exists p' c', renderProgressBar p c = Some (None, p', c') /\ expecting desc dl rest p'.
Proof.
  intros Hr (Hok & Hd & Hl & Hrest). destruct (renderProgressBar_ok p c) as (p' & c' & E & Hok' & Hd' & Hl' & Hb & Hc);
    [by rewrite Hd, Hl|done|].
  exists p', c'. split; [done|]. repeat split; [apply Hok'..|congruence|congruence|lia].
Qed.

Section sending.
Context {M : Type} (stream : clientStream M) (createRequest : list byte -> M).
Context (Hsend : forall sent m, cs_Send stream sent m = None).
Context (desc : string) (dl : bool) (Hroomy : roomy desc dl).

Lemma sendChunk_ok buf rest t :
  expecting desc dl rest (tf_bar t) -> 0 < len buf <= rest ->
  exists t', sendChunk stream createRequest buf t = Some (None, t')
    /\ expecting desc dl (rest - len buf) (tf_bar t') /\ tf_sent t' = tf_sent t ++ [createRequest buf].
Proof.
  intros He Hb. unfold sendChunk. destruct (count_chunk _ _ _ _ _ He Hb) as (p & -> & He').
  cbn [mbind option_bind tf_sent tf_console]. rewrite Hsend.
  destruct (draw desc dl _ p (tf_console t) Hroomy He') as (p' & c' & -> & He''). cbn [mbind option_bind]. eauto.
Qed.

(** A transfer on a console with room sends every read, and ends as reading does. *)
Lemma sendReads_ok reads err : forall rest t,
  Forall (fun b => b <> []) reads -> expecting desc dl (len (concat reads) + rest) (tf_bar t) -> 0 <= rest ->
  exists t', sendReads stream createRequest reads err t = Some (err, t')
    /\ expecting desc dl rest (tf_bar t') /\ tf_sent t' = tf_sent t ++ map createRequest reads.
Proof.
  induction reads as [|buf reads IH]; intros rest t Hne He Hrest; cbn [sendReads map concat] in *.
  - exists t. rewrite app_nil_r. split; [done|]. split; [|done]. by rewrite len_nil, Z.add_0_l in He.
  - apply Forall_cons in Hne as [Hb Hne]. rewrite len_app in He. pose proof (len_nonneg (concat reads)).
    assert (0 < len buf) by (destruct buf; [done|]; rewrite len_cons; pose proof (len_nonneg buf); lia).
    destruct (sendChunk_ok buf _ t He) as (t1 & -> & He1 & Hs1); [lia|]. cbn [mbind option_bind].
    destruct (IH rest t1 Hne) as (t2 & -> & He2 & Hs2); [|done|].
    + by replace (len (concat reads) + rest) with (len buf + len (concat reads) + rest - len buf) by lia.
    + exists t2. split; [done|]. split; [done|]. by rewrite Hs2, Hs1, <- app_assoc.
Qed.
End sending.

(** Without any assumption: when sending reports no error, every read has been sent. *)
Lemma sendReads_sent {M} (stream : clientStream M) createRequest reads err : forall t t',
  sendReads stream createRequest reads err t = Some (None, t') ->
  err = None /\ tf_sent t' = tf_sent t ++ map createRequest reads.
Proof.
  induction reads as [|buf reads IH]; intros t t'; cbn [sendReads map].
  - intros [= -> ->]. by rewrite app_nil_r.
  - destruct (sendChunk stream createRequest buf t) as [[[e|] t1]|] eqn:E; cbn [mbind option_bind]; [done| |done].
    intros [He Hs]%IH. split; [done|]. rewrite Hs, cons_middle, app_assoc. f_equal. revert E. unfold sendChunk.
    destruct (updateProgress _ _) as [[[e|] p]|]; cbn [mbind option_bind]; [done| |done].
    destruct (cs_Send _ _ _); [done|].
    destruct (renderProgressBar _ _) as [[[e p'] c]|]; cbn [mbind option_bind]; [|done]. by intros [= -> <-].
Qed.

(** *** Receiving *)
Context `{ResultFile}.

Section receiving.
Context {M X : Type} (recv : M -> X -> option (list byte * X)) (chunkOf : M -> list byte).
Context (Hfile : forall old new, writeFileErr old new = None).
Context (desc : string) (Hroomy : roomy desc true).

Lemma receiveChunk_ok chunk rest d :
  expecting desc true rest (dl_bar d) -> 0 < len chunk <= rest ->
  exists d', receiveChunk chunk d = Some (None, d')
    /\ expecting desc true (rest - len chunk) (dl_bar d') /\ dl_file d' = dl_file d ++ chunk.
Proof.
  intros He Hb. unfold receiveChunk. destruct (count_chunk _ _ _ _ _ He Hb) as (p & -> & He').
  cbn [mbind option_bind dl_file dl_console]. rewrite Hfile.
  destruct (draw desc true _ p (dl_console d) Hroomy He') as (p' & c' & -> & He''). cbn [mbind option_bind]. eauto.
Qed.

Lemma receiveLoop_app msgs tail err : forall x rest d,
  Forall (fun m => chunkOf m <> [] /\ forall x, exists x', recv m x = Some (chunkOf m, x')) msgs ->
  expecting desc true (len (concat (map chunkOf msgs)) + rest) (dl_bar d) -> 0 <= rest ->
  exists x' d', receiveLoop recv (msgs ++ tail) err x d = receiveLoop recv tail err x' d'
    /\ expecting desc true rest (dl_bar d') /\ dl_file d' = dl_file d ++ concat (map chunkOf msgs).
Proof.
  induction msgs as [|m msgs IH]; intros x rest d Hm He Hrest; cbn [app map concat] in *.
  - exists x, d. rewrite app_nil_r. split; [done|]. split; [|done]. by rewrite len_nil, Z.add_0_l in He.
  - apply Forall_cons in Hm as [[Hb Hr] Hm]. rewrite len_app in He.
    pose proof (len_nonneg (concat (map chunkOf msgs))).
    assert (0 < len (chunkOf m)).
    { destruct (chunkOf m) as [|b l]; [done|]. rewrite len_cons. pose proof (len_nonneg l). lia. }
    destruct (Hr x) as [x1 Hx]. cbn [receiveLoop]. rewrite Hx. cbn [mbind option_bind].
    destruct (receiveChunk_ok (chunkOf m) _ d He) as (d1 & -> & He1 & Hf1); [lia|]. cbn [mbind option_bind].
    destruct (IH x1 rest d1 Hm) as (x2 & d2 & -> & He2 & Hf2); [|done|].
    + by match goal with |- expecting _ _ ?z _ =>
        replace z with (len (chunkOf m) + len (concat (map chunkOf msgs)) + rest - len (chunkOf m)) by lia end.
    + exists x2, d2. split; [done|]. split; [done|]. by rewrite Hf2, Hf1, <- app_assoc.
Qed.
End receiving.

(** Without any assumption: when a download reports no error, the file holds the chunks, and
    they are not longer than announced. *)
Lemma receiveLoop_file msgs err : forall x d x' d',
  receiveLoop recvFile msgs err x d = Some (None, x', d') ->
  err = None /\ dl_file d' = dl_file d ++ concat msgs.
Proof.
  induction msgs as [|m msgs IH]; intros x d x' d'; cbn [receiveLoop concat].
  - destruct err; [done|]. destruct (write _ _) as [e c]. intros [= -> <- <-]. by rewrite app_nil_r.
  - change (recvFile m x) with (Some (m, x)). cbn [mbind option_bind].
    destruct (receiveChunk m d) as [[[e|] d1]|] eqn:E; cbn [mbind option_bind]; [done| |done].
    intros [He Hs]%IH. split; [done|]. rewrite Hs, app_assoc. f_equal. revert E. unfold receiveChunk.
    destruct (updateProgress _ _) as [[[e|] p]|]; cbn [mbind option_bind]; [done| |done].
    destruct (writeFileErr _ _); [done|].
    destruct (renderProgressBar _ _) as [[[e p'] c]|]; cbn [mbind option_bind]; [|done]. by intros [= -> <-].
Qed.
End transfers.

Module ProgressSample.
(** A terminal of 30 columns without colours. *)
#[export] Instance terminal : Console := {|
  terminalWidth _ := Ok 30; writeStdout _ _ := None; paint _ s := s |}.
Definition bar : ProgressBar := reset "Uploading algorithm" 10 (New false).
Definition screen : console := mkConsole [] false.

Lemma bar_ok : barOk bar.
Proof. repeat split; vm_compute; discriminate. Qed.

Lemma percentage_bounded_witness :
  exists p, updateProgress 5 bar = Some (None, p) /\ barOk p /\ currentUploadedBytes p = 5.
Proof.
  destruct (updateProgress 5 bar) as [[e p]|] eqn:E; [|discriminate].
  pose proof (percentage_bounded 5 bar e p bar_ok ltac:(discriminate) E) as [Hok He].
  destruct e; [discriminate|]. exists p. split; [reflexivity|]. split; [exact Hok|]. exact He.
Defined.

Lemma empty_chunk_panics_witness : updateProgress 0 (reset "Downloading result" 0 (New true)) = None.
Proof. apply (empty_chunk_panics (reset "Downloading result" 0 (New true))); reflexivity. Defined.

Lemma narrow_terminal_panics_witness : renderProgressBar bar screen = None.
Proof.
  apply (@narrow_terminal_panics terminal 30 bar screen eq_refl bar_ok (fun _ _ => eq_refl)).
  vm_compute. discriminate.
Defined.
End ProgressSample.
