(* ===== verification/Sdk.v ===== *)
(** * The client of the agent: [pkg/sdk/agent.go]

    A client signs its calls, uploads the algorithm and the data sets and downloads results
    and evidence.  The client is modelled against a record of the calls it makes; [agentOf]
    is the agent of AgentApi.v, with the interceptors and the authenticator of AgentAuth.v,
    as such a record, and the theorems of the last part are about the two together: that a
    signed call is authenticated, that files arrive as they were sent, and which calls the
    agent never takes. *)

From stdpp Require Import base gmap list strings.
From Stdlib Require Import ZArith Lia Strings.Byte.
From S2P Require Import Prelude GoStrings Errors GoTime GoNumbers GoEncoding GoFormat Sha2.
From S2P Require Import Oci AgentService EaAuthenticator AgentAuth AgentApi Progress.

Definition UserMetadataKey : string := "user-id".
Definition FileSizeKey : string := "file-size".

(** ** Signing *)

(** The private keys of the standard library; another value may still be a [crypto.Signer]. *)
Inductive SigningKey (P : Type) :=
| PrivEd25519 (k : P) | PrivRSA (k : P) | PrivECDSA (k : P) | OtherSigner | NotSigner.
Arguments PrivEd25519 {P}. Arguments PrivRSA {P}. Arguments PrivECDSA {P}.
Arguments OtherSigner {P}. Arguments NotSigner {P}.

Class Signing (P : Type) := {
  signEd25519 : P -> list byte -> result error (list byte);
  signPKCS1v15 : P -> list byte -> result error (list byte);
  signASN1 : P -> list byte -> result error (list byte) }.

Notation metadata := (gmap string (list string)).

Section signing.
Context {P : Type} `{Signing P}.

Definition signData (role method issuedAt nonce : string) (privKey : SigningKey P)
    : result error (list byte) :=
  let payload := signaturePayload role method issuedAt nonce in
  match privKey with
  | PrivEd25519 k => signEd25519 k payload
  | PrivRSA k => signPKCS1v15 k (Sum256 payload)
  | PrivECDSA k => signASN1 k (Sum256 payload)
  | OtherSigner | NotSigner => Err (ErrNew "unsupported key type")
  end.

(** [rand] is what [rand.Read] gives for the 16 bytes. *)
Definition newSignatureNonce (rand : result error (list byte)) : result error string :=
  let* nonce := rand in Ok (hexEncode nonce).

(** [None] is the panic of the assertion to [crypto.Signer]. *)
Definition generateMetadata (now : Time) (rand : result error (list byte)) (role method : string)
    (privateKey : SigningKey P) : option (result error metadata) :=
  let issuedAt := formatRFC3339Nano now in
  match newSignatureNonce rand with
  | Err e => Some (Err e)
  | Ok nonce =>
      match privateKey with
      | NotSigner => None
      | _ =>
          Some (let* signature := signData role method issuedAt nonce privateKey in
                Ok (<[UserMetadataKey := [role]]>
                    (<[SignatureMetadataKey := [base64StdEncode signature]]>
                     (<[SignatureTimestampMetadataKey := [issuedAt]]>
                      (<[SignatureNonceMetadataKey := [nonce]]> ∅)))))
      end
  end.

(** ** Calls *)

(** A stream from the agent: its header and its messages. *)
Record serverStream (M : Type) := mkServerStream {
  ss_Header : result error metadata; ss_recv : recvStream M }.
#[global] Arguments mkServerStream {M}. #[global] Arguments ss_Header {M}. #[global] Arguments ss_recv {M}.

(** [agent.AgentServiceClient]: each call with its outgoing metadata. *)
Record AgentServiceClient := mkClient {
  ac_Algo : metadata -> result error (clientStream AlgoRequest);
  ac_Data : metadata -> result error (clientStream DataRequest);
  ac_Result : metadata -> result error (serverStream (list byte));
  ac_Attestation : metadata -> AttestationRequest -> result error (serverStream (list byte));
  ac_IMAMeasurements : metadata -> result error (serverStream imaResponse);
  ac_AzureAttestationToken : metadata -> list byte -> result error (list byte) }.

(** [metadata.AppendToOutgoingContext] for every key. *)
Definition appendToOutgoing (ctx md : metadata) : metadata :=
  union_with (fun a b => Some (a ++ b)) ctx md.

Definition fileSizeOf (header : metadata) : result error Z :=
  Atoi (default "0" (head (default [] (header !! FileSizeKey)))).

Context `{Console, ResultFile} (client : AgentServiceClient).

(** What a call leaves: its error and the console. *)
Definition uploadOf {M} (r : option (option error * transfer M)) : option (option error * console) :=
  '(e, t) ← r; Some (e, tf_console t).

Definition sdkAlgo (now : Time) (rand : result error (list byte)) (ctx : metadata) (c : console)
    (algorithm : osFile) (requirements : option osFile) (privKey : SigningKey P)
    : option (option error * console) :=
  md ← generateMetadata now rand AlgorithmProviderRole AgentService_Algo privKey;
  match md with
  | Err e => Some (Some e, c)
  | Ok md =>
      match ac_Algo client (appendToOutgoing ctx md) with
      | Err e => Some (Some e, c)
      | Ok stream =>
          uploadOf (SendAlgorithm "Uploading algorithm" algorithm requirements stream (New false) c)
      end
  end.

Definition sdkData (now : Time) (rand : result error (list byte)) (ctx : metadata) (c : console)
    (dataset : osFile) (filename : string) (privKey : SigningKey P) : option (option error * console) :=
  md ← generateMetadata now rand DataProviderRole AgentService_Data privKey;
  match md with
  | Err e => Some (Some e, c)
  | Ok md =>
      match ac_Data client (appendToOutgoing ctx md) with
      | Err e => Some (Some e, c)
      | Ok stream => uploadOf (SendData "Uploading data" filename dataset stream (New false) c)
      end
  end.

(** The header and the transfer of a download: its error, what was kept and the file. *)
Definition receiveFrom {M X} (x : X) (stream : result error (serverStream M))
    (receive : Z -> recvStream M -> option (option error * X * download))
    : option (option error * X * list byte) :=
  match stream with
  | Err e => Some (Some e, x, [])
  | Ok s =>
      match ss_Header s with
      | Err e => Some (Some e, x, [])
      | Ok header =>
          match fileSizeOf header with
          | Err e => Some (Some e, x, [])
          | Ok size => '(e, x, d) ← receive size (ss_recv s); Some (e, x, dl_file d)
          end
      end
  end.

(** The context of the caller is replaced, not extended. *)
Definition sdkResult (now : Time) (rand : result error (list byte)) (c : console)
    (privKey : SigningKey P) : option (option error * unit * list byte) :=
  md ← generateMetadata now rand ConsumerRole AgentService_Result privKey;
  match md with
  | Err e => Some (Some e, tt, [])
  | Ok md =>
      receiveFrom tt (ac_Result client md)
        (fun size s => ReceiveResult "Downloading result" size s (New true) c)
  end.

Definition sdkAttestation (ctx : metadata) (c : console) (reportData nonce : list byte) (attType : Z)
    : option (option error * unit * list byte) :=
  receiveFrom tt (ac_Attestation client ctx (mkAttestationRequest reportData nonce (wrapS 32 attType)))
    (fun size s => ReceiveAttestation "Downloading attestation" size s (New true) c).

Definition sdkIMAMeasurements (ctx : metadata) (c : console)
    : option (option error * list byte * list byte) :=
  receiveFrom [] (ac_IMAMeasurements client ctx)
    (fun size s => ReceiveIMAMeasurements "Downloading Linux IMA measurements" size s (New true) c).

Definition sdkAttestationToken (ctx : metadata) (nonce : list byte) : option error * list byte :=
  match ac_AzureAttestationToken client ctx nonce with
  | Err e => (Some (Wrap (ErrNew "failed to fetch attestation token") e), [])
  | Ok file =>
      match writeFileErr [] file with
      | Some e => (Some (Wrap (ErrNew "failed to write attestation token to file") e), [])
      | None => (None, file)
      end
  end.
End signing.

(** ** The agent as the client meets it *)

Section agent.
Context {K P : Type} `{!AgentCrypto K, !Signing P, !Service}.

(** A stream that the agent ends with an error before its first message. *)
Definition refusedStream {M} (e : error) : serverStream M := mkServerStream (Ok ∅) (mkRecv [] (Some e)).

(** What arrives of the answer of a streaming handler. *)
Definition respond (res : result error (list byte)) : serverStream (list byte) :=
  match res with
  | Err e => refusedStream e
  | Ok fileData =>
      let '(e, out) := streamingHandler res (fun _ => None) (fun _ _ => None) in
      mkServerStream (Ok {[FileSizeKey := [Itoa (len fileData)]]}) (mkRecv out e)
  end.

(** A field of bytes is decoded into an array that may be longer, [spare]. *)
Definition respondIma (spare : list byte -> list byte) (res : result error (list byte * list byte))
    : serverStream imaResponse :=
  match res with
  | Err e => refusedStream e
  | Ok (file, pcr10) =>
      let '(e, out) := streamDualBuffers (fun _ _ => None) file pcr10 in
      mkServerStream (Ok {[FileSizeKey := [Itoa (len file)]]})
        (mkRecv (map (fun m => mkIma (fst m) (snd m) (spare (snd m))) out) e)
  end.

(** The agent with the authenticator in state [s]; it reads every message of an upload. *)
Definition agentOf (now1 now2 : Time) (spare : list byte -> list byte) (s : AgentAuth.service K)
    : AgentServiceClient :=
  let call {R} (method : string) (md : metadata) (handler : context -> R) : result error R :=
    fst (intercept now1 now2 method (mkRpc (Some md) None) (fun c => handler (serviceContext c)) s) in
  let stream {M} (r : result error (serverStream M)) : result error (serverStream M) :=
    match r with Err e => Ok (refusedStream e) | Ok st => Ok st end in
  let answer (r : result error (option error)) : option error :=
    match r with Err e => Some e | Ok r => r end in
  mkClient
    (fun md => Ok (mkStream (fun _ _ => None) (fun msgs =>
       answer (call AgentService_Algo md (fun c => Algo c (mkRecv msgs None))))))
    (fun md => Ok (mkStream (fun _ _ => None) (fun msgs =>
       answer (call AgentService_Data md (fun c => Data c (mkRecv msgs None))))))
    (fun md => stream (call AgentService_Result md (fun c => respond (resultEndpoint c))))
    (fun md req => stream (call AgentService_Attestation md (fun _ =>
       respond (let* r := decodeAttestationRequest req in attestationEndpoint r))))
    (fun md => stream (call AgentService_IMAMeasurements md (fun _ => respondIma spare imaMeasurementsEndpoint)))
    (fun md nonce =>
       match call AgentService_AzureAttestationToken md (fun _ => AzureTokenHandler nonce) with
       | Err e => Err e | Ok r => r end).

(** ** Unsigned calls *)

Lemma unsigned_refused {R} now1 now2 md role method (handler : rpcContext -> R) (s : AgentAuth.service K) :
  md !! SignatureMetadataKey = None -> methodRole method = Some role ->
  fst (intercept now1 now2 method (mkRpc (Some md) None) handler s) = Err Unauthenticated.
Proof.
  intros Hmd Hr. destruct (intercept_role now1 now2 method role (mkRpc (Some md) None) handler s Hr) as (next & -> & _).
  unfold authenticate, AuthenticateUser, readMetadata, extractSignature, extractMetadataValue.
  cbn [rpc_md]. by rewrite Hmd.
Qed.

Lemma unsigned_evidence `{Console, ResultFile} now1 now2 spare (s : AgentAuth.service K) ctx c
    reportData nonce attType :
  ctx !! SignatureMetadataKey = None ->
  sdkAttestation (agentOf now1 now2 spare s) ctx c reportData nonce attType = Some (Some Unauthenticated, tt, [])
  /\ (exists pcr10, sdkIMAMeasurements (agentOf now1 now2 spare s) ctx c = Some (Some Unauthenticated, pcr10, []))
  /\ exists e, sdkAttestationToken (agentOf now1 now2 spare s) ctx nonce = (Some e, []).
Proof.
  intros Hctx. unfold sdkAttestation, sdkIMAMeasurements, sdkAttestationToken, agentOf.
  cbn [ac_Attestation ac_IMAMeasurements ac_AzureAttestationToken].
  rewrite !(unsigned_refused _ _ _ ConsumerRole) by done. split; [done|]. by split; eexists.
Qed.

(** C38: the agent never answers the client's calls for evidence, for IMA measurements and for
    Azure tokens: it authenticates their caller, and the client does not sign them. *)
Theorem evidence_calls_refused `{Console, ResultFile} now1 now2 spare (s : AgentAuth.service K) ctx c
    reportData nonce attType :
  ctx !! SignatureMetadataKey = None ->
  sdkAttestation (agentOf now1 now2 spare s) ctx c reportData nonce attType = Some (Some Unauthenticated, tt, [])
  /\ (exists pcr10, sdkIMAMeasurements (agentOf now1 now2 spare s) ctx c = Some (Some Unauthenticated, pcr10, []))
  /\ exists e, sdkAttestationToken (agentOf now1 now2 spare s) ctx nonce = (Some e, []).
Proof. apply unsigned_evidence. Qed.
End agent.

(** ** Signed calls *)

(** What signing and verifying of the standard library promise. *)
Class KeyPairs (K P : Type) `{!AgentCrypto K, !Signing P} := {
  publicOf : P -> K;
  ed25519_pair p m sig : signEd25519 p m = Ok sig -> sig <> [] /\ verifyEd25519 (publicOf p) m sig = true;
  pkcs1v15_pair p h sig : signPKCS1v15 p h = Ok sig -> sig <> [] /\ verifyPKCS1v15 (publicOf p) h sig = None;
  asn1_pair p h sig : signASN1 p h = Ok sig -> sig <> [] /\ verifyASN1 (publicOf p) h sig = true }.

Section signed.
Context {K P : Type} `{KeyPairs K P}.

Definition publicKeyOf (k : SigningKey P) : PublicKey K :=
  match k with
  | PrivEd25519 k => PubEd25519 (publicOf k) | PrivRSA k => PubRSA (publicOf k)
  | PrivECDSA k => PubECDSA (publicOf k) | OtherSigner | NotSigner => PubOther
  end.

Lemma toByte_map b : map toByte (map byteZ b) = b.
Proof. rewrite map_map. rewrite <- (map_id b) at 2. apply map_ext. intros x. apply toByte_byteZ. Qed.

Lemma signed_verifies role method issuedAt nonce k sig :
  signData role method issuedAt nonce k = Ok sig ->
  sig <> [] /\ verifySignature role method issuedAt nonce (base64StdEncode sig) (publicKeyOf k) = None.
Proof.
  unfold signData, verifySignature, publicKeyOf. rewrite base64Std_roundtrip. rewrite toByte_map.
  destruct k as [k|k|k| |]; intros E; try done.
  - apply ed25519_pair in E as [? ->]. done.
  - by apply pkcs1v15_pair in E.
  - apply asn1_pair in E as [? ->]. done.
Qed.

Lemma firstKey_exists role method issuedAt nonce signature keys k : forall n,
  k ∈ keys -> verifySignature role method issuedAt nonce signature k = None ->
  exists i, firstKey role method issuedAt nonce signature keys n = Some i.
Proof.
  induction keys as [|k' keys IH]; intros n Hin Hv; [by apply elem_of_nil in Hin|]. cbn [firstKey].
  destruct (verifySignature role method issuedAt nonce signature k') eqn:E; [|eauto].
  apply elem_of_cons in Hin as [<-|Hin]; [congruence|]. by apply IH.
Qed.

(** A caller that may make a signed call: the agent has its key for the role, the clocks
    agree, and the nonce is fresh. *)
Record mayCall (now now1 now2 : Time) (rand : list byte) (role method : string) (ctx : metadata)
    (k : SigningKey P) (s : AgentAuth.service K) : Prop := mkMayCall {
  mc_key : publicKeyOf k ∈ roleKeys s role;
  mc_clock : now1 - maxSignatureAge <= now <= now1 + maxSignatureFutureSkew;
  mc_years : inYears now;
  mc_rand : rand <> [];
  mc_nonce : ~ nonceLive s now2 (nonceKey role method (hexEncode rand));
  mc_ctx : ctx !! SignatureMetadataKey = None /\ ctx !! SignatureTimestampMetadataKey = None
           /\ ctx !! SignatureNonceMetadataKey = None }.

Lemma generateMetadata_Ok now rand role method k md :
  generateMetadata now (Ok rand) role method k = Some (Ok md) ->
  exists sig, signData role method (formatRFC3339Nano now) (hexEncode rand) k = Ok sig
    /\ md = <[UserMetadataKey := [role]]> (<[SignatureMetadataKey := [base64StdEncode sig]]>
             (<[SignatureTimestampMetadataKey := [formatRFC3339Nano now]]>
              (<[SignatureNonceMetadataKey := [hexEncode rand]]> ∅))).
Proof.
  unfold generateMetadata, newSignatureNonce.
  destruct k; try done; destruct (signData _ _ _ _ _) as [sig|]; try done; intros [= <-]; eauto.
Qed.

Lemma lookup_appended (ctx md : metadata) key v :
  ctx !! key = None -> md !! key = Some v -> appendToOutgoing ctx md !! key = Some v.
Proof. intros Hc Hm. unfold appendToOutgoing. by rewrite lookup_union_with, Hc, Hm. Qed.

Lemma metadataValue md key v : md !! key = Some [v] -> v <> "" -> extractMetadataValue md key = Ok v.
Proof. intros Hm Hv. unfold extractMetadataValue. rewrite Hm. cbn. by rewrite bool_decide_eq_false_2. Qed.

Lemma format_not_empty t : inYears t -> formatRFC3339Nano t <> "".
Proof. intros Hy E. pose proof (format_parse t Hy) as Hp. by rewrite E in Hp. Qed.
Lemma hexEncode_not_empty b : b <> [] -> hexEncode b <> "".
Proof. by destruct b. Qed.
Lemma base64_not_empty b : b <> [] -> base64StdEncode b <> "".
Proof.
  intros Hb E. pose proof (base64Std_roundtrip b) as Hr. rewrite E in Hr. cbn in Hr. by destruct b.
Qed.

(** The metadata of a signed call, as the agent reads them. *)
Lemma signed_metadata now rand role method ctx k md :
  inYears now -> rand <> [] ->
  ctx !! SignatureMetadataKey = None /\ ctx !! SignatureTimestampMetadataKey = None
    /\ ctx !! SignatureNonceMetadataKey = None ->
  generateMetadata now (Ok rand) role method k = Some (Ok md) ->
  exists sig, readMetadata (Some (appendToOutgoing ctx md))
              = Ok (base64StdEncode sig, formatRFC3339Nano now, hexEncode rand, now)
    /\ verifySignature role method (formatRFC3339Nano now) (hexEncode rand) (base64StdEncode sig)
         (publicKeyOf k) = None.
Proof.
  intros Hy Hr (Hc1 & Hc2 & Hc3) (sig & Hs & ->)%generateMetadata_Ok.
  apply signed_verifies in Hs as [Hne Hv]. exists sig. split; [|done].
  unfold readMetadata, extractSignature.
  rewrite (metadataValue _ SignatureMetadataKey (base64StdEncode sig)) by
    (apply lookup_appended; [done|by simplify_map_eq] || by apply base64_not_empty).
  rewrite (metadataValue _ SignatureTimestampMetadataKey (formatRFC3339Nano now)) by
    (apply lookup_appended; [done|by simplify_map_eq] || by apply format_not_empty).
  rewrite (metadataValue _ SignatureNonceMetadataKey (hexEncode rand)) by
    (apply lookup_appended; [done|by simplify_map_eq] || by apply hexEncode_not_empty).
  by rewrite format_parse.
Qed.

Lemma signed_call_ok now now1 now2 rand role method ctx k md s :
  generateMetadata now (Ok rand) role method k = Some (Ok md) ->
  mayCall now now1 now2 rand role method ctx k s ->
  exists i s', AuthenticateUser now1 now2 (Some (appendToOutgoing ctx md)) role method s = (Ok i, s')
    /\ seenNonces s' !! nonceKey role method (hexEncode rand) = Some (now + maxSignatureAge).
Proof.
  intros Hg [Hk Hc Hy Hr Hn Hctx].
  destruct (signed_metadata _ _ _ _ _ _ _ Hy Hr Hctx Hg) as (sig & Hm & Hv).
  unfold AuthenticateUser. rewrite Hm. rewrite (proj2 (validateIssuedAt_None now now1) Hc).
  destruct (firstKey_exists _ _ _ _ _ _ _ 0 Hk Hv) as [i ->].
  destruct (markNonce_cases now2 role method (hexEncode rand) (timeAdd now maxSignatureAge) s) as [[Hl _]|[_ ->]];
    [done|]. eexists _, _. split; [done|]. cbn. by rewrite lookup_insert_eq.
Qed.
(** A call that the client signs is authenticated by the agent that has the key of the
    client for the role: timestamp, nonce and signature are read back as they were made, and
    the nonce is used up. *)
Theorem signed_call_authenticated now now1 now2 rand role method ctx k md s :
  generateMetadata now (Ok rand) role method k = Some (Ok md) ->
  mayCall now now1 now2 rand role method ctx k s ->
  exists i s', AuthenticateUser now1 now2 (Some (appendToOutgoing ctx md)) role method s = (Ok i, s')
    /\ seenNonces s' !! nonceKey role method (hexEncode rand) = Some (now + maxSignatureAge).
Proof. apply signed_call_ok. Qed.
End signed.

(** ** Files arrive *)

(** A regular file, read with the buffer of a transfer. *)
Definition regular (data : list byte) : osFile :=
  mkFile (Ok (len data)) (chunks (Z.to_nat bufferSize) data) None.

Lemma chunksOf_not_empty {A} k fuel (l : list A) : (0 < k)%nat -> Forall (fun c => c <> []) (chunksOf k fuel l).
Proof.
  intros Hk. revert l. induction fuel as [|f IH]; intros l; cbn; [constructor|].
  destruct l as [|x l]; constructor; [|apply IH]. by destruct k; [lia|].
Qed.
Lemma reads_not_empty data : Forall (fun c => c <> []) (f_reads (regular data)).
Proof. apply chunksOf_not_empty, bufferSize_pos. Qed.
Lemma regular_size data : f_size (regular data) = Ok (len data).
Proof. done. Qed.
Lemma regular_err data : f_err (regular data) = None.
Proof. done. Qed.
Lemma reads_concat data : concat (f_reads (regular data)) = data.
Proof. apply chunks_concat, bufferSize_pos. Qed.

Lemma concat_empty {A B} (l : list A) : concat (map (fun _ => @nil B) l) = [].
Proof. by induction l. Qed.

(** The messages of an upload of an algorithm hold the two files. *)
Definition algoMessages (algo req : list byte) : list AlgoRequest :=
  map (fun data => mkAlgoRequest [] data) (f_reads (regular req))
  ++ map (fun data => mkAlgoRequest data []) (f_reads (regular algo)).

Lemma algoMessages_received algo req :
  len algo <= maxAlgorithmUploadBytes -> len req <= maxRequirementsUploadBytes ->
  receiveAlgoData (mkRecv (algoMessages algo req) None) = Ok (algo, req).
Proof.
  intros Ha Hr. apply receiveAlgoLoop_ok; [done..|]. cbn [rv_msgs rv_err]. unfold algoMessages.
  rewrite !map_app, !concat_app, !map_map. cbn [ar_Algorithm ar_Requirements].
  rewrite !concat_empty, !map_id, !reads_concat, app_nil_r. done.
Qed.

Section delivery.
Context {K P : Type} `{KeyPairs K P} `{!Service, !Console, !ResultFile}.

(** What the service reads of the metadata is the caller's. *)
Lemma serviceContext_signed now rand role method k md ctx :
  generateMetadata now (Ok rand) role method k = Some (Ok md) ->
  serviceContext (mkRpc (Some (appendToOutgoing ctx md)) None) = serviceContext (mkRpc (Some ctx) None).
Proof.
  intros (sig & _ & ->)%generateMetadata_Ok. unfold serviceContext, mdValues, appendToOutgoing. cbn [rpc_md].
  rewrite !lookup_union_with. rewrite !lookup_insert_ne by done. rewrite !lookup_empty.
  by rewrite !(right_id_L None (union_with _)).
Qed.

(** The call of a caller that may make it reaches the handler. *)
Lemma signed_intercept {R} now now1 now2 rand role method ctx k md s (handler : rpcContext -> R) :
  generateMetadata now (Ok rand) role method k = Some (Ok md) ->
  mayCall now now1 now2 rand role method ctx k s -> methodRole method = Some role ->
  role <> ConsumerRole ->
  fst (intercept now1 now2 method (mkRpc (Some (appendToOutgoing ctx md)) None) handler s)
  = Ok (handler (mkRpc (Some (appendToOutgoing ctx md)) None)).
Proof.
  intros Hg Hm Hr Hc. set (c := mkRpc (Some (appendToOutgoing ctx md)) None).
  assert (Ha : exists s', authenticate now1 now2 c role method s = (Ok c, s')).
  { destruct (signed_call_ok _ _ _ _ _ _ _ _ _ _ Hg Hm) as (i & s' & Ha & _). exists s'.
    assert (Hi : i = None).
    { pose proof Ha as Hu. apply AuthenticateUser_Ok in Hu as (? & ? & ? & ? & ? & _ & _ & _ & _ & -> & _).
      by rewrite bool_decide_eq_false_2. }
    subst i. unfold authenticate. cbn [rpc_md c]. by rewrite Ha. }
  destruct Ha as [s' Ha]. destruct (decide (role = AlgorithmProviderRole)) as [->|Hne].
  - unfold methodRole in Hr. case_bool_decide as Hmeth; [|by repeat case_bool_decide].
    subst method. unfold intercept, AuthStreamInterceptor. cbv zeta.
    rewrite bool_decide_eq_false_2, bool_decide_eq_true_2 by done. by rewrite Ha.
  - destruct (intercept_role now1 now2 method role c handler s Hr) as (next & -> & Hnext).
    rewrite Ha. by rewrite Hnext.
Qed.

Lemma finishUpload_ok {M} (stream : clientStream M) t :
  (forall out s, writeStdout out s = None) ->
  exists t', finishUpload stream t = (cs_CloseAndRecv stream (tf_sent t), t').
Proof. intros Hw. unfold finishUpload, write. rewrite Hw. eauto. Qed.

(** An upload of two regular files sends their messages and returns the answer to them. *)
Lemma SendAlgorithm_delivers desc algo req stream c :
  roomy desc false -> (forall sent m, cs_Send stream sent m = None) ->
  (len algo + len req) * 100 <= maxInt64 ->
  exists t, SendAlgorithm desc (regular algo) (Some (regular req)) stream (New false) c
            = Some (cs_CloseAndRecv stream (algoMessages algo req), t).
Proof.
  intros Hr Hs Hl. pose proof (len_nonneg algo). pose proof (len_nonneg req).
  unfold SendAlgorithm, fileSize, sendBuffer. rewrite !regular_size, !regular_err. cbv zeta beta iota.
  pose proof (expecting_reset desc (len algo + len req) (New false) ltac:(done) ltac:(lia) Hl) as He.
  destruct (sendReads_ok stream (fun data => mkAlgoRequest [] data) Hs desc false Hr (f_reads (regular req)) None
    (len algo) (mkTransfer (reset desc (len algo + len req) (New false)) c [])) as (t1 & E1 & He1 & Hs1);
    [apply reads_not_empty|rewrite reads_concat; by rewrite Z.add_comm|lia|].
  rewrite E1. cbn [mbind option_bind].
  destruct (sendReads_ok stream (fun data => mkAlgoRequest data []) Hs desc false Hr (f_reads (regular algo)) None
    0 t1) as (t2 & E2 & He2 & Hs2); [apply reads_not_empty|rewrite reads_concat; by rewrite Z.add_0_r|lia|].
  rewrite E2. cbn [mbind option_bind].
  destruct (finishUpload_ok stream t2 (proj1 Hr)) as (t3 & E3). rewrite E3, Hs2, Hs1. eauto.
Qed.

(** No requirements are sent like an empty file of them. *)
Lemma SendAlgorithm_none desc algo (stream : clientStream AlgoRequest) p c :
  SendAlgorithm desc algo None stream p c = SendAlgorithm desc algo (Some (regular [])) stream p c.
Proof.
  assert (E : f_reads (regular []) = []) by done.
  unfold SendAlgorithm, fileSize, sendBuffer. by rewrite E, regular_size, regular_err.
Qed.

Lemma sdkAlgo_delivers now now1 now2 rand ctx k md s spare c algo (req : option (list byte)) :
  generateMetadata now (Ok rand) AlgorithmProviderRole AgentService_Algo k = Some (Ok md) ->
  mayCall now now1 now2 rand AlgorithmProviderRole AgentService_Algo ctx k s ->
  roomy "Uploading algorithm" false ->
  len algo <= maxAlgorithmUploadBytes -> len (default [] req) <= maxRequirementsUploadBytes ->
  exists c', sdkAlgo (agentOf now1 now2 spare s) now (Ok rand) ctx c (regular algo) (regular <$> req) k
    = Some (algoEndpoint (serviceContext (mkRpc (Some ctx) None)) (mkAlgoRequest algo (default [] req)), c').
Proof.
  intros Hg Hm Hr Ha Hq. unfold sdkAlgo. rewrite Hg. cbn [mbind option_bind agentOf ac_Algo].
  assert (Eq : forall st p, SendAlgorithm "Uploading algorithm" (regular algo) (regular <$> req) st p c
    = SendAlgorithm "Uploading algorithm" (regular algo) (Some (regular (default [] req))) st p c).
  { intros st p. destruct req; [done|apply SendAlgorithm_none]. }
  rewrite Eq. match goal with |- context [SendAlgorithm _ _ _ ?st _ _] =>
    destruct (SendAlgorithm_delivers "Uploading algorithm" algo (default [] req) st c Hr) as (t & Et) end;
    [done|unfold maxAlgorithmUploadBytes, maxRequirementsUploadBytes, maxInt64 in *; lia|].
  rewrite Et. cbn [uploadOf mbind option_bind cs_CloseAndRecv]. exists (tf_console t). do 2 f_equal.
  rewrite (signed_intercept _ _ _ _ _ _ _ _ _ _ _ Hg Hm) by done. unfold Algo.
  by rewrite algoMessages_received, (serviceContext_signed _ _ _ _ _ _ _ Hg).
Qed.

(** An algorithm and its requirements that the client uploads arrive at the service of the
    agent as they are on its disk, whatever their length within the limits, and the client
    returns the answer of the service. *)
Theorem algorithm_delivered now now1 now2 rand ctx k md s spare c algo (req : option (list byte)) :
  generateMetadata now (Ok rand) AlgorithmProviderRole AgentService_Algo k = Some (Ok md) ->
  mayCall now now1 now2 rand AlgorithmProviderRole AgentService_Algo ctx k s ->
  roomy "Uploading algorithm" false ->
  len algo <= maxAlgorithmUploadBytes -> len (default [] req) <= maxRequirementsUploadBytes ->
  exists c', sdkAlgo (agentOf now1 now2 spare s) now (Ok rand) ctx c (regular algo) (regular <$> req) k
    = Some (algoEndpoint (serviceContext (mkRpc (Some ctx) None)) (mkAlgoRequest algo (default [] req)), c').
Proof. apply sdkAlgo_delivers. Qed.

Definition dataMessages (filename : string) (data : list byte) : list DataRequest :=
  map (fun d => mkDataRequest d filename) (f_reads (regular data)).

Lemma SendData_delivers desc filename data stream c :
  roomy desc false -> (forall sent m, cs_Send stream sent m = None) -> len data * 100 <= maxInt64 ->
  exists t, SendData desc filename (regular data) stream (New false) c
            = Some (cs_CloseAndRecv stream (dataMessages filename data), t).
Proof.
  intros Hr Hs Hl. pose proof (len_nonneg data).
  unfold SendData, fileSize, sendBuffer. rewrite !regular_size, !regular_err. cbv iota.
  pose proof (expecting_reset desc (len data) (New false) ltac:(done) ltac:(lia) Hl) as He.
  destruct (sendReads_ok stream (fun d => mkDataRequest d filename) Hs desc false Hr (f_reads (regular data)) None
    0 (mkTransfer (reset desc (len data) (New false)) c [])) as (t1 & E1 & He1 & Hs1);
    [apply reads_not_empty|rewrite reads_concat; by rewrite Z.add_0_r|lia|].
  rewrite E1. cbn [mbind option_bind].
  destruct (finishUpload_ok stream t1 (proj1 Hr)) as (t2 & E2). rewrite E2, Hs1. eauto.
Qed.

Lemma receiveLoop_data msgs : forall d0 n0 filename,
  len d0 + len (concat msgs) <= maxDatasetUploadBytes ->
  AgentApi.receiveLoop (map (fun d => mkDataRequest d filename) msgs) None d0 n0
  = Ok (d0 ++ concat msgs, match msgs with [] => n0 | _ => if bool_decide (filename = "") then n0 else filename end).
Proof.
  induction msgs as [|m msgs IH]; intros d0 n0 filename Hl; cbn [map AgentApi.receiveLoop concat].
  - by rewrite app_nil_r.
  - cbn [concat] in Hl. rewrite len_app in Hl. pose proof (len_nonneg (concat msgs)).
    cbn [dr_Dataset dr_Filename]. rewrite appendBounded_fits by (rewrite len_app; lia).
    rewrite IH by (rewrite len_app; lia). rewrite app_assoc. do 2 f_equal.
    destruct msgs; [done|]. by case_bool_decide.
Qed.

(** The same for a data set, with its name. *)
Theorem dataset_delivered now now1 now2 rand ctx k md s spare c data filename :
  generateMetadata now (Ok rand) DataProviderRole AgentService_Data k = Some (Ok md) ->
  mayCall now now1 now2 rand DataProviderRole AgentService_Data ctx k s ->
  roomy "Uploading data" false -> data <> [] -> len data <= maxDatasetUploadBytes ->
  exists c', sdkData (agentOf now1 now2 spare s) now (Ok rand) ctx c (regular data) filename k
    = Some (svc_Data (serviceContext (mkRpc (Some ctx) None)) (mkDataset data zeroHash [] filename None false), c').
Proof.
  intros Hg Hm Hr Hne Hl. unfold sdkData. rewrite Hg. cbn [mbind option_bind agentOf ac_Data].
  match goal with |- context [SendData _ _ _ ?st _ _] =>
    destruct (SendData_delivers "Uploading data" filename data st c Hr) as (t & Et) end;
    [done|unfold maxDatasetUploadBytes, maxInt64 in *; lia|].
  rewrite Et. cbn [uploadOf mbind option_bind cs_CloseAndRecv]. exists (tf_console t). do 2 f_equal.
  rewrite (signed_intercept _ _ _ _ _ _ _ _ _ _ _ Hg Hm) by done. rewrite (serviceContext_signed _ _ _ _ _ _ _ Hg).
  unfold Data, receiveStreamingData, dataMessages. cbn [rv_msgs rv_err].
  rewrite receiveLoop_data by (rewrite reads_concat, len_nil; lia). rewrite reads_concat, app_nil_l.
  unfold dataEndpoint, validateDataReq. cbn [dr_Dataset dr_Filename].
  destruct (Z.eqb_spec (len data) 0) as [E|]; [by destruct data|]. do 2 f_equal.
  destruct (f_reads (regular data)) eqn:Ef; [|by case_bool_decide].
  pose proof (reads_concat data) as Hc. rewrite Ef in Hc. by destruct data.
Qed.

(** ** Downloads *)

Lemma fileSizeOf_header n : 0 <= n <= maxInt64 -> fileSizeOf {[FileSizeKey := [Itoa n]]} = Ok n.
Proof.
  intros Hn. unfold fileSizeOf. rewrite lookup_singleton_eq. cbn [default head].
  destruct (Itoa_digits n Hn) as (ds & Hc & Hne & Hd & Hv). subst ds.
  change (Atoi (Itoa n) = Ok n). rewrite <- Hv at 2. apply Atoi_digits; [done..|by rewrite Hv].
Qed.

(** What the agent streams of a file is received as that file. *)
Lemma receive_respond desc data c :
  roomy desc true -> (forall old new, writeFileErr old new = None) -> len data * 100 <= maxInt64 ->
  receiveFrom tt (Ok (respond (Ok data))) (fun size s => receiveStream desc size recvFile s tt (New true) c)
  = Some (None, tt, data).
Proof.
  intros Hr Hf Hl. pose proof (len_nonneg data) as Hpos. unfold respond, streamingHandler, streamFileData.
  destruct (sendChunks (fun _ _ => None) data) as [e out] eqn:Es.
  destruct (sendChunks_spec _ _ _ _ Es) as (Hne & rest & Hd & Hrest & He).
  specialize (He ltac:(done)). subst e. rewrite (Hrest eq_refl), app_nil_r in Hd.
  unfold receiveFrom. cbn [ss_Header ss_recv option_map].
  rewrite fileSizeOf_header by (unfold maxInt64 in *; lia). unfold receiveStream. cbn [rv_msgs rv_err].
  destruct (receiveLoop_app recvFile id Hf desc Hr out [] None tt 0
    (mkDownload (asDownload (reset desc (len data) (New true))) c [])) as (x & d & E & _ & Hfile).
  - eapply Forall_impl; [exact Hne|]. intros b [Hb _]. split; [by destruct b|]. intros x. by exists x.
  - rewrite map_id, <- Hd, Z.add_0_r. cbn [dl_bar]. by apply (expecting_reset desc (len data) (New true)).
  - done.
  - rewrite app_nil_r in E. rewrite E. cbn [Progress.receiveLoop]. unfold write. rewrite (proj1 Hr).
    cbn [mbind option_bind dl_file]. rewrite Hfile, map_id, <- Hd. by destruct x.
Qed.

Lemma appendToOutgoing_empty md : appendToOutgoing ∅ md = md.
Proof. unfold appendToOutgoing. by rewrite (left_id_L ∅ (union_with _)). Qed.

(** A consumer gets the result of the computation as the service of the agent has it, or
    the error of the service; the service is asked under the index of the consumer. *)
Theorem result_delivered now now1 now2 rand k md s spare c :
  generateMetadata now (Ok rand) ConsumerRole AgentService_Result k = Some (Ok md) ->
  mayCall now now1 now2 rand ConsumerRole AgentService_Result ∅ k s ->
  roomy "Downloading result" true -> (forall old new, writeFileErr old new = None) ->
  (forall x data, svc_Result x = Ok data -> len data * 100 <= maxInt64) ->
  exists i, 0 <= i < len (resultConsumers s)
    /\ sdkResult (agentOf now1 now2 spare s) now (Ok rand) c k
       = match svc_Result (serviceContext (mkRpc (Some md) (Some i))) with
         | Ok data => Some (None, tt, data)
         | Err e => Some (Some e, tt, [])
         end.
Proof.
  intros Hg Hm Hr Hf Hl. destruct (signed_call_ok _ _ _ _ _ _ _ _ _ _ Hg Hm) as (o & s' & Ha & _).
  rewrite appendToOutgoing_empty in Ha. pose proof Ha as Hu.
  apply AuthenticateUser_Ok in Hu as (? & ? & ? & ? & i & _ & _ & (pre & key & post & Hk & -> & _) & _ & -> & _).
  rewrite bool_decide_eq_true_2 in Ha by done. exists (len pre). split.
  { unfold roleKeys in Hk. rewrite bool_decide_eq_true_2 in Hk by done. rewrite Hk, len_app, len_cons.
    pose proof (len_nonneg pre). pose proof (len_nonneg post). lia. }
  unfold sdkResult. rewrite Hg. cbn [mbind option_bind agentOf ac_Result].
  destruct (intercept_role now1 now2 AgentService_Result ConsumerRole (mkRpc (Some md) None)
    (fun c => respond (resultEndpoint (serviceContext c))) s eq_refl) as (next & -> & Hnext).
  unfold authenticate. cbn [rpc_md]. rewrite Ha. cbn [fst]. rewrite Hnext by done. unfold resultEndpoint.
  destruct (svc_Result _) as [data|e] eqn:Es; [|done]. apply receive_respond; [done..|]. by eapply Hl.
Qed.
End delivery.

(** ** IMA measurements *)

Lemma streamDual_prefix size Hsize buf1 buf2 : forall sent,
  exists rest, streamDual size Hsize (fun _ _ => None) buf1 buf2 sent = (None, sent ++ rest).
Proof.
  remember (length buf1 + length buf2)%nat as n eqn:En. revert buf1 buf2 En.
  induction n as [n IH] using lt_wf_ind. intros buf1 buf2 -> sent.
  destruct buf1 as [|a buf1], buf2 as [|b buf2];
    [rewrite streamDual_equation_1; exists []; by rewrite app_nil_r
    |rewrite streamDual_equation_2|rewrite streamDual_equation_3..];
    match goal with |- context [streamDual _ _ _ ?x ?y (sent ++ ?m)] =>
      destruct (IH (length x + length y)%nat ltac:(rewrite !length_drop; cbn; lia) x y eq_refl (sent ++ m))
        as [rest ->]; exists (m ++ rest); by rewrite app_assoc end.
Qed.

(** A measurement file of more than one chunk: the second message has no PCR value. *)
Lemma streamDual_two file pcr10 :
  bufferSize < len file -> 0 < len pcr10 <= bufferSize ->
  exists rest, streamDualBuffers (fun _ _ => None) file pcr10
    = (None, (take (Z.to_nat bufferSize) file, pcr10)
             :: (take (Z.to_nat bufferSize) (drop (Z.to_nat bufferSize) file), []) :: rest).
Proof.
  intros Hf Hp. unfold streamDualBuffers. pose proof bufferSize_pos as Hpos.
  set (size := Z.to_nat bufferSize) in *.
  assert (Hsize : (size < length file)%nat /\ (length pcr10 <= size)%nat)
    by (unfold len, size in *; lia).
  destruct file as [|a file]; [cbn in Hsize; lia|]. rewrite streamDual_equation_3.
  rewrite (take_ge pcr10), (drop_ge pcr10) by lia. set (f1 := take size (a :: file)).
  assert (Hd : (0 < length (drop size (a :: file)))%nat) by (rewrite length_drop; lia).
  destruct (drop size (a :: file)) as [|b t] eqn:Ed; [cbn in Hd; lia|]. rewrite streamDual_equation_3.
  rewrite take_nil, drop_nil.
  destruct (streamDual_prefix size bufferSize_pos (drop size (b :: t)) [] (([] ++ [(f1, pcr10)]) ++ [(take size (b :: t), [])]))
    as [rest ->]. by exists rest.
Qed.

Section ima.
Context `{Console, ResultFile}.

Lemma recvIma_value f pcr10 sp x : 20 <= len pcr10 -> exists v, recvIma (mkIma f pcr10 sp) x = Some (f, v).
Proof.
  intros Hp. unfold recvIma, resliceTo. cbn [im_Pcr10 im_spare im_File].
  rewrite (proj2 (Z.ltb_ge _ _)) by (rewrite len_app; pose proof (len_nonneg sp); lia). by eexists.
Qed.
Lemma recvIma_no_value f x : recvIma (mkIma f [] []) x = None.
Proof. done. Qed.

Lemma second_message_panics desc total f1 f2 pcr10 sp rest c :
  0 < len f1 <= total -> total * 100 <= maxInt64 -> 20 <= len pcr10 ->
  roomy desc true -> (forall old new, writeFileErr old new = None) ->
  ReceiveIMAMeasurements desc total (mkRecv (mkIma f1 pcr10 sp :: mkIma f2 [] [] :: rest) None) (New true) c = None.
Proof.
  intros Hf Hl Hp Hr Hw. unfold ReceiveIMAMeasurements, receiveStream. cbn [rv_msgs rv_err].
  destruct (receiveLoop_app recvIma im_File Hw _ Hr [mkIma f1 pcr10 sp] (mkIma f2 [] [] :: rest) None
    (replicate 20 x00) (total - len f1) (mkDownload (asDownload (reset desc total (New true))) c []))
    as (x & d & E & _ & _).
  - constructor; [|constructor]. split; [intros E; cbn [im_File] in E; subst f1; unfold len in Hf; cbn in Hf; lia|].
    intros x. by apply recvIma_value.
  - cbn [map concat im_File dl_bar]. rewrite app_nil_r.
    replace (len f1 + (total - len f1)) with total by lia. apply (expecting_reset _ total (New true)); (done || lia).
  - lia.
  - cbn [app] in E. rewrite E. cbn [Progress.receiveLoop]. by rewrite recvIma_no_value.
Qed.

(** The measurements of a machine whose file has more than 1 MiB stop the client: the
    agent sends the PCR value with the first message only, and the client slices it from
    every message. *)
Theorem long_measurements_panic spare file pcr10 c :
  bufferSize < len file -> len file * 100 <= maxInt64 -> 20 <= len pcr10 <= bufferSize -> spare [] = [] ->
  roomy "Downloading Linux IMA measurements" true -> (forall old new, writeFileErr old new = None) ->
  receiveFrom [] (Ok (respondIma spare (Ok (file, pcr10))))
    (fun size s => ReceiveIMAMeasurements "Downloading Linux IMA measurements" size s (New true) c) = None.
Proof.
  intros Hf Hl Hp Hsp Hr Hw. unfold respondIma.
  assert (Hf1 : len (take (Z.to_nat bufferSize) file) = bufferSize)
    by (unfold len in *; rewrite length_take; unfold bufferSize in *; lia).
  destruct (streamDual_two file pcr10 Hf ltac:(lia)) as [rest ->].
  unfold receiveFrom. cbn [ss_Header ss_recv map fst snd].
  generalize dependent (take (Z.to_nat bufferSize) file). intros f1 Hf1.
  generalize (take (Z.to_nat bufferSize) (drop (Z.to_nat bufferSize) file)). intros f2.
  rewrite fileSizeOf_header by (unfold maxInt64, bufferSize in *; lia). rewrite Hsp.
  rewrite second_message_panics; [done|lia|lia|lia|done..]. 
Qed.
End ima.

(** ** A client, an agent and their files *)

Module SdkSample.
(** Signatures that show the key and the message. *)
#[export] Instance crypto : AgentCrypto unit := {|
  ParsePKIXPublicKey _ := Ok (PubEd25519 tt);
  verifyPKCS1v15 _ m sig := if bool_decide (sig = x01 :: m) then None else Some (ErrNew "rsa");
  verifyASN1 _ m sig := bool_decide (sig = x01 :: m);
  verifyEd25519 _ m sig := bool_decide (sig = x01 :: m) |}.
#[export] Instance signer : Signing unit := {|
  signEd25519 _ m := Ok (x01 :: m); signPKCS1v15 _ m := Ok (x01 :: m); signASN1 _ m := Ok (x01 :: m) |}.
#[export] Instance pairs : KeyPairs unit unit.
Proof.
  refine {| publicOf (k : unit) := k |}; intros p m sig [= <-]; (split; [done|]); cbn;
    by rewrite bool_decide_eq_true_2.
Defined.

(** No terminal; everything can be written. *)
#[export] Instance pipe : Console := {|
  terminalWidth _ := Err (ErrNew "not a terminal"); writeStdout _ _ := None; paint _ s := s |}.
#[export] Instance disk : ResultFile := {| writeFileErr _ _ := None |}.

Definition resultFile : list byte := bytesOf "result".
#[export] Instance agentService : Service := {|
  svc_Algo _ _ := None; svc_Data _ _ := None; svc_Result _ := Ok resultFile;
  svc_Attestation _ _ _ := Ok []; svc_IMAMeasurements := Ok ([], []); svc_AzureAttestationToken _ := Ok [] |}.

Definition now : Time := timeUnix 1767225600.
Definition rand : list byte := replicate 16 x0a.
Definition key : SigningKey unit := PrivEd25519 tt.
Definition agent : AgentAuth.service unit := AgentAuth.mkService [PubEd25519 tt] [PubEd25519 tt] (PubEd25519 tt) ∅.
Definition ctx : gmap string (list string) := {["algo_type" := ["bin"]]}.
Definition screen : console := mkConsole [] false.
Definition spare (b : list byte) : list byte := [].

Lemma no_terminal desc dl : roomy desc dl.
Proof. by split. Qed.

Definition mdOf (role method : string) : gmap string (list string) :=
  match generateMetadata now (Ok rand) role method key with Some (Ok md) => md | _ => ∅ end.
Lemma mdOf_ok role method : generateMetadata now (Ok rand) role method key = Some (Ok (mdOf role method)).
Proof. reflexivity. Qed.

Lemma sample_mayCall role method c :
  PubEd25519 tt ∈ roleKeys agent role -> c = ctx \/ c = ∅ ->
  mayCall now now now rand role method c key agent.
Proof.
  intros Hk Hc. constructor; [done|vm_compute; split; discriminate|vm_compute; split; [discriminate|reflexivity]|done| |].
  - intros (e & Hl & _). cbn in Hl. by rewrite lookup_empty in Hl.
  - by destruct Hc as [-> | ->].
Qed.

Lemma evidence_calls_refused_witness :
  sdkAttestation (agentOf now now spare agent) ctx screen [] [] 0 = Some (Some Unauthenticated, tt, []).
Proof. refine (proj1 (evidence_calls_refused now now spare agent ctx screen [] [] 0 _)). reflexivity. Defined.

Lemma signed_call_authenticated_witness :
  exists i s, AuthenticateUser now now
    (Some (appendToOutgoing ctx (mdOf AlgorithmProviderRole AgentService_Algo)))
    AlgorithmProviderRole AgentService_Algo agent = (Ok i, s)
    /\ seenNonces s !! nonceKey AlgorithmProviderRole AgentService_Algo (hexEncode rand)
       = Some (now + maxSignatureAge).
Proof.
  refine (signed_call_authenticated now now now rand _ _ ctx key _ agent (mdOf_ok _ _) (sample_mayCall _ _ ctx _ _));
    [left|by left].
Defined.

Definition algo : list byte := bytesOf "algorithm".
Definition req : list byte := bytesOf "numpy".
Lemma algorithm_delivered_witness : exists c,
  sdkAlgo (agentOf now now spare agent) now (Ok rand) ctx screen (regular algo) (Some (regular req)) key = Some (None, c).
Proof.
  refine (algorithm_delivered now now now rand ctx key _ agent spare screen algo (Some req) (mdOf_ok _ _)
    (sample_mayCall _ _ ctx _ _) (no_terminal _ _) _ _); [left|by left|vm_compute; discriminate..].
Defined.

Lemma dataset_delivered_witness : exists c,
  sdkData (agentOf now now spare agent) now (Ok rand) ctx screen (regular algo) "data.csv" key = Some (None, c).
Proof.
  refine (dataset_delivered now now now rand ctx key _ agent spare screen algo "data.csv" (mdOf_ok _ _)
    (sample_mayCall _ _ ctx _ _) (no_terminal _ _) _ _); [left|by left|vm_compute; discriminate..].
Defined.

Lemma result_delivered_witness :
  sdkResult (agentOf now now spare agent) now (Ok rand) screen key = Some (None, tt, resultFile).
Proof.
  destruct (result_delivered now now now rand key _ agent spare screen (mdOf_ok _ _)
    (sample_mayCall ConsumerRole AgentService_Result ∅ ltac:(left) (or_intror eq_refl)) (no_terminal _ _) (fun _ _ => eq_refl)) as (i & _ & E).
  - intros x data [= <-]. vm_compute. discriminate.
  - exact E.
Defined.

Definition longFile : list byte := repeat x00 (Z.to_nat (bufferSize + 1)).
Lemma long_measurements_panic_witness :
  receiveFrom [] (Ok (respondIma spare (Ok (longFile, repeat x07 20))))
    (fun size s => ReceiveIMAMeasurements "Downloading Linux IMA measurements" size s (New true) screen) = None.
Proof.
  assert (Hl : len longFile = bufferSize + 1)
    by (unfold len, longFile; rewrite repeat_length, Z2Nat.id; reflexivity || discriminate).
  refine (long_measurements_panic spare longFile (repeat x07 20) screen _ _ _ eq_refl (no_terminal _ _) (fun _ _ => eq_refl));
    rewrite ?Hl; vm_compute; try split; discriminate || reflexivity.
Defined.
End SdkSample.
