(* ===== verification/GoNet.v ===== *)
(** * Addresses: [net], [net/netip] and what is used of [net/url]

    [net.SplitHostPort] and [net.JoinHostPort], the parsers and predicates of [net/netip],
    [net.ParseIP] with [IP.IsLoopback], [strings.Trim] with an ASCII cutset, and the methods
    of [url.URL], as executable functions.  [url.Parse] itself is the class [UrlLib]: what
    it accepts differs between the releases of the toolchain. *)

From stdpp Require Import base list strings.
From Stdlib Require Import ZArith Lia.
From S2P Require Import Prelude GoStrings Errors GoNumbers.

(** ** Searching and trimming *)

Fixpoint indexCode (c : Z) (l : list Z) : option nat :=
  match l with
  | [] => None
  | x :: t => if x =? c then Some O else option_map S (indexCode c t)
  end.
Fixpoint lastIndexCode (c : Z) (l : list Z) : option nat :=
  match l with
  | [] => None
  | x :: t => match lastIndexCode c t with
              | Some i => Some (S i)
              | None => if x =? c then Some O else None
              end
  end.
Definition hasCode (c : Z) (l : list Z) : bool := existsb (Z.eqb c) l.

Fixpoint dropCodes (cut l : list Z) : list Z :=
  match l with
  | [] => []
  | x :: t => if existsb (Z.eqb x) cut then dropCodes cut t else l
  end.
Definition trimCodes (cut l : list Z) : list Z := rev (dropCodes cut (rev (dropCodes cut l))).
(** [strings.Trim(s, cutset)] for an ASCII [cutset]. *)
Definition Trim (s cutset : string) : string := ofCodes (trimCodes (codes cutset) (codes s)).

(** ** Host and port *)

Definition missingPort : string := "missing port in address".
Definition tooManyColons : string := "too many colons in address".

(** The error of an address carries the address. *)
Record AddrError := mkAddrError { ae_Err : string; ae_Addr : string }.
Definition AddrError_text (e : AddrError) : string :=
  if bool_decide (ae_Addr e = "") then ae_Err e
  else "address " +:+ ae_Addr e +:+ ": " +:+ ae_Err e.

(** The colon is 58, the brackets 91 and 93. *)
Definition splitCodesHostPort (l : list Z) : result string (list Z * list Z) :=
  match lastIndexCode 58 l with
  | None => Err missingPort
  | Some i =>
      let finish (host : list Z) (j k : nat) :=
        if hasCode 91 (drop j l) then Err "unexpected '[' in address"
        else if hasCode 93 (drop k l) then Err "unexpected ']' in address"
        else Ok (host, drop (S i) l) in
      if bool_decide (head l = Some 91) then
        match indexCode 93 l with
        | None => Err "missing ']' in address"
        | Some e =>
            if (S e =? length l)%nat then Err missingPort
            else if (S e =? i)%nat then finish (take (e - 1) (drop 1 l)) 1%nat (S e)
            else if bool_decide (head (drop (S e) l) = Some 58) then Err tooManyColons
            else Err missingPort
        end
      else
        let host := take i l in
        if hasCode 58 host then Err tooManyColons else finish host 0%nat 0%nat
  end.

Definition SplitHostPort (hostport : string) : result AddrError (string * string) :=
  match splitCodesHostPort (codes hostport) with
  | Err msg => Err (mkAddrError msg hostport)
  | Ok (host, port) => Ok (ofCodes host, ofCodes port)
  end.

Definition JoinHostPort (host port : string) : string :=
  if hasCode 58 (codes host) then "[" +:+ host +:+ "]:" +:+ port else host +:+ ":" +:+ port.

(** ** IP addresses *)

(** The 32 or 128 bits of an address, and the zone of one of version 6. *)
Inductive Addr := Addr4 (bits : Z) | Addr6 (bits : Z) (zone : string).

Definition errParseAddr : error := ErrNew "netip.ParseAddr".

(** A decimal octet: no leading zero, at most 255. *)
Definition octet (ds : list Z) : option Z :=
  match ds with
  | [] => None
  | d :: t =>
      if negb (forallb isDigit ds) || ((d =? 48) && negb (bool_decide (t = []))) then None
      else let v := value 0 ds in if 255 <? v then None else Some v
  end.

Fixpoint splitOn (sep : Z) (cur l : list Z) : list (list Z) :=
  match l with
  | [] => [cur]
  | x :: t => if x =? sep then cur :: splitOn sep [] t else splitOn sep (cur ++ [x]) t
  end.

(** [parseIPv4Fields]: four octets separated by periods. *)
Definition parseIPv4Codes (l : list Z) : option Z :=
  match splitOn 46 [] l with
  | [a; b; c; d] =>
      w ← octet a; x ← octet b; y ← octet c; z ← octet d;
      Some (((w * 256 + x) * 256 + y) * 256 + z)
  | _ => None
  end.

Definition hexDigitOf (c : Z) : option Z :=
  if inRange 48 57 c then Some (c - 48)
  else if inRange 97 102 c then Some (c - 87)
  else if inRange 65 70 c then Some (c - 55)
  else None.

(** The hexadecimal digits at the start: how many, their value and the rest. *)
Fixpoint hexRun (off : nat) (acc : Z) (l : list Z) : nat * Z * list Z :=
  match l with
  | [] => (off, acc, [])
  | c :: t => match hexDigitOf c with
              | Some d => hexRun (S off) (acc * 16 + d) t
              | None => (off, acc, l)
              end
  end.

(** The state of the loop of [parseIPv6]: the groups read and where the ellipsis was. *)
Record v6 := mkV6 { v6_bytes : list Z; v6_ellipsis : option nat }.

(** One group per step, so that nine steps are enough; the rest of the input at the end. *)
Fixpoint v6Loop (fuel : nat) (s : list Z) (st : v6) : option (v6 * list Z) :=
  match fuel with
  | O => Some (st, s)
  | S f =>
      let i := length (v6_bytes st) in
      if (16 <=? i)%nat then Some (st, s)
      else
        let '(off, acc, rest) := hexRun 0 0 s in
        if (4 <? off)%nat || (off =? 0)%nat then None
        else
          match rest with
          | 46 :: _ =>
              if bool_decide (v6_ellipsis st = None) && negb (i =? 12)%nat then None
              else if (16 <? i + 4)%nat then None
              else
                ip ← parseIPv4Codes s;
                Some (mkV6 (v6_bytes st ++ [ip / 16777216; ip / 65536 mod 256; ip / 256 mod 256; ip mod 256])
                        (v6_ellipsis st), [])
          | _ =>
              let st := mkV6 (v6_bytes st ++ [acc / 256; acc mod 256]) (v6_ellipsis st) in
              match rest with
              | [] => Some (st, [])
              | 58 :: [] => None
              | 58 :: 58 :: t =>
                  match v6_ellipsis st with
                  | Some _ => None
                  | None =>
                      let st := mkV6 (v6_bytes st) (Some (length (v6_bytes st))) in
                      match t with [] => Some (st, []) | _ => v6Loop f t st end
                  end
              | 58 :: t => v6Loop f t st
              | _ => None
              end
          end
  end.

Definition addrOfBytes (bs : list Z) : Z := foldl (fun a b => a * 256 + b) 0 bs.

(** The ellipsis stands for at least one group of zeros. *)
Definition v6Finish (st : v6) (rest : list Z) : option Z :=
  if negb (bool_decide (rest = [])) then None
  else
    let i := length (v6_bytes st) in
    match v6_ellipsis st with
    | None => if (i <? 16)%nat then None else Some (addrOfBytes (v6_bytes st))
    | Some e =>
        if (i <? 16)%nat
        then Some (addrOfBytes (take e (v6_bytes st) ++ replicate (16 - i) 0 ++ drop e (v6_bytes st)))
        else None
    end.

Definition parseIPv6 (l : list Z) : option Addr :=
  let '(s, zone) :=
    match indexCode 37 l with
    | None => (l, Some "")
    | Some i => (take i l, match drop (S i) l with [] => None | z => Some (ofCodes z) end)
    end in
  zone ← zone;
  ip ← match s with
       | 58 :: 58 :: [] => Some 0
       | 58 :: 58 :: t => '(st, rest) ← v6Loop 9 t (mkV6 [] (Some O)); v6Finish st rest
       | _ => '(st, rest) ← v6Loop 9 s (mkV6 [] None); v6Finish st rest
       end;
  Some (Addr6 ip zone).

(** The first of a period, a colon and a percent sign decides. *)
Fixpoint addrKind (l : list Z) : option Z :=
  match l with
  | [] => None
  | c :: t => if (c =? 46) || (c =? 58) || (c =? 37) then Some c else addrKind t
  end.

Definition ParseAddr (s : string) : result error Addr :=
  let l := codes s in
  match match addrKind l with
        | Some 46 => Addr4 <$> parseIPv4Codes l
        | Some 58 => parseIPv6 l
        | _ => None
        end with
  | Some a => Ok a
  | None => Err errParseAddr
  end.

Definition BitLen (a : Addr) : Z := match a with Addr4 _ => 32 | Addr6 _ _ => 128 end.
Definition addrBits (a : Addr) : Z := match a with Addr4 b | Addr6 b _ => b end.
Definition Zone (a : Addr) : string := match a with Addr4 _ => "" | Addr6 _ z => z end.
Definition Is4In6 (a : Addr) : bool :=
  match a with Addr4 _ => false | Addr6 b _ => Z.shiftr b 32 =? 0xffff end.

(** [Addr.IsLoopback], which looks into mapped addresses. *)
Definition IsLoopback (a : Addr) : bool :=
  match a with
  | Addr4 b => Z.shiftr b 24 =? 127
  | Addr6 b _ => if Is4In6 a then Z.shiftr (b mod 2 ^ 32) 24 =? 127 else b =? 1
  end.

(** ** Prefixes *)

Record Prefix := mkPrefix { pf_ip : Addr; pf_bits : Z }.

Definition withoutZone (a : Addr) : Addr := match a with Addr4 b => Addr4 b | Addr6 b _ => Addr6 b "" end.
Definition PrefixFrom (ip : Addr) (bits : Z) : Prefix := mkPrefix (withoutZone ip) bits.

Definition errParsePrefix : error := ErrNew "netip.ParsePrefix".

Definition ParsePrefix (s : string) : result error Prefix :=
  let l := codes s in
  match lastIndexCode 47 l with
  | None => Err errParsePrefix
  | Some i =>
      match ParseAddr (ofCodes (take i l)) with
      | Err _ => Err errParsePrefix
      | Ok ip =>
          let bitsStr := drop (S i) l in
          if negb (bool_decide (Zone ip = "")) then Err errParsePrefix
          else if (1 <? length bitsStr)%nat && negb (inRange 49 57 (nth 0 bitsStr 0)) then Err errParsePrefix
          else match Atoi (ofCodes bitsStr) with
               | Err _ => Err errParsePrefix
               | Ok bits => if (bits <? 0) || (BitLen ip <? bits) then Err errParsePrefix
                            else Ok (PrefixFrom ip bits)
               end
      end
  end.

(** [Prefix.Contains]: never for an address with a zone or of another version. *)
Definition PrefixContains (p : Prefix) (ip : Addr) : bool :=
  bool_decide (Zone ip = "") && (BitLen (pf_ip p) =? BitLen ip)
  && (Z.shiftr (Z.lxor (addrBits ip) (addrBits (pf_ip p))) (BitLen ip - pf_bits p) =? 0).

(** ** The older interface *)

(** [net.ParseIP(host)] and [ip.IsLoopback()] of its result, if any. *)
Definition ParseIP (s : string) : option Addr :=
  match ParseAddr s with
  | Ok a => if bool_decide (Zone a = "") then Some a else None
  | Err _ => None
  end.

(** ** URLs *)

Record URL := mkURL {
  u_Scheme : string; u_Opaque : string; u_User : bool; u_Host : string; u_Path : string;
  u_RawQuery : string; u_Fragment : string }.

Class UrlLib := { urlParse : string -> result error URL }.

Definition validOptionalPort (l : list Z) : bool :=
  match l with [] => true | c :: t => (c =? 58) && forallb isDigit t end.

(** The unexported [splitHostPort] of the package. *)
Definition urlHostPort (hostPort : string) : string * string :=
  let l := codes hostPort in
  let '(host, port) :=
    match lastIndexCode 58 l with
    | Some i => if validOptionalPort (drop i l) then (take i l, drop (S i) l) else (l, [])
    | None => (l, [])
    end in
  let host := if bool_decide (head host = Some 91) && bool_decide (last host = Some 93)
              then take (length host - 2) (drop 1 host) else host in
  (ofCodes host, ofCodes port).
Definition Hostname (u : URL) : string := fst (urlHostPort (u_Host u)).
Definition Port (u : URL) : string := snd (urlHostPort (u_Host u)).

(** ** Checks against the documented behaviour *)

Definition addrIs (s : string) (a : Addr) : bool :=
  match ParseAddr s, a with
  | Ok (Addr4 x), Addr4 y => x =? y
  | Ok (Addr6 x z), Addr6 y w => (x =? y) && bool_decide (z = w)
  | _, _ => false
  end.
Definition addrBad (s : string) : bool := negb (is_Ok (ParseAddr s)).

Example addr_vectors :
  forallb (fun p => addrIs (fst p) (snd p))
    [("127.0.0.1", Addr4 2130706433); ("::", Addr6 0 ""); ("::1", Addr6 1 ""); ("1::", Addr6 (2 ^ 112) "");
     ("fe80::1%eth0", Addr6 (0xfe80 * 2 ^ 112 + 1) "eth0"); ("::ffff:127.0.0.1", Addr6 0xffff7f000001 "");
     ("1:2:3:4:5:6:7:8", Addr6 0x00010002000300040005000600070008 "");
     ("64:ff9b::1.2.3.4", Addr6 (0x64 * 2 ^ 112 + 0xff9b * 2 ^ 96 + 0x01020304) "")]
  && forallb addrBad
    ["1.2.3"; "1.2.3.4.5"; "01.2.3.4"; "256.1.1.1"; "1..2.3"; "1.2.3."; ""; "localhost"; ":::"; "1:2:3:4:5:6:7";
     "1:2:3:4:5:6:7:8:9"; "1::2::3"; "12345::"; "::1%"; ":1"; "1:"; "1:2:3:4:5:6:7::8"; "::1.2.3"; "%eth0"]
  = true.
Proof. vm_compute. reflexivity. Qed.

Example hostport_vectors :
  SplitHostPort "a:1" = Ok ("a", "1") /\ SplitHostPort "[::1]:80" = Ok ("::1", "80")
  /\ SplitHostPort ":80" = Ok ("", "80") /\ SplitHostPort "a:" = Ok ("a", "")
  /\ forallb (fun s => negb (is_Ok (SplitHostPort s)))
       ["a"; "a:b:c"; "[::1]"; "[::1"; "[::1]x:1"; "[a]:b:c"; "a]:1"; "[[a]:1"; ""; "[a]:1]"] = true.
Proof. vm_compute. by split_and!. Qed.
