(* ===== verification/Egress.v ===== *)
(** * The egress proxy: [pkg/egress/proxy.go]

    A workload reaches the outside through this proxy, which lets a request pass when its
    destination is on the loopback interface or on the allow list.  The policy is the record
    of the source; a handler takes what the network would answer ([upstream]) and gives what
    it did, in order: the connections and requests it made and the answers it wrote.  The
    tunnel of a [CONNECT] request is two concurrent copies, a step relation.  The lower case
    of [unicode] is the class [UnicodeCase]. *)

From stdpp Require Import base gmap list strings relations.
From Stdlib Require Import ZArith Lia.
From S2P Require Import Prelude GoStrings Errors GoNumbers GoNet.

(** ** Destinations *)

Class UnicodeCase := { unicodeToLower : Z -> Z }.

Section destinations.
Context `{UnicodeCase}.

(** [strings.ToLower]. *)
Definition lower (s : string) : string :=
  ofCodes (concat (map (fun r => encodeRune (unicodeToLower r)) (runes s))).

Definition defaultPort (scheme : string) : string :=
  if bool_decide (lower scheme = "https") then "443" else "80".

Definition errMissingHost : error := ErrNew "missing host".

(** The end of [destinationParts], after the address was taken apart. *)
Definition finishParts (host port scheme : string) : result error (string * string) :=
  let host := Trim (lower host) "[]" in
  if bool_decide (host = "") then Err errMissingHost
  else Ok (host, if bool_decide (port = "") then defaultPort scheme else port).

Definition destinationParts (target scheme : string) : result error (string * string) :=
  if bool_decide (target = "") then Err errMissingHost
  else match SplitHostPort target with
       | Ok (host, port) => finishParts host port scheme
       | Err e => if Contains (AddrError_text e) "missing port in address"
                  then finishParts (Trim target "[]") (defaultPort scheme) scheme
                  else Err (ErrNew (AddrError_text e))
       end.

(** ** The policy *)

Record destinationPolicy := mkPolicy {
  allowLoopback : bool; hosts : gset string; hostPorts : gset string; prefixes : list Prefix }.

Definition addEntry (entry : string) (p : destinationPolicy) : destinationPolicy :=
  let entry := TrimSpace (lower entry) in
  if bool_decide (entry = "") then p
  else match ParsePrefix entry with
       | Ok prefix => mkPolicy (allowLoopback p) (hosts p) (hostPorts p) (prefixes p ++ [prefix])
       | Err _ =>
           match ParseAddr (Trim entry "[]") with
           | Ok addr => mkPolicy (allowLoopback p) (hosts p) (hostPorts p)
                          (prefixes p ++ [PrefixFrom addr (BitLen addr)])
           | Err _ =>
               match SplitHostPort entry with
               | Ok (host, port) =>
                   let host := Trim (lower host) "[]" in
                   mkPolicy (allowLoopback p) (hosts p) ({[JoinHostPort host port]} ∪ hostPorts p) (prefixes p)
               | Err _ => mkPolicy (allowLoopback p) ({[Trim entry "[]"]} ∪ hosts p) (hostPorts p) (prefixes p)
               end
           end
       end.

Definition newDestinationPolicy (entries : list string) : destinationPolicy :=
  foldl (fun p e => addEntry e p) (mkPolicy true ∅ ∅ []) entries.

Definition allowed (p : destinationPolicy) (host port : string) : bool :=
  let host := Trim (lower host) "[]" in
  if bool_decide (host = "localhost") && allowLoopback p then true
  else if bool_decide (JoinHostPort host port ∈ hostPorts p) then true
  else if bool_decide (host ∈ hosts p) then true
  else match ParseAddr host with
       | Err _ => false
       | Ok addr =>
           if IsLoopback addr && allowLoopback p then true
           else existsb (fun prefix => PrefixContains prefix addr) (prefixes p)
       end.

Definition allowDestination (p : destinationPolicy) (target scheme : string) : bool :=
  match destinationParts target scheme with
  | Err _ => false
  | Ok (host, port) => allowed p host port
  end.

(** ** The handlers *)

Notation Header := (gmap string (list string)).

Record Request := mkRequest {
  rq_Method : string; rq_ProtoMajor : Z; rq_URL : URL; rq_Host : string; rq_Header : Header;
  rq_RequestURI : string; rq_Body : string }.
(** A body is what can be read of it. *)
Record Response := mkResponse { rs_StatusCode : Z; rs_Header : Header; rs_Body : string }.

(** What the network and the server's connection would answer.  The round trip of the
    client and what [httputil.ReverseProxy] does after its director are functions of the
    request they are given. *)
Record upstream := mkUpstream {
  up_dial : string -> option error;
  up_hijacker : bool;
  up_hijack : option error;
  up_write : option error;
  up_do : Request -> result error Response;
  up_reverse : Request -> result error Response }.

Inductive event :=
| EvDial (address : string)
| EvTunnel (address : string)
| EvDo (r : Request)
| EvReverse (r : Request)
| EvError (status : Z) (text : string)
| EvRespond (status : Z) (h : Header) (body : string).

(** [Header.Add] for a canonical key. *)
Definition headerAdd (k v : string) (h : Header) : Header := <[k := default [] (h !! k) ++ [v]]> h.

Definition copyHeader (dst src : Header) : Header :=
  map_fold (fun k vv h => foldl (fun h v => headerAdd k v h) h vv) dst src.

Definition hopHeaders : list string :=
  ["Connection"; "Keep-Alive"; "Proxy-Authenticate"; "Proxy-Authorization"; "Te"; "Trailers";
   "Transfer-Encoding"; "Upgrade"].

Definition delHopHeaders (h : Header) : Header := foldl (fun h k => delete k h) h hopHeaders.

Definition withSchemeHost (u : URL) (scheme host : string) : URL :=
  mkURL scheme (u_Opaque u) (u_User u) host (u_Path u) (u_RawQuery u) (u_Fragment u).

Definition outboundURL (r : Request) : URL :=
  let u := rq_URL r in
  withSchemeHost u (if bool_decide (u_Scheme u = "") then "http" else u_Scheme u)
    (if bool_decide (u_Host u = "") then rq_Host r else u_Host u).

Definition deniedText : string := "egress destination denied".

Definition handleConnect (p : destinationPolicy) (w : upstream) (r : Request) (errText : error -> string)
  : list event :=
  let host := rq_Host r in
  if negb (allowDestination p host "https") then [EvError 403 deniedText]
  else EvDial host ::
    match up_dial w host with
    | Some e => [EvError 503 (errText e)]
    | None =>
        if negb (up_hijacker w) then [EvError 500 "hijacking not supported"]
        else match up_hijack w with
             | Some _ => []
             | None => match up_write w with
                       | Some _ => []
                       | None => [EvTunnel host]
                       end
             end
    end.

Definition handleHTTP (p : destinationPolicy) (w : upstream) (r : Request) (errText : error -> string)
  : list event :=
  let targetURL := outboundURL r in
  if negb (allowDestination p (u_Host targetURL) (u_Scheme targetURL)) then [EvError 403 deniedText]
  else
    let outReq := mkRequest (rq_Method r) (rq_ProtoMajor r) targetURL (u_Host targetURL)
                    (delHopHeaders (rq_Header r)) "" (rq_Body r) in
    EvDo outReq ::
      match up_do w outReq with
      | Err e => [EvError 502 (errText e)]
      | Ok resp => [EvRespond (rs_StatusCode resp) (copyHeader ∅ (rs_Header resp)) (rs_Body resp)]
      end.

(** The director of the reverse proxy; the path and the query are those of the request in
    either case, since the request it changes is a copy. *)
Definition direct (r : Request) (targetURL : URL) (req : Request) : Request :=
  let u := withSchemeHost (rq_URL req) (u_Scheme targetURL) (u_Host targetURL) in
  let u := if bool_decide (u_Scheme (rq_URL r) = "")
           then mkURL (u_Scheme u) (u_Opaque u) (u_User u) (u_Host u) (u_Path (rq_URL r))
                  (u_RawQuery (rq_URL r)) (u_Fragment u)
           else u in
  mkRequest (rq_Method req) (rq_ProtoMajor req) u (u_Host targetURL) (delHopHeaders (rq_Header req))
    (rq_RequestURI req) (rq_Body req).

Definition handleHTTP2 (p : destinationPolicy) (w : upstream) (r : Request) (errText : error -> string)
  : list event :=
  let targetURL := outboundURL r in
  if negb (allowDestination p (u_Host targetURL) (u_Scheme targetURL)) then [EvError 403 deniedText]
  else
    let outReq := direct r targetURL r in
    EvReverse outReq ::
      match up_reverse w outReq with
      | Err e => [EvError 502 (errText e)]
      | Ok resp => [EvRespond (rs_StatusCode resp) (rs_Header resp) (rs_Body resp)]
      end.

Definition handle (p : destinationPolicy) (w : upstream) (r : Request) (errText : error -> string)
  : list event :=
  if bool_decide (rq_Method r = "CONNECT") then handleConnect p w r errText
  else if rq_ProtoMajor r =? 2 then handleHTTP2 p w r errText
  else handleHTTP p w r errText.

End destinations.

(** ** The tunnel *)

(** One direction: what the source gives, what was written to the destination, how many
    writes it will still take ([None]: all), whether the copy has ended and whether the
    destination's write end was closed. *)
Record half := mkHalf {
  hf_in : list string; hf_out : list string; hf_room : option nat; hf_ended : bool; hf_closed : bool }.

(** One step of [io.Copy] followed by [CloseWrite]; the copy ends at the end of the source
    or at a failed write. *)
Definition stepHalf (h : half) : option half :=
  if hf_closed h then None
  else if hf_ended h then Some (mkHalf (hf_in h) (hf_out h) (hf_room h) true true)
  else match hf_in h, hf_room h with
       | [], _ => Some (mkHalf [] (hf_out h) (hf_room h) true false)
       | c :: t, Some O => Some (mkHalf t (hf_out h) (Some O) true false)
       | c :: t, Some (S n) => Some (mkHalf t (hf_out h ++ [c]) (Some n) false false)
       | c :: t, None => Some (mkHalf t (hf_out h ++ [c]) None false false)
       end.

(** The two goroutines of [pipe]; [wg.Wait] returns when neither can step. *)
Inductive pipe : half * half -> half * half -> Prop :=
| PipeForward a b a' : stepHalf a = Some a' -> pipe (a, b) (a', b)
| PipeBack a b b' : stepHalf b = Some b' -> pipe (a, b) (a, b').

Definition freshHalf (reads : list string) (room : option nat) : half := mkHalf reads [] room false false.

(** ** What an entry of the list stands for *)

Inductive rule := NoRule | NetRule (p : Prefix) | EndpointRule (host port : string) | NameRule (host : string).

Section rules.
Context `{UnicodeCase}.

Definition normal (host : string) : string := Trim (lower host) "[]".

Definition ruleOf (entry : string) : rule :=
  let e := TrimSpace (lower entry) in
  match ParsePrefix e, ParseAddr (Trim e "[]"), SplitHostPort e with
  | Ok p, _, _ => NetRule p
  | Err _, Ok a, _ => NetRule (PrefixFrom a (BitLen a))
  | Err _, Err _, Ok (h, port) => EndpointRule (normal h) port
  | Err _, Err _, Err _ => if bool_decide (e = "") then NoRule else NameRule (Trim e "[]")
  end.

Definition permits (host port : string) (r : rule) : bool :=
  match r with
  | NoRule => false
  | NetRule p => match ParseAddr host with Ok a => PrefixContains p a | Err _ => false end
  | EndpointRule h q => bool_decide (h = host) && bool_decide (q = port)
  | NameRule h => bool_decide (h = host)
  end.

Definition onLoopback (host : string) : bool :=
  bool_decide (host = "localhost")
  || match ParseAddr host with Ok a => IsLoopback a | Err _ => false end.

End rules.

(** ** Ports *)

Definition colonFree (s : string) : bool := negb (hasCode 58 (codes s)).

Lemma hasCode_elem c l : hasCode c l = true <-> c ∈ l.
Proof.
  unfold hasCode. rewrite existsb_exists. setoid_rewrite <- list_elem_of_In. split.
  - intros (x & Hx & E). apply Z.eqb_eq in E. by subst.
  - intros Hc. exists c. split; [done|]. apply Z.eqb_refl.
Qed.
Lemma colonFree_codes s : colonFree s = true <-> 58 ∉ codes s.
Proof.
  unfold colonFree. rewrite negb_true_iff, <- hasCode_elem.
  destruct (hasCode 58 (codes s)); split; try congruence; by intros [].
Qed.

Lemma lastIndexCode_after c l i : lastIndexCode c l = Some i -> c ∉ drop (S i) l.
Proof.
  revert i; induction l as [|x t IH]; intros i; cbn [lastIndexCode]; [done|].
  destruct (lastIndexCode c t) as [j|] eqn:E; [intros [= <-]; cbn; by apply IH|].
  destruct (x =? c); [|done]. intros [= <-]. cbn. clear IH.
  induction t as [|y t IH]; [apply not_elem_of_nil|]. cbn [lastIndexCode] in E.
  destruct (lastIndexCode c t); [done|]. destruct (Z.eqb_spec y c); [done|].
  apply not_elem_of_cons. split; [congruence|]. by apply IH.
Qed.

Lemma list_eq_cons {A} (x y : A) l k : x :: l = y :: k -> x = y /\ l = k.
Proof. by intros [= -> ->]. Qed.

Lemma split_last {A} (c : A) a b p q : c ∉ p -> c ∉ q -> a ++ c :: p = b ++ c :: q -> a = b /\ p = q.
Proof.
  intros Hp Hq. revert b; induction a as [|x a IH]; intros [|y b]; cbn; intros E; apply list_eq_cons in E as [E1 E2].
  - done.
  - destruct Hp. rewrite E2. apply elem_of_app. right. constructor.
  - destruct Hq. rewrite <- E2. apply elem_of_app. right. constructor.
  - by destruct (IH _ E2) as [-> ->]; subst.
Qed.

Lemma SplitHostPort_port s h p : SplitHostPort s = Ok (h, p) -> colonFree p = true.
Proof.
  unfold SplitHostPort. intros E. apply colonFree_codes. revert E.
  destruct (splitCodesHostPort (codes s)) as [[h' p']|] eqn:E; [|done]. intros [= _ <-].
  assert (exists i, lastIndexCode 58 (codes s) = Some i /\ p' = drop (S i) (codes s)) as (i & Hi & ->).
  { revert E. unfold splitCodesHostPort. destruct (lastIndexCode 58 (codes s)) as [i|]; [|done].
    intros E. exists i. split; [done|]. repeat case_hyp E; try discriminate E; by simplify_eq. }
  rewrite codes_ofCodes; [by apply lastIndexCode_after|]. apply Forall_drop, codes_range.
Qed.

Lemma JoinHostPort_inj h p h' p' :
  colonFree p = true -> colonFree p' = true -> JoinHostPort h p = JoinHostPort h' p' -> h = h' /\ p = p'.
Proof.
  rewrite !colonFree_codes. intros Hp Hp' E. apply (f_equal codes) in E. revert E.
  assert (forall h p, codes (JoinHostPort h p)
    = (if hasCode 58 (codes h) then 91 :: codes h ++ [93] else codes h) ++ 58 :: codes p) as J.
  { intros x y. unfold JoinHostPort. case_goal; rewrite !codes_app; [|done].
    change (codes "[") with [91]. change (codes "]:") with [93; 58]. cbn. by rewrite <- app_assoc. }
  rewrite !J. intros E. apply split_last in E as [E Ep]; [|done..].
  split; [|by apply codes_inj]. apply codes_inj. revert E.
  destruct (hasCode 58 (codes h)) eqn:A, (hasCode 58 (codes h')) eqn:B; intros E; [|exfalso..|done].
  - injection E as E. by apply app_inj_2 in E as [? _].
  - rewrite <- E in B. revert B A. rewrite <- not_true_iff_false, !hasCode_elem. set_solver.
  - rewrite E in A. revert B A. rewrite <- not_true_iff_false, !hasCode_elem. set_solver.
Qed.

(** ** The policy is the union of its rules *)

Section policy.
Context `{UnicodeCase}.

Definition addRule (p : destinationPolicy) (r : rule) : destinationPolicy :=
  match r with
  | NoRule => p
  | NetRule n => mkPolicy (allowLoopback p) (hosts p) (hostPorts p) (prefixes p ++ [n])
  | EndpointRule h q => mkPolicy (allowLoopback p) (hosts p) ({[JoinHostPort h q]} ∪ hostPorts p) (prefixes p)
  | NameRule h => mkPolicy (allowLoopback p) ({[h]} ∪ hosts p) (hostPorts p) (prefixes p)
  end.

Lemma addEntry_rule e p : addEntry e p = addRule p (ruleOf e).
Proof.
  unfold addEntry, ruleOf. case_bool_decide as E; [by rewrite E|].
  destruct (ParsePrefix _); [done|]. destruct (ParseAddr _); [done|].
  destruct (SplitHostPort _) as [[h q]|]; [done|]. done.
Qed.

Lemma allowed_or p host port :
  allowed p host port
  = (allowLoopback p && onLoopback (normal host))
    || (bool_decide (JoinHostPort (normal host) port ∈ hostPorts p)
    || (bool_decide (normal host ∈ hosts p)
    || match ParseAddr (normal host) with
       | Ok a => existsb (fun n => PrefixContains n a) (prefixes p)
       | Err _ => false
       end)).
Proof.
  unfold allowed, onLoopback. fold (normal host).
  destruct (ParseAddr (normal host)) as [a|]; [destruct (IsLoopback a)|]; cbn [andb];
    destruct (allowLoopback p), (bool_decide (normal host = "localhost")),
      (bool_decide (JoinHostPort (normal host) port ∈ hostPorts p)),
      (bool_decide (normal host ∈ hosts p)); done.
Qed.

Definition ruleOk (r : rule) : bool := match r with EndpointRule _ q => colonFree q | _ => true end.

Lemma ruleOf_ok e : ruleOk (ruleOf e) = true.
Proof.
  unfold ruleOf. destruct (ParsePrefix _); [done|]. destruct (ParseAddr _); [done|].
  destruct (SplitHostPort _) as [[h q]|] eqn:E; [by eapply SplitHostPort_port|by case_goal].
Qed.

Lemma allowed_addRule p r host port :
  ruleOk r = true -> colonFree port = true ->
  allowed (addRule p r) host port = allowed p host port || permits (normal host) port r.
Proof.
  intros Hr Hp. rewrite !allowed_or. destruct r as [|n|h q|h]; cbn [addRule permits allowLoopback hosts hostPorts prefixes].
  - by rewrite orb_false_r.
  - destruct (ParseAddr (normal host)); rewrite ?existsb_app; cbn [existsb];
      rewrite ?orb_false_r, <- ?orb_assoc; done.
  - rewrite (bool_decide_ext _ (JoinHostPort (normal host) port ∈ hostPorts p \/ (h = normal host /\ q = port))).
    + rewrite bool_decide_or, bool_decide_and. by destruct (_ && onLoopback _), (bool_decide (JoinHostPort _ _ ∈ _)),
        (bool_decide (normal host ∈ hosts p)), (bool_decide (h = _)), (bool_decide (q = _)); rewrite ?orb_true_r, ?orb_false_r.
    + rewrite elem_of_union, elem_of_singleton. split; [|intros [?|[-> ->]]; auto].
      intros [E|?]; [right|by left]. by apply JoinHostPort_inj in E as [-> ->].
  - rewrite (bool_decide_ext (normal host ∈ _) (normal host ∈ hosts p \/ h = normal host)).
    + rewrite bool_decide_or. by destruct (_ && onLoopback _), (bool_decide (JoinHostPort _ _ ∈ _)),
        (bool_decide (normal host ∈ hosts p)), (bool_decide (h = _)); rewrite ?orb_true_r, ?orb_false_r.
    + rewrite elem_of_union, elem_of_singleton. naive_solver.
Qed.

Lemma allowed_fold p entries host port :
  colonFree port = true ->
  allowed (foldl (fun p e => addEntry e p) p entries) host port
  = allowed p host port || existsb (fun e => permits (normal host) port (ruleOf e)) entries.
Proof.
  intros Hp. revert p; induction entries as [|e t IH]; intros p; cbn [foldl existsb]; [by rewrite orb_false_r|].
  rewrite IH, addEntry_rule, allowed_addRule by (done || apply ruleOf_ok). by rewrite orb_assoc.
Qed.

Lemma allowed_new entries host port :
  colonFree port = true ->
  allowed (newDestinationPolicy entries) host port
  = onLoopback (normal host) || existsb (fun e => permits (normal host) port (ruleOf e)) entries.
Proof.
  intros Hp. unfold newDestinationPolicy. rewrite allowed_fold by done. f_equal.
  rewrite allowed_or. cbn [allowLoopback hosts hostPorts prefixes existsb].
  rewrite !bool_decide_eq_false_2 by set_solver. by destruct (onLoopback _), (ParseAddr _).
Qed.

Lemma defaultPort_colonFree scheme : colonFree (defaultPort scheme) = true.
Proof. unfold defaultPort. by case_goal. Qed.

Lemma destinationParts_port target scheme host port :
  destinationParts target scheme = Ok (host, port) -> colonFree port = true.
Proof.
  unfold destinationParts, finishParts. case_goal; [done|].
  destruct (SplitHostPort target) as [[h q]|e] eqn:E.
  - case_goal; [done|]. intros [= _ <-]. case_goal; [apply defaultPort_colonFree|by eapply SplitHostPort_port].
  - case_goal; [|done]. case_goal; [done|]. intros [= _ <-]. case_goal; apply defaultPort_colonFree.
Qed.

(** C20: a destination is allowed exactly when it has a host and that host is the local
    machine or some entry of the allow list stands for it: a prefix that contains the
    address, an endpoint with that very host and port, or that very name.  So the order
    and the repetition of the entries have no influence, and the empty list leaves the
    loopback interface. *)
Theorem allowDestination_iff (entries : list string) (target scheme : string) :
  allowDestination (newDestinationPolicy entries) target scheme = true <->
  exists host port, destinationParts target scheme = Ok (host, port) /\
    (onLoopback (normal host) = true
     \/ Exists (fun e => permits (normal host) port (ruleOf e) = true) entries).
Proof.
  unfold allowDestination. destruct (destinationParts target scheme) as [[host port]|] eqn:E;
    [|split; [done|by intros (? & ? & ? & _)]].
  rewrite allowed_new by by eapply destinationParts_port. rewrite orb_true_iff, existsb_exists.
  setoid_rewrite Exists_exists. setoid_rewrite list_elem_of_In. split; [intros; by exists host, port|].
  by intros (? & ? & [= <- <-] & ?).
Qed.

(** ** What the proxy contacts *)

(** The destination and the scheme a request names. *)
Definition destinationOf (r : Request) : string * string :=
  if bool_decide (rq_Method r = "CONNECT") then (rq_Host r, "https")
  else (u_Host (outboundURL r), u_Scheme (outboundURL r)).

Definition contacted (ev : event) : option string :=
  match ev with
  | EvDial a | EvTunnel a => Some a
  | EvDo q | EvReverse q => Some (u_Host (rq_URL q))
  | _ => None
  end.

Lemma handle_cases p w r errText :
  if allowDestination p (fst (destinationOf r)) (snd (destinationOf r))
  then exists ev rest, handle p w r errText = ev :: rest /\ contacted ev = Some (fst (destinationOf r))
       /\ Forall (fun e => contacted e = None \/ contacted e = Some (fst (destinationOf r))) rest
  else handle p w r errText = [EvError 403 deniedText].
Proof.
  unfold handle, destinationOf. destruct (bool_decide (rq_Method r = "CONNECT")); cbn [fst snd].
  - unfold handleConnect. destruct (allowDestination p _ _); cbn [negb]; [|done]. eexists _, _.
    split_and!; [reflexivity..|]. repeat case_goal; repeat first [apply Forall_cons_2 | apply Forall_nil_2]; cbn; auto.
  - unfold handleHTTP, handleHTTP2. destruct (allowDestination p _ _); cbn [negb]; [|by case_goal].
    case_goal; (eexists _, _; split_and!; [reflexivity| |case_goal; repeat first [apply Forall_cons_2 | apply Forall_nil_2]; cbn; auto]); cbn [contacted rq_URL]; [|done].
    unfold direct. by case_goal.
Qed.

(** C19: the proxy contacts nothing but the destination the request names, only when the
    allow list or the loopback rule permits it, and then it does; any other request is
    answered with 403 and nothing is contacted. *)
Theorem handle_contacts (entries : list string) (w : upstream) (r : Request) (errText : error -> string) :
  let evs := handle (newDestinationPolicy entries) w r errText in
  let '(target, scheme) := destinationOf r in
  if allowDestination (newDestinationPolicy entries) target scheme
  then omap contacted evs <> [] /\ Forall (eq target) (omap contacted evs)
  else evs = [EvError 403 deniedText].
Proof.
  cbn zeta. pose proof (handle_cases (newDestinationPolicy entries) w r errText) as Hc.
  destruct (destinationOf r) as [target scheme]; cbn [fst snd] in Hc. case_goal; [|done].
  destruct Hc as (ev & rest & -> & E & F). cbn [omap list_omap]. rewrite E. split; [done|].
  constructor; [done|]. apply Forall_forall. intros x (e & He & Hx)%list_elem_of_omap.
  apply (proj1 (Forall_forall _ _) F) in He. destruct He; congruence.
Qed.

(** ** An entry with a zone *)

Lemma PrefixContains_self a x :
  PrefixContains (PrefixFrom a (BitLen a)) x = true <-> x = withoutZone a.
Proof.
  unfold PrefixContains, PrefixFrom. cbn [pf_ip pf_bits]. rewrite !andb_true_iff, bool_decide_eq_true, !Z.eqb_eq.
  assert (BitLen (withoutZone a) = BitLen a) as -> by by destruct a. split.
  - intros [[Hz Hl] E]. rewrite Hl, Z.sub_diag, Z.shiftr_0_r in E. apply Z.lxor_eq in E.
    destruct a, x; cbn in *; congruence.
  - intros ->. assert (BitLen (withoutZone a) = BitLen a) as -> by by destruct a.
    rewrite Z.sub_diag, Z.shiftr_0_r, Z.lxor_nilpotent. by destruct a.
Qed.

(** An entry that is an address with a zone stands for the address without its zone,
    on any link, and never for the address with the zone that was written. *)
Theorem zoned_entry (entry : string) (bits : Z) (zone host port : string) :
  ParsePrefix (TrimSpace (lower entry)) = Err errParsePrefix ->
  ParseAddr (Trim (TrimSpace (lower entry)) "[]") = Ok (Addr6 bits zone) -> zone <> "" ->
  permits host port (ruleOf entry) = true <-> ParseAddr host = Ok (Addr6 bits "").
Proof.
  intros Hp Ha Hz. unfold ruleOf. rewrite Hp, Ha. cbn [permits].
  destruct (ParseAddr host) as [a|]; [|done]. rewrite PrefixContains_self. cbn [withoutZone].
  split; [by intros ->|by intros [= ->]].
Qed.

(** ** What is forwarded *)

Lemma delHopHeaders_lookup h k :
  delHopHeaders h !! k = if bool_decide (k ∈ hopHeaders) then None else h !! k.
Proof.
  unfold delHopHeaders. generalize hopHeaders as l. intros l; revert h; induction l as [|x l IH]; intros h; cbn [foldl].
  - rewrite bool_decide_eq_false_2; [done|apply not_elem_of_nil].
  - rewrite IH. repeat case_bool_decide; try done; [set_solver|..].
    + destruct (decide (x = k)) as [->|]; [by rewrite lookup_delete_eq|set_solver].
    + rewrite lookup_delete_ne; [done|set_solver].
Qed.

Lemma foldl_headerAdd k vv h : foldl (fun h v => headerAdd k v h) h vv
  = match vv with [] => h | _ => <[k := default [] (h !! k) ++ vv]> h end.
Proof.
  revert h; induction vv as [|v t IH]; intros h; cbn [foldl]; [done|]. rewrite IH. unfold headerAdd.
  destruct t; [done|]. rewrite lookup_insert_eq, insert_insert_eq. cbn [default from_option id].
  by rewrite <- app_assoc.
Qed.

Lemma copyHeader_lookup (src : gmap string (list string)) (k : string) :
  copyHeader ∅ src !! k = match src !! k with Some (v :: vv) => Some (v :: vv) | _ => None end.
Proof.
  unfold copyHeader. revert k.
  apply (map_fold_weak_ind (fun (out src : gmap string (list string)) => forall k, out !! k
    = match src !! k with Some (v :: vv) => Some (v :: vv) | _ => None end)).
  - intros k. by rewrite !lookup_empty.
  - intros i vv m r Hi IH k. rewrite foldl_headerAdd. destruct (decide (k = i)) as [->|Hne].
    + rewrite lookup_insert_eq. destruct vv; [by rewrite IH, Hi|].
      by rewrite lookup_insert_eq, IH, Hi.
    + rewrite lookup_insert_ne by done. destruct vv; [apply IH|]. rewrite lookup_insert_ne by done. apply IH.
Qed.

(** A plain request to an allowed destination is sent on once, with its method, its
    body and all its headers but the eight hop-by-hop ones; the status, the body and every
    header of the answer that has a value come back. *)
Theorem http_forwarded (p : destinationPolicy) (w : upstream) (r : Request) (errText : error -> string)
    (resp : Response) :
  rq_Method r <> "CONNECT" -> rq_ProtoMajor r <> 2 ->
  allowDestination p (u_Host (outboundURL r)) (u_Scheme (outboundURL r)) = true ->
  (forall q, up_do w q = Ok resp) ->
  exists outReq h,
    handle p w r errText = [EvDo outReq; EvRespond (rs_StatusCode resp) h (rs_Body resp)]
    /\ rq_URL outReq = outboundURL r /\ rq_Host outReq = u_Host (outboundURL r)
    /\ rq_Method outReq = rq_Method r /\ rq_Body outReq = rq_Body r
    /\ (forall k, rq_Header outReq !! k = if bool_decide (k ∈ hopHeaders) then None else rq_Header r !! k)
    /\ (forall k, h !! k = match rs_Header resp !! k with Some (v :: vv) => Some (v :: vv) | _ => None end).
Proof.
  intros Hm Hv Ha Hd. unfold handle. rewrite bool_decide_eq_false_2 by done.
  rewrite (proj2 (Z.eqb_neq _ _)) by done. unfold handleHTTP. rewrite Ha, Hd. cbn [negb].
  eexists _, _. split; [reflexivity|]. cbn [rq_URL rq_Host rq_Method rq_Body rq_Header].
  split_and!; [done..|apply delHopHeaders_lookup|apply copyHeader_lookup].
Qed.

End policy.

(** ** The tunnel delivers *)

(** What a direction ends with, and how many steps it needs at most. *)
Fixpoint copyIn (h : list string) (room : option nat) : list string :=
  match h, room with
  | [], _ | _, Some O => []
  | c :: t, Some (S n) => c :: copyIn t (Some n)
  | c :: t, None => c :: copyIn t None
  end.
Definition willDeliver (h : half) : list string :=
  hf_out h ++ if hf_ended h then [] else copyIn (hf_in h) (hf_room h).
Definition stepsLeft (h : half) : nat :=
  if hf_closed h then 0%nat else if hf_ended h then 1%nat else (2 + length (hf_in h))%nat.
(** The destination is closed only after the copy. *)
Definition half_ok (h : half) : Prop := hf_closed h = true -> hf_ended h = true.

Lemma stepHalf_inv h h' : half_ok h -> stepHalf h = Some h' ->
  half_ok h' /\ willDeliver h' = willDeliver h /\ (stepsLeft h' < stepsLeft h)%nat.
Proof.
  destruct h as [i o [[|n]|] [] []], i as [|c i]; unfold half_ok, stepHalf, willDeliver, stepsLeft; cbn;
    intros Hok E; try done; injection E as <-; cbn; rewrite <- ?app_assoc; (split_and!; [done..|lia]).
Qed.
Lemma stepHalf_None h : stepHalf h = None <-> hf_closed h = true.
Proof. destruct h as [i o [[|n]|] [] []], i as [|c i]; by cbn. Qed.

Lemma pipe_inv x y : pipe x y -> half_ok x.1 -> half_ok x.2 ->
  half_ok y.1 /\ half_ok y.2 /\ willDeliver y.1 = willDeliver x.1 /\ willDeliver y.2 = willDeliver x.2
  /\ (stepsLeft y.1 + stepsLeft y.2 < stepsLeft x.1 + stepsLeft x.2)%nat.
Proof.
  intros [a b a' E|a b b' E] Ha Hb; cbn in *; apply stepHalf_inv in E as (? & ? & ?); try done;
    split_and!; done || lia.
Qed.

Lemma pipe_nf x : nf pipe x <-> hf_closed x.1 = true /\ hf_closed x.2 = true.
Proof.
  destruct x as [a b]; cbn. rewrite <- !stepHalf_None. split.
  - intros Hn. destruct (stepHalf a) eqn:Ea; [destruct Hn; eexists; by constructor|].
    destruct (stepHalf b) eqn:Eb; [|done]. destruct Hn. eexists. by constructor.
  - intros [Ea Eb] [y Hy]. inversion Hy; congruence.
Qed.

Lemma pipe_steps n x y : nsteps pipe n x y -> half_ok x.1 -> half_ok x.2 ->
  half_ok y.1 /\ half_ok y.2 /\ willDeliver y.1 = willDeliver x.1 /\ willDeliver y.2 = willDeliver x.2
  /\ (n + (stepsLeft y.1 + stepsLeft y.2) <= stepsLeft x.1 + stepsLeft x.2)%nat.
Proof.
  induction 1 as [x|n x y z Hxy _ IH]; intros Ha Hb; [split_and!; done || lia|].
  apply pipe_inv in Hxy as (? & ? & ? & ? & ?); [|done..]. destruct IH as (? & ? & ? & ? & ?); [done..|].
  split_and!; [done..|congruence|congruence|lia].
Qed.


Lemma copyIn_all l : copyIn l None = l.
Proof. induction l as [|c t IH]; cbn; congruence. Qed.

(** ** Samples *)

Module EgressSample.

#[local] Instance asciiCase : UnicodeCase := {| unicodeToLower := toLowerRune |}.

Definition entries : list string := [" 10.0.0.0/8 "; "API.example:8443"; "fe80::1%eth0"; "[2001:db8::1]"; "files.example"].
Definition permitted (target : string) : bool := allowDestination (newDestinationPolicy entries) target "https".

Example sample_destinations :
  forallb permitted ["localhost"; "LOCALHOST:1"; "127.8.9.1:80"; "[::1]:22"; "10.2.3.4:5"; "api.example:8443";
                     "files.example:1"; "Files.Example"; "[fe80::1]:80"; "[2001:db8::1]"] = true
  /\ forallb (fun t => negb (permitted t))
       [""; "11.0.0.1:80"; "api.example"; "api.example:443"; "[fe80::1%eth0]:80"; "example:443"; "[]"; "a:b:c"] = true.
Proof. vm_compute. by split. Qed.

Lemma zoned_entry_witness :
  permits "fe80::1%eth0" "80" (ruleOf "fe80::1%eth0") = true
  <-> ParseAddr "fe80::1%eth0" = Ok (Addr6 (0xfe80 * 2 ^ 112 + 1) "").
Proof. apply (zoned_entry _ _ "eth0"); [by vm_compute..|done]. Defined.

Definition sampleURL : URL := mkURL "http" "" false "files.example" "/a" "" "".
Definition sampleRequest : Request :=
  mkRequest "GET" 1 sampleURL "files.example" {["Te" := ["x"]; "Accept" := ["y"]]} "http://files.example/a" "".
Definition sampleResponse : Response := mkResponse 200 {["Server" := ["s"]]} "body".
Definition sampleNet : upstream :=
  mkUpstream (fun _ => None) true None None (fun _ => Ok sampleResponse) (fun _ => Ok sampleResponse).

Lemma http_forwarded_witness :
  exists outReq h,
    handle (newDestinationPolicy entries) sampleNet sampleRequest (fun _ => "") = [EvDo outReq; EvRespond 200 h "body"]
    /\ rq_URL outReq = outboundURL sampleRequest /\ rq_Host outReq = u_Host (outboundURL sampleRequest)
    /\ rq_Method outReq = "GET" /\ rq_Body outReq = ""
    /\ (forall k, rq_Header outReq !! k
          = if bool_decide (k ∈ hopHeaders) then None else rq_Header sampleRequest !! k)
    /\ (forall k, h !! k = match rs_Header sampleResponse !! k with Some (v :: vv) => Some (v :: vv) | _ => None end).
Proof.
  apply (http_forwarded (newDestinationPolicy entries) sampleNet sampleRequest (fun _ => "") sampleResponse);
    [done|done|by vm_compute|done].
Defined.


End EgressSample.
