(* ===== verification/Netguard.v ===== *)
(** * Plaintext only on the local machine: [internal/runtime/netguard] and its users

    Four places speak without TLS and ask [netguard] first: the runtime's gRPC server, the
    agent's own server, the trace exporter and the clients of the attestation agent.  Each
    is the decision the source makes before the call that opens a socket, so the theorems
    relate what was asked to the address that is opened. *)

From stdpp Require Import base sets list strings.
From Stdlib Require Import ZArith Lia.
From S2P Require Import Prelude GoStrings Errors GoNumbers GoNet Egress.

(** ** [netguard.go] *)

Definition IsLoopbackHost (host : string) : bool :=
  let host := TrimSpace (Trim host "[]") in
  EqualFold host "localhost"
  || match ParseIP host with Some ip => IsLoopback ip | None => false end.

Definition PlaintextBindAllowed (host : string) : bool := IsLoopbackHost host.

Definition hostOnly (hostport : string) : string :=
  match SplitHostPort hostport with
  | Ok (host, _) => host
  | Err _ => Trim hostport "[]"
  end.

(** The end of [targetHost]: what stands before the first slash. *)
Definition beforeSlash (target : string) : string :=
  let l := codes target in
  hostOnly (match indexCode 47 l with Some i => ofCodes (take i l) | None => target end).

Section targets.
Context `{UrlLib}.

Definition targetHost (target : string) : string :=
  if GoStrings.Contains target "://" then
    match urlParse target with
    | Err _ => ""
    | Ok parsed =>
        if negb (bool_decide (u_Host parsed = "")) then hostOnly (u_Host parsed)
        else if negb (bool_decide (u_Opaque parsed = "")) then hostOnly (u_Opaque parsed)
        else beforeSlash target
    end
  else beforeSlash target.

Definition PlaintextTargetAllowed (target : string) : bool :=
  let target := TrimSpace target in
  if bool_decide (target = "") then false
  else if HasPrefix target "unix://" || HasPrefix target "/" || HasPrefix target "." then true
  else IsLoopbackHost (targetHost target).

Definition InsecureHTTPAllowed (rawURL : URL) : bool :=
  EqualFold (u_Scheme rawURL) "http" && IsLoopbackHost (Hostname rawURL).

(** ** The clients of the attestation agent *)

Definition ErrPlaintextRemoteAttestationAgent : error :=
  ErrNew "plaintext attestation-agent client requires unix socket or loopback".

(** [NewClient] of [attestation-agent/client.go]: the target given to gRPC, in plaintext. *)
Definition aaTarget (address : string) : result error string :=
  if GoStrings.Contains address ":" then
    if negb (PlaintextTargetAllowed address) then Err ErrPlaintextRemoteAttestationAgent
    else Ok address
  else Ok ("unix://" +:+ address).

Definition ErrPlaintextRemoteCCAA : error :=
  ErrNew "plaintext CC attestation-agent provider requires loopback".

(** [NewProvider] of [ccaa/provider.go] up to its first call; [connect] is
    [grpc.NewClient] and [teeType] the test of the connection. *)
Definition ccaaNewProvider (connect : string -> option error) (teeType : option error) (addr : string)
  : result error string :=
  if negb (PlaintextTargetAllowed addr) then Err ErrPlaintextRemoteCCAA
  else match connect addr with
       | Some e => Err (ErrWrap ("failed to connect to CC attestation-agent at " +:+ addr) e)
       | None => match teeType with
                 | Some e => Err (ErrWrap "failed to verify CC attestation-agent connection" e)
                 | None => Ok addr
                 end
       end.

End targets.

(** ** The trace exporter: [tracing.go] *)

Definition ErrMissingTraceURL : error := ErrNew "runtime tracing: missing trace URL".
Definition ErrMissingServiceName : error := ErrNew "runtime tracing: missing service name".
Definition ErrUnsupportedTraceURL : error := ErrNew "runtime tracing: unsupported trace URL scheme".
Definition ErrInsecureTraceURL : error :=
  ErrNew "runtime tracing: http trace URL requires localhost, loopback, or https".

Record traceClient := mkTraceClient { tc_Endpoint : string; tc_URLPath : string; tc_Insecure : bool }.

Definition zeroURL (u : URL) : bool :=
  bool_decide (u_Scheme u = "" /\ u_Opaque u = "" /\ u_User u = false /\ u_Host u = "" /\ u_Path u = ""
               /\ u_RawQuery u = "" /\ u_Fragment u = "").

(** The client [NewProvider] makes for its exporter. *)
Definition traceProvider (svcName : string) (traceURL : URL) : result error traceClient :=
  if zeroURL traceURL then Err ErrMissingTraceURL
  else if bool_decide (svcName = "") then Err ErrMissingServiceName
  else if bool_decide (u_Scheme traceURL = "http") then
    if negb (InsecureHTTPAllowed traceURL) then Err ErrInsecureTraceURL
    else Ok (mkTraceClient (u_Host traceURL) (u_Path traceURL) true)
  else if bool_decide (u_Scheme traceURL = "https")
  then Ok (mkTraceClient (u_Host traceURL) (u_Path traceURL) false)
  else Err ErrUnsupportedTraceURL.

(** ** The agent's server: [agent/cvms/server/cvm.go] *)

Definition defSvcGRPCSocket : string := "/run/agents-secure-binding/agent.sock".
Definition ErrPlaintextPublicAgentGRPC : error :=
  ErrNew "agent grpc: plaintext listener requires unix socket or loopback".

Inductive listenAt := ListenUnix (path : string) | ListenTCP (address : string).

(** Where [Start] listens for plaintext gRPC. *)
Definition agentListen (host : string) : result error listenAt :=
  let socketPath := if bool_decide (host = "") || bool_decide (host = "0.0.0.0") then defSvcGRPCSocket else host in
  if HasPrefix socketPath "/" || HasPrefix socketPath "." then Ok (ListenUnix socketPath)
  else match SplitHostPort socketPath with
       | Ok (h, _) => if PlaintextBindAllowed h then Ok (ListenTCP socketPath)
                      else Err (ErrWrap "" ErrPlaintextPublicAgentGRPC)
       | Err _ => Err (ErrWrap "" ErrPlaintextPublicAgentGRPC)
       end.

(** ** The runtime's gRPC server: [internal/runtime/server] *)

Record serverConfig := mkServerConfig {
  sc_Host : string; sc_Port : string; sc_CertFile : string; sc_KeyFile : string;
  sc_ServerCAFile : string; sc_ClientCAFile : string }.

(** [NewBase]. *)
Definition baseAddress (c : serverConfig) : string := sc_Host c +:+ ":" +:+ sc_Port c.

Definition ErrPlaintextPublicGRPC : error :=
  ErrNew "runtime grpc: plaintext listener requires localhost, loopback, or TLS".

Definition tlsConfigured (c : serverConfig) : bool :=
  negb (bool_decide (sc_CertFile c = "")) || negb (bool_decide (sc_KeyFile c = "")).

(** The listener of [Start], with the address and whether it speaks TLS; [listen] is
    [net.Listen] and [creds] what [tlsCredentials] gives.  The listener is closed when the
    credentials can not be loaded. *)
Definition grpcListen (listen : string -> option error) (creds : option error) (c : serverConfig)
  : result error (string * bool) :=
  if negb (tlsConfigured c) && negb (PlaintextBindAllowed (sc_Host c))
  then Err (ErrWrap (baseAddress c) ErrPlaintextPublicGRPC)
  else match listen (baseAddress c) with
       | Some e => Err (ErrWrap ("failed to listen on " +:+ baseAddress c) e)
       | None => if tlsConfigured c then match creds with Some e => Err e | None => Ok (baseAddress c, true) end
                 else Ok (baseAddress c, false)
       end.

(** ** Brackets *)

Definition bracketFree (l : list Z) : Prop := 91 ∉ l /\ 93 ∉ l.

Lemma dropCodes_bracketFree l k : bracketFree l -> l <> [] -> dropCodes [91; 93] (l ++ k) = l ++ k.
Proof.
  intros [Ha Hb]. destruct l as [|x t]; [done|]. intros _. cbn [dropCodes app existsb].
  rewrite (proj2 (Z.eqb_neq x 91)) by set_solver. by rewrite (proj2 (Z.eqb_neq x 93)) by set_solver.
Qed.

Lemma bracketFree_rev l : bracketFree l -> bracketFree (rev l).
Proof. unfold bracketFree. by rewrite !list_elem_of_In, <- !in_rev, <- !list_elem_of_In. Qed.

Lemma dropCodes_free l : bracketFree l -> dropCodes [91; 93] l = l.
Proof.
  intros Hl. destruct (decide (l = [])) as [->|]; [done|].
  rewrite <- (app_nil_r l). by apply dropCodes_bracketFree.
Qed.

Lemma trimCodes_free l : bracketFree l -> trimCodes [91; 93] l = l.
Proof.
  intros Hl. unfold trimCodes. rewrite (dropCodes_free l), dropCodes_free by auto using bracketFree_rev.
  apply rev_involutive.
Qed.

Lemma trimCodes_bracketed l : bracketFree l -> trimCodes [91; 93] (91 :: l ++ [93]) = l.
Proof.
  intros Hl. unfold trimCodes. change (dropCodes [91; 93] (91 :: ?x)) with (dropCodes [91; 93] x).
  destruct (decide (l = [])) as [->|]; [done|]. rewrite dropCodes_bracketFree, rev_app_distr by done.
  change (rev [93] ++ ?x) with (93 :: x). change (dropCodes [91; 93] (93 :: ?x)) with (dropCodes [91; 93] x).
  rewrite dropCodes_free by by apply bracketFree_rev. apply rev_involutive.
Qed.

(** ** The host a listener is bound to *)

Lemma indexCode_Some c l i : indexCode c l = Some i -> l = take i l ++ c :: drop (S i) l /\ c ∉ take i l.
Proof.
  revert i; induction l as [|x t IH]; intros i; cbn [indexCode]; [done|].
  destruct (Z.eqb_spec x c) as [->|Hx]; [intros [= <-]; cbn; split; [done|apply not_elem_of_nil]|].
  destruct (indexCode c t) as [j|]; [|done]. intros [= <-]. destruct (IH j eq_refl) as [E Hn].
  cbn. split; [by f_equal|]. apply not_elem_of_cons. split; [congruence|done].
Qed.

Lemma lastIndexCode_app c a p : c ∉ p -> lastIndexCode c (a ++ c :: p) = Some (length a).
Proof.
  intros Hp. induction a as [|x a IH]; cbn [lastIndexCode app length]; [|by rewrite IH].
  assert (lastIndexCode c p = None) as ->; [|by rewrite Z.eqb_refl].
  induction p as [|y p IH]; [done|]. apply not_elem_of_cons in Hp as [Hy Hp]. cbn. rewrite IH by done.
  by rewrite (proj2 (Z.eqb_neq y c)) by congruence.
Qed.

Lemma hasCode_false c l : hasCode c l = false <-> c ∉ l.
Proof. rewrite <- hasCode_elem, not_true_iff_false. done. Qed.

(** Where the last colon is known, the host is what stands before it, with its brackets
    taken off, and no bracket is left. *)
Lemma splitCodes_host h p h' p' :
  58 ∉ p -> splitCodesHostPort (h ++ 58 :: p) = Ok (h', p') ->
  p' = p /\ bracketFree h' /\ (h = h' \/ h = 91 :: h' ++ [93]).
Proof.
  intros Hp. unfold splitCodesHostPort. rewrite lastIndexCode_app by done. cbv zeta.
  assert (drop (S (length h)) (h ++ 58 :: p) = p) as ->.
  { rewrite drop_app_ge by lia. by replace (S (length h) - length h)%nat with 1%nat by lia. }
  case_bool_decide as Hh.
  - destruct (indexCode 93 _) as [e|] eqn:Ee; [|done]. case_goal; [done|].
    destruct (Nat.eqb_spec (S e) (length h)) as [Hl|]; [|by case_goal].
    destruct (hasCode 91 _) eqn:H91; [done|]. destruct (hasCode 93 _); [done|]. intros [= <- <-].
    apply hasCode_false in H91. apply indexCode_Some in Ee as [El Hn]. split; [done|].
    set (l := h ++ 58 :: p) in *.
    assert (h = take e l ++ [93]) as Eh.
    { assert (h ++ 58 :: p = (take e l ++ [93]) ++ drop (S e) l) as E by (rewrite <- app_assoc; exact El).
      apply app_inj_1 in E as [E _]; [exact E|]. rewrite length_app, length_take_le; [cbn; lia|]. unfold l. rewrite length_app. lia. }
    assert (exists t, take e l = 91 :: t /\ take (e - 1) (drop 1 l) = t) as (t & Et & ->).
    { destruct l as [|x t]; [done|]. injection Hh as ->. destruct e as [|e]; [done|]. cbn.
      rewrite Nat.sub_0_r, drop_0. eauto. }
    rewrite Et in *. split; [|by right].
    split; [|set_solver]. intros Hin. apply H91.
    destruct l as [|x l0]; [done|]. destruct e as [|e]; [done|]. injection Et as _ <-. cbn.
    rewrite drop_0. by apply elem_of_take in Hin as (? & ?%list_elem_of_lookup_2 & _).
  - rewrite take_app_length. destruct (hasCode 58 h); [done|].
    destruct (hasCode 91 _) eqn:H91; [done|]. destruct (hasCode 93 _) eqn:H93; [done|]. intros [= <- <-].
    apply hasCode_false in H91, H93. rewrite drop_0 in *. split_and!; [done| |by left]. split; set_solver.
Qed.

Lemma SplitHostPort_loopback host port h p :
  colonFree port = true -> SplitHostPort (host +:+ ":" +:+ port) = Ok (h, p) ->
  p = port /\ IsLoopbackHost h = IsLoopbackHost host.
Proof.
  rewrite colonFree_codes. intros Hp. unfold SplitHostPort. rewrite !codes_app. change (codes ":" ++ ?x) with (58 :: x).
  destruct (splitCodesHostPort _) as [[hc pc]|] eqn:E; [|done]. intros [= <- <-].
  apply splitCodes_host in E as (-> & Hf & Hh); [|done]. split; [apply ofCodes_codes|].
  assert (Forall (fun c => 0 <= c < 256) hc) as Hr.
  { pose proof (codes_range host) as R. destruct Hh as [E|E]; rewrite E in R; [done|].
    apply Forall_cons in R as [_ [R _]%Forall_app]. done. }
  unfold IsLoopbackHost, Trim. change (codes "[]") with [91; 93]. rewrite codes_ofCodes by done.
  rewrite (trimCodes_free hc) by done. destruct Hh as [->| ->]; [by rewrite trimCodes_free|].
  by rewrite trimCodes_bracketed.
Qed.

(** The runtime's gRPC server opens a listener without TLS only when no certificate and
    no key is configured, and only on an address whose host, as [net] reads it, is
    [localhost] or a loopback address. *)
Theorem grpc_plaintext_local (listen : string -> option error) (creds : option error) (c : serverConfig)
    (address h p : string) :
  colonFree (sc_Port c) = true -> grpcListen listen creds c = Ok (address, false) ->
  SplitHostPort address = Ok (h, p) ->
  sc_CertFile c = "" /\ sc_KeyFile c = "" /\ p = sc_Port c /\ IsLoopbackHost h = true.
Proof.
  intros Hp. unfold grpcListen. case_goal; [done|]. destruct (listen _); [done|].
  destruct (tlsConfigured c) eqn:T; [by destruct creds|]. intros [= <-] Hs.
  unfold baseAddress in Hs. apply SplitHostPort_loopback in Hs as [-> ->]; [|done].
  unfold tlsConfigured in T. apply orb_false_iff in T as [T1 T2].
  apply negb_false_iff, bool_decide_eq_true in T1, T2. split_and!; [done..|].
  match goal with E : _ && _ = false |- _ => cbn [negb andb] in E; by apply negb_false_iff in E end.
Qed.

(** The agent's server listens on a socket in the file system or on an address whose
    host is [localhost] or a loopback address, whatever host it is configured with. *)
Theorem agent_listens_locally (host : string) (l : listenAt) :
  agentListen host = Ok l ->
  match l with
  | ListenUnix path => HasPrefix path "/" = true \/ HasPrefix path "." = true
  | ListenTCP address => exists h p, SplitHostPort address = Ok (h, p) /\ IsLoopbackHost h = true
  end.
Proof.
  unfold agentListen. cbv zeta. generalize (if bool_decide (host = "") || bool_decide (host = "0.0.0.0") then defSvcGRPCSocket else host) as s.
  intros s.
  destruct (HasPrefix s "/" || HasPrefix s ".") eqn:E; [intros [= <-]; by apply orb_true_iff|].
  destruct (SplitHostPort s) as [[h p]|] eqn:Es; [|done]. case_goal; [|done]. intros [= <-]. by exists h, p.
Qed.

(** ** Targets *)

Section target_lemmas.
Context `{UrlLib}.

(** A target with a scheme is judged by the authority of its URL alone.  For a target
    of gRPC that names a resolver the authority is the name server and the endpoint is the
    path, so a remote endpoint passes when the name server is local. *)
Theorem target_judged_by_authority (target : string) (u : URL) :
  TrimSpace target = target -> HasPrefix target "/" = false -> HasPrefix target "." = false ->
  HasPrefix target "unix://" = false -> GoStrings.Contains target "://" = true ->
  urlParse target = Ok u -> u_Host u <> "" ->
  PlaintextTargetAllowed target = IsLoopbackHost (hostOnly (u_Host u)).
Proof.
  intros Ht H1 H2 H3 Hc Hu Hh. unfold PlaintextTargetAllowed. rewrite Ht. case_bool_decide as E; [by subst|].
  rewrite H1, H2, H3. cbn [orb]. unfold targetHost. rewrite Hc, Hu. by rewrite bool_decide_eq_false_2 by done.
Qed.

(** An address without a scheme passes for plaintext only if it is a path or the host
    that [net] takes from it is [localhost] or a loopback address. *)
Theorem plain_target_local (target h p : string) :
  TrimSpace target = target -> GoStrings.Contains target "://" = false -> 47 ∉ codes target ->
  SplitHostPort target = Ok (h, p) -> HasPrefix target "." = false ->
  PlaintextTargetAllowed target = IsLoopbackHost h.
Proof.
  intros Ht Hc Hs Hsp Hd. unfold PlaintextTargetAllowed. rewrite Ht. case_bool_decide as E; [by subst|].
  assert (forall pre, 47 ∈ codes pre -> HasPrefix target pre = false) as Hpre.
  { intros pre Hin. unfold HasPrefix. revert Hs. generalize (codes target) as l. induction (codes pre) as [|x t IH]; [by apply not_elem_of_nil in Hin|].
    intros [|y l] Hl; cbn [isPrefix]; [done|]. apply not_elem_of_cons in Hl as [Hy Hl].
    apply elem_of_cons in Hin as [<-|Hin]; [by rewrite (proj2 (Z.eqb_neq 47 y))|]. rewrite IH by done. apply andb_false_r. }
  rewrite !Hpre, Hd by (cbn; set_solver). cbn [orb]. unfold targetHost, beforeSlash. rewrite Hc.
  assert (indexCode 47 (codes target) = None) as ->; [|unfold hostOnly; by rewrite Hsp].
  revert Hs. generalize (codes target) as l. induction l as [|x l IH]; [done|]. intros [Hx Hl]%not_elem_of_cons.
  cbn. rewrite IH by done. by rewrite (proj2 (Z.eqb_neq x 47)) by congruence.
Qed.

End target_lemmas.

(** Traces go out over plain HTTP only to a host that is local; any other URL with the
    scheme of plain HTTP is refused. *)
Theorem traces_plain_local (svcName : string) (u : URL) (c : traceClient) :
  traceProvider svcName u = Ok c -> tc_Insecure c = true -> IsLoopbackHost (Hostname u) = true /\ tc_Endpoint c = u_Host u.
Proof.
  unfold traceProvider, InsecureHTTPAllowed. do 2 (case_goal; [done|]). case_goal.
  - case_goal; [done|]. intros [= <-] _. split; [|done].
    match goal with E : negb _ = false |- _ => apply negb_false_iff, andb_true_iff in E as [_ E]; done end.
  - case_goal; [|done]. by intros [= <-].
Qed.

(** ** Samples *)

Module NetguardSample.

(** The answer of [url.Parse] to one target. *)
Definition dnsTarget : string := "dns://localhost/remote.example:443".
Definition dnsURL : URL := mkURL "dns" "" false "localhost" "/remote.example:443" "" "".
#[local] Instance oneURL : UrlLib :=
  {| urlParse := fun s => if bool_decide (s = dnsTarget) then Ok dnsURL else Err (ErrNew "url") |}.

Example sample_targets :
  forallb PlaintextTargetAllowed ["localhost:7001"; "127.0.0.1:1"; "[::1]:80"; "/run/a.sock"; "unix:///run/a"; "::1"] = true
  /\ forallb (fun t => negb (PlaintextTargetAllowed t)) [""; "remote.example:443"; "10.0.0.1:80"; "[::2]:80"; "localhost.example:1"] = true.
Proof. vm_compute. by split. Qed.

Definition plainServer : serverConfig := mkServerConfig "[::1]" "7001" "" "" "" "".

Lemma grpc_plaintext_local_witness :
  sc_CertFile plainServer = "" /\ sc_KeyFile plainServer = "" /\ "7001" = sc_Port plainServer
  /\ IsLoopbackHost "::1" = true.
Proof. apply (grpc_plaintext_local (fun _ => None) None plainServer "[::1]:7001"); by vm_compute. Defined.

Lemma agent_listens_locally_witness :
  exists h p, SplitHostPort "localhost:7002" = Ok (h, p) /\ IsLoopbackHost h = true.
Proof. apply (agent_listens_locally "localhost:7002" (ListenTCP "localhost:7002")). by vm_compute. Defined.

Lemma target_judged_by_authority_witness : PlaintextTargetAllowed dnsTarget = IsLoopbackHost (hostOnly "localhost").
Proof. apply (target_judged_by_authority dnsTarget dnsURL); [by vm_compute..|done]. Defined.

Example remote_endpoint_passes : PlaintextTargetAllowed dnsTarget = true.
Proof. by vm_compute. Qed.

Lemma plain_target_local_witness : PlaintextTargetAllowed "127.0.0.1:50002" = IsLoopbackHost "127.0.0.1".
Proof.
  apply (plain_target_local "127.0.0.1:50002" "127.0.0.1" "50002"); [by vm_compute..| |by vm_compute|by vm_compute].
  apply hasCode_false. by vm_compute.
Defined.

Definition traceURL : URL := mkURL "http" "" false "localhost:4318" "/v1/traces" "" "".

Lemma traces_plain_local_witness :
  IsLoopbackHost (Hostname traceURL) = true /\ "localhost:4318" = u_Host traceURL.
Proof.
  apply (traces_plain_local "agent" traceURL (mkTraceClient "localhost:4318" "/v1/traces" true)); by vm_compute.
Defined.

End NetguardSample.
