(* ===== verification/Ingress.v ===== *)
(** * The ingress proxy and the TLS configuration of servers

    [pkg/ingress] terminates TLS or attested TLS in front of the agent; its manager is a
    state machine with [Start] and [Stop].  [pkg/ingress/tls.go] and
    [pkg/atls/tls_helpers.go] load certificates; [pkg/atls/server_tls.go] prepares the
    configuration of the attested transport.  Files are read through the class [OS]; what
    [crypto/tls] and [crypto/x509] make of their contents is the class [TLSLib]; sockets and
    the shutdown of the HTTP server answer through arguments. *)

From stdpp Require Import base list strings.
From Stdlib Require Import ZArith Lia Strings.Byte.
From S2P Require Import Prelude GoStrings Errors GoPath GoOS GoNumbers GoNet EaAttestation.

(** ** Configurations of [crypto/tls] *)

Inductive ClientAuthType := NoClientCert | RequireAndVerifyClientCert.
#[export] Instance ClientAuthType_dec : EqDecision ClientAuthType.
Proof. solve_decision. Defined.

(** The template of the ephemeral certificate. *)
Record template := mkTemplate {
  tp_SerialNumber : Z; tp_CommonName : string; tp_Organization : list string; tp_NotBefore : Z;
  tp_NotAfter : Z; tp_DNSNames : list string }.

(** A pool is the PEM data appended to it. *)
Class TLSLib (Cert : Type) := {
  X509KeyPair : list byte -> list byte -> result error Cert;
  appendCertsFromPEM : list byte -> bool;
  Priv : Type;
  generateKeyP256 : result error Priv;
  randInt : Z -> result error Z;
  createCertificate : template -> Priv -> result error (list byte);
  parseLeaf : list byte -> Priv -> result error Cert }.

Record tlsConfig (Cert : Type) := mkTlsConfig {
  tc_MinVersion : Z; tc_ClientAuth : ClientAuthType; tc_Certificates : list Cert;
  tc_RootCAs : option (list (list byte)); tc_ClientCAs : option (list (list byte));
  tc_NextProtos : list string }.
Arguments mkTlsConfig {Cert}. Arguments tc_MinVersion {Cert}. Arguments tc_ClientAuth {Cert}.
Arguments tc_Certificates {Cert}. Arguments tc_RootCAs {Cert}. Arguments tc_ClientCAs {Cert}.
Arguments tc_NextProtos {Cert}.

Section config.
Context {Cert : Type} `{!OS} `{!TLSLib Cert} (h : list act).

Definition withMinVersion (v : Z) (c : tlsConfig Cert) : tlsConfig Cert :=
  mkTlsConfig v (tc_ClientAuth c) (tc_Certificates c) (tc_RootCAs c) (tc_ClientCAs c) (tc_NextProtos c).
Definition withClientAuth (a : ClientAuthType) (c : tlsConfig Cert) : tlsConfig Cert :=
  mkTlsConfig (tc_MinVersion c) a (tc_Certificates c) (tc_RootCAs c) (tc_ClientCAs c) (tc_NextProtos c).
Definition withRootCAs (p : option (list (list byte))) (c : tlsConfig Cert) : tlsConfig Cert :=
  mkTlsConfig (tc_MinVersion c) (tc_ClientAuth c) (tc_Certificates c) p (tc_ClientCAs c) (tc_NextProtos c).
Definition withClientCAs (p : option (list (list byte))) (c : tlsConfig Cert) : tlsConfig Cert :=
  mkTlsConfig (tc_MinVersion c) (tc_ClientAuth c) (tc_Certificates c) (tc_RootCAs c) p (tc_NextProtos c).
Definition withNextProtos (l : list string) (c : tlsConfig Cert) : tlsConfig Cert :=
  mkTlsConfig (tc_MinVersion c) (tc_ClientAuth c) (tc_Certificates c) (tc_RootCAs c) (tc_ClientCAs c) l.

(** ** [pkg/ingress/tls.go] *)

Definition ErrAppendServerCA : error := ErrNew "failed to append server ca to tls.Config".
Definition ErrAppendClientCA : error := ErrNew "failed to append client ca to tls.Config".

Definition ReadFileOrData (input : string) : result error (list byte) :=
  if (slen input <? 1000) && negb (Contains input (ofCodes [10])) then os_read h input
  else Ok (bytesOf input).

Definition LoadCertFile (certFile : string) : result error (list byte) :=
  if negb (bool_decide (certFile = "")) then ReadFileOrData certFile else Ok [].

Definition LoadX509KeyPair (certfile keyfile : string) : result error Cert :=
  let* cert := wrapRes "failed to read cert" (ReadFileOrData certfile) in
  let* key := wrapRes "failed to read key" (ReadFileOrData keyfile) in
  X509KeyPair cert key.

Definition appendTo (pool : option (list (list byte))) (pem : list byte) : option (list (list byte)) :=
  Some (default [] pool ++ [pem]).

Definition ConfigureRootCA (c : tlsConfig Cert) (serverCAFile : string) : result error (tlsConfig Cert) :=
  let* rootCA := wrapRes "failed to load server ca file" (LoadCertFile serverCAFile) in
  if len rootCA =? 0 then Ok c
  else if negb (appendCertsFromPEM rootCA) then Err ErrAppendServerCA
  else Ok (withRootCAs (appendTo (tc_RootCAs c) rootCA) c).

Definition ConfigureClientCA (c : tlsConfig Cert) (clientCAFile : string) : result error (bool * tlsConfig Cert) :=
  let* clientCA := wrapRes "failed to load client ca file" (LoadCertFile clientCAFile) in
  if len clientCA =? 0 then Ok (false, c)
  else if negb (appendCertsFromPEM clientCA) then Err ErrAppendClientCA
  else Ok (true, withClientCAs (appendTo (tc_ClientCAs c) clientCA) c).

Definition ConfigureCertificateAuthorities (c : tlsConfig Cert) (serverCAFile clientCAFile : string)
  : result error (bool * tlsConfig Cert) :=
  let* c := ConfigureRootCA c serverCAFile in ConfigureClientCA c clientCAFile.

(** The end that both packages share: client certificates are asked for when a client CA
    was configured. *)
Definition askClients (x : bool * tlsConfig Cert) : bool * tlsConfig Cert :=
  let '(mtls, c) := x in (mtls, if mtls then withClientAuth RequireAndVerifyClientCert c else c).

Definition SetupRegularTLS (certFile keyFile serverCAFile clientCAFile : string)
  : result error (bool * tlsConfig Cert) :=
  let* certificate := wrapRes "failed to load auth certificates" (LoadX509KeyPair certFile keyFile) in
  let* x := ConfigureCertificateAuthorities (mkTlsConfig 0 NoClientCert [certificate] None None [])
              serverCAFile clientCAFile in
  Ok (askClients x).

(** ** [pkg/atls/tls_helpers.go] and [server_tls.go] *)

(** The unexported functions of [pkg/atls] are the same but for the least version. *)
Definition configureCertificateAuthorities (c : tlsConfig Cert) (serverCAFile clientCAFile : string)
  : result error (bool * tlsConfig Cert) :=
  let* rootCA := wrapRes "failed to load server ca file" (LoadCertFile serverCAFile) in
  let* c := if 0 <? len rootCA then
              if negb (appendCertsFromPEM rootCA) then Err ErrAppendServerCA
              else Ok (withRootCAs (appendTo (tc_RootCAs c) rootCA) c)
            else Ok c in
  let* clientCA := wrapRes "failed to load client ca file" (LoadCertFile clientCAFile) in
  if len clientCA =? 0 then Ok (false, c)
  else if negb (appendCertsFromPEM clientCA) then Err ErrAppendClientCA
  else Ok (true, withClientCAs (appendTo (tc_ClientCAs c) clientCA) c).

Definition setupRegularTLS (certFile keyFile serverCAFile clientCAFile : string)
  : result error (bool * tlsConfig Cert) :=
  let* certificate := wrapRes "failed to load auth certificates" (LoadX509KeyPair certFile keyFile) in
  let* x := configureCertificateAuthorities (mkTlsConfig VersionTLS13 NoClientCert [certificate] None None [])
              serverCAFile clientCAFile in
  Ok (askClients x).

Definition hour : Z := 3600 * 1000000000.

Definition generateEphemeralIdentity (now : Z) : result error Cert :=
  let* priv := generateKeyP256 in
  let* serialNumber := randInt (2 ^ 128) in
  let* der := createCertificate
    (mkTemplate serialNumber "agents-secure-binding-atls-ephemeral" ["ToppyMicroServices"]
       (now - hour) (now + 24 * hour) ["localhost"]) priv in
  parseLeaf der priv.

(** The configuration, the identity and whether clients must show a certificate. *)
Definition BuildServerTLSConfig (now : Z) (certFile keyFile serverCAFile clientCAFile : string)
  : result error (tlsConfig Cert * option Cert * bool) :=
  if negb (bool_decide (certFile = "")) || negb (bool_decide (keyFile = "")) then
    let* x := setupRegularTLS certFile keyFile serverCAFile clientCAFile in
    let '(mtls, c) := x in
    let c := withMinVersion VersionTLS13 c in
    Ok (c, head (tc_Certificates c), mtls)
  else
    let* idCert := wrapRes "failed to generate ephemeral TLS identity" (generateEphemeralIdentity now) in
    let* x := configureCertificateAuthorities (mkTlsConfig VersionTLS13 NoClientCert [idCert] None None [])
                serverCAFile clientCAFile in
    let '(mtls, c) := askClients x in
    Ok (c, Some idCert, mtls).

(** ** [pkg/ingress/proxy.go] *)

Record ProxyConfig := mkProxyConfig {
  pc_Port : string; pc_CertFile : string; pc_KeyFile : string; pc_ServerCAFile : string;
  pc_ClientCAFile : string; pc_AttestedTLS : bool; pc_AllowPlaintext : bool }.

(** [adapter.go]: the part of the agent's configuration it reads. *)
Definition AgentConfigToProxyConfig (certFile keyFile serverCAFile clientCAFile : string) (attestedTls : bool)
  : ProxyConfig :=
  mkProxyConfig "7002" certFile keyFile serverCAFile clientCAFile attestedTls false.

Definition ErrPlaintextIngressDisabled : error := ErrNew "plaintext ingress proxy is disabled".

Inductive backend := UnixBackend (path : string) | TcpBackend (u : URL).
Inductive listener :=
| AttestedListener (c : tlsConfig Cert) (idCert : option Cert)
| TlsListener (c : tlsConfig Cert)
| PlainListener.

(** An HTTP server with its address, where it sends requests, what it serves, if anything,
    and whether it was shut down. *)
Record httpServer := mkHttpServer {
  hs_Addr : string; hs_Backend : backend; hs_Listener : option listener; hs_Down : bool }.

Record proxyServer := mkProxy {
  px_backendURL : URL; px_certProvider : bool; px_httpServer : option httpServer; px_started : bool;
  px_stopped : bool }.

Definition NewProxyServer (backendURL : URL) (certProvider : bool) : proxyServer :=
  mkProxy backendURL certProvider None false false.

Definition backendOf (u : URL) : backend :=
  if bool_decide (u_Scheme u = "unix") then UnixBackend (u_Path u) else TcpBackend u.

Definition http2Protos : list string := ["h2"; "http/1.1"].

(** [attestedListener]; an address of the proxy is never a path. *)
Definition attestedListener (listen : string -> string -> option error) (addr : string) (c : tlsConfig Cert)
    (idCert : option Cert) : result error listener :=
  match listen (if HasPrefix addr "/" then "unix" else "tcp") addr with
  | Some e => Err e
  | None => Ok (AttestedListener c idCert)
  end.

(** The branches of [Start] that choose the listener: the address the HTTP server has at
    the end, and the listener. *)
Definition chooseListener (now : Z) (listen : string -> string -> option error) (certProvider : bool)
    (cfg : ProxyConfig) (port : string) : string * result error listener :=
  let addr := JoinHostPort "0.0.0.0" port in
  if pc_AttestedTLS cfg then
    (addr,
     if negb certProvider then Err (ErrNew "attested TLS requested for ingress proxy but no certificate provider available")
     else
       let* x := wrapRes "failed to setup attested TLS"
                   (BuildServerTLSConfig now (pc_CertFile cfg) (pc_KeyFile cfg) (pc_ServerCAFile cfg) (pc_ClientCAFile cfg)) in
       let '(c, idCert, _) := x in
       wrapRes "failed to listen" (attestedListener listen addr (withNextProtos http2Protos c) idCert))
  else if negb (bool_decide (pc_CertFile cfg = "")) && negb (bool_decide (pc_KeyFile cfg = "")) then
    (addr,
     let* x := wrapRes "failed to setup TLS"
                 (SetupRegularTLS (pc_CertFile cfg) (pc_KeyFile cfg) (pc_ServerCAFile cfg) (pc_ClientCAFile cfg)) in
     let '(_, c) := x in
     match listen "tcp" addr with
     | Some e => Err (ErrWrap "failed to listen" e)
     | None => Ok (TlsListener (withNextProtos http2Protos c))
     end)
  else if negb (pc_AllowPlaintext cfg) then (addr, Err ErrPlaintextIngressDisabled)
  else
    let addr := JoinHostPort "127.0.0.1" port in
    (addr, match listen "tcp" addr with
           | Some e => Err (ErrWrap "failed to listen" e)
           | None => Ok PlainListener
           end).

Definition Start (now : Z) (listen : string -> string -> option error) (cfg : ProxyConfig) (p : proxyServer)
  : option error * proxyServer :=
  if px_started p then (Some (ErrNew "proxy server already started"), p)
  else if px_stopped p then (Some (ErrNew "proxy server already stopped"), p)
  else
    let port := if bool_decide (pc_Port cfg = "") then "7002" else pc_Port cfg in
    let '(addr, r) := chooseListener now listen (px_certProvider p) cfg port in
    let server l := mkHttpServer addr (backendOf (px_backendURL p)) l false in
    match r with
    | Err e => (Some e, mkProxy (px_backendURL p) (px_certProvider p) (Some (server None)) false (px_stopped p))
    | Ok l => (None, mkProxy (px_backendURL p) (px_certProvider p) (Some (server (Some l))) true (px_stopped p))
    end.

(** [Stop]; [Shutdown] closes the listeners before it waits for the connections, so it
    does so also when it gives an error. *)
Definition Stop (shutdown : option error) (p : proxyServer) : option error * proxyServer :=
  if px_stopped p then (None, p)
  else
    let down s := mkHttpServer (hs_Addr s) (hs_Backend s) None true in
    let p' := mkProxy (px_backendURL p) (px_certProvider p) (down <$> px_httpServer p) (px_started p) true in
    match px_httpServer p, shutdown with
    | Some _, Some e => (Some (ErrWrap "failed to shutdown server" e), p')
    | _, _ => (None, p')
    end.

End config.

Arguments AttestedListener {Cert}. Arguments TlsListener {Cert}. Arguments PlainListener {Cert}.
Arguments hs_Addr {Cert}. Arguments hs_Backend {Cert}. Arguments hs_Listener {Cert}. Arguments hs_Down {Cert}.
Arguments mkHttpServer {Cert}. Arguments mkProxy {Cert}. Arguments NewProxyServer {Cert}.
Arguments px_backendURL {Cert}. Arguments px_certProvider {Cert}. Arguments px_httpServer {Cert}.
Arguments px_started {Cert}. Arguments px_stopped {Cert}.

(** ** Client certificates *)

Section mtls.
Context {Cert : Type} `{!OS} `{!TLSLib Cert} (h : list act).

(** What decides whether clients are asked for a certificate. *)
Definition clientCAData (clientCAFile : string) : bool :=
  match LoadCertFile h clientCAFile with Ok (_ :: _) => true | _ => false end.

Definition enforces (clientCAFile : string) (mtls : bool) (c : tlsConfig Cert) : Prop :=
  mtls = clientCAData clientCAFile
  /\ tc_ClientAuth c = (if mtls then RequireAndVerifyClientCert else NoClientCert)
  /\ (mtls = true -> tc_ClientCAs c <> None).

Lemma len_eqb0 {A} (l : list A) : (len l =? 0) = match l with [] => true | _ => false end.
Proof. destruct l; [done|]. rewrite len_cons. pose proof (len_nonneg l). lia. Qed.
Lemma len_ltb0 {A} (l : list A) : (0 <? len l) = match l with [] => false | _ => true end.
Proof. destruct l; [done|]. rewrite len_cons. pose proof (len_nonneg l). lia. Qed.

(** The two packages configure the same authorities. *)
Lemma configure_same (c : tlsConfig Cert) serverCA clientCA :
  configureCertificateAuthorities h c serverCA clientCA = ConfigureCertificateAuthorities h c serverCA clientCA.
Proof.
  unfold configureCertificateAuthorities, ConfigureCertificateAuthorities, ConfigureRootCA, ConfigureClientCA.
  destruct (LoadCertFile h serverCA) as [root|]; [|done]. cbn [wrapRes]. rewrite len_ltb0, len_eqb0.
  destruct root as [|x root]; [done|]. by destruct (appendCertsFromPEM _).
Qed.

Lemma authorities_enforced (c c' : tlsConfig Cert) serverCA clientCA mtls :
  tc_ClientAuth c = NoClientCert ->
  ConfigureCertificateAuthorities h c serverCA clientCA = Ok (mtls, c') ->
  let '(m, d) := askClients (mtls, c') in
  enforces clientCA m d /\ tc_MinVersion d = tc_MinVersion c /\ tc_Certificates d = tc_Certificates c.
Proof.
  intros Hc. unfold ConfigureCertificateAuthorities.
  destruct (ConfigureRootCA h c serverCA) as [c1|] eqn:E1; [|done].
  assert (tc_ClientAuth c1 = NoClientCert /\ tc_MinVersion c1 = tc_MinVersion c
    /\ tc_Certificates c1 = tc_Certificates c) as (H1 & H2 & H3).
  { revert E1. unfold ConfigureRootCA. destruct (LoadCertFile h serverCA) as [root|]; [|done]. cbn [wrapRes].
    rewrite len_eqb0. destruct root; [by intros [= <-]|]. case_goal; [done|]. by intros [= <-]. }
  unfold ConfigureClientCA, enforces, clientCAData.
  destruct (LoadCertFile h clientCA) as [data|]; [|done]. cbn [wrapRes]. rewrite len_eqb0.
  destruct data; [intros [= <- <-]; by split_and!|]. case_goal; [done|]. intros [= <- <-]. by split_and!.
Qed.

Lemma build_enforced now certFile keyFile serverCA clientCA (c : tlsConfig Cert) idCert mtls :
  BuildServerTLSConfig h now certFile keyFile serverCA clientCA = Ok (c, idCert, mtls) ->
  enforces clientCA mtls c /\ tc_MinVersion c = VersionTLS13 /\ idCert = head (tc_Certificates c)
  /\ idCert <> None.
Proof.
  unfold BuildServerTLSConfig, setupRegularTLS. rewrite ?configure_same. case_goal.
  - destruct (LoadX509KeyPair h certFile keyFile) as [cert|]; [|done]. cbn [wrapRes]. rewrite configure_same.
    destruct (ConfigureCertificateAuthorities h _ _ _) as [[m d]|] eqn:E; [|done].
    apply authorities_enforced in E; [|done]. destruct (askClients (m, d)) as [m' d'].
    destruct E as (E1 & E2 & E3). intros [= <- <- <-]. split; [exact E1|].
    cbn [tc_Certificates withMinVersion]. by rewrite E3.
  - destruct (generateEphemeralIdentity now) as [cert|]; [|done]. cbn [wrapRes]. rewrite configure_same.
    destruct (ConfigureCertificateAuthorities h _ _ _) as [[m d]|] eqn:E; [|done].
    apply authorities_enforced in E; [|done]. destruct (askClients (m, d)) as [m' d'].
    destruct E as (E1 & E2 & E3). intros [= <- <- <-]. split; [exact E1|]. by rewrite E3.
Qed.

(** An attested server asks every client for a certificate exactly when the client CA
    it was given has any content, in which case it has a pool to check against; it never
    speaks less than TLS 1.3, and its identity is the certificate it presents.  A client
    CA file that exists and is empty turns the check off. *)
Theorem attested_server_enforces (now : Z) (certFile keyFile serverCA clientCA : string) (c : tlsConfig Cert)
    (idCert : option Cert) (mtls : bool) :
  BuildServerTLSConfig h now certFile keyFile serverCA clientCA = Ok (c, idCert, mtls) ->
  enforces clientCA mtls c /\ tc_MinVersion c = VersionTLS13 /\ idCert = head (tc_Certificates c)
  /\ idCert <> None.
Proof. apply build_enforced. Qed.

Lemma regular_enforced certFile keyFile serverCA clientCA mtls (c : tlsConfig Cert) :
  SetupRegularTLS h certFile keyFile serverCA clientCA = Ok (mtls, c) -> enforces clientCA mtls c.
Proof.
  unfold SetupRegularTLS. destruct (LoadX509KeyPair h certFile keyFile) as [cert|]; [|done]. cbn [wrapRes].
  destruct (ConfigureCertificateAuthorities h _ _ _) as [[m d]|] eqn:E; [|done].
  apply authorities_enforced in E; [|done]. destruct (askClients (m, d)) as [m' d']. intros [= <- <-].
  by destruct E.
Qed.

End mtls.

(** ** Listeners *)

Section listeners.
Context {Cert : Type} `{!OS} `{!TLSLib Cert}.

(** What may listen for a configuration. *)
Definition listenerFor (h : list act) (certProvider : bool) (cfg : ProxyConfig) (port addr : string)
    (l : listener (Cert := Cert)) : Prop :=
  match l with
  | AttestedListener c idCert =>
      pc_AttestedTLS cfg = true /\ certProvider = true /\ addr = JoinHostPort "0.0.0.0" port
      /\ tc_MinVersion c = VersionTLS13
      /\ exists mtls, enforces h (pc_ClientCAFile cfg) mtls (withNextProtos [] c)
  | TlsListener c =>
      pc_AttestedTLS cfg = false /\ addr = JoinHostPort "0.0.0.0" port
      /\ exists mtls, enforces h (pc_ClientCAFile cfg) mtls (withNextProtos [] c)
  | PlainListener =>
      pc_AttestedTLS cfg = false /\ pc_AllowPlaintext cfg = true /\ addr = JoinHostPort "127.0.0.1" port
      /\ (pc_CertFile cfg = "" \/ pc_KeyFile cfg = "")
  end.

Lemma chooseListener_Ok h now listen certProvider cfg port addr l :
  chooseListener h now listen certProvider cfg port = (addr, Ok l) ->
  listenerFor h certProvider cfg port addr l.
Proof.
  unfold chooseListener, listenerFor. destruct (pc_AttestedTLS cfg).
  { destruct certProvider; [|done]. cbn [negb].
    destruct (BuildServerTLSConfig h now _ _ _ _) as [[[c i] m]|] eqn:E; [|done]. cbn [wrapRes].
    unfold attestedListener. destruct (listen _ _); [done|]. intros [= <- <-].
    apply build_enforced in E as (E1 & E2 & _). split_and!; [done..|]. by exists m. }
  destruct (negb (bool_decide (pc_CertFile cfg = "")) && negb (bool_decide (pc_KeyFile cfg = ""))) eqn:F.
  { destruct (SetupRegularTLS h _ _ _ _) as [[m c]|] eqn:E; [|done]. cbn [wrapRes].
    destruct (listen _ _); [done|]. intros [= <- <-]. apply regular_enforced in E. split_and!; [done..|].
    by exists m. }
  destruct (pc_AllowPlaintext cfg); [|done]. cbn [negb]. destruct (listen _ _); [done|]. intros [= <- <-].
  split_and!; [done..|]. apply andb_false_iff in F as [F|F]; apply negb_false_iff, bool_decide_eq_true in F; auto.
Qed.

(** A successful [Start] serves on exactly one listener.  Attested TLS needs a
    certificate provider; TLS of either kind listens on every interface and asks clients
    for certificates as the client CA says; without TLS the proxy listens on 127.0.0.1 and
    only when plaintext is allowed and no complete key pair is configured. *)
Theorem start_listener (h : list act) (now : Z) (listen : string -> string -> option error) (cfg : ProxyConfig)
    (p p' : proxyServer (Cert := Cert)) :
  Start h now listen cfg p = (None, p') ->
  px_started p' = true /\ exists s l, px_httpServer p' = Some s /\ hs_Listener s = Some l
  /\ listenerFor h (px_certProvider p) cfg (if bool_decide (pc_Port cfg = "") then "7002" else pc_Port cfg) (hs_Addr s) l
  /\ hs_Backend s = backendOf (px_backendURL p).
Proof.
  unfold Start. destruct (px_started p); [done|]. destruct (px_stopped p); [done|]. cbv zeta.
  destruct (chooseListener _ _ _ _ _ _) as [addr [l|e]] eqn:E; [|done]. intros [= <-].
  apply chooseListener_Ok in E. split; [done|]. by eexists _, l.
Qed.

(** For a computation the proxy never listens without TLS: the configuration the agent
    gives it does not allow plaintext. *)
Theorem agent_ingress_encrypted (h : list act) (now : Z) (listen : string -> string -> option error)
    (certFile keyFile serverCA clientCA : string) (attested : bool) (p p' : proxyServer (Cert := Cert)) (s : httpServer) :
  Start h now listen (AgentConfigToProxyConfig certFile keyFile serverCA clientCA attested) p = (None, p') ->
  px_httpServer p' = Some s -> hs_Listener s <> Some PlainListener.
Proof.
  unfold Start. destruct (px_started p); [done|]. destruct (px_stopped p); [done|]. cbv zeta.
  destruct (chooseListener _ _ _ _ _ _) as [addr [l|e]] eqn:E; [|done]. intros [= <-] [= <-] [= ->].
  by apply chooseListener_Ok in E as (_ & ? & _).
Qed.

(** ** Histories *)

(** A call with what the system answers to it. *)
Inductive call :=
| CallStart (h : list act) (now : Z) (listen : string -> string -> option error) (cfg : ProxyConfig)
| CallStop (shutdown : option error).

Definition perform1 (c : call) (p : proxyServer (Cert := Cert)) : option error * proxyServer :=
  match c with
  | CallStart h now listen cfg => Start h now listen cfg p
  | CallStop shutdown => Stop shutdown p
  end.
Definition runCalls (cs : list call) (p : proxyServer (Cert := Cert)) : proxyServer := foldl (fun p c => snd (perform1 c p)) p cs.

Definition serving (p : proxyServer (Cert := Cert)) : Prop :=
  exists s l, px_httpServer p = Some s /\ hs_Listener s = Some l.

(** It serves exactly between a successful [Start] and the first [Stop]. *)
Definition proxy_inv (p : proxyServer (Cert := Cert)) : Prop :=
  (serving p <-> px_started p = true /\ px_stopped p = false).

Lemma proxy_inv_new u prov : proxy_inv (NewProxyServer u prov).
Proof. split; [by intros (? & ? & ? & _)|by intros [? _]]. Qed.

Lemma perform1_inv c p : proxy_inv p -> proxy_inv (snd (perform1 c p)).
Proof.
  unfold proxy_inv, serving. destruct c as [h now listen cfg|sd]; cbn [perform1].
  - unfold Start. destruct (px_started p) eqn:E1; [by cbn [snd]; rewrite E1|].
    destruct (px_stopped p) eqn:E2; [by cbn [snd]; rewrite E1, E2|]. intros _. cbv zeta.
    destruct (chooseListener _ _ _ _ _ _) as [addr [l|e]]; cbn; rewrite ?E2; split; try done.
    + intros _. by eexists _, l.
    + by intros (? & ? & [= <-] & ?).
    + by intros [? _].
  - unfold Stop. destruct (px_stopped p) eqn:E2; [by cbn [snd]; rewrite E2|]. intros _. cbv zeta.
    destruct (px_httpServer p), sd; cbn; split; try (by intros [_ ?]); by intros (? & ? & [= <-] & ?).
Qed.

Lemma stopped_stays c p : px_stopped p = true ->
  perform1 c p = (fst (perform1 c p), p) /\ (forall h now listen cfg, c = CallStart h now listen cfg -> fst (perform1 c p) <> None).
Proof.
  intros E. destruct c as [h now listen cfg|sd]; cbn [perform1]; unfold Start, Stop; rewrite E.
  - by destruct (px_started p).
  - done.
Qed.

Lemma runCalls_stopped cs p : px_stopped p = true -> runCalls cs p = p.
Proof.
  intros E. unfold runCalls. induction cs as [|c cs IH]; [done|]. cbn [foldl].
  by destruct (stopped_stays c p E) as [-> _].
Qed.


End listeners.

(** ** Samples *)

Module IngressSample.

(** Files named in capitals hold PEM data, the others are missing; the empty one is empty. *)
#[local] Instance files : OS := {|
  os_act := fun _ _ => None; os_stat := fun _ _ => Err (ErrNew "stat");
  os_read := fun _ p => if bool_decide (p = "missing") then Err (ErrNew "not found")
                        else if bool_decide (p = "empty") then Ok [] else Ok (bytesOf p);
  os_walk := fun _ _ => Ok []; os_glob := fun _ _ => Ok []; os_getwd := fun _ => Ok "/" |}.
#[local] Instance sampleTLS : TLSLib string := {|
  X509KeyPair := fun c k => Ok (stringOf c); appendCertsFromPEM := fun _ => true; Priv := unit;
  generateKeyP256 := Ok tt; randInt := fun _ => Ok 7; createCertificate := fun t _ => Ok (bytesOf (tp_CommonName t));
  parseLeaf := fun der _ => Ok (stringOf der) |}.

Definition listens (network addr : string) : option error := None.
Definition agentURL : URL := mkURL "unix" "" false "" "/run/agent.sock" "" "".
Definition fresh : proxyServer (Cert := string) := NewProxyServer agentURL true.

Definition attestedConfig : tlsConfig string :=
  mkTlsConfig VersionTLS13 RequireAndVerifyClientCert ["agents-secure-binding-atls-ephemeral"] None
    (Some [bytesOf "CA"]) [].

Lemma attested_server_enforces_witness :
  enforces [] "CA" true attestedConfig /\ tc_MinVersion attestedConfig = VersionTLS13
  /\ Some "agents-secure-binding-atls-ephemeral" = head (tc_Certificates attestedConfig)
  /\ Some "agents-secure-binding-atls-ephemeral" <> None.
Proof. apply (attested_server_enforces [] 0 "" "" "" "CA"). by vm_compute. Defined.

Example empty_client_ca : clientCAData [] "empty" = false.
Proof. by vm_compute. Qed.

Definition plainConfig : ProxyConfig := mkProxyConfig "" "" "KEY" "" "" false true.
Definition afterPlain : proxyServer (Cert := string) := snd (Start [] 0 listens plainConfig fresh).

Lemma start_listener_witness :
  px_started afterPlain = true /\ exists s l, px_httpServer afterPlain = Some s /\ hs_Listener s = Some l
  /\ listenerFor [] (px_certProvider fresh) plainConfig "7002" (hs_Addr s) l
  /\ hs_Backend s = backendOf (px_backendURL fresh).
Proof. apply (start_listener [] 0 listens plainConfig fresh afterPlain). by vm_compute. Defined.

Definition agentConfig : ProxyConfig := AgentConfigToProxyConfig "" "" "" "CA" true.
Definition afterAgent : proxyServer (Cert := string) := snd (Start [] 0 listens agentConfig fresh).
Definition agentHttp : httpServer (Cert := string) :=
  mkHttpServer "0.0.0.0:7002" (UnixBackend "/run/agent.sock")
    (Some (AttestedListener (withNextProtos http2Protos attestedConfig) (Some "agents-secure-binding-atls-ephemeral"))) false.

Lemma agent_ingress_encrypted_witness : hs_Listener agentHttp <> Some PlainListener.
Proof. apply (agent_ingress_encrypted [] 0 listens "" "" "" "CA" true fresh afterAgent agentHttp); by vm_compute. Defined.

End IngressSample.
