(* ===== verification/Clients.v ===== *)
(** * The clients: [pkg/clients], [pkg/tls] and the gRPC and HTTP clients

    A client configuration decides between attested TLS, TLS and plaintext, and for attested
    TLS which identity the peer has to show.  [connect] and [createTransport] are the
    decisions of the two clients; [attestedExchange] composes the configuration they build
    with the exchange of [Transport] and the token verification of [BindingJWT], with the
    replay cache threaded through.  The evidence verifier of a policy file is an argument
    (it is [Evidence.VerifyEvidence]), and so is what [x509] makes of a root pool. *)

From stdpp Require Import base gmap sets list strings.
From Stdlib Require Import ZArith Lia Strings.Byte.
From S2P Require Import Prelude GoStrings Errors GoPath GoOS GoNumbers GoNet Egress Netguard Ingress.
From S2P Require Import IdentityPolicy ReplayCache SessionBinding SessionAccept Sha2 GoEncoding JsonMembers.
From S2P Require Import JWTLib TokenVerify BindingJWT EaWire EaAttestation EaAuthenticator Transport Qemu.

(** ** [pkg/tls/tls.go] *)

Inductive Security := WithoutTLS | WithTLS | WithMTLS | WithATLS | WithMATLS.
#[export] Instance Security_dec : EqDecision Security.
Proof. solve_decision. Defined.

Definition Security_String (s : Security) : string :=
  match s with
  | WithTLS => "with TLS"
  | WithMTLS => "with mTLS"
  | WithATLS => "with aTLS"
  | WithMATLS => "with maTLS"
  | WithoutTLS => "without TLS"
  end.

Definition ErrFailedToLoadClientCertKey : error := ErrNew "failed to load client certificate and key".
Definition ErrFailedToLoadRootCA : error := ErrNew "failed to load root ca file".
Definition ErrMissingRootCA : error := ErrNew "server CA file is required".
Definition errAttestationPolicyIrregular : error := ErrNew "attestation policy file is not a regular file".

Definition VersionTLS12 : Z := 771.

Section tls.
Context {Cert : Type} `{!OS} `{!TLSLib Cert} (h : list act).

Definition loadRootCAs (serverCAFile : string) : result error (list (list byte)) :=
  match os_read h serverCAFile with
  | Err e => Err (Wrap (ErrNew "failed to read certificate file") e)
  | Ok certPEM => if negb (appendCertsFromPEM certPEM) then Err (ErrNew "failed to append root ca to tls.Config")
                  else Ok [certPEM]
  end.

Definition validateRegularFile (path : string) : option error :=
  match os_stat h path with
  | Err e => Some (Wrap (ErrNew "failed to stat attestation policy file") e)
  | Ok mode => if negb (IsRegular mode) then Some errAttestationPolicyIrregular else None
  end.

(** [tls.LoadX509KeyPair] of the standard library. *)
Definition keyPairFromFiles (certFile keyFile : string) : result error Cert :=
  let* cert := os_read h certFile in
  let* key := os_read h keyFile in
  X509KeyPair cert key.

(** The certificate of the client, asked for when either file is named. *)
Definition clientCertificate (clientCert clientKey : string) : result error (list Cert) :=
  if negb (bool_decide (clientCert = "")) || negb (bool_decide (clientKey = "")) then
    match keyPairFromFiles clientCert clientKey with
    | Err e => Err (Wrap ErrFailedToLoadClientCertKey e)
    | Ok certificate => Ok [certificate]
    end
  else Ok [].

Definition LoadBasicConfig (serverCAFile clientCert clientKey : string)
  : result error (option (tlsConfig Cert) * Security) :=
  if bool_decide (serverCAFile = "") && bool_decide (clientCert = "") && bool_decide (clientKey = "")
  then Ok (None, WithoutTLS)
  else
    let* roots := if negb (bool_decide (serverCAFile = "")) then
                    match loadRootCAs serverCAFile with
                    | Err e => Err (Wrap ErrFailedToLoadRootCA e)
                    | Ok p => Ok (Some p)
                    end
                  else Ok None in
    let* certs := clientCertificate clientCert clientKey in
    Ok (Some (mkTlsConfig VersionTLS12 NoClientCert certs roots None []),
        match certs, roots with
        | _ :: _, _ => WithMTLS
        | [], Some _ => WithTLS
        | [], None => WithoutTLS
        end).

(** The configuration for attested TLS; the path of the policy is also stored in a package
    variable that nothing reads. *)
Definition LoadATLSConfig (attestationPolicy serverCAFile clientCert clientKey : string)
  : result error (tlsConfig Cert * Security) :=
  match validateRegularFile attestationPolicy with
  | Some e => Err e
  | None =>
      if bool_decide (serverCAFile = "") then Err ErrMissingRootCA
      else
        let* rootCAs := loadRootCAs serverCAFile in
        let* certs := clientCertificate clientCert clientKey in
        Ok (mkTlsConfig VersionTLS13 NoClientCert certs (Some rootCAs) None [], WithMATLS)
  end.

End tls.

(** ** [pkg/clients/clients.go] *)

Record StandardClientConfig := mkStandard {
  sd_URL : string; sd_Timeout : Z; sd_ClientCert : string; sd_ClientKey : string; sd_ServerCAFile : string }.

Record AttestedClientConfig (Key : Type) := mkAttested {
  ac_Standard : StandardClientConfig;
  ac_AttestationPolicy : string;
  ac_AttestedTLS : bool;
  ac_ProductName : string;
  ac_ContextHex : string;
  ac_Context : list byte;
  ac_IdentityPolicy : Policy;
  ac_IdentityGrant : option VerifiedGrant;
  ac_IdentityBinding : option VerifiedSessionBindingStatement;
  ac_GrantJWT : string;
  ac_BindingJWT : string;
  ac_GrantOptions : JWTVerifyOptions Key;
  ac_BindingOptions : JWTVerifyOptions Key }.
Arguments mkAttested {Key}. Arguments ac_Standard {Key}. Arguments ac_AttestationPolicy {Key}.
Arguments ac_AttestedTLS {Key}. Arguments ac_ProductName {Key}. Arguments ac_ContextHex {Key}.
Arguments ac_Context {Key}. Arguments ac_IdentityPolicy {Key}. Arguments ac_IdentityGrant {Key}.
Arguments ac_IdentityBinding {Key}. Arguments ac_GrantJWT {Key}. Arguments ac_BindingJWT {Key}.
Arguments ac_GrantOptions {Key}. Arguments ac_BindingOptions {Key}.

(** A value of the interface [ClientConfiguration]: the two types, as values or pointers. *)
Inductive ClientConfiguration (Key : Type) :=
| StandardValue (c : StandardClientConfig)
| StandardPointer (c : StandardClientConfig)
| AttestedValue (c : AttestedClientConfig Key)
| AttestedPointer (c : AttestedClientConfig Key).
Arguments StandardValue {Key}. Arguments StandardPointer {Key}. Arguments AttestedValue {Key}.
Arguments AttestedPointer {Key}.

Definition Config {Key} (c : ClientConfiguration Key) : StandardClientConfig :=
  match c with
  | StandardValue c | StandardPointer c => c
  | AttestedValue c | AttestedPointer c => ac_Standard c
  end.

Definition ErrInvalidAttestationRequestContext : error := ErrNew "invalid attestation request context".
Definition ErrInvalidIdentityJWTConfig : error := ErrNew "invalid identity JWT config".

Definition RequestContext {Key} (c : AttestedClientConfig Key) : result error (list byte) :=
  if 0 <? len (ac_Context c) then Ok (ac_Context c)
  else if bool_decide (ac_ContextHex c = "") then Ok []
  else match hexDecode (codes (ac_ContextHex c)) with
       | None => Err (Wrap ErrInvalidAttestationRequestContext (ErrNew "hex"))
       | Some requestContext =>
           if len requestContext =? 0
           then Err (ErrWrap "decoded value is empty" ErrInvalidAttestationRequestContext)
           else Ok (map toByte requestContext)
       end.

Section identity.
Context {Key : Type} `{!JWTLib Key bindingJWTClaims}.
Context {K : Type} `{!Crypto K} `{!PKIX (PublicKey K)} `{!PayloadJSON}.
Context {C : Type} `{ReplayCache C}.

Definition expectedBindingForAGTP (st : option ConnectionState) (validation : option (ValidationResult K))
  : result error Binding :=
  if match st with Some s => negb (st_Version s =? 0) | None => false end
  then IdentityBindingFromConnectionState st validation
  else ExpectedIdentityBinding validation.

(** The options the observer passes on; the time is the wall clock. *)
Definition sessionOptions (c : AttestedClientConfig Key) (expected : Binding) : SessionIdentityJWTOptions Key :=
  mkSessionOptions (ac_GrantOptions c) (ac_BindingOptions c) (ac_IdentityPolicy c) expected 0.

(** The function [AGTPObservedIdentity] returns. *)
Definition observeAGTP (c : AttestedClientConfig Key) (wall clock : Time) (st : ConnectionState)
    (validation : ValidationResult K) (cache : option C) : result error Assertion * option C :=
  match expectedBindingForAGTP (Some st) (Some validation) with
  | Err e => (Err e, cache)
  | Ok expected =>
      match VerifySessionIdentityJWT wall clock (ac_GrantJWT c) (ac_BindingJWT c) (sessionOptions c expected) cache with
      | (Err e, cache') => (Err e, cache')
      | (Ok r, cache') => (Ok (sr_Assertion r), cache')
      end
  end.

Definition identityJWTError (e : error) : error := Wrap ErrInvalidIdentityJWTConfig e.

(** [AGTPObservedIdentity]: whether there is such a function. *)
Definition AGTPObservedIdentity (c : AttestedClientConfig Key) (cache : option C) : result error bool :=
  let grantTokenSet := negb (bool_decide (ac_GrantJWT c = "")) in
  let bindingTokenSet := negb (bool_decide (ac_BindingJWT c = "")) in
  if negb grantTokenSet && negb bindingTokenSet then Ok false
  else if negb grantTokenSet || negb bindingTokenSet
  then Err (ErrWrap "identity grant JWT and session binding JWT must both be set" ErrInvalidIdentityJWTConfig)
  else if bool_decide (is_Some (ac_IdentityGrant c)) || bool_decide (is_Some (ac_IdentityBinding c))
  then Err (ErrWrap "AGTP JWT tokens cannot be combined with pre-verified identity grant or binding" ErrInvalidIdentityJWTConfig)
  else if negb (Policy_Enabled (ac_IdentityPolicy c))
  then Err (ErrWrap "identity policy is required for identity JWT validation" ErrInvalidIdentityJWTConfig)
  else match ValidateJWTVerifyOptions (ac_GrantOptions c) with
       | Some e => Err (identityJWTError e)
       | None =>
           match ValidateJWTVerifyOptions (ac_BindingOptions c) with
           | Some e => Err (identityJWTError e)
           | None =>
               if bool_decide (is_Some cache) then Ok true
               else Err (ErrWrap "identity replay cache is required for AGTP JWT validation" ErrInvalidIdentityJWTConfig)
           end
       end.

(** ** Building the configuration of the transport *)

Context {Cert : Type} `{!OS} `{!TLSLib Cert}.
Context (evidenceVerifier : string -> Verifier) (verifyRoots : list (list byte) -> VerifyOptions).

(** [atls.VerifyOptionsFromTLSConfig]; no configuration here skips verification. *)
Definition VerifyOptionsFromTLSConfig (c : tlsConfig Cert) : option VerifyOptions := verifyRoots <$> tc_RootCAs c.

(** The transport's configuration and the one of the TLS connection below it.  The observer
    is the one of the tokens at the given times and cache; [rand] is the random source of
    the request builder. *)
Definition buildATLSClientConfig (nextProtos : list string) (agcfg : AttestedClientConfig Key)
    (baseTLSConfig : tlsConfig Cert) (wall clock : Time) (cache : option C) (rand : result error (list byte))
  : result error (ClientConfig K * tlsConfig Cert) :=
  let tlsConfig := withNextProtos (if bool_decide (nextProtos = []) then tc_NextProtos baseTLSConfig else nextProtos)
                     (withMinVersion VersionTLS13 baseTLSConfig) in
  let* observed := AGTPObservedIdentity agcfg cache in
  let* requestContext := RequestContext agcfg in
  let* request := if 0 <? len requestContext
                  then let* req := NewRequest requestContext in Ok (Some req) else Ok None in
  Ok (mkClientConfig (VerifyOptionsFromTLSConfig tlsConfig)
        (mkVerificationPolicy (Some (evidenceVerifier (ac_AttestationPolicy agcfg))) None)
        (ac_IdentityPolicy agcfg)
        (if observed then Some (fun st v => fst (observeAGTP agcfg wall clock st v cache)) else None)
        (ac_IdentityGrant agcfg) (ac_IdentityBinding agcfg) request
        (if bool_decide (is_Some request) then None else Some (NewRandomRequest rand 32)),
      tlsConfig).

(** ** An attested exchange *)

(** The validation that the exchange reaches before it asks for the identity. *)
Definition validationOf (cfg : ClientConfig K) (st : ConnectionState) (rand : result error (list byte))
    (reply : list byte) (session : Session) : option (ValidationResult K) :=
  match clientRequest cfg rand, readReply reply with
  | Ok (req, _), Ok authBytes =>
      match fst (validateAuthenticator session st RoleServer (Some req) None (Some (cl_AttestationPolicy cfg))
                   authBytes (cl_VerifyOptions cfg)) with
      | Ok v => Some v
      | Err _ => None
      end
  | _, _ => None
  end.

(** The exchange of [Transport] with the configuration of this client.  When the tokens are
    the source of the identity, it is the observer that uses the replay cache, as soon as
    the authenticator is validated. *)
Definition attestedExchange (nextProtos : list string) (agcfg : AttestedClientConfig Key) (base : tlsConfig Cert)
    (st : ConnectionState) (rand : result error (list byte)) (reply : list byte) (wall now clock : Time)
    (session : Session) (cache : option C)
  : result error (AuthenticatorRequest * ValidationResult K) * Session * option C :=
  match buildATLSClientConfig nextProtos agcfg base wall clock cache rand with
  | Err e => (Err e, session, cache)
  | Ok (cfg, _) =>
      let '(r, session', cache') := clientExchange cfg st rand reply now clock session cache in
      (r, session',
       if bool_decide (is_Some (cl_ObservedIdentity cfg)) && Policy_Enabled (cl_IdentityPolicy cfg)
       then match validationOf cfg st rand reply session with
            | Some v => snd (observeAGTP agcfg wall clock st v cache)
            | None => cache
            end
       else cache')
  end.

(** ** [pkg/clients/grpc/grpc.go] *)

Definition errGrpcConnect : error := ErrNew "failed to connect to grpc server".
Definition ErrPlaintextRemoteGRPC : error :=
  ErrNew "plaintext grpc requires unix socket, localhost, loopback, or TLS".

Inductive credentials :=
| Insecure
| OverTLS (c : tlsConfig Cert)
| Attested (agcfg : AttestedClientConfig Key) (c : tlsConfig Cert).

(** The network and the address a dialer is given for the address of a connection. *)
Definition trimPrefix (s p : string) : string :=
  if HasPrefix s p then ofCodes (drop (length (codes p)) (codes s)) else s.
Definition httpDialTarget (network addr : string) : string * string :=
  if HasPrefix addr "unix://" then ("unix", trimPrefix addr "unix://")
  else if HasPrefix addr "/" then ("unix", addr) else (network, addr).
Definition dialTarget (addr : string) : string * string := httpDialTarget "tcp" addr.

Definition loadTLSConfig (h : list act) (serverCAFile clientCert clientKey : string)
  : result error (credentials * Security) :=
  let* r := LoadBasicConfig h serverCAFile clientCert clientKey in
  match r with
  | (Some c, sec) => Ok (if bool_decide (sec = WithoutTLS) then Insecure else OverTLS c, sec)
  | (None, sec) => Ok (Insecure, sec)
  end.

Context `{!UrlLib}.

(** [connect]: the target and the credentials of the connection; [newClient] is
    [grpc.NewClient]. *)
Definition connect (h : list act) (newClient : string -> option error) (cfg : ClientConfiguration Key)
    (wall clock : Time) (cache : option C) (rand : result error (list byte))
  : result error (string * credentials * Security) :=
  let conf := Config cfg in
  let* x :=
    match cfg with
    | AttestedValue agcfg =>
        if ac_AttestedTLS agcfg then
          let* r := LoadATLSConfig h (ac_AttestationPolicy agcfg) (sd_ServerCAFile conf) (sd_ClientCert conf) (sd_ClientKey conf) in
          let '(c, security) := r in
          let* b := buildATLSClientConfig ["h2"] agcfg c wall clock cache rand in
          Ok (Some (Attested agcfg (snd b), security))
        else Ok None
    | _ => Ok None
    end in
  let* x :=
    match x with
    | Some y => Ok y
    | None =>
        let* y := loadTLSConfig h (sd_ServerCAFile conf) (sd_ClientCert conf) (sd_ClientKey conf) in
        if bool_decide (snd y = WithoutTLS) && negb (PlaintextTargetAllowed (sd_URL conf))
        then Err ErrPlaintextRemoteGRPC else Ok y
    end in
  match newClient (sd_URL conf) with
  | Some e => Err (Wrap errGrpcConnect e)
  | None => Ok (sd_URL conf, fst x, snd x)
  end.

(** ** [pkg/clients/grpc/agent/agent.go] *)

Definition ErrAgentServiceUnavailable : error := ErrNew "agent service is unavailable".

(** [NewAgentClient]; [health] is the answer of the health service: an error or whether
    the agent is serving. *)
Definition NewAgentClient (h : list act) (newClient : string -> option error) (health : result error bool)
    (cfg : AttestedClientConfig Key) (wall clock : Time) (cache : option C) (rand : result error (list byte))
  : result error (string * credentials * Security) :=
  let* c := connect h newClient (AttestedValue cfg) wall clock cache rand in
  let secure := Security_String (snd c) in
  if negb (bool_decide (secure = Security_String WithMATLS)) && negb (bool_decide (secure = Security_String WithATLS))
     && negb (bool_decide (secure = Security_String WithTLS))
  then match health with
       | Err e => Err (Wrap e ErrAgentServiceUnavailable)
       | Ok false => Err ErrAgentServiceUnavailable
       | Ok true => Ok c
       end
  else Ok c.

(** ** [pkg/clients/http/client.go] *)

(** The client of this package builds the same configuration, for any protocol. *)
Definition httpBuildATLSClientConfig (agcfg : AttestedClientConfig Key) (baseTLSConfig : tlsConfig Cert)
    (wall clock : Time) (cache : option C) (rand : result error (list byte))
  : result error (ClientConfig K * tlsConfig Cert) :=
  buildATLSClientConfig [] agcfg baseTLSConfig wall clock cache rand.

(** The part of the transport that depends on the configuration: TLS for [https] URLs,
    or the attested dialer, which only serves [https] URLs as well. *)
Definition createTransport (h : list act) (cfg : ClientConfiguration Key) (wall clock : Time) (cache : option C)
    (rand : result error (list byte)) : result error (credentials * Security) :=
  let conf := Config cfg in
  let basic :=
    let* r := LoadBasicConfig h (sd_ServerCAFile conf) (sd_ClientCert conf) (sd_ClientKey conf) in
    match r with
    | (Some c, sec) => Ok (if bool_decide (sec = WithoutTLS) then Insecure else OverTLS c, sec)
    | (None, sec) => Ok (Insecure, sec)
    end in
  match cfg with
  | AttestedPointer agcfg =>
      if ac_AttestedTLS agcfg then
        let* r := LoadATLSConfig h (ac_AttestationPolicy agcfg) (sd_ServerCAFile conf) (sd_ClientCert conf) (sd_ClientKey conf) in
        let '(c, security) := r in
        let* b := httpBuildATLSClientConfig agcfg c wall clock cache rand in
        Ok (Attested agcfg (snd b), security)
      else basic
  | _ => basic
  end.

End identity.

(** ** What a connection may be *)

Section connections.
Context {Key : Type} `{!JWTLib Key bindingJWTClaims}.
Context {K : Type} `{!Crypto K} `{!PKIX (PublicKey K)} `{!PayloadJSON}.
Context {C : Type} `{ReplayCache C}.
Context {Cert : Type} `{!OS} `{!TLSLib Cert} `{!UrlLib}.
Context (ev : string -> Verifier) (roots : list (list byte) -> VerifyOptions).

Lemma clientCertificate_empty h cc ck l :
  clientCertificate (Cert := Cert) h cc ck = Ok l -> (l = [] <-> cc = "" /\ ck = "").
Proof.
  unfold clientCertificate. repeat case_bool_decide; cbn [negb orb];
    try (destruct (keyPairFromFiles h cc ck); [|done]); intros [= <-]; split; try done; by intros [? ?].
Qed.

(** The three outcomes of the basic configuration. *)
Lemma LoadBasicConfig_Ok h ca cc ck c sec :
  LoadBasicConfig (Cert := Cert) h ca cc ck = Ok (c, sec) ->
  match sec with
  | WithoutTLS => c = None /\ ca = "" /\ cc = "" /\ ck = ""
  | WithTLS => (exists d, c = Some d /\ tc_RootCAs d <> None /\ tc_Certificates d = []) /\ ca <> "" /\ cc = "" /\ ck = ""
  | WithMTLS => (exists d, c = Some d /\ tc_Certificates d <> []) /\ (cc <> "" \/ ck <> "")
  | _ => False
  end.
Proof.
  unfold LoadBasicConfig. destruct (bool_decide (ca = "") && _ && _) eqn:Hn.
  { rewrite !andb_true_iff, !bool_decide_eq_true in Hn. destruct Hn as [[-> ->] ->]. by intros [= <- <-]. }
  rewrite <- not_true_iff_false, !andb_true_iff, !bool_decide_eq_true in Hn.
  set (r := if negb (bool_decide (ca = "")) then _ else _).
  assert (forall p, r = Ok p -> (p = None <-> ca = "")) as Hr.
  { intros p. unfold r. case_bool_decide; cbn [negb]; [by intros [= <-]|]. destruct (loadRootCAs h ca); [|done].
    by intros [= <-]. }
  destruct r as [p|]; [|done]. specialize (Hr p eq_refl).
  destruct (clientCertificate h cc ck) as [l|] eqn:El; [|done]. apply clientCertificate_empty in El.
  intros [= <- <-]. destruct l as [|x l].
  - destruct (proj1 El eq_refl) as [-> ->]. destruct p as [p|]; [|by destruct Hn; split_and!; [apply Hr|..]].
    split_and!; [by eexists|by intros ?%Hr|done..].
  - split; [by eexists|]. destruct (decide (cc = "")) as [->|]; [|by left]. right. intros ->.
    by pose proof (proj2 El (conj eq_refl eq_refl)).
Qed.
Lemma LoadATLSConfig_Ok h pol ca cc ck c sec :
  LoadATLSConfig (Cert := Cert) h pol ca cc ck = Ok (c, sec) ->
  sec = WithMATLS /\ tc_MinVersion c = VersionTLS13 /\ tc_RootCAs c <> None /\ ca <> ""
  /\ exists mode, os_stat h pol = Ok mode /\ IsRegular mode = true.
Proof.
  unfold LoadATLSConfig, validateRegularFile. destruct (os_stat h pol) as [mode|]; [|done].
  destruct (IsRegular mode) eqn:E; [|done]. cbn [negb]. case_bool_decide; [done|].
  destruct (loadRootCAs h ca); [|done]. destruct (clientCertificate h cc ck); [|done]. intros [= <- <-].
  split_and!; [done..|]. by exists mode.
Qed.

Lemma build_tls np ag (base : tlsConfig Cert) wall clock (cache : option C) rand cfg c :
  buildATLSClientConfig (K := K) ev roots np ag base wall clock cache rand = Ok (cfg, c) ->
  tc_MinVersion c = VersionTLS13 /\ tc_RootCAs c = tc_RootCAs base
  /\ cl_VerifyOptions cfg = roots <$> tc_RootCAs base.
Proof.
  unfold buildATLSClientConfig. destruct (AGTPObservedIdentity ag cache); [|done].
  destruct (RequestContext ag) as [ctx|]; [|done].
  destruct (if 0 <? len ctx then _ else _); [|done]. by intros [= <- <-].
Qed.

(** What the credentials of a connection say about the configuration it was made from. *)
Definition connectionFor (h : list act) (cfg : ClientConfiguration Key) (cr : credentials (Cert := Cert) (Key := Key))
    (sec : Security) : Prop :=
  let conf := Config cfg in
  match cr with
  | Insecure => sec = WithoutTLS /\ PlaintextTargetAllowed (sd_URL conf) = true
      /\ sd_ServerCAFile conf = "" /\ sd_ClientCert conf = "" /\ sd_ClientKey conf = ""
  | OverTLS c => (sec = WithTLS /\ tc_RootCAs c <> None \/ sec = WithMTLS /\ tc_Certificates c <> [])
  | Attested ag c => cfg = AttestedValue ag /\ ac_AttestedTLS ag = true /\ sec = WithMATLS
      /\ tc_MinVersion c = VersionTLS13 /\ tc_RootCAs c <> None
      /\ exists mode, os_stat h (ac_AttestationPolicy ag) = Ok mode /\ IsRegular mode = true
  end.

Lemma loadTLSConfig_Ok h ca cc ck cr sec :
  loadTLSConfig (Cert := Cert) (Key := Key) h ca cc ck = Ok (cr, sec) ->
  match cr with
  | Insecure => sec = WithoutTLS /\ ca = "" /\ cc = "" /\ ck = ""
  | OverTLS c => (sec = WithTLS /\ tc_RootCAs c <> None \/ sec = WithMTLS /\ tc_Certificates c <> [])
  | Attested _ _ => False
  end.
Proof.
  unfold loadTLSConfig. destruct (LoadBasicConfig h ca cc ck) as [[c s]|] eqn:E; [|done].
  apply LoadBasicConfig_Ok in E. destruct c as [c|].
  - intros [= <- <-]. destruct s; cbn in *; [by destruct E| | |done|done]; destruct E as [(d & [= <-] & ?) ?].
    + left. naive_solver.
    + by right.
  - intros [= <- <-]. destruct s; cbn in *; [naive_solver| | |done|done]; by destruct E as [(d & ? & _) _].
Qed.

Lemma connect_basic h nc cfg wall clock (cache : option C) rand t cr sec :
  (forall ag, cfg = AttestedValue ag -> ac_AttestedTLS ag = false) ->
  connect (K := K) ev roots h nc cfg wall clock cache rand = Ok (t, cr, sec) ->
  t = sd_URL (Config cfg) /\ connectionFor h cfg cr sec.
Proof.
  intros Hc. unfold connect. set (x := match cfg with AttestedValue _ => _ | _ => _ end).
  assert (x = Ok None) as -> by (unfold x; destruct cfg as [| |ag|]; [done..| |done]; by rewrite Hc).
  destruct (loadTLSConfig h _ _ _) as [[cr' sec']|] eqn:E; [|done]. apply loadTLSConfig_Ok in E. cbn [snd].
  destruct (bool_decide (sec' = WithoutTLS) && _) eqn:G; [done|]. destruct (nc _); [done|]. intros [= <- <- <-].
  split; [done|]. destruct cr'; cbn; [|done|done]. destruct E as (-> & ? & ? & ?).
  cbn in G. apply negb_false_iff in G. by split_and!.
Qed.


(** The two clients disagree on the form of the configuration.  The gRPC client attests
    only when it is given the structure itself and the HTTP client only when it is given a
    pointer to it; in the other form a configuration that asks for attested TLS is served
    with plain TLS or none. *)
Theorem attested_form (h : list act) (nc : string -> option error) (ag : AttestedClientConfig Key)
    (wall clock : Time) (cache : option C) (rand : result error (list byte)) :
  (forall t cr sec, connect (K := K) ev roots h nc (AttestedPointer ag) wall clock cache rand = Ok (t, cr, sec) ->
     match cr with Attested _ _ => False | _ => True end)
  /\ (forall cr sec, createTransport (K := K) ev roots h (AttestedValue ag) wall clock cache rand = Ok (cr, sec) ->
     match cr with Attested _ _ => False | _ => True end).
Proof.
  split.
  - intros t cr sec E. apply connect_basic in E as [_ E]; [|done]. destruct cr; [done..|]. by destruct E.
  - intros cr sec. unfold createTransport. destruct (LoadBasicConfig h _ _ _) as [[[c|] s]|]; [..|done].
    + intros [= <- <-]. by case_bool_decide.
    + by intros [= <- <-].
Qed.

End connections.

(** ** Attested exchanges with identity tokens *)

Section exchanges.
Context {Key : Type} `{!JWTLib Key bindingJWTClaims, !JWTLibLaws Key bindingJWTClaims}.
Context {K : Type} `{!Crypto K} `{!PKIX (PublicKey K)} `{!PayloadJSON}.
Context {C : Type} `{ReplayCache C}.
Context {Cert : Type} `{!TLSLib Cert}.
Context (ev : string -> Verifier) (roots : list (list byte) -> VerifyOptions).

(** The identity tokens are accepted for this validation: for the binding of this very
    connection, by the policy, and for the first time. *)
Definition tokensAccepted (ag : AttestedClientConfig Key) (st : ConnectionState) (v : ValidationResult K)
    (wall now clock : Time) (cache cache' : option C) (res : SessionIdentityJWTResult) : Prop :=
  exists expected binding,
    expectedBindingForAGTP (Some st) (Some v) = Ok expected
    /\ ExpectedIdentityBinding (Some v) = Ok binding
    /\ sessionAccepts wall (ac_GrantJWT ag) (ac_BindingJWT ag) (sessionOptions ag expected) res
    /\ assertionAccepts (ac_IdentityPolicy ag) (sr_Assertion res) binding now
    /\ MarkSessionBindingUsed clock cache (sr_Statement res) = (None, cache').

(** The authenticator is accepted: it answers the request of this configuration, it is
    validated under it, and the session had not used its context. *)
Definition authenticatorAccepted (cfg : ClientConfig K) (st : ConnectionState) (rand : result error (list byte))
    (reply : list byte) (s s' : Session) (req : AuthenticatorRequest) (v : ValidationResult K) : Prop :=
  (exists frame, clientRequest cfg rand = Ok (req, frame))
  /\ (exists auth, replyCarries reply auth
        /\ authenticatorAccepts st RoleServer (Some req) None (Some (cl_AttestationPolicy cfg)) auth (cl_VerifyOptions cfg) v)
  /\ MarkContextUsed s (vr_Context v) = (None, s').

Lemma observed_policy (ag : AttestedClientConfig Key) (cache : option C) :
  AGTPObservedIdentity ag cache = Ok true -> Policy_Enabled (ac_IdentityPolicy ag) = true /\ is_Some cache.
Proof.
  unfold AGTPObservedIdentity. do 3 (case_goal; [done|]). destruct (Policy_Enabled _); [|done]. cbn [negb].
  do 2 (destruct (ValidateJWTVerifyOptions _); [done|]). destruct cache; [by split; [|eexists]|done].
Qed.

Lemma build_observed np ag base wall clock (cache : option C) rand cfg (c : tlsConfig Cert) :
  AGTPObservedIdentity ag cache = Ok true ->
  buildATLSClientConfig (K := K) ev roots np ag base wall clock cache rand = Ok (cfg, c) ->
  cl_ObservedIdentity cfg = Some (fun st v => fst (observeAGTP ag wall clock st v cache))
  /\ cl_IdentityPolicy cfg = ac_IdentityPolicy ag.
Proof.
  intros Ho. unfold buildATLSClientConfig. rewrite Ho. destruct (RequestContext ag) as [ctx|]; [|done].
  destruct (if 0 <? len ctx then _ else _); [|done]. by intros [= <- <-].
Qed.

Lemma observeAGTP_Ok ag wall clock st (v : ValidationResult K) (cache : option C) a cache' :
  is_Some cache ->
  observeAGTP ag wall clock st v cache = (Ok a, cache') <->
  exists expected res, expectedBindingForAGTP (Some st) (Some v) = Ok expected
    /\ sessionAccepts wall (ac_GrantJWT ag) (ac_BindingJWT ag) (sessionOptions ag expected) res
    /\ MarkSessionBindingUsed clock cache (sr_Statement res) = (None, cache') /\ a = sr_Assertion res.
Proof.
  intros Hc. unfold observeAGTP. destruct (expectedBindingForAGTP _ _) as [e|]; [|split; [done|naive_solver]].
  destruct (VerifySessionIdentityJWT _ _ _ _ _ _) as [[res|err] c1] eqn:E.
  - apply VerifySession_Ok in E as (? & _ & ?). split.
    + intros [= <- <-]. by exists e, res.
    + intros (? & res' & [= <-] & Hs & Hm & ->).
      assert (VerifySessionIdentityJWT wall clock (ac_GrantJWT ag) (ac_BindingJWT ag) (sessionOptions ag e) cache = (Ok res', cache'))
        as E' by by apply VerifySession_Ok.
      assert (VerifySessionIdentityJWT wall clock (ac_GrantJWT ag) (ac_BindingJWT ag) (sessionOptions ag e) cache = (Ok res, c1))
        as E'' by by apply VerifySession_Ok.
      congruence.
  - split; [done|]. intros (? & res' & [= <-] & Hs & Hm & ->).
    assert (VerifySessionIdentityJWT wall clock (ac_GrantJWT ag) (ac_BindingJWT ag) (sessionOptions ag e) cache = (Ok res', cache'))
      as E' by by apply VerifySession_Ok.
    congruence.
Qed.

Lemma clientAccepts_split (cfg : ClientConfig K) st rand reply now clock s s' (cache cache' : option C) req v :
  clientAccepts cfg st rand reply now clock s s' cache cache' req v <->
  authenticatorAccepted cfg st rand reply s s' req v /\ identityAccepts cfg st v now clock cache cache'.
Proof. unfold clientAccepts, authenticatorAccepted. naive_solver. Qed.

Lemma validationOf_accepted (cfg : ClientConfig K) st rand reply s s' req v :
  authenticatorAccepted cfg st rand reply s s' req v -> validationOf cfg st rand reply s = Some v.
Proof.
  intros ([f Hf] & (auth & Hr%readReply_Ok & Ha) & Hm). unfold validationOf. rewrite Hf, Hr.
  by rewrite (proj2 (validate_Ok _ _ _ _ _ _ _ _ _ _) (conj Ha Hm)).
Qed.

Lemma attestedExchange_Ok np ag (base : tlsConfig Cert) st rand reply wall now clock s (cache : option C) req v s' cache' :
  AGTPObservedIdentity ag cache = Ok true ->
  attestedExchange (K := K) ev roots np ag base st rand reply wall now clock s cache = (Ok (req, v), s', cache') <->
  exists cfg c res, buildATLSClientConfig ev roots np ag base wall clock cache rand = Ok (cfg, c)
    /\ authenticatorAccepted cfg st rand reply s s' req v
    /\ tokensAccepted ag st v wall now clock cache cache' res.
Proof.
  intros Ho. destruct (observed_policy _ _ Ho) as [Hp Hc]. unfold attestedExchange.
  destruct (buildATLSClientConfig _ _ _ _ _ _ _ _ _) as [[cfg c]|] eqn:B; [|split; [done|naive_solver]].
  destruct (build_observed _ _ _ _ _ _ _ _ _ Ho B) as [Hobs Hpol]. rewrite Hobs, Hpol, Hp. cbn [andb].
  rewrite bool_decide_eq_true_2 by by eexists. cbn [andb].
  destruct (clientExchange cfg st rand reply now clock s cache) as [[r s1] c1] eqn:E. split.
  - intros [= -> -> Hcache]. apply clientExchange_Ok, clientAccepts_split in E as [Ha Hi].
    rewrite (validationOf_accepted _ _ _ _ _ _ _ _ Ha) in Hcache.
    unfold identityAccepts in Hi. rewrite Hpol, Hp in Hi. destruct Hi as (a & stm & b & Hobs' & Hb & Hacc & _).
    unfold observedIdentityAssertion in Hobs'. rewrite Hobs in Hobs'.
    destruct (observeAGTP ag wall clock st v cache) as [[a'|] c2] eqn:O; [|done]. cbn in Hobs', Hcache.
    injection Hobs' as <- <-. subst c2. apply observeAGTP_Ok in O as (e & res & He & Hs & Hm & ->); [|done].
    exists cfg, c, res. split_and!; [done..|]. exists e, b. by split_and!.
  - intros (cfg' & c' & res & [= <- <-] & Ha & (e & b & He & Hb & Hs & Hacc & Hm)).
    assert (observeAGTP ag wall clock st v cache = (Ok (sr_Assertion res), cache')) as O.
    { apply observeAGTP_Ok; [done|]. by exists e, res. }
    rewrite (validationOf_accepted _ _ _ _ _ _ _ _ Ha), O. cbn [snd].
    assert (clientExchange cfg st rand reply now clock s cache = (Ok (req, v), s', cache)) as E'.
    { apply clientExchange_Ok, clientAccepts_split. split; [done|]. unfold identityAccepts. rewrite Hpol, Hp.
      exists (sr_Assertion res), None, b. unfold observedIdentityAssertion. rewrite Hobs, O. by split_and!. }
    by rewrite E in E'; injection E' as -> -> _.
Qed.

(** C10: a client that is configured with identity tokens accepts a peer exactly when its
    authenticator is accepted under the configuration built for this connection, and the
    two tokens are accepted for the binding values of this very connection, agree with the
    identity policy and had not been used before; the replay cache then holds the mark of
    this statement and of nothing else. *)
Theorem attested_exchange_decides (np : list string) (ag : AttestedClientConfig Key) (base : tlsConfig Cert)
    (st : ConnectionState) (rand : result error (list byte)) (reply : list byte) (wall now clock : Time)
    (s : Session) (cache : option C) (req : AuthenticatorRequest) (v : ValidationResult K) (s' : Session)
    (cache' : option C) :
  AGTPObservedIdentity ag cache = Ok true ->
  attestedExchange ev roots np ag base st rand reply wall now clock s cache = (Ok (req, v), s', cache') <->
  exists cfg c res, buildATLSClientConfig ev roots np ag base wall clock cache rand = Ok (cfg, c)
    /\ authenticatorAccepted cfg st rand reply s s' req v
    /\ tokensAccepted ag st v wall now clock cache cache' res.
Proof. apply attestedExchange_Ok. Qed.

End exchanges.

Section once.
Context {Key : Type} `{!JWTLib Key bindingJWTClaims, !JWTLibLaws Key bindingJWTClaims}.
Context {K : Type} `{!Crypto K} `{!PKIX (PublicKey K)} `{!PayloadJSON}.
Context {C : Type} `{ReplayCacheLaws C}.
Context {Cert : Type} `{!TLSLib Cert}.
Context (ev : string -> Verifier) (roots : list (list byte) -> VerifyOptions).

(** Identity tokens admit a peer once.  After an accepted exchange, no exchange over the
    same replay cache, with whatever configuration, connection or session and after any
    other uses of the cache, is accepted with a statement that has the same grant hash,
    audience, exporter value, request context and nonce and expires no later. *)
Theorem attested_session_once (np np' : list string) (ag ag' : AttestedClientConfig Key) (base base' : tlsConfig Cert)
    st st' rand rand' reply reply' wall wall' now now' clock clock' s t (c : C) us req req'
    (v v' : ValidationResult K) s' t' cache' cache'' :
  AGTPObservedIdentity ag (Some c) = Ok true -> enforcing c -> 0 < clock -> clockForward clock us clock' ->
  attestedExchange ev roots np ag base st rand reply wall now clock s (Some c) = (Ok (req, v), s', cache') ->
  exists c' res, cache' = Some c' /\ tokensAccepted ag st v wall now clock (Some c) cache' res
    /\ (AGTPObservedIdentity ag' (Some (snd (runUses us c'))) = Ok true ->
        attestedExchange ev roots np' ag' base' st' rand' reply' wall' now' clock' t (Some (snd (runUses us c')))
          = (Ok (req', v'), t', cache'') ->
        b_ExpiresAt (s_Binding (sr_Statement res)) - clock <= maxInt64 ->
        exists res', tokensAccepted ag' st' v' wall' now' clock' (Some (snd (runUses us c'))) cache'' res'
          /\ (oneShotIdentity (sr_Statement res') <> oneShotIdentity (sr_Statement res)
              \/ b_ExpiresAt (s_Binding (sr_Statement res)) < b_ExpiresAt (s_Binding (sr_Statement res')))).
Proof.
  intros Ho Henf Hclk Hfw E. apply attestedExchange_Ok in E as (cfg & tc & res & _ & _ & Ht); [|done].
  pose proof Ht as (e & b & _ & _ & _ & _ & Hm).
  pose proof Hm as (c' & -> & _)%MarkSessionBindingUsed_None. exists c', res. split_and!; [done..|].
  intros Ho' E' Hlim. apply attestedExchange_Ok in E' as (cfg' & tc' & res' & _ & _ & Ht'); [|done].
  exists res'. split; [done|]. destruct Ht' as (e' & b' & _ & _ & _ & _ & Hm').
  destruct (decide (oneShotIdentity (sr_Statement res') = oneShotIdentity (sr_Statement res))) as [Hid|]; [|by left].
  right. apply Znot_ge_lt. intros Hexp.
  destruct (marked_once clock clock' _ (sr_Statement res') c us _ cache'' Henf Hclk Hlim Hm Hfw Hid) as (c1 & [= <-] & Hno); [lia|].
  by apply Hno.
Qed.

End once.

(** ** A concrete client *)

Module ClientsSample.
Import EaAuthenticator.Sample.

#[local] Instance files : OS := {|
  os_act := fun _ _ => None; os_stat := fun _ _ => Ok 420; os_read := fun _ p => Ok (bytesOf p);
  os_walk := fun _ _ => Ok []; os_glob := fun _ _ => Ok []; os_getwd := fun _ => Ok "/" |}.
#[local] Instance sampleTLS : TLSLib string := {|
  X509KeyPair := fun c k => Ok (stringOf c); appendCertsFromPEM := fun _ => true; Priv := unit;
  generateKeyP256 := Ok tt; randInt := fun _ => Ok 7; createCertificate := fun t _ => Ok (bytesOf (tp_CommonName t));
  parseLeaf := fun der _ => Ok (stringOf der) |}.
#[local] Instance noURL : UrlLib := {| urlParse := fun _ => Err (ErrNew "url") |}.

Definition verifier (policy : string) : Verifier :=
  default (fun _ _ => None) (pol_EvidenceVerifier EaAttestation.Sample.policy).
Definition rootsOf (pool : list (list byte)) : VerifyOptions := tt.

(** The claims of a statement for the binding of one connection. *)
Definition claimsFor (b : Binding) : bindingJWTClaims :=
  mkClaims (BindingJWT.Sample.registeredOf "") "" "" LegacyTokenTypeSessionBinding "1" "" []
    (IdentityGrantHash "grant") (b_LeafPublicKeySHA256 b) (b_TLSExporterSHA256 b) (b_RequestContextSHA256 b)
    (b_AttestationBinderSHA256 b) "nonce"
    "" "" "" "" "" "" "" "" "" "" "" "" "" "" "" [] "" [] [].

Definition binding : Binding := Eval vm_compute in
  match IdentityBindingFromConnectionState (Some st) (Some result) with
  | Ok b => b
  | Err _ => emptyBinding
  end.
Definition rows : list (TableLib.Row (C := bindingJWTClaims)) :=
  [TableLib.mkRow "grant" "ES256" (Some "manager-key") BindingJWT.Sample.grantClaims "MK";
   TableLib.mkRow "binding" "ES256" (Some "agent-key") (claimsFor binding) "AK"].
#[local] Instance tokens : JWTLib string bindingJWTClaims := TableLib.lib rows.
#[local] Instance tokens_laws : JWTLibLaws string bindingJWTClaims := TableLib.laws rows.

Definition standard : StandardClientConfig := mkStandard "agent.example:7002" 60 "" "" "CA".
Definition attested : AttestedClientConfig string :=
  mkAttested standard "policy" true "Milan" "" (bytesOf "ctx") BindingJWT.Sample.policy None None "grant" "binding"
    BindingJWT.Sample.grantOptions BindingJWT.Sample.bindingOptions.
Definition cache0 : option (option Memory.MemoryReplayCache) := Some (Some Memory.NewMemoryReplayCache).
Definition base : tlsConfig string := mkTlsConfig VersionTLS13 NoClientCert [] (Some [bytesOf "CA"]) None [].
Definition reqSent : AuthenticatorRequest := Eval vm_compute in
  match NewRequest (bytesOf "ctx") with Ok r => r | Err _ => request end.
Definition cfgBuilt : ClientConfig string :=
  mkClientConfig (Some tt) (mkVerificationPolicy (Some (verifier "policy")) None) BindingJWT.Sample.policy
    (Some (fun st v => fst (observeAGTP attested 10 10 st v cache0))) None None (Some reqSent) None.
Definition frameSent : list byte := Eval vm_compute in
  match clientRequest cfgBuilt (Err ErrBadRequest) with Ok (_, f) => f | Err _ => [] end.
Definition auth : list byte := Eval vm_compute in
  match authenticatorBytes st RoleServer (Some reqSent) None identity exts (Err ErrBadRequest) with
  | Ok (a, _) => a
  | Err _ => []
  end.
Definition answer : list byte := Eval vm_compute in
  match writeFrame frameTypeAuthenticator auth with Ok f => f | Err _ => [] end.
Definition expected0 : Binding := Eval vm_compute in
  match ExpectedIdentityBinding (Some result) with Ok b => b | Err _ => emptyBinding end.
Definition verified := VerifySessionIdentityJWT 10 10 "grant" "binding" (sessionOptions attested binding) cache0.
Definition cacheAfter : option (option Memory.MemoryReplayCache) := snd verified.
Definition accepted : SessionIdentityJWTResult := Eval vm_compute in
  match fst verified with Ok r => r | Err _ => BindingJWT.Sample.result end.

Lemma tokens_ready : AGTPObservedIdentity attested cache0 = Ok true.
Proof. by vm_compute. Qed.
Lemma built_ok :
  buildATLSClientConfig verifier rootsOf ["h2"] attested base 10 10 cache0 (Err ErrBadRequest)
  = Ok (cfgBuilt, withNextProtos ["h2"] base).
Proof. reflexivity. Qed.
Lemma request_ok : clientRequest cfgBuilt (Err ErrBadRequest) = Ok (reqSent, frameSent).
Proof. vm_compute. reflexivity. Qed.
Lemma reply_frame_ok : writeFrame frameTypeAuthenticator auth = Ok answer.
Proof. vm_compute. reflexivity. Qed.
Lemma validated_ok :
  validateAuthenticator NewSession st RoleServer (Some reqSent) None (Some (cl_AttestationPolicy cfgBuilt)) auth (Some tt)
  = (Ok result, used).
Proof. vm_compute. reflexivity. Qed.
Lemma expected0_ok : ExpectedIdentityBinding (Some result) = Ok expected0.
Proof. vm_compute. reflexivity. Qed.
Lemma binding_ok : expectedBindingForAGTP (Some st) (Some result) = Ok binding.
Proof.
  unfold expectedBindingForAGTP, IdentityBindingFromConnectionState. rewrite expected0_ok. vm_compute. reflexivity.
Qed.
Lemma verified_fst : fst verified = Ok accepted.
Proof. vm_compute. reflexivity. Qed.
Lemma tokens_verified_ok :
  VerifySessionIdentityJWT 10 10 "grant" "binding" (sessionOptions attested binding) cache0 = (Ok accepted, cacheAfter).
Proof. exact (eq_trans (surjective_pairing verified) (f_equal (fun x => (x, snd verified)) verified_fst)). Qed.
Lemma assertion_ok : ValidateAssertion BindingJWT.Sample.policy (sr_Assertion accepted) expected0 10 = None.
Proof. vm_compute. reflexivity. Qed.

Lemma peer_ok : authenticatorAccepted cfgBuilt st (Err ErrBadRequest) answer NewSession used reqSent result.
Proof.
  destruct (proj1 (validate_Ok _ _ _ _ _ _ _ _ _ _) validated_ok) as [Ha Hm].
  split_and!; [exists frameSent; exact request_ok| |exact Hm].
  exists auth. split; [|exact Ha]. exists answer, []. split; [exact reply_frame_ok|by rewrite app_nil_r].
Qed.
Lemma tokens_ok : tokensAccepted attested st result 10 10 10 cache0 cacheAfter accepted.
Proof.
  destruct (proj1 (VerifySession_Ok _ _ _ _ _ _ _ _) tokens_verified_ok) as (Hs & _ & Hm).
  exists binding, expected0. split_and!; [exact binding_ok|exact expected0_ok|exact Hs| |exact Hm].
  apply ValidateAssertion_spec. exact assertion_ok.
Qed.
Lemma exchange_ok :
  attestedExchange verifier rootsOf ["h2"] attested base st (Err ErrBadRequest) answer 10 10 10 NewSession cache0
  = (Ok (reqSent, result), used, cacheAfter).
Proof.
  apply attestedExchange_Ok; [exact tokens_ready|]. exists cfgBuilt, (withNextProtos ["h2"] base), accepted.
  split; [exact built_ok|]. split; [exact peer_ok|exact tokens_ok].
Qed.

Lemma attested_exchange_decides_witness :
  exists cfg c res,
    buildATLSClientConfig verifier rootsOf ["h2"] attested base 10 10 cache0 (Err ErrBadRequest) = Ok (cfg, c)
    /\ authenticatorAccepted cfg st (Err ErrBadRequest) answer NewSession used reqSent result
    /\ tokensAccepted attested st result 10 10 10 cache0 cacheAfter res.
Proof.
  exact (proj1 (attested_exchange_decides verifier rootsOf ["h2"] attested base st (Err ErrBadRequest) answer 10 10 10
           NewSession cache0 reqSent result used cacheAfter tokens_ready) exchange_ok).
Defined.

Lemma attested_session_once_witness :
  exists c' res, cacheAfter = Some c' /\ tokensAccepted attested st result 10 10 10 cache0 cacheAfter res.
Proof.
  destruct (attested_session_once verifier rootsOf ["h2"] ["h2"] attested attested base base st st (Err ErrBadRequest)
    (Err ErrBadRequest) answer answer 10 12 10 12 10 12 NewSession NewSession (Some Memory.NewMemoryReplayCache)
    [(11, "other", 30)] reqSent reqSent result result used used cacheAfter None tokens_ready (memory_enforcing _) eq_refl)
    as (c' & res & Ec & Et & _); [cbn; lia|exact exchange_ok|].
  exact (ex_intro _ c' (ex_intro _ res (conj Ec Et))).
Defined.

Definition baseH2 : tlsConfig string := withNextProtos ["h2"] base.


End ClientsSample.
