(* ===== verification/Logs.v ===== *)
(** * Logs and events of the agent

    The writers an algorithm's output goes to ([agent/algorithm/logging]), the events of
    [agent/events], the log handler of [internal/logger/protohandler.go], which cuts messages
    for the stream to the manager, the client of the log service with its retries and the
    service itself ([agent/log/service]).  A queue is the list of what was put into it; what
    a log call writes is a list of records. *)

From stdpp Require Import base list strings.
From Stdlib Require Import ZArith Lia Strings.Byte.
From S2P Require Import Prelude GoStrings Errors GoNumbers.

(** ** Messages to the manager *)

Inductive streamMessage :=
| MsgLog (timestamp : Z) (message level computationId : string)
| MsgEvent (timestamp : Z) (eventType computationId originator status : string) (details : list byte).

(** [events.New] and [SendEvent]. *)
Definition SendEvent (svc : string) (now : Z) (cmpID event status : string) (details : list byte)
    (queue : list streamMessage) : list streamMessage :=
  queue ++ [MsgEvent now event cmpID svc status details].

(** ** The writers of an algorithm: [agent/algorithm/logging/logging.go] *)

Inductive level := LevelDebug | LevelError.
Definition bufSize : nat := 1024.

(** A buffer gives at most [bufSize] bytes per read until it is empty. *)
Fixpoint writeLoop (fuel : nat) (lvl : level) (inBuf : list byte) (logged : list (level * list byte))
  : list (level * list byte) :=
  match fuel with
  | O => logged
  | S f => match inBuf with
           | [] => logged
           | _ => writeLoop f lvl (drop bufSize inBuf) (logged ++ [(lvl, take bufSize inBuf)])
           end
  end.

(** The count returned and the records; reading a buffer fails only at its end. *)
Definition Stdout_Write (p : list byte) (logged : list (level * list byte)) : Z * list (level * list byte) :=
  (len p, writeLoop (length p) LevelDebug p logged).

Definition Stderr_Write (svc : string) (now : Z) (cmpID : string) (p : list byte)
    (logged : list (level * list byte)) (queue : list streamMessage)
  : Z * list (level * list byte) * list streamMessage :=
  (len p, writeLoop (length p) LevelError p logged, SendEvent svc now cmpID "AlgorithmRun" "Warning" [] queue).

(** ** The log handler: [internal/logger/protohandler.go] *)

Record handler := mkHandler { lh_level : Z; lh_cmpID : string }.

Definition Enabled (h : handler) (l : Z) : bool := lh_level h <=? l.

(** [WithGroup] changes the handler it is called on. *)
Definition WithGroup (name : string) (h : handler) : handler := mkHandler (lh_level h) name.

(** The message number [i] of the loop. *)
Definition chunkSize : Z := 500.
Definition chunkAt (message : string) (i : Z) : string :=
  let start := i * chunkSize in
  let stop := start + chunkSize in
  let stop := if slen message <? stop then slen message else stop in
  ofCodes (take (Z.to_nat (stop - start)) (drop (Z.to_nat start) (codes message))).
Definition numChunks (message : string) : Z := Z.quot (slen message + chunkSize - 1) chunkSize.

(** What the writer and the encoder answer: [lw_marshal] is [protojson.Marshal] and the
    writer is asked with what it has got before. *)
Record logWriter := mkLogWriter {
  lw_marshal : streamMessage -> result error (list byte);
  lw_write : list (list byte) -> list byte -> option error }.

Record logOut := mkLogOut { lo_queue : list streamMessage; lo_written : list (list byte) }.

Definition writeTo (w : logWriter) (b : list byte) (o : logOut) : option error * logOut :=
  match lw_write w (lo_written o) b with
  | Some e => (Some e, o)
  | None => (None, mkLogOut (lo_queue o) (lo_written o ++ [b]))
  end.

Definition handleChunk (w : logWriter) (m : streamMessage) (o : logOut) : option error * logOut :=
  let o := mkLogOut (lo_queue o ++ [m]) (lo_written o) in
  match lw_marshal w m with
  | Err e => (Some e, o)
  | Ok b => match writeTo w b o with
            | (Some e, o) => (Some e, o)
            | (None, o) => writeTo w [x0a] o
            end
  end.

Fixpoint handleLoop (w : logWriter) (ms : list streamMessage) (o : logOut) : option error * logOut :=
  match ms with
  | [] => (None, o)
  | m :: ms => match handleChunk w m o with
               | (Some e, o) => (Some e, o)
               | (None, o) => handleLoop w ms o
               end
  end.

Definition Handle (w : logWriter) (h : handler) (time : Z) (lvl message : string) (o : logOut)
  : option error * logOut :=
  handleLoop w (map (fun i => MsgLog time (chunkAt message (Z.of_nat i)) lvl (lh_cmpID h))
                  (seq 0 (Z.to_nat (numChunks message)))) o.

(** ** The client of the log service: [pkg/clients/grpc/log/client.go] *)

Definition backoff (attempt : nat) : Z :=
  let b := 100 * 2 ^ Z.of_nat attempt in if 2000 <? b then 2000 else b.

(** The attempts of [SendLog] and of [SendEvent], which are the same code: [call k] is the
    answer to call [k].  The result, the calls made and the milliseconds slept. *)
Fixpoint sendLoop (call : nat -> option error) (left attempt : nat) (slept : Z) : option error * nat * Z :=
  match left with
  | O => (call attempt, S attempt, slept)
  | S l => match call attempt with
           | None => (None, S attempt, slept)
           | Some _ => sendLoop call l (S attempt) (if (0 <? l)%nat then slept + backoff attempt else slept)
           end
  end.
Definition maxRetries : nat := 10.
Definition SendWithRetries (call : nat -> option error) : option error * nat * Z := sendLoop call maxRetries 0 0.
(** [SendLog] and [SendEvent]: an entry without a time gets the present one. *)
Definition clientSendLog (now : Z) (timestamp : option Z) (sendLog : Z -> nat -> option error) : option error * nat * Z :=
  SendWithRetries (sendLog (default now timestamp)).
Definition clientSendEvent (now : Z) (timestamp : option Z) (sendEvent : Z -> nat -> option error)
  : option error * nat * Z := SendWithRetries (sendEvent (default now timestamp)).

(** ** The log service: [agent/log/service] *)

Inductive logRequest :=
| LogEntry (message computationId level : string) (timestamp : Z)
| EventEntry (eventType : string) (timestamp : Z) (computationId : string) (details : list byte)
    (originator status : string).

Definition forward (r : logRequest) (queue : list streamMessage) : list streamMessage :=
  match r with
  | LogEntry m c l t => queue ++ [MsgLog t m l c]
  | EventEntry e t c d o s => queue ++ [MsgEvent t e c o s d]
  end.

(** ** The output of an algorithm *)

Lemma writeLoop_chunks fuel lvl p logged :
  writeLoop fuel lvl p logged = logged ++ map (pair lvl) (chunksOf bufSize fuel p).
Proof.
  revert p logged; induction fuel as [|f IH]; intros p logged; cbn [writeLoop chunksOf]; [by rewrite app_nil_r|].
  destruct p; [by rewrite app_nil_r|]. rewrite IH. cbn [map]. by rewrite <- app_assoc.
Qed.

Lemma chunksOf_bound {A} k fuel (l : list A) : Forall (fun c => (length c <= k)%nat) (chunksOf k fuel l).
Proof.
  revert l; induction fuel as [|f IH]; intros l; cbn; [done|]. destruct l; [done|]. constructor; [|done].
  rewrite length_take. lia.
Qed.

(** Nothing an algorithm prints is lost or reordered: a write logs all of its bytes in
    order, in records of at most 1024 bytes, and reports all of them written. *)
Theorem output_logged (svc : string) (now : Z) (cmpID : string) (p : list byte) (logged : list (level * list byte))
    (queue : list streamMessage) :
  let '(n, out) := Stdout_Write p logged in
  let '(m, err, q) := Stderr_Write svc now cmpID p logged queue in
  exists cs, n = len p /\ m = len p
    /\ out = logged ++ map (pair LevelDebug) cs /\ err = logged ++ map (pair LevelError) cs
    /\ q = queue ++ [MsgEvent now "AlgorithmRun" cmpID svc "Warning" []]
    /\ concat cs = p /\ Forall (fun c => (length c <= 1024)%nat) cs.
Proof.
  unfold Stdout_Write, Stderr_Write. rewrite !writeLoop_chunks. exists (chunks bufSize p).
  split_and!; [done..| |apply chunksOf_bound]. apply chunks_concat. unfold bufSize. lia.
Qed.

(** ** The log handler *)

Lemma chunkAt_codes message i : 0 <= i ->
  codes (chunkAt message i) = take 500 (drop (Z.to_nat (i * 500)) (codes message)).
Proof.
  intros Hi. unfold chunkAt, chunkSize. rewrite codes_ofCodes by (apply Forall_take, Forall_drop, codes_range).
  rewrite slen_codes. unfold len. set (l := drop _ (codes message)).
  assert (length l = length (codes message) - Z.to_nat (i * 500))%nat as Hl by by unfold l; rewrite length_drop.
  case_goal; [|by replace (Z.to_nat (i * 500 + 500 - i * 500)) with 500%nat by lia].
  rewrite Z.ltb_lt in *. rewrite !take_ge by lia. done.
Qed.

Lemma numChunks_nat message : Z.to_nat (numChunks message) = ((length (codes message) + 499) / 500)%nat.
Proof.
  unfold numChunks, chunkSize. rewrite slen_codes. unfold len. rewrite Z.quot_div_nonneg by lia.
  rewrite <- (Nat2Z.id ((length (codes message) + 499) / 500)). f_equal. rewrite Nat2Z.inj_div. f_equal. lia.
Qed.

Lemma concat_windows {A} k n s (l : list A) :
  concat (map (fun i => take k (drop (i * k) l)) (seq s n)) = take (n * k) (drop (s * k) l).
Proof.
  revert s; induction n as [|n IH]; intros s; [done|]. cbn [seq map concat]. rewrite IH.
  replace (S n * k)%nat with (k + n * k)%nat by lia. replace (S s * k)%nat with (s * k + k)%nat by lia.
  by rewrite <- drop_drop, take_take_drop.
Qed.

(** The pieces a message is cut into. *)
Definition pieces (message : string) : list string :=
  map (fun i => chunkAt message (Z.of_nat i)) (seq 0 (Z.to_nat (numChunks message))).

Lemma message_pieces_concat message : concat (map codes (pieces message)) = codes message.
Proof.
  unfold pieces. rewrite map_map.
  rewrite (map_ext _ (fun i => take 500 (drop (i * 500) (codes message)))).
  - rewrite concat_windows, drop_0, numChunks_nat. apply take_ge.
    pose proof (Nat.div_mod_eq (length (codes message) + 499) 500).
    pose proof (Nat.mod_upper_bound (length (codes message) + 499) 500). lia.
  - intros i. rewrite chunkAt_codes by lia. do 2 f_equal. lia.
Qed.

Lemma pieces_bound message : Forall (fun c => slen c <= 500) (pieces message).
Proof.
  apply Forall_forall. intros c (i & -> & _)%list_elem_of_fmap. rewrite slen_codes, chunkAt_codes by lia.
  unfold len. rewrite length_take. lia.
Qed.

Lemma handleLoop_queue w ms o r o' : handleLoop w ms o = (r, o') ->
  exists sent rest, ms = sent ++ rest /\ lo_queue o' = lo_queue o ++ sent /\ (r = None -> rest = []).
Proof.
  revert o; induction ms as [|m ms IH]; intros o; cbn [handleLoop].
  { intros [= <- <-]. exists [], []. by rewrite !app_nil_r. }
  destruct (handleChunk w m o) as [e o1] eqn:E.
  assert (lo_queue o1 = lo_queue o ++ [m]) as Hq.
  { revert E. unfold handleChunk, writeTo. destruct (lw_marshal w m) as [b|]; [|by intros [= <- <-]].
    cbn [lo_queue lo_written]. destruct (lw_write w (lo_written o) b); [by intros [= <- <-]|]. cbn [lo_queue lo_written].
    destruct (lw_write w (lo_written o ++ [b]) [x0a]); by intros [= <- <-]. }
  destruct e as [e|].
  - intros [= <- <-]. exists [m], ms. by split_and!.
  - intros (sent & rest & -> & Hq' & Hr)%IH. exists (m :: sent), rest. split_and!; [done| |done].
    by rewrite Hq', Hq, <- app_assoc.
Qed.

(** A log message reaches the queue to the manager whole and in order.  When [Handle]
    succeeds, what it has queued are pieces of at most 500 bytes that together are the
    message, each with the time, the level and the computation of the record; when it
    fails, it has queued the first of them. *)
Theorem handle_queues (w : logWriter) (h : handler) (time : Z) (lvl message : string) (o o' : logOut) (r : option error) :
  Handle w h time lvl message o = (r, o') ->
  concat (map codes (pieces message)) = codes message /\ Forall (fun c => slen c <= 500) (pieces message)
  /\ exists sent rest, pieces message = sent ++ rest /\ (r = None -> rest = [])
     /\ lo_queue o' = lo_queue o ++ map (fun c => MsgLog time c lvl (lh_cmpID h)) sent.
Proof.
  unfold Handle. intros (sent & rest & E & Hq & Hr)%handleLoop_queue.
  split; [apply message_pieces_concat|]. split; [apply pieces_bound|].
  rewrite <- (map_map (fun i => chunkAt message (Z.of_nat i)) (fun c => MsgLog time c lvl (lh_cmpID h))) in E.
  fold (pieces message) in E. apply map_eq_app in E as (s1 & s2 & -> & <- & <-).
  exists s1, s2. split_and!; [done| |done]. intros ->. by destruct s2; [|specialize (Hr eq_refl)].
Qed.

(** A piece need not be text.  A message that is valid UTF-8 is cut at byte 500, also
    inside a character, and then no piece around the cut is valid UTF-8, as a string of a
    protocol buffer has to be. *)
Theorem cut_inside_character :
  exists message, ValidString message = true /\ forallb (fun c => negb (ValidString c)) (pieces message) = true
    /\ length (pieces message) = 2%nat.
Proof. exists (ofCodes (replicate 499 97 ++ [195; 169])). vm_compute. by split_and!. Qed.

(** ** Retries *)

Lemma sendLoop_spec call l a t :
  let '(r, n, s) := sendLoop call l a t in
  (r = None <-> exists k, (a <= k <= a + l)%nat /\ call k = None)
  /\ (a < n <= a + l + 1)%nat /\ (forall k, (a <= k < n - 1)%nat -> call k <> None)
  /\ (r = None -> call (n - 1)%nat = None).
Proof.
  revert a t; induction l as [|l IH]; intros a t; cbn [sendLoop].
  - split_and!; [|lia|lia|intros k; lia|by replace (S a - 1)%nat with a by lia].
    split; [intros E; exists a; split; [lia|done]|]. intros (k & Hk & E). by replace a with k by lia.
  - destruct (call a) as [e|] eqn:E.
    + specialize (IH (S a) (if (0 <? l)%nat then t + backoff a else t)).
      destruct (sendLoop call l (S a) _) as [[r n] s]. destruct IH as (H1 & H2 & H3 & H4). split_and!; [|lia|lia| |done].
      * rewrite H1. split; intros (k & Hk & Ek); exists k; split; try done; [lia|].
        destruct (decide (k = a)) as [->|]; [congruence|lia].
      * intros k Hk. destruct (decide (k = a)) as [->|]; [congruence|]. apply H3. lia.
    + split_and!; [|lia|lia|intros k; lia|by replace (S a - 1)%nat with a by lia].
      split; [|done]. intros _. exists a. split; [lia|done].
Qed.

Lemma backoff_bound a : 0 <= backoff a <= 2000.
Proof. unfold backoff. case_goal; rewrite ?Z.ltb_lt, ?Z.ltb_ge in *; lia. Qed.

Definition totalBackoff (l a : nat) : Z := foldr Z.add 0 (map backoff (seq a (l - 1))).

Lemma sendLoop_slept call l a t : snd (sendLoop call l a t) <= t + totalBackoff l a.
Proof.
  assert (forall n b, 0 <= foldr Z.add 0 (map backoff (seq b n))) as Hpos.
  { intros n; induction n as [|n IH]; intros b; cbn; [done|]. pose proof (backoff_bound b). specialize (IH (S b)). lia. }
  revert a t; induction l as [|l IH]; intros a t; cbn [sendLoop]; [unfold totalBackoff; cbn; lia|].
  unfold totalBackoff. destruct (call a); cbn [snd]; [|pose proof (Hpos (S l - 1)%nat a); lia].
  etrans; [apply IH|]. unfold totalBackoff. destruct l as [|l]; [cbn; lia|].
  replace (S (S l) - 1)%nat with (S l) by lia. replace (S l - 1)%nat with l by lia. cbn. lia.
Qed.

(** An entry is delivered when one of eleven calls succeeds, the calls stop at the first
    success, and at most 11.1 seconds are spent sleeping. *)
Theorem send_retries (call : nat -> option error) :
  let '(r, n, slept) := SendWithRetries call in
  (r = None <-> exists k, (k <= 10)%nat /\ call k = None)
  /\ (1 <= n <= 11)%nat /\ (forall k, (k < n - 1)%nat -> call k <> None) /\ slept <= 11100.
Proof.
  unfold SendWithRetries. pose proof (sendLoop_spec call maxRetries 0 0) as Hs.
  pose proof (sendLoop_slept call maxRetries 0 0) as Ht.
  destruct (sendLoop call maxRetries 0 0) as [[r n] s]. cbn [snd] in Ht. destruct Hs as (H1 & H2 & H3 & _).
  change (totalBackoff maxRetries 0) with 11100 in Ht. unfold maxRetries in *. split_and!; [|lia|lia| |lia].
  - rewrite H1. split; intros (k & Hk & E); exists k; (split; [lia|done]).
  - intros k Hk. apply H3. lia.
Qed.

(** ** Samples *)

Module LogsSample.
Definition writer : logWriter := mkLogWriter (fun _ => Ok []) (fun _ _ => None).
Definition hello : string := "hello".

Lemma handle_queues_witness :
  concat (map codes (pieces hello)) = codes hello /\ Forall (fun c => slen c <= 500) (pieces hello)
  /\ exists sent rest, pieces hello = sent ++ rest /\ (None = @None error -> rest = [])
     /\ [MsgLog 5 hello "INFO" "cmp"] = [] ++ map (fun c => MsgLog 5 c "INFO" (lh_cmpID (mkHandler 0 "cmp"))) sent.
Proof.
  apply (handle_queues writer (mkHandler 0 "cmp") 5 "INFO" hello (mkLogOut [] [])
           (mkLogOut [MsgLog 5 hello "INFO" "cmp"] [[]; [x0a]]) None).
  by vm_compute.
Defined.
End LogsSample.
