(* ===== verification/Runner.v ===== *)
(** * The computation runner: [agent/runner/service] and the algorithms it runs

    [Run] writes the algorithm to a file, makes the object for its type and runs it; [Stop]
    stops the one that is running.  The first half is the body of [Run] as effects on files
    and processes, with the answers of the system from the class [OS] and those of waiting
    for a process and of temporary names from [Exec].  The second half is the concurrency
    around it: calls of [Run] and [Stop] as a step relation over the critical sections of
    the source.  An error formatted with its cause as text is the text before the cause. *)

From stdpp Require Import base list strings relations.
From Stdlib Require Import ZArith Lia Strings.Byte.
From S2P Require Import Prelude GoStrings Errors GoPath GoOS.

(** ** The algorithms *)

Inductive Algorithm :=
| Binary (algoFile : string) (args : list string)
| Python (runtime requirementsFile algoFile : string) (args : list string) (cmpID : string)
| Wasm (algoFile : string) (args : list string)
| Docker.

Definition PyRuntime : string := "python3".
(** [python.NewAlgorithm]. *)
Definition newPython (runtime requirementsFile algoFile : string) (args : list string) (cmpID : string) : Algorithm :=
  Python (if bool_decide (runtime = "") then PyRuntime else runtime) requirementsFile algoFile args cmpID.

Definition wasmRuntime : string := "wasmedge".
Definition mapDirOption : list string := ["--dir"; ".:results"].
Definition ErrDockerAlgorithmDisabled : error := ErrNew "docker algorithm execution is disabled".

(** [cmd.Wait] of a started command, and the name [os.CreateTemp] gives. *)
Class Exec := {
  os_wait : list act -> list string -> option error;
  os_temp : list act -> string -> result error string }.

Section run.
Context `{OS, Exec}.

Definition failing (msg : string) (m : st (list act) (option error)) : st (list act) (option error) :=
  fun h => let '(o, h') := m h in ((fun _ => ErrNew msg) <$> o, h').

(** [cmd.Start] and [cmd.Wait]. *)
Definition startCmd (argv : list string) : st (list act) (option error) := perform (AExec "" argv).
Definition waitCmd (argv : list string) : st (list act) (option error) := fun h => (os_wait h argv, h).

(** Two calls, the second only if the first gave no error. *)
Definition andThen (m k : st (list act) (option error)) : st (list act) (option error) :=
  fun h => match m h with (None, h') => k h' | (Some e, h') => (Some e, h') end.

Definition startAndWait (argv : list string) : st (list act) (option error) :=
  andThen (failing "error starting algorithm" (startCmd argv)) (failing "algorithm execution error" (waitCmd argv)).
(** [cmd.Run]. *)
Definition runCmd (argv : list string) : st (list act) (option error) := andThen (startCmd argv) (waitCmd argv).

Definition venvPath : string := "venv".
Definition pythonPath : string := Join [venvPath; "bin"; "python"].

Definition pythonBody (runtime requirementsFile algoFile : string) (args : list string) : st (list act) (option error) :=
  andThen (failing "error creating virtual environment" (runCmd [runtime; "-m"; "venv"; venvPath]))
  (andThen (failing "error updating pip, setuptools and wheel"
              (runCmd [pythonPath; "-m"; "pip"; "install"; "--upgrade"; "pip"; "setuptools"; "wheel"]))
  (andThen (if bool_decide (requirementsFile = "") then lift None
            else failing "error installing requirements" (runCmd [pythonPath; "-m"; "pip"; "install"; "-r"; requirementsFile]))
     (startAndWait (pythonPath :: algoFile :: args)))).

(** The deferred removal; an error is written to the algorithm's error output, which sends
    an event. *)
Definition removeVenv (cmpID : string) (h : list act) : list act :=
  match perform (ARemoveAll venvPath) h with
  | (None, h') => h'
  | (Some _, h') => snd (perform (AEvent cmpID "AlgorithmRun" "Warning") h')
  end.

(** [Run] of each algorithm. *)
Definition binaryRun (algoFile : string) (args : list string) : st (list act) (option error) :=
  startAndWait (algoFile :: args).
Definition pythonRun (runtime requirementsFile algoFile : string) (args : list string) (cmpID : string)
  : st (list act) (option error) :=
  fun h => let '(r, h') := pythonBody runtime requirementsFile algoFile args h in (r, removeVenv cmpID h').
Definition wasmRun (algoFile : string) (args : list string) : st (list act) (option error) :=
  startAndWait (wasmRuntime :: mapDirOption ++ algoFile :: args).
Definition dockerRun : st (list act) (option error) := lift (Some ErrDockerAlgorithmDisabled).

Definition algoRun (a : Algorithm) : st (list act) (option error) :=
  match a with
  | Binary algoFile args => binaryRun algoFile args
  | Python runtime requirementsFile algoFile args cmpID => pythonRun runtime requirementsFile algoFile args cmpID
  | Wasm algoFile args => wasmRun algoFile args
  | Docker => dockerRun
  end.

(** [Stop] of the three algorithms that have a process, the same code in each: [cmd] is the
    command, if [Run] has made it, and in it the process, if it was started.  A process
    that is done already is no error. *)
Definition ErrProcessDone : string := "os.ErrProcessDone".
Definition processStop (cmd : option (option Z)) : st (list act) (option error) :=
  match cmd with
  | None | Some None => lift None
  | Some (Some pid) =>
      fun h => match perform (AKill pid) h with
               | (Some e, h') => (if errorsIs e ErrProcessDone then None else Some (ErrNew "error stopping algorithm"), h')
               | (None, h') => (None, h')
               end
  end.
Definition binaryStop : option (option Z) -> st (list act) (option error) := processStop.
Definition pythonStop : option (option Z) -> st (list act) (option error) := processStop.
Definition wasmStop : option (option Z) -> st (list act) (option error) := processStop.
Definition dockerStop : st (list act) (option error) := lift None.

Definition algoStop (a : Algorithm) (cmd : option (option Z)) : st (list act) (option error) :=
  match a with
  | Binary _ _ => binaryStop cmd
  | Python _ _ _ _ _ => pythonStop cmd
  | Wasm _ _ => wasmStop cmd
  | Docker => dockerStop
  end.

(** ** [Run] *)

Record RunRequest := mkRunRequest {
  rr_ComputationId : string; rr_Algorithm : list byte; rr_AlgoType : string; rr_Args : list string;
  rr_Requirements : list byte }.
Record RunResponse := mkRunResponse { rp_ComputationId : string; rp_Error : option error }.

Definition algoFilePermission : Z := 448.
Definition createMode : Z := 438.

(** A file that is created, written and closed; [chmod] in between for the algorithm. *)
Definition writeAlgo (algoPath : string) (data : list byte) : st (list act) (option error) :=
  andThen (failing "error creating algorithm file" (perform (AOpenTrunc algoPath createMode)))
  (andThen (failing "error writing algorithm to file" (perform (AWrite algoPath data)))
  (andThen (failing "error changing file permissions" (perform (AChmod algoPath algoFilePermission)))
     (failing "error closing file" (perform (AClose algoPath))))).

Definition answer (req : RunRequest) (o : option error) : result error RunResponse :=
  Ok (mkRunResponse (rr_ComputationId req) o).

(** A removal that is deferred until [m] has returned; its error is logged. *)
Definition deferRemove {A} (path : string) (m : st (list act) A) : st (list act) A :=
  fun h => let '(r, h') := m h in (r, snd (perform (ARemove path) h')).

Definition finishRun (req : RunRequest) (a : Algorithm) : st (list act) (result error RunResponse) :=
  fun h => let '(o, h') := algoRun a h in (answer req o, h').

(** The python case: the requirements are a temporary file of their own. *)
Definition runPython (req : RunRequest) (algoPath : string) : st (list act) (result error RunResponse) :=
  let run requirementsFile :=
    finishRun req (newPython PyRuntime requirementsFile algoPath (rr_Args req) (rr_ComputationId req)) in
  if 0 <? len (rr_Requirements req) then
    fun h => match os_temp h "requirements.txt" with
             | Err _ => (Err (ErrNew "error creating requirments file"), h)
             | Ok name =>
                 deferRemove name
                   (guard! failing "error writing requirements to file" (perform (AWrite name (rr_Requirements req))) in
                    guard! failing "error closing file" (perform (AClose name)) in
                    run name) h
             end
  else run "".

Definition runAlgorithm (req : RunRequest) (algoPath : string) : st (list act) (result error RunResponse) :=
  if bool_decide (rr_AlgoType req = "bin") then finishRun req (Binary algoPath (rr_Args req))
  else if bool_decide (rr_AlgoType req = "python") then runPython req algoPath
  else if bool_decide (rr_AlgoType req = "wasm") then finishRun req (Wasm algoPath (rr_Args req))
  else if bool_decide (rr_AlgoType req = "docker") then finishRun req Docker
  else lift (Err (ErrNew ("unsupported algorithm type: " +:+ rr_AlgoType req))).

(** The body of [Run] between the check and the deferred reset of the current algorithm. *)
Definition runBody (req : RunRequest) : st (list act) (result error RunResponse) :=
  fun h => match os_getwd h with
           | Err _ => (Err (ErrNew "error getting current directory"), h)
           | Ok currentDir =>
               let algoPath := Join [currentDir; "algo"] in
               (guard! writeAlgo algoPath (rr_Algorithm req) in
                deferRemove algoPath (runAlgorithm req algoPath)) h
           end.

End run.

(** ** The calls of [Run] and [Stop] *)

(** Where a call of [Run] is: before its check, between the check and the assignment of
    the current algorithm, while the algorithm runs, on its way to the deferred reset
    (after a run or after a failed preparation), and at its end. *)
Inductive phase := Calling | Preparing | Running | Leaving (ran : bool) | Refused | Returned.
#[export] Instance phase_dec : EqDecision phase.
Proof. solve_decision. Defined.

(** The service: the phase of every call by its number, the current algorithm by the
    number of its call, and the algorithms that were told to stop. *)
Record service := mkService { sv_calls : list phase; sv_current : option nat; sv_stopped : list nat }.

Definition setPhase (i : nat) (p : phase) (s : service) : service :=
  mkService (<[i := p]> (sv_calls s)) (sv_current s) (sv_stopped s).
Definition setCurrent (c : option nat) (s : service) : service := mkService (sv_calls s) c (sv_stopped s).

Inductive step : service -> service -> Prop :=
| StepCall s : step s (mkService (sv_calls s ++ [Calling]) (sv_current s) (sv_stopped s))
| StepRefuse s i c : sv_calls s !! i = Some Calling -> sv_current s = Some c -> step s (setPhase i Refused s)
| StepPass s i : sv_calls s !! i = Some Calling -> sv_current s = None -> step s (setPhase i Preparing s)
| StepFail s i : sv_calls s !! i = Some Preparing -> step s (setPhase i (Leaving false) s)
| StepAssign s i : sv_calls s !! i = Some Preparing -> step s (setCurrent (Some i) (setPhase i Running s))
| StepDone s i : sv_calls s !! i = Some Running -> step s (setPhase i (Leaving true) s)
| StepReset s i ran : sv_calls s !! i = Some (Leaving ran) -> step s (setCurrent None (setPhase i Returned s))
| StepStop s c : sv_current s = Some c -> step s (mkService (sv_calls s) (sv_current s) (c :: sv_stopped s))
| StepStopIdle s : sv_current s = None -> step s s.

Definition idle : service := mkService [] None [].

(** ** The files of a run *)

Section files.
Context `{OS, Exec}.

Lemma failing_eff msg m h : snd (failing msg m h) = snd (m h).
Proof. unfold failing. by destruct (m h). Qed.

Lemma emits_failing P msg m : emits P m -> emits P (failing msg m).
Proof. intros Hm h. rewrite failing_eff. apply Hm. Qed.

Lemma emits_andThen P m k : emits P m -> emits P k -> emits P (andThen m k).
Proof.
  intros Hm Hk h. unfold andThen. destruct (Hm h) as (t & Et & Ft). destruct (m h) as [[e|] h']; cbn in Et; subst h'.
  - by exists t.
  - destruct (Hk (h ++ t)) as (t' & Et' & Ft'). exists (t ++ t'). rewrite Et', app_assoc. split; [done|]. by apply Forall_app.
Qed.

Lemma emits_waitCmd P argv : emits P (waitCmd argv).
Proof. by apply emits_quiet. Qed.

Lemma emits_startAndWait P argv : P (AExec "" argv) -> emits P (startAndWait argv).
Proof.
  intros Hp. apply emits_andThen; apply emits_failing; [by apply emits_perform|apply emits_waitCmd].
Qed.

Lemma emits_runCmd P argv : P (AExec "" argv) -> emits P (runCmd argv).
Proof. intros Hp. apply emits_andThen; [by apply emits_perform|apply emits_waitCmd]. Qed.

Lemma emits_deferRemove {A} P path (m : st (list act) A) :
  P (ARemove path) -> emits P m -> emits P (deferRemove path m).
Proof.
  intros Hp Hm h. unfold deferRemove. destruct (Hm h) as (t & Et & Ft). destruct (m h) as [r h']; cbn in *. subst h'.
  exists (t ++ [ARemove path]). rewrite app_assoc. split; [done|]. apply Forall_app. by repeat constructor.
Qed.

(** A run that got its algorithm onto the disk removes it at the end, as its last
    effect, whatever becomes of the algorithm: it fails, its type is unknown, or its
    requirements can not be stored. *)
Theorem algo_file_removed (req : RunRequest) (h h1 : list act) (cwd : string) :
  os_getwd h = Ok cwd -> writeAlgo (Join [cwd; "algo"]) (rr_Algorithm req) h = (None, h1) ->
  last (snd (runBody req h)) = Some (ARemove (Join [cwd; "algo"])).
Proof.
  intros Hw Ha. unfold runBody. rewrite Hw. unfold bindNil. rewrite Ha. unfold deferRemove.
  destruct (runAlgorithm req _ h1) as [r h2]. apply last_snoc.
Qed.

(** A run that fails to write its algorithm, or to change the permissions, leaves the
    file it has created behind. *)
Theorem algo_file_left (req : RunRequest) (h h1 : list act) (cwd : string) (e : error) :
  os_getwd h = Ok cwd -> writeAlgo (Join [cwd; "algo"]) (rr_Algorithm req) h = (Some e, h1) ->
  runBody req h = (Err e, h1)
  /\ exists t, h1 = h ++ AOpenTrunc (Join [cwd; "algo"]) createMode :: t /\ Forall (fun a => a <> ARemove (Join [cwd; "algo"])) t.
Proof.
  intros Hw Ha. split; [unfold runBody; rewrite Hw; unfold bindNil; by rewrite Ha|].
  set (p := Join [cwd; "algo"]) in *. revert Ha. unfold writeAlgo. unfold andThen at 1.
  unfold failing at 1, perform at 1. destruct (os_act h (AOpenTrunc p createMode)); cbn [fmap option_fmap option_map].
  { intros [= <- <-]. by exists []. }
  match goal with |- ?m _ = _ -> _ => assert (emits (fun a => a <> ARemove p) m) as He end.
  { repeat apply emits_andThen; apply emits_failing, emits_perform; done. }
  intros E. destruct (He (h ++ [AOpenTrunc p createMode])) as (t & Et & Ft). rewrite E in Et. cbn in Et.
  exists t. by rewrite Et, <- app_assoc.
Qed.

(** ** What a run may do *)

Definition isAlgo (p : string) : Prop := exists h d, os_getwd h = Ok d /\ p = Join [d; "algo"].
Definition isTemp (p : string) : Prop := exists h, os_temp h "requirements.txt" = Ok p.

Definition runAct (req : RunRequest) (a : act) : Prop :=
  match a with
  | AOpenTrunc p m => isAlgo p /\ m = createMode
  | AChmod p m => isAlgo p /\ m = algoFilePermission
  | AWrite p d => isAlgo p /\ d = rr_Algorithm req \/ isTemp p /\ d = rr_Requirements req
  | AClose p | ARemove p => isAlgo p \/ isTemp p
  | ARemoveAll p => p = venvPath /\ rr_AlgoType req = "python"
  | AExec dir argv => dir = "" /\
      ((rr_AlgoType req = "bin" /\ exists p, isAlgo p /\ argv = p :: rr_Args req)
       \/ (rr_AlgoType req = "wasm" /\ exists p, isAlgo p /\ argv = wasmRuntime :: mapDirOption ++ p :: rr_Args req)
       \/ (rr_AlgoType req = "python" /\ exists t, argv = PyRuntime :: t \/ argv = pythonPath :: t))
  | AEvent id ev status => id = rr_ComputationId req /\ ev = "AlgorithmRun" /\ status = "Warning"
  | _ => False
  end.

Lemma emits_finishRun P req a : emits P (algoRun a) -> emits P (finishRun req a).
Proof.
  intros Ha h. unfold finishRun. destruct (Ha h) as (t & Et & Ft). destruct (algoRun a h) as [o h']. by exists t.
Qed.

Lemma emits_python req reqs p :
  rr_AlgoType req = "python" -> isAlgo p ->
  emits (runAct req) (algoRun (newPython PyRuntime reqs p (rr_Args req) (rr_ComputationId req))).
Proof.
  intros Ht Hp h. cbn [algoRun newPython]. unfold pythonRun. change (if bool_decide (PyRuntime = "") then PyRuntime else PyRuntime) with PyRuntime.
  assert (emits (runAct req) (pythonBody PyRuntime reqs p (rr_Args req))) as Hb.
  { unfold pythonBody. apply emits_andThen; [|apply emits_andThen; [|apply emits_andThen]].
    - apply emits_failing, emits_runCmd. cbn. split; [done|]. right. right. eauto.
    - apply emits_failing, emits_runCmd. cbn. split; [done|]. right. right. eauto.
    - case_goal; [apply emits_lift|]. apply emits_failing, emits_runCmd. cbn. split; [done|]. right. right. eauto.
    - apply emits_startAndWait. cbn. split; [done|]. right. right. eauto. }
  destruct (Hb h) as (t & Et & Ft). destruct (pythonBody PyRuntime reqs p (rr_Args req) h) as [r h']. cbn in *. subst h'.
  unfold removeVenv, perform. destruct (os_act _ _); cbn [snd].
  - exists (t ++ [ARemoveAll venvPath; AEvent (rr_ComputationId req) "AlgorithmRun" "Warning"]).
    rewrite <- !app_assoc. split; [done|]. apply Forall_app. split; [done|]. by repeat constructor.
  - exists (t ++ [ARemoveAll venvPath]). rewrite <- !app_assoc. split; [done|]. apply Forall_app. by repeat constructor.
Qed.

Lemma emits_runAlgorithm req p : isAlgo p -> emits (runAct req) (runAlgorithm req p).
Proof.
  intros Hp. unfold runAlgorithm. case_bool_decide as E1; [|case_bool_decide as E2; [|case_bool_decide as E3; [|case_bool_decide as E4]]].
  - apply emits_finishRun, emits_startAndWait. cbn. split; [done|]. left. eauto.
  - unfold runPython. cbv zeta. case_goal; [|by apply emits_finishRun, emits_python]. intros h.
    destruct (os_temp h "requirements.txt") as [name|] eqn:En; [|by exists []; rewrite app_nil_r].
    assert (isTemp name) as Hn by by exists h. apply emits_deferRemove; [by right|].
    apply emits_bindNil; [apply emits_failing, emits_perform; by right|].
    apply emits_bindNil; [apply emits_failing, emits_perform; by right|]. by apply emits_finishRun, emits_python.
  - apply emits_finishRun, emits_startAndWait. cbn [runAct]. split; [done|]. right. left. eauto.
  - apply emits_finishRun, emits_lift.
  - apply emits_lift.
Qed.

(** A run touches nothing but the algorithm's file, the temporary file of the
    requirements and the virtual environment, and starts nothing but the algorithm itself,
    the WebAssembly runtime or a python, each only for an algorithm of its type; so for
    docker and for an unknown type nothing is started at all. *)
Theorem run_contained (req : RunRequest) : emits (runAct req) (runBody req).
Proof.
  intros h. unfold runBody. destruct (os_getwd h) as [d|] eqn:E; [|by exists []; rewrite app_nil_r].
  cbv zeta. assert (isAlgo (Join [d; "algo"])) as Hp by by exists h, d.
  apply emits_bindNil; [|by apply emits_deferRemove; [left|apply emits_runAlgorithm]].
  unfold writeAlgo. repeat apply emits_andThen; apply emits_failing, emits_perform; cbn; auto.
Qed.

End files.

(** ** Calls that overlap *)

Definition active (p : phase) : bool := match p with Preparing | Running | Leaving _ => true | _ => false end.
(** It has made its algorithm the current one. *)
Definition holds (p : phase) : bool := match p with Running | Leaving true => true | _ => false end.

(** No call is between its check and its assignment, or leaving without one. *)
Definition quiet (s : service) : Prop :=
  forall i p, sv_calls s !! i = Some p -> p <> Preparing /\ p <> Leaving false.

(** A step in which no call passes its check unless it is quiet. *)
Definition calm (s s' : service) : Prop :=
  step s s' /\ (forall i, sv_calls s !! i = Some Calling -> sv_calls s' !! i = Some Preparing -> quiet s).

Definition exclusive (s : service) : Prop :=
  (forall i j p q, sv_calls s !! i = Some p -> active p = true -> sv_calls s !! j = Some q -> active q = true -> i = j)
  /\ (forall i, sv_current s = Some i <-> exists p, sv_calls s !! i = Some p /\ holds p = true).

Lemma holds_active p : holds p = true -> active p = true.
Proof. by destruct p as [| | |[]| |]. Qed.

(** A call that is the active one, and moves on. *)
Lemma exclusive_move s i p p' c :
  exclusive s -> sv_calls s !! i = Some p -> active p = true ->
  (c = if holds p' then Some i else None) ->
  exclusive (mkService (<[i := p']> (sv_calls s)) c (sv_stopped s)).
Proof.
  intros [Hu Hc] Hi Ha ->. assert (i < length (sv_calls s))%nat as Hl by by eapply lookup_lt_Some.
  assert (forall j q, <[i := p']> (sv_calls s) !! j = Some q -> active q = true -> j = i) as Hone.
  { intros j q Hj Hq. destruct (decide (j = i)) as [->|Hne]; [done|].
    rewrite list_lookup_insert_ne in Hj by done. by eapply Hu. }
  split; cbn [sv_calls sv_current].
  - intros j k q q' Hj Hq Hk Hq'. transitivity i; [by eapply Hone|]. symmetry. by eapply Hone.
  - intros j. split.
    + destruct (holds p') eqn:E; [|done]. intros [= <-]. exists p'. by rewrite list_lookup_insert_eq.
    + intros (q & Hj & Hq). assert (j = i) as -> by by eapply Hone; [|apply holds_active].
      rewrite list_lookup_insert_eq in Hj by done. injection Hj as ->. by rewrite Hq.
Qed.

(** A call that is not active and does not become so. *)
Lemma exclusive_still s i p p' :
  exclusive s -> sv_calls s !! i = Some p -> active p = false -> active p' = false ->
  exclusive (setPhase i p' s).
Proof.
  intros [Hu Hc] Hi Ha Ha'. assert (i < length (sv_calls s))%nat as Hl by by eapply lookup_lt_Some.
  assert (forall j q, active q = true -> <[i := p']> (sv_calls s) !! j = Some q <-> sv_calls s !! j = Some q) as Hsame.
  { intros j q Hq. destruct (decide (j = i)) as [->|Hne]; [|by rewrite list_lookup_insert_ne].
    rewrite list_lookup_insert_eq by done. rewrite Hi. split; intros [= ->]; congruence. }
  split; cbn [setPhase sv_calls sv_current].
  - intros j k q q' Hj Hq Hk Hq'. rewrite Hsame in Hj, Hk by done. by eapply Hu.
  - intros j. rewrite Hc. split; intros (q & Hj & Hq); exists q; rewrite Hsame in * by (by apply holds_active); done.
Qed.

Lemma exclusive_step s s' : calm s s' -> exclusive s -> exclusive s'.
Proof.
  intros [Hs Hq] Hx. pose proof Hx as [Hu Hc].
  destruct Hs as [s|s i c Hi Hcur|s i Hi Hcur|s i Hi|s i Hi|s i Hi|s i ran Hi|s c Hcur|s Hcur].
  - assert (forall j q, active q = true -> (sv_calls s ++ [Calling]) !! j = Some q <-> sv_calls s !! j = Some q) as Hsame.
    { intros j q Ha. rewrite lookup_app_Some. split; [|by left]. intros [?|[_ Hj]]; [done|].
      apply list_lookup_singleton_Some in Hj as [_ <-]. done. }
    split; cbn [sv_calls sv_current].
    + intros j k q q' Hj Hq1 Hk Hq2. rewrite Hsame in Hj, Hk by done. by eapply Hu.
    + intros j. rewrite Hc. split; intros (q & Hj & Hh); exists q; rewrite Hsame in * by (by apply holds_active); done.
  - by eapply exclusive_still.
  - assert (quiet s) as Hquiet.
    { apply (Hq i); [done|]. cbn. apply list_lookup_insert_eq. by eapply lookup_lt_Some. }
    assert (forall j q, sv_calls s !! j = Some q -> active q = false) as Hnone.
    { intros j q Hj. destruct (active q) eqn:A; [|done]. exfalso. destruct (Hquiet j q Hj) as [Hp Hl].
      destruct (holds q) eqn:Hh; [|by destruct q as [| | |[]| |]].
      assert (sv_current s = Some j) as E by (apply Hc; by exists q). congruence. }
    assert (forall j q, <[i := Preparing]> (sv_calls s) !! j = Some q -> active q = true -> j = i) as Hone.
    { intros j q Hj Ha. destruct (decide (j = i)); [done|]. rewrite list_lookup_insert_ne in Hj by done.
      by rewrite (Hnone _ _ Hj) in Ha. }
    split; cbn [setPhase sv_calls sv_current].
    + intros j k q q' Hj Ha Hk Ha'. transitivity i; [by eapply Hone|]. symmetry. by eapply Hone.
    + intros j. rewrite Hcur. split; [done|]. intros (q & Hj & Hh).
      assert (j = i) as -> by by eapply Hone; [|apply holds_active].
      rewrite list_lookup_insert_eq in Hj by by eapply lookup_lt_Some. by injection Hj as <-.
  - eapply (exclusive_move s i Preparing (Leaving false)); [done..|]. cbn.
    destruct (sv_current s) as [c|] eqn:E; [|done]. rewrite <- E in *. destruct (proj1 (Hc c) E) as (p & Hp & Hh).
    assert (c = i) as -> by (eapply Hu; [done|by apply holds_active|done|done]). rewrite Hi in Hp. by injection Hp as <-.
  - by eapply (exclusive_move s i Preparing Running).
  - eapply (exclusive_move s i Running (Leaving true)); [done..|]. cbn. apply Hc. by exists Running.
  - by eapply (exclusive_move s i (Leaving ran) Returned).
  - done.
  - done.
Qed.

Lemma exclusive_idle : exclusive idle.
Proof. split; [done|]. intros i. split; [done|]. by intros (p & ? & _). Qed.

(** As long as no call of [Run] passes its check while another one is still preparing,
    at most one algorithm runs, and it is the one that [Stop] stops; and while it is
    current every further call is refused. *)
Theorem lone_runs (s : service) (i : nat) :
  rtc calm idle s -> sv_calls s !! i = Some Running ->
  sv_current s = Some i /\ (forall j, sv_calls s !! j = Some Running -> j = i)
  /\ (forall j s', sv_calls s !! j = Some Calling -> step s s' -> sv_calls s' !! j = Some Calling \/ sv_calls s' !! j = Some Refused).
Proof.
  intros Hr Hi. assert (exclusive s) as [Hu Hc].
  { assert (forall a b, rtc calm a b -> exclusive a -> exclusive b) as Hstar.
    { induction 1 as [|a b c Hab _ IH]; [done|]. intros Ha. by eapply IH, exclusive_step. }
    by eapply Hstar, exclusive_idle. }
  assert (sv_current s = Some i) as Hcur by (apply Hc; by exists Running). split_and!; [done| |].
  - intros j Hj. by eapply Hu.
  - intros j s' Hj Hs. assert (j < length (sv_calls s))%nat as Hl by by eapply lookup_lt_Some.
    destruct Hs as [s|s k c Hk _|s k Hk Hn|s k Hk|s k Hk|s k Hk|s k ran Hk|s c Hk|s Hk]; try congruence;
      cbn [setPhase setCurrent sv_calls]; [by left; rewrite lookup_app_l|..| by left].
    1: { destruct (decide (k = j)) as [->|]; [right; by rewrite list_lookup_insert_eq|left; by rewrite list_lookup_insert_ne]. }
    all: left; rewrite list_lookup_insert_ne; [done|congruence].
Qed.


(** ** Samples *)

Module RunnerSample.

#[local] Instance working : OS := {|
  os_act := fun _ _ => None; os_stat := fun _ _ => Ok 420; os_read := fun _ p => Ok [];
  os_walk := fun _ _ => Ok []; os_glob := fun _ _ => Ok []; os_getwd := fun _ => Ok "/work" |}.
#[local] Instance processes : Exec := {| os_wait := fun _ _ => None; os_temp := fun _ _ => Ok "/tmp/requirements.txt1" |}.

Definition request : RunRequest := mkRunRequest "cmp" [x01] "python" ["-v"] [x02].
Definition written : list act :=
  [AOpenTrunc "/work/algo" createMode; AWrite "/work/algo" [x01]; AChmod "/work/algo" algoFilePermission; AClose "/work/algo"].

Lemma algo_file_removed_witness : last (snd (runBody request [])) = Some (ARemove (Join ["/work"; "algo"])).
Proof. apply (algo_file_removed request [] written "/work"); by vm_compute. Defined.

Definition full : OS := {|
  os_act := fun _ a => match a with AWrite _ _ => Some (ErrNew "disk full") | _ => None end; os_stat := fun _ _ => Ok 420;
  os_read := fun _ p => Ok []; os_walk := fun _ _ => Ok []; os_glob := fun _ _ => Ok []; os_getwd := fun _ => Ok "/work" |}.
Definition halfWritten : list act := [AOpenTrunc "/work/algo" createMode; AWrite "/work/algo" [x01]].

Lemma algo_file_left_witness :
  runBody (H := full) request [] = (Err (ErrNew "error writing algorithm to file"), halfWritten)
  /\ exists t, halfWritten = [] ++ AOpenTrunc (Join ["/work"; "algo"]) createMode :: t
     /\ Forall (fun a => a <> ARemove (Join ["/work"; "algo"])) t.
Proof.
  apply (algo_file_left (H := full) request [] halfWritten "/work" (ErrNew "error writing algorithm to file")); by vm_compute.
Defined.

Lemma lone_runs_witness :
  sv_current (mkService [Running] (Some 0%nat) []) = Some 0%nat
  /\ (forall j, [Running] !! j = Some Running -> j = 0%nat)
  /\ (forall j s', [Running] !! j = Some Calling -> step (mkService [Running] (Some 0%nat) []) s' ->
       sv_calls s' !! j = Some Calling \/ sv_calls s' !! j = Some Refused).
Proof.
  apply (lone_runs (mkService [Running] (Some 0%nat) []) 0); [|done].
  eapply rtc_l; [split; [apply StepCall|by intros [|[|i]]]|].
  eapply rtc_l; [split; [by apply (StepPass _ 0)|intros _ _ _ [|[|i]] p [= <-]; done]|].
  eapply rtc_l; [split; [by apply (StepAssign _ 0)|by intros [|[|i]]]|]. done.
Defined.

End RunnerSample.
