(* ===== verification/Cloud.v ===== *)
(** * Reference values from Azure and GCP: [pkg/attestation/azure], [pkg/attestation/gcp] and [cli]

    The tokens of the Azure attestation service with the check of the address their keys
    come from, the launch endorsements of GCP, the commands that make a CoRIM of what they
    say ([cli/attestation_policy_corim.go]) and the one that downloads the firmware of a
    GCP guest ([cli/attestation_policy.go]).  The JWT library, HTTP, cloud storage and
    protocol buffers are parameters.  The theorems say which tokens are accepted and under
    whose keys, what the commands write, and what becomes of it in the evidence verifier. *)

From stdpp Require Import base gmap list strings.
From Stdlib Require Import ZArith Lia Strings.Byte Floats.SpecFloat.
From S2P Require Import Prelude GoStrings Errors GoOS GoNumbers Sha2 GoNet Corim Eat EaAttestation Evidence.

(** ** Azure tokens *)

(** A JSON value of a token, as far as the code looks at it: [any] after decoding. *)
Inductive claim :=
| CString (s : string)
| CNumber (f : spec_float)
| CObject (members : list (string * claim))
| COther.

Fixpoint member (k : string) (ms : list (string * claim)) : option claim :=
  match ms with
  | [] => None
  | (k', v) :: t => if bool_decide (k' = k) then Some v else member k t
  end.

(** The type assertion [m[k].(string)]. *)
Definition stringMember (k : string) (ms : list (string * claim)) : option string :=
  match member k ms with Some (CString s) => Some s | _ => None end.

(** [jwt.Token] with its header and claims. *)
Record AzureToken := mkAzureToken {
  at_Header : list (string * claim); at_Claims : list (string * claim); at_Valid : bool }.

(** [jwt.Parser] on map claims: [ParseUnverified], and [ParseWithClaims] with the methods
    allowed, at a time, with a key function.  [uint64Of] is the conversion of a number out
    of the range of the type, which the language leaves to the implementation. *)
Class AzureJWT (Key : Type) := {
  parseUnverifiedToken : string -> result error AzureToken;
  parseSignedToken : string -> list string -> Time -> (list (string * claim) -> result error Key) ->
    result error AzureToken;
  (** [jose.JSONWebKeySet] from the body of a response: its keys by [kid]. *)
  decodeKeySet : list byte -> result error (list (string * Key));
  (** [http.DefaultClient] for a GET of a URL: the status code and the body. *)
  httpGet : string -> result error (Z * list byte);
  uint64Of : spec_float -> Z }.

(** A token is accepted exactly when it decodes, its [alg] is allowed, the key function
    gives a key for its header, the signature verifies under it, and the times it has, if
    it has any, admit the present. *)
Class AzureJWTLaws (Key : Type) `{AzureJWT Key} := {
  tokenDecodes : string -> list (string * claim) -> list (string * claim) -> Prop;
  tokenVerifies : string -> Key -> Prop;
  timesAdmit : list (string * claim) -> Time -> Prop;
  tokenDecodes_fun : forall t h c h' c', tokenDecodes t h c -> tokenDecodes t h' c' -> h = h' /\ c = c';
  unverified_token : forall t tok, parseUnverifiedToken t = Ok tok <->
    exists h c, tok = mkAzureToken h c false /\ tokenDecodes t h c;
  signed_token : forall t ms now f tok, parseSignedToken t ms now f = Ok tok <->
    exists h c alg k, tok = mkAzureToken h c true /\ tokenDecodes t h c
      /\ stringMember "alg" h = Some alg /\ alg ∈ ms /\ f h = Ok k
      /\ tokenVerifies t k /\ timesAdmit c now }.

Section azure.
Context {JKey : Type} `{AzureJWT JKey, UrlLib}.

(** What [validateJKU] returns: the configured URL, or one made of scheme and host. *)
Inductive jkuBase := Configured (url : string) | OfHost (scheme host : string).

(** [strings.EqualFold] is the one for an ASCII configured host. *)
Definition validateJKU (jku configuredMaaURL : string) : result error jkuBase :=
  let* jkuURL := wrapRes "invalid jku URL" (urlParse jku) in
  if negb (bool_decide (u_Scheme jkuURL = "https")) then Err (ErrNew "jku must use https")
  else if bool_decide (Hostname jkuURL = "") || u_User jkuURL || negb (bool_decide (u_RawQuery jkuURL = ""))
          || negb (bool_decide (u_Fragment jkuURL = ""))
  then Err (ErrNew "jku must be a clean absolute https URL without userinfo, query, or fragment")
  else if negb (bool_decide (u_Path jkuURL = "/certs")) then Err (ErrNew "jku path must be /certs")
  else if negb (bool_decide (configuredMaaURL = "")) then
    let* maaURL := wrapRes "invalid configured MAA URL" (urlParse configuredMaaURL) in
    if negb (bool_decide (u_Scheme maaURL = "https")) || bool_decide (Hostname maaURL = "")
    then Err (ErrNew "configured MAA URL must be an absolute https URL")
    else if negb (EqualFold (Hostname jkuURL) (Hostname maaURL)) || negb (bool_decide (Port jkuURL = Port maaURL))
    then Err (ErrNew "jku host does not match configured MAA host")
    else Ok (Configured configuredMaaURL)
  else if negb (HasSuffix (ToLower (Hostname jkuURL)) ".attest.azure.net")
  then Err (ErrNew "jku host is not an allowed Azure attestation domain")
  else Ok (OfHost (u_Scheme jkuURL) (u_Host jkuURL)).

Definition fetchJWKSet (jku : string) : result error (list (string * JKey)) :=
  let* resp := httpGet jku in
  let '(status, body) := resp in
  if negb (status =? 200) then Err (ErrNew "unexpected key set status") else decodeKeySet body.

(** [keySet.Key]. *)
Definition keysOf (kid : string) (ks : list (string * JKey)) : list JKey :=
  map snd (filter (fun x => fst x = kid) ks).

(** The key function. *)
Definition keyFor (ks : list (string * JKey)) (header : list (string * claim)) : result error JKey :=
  match stringMember "kid" header with
  | None => Err (ErrNew "token is missing kid in header")
  | Some kid =>
      if bool_decide (kid = "") then Err (ErrNew "token is missing kid in header")
      else match keysOf kid ks with
           | [] => Err (ErrNew "no key found for kid")
           | k :: _ => Ok k
           end
  end.

Definition MaaURL : string := "https://sharedeus2.eus2.attest.azure.net".

Definition validateToken (maaURL : string) (now : Time) (token : string) : result error (list (string * claim)) :=
  let* unverified := wrapRes "failed to parse token" (parseUnverifiedToken token) in
  match stringMember "jku" (at_Header unverified), stringMember "kid" (at_Header unverified) with
  | Some jku, Some _ =>
      let* base := validateJKU jku maaURL in
      let* keySet := wrapRes "failed to get key set" (fetchJWKSet jku) in
      let* parsed := wrapRes "failed to validate token" (parseSignedToken token ["RS256"] now (keyFor keySet)) in
      if negb (at_Valid parsed) then Err (ErrNew "failed to validate token") else Ok (at_Claims parsed)
  | _, _ => Err (ErrNew "token is missing jku or kid in header")
  end.

Record AzureMeasurementData := mkAzureData {
  az_Measurement : string; az_HostData : string; az_Policy : Z; az_SVN : Z }.

(** [uint64] of a [float64]. *)
Definition floatToUint64 (f : spec_float) : Z :=
  let z := match f with S754_finite true m e => - truncate f | _ => truncate f end in
  match f with
  | S754_zero _ | S754_finite _ _ _ => if (0 <=? z) && (z <? 2 ^ 64) then z else uint64Of f
  | _ => uint64Of f
  end.

Definition ExtractAzureMeasurement (maaURL : string) (now : Time) (token : string)
  : result error AzureMeasurementData :=
  let* claims := wrapRes "failed to validate token" (validateToken maaURL now token) in
  match member "x-ms-isolation-tee" claims with
  | Some (CObject tee) =>
      match stringMember "x-ms-sevsnpvm-launchmeasurement" tee with
      | None => Err (ErrNew "failed to get measurement from claims")
      | Some measurement =>
          let hostData := default "" (stringMember "x-ms-sevsnpvm-hostdata" tee) in
          match member "x-ms-sevsnpvm-guestsvn" tee with
          | Some (CNumber svn) => Ok (mkAzureData measurement hostData 0 (floatToUint64 svn))
          | _ => Err (ErrNew "failed to get guest SVN from claims")
          end
      end
  | _ => Err (ErrNew "failed to get tee from claims")
  end.
End azure.

(** ** GCP endorsements *)

(** [endorsement.VMLaunchEndorsement], [endorsement.VMSevSnp] and
    [endorsement.VMGoldenMeasurement]. *)
Record VMLaunchEndorsement := mkLaunch { le_SerializedUefiGolden : list byte; le_Signature : list byte }.
Record VMSevSnp := mkVMSevSnp { vs_Policy : Z; vs_Measurements : gmap Z (list byte) }.
Record VMGoldenMeasurement := mkGolden { gm_Digest : list byte; gm_SevSnp : option VMSevSnp }.

(** The storage client: whether one can be made, and what an object of a bucket reads as;
    the outer result is that of the reader, the inner one that of reading it. *)
Record storage := mkStorage {
  sg_new : option error;
  sg_object : string -> string -> result error (result error (list byte)) }.

Class GcpLib := {
  unmarshalLaunch : list byte -> result error VMLaunchEndorsement;
  unmarshalGolden : list byte -> result error VMGoldenMeasurement;
  (** [report.Transform(attestation, "bin")]. *)
  transformBin : SnpAttestation -> result error (list byte);
  (** [protojson.Unmarshal] into an [attest.Attestation]. *)
  attestationOfJSON : list byte -> result error Attestation }.

Definition measurementOffset : Z := 144.
Definition measurementSize : Z := 48.
Definition bucketName : string := "gce_tcb_integrity".

Section gcp.
Context `{GcpLib}.

Definition Extract384BitMeasurement (attestation : option SnpAttestation) : result error string :=
  match attestation with
  | None => Err (ErrNew "report is nil")
  | Some a =>
      match transformBin a with
      | Err _ => Err (ErrNew "failed to transform report to binary")
      | Ok reportBin =>
          if len reportBin <? measurementOffset + measurementSize
          then Err (ErrNew "report is too short to contain the 384-bit measurement")
          else Ok (hexEncode (sub measurementOffset (measurementOffset + measurementSize) reportBin))
      end
  end.

(** An object is fetched by a client of its own. *)
Definition fetchObject (store : storage) (object : string) : result error (list byte) :=
  match sg_new store with
  | Some _ => Err (ErrNew "failed to create storage client")
  | None =>
      match sg_object store bucketName object with
      | Err _ => Err (ErrNew "failed to create reader")
      | Ok (Err _) => Err (ErrNew "failed to read object")
      | Ok (Ok b) => Ok b
      end
  end.

Definition GetLaunchEndorsement (store : storage) (measurement384 : string) : result error VMGoldenMeasurement :=
  let* launchEndorsements := fetchObject store ("ovmf_x64_csm/sevsnp/" +:+ measurement384 +:+ ".binarypb") in
  match unmarshalLaunch launchEndorsements with
  | Err _ => Err (ErrNew "failed to unmarshal launch endorsement")
  | Ok endorsementPB =>
      match unmarshalGolden (le_SerializedUefiGolden endorsementPB) with
      | Err _ => Err (ErrNew "failed to unmarshal golden UEFI")
      | Ok goldenUEFI => Ok goldenUEFI
      end
  end.

Definition DownloadOvmfFile (store : storage) (digest : string) : result error (list byte) :=
  fetchObject store ("ovmf_x64_csm/" +:+ digest +:+ ".fd").

Record GCPMeasurementData := mkGCPData { gd_Measurement : string; gd_Policy : Z }.

Definition ExtractGCPMeasurement (endorsement : VMGoldenMeasurement) (vcpuNum : Z)
  : result error GCPMeasurementData :=
  match gm_SevSnp endorsement with
  | None => Err (ErrNew "endorsement does not contain SEV-SNP data")
  | Some snp =>
      match vs_Measurements snp !! vcpuNum with
      | None => Err (ErrNew "endorsement does not contain measurement for vCPU")
      | Some m => Ok (mkGCPData (hexEncode m) (vs_Policy snp))
      end
  end.
End gcp.

(** ** The commands that make a CoRIM *)

(** [os.WriteFile]. *)
Definition WriteFile `{OS} (path : string) (data : list byte) (perm : Z) (h : list act) : option error * list act :=
  match perform (AOpenTrunc path perm) h with
  | (Some e, h1) => (Some e, h1)
  | (None, h1) =>
      let '(w, h2) := perform (AWrite path data) h1 in
      let '(c, h3) := perform (AClose path) h2 in
      (match w with Some e => Some e | None => c end, h3)
  end.

Section create.
Context {Key : Type} `{OS, CorimLib Key}.

Definition withSigningKey (k : option Key) (o : Options Key) : Options Key :=
  mkOptions (o_Platform o) (o_Measurement o) (o_Product o) (o_SVN o) (o_Policy o) (o_RTMRs o) (o_MrSeam o)
    (o_HostData o) (o_LaunchTCB o) k.

(** The part the commands share, after their options are known: the signing key, the
    CoRIM, and where it goes.  The result, the effects and what went to the output. *)
Definition finishCreate (output signingKeyPath : string) (stdoutErr : option error) (opts : Options Key)
    (h : list act) : option error * list act * list byte :=
  let cbor :=
    let* key := if bool_decide (signingKeyPath = "") then Ok None
                else let* k := wrapRes "failed to load signing key" (fst (LoadSigningKey signingKeyPath h)) in Ok (Some k) in
    wrapRes "failed to generate CoRIM" (GenerateCoRIM (withSigningKey key opts)) in
  match cbor with
  | Err e => (Some e, h, [])
  | Ok cborBytes =>
      if negb (bool_decide (output = "")) then
        let '(e, h') := WriteFile output cborBytes 420 h in (wrapErr "failed to write output file" e, h', [])
      else match stdoutErr with
           | Some e => (Some (ErrWrap "failed to write output" e), h, [])
           | None => (None, h, cborBytes)
           end
  end.

Definition azureOptions (product : string) (d : AzureMeasurementData) : Options Key :=
  mkOptions "snp" (az_Measurement d) product (az_SVN d) (az_Policy d) "" "" (az_HostData d) 0 None.

Definition createAzure {JKey} `{AzureJWT JKey, UrlLib} (maaURL : string) (now : Time)
    (tokenPath product output signingKeyPath : string) (stdoutErr : option error) (h : list act)
  : option error * list act * list byte :=
  match (let* tokenBytes := wrapRes "failed to read token file" (os_read h tokenPath) in
         wrapRes "failed to extract Azure measurements"
           (ExtractAzureMeasurement maaURL now (stringOf tokenBytes))) with
  | Err e => (Some e, h, [])
  | Ok d => finishCreate output signingKeyPath stdoutErr (azureOptions product d) h
  end.

Definition gcpOptions (d : GCPMeasurementData) : Options Key :=
  mkOptions "snp" (gd_Measurement d) "" 0 (gd_Policy d) "" "" "" 0 None.

Definition createGCP `{GcpLib} (store : storage) (measurement : string) (vcpuNum : Z)
    (output signingKeyPath : string) (stdoutErr : option error) (h : list act)
  : option error * list act * list byte :=
  match (let* endorsement := wrapRes "failed to get launch endorsement" (GetLaunchEndorsement store measurement) in
         wrapRes "failed to extract GCP measurements" (ExtractGCPMeasurement endorsement vcpuNum)) with
  | Err e => (Some e, h, [])
  | Ok d => finishCreate output signingKeyPath stdoutErr (gcpOptions d) h
  end.

Definition createSNP (measurement : string) (policy svn : Z) (product hostData : string) (launchTCB : Z)
    (output signingKeyPath : string) (stdoutErr : option error) (h : list act)
  : option error * list act * list byte :=
  finishCreate output signingKeyPath stdoutErr
    (mkOptions "snp" measurement product svn policy "" "" hostData launchTCB None) h.

Definition createTDX (measurement : string) (svn : Z) (rtmrs mrSeam output signingKeyPath : string)
    (stdoutErr : option error) (h : list act) : option error * list act * list byte :=
  finishCreate output signingKeyPath stdoutErr
    (mkOptions "tdx" measurement "" svn 0 rtmrs mrSeam "" 0 None) h.
End create.

(** ** The command that downloads the firmware *)

Inductive line := Failed (msg : string) | Unmodified | Downloaded.

Definition filePermission : Z := 484.

Definition downloadOvmf `{OS, EvidenceLib, GcpLib} (store : storage) (isJson : bool) (path : string) (h : list act)
  : list line * list act :=
  match os_read h path with
  | Err _ => ([Failed "Error reading attestation report file"], h)
  | Ok attestationBin =>
      match (if isJson then attestationOfJSON attestationBin else unmarshalAttestation attestationBin) with
      | Err _ => ([Failed (if isJson then "Error converting JSON attestation to binary"
                           else "Error unmarshaling attestation report")], h)
      | Ok attestation =>
          match Extract384BitMeasurement (va_SevSnp attestation) with
          | Err _ => ([Failed "Error extracting 384-bit measurement"], h)
          | Ok measurement =>
              match GetLaunchEndorsement store measurement with
              | Err _ => ([Failed "Error getting launch endorsement"], h)
              | Ok launchEndorsement =>
                  match DownloadOvmfFile store (hexEncode (gm_Digest launchEndorsement)) with
                  | Err _ => ([Failed "Error downloading OVMF file"], h)
                  | Ok ovmf =>
                      let verdict := if bool_decide (Sum384 ovmf = gm_Digest launchEndorsement) then Unmodified
                                     else Failed "Error OVMF file does not match the measurement" in
                      let '(e, h') := WriteFile "ovmf.fd" ovmf filePermission h in
                      ([verdict; match e with Some _ => Failed "Error writing OVMF file" | None => Downloaded end], h')
                  end
              end
          end
      end
  end.

(** ** Which tokens are accepted *)

Section tokens.
Context {JKey : Type} `{AzureJWTLaws JKey, UrlLib}.

(** A URL whose keys may sign tokens: over TLS, with nothing but a host and the path of the
    certificates, and at the configured service, or at any host of the service if none is
    configured. *)
Definition jkuTrusted (maaURL : string) (u : URL) : Prop :=
  u_Scheme u = "https" /\ Hostname u <> "" /\ u_User u = false /\ u_RawQuery u = "" /\ u_Fragment u = ""
  /\ u_Path u = "/certs"
  /\ if bool_decide (maaURL = "") then HasSuffix (ToLower (Hostname u)) ".attest.azure.net" = true
     else exists m, urlParse maaURL = Ok m /\ u_Scheme m = "https" /\ Hostname m <> ""
            /\ EqualFold (Hostname u) (Hostname m) = true /\ Port u = Port m.

Lemma validateJKU_Ok jku maaURL :
  (exists b, validateJKU jku maaURL = Ok b) <-> exists u, urlParse jku = Ok u /\ jkuTrusted maaURL u.
Proof.
  unfold validateJKU, jkuTrusted. destruct (urlParse jku) as [u|e]; cbn [wrapRes]; [|naive_solver].
  split.
  - intros [b Hb]. exists u. split; [done|].
    destruct (bool_decide_reflect (u_Scheme u = "https")) as [Hs|]; cbn [negb] in Hb; [|done].
    destruct (bool_decide_reflect (Hostname u = "")) as [|Hh]; cbn [orb] in Hb; [done|].
    destruct (u_User u); cbn [orb] in Hb; [done|].
    destruct (bool_decide_reflect (u_RawQuery u = "")); cbn [negb orb] in Hb; [|done].
    destruct (bool_decide_reflect (u_Fragment u = "")); cbn [negb orb] in Hb; [|done].
    destruct (bool_decide_reflect (u_Path u = "/certs")); cbn [negb orb] in Hb; [|done].
    split_and!; try done. destruct (bool_decide_reflect (maaURL = "")); cbn [negb] in Hb.
    + by destruct (HasSuffix _ _).
    + destruct (urlParse maaURL) as [m|]; cbn [wrapRes] in Hb; [|done]. exists m.
      destruct (bool_decide_reflect (u_Scheme m = "https")); cbn [negb orb] in Hb; [|done].
      destruct (bool_decide_reflect (Hostname m = "")); [done|].
      destruct (EqualFold _ _); cbn [negb orb] in Hb; [|done].
      by destruct (bool_decide_reflect (Port u = Port m)).
  - intros (u' & [= <-] & Hs & Hh & Hu & Hq & Hf & Hp & Hm).
    rewrite (bool_decide_true _ Hs), (bool_decide_false _ Hh), Hu, (bool_decide_true _ Hq), (bool_decide_true _ Hf),
      (bool_decide_true _ Hp). cbn [negb orb]. destruct (bool_decide_reflect (maaURL = "")) as [|]; cbn [negb].
    + rewrite Hm. by eexists.
    + destruct Hm as (m & -> & Hms & Hmh & He & Hpt). cbn [wrapRes].
      rewrite (bool_decide_true _ Hms), (bool_decide_false _ Hmh), He, (bool_decide_true _ Hpt). by eexists.
Qed.

Lemma keyFor_Ok (ks : list (string * JKey)) header k :
  keyFor ks header = Ok k <->
  exists kid, stringMember "kid" header = Some kid /\ kid <> "" /\ head (keysOf kid ks) = Some k.
Proof.
  unfold keyFor. destruct (stringMember "kid" header) as [kid|]; [|naive_solver].
  destruct (bool_decide_reflect (kid = "")); [naive_solver|].
  destruct (keysOf kid ks) as [|k' t] eqn:E; split; [done| |intros [= <-]; exists kid; by rewrite E|].
  - intros (? & [= <-] & _ & Hk). by rewrite E in Hk.
  - intros (? & [= <-] & _ & Hk). rewrite E in Hk. by injection Hk as ->.
Qed.

(** The token is signed with RS256 by the first key with its [kid] in the key set of a
    trusted URL, and its times admit the present. *)
Definition signedByService (maaURL : string) (now : Time) (token : string) (claims : list (string * claim)) : Prop :=
  exists header jku u body ks kid k,
    tokenDecodes token header claims /\ stringMember "jku" header = Some jku
    /\ urlParse jku = Ok u /\ jkuTrusted maaURL u
    /\ httpGet jku = Ok (200, body) /\ decodeKeySet body = Ok ks
    /\ stringMember "alg" header = Some "RS256"
    /\ stringMember "kid" header = Some kid /\ kid <> "" /\ head (keysOf kid ks) = Some k
    /\ tokenVerifies token k /\ timesAdmit claims now.

Lemma fetchJWKSet_Ok jku (ks : list (string * JKey)) :
  fetchJWKSet jku = Ok ks <-> exists body, httpGet jku = Ok (200, body) /\ decodeKeySet body = Ok ks.
Proof.
  unfold fetchJWKSet. destruct (httpGet jku) as [[status body]|]; [|naive_solver].
  destruct (Z.eqb_spec status 200) as [->|]; cbn [negb]; naive_solver.
Qed.

Lemma validateToken_Ok maaURL now token claims :
  validateToken maaURL now token = Ok claims <-> signedByService maaURL now token claims.
Proof.
  unfold validateToken. split.
  - destruct (parseUnverifiedToken token) as [tok|] eqn:Hu; [|done]. cbn [wrapRes].
    apply unverified_token in Hu as (h & c & -> & Hd). cbn [at_Header].
    destruct (stringMember "jku" h) as [jku|] eqn:Hj; [|done].
    destruct (stringMember "kid" h) as [kid|] eqn:Hk; [|done].
    destruct (validateJKU jku maaURL) as [b|] eqn:Hb; [|done]. cbn beta iota.
    destruct (proj1 (validateJKU_Ok jku maaURL) (ex_intro _ b Hb)) as (u & Hp & Ht).
    destruct (fetchJWKSet jku) as [ks|] eqn:Hf; [|done]. cbn [wrapRes].
    apply fetchJWKSet_Ok in Hf as (body & Hg & Hks).
    destruct (parseSignedToken _ _ _ _) as [tok|] eqn:Hs; [|done]. cbn [wrapRes].
    apply signed_token in Hs as (h' & c' & alg & k & -> & Hd' & Ha & Hm & Hkf & Hv & Hti).
    destruct (tokenDecodes_fun _ _ _ _ _ Hd Hd') as [<- <-].
    apply keyFor_Ok in Hkf as (kid' & Hk' & Hne & Hh). apply list_elem_of_singleton in Hm as ->.
    cbn. intros [= <-]. by exists h, jku, u, body, ks, kid', k.
  - intros (h & jku & u & body & ks & kid & k & Hd & Hj & Hp & Ht & Hg & Hks & Ha & Hk & Hne & Hh & Hv & Hti).
    rewrite (proj2 (unverified_token token (mkAzureToken h claims false))); [|by eauto]. cbn [wrapRes at_Header].
    rewrite Hj, Hk. destruct (proj2 (validateJKU_Ok jku maaURL)) as [b ->]; [by eauto|].
    rewrite (proj2 (fetchJWKSet_Ok jku ks)); [|by eauto]. cbn [wrapRes].
    rewrite (proj2 (signed_token token ["RS256"] now (keyFor ks) (mkAzureToken h claims true))); [done|].
    exists h, claims, "RS256", k. split_and!; try done; [by apply list_elem_of_singleton|].
    apply keyFor_Ok. by exists kid.
Qed.

End tokens.

(** ** What the commands write *)

Section created.
Context {Key : Type} `{OS, CorimLib Key}.

Definition fileWritten (path : string) (b : list byte) (perm : Z) : list act :=
  [AOpenTrunc path perm; AWrite path b; AClose path].

Lemma WriteFile_None path b perm h h' :
  WriteFile path b perm h = (None, h') -> h' = h ++ fileWritten path b perm.
Proof.
  unfold WriteFile, perform. destruct (os_act h _); [done|]. destruct (os_act (h ++ _) _); [done|].
  intros [= _ <-]. by rewrite <- !app_assoc.
Qed.

Lemma finishCreate_file output keyPath so (opts : Options Key) h h' out :
  finishCreate output keyPath so opts h = (None, h', out) -> output <> "" ->
  exists k b, GenerateCoRIM (withSigningKey k opts) = Ok b /\ h' = h ++ fileWritten output b 420 /\ out = [].
Proof.
  intros Hf Ho. unfold finishCreate in Hf. rewrite (bool_decide_false _ Ho) in Hf. cbn [negb] in Hf.
  destruct (if bool_decide (keyPath = "") then _ else _) as [k|]; [|done]. cbn beta iota in Hf.
  destruct (GenerateCoRIM (withSigningKey k opts)) as [b|] eqn:Hg; [|done]. cbn [wrapRes] in Hf.
  destruct (WriteFile output b 420 h) as [[e|] h2] eqn:Hw; [done|]. injection Hf as <- <-.
  exists k, b. apply WriteFile_None in Hw as ->. done.
Qed.

Lemma valuesOf_signed (k : option Key) opts :
  valuesOf (applyDefaults (withSigningKey k opts)) = valuesOf (applyDefaults opts).
Proof. unfold applyDefaults, withSigningKey. cbn. by repeat case_bool_decide. Qed.

(** The measurement that the claims of a token have. *)
Definition measurementClaims {JKey} `{AzureJWT JKey} (claims : list (string * claim)) (d : AzureMeasurementData) : Prop :=
  exists tee svn, member "x-ms-isolation-tee" claims = Some (CObject tee)
    /\ stringMember "x-ms-sevsnpvm-launchmeasurement" tee = Some (az_Measurement d)
    /\ az_HostData d = default "" (stringMember "x-ms-sevsnpvm-hostdata" tee)
    /\ member "x-ms-sevsnpvm-guestsvn" tee = Some (CNumber svn)
    /\ az_SVN d = floatToUint64 svn /\ az_Policy d = 0.

Lemma ExtractAzureMeasurement_Ok {JKey} `{AzureJWTLaws JKey, UrlLib} maaURL now token d :
  ExtractAzureMeasurement maaURL now token = Ok d <->
  exists claims, signedByService maaURL now token claims /\ measurementClaims claims d.
Proof.
  unfold ExtractAzureMeasurement, measurementClaims. split.
  - destruct (validateToken maaURL now token) as [claims|] eqn:Hv; [|done]. cbn [wrapRes].
    apply validateToken_Ok in Hv. destruct (member "x-ms-isolation-tee" claims) as [[| |tee|]|] eqn:Ht; try done.
    destruct (stringMember _ tee) as [m|] eqn:Hm; [|done].
    destruct (member "x-ms-sevsnpvm-guestsvn" tee) as [[|svn| |]|] eqn:Hg; try done. intros [= <-].
    exists claims. split; [done|]. by exists tee, svn.
  - intros (claims & Hv & tee & svn & Ht & Hm & Hh & Hg & Hs & Hp). apply validateToken_Ok in Hv. rewrite Hv. cbn [wrapRes].
    rewrite Ht, Hm, Hg, <- Hh, <- Hs, <- Hp. by destruct d.
Qed.

(** The policy that the Azure command writes is the CoRIM generated from the claims of a
    token the service signed: nothing is written for any other token, and the file holds
    nothing else. *)
Theorem azure_policy_from_token {JKey} `{AzureJWTLaws JKey, UrlLib} maaURL now tokenPath product output keyPath so
    h h' out :
  createAzure maaURL now tokenPath product output keyPath so h = (None, h', out) -> output <> "" ->
  exists token claims d k b, os_read h tokenPath = Ok token /\ signedByService maaURL now (stringOf token) claims
    /\ measurementClaims claims d
    /\ GenerateCoRIM (withSigningKey k (azureOptions product d)) = Ok b /\ h' = h ++ fileWritten output b 420.
Proof.
  unfold createAzure. destruct (os_read h tokenPath) as [token|]; [|done]. cbn [wrapRes].
  destruct (ExtractAzureMeasurement maaURL now (stringOf token)) as [d|] eqn:He; [|done]. cbn [wrapRes].
  intros Hf Ho. apply ExtractAzureMeasurement_Ok in He as (claims & Hs & Hc).
  destruct (finishCreate_file _ _ _ _ _ _ _ Hf Ho) as (k & b & Hg & Hh & _).
  by exists token, claims, d, k, b.
Qed.

(** Every policy file that one of the four commands writes for measurements of another
    length than 32 bytes, as those of both platforms are, refuses all evidence, with or
    without a signing key: the digest of the measurement is not in it. *)
Theorem created_policy_accepts_nothing `{!EvidenceLib} `{!CorimRoundtrip Key, !DigestLaws Key} {Pub Priv : Type}
    `{!EatCodec Pub Priv} output keyPath so (opts : Options Key) h h' out :
  finishCreate output keyPath so opts h = (None, h', out) -> output <> "" ->
  Forall notSha256 (valuesOf (applyDefaults opts)) ->
  exists b, h' = h ++ fileWritten output b 420
    /\ forall h2 evidence expected, os_read h2 output = Ok b -> VerifyEvidence h2 output evidence expected <> None.
Proof.
  intros Hf Ho Hv. destruct (finishCreate_file _ _ _ _ _ _ _ Hf Ho) as (k & b & Hg & Hh & _). exists b. split; [done|].
  intros h2 evidence expected Hr. eapply generated_corim_rejects; [exact Hg| |exact Hr]. by rewrite valuesOf_signed.
Qed.
End created.

(** ** The firmware *)

Section firmware.
Context `{OS, EvidenceLib, GcpLib}.

(** The firmware that the endorsement of a report's measurement leads to. *)
Definition endorsedFirmware (store : storage) (isJson : bool) (report : list byte) (golden : VMGoldenMeasurement)
    (ovmf : list byte) : Prop :=
  exists a m, (if isJson then attestationOfJSON report else unmarshalAttestation report) = Ok a
    /\ Extract384BitMeasurement (va_SevSnp a) = Ok m /\ GetLaunchEndorsement store m = Ok golden
    /\ DownloadOvmfFile store (hexEncode (gm_Digest golden)) = Ok ovmf.

(** The firmware is called unmodified exactly when its SHA-384 is the digest of the
    endorsement, but the file is written, and called downloaded successfully, whatever the
    comparison gave. *)
Theorem ovmf_verdict store isJson path h h' lines :
  downloadOvmf store isJson path h = (lines, h') -> Downloaded ∈ lines ->
  exists report golden ovmf, os_read h path = Ok report /\ endorsedFirmware store isJson report golden ovmf
    /\ h' = h ++ fileWritten "ovmf.fd" ovmf filePermission
    /\ lines = [if bool_decide (Sum384 ovmf = gm_Digest golden) then Unmodified
                else Failed "Error OVMF file does not match the measurement"; Downloaded].
Proof.
  unfold downloadOvmf, endorsedFirmware. intros Hd Hin.
  assert (forall s, Downloaded ∈ [Failed s] -> False) as Hno by (by intros s ?%list_elem_of_singleton).
  destruct (os_read h path) as [report|]; [|injection Hd as <- <-; by apply Hno in Hin].
  destruct (if isJson then _ else _) as [a|] eqn:Ha; [|injection Hd as <- <-; by apply Hno in Hin].
  destruct (Extract384BitMeasurement (va_SevSnp a)) as [m|] eqn:Hm; [|injection Hd as <- <-; by apply Hno in Hin].
  destruct (GetLaunchEndorsement store m) as [golden|] eqn:Hg; [|injection Hd as <- <-; by apply Hno in Hin].
  destruct (DownloadOvmfFile store _) as [ovmf|] eqn:Ho; [|injection Hd as <- <-; by apply Hno in Hin].
  destruct (WriteFile "ovmf.fd" ovmf filePermission h) as [[e|] h2] eqn:Hw; injection Hd as <- <-.
  - exfalso. revert Hin. rewrite elem_of_cons, list_elem_of_singleton. by case_bool_decide; intros [?|?].
  - exists report, golden, ovmf. apply WriteFile_None in Hw as ->. split_and!; [done| |done|done]. by exists a, m.
Qed.

(** The signature of a launch endorsement has no influence: two stores that differ in
    nothing but the signatures of their endorsements give the same measurements. *)
Theorem endorsement_signature_ignored (s1 s2 : storage) m b1 b2 golden sig1 sig2 :
  fetchObject s1 ("ovmf_x64_csm/sevsnp/" +:+ m +:+ ".binarypb") = Ok b1 ->
  fetchObject s2 ("ovmf_x64_csm/sevsnp/" +:+ m +:+ ".binarypb") = Ok b2 ->
  unmarshalLaunch b1 = Ok (mkLaunch golden sig1) -> unmarshalLaunch b2 = Ok (mkLaunch golden sig2) ->
  GetLaunchEndorsement s1 m = GetLaunchEndorsement s2 m.
Proof. unfold GetLaunchEndorsement. intros -> -> E1 E2. cbn. by rewrite E1, E2. Qed.
End firmware.

(** ** Samples *)

Module CloudSample.
Import GeneratedSample.

Definition certs : string := "https://sharedeus2.eus2.attest.azure.net/certs".
Definition serviceURL (path : string) : URL :=
  mkURL "https" "" false "sharedeus2.eus2.attest.azure.net" path "" "".
#[local] Instance urls : UrlLib := {|
  urlParse s := if bool_decide (s = certs) then Ok (serviceURL "/certs")
                else if bool_decide (s = MaaURL) then Ok (serviceURL "") else Err (ErrNew "url") |}.

Definition measurement : string := SNPDefaultMeasurement.
Definition header : list (string * claim) := [("alg", CString "RS256"); ("jku", CString certs); ("kid", CString "k1")].
Definition tee : list (string * claim) :=
  [("x-ms-sevsnpvm-launchmeasurement", CString measurement); ("x-ms-sevsnpvm-guestsvn", CNumber (float64 0))].
Definition claims : list (string * claim) := [("x-ms-isolation-tee", CObject tee)].
Definition token : string := "header.claims.signature".

(** One token, signed by the key [key], whose times always admit. *)
#[local] Instance jwt : AzureJWT string := {|
  parseUnverifiedToken t := if bool_decide (t = token) then Ok (mkAzureToken header claims false) else Err (ErrNew "jwt");
  parseSignedToken t ms _ f :=
    if bool_decide (t = token) && bool_decide ("RS256" ∈ ms) then
      match f header with
      | Ok k => if bool_decide (k = "key") then Ok (mkAzureToken header claims true) else Err (ErrNew "jwt")
      | Err e => Err e
      end
    else Err (ErrNew "jwt");
  decodeKeySet _ := Ok [("k0", "other"); ("k1", "key")];
  httpGet _ := Ok (200, []);
  uint64Of _ := 0 |}.

#[local] Instance jwt_laws : AzureJWTLaws string.
Proof.
  refine {| tokenDecodes t h c := t = token /\ h = header /\ c = claims; tokenVerifies t k := t = token /\ k = "key";
            timesAdmit _ _ := True |}.
  - by intros t h c h' c' (_ & -> & ->) (_ & -> & ->).
  - intros t tok. cbn. case_bool_decide; [|naive_solver]. split; [intros [= <-]; by exists header, claims|by intros (h & c & -> & _ & -> & ->)].
  - intros t ms now f tok. cbn [parseSignedToken jwt]. split.
    + case_bool_decide as Ht; [|done]. case_bool_decide as Hm; [|done]. cbn [andb].
      destruct (f header) as [k|] eqn:Hf; [|done]. case_bool_decide as Hk; [|done]. intros [= <-].
      by exists header, claims, "RS256", k.
    + intros (h & c & alg & k & -> & (-> & -> & ->) & Ha & Hm & Hf & (_ & ->) & _). injection Ha as <-.
      rewrite (bool_decide_true _ eq_refl), (bool_decide_true _ Hm). cbn [andb]. by rewrite Hf.
Defined.

#[local] Instance tokenOs : OS := {|
  os_act := fun _ _ => None; os_stat := fun _ _ => Ok 0;
  os_read := fun _ p => if bool_decide (p = "policy.corim") then Ok read else Ok (bytesOf token);
  os_walk := fun _ _ => Ok []; os_glob := fun _ _ => Ok []; os_getwd := fun _ => Ok "/" |}.
#[local] Existing Instance corim.
#[local] Existing Instance digestLaws.
#[local] Existing Instance lib.
#[local] Existing Instance roundtrip.
#[local] Existing Instance EvidenceSample.codec.


Definition after : list act := fileWritten "policy.corim" read 420.

Lemma createAzure_ok : createAzure MaaURL 0 "token.jwt" "Milan" "policy.corim" "" None [] = (None, after, []).
Proof. by vm_compute. Qed.

Lemma azure_policy_from_token_witness :
  exists t c d k b, os_read [] "token.jwt" = Ok t /\ signedByService MaaURL 0 (stringOf t) c /\ measurementClaims c d
    /\ GenerateCoRIM (withSigningKey k (azureOptions "Milan" d)) = Ok b
    /\ after = [] ++ fileWritten "policy.corim" b 420.
Proof. by apply (azure_policy_from_token MaaURL 0 "token.jwt" "Milan" "policy.corim" "" None [] after []). Defined.

Definition options : Options unit := mkOptions "snp" measurement "Milan" 0 0 "" "" "" 0 None.

Lemma created_policy_accepts_nothing_witness :
  exists b, after = [] ++ fileWritten "policy.corim" b 420
    /\ forall h2 evidence expected, os_read h2 "policy.corim" = Ok b ->
         VerifyEvidence h2 "policy.corim" evidence expected <> None.
Proof.
  apply (created_policy_accepts_nothing "policy.corim" "" None options [] after []); [by vm_compute|done|].
  repeat constructor. intros d. vm_compute. by intros [= <-].
Defined.

(** A store with one endorsement, of the firmware [fw]. *)
Definition fw : list byte := bytesOf "abc".
Definition golden (d : list byte) : VMGoldenMeasurement := mkGolden d None.
Definition store : storage :=
  mkStorage None (fun _ o => Ok (Ok (if HasSuffix o ".fd" then fw else []))).
#[local] Instance gcpLib : GcpLib := {|
  unmarshalLaunch b := Ok (mkLaunch [] b); unmarshalGolden _ := Ok (golden (replicate 48 x00));
  transformBin _ := Ok (replicate 192 x00); attestationOfJSON _ := Err (ErrNew "json") |}.

Definition modified : list line := [Failed "Error OVMF file does not match the measurement"; Downloaded].
Lemma download_ok :
  downloadOvmf store false "report.bin" [] = (modified, fileWritten "ovmf.fd" fw filePermission).
Proof. by vm_compute. Qed.

Lemma ovmf_verdict_witness :
  exists report g ovmf, os_read [] "report.bin" = Ok report /\ endorsedFirmware store false report g ovmf
    /\ fileWritten "ovmf.fd" fw filePermission = [] ++ fileWritten "ovmf.fd" ovmf filePermission
    /\ modified = [if bool_decide (Sum384 ovmf = gm_Digest g) then Unmodified
                   else Failed "Error OVMF file does not match the measurement"; Downloaded].
Proof.
  apply (ovmf_verdict store false "report.bin" [] _ modified); [exact download_ok|]. right. left.
Defined.

Lemma endorsement_signature_ignored_witness :
  GetLaunchEndorsement store "m" = GetLaunchEndorsement (mkStorage None (fun _ _ => Ok (Ok [x01]))) "m".
Proof.
  apply (endorsement_signature_ignored store (mkStorage None (fun _ _ => Ok (Ok [x01]))) "m" [] [x01] [] [] [x01]);
    by vm_compute.
Defined.
End CloudSample.
