(* ===== verification/Cli.v ===== *)
(** * The command line: [cli]

    The commands of a user of an agent: key pairs, uploads of an algorithm and of a data
    set, the result, evidence, IMA measurements and checksums.  Each command is a function
    of its flags and arguments that gives what it prints and what it does to the disk; the
    calls it makes are those of Sdk.v, and [None] is a panic.  X.509 and PEM are the class
    [KeyCodec].  The theorems follow a file from the disk of the user to the service of the
    agent, with the keys the command line itself makes. *)

From stdpp Require Import base gmap list strings.
From Stdlib Require Import ZArith Lia Strings.Byte.
From S2P Require Import Prelude GoStrings Errors GoPath GoOS GoEncoding GoFormat GoTime Sha2 Archive Qemu Eat.
From S2P Require Import AgentService EaAuthenticator AgentAuth AgentApi Progress Sdk Cloud.

(** What a command prints: a line, or an error behind a message. *)
Inductive say := Line (s : string) | ErrLine (msg : string) (e : error).

(** [os.Open], [os.CreateTemp] and [Seek] of a file. *)
Class Files := {
  os_open : list act -> string -> result error osFile;
  os_createTemp : list act -> string -> result error string;
  os_seek : list act -> string -> option error }.

(** ** Keys: [keys.go] and [decodeKey] *)

Definition rsaKeyType : string := "PRIVATE KEY".
Definition ecdsaKeyType : string := "EC PRIVATE KEY".
Definition ed25519KeyType : string := "PRIVATE KEY".
Definition publicKeyType : string := "PUBLIC KEY".
Definition publicKeyFile : string := "public.pem".
Definition privateKeyFile : string := "private.pem".

Class KeyCodec (P : Type) := {
  generateRSA : result error P; generateECDSA : result error P; generateEd25519 : result error P;
  (** [x509.MarshalPKIXPublicKey] of the public half. *)
  marshalPublic : P -> result error (list byte);
  marshalPKCS1 : P -> list byte;
  marshalEC : P -> result error (list byte);
  marshalPKCS8 : P -> result error (list byte);
  parsePKCS1 : list byte -> result error P;
  parseEC : list byte -> result error P;
  parsePKCS8 : list byte -> result error (SigningKey P);
  pemEncode : string -> list byte -> list byte;
  pemBlock : list byte -> option (string * list byte) }.

(** What is encoded is read back, and a PKCS #1 key is not one of PKCS #8. *)
Class KeyCodecLaws (P : Type) `{KeyCodec P} : Prop := {
  pem_roundtrip : forall t b, pemBlock (pemEncode t b) = Some (t, b);
  pkcs1_roundtrip : forall k, parsePKCS1 (marshalPKCS1 k) = Ok k;
  pkcs1_not_pkcs8 : forall k, is_Ok (parsePKCS8 (marshalPKCS1 k)) = false;
  ec_roundtrip : forall k b, marshalEC k = Ok b -> parseEC b = Ok k;
  pkcs8_roundtrip : forall k b, marshalPKCS8 k = Ok b -> parsePKCS8 b = Ok (PrivEd25519 k) }.

Section keys.
Context {P : Type} `{OS, KeyCodec P}.

(** The bytes of a private key in its file. *)
Definition privateBytes (privKey : SigningKey P) : result error (list byte) :=
  match privKey with
  | PrivRSA k => Ok (marshalPKCS1 k)
  | PrivECDSA k => marshalEC k
  | PrivEd25519 k => marshalPKCS8 k
  | _ => Ok []
  end.

(** A file that is open while [m] runs. *)
Definition closing (path : string) (m : st (list act) (option error)) : st (list act) (option error) :=
  fun h => let '(r, h') := m h in (r, snd (perform (AClose path) h')).

Definition andDo (m k : st (list act) (option error)) : st (list act) (option error) :=
  fun h => match m h with (Some e, h') => (Some e, h') | (None, h') => k h' end.

Definition generateAndWriteKeys (privKey : SigningKey P) (pubKeyBytes : list byte) (keyType : string)
  : st (list act) (option error) :=
  andDo (perform (AOpenTrunc privateKeyFile 438))
    (closing privateKeyFile
       (match privateBytes privKey with
        | Err e => lift (Some e)
        | Ok b =>
            andDo (perform (AWrite privateKeyFile (pemEncode keyType b)))
              (andDo (perform (AOpenTrunc publicKeyFile 438))
                 (closing publicKeyFile (perform (AWrite publicKeyFile (pemEncode publicKeyType pubKeyBytes)))))
        end)).

(** One case of the command: a generated key, as a private key, with the label of its file. *)
Definition makeKeys (generated : result error P) (wrap : P -> SigningKey P) (keyType KeyType : string) (h : list act)
  : list say * list act :=
  match generated with
  | Err e => ([ErrLine "Error generating keys" e], h)
  | Ok k =>
      match marshalPublic k with
      | Err e => ([ErrLine "Error marshalling public key" e], h)
      | Ok pub =>
          match generateAndWriteKeys (wrap k) pub keyType h with
          | (Some e, h') => ([ErrLine "Error generating and writing keys" e], h')
          | (None, h') => ([Line ("Successfully generated public/private key pair of type: " +:+ KeyType)], h')
          end
      end
  end.

Definition keysCmd (KeyType : string) : list act -> list say * list act :=
  if bool_decide (KeyType = "ecdsa") then makeKeys generateECDSA PrivECDSA ecdsaKeyType KeyType
  else if bool_decide (KeyType = "ed25519") then makeKeys generateEd25519 PrivEd25519 ed25519KeyType KeyType
  else makeKeys generateRSA PrivRSA rsaKeyType KeyType.

Definition decodeKey (b : option (string * list byte)) : result error (SigningKey P) :=
  match b with
  | None => Err (ErrNew "error decoding key")
  | Some (type, bytes) =>
      if bool_decide (type = rsaKeyType) then
        match parsePKCS8 bytes with
        | Ok k => Ok k
        | Err _ => match parsePKCS1 bytes with Ok k => Ok (PrivRSA k) | Err e => Err e end
        end
      else if bool_decide (type = ecdsaKeyType) then
        match parseEC bytes with Ok k => Ok (PrivECDSA k) | Err e => Err e end
      else Err (ErrNew "error decoding key")
  end.

(** The private key of a file: the same steps in every command that signs. *)
Definition keyOfFile (path : string) (h : list act) : result say (SigningKey P) :=
  match os_read h path with
  | Err e => Err (ErrLine "Error reading private key file" e)
  | Ok privKeyFile =>
      match decodeKey (pemBlock privKeyFile) with
      | Err e => Err (ErrLine "Error decoding private key" e)
      | Ok k => Ok k
      end
  end.
End keys.

(** ** Metadata of an upload *)

(** [metadata.AppendToOutgoingContext] of one pair. *)
Definition appendPair (k v : string) (md : metadata) : metadata := <[k := default [] (md !! k) ++ [v]]> md.

Definition AlgorithmTypeToContext (algoType : string) : metadata -> metadata := appendPair "algo_type" algoType.
Definition AlgorithmArgsToContext (algoArgs : list string) (md : metadata) : metadata :=
  foldl (fun md arg => appendPair "algo_args" arg md) md algoArgs.
Definition PythonRunTimeToContext (runtime : string) : metadata -> metadata := appendPair "python_runtime" runtime.
Definition DecompressToContext (decompress : bool) : metadata -> metadata :=
  appendPair "decompress" (if decompress then "true" else "false").

Definition addAlgoMetadata (algoType : string) (algoArgs : list string) (pythonRuntime : string) (md : metadata) : metadata :=
  PythonRunTimeToContext pythonRuntime (AlgorithmArgsToContext algoArgs (AlgorithmTypeToContext algoType md)).

(** ** [internal.ZipDirectoryToTempFile] *)

(** The name of the file and the file, at its start. *)
Definition ZipDirectoryToTempFile `{OS, ArchiveLib, Files} (sourceDir : string)
  : st (list act) (result error (string * osFile)) :=
  fun h =>
    match os_createTemp h "dataset*.zip" with
    | Err e => (Err e, h)
    | Ok tmp =>
        let drop e h := (Err e, snd (perform (ARemove tmp) (snd (perform (AClose tmp) h)))) in
        match writeZip sourceDir h with
        | (Err e, h1) => drop e h1
        | (Ok data, h1) =>
            match perform (AWrite tmp data) h1 with
            | (Some e, h2) => drop e h2
            | (None, h2) =>
                match os_seek h2 tmp with
                | Some e => drop e h2
                | None => (Ok (tmp, regular data), h2)
                end
            end
        end
    end.

(** ** Uploads: [algorithms.go] and [datasets.go] *)

Section uploads.
Context {P : Type} `{OS, Files, !ArchiveLib, !KeyCodec P, !Signing P, !Console, !ResultFile}.
Context (client : AgentServiceClient) (connectErr : option error) (now : Time) (rand : result error (list byte)).

(** The requirements, if a file is named. *)
Definition openRequirements (requirementsFile : string) (h : list act) : result say (option osFile) :=
  if bool_decide (requirementsFile = "") then Ok None
  else match os_open h requirementsFile with
       | Err e => Err (ErrLine "Error reading requirments file" e)
       | Ok f => Ok (Some f)
       end.

Definition algoCmd (algoType : string) (algoArgs : list string) (pythonRuntime requirementsFile : string)
    (algorithmFile keyFile : string) (c : console) (h : list act) : option (list say) :=
  match connectErr with
  | Some e => Some [ErrLine "Failed to connect to agent" e]
  | None =>
      let first := Line ("Uploading algorithm file: " +:+ algorithmFile) in
      match os_open h algorithmFile with
      | Err e => Some [first; ErrLine "Error reading algorithm file" e]
      | Ok algorithm =>
          match openRequirements requirementsFile h with
          | Err s => Some [first; s]
          | Ok req =>
              match keyOfFile keyFile h with
              | Err s => Some [first; s]
              | Ok privKey =>
                  '(e, _) ← sdkAlgo client now rand (addAlgoMetadata algoType algoArgs pythonRuntime ∅) c algorithm req privKey;
                  Some [first; match e with
                               | Some e => ErrLine "Failed to upload algorithm due to error" e
                               | None => Line "Successfully uploaded algorithm!"
                               end]
              end
          end
      end
  end.

(** The data set of a path: a directory is zipped into a temporary file, which is removed
    in the end; the name is that file's, if there is one. *)
Definition openDataset (datasetPath : string) (h : list act)
  : list say * result say (osFile * option string) * list act :=
  match os_stat h datasetPath with
  | Err e => ([], Err (ErrLine "Error reading dataset file" e), h)
  | Ok mode =>
      if IsDir mode then
        let zipping := [Line "Detected directory, zipping dataset..."] in
        match ZipDirectoryToTempFile datasetPath h with
        | (Err e, h') => (zipping, Err (ErrLine "Error zipping dataset directory" e), h')
        | (Ok (tmp, f), h') => (zipping, Ok (f, Some tmp), h')
        end
      else match os_open h datasetPath with
           | Err e => ([], Err (ErrLine "Error reading dataset file" e), h)
           | Ok f => ([], Ok (f, None), h)
           end
  end.

(** The deferred calls: a temporary file is removed and closed. *)
Definition dropDataset (tmp : option string) (h : list act) : list act :=
  match tmp with
  | Some t => snd (perform (AClose t) (snd (perform (ARemove t) h)))
  | None => h
  end.

Definition dataCmd (decompress : bool) (datasetPath keyFile : string) (c : console) (h : list act)
  : option (list say * list act) :=
  match connectErr with
  | Some e => Some ([ErrLine "Failed to connect to agent" e], h)
  | None =>
      let '(zipping, opened, h1) := openDataset datasetPath h in
      let first := Line ("Uploading dataset: " +:+ datasetPath) :: zipping in
      match opened with
      | Err s => Some (first ++ [s], h1)
      | Ok (dataset, tmp) =>
          match keyOfFile keyFile h1 with
          | Err s => Some (first ++ [s], dropDataset tmp h1)
          | Ok privKey =>
              '(e, _) ← sdkData client now rand (DecompressToContext decompress ∅) c dataset (Base datasetPath) privKey;
              Some (first ++ [match e with
                              | Some e => ErrLine "Failed to upload dataset due to error" e
                              | None => Line "Successfully uploaded dataset!"
                              end], dropDataset tmp h1)
          end
      end
  end.
End uploads.

(** ** The keys of the command line sign *)

Section key_files.
Context {P : Type} `{OS, KeyCodecLaws P}.

Definition keyPairWritten (privatePem publicPem : list byte) : list act :=
  [AOpenTrunc privateKeyFile 438; AWrite privateKeyFile privatePem; AOpenTrunc publicKeyFile 438;
   AWrite publicKeyFile publicPem; AClose publicKeyFile; AClose privateKeyFile].

Lemma generateAndWriteKeys_None (k : SigningKey P) pub keyType h h' :
  generateAndWriteKeys k pub keyType h = (None, h') ->
  exists b, privateBytes k = Ok b
    /\ h' = h ++ keyPairWritten (pemEncode keyType b) (pemEncode publicKeyType pub).
Proof.
  unfold generateAndWriteKeys, andDo, closing, perform. destruct (os_act h _); [done|].
  destruct (privateBytes k) as [b|]; [|done]. destruct (os_act (h ++ _) _); [done|].
  destruct (os_act ((h ++ _) ++ _) _); [done|]. destruct (os_act (((h ++ _) ++ _) ++ _) _); [done|].
  intros [= <-]. exists b. split; [done|]. by rewrite <- !app_assoc.
Qed.

Lemma decodeKey_generated (k : P) (wrap : P -> SigningKey P) keyType b :
  (wrap, keyType) ∈ [(@PrivECDSA P, ecdsaKeyType); (PrivEd25519, ed25519KeyType); (PrivRSA, rsaKeyType)] ->
  privateBytes (wrap k) = Ok b -> decodeKey (pemBlock (pemEncode keyType b)) = Ok (wrap k).
Proof.
  intros Hin Hb. rewrite pem_roundtrip.
  rewrite !elem_of_cons, elem_of_nil in Hin. destruct Hin as [[= -> ->]|[[= -> ->]|[[= -> ->]|[]]]]; cbn in *.
  - by rewrite (ec_roundtrip k b Hb).
  - by rewrite (pkcs8_roundtrip k b Hb).
  - injection Hb as <-. pose proof (pkcs1_not_pkcs8 k) as Hn. destruct (parsePKCS8 (marshalPKCS1 k)); [done|].
    by rewrite pkcs1_roundtrip.
Qed.

Lemma makeKeys_Line generated (wrap : P -> SigningKey P) keyType KeyType h said h' :
  (wrap, keyType) ∈ [(@PrivECDSA P, ecdsaKeyType); (PrivEd25519, ed25519KeyType); (PrivRSA, rsaKeyType)] ->
  makeKeys generated wrap keyType KeyType h = ([Line said], h') ->
  exists k pub privatePem, generated = Ok k /\ marshalPublic k = Ok pub
    /\ h' = h ++ keyPairWritten privatePem (pemEncode publicKeyType pub)
    /\ decodeKey (pemBlock privatePem) = Ok (wrap k).
Proof.
  intros Hin. unfold makeKeys. destruct generated as [k|]; [|done]. destruct (marshalPublic k) as [pub|] eqn:Hp; [|done].
  destruct (generateAndWriteKeys (wrap k) pub keyType h) as [[e|] h2] eqn:Hw; [done|]. intros [= _ <-].
  apply generateAndWriteKeys_None in Hw as (b & Hb & ->).
  exists k, pub, (pemEncode keyType b). split_and!; try done. by apply decodeKey_generated.
Qed.

End key_files.

(** ** Uploads arrive *)

(** A file opens as what it holds. *)
Class FilesLaws `{OS, Files} : Prop := {
  open_reads : forall h p f, os_open h p = Ok f -> exists data, os_read h p = Ok data /\ f = regular data }.

Section delivered.
Context {K P : Type} `{KeyPairs K P} `{!Service, !Console, !ResultFile}.
Context `{!OS, !Files, !ArchiveLib, !KeyCodec P}.

Lemma lookup_appendPair k v (md : metadata) k' :
  default [] (appendPair k v md !! k') = default [] (md !! k') ++ (if decide (k = k') then [v] else []).
Proof.
  unfold appendPair. destruct (decide (k = k')) as [<-|Hn].
  - by rewrite lookup_insert_eq.
  - by rewrite lookup_insert_ne, app_nil_r.
Qed.

Lemma lookup_args args : forall (md : metadata) k',
  default [] (AlgorithmArgsToContext args md !! k')
  = default [] (md !! k') ++ (if decide ("algo_args" = k') then args else []).
Proof.
  unfold AlgorithmArgsToContext. induction args as [|a t IH]; intros md k'; cbn [foldl].
  - by destruct (decide _); rewrite app_nil_r.
  - rewrite IH, lookup_appendPair, <- app_assoc. by destruct (decide _).
Qed.

(** What the service reads of the metadata of an upload. *)
Lemma algo_serviceContext algoType args runtime :
  serviceContext (mkRpc (Some (addAlgoMetadata algoType args runtime ∅)) None) = mkContext [algoType] args [] None.
Proof.
  unfold serviceContext, mdValues. cbn [rpc_md rpc_index].
  unfold addAlgoMetadata, PythonRunTimeToContext, AlgorithmTypeToContext.
  rewrite !lookup_appendPair, !lookup_args, !lookup_appendPair, !lookup_empty. cbn [default]. by rewrite !app_nil_r.
Qed.

Lemma appendPair_ne k v (md : metadata) k' : k <> k' -> appendPair k v md !! k' = md !! k'.
Proof. intros Hn. unfold appendPair. by rewrite lookup_insert_ne. Qed.

Lemma args_ne args : forall (md : metadata) k', "algo_args" <> k' -> AlgorithmArgsToContext args md !! k' = md !! k'.
Proof.
  unfold AlgorithmArgsToContext. induction args as [|a t IH]; intros md k' Hn; cbn [foldl]; [done|].
  by rewrite IH, appendPair_ne.
Qed.

(** The metadata of an upload leave those of the signature alone. *)
Lemma mayCall_metadata now now1 now2 rand role method ctx k (s : AgentAuth.service K) :
  mayCall now now1 now2 rand role method ∅ k s ->
  ctx !! SignatureMetadataKey = None -> ctx !! SignatureTimestampMetadataKey = None ->
  ctx !! SignatureNonceMetadataKey = None ->
  mayCall now now1 now2 rand role method ctx k s.
Proof. intros [? ? ? ? ? _] ? ? ?. by split. Qed.

Lemma mayCall_algo now now1 now2 rand role method algoType args runtime k (s : AgentAuth.service K) :
  mayCall now now1 now2 rand role method ∅ k s ->
  mayCall now now1 now2 rand role method (addAlgoMetadata algoType args runtime ∅) k s.
Proof.
  intros Hm. unfold addAlgoMetadata, PythonRunTimeToContext, AlgorithmTypeToContext.
  apply (mayCall_metadata _ _ _ _ _ _ _ _ _ Hm); by rewrite appendPair_ne, args_ne, appendPair_ne.
Qed.


Context `{!FilesLaws}.

(** What is uploaded of a path is what its checksum is taken of. *)
Lemma openDataset_checksum path h zipping f tmp h1 :
  openDataset path h = (zipping, Ok (f, tmp), h1) ->
  exists data, f = regular data /\ fst (Digest path h) = Ok (data, sha3Sum256 data).
Proof.
  unfold openDataset, Digest, bindOk, Stat. destruct (os_stat h path) as [mode|]; [|done].
  destruct (IsDir mode).
  - unfold ZipDirectoryToTempFile, ZipDirectoryToMemory. destruct (os_createTemp h _); [|done].
    destruct (writeZip path h) as [[data|] h2]; [|done]. destruct (perform _ h2) as [[e|] h3]; [done|].
    destruct (os_seek h3 _); [done|]. intros [= <- <- <- <-]. by exists data.
  - destruct (os_open h path) as [f'|] eqn:Ho; [|done]. intros [= <- <- <- <-].
    destruct (open_reads _ _ _ Ho) as (data & Hr & ->). exists data. unfold ReadFile. by rewrite Hr.
Qed.

(** The data set a user names arrives at the service of the agent, under the last element
    of its path, as the very bytes whose checksum the checksum command prints, be it a file
    or a directory, and the command reports what the service answered. *)
Theorem data_cmd_delivers now now1 now2 rand decompress path keyFile spare c h zipping f tmp h1
    (s : AgentAuth.service K) k md :
  openDataset path h = (zipping, Ok (f, tmp), h1) -> keyOfFile keyFile h1 = Ok k ->
  generateMetadata now (Ok rand) DataProviderRole AgentService_Data k = Some (Ok md) ->
  mayCall now now1 now2 rand DataProviderRole AgentService_Data ∅ k s ->
  roomy "Uploading data" false ->
  exists data, fst (Checksum path h) = Ok (sha3Sum256 data)
    /\ (data <> [] -> len data <= maxDatasetUploadBytes ->
        dataCmd (agentOf now1 now2 spare s) None now (Ok rand) decompress path keyFile c h
        = Some ((Line ("Uploading dataset: " +:+ path) :: zipping) ++
                [match svc_Data (mkContext [] [] [if decompress then "true" else "false"] None)
                         (mkDataset data zeroHash [] (Base path) None false) with
                 | Some e => ErrLine "Failed to upload dataset due to error" e
                 | None => Line "Successfully uploaded dataset!"
                 end], dropDataset tmp h1)).
Proof.
  intros Ho Hk Hg Hm Hr. destruct (openDataset_checksum _ _ _ _ _ _ Ho) as (data & -> & Hd). exists data. split.
  - unfold Checksum, bindOk. destruct (Digest path h) as [r h2]. cbn in Hd. by subst r.
  - intros Hne Hl. unfold dataCmd. rewrite Ho, Hk.
    destruct (dataset_delivered now now1 now2 rand (DecompressToContext decompress ∅) k md s spare c data (Base path) Hg)
      as [c' ->]; [|done..|].
    + unfold DecompressToContext. apply (mayCall_metadata _ _ _ _ _ _ _ _ _ Hm); by rewrite appendPair_ne.
    + cbn [mbind option_bind]. unfold DecompressToContext, serviceContext, mdValues. cbn [rpc_md rpc_index].
      by rewrite !lookup_appendPair, !lookup_empty.
Qed.
End delivered.

(** ** Results: [result.go] *)

Section downloads.
Context {P : Type} `{OS, !KeyCodec P, !Signing P, !Console, !ResultFile}.
Context (client : AgentServiceClient) (connectErr : option error).

(** The key file is read before the directory is made and decoded after it.  What the SDK
    writes to the file is one effect; [Abs] only shows in the last line. *)
Definition resultCmd (now : Time) (rand : result error (list byte)) (outputDir filename keyFile : string) (c : console)
    (h : list act) : option (list say * list act) :=
  match connectErr with
  | Some e => Some ([ErrLine "Failed to connect to agent" e], h)
  | None =>
      let first := Line "Retrieving computation result file" in
      match os_read h keyFile with
      | Err e => Some ([first; ErrLine "Error reading private key file" e], h)
      | Ok privKeyFile =>
          let '(made, h1) := if bool_decide (outputDir = "") then (None, h) else perform (AMkdirAll outputDir) h in
          match made with
          | Some e => Some ([first; ErrLine "Error creating output directory" e], h1)
          | None =>
              let outputPath := if bool_decide (outputDir = "") then filename else Join [outputDir; filename] in
              let absPath := match Abs (os_getwd h1) outputPath with Ok p => p | Err _ => outputPath end in
              match decodeKey (pemBlock privKeyFile) with
              | Err e => Some ([first; ErrLine "Error decoding private key" e], h1)
              | Ok privKey =>
                  match perform (AOpenTrunc outputPath 438) h1 with
                  | (Some e, h2) => Some ([first; ErrLine "Error creating result file" e], h2)
                  | (None, h2) =>
                      '(e, _, data) ← sdkResult client now rand c privKey;
                      let h3 := h2 ++ [AWrite outputPath data; AClose outputPath] in
                      Some (match e with
                            | Some e => [first; ErrLine "Error retrieving computation result" e]
                            | None => [first; Line "Computation result retrieved and saved successfully!";
                                       Line ("Location: " +:+ absPath)]
                            end, h3)
                  end
              end
          end
      end
  end.

(** ** Evidence: [attestation.go] *)

Record getFlags := mkGetFlags {
  gf_nonce : list byte; gf_teeNonce : list byte; gf_tokenNonce : list byte;
  gf_textProto : bool; gf_azureJWT : bool }.

Definition platformNumber (p : PlatformType) : Z :=
  match p with SNP => 0 | VTPM => 1 | SNPvTPM => 2 | Azure => 3 | TDX => 4 | NoCC => 5 end.

Definition validTypes : list string := ["snp"; "vtpm"; "snp-vtpm"; "azure-token"; "tdx"].

(** What is said first and the platform asked for. *)
Definition typeOf (t : string) : string * PlatformType :=
  if bool_decide (t = "snp") then ("Fetching SEV-SNP attestation report", SNP)
  else if bool_decide (t = "vtpm") then ("Fetching vTPM report", VTPM)
  else if bool_decide (t = "snp-vtpm") then ("Fetching SEV-SNP and vTPM report", SNPvTPM)
  else if bool_decide (t = "azure-token") then ("Fetching Azure token", SNP)
  else ("Fetching TDX attestation report", TDX).

(** The nonces of the request, or the line that refuses it. *)
Definition requestNonces (t : string) (attType : PlatformType) (f : getFlags) : result string (list byte * list byte) :=
  let isT x := bool_decide (t = x) in
  if (isT "vtpm" || isT "snp-vtpm") && (len (gf_nonce f) =? 0)
  then Err "vTPM nonce must be defined for vTPM attestation"
  else if (isT "snp" || isT "snp-vtpm") && (len (gf_teeNonce f) =? 0)
  then Err "TEE nonce must be defined for SEV-SNP attestation"
  else if isT "azure-token" && (len (gf_tokenNonce f) =? 0)
  then Err "Token nonce must be defined for Azure attestation"
  else
    let tee := bool_decide (attType = SNP) || bool_decide (attType = SNPvTPM) in
    if tee && (SEVNonce <? len (gf_teeNonce f))
    then Err "nonce must be a hex encoded string of length lesser or equal 64 bytes"
    else
      let fixedReportData := copyInto SEVNonce (if tee then gf_teeNonce f else []) in
      if negb (bool_decide (attType = SNP)) || isT "azure-token" then
        if (Nonce <? len (gf_nonce f)) || (Nonce <? len (gf_tokenNonce f))
        then Err "vTPM nonce must be a hex encoded string of length lesser or equal 32 bytes"
        else Ok (fixedReportData, copyInto Nonce (if isT "azure-token" then gf_tokenNonce f else gf_nonce f))
      else Ok (fixedReportData, copyInto Nonce []).

Definition fileOfType (t : string) (f : getFlags) : string :=
  if gf_textProto f then "attestation.json"
  else if gf_azureJWT f then "azure_attest_token.jwt"
  else if bool_decide (t = "azure-token") then "azure_attest_result.json" else "attestation.bin".

(** [base64.URLEncoding.DecodeString]: the other alphabet of the two in place of the
    standard one. *)
Definition base64URLDecode (s : string) : option (list Z) :=
  let l := codes s in
  if existsb (fun b => (b =? 43) || (b =? 47)) l then None
  else base64StdDecode (ofCodes (map (fun b => if b =? 45 then 43 else if b =? 95 then 47 else b) l)).

(** The converters of a report: [abi.ReportCertsToProto] with [json.MarshalIndent], the text
    form of an [attest.Attestation], a JSON object of a segment, and the two together. *)
Class ReportFormats := {
  Obj : Type;
  snpToJSON : list byte -> result error (list byte);
  attestationText : list byte -> result error (list byte);
  unmarshalObject : list Z -> result error Obj;
  marshalToken : Obj -> Obj -> result error (list byte) }.

Definition ReportSize : Z := 1184.
Definition errReportSize : error := ErrNew "attestation contents too small".

Section convert.
Context `{ReportFormats}.

Definition attestationToJSON (report : list byte) : result error (list byte) :=
  if len report <? ReportSize then Err (Wrap errReportSize (ErrNew "attestation contents too small"))
  else snpToJSON (take (Z.to_nat ReportSize) report).

Definition decodeSegment (seg : string) : result error Obj :=
  let m := slen seg mod 4 in
  let seg := if m =? 0 then seg else seg +:+ ofCodes (replicate (Z.to_nat (4 - m)) 61) in
  match base64URLDecode seg with
  | None => Err (ErrNew "illegal base64 data")
  | Some data => unmarshalObject data
  end.

Definition decodeJWTToJSON (tokenBytes : list byte) : result error (list byte) :=
  match SplitByte (stringOf tokenBytes) 46 with
  | p0 :: p1 :: _ =>
      match decodeSegment p0 with
      | Err _ => Err (ErrNew "failed to decode header")
      | Ok header =>
          match decodeSegment p1 with
          | Err _ => Err (ErrNew "failed to decode payload")
          | Ok payload => marshalToken header payload
          end
      end
  | _ => Err (ErrNew "invalid JWT: must have at least 2 parts")
  end.

Definition convertReport (t : string) (result : list byte) : Prelude.result say (list byte) :=
  if bool_decide (t = "snp") then
    match attestationToJSON result with
    | Err e => Err (ErrLine "Error converting SNP attestation to JSON" e) | Ok r => Ok r end
  else if bool_decide (t = "vtpm") || bool_decide (t = "snp-vtpm") then
    match attestationText result with
    | Err e => Err (ErrLine "Failed to unmarshal the attestation report" e) | Ok r => Ok r end
  else if bool_decide (t = "azure-token") then
    match decodeJWTToJSON result with
    | Err e => Err (ErrLine "Error decoding Azure token" e) | Ok r => Ok r end
  else Ok result.

(** The bytes the agent answers with are written as one effect. *)
Definition fetchReport (t : string) (ctx : metadata) (attType : PlatformType) (reportData nonce : list byte) (c : console)
  : option (option say * list byte) :=
  if bool_decide (t = "azure-token") then
    let '(e, data) := sdkAttestationToken client ctx nonce in
    Some (option_map (ErrLine "Failed to get attestation token due to error") e, data)
  else
    match sdkAttestation client ctx c reportData nonce (platformNumber attType) with
    | None => None
    | Some (e, _, data) => Some (option_map (ErrLine "Failed to get attestation due to error") e, data)
    end.

Definition getCmd (ctx : metadata) (t : string) (f : getFlags) (c : console) (h : list act) : option (list say * list act) :=
  match connectErr with
  | Some e => Some ([ErrLine "Failed to connect to agent" e], h)
  | None =>
      if negb (bool_decide (t ∈ validTypes)) then Some ([ErrLine "Bad attestation type" (ErrNew "invalid argument")], h)
      else
        let '(said, attType) := typeOf t in
        match requestNonces t attType f with
        | Err line => Some ([Line said; Line line], h)
        | Ok (fixedReportData, fixedNonce) =>
            let filename := fileOfType t f in
            match perform (AOpenTrunc filename 438) h with
            | (Some e, h1) => Some ([Line said; ErrLine "Error creating attestation file" e], h1)
            | (None, h1) =>
                '(e, data) ← fetchReport t ctx attType fixedReportData fixedNonce c;
                let h2 := h1 ++ [AWrite filename data] in
                match e with
                | Some s => Some ([Line said; s], h2)
                | None =>
                    match perform (AClose filename) h2 with
                    | (Some e, h3) => Some ([Line said; ErrLine "Error closing attestation file" e], h3)
                    | (None, h3) =>
                        let saved := [Line said; Line "Attestation retrieved and saved successfully!"] in
                        if gf_textProto f || (bool_decide (t = "azure-token") && negb (gf_azureJWT f)) then
                          match os_read h3 filename with
                          | Err e => Some ([Line said; ErrLine "Error reading attestation file" e], h3)
                          | Ok result =>
                              match convertReport t result with
                              | Err s => Some ([Line said; s], h3)
                              | Ok result =>
                                  match WriteFile filename result 420 h3 with
                                  | (Some e, h4) => Some ([Line said; ErrLine "Error writing attestation file" e], h4)
                                  | (None, h4) => Some (saved, h4)
                                  end
                              end
                          end
                        else Some (saved, h3)
                    end
                end
            end
        end
  end.
End convert.
End downloads.

(** ** [crypto/sha1] *)

Definition add32 (a b : Z) : Z := wrapU 32 (a + b).
Definition rotl32 (n x : Z) : Z := Z.lor (wrapU 32 (Z.shiftl x n)) (Z.shiftr x (32 - n)).

Definition sha1Mix (t : nat) (b c d : Z) : Z * Z :=
  if (t <? 20)%nat then (Z.lxor (Z.land b c) (Z.land (Z.lxor b (Z.ones 32)) d), 0x5a827999)
  else if (t <? 40)%nat then (Z.lxor b (Z.lxor c d), 0x6ed9eba1)
  else if (t <? 60)%nat then (Z.lxor (Z.land b c) (Z.lxor (Z.land b d) (Z.land c d)), 0x8f1bbcdc)
  else (Z.lxor b (Z.lxor c d), 0xca62c1d6).

(** [left] rounds from round [t]; the window holds the next sixteen words. *)
Fixpoint sha1Rounds (left t : nat) (w : list Z) (s : Z * Z * Z * Z * Z) : Z * Z * Z * Z * Z :=
  match left with
  | O => s
  | S l =>
      let '(a, b, c, d, e) := s in
      let '(f, k) := sha1Mix t b c d in
      let next := rotl32 1 (Z.lxor (Z.lxor (nth 13 w 0) (nth 8 w 0)) (Z.lxor (nth 2 w 0) (nth 0 w 0))) in
      sha1Rounds l (S t) (tl w ++ [next])
        (add32 (add32 (rotl32 5 a) f) (add32 (add32 e k) (nth 0 w 0)), a, rotl32 30 b, c, d)
  end.

Definition sha1Block (s : Z * Z * Z * Z * Z) (block : list byte) : Z * Z * Z * Z * Z :=
  let '(a, b, c, d, e) := s in
  let '(a', b', c', d', e') := sha1Rounds 80 0 (map wordOf (chunks 4 block)) s in
  (add32 a a', add32 b b', add32 c c', add32 d d', add32 e e').

Definition sha1Sum (msg : list byte) : list byte :=
  let '(a, b, c, d, e) :=
    fold_left sha1Block (chunks 64 (pad sha256Params msg))
      (0x67452301, 0xefcdab89, 0x98badcfe, 0x10325476, 0xc3d2e1f0) in
  concat (map (bytesOfWord 4) [a; b; c; d; e]).

Example sha1_abc : hexEncode (sha1Sum (bytesOf "abc")) = "a9993e364706816aba3e25717850c26c9cd0d89d".
Proof. vm_compute. reflexivity. Qed.
Example sha1_two_blocks :
  hexEncode (sha1Sum (bytesOf "abcdbcdecdefdefgefghfghighijhijkijkljklmklmnlmnomnopnopq"))
  = "84983e441c3bd26ebaae4aa1f95129e5e54670f1".
Proof. vm_compute. reflexivity. Qed.

(** ** IMA measurements: [ima_measurements.go] *)

(** [bufio.Scanner] with lines: a line that does not fit the buffer of 64 KiB ends the
    scan, without an error that the code looks at. *)
Definition MaxScanTokenSize : Z := 65536.
Definition dropCR (l : list Z) : list Z := if bool_decide (last l = Some 13) then take (length l - 1) l else l.

Fixpoint scanLines (cur s : list Z) : list string :=
  match s with
  | [] => if bool_decide (cur = []) || (MaxScanTokenSize <=? Z.of_nat (length cur)) then [] else [ofCodes (dropCR cur)]
  | b :: t =>
      if b =? 10 then
        if MaxScanTokenSize <=? Z.of_nat (length cur) then [] else ofCodes (dropCR cur) :: scanLines [] t
      else scanLines (cur ++ [b]) t
  end.

(** A line of the measurements: what it does to the register and what is printed; [None]
    is the panic of an index out of range. *)
Definition zeroDigest : string := ofCodes (replicate 40 48).
Definition onesDigest : string := ofCodes (replicate 40 102).

Definition imaLine (pcr : list byte) (line : string) : option (list byte * list say) :=
  match Fields line with
  | [] => None
  | p0 :: rest =>
      if negb (bool_decide (p0 = "10")) then Some (pcr, [])
      else match rest with
           | [] => None
           | p1 :: _ =>
               let digestHex := if bool_decide (p1 = zeroDigest) then onesDigest else p1 in
               match hexDecode (codes digestHex) with
               | None => Some (pcr, [ErrLine "Failed to decode digest" (ErrNew "encoding/hex")])
               | Some digest => Some (sha1Sum (pcr ++ map toByte digest), [])
               end
           end
  end.

Fixpoint imaReplay (pcr : list byte) (lines : list string) : option (list byte * list say) :=
  match lines with
  | [] => Some (pcr, [])
  | l :: t =>
      match imaLine pcr l with
      | None => None
      | Some (pcr, said) =>
          match imaReplay pcr t with
          | None => None
          | Some (pcr, said') => Some (pcr, said ++ said')
          end
      end
  end.

(** [file] is what opening the file again gives; a file that cannot be opened has no
    lines. *)
Definition imaVerify (pcr10 : list byte) (file : result error (list byte)) : option (list say) :=
  let '(opened, content) :=
    match file with Ok b => ([], b) | Err e => ([ErrLine "Failed to open file" e], []) end in
  match imaReplay (replicate 20 x00) (scanLines [] (codes (stringOf content))) with
  | None => None
  | Some (calculated, said) =>
      Some (opened ++ said ++
            [if bool_decide (hexEncode pcr10 = hexEncode calculated) then Line "Measurements file verified!"
             else Line "Measurements file not verified"])
  end.

Definition imaCmd `{OS, Console, ResultFile} (client : AgentServiceClient) (connectErr : option error) (ctx : metadata)
    (args : list string) (c : console) (h : list act) : option (list say * list act) :=
  match connectErr with
  | Some e => Some ([ErrLine "Failed to connect to agent" e], h)
  | None =>
      let first := Line "Retrieving computation Linux IMA measurements file" in
      let filename := match args with [] => "ima_measurements" | a :: _ => a end in
      match perform (AOpenTrunc filename 438) h with
      | (Some e, h1) => Some ([first; ErrLine "Error creating imaMeasurements file" e], h1)
      | (None, h1) =>
          match sdkIMAMeasurements client ctx c with
          | None => None
          | Some (Some e, _, data) =>
              Some ([first; ErrLine "Error retrieving Linux IMA measurements file" e],
                    h1 ++ [AWrite filename data; AClose filename])
          | Some (None, pcr10, data) =>
              let h2 := h1 ++ [AWrite filename data] in
              match imaVerify pcr10 (os_read h2 filename) with
              | None => None
              | Some said =>
                  Some ([first; Line ("Linux IMA measurements file retrieved and saved successfully as " +:+ filename
                                      +:+ "! PCR10 = " +:+ hexEncode pcr10)] ++ said, h2 ++ [AClose filename])
              end
          end
      end
  end.

(** ** Checksums: [checksum.go] *)

(** [json.Unmarshal] and [json.Marshal] of a computation, and SHA-3. *)
Class ManifestJSON := {
  unmarshalComputation : list byte -> result error Computation;
  marshalComputation : Computation -> result error (list byte) }.

Definition manifestChecksum `{OS, ArchiveLib, ManifestJSON} (path : string) (h : list act) : result error string :=
  let* file := os_read h path in
  let* cmp := unmarshalComputation file in
  let* jsonBytes := marshalComputation cmp in
  Ok (hexEncode (sha3Sum256 jsonBytes)).

Definition hexToBase64 (hexStr : string) : string :=
  match hexDecode (codes hexStr) with None => "" | Some decoded => base64StdEncode (map toByte decoded) end.
Definition hashOut (toBase64 : bool) (hashHex : string) : string :=
  if toBase64 then hexToBase64 hashHex else hashHex.

Definition checksumCmd `{OS, ArchiveLib, ManifestJSON} (ismanifest toBase64 : bool) (path : string) (h : list act)
  : list say :=
  if ismanifest then
    match manifestChecksum path h with
    | Err e => [ErrLine "Error computing hash" e]
    | Ok hash => [Line ("Hash of manifest file: " +:+ hashOut toBase64 hash)]
    end
  else
    match fst (ChecksumHex path h) with
    | Err e => [ErrLine "Error computing hash" e]
    | Ok hash => [Line ("Hash of file: " +:+ hashOut toBase64 hash)]
    end.

(** ** A log of measurements and its replay *)

Record imaEntry := mkEntry { ie_pcr : string; ie_digest : list byte; ie_tail : string }.

Definition entryLine (e : imaEntry) : list Z :=
  codes (ie_pcr e) ++ 32 :: codes (hexEncode (ie_digest e)) ++ 32 :: codes (ie_tail e).

(** A word of printable characters without a space. *)
Definition isWord (l : list Z) : Prop := l <> [] /\ Forall (fun c => 32 < c < 127) l.

Definition entryOk (e : imaEntry) : Prop :=
  isWord (codes (ie_pcr e)) /\ length (ie_digest e) = 20%nat /\ 10 ∉ codes (ie_tail e) /\ 13 ∉ codes (ie_tail e)
  /\ Z.of_nat (length (entryLine e)) < MaxScanTokenSize.

(** What the kernel does with an entry: the register 10 is extended with the digest, or
    with ones in place of the digest of a violation. *)
Definition extendEntry (pcr : list byte) (e : imaEntry) : list byte :=
  if bool_decide (ie_pcr e = "10") then
    sha1Sum (pcr ++ (if bool_decide (ie_digest e = replicate 20 x00) then replicate 20 xff else ie_digest e))
  else pcr.

Lemma word_not_space c : 32 < c < 127 -> IsSpace c = false.
Proof. unfold IsSpace, inRange. lia. Qed.

Lemma fieldsFuel_word w : forall n cur rest,
  Forall (fun c => 32 < c < 127) w ->
  fieldsFuel (length w + n) cur (w ++ rest) = fieldsFuel n (cur ++ w) rest.
Proof.
  induction w as [|c t IH]; intros n cur rest Hw; [by rewrite app_nil_r|].
  apply Forall_cons in Hw as [Hc Ht]. change ((c :: t) ++ rest) with (c :: (t ++ rest)).
  cbn [length Nat.add fieldsFuel]. rewrite decodeRune_ascii by lia. cbn iota beta. rewrite word_not_space by done.
  change (take 1 (c :: t ++ rest)) with [c]. change (drop 1 (c :: t ++ rest)) with (t ++ rest).
  rewrite IH by done. by rewrite <- app_assoc.
Qed.

Lemma fieldsFuel_space n cur rest :
  cur <> [] -> fieldsFuel (S n) cur (32 :: rest) = ofCodes cur :: fieldsFuel n [] rest.
Proof. intros Hc. cbn [fieldsFuel]. rewrite decodeRune_ascii by lia. cbn. by destruct cur. Qed.

Lemma hexDigit_code z : 0 <= z < 16 -> 32 < codeOf (hexDigit z) < 127 /\ hexValue (codeOf (hexDigit z)) = Some z.
Proof.
  intros Hz. assert (H : In z (map Z.of_nat (seq 0 16))).
  { apply in_map_iff. exists (Z.to_nat z). split; [lia|]. apply in_seq. lia. }
  revert H. clear Hz. cbn. intros H. repeat (destruct H as [<-|H]; [by vm_compute|]). done.
Qed.

Lemma nibbles b : 0 <= byteZ b / 16 < 16 /\ 0 <= byteZ b mod 16 < 16.
Proof.
  pose proof (byteZ_range b). split; [|apply Z.mod_pos_bound; lia].
  split; [apply Z.div_pos; lia|apply Z.div_lt_upper_bound; lia].
Qed.

Lemma hexEncode_codes b t :
  codes (hexEncode (b :: t)) = codeOf (hexDigit (byteZ b / 16)) :: codeOf (hexDigit (byteZ b mod 16)) :: codes (hexEncode t).
Proof. done. Qed.

Lemma hexEncode_word d : Forall (fun c => 32 < c < 127) (codes (hexEncode d)).
Proof.
  induction d as [|b t IH]; [constructor|]. rewrite hexEncode_codes. destruct (nibbles b) as [H1 H2].
  repeat constructor; try apply (hexDigit_code _ H1); try apply (hexDigit_code _ H2). done.
Qed.

Lemma hexDecode_encode d : hexDecode (codes (hexEncode d)) = Some (map byteZ d).
Proof.
  induction d as [|b t IH]; [done|]. rewrite hexEncode_codes. cbn [hexDecode]. destruct (nibbles b) as [H1 H2].
  rewrite (proj2 (hexDigit_code _ H1)), (proj2 (hexDigit_code _ H2)). cbn [mbind option_bind]. rewrite IH.
  cbn. do 2 f_equal. rewrite (Z.div_mod (byteZ b) 16) at 3 by done. lia.
Qed.

Lemma zeroDigest_hex : zeroDigest = hexEncode (replicate 20 x00).
Proof. by vm_compute. Qed.
Lemma onesDigest_hex : onesDigest = hexEncode (replicate 20 xff).
Proof. by vm_compute. Qed.

Lemma entry_fields e : entryOk e ->
  exists rest, Fields (ofCodes (entryLine e)) = ie_pcr e :: hexEncode (ie_digest e) :: rest.
Proof.
  intros ((Hne & Hp) & Hd & _ & _ & _). unfold Fields.
  assert (Hdne : codes (hexEncode (ie_digest e)) <> []).
  { destruct (ie_digest e) as [|b t]; [done|]. by rewrite hexEncode_codes. }
  rewrite codes_ofCodes.
  2: { unfold entryLine. rewrite Forall_app, Forall_cons, Forall_app, Forall_cons.
       split; [eapply Forall_impl; [exact Hp|cbn; lia]|]. split; [lia|].
       split; [eapply Forall_impl; [apply hexEncode_word|cbn; lia]|]. split; [lia|apply codes_range]. }
  unfold entryLine at 2. set (tail := codes (ie_tail e)).
  assert (length (entryLine e) = (length (codes (ie_pcr e)) + S (length (codes (hexEncode (ie_digest e))) + S (length tail)))%nat) as ->.
  { unfold entryLine. rewrite !length_app. cbn [length]. by rewrite length_app. }
  rewrite fieldsFuel_word by done. rewrite app_nil_l, fieldsFuel_space by done.
  rewrite fieldsFuel_word by apply hexEncode_word. rewrite app_nil_l, fieldsFuel_space by done.
  rewrite !ofCodes_codes. by eexists.
Qed.

Lemma imaLine_entry pcr e : entryOk e -> imaLine pcr (ofCodes (entryLine e)) = Some (extendEntry pcr e, []).
Proof.
  intros He. destruct (entry_fields e He) as [rest Hf]. unfold imaLine, extendEntry. rewrite Hf.
  destruct (bool_decide_reflect (ie_pcr e = "10")); cbn [negb]; [|done]. rewrite zeroDigest_hex, onesDigest_hex.
  destruct (bool_decide_reflect (ie_digest e = replicate 20 x00)) as [->|Hn].
  - rewrite bool_decide_true by done. by rewrite hexDecode_encode, toByte_map.
  - rewrite bool_decide_false by (intros E; by apply hexEncode_inj in E). by rewrite hexDecode_encode, toByte_map.
Qed.

Lemma imaReplay_entries es : forall pcr rest, Forall entryOk es ->
  imaReplay pcr (map (fun e => ofCodes (entryLine e)) es ++ rest) = imaReplay (foldl extendEntry pcr es) rest.
Proof.
  induction es as [|e t IH]; intros pcr rest Hes; [done|]. apply Forall_cons in Hes as [He Ht].
  cbn [map app imaReplay foldl]. rewrite imaLine_entry by done. rewrite IH by done.
  by destruct (imaReplay _ rest) as [[p said]|].
Qed.

Lemma scanLines_line l : forall cur rest, 10 ∉ l -> Z.of_nat (length (cur ++ l)) < MaxScanTokenSize ->
  scanLines cur (l ++ 10 :: rest) = ofCodes (dropCR (cur ++ l)) :: scanLines [] rest.
Proof.
  induction l as [|b t IH]; intros cur rest Hn Hl.
  - cbn. rewrite app_nil_r in *. by rewrite (proj2 (Z.leb_gt _ _) Hl).
  - apply not_elem_of_cons in Hn as [Hb Ht]. cbn [app scanLines]. rewrite (proj2 (Z.eqb_neq b 10)) by congruence.
    rewrite IH by (done || by rewrite <- app_assoc). by rewrite <- app_assoc.
Qed.

Lemma entry_no_newline e : entryOk e -> 10 ∉ entryLine e /\ dropCR (entryLine e) = entryLine e.
Proof.
  intros ((_ & Hp) & Hd & Hn & Hr & _). pose proof (hexEncode_word (ie_digest e)) as Hw.
  assert (Hout : forall c l, Forall (fun c => 32 < c < 127) l -> c <= 32 -> c ∉ l).
  { intros c l Hl Hc Hin. rewrite Forall_forall in Hl. specialize (Hl c Hin). lia. }
  assert (Hin : forall c, c <= 31 -> c ∉ codes (ie_tail e) -> c ∉ entryLine e).
  { intros c Hc Ht. unfold entryLine. rewrite elem_of_app, elem_of_cons, elem_of_app, elem_of_cons.
    intros [H|[H|[H|[H|H]]]]; [|lia| |lia|done]; revert H; apply Hout; done || lia. }
  split; [by apply Hin|].
  assert (H13 : 13 ∉ entryLine e) by by apply Hin.
  unfold dropCR. rewrite bool_decide_false; [done|]. intros Hl. apply H13. by apply last_Some_elem_of.
Qed.

Definition imaLog (es : list imaEntry) : list Z := concat (map (fun e => entryLine e ++ [10]) es).

Lemma scanLines_log es : forall rest, Forall entryOk es ->
  scanLines [] (imaLog es ++ rest) = map (fun e => ofCodes (entryLine e)) es ++ scanLines [] rest.
Proof.
  unfold imaLog. induction es as [|e t IH]; intros rest Hes; [done|]. apply Forall_cons in Hes as [He Ht].
  destruct (entry_no_newline e He) as [H10 Hcr]. cbn [map concat]. rewrite <- !app_assoc. cbn [app].
  rewrite scanLines_line; [|done|by destruct He as (_ & _ & _ & _ & ?)]. cbn [app]. by rewrite Hcr, IH.
Qed.

Lemma imaLog_range es : Forall (fun c => 0 <= c < 256) (imaLog es).
Proof.
  unfold imaLog. induction es as [|e t IH]; [constructor|]. cbn [map concat]. apply Forall_app. split; [|done].
  unfold entryLine. repeat first [apply codes_range|apply Forall_app; split|constructor; [lia|]]. constructor.
Qed.

(** The measurements of a log are called verified exactly when the register the agent
    reported is the replay of the log: the entries of register 10 in their order, each
    hashed onto what was before, with ones in place of the zero digest of a violation. *)
Theorem ima_verified_iff pcr10 es :
  Forall entryOk es ->
  imaVerify pcr10 (Ok (bytesOf (ofCodes (imaLog es))))
  = Some [if bool_decide (pcr10 = foldl extendEntry (replicate 20 x00) es) then Line "Measurements file verified!"
          else Line "Measurements file not verified"].
Proof.
  intros Hes. unfold imaVerify. rewrite stringOf_bytesOf, codes_ofCodes by apply imaLog_range.
  rewrite <- (app_nil_r (imaLog es)), scanLines_log by done. rewrite imaReplay_entries by done. cbn. do 2 f_equal.
  set (pcr := foldl _ _ _). destruct (bool_decide_reflect (hexEncode pcr10 = hexEncode pcr)) as [E|E].
  - rewrite bool_decide_true; [done|by apply hexEncode_inj].
  - rewrite bool_decide_false; [done|]. by intros ->.
Qed.

(** A blank line in the log is an index out of range. *)
Theorem ima_blank_line_panics pcr10 es rest :
  Forall entryOk es -> Forall (fun c => 0 <= c < 256) rest ->
  imaVerify pcr10 (Ok (bytesOf (ofCodes (imaLog es ++ 10 :: rest)))) = None.
Proof.
  intros Hes Hr. unfold imaVerify. rewrite stringOf_bytesOf, codes_ofCodes.
  2: { apply Forall_app. split; [apply imaLog_range|]. by constructor. }
  rewrite scanLines_log, imaReplay_entries by done. done.
Qed.

(** ** Evidence on the command line *)

(** The nonce a user gives for a TDX report has no influence on the request: the report
    data asked for are zeros, although the flag is documented for this type, while for an
    SEV-SNP report they are the nonce, filled up with zeros. *)
Theorem tdx_nonce_ignored f r n :
  (requestNonces "tdx" TDX f = Ok (r, n) -> r = copyInto SEVNonce [])
  /\ (requestNonces "snp" SNP f = Ok (r, n) -> r = copyInto SEVNonce (gf_teeNonce f) /\ gf_teeNonce f <> []
      /\ len (gf_teeNonce f) <= SEVNonce).
Proof.
  unfold requestNonces. cbv zeta.
  rewrite !(bool_decide_false ("tdx" = _)) by done. rewrite !(bool_decide_true ("snp" = "snp")) by done.
  rewrite !(bool_decide_false ("snp" = _)) by done. rewrite !(bool_decide_false (TDX = _)) by done.
  rewrite (bool_decide_true (SNP = SNP)) by done. cbn [andb orb negb]. split.
  - destruct (_ || _); [done|]. by intros [= <- _].
  - destruct (Z.eqb_spec (len (gf_teeNonce f)) 0) as [|Hl]; [done|]. destruct (Z.ltb_spec SEVNonce (len (gf_teeNonce f))); [done|].
    intros [= <- _]. split_and!; [done| |lia]. intros E. by rewrite E in Hl.
Qed.

Section evidence_commands.
Context {K P : Type} `{!AgentCrypto K, !Signing P, !Service, !Console, !ResultFile, !OS, !KeyCodec P, !ReportFormats}.

(** What fetching evidence gives against the agent. *)
Lemma fetchReport_refused now1 now2 spare (s : AgentAuth.service K) t attType reportData nonce c :
  exists msg e, fetchReport (agentOf now1 now2 spare s) t ∅ attType reportData nonce c = Some (Some (ErrLine msg e), []).
Proof.
  destruct (unsigned_evidence now1 now2 spare s ∅ c reportData nonce (platformNumber attType) (lookup_empty _))
    as (Ha & _ & e & Ht).
  unfold fetchReport. case_bool_decide; [rewrite Ht|rewrite Ha]; by eexists _, _.
Qed.

(** The command that fetches evidence never saves any: whatever the type, the flags and
    the state of the agent, no line reports success, and a request that passes the checks
    of the command leaves an empty file in place of the report that was there before. *)
Theorem get_never_saves now1 now2 spare (s : AgentAuth.service K) t f c h :
  exists lines h', getCmd (agentOf now1 now2 spare s) None ∅ t f c h = Some (lines, h')
    /\ Line "Attestation retrieved and saved successfully!" ∉ lines
    /\ (t ∈ validTypes -> is_Ok (requestNonces t (typeOf t).2 f) = true -> os_act h (AOpenTrunc (fileOfType t f) 438) = None ->
        h' = h ++ [AOpenTrunc (fileOfType t f) 438; AWrite (fileOfType t f) []]).
Proof.
  unfold getCmd. destruct (bool_decide_reflect (t ∈ validTypes)) as [Ht|]; cbn [negb].
  2: { eexists _, _. split; [done|]. split; [by intros ?%list_elem_of_singleton|done]. }
  assert (Hfirst : (typeOf t).1 <> "Attestation retrieved and saved successfully!").
  { unfold typeOf. by repeat case_bool_decide. }
  destruct (typeOf t) as [said attType]. cbn [fst snd] in *.
  destruct (requestNonces t attType f) as [[r n]|line] eqn:Er.
  2: { eexists _, _. split; [done|]. split; [|done]. rewrite elem_of_cons, list_elem_of_singleton.
       intros [[= E]|[= E]]; [done|]. revert Er. rewrite <- E. unfold requestNonces. cbv zeta. repeat case_match; done. }
  unfold perform. destruct (os_act h _) as [e|] eqn:Eo.
  { eexists _, _. split; [done|]. split; [|done]. rewrite elem_of_cons, list_elem_of_singleton. by intros [[= E]|?]. }
  destruct (fetchReport_refused now1 now2 spare s t attType r n c) as (msg & e & Hx). rewrite Hx. cbn [mbind option_bind].
  eexists _, _. split; [done|]. split; [|intros; by rewrite <- app_assoc].
  rewrite elem_of_cons, list_elem_of_singleton. by intros [[= E]|E].
Qed.
End evidence_commands.

(** ** Results *)

Section result_command.
Context {K P : Type} `{KeyPairs K P} `{!Service, !Console, !ResultFile, !OS, !KeyCodec P}.

(** The result a consumer asks for is saved where they asked for it as the service of
    the agent has it; the file is created before the agent is asked, so an error of the
    agent leaves it empty. *)
Theorem result_cmd_saves now now1 now2 rand outputDir filename keyFile spare c h (s : AgentAuth.service K) pem k md :
  let path := if bool_decide (outputDir = "") then filename else Join [outputDir; filename] in
  os_read h keyFile = Ok pem -> decodeKey (pemBlock pem) = Ok k -> (forall h a, os_act h a = None) ->
  generateMetadata now (Ok rand) ConsumerRole AgentService_Result k = Some (Ok md) ->
  mayCall now now1 now2 rand ConsumerRole AgentService_Result ∅ k s ->
  roomy "Downloading result" true -> (forall old new, writeFileErr old new = None) ->
  (forall x data, svc_Result x = Ok data -> len data * 100 <= maxInt64) ->
  exists i lines, 0 <= i < len (resultConsumers s)
    /\ let answer := svc_Result (serviceContext (mkRpc (Some md) (Some i))) in
       resultCmd (agentOf now1 now2 spare s) None now (Ok rand) outputDir filename keyFile c h
       = Some (lines, h ++ (if bool_decide (outputDir = "") then [] else [AMkdirAll outputDir])
                        ++ [AOpenTrunc path 438; AWrite path (match answer with Ok data => data | Err _ => [] end);
                            AClose path])
       /\ (Line "Computation result retrieved and saved successfully!" ∈ lines <-> is_Ok answer = true).
Proof.
  intros path Hp Hk Hact Hg Hm Hr Hf Hl.
  destruct (result_delivered now now1 now2 rand k md s spare c Hg Hm Hr Hf Hl) as (i & Hi & E).
  exists i. unfold resultCmd. rewrite Hp. unfold perform. rewrite !Hact.
  assert (Hdir : (if bool_decide (outputDir = "") then (@None error, h) else (None, h ++ [AMkdirAll outputDir]))
                 = (None, h ++ (if bool_decide (outputDir = "") then [] else [AMkdirAll outputDir]))).
  { case_bool_decide; [by rewrite app_nil_r|done]. }
  rewrite Hdir, Hk, Hact, E. fold path. cbv zeta.
  destruct (svc_Result _) as [data|e]; cbn [mbind option_bind is_Ok]; eexists; (split; [done|]);
    (split; [by rewrite <- !app_assoc|]).
  - split; [done|]. intros _. right. left.
  - split; [|done]. rewrite elem_of_cons, list_elem_of_singleton. by intros [[= ]|].
Qed.
End result_command.

(** ** Samples *)

Module CliSample.
Import SdkSample.

(** A block is a count in ones, its type and its bytes. *)
Fixpoint ones (l : list byte) : nat * list byte :=
  match l with
  | x01 :: t => let '(n, r) := ones t in (S n, r)
  | _ => (O, l)
  end.
Definition blockOf (l : list byte) : option (string * list byte) :=
  match ones l with
  | (n, x00 :: r) => Some (stringOf (take n r), drop n r)
  | _ => None
  end.
Definition encode (t : string) (b : list byte) : list byte :=
  replicate (length (bytesOf t)) x01 ++ x00 :: bytesOf t ++ b.

Lemma ones_replicate n r : ones (replicate n x01 ++ x00 :: r) = (n, x00 :: r).
Proof. induction n as [|n IH]; [done|]. cbn. by rewrite IH. Qed.

#[local] Instance codec : KeyCodec unit := {|
  generateRSA := Ok tt; generateECDSA := Ok tt; generateEd25519 := Ok tt; marshalPublic _ := Ok [x2a];
  marshalPKCS1 _ := [x11]; marshalEC _ := Ok [x0e]; marshalPKCS8 _ := Ok [x18];
  parsePKCS1 b := if bool_decide (b = [x11]) then Ok tt else Err (ErrNew "pkcs1");
  parseEC b := if bool_decide (b = [x0e]) then Ok tt else Err (ErrNew "ec");
  parsePKCS8 b := if bool_decide (b = [x18]) then Ok (PrivEd25519 tt) else Err (ErrNew "pkcs8");
  pemEncode := encode; pemBlock := blockOf |}.
#[local] Instance codec_laws : KeyCodecLaws unit.
Proof.
  split; cbn.
  - intros t b. unfold blockOf, encode. rewrite ones_replicate, take_app_length, drop_app_length. by rewrite stringOf_bytesOf.
  - by intros [].
  - done.
  - by intros [] b [= <-].
  - by intros [] b [= <-].
Qed.

Definition keyPem : list byte := encode ed25519KeyType [x18].
#[local] Instance os : OS := {|
  os_act := fun _ _ => None; os_stat := fun _ _ => Ok 0;
  os_read := fun _ p => Ok (if bool_decide (p = privateKeyFile) then keyPem else algo);
  os_walk := fun _ _ => Ok []; os_glob := fun _ _ => Ok []; os_getwd := fun _ => Ok "/" |}.
#[local] Instance files : Files := {|
  os_open := fun h p => match os_read h p with Ok d => Ok (regular d) | Err e => Err e end;
  os_createTemp := fun _ _ => Ok "/tmp/dataset.zip"; os_seek := fun _ _ => None |}.
#[local] Instance files_laws : FilesLaws.
Proof. split. intros h p f. cbn [os_open files]. destruct (os_read h p) as [d|] eqn:E; [|done]. intros [= <-]. by exists d. Qed.



Lemma data_cmd_delivers_witness :
  exists data, fst (Checksum "data/set.csv" []) = Ok (sha3Sum256 data)
    /\ (data <> [] -> len data <= maxDatasetUploadBytes ->
        dataCmd (agentOf now now spare agent) None now (Ok rand) false "data/set.csv" privateKeyFile screen []
        = Some ([Line "Uploading dataset: data/set.csv"; Line "Successfully uploaded dataset!"], [])).
Proof.
  refine (data_cmd_delivers now now now rand false "data/set.csv" privateKeyFile spare screen [] [] (regular algo) None []
    agent key _ eq_refl eq_refl (mdOf_ok _ _) (sample_mayCall _ _ ∅ _ _) (no_terminal _ _)); [left|by right].
Defined.

Definition entry : imaEntry := mkEntry "10" (replicate 20 x00) "ima-ng sha256 boot_aggregate".
Lemma entry_ok : Forall entryOk [entry].
Proof.
  constructor; [|constructor]. split; [split; [done|repeat constructor; lia]|]. split; [done|].
  split_and!; [by apply (bool_decide_unpack _)|by apply (bool_decide_unpack _)|by vm_compute].
Qed.

Lemma ima_verified_iff_witness :
  imaVerify (sha1Sum (replicate 20 x00 ++ replicate 20 xff)) (Ok (bytesOf (ofCodes (imaLog [entry]))))
  = Some [Line "Measurements file verified!"].
Proof.
  refine (eq_trans (ima_verified_iff (sha1Sum (replicate 20 x00 ++ replicate 20 xff)) [entry] entry_ok) _).
  by vm_compute.
Defined.

Lemma ima_blank_line_panics_witness : imaVerify [] (Ok (bytesOf (ofCodes (imaLog [entry] ++ [10])))) = None.
Proof. exact (ima_blank_line_panics [] [entry] [] entry_ok (Forall_nil_2 _)). Defined.

Lemma result_cmd_saves_witness :
  let path := if bool_decide ("out" = "") then "results.zip" else Join ["out"; "results.zip"] in
  exists i lines, 0 <= i < len (resultConsumers agent)
  /\ let answer := svc_Result (serviceContext (mkRpc (Some (mdOf ConsumerRole AgentService_Result)) (Some i))) in
     resultCmd (agentOf now now spare agent) None now (Ok rand) "out" "results.zip" privateKeyFile screen []
     = Some (lines, [] ++ (if bool_decide ("out" = "") then [] else [AMkdirAll "out"])
                      ++ [AOpenTrunc path 438; AWrite path (match answer with Ok data => data | Err _ => [] end); AClose path])
     /\ (Line "Computation result retrieved and saved successfully!" ∈ lines <-> is_Ok answer = true).
Proof.
  refine (result_cmd_saves now now now rand "out" "results.zip" privateKeyFile spare screen [] agent keyPem key _
    eq_refl eq_refl (fun _ _ => eq_refl) (mdOf_ok _ _) (sample_mayCall _ _ ∅ _ (or_intror eq_refl)) (no_terminal _ _)
    (fun _ _ => eq_refl) _); [left|].
  intros x data [= <-]. vm_compute. discriminate.
Defined.
End CliSample.
