(* ===== verification/RedTeam.v ===== *)
(** * The hardware check: [cmd/hardware-attestation-redteam]

    The program that shows on real hardware that evidence is bound to the challenge of its
    session: it collects evidence for two challenges, each must be accepted for its own and
    refused for the other's, and, for SEV-SNP, an appraisal contract may be checked too.
    The providers are those of Attester.v, the contract that of Qemu.v.  The theorems say
    what a pass means, which of its checks follow from the others, and that hardware that
    does what its vendor documents passes. *)

From stdpp Require Import base list strings.
From Stdlib Require Import ZArith Lia Strings.Byte.
From S2P Require Import Prelude GoStrings Errors GoPath GoOS GoTime GoFormat Sha2 AgentApi Qemu Corim Eat Evidence Attester Cloud.

Definition platformAuto : string := "auto".
Definition platformSNP : string := "snp".
Definition platformSNPvTPM : string := "snp-vtpm".
Definition platformTDX : string := "tdx".
Definition reportDataSize : Z := 64.

Definition errChallengeMismatch : error := ErrNew "attestation evidence is not bound to verifier challenge".

Record runOptions := mkRunOptions {
  ro_Platform : string; ro_VMPL : Z; ro_ExpectedHostDataHex : string; ro_RequireKernelHashes : bool;
  ro_KernelHashesEvidence : bool; ro_EvidenceDir : string }.

Record extractedEvidence := mkExtracted { xe_ReportData : list byte; xe_HostData : list byte }.

Record runSummary := mkSummary {
  su_TimestampUTC : string; su_Platform : string; su_EvidenceASHA256 : string; su_EvidenceBSHA256 : string;
  su_ChallengeASHA256 : string; su_ChallengeBSHA256 : string; su_HostDataSHA256 : string;
  su_AppraisalContractCheck : bool }.

(** [json.MarshalIndent] of the summary. *)
Class SummaryJSON := { marshalSummary : runSummary -> result error (list byte) }.

Definition sha256Hex (data : list byte) : string := hexEncode (Sum256 data).

(** [rand] is what [rand.Read] puts into the first half. *)
Definition newReportData (context : string) (rand : result error (list byte)) : result error (list byte) :=
  let* entropy := wrapRes "generate verifier challenge entropy" rand in
  Ok (copyInto 32 entropy ++ Sum256 (bytesOf context)).

Definition validateChallengeBinding (reportData challenge : list byte) : option error :=
  if negb (len reportData =? reportDataSize) then Some (ErrNew "attestation report_data length")
  else if negb (len challenge =? reportDataSize) then Some (ErrNew "verifier challenge length")
  else if negb (bool_decide (reportData = challenge)) then Some (ErrWrap "report_data_sha256" errChallengeMismatch)
  else None.

Definition mismatch (e : option error) : bool :=
  match e with Some e => errorsIs e "attestation evidence is not bound to verifier challenge" | None => false end.

Definition resolvePlatform (m : machine) (requested : string) : result error string :=
  let normalized := ToLower (TrimSpace requested) in
  if bool_decide (normalized = "") || bool_decide (normalized = platformAuto) then
    match CCPlatform m with
    | SNP => Ok platformSNP
    | SNPvTPM => Ok platformSNPvTPM
    | TDX => Ok platformTDX
    | Azure => Err (ErrNew "Azure MAA runtime fetch is disabled in this repository")
    | NoCC => Err (ErrNew "no confidential-computing attestation device detected")
    | VTPM => Err (ErrNew "detected confidential-computing platform is not supported by this gate")
    end
  else if bool_decide (normalized ∈ [platformSNP; platformSNPvTPM; platformTDX]) then Ok normalized
  else Err (ErrNew "unsupported attestation platform").

Section exercise.
Context `{OS, SummaryJSON}.

Definition writeSummary (dir : string) (summary : runSummary) (h : list act) : option error * list act :=
  if bool_decide (TrimSpace dir = "") then (None, h)
  else match perform (AMkdirAll dir) h with
       | (Some e, h1) => (Some (ErrWrap "create evidence directory" e), h1)
       | (None, h1) =>
           match marshalSummary summary with
           | Err e => (Some (ErrWrap "marshal evidence summary" e), h1)
           | Ok payload =>
               let '(e, h2) := WriteFile (Join [dir; "summary.json"]) (payload ++ [x0a]) 420 h1 in
               (wrapErr "write evidence summary" e, h2)
           end
       end.

(** The appraisal: whether it was checked, and the hash of the host data. *)
Definition appraise (platform : string) (opts : runOptions) (parsedA : extractedEvidence) : result error (bool * string) :=
  if negb (bool_decide (ro_ExpectedHostDataHex opts = "")) || ro_RequireKernelHashes opts then
    if negb (bool_decide (platform = platformSNP)) && negb (bool_decide (platform = platformSNPvTPM))
    then Err (ErrNew "SEV-SNP appraisal contract requested for non-SNP platform")
    else if negb (bool_decide (ro_ExpectedHostDataHex opts = "")) && (len (xe_HostData parsedA) =? 0)
    then Err (ErrNew "SEV-SNP evidence does not contain HostData")
    else
      let trimmed := TrimSpace (ro_ExpectedHostDataHex opts) in
      let* expectedHostData :=
        if bool_decide (trimmed = "") then Ok "" else wrapRes "decode expected HostData" (NormalizeSEVSNPHostData trimmed) in
      let contract := mkContract (negb (bool_decide (expectedHostData = ""))) expectedHostData (ro_RequireKernelHashes opts) in
      let evidence := mkEvidence (hexEncode (xe_HostData parsedA)) (ro_KernelHashesEvidence opts) in
      let* _ := wrapRes "SEV-SNP appraisal contract rejected evidence" (ValidateAppraisal contract evidence) in
      Ok (true, if 0 <? len (xe_HostData parsedA) then sha256Hex (xe_HostData parsedA) else "")
  else Ok (false, "").

(** What is checked of the two pieces of evidence before the appraisal. *)
Definition crossCheck (platform : string) (extract : list byte -> result error extractedEvidence)
    (challengeA challengeB evidenceA evidenceB : list byte) : result error extractedEvidence :=
  if (len evidenceA =? 0) || (len evidenceB =? 0) then Err (ErrNew "provider returned empty evidence")
  else if bool_decide (evidenceA = evidenceB) then Err (ErrNew "provider returned identical evidence for distinct challenges")
  else
    let* parsedA := wrapRes "extract session A report data" (extract evidenceA) in
    let* parsedB := wrapRes "extract session B report data" (extract evidenceB) in
    match validateChallengeBinding (xe_ReportData parsedA) challengeA with
    | Some e => Err (ErrWrap "session A evidence rejected for its own challenge" e)
    | None =>
        match validateChallengeBinding (xe_ReportData parsedB) challengeB with
        | Some e => Err (ErrWrap "session B evidence rejected for its own challenge" e)
        | None =>
            if negb (mismatch (validateChallengeBinding (xe_ReportData parsedA) challengeB))
            then Err (ErrNew "stale session A evidence was not rejected for session B challenge")
            else if negb (mismatch (validateChallengeBinding (xe_ReportData parsedB) challengeA))
            then Err (ErrNew "stale session B evidence was not rejected for session A challenge")
            else Ok parsedA
        end
    end.

(** [None] is a panic of the provider. *)
Definition exerciseTEE (now : Time) (randA randB : result error (list byte)) (platform : string)
    (collect : list byte -> option (result error (list byte))) (extract : list byte -> result error extractedEvidence)
    (opts : runOptions) (h : list act) : option (result error runSummary * list act) :=
  match newReportData "agents-secure-binding/hardware-red-team/session-A" randA,
        newReportData "agents-secure-binding/hardware-red-team/session-B" randB with
  | Err e, _ | _, Err e => Some (Err e, h)
  | Ok challengeA, Ok challengeB =>
      collectedA ← collect challengeA;
      match collectedA with
      | Err e => Some (Err (ErrWrap "collect evidence for session A" e), h)
      | Ok evidenceA =>
          collectedB ← collect challengeB;
          match collectedB with
          | Err e => Some (Err (ErrWrap "collect evidence for session B" e), h)
          | Ok evidenceB =>
              match (let* parsedA := crossCheck platform extract challengeA challengeB evidenceA evidenceB in
                     appraise platform opts parsedA) with
              | Err e => Some (Err e, h)
              | Ok (appraisalChecked, hostDataHash) =>
                  let summary := mkSummary (formatRFC3339Nano (now - now mod Second)) platform (sha256Hex evidenceA)
                    (sha256Hex evidenceB) (sha256Hex challengeA) (sha256Hex challengeB) hostDataHash appraisalChecked in
                  match writeSummary (ro_EvidenceDir opts) summary h with
                  | (Some e, h') => Some (Err e, h')
                  | (None, h') => Some (Ok summary, h')
                  end
              end
          end
      end
  end.
End exercise.

Section run.
Context `{OS, SummaryJSON, EvidenceLib, ReportAbi, SevLib, TpmLib, OtherTee}.

Definition extractSEVSNPEvidence (evidence : list byte) : result error extractedEvidence :=
  let* attestation := unmarshalSevSnp evidence in
  match sa_Report attestation with
  | None => Err (ErrNew "missing SEV-SNP report")
  | Some report => Ok (mkExtracted (sr_ReportData report) (sr_HostData report))
  end.

Definition extractTDXEvidence (evidence : list byte) : result error extractedEvidence :=
  let* quote := QuoteToProto evidence in
  match quote with
  | None => Err (ErrNew "unexpected TDX quote type")
  | Some q => Ok (mkExtracted (q_ReportData q) [])
  end.

Definition runSEVSNP (now : Time) (randA randB : result error (list byte)) (platform : string) (opts : runOptions)
    (h : list act) : option (result error runSummary * list act) :=
  exerciseTEE now randA randB platform (pv_TeeAttestation (vtpmProvider h false (ro_VMPL opts))) extractSEVSNPEvidence opts h.

Definition run (m : machine) (now : Time) (randA randB : result error (list byte)) (opts : runOptions) (h : list act)
  : option (result error runSummary * list act) :=
  match resolvePlatform m (ro_Platform opts) with
  | Err e => Some (Err e, h)
  | Ok platform =>
      if bool_decide (platform ∈ [platformSNP; platformSNPvTPM]) then runSEVSNP now randA randB platform opts h
      else if bool_decide (platform = platformTDX) then
        if negb (bool_decide (ro_ExpectedHostDataHex opts = "")) || ro_RequireKernelHashes opts
        then Some (Err (ErrNew "HostData and kernel-hashes appraisal is only defined for SEV-SNP"), h)
        else exerciseTEE now randA randB platform (pv_TeeAttestation tdxProvider) extractTDXEvidence opts h
      else Some (Err (ErrNew "unsupported attestation platform"), h)
  end.
End run.

(** ** What a pass means *)

Definition challenge (session : string) (entropy : list byte) : list byte :=
  copyInto 32 entropy ++ Sum256 (bytesOf ("agents-secure-binding/hardware-red-team/session-" +:+ session)).

Lemma length_copyInto n b : 0 <= n -> length (copyInto n b) = Z.to_nat n.
Proof. intros Hn. unfold copyInto. rewrite length_app, length_replicate, length_take. lia. Qed.

Lemma len_challenge s r : len (challenge s r) = reportDataSize.
Proof.
  unfold challenge, len. rewrite length_app, length_copyInto by done.
  assert (length (Sum256 (bytesOf ("agents-secure-binding/hardware-red-team/session-" +:+ s))) = 32%nat) as ->
    by apply length_digest. done.
Qed.

Lemma sessions_differ :
  Sum256 (bytesOf "agents-secure-binding/hardware-red-team/session-A")
  <> Sum256 (bytesOf "agents-secure-binding/hardware-red-team/session-B").
Proof. vm_compute. discriminate. Qed.

Lemma challenges_differ r r' : challenge "A" r <> challenge "B" r'.
Proof.
  unfold challenge. intros E. apply (f_equal (drop (Z.to_nat 32))) in E.
  rewrite <- (length_copyInto 32 r) in E at 1 by done. rewrite drop_app_length in E.
  rewrite <- (length_copyInto 32 r') in E by done. rewrite drop_app_length in E. by apply sessions_differ.
Qed.

Lemma binding_None d c : len c = reportDataSize -> (validateChallengeBinding d c = None <-> d = c).
Proof.
  intros Hc. unfold validateChallengeBinding. rewrite Hc. cbn [negb Z.eqb]. split.
  - destruct (len d =? reportDataSize); [|done]. rewrite Z.eqb_refl. cbn [negb]. by case_bool_decide.
  - intros ->. rewrite Hc, Z.eqb_refl. cbn [negb]. by rewrite bool_decide_true.
Qed.

Lemma binding_mismatch d c : len d = reportDataSize -> len c = reportDataSize -> d <> c ->
  mismatch (validateChallengeBinding d c) = true.
Proof.
  intros Hd Hc Hn. unfold validateChallengeBinding. rewrite Hd, Hc, Z.eqb_refl. cbn [negb].
  rewrite bool_decide_false by done. by vm_compute.
Qed.

Definition boundTo (extract : list byte -> result error extractedEvidence) (evidence challenge : list byte)
    (parsed : extractedEvidence) : Prop :=
  evidence <> [] /\ extract evidence = Ok parsed /\ xe_ReportData parsed = challenge.

Lemma crossCheck_Ok platform extract rA rB eA eB pA :
  crossCheck platform extract (challenge "A" rA) (challenge "B" rB) eA eB = Ok pA <->
  boundTo extract eA (challenge "A" rA) pA /\ exists pB, boundTo extract eB (challenge "B" rB) pB.
Proof.
  unfold crossCheck, boundTo. split.
  - destruct (Z.eqb_spec (len eA) 0) as [|HA]; [done|]. destruct (Z.eqb_spec (len eB) 0) as [|HB]; [done|]. cbn [orb].
    case_bool_decide; [done|]. destruct (extract eA) as [qA|]; [|done]. destruct (extract eB) as [qB|]; [|done].
    cbn [wrapRes]. destruct (validateChallengeBinding (xe_ReportData qA) (challenge "A" rA)) eqn:VA; [done|].
    destruct (validateChallengeBinding (xe_ReportData qB) (challenge "B" rB)) eqn:VB; [done|].
    apply (binding_None _ _ (len_challenge _ _)) in VA. apply (binding_None _ _ (len_challenge _ _)) in VB.
    do 2 (case_match; [done|]). intros [= <-]. split; [|exists qB]; (split_and!; [by intros ->|done|done]).
  - intros ((HA & XA & RA) & pB & HB & XB & RB).
    assert (forall e : list byte, e <> [] -> (len e =? 0) = false) as Hlen.
    { intros [|x t] He; [done|]. apply Z.eqb_neq. unfold len. cbn [length]. lia. }
    rewrite !Hlen by done. cbn [orb]. rewrite bool_decide_false.
    2: { intros ->. rewrite XB in XA. injection XA as <-. apply (challenges_differ rA rB). congruence. }
    rewrite XA, XB. cbn [wrapRes]. rewrite RA, RB.
    rewrite !(proj2 (binding_None _ _ (len_challenge _ _)) eq_refl).
    rewrite !binding_mismatch; try apply len_challenge; [done|apply not_eq_sym, challenges_differ|apply challenges_differ].
Qed.

Section passes.
Context `{OS, SummaryJSON}.

(** C16: the exercise passes exactly when both pieces of evidence carry the challenge they
    were collected for, the appraisal passes on the first, and the summary is written.
    That each is refused for the other's challenge and that they differ needs no check of
    its own: the challenges differ by the name of their session, whatever was drawn. *)
Theorem redteam_decides now rA rB platform collect extract opts h summary h' :
  exerciseTEE now (Ok rA) (Ok rB) platform collect extract opts h = Some (Ok summary, h') <->
  exists eA eB pA pB checked hash,
    collect (challenge "A" rA) = Some (Ok eA) /\ collect (challenge "B" rB) = Some (Ok eB)
    /\ boundTo extract eA (challenge "A" rA) pA /\ boundTo extract eB (challenge "B" rB) pB
    /\ appraise platform opts pA = Ok (checked, hash)
    /\ summary = mkSummary (formatRFC3339Nano (now - now mod Second)) platform (sha256Hex eA) (sha256Hex eB)
                   (sha256Hex (challenge "A" rA)) (sha256Hex (challenge "B" rB)) hash checked
    /\ writeSummary (ro_EvidenceDir opts) summary h = (None, h').
Proof.
  unfold exerciseTEE, newReportData. cbn [wrapRes].
  change (copyInto 32 rA ++ _) with (challenge "A" rA). change (copyInto 32 rB ++ _) with (challenge "B" rB). split.
  - destruct (collect (challenge "A" rA)) as [[eA|]|]; try done. cbn [mbind option_bind].
    destruct (collect (challenge "B" rB)) as [[eB|]|]; try done. cbn [mbind option_bind].
    destruct (crossCheck _ _ _ _ eA eB) as [pA|] eqn:Hc; [|done]. apply crossCheck_Ok in Hc as (HA & pB & HB).
    destruct (appraise platform opts pA) as [[checked hash]|] eqn:Ha; [|done]. cbv zeta.
    destruct (writeSummary _ _ h) as [[e|] h2] eqn:Hw; [done|]. intros [= <- <-].
    by exists eA, eB, pA, pB, checked, hash.
  - intros (eA & eB & pA & pB & checked & hash & -> & -> & HA & HB & Ha & -> & Hw). cbn [mbind option_bind].
    rewrite (proj2 (crossCheck_Ok platform extract rA rB eA eB pA)) by eauto. rewrite Ha. cbv zeta. by rewrite Hw.
Qed.
End passes.

(** ** The appraisal *)

Lemma appraise_Ok platform opts p hash :
  appraise platform opts p = Ok (true, hash) ->
  platform ∈ [platformSNP; platformSNPvTPM]
  /\ (TrimSpace (ro_ExpectedHostDataHex opts) <> "" -> exists n,
        NormalizeSEVSNPHostData (TrimSpace (ro_ExpectedHostDataHex opts)) = Ok n
        /\ NormalizeSEVSNPHostData (hexEncode (xe_HostData p)) = Ok n)
  /\ (ro_RequireKernelHashes opts = true -> ro_KernelHashesEvidence opts = true).
Proof.
  unfold appraise. destruct (_ || _); [|done].
  destruct (negb (bool_decide (platform = platformSNP)) && _) eqn:Hp; [done|]. destruct (_ && (_ =? 0)); [done|].
  assert (platform ∈ [platformSNP; platformSNPvTPM]) as Hin.
  { rewrite elem_of_cons, list_elem_of_singleton. apply andb_false_iff in Hp.
    rewrite !negb_false_iff, !bool_decide_eq_true in Hp. done. }
  destruct (bool_decide_reflect (TrimSpace (ro_ExpectedHostDataHex opts) = "")) as [Hb|Hb]; cbv zeta beta iota.
  - destruct (ValidateAppraisal _ _) as [[]|] eqn:Ha; [|done]. apply appraisal_decides in Ha as [_ Hk]. intros _. by split_and!.
  - destruct (NormalizeSEVSNPHostData (TrimSpace _)) as [n|] eqn:Hn; [|done]. cbn [wrapRes].
    destruct (ValidateAppraisal _ _) as [[]|] eqn:Ha; [|done]. apply appraisal_decides in Ha as [Hh Hk]. intros _.
    split_and!; [done| |done]. intros _. exists n. destruct (Normalize_form _ _ Hn) as [_ Hf].
    destruct Hh as (n' & H1 & H2).
    { cbn [k_RequireHostData]. apply negb_true_iff, bool_decide_eq_false. intros ->. by destruct Hf. }
    cbn [k_ExpectedHostData ev_HostData] in *. rewrite (Normalize_fixed n Hf) in H1. injection H1 as <-. done.
Qed.

(** An appraisal that was checked was checked on SEV-SNP, the host data of the evidence
    are those that were expected, in normal form, if any were, and the kernel hashes were
    vouched for, if they were required. *)
Theorem appraisal_checked platform opts p hash :
  appraise platform opts p = Ok (true, hash) ->
  platform ∈ [platformSNP; platformSNPvTPM]
  /\ (TrimSpace (ro_ExpectedHostDataHex opts) <> "" -> exists n,
        NormalizeSEVSNPHostData (TrimSpace (ro_ExpectedHostDataHex opts)) = Ok n
        /\ NormalizeSEVSNPHostData (hexEncode (xe_HostData p)) = Ok n)
  /\ (ro_RequireKernelHashes opts = true -> ro_KernelHashesEvidence opts = true).
Proof. apply appraise_Ok. Qed.

(** Expected host data that are only white space are reported as checked, and are met by
    every piece of evidence with any host data. *)
Theorem blank_host_data_unchecked platform opts p :
  platform ∈ [platformSNP; platformSNPvTPM] -> ro_ExpectedHostDataHex opts <> "" ->
  TrimSpace (ro_ExpectedHostDataHex opts) = "" -> ro_RequireKernelHashes opts = false -> xe_HostData p <> [] ->
  appraise platform opts p = Ok (true, sha256Hex (xe_HostData p)).
Proof.
  intros Hp Hne Hb Hk Hh. unfold appraise. rewrite Hk, Hb, (bool_decide_false _ Hne). cbn [negb orb andb].
  assert (0 < len (xe_HostData p)) as Hl.
  { unfold len. destruct (xe_HostData p); [done|]. cbn [length]. lia. }
  rewrite (proj2 (Z.eqb_neq _ 0)) by lia. rewrite (proj2 (Z.ltb_lt _ _)) by done.
  rewrite elem_of_cons, list_elem_of_singleton in Hp. by destruct Hp as [-> | ->].
Qed.

(** ** Hardware that does what is documented *)

Section honest.
Context `{OS, SummaryJSON, EvidenceLib, ReportAbi, SevLib, TpmLib, OtherTee}.

(** A TDX guest: the device gives a quote, of version 4, with the report data asked for. *)
Class HonestTdx : Prop := {
  tdx_device : getTdxQuoteProvider = None;
  tdx_quotes : forall d, len d = 64 -> exists b q,
    getRawQuote d = Ok b /\ b <> [] /\ QuoteToProto b = Ok (Some q) /\ q_ReportData q = d }.

Lemma tdx_collects `{!HonestTdx} s r : exists b p,
  pv_TeeAttestation tdxProvider (challenge s r) = Some (Ok b) /\ boundTo extractTDXEvidence b (challenge s r) p.
Proof.
  destruct (tdx_quotes (challenge s r) (len_challenge s r)) as (b & q & Hb & Hne & Hq & Hd).
  exists b, (mkExtracted (q_ReportData q) []). cbn [pv_TeeAttestation tdxProvider]. unfold tdxTeeAttestation.
  rewrite len_challenge, tdx_device, Hb. split; [done|]. unfold boundTo, extractTDXEvidence. by rewrite Hq.
Qed.

(** On a TDX guest whose device is honest the check passes, whatever was drawn, for a
    request of this platform or for one that detects it. *)
Theorem honest_tdx_passes `{!HonestTdx} m now rA rB opts h :
  ToLower (TrimSpace (ro_Platform opts)) = platformTDX
    \/ ToLower (TrimSpace (ro_Platform opts)) ∈ [""; platformAuto] /\ CCPlatform m = TDX ->
  ro_ExpectedHostDataHex opts = "" -> ro_RequireKernelHashes opts = false -> TrimSpace (ro_EvidenceDir opts) = "" ->
  exists summary, run m now (Ok rA) (Ok rB) opts h = Some (Ok summary, h)
    /\ su_Platform summary = platformTDX /\ su_AppraisalContractCheck summary = false.
Proof.
  intros Hp He Hk Hd. destruct (tdx_collects "A" rA) as (eA & pA & CA & BA). destruct (tdx_collects "B" rB) as (eB & pB & CB & BB).
  eexists. unfold run. assert (resolvePlatform m (ro_Platform opts) = Ok platformTDX) as ->.
  { unfold resolvePlatform. cbv zeta. destruct Hp as [->|[Hin Hm]]; [done|].
    rewrite elem_of_cons, list_elem_of_singleton in Hin. rewrite Hm. by destruct Hin as [-> | ->]. }
  replace (bool_decide (platformTDX ∈ [platformSNP; platformSNPvTPM])) with false by done.
  rewrite (bool_decide_true (platformTDX = platformTDX)), He, Hk by done.
  rewrite (bool_decide_true ("" = "")) by done. cbn [negb orb].
  split; [apply redteam_decides; exists eA, eB, pA, pB, false, ""; split_and!; try done|].
  - unfold appraise. by rewrite He, Hk.
  - unfold writeSummary. by rewrite Hd.
  - done.
Qed.
End honest.

(** ** Samples *)

Module RedTeamSample.
#[local] Instance json : SummaryJSON := {| marshalSummary _ := Ok [] |}.
(** A device whose quote is its report data. *)
#[local] Instance tee : OtherTee := {|
  getTdxQuoteProvider := None; getRawQuote d := Ok d; getEvidence _ := Ok []; getToken _ := Ok []; embeddedAttestation := [] |}.
#[local] Instance abi : ReportAbi := {|
  ReportToProto _ := Err (ErrNew "abi"); QuoteToProto b := Ok (Some (mkQuoteV4 [] [] [] [] [] [] [] [] b [])) |}.
#[local] Instance honest : HonestTdx.
Proof. split; [done|]. intros d Hd. eexists d, _. split_and!; [done| |done|done]. by intros ->. Qed.

Definition opts : runOptions := mkRunOptions " TDX " 0 "" false false "".
Definition guest : machine := mkMachine false false true None.

Lemma honest_tdx_passes_witness :
  exists summary, run guest 0 (Ok []) (Ok []) opts [] = Some (Ok summary, [])
    /\ su_Platform summary = platformTDX /\ su_AppraisalContractCheck summary = false.
Proof. apply (honest_tdx_passes guest 0 [] [] opts []); [by left|done..]. Defined.

Definition hostData : list byte := replicate 32 xab.
Definition snpOpts : runOptions := mkRunOptions "snp" 0 (hexEncode hostData) true true "".
Definition parsed : extractedEvidence := mkExtracted [] hostData.
Definition hash : string := sha256Hex hostData.

Lemma appraisal_checked_witness :
  appraise platformSNP snpOpts parsed = Ok (true, hash)
  /\ exists n, NormalizeSEVSNPHostData (TrimSpace (hexEncode hostData)) = Ok n
     /\ NormalizeSEVSNPHostData (hexEncode hostData) = Ok n.
Proof.
  assert (appraise platformSNP snpOpts parsed = Ok (true, hash)) as H by (by vm_compute). split; [exact H|].
  apply (proj1 (proj2 (appraisal_checked platformSNP snpOpts parsed hash H))). by vm_compute.
Defined.

Definition blankOpts : runOptions := mkRunOptions "snp" 0 " " false false "".
Lemma blank_host_data_unchecked_witness : appraise platformSNP blankOpts parsed = Ok (true, hash).
Proof. apply (blank_host_data_unchecked platformSNP blankOpts parsed); [left|done..]. Defined.
End RedTeamSample.
