(* ===== verification/Serving.v ===== *)
(** * Servers: who is served, and until when

    The listener of the attested transport ([pkg/atls/internal_transport/listener.go]) under
    the accept loop of [net/http], the runtime's gRPC and HTTP servers
    ([internal/runtime/server]) with their shutdown, and the gRPC server of the agent
    ([agent/cvms/server/cvm.go]).  A server's life is the list of what it did; the network,
    the order in which a context ends and a server returns, and whether a graceful stop ends
    in time are arguments. *)

From stdpp Require Import base list strings.
From Stdlib Require Import ZArith Lia Strings.Byte.
From S2P Require Import Prelude GoStrings Errors GoPath GoOS GoNumbers GoNet Netguard EaWire EaAttestation EaAuthenticator Transport AgentAuth Ingress.

(** ** The attested listener *)

(** [net.Error] with [Temporary]: the accept loop tries again after such an error.  An error
    made with [fmt.Errorf] is none. *)
Class NetErrors := { Temporary : error -> bool }.
Class NetErrorsLaws `{NetErrors} : Prop := {
  errorf_permanent : forall text, HasPrefix text "atls: " = true -> Temporary (ErrNew text) = false }.

(** What a connection of the raw listener brings: the end of the TLS handshake, the state of
    the connection, what the client sends. *)
Record rawConn := mkRawConn {
  rc_handshake : option error; rc_state : ConnectionState; rc_input : list byte }.

Section listener.
Context {K : Type} `{!Crypto K} `{!NetErrors}.

(** [Listen], of a configuration and of its TLS configuration. *)
Definition Listen (cfg : option (ServerConfig K)) (tlsConfigured : bool) (listen : option error)
  : result error (ServerConfig K) :=
  match cfg with
  | Some c => if tlsConfigured then match listen with Some e => Err e | None => Ok c end
              else Err (ErrNew "atls: missing server TLS config")
  | None => Err (ErrNew "atls: missing server TLS config")
  end.

(** The proxy sets no session, so every connection has a new one. *)
Definition Accept (cfg : ServerConfig K) (raw : result error rawConn)
  : result error (AuthenticatorRequest * list byte) :=
  match raw with
  | Err e => Err e
  | Ok c => fst (Server (Some cfg) (rc_handshake c) (rc_state c) (rc_input c) NewSession)
  end.

(** The loop of [http.Server.Serve] over what arrives: the connections served, and the error
    it returns, if it does. *)
Fixpoint Serve (cfg : ServerConfig K) (raws : list (result error rawConn))
  : list (AuthenticatorRequest * list byte) * option error :=
  match raws with
  | [] => ([], None)
  | raw :: raws' =>
      match Accept cfg raw with
      | Ok c => let '(served, r) := Serve cfg raws' in (c :: served, r)
      | Err e => if Temporary e then Serve cfg raws' else ([], Some e)
      end
  end.

(** ** What the accept loop serves *)

Definition passing (cfg : ServerConfig K) (raw : result error rawConn) : Prop :=
  forall e, Accept cfg raw = Err e -> Temporary e = true.
Definition answered (cfg : ServerConfig K) (raw : result error rawConn) : option (AuthenticatorRequest * list byte) :=
  match Accept cfg raw with Ok c => Some c | Err _ => None end.

Lemma Serve_spec cfg raws served r :
  Serve cfg raws = (served, r) ->
  exists before rest, raws = before ++ rest /\ Forall (passing cfg) before /\ served = omap (answered cfg) before
  /\ match r with
     | None => rest = []
     | Some e => exists bad after, rest = bad :: after /\ Accept cfg bad = Err e /\ Temporary e = false
     end.
Proof.
  revert served r; induction raws as [|raw raws IH]; intros served r; cbn [Serve].
  { intros [= <- <-]. by exists [], []. }
  destruct (Accept cfg raw) as [c|e] eqn:E; swap 1 2.
  - destruct (Temporary e) eqn:T.
    + intros (before & rest & -> & Hp & -> & Hr)%IH. exists (raw :: before), rest. split_and!; [done| | |done].
      * constructor; [|done]. intros e'. rewrite E. by intros [= <-].
      * cbn [omap list_omap]. unfold answered at 2. by rewrite E.
    + intros [= <- <-]. exists [], (raw :: raws). split_and!; try done. eauto.
  - destruct (Serve cfg raws) as [s' r'] eqn:Es. intros [= <- <-].
    destruct (IH _ _ eq_refl) as (before & rest & -> & Hp & -> & Hr). exists (raw :: before), rest.
    split_and!; [done| | |done].
    * constructor; [|done]. intros e'. by rewrite E.
    * cbn [omap list_omap]. unfold answered at 2. by rewrite E.
Qed.

Lemma Serve_app cfg before served raws :
  Serve cfg before = (served, None) ->
  Serve cfg (before ++ raws) = (served ++ fst (Serve cfg raws), snd (Serve cfg raws)).
Proof.
  revert served; induction before as [|raw before IH]; intros served; cbn [Serve app].
  { intros [= <-]. by destruct (Serve cfg raws). }
  destruct (Accept cfg raw) as [c|e]; [|destruct (Temporary e); [apply IH|done]].
  destruct (Serve cfg before) as [s r]. intros [= <- ->]. by rewrite (IH s eq_refl).
Qed.

(** A client that finishes the TLS handshake and sends a frame of another type. *)
Definition wrongFrame (c : rawConn) : Prop :=
  rc_handshake c = None
  /\ exists typ payload rest, readFrame (rc_input c) = Ok (typ, payload, rest) /\ typ <> frameTypeRequest.

Lemma Accept_wrongFrame cfg c :
  wrongFrame c -> Accept cfg (Ok c) = Err (ErrNew "atls: unexpected frame type").
Proof.
  intros (Hh & typ & payload & rest & Hf & Ht). unfold Accept, Server. rewrite Hh.
  unfold readRequest. rewrite Hf. cbn. by rewrite bool_decide_eq_false_2.
Qed.
End listener.

(** ** The servers of the runtime: [internal/runtime/server] *)

Inductive srvEvent (Cert : Type) :=
| SListen (address : string)
| SClose
| SServe (t : option (tlsConfig Cert))
| SHealth (serving : bool)
| SGraceful (finished : bool)
| SHardStop
| SShutdown
| SCancel.
Arguments SListen {Cert}. Arguments SClose {Cert}. Arguments SServe {Cert}. Arguments SHealth {Cert}.
Arguments SGraceful {Cert}. Arguments SHardStop {Cert}. Arguments SShutdown {Cert}. Arguments SCancel {Cert}.

(** What ends the [select] of [Start]: the context, and then whether the stop is done within
    [StopWaitTime] (gRPC) or what [Shutdown] says (HTTP), or the return of the server. *)
Inductive ending := CtxDone (graceful : bool) (shutdown : option error) | ServeEnded (e : option error).

Module Runtime.
Section runtime.
Context {Cert : Type} `{!OS} `{!TLSLib Cert} (h : list act).

Definition readFileOrData (input : string) : result error (list byte) :=
  match os_stat h input with Ok _ => os_read h input | Err _ => Ok (bytesOf input) end.

Definition LoadX509KeyPair (certFile keyFile : string) : result error Cert :=
  let* cert := wrapRes "failed to read certificate" (readFileOrData certFile) in
  let* key := wrapRes "failed to read private key" (readFileOrData keyFile) in
  X509KeyPair cert key.

Definition LoadRootCACerts (input : string) : result error (option (list (list byte))) :=
  let* pemData := wrapRes "failed to load root CA data" (readFileOrData input) in
  if len pemData =? 0 then Ok None
  else if negb (appendCertsFromPEM pemData) then Err (ErrNew "failed to append root CA certificate")
  else Ok (Some [pemData]).

(** *** gRPC: [grpc/grpc.go] *)

Definition tlsCredentials (c : serverConfig) : result error (tlsConfig Cert) :=
  let* certificate := wrapRes "failed to load gRPC server certificate"
                        (LoadX509KeyPair (sc_CertFile c) (sc_KeyFile c)) in
  let t := mkTlsConfig 0 NoClientCert [certificate] None None [] in
  let* rootCA := wrapRes "failed to load root CA file" (LoadRootCACerts (sc_ServerCAFile c)) in
  let t := match rootCA with Some p => withRootCAs (Some p) t | None => t end in
  let* clientCA := wrapRes "failed to load client CA file" (LoadRootCACerts (sc_ClientCAFile c)) in
  Ok match clientCA with
     | Some p => withClientAuth RequireAndVerifyClientCert (withClientCAs (Some p) t)
     | None => t
     end.

(** [Stop], of a server that has been made or has not. *)
Definition grpcStop (made graceful : bool) : list (srvEvent Cert) :=
  (if made then [SHealth false; SGraceful graceful] else [])
  ++ (if graceful then [] else if made then [SHardStop] else []) ++ [SCancel].

Definition grpcStart (listen : string -> option error) (e : ending) (c : serverConfig)
  : option error * list (srvEvent Cert) :=
  if negb (tlsConfigured c) && negb (PlaintextBindAllowed (sc_Host c))
  then (Some (ErrWrap (baseAddress c) ErrPlaintextPublicGRPC), [])
  else match listen (baseAddress c) with
  | Some err => (Some (ErrWrap ("failed to listen on " +:+ baseAddress c) err), [])
  | None =>
      match (if tlsConfigured c then let* t := tlsCredentials c in Ok (Some t) else Ok None) with
      | Err err => (Some err, [SListen (baseAddress c); SClose])
      | Ok t =>
          let evs := [SListen (baseAddress c); SHealth true; SServe t] in
          match e with
          | CtxDone graceful _ => (None, evs ++ grpcStop true graceful)
          | ServeEnded err => (err, evs ++ [SCancel])
          end
      end
  end.

(** *** HTTP: [http/http.go] *)

Definition httpStop (name protocol : string) (c : serverConfig) (shutdown : option error)
  : option error * list (srvEvent Cert) :=
  (wrapErr (name +:+ " " +:+ protocol +:+ " server shutdown at " +:+ baseAddress c) shutdown, [SShutdown; SCancel]).

Definition httpStart (name : string) (e : ending) (c : serverConfig) : option error * list (srvEvent Cert) :=
  match (if tlsConfigured c
         then let* certificate := LoadX509KeyPair (sc_CertFile c) (sc_KeyFile c) in
              Ok ("https", Some (mkTlsConfig 0 NoClientCert [certificate] None None []))
         else Ok ("http", None)) with
  | Err err => (Some err, [])
  | Ok (protocol, t) =>
      let evs := [SListen (baseAddress c); SServe t] in
      match e with
      | CtxDone _ shutdown => let '(r, evs') := httpStop name protocol c shutdown in (r, evs ++ evs')
      | ServeEnded err => (err, evs)
      end
  end.

(** *** Stopping: [server.go] *)

(** A server is what its [Stop] returns and does; [text] is [Error]. *)
Definition stopOne (text : error -> string) (acc : option error * list (srvEvent Cert))
    (srv : option error * list (srvEvent Cert)) : option error * list (srvEvent Cert) :=
  let '(out, evs) := acc in
  let '(r, evs') := srv in
  (match r with
   | None => out
   | Some err => Some match out with None => err | Some o => ErrWrap (text o) err end
   end, evs ++ evs').
Definition stopAll (text : error -> string) (servers : list (option error * list (srvEvent Cert)))
  : option error * list (srvEvent Cert) := foldl (stopOne text) (None, []) servers.

(** Whether a signal comes before the context is done. *)
Definition StopSignalHandler (text : error -> string) (signal : bool)
    (servers : list (option error * list (srvEvent Cert))) : option error * list (srvEvent Cert) :=
  if signal then let '(err, evs) := stopAll text servers in (err, evs ++ [SCancel]) else (None, []).

(** ** What the gRPC server asks of its clients *)

(** The data of the client CA, if there is any. *)
Definition clientCA (c : serverConfig) : list byte := match readFileOrData (sc_ClientCAFile c) with Ok b => b | Err _ => [] end.

Lemma tlsCredentials_enforces c t :
  tlsCredentials c = Ok t ->
  (exists cert, LoadX509KeyPair (sc_CertFile c) (sc_KeyFile c) = Ok cert /\ tc_Certificates t = [cert])
  /\ match clientCA c with
     | [] => tc_ClientAuth t = NoClientCert /\ tc_ClientCAs t = None
     | pem => tc_ClientAuth t = RequireAndVerifyClientCert /\ tc_ClientCAs t = Some [pem]
     end.
Proof.
  unfold tlsCredentials, clientCA, LoadRootCACerts.
  destruct (LoadX509KeyPair _ _) as [cert|]; [|done]. cbn [wrapRes].
  destruct (readFileOrData (sc_ServerCAFile c)) as [root|]; [|done].
  destruct (readFileOrData (sc_ClientCAFile c)) as [ca|]; cbn [wrapRes]; [|by destruct (len root =? 0), (appendCertsFromPEM root)].
  destruct (len root =? 0), (appendCertsFromPEM root), ca as [|b ca]; cbn [wrapRes len negb]; try done;
    try (by intros [= <-]; split; [exists cert|]);
    rewrite (proj2 (Z.eqb_neq _ 0)) by (unfold len; cbn; lia);
    destruct (appendCertsFromPEM (b :: ca)); try done; intros [= <-]; by split; [exists cert|].
Qed.
End runtime.
End Runtime.

(** ** The server of the agent: [agent/cvms/server/cvm.go] *)

Module Agent.
Section agent.
Context {K : Type} `{AgentCrypto K}.

(** A gRPC server with the authentication its interceptors call, the socket it serves and
    whether it was stopped. *)
Record grpcServer := mkGrpc { gs_auth : service K; gs_at : option listenAt; gs_stopped : bool }.

(** [as_all] are the servers made so far; the field [gs] is the index of one of them. *)
Record agentServer := mkAgentServer { as_host : string; as_all : list grpcServer; as_gs : option nat }.

Definition NewServer (host : string) : agentServer := mkAgentServer host [] None.

(** [Start]; a server that could not listen stays behind in the field [gs]. *)
Definition Start (listen : listenAt -> option error) (manifest : ManifestKeys) (s : agentServer)
  : option error * agentServer :=
  match New manifest with
  | Err e => (Some e, s)
  | Ok authSvc =>
      let made at_ := mkAgentServer (as_host s) (as_all s ++ [mkGrpc authSvc at_ false]) (Some (length (as_all s))) in
      match agentListen (as_host s) with
      | Err e => (Some e, made None)
      | Ok l => match listen l with
                | Some e => (Some e, made None)
                | None => (None, made (Some l))
                end
      end
  end.

Definition stopServer (g : grpcServer) : grpcServer := mkGrpc (gs_auth g) (gs_at g) true.
Definition Stop (s : agentServer) : option error * agentServer :=
  (None, match as_gs s with
         | None => s
         | Some n => mkAgentServer (as_host s) (alter stopServer n (as_all s)) (as_gs s)
         end).

Definition serves (g : grpcServer) : Prop := gs_at g <> None /\ gs_stopped g = false.

(** Calls of the CVMS client, in the order in which they reach the server. *)
Inductive call := CStart (listen : listenAt -> option error) (manifest : ManifestKeys) | CStop.
Definition perform1 (s : agentServer) (c : call) : agentServer :=
  match c with CStart listen m => snd (Start listen m s) | CStop => snd (Stop s) end.
Definition runCalls (cs : list call) (s : agentServer) : agentServer := foldl perform1 s cs.

(** A computation is stopped before the next is started. *)
Fixpoint alternating (running : bool) (cs : list call) : bool :=
  match cs with
  | [] => true
  | CStart _ _ :: cs => negb running && alternating true cs
  | CStop :: cs => alternating false cs
  end.

(** ** What is served *)

(** Every server listens where [agentListen] allows it, with the keys of a manifest that was
    started. *)
Definition made_by (cs : list call) (s : agentServer) (g : grpcServer) : Prop :=
  exists listen m, CStart listen m ∈ cs /\ New m = Ok (gs_auth g)
  /\ forall l, gs_at g = Some l -> agentListen (as_host s) = Ok l /\ listen l = None.

Lemma runCalls_snoc cs c s : runCalls (cs ++ [c]) s = perform1 (runCalls cs s) c.
Proof. unfold runCalls. by rewrite foldl_app. Qed.

Lemma perform1_host c s : as_host (perform1 s c) = as_host s.
Proof.
  destruct c as [listen m|]; cbn [perform1]; unfold Start, Stop; [|by destruct (as_gs s)].
  destruct (New m); [|done]. destruct (agentListen _) as [l|]; [by destruct (listen l)|done].
Qed.

Lemma runCalls_host cs s : as_host (runCalls cs s) = as_host s.
Proof. induction cs as [|c cs IH] using rev_ind; [done|]. by rewrite runCalls_snoc, perform1_host. Qed.

Lemma made_by_more cs c s s' g : as_host s' = as_host s -> made_by cs s g -> made_by (cs ++ [c]) s' g.
Proof.
  intros Hh (listen & m & Hin & Hn & Hl). exists listen, m. rewrite Hh.
  split; [apply elem_of_app; by left|done].
Qed.

Lemma runCalls_made cs host : Forall (made_by cs (NewServer host)) (as_all (runCalls cs (NewServer host))).
Proof.
  induction cs as [|c cs IH] using rev_ind; [constructor|]. rewrite runCalls_snoc.
  pose proof (runCalls_host cs (NewServer host)) as Hh.
  revert IH Hh. generalize (runCalls cs (NewServer host)) as s. intros s IH Hh.
  assert (Forall (made_by (cs ++ [c]) (NewServer host)) (as_all s)) as IH'.
  { eapply Forall_impl; [exact IH|]. intros g. by apply made_by_more. }
  destruct c as [listen m|]; cbn [perform1].
  - unfold Start. destruct (New m) as [a|e] eqn:En; [|done]. rewrite Hh.
    assert (forall o, (forall l, o = Some l -> agentListen (as_host (NewServer host)) = Ok l /\ listen l = None) ->
              made_by (cs ++ [CStart listen m]) (NewServer host) (mkGrpc a o false)) as Hm.
    { intros o Ho. exists listen, m. split_and!; [apply elem_of_app; right; by constructor|done|done]. }
    destruct (agentListen _) as [l|e] eqn:El; [destruct (listen l) eqn:E2|]; cbn [snd as_all];
      apply Forall_app; (split; [done|]); apply Forall_singleton, Hm; try done.
    by intros ? [= <-].
  - unfold Stop. destruct (as_gs s) as [n|]; [|done]. cbn [snd as_all].
    apply Forall_forall. intros g [i Hi]%list_elem_of_lookup. rewrite Forall_lookup in IH'.
    destruct (decide (i = n)) as [->|Hne].
    + rewrite list_lookup_alter_eq in Hi. destruct (as_all s !! n) as [g0|] eqn:E; [|done].
      injection Hi as <-. exact (IH' n g0 E).
    + rewrite list_lookup_alter_ne in Hi by congruence. exact (IH' i g Hi).
Qed.

(** When the calls alternate, only the server in the field may serve, and none after a stop. *)
Definition onlyCurrent (running : bool) (s : agentServer) : Prop :=
  forall i g, as_all s !! i = Some g -> serves g -> running = true /\ as_gs s = Some i.

Lemma perform1_current c running s :
  alternating running [c] = true -> onlyCurrent running s ->
  onlyCurrent (match c with CStart _ _ => true | CStop => false end) (perform1 s c).
Proof.
  intros Ha Hc. destruct c as [listen m|]; cbn [perform1].
  - assert (running = false) as -> by (destruct running; done).
    assert (forall i g, as_all s !! i = Some g -> ~ serves g) as Hn.
    { intros i g Hi Hs. by destruct (Hc i g Hi Hs). }
    assert (forall o, onlyCurrent true
              (mkAgentServer (as_host s) (as_all s ++ o) (Some (length (as_all s)))) \/ (length o <> 1)%nat) as Hm.
    { intros o. destruct (decide (length o = 1%nat)) as [Ho|]; [left|by right].
      intros i g. cbn [as_all as_gs]. intros [Hi|[Hge Hi]]%lookup_app_Some Hs; [by destruct (Hn i g)|].
      apply lookup_lt_Some in Hi. split; [done|]. f_equal. lia. }
    unfold Start. destruct (New m) as [a|e]; [|intros i g Hi Hs; by destruct (Hn i g)].
    destruct (agentListen _) as [l|]; [destruct (listen l)|]; cbn [snd];
      match goal with |- onlyCurrent _ (mkAgentServer _ (_ ++ ?o) _) => by destruct (Hm o) end.
  - intros i g. unfold Stop. destruct (as_gs s) as [n|] eqn:En; cbn [snd as_all as_gs]; intros Hi Hs.
    + destruct (decide (i = n)) as [->|Hne].
      * rewrite list_lookup_alter_eq in Hi. destruct (as_all s !! n); [|done]. injection Hi as <-. by destruct Hs.
      * rewrite list_lookup_alter_ne in Hi by congruence. destruct (Hc i g Hi Hs). congruence.
    + destruct (Hc i g Hi Hs). congruence.
Qed.

Lemma alternating_current cs running s :
  alternating running cs = true -> onlyCurrent running s -> exists running', onlyCurrent running' (runCalls cs s).
Proof.
  revert running s; induction cs as [|c cs IH]; intros running s Ha Hc; [by exists running|].
  change (runCalls (c :: cs) s) with (runCalls cs (perform1 s c)).
  eapply IH; [|eapply perform1_current; [|exact Hc]]; destruct c, running; done.
Qed.
End agent.
Arguments grpcServer : clear implicits. Arguments agentServer : clear implicits.
Arguments mkGrpc {K}. Arguments gs_auth {K}. Arguments gs_at {K}. Arguments gs_stopped {K}.
Arguments mkAgentServer {K}. Arguments as_host {K}. Arguments as_all {K}. Arguments as_gs {K}.
Arguments NewServer {K}.
End Agent.

(** ** Theorems *)

(** The accept loop serves every client up to the first whose attested handshake fails for
    good, and no one after it: [Accept] answers a failed handshake with an error, and the
    loop returns on an error that is not temporary. *)
Theorem serve_until_failure {K} `{!Crypto K} `{!NetErrors} (cfg : ServerConfig K) (raws : list (result error rawConn))
    (served : list (AuthenticatorRequest * list byte)) (r : option error) :
  Serve cfg raws = (served, r) ->
  exists before rest, raws = before ++ rest /\ Forall (passing cfg) before /\ served = omap (answered cfg) before
  /\ match r with
     | None => rest = []
     | Some e => exists bad after, rest = bad :: after /\ Accept cfg bad = Err e /\ Temporary e = false
     end.
Proof. apply Serve_spec. Qed.

(** C36: one client ends the attested ingress.  A client that finishes the TLS handshake and sends
    one frame of a wrong type makes the accept loop return: whoever comes after it is not
    served, and the proxy, which takes itself for started, can not be started again. *)
Theorem one_client_ends_service {K} `{!Crypto K} `{!NetErrors, !NetErrorsLaws} {Cert} `{!OS} `{!TLSLib Cert}
    (cfg : ServerConfig K) (before after : list (result error rawConn)) (served : list (AuthenticatorRequest * list byte))
    (bad : rawConn) (h : list act) (now : Z) (listen : string -> string -> option error) (pc pc' : ProxyConfig)
    (p p' : proxyServer (Cert := Cert)) :
  Serve cfg before = (served, None) -> wrongFrame bad -> Start h now listen pc p = (None, p') ->
  Serve cfg (before ++ Ok bad :: after) = (served, Some (ErrNew "atls: unexpected frame type"))
  /\ fst (Start h now listen pc' p') = Some (ErrNew "proxy server already started").
Proof.
  intros Hb Hw Hs. split.
  - rewrite (Serve_app _ _ _ _ Hb). cbn [Serve]. rewrite (Accept_wrongFrame _ _ Hw), errorf_permanent by done.
    by rewrite app_nil_r.
  - revert Hs. unfold Start at 1. destruct (px_started p), (px_stopped p); try done.
    destruct (chooseListener _ _ _ _ _ _) as [addr [l|e]]; [|done]. by intros [= <-].
Qed.

Section runtime.
Context {Cert : Type} `{!OS} `{!TLSLib Cert}.

(** The gRPC server of the runtime serves what its configuration says: without TLS only on a
    loopback host, with TLS the certificate of its files, and it demands client certificates
    exactly when the client CA has data, a configured CA file that is empty among the cases
    in which it does not.  After it has served, its context is cancelled. *)
Theorem grpc_serves_as_configured (h : list act) (listen : string -> option error) (e : ending) (c : serverConfig)
    (r : option error) (evs : list (srvEvent Cert)) (t : option (tlsConfig Cert)) :
  Runtime.grpcStart h listen e c = (r, evs) -> SServe t ∈ evs ->
  last evs = Some SCancel
  /\ match t with
     | None => tlsConfigured c = false /\ IsLoopbackHost (sc_Host c) = true
     | Some t =>
         tlsConfigured c = true
         /\ (exists cert, Runtime.LoadX509KeyPair h (sc_CertFile c) (sc_KeyFile c) = Ok cert /\ tc_Certificates t = [cert])
         /\ match Runtime.clientCA h c with
            | [] => tc_ClientAuth t = NoClientCert /\ tc_ClientCAs t = None
            | pem => tc_ClientAuth t = RequireAndVerifyClientCert /\ tc_ClientCAs t = Some [pem]
            end
     end.
Proof.
  unfold Runtime.grpcStart, PlaintextBindAllowed.
  destruct (tlsConfigured c) eqn:Ht, (IsLoopbackHost (sc_Host c)) eqn:Hl; cbn [negb andb];
    try (by intros [= <- <-] ?%elem_of_nil); (destruct (listen _); [by intros [= <- <-] ?%elem_of_nil|]).
  1,2: destruct (Runtime.tlsCredentials h c) as [t'|] eqn:Ec;
    [|intros [= <- <-]; rewrite !elem_of_cons, elem_of_nil; by intros [|[|]]];
    destruct (Runtime.tlsCredentials_enforces h c t' Ec) as [Hcert Hca];
    destruct e as [[] s|s]; intros [= <- <-]; cbn; rewrite !elem_of_cons, elem_of_nil; intros Hin;
    (assert (t = Some t') as -> by naive_solver); by split_and!.
  all: destruct e as [[] s|s]; intros [= <- <-]; cbn; rewrite !elem_of_cons, elem_of_nil; intros Hin;
    (assert (t = None) as -> by naive_solver); by split_and!.
Qed.

(** The HTTP server of the runtime does less: it serves without TLS on any host, and with TLS
    it asks no client for a certificate, whatever client CA is configured. *)
Theorem http_asks_no_client (h : list act) (name : string) (e : ending) (c : serverConfig) (r : option error)
    (evs : list (srvEvent Cert)) (t : option (tlsConfig Cert)) :
  Runtime.httpStart h name e c = (r, evs) -> SServe t ∈ evs ->
  match t with
  | None => tlsConfigured c = false
  | Some t => tc_ClientAuth t = NoClientCert /\ tc_ClientCAs t = None
  end.
Proof.
  unfold Runtime.httpStart, Runtime.httpStop. destruct (tlsConfigured c).
  1: destruct (Runtime.LoadX509KeyPair _ _ _); [|by intros [= <- <-] ?%elem_of_nil].
  all: destruct e; intros [= <- <-]; cbn; rewrite !elem_of_cons, elem_of_nil; intros Hin;
    destruct t; naive_solver.
Qed.

(** Every server is stopped, also after another failed to stop; the result is nil exactly
    when all stopped, and of several failures only the last can be recognized in it. *)
Theorem stop_all_stops_each (text : error -> string) (servers : list (option error * list (srvEvent Cert))) :
  snd (Runtime.stopAll text servers) = concat (map snd servers)
  /\ match fst (Runtime.stopAll text servers), last (omap fst servers) with
     | None, None => True
     | Some err, Some err' => forall target, errorsIs err target = errorsIs err' target
     | _, _ => False
     end.
Proof.
  induction servers as [|[r evs] servers [IHe IHr]] using rev_ind; [done|].
  unfold Runtime.stopAll in *. rewrite foldl_app, map_app, concat_app, omap_app.
  destruct (foldl _ _ _) as [out evs'] eqn:Ef. cbn [fst snd] in *. cbn [foldl Runtime.stopOne fst snd].
  split; [by rewrite IHe; cbn; rewrite app_nil_r|].
  destruct r as [err|]; cbn [omap list_omap fst].
  - rewrite last_snoc. by destruct out.
  - by rewrite app_nil_r.
Qed.
End runtime.

(** The agent's server, over any calls of the CVMS client: each server it made has the keys
    of a manifest that was started and listens where plaintext may, on a UNIX socket or a
    loopback address; and when every computation is stopped before the next one is started,
    at most one server serves. *)
Theorem agent_serves_one {K} `{AgentCrypto K} (host : string) (cs : list Agent.call) :
  let s := Agent.runCalls cs (Agent.NewServer host) in
  Forall (Agent.made_by cs (Agent.NewServer host)) (Agent.as_all s)
  /\ (Agent.alternating false cs = true ->
      forall i j gi gj, Agent.as_all s !! i = Some gi -> Agent.as_all s !! j = Some gj ->
      Agent.serves gi -> Agent.serves gj -> i = j).
Proof.
  intros s. split; [apply Agent.runCalls_made|]. intros Ha i j gi gj Hi Hj Si Sj.
  destruct (Agent.alternating_current cs false (Agent.NewServer host) Ha) as [b Hb]; [by intros ? ?|].
  destruct (Hb i gi Hi Si), (Hb j gj Hj Sj). congruence.
Qed.

(** ** Samples *)

Module ServingSample.
#[local] Instance permanent : NetErrors := {| Temporary := fun _ => false |}.
#[local] Instance permanentLaws : NetErrorsLaws.
Proof. by constructor. Qed.
(** Every path names a file that holds its own name, except the empty one. *)
#[local] Instance named : OS := {|
  os_act := fun _ _ => None;
  os_stat := fun _ p => if bool_decide (p = "") then Err (ErrNew "stat") else Ok 0;
  os_read := fun _ p => if bool_decide (p = "empty.pem") then Ok [] else Ok (bytesOf p);
  os_walk := fun _ _ => Ok []; os_glob := fun _ _ => Ok []; os_getwd := fun _ => Ok "/" |}.
#[local] Instance pemTLS : TLSLib string := {|
  X509KeyPair := fun c k => Ok (stringOf c); appendCertsFromPEM := fun _ => true; Priv := unit;
  generateKeyP256 := Ok tt; randInt := fun _ => Ok 7; createCertificate := fun t _ => Ok (bytesOf (tp_CommonName t));
  parseLeaf := fun der _ => Ok (stringOf der) |}.

Definition good : rawConn := mkRawConn None EaAuthenticator.Sample.st Transport.Sample.sent.
Definition rude : rawConn := mkRawConn None EaAuthenticator.Sample.st [x09; x00; x00; x00; x00].
Definition one : list (AuthenticatorRequest * list byte) :=
  [(EaAuthenticator.Sample.request, Transport.Sample.answer)].
Definition stops : error := ErrNew "atls: unexpected frame type".

Lemma serve_good : Serve Transport.Sample.server [Ok good] = (one, None).
Proof. vm_compute. reflexivity. Qed.
Lemma rude_wrong : wrongFrame rude.
Proof. split; [done|]. exists x09, [], []. split; [by vm_compute|done]. Qed.

Lemma serve_until_failure_witness :
  exists before rest, [Ok good; Ok rude; Ok good] = before ++ rest
  /\ Forall (passing Transport.Sample.server) before
  /\ one = omap (answered Transport.Sample.server) before
  /\ exists bad after, rest = bad :: after /\ Accept Transport.Sample.server bad = Err stops /\ Temporary stops = false.
Proof.
  refine (serve_until_failure Transport.Sample.server [Ok good; Ok rude; Ok good] one (Some stops) _).
  vm_compute. reflexivity.
Defined.

Definition listens (network addr : string) : option error := None.
Definition fresh : proxyServer (Cert := string) := NewProxyServer (mkURL "unix" "" false "" "/run/agent.sock" "" "") true.
Definition attested : ProxyConfig := AgentConfigToProxyConfig "" "" "" "" true.
Definition started : proxyServer (Cert := string) := snd (Start [] 0 listens attested fresh).

Lemma one_client_ends_service_witness :
  Serve Transport.Sample.server ([Ok good] ++ Ok rude :: [Ok good]) = (one, Some stops)
  /\ fst (Start [] 0 listens attested started) = Some (ErrNew "proxy server already started").
Proof.
  refine (one_client_ends_service Transport.Sample.server [Ok good] [Ok good] one rude [] 0 listens attested attested
            fresh started serve_good rude_wrong _).
  vm_compute. reflexivity.
Defined.

Definition config (ca : string) : serverConfig := Netguard.mkServerConfig "0.0.0.0" "7001" "cert.pem" "key.pem" "" ca.
Definition anyone : tlsConfig string := mkTlsConfig 0 NoClientCert ["cert.pem"] None None [].
Definition accepts (addr : string) : option error := None.
Definition life : list (srvEvent string) :=
  snd (Runtime.grpcStart [] accepts (CtxDone true None) (config "empty.pem")).
Definition web : list (srvEvent string) :=
  snd (Runtime.httpStart [] "manager" (CtxDone true None) (config "ca.pem")).

Lemma grpc_serves_as_configured_witness :
  last life = Some SCancel /\ tlsConfigured (config "empty.pem") = true
  /\ (exists cert, Runtime.LoadX509KeyPair [] "cert.pem" "key.pem" = Ok cert /\ tc_Certificates anyone = [cert])
  /\ tc_ClientAuth anyone = NoClientCert /\ tc_ClientCAs anyone = None.
Proof.
  assert (Runtime.clientCA [] (config "empty.pem") = []) as E by (vm_compute; reflexivity).
  assert (SServe (Some anyone) ∈ life) as Hin by (vm_compute; do 2 right; left).
  pose proof (grpc_serves_as_configured [] accepts (CtxDone true None) (config "empty.pem") None life (Some anyone)
                eq_refl Hin) as W.
  rewrite E in W. exact W.
Defined.

Lemma http_asks_no_client_witness : tc_ClientAuth anyone = NoClientCert /\ tc_ClientCAs anyone = None.
Proof.
  apply (http_asks_no_client [] "manager" (CtxDone true None) (config "ca.pem") None web (Some anyone)).
  - vm_compute. reflexivity.
  - vm_compute. right. left.
Defined.

(** Two starts in a row leave two servers serving, and a stop ends only the second. *)
Definition keys : ManifestKeys := mkManifestKeys [] [] (bytesOf "k").
Definition always (l : listenAt) : option error := None.
Example second_start_keeps_first :
  map Agent.gs_stopped
    (Agent.as_all (Agent.runCalls [Agent.CStart always keys; Agent.CStart always keys; Agent.CStop]
                     (Agent.NewServer "/run/agent.sock"))) = [false; true].
Proof. vm_compute. reflexivity. Qed.
End ServingSample.
