(* ===== verification/GoDuration.v ===== *)
(** * Durations in text: [time.Duration.String] against [time.ParseDuration]

    The printer of durations and the proof that the reader of [GoNumbers] gives every
    duration back, its fraction, which goes through [float64], included. *)

From stdpp Require Import base sets list strings.
From Stdlib Require Import ZArith Lia Floats.SpecFloat.
From S2P Require Import Prelude GoStrings Errors GoNumbers.

(** ** Printing: [time.Duration.String] *)

(** [fmtFrac]: the digits of the fraction without trailing zeros, and what is left. *)
Fixpoint fracLoop (prec : nat) (v : Z) (print : bool) (acc : list Z) : list Z * Z :=
  match prec with
  | O => (if print then 46 :: acc else acc, v)
  | S k => let digit := v mod 10 in
           let print := print || negb (digit =? 0) in
           fracLoop k (v / 10) print (if print then (48 + digit) :: acc else acc)
  end.
Definition fmtFrac (v : Z) (prec : nat) : list Z * Z := fracLoop prec v false [].
Definition fmtInt (v : Z) : list Z := digitsFuel 20 v [].

Definition small (u : Z) (prec : nat) (unit : list Z) : list Z :=
  let '(frac, v) := fmtFrac u prec in fmtInt v ++ frac ++ unit.

Definition formatDuration (u : Z) : list Z :=
  if u <? 1000000000 then
    if u =? 0 then [48; 115]
    else if u <? 1000 then small u 0 [110; 115]
    else if u <? 1000000 then small u 3 [194; 181; 115]
    else small u 6 [109; 115]
  else
    let '(frac, u) := fmtFrac u 9 in
    let seconds := fmtInt (u mod 60) ++ frac ++ [115] in
    let u := u / 60 in
    if 0 <? u then
      let minutes := fmtInt (u mod 60) ++ [109] in
      let u := u / 60 in
      (if 0 <? u then fmtInt u ++ [104] else []) ++ minutes ++ seconds
    else seconds.

Definition DurationString (d : Duration) : string :=
  ofCodes (if d <? 0 then 45 :: formatDuration (- d) else formatDuration d).

Example duration_texts :
  map DurationString [0; 5; 1500; 2500000; 1500000000; 5400000000000; - 3600000000000]
  = ["0s"; "5ns"; ofCodes [49; 46; 53; 194; 181; 115]; "2.5ms"; "1.5s"; "1h30m0s"; "-1h0m0s"].
Proof. vm_compute. reflexivity. Qed.

(** ** Whole numbers in binary64 *)

(** [m * 2 ^ e] is the whole number [n]. *)
Definition denotes (m e n : Z) : Prop := e <= 0 /\ m = n * 2 ^ (- e).

Lemma shr_exact p : forall m : positive,
  iter_pos shr_1 p (Build_shr_record (Zpos m * 2 ^ Zpos p) false false) = Build_shr_record (Zpos m) false false.
Proof.
  assert (forall m : positive, shr_1 (Build_shr_record (Zpos m * 2) false false) = Build_shr_record (Zpos m) false false) as H1.
  { intros m. replace (Zpos m * 2) with (Zpos m~0) by lia. done. }
  induction p as [p IH|p IH|]; intros m; cbn [iter_pos].
  - replace (Zpos m * 2 ^ Zpos p~1) with (Z.pos (m * 2 ^ p * 2 ^ p) * 2).
    + rewrite H1. replace (Z.pos (m * 2 ^ p * 2 ^ p)) with (Z.pos (m * 2 ^ p) * 2 ^ Z.pos p) by lia.
      rewrite IH. replace (Z.pos (m * 2 ^ p)) with (Z.pos m * 2 ^ Z.pos p) by lia. apply IH.
    + replace (Z.pos p~1) with (Z.pos p + Z.pos p + 1) by lia. rewrite !Z.pow_add_r by lia. lia.
  - replace (Zpos m * 2 ^ Zpos p~0) with (Z.pos (m * 2 ^ p) * 2 ^ Z.pos p).
    + rewrite IH. replace (Z.pos (m * 2 ^ p)) with (Z.pos m * 2 ^ Z.pos p) by lia. apply IH.
    + replace (Z.pos p~0) with (Z.pos p + Z.pos p) by lia. rewrite !Z.pow_add_r by lia. lia.
  - apply H1.
Qed.

Lemma Zdigits2_log2 p : Zdigits2 (Zpos p) = Z.log2 (Zpos p) + 1.
Proof.
  cbn [Zdigits2]. induction p as [p IH|p IH|]; cbn [digits2_pos]; [| |done].
  - rewrite Pos2Z.inj_succ, IH. replace (Z.pos p~1) with (2 * Z.pos p + 1) by lia.
    rewrite Z.log2_succ_double by lia. lia.
  - rewrite Pos2Z.inj_succ, IH. replace (Z.pos p~0) with (2 * Z.pos p) by lia.
    rewrite Z.log2_double by lia. lia.
Qed.

Lemma denotes_digits m e n : 0 < n -> denotes (Zpos m) e n -> Zdigits2 (Zpos m) + e = Z.log2 n + 1.
Proof. intros Hn [He Hm]. rewrite Zdigits2_log2, Hm, Z.log2_mul_pow2 by lia. lia. Qed.

Lemma fexp_whole n : 0 < n < 2 ^ 53 -> fexp 53 1024 (Z.log2 n + 1) = Z.log2 n + 1 - 53.
Proof. intros Hn. unfold fexp, emin. pose proof (Z.log2_nonneg n). lia. Qed.

(** The shift of [binary_round_aux] keeps a whole number below [2 ^ 53]. *)
Lemma shr_fexp_exact m e n :
  0 < n < 2 ^ 53 -> denotes (Zpos m) e n ->
  exists m' e', shr_fexp 53 1024 (Zpos m) e loc_Exact = (Build_shr_record (Zpos m') false false, e')
  /\ denotes (Zpos m') e' n /\ Z.log2 n + 1 - 53 <= e'.
Proof.
  intros Hn Hd. unfold shr_fexp. rewrite (denotes_digits m e n) by (done || lia). rewrite fexp_whole by done.
  cbn [shr_record_of_loc]. destruct Hd as [He Hm].
  assert (Z.log2 n < 53) as Hl by (apply Z.log2_lt_pow2; lia).
  destruct (Z.log2 n + 1 - 53 - e) as [|p|p] eqn:Es; cbn [shr].
  1,3: exists m, e; split; [done|]; split; [by split|lia].
  assert (0 < n * 2 ^ (52 - Z.log2 n)) as Hp by (pose proof (Z.pow_pos_nonneg 2 (52 - Z.log2 n)); nia).
  destruct (n * 2 ^ (52 - Z.log2 n)) as [|m'|] eqn:E'; [lia| |lia].
  exists m', (e + Z.pos p).
  assert (Zpos m = Zpos m' * 2 ^ Zpos p) as ->.
  { rewrite Hm, <- E', <- Z.mul_assoc, <- Z.pow_add_r by lia. do 2 f_equal. lia. }
  rewrite shr_exact. split; [done|]. split; [|lia]. split; [lia|]. rewrite <- E'. do 2 f_equal. lia.
Qed.

Lemma round_exact m e n :
  0 < n < 2 ^ 53 -> denotes (Zpos m) e n ->
  exists m' e', binary_round_aux 53 1024 false (Zpos m) e loc_Exact = S754_finite false m' e' /\ denotes (Zpos m') e' n.
Proof.
  intros Hn Hd. unfold binary_round_aux.
  destruct (shr_fexp_exact m e n Hn Hd) as (m1 & e1 & -> & Hd1 & _). cbn [shr_m loc_of_shr_record round_nearest_even].
  destruct (shr_fexp_exact m1 e1 n Hn Hd1) as (m2 & e2 & -> & Hd2 & _). cbn [shr_m].
  exists m2, e2. split; [|done]. destruct Hd2 as [He _]. by rewrite (proj2 (Z.leb_le e2 (1024 - 53))) by lia.
Qed.

Lemma iter_xO p s : Z.pos (Pos.iter xO p s) = Z.pos p * 2 ^ Z.pos s.
Proof.
  induction s as [|s IH] using Pos.peano_ind; [cbn; lia|].
  rewrite Pos.iter_succ, Pos2Z.inj_succ, Z.pow_succ_r by lia. lia.
Qed.

Lemma float64_exact n : 0 < n < 2 ^ 53 -> exists m e, float64 n = S754_finite false m e /\ denotes (Zpos m) e n.
Proof.
  intros Hn. unfold float64. destruct n as [|p|]; [lia| |lia]. cbn [binary_normalize binary_round].
  unfold binary_round, shl_align. change (Z.pos (digits2_pos p)) with (Zdigits2 (Zpos p)).
  rewrite Z.add_0_r, Zdigits2_log2, fexp_whole by lia.
  assert (Z.log2 (Zpos p) < 53) as Hl by (apply Z.log2_lt_pow2; lia).
  destruct (Z.log2 (Zpos p) + 1 - 53 - 0) as [|s|s] eqn:Es.
  1,2: apply round_exact; [done|]; split; [lia|cbn; lia].
  apply round_exact; [done|]. split; [lia|].
  replace (- (Z.log2 (Zpos p) + 1 - 53)) with (Z.pos s) by lia. apply iter_xO.
Qed.

(** The product of two whole numbers is exact. *)
Lemma product_exact a b ma ea mb eb :
  0 < a -> 0 < b -> a * b < 2 ^ 53 -> denotes (Zpos ma) ea a -> denotes (Zpos mb) eb b ->
  truncate (SFmul 53 1024 (S754_finite false ma ea) (S754_finite false mb eb)) = a * b.
Proof.
  intros Ha Hb Hab [Hea Hma] [Heb Hmb]. cbn [SFmul xorb].
  destruct (round_exact (ma * mb) (ea + eb) (a * b)) as (m & e & -> & He & Hm); [nia| |].
  - split; [lia|]. rewrite Pos2Z.inj_mul, Hma, Hmb. replace (- (ea + eb)) with (- ea + - eb) by lia.
    rewrite Z.pow_add_r by lia. lia.
  - cbn [truncate]. rewrite Hm. replace e with (- (- e)) at 2 by lia.
    rewrite Z.shiftl_opp_r, Z.shiftr_div_pow2 by lia. apply Z.div_mul. apply Z.pow_nonzero; lia.
Qed.

(** A unit of [10 ^ prec] divided by a smaller power of ten. *)
Definition wholeQuotient (prec k : nat) : bool :=
  match SFdiv 53 1024 (float64 (10 ^ Z.of_nat prec)) (Nat.iter k (fun s => SFmul 53 1024 s (float64 10)) (float64 1)) with
  | S754_finite false m e => (e <=? 0) && (Zpos m =? 10 ^ (Z.of_nat prec - Z.of_nat k) * 2 ^ (- e))
  | _ => false
  end.

Lemma quotients_whole : forallb (fun prec => forallb (wholeQuotient prec) (seq 1 prec)) [3; 6; 9]%nat = true.
Proof. vm_compute. reflexivity. Qed.

Lemma fractionOf_exact prec k f :
  prec ∈ [3; 6; 9]%nat -> (1 <= k <= prec)%nat -> 0 < f < 10 ^ Z.of_nat k ->
  fractionOf f k (10 ^ Z.of_nat prec) = f * 10 ^ (Z.of_nat prec - Z.of_nat k).
Proof.
  intros Hp Hk Hf.
  assert (10 ^ Z.of_nat k * 10 ^ (Z.of_nat prec - Z.of_nat k) = 10 ^ Z.of_nat prec) as Hs.
  { rewrite <- Z.pow_add_r by lia. f_equal. lia. }
  assert (10 ^ Z.of_nat prec <= 10 ^ 9) as H9.
  { apply Z.pow_le_mono_r; [lia|]. rewrite !elem_of_cons, elem_of_nil in Hp. lia. }
  assert (0 < 10 ^ (Z.of_nat prec - Z.of_nat k)) as Hq by (apply Z.pow_pos_nonneg; lia).
  assert (wholeQuotient prec k = true) as Hw.
  { pose proof quotients_whole as Ha. rewrite forallb_forall in Ha. specialize (Ha prec).
    rewrite forallb_forall in Ha. apply Ha; [by apply list_elem_of_In|]. apply in_seq. lia. }
  unfold fractionOf, wholeQuotient in *. destruct (SFdiv _ _ _ _) as [| | |[] m e]; try done.
  apply andb_prop in Hw as [He%Z.leb_le Hm%Z.eqb_eq].
  change (10 ^ 9) with 1000000000 in H9.
  destruct (float64_exact f) as (mf & ef & -> & Hd); [nia|].
  apply product_exact; try lia; [nia|done|by split].
Qed.

(** ** Runs of digits *)

Notation digits := (Forall (fun c => isDigit c = true)).
Definition noDigit (l : list Z) : Prop := match l with [] => True | c :: _ => isDigit c = false end.

Lemma value_mono ds x : digits ds -> 0 <= x -> x <= value x ds.
Proof.
  revert x; induction ds as [|c ds IH]; intros x Hd Hx; [done|]. inversion Hd as [|? ? Hc Hd']; subst.
  apply isDigit_range in Hc. change (value x (c :: ds)) with (value (x * 10 + (c - 48)) ds).
  specialize (IH (x * 10 + (c - 48)) Hd'). lia.
Qed.

Lemma leadingInt_digits ds r x :
  digits ds -> noDigit r -> 0 <= x -> value x ds <= 2 ^ 63 -> leadingInt x (ds ++ r) = Some (value x ds, r).
Proof.
  revert x; induction ds as [|c ds IH]; intros x Hd Hr Hx Hv.
  { cbn [app value foldl]. destruct r as [|c r]; [done|]. cbn [noDigit] in Hr. cbn [leadingInt]. by rewrite Hr. }
  inversion Hd as [|? ? Hc Hd']; subst. cbn [app leadingInt]. rewrite Hc. cbn [negb].
  apply isDigit_range in Hc. change (value x (c :: ds)) with (value (x * 10 + (c - 48)) ds) in *.
  pose proof (value_mono ds (x * 10 + (c - 48)) Hd' ltac:(lia)) as Hm.
  change (2 ^ 63 / 10) with 922337203685477580. change (2 ^ 63) with 9223372036854775808 in *.
  rewrite (proj2 (Z.ltb_ge _ _)) by lia. rewrite (proj2 (Z.ltb_ge _ _)) by lia. apply IH; (done || lia).
Qed.

Lemma leadingFraction_digits ds r x k :
  digits ds -> noDigit r -> 0 <= x -> value x ds < 2 ^ 59 ->
  leadingFraction false x k (ds ++ r) = (value x ds, (k + length ds)%nat, r).
Proof.
  revert x k; induction ds as [|c ds IH]; intros x k Hd Hr Hx Hv.
  { cbn [app value foldl length]. rewrite Nat.add_0_r. destruct r as [|c r]; [done|]. cbn [noDigit] in Hr.
    cbn [leadingFraction]. by rewrite Hr. }
  inversion Hd as [|? ? Hc Hd']; subst. cbn [app leadingFraction]. rewrite Hc. cbn [negb].
  apply isDigit_range in Hc. change (value x (c :: ds)) with (value (x * 10 + (c - 48)) ds) in *.
  pose proof (value_mono ds (x * 10 + (c - 48)) Hd' ltac:(lia)) as Hm.
  change (2 ^ 59) with 576460752303423488 in *.
  rewrite (proj2 (Z.ltb_ge _ _)) by (change ((2 ^ 63 - 1) / 10) with 922337203685477580; lia).
  rewrite (proj2 (Z.ltb_ge _ _)) by lia. rewrite IH by (done || lia). cbn [length]. do 2 f_equal. lia.
Qed.

Lemma fmtInt_spec v : 0 <= v <= 2 ^ 63 -> exists ds, fmtInt v = ds /\ ds <> [] /\ digits ds /\ value 0 ds = v.
Proof.
  intros Hv. destruct (digitsFuel_spec 19 v []) as (ds & E & Hn & Hd & Hs).
  { change (10 ^ Z.of_nat 20) with 100000000000000000000. lia. }
  exists ds. unfold fmtInt. by rewrite E, app_nil_r.
Qed.

Lemma value_shift ds x : value x ds = x * 10 ^ Z.of_nat (length ds) + value 0 ds.
Proof.
  revert x; induction ds as [|c ds IH]; intros x; [cbn; lia|].
  change (value ?y (c :: ds)) with (value (y * 10 + (c - 48)) ds). rewrite IH, (IH (0 * 10 + (c - 48))).
  cbn [length]. rewrite Nat2Z.inj_succ, Z.pow_succ_r by lia. lia.
Qed.

Lemma value_bound ds : digits ds -> 0 <= value 0 ds < 10 ^ Z.of_nat (length ds).
Proof.
  induction ds as [|c ds IH]; intros Hd; [cbn; lia|]. inversion Hd as [|? ? Hc Hd']; subst.
  apply isDigit_range in Hc. specialize (IH Hd').
  change (value 0 (c :: ds)) with (value (0 * 10 + (c - 48)) ds). rewrite value_shift. cbn [length].
  rewrite Nat2Z.inj_succ, Z.pow_succ_r by lia. nia.
Qed.

(** ** The fraction printed *)

Definition fracText (t fds : list Z) : Prop := t = [] /\ fds = [] \/ t = 46 :: fds /\ fds <> [].

Lemma fracLoop_spec prec : forall v print acc,
  0 <= v -> digits acc -> (print = true <-> acc <> []) ->
  exists t fds, fracLoop prec v print acc = (t, v / 10 ^ Z.of_nat prec) /\ fracText t fds /\ digits fds
  /\ (length fds <= prec + length acc)%nat
  /\ value 0 fds * 10 ^ (Z.of_nat prec + Z.of_nat (length acc) - Z.of_nat (length fds))
     = v mod 10 ^ Z.of_nat prec * 10 ^ Z.of_nat (length acc) + value 0 acc.
Proof.
  induction prec as [|prec IH]; intros v print acc Hv Hacc Hp; cbn [fracLoop].
  - change (10 ^ Z.of_nat 0) with 1. rewrite Z.div_1_r, Z.mod_1_r. eexists _, acc. split; [done|].
    split_and!; [|done|lia|].
    + destruct print, acc; [|by right|by left|]; naive_solver.
    + replace (Z.of_nat 0 + _ - _) with 0 by lia. lia.
  - pose proof (Z.mod_pos_bound v 10 ltac:(lia)) as Hm. pose proof (Z.div_mod v 10) as Hdm.
    set (print' := print || negb (v mod 10 =? 0)). set (acc' := if print' then 48 + v mod 10 :: acc else acc).
    assert (10 ^ Z.of_nat (S prec) = 10 * 10 ^ Z.of_nat prec) as E10
      by (rewrite Nat2Z.inj_succ, Z.pow_succ_r by lia; done).
    assert (0 < 10 ^ Z.of_nat prec) as Hpos by (apply Z.pow_pos_nonneg; lia).
    assert (v mod 10 ^ Z.of_nat (S prec) = 10 * ((v / 10) mod 10 ^ Z.of_nat prec) + v mod 10) as Emod
      by (rewrite E10, Z.rem_mul_r by lia; lia).
    destruct (IH (v / 10) print' acc') as (t & fds & E & Ht & Hf & Hl & Hval).
    + apply Z.div_pos; lia.
    + unfold acc'. destruct print'; [|done]. constructor; [by apply isDigit_digit|done].
    + unfold acc'. destruct print' eqn:Ep'; [done|]. unfold print' in Ep'.
      apply orb_false_elim in Ep' as [-> _]. split; [done|]. intros Hne. by apply Hp.
    + exists t, fds. rewrite E, Z.div_div, E10 by lia. split; [done|]. split; [done|]. split; [done|].
      rewrite <- E10, Emod. unfold acc' in *. destruct print' eqn:Ep'.
      * cbn [length] in *. split; [lia|].
        replace (Z.of_nat (S prec) + Z.of_nat (length acc) - Z.of_nat (length fds))
          with (Z.of_nat prec + Z.of_nat (S (length acc)) - Z.of_nat (length fds)) by lia.
        rewrite Hval. rewrite Nat2Z.inj_succ, Z.pow_succ_r by lia.
        change (value 0 (48 + v mod 10 :: acc)) with (value (0 * 10 + (48 + v mod 10 - 48)) acc). rewrite value_shift. lia.
      * apply orb_false_elim in Ep' as [Ep Hz%negb_false_iff%Z.eqb_eq].
        assert (acc = []) as -> by (destruct acc; [done|]; rewrite (proj2 Hp) in Ep by done; done).
        cbn [length] in *. split; [lia|]. change (10 ^ Z.of_nat 0) with 1 in *. change (value 0 []) with 0 in *.
        replace (Z.of_nat (S prec) + Z.of_nat 0 - Z.of_nat (length fds))
          with (Z.succ (Z.of_nat prec + Z.of_nat 0 - Z.of_nat (length fds))) by lia.
        rewrite Z.pow_succ_r by lia. lia.
Qed.

Lemma fmtFrac_spec v prec :
  0 <= v ->
  exists t fds, fmtFrac v prec = (t, v / 10 ^ Z.of_nat prec) /\ fracText t fds /\ digits fds /\ (length fds <= prec)%nat
  /\ value 0 fds * 10 ^ (Z.of_nat prec - Z.of_nat (length fds)) = v mod 10 ^ Z.of_nat prec.
Proof.
  intros Hv. destruct (fracLoop_spec prec v false [] Hv) as (t & fds & E & Ht & Hd & Hl & Hval); [by constructor|done|].
  exists t, fds. cbn [length] in *. split_and!; [done|done|done|lia|]. change (value 0 []) with 0 in Hval.
  change (10 ^ Z.of_nat 0) with 1 in Hval. rewrite Z.add_0_r in Hval. lia.
Qed.

(** ** An item read back *)

(** The text of a unit, and what may follow an item. *)
Definition unitText (u : list Z) : Prop := u <> [] /\ Forall (fun c => (c =? 46) || isDigit c = false) u.
Definition itemEnd (rest : list Z) : Prop := match rest with [] => True | c :: _ => isDigit c = true end.

Lemma spanUnit_text u rest : Forall (fun c => (c =? 46) || isDigit c = false) u -> itemEnd rest -> spanUnit (u ++ rest) = (u, rest).
Proof.
  intros Hu Hr. induction u as [|c u IH]; cbn [app spanUnit].
  - destruct rest as [|c rest]; [done|]. cbn [itemEnd] in Hr. cbn [spanUnit]. by rewrite Hr, orb_true_r.
  - inversion Hu as [|? ? Hc Hu']; subst. by rewrite Hc, IH.
Qed.

Lemma unitText_head u rest : unitText u -> noDigit (u ++ rest) /\ match u ++ rest with 46 :: _ => False | _ => True end.
Proof.
  intros [Hn Hu]. destruct u as [|c u]; [done|]. inversion Hu as [|? ? Hc _]; subst.
  apply orb_false_elim in Hc as [H46%Z.eqb_neq Hd]. split; [done|]. cbn [app].
  destruct c as [|p|p]; try done. do 6 (destruct p as [p|p|]; try done).
Qed.

Lemma pre_digits (ds r : list Z) : ds <> [] -> negb (length r =? length (ds ++ r))%nat = true.
Proof. intros Hn. rewrite length_app. destruct ds; [done|]. cbn. apply negb_true_iff, Nat.eqb_neq. lia. Qed.

(** The part of [durationItem] after the whole number. *)
Lemma durationItem_digits ds r :
  ds <> [] -> digits ds -> noDigit r -> value 0 ds <= 2 ^ 63 ->
  durationItem (ds ++ r) =
  (let '(f, k, r', post) :=
     match r with
     | 46 :: t => let '(f, k, r') := leadingFraction false 0 0 t in (f, k, r', negb (length r' =? length t)%nat)
     | _ => (0, 0%nat, r, false)
     end in
   let '(u, rest) := spanUnit r' in
   unit ← unitOf u;
   if 2 ^ 63 / unit <? value 0 ds then None
   else let v := value 0 ds * unit in
        if 0 <? f then let v := v + fractionOf f k unit in if 2 ^ 63 <? v then None else Some (v, rest)
        else Some (v, rest)).
Proof.
  intros Hn Hd Hr Hv. unfold durationItem. pose proof (leadingInt_digits ds r 0 Hd Hr ltac:(lia) Hv) as El.
  pose proof (pre_digits ds r Hn) as Hp.
  destruct ds as [|c ds]; [done|]. inversion Hd as [|? ? Hc _]; subst.
  revert El Hp. cbn [app]. intros El Hp. rewrite Hc, orb_true_r. cbn [negb]. rewrite El. cbn [mbind option_bind].
  rewrite Hp. destruct (match r with 46 :: _ => _ | _ => _ end) as [[[f k] r'] post]. done.
Qed.

Lemma quotient_fits v unit : 0 < unit -> v * unit <= 2 ^ 63 -> 2 ^ 63 / unit <? v = false.
Proof. intros Hu Hv. apply Z.ltb_ge, Z.div_le_lower_bound; lia. Qed.

Lemma durationItem_whole v u unit rest :
  0 <= v -> 0 < unit -> v * unit <= 2 ^ 63 -> unitText u -> unitOf u = Some unit -> itemEnd rest ->
  durationItem (fmtInt v ++ u ++ rest) = Some (v * unit, rest).
Proof.
  intros Hv Hu Hvu Ht Eu Hr. destruct (fmtInt_spec v) as (ds & -> & Hn & Hd & Hval); [nia|].
  destruct (unitText_head u rest Ht) as [Hnd H46].
  rewrite durationItem_digits by (done || (rewrite Hval; nia)). rewrite Hval.
  assert (forall (X : list Z -> list Z -> Z * nat * list Z * bool),
    match u ++ rest with 46 :: t => X (u ++ rest) t | _ => (0, 0%nat, u ++ rest, false) end = (0, 0%nat, u ++ rest, false)) as E46.
  { intros X. destruct (u ++ rest) as [|c l]; [done|]. destruct c as [|p|p]; try done.
    do 6 (destruct p as [p|p|]; try done). }
  rewrite (E46 (fun _ t => let '(f, k, r') := leadingFraction false 0 0 t in (f, k, r', negb (length r' =? length t)%nat))).
  rewrite spanUnit_text by (apply Ht || done). rewrite Eu. cbn [mbind option_bind].
  by rewrite quotient_fits.
Qed.

Lemma durationItem_fraction v prec fds u rest :
  prec ∈ [3; 6; 9]%nat -> 0 <= v -> digits fds -> fds <> [] -> (length fds <= prec)%nat ->
  v * 10 ^ Z.of_nat prec + value 0 fds * 10 ^ (Z.of_nat prec - Z.of_nat (length fds)) <= 2 ^ 63 ->
  unitText u -> unitOf u = Some (10 ^ Z.of_nat prec) -> itemEnd rest ->
  durationItem (fmtInt v ++ (46 :: fds) ++ u ++ rest)
  = Some (v * 10 ^ Z.of_nat prec + value 0 fds * 10 ^ (Z.of_nat prec - Z.of_nat (length fds)), rest).
Proof.
  intros Hp Hv Hf Hfn Hl Hsum Ht Eu Hr. pose proof (value_bound fds Hf) as Hb.
  assert (0 < 10 ^ Z.of_nat prec) as Hpos by (apply Z.pow_pos_nonneg; lia).
  assert (0 < 10 ^ (Z.of_nat prec - Z.of_nat (length fds))) as Hpos' by (apply Z.pow_pos_nonneg; lia).
  destruct (fmtInt_spec v) as (ds & -> & Hn & Hd & Hval); [nia|].
  destruct (unitText_head u rest Ht) as [Hnd _].
  rewrite durationItem_digits by (done || (rewrite Hval; nia)). rewrite Hval. cbn [app].
  assert (10 ^ Z.of_nat (length fds) <= 10 ^ 9) as H9.
  { apply Z.pow_le_mono_r; [lia|]. rewrite !elem_of_cons, elem_of_nil in Hp. lia. }
  change (10 ^ 9) with 1000000000 in H9.
  rewrite leadingFraction_digits by (done || lia). cbn [Nat.add].
  rewrite spanUnit_text by (apply Ht || done). rewrite Eu. cbn [mbind option_bind].
  rewrite quotient_fits by nia. destruct (Z.ltb_spec 0 (value 0 fds)) as [Hpf|Hz].
  - rewrite fractionOf_exact by (done || lia || (destruct fds; [done|cbn [length] in *; lia])).
    by rewrite (proj2 (Z.ltb_ge _ _)) by lia.
  - replace (value 0 fds) with 0 by lia. do 2 f_equal. lia.
Qed.

Lemma durationItem_printed w prec t q v u rest :
  prec ∈ [0; 3; 6; 9]%nat -> 0 <= w -> fmtFrac w prec = (t, q) -> 0 <= v ->
  v * 10 ^ Z.of_nat prec + w mod 10 ^ Z.of_nat prec <= 2 ^ 63 ->
  unitText u -> unitOf u = Some (10 ^ Z.of_nat prec) -> itemEnd rest ->
  durationItem (fmtInt v ++ t ++ u ++ rest) = Some (v * 10 ^ Z.of_nat prec + w mod 10 ^ Z.of_nat prec, rest).
Proof.
  intros Hp Hw Ef Hv Hsum Hu Eu Hr. destruct (fmtFrac_spec w prec Hw) as (t' & fds & E & Ht & Hd & Hl & Hval).
  rewrite E in Ef. injection Ef as -> _. rewrite <- Hval in *. destruct Ht as [[-> ->]|[-> Hn]].
  - change (value 0 []) with 0 in *. rewrite Z.mul_0_l, Z.add_0_r in *. cbn [app].
    apply durationItem_whole; try done. apply Z.pow_pos_nonneg; lia.
  - apply durationItem_fraction; try done. apply elem_of_cons in Hp as [->|Hp]; [|done].
    destruct fds; [done|]. cbn [length] in Hl. lia.
Qed.

Lemma items_step n d s v rest :
  durationItem s = Some (v, rest) -> d + v <= 2 ^ 63 -> durationItems (S n) d s = durationItems n (d + v) rest.
Proof.
  intros E Hd. destruct s as [|c s]; [done|]. cbn [durationItems]. rewrite E. cbn [mbind option_bind].
  by rewrite (proj2 (Z.ltb_ge _ _)) by lia.
Qed.

Lemma items_more n m d s x : (n <= m)%nat -> durationItems n d s = Some x -> durationItems m d s = Some x.
Proof.
  revert m d s; induction n as [|n IH]; intros m d s Hm; [by destruct s, m|].
  destruct m as [|m]; [lia|]. destruct s as [|c s]; [done|]. cbn [durationItems].
  destruct (durationItem (c :: s)) as [[v rest]|]; [|done]. cbn [mbind option_bind].
  destruct (_ <? _); [done|]. apply IH. lia.
Qed.

Lemma items_end n d : durationItems n d [] = Some d.
Proof. by destruct n. Qed.

Lemma fmtInt_head v r : 0 <= v <= 2 ^ 63 -> exists c l, fmtInt v ++ r = c :: l /\ isDigit c = true /\ (length r <= length l)%nat.
Proof.
  intros Hv. destruct (fmtInt_spec v Hv) as (ds & -> & Hn & Hd & _). destruct ds as [|c ds]; [done|].
  inversion Hd; subst. exists c, (ds ++ r). split_and!; [done|done|rewrite length_app; lia].
Qed.

(** What the reader needs of a text besides its items. *)
Definition readsAs (s : list Z) (u : Z) : Prop :=
  (exists c l, s = c :: l /\ isDigit c = true /\ l <> []) /\ durationItems (length s) 0 s = Some u.

Lemma small_reads u prec text :
  prec ∈ [0; 3; 6]%nat -> 0 < u <= 2 ^ 63 -> unitText text -> unitOf text = Some (10 ^ Z.of_nat prec) ->
  readsAs (small u prec text) u.
Proof.
  intros Hp Hu Ht Eu. unfold small. destruct (fmtFrac u prec) as [t q] eqn:Ef.
  assert (0 < 10 ^ Z.of_nat prec) as Hpos by (apply Z.pow_pos_nonneg; lia).
  pose proof (Z.div_mod u (10 ^ Z.of_nat prec)) as Hdm. pose proof (Z.mod_pos_bound u (10 ^ Z.of_nat prec) Hpos) as Hm.
  assert (q = u / 10 ^ Z.of_nat prec) as ->
    by (destruct (fmtFrac_spec u prec) as (t' & fds & E & _); [lia|congruence]).
  assert (0 <= u / 10 ^ Z.of_nat prec) as Hq by (apply Z.div_pos; lia).
  pose proof (durationItem_printed u prec t (u / 10 ^ Z.of_nat prec) (u / 10 ^ Z.of_nat prec) text []) as Hi. rewrite app_nil_r in Hi.
  specialize (Hi ltac:(rewrite !elem_of_cons in *; naive_solver) ltac:(lia) Ef Hq ltac:(lia) Ht Eu I).
  destruct (fmtInt_head (u / 10 ^ Z.of_nat prec) (t ++ text)) as (c & l & El & Hc & Hl); [nia|].
  assert (l <> []) as Hln.
  { destruct Ht as [Hn _]. destruct l; [|done]. rewrite length_app in Hl. destruct text; [done|cbn in Hl; lia]. }
  rewrite El in *. split; [by exists c, l|].
  apply (items_more 1); [cbn; lia|]. rewrite (items_step _ _ _ _ _ Hi) by lia. rewrite items_end. f_equal. lia.
Qed.

(** The text of the seconds, and what comes before them. *)
Lemma seconds_item u t q v :
  0 <= u -> fmtFrac u 9 = (t, q) -> 0 <= v < 60 ->
  durationItem (fmtInt v ++ t ++ [115]) = Some (v * 1000000000 + u mod 1000000000, []).
Proof.
  intros Hu Ef Hv. pose proof (durationItem_printed u 9 t q v [115] []) as Hi. rewrite app_nil_r in Hi.
  apply Hi; try done; [set_solver|lia| |].
  - change (10 ^ Z.of_nat 9) with 1000000000. pose proof (Z.mod_pos_bound u 1000000000). lia.
  - split; [done|by repeat constructor].
Qed.

Lemma unit_item v c unit rest :
  0 <= v -> (c = 109 /\ unit = 60000000000 \/ c = 104 /\ unit = 3600000000000) -> v * unit <= 2 ^ 63 -> itemEnd rest ->
  durationItem (fmtInt v ++ [c] ++ rest) = Some (v * unit, rest).
Proof.
  intros Hv Hc Hle Hr. destruct Hc as [[-> ->]|[-> ->]]; (apply durationItem_whole; try done; split; [done|by repeat constructor]).
Qed.

Lemma head_ends v r : 0 <= v <= 2 ^ 63 -> itemEnd (fmtInt v ++ r).
Proof. intros Hv. destruct (fmtInt_head v r Hv) as (c & l & -> & Hc & _). done. Qed.

Lemma head_reads v c r d n : 0 <= v <= 2 ^ 63 -> (n <= S (length (c :: r)))%nat ->
  durationItems n 0 (fmtInt v ++ c :: r) = Some d -> readsAs (fmtInt v ++ c :: r) d.
Proof.
  intros Hv Hn Hi. destruct (fmtInt_head v (c :: r) Hv) as (c' & l & E & Hc & Hl). rewrite E in *.
  split; [|by apply (items_more n); [cbn in *; lia|]].
  exists c', l. split_and!; [done|done|]. by destruct l; [cbn in Hl; lia|].
Qed.

Lemma formatDuration_reads u : 0 < u <= 2 ^ 63 -> readsAs (formatDuration u) u.
Proof.
  intros Hu. unfold formatDuration. destruct (Z.ltb_spec u 1000000000) as [Hs|Hs].
  { rewrite (proj2 (Z.eqb_neq u 0)) by lia.
    destruct (u <? 1000), (u <? 1000000); (apply small_reads; [set_solver|done|split; [done|by repeat constructor]|done]). }
  destruct (fmtFrac_spec u 9) as (t & fds & E & _); [lia|]. rewrite E. change (10 ^ Z.of_nat 9) with 1000000000 in *.
  set (s := u / 1000000000). pose proof (Z.div_mod u 1000000000) as Hdm. fold s in Hdm.
  pose proof (Z.mod_pos_bound u 1000000000 ltac:(lia)) as Hm. pose proof (Z.mod_pos_bound s 60 ltac:(lia)) as Hm60.
  pose proof (Z.div_mod s 60) as Hd60. assert (0 <= s / 60) as Hq by (apply Z.div_pos; lia).
  pose proof (Z.mod_pos_bound (s / 60) 60 ltac:(lia)) as Hmm. pose proof (Z.div_mod (s / 60) 60) as Hdh.
  assert (0 <= s / 60 / 60) as Hqh by (apply Z.div_pos; lia).
  change (2 ^ 63) with 9223372036854775808 in *.
  pose proof (seconds_item u t s (s mod 60) ltac:(lia) E Hm60) as Is.
  assert (itemEnd (fmtInt (s mod 60) ++ t ++ [115])) as Es by (apply head_ends; lia).
  assert (exists c r, t ++ [115] = c :: r) as (c & r & Et) by (destruct t; cbn; eauto).
  destruct (Z.ltb_spec 0 (s / 60)) as [Hmin|Hmin].
  - pose proof (unit_item (s / 60 mod 60) 109 60000000000 _ ltac:(lia) ltac:(by left) ltac:(lia) Es) as Im.
    assert (itemEnd (fmtInt (s / 60 mod 60) ++ [109] ++ fmtInt (s mod 60) ++ t ++ [115])) as Em by (apply head_ends; lia).
    destruct (Z.ltb_spec 0 (s / 60 / 60)) as [Hh|Hh]; rewrite <- !app_assoc; cbn [app] in *.
    + pose proof (unit_item (s / 60 / 60) 104 3600000000000 _ ltac:(lia) ltac:(by right) ltac:(lia) Em) as Ih. cbn [app] in Ih.
      apply (head_reads _ _ _ _ 3); [lia|cbn; rewrite !length_app; cbn; lia|].
      rewrite (items_step _ _ _ _ _ Ih), (items_step _ _ _ _ _ Im), (items_step _ _ _ _ _ Is) by lia.
      rewrite items_end. f_equal. lia.
    + apply (head_reads _ _ _ _ 2); [lia|cbn; lia|].
      rewrite (items_step _ _ _ _ _ Im), (items_step _ _ _ _ _ Is) by lia. rewrite items_end. f_equal. lia.
  - rewrite Et in *. apply (head_reads _ _ _ _ 1); [lia|cbn; lia|].
    rewrite (items_step _ _ _ _ _ Is) by lia. rewrite items_end. f_equal. lia.
Qed.

(** ** The text as bytes *)

Notation bytes := (Forall (fun c => 0 <= c < 256)).

Lemma digits_bytes ds : digits ds -> bytes ds.
Proof. intros Hd. eapply Forall_impl; [exact Hd|]. intros c Hc%isDigit_range. lia. Qed.

Lemma fmtInt_bytes v : 0 <= v -> bytes (fmtInt v).
Proof.
  intros Hv. eapply Forall_impl; [apply (digitsFuel_ascii 20 v []); [done|constructor]|]. intros c Hc. cbv beta in Hc. lia.
Qed.

Lemma fmtFrac_bytes v prec : 0 <= v -> bytes (fst (fmtFrac v prec)) /\ 0 <= snd (fmtFrac v prec).
Proof.
  intros Hv. destruct (fmtFrac_spec v prec Hv) as (t & fds & -> & Ht & Hd & _). cbn [fst snd].
  split; [|apply Z.div_pos; [done|apply Z.pow_pos_nonneg; lia]].
  destruct Ht as [[-> _]|[-> _]]; [constructor|]. constructor; [lia|by apply digits_bytes].
Qed.

Lemma formatDuration_bytes u : 0 <= u -> bytes (formatDuration u).
Proof.
  intros Hu. unfold formatDuration, small.
  pose proof (fmtFrac_bytes u 0 Hu) as H0. pose proof (fmtFrac_bytes u 3 Hu) as H3.
  pose proof (fmtFrac_bytes u 6 Hu) as H6. pose proof (fmtFrac_bytes u 9 Hu) as H9.
  destruct (fmtFrac u 0), (fmtFrac u 3), (fmtFrac u 6), (fmtFrac u 9) as [t s]. cbn [fst snd] in *.
  assert (0 <= s / 60) as Hm by (apply Z.div_pos; lia). assert (0 <= s / 60 / 60) as Hh by (apply Z.div_pos; lia).
  pose proof (Z.mod_pos_bound s 60 ltac:(lia)). pose proof (Z.mod_pos_bound (s / 60) 60 ltac:(lia)).
  repeat case_match; rewrite ?Forall_app; split_and?; try (by apply fmtInt_bytes; lia); try apply H0; try apply H3;
    try apply H6; try apply H9; repeat constructor; lia.
Qed.

(** ** The round trip *)

(** Every duration that is printed is read back, with the fraction of a second that the
    reader computes in floating point. *)
Theorem duration_roundtrip (d : Duration) :
  minInt64 <= d <= maxInt64 -> ParseDuration (DurationString d) = Ok d.
Proof.
  unfold minInt64, maxInt64. intros Hd. destruct (decide (d = 0)) as [->|Hz]; [by vm_compute|].
  unfold DurationString, ParseDuration. destruct (Z.ltb_spec d 0) as [Hn|Hn].
  - rewrite codes_ofCodes by (constructor; [lia|apply formatDuration_bytes; lia]).
    destruct (formatDuration_reads (- d)) as [(c & l & E & Hc & Hl) Hi]; [lia|]. rewrite E in *.
    rewrite bool_decide_eq_false_2 by congruence. rewrite bool_decide_eq_false_2 by done. rewrite Hi. f_equal. lia.
  - rewrite codes_ofCodes by (apply formatDuration_bytes; lia).
    destruct (formatDuration_reads d) as [(c & l & E & Hc & Hl) Hi]; [lia|]. rewrite E in *.
    assert (match c :: l with 45 :: t => (true, t) | 43 :: t => (false, t) | t => (false, t) end = (false, c :: l)) as ->.
    { apply isDigit_range in Hc. destruct c as [|p|p]; try lia. do 6 (destruct p as [p|p|]; try lia; try done). }
    rewrite bool_decide_eq_false_2 by congruence. rewrite bool_decide_eq_false_2 by done. rewrite Hi.
    by rewrite (proj2 (Z.ltb_ge _ _)) by lia.
Qed.

Example ninety_minutes_and_a_bit : ParseDuration (DurationString 5400123456789) = Ok 5400123456789.
Proof. apply duration_roundtrip. unfold minInt64, maxInt64. lia. Qed.
