(* ===== verification/Programs.v ===== *)
(** * Parts of the programs under [cmd] and of the manager's command line

    The log pump that every service runs, with the bounded queue it empties and, when a send
    fails, fills again; the sockets the services open; the allow list of the egress proxy;
    the evidence the agent announces at its start; the warnings of the manager; and the
    commands [create-vm] and [remove-vm] of [cli/manager.go] up to the manager itself.  The
    pump and the goroutines that log are steps of one state, in any order. *)

From stdpp Require Import base gmap list strings.
From Stdlib Require Import ZArith Lia Strings.Byte.
From S2P Require Import Prelude GoStrings Errors GoPath GoOS GoNumbers GoDuration GoNet Sha2 Logs Netguard AgentService Ingress Serving Qemu Corim VmStore Manager ManagerRuns.

(** ** The log pump *)

(** The capacity of the channel between the log handler and the pump. *)
Definition queueCap : nat := 1000.

Inductive pumpState :=
| PumpWait
| PumpSend (m : streamMessage)
| PumpLog (m : streamMessage)
| PumpDone.

Record pump := mkPump { pu_queue : list streamMessage; pu_state : pumpState; pu_sent : list logRequest; pu_ctx : bool }.
Definition newPump : pump := mkPump [] PumpWait [] false.

(** What is sent of a message: the agent's pump sends events too, the others drop them. *)
Definition entryOf (events : bool) (m : streamMessage) : option logRequest :=
  match m with
  | MsgLog t msg l c => Some (LogEntry msg c l t)
  | MsgEvent t e c o s d => if events then Some (EventEntry e t c d o s) else None
  end.

(** The record of a failure, which the handler puts on the same queue. *)
Definition failure (now : Z) (cmpID : string) (m : streamMessage) : streamMessage :=
  MsgLog now (match m with MsgLog _ _ _ _ => "failed to send log" | _ => "failed to send event" end) "ERROR" cmpID.

(** A goroutine that logs puts one piece on the queue; the pump takes a message; the log
    service answers; the pump puts the record of a failure; the context ends; the pump sees
    it. *)
Inductive plabel :=
| Produce (m : streamMessage)
| Take
| Sent
| SendFailed (now : Z) (cmpID : string)
| PutFailure
| Cancel
| Leave.

(** Sends on a full channel block: such a step is not possible. *)
Definition pstep (events client : bool) (l : plabel) (p : pump) : option pump :=
  match l, pu_state p with
  | Produce m, _ =>
      if (length (pu_queue p) <? queueCap)%nat
      then Some (mkPump (pu_queue p ++ [m]) (pu_state p) (pu_sent p) (pu_ctx p)) else None
  | Take, PumpWait =>
      match pu_queue p with
      | [] => None
      | m :: q => Some (mkPump q (if client && negb (bool_decide (entryOf events m = None)) then PumpSend m else PumpWait)
                          (pu_sent p) (pu_ctx p))
      end
  | Sent, PumpSend m =>
      Some (mkPump (pu_queue p) PumpWait (pu_sent p ++ omap (entryOf events) [m]) (pu_ctx p))
  | SendFailed now cmpID, PumpSend m =>
      Some (mkPump (pu_queue p) (PumpLog (failure now cmpID m)) (pu_sent p) (pu_ctx p))
  | PutFailure, PumpLog m =>
      if (length (pu_queue p) <? queueCap)%nat
      then Some (mkPump (pu_queue p ++ [m]) PumpWait (pu_sent p) (pu_ctx p)) else None
  | Cancel, _ => Some (mkPump (pu_queue p) (pu_state p) (pu_sent p) true)
  | Leave, PumpWait => if pu_ctx p then Some (mkPump (pu_queue p) PumpDone (pu_sent p) true) else None
  | _, _ => None
  end.

Fixpoint pruns (events client : bool) (ls : list plabel) (p : pump) : option pump :=
  match ls with
  | [] => Some p
  | l :: ls => match pstep events client l p with Some p' => pruns events client ls p' | None => None end
  end.

(** ** Sockets of the services *)

(** The steps of [log-forwarder], [computation-runner] and [attestation-service] before they
    serve; [listen] is [net.Listen]. *)
Section socket.
Context `{!OS}.
Definition openSocket (listen : list act -> string -> option error) (dir socketPath : string)
  : st (list act) (option error) :=
  fun h =>
  let '(stale, h) := Stat socketPath h in
  let '(r, h) := match stale with
                 | Ok _ => wrapping "failed to remove existing socket" (perform (ARemove socketPath)) h
                 | Err _ => (None, h)
                 end in
  match r with
  | Some e => (Some e, h)
  | None =>
      match wrapping "failed to create socket directory" (perform (AMkdirAll dir)) h with
      | (Some e, h) => (Some e, h)
      | (None, h) =>
          match listen h socketPath with
          | Some e => (Some (ErrWrap "failed to listen on socket" e), h)
          | None => wrapping "failed to chmod socket" (perform (AChmod socketPath 511)) h
          end
      end
  end.
End socket.

(** ** The allow list of the egress proxy: [cmd/egress-proxy/main.go] *)

Definition listSeparator (r : Z) : bool := (r =? 44) || (r =? 10) || (r =? 9) || (r =? 32).

(** [strings.FieldsFunc]; the separators are ASCII, so bytes can stand for runes. *)
Fixpoint fieldsFunc (sep : Z -> bool) (cur l : list Z) : list (list Z) :=
  let emit := match cur with [] => [] | _ => [cur] end in
  match l with
  | [] => emit
  | c :: l => if sep c then emit ++ fieldsFunc sep [] l else fieldsFunc sep (cur ++ [c]) l
  end.

Definition splitAllowlist (raw : string) : list string :=
  if bool_decide (raw = "") then []
  else List.filter (fun p => negb (bool_decide (p = "")))
         (map (fun p => TrimSpace (ofCodes p)) (fieldsFunc listSeparator [] (codes raw))).

(** ** What the agent announces: [cmd/agent/main.go] *)

(** [pem.Decode] and [x509.ParseCertificate], with the serial number as text. *)
Class CertLib := {
  certBlock : list byte -> option (list byte);
  parseSerial : list byte -> result error string }.

Definition SNPvTPMType : Z := 2.

Section announce.
Context `{!OS} `{!AgentEnv} `{!CertLib}.

(** None is a panic: the block of a file without PEM data is nil. *)
Definition certEvidence (evidence : list byte -> result error (list byte)) (certFilePath : string) (h : list act)
  : option (result error (list byte * string)) :=
  if bool_decide (certFilePath = "") then Some (Ok ([], ""))
  else match os_read h certFilePath with
       | Err e => Some (Err e)
       | Ok certFile =>
           match certBlock certFile with
           | None => None
           | Some der =>
               Some (let* serial := parseSerial der in
                     let* attest := evidence certFile in
                     Ok (attest, serial))
           end
       end.

Definition attestationFromCert : string -> list act -> option (result error (list byte * string)) :=
  certEvidence (fun certFile => Attestation (Sum512 certFile) (Sum256 certFile) SNPvTPMType).
Definition azureAttestationFromCert : string -> list act -> option (result error (list byte * string)) :=
  certEvidence (fun certFile => AzureAttestationToken (Sum256 certFile)).

(** Messages of the agent to the manager. *)
Inductive announcement :=
| AzureToken (file : list byte) (certSerialNumber : string)
| VTPMReport (file : list byte) (certSerialNumber : string).

(** The end of [main]; an error makes the agent exit. *)
Definition announce (azurePlatform : bool) (clientCert : string) (h : list act)
  : option (result error (list announcement)) :=
  match attestationFromCert clientCert h with
  | None => None
  | Some (Err e) => Some (Err e)
  | Some (Ok (attest, serial)) =>
      if azurePlatform then
        match azureAttestationFromCert clientCert h with
        | None => None
        | Some (Err e) => Some (Err e)
        | Some (Ok (token, serial')) => Some (Ok [AzureToken token serial'; VTPMReport attest serial])
        end
      else Some (Ok [VTPMReport attest serial])
  end.
End announce.

(** ** Warnings of the manager: [cmd/manager/main.go] *)

Definition isLocalBindHost (host : string) : bool :=
  let host := TrimSpace (Trim host "[]") in
  EqualFold host "localhost"
  || match ParseIP host with Some ip => IsLoopback ip | None => false end.

(** Whether the warning is logged. *)
Definition warnIfPublicWithoutTLS (c : serverConfig) : bool :=
  negb (isLocalBindHost (sc_Host c) || negb (bool_decide (sc_CertFile c = "")) || negb (bool_decide (sc_KeyFile c = ""))).

(** ** Commands for machines: [cli/manager.go] *)

Record vmFlags := mkVmFlags {
  vf_ServerUrl : string; vf_ServerCA : string; vf_ClientKey : string; vf_ClientCrt : string; vf_CaUrl : string;
  vf_LogLevel : string; vf_Ttl : Duration; vf_AwsAccessKeyId : string; vf_AwsSecretAccessKey : string;
  vf_AwsEndpointUrl : string; vf_AwsRegion : string; vf_AaKbsParams : string }.

(** [os.ReadFile] on the machine of the command is an argument: the manager runs elsewhere. *)
Definition fileReader (read : string -> result error (list byte)) (path : string) : result error (option (list byte)) :=
  if bool_decide (path = "") then Ok None else let* b := read path in Ok (Some b).

Definition loadCerts (read : string -> result error (list byte)) (f : vmFlags) : result error CreateReq :=
  let* clientKey := fileReader read (vf_ClientKey f) in
  let* clientCrt := fileReader read (vf_ClientCrt f) in
  let* serverCA := fileReader read (vf_ServerCA f) in
  Ok (mkCreateReq "" "" "" "" clientCrt clientKey serverCA "" "" "" "" "" "").

Definition createRequest (read : string -> result error (list byte)) (f : vmFlags) : result error CreateReq :=
  let* r := loadCerts read f in
  Ok (mkCreateReq (vf_LogLevel f) (vf_ServerUrl f) (q_AgentCertsToken r) (vf_CaUrl f) (q_AgentCvmClientCert r)
        (q_AgentCvmClientKey r) (q_AgentCvmServerCaCert r) (vf_AwsAccessKeyId f) (vf_AwsSecretAccessKey f)
        (vf_AwsEndpointUrl f) (vf_AwsRegion f) (vf_AaKbsParams f)
        (if 0 <? vf_Ttl f then DurationString (vf_Ttl f) else q_Ttl r)).

(** The connection of a command: an earlier failure, a client that is there, or
    [InitializeManagerClient]. *)
Definition connection (connectErr : option error) (client : bool) (initialize : option error) : option error :=
  match connectErr with Some e => Some e | None => if client then None else initialize end.

Section machines.
Context `{OS, ManagerEnv, ProcEnv, DiskEnv}.

(** What the command prints is the answer, or an error; None when the manager panicked. *)
Definition createVMCmd (connect : option error) (read : string -> result error (list byte)) (f : vmFlags) (id : string)
  : st managerService (option (result error CreateRes)) :=
  fun m =>
  match connect with
  | Some e => (Some (Err (ErrWrap "Failed to connect to manager" e)), m)
  | None => match createRequest read f with
            | Err e => (Some (Err (ErrWrap "Error loading certs" e)), m)
            | Ok req => CreateVm id req m
            end
  end.

Definition removeVMCmd (connect : option error) (id : string) : st managerService (option (result error unit)) :=
  fun m =>
  match connect with
  | Some e => (Some (Err (ErrWrap "Failed to connect to manager" e)), m)
  | None => RemoveVm id m
  end.
End machines.

(** ** The pump while sends succeed *)

Definition produced (l : plabel) : list streamMessage := match l with Produce m => [m] | _ => [] end.
Definition isFailure (l : plabel) : bool := match l with SendFailed _ _ => true | _ => false end.

(** What is on its way: in the pump's hands, then in the queue. *)
Definition pending (p : pump) : list streamMessage :=
  match pu_state p with PumpSend m | PumpLog m => [m] | _ => [] end ++ pu_queue p.
Definition noLogging (p : pump) : Prop := match pu_state p with PumpLog _ => False | _ => True end.

Lemma pstep_fifo events l p p' :
  isFailure l = false -> noLogging p -> pstep events true l p = Some p' ->
  noLogging p' /\ pu_sent p' ++ omap (entryOf events) (pending p')
                  = pu_sent p ++ omap (entryOf events) (pending p ++ produced l).
Proof.
  intros Hf Hn. destruct p as [q s sent ctx]. unfold pstep, noLogging, pending in *. cbn [pu_queue pu_state pu_sent pu_ctx] in *.
  destruct l, s; cbn [isFailure produced andb] in *; try done; rewrite ?app_nil_r;
    try (destruct (_ <? _)%nat; [|done]; intros [= <-]; split; [done|]; cbn; by rewrite ?omap_app).
  - destruct q as [|m q]; [done|]. intros [= <-]. cbn. destruct (entryOf events m) eqn:E; cbn; by rewrite ?E.
  - intros [= <-]. split; [done|]. cbn. destruct (entryOf events m) eqn:E; cbn; by rewrite ?E, ?app_nil_r, <- ?app_assoc.
  - by intros [= <-].
  - by intros [= <-].
  - by intros [= <-].
  - destruct ctx; [|done]. by intros [= <-].
Qed.

Lemma pruns_fifo events ls p p' :
  forallb (fun l => negb (isFailure l)) ls = true -> noLogging p -> pruns events true ls p = Some p' ->
  pu_sent p' ++ omap (entryOf events) (pending p')
  = pu_sent p ++ omap (entryOf events) (pending p) ++ omap (entryOf events) (concat (map produced ls)).
Proof.
  revert p; induction ls as [|l ls IH]; intros p Hf Hn; cbn [pruns map concat].
  { intros [= <-]. cbn. by rewrite app_nil_r. }
  cbn [forallb] in Hf. apply andb_prop in Hf as [Hl%negb_true_iff Hf].
  destruct (pstep events true l p) as [p1|] eqn:E; [|done].
  destruct (pstep_fifo _ _ _ _ Hl Hn E) as [Hn1 E1]. intros Hr. rewrite (IH _ Hf Hn1 Hr), app_assoc, E1.
  by rewrite !omap_app, <- !app_assoc.
Qed.

(** ** The pump while sends fail *)

Definition isLog (m : streamMessage) : bool := match m with MsgLog _ _ _ _ => true | _ => false end.
Definition work (p : pump) : nat := length (List.filter isLog (pending p)).
Definition isSent (l : plabel) : bool := match l with Sent => true | _ => false end.

Lemma pstep_work events l p p' : isSent l = false -> pstep events true l p = Some p' -> (work p <= work p')%nat.
Proof.
  intros Hl. destruct p as [q s sent ctx]. unfold pstep, work, pending. cbn [pu_queue pu_state pu_sent pu_ctx].
  destruct l, s; try done;
    try (destruct (_ <? _)%nat; [|done]; intros [= <-]; cbn; rewrite ?List.filter_app, ?length_app; cbn;
         repeat case_match; cbn; rewrite ?length_app; lia).
  - destruct q as [|m q]; [done|]. intros [= <-]. cbn. destruct m as [|? ? ? ? ? ?]; cbn; [done|]. by destruct events.
  - intros [= <-]. cbn. case_match; cbn; lia.
  - by intros [= <-].
  - by intros [= <-].
  - by intros [= <-].
  - by intros [= <-].
  - destruct ctx; [|done]. by intros [= <-].
Qed.

Lemma pruns_work events ls p p' :
  forallb (fun l => negb (isSent l)) ls = true -> pruns events true ls p = Some p' -> (work p <= work p')%nat.
Proof.
  revert p; induction ls as [|l ls IH]; intros p Hf; cbn [pruns]; [by intros [= <-]|].
  cbn [forallb] in Hf. apply andb_prop in Hf as [Hl%negb_true_iff Hf].
  destruct (pstep events true l p) as [p1|] eqn:E; [|done]. intros Hr.
  pose proof (pstep_work _ _ _ _ Hl E). pose proof (IH _ Hf Hr). lia.
Qed.

(** ** The pump that waits for itself *)

Definition stuck (p : pump) : Prop := length (pu_queue p) = queueCap /\ exists m, pu_state p = PumpLog m.

Lemma stuck_forever events client ls p p' :
  stuck p -> pruns events client ls p = Some p' ->
  Forall (eq Cancel) ls /\ pu_queue p' = pu_queue p /\ pu_state p' = pu_state p /\ pu_sent p' = pu_sent p.
Proof.
  revert p; induction ls as [|l ls IH]; intros p [Hl [m Hs]]; cbn [pruns]; [by intros [= <-]|].
  unfold pstep. rewrite Hs, Hl, Nat.ltb_irrefl. destruct l; try done. intros Hr.
  destruct (IH (mkPump (pu_queue p) (PumpLog m) (pu_sent p) true)) as (Hc & E1 & E2 & E3); [split; cbn; eauto|done|].
  split_and!; [by constructor|done|by rewrite E2|done].
Qed.

Lemma fill_queue events client n m p :
  (length (pu_queue p) + n <= queueCap)%nat ->
  pruns events client (replicate n (Produce m)) p
  = Some (mkPump (pu_queue p ++ replicate n m) (pu_state p) (pu_sent p) (pu_ctx p)).
Proof.
  revert p; induction n as [|n IH]; intros p Hn; cbn [replicate pruns].
  { rewrite app_nil_r. by destruct p. }
  cbn [pstep]. rewrite (proj2 (Nat.ltb_lt _ _)) by lia.
  rewrite IH by (cbn; rewrite length_app; cbn; lia). cbn. by rewrite <- app_assoc.
Qed.

Lemma pruns_app events client a b p :
  pruns events client (a ++ b) p = match pruns events client a p with Some p' => pruns events client b p' | None => None end.
Proof.
  revert p; induction a as [|l a IH]; intros p; cbn [app pruns]; [done|].
  destruct (pstep events client l p); [apply IH|done].
Qed.

Definition jam (m : streamMessage) (now : Z) (cmpID : string) : list plabel :=
  [Produce m; Take] ++ replicate queueCap (Produce m) ++ [SendFailed now cmpID].

Lemma jam_stuck events now cmpID t text lvl id :
  exists p, pruns events true (jam (MsgLog t text lvl id) now cmpID) newPump = Some p /\ stuck p.
Proof.
  unfold jam. rewrite pruns_app. cbn [pruns pstep newPump pu_queue pu_state length app entryOf].
  rewrite (proj2 (Nat.ltb_lt 0 queueCap)) by (unfold queueCap; lia). cbn [pruns pstep pu_queue pu_state app entryOf].
  rewrite bool_decide_eq_false_2 by done. cbn [negb andb].
  rewrite pruns_app, fill_queue by (cbn [pu_queue length]; lia). cbn [pruns pstep pu_state pu_queue app].
  eexists. split; [done|]. split; [cbn [pu_queue]; apply length_replicate|cbn; eauto].
Qed.

(** ** Fields of an allow list *)

Definition separatorFree (l : list Z) : Prop := Forall (fun c => listSeparator c = false) l.

Lemma fieldsFunc_free cur l : separatorFree l -> fieldsFunc listSeparator cur l = match cur ++ l with [] => [] | f => [f] end.
Proof.
  revert cur; induction l as [|c l IH]; intros cur Hl; cbn [fieldsFunc]; [by rewrite app_nil_r; destruct cur|].
  inversion Hl as [|? ? Hc Hl']; subst. rewrite Hc, IH by done. rewrite <- app_assoc. done.
Qed.

Lemma fieldsFunc_cons cur l r :
  separatorFree l -> cur ++ l <> [] ->
  fieldsFunc listSeparator cur (l ++ 44 :: r) = (cur ++ l) :: fieldsFunc listSeparator [] r.
Proof.
  revert cur; induction l as [|c l IH]; intros cur Hl Hn; cbn [app fieldsFunc].
  - change (listSeparator 44) with true. rewrite app_nil_r in *. by destruct cur.
  - inversion Hl as [|? ? Hc Hl']; subst. rewrite Hc, IH by (done || (rewrite <- app_assoc; by destruct cur)).
    by rewrite <- app_assoc.
Qed.

(** [strings.Join] with a comma. *)
Fixpoint joinComma (es : list string) : string :=
  match es with [] => "" | [e] => e | e :: es => e +:+ "," +:+ joinComma es end.
Definition plainEntry (e : string) : Prop := e <> "" /\ separatorFree (codes e) /\ TrimSpace e = e.

Lemma fields_join es : Forall plainEntry es -> fieldsFunc listSeparator [] (codes (joinComma es)) = map codes es.
Proof.
  intros Hes. induction es as [|e es IH]; [done|]. inversion Hes as [|? ? (Hn & Hf & _) Hes']; subst.
  assert (codes e <> []) as Hc by (intros E; apply Hn, codes_inj; by rewrite E).
  destruct es as [|e' es].
  - cbn [joinComma map]. rewrite fieldsFunc_free by done. cbn [app]. by destruct (codes e).
  - change (joinComma (e :: e' :: es)) with (e +:+ "," +:+ joinComma (e' :: es)). rewrite !codes_app.
    change (codes ",") with [44]. cbn [app]. rewrite fieldsFunc_cons by done. cbn [app map]. f_equal. by apply IH.
Qed.

Lemma splitAllowlist_join es : Forall plainEntry es -> splitAllowlist (joinComma es) = es.
Proof.
  intros Hes. unfold splitAllowlist. destruct (bool_decide_reflect (joinComma es = "")) as [E|_].
  - destruct es as [|e es]; [done|]. inversion Hes as [|? ? (Hn & _) _]; subst. exfalso. apply Hn.
    apply (f_equal codes) in E. apply codes_inj. destruct es as [|e' es]; [done|].
    change (joinComma (e :: e' :: es)) with (e +:+ "," +:+ joinComma (e' :: es)) in E. rewrite codes_app in E.
    change (codes "") with (@nil Z) in *. by apply app_eq_nil in E as [-> _].
  - rewrite fields_join, map_map by done. induction es as [|e es IH]; [done|].
    inversion Hes as [|? ? (Hn & _ & Ht) Hes']; subst. cbn [map List.filter]. rewrite ofCodes_codes, Ht.
    rewrite bool_decide_eq_false_2 by done. cbn [negb]. f_equal. by apply IH.
Qed.

(** ** Theorems *)

(** While the log service answers, the pump loses nothing: what was put on the queue is,
    in order and once each, what was sent, what the pump has in hand and what waits; the
    pumps other than the agent's leave out the events. *)
Theorem pump_delivers_in_order (events : bool) (ls : list plabel) (p : pump) :
  forallb (fun l => negb (isFailure l)) ls = true -> pruns events true ls newPump = Some p ->
  omap (entryOf events) (concat (map produced ls)) = pu_sent p ++ omap (entryOf events) (pending p).
Proof. intros Hf Hr. by rewrite (pruns_fifo _ _ newPump _ Hf I Hr). Qed.

(** While no send succeeds the pump feeds itself: the record of each failure takes the place
    of the message that was lost, so the log messages to be sent never become fewer. *)
Theorem failing_pump_never_drains (events : bool) (ls : list plabel) (p p' : pump) :
  forallb (fun l => negb (isSent l)) ls = true -> pruns events true ls p = Some p' -> (work p <= work p')%nat.
Proof. apply pruns_work. Qed.

(** C37: the pump can stop every goroutine that logs.  When the queue fills while a send is
    under way that then fails, the pump waits for room on the queue only it empties.  Such a state
    is reached from the start, and nothing but the end of the context happens after it. *)
Theorem pump_deadlocks (events : bool) (t now : Z) (text lvl id cmpID : string) :
  exists p, pruns events true (jam (MsgLog t text lvl id) now cmpID) newPump = Some p
  /\ forall ls p', pruns events true ls p = Some p' ->
     Forall (eq Cancel) ls /\ pu_queue p' = pu_queue p /\ pu_state p' = pu_state p /\ pu_sent p' = pu_sent p.
Proof.
  destruct (jam_stuck events now cmpID t text lvl id) as (p & E & Hs). exists p. split; [done|].
  intros ls p'. by apply stuck_forever.
Qed.

(** A service that listens has removed the stale socket, made the directory and opened the
    socket to every user, in this order. *)
Theorem socket_opened `{!OS} (listen : list act -> string -> option error) (dir path : string) (h h' : list act) :
  openSocket listen dir path h = (None, h') ->
  h' = h ++ (match os_stat h path with Ok _ => [ARemove path] | Err _ => [] end) ++ [AMkdirAll dir; AChmod path 511].
Proof.
  unfold openSocket, Stat, wrapping, perform. destruct (os_stat h path); cbn.
  1: destruct (os_act h (ARemove path)); cbn; [done|].
  all: destruct (os_act _ (AMkdirAll dir)); cbn; [done|]; destruct (listen _ path); [done|];
    destruct (os_act _ (AChmod path 511)); cbn; [done|]; intros [= <-]; by rewrite <- !app_assoc.
Qed.

(** The allow list reads back what was joined with commas, so the proxy of the command line
    has the policy of exactly these entries. *)
Theorem allowlist_roundtrip (es : list string) : Forall plainEntry es -> splitAllowlist (joinComma es) = es.
Proof. apply splitAllowlist_join. Qed.

(** What the agent announces is evidence for its client certificate: the report is asked for
    the two digests of the very file whose serial number goes with it, the Azure token for
    the second of them.  The platform asked for is always SNP with vTPM. *)
Theorem announced_for_certificate `{!OS} `{!AgentEnv} `{!CertLib} (azurePlatform : bool) (path : string) (h : list act)
    (msgs : list announcement) :
  path <> "" -> announce azurePlatform path h = Some (Ok msgs) ->
  exists certFile der serial attest,
    os_read h path = Ok certFile /\ certBlock certFile = Some der /\ parseSerial der = Ok serial
    /\ Attestation (Sum512 certFile) (Sum256 certFile) SNPvTPMType = Ok attest
    /\ if azurePlatform
       then exists token, AzureAttestationToken (Sum256 certFile) = Ok token
                          /\ msgs = [AzureToken token serial; VTPMReport attest serial]
       else msgs = [VTPMReport attest serial].
Proof.
  intros Hp. unfold announce, attestationFromCert, azureAttestationFromCert, certEvidence.
  rewrite bool_decide_eq_false_2 by done. destruct (os_read h path) as [certFile|] eqn:Er; [|done].
  destruct (certBlock certFile) as [der|] eqn:Eb; [|done]. destruct (parseSerial der) as [serial|] eqn:Es; [|done]. cbn.
  destruct (Attestation _ _ _) as [attest|] eqn:Ea; [|done]. cbn. destruct azurePlatform.
  - destruct (AzureAttestationToken _) as [token|] eqn:Et; [|done]. intros [= <-].
    exists certFile, der, serial, attest. split_and!; try done. by exists token.
  - intros [= <-]. by exists certFile, der, serial, attest.
Qed.

(** A client certificate that is not PEM makes the agent panic at its start. *)
Theorem announce_panics `{!OS} `{!AgentEnv} `{!CertLib} (azurePlatform : bool) (path : string) (h : list act)
    (certFile : list byte) :
  path <> "" -> os_read h path = Ok certFile -> certBlock certFile = None -> announce azurePlatform path h = None.
Proof.
  intros Hp Hr Hb. unfold announce, attestationFromCert, certEvidence. by rewrite bool_decide_eq_false_2, Hr, Hb.
Qed.

(** What the manager warns about: its gRPC server refuses such a configuration before it
    listens, its HTTP server serves it in plaintext all the same. *)
Theorem warned_configuration {Cert} `{!OS} `{!TLSLib Cert} (h : list act) (name : string) (listen : string -> option error)
    (e : ending) (c : serverConfig) :
  warnIfPublicWithoutTLS c = true ->
  Runtime.grpcStart (Cert := Cert) h listen e c = (Some (ErrWrap (baseAddress c) ErrPlaintextPublicGRPC), [])
  /\ SServe None ∈ snd (Runtime.httpStart (Cert := Cert) h name e c).
Proof.
  unfold warnIfPublicWithoutTLS, Runtime.grpcStart, Runtime.httpStart, PlaintextBindAllowed.
  change (isLocalBindHost (sc_Host c)) with (IsLoopbackHost (sc_Host c)). rewrite <- orb_assoc. fold (tlsConfigured c).
  destruct (IsLoopbackHost (sc_Host c)), (tlsConfigured c); cbn [orb negb andb]; try done. intros _. split; [done|].
  destruct e; cbn; rewrite !elem_of_cons; auto.
Qed.

Section machines.
Context `{OS, ManagerEnv, ProcEnv, DiskEnv}.

Lemma CreateVM_id (id id' : string) (req : CreateReq) (m m' : managerService) (r : result error string) :
  CreateVM id req m = (CDone id' r, m') -> id' = id.
Proof.
  destruct (CreateVM_cases id req m) as [(e & h & ->)|(line & cfg & p & v & h & _ & Hp & ->)]; [by intros [= -> _ _]|].
  destruct (createPrepare_machine _ _ _ _ _ _ _ _ _ _ _ Hp) as ([pid Hc] & _).
  rewrite createRest_entered by (first [by eexists | apply lookup_insert_eq]). repeat case_match; by intros [= -> _ _].
Qed.

(** C32: the time to live given on the command line is the one the manager arms, to the
    nanosecond: it goes through text on the way.  The machine is there and runs, and the
    port printed is the one its agent is reached on. *)
Theorem create_vm_arms_ttl `{!ManagerLaws} (read : string -> result error (list byte)) (f : vmFlags) (id : string)
    (m m' : managerService) (res : CreateRes) :
  ms_portRangeMin m <= ms_portRangeMax m -> 0 < vf_Ttl f <= maxInt64 ->
  createVMCmd None read f id m = (Some (Ok res), m') ->
  cr_CvmId res = id /\ ms_timers m' = <[id := mkTimer (vf_Ttl f) true]> (ms_timers m)
  /\ exists v agentPort, ms_vms m' = <[id := v]> (ms_vms m) /\ v_state v = VmRunning
     /\ net_HostFwdAgent (c_NetDev (vi_Config (v_vmi v))) = agentPort /\ cr_ForwardedPort res = Itoa agentPort.
Proof.
  intros Hr Ht. unfold createVMCmd, createRequest. destruct (loadCerts read f) as [r|]; [|done].
  rewrite (proj2 (Z.ltb_lt 0 (vf_Ttl f))) by lia. unfold CreateVm.
  match goal with |- context [CreateVM id ?q m] => set (req := q) end.
  destruct (CreateVM id req m) as [t mt] eqn:E. destruct t as [| | | | | |id' [port|]|]; try done. intros [= <- <-].
  assert (id' = id) as -> by (eapply CreateVM_id; exact E).
  destruct (CreateVM_running id req m mt port Hr E) as (v & agentPort & pid & Hv & Hs & _ & Hp & Hpt & _ & Htm).
  assert (ParseDuration (q_Ttl req) = Ok (vf_Ttl f)) as Hd by (apply duration_roundtrip; unfold minInt64; lia).
  split; [done|]. split; [|by exists v, agentPort].
  destruct Htm as [[Hq _]|(ttl & Hq & Htm)]; [|congruence]. rewrite Hq in Hd. by vm_compute in Hd.
Qed.
End machines.

(** ** Samples *)

Module ProgramsSample.
Definition hello : streamMessage := MsgLog 5 "hello" "INFO" "c1".
Definition done_ : streamMessage := MsgEvent 6 "RunComplete" "c1" "agent" "Completed" [].

Definition talk : list plabel := [Produce hello; Produce done_; Take; Sent; Take; Produce hello].
Definition talked : pump := mkPump [hello] (PumpSend done_) [LogEntry "hello" "c1" "INFO" 5] false.

Lemma pump_delivers_in_order_witness :
  omap (entryOf true) [hello; done_; hello] = pu_sent talked ++ omap (entryOf true) (pending talked).
Proof. apply (pump_delivers_in_order true talk talked); by vm_compute. Defined.

Definition busy : pump := mkPump [hello] PumpWait [] false.
Definition failed : pump := mkPump [failure 9 "c1" hello] PumpWait [] false.
Lemma failing_pump_never_drains_witness : (work busy <= work failed)%nat.
Proof. apply (failing_pump_never_drains true [Take; SendFailed 9 "c1"; PutFailure]); by vm_compute. Defined.

Definition listens (h : list act) (path : string) : option error := None.
Definition logSocket : string := "/run/agents-secure-binding/log.sock".
#[local] Instance disk : OS := {|
  os_act := fun _ _ => None; os_stat := fun _ _ => Ok 0; os_read := fun _ p => Ok (bytesOf p);
  os_walk := fun _ _ => Ok []; os_glob := fun _ _ => Ok []; os_getwd := fun _ => Ok "/" |}.
Definition opened : list act :=
  [ARemove logSocket; AMkdirAll "/run/agents-secure-binding"; AChmod logSocket 511].
Lemma socket_opened_witness :
  opened = [] ++ (match os_stat [] logSocket with Ok _ => [ARemove logSocket] | Err _ => [] end)
           ++ [AMkdirAll "/run/agents-secure-binding"; AChmod logSocket 511].
Proof. apply (socket_opened listens). by vm_compute. Defined.

Definition entries : list string := ["kbs.example:8080"; "10.0.0.0/8"; "[2001:db8::1]:443"].
Lemma allowlist_roundtrip_witness : splitAllowlist (joinComma entries) = entries.
Proof.
  apply allowlist_roundtrip.
  repeat (constructor; [split; [done|]; split; [by apply Forall_forall, Forall_forall; repeat constructor|by vm_compute]|]).
  constructor.
Defined.

#[local] Instance attester : AgentEnv := {
  tempDir := "/tmp"; getAttestation _ _ _ := Ok [x01]; getAzureToken _ := Ok [x02]; getPCRSHA1Value _ := Ok [x03] }.
#[local] Instance certs : CertLib := {
  certBlock b := if bool_decide (b = bytesOf "client.der") then None else Some b;
  parseSerial b := Ok "17" }.
Lemma announced_for_certificate_witness :
  exists certFile der serial attest,
    os_read [] "client.pem" = Ok certFile /\ certBlock certFile = Some der /\ parseSerial der = Ok serial
    /\ Attestation (Sum512 certFile) (Sum256 certFile) SNPvTPMType = Ok attest
    /\ exists token, AzureAttestationToken (Sum256 certFile) = Ok token
       /\ [AzureToken [x02] "17"; VTPMReport [x01] "17"] = [AzureToken token serial; VTPMReport attest serial].
Proof.
  refine (announced_for_certificate true "client.pem" [] [AzureToken [x02] "17"; VTPMReport [x01] "17"] _ _);
    [done|reflexivity].
Defined.

Lemma announce_panics_witness : announce false "client.der" [] = None.
Proof. apply (announce_panics false "client.der" [] (bytesOf "client.der")); done. Defined.

#[local] Instance noTLS : TLSLib string := {|
  X509KeyPair := fun c k => Ok ""; appendCertsFromPEM := fun _ => true; Priv := unit;
  generateKeyP256 := Ok tt; randInt := fun _ => Ok 7; createCertificate := fun t _ => Ok [];
  parseLeaf := fun der _ => Ok "" |}.
Definition public : serverConfig := Netguard.mkServerConfig "0.0.0.0" "7001" "" "" "" "".
Lemma warned_configuration_witness :
  Runtime.grpcStart (Cert := string) [] (fun _ => None) (ServeEnded None) public
  = (Some (ErrWrap (baseAddress public) ErrPlaintextPublicGRPC), [])
  /\ SServe None ∈ snd (Runtime.httpStart (Cert := string) [] "manager" (ServeEnded None) public).
Proof. apply warned_configuration. by vm_compute. Defined.
End ProgramsSample.

(** On the host of [ManagerRuns]. *)
Module MachineSample.
Import ManagerSample.
Definition flags : vmFlags :=
  mkVmFlags "127.0.0.1:7001" "" "client.key" "client.pem" "" "debug" 5400000000001 "" "" "" "" "".
Definition fileOf (p : string) : result error (list byte) := Ok (bytesOf p).
Definition answer : CreateRes := mkCreateRes "6101" "a".
Definition createdVM : managerService := snd (createVMCmd None fileOf flags "a" noVMs).

Lemma create_vm_arms_ttl_witness :
  cr_CvmId answer = "a" /\ ms_timers createdVM = <["a" := mkTimer (vf_Ttl flags) true]> (ms_timers noVMs)
  /\ exists v agentPort, ms_vms createdVM = <["a" := v]> (ms_vms noVMs) /\ v_state v = VmRunning
     /\ net_HostFwdAgent (c_NetDev (vi_Config (v_vmi v))) = agentPort /\ cr_ForwardedPort answer = Itoa agentPort.
Proof.
  refine (create_vm_arms_ttl fileOf flags "a" noVMs createdVM answer _ _ _); [by cbn|by cbn|].
  vm_compute. reflexivity.
Defined.
End MachineSample.
