(* ===== verification/Middleware.v ===== *)
(** * What the services are wrapped in: logging, metrics, tracing

    [agent/api/logging.go], [agent/api/metrics.go], [manager/api/logging.go],
    [manager/api/metrics.go] and [manager/tracing/tracing.go] wrap each operation of a
    service.  A service is the record of its operations over a state; a middleware adds the
    state of its own.  How long a call took is an argument ([elapsed], by the number of
    records before it), and so is the text of an error. *)

From stdpp Require Import base gmap list strings.
From Stdlib Require Import ZArith Lia Strings.Byte.
From S2P Require Import Prelude GoStrings Errors GoPath GoOS GoNumbers GoDuration Logs AgentService Qemu VmStore Manager.

(** ** Records and counters *)

Definition LevelDebugZ : Z := -4.
Definition LevelInfoZ : Z := 0.
Definition LevelWarnZ : Z := 4.

Record logRecord := mkRecord { lr_level : Z; lr_message : string; lr_cmpID : string }.
Record logger := mkLogger { lg_handler : handler; lg_records : list logRecord }.

Definition emit (lvl : Z) (message : string) (lg : logger) : logger :=
  if Enabled (lg_handler lg) lvl
  then mkLogger (lg_handler lg) (lg_records lg ++ [mkRecord lvl message (lh_cmpID (lg_handler lg))]) else lg.

(** [Logger.WithGroup]: no group for an empty name, and the handler is changed in place. *)
Definition inGroup (name : string) (lg : logger) : logger :=
  if bool_decide (name = "") then lg else mkLogger (WithGroup name (lg_handler lg)) (lg_records lg).

(** Counters by method, and the latencies observed, in nanoseconds. *)
Record meters := mkMeters { mt_count : gmap string Z; mt_latency : list (string * Duration) }.

Class CallClock := { elapsed : nat -> Duration; errorText : error -> string }.

Section wrap.
Context `{!CallClock} {S : Type}.

(** The deferred function of a method that can fail. *)
Definition report (message : string) (r : option error) (lg : logger) : logger :=
  match r with
  | Some e => emit LevelWarnZ (message +:+ " with error: " +:+ errorText e) lg
  | None => emit LevelInfoZ (message +:+ " without errors") lg
  end.

Definition took (lg : logger) : string := " took " +:+ DurationString (elapsed (length (lg_records lg))) +:+ " to complete".

Definition logged {A} (name : string) (failed : A -> option error) (group : logger -> logger) (m : st S A)
  : st (S * logger) A :=
  fun '(s, lg) => let '(a, s') := m s in (a, (s', report (name +:+ took lg) (failed a) (group lg))).

Definition metered {A} (method : string) (m : st S A) : st (S * meters) A :=
  fun '(s, mt) => let '(a, s') := m s in
  (a, (s', mkMeters (<[method := default 0 (mt_count mt !! method) + 1]> (mt_count mt))
             (mt_latency mt ++ [(method, elapsed (length (mt_latency mt)))]))).

Definition traced {A} (span : string) (m : st S A) : st (S * list string) A :=
  fun '(s, spans) => let '(a, s') := m s in (a, (s', spans ++ [span])).
End wrap.

Definition errOf {A} (r : result error A) : option error := match r with Ok _ => None | Err e => Some e end.
Definition nilErr (r : option error) : option error := r.

(** ** The agent's service *)

Record agentSvc (S : Type) := mkAgentSvc {
  as_State : st S string;
  as_InitComputation : Computation -> st S (option error);
  as_StopComputation : st S (option error);
  as_Algo : context -> Algorithm -> st S (option error);
  as_Data : context -> Dataset -> st S (option error);
  as_Result : context -> st S (result error (list byte));
  as_Attestation : list byte -> list byte -> Z -> st S (result error (list byte));
  as_IMAMeasurements : st S (result error (list byte * list byte));
  as_AzureAttestationToken : list byte -> st S (result error (list byte)) }.
Arguments mkAgentSvc {S}. Arguments as_State {S}. Arguments as_InitComputation {S}. Arguments as_StopComputation {S}.
Arguments as_Algo {S}. Arguments as_Data {S}. Arguments as_Result {S}. Arguments as_Attestation {S}.
Arguments as_IMAMeasurements {S}. Arguments as_AzureAttestationToken {S}.

Section agent.
Context `{!CallClock} {S : Type}.

(** [LoggingMiddleware] of the agent. *)
Definition agentLogging (svc : agentSvc S) : agentSvc (S * logger) :=
  mkAgentSvc
    (fun '(s, lg) =>
       let '(state, s') := as_State svc s in
       (state, (s', emit LevelDebugZ ("Method State" +:+ took lg +:+ " with state " +:+ state) lg)))
    (fun cmp => logged ("Method InitComputation for computation id " +:+ cmp_ID cmp) nilErr (inGroup (cmp_ID cmp))
                  (as_InitComputation svc cmp))
    (logged "Method StopComputation" nilErr id (as_StopComputation svc))
    (fun c algo => logged "Method Algo" nilErr id (as_Algo svc c algo))
    (fun c d => logged "Method Data" nilErr id (as_Data svc c d))
    (fun c => logged "Method Result" errOf id (as_Result svc c))
    (fun reportData nonce attType => logged "Method Attestation" errOf id (as_Attestation svc reportData nonce attType))
    (logged "Method IMAMeasurements" errOf id (as_IMAMeasurements svc))
    (fun nonce => logged "Method AzureAttestationToken" errOf id (as_AzureAttestationToken svc nonce)).

(** [MetricsMiddleware] of the agent. *)
Definition agentMetrics (svc : agentSvc S) : agentSvc (S * meters) :=
  mkAgentSvc
    (metered "state" (as_State svc))
    (fun cmp => metered "init_computation" (as_InitComputation svc cmp))
    (metered "stop_computation" (as_StopComputation svc))
    (fun c algo => metered "algo" (as_Algo svc c algo))
    (fun c d => metered "data" (as_Data svc c d))
    (fun c => metered "result" (as_Result svc c))
    (fun reportData nonce attType => metered "attestation" (as_Attestation svc reportData nonce attType))
    (metered "imameasurements" (as_IMAMeasurements svc))
    (fun nonce => metered "attestation_token" (as_AzureAttestationToken svc nonce)).
End agent.

(** [newService] of [cmd/agent/main.go]. *)
Definition agentNewService `{!CallClock} {S} (core : agentSvc S) : agentSvc (S * logger * meters) :=
  agentMetrics (agentLogging core).

(** ** The manager's service *)

Record managerSvc (S : Type) := mkManagerSvc {
  mv_CreateVM : CreateReq -> st S (string * string * option error);
  mv_RemoveVM : string -> st S (option error);
  mv_FetchAttestationPolicy : string -> st S (result error (list byte));
  mv_ReturnCVMInfo : st S (string * Z * string * string);
  mv_Shutdown : st S (option error) }.
Arguments mkManagerSvc {S}. Arguments mv_CreateVM {S}. Arguments mv_RemoveVM {S}.
Arguments mv_FetchAttestationPolicy {S}. Arguments mv_ReturnCVMInfo {S}. Arguments mv_Shutdown {S}.

Section manager.
Context `{!CallClock} {S : Type}.

(** Here the message of success is the bare text, and that of an error ends with a period. *)
Definition plainReport (message : string) (r : option error) (lg : logger) : logger :=
  match r with
  | Some e => emit LevelWarnZ (message +:+ " with error: " +:+ errorText e +:+ ".") lg
  | None => emit LevelInfoZ message lg
  end.
Definition plainLogged {A} (name : A -> string) (failed : A -> option error) (m : st S A) : st (S * logger) A :=
  fun '(s, lg) => let '(a, s') := m s in (a, (s', plainReport (name a +:+ took lg) (failed a) lg)).

Definition managerLogging (svc : managerSvc S) : managerSvc (S * logger) :=
  mkManagerSvc
    (fun req => plainLogged (fun '(agentAddr, id, _) => "Method CreateVM for id " +:+ id +:+ " on port " +:+ agentAddr)
                  (fun '(_, _, err) => err) (mv_CreateVM svc req))
    (fun id => plainLogged (fun _ => "Method RemoveVM for vm " +:+ id) nilErr (mv_RemoveVM svc id))
    (fun cmpId => plainLogged (fun _ => "Method FetchAttestation  for computation " +:+ cmpId) errOf
                    (mv_FetchAttestationPolicy svc cmpId))
    (plainLogged (fun _ => "Method ReturnCVMInfo for computation") (fun _ => None) (mv_ReturnCVMInfo svc))
    (fun '(s, lg) =>
       let '(r, s') := mv_Shutdown svc s in
       (r, (s', match r with
                | Some _ => emit LevelWarnZ "Method Shutdown completed with error" lg
                | None => emit LevelInfoZ "Method Shutdown completed successfully" lg
                end))).

Definition managerMetrics (svc : managerSvc S) : managerSvc (S * meters) :=
  mkManagerSvc
    (fun req => metered "Run" (mv_CreateVM svc req))
    (fun id => metered "Stop" (mv_RemoveVM svc id))
    (fun cmpId => metered "FetchAttestationPolicy" (mv_FetchAttestationPolicy svc cmpId))
    (metered "ReturnCVMInfo" (mv_ReturnCVMInfo svc))
    (metered "Shutdown" (mv_Shutdown svc)).

(** [tracing.New]: the spans ended, in order. *)
Definition managerTracing (svc : managerSvc S) : managerSvc (S * list string) :=
  mkManagerSvc
    (fun req => traced "run" (mv_CreateVM svc req))
    (fun id => traced "stop" (mv_RemoveVM svc id))
    (fun cmpId => traced "fetch_attestation_policy" (mv_FetchAttestationPolicy svc cmpId))
    (traced "return_cvm_info" (mv_ReturnCVMInfo svc))
    (traced "shutdown" (mv_Shutdown svc)).
End manager.

(** [newService] of [cmd/manager/main.go], after the service itself was made. *)
Definition managerNewService `{!CallClock} {S} (core : managerSvc S) : managerSvc (S * logger * meters * list string) :=
  managerTracing (managerMetrics (managerLogging core)).

(** ** Transparency *)

(** The wrapped operation does what the operation does, through the projection [p]. *)
Definition transparent {S L A} (p : L -> S) (m : st S A) (m' : st L A) : Prop :=
  forall l, fst (m' l) = fst (m (p l)) /\ p (snd (m' l)) = snd (m (p l)).

Lemma transparent_comp {S L M A} (p : L -> S) (q : M -> L) (m : st S A) (m' : st L A) (m'' : st M A) :
  transparent p m m' -> transparent q m' m'' -> transparent (fun x => p (q x)) m m''.
Proof. intros H1 H2 x. destruct (H2 x) as [-> E2], (H1 (q x)) as [-> E1]. by rewrite E2, E1. Qed.

Section lemmas.
Context `{!CallClock} {S : Type}.

Lemma logged_transparent {A} name failed group (m : st S A) : transparent fst m (logged name failed group m).
Proof. intros [s lg]. unfold logged. cbn. by destruct (m s). Qed.
Lemma plainLogged_transparent {A} name failed (m : st S A) : transparent fst m (plainLogged name failed m).
Proof. intros [s lg]. unfold plainLogged. cbn. by destruct (m s). Qed.
Lemma metered_transparent {A} method (m : st S A) : transparent fst m (metered method m).
Proof. intros [s mt]. unfold metered. cbn. by destruct (m s). Qed.
Lemma traced_transparent {A} span (m : st S A) : transparent fst m (traced span m).
Proof. intros [s l]. unfold traced. cbn. by destruct (m s). Qed.

Lemma State_transparent (svc : agentSvc S) : transparent fst (as_State svc) (as_State (agentLogging svc)).
Proof. intros [s lg]. cbn. by destruct (as_State svc s). Qed.
Lemma Shutdown_transparent (svc : managerSvc S) : transparent fst (mv_Shutdown svc) (mv_Shutdown (managerLogging svc)).
Proof. intros [s lg]. cbn. by destruct (mv_Shutdown svc s). Qed.
End lemmas.

(** One layer, from the outside. *)
Ltac layer := first [apply metered_transparent | apply traced_transparent | apply State_transparent
                    | apply Shutdown_transparent | apply logged_transparent | apply plainLogged_transparent].

(** ** Calls *)

Inductive agentCall :=
| CallState | CallInit (c : Computation) | CallStop | CallAlgo (c : context) (a : Algorithm)
| CallData (c : context) (d : Dataset) | CallResult (c : context) | CallAttestation (reportData nonce : list byte) (t : Z)
| CallIMA | CallToken (nonce : list byte).

Definition methodOf (c : agentCall) : string :=
  match c with
  | CallState => "state" | CallInit _ => "init_computation" | CallStop => "stop_computation" | CallAlgo _ _ => "algo"
  | CallData _ _ => "data" | CallResult _ => "result" | CallAttestation _ _ _ => "attestation"
  | CallIMA => "imameasurements" | CallToken _ => "attestation_token"
  end.

Definition runCall {S} (svc : agentSvc S) (s : S) (c : agentCall) : S :=
  match c with
  | CallState => snd (as_State svc s)
  | CallInit cmp => snd (as_InitComputation svc cmp s)
  | CallStop => snd (as_StopComputation svc s)
  | CallAlgo c a => snd (as_Algo svc c a s)
  | CallData c d => snd (as_Data svc c d s)
  | CallResult c => snd (as_Result svc c s)
  | CallAttestation r n t => snd (as_Attestation svc r n t s)
  | CallIMA => snd (as_IMAMeasurements svc s)
  | CallToken n => snd (as_AzureAttestationToken svc n s)
  end.

Definition callsOf (method : string) (cs : list agentCall) : Z :=
  len (List.filter (fun c => bool_decide (methodOf c = method)) cs).

Lemma metered_count `{!CallClock} {S A} method (m : st S A) s mt method' :
  default 0 (mt_count (snd (snd (metered method m (s, mt)))) !! method')
  = default 0 (mt_count mt !! method') + (if bool_decide (method = method') then 1 else 0).
Proof.
  unfold metered. destruct (m s) as [a s']. cbn. destruct (bool_decide_reflect (method = method')) as [<-|Hne].
  - by rewrite lookup_insert_eq.
  - rewrite lookup_insert_ne by done. lia.
Qed.

Lemma runCall_count `{!CallClock} {S} (svc : agentSvc S) s mt c method :
  default 0 (mt_count (snd (runCall (agentMetrics svc) (s, mt) c)) !! method)
  = default 0 (mt_count mt !! method) + (if bool_decide (methodOf c = method) then 1 else 0).
Proof. destruct c; apply metered_count. Qed.

(** ** Theorems *)

(** The service of the agent as the program composes it answers every call, and changes the
    state, as the core service does. *)
Theorem agent_middleware_transparent `{!CallClock} {S} (core : agentSvc S) :
  let svc := agentNewService core in
  let p (x : S * logger * meters) := x.1.1 in
  transparent p (as_State core) (as_State svc)
  /\ (forall c, transparent p (as_InitComputation core c) (as_InitComputation svc c))
  /\ transparent p (as_StopComputation core) (as_StopComputation svc)
  /\ (forall c a, transparent p (as_Algo core c a) (as_Algo svc c a))
  /\ (forall c d, transparent p (as_Data core c d) (as_Data svc c d))
  /\ (forall c, transparent p (as_Result core c) (as_Result svc c))
  /\ (forall r n t, transparent p (as_Attestation core r n t) (as_Attestation svc r n t))
  /\ transparent p (as_IMAMeasurements core) (as_IMAMeasurements svc)
  /\ (forall n, transparent p (as_AzureAttestationToken core n) (as_AzureAttestationToken svc n)).
Proof. intros svc p. split_and!; intros; (eapply (transparent_comp fst fst); [|layer]; layer). Qed.

(** And that of the manager, through the three layers around it. *)
Theorem manager_middleware_transparent `{!CallClock} {S} (core : managerSvc S) :
  let svc := managerNewService core in
  let p (x : S * logger * meters * list string) := x.1.1.1 in
  (forall req, transparent p (mv_CreateVM core req) (mv_CreateVM svc req))
  /\ (forall id, transparent p (mv_RemoveVM core id) (mv_RemoveVM svc id))
  /\ (forall id, transparent p (mv_FetchAttestationPolicy core id) (mv_FetchAttestationPolicy svc id))
  /\ transparent p (mv_ReturnCVMInfo core) (mv_ReturnCVMInfo svc)
  /\ transparent p (mv_Shutdown core) (mv_Shutdown svc).
Proof.
  intros svc p. split_and!; intros; (eapply (transparent_comp (fun x => x.1.1) fst); [|layer];
    eapply (transparent_comp fst fst); [|layer]; layer).
Qed.

(** The counters are exact: over any calls, each method has been counted as often as it was
    called. *)
Theorem counters_exact `{!CallClock} {S} (core : agentSvc S) (cs : list agentCall) (s : S) (lg : logger) (mt : meters)
    (method : string) :
  default 0 (mt_count (snd (foldl (runCall (agentNewService core)) (s, lg, mt) cs)) !! method)
  = default 0 (mt_count mt !! method) + callsOf method cs.
Proof.
  unfold callsOf. revert s lg mt; induction cs as [|c cs IH]; intros s lg mt; cbn [foldl]; [unfold len; cbn [List.filter length snd]; lia|].
  pose proof (runCall_count (agentLogging core) (s, lg) mt c method) as Hc. fold (agentNewService core) in Hc.
  change (agentMetrics (agentLogging core)) with (agentNewService core) in Hc.
  destruct (runCall (agentNewService core) (s, lg, mt) c) as [[s' lg'] mt']. rewrite IH. cbn [snd] in Hc. rewrite Hc.
  cbn [List.filter]. destruct (bool_decide (methodOf c = method)); unfold len; cbn [length]; lia.
Qed.

(** The log holds no data.  Uploads, results, evidence and tokens, and what was asked, leave
    the same records in two services whenever the outcome is the same error or none. *)
Theorem logs_carry_no_data `{!CallClock} {S1 S2} (svc1 : agentSvc S1) (svc2 : agentSvc S2) (s1 : S1) (s2 : S2) (lg : logger) :
  (forall c1 c2 a1 a2, fst (as_Algo svc1 c1 a1 s1) = fst (as_Algo svc2 c2 a2 s2) ->
     snd (snd (as_Algo (agentLogging svc1) c1 a1 (s1, lg))) = snd (snd (as_Algo (agentLogging svc2) c2 a2 (s2, lg))))
  /\ (forall c1 c2 d1 d2, fst (as_Data svc1 c1 d1 s1) = fst (as_Data svc2 c2 d2 s2) ->
     snd (snd (as_Data (agentLogging svc1) c1 d1 (s1, lg))) = snd (snd (as_Data (agentLogging svc2) c2 d2 (s2, lg))))
  /\ (forall c1 c2, errOf (fst (as_Result svc1 c1 s1)) = errOf (fst (as_Result svc2 c2 s2)) ->
     snd (snd (as_Result (agentLogging svc1) c1 (s1, lg))) = snd (snd (as_Result (agentLogging svc2) c2 (s2, lg))))
  /\ (forall r1 n1 t1 r2 n2 t2, errOf (fst (as_Attestation svc1 r1 n1 t1 s1)) = errOf (fst (as_Attestation svc2 r2 n2 t2 s2)) ->
     snd (snd (as_Attestation (agentLogging svc1) r1 n1 t1 (s1, lg)))
     = snd (snd (as_Attestation (agentLogging svc2) r2 n2 t2 (s2, lg))))
  /\ (forall n1 n2, errOf (fst (as_AzureAttestationToken svc1 n1 s1)) = errOf (fst (as_AzureAttestationToken svc2 n2 s2)) ->
     snd (snd (as_AzureAttestationToken (agentLogging svc1) n1 (s1, lg)))
     = snd (snd (as_AzureAttestationToken (agentLogging svc2) n2 (s2, lg)))).
Proof.
  split_and!; intros *; cbn [agentLogging as_Algo as_Data as_Result as_Attestation as_AzureAttestationToken logged];
    repeat match goal with |- context [let '(_, _) := ?x in _] => destruct x end; cbn; intros ->; done.
Qed.
